(* ===== verification/_CoqProject ===== *)
-Q . S2P
Prelude.v
Bytes.v
Shared.v
Memory.v
CatalogCommon.v
SlottedPage.v
SplitFacts.v
NodeFacts.v
Leaf.v
LeafFacts.v
LeafSplit.v
Inter.v
InterFacts.v
InterSplit.v
Fsm.v
BTree.v
BTreeInv.v
BTreeDescent.v
BTreeLookup.v
BTreeUpdate.v
BTreeInsert.v
BTreeTree.v
BTreeUnique.v
PageTheorems.v
BTreeTheorems.v
AccessTypes.v
DataChunk.v
KeyEncoder.v
Index.v
IndexTheorems.v
Pax.v
ChunkUtils.v
Arena.v
Undo.v
Redo.v
Txn.v
Table.v
HeapFacts.v
UndoFacts.v
Mvcc.v
TableFacts.v
CommitFacts.v
TableTheorems.v
StorageTheorems.v
Locks.v
CommitLatch.v
BufferPool.v
BufferPoolFacts.v
BufferPoolTheorems.v
Disk.v
DiskTheorems.v
DiskLiveness.v
DiskOpen.v
DiskSync.v
DiskOpenTheorems.v
Builder.v
BuilderTheorems.v
CatalogChunks.v
CatalogStore.v
CatalogRows.v
CatalogMonad.v
DatabaseCatalog.v
Catalog.v
EngineFacts.v
CatalogDemo.v
CatalogTheorems.v
DatabasesTheorems.v
TablesTheorems.v
CatalogIndexTheorems.v
DeleteTheorems.v
SessionTheorems.v
Print.v
PrintTheorems.v
Display.v
Main.v
MainTheorems.v
Errors.v
