(* ===== verification/Prelude.v ===== *)
(** * DB7: a verification development

    DB7 (src/) is a relational storage engine in C++: tables of rows in PAX
    pages with multi-version concurrency control, B-link tree indexes, a buffer
    pool over an io_uring disk scheduler, and a transactional catalog kept in
    tables of its own.  This library translates these parts to functions on
    explicit states, and proves what they promise to each other.

    ** The program and the files that model it

    The parts, from the bottom; paths are under src/include/ and src/src/.

    - Machine values.  [Bytes]: byte strings, little- and big-endian integers,
      [memcmp].  [Memory]: byte-addressed memory, for pages, chunks and the
      heap.  [Shared]: alignment, byte swap, hashes, [TupleId],
      [PageIdentifier] (shared/, storage/storage_common.hpp).  An n-bit integer
      is a [Z] with [wrap] written where the code wraps or narrows.
    - Index pages (access/index/layouts/varlen/).  [SlottedPage]: slots and heap of a
      page; [Leaf] and [Inter]: every operation of the two layouts, on bytes.
      [NodeFacts] relates a page to the list of its entries through the class
      [NodeFormat], with the two layouts as instances; [LeafFacts],
      [LeafSplit], [InterFacts], [InterSplit] show that each operation
      implements one on lists; [PageTheorems].
    - B-link tree (access/index/btree.hpp).  [BTree]: insertion with splits,
      separator propagation and root creation, unique insertion, deletion,
      lookup, over a store of pages; the key a propagation carries is a
      reference ([KeyRef]), which may be to a buffer that was freed.  [BTreeInv]: levels of right-linked
      nodes with fences; [BTreeDescent], [BTreeLookup], [BTreeUpdate],
      [BTreeInsert], [BTreeTree], [BTreeUnique]: the proofs; [BTreeTheorems].
    - Keys and indexes (access/key_encoder.hpp and the public methods of btree.hpp).
      [KeyEncoder], [Index], [IndexTheorems]: a tree refines a list of rows
      with tuple ids.
    - Schemas and chunks (access/).  [AccessTypes], [DataChunk]; catalog
      identifiers in [CatalogCommon].
    - Table pages (storage/layouts/pax.cpp, access/chunk_utils.hpp).  [Pax],
      [ChunkUtils], [StorageTheorems].
    - Versions and transactions (storage/undo_buffer.hpp, redo_buffer.hpp,
      storage/mvcc/, shared/arena/, transaction/, access/table.cpp).
      [Arena], [Undo], [Redo], [Txn], [Table] on one heap of bytes, where undo
      records and version arrays are aliased by address.  [HeapFacts]: the
      separation invariant of the heap; [Mvcc]: the history of a row and what a
      snapshot reads; [UndoFacts], [TableFacts], [CommitFacts],
      [TableTheorems].
    - Concurrency.  [Locks] (shared/locks/adaptive_version_lock.hpp,
      shared/thread_local_util.hpp), [CommitLatch]
      (transaction_manager.cpp), [BufferPool] (storage/buffer_pool/,
      storage/page.hpp) are machines whose steps are the atomic operations
      of threads; theorems hold after every schedule.
    - Disk (storage/disk_manager/).  [Disk]: the asynchronous manager and the
      scheduler; [DiskOpen]: opening a directory; [DiskSync]: the synchronous
      manager; [DiskTheorems], [DiskLiveness], [DiskOpenTheorems]; [Fsm]: the
      free-space counters (storage/fsm/).
    - Catalog (catalog/).  [Builder]: the schemas, tables and trees;
      [CatalogStore]: the class of calls a catalog makes, and the engine that
      implements it with [Table] and [Index] for any number of databases, which
      share the tables and the files of the trees; [CatalogMonad]: the state
      monad of an operation; [DatabaseCatalog]: the operations of the catalog of
      a database; [Catalog]: the catalog of databases.  [CatalogChunks]: a row
      written to a chunk is what the keys read; [EngineFacts]: what an index of
      a database holds and what an insertion does to it and to the others;
      [CatalogRows]: the rows of its tables, stored and found by tuple id;
      [CatalogDemo]: a small engine for the examples; [BuilderTheorems],
      [CatalogTheorems], [DatabasesTheorems], [TablesTheorems],
      [CatalogIndexTheorems], [DeleteTheorems], [SessionTheorems].
    - Printing.  [Print]: the output stream as a string with its width and
      fill, [DataChunk::Print], [TablePrint] ([Table::Select] and [PrintPage]),
      [PaxPrint], and [Printer] (debug/printer.cpp); [Display]: the
      [Display] and [Select] methods of the catalogs; [PrintTheorems].
    - The program (main.cpp).  [Main]: the body of [main] over the engine, and
      the generator of its keys; [MainTheorems].
    - Errors (shared/error/).  [Errors]: codes, data and exceptions, with the
      operator that prints them.

    A part calls the ones above it in this list.  A computation of the C++ code is an
    [outcome] (below): a value, an aborting assertion, an exception, or an
    access outside the object at hand, whose behaviour C++ leaves undefined.

    ** What the theorems show

    - A page operation returns and acts on the abstract list: search, insert,
      delete, split (the halves always have room for what they receive).
    - A tree operation keeps the B-link invariant and acts on the sorted list
      of keys; an index acts on rows; the order of keys is that of rows.  An
      insertion that splits a node between the leaves and the root reads a
      separator that was freed: the theorems on insertion say when
      ([separator_lost]) and what holds otherwise.  Unique insertion asks about every tuple of an equal row, in whatever
      leaf.
    - A table operation keeps the heap invariant and extends the history of its
      row, or refuses; a reader sees its snapshot, and goes on seeing it
      whatever others do; commit stamps exactly its own records when they are
      those of updates.  The iterator of the undo buffer reads outside the
      records of INSERT and DELETE: [commit_correct] assumes that it reads
      zero there, and [commit_insert_record] shows what depends on it.
    - Cells of a table page are disjoint, in bounds and aligned; chunks and
      deltas round-trip.
    - The page latch excludes writers, and a validated optimistic section saw no
      write; a transaction begins after the commits below its start time are
      stamped; pins count their holders, and an undisturbed [Pin] ends; a disk
      task is neither lost nor repeated.  When the device and the scheduler take
      turns and submissions succeed, either every task is signalled once, or one
      whose request can transfer less than a page, such as a page past the end of
      its file, aborts the program.  A manager that opens a directory
      finds the tables of an earlier one.
    - The catalog schemas fit the tables and indexes made of them; namespaces,
      databases, tables and indexes with their columns are entered in every index of
      their rows, and nothing else changes in the other indexes; a name or an oid
      that conflicts leaves the entries made before it; a namespace is
      found when it is there, in particular by the transaction that created it,
      through every layer from the row to the answer; the deletion of
      a namespace or a database puts a version on top of its row, or is refused,
      and leaves the entries of the index; who gets the lock, and what happens
      to the others.
    - [Table::Select] prints the row of the reader's snapshot; [PrintPage]
      prints columns in the order of a hash map.  The program runs to its end over
      memory that is zero, for one order of the columns and idle threads, and does
      not over memory that is not.

    Theorems whose names end in [_wraps], [_overflow], [_twice], [_race],
    [_refused], [_unsorted], [_freed_reached], [_stalls], [_needs_cleared_memory]
    or [_never_released] show behaviour that the code should not have.

    ** Bounds and fuel

    The pages of a tree are bounded: a node that is not a leaf has two children
    or more, so a tree in a file of [BUFFER_POOL_PAGE_NUM] pages has at most
    seventeen levels, and an insertion takes at most eighteen new pages (one for
    each level it splits, one for a new root).  The theorems on indexes and
    catalogs ask for that many free pages for each entry they make and prove
    the rest.

    No insertion splits a node of level 1 while that node is the root or has room
    for one more separator; an index asks for this room for each entry to come
    ([level1_room], in [index_room]).  A node takes 50 separators of any keys,
    so an empty index has the room of 50 entries ([new_index_room]).  A split of
    a node of level 1 below a root is where the freed separator is read, so a
    tree that insertions alone have made has three levels at most:
    any 7813 keys of 128 bytes, whatever their order, get there
    ([separator_freed_reached]).

    Loops that are not structural take fuel, and a theorem shows that what the
    definitions pass is enough: a binary search takes the number of slots, a
    walk of the tree the number of its pages, a version chain the number of
    8-byte words of the allocated heap, the stamping loop 103 times the number of
    segments (a segment of 4096 bytes holds at most 102 records of 40).  The
    retry loops around a compare-and-swap have 100 tries and a parameter for
    what other threads do before each; the theorems on tables take no
    interference, and the first try ends the loop.  The machines have no fuel: their
    schedules are the quantified sequences of steps.

    ** Parameters

    Code outside the repository's own: utf8proc, io_uring, the file system, the
    concurrent queue, [std::unordered_map]'s iteration order, the initial bytes
    of allocations.  Their documented behaviour is stated where it is used,
    and examples instantiate it.  What a completion of the ring transfers is
    such a parameter ([IoResults]); the example of [scheduler_completes] takes
    what the file has of the page.  That [io_uring_submit] succeeds is a hypothesis of
    its own, since the code ignores its result ([failed_submission_stalls]).

    ** Not modelled

    - The test drivers, and the functions of main.cpp that nothing calls
      ([populate_table], [test_buffer_pool], [run_parallel]): they measure
      threads or write a file.
    - inspect.hpp, which declares functions that no file defines; the printers
      of tree pages and [DeferredActionManager], whose bodies are empty; the
      concurrent queue under include/third_party.
    - The destructors of catalogs, tables and buffers, and the failure to open a
      file in the constructors of tables and trees: files open, pages are there.
    - The log manager does not exist in the code; garbage collection of
      versions and of deleted keys does not either.
    - Latching inside the tree: the operations of a tree run alone.  Memory
      orders weaker than sequential consistency.

    ** Where it could be extended

    The creation of constraints and the renamings are definitions of
    [DatabaseCatalog] and [Catalog]; what they do to every index of the catalog
    is not stated, as it is for namespaces, databases, tables and indexes.  Sessions of several operations,
    after the one of [SessionTheorems].  Concurrent descents of the tree under
    the optimistic sections of [Locks] would need a machine whose steps are
    the reads of a node, as those of [BufferPool] are. *)

From stdpp Require Export base tactics list gmap numbers strings sorting.
From Stdlib Require Export ZArith Lia.

#[export] Set Default Goal Selector "!".

Declare Scope db7_scope.
Delimit Scope db7_scope with db7.
Open Scope Z_scope.

(** ** Outcomes of a C++ computation

    [Ret]: normal return; [AssertFail]: a [DB7_ASSERT] (or
    [DB7_UNREACHABLE]) fired, which aborts the process since no build mode of
    the Makefile defines [NDEBUG]; [Throw]: a C++ exception; [Undefined]: an
    access outside the object the code works on (the behaviour of the C++
    program is undefined there);
    [OutOfFuel]: the fuel of a loop model ran out (theorems show that the fuel
    the definitions pass is enough). *)
Inductive outcome (A : Type) : Type :=
| Ret (a : A)
| AssertFail (msg : string)
| Throw (what : string)
| Undefined (what : string)
| OutOfFuel.
Arguments Ret {A} a.
Arguments AssertFail {A} msg.
Arguments Throw {A} what.
Arguments Undefined {A} what.
Arguments OutOfFuel {A}.

#[export] Instance outcome_ret : MRet outcome := fun A a => Ret a.
#[export] Instance outcome_bind : MBind outcome := fun A B f m =>
  match m with
  | Ret a => f a
  | AssertFail msg => AssertFail msg
  | Throw what => Throw what
  | Undefined what => Undefined what
  | OutOfFuel => OutOfFuel
  end.

(** [DB7_ASSERT(expr, message)]. *)
Definition DB7_ASSERT (expr : bool) (message : string) : outcome unit :=
  if expr then Ret tt else AssertFail message.

(** A write of [n] bytes at offset [off] of an object of [size] bytes. *)
Definition in_bounds (off n size : Z) (what : string) : outcome unit :=
  if (0 <=? off) && (off + n <=? size) then Ret tt else Undefined what.

(** Did the computation return normally? *)
Definition returns {A} (m : outcome A) : bool :=
  match m with Ret _ => true | _ => false end.

Lemma bind_Ret {A B} (a : A) (f : A → outcome B) : (Ret a ≫= f) = f a.
Proof. done. Qed.

Lemma bind_inv {A B} (m : outcome A) (f : A → outcome B) b :
  (m ≫= f) = Ret b → ∃ a, m = Ret a ∧ f a = Ret b.
Proof. destruct m; cbn; intros; simplify_eq; eauto. Qed.

Lemma DB7_ASSERT_true b msg : b = true → DB7_ASSERT b msg = Ret tt.
Proof. by intros ->. Qed.

Lemma in_bounds_true off n size what :
  0 ≤ off → off + n ≤ size → in_bounds off n size what = Ret tt.
Proof.
  intros. unfold in_bounds.
  by rewrite (proj2 (Z.leb_le _ _)), (proj2 (Z.leb_le _ _)).
Qed.

Lemma DB7_ASSERT_inv b msg u : DB7_ASSERT b msg = Ret u → b = true.
Proof. destruct b; cbn; congruence. Qed.

(** Splits a hypothesis [m ≫= f = Ret b] into the returns of its parts. *)
Ltac invert_bind H :=
  let a := fresh "a" in let H1 := fresh "Hm" in
  apply bind_inv in H as (a & H1 & H).

(** ** Machine integers: a w-bit unsigned value is a [Z] in [0, 2^w) *)
Definition wrap (w z : Z) : Z := z mod 2 ^ w.

Abbreviation to_u8 := (wrap 8).
Abbreviation to_u16 := (wrap 16).
Abbreviation to_u32 := (wrap 32).
Abbreviation to_u64 := (wrap 64).

(** Two's complement reading of a w-bit pattern. *)
Definition to_signed (w z : Z) : Z :=
  let u := wrap w z in if u <? 2 ^ (w - 1) then u else u - 2 ^ w.

Abbreviation to_i32 := (to_signed 32).
Abbreviation to_i64 := (to_signed 64).

Definition UINT16_MAX : Z := 65535.
Definition UINT32_MAX : Z := 4294967295.

Lemma wrap_small w z : 0 ≤ z < 2 ^ w → wrap w z = z.
Proof. apply Z.mod_small. Qed.

Lemma wrap_range w z : 0 ≤ w → 0 ≤ wrap w z < 2 ^ w.
Proof. intros. apply Z.mod_pos_bound. lia. Qed.

Lemma wrap_wrap w z : wrap w (wrap w z) = wrap w z.
Proof. unfold wrap. apply Zmod_mod. Qed.

Create Rewrite HintDb db7.
#[export] Hint Rewrite @bind_Ret : db7.

(** Arithmetic on wrapped values: replace every [wrap] by its value when the
    argument is in range. *)
Ltac wrap_lia :=
  repeat match goal with
  | |- context [wrap ?w ?z] => rewrite (wrap_small w z) by lia
  end; try lia.

(** ** Lists *)

Definition zsum (l : list Z) : Z := foldr Z.add 0 l.

Lemma zsum_cons x l : zsum (x :: l) = x + zsum l.
Proof. done. Qed.

Lemma zsum_app l k : zsum (l ++ k) = zsum l + zsum k.
Proof. induction l; cbn [app]; rewrite ?zsum_cons; [done|lia]. Qed.

Lemma zsum_perm l k : l ≡ₚ k → zsum l = zsum k.
Proof. induction 1; rewrite ?zsum_cons; lia. Qed.

Lemma zsum_nonneg l : Forall (λ z, 0 ≤ z) l → 0 ≤ zsum l.
Proof. induction 1; rewrite ?zsum_cons; [done|lia]. Qed.

(** [R] between the elements at any two different positions. *)
Definition pairwise {A} (R : A → A → Prop) (l : list A) : Prop :=
  ∀ i j a b, i ≠ j → l !! i = Some a → l !! j = Some b → R a b.

Lemma pairwise_perm {A} (R : A → A → Prop) l k : l ≡ₚ k → pairwise R l → pairwise R k.
Proof.
  intros HP H i j a b Hij Ha Hb. symmetry in HP. apply Permutation_inj in HP as [_ (f & Hf & Hl)].
  rewrite Hl in Ha, Hb. apply (H (f i) (f j)); [|done..].
  intros E. by apply (inj f) in E.
Qed.

Lemma pairwise_cons {A} (R : A → A → Prop) `{!Symmetric R} x l :
  pairwise R (x :: l) ↔ Forall (R x) l ∧ pairwise R l.
Proof.
  split.
  - intros H. split.
    + apply Forall_lookup. intros i y Hy. by apply (H 0%nat (S i)).
    + intros i j a b Hij Ha Hb. apply (H (S i) (S j)); [congruence|done..].
  - intros [Hx H] [|i] [|j] a b Hij Ha Hb; cbn in *; simplify_eq; try done.
    + rewrite Forall_lookup in Hx. eauto.
    + rewrite Forall_lookup in Hx. symmetry. eauto.
    + apply (H i j); [congruence|done..].
Qed.

Lemma pairwise_take {A} (R : A → A → Prop) n l : pairwise R l → pairwise R (take n l).
Proof.
  intros H i j a b Hij Ha Hb. apply lookup_take_Some in Ha as [Ha _], Hb as [Hb _].
  by apply (H i j).
Qed.

Lemma pairwise_insert_middle {A} (R : A → A → Prop) `{!Symmetric R} n x l :
  Forall (R x) l → pairwise R l → pairwise R (take n l ++ x :: drop n l).
Proof.
  intros Hx H. apply (pairwise_perm _ (x :: l)).
  - rewrite <- Permutation_middle. by rewrite take_drop.
  - by apply pairwise_cons.
Qed.

Lemma StronglySorted_impl_in {A} (R S : A → A → Prop) l :
  (∀ x y, x ∈ l → y ∈ l → R x y → S x y) → StronglySorted R l → StronglySorted S l.
Proof.
  intros H. induction 1 as [|x l Hl IH HF]; constructor.
  - apply IH. intros; apply H; [by right..|done].
  - rewrite Forall_forall in HF |- *. intros y Hy. apply H; [by left|by right|auto].
Qed.

Lemma filter_all {A} (P : A → Prop) `{!∀ x, Decision (P x)} l : Forall P l → filter P l = l.
Proof. induction 1; [done|]. rewrite filter_cons_True by done. by f_equal. Qed.

Lemma filter_none {A} (P : A → Prop) `{!∀ x, Decision (P x)} l :
  Forall (λ x, ¬ P x) l → filter P l = [].
Proof. induction 1; [done|]. by rewrite filter_cons_False. Qed.

Lemma StronglySorted_app_intro {A} (R : A → A → Prop) l k :
  StronglySorted R l → StronglySorted R k → (∀ x y, x ∈ l → y ∈ k → R x y) →
  StronglySorted R (l ++ k).
Proof.
  intros Hl Hk H. induction Hl as [|x l Hl IH HF]; cbn; [done|]. constructor.
  - apply IH. intros; apply H; [by right|done].
  - apply Forall_app. split; [done|]. apply Forall_forall. intros; apply H; [by left|done].
Qed.

Lemma StronglySorted_app_elim {A} (R : A → A → Prop) l k :
  StronglySorted R (l ++ k) →
  StronglySorted R l ∧ StronglySorted R k ∧ (∀ x y, x ∈ l → y ∈ k → R x y).
Proof.
  induction l as [|x l IH]; cbn.
  - intros H. split_and!; [constructor|done|]. intros x y Hx. by apply not_elem_of_nil in Hx.
  - intros [H HF]%StronglySorted_inv. destruct (IH H) as (H1 & H2 & H3).
    apply Forall_app in HF as [HF1 HF2]. split_and!; [by constructor|done|].
    intros a b [->|Ha]%elem_of_cons Hb; [|by apply H3]. rewrite Forall_forall in HF2. auto.
Qed.

Lemma StronglySorted_filter {A} (R : A → A → Prop) (P : A → Prop) `{!∀ x, Decision (P x)} l :
  StronglySorted R l → StronglySorted R (filter P l).
Proof.
  induction 1 as [|x l Hl IH HF]; [constructor|]. rewrite filter_cons. case_decide; [|done].
  constructor; [done|]. rewrite Forall_forall in HF |- *.
  intros y [_ Hy]%list_elem_of_filter. auto.
Qed.

Lemma Forall_filter {A} (Q P : A → Prop) `{!∀ x, Decision (P x)} l : Forall Q l → Forall Q (filter P l).
Proof. rewrite !Forall_forall. intros HQ x [_ Hx]%list_elem_of_filter. auto. Qed.

Lemma filter_ext_in {A} (P Q : A → Prop) `{!∀ x, Decision (P x), !∀ x, Decision (Q x)} l :
  Forall (λ x, P x ↔ Q x) l → filter P l = filter Q l.
Proof.
  induction 1 as [|x l Hx _ IH]; [done|]. rewrite !filter_cons, IH.
  destruct (decide (P x)), (decide (Q x)); tauto.
Qed.

(** ** Strings *)

Lemma string_app_assoc (s1 s2 s3 : string) : ((s1 ++ s2) ++ s3 = s1 ++ (s2 ++ s3))%string.
Proof. induction s1 as [|c s1 IH]; [done|]. exact (f_equal (String c) IH). Qed.
