(* ===== verification/Bytes.v ===== *)
(** * Byte strings

    Byte strings are lists of [Z] in [0, 256).  This file holds the byte
    encodings of machine integers (little endian as the target stores them,
    big endian as the key encoder emits them), [memcmp] and the lexicographic
    order it computes. *)

From S2P Require Import Prelude.

Definition is_byte (b : Z) : Prop := 0 ≤ b < 256.

Definition bytes_ok (l : list Z) : Prop := Forall is_byte l.

#[export] Instance is_byte_dec b : Decision (is_byte b).
Proof. unfold is_byte. apply _. Defined.
#[export] Instance bytes_ok_dec l : Decision (bytes_ok l).
Proof. unfold bytes_ok. apply _. Defined.

(** ** Integer encodings *)

Fixpoint le_bytes (n : nat) (z : Z) : list Z :=
  match n with
  | O => []
  | S n => z mod 256 :: le_bytes n (z / 256)
  end.

Fixpoint le_val (l : list Z) : Z :=
  match l with
  | [] => 0
  | b :: l => b + 256 * le_val l
  end.

Definition be_bytes (n : nat) (z : Z) : list Z := reverse (le_bytes n z).
Definition be_val (l : list Z) : Z := le_val (reverse l).

Lemma length_le_bytes n z : length (le_bytes n z) = n.
Proof. revert z; induction n; intros; cbn; auto. Qed.

Lemma length_be_bytes n z : length (be_bytes n z) = n.
Proof. unfold be_bytes. by rewrite length_reverse, length_le_bytes. Qed.

Lemma le_bytes_ok n z : bytes_ok (le_bytes n z).
Proof.
  revert z; induction n; intros; cbn; constructor; [|apply IHn].
  apply Z.mod_pos_bound. lia.
Qed.

Lemma be_bytes_ok n z : bytes_ok (be_bytes n z).
Proof. apply Forall_reverse, le_bytes_ok. Qed.

Lemma pow256_succ n : 256 ^ Z.of_nat (S n) = 256 * 256 ^ Z.of_nat n.
Proof. rewrite Nat2Z.inj_succ, Z.pow_succ_r; lia. Qed.

Lemma pow256_pos n : 0 < 256 ^ Z.of_nat n.
Proof. apply Z.pow_pos_nonneg; lia. Qed.

Lemma le_val_le_bytes n z : le_val (le_bytes n z) = z mod 256 ^ Z.of_nat n.
Proof.
  revert z; induction n; intros; cbn [le_bytes le_val].
  - by rewrite Z.mod_1_r.
  - rewrite IHn, pow256_succ, Z.rem_mul_r; [lia..|].
    pose proof (pow256_pos n). lia.
Qed.

Lemma le_val_range l : bytes_ok l → 0 ≤ le_val l < 256 ^ Z.of_nat (length l).
Proof.
  induction 1 as [|b l Hb _ IH]; cbn [le_val length]; [cbn; lia|].
  rewrite pow256_succ. unfold is_byte in Hb. lia.
Qed.

Lemma le_bytes_le_val l : bytes_ok l → le_bytes (length l) (le_val l) = l.
Proof.
  induction 1 as [|b l Hb _ IH]; cbn [le_val length le_bytes]; [done|].
  unfold is_byte in Hb. f_equal.
  - rewrite Z.mul_comm, Z_mod_plus_full, Z.mod_small; lia.
  - rewrite Z.mul_comm, Z_div_plus_full, Z.div_small, Z.add_0_l by lia. done.
Qed.

Lemma be_val_be_bytes n z : be_val (be_bytes n z) = z mod 256 ^ Z.of_nat n.
Proof. unfold be_val, be_bytes. by rewrite reverse_involutive, le_val_le_bytes. Qed.

Lemma be_bytes_be_val l : bytes_ok l → be_bytes (length l) (be_val l) = l.
Proof.
  intros H. unfold be_bytes, be_val. rewrite <- (length_reverse l).
  rewrite le_bytes_le_val by (by apply Forall_reverse).
  apply reverse_involutive.
Qed.

Lemma le_bytes_app n m z :
  le_bytes (n + m) z = le_bytes n z ++ le_bytes m (z / 256 ^ Z.of_nat n).
Proof.
  revert z; induction n; intros; cbn [Nat.add le_bytes app].
  - by rewrite Z.div_1_r.
  - rewrite IHn, pow256_succ, Z.div_div; [done|lia|apply pow256_pos].
Qed.

(** Big endian: the most significant byte first. *)
Lemma be_bytes_S n z :
  be_bytes (S n) z = (z / 256 ^ Z.of_nat n) mod 256 :: be_bytes n z.
Proof.
  unfold be_bytes. replace (S n) with (n + 1)%nat by lia.
  by rewrite le_bytes_app, reverse_app.
Qed.

(** ** Lexicographic order *)

Fixpoint lex (a b : list Z) : comparison :=
  match a, b with
  | [], [] => Eq
  | [], _ => Lt
  | _, [] => Gt
  | x :: a, y :: b =>
      match x ?= y with Eq => lex a b | c => c end
  end.

Definition lex_lt (a b : list Z) : Prop := lex a b = Lt.
Definition lex_le (a b : list Z) : Prop := lex a b ≠ Gt.

#[export] Instance lex_lt_dec a b : Decision (lex_lt a b).
Proof. unfold lex_lt. apply _. Defined.

Lemma lex_refl a : lex a a = Eq.
Proof. induction a; cbn; [done|]. by rewrite Z.compare_refl. Qed.

Lemma lex_eq a b : lex a b = Eq ↔ a = b.
Proof.
  split; [|intros ->; apply lex_refl].
  revert b; induction a as [|x a IH]; intros [|y b]; cbn; try done.
  destruct (Z.compare_spec x y); try done. intros. f_equal; auto.
Qed.

Lemma lex_antisym a b : lex b a = CompOpp (lex a b).
Proof.
  revert b; induction a as [|x a IH]; intros [|y b]; cbn; try done.
  rewrite (Z.compare_antisym x y). destruct (x ?= y); cbn; auto.
Qed.

Lemma lex_gt a b : lex a b = Gt ↔ lex b a = Lt.
Proof. rewrite (lex_antisym a b). destruct (lex a b); cbn; split; congruence. Qed.

Lemma lex_lt_trans a b c : lex a b = Lt → lex b c = Lt → lex a c = Lt.
Proof.
  revert b c; induction a as [|x a IH]; intros [|y b] [|z c]; cbn; try done.
  destruct (Z.compare_spec x y), (Z.compare_spec y z); subst; try done.
  - rewrite Z.compare_refl. apply IH.
  - intros. by replace (y ?= z) with Lt by (symmetry; by apply Z.compare_lt_iff).
  - intros. by replace (x ?= z) with Lt by (symmetry; by apply Z.compare_lt_iff).
  - intros. by replace (x ?= z) with Lt by (symmetry; apply Z.compare_lt_iff; lia).
Qed.

#[export] Instance lex_lt_transitive : Transitive lex_lt.
Proof. intros a b c. apply lex_lt_trans. Qed.
#[export] Instance lex_lt_irreflexive : Irreflexive lex_lt.
Proof. intros a. unfold complement, lex_lt. by rewrite lex_refl. Qed.
#[export] Instance lex_lt_strict : StrictOrder lex_lt.
Proof. split; apply _. Qed.

Lemma lex_trichotomy a b : lex_lt a b ∨ a = b ∨ lex_lt b a.
Proof.
  unfold lex_lt. destruct (lex a b) eqn:E; auto.
  - apply lex_eq in E. auto.
  - apply lex_gt in E. auto.
Qed.

Lemma lex_le_lt_trans a b c : lex_le a b → lex_lt b c → lex_lt a c.
Proof.
  unfold lex_le. intros H1 H2. destruct (lex_trichotomy a b) as [H|[->|H]].
  - by transitivity b.
  - done.
  - apply lex_gt in H. done.
Qed.

Lemma lex_lt_le_trans a b c : lex_lt a b → lex_le b c → lex_lt a c.
Proof.
  unfold lex_le. intros H1 H2. destruct (lex_trichotomy b c) as [H|[->|H]].
  - by transitivity b.
  - done.
  - apply lex_gt in H. done.
Qed.

(** The comparison of two strings that differ only after a common prefix. *)
Lemma lex_app_same p a b : lex (p ++ a) (p ++ b) = lex a b.
Proof. induction p; cbn; [done|]. by rewrite Z.compare_refl. Qed.

(** For strings of equal length the suffixes matter only on a tie. *)
Lemma lex_app a b c d :
  length a = length c →
  lex (a ++ b) (c ++ d) = match lex a c with Eq => lex b d | o => o end.
Proof.
  revert c; induction a as [|x a IH]; intros [|y c]; cbn; try done.
  intros. destruct (x ?= y); auto.
Qed.

(** Big-endian byte strings of one width are ordered as the numbers. *)
Lemma lex_be_bytes n x y :
  0 ≤ x < 256 ^ Z.of_nat n → 0 ≤ y < 256 ^ Z.of_nat n →
  lex (be_bytes n x) (be_bytes n y) = (x ?= y).
Proof.
  revert x y; induction n; intros x y Hx Hy.
  - cbn in *. replace x with 0 by lia. by replace y with 0 by lia.
  - rewrite !be_bytes_S. cbn [lex]. rewrite pow256_succ in Hx, Hy.
    set (p := 256 ^ Z.of_nat n) in *. pose proof (pow256_pos n : 0 < p) as Hp.
    assert (Hmod : ∀ z, be_bytes n z = be_bytes n (z mod p)).
    { intros z. rewrite <- (be_bytes_be_val (be_bytes n z)) by apply be_bytes_ok.
      by rewrite length_be_bytes, be_val_be_bytes. }
    rewrite (Z.mod_small (x / p)), (Z.mod_small (y / p))
      by (split; [apply Z.div_pos; lia|apply Z.div_lt_upper_bound; lia]).
    rewrite (Hmod x), (Hmod y), IHn by (apply Z.mod_pos_bound; lia).
    pose proof (Z.div_mod x p). pose proof (Z.div_mod y p).
    pose proof (Z.mod_pos_bound x p). pose proof (Z.mod_pos_bound y p).
    destruct (Z.compare_spec (x / p) (y / p)) as [E|E|E].
    + rewrite E in *. destruct (Z.compare_spec (x mod p) (y mod p));
        symmetry; [apply Z.compare_eq_iff|apply Z.compare_lt_iff|apply Z.compare_gt_iff]; lia.
    + symmetry. apply Z.compare_lt_iff. nia.
    + symmetry. apply Z.compare_gt_iff. nia.
Qed.

(** ** [memcmp] *)

Definition sign_of (c : comparison) : Z :=
  match c with Lt => -1 | Eq => 0 | Gt => 1 end.

(** [memcmp(a, b, n)]: only the sign of the result is specified. *)
Definition memcmp (a b : list Z) (n : Z) : Z :=
  sign_of (lex (take (Z.to_nat n) a) (take (Z.to_nat n) b)).

Lemma sign_of_eq c : sign_of c = 0 ↔ c = Eq.
Proof. destruct c; cbn; split; (done || congruence). Qed.
Lemma sign_of_lt c : sign_of c < 0 ↔ c = Lt.
Proof. destruct c; cbn; split; (done || congruence || lia). Qed.
Lemma sign_of_gt c : 0 < sign_of c ↔ c = Gt.
Proof. destruct c; cbn; split; (done || congruence || lia). Qed.

Lemma lex_take_min a b :
  lex a b =
  match lex (take (length a `min` length b) a) (take (length a `min` length b) b) with
  | Eq => (length a ?= length b)%nat
  | c => c
  end.
Proof.
  revert b; induction a as [|x a IH]; intros [|y b]; cbn; try done.
  rewrite IH. by destruct (x ?= y).
Qed.

(** Strings neither of which is a prefix of the other are ordered by what
    precedes any suffix. *)
Lemma lex_app_not_prefix a b s t :
  ¬ a `prefix_of` b → ¬ b `prefix_of` a → lex (a ++ s) (b ++ t) = lex a b.
Proof.
  revert b; induction a as [|x a IH]; intros [|y b] Hab Hba.
  - destruct Hab. apply prefix_nil.
  - destruct Hab. apply prefix_nil.
  - destruct Hba. apply prefix_nil.
  - cbn. destruct (Z.compare_spec x y) as [->|?|?]; [|done..].
    apply IH; intros ?; [apply Hab|apply Hba]; by apply prefix_cons.
Qed.

(** ** Prefix-free codes

    What the key encoder promises to the index: no code is a proper prefix of
    another one. *)
Class PrefixFree (C : list Z → Prop) : Prop :=
  prefix_free a b : C a → C b → a `prefix_of` b → a = b.

Lemma lex_app_code C `{!PrefixFree C} a b s t :
  C a → C b → lex (a ++ s) (b ++ t) = match lex a b with Eq => lex s t | c => c end.
Proof.
  intros Ha Hb. destruct (decide (a = b)) as [->|Hne].
  - by rewrite lex_app_same, lex_refl.
  - rewrite lex_app_not_prefix.
    + destruct (lex a b) eqn:E; [|done..]. by apply lex_eq in E.
    + intros ?; apply Hne; by apply prefix_free.
    + intros ?; apply Hne; symmetry; by apply prefix_free.
Qed.

Lemma sign_of_inj c d : sign_of c = sign_of d → c = d.
Proof. by destruct c, d. Qed.
