(* ===== verification/Shared.v ===== *)
(** * Shared utilities

    The pure helpers of [src/include/shared/] (alignment, byte swapping,
    hashing) and the two packed identifiers every component passes around:
    [TupleId] ([shared/models/tuple_id.hpp]) and [PageIdentifier]
    ([storage/storage_common.hpp]). *)

From S2P Require Import Prelude Bytes.

(** ** align_util.hpp *)

(** [~x] on [uintptr_t] / [size_t]. *)
Definition not64 (x : Z) : Z := 2 ^ 64 - 1 - x.

Definition AlignUp (addr alignment : Z) : Z :=
  Z.land (to_u64 (addr + alignment - 1)) (not64 (to_u64 (alignment - 1))).

(** [AlignDown<T>]: [w] is the width of [T], to which the result is cut. *)
Definition AlignDown (w value alignment : Z) : Z :=
  wrap w (Z.land value (not64 (to_u64 (alignment - 1)))).

(** Masking with the complement of [2^k - 1] clears the low [k] bits. *)
Lemma land_not64_pow2 v k :
  0 ≤ k < 64 → 0 ≤ v < 2 ^ 64 →
  Z.land v (not64 (2 ^ k - 1)) = v - v mod 2 ^ k.
Proof.
  intros Hk Hv. assert (2 ^ k ≤ 2 ^ 64) by (apply Z.pow_le_mono_r; lia).
  assert (0 < 2 ^ k) by (apply Z.pow_pos_nonneg; lia).
  replace (not64 (2 ^ k - 1)) with (Z.land (Z.ones 64) (Z.lnot (Z.ones k))).
  2: { rewrite Z.land_comm, Z.land_ones by lia. unfold not64.
       rewrite Z.ones_equiv. unfold Z.lnot. symmetry.
       apply (Z.mod_unique _ _ (-1)); lia. }
  rewrite Z.land_assoc, Z.land_ones, (Z.mod_small v) by lia.
  rewrite <- Z.ldiff_land, Z.ldiff_ones_r by lia.
  rewrite Z.shiftl_mul_pow2, Z.shiftr_div_pow2 by lia.
  pose proof (Z.div_mod v (2 ^ k)). lia.
Qed.

Lemma pow2_u64 k : 0 ≤ k < 64 → 0 < 2 ^ k ∧ to_u64 (2 ^ k - 1) = 2 ^ k - 1.
Proof.
  intros. assert (0 < 2 ^ k) by (apply Z.pow_pos_nonneg; lia).
  assert (2 ^ k ≤ 2 ^ 64) by (apply Z.pow_le_mono_r; lia).
  split; [done|]. apply wrap_small. lia.
Qed.

Lemma AlignDown_pow2 w v k :
  0 ≤ k < 64 → 0 ≤ w ≤ 64 → 0 ≤ v < 2 ^ w →
  AlignDown w v (2 ^ k) = v - v mod 2 ^ k.
Proof.
  intros Hk Hw Hv. destruct (pow2_u64 k) as [H1 H2]; [lia|].
  assert (2 ^ w ≤ 2 ^ 64) by (apply Z.pow_le_mono_r; lia).
  unfold AlignDown. rewrite H2, land_not64_pow2 by lia.
  apply wrap_small. pose proof (Z.mod_pos_bound v (2 ^ k)).
  pose proof (Z.mod_le v (2 ^ k)). lia.
Qed.

(** The least multiple of [2^k] that is at least [addr]. *)
Lemma AlignUp_pow2 addr k :
  0 ≤ k < 64 → 0 ≤ addr → addr + 2 ^ k - 1 < 2 ^ 64 →
  AlignUp addr (2 ^ k) = (addr + 2 ^ k - 1) / 2 ^ k * 2 ^ k.
Proof.
  intros Hk Ha Hs. destruct (pow2_u64 k) as [H1 H2]; [lia|].
  unfold AlignUp. rewrite H2, (wrap_small 64), land_not64_pow2 by lia.
  pose proof (Z.div_mod (addr + 2 ^ k - 1) (2 ^ k)). lia.
Qed.

(** What a caller relies on: aligned, not below, and less than one step up. *)
Lemma AlignUp_spec addr k :
  0 ≤ k < 64 → 0 ≤ addr → addr + 2 ^ k - 1 < 2 ^ 64 →
  AlignUp addr (2 ^ k) mod 2 ^ k = 0 ∧ addr ≤ AlignUp addr (2 ^ k) < addr + 2 ^ k.
Proof.
  intros Hk Ha Hs. rewrite AlignUp_pow2 by done.
  destruct (pow2_u64 k) as [H1 H2]; [lia|].
  split; [apply Z_mod_mult|].
  pose proof (Z.div_mod (addr + 2 ^ k - 1) (2 ^ k)).
  pose proof (Z.mod_pos_bound (addr + 2 ^ k - 1) (2 ^ k)). lia.
Qed.

(** ** byte_utils.hpp *)

(** [ByteSwapIfLittleEndian<T>] with [n = sizeof(T)] on the little-endian
    target: [__builtin_bswap16/32/64], the identity for one byte. *)
Definition ByteSwapIfLittleEndian (n : nat) (val : Z) : Z := le_val (be_bytes n val).

Lemma le_bytes_ByteSwap n v : le_bytes n (ByteSwapIfLittleEndian n v) = be_bytes n v.
Proof.
  unfold ByteSwapIfLittleEndian. rewrite <- (length_be_bytes n v) at 1.
  apply le_bytes_le_val, be_bytes_ok.
Qed.

Lemma ByteSwap_le_val n l :
  bytes_ok l → length l = n → ByteSwapIfLittleEndian n (le_val l) = be_val l.
Proof.
  intros H <-. unfold ByteSwapIfLittleEndian, be_bytes, be_val.
  by rewrite le_bytes_le_val.
Qed.

(** ** hash_util.hpp *)

Definition murmurhash32 (data : Z) : Z :=
  let h := data in
  let h := Z.lxor h (Z.shiftr h 16) in
  let h := to_u32 (h * 0x85ebca6b) in
  let h := Z.lxor h (Z.shiftr h 13) in
  let h := to_u32 (h * 0xc2b2ae35) in
  let h := Z.lxor h (Z.shiftr h 16) in
  h.

Definition murmurhash64 (data : Z) : Z :=
  let h := data in
  let h := Z.lxor h (Z.shiftr h 33) in
  let h := to_u64 (h * 0xff51afd7ed558ccd) in
  let h := Z.lxor h (Z.shiftr h 33) in
  let h := to_u64 (h * 0xc4ceb9fe1a85ec53) in
  let h := Z.lxor h (Z.shiftr h 33) in
  h.

Lemma lxor_shiftr_range w s h :
  0 ≤ s → 0 ≤ w → 0 ≤ h < 2 ^ w → 0 ≤ Z.lxor h (Z.shiftr h s) < 2 ^ w.
Proof.
  intros Hs Hw Hh. split; [apply Z.lxor_nonneg; rewrite Z.shiftr_nonneg; lia|].
  rewrite <- (Z.mod_small h (2 ^ w)) by done. rewrite <- Z.land_ones by done.
  rewrite Z.shiftr_land.
  assert (H : Z.lxor (Z.land h (Z.ones w)) (Z.land (Z.shiftr h s) (Z.shiftr (Z.ones w) s))
            = Z.lxor (Z.land h (Z.ones w)) (Z.land (Z.shiftr h s) (Z.shiftr (Z.ones w) s)) mod 2 ^ w).
  { rewrite <- Z.land_ones by done. apply Z.bits_inj'. intros i Hi.
    rewrite !Z.land_spec, !Z.lxor_spec, !Z.land_spec, !Z.shiftr_spec by done.
    rewrite !Z.testbit_ones_nonneg by lia.
    destruct (Z.ltb_spec i w); cbn; [by rewrite !andb_true_r|].
    rewrite !andb_false_r. destruct (Z.ltb_spec (i + s) w); [lia|].
    by rewrite !andb_false_r. }
  rewrite H. apply Z.mod_pos_bound. lia.
Qed.

(** A right xor-shift by at least half the width is an involution. *)
Lemma xorshift_involutive w s h :
  0 ≤ s → w ≤ s + s → 0 ≤ w → 0 ≤ h < 2 ^ w →
  Z.lxor (Z.lxor h (Z.shiftr h s)) (Z.shiftr (Z.lxor h (Z.shiftr h s)) s) = h.
Proof.
  intros Hs Hw Hw0 Hh. rewrite Z.shiftr_lxor, Z.shiftr_shiftr by done.
  replace (Z.shiftr h (s + s)) with 0.
  2: { symmetry. rewrite Z.shiftr_div_pow2 by lia. apply Z.div_small.
       assert (2 ^ w ≤ 2 ^ (s + s)) by (apply Z.pow_le_mono_r; lia). lia. }
  by rewrite Z.lxor_0_r, Z.lxor_assoc, Z.lxor_nilpotent, Z.lxor_0_r.
Qed.

Lemma mul_unit_inj w a b x y :
  0 ≤ w → (a * b) mod 2 ^ w = 1 → 0 ≤ x < 2 ^ w → 0 ≤ y < 2 ^ w →
  wrap w (x * a) = wrap w (y * a) → x = y.
Proof.
  unfold wrap. intros Hw Hab Hx Hy H.
  assert (E : ∀ z, 0 ≤ z < 2 ^ w → ((z * a) mod 2 ^ w * b) mod 2 ^ w = z).
  { intros z Hz. rewrite Zmult_mod_idemp_l, <- Z.mul_assoc, <- Zmult_mod_idemp_r, Hab.
    rewrite Z.mul_1_r. by apply Z.mod_small. }
  rewrite <- (E x), <- (E y) by done. by rewrite H.
Qed.

(** ** tuple_id.hpp *)

Record TupleId := mkTupleId { value : Z }.

Definition TupleId_make (idx pagid : Z) : TupleId :=
  mkTupleId (Z.lor (Z.shiftl pagid 32) idx).
Definition GetIndex (t : TupleId) : Z := to_u32 (value t).
Definition GetPageId (t : TupleId) : Z := to_u32 (Z.shiftr (value t) 32).
Definition GetValue (t : TupleId) : Z := value t.
Definition INVALID_TID : TupleId := mkTupleId 0.

#[export] Instance TupleId_eq_dec : EqDecision TupleId.
Proof. solve_decision. Defined.

Lemma lor_shiftl_add hi lo k :
  0 ≤ k → 0 ≤ lo < 2 ^ k → Z.lor (Z.shiftl hi k) lo = hi * 2 ^ k + lo.
Proof.
  intros Hk Hlo. rewrite <- Z.lxor_lor, <- Z.add_nocarry_lxor.
  - by rewrite Z.shiftl_mul_pow2.
  - apply Z.bits_inj'. intros i Hi. rewrite Z.land_spec, Z.bits_0.
    rewrite Z.shiftl_spec by done. destruct (Z.ltb_spec i k).
    + by rewrite Z.testbit_neg_r by lia.
    + rewrite <- (Z.mod_small lo (2 ^ k)), Z.mod_pow2_bits_high by lia.
      apply andb_false_r.
  - apply Z.bits_inj'. intros i Hi. rewrite Z.land_spec, Z.bits_0.
    rewrite Z.shiftl_spec by done. destruct (Z.ltb_spec i k).
    + by rewrite Z.testbit_neg_r by lia.
    + rewrite <- (Z.mod_small lo (2 ^ k)), Z.mod_pow2_bits_high by lia.
      apply andb_false_r.
Qed.

Lemma TupleId_make_value idx pagid :
  0 ≤ idx < 2 ^ 32 → GetValue (TupleId_make idx pagid) = pagid * 2 ^ 32 + idx.
Proof. intros. cbn. by apply lor_shiftl_add. Qed.

Lemma TupleId_roundtrip idx pagid :
  0 ≤ idx < 2 ^ 32 → 0 ≤ pagid < 2 ^ 32 →
  GetIndex (TupleId_make idx pagid) = idx ∧ GetPageId (TupleId_make idx pagid) = pagid.
Proof.
  intros Hi Hp. unfold GetIndex, GetPageId.
  pose proof (TupleId_make_value idx pagid Hi) as E. cbn in E. cbn [value TupleId_make].
  rewrite E, Z.shiftr_div_pow2 by lia. unfold wrap. split.
  - by rewrite Z.add_comm, Z_mod_plus_full, Z.mod_small.
  - rewrite Z.div_add_l, (Z.div_small idx), Z.add_0_r, Z.mod_small; lia.
Qed.

(** ** storage_common.hpp *)

Definition DB7_PAGE_SIZE : Z := 8192.
Definition DB7_MAX_ROW_SIZE : Z := DB7_PAGE_SIZE / 10.
Definition BUFFER_POOL_PAGE_NUM : Z := 80000.
Definition BUFFER_POOL_PARTITION_NUM : Z := 128.
Definition IOURING_QUEUE_SIZE : Z := 512.

(** The union of a [(tbl_id, pid)] pair with [packed]: on the little-endian
    target [tbl_id] is the low half. *)
Record PageIdentifier := mkPageIdentifier { tbl_id : Z; pid : Z }.

Definition packed (p : PageIdentifier) : Z := tbl_id p + 2 ^ 32 * pid p.

(** [PageIdentifier(u64 packed)]. *)
Definition PageIdentifier_of_packed (x : Z) : PageIdentifier :=
  mkPageIdentifier (to_u32 x) (to_u32 (x / 2 ^ 32)).

(** [operator==] compares the packed words. *)
Definition PageIdentifier_eqb (a b : PageIdentifier) : bool := packed a =? packed b.

#[export] Instance PageIdentifier_eq_dec : EqDecision PageIdentifier.
Proof. solve_decision. Defined.
#[export] Instance PageIdentifier_countable : Countable PageIdentifier.
Proof.
  refine (inj_countable' (λ p, (tbl_id p, pid p)) (λ t, mkPageIdentifier t.1 t.2) _).
  by intros [].
Defined.

Definition PageIdentifier_ok (p : PageIdentifier) : Prop :=
  0 ≤ tbl_id p < 2 ^ 32 ∧ 0 ≤ pid p < 2 ^ 32.

Lemma packed_roundtrip p : PageIdentifier_ok p → PageIdentifier_of_packed (packed p) = p.
Proof.
  destruct p as [t q]; intros [Ht Hq]; cbn in Ht, Hq.
  unfold PageIdentifier_of_packed, packed; cbn [tbl_id pid].
  rewrite (Z.mul_comm (2 ^ 32)), Z_div_plus_full, Z.div_small by lia.
  rewrite Z.add_0_l, (wrap_small 32 q) by done. f_equal.
  unfold wrap. rewrite Z_mod_plus_full. by apply Z.mod_small.
Qed.

Lemma packed_inj a b :
  PageIdentifier_ok a → PageIdentifier_ok b → packed a = packed b → a = b.
Proof.
  intros Ha Hb H. rewrite <- (packed_roundtrip a), <- (packed_roundtrip b) by done.
  by rewrite H.
Qed.

Lemma PageIdentifier_eqb_spec a b :
  PageIdentifier_ok a → PageIdentifier_ok b → PageIdentifier_eqb a b = true ↔ a = b.
Proof.
  intros Ha Hb. unfold PageIdentifier_eqb. rewrite Z.eqb_eq.
  split; [by apply packed_inj|by intros ->].
Qed.
