(* ===== verification/Memory.v ===== *)
(** * Byte-addressed memory

    A page, a data chunk or an arena is a map from offsets to bytes.  The
    casts of the source ([reinterpret_cast<u16 *>(data + off)]) are loads and
    stores of little-endian byte strings, and [memcpy]/[memmove] copy byte
    strings.  Unwritten bytes read as 0 (pages are handed out by
    [BufferPool::Reserve] after a [memset] to 0). *)

From S2P Require Import Prelude Bytes.

Abbreviation mem := (gmap Z Z).

Definition rd (m : mem) (a : Z) : Z := default 0 (m !! a).

Fixpoint read_bytes (m : mem) (a : Z) (n : nat) : list Z :=
  match n with
  | O => []
  | S n => rd m a :: read_bytes m (a + 1) n
  end.

Fixpoint write_bytes (m : mem) (a : Z) (l : list Z) : mem :=
  match l with
  | [] => m
  | b :: l => write_bytes (<[a := b]> m) (a + 1) l
  end.

(** A load and a store of an [n]-byte little-endian integer. *)
Definition load (n : nat) (m : mem) (a : Z) : Z := le_val (read_bytes m a n).
Definition store (n : nat) (m : mem) (a v : Z) : mem := write_bytes m a (le_bytes n v).

(** [memcpy(dst, src, n)] / [memmove(dst, src, n)] inside one memory. *)
Definition memmove (m : mem) (dst src n : Z) : mem :=
  write_bytes m dst (read_bytes m src (Z.to_nat n)).

Lemma length_read_bytes m a n : length (read_bytes m a n) = n.
Proof. revert a; induction n; intros; cbn; auto. Qed.

Lemma rd_insert m a b x : rd (<[a := b]> m) x = if decide (a = x) then b else rd m x.
Proof. unfold rd. rewrite lookup_insert. by case_decide. Qed.

Lemma rd_write_out m a l x :
  x < a ∨ a + Z.of_nat (length l) ≤ x → rd (write_bytes m a l) x = rd m x.
Proof.
  revert m a; induction l as [|b l IH]; intros m a H; cbn in *; [done|].
  rewrite IH by lia. rewrite rd_insert, decide_False by lia. done.
Qed.

Lemma rd_write_in m a l (i : nat) :
  (i < length l)%nat → rd (write_bytes m a l) (a + Z.of_nat i) = l !!! i.
Proof.
  revert m a i; induction l as [|b l IH]; intros m a i Hi; cbn in *; [lia|].
  destruct i as [|i]; cbn.
  - rewrite rd_write_out by lia. rewrite rd_insert, decide_True by lia. done.
  - replace (a + Z.of_nat (S i)) with (a + 1 + Z.of_nat i) by lia.
    apply IH. lia.
Qed.

Lemma read_bytes_ext m m' a n :
  (∀ x, a ≤ x < a + Z.of_nat n → rd m x = rd m' x) →
  read_bytes m a n = read_bytes m' a n.
Proof.
  revert a; induction n; intros a H; cbn; [done|].
  f_equal; [apply H; lia|]. apply IHn. intros; apply H; lia.
Qed.

Lemma read_write_same m a l : read_bytes (write_bytes m a l) a (length l) = l.
Proof.
  revert m a; induction l as [|b l IH]; intros; cbn; [done|]. f_equal; [|apply IH].
  rewrite rd_write_out by lia. by rewrite rd_insert, decide_True.
Qed.

Lemma read_write_disj m a l b n :
  b + Z.of_nat n ≤ a ∨ a + Z.of_nat (length l) ≤ b →
  read_bytes (write_bytes m a l) b n = read_bytes m b n.
Proof. intros H. apply read_bytes_ext. intros. apply rd_write_out. lia. Qed.

Lemma read_bytes_app m a n k :
  read_bytes m a (n + k) = read_bytes m a n ++ read_bytes m (a + Z.of_nat n) k.
Proof.
  revert a; induction n; intros; cbn [Nat.add read_bytes app].
  - by rewrite Z.add_0_r.
  - rewrite IHn. do 3 f_equal. lia.
Qed.

Lemma write_bytes_app m a l k :
  write_bytes m a (l ++ k) = write_bytes (write_bytes m a l) (a + Z.of_nat (length l)) k.
Proof.
  revert m a; induction l; intros; cbn [app write_bytes length].
  - by rewrite Z.add_0_r.
  - rewrite IHl. f_equal. lia.
Qed.

Lemma lookup_read_bytes m a n (i : nat) :
  (i < n)%nat → read_bytes m a n !! i = Some (rd m (a + Z.of_nat i)).
Proof.
  revert a i; induction n as [|n IH]; intros a i Hi; [lia|]. destruct i as [|i]; cbn.
  - by rewrite Z.add_0_r.
  - rewrite IH by lia. do 2 f_equal. lia.
Qed.

Lemma rd_write_same_data m m' a l x :
  a ≤ x < a + Z.of_nat (length l) → rd (write_bytes m a l) x = rd (write_bytes m' a l) x.
Proof.
  intros Hx. replace x with (a + Z.of_nat (Z.to_nat (x - a))) by lia.
  by rewrite !rd_write_in by lia.
Qed.

(** A memory whose cells are bytes. *)
Definition mem_ok (m : mem) : Prop := ∀ a, is_byte (rd m a).

Lemma mem_ok_empty : mem_ok ∅.
Proof. intros a. unfold rd. rewrite lookup_empty. cbn. unfold is_byte. lia. Qed.

Lemma read_bytes_ok m a n : mem_ok m → bytes_ok (read_bytes m a n).
Proof. intros H. revert a; induction n; intros; constructor; [apply H|apply IHn]. Qed.

Lemma write_bytes_ok m a l : mem_ok m → bytes_ok l → mem_ok (write_bytes m a l).
Proof.
  intros Hm Hl. revert m a Hm; induction Hl as [|b l Hb _ IH]; intros; cbn; [done|].
  apply IH. intros x. rewrite rd_insert. by case_decide.
Qed.

Lemma load_range n m a : mem_ok m → 0 ≤ load n m a < 256 ^ Z.of_nat n.
Proof.
  intros H. pose proof (le_val_range _ (read_bytes_ok m a n H)) as R.
  by rewrite length_read_bytes in R.
Qed.

Lemma load_store_same n m a v : load n (store n m a v) a = v mod 256 ^ Z.of_nat n.
Proof.
  unfold load, store. pose proof (read_write_same m a (le_bytes n v)) as R.
  rewrite length_le_bytes in R. by rewrite R, le_val_le_bytes.
Qed.

Lemma load_store_disj n m a v k b :
  b + Z.of_nat k ≤ a ∨ a + Z.of_nat n ≤ b → load k (store n m a v) b = load k m b.
Proof. intros. unfold load, store. rewrite read_write_disj; [done|]. by rewrite length_le_bytes. Qed.

Lemma load_of_bytes n m a v :
  read_bytes m a n = le_bytes n v → load n m a = v mod 256 ^ Z.of_nat n.
Proof. unfold load. intros ->. apply le_val_le_bytes. Qed.

#[export] Hint Rewrite length_read_bytes length_le_bytes length_be_bytes : db7.
