(* ===== verification/CatalogCommon.v ===== *)
(** * catalog_common.hpp: the catalog's identifiers

    The enumerations of [src/include/catalog/catalog_common.hpp] with the
    integer values C++ assigns to them. *)

From S2P Require Import Prelude.

Definition INVALID_OID : Z := 0.
Definition INVALID_REL_OID : Z := 0.

(** [CatalogTableColCount]: the column counts the header declares. *)
Module CatalogTableColCount.
Definition DATABASE : Z := 2.
Definition NAMESPACE : Z := 2.
Definition CLASS : Z := 5.
Definition ATTRIBUTE : Z := 7.
Definition TYPE : Z := 6.
Definition CONSTRAINT : Z := 12.
Definition LANGUAGE : Z := 7.
Definition PROC : Z := 22.
End CatalogTableColCount.

Inductive CatalogTableOid : Type :=
| PG_DATABASES | PG_NAMESPACE | PG_CLASS | PG_INDEX | PG_ATTRIBUTE | PG_TYPE
| PG_CONSTRAINT | PG_LANGUAGE | PG_PROC | PG_VARLEN
| PG_INDEX_NAMESPACE_NSPOID | PG_INDEX_NAMESPACE_NSPNAME
| PG_INDEX_CLASS_RELOID | PG_INDEX_CLASS_RELNAME | PG_INDEX_CLASS_RELNAMESPACE
| PG_INDEX_INDEX_INDOID | PG_INDEX_INDEX_INDRELID
| PG_INDEX_ATTRIBUTE_ATTNUM | PG_INDEX_ATTRIBUTE_ATTRELID_ATTNAME
| PG_INDEX_TYPE_TYPOID | PG_INDEX_TYPE_TYPNAME | PG_INDEX_TYPE_TYPNAMESPACE
| PG_INDEX_CONSTRAINT_CONOID | PG_INDEX_CONSTRAINT_CONNAME
| PG_INDEX_CONSTRAINT_CONNAMESPACE | PG_INDEX_CONSTRAINT_CONRELID
| PG_INDEX_CONSTRAINT_CONINDID | PG_INDEX_CONSTRAINT_CONFRELID
| PG_INDEX_LANGUAGE_LANOID | PG_INDEX_LANGUAGE_LANNAME
| PG_INDEX_PROC_PROOID | PG_INDEX_PROC_PRONAME
| PG_INDEX_DATABASE_DATOID | PG_INDEX_DATABASE_DATNAME.

(** The enumerators in declaration order. *)
Definition CatalogTableOid_all : list CatalogTableOid :=
  [PG_DATABASES; PG_NAMESPACE; PG_CLASS; PG_INDEX; PG_ATTRIBUTE; PG_TYPE;
   PG_CONSTRAINT; PG_LANGUAGE; PG_PROC; PG_VARLEN;
   PG_INDEX_NAMESPACE_NSPOID; PG_INDEX_NAMESPACE_NSPNAME;
   PG_INDEX_CLASS_RELOID; PG_INDEX_CLASS_RELNAME; PG_INDEX_CLASS_RELNAMESPACE;
   PG_INDEX_INDEX_INDOID; PG_INDEX_INDEX_INDRELID;
   PG_INDEX_ATTRIBUTE_ATTNUM; PG_INDEX_ATTRIBUTE_ATTRELID_ATTNAME;
   PG_INDEX_TYPE_TYPOID; PG_INDEX_TYPE_TYPNAME; PG_INDEX_TYPE_TYPNAMESPACE;
   PG_INDEX_CONSTRAINT_CONOID; PG_INDEX_CONSTRAINT_CONNAME;
   PG_INDEX_CONSTRAINT_CONNAMESPACE; PG_INDEX_CONSTRAINT_CONRELID;
   PG_INDEX_CONSTRAINT_CONINDID; PG_INDEX_CONSTRAINT_CONFRELID;
   PG_INDEX_LANGUAGE_LANOID; PG_INDEX_LANGUAGE_LANNAME;
   PG_INDEX_PROC_PROOID; PG_INDEX_PROC_PRONAME;
   PG_INDEX_DATABASE_DATOID; PG_INDEX_DATABASE_DATNAME].

Definition CatalogTableOid_val (t : CatalogTableOid) : Z :=
  match t with
  | PG_DATABASES => 1 | PG_NAMESPACE => 2 | PG_CLASS => 3 | PG_INDEX => 4
  | PG_ATTRIBUTE => 5 | PG_TYPE => 6 | PG_CONSTRAINT => 7 | PG_LANGUAGE => 8
  | PG_PROC => 9 | PG_VARLEN => 10 | PG_INDEX_NAMESPACE_NSPOID => 11
  | PG_INDEX_NAMESPACE_NSPNAME => 12 | PG_INDEX_CLASS_RELOID => 13
  | PG_INDEX_CLASS_RELNAME => 14 | PG_INDEX_CLASS_RELNAMESPACE => 15
  | PG_INDEX_INDEX_INDOID => 16 | PG_INDEX_INDEX_INDRELID => 17
  | PG_INDEX_ATTRIBUTE_ATTNUM => 18 | PG_INDEX_ATTRIBUTE_ATTRELID_ATTNAME => 19
  | PG_INDEX_TYPE_TYPOID => 20 | PG_INDEX_TYPE_TYPNAME => 21
  | PG_INDEX_TYPE_TYPNAMESPACE => 22 | PG_INDEX_CONSTRAINT_CONOID => 23
  | PG_INDEX_CONSTRAINT_CONNAME => 24 | PG_INDEX_CONSTRAINT_CONNAMESPACE => 25
  | PG_INDEX_CONSTRAINT_CONRELID => 26 | PG_INDEX_CONSTRAINT_CONINDID => 27
  | PG_INDEX_CONSTRAINT_CONFRELID => 28 | PG_INDEX_LANGUAGE_LANOID => 29
  | PG_INDEX_LANGUAGE_LANNAME => 30 | PG_INDEX_PROC_PROOID => 31
  | PG_INDEX_PROC_PRONAME => 32 | PG_INDEX_DATABASE_DATOID => 33
  | PG_INDEX_DATABASE_DATNAME => 34
  end.

Definition CatalogTableOid_of_val (v : Z) : option CatalogTableOid :=
  CatalogTableOid_all !! Z.to_nat (v - 1).

Lemma CatalogTableOid_of_val_val t : CatalogTableOid_of_val (CatalogTableOid_val t) = Some t.
Proof. by destruct t. Qed.

#[export] Instance CatalogTableOid_val_inj : Inj (=) (=) CatalogTableOid_val.
Proof.
  intros t u H. apply (f_equal CatalogTableOid_of_val) in H.
  rewrite !CatalogTableOid_of_val_val in H. congruence.
Qed.
#[export] Instance CatalogTableOid_eq_dec : EqDecision CatalogTableOid :=
  inj_eq_dec CatalogTableOid_val.

Inductive CatalogColumnOid : Type :=
| DATOID | DATNAME
| NSPOID | NSPNAME
| RELOID | RELNAME | RELNAMESPACE | RELKIND | RELOPTIONS
| ATTNUM | ATTRELID | ATTNAME | ATTTYPID | ATTLEN | ATTNOTNULL
| INDOID | INDRELID | INDISUNIQUE | INDISPRIMARY | INDISEXCLUSION | INDIMMEDIATE
| INDISVALID | INDISREADY | INDISLIVE | IND_TYPE
| TYPOID | TYPNAME | TYPNAMESPACE | TYPLEN | TYPBYVAL | TYPTYPE
| CONOID | CONNAME | CONNAMESPACE | CONTYPE | CONDEFERRABLE | CONDEFFERED
| CONVALIDATED | CONRELID | CONINDID | CONFRELID
| LANOID | LANNAME | LANISPL | LANPLTRUSTED | LANPLCALLFOID | LANINLINE | LANVALIDATOR
| PROOID | PRONAME | PRONAMESPACE | PROLANG | PROCOST | PROROWS | PROVARIADIC
| PROISAGG | PROISWINDOW | PROISSTRICT | PRORETSET | PROVOLATILE | PRONARGS
| PRONARGDEFAULTS | PRORETTYPE | PROARGTYPES | PROALLARGTYPES | PROARGMODES
| PROARGDEFAULTS | PROARGNAMES | PROSRC | PROCONFIG.

Definition CatalogColumnOid_all : list CatalogColumnOid :=
  [DATOID; DATNAME;
   NSPOID; NSPNAME;
   RELOID; RELNAME; RELNAMESPACE; RELKIND; RELOPTIONS;
   ATTNUM; ATTRELID; ATTNAME; ATTTYPID; ATTLEN; ATTNOTNULL;
   INDOID; INDRELID; INDISUNIQUE; INDISPRIMARY; INDISEXCLUSION; INDIMMEDIATE;
   INDISVALID; INDISREADY; INDISLIVE; IND_TYPE;
   TYPOID; TYPNAME; TYPNAMESPACE; TYPLEN; TYPBYVAL; TYPTYPE;
   CONOID; CONNAME; CONNAMESPACE; CONTYPE; CONDEFERRABLE; CONDEFFERED;
   CONVALIDATED; CONRELID; CONINDID; CONFRELID;
   LANOID; LANNAME; LANISPL; LANPLTRUSTED; LANPLCALLFOID; LANINLINE; LANVALIDATOR;
   PROOID; PRONAME; PRONAMESPACE; PROLANG; PROCOST; PROROWS; PROVARIADIC;
   PROISAGG; PROISWINDOW; PROISSTRICT; PRORETSET; PROVOLATILE; PRONARGS;
   PRONARGDEFAULTS; PRORETTYPE; PROARGTYPES; PROALLARGTYPES; PROARGMODES;
   PROARGDEFAULTS; PROARGNAMES; PROSRC; PROCONFIG].

Definition CatalogColumnOid_val (c : CatalogColumnOid) : Z :=
  match c with
  | DATOID => 1 | DATNAME => 2 | NSPOID => 3 | NSPNAME => 4 | RELOID => 5
  | RELNAME => 6 | RELNAMESPACE => 7 | RELKIND => 8 | RELOPTIONS => 9 | ATTNUM => 10
  | ATTRELID => 11 | ATTNAME => 12 | ATTTYPID => 13 | ATTLEN => 14 | ATTNOTNULL => 15
  | INDOID => 16 | INDRELID => 17 | INDISUNIQUE => 18 | INDISPRIMARY => 19
  | INDISEXCLUSION => 20 | INDIMMEDIATE => 21 | INDISVALID => 22 | INDISREADY => 23
  | INDISLIVE => 24 | IND_TYPE => 25 | TYPOID => 26 | TYPNAME => 27
  | TYPNAMESPACE => 28 | TYPLEN => 29 | TYPBYVAL => 30 | TYPTYPE => 31 | CONOID => 32
  | CONNAME => 33 | CONNAMESPACE => 34 | CONTYPE => 35 | CONDEFERRABLE => 36
  | CONDEFFERED => 37 | CONVALIDATED => 38 | CONRELID => 39 | CONINDID => 40
  | CONFRELID => 41 | LANOID => 42 | LANNAME => 43 | LANISPL => 44 | LANPLTRUSTED => 45
  | LANPLCALLFOID => 46 | LANINLINE => 47 | LANVALIDATOR => 48 | PROOID => 49
  | PRONAME => 50 | PRONAMESPACE => 51 | PROLANG => 52 | PROCOST => 53 | PROROWS => 54
  | PROVARIADIC => 55 | PROISAGG => 56 | PROISWINDOW => 57 | PROISSTRICT => 58
  | PRORETSET => 59 | PROVOLATILE => 60 | PRONARGS => 61 | PRONARGDEFAULTS => 62
  | PRORETTYPE => 63 | PROARGTYPES => 64 | PROALLARGTYPES => 65 | PROARGMODES => 66
  | PROARGDEFAULTS => 67 | PROARGNAMES => 68 | PROSRC => 69 | PROCONFIG => 70
  end.

Definition CatalogColumnOid_of_val (v : Z) : option CatalogColumnOid :=
  CatalogColumnOid_all !! Z.to_nat (v - 1).

Lemma CatalogColumnOid_of_val_val c : CatalogColumnOid_of_val (CatalogColumnOid_val c) = Some c.
Proof. by destruct c. Qed.

#[export] Instance CatalogColumnOid_val_inj : Inj (=) (=) CatalogColumnOid_val.
Proof.
  intros c d H. apply (f_equal CatalogColumnOid_of_val) in H.
  rewrite !CatalogColumnOid_of_val_val in H. congruence.
Qed.
#[export] Instance CatalogColumnOid_eq_dec : EqDecision CatalogColumnOid :=
  inj_eq_dec CatalogColumnOid_val.

Inductive RelKind : Type :=
| REGULAR_TABLE | INDEX | SEQUENCE | VIEW | MATERIALIZED_VIEW | COMPOSITE_TYPE
| TOAST_TABLE | FOREIGN_TABLE.

(** [ToChar(RelKind)]: the character code of the enumerator. *)
Definition RelKind_ToChar (k : RelKind) : Z :=
  match k with
  | REGULAR_TABLE => 114 (* r *)
  | INDEX => 105 (* i *)
  | SEQUENCE => 83 (* S *)
  | VIEW => 118 (* v *)
  | MATERIALIZED_VIEW => 109 (* m *)
  | COMPOSITE_TYPE => 99 (* c *)
  | TOAST_TABLE => 116 (* t *)
  | FOREIGN_TABLE => 102 (* f *)
  end.

Inductive IndexKind : Type := BTREE.
Definition IndexKind_val (k : IndexKind) : Z := match k with BTREE => 0 end.

Inductive ConType : Type :=
| CHECK | FOREIGN_KEY | NOT_NULL | PRIMARY_KEY | UNIQUE | CONSTRAINT_TRIGGER | EXCLUSION.

Definition ConType_ToChar (k : ConType) : Z :=
  match k with
  | CHECK => 99 (* c *)
  | FOREIGN_KEY => 102 (* f *)
  | NOT_NULL => 110 (* n *)
  | PRIMARY_KEY => 112 (* p *)
  | UNIQUE => 117 (* u *)
  | CONSTRAINT_TRIGGER => 116 (* t *)
  | EXCLUSION => 120 (* x *)
  end.

Record ConstraintProps := mkConstraintProps {
  name : list Z;
  ns_oid : Z;
  con_type : ConType;
  defferable : bool;
  deffered : bool;
  validated : bool;
  rel_oid : Z;
  ind_oid : Z;
  for_oid : Z
}.
