(* ===== verification/SlottedPage.v ===== *)
(** * The slotted page (varlen_layout_models.hpp)

    A B-tree node page is a [VarlenHeader] followed by an array of u16 slots
    growing upwards and a heap of entries growing downwards from the end of the
    page.  The header is a record; slots and heap share the byte memory [body],
    addressed by page offset, so that an overlap between them shows.

    The second half holds what [BtreeVarlenLayoutLeaf] and
    [BtreeVarlenLayoutIntermediate] repeat textually (heap offset computation,
    moving an entry, compaction), as functions of the size and alignment of the
    entry header, and the lemmas about them both layouts use. *)

From S2P Require Import Prelude Bytes Shared Memory.

Abbreviation Key := (list Z).
Definition key_len (key : Key) : Z := Z.of_nat (length key).

(** [DB7_ASSERT(key.data != nullptr)] and [DB7_ASSERT(key.len != 0)]. *)
Definition check_key (key : Key) : outcome unit :=
  DB7_ASSERT (negb (key_len key =? 0)) "invalid key".

Record VarlenHeader := mkVarlenHeader {
  vh_pid : Z;
  vh_rlink : Z;
  vh_count : Z;
  vh_max_val : Z;
  vh_level : Z;
  vh_heap_offset : Z
}.

Record page := mkPage { hdr : VarlenHeader; body : mem }.

(** [sizeof(VarlenHeader)]: [heap_offset] follows the 16 bytes of the base
    [BaseLyHeader]; the total is rounded to the alignment 4. *)
Definition header_size_ : Z := 20.
Definition UNDEFINED_PAGE : Z := UINT32_MAX.
Definition UNDEFINED_OFFSET : Z := UINT16_MAX.

Definition GetLevel (data : page) : Z := vh_level (hdr data).
Definition GetCount (data : page) : Z := vh_count (hdr data).
Definition GetRLink (data : page) : Z := vh_rlink (hdr data).

Definition WriteHeader (data : page) (pid rlink count max_val level heap_offset : Z) : page :=
  mkPage (mkVarlenHeader pid rlink count max_val level heap_offset) (body data).

(** [InitHeader(data, u32 count, level, pid)]: count is cut to u16. *)
Definition InitHeader (data : page) (count level pid : Z) : page :=
  WriteHeader data pid UNDEFINED_PAGE (to_u16 count) UNDEFINED_OFFSET level DB7_PAGE_SIZE.

(** Assignments to one header field. *)
Definition set_rlink (p : page) (v : Z) : page :=
  let h := hdr p in
  mkPage (mkVarlenHeader (vh_pid h) v (vh_count h) (vh_max_val h) (vh_level h) (vh_heap_offset h)) (body p).
Definition set_count (p : page) (v : Z) : page :=
  let h := hdr p in
  mkPage (mkVarlenHeader (vh_pid h) (vh_rlink h) v (vh_max_val h) (vh_level h) (vh_heap_offset h)) (body p).
Definition set_max_val (p : page) (v : Z) : page :=
  let h := hdr p in
  mkPage (mkVarlenHeader (vh_pid h) (vh_rlink h) (vh_count h) v (vh_level h) (vh_heap_offset h)) (body p).
Definition set_heap_offset (p : page) (v : Z) : page :=
  let h := hdr p in
  mkPage (mkVarlenHeader (vh_pid h) (vh_rlink h) (vh_count h) (vh_max_val h) (vh_level h) v) (body p).
Definition set_body (p : page) (m : mem) : page := mkPage (hdr p) m.

(** [CastSlots(data)[i]]. *)
Definition slot_addr (i : Z) : Z := header_size_ + 2 * i.
Definition GetSlot (p : page) (i : Z) : Z := load 2 (body p) (slot_addr i).
Definition SetSlot (p : page) (i v : Z) : page :=
  set_body p (store 2 (body p) (slot_addr i) v).

Definition ShiftRightInsert (p : page) (idx count heap_offset : Z) : page :=
  let p := set_body p (memmove (body p) (slot_addr (idx + 1)) (slot_addr idx)
                               ((count - idx) * 2)) in
  SetSlot p idx heap_offset.

(** The byte count [(count - idx - 1) * sizeof(u16)] is computed in [size_t]. *)
Definition ShiftLeftDelete (p : page) (idx count : Z) : outcome page :=
  _ ← DB7_ASSERT (1 <=? count) "Nothing to delete";
  let n := to_u64 ((count - idx - 1) * 2) in
  _ ← in_bounds (slot_addr idx) n DB7_PAGE_SIZE "ShiftLeftDelete: memmove past the page";
  Ret (set_body p (memmove (body p) (slot_addr idx) (slot_addr (idx + 1)) n)).

(** ** Entries of the heap

    [hdr_sz] = sizeof and [al] = alignof of the entry header ([u16] in the
    leaf, [SlotValHeaderInter] in the intermediate node); [len_at m off] reads
    the payload length from the header at [off]. *)
Section Heap.
Context (hdr_sz al : Z) (len_at : mem → Z → Z).

Definition CalculateHeapOffset (prev_heap_offset tuple_len : Z) : Z :=
  let heap_offset := to_u16 (prev_heap_offset - tuple_len - hdr_sz) in
  AlignDown 16 heap_offset al.

(** Allocates an entry of [key_len] payload bytes and writes [blob] (header
    and payload) there. *)
Definition AppendBlob (p : page) (key_len : Z) (blob : list Z) : outcome (page * Z) :=
  let new_heap_offset := CalculateHeapOffset (vh_heap_offset (hdr p)) key_len in
  _ ← in_bounds new_heap_offset (hdr_sz + key_len) DB7_PAGE_SIZE "AppendHeap: write past the page";
  let p := set_body p (write_bytes (body p) new_heap_offset blob) in
  Ret (set_heap_offset p new_heap_offset, new_heap_offset).

Definition MoveHeap (p : page) (old_offset len : Z) : outcome (page * Z) :=
  let new_heap_offset := CalculateHeapOffset (vh_heap_offset (hdr p)) len in
  _ ← in_bounds new_heap_offset (hdr_sz + len) DB7_PAGE_SIZE "MoveHeap: write past the page";
  let p := set_body p (memmove (body p) new_heap_offset old_offset (hdr_sz + len)) in
  let p := set_heap_offset p new_heap_offset in
  _ ← DB7_ASSERT (old_offset <=? new_heap_offset) "compaction must not move tuples down";
  Ret (p, new_heap_offset).

Fixpoint compact_loop (indexes : list Z) (p : page) : outcome page :=
  match indexes with
  | [] => Ret p
  | idx :: indexes =>
      '(p, off) ← MoveHeap p (GetSlot p idx) (len_at (body p) (GetSlot p idx));
      compact_loop indexes (SetSlot p idx off)
  end.

(** [std::sort] of the indexes by descending slot. *)
Definition slot_order (p : page) (a b : Z) : Prop := GetSlot p b ≤ GetSlot p a.
#[local] Instance slot_order_dec p : RelDecision (slot_order p).
Proof. unfold RelDecision, slot_order. intros. apply _. Defined.

Definition CompactHeap (p : page) (count : Z) : outcome page :=
  _ ← DB7_ASSERT (vh_heap_offset (hdr p) =? DB7_PAGE_SIZE) "heap not set correctly";
  let indexes := merge_sort (slot_order p) (seqZ 0 count) in
  compact_loop indexes p.

(** The prefix sums of payload lengths up to half of their total. *)
Fixpoint split_scan (lens : list Z) (i accumulated target count : Z) : Z :=
  match lens with
  | [] => count - 1
  | len :: lens =>
      let accumulated := to_u32 (accumulated + len) in
      if target <=? accumulated then Z.min (to_u16 i + 1) (count - 1)
      else split_scan lens (i + 1) accumulated target count
  end.

Definition FindSplitPoint (p : page) (count : Z) : outcome Z :=
  _ ← DB7_ASSERT (2 <=? count) "cannot split fewer than two tuples";
  let lens := (λ i, len_at (body p) (GetSlot p i)) <$> seqZ 0 count in
  let live := foldl (λ acc len, to_u32 (acc + len)) 0 lens in
  let target := live / 2 in
  Ret (to_u16 (split_scan lens 0 0 target count)).

Definition HasSpace (p : page) (key_len : Z) : bool :=
  let count := vh_count (hdr p) in
  let slot_size := to_u16 ((count + 1) * 2) in
  let new_heap_offset := CalculateHeapOffset (vh_heap_offset (hdr p)) key_len in
  slot_size + header_size_ <=? new_heap_offset.

End Heap.

(** The binary search loops [while (lo < hi) { mid = lo + (hi - lo) / 2; ... }]
    with [lo = mid + 1] when [go_right mid] and [hi = mid] otherwise. *)
Fixpoint search_loop (fuel : nat) (go_right : Z → outcome bool) (lo hi : Z) : outcome Z :=
  match fuel with
  | O => OutOfFuel
  | S fuel =>
      if lo <? hi then
        let mid := lo + (hi - lo) / 2 in
        right ← go_right mid;
        if right : bool then search_loop fuel go_right (mid + 1) hi
        else search_loop fuel go_right lo mid
      else Ret lo
  end.

(** One iteration at least shrinks the interval by one. *)
Definition search_fuel (lo hi : Z) : nat := S (Z.to_nat (hi - lo)).

(** [CopyHalfRight]: [append_entry right off] appends the entry at offset [off]
    of the left page to the right page; [n] is the number of iterations left. *)
Fixpoint copy_loop (append_entry : page → Z → outcome (page * Z)) (left_data : page) (n : nat)
    (right_data : page) (i split : Z) : outcome page :=
  match n with
  | O => Ret right_data
  | S n =>
      '(right_data, offset) ← append_entry right_data (GetSlot left_data i);
      copy_loop append_entry left_data n (SetSlot right_data (i - split) offset) (i + 1) split
  end.

(** Returns the new right page and the offset of the right high fence. *)
Definition CopyHalfRight (append_entry : page → Z → outcome (page * Z)) (left_data right_data : page)
    (split : Z) : outcome (page * Z) :=
  let left_header := hdr left_data in
  '(right_data, right_max) ←
    (if negb (vh_max_val left_header =? UNDEFINED_OFFSET) then
       append_entry right_data (vh_max_val left_header)
     else Ret (right_data, UNDEFINED_OFFSET));
  right_data ← copy_loop append_entry left_data (Z.to_nat (vh_count left_header - split)) right_data split split;
  Ret (right_data, right_max).

(** ** Lemmas: regions of a page *)

Definition has_region (m : mem) (a : Z) (bs : list Z) : Prop :=
  read_bytes m a (length bs) = bs.

Lemma has_region_app m a b1 b2 :
  has_region m a (b1 ++ b2) ↔
  has_region m a b1 ∧ has_region m (a + Z.of_nat (length b1)) b2.
Proof.
  unfold has_region. rewrite length_app, read_bytes_app. split.
  - intros H. apply app_inj_1 in H; [done|]. by rewrite length_read_bytes.
  - by intros [-> ->].
Qed.

Lemma has_region_write m a bs : has_region (write_bytes m a bs) a bs.
Proof. apply read_write_same. Qed.

Lemma has_region_frame m a l b bs :
  b + Z.of_nat (length bs) ≤ a ∨ a + Z.of_nat (length l) ≤ b →
  has_region (write_bytes m a l) b bs ↔ has_region m b bs.
Proof. intros. unfold has_region. by rewrite read_write_disj. Qed.

(** The slot array as bytes. *)
Definition enc_slots (l : list Z) : list Z := l ≫= le_bytes 2.

Lemma enc_slots_app l k : enc_slots (l ++ k) = enc_slots l ++ enc_slots k.
Proof. apply bind_app. Qed.

Lemma enc_slots_cons s l : enc_slots (s :: l) = le_bytes 2 s ++ enc_slots l.
Proof. done. Qed.

Lemma length_enc_slots l : Z.of_nat (length (enc_slots l)) = 2 * Z.of_nat (length l).
Proof.
  induction l as [|s l IH]; [done|]. rewrite enc_slots_cons, length_app, length_le_bytes.
  cbn [length]. lia.
Qed.

(** Page [p] has the slot array [l]. *)
Definition has_slots (p : page) (l : list Z) : Prop :=
  has_region (body p) header_size_ (enc_slots l).

Definition is_u16 (z : Z) : Prop := 0 ≤ z < 65536.

Lemma le_bytes_2_val s : is_u16 s → le_val (le_bytes 2 s) = s.
Proof. intros. rewrite le_val_le_bytes. by apply Z.mod_small. Qed.

Lemma has_slots_lookup p l (i : nat) s :
  has_slots p l → l !! i = Some s → is_u16 s → GetSlot p (Z.of_nat i) = s.
Proof.
  unfold has_slots. intros H Hi Hs.
  rewrite <- (take_drop_middle l i s Hi), enc_slots_app, has_region_app in H.
  destruct H as [_ H]. rewrite length_enc_slots, length_take_le in H
    by (apply lookup_lt_Some in Hi; lia).
  rewrite enc_slots_cons, has_region_app in H. destruct H as [H _].
  unfold GetSlot, load, slot_addr. unfold has_region in H.
  rewrite length_le_bytes in H. rewrite H. by apply le_bytes_2_val.
Qed.

Lemma has_slots_frame p l a bs :
  header_size_ + 2 * Z.of_nat (length l) ≤ a →
  has_slots (set_body p (write_bytes (body p) a bs)) l ↔ has_slots p l.
Proof.
  intros. unfold has_slots. cbn. apply has_region_frame.
  rewrite length_enc_slots. lia.
Qed.

Lemma has_slots_SetSlot p l (i : nat) v :
  has_slots p l → (i < length l)%nat → has_slots (SetSlot p (Z.of_nat i) v) (<[i := v]> l).
Proof.
  unfold has_slots, SetSlot, store, slot_addr. cbn [body set_body]. intros H Hi.
  destruct (lookup_lt_is_Some_2 l i Hi) as [s Hs].
  rewrite insert_take_drop by done.
  rewrite <- (take_drop_middle l i s Hs), !enc_slots_app, !has_region_app in H.
  destruct H as [H1 H2].
  rewrite enc_slots_cons, has_region_app in H2. destruct H2 as [_ H3].
  rewrite enc_slots_app, enc_slots_cons, !has_region_app.
  rewrite !length_enc_slots, !length_take_le, !length_le_bytes in * by lia.
  split_and!.
  - apply has_region_frame; [|done]. rewrite length_enc_slots, length_take_le; lia.
  - apply has_region_write.
  - apply has_region_frame; [|done]. rewrite length_le_bytes. lia.
Qed.

(** Inserting into the slot array. *)
Lemma has_slots_ShiftRightInsert p l (idx : nat) s :
  has_slots p l → (idx ≤ length l)%nat →
  has_slots (ShiftRightInsert p (Z.of_nat idx) (Z.of_nat (length l)) s)
            (take idx l ++ s :: drop idx l).
Proof.
  unfold has_slots, ShiftRightInsert, SetSlot, store, memmove, slot_addr.
  cbn [body set_body]. intros H Hi.
  rewrite <- (take_drop idx l), enc_slots_app, has_region_app in H.
  destruct H as [H1 H2]. rewrite length_enc_slots, length_take_le in H2 by lia.
  replace (Z.to_nat ((Z.of_nat (length l) - Z.of_nat idx) * 2))
    with (length (enc_slots (drop idx l))).
  2: { apply Nat2Z.inj. rewrite length_enc_slots, length_drop, Z2Nat.id; lia. }
  unfold has_region in H2. rewrite H2.
  rewrite enc_slots_app, enc_slots_cons, !has_region_app.
  rewrite length_enc_slots, length_take_le, length_le_bytes by lia. split_and!.
  - rewrite !has_region_frame; [done|..];
      rewrite length_enc_slots, length_take_le; lia.
  - apply has_region_write.
  - apply has_region_frame; [rewrite length_le_bytes; lia|].
    replace (header_size_ + 2 * Z.of_nat idx + Z.of_nat 2)
      with (header_size_ + 2 * (Z.of_nat idx + 1)) by lia.
    apply has_region_write.
Qed.

Lemma ShiftRightInsert_frame p idx count s a :
  0 ≤ idx ≤ count → slot_addr (count + 1) ≤ a →
  rd (body (ShiftRightInsert p idx count s)) a = rd (body p) a.
Proof.
  unfold ShiftRightInsert, SetSlot, store, memmove, slot_addr. cbn [body set_body]. intros Hi Ha.
  rewrite !rd_write_out; rewrite ?length_le_bytes, ?length_read_bytes; lia || done.
Qed.

(** Deleting from the slot array. *)
Lemma has_slots_ShiftLeftDelete p l (idx : nat) :
  has_slots p l → (idx < length l)%nat →
  header_size_ + 2 * Z.of_nat (length l) ≤ DB7_PAGE_SIZE →
  ∃ m, ShiftLeftDelete p (Z.of_nat idx) (Z.of_nat (length l)) = Ret (set_body p m)
    ∧ has_slots (set_body p m) (delete idx l)
    ∧ ∀ a, header_size_ + 2 * Z.of_nat (length l) ≤ a → rd m a = rd (body p) a.
Proof.
  unfold has_slots, ShiftLeftDelete, memmove, slot_addr. intros H Hi Hsz.
  rewrite DB7_ASSERT_true, bind_Ret by (apply Z.leb_le; lia).
  unfold header_size_, DB7_PAGE_SIZE in *.
  rewrite (wrap_small 64) by lia.
  rewrite in_bounds_true, bind_Ret by (unfold DB7_PAGE_SIZE; lia).
  eexists. split; [done|]. cbn [body set_body].
  destruct (lookup_lt_is_Some_2 l idx Hi) as [s Hs].
  rewrite <- (take_drop_middle l idx s Hs), !enc_slots_app, !has_region_app in H.
  destruct H as [H1 H2].
  rewrite enc_slots_cons, has_region_app in H2. destruct H2 as [_ H3].
  rewrite length_enc_slots, length_take_le, length_le_bytes in H3 by lia.
  replace (20 + 2 * Z.of_nat idx + Z.of_nat 2)
    with (20 + 2 * (Z.of_nat idx + 1)) in H3 by lia.
  replace (Z.to_nat ((Z.of_nat (length l) - Z.of_nat idx - 1) * 2))
    with (length (enc_slots (drop (S idx) l))).
  2: { apply Nat2Z.inj. rewrite length_enc_slots, length_drop, Z2Nat.id; lia. }
  unfold has_region in H3. rewrite H3. split.
  - rewrite delete_take_drop, enc_slots_app, has_region_app.
    rewrite length_enc_slots, length_take_le by lia. split.
    + apply has_region_frame; [|done]. rewrite length_enc_slots, length_take_le; lia.
    + apply has_region_write.
  - intros a Ha. apply rd_write_out. rewrite length_enc_slots, length_drop. lia.
Qed.

(** ** Lemmas: binary search *)

Lemma search_loop_spec fuel go_right lo hi b :
  (Z.to_nat (hi - lo) < fuel)%nat → lo ≤ b ≤ hi →
  (∀ mid, lo ≤ mid < hi → go_right mid = Ret (bool_decide (mid < b))) →
  search_loop fuel go_right lo hi = Ret b.
Proof.
  revert lo hi; induction fuel as [|fuel IH]; intros lo hi Hf Hb Hgo; [lia|]. cbn.
  destruct (Z.ltb_spec lo hi); [|f_equal; lia].
  assert (lo ≤ lo + (hi - lo) / 2 < hi) as Hmid.
  { pose proof (Z.div_pos (hi - lo) 2). pose proof (Z.div_lt (hi - lo) 2). lia. }
  rewrite Hgo by done. cbn. case_bool_decide.
  - apply IH; [lia|lia|]. intros; apply Hgo; lia.
  - apply IH; [lia|lia|]. intros; apply Hgo; lia.
Qed.

(** ** Lemmas: the heap

    An entry is its offset together with the bytes stored there. *)

Definition entry_end (e : Z * list Z) : Z := e.1 + Z.of_nat (length e.2).

Definition disj_entries (e f : Z * list Z) : Prop := entry_end e ≤ f.1 ∨ entry_end f ≤ e.1.

#[export] Instance disj_entries_symmetric : Symmetric disj_entries.
Proof. unfold disj_entries. intros e f. tauto. Qed.

Lemma opp_div_ceil a s : 0 < a → - s / a = - ((s + a - 1) / a).
Proof.
  intros Ha. symmetry. apply (Z.div_unique_pos _ _ _ (a * ((s + a - 1) / a) - s)); [|lia].
  pose proof (Z.div_mod (s + a - 1) a). pose proof (Z.mod_pos_bound (s + a - 1) a). lia.
Qed.

Lemma align_down_sub a h s :
  0 < a → (h * a - s) - (h * a - s) mod a = h * a - (s + a - 1) / a * a.
Proof.
  intros Ha. replace (h * a - s) with (- s + h * a) by lia.
  rewrite Z_mod_plus_full. pose proof (Z.div_mod (- s) a).
  rewrite (opp_div_ceil a s) in * by done. lia.
Qed.

Lemma multiple_nonneg a x : 0 < a → x mod a = 0 → - a < x → 0 ≤ x.
Proof. intros Ha Hx Hlt. apply Z_div_exact_full_2 in Hx; [|lia].
  assert (-1 < x / a) by nia. nia. Qed.

Lemma mod_sub_0 a x y : x mod a = 0 → y mod a = 0 → (x - y) mod a = 0.
Proof. intros Hx Hy. by rewrite Zminus_mod, Hx, Hy. Qed.

Section HeapFacts.
Context (hdr_sz al k : Z) (len_at : mem → Z → Z) (valid : list Z → Prop).
Context (Hal : al = 2 ^ k) (Hk : 0 ≤ k < 16) (Hhdr : 0 < hdr_sz).
Context (valid_len : ∀ m off blob, valid blob → has_region m off blob →
           hdr_sz + len_at m off = Z.of_nat (length blob) ∧ 0 ≤ len_at m off).

Local Lemma al_pos : 0 < al.
Proof. rewrite Hal. apply Z.pow_pos_nonneg; lia. Qed.

(** An entry of [m] at or above [lo]. *)
Definition entry_ok (m : mem) (lo : Z) (e : Z * list Z) : Prop :=
  lo ≤ e.1 ∧ entry_end e ≤ DB7_PAGE_SIZE ∧ e.1 mod al = 0 ∧
  valid e.2 ∧ has_region m e.1 e.2.

Definition heap_ok (m : mem) (lo : Z) (es : list (Z * list Z)) : Prop :=
  Forall (entry_ok m lo) es ∧ pairwise disj_entries es.

(** The bytes an entry of [sz] bytes takes, padding included. *)
Definition padded (sz : Z) : Z := (sz + al - 1) / al * al.

Definition heap_cost (es : list (Z * list Z)) : Z :=
  zsum ((λ e, padded (Z.of_nat (length e.2))) <$> es).

Lemma padded_bounds sz : 0 ≤ sz → sz ≤ padded sz < sz + al.
Proof.
  intros. unfold padded. pose proof al_pos.
  pose proof (Z.div_mod (sz + al - 1) al). pose proof (Z.mod_pos_bound (sz + al - 1) al). lia.
Qed.

Lemma padded_mod sz : padded sz mod al = 0.
Proof. apply Z_mod_mult. Qed.

Lemma CalculateHeapOffset_eq prev len :
  prev mod al = 0 → 0 ≤ len → hdr_sz + len ≤ prev < 65536 →
  CalculateHeapOffset hdr_sz al prev len = prev - padded (hdr_sz + len).
Proof.
  intros Hm Hl Hp. unfold CalculateHeapOffset. pose proof al_pos.
  rewrite (wrap_small 16), Hal, AlignDown_pow2 by lia. rewrite <- Hal. unfold padded.
  apply Z_div_exact_full_2 in Hm; [|lia]. rewrite Hm, (Z.mul_comm al).
  replace (prev / al * al - len - hdr_sz) with (prev / al * al - (hdr_sz + len)) by lia.
  apply align_down_sub. lia.
Qed.

(** Packing an entry that ends at or below [prev] never moves it down. *)
Lemma CalculateHeapOffset_ge prev len off :
  prev mod al = 0 → off mod al = 0 → 0 ≤ len → 0 ≤ off → off + (hdr_sz + len) ≤ prev < 65536 →
  off ≤ CalculateHeapOffset hdr_sz al prev len.
Proof.
  intros Hm Ho Hl H0 Hp. rewrite CalculateHeapOffset_eq by lia.
  pose proof al_pos. pose proof (padded_bounds (hdr_sz + len)).
  apply Z.le_0_sub, (multiple_nonneg al); [done| |lia].
  apply mod_sub_0; [|done]. apply mod_sub_0; [done|apply padded_mod].
Qed.

Lemma entry_ok_frame m a l lo e :
  entry_end e ≤ a ∨ a + Z.of_nat (length l) ≤ e.1 →
  entry_ok m lo e → entry_ok (write_bytes m a l) lo e.
Proof.
  unfold entry_ok, entry_end. intros Ha (H1 & H2 & H3 & H4 & H5).
  split_and!; try done. by apply has_region_frame.
Qed.

Lemma heap_ok_lower m lo lo' es : lo' ≤ lo → heap_ok m lo es → heap_ok m lo' es.
Proof.
  intros Hlo [H1 H2]. split; [|done]. eapply Forall_impl; [done|].
  unfold entry_ok. intros e (H3 & H4 & H5). split; [lia|done].
Qed.

(** Writes below [lo] leave the entries alone. *)
Lemma heap_ok_frame m m' lo es :
  (∀ a, lo ≤ a → rd m' a = rd m a) → heap_ok m lo es → heap_ok m' lo es.
Proof.
  intros Hm [H1 H2]. split; [|done]. eapply Forall_impl; [done|].
  intros e (H3 & H4 & H5 & H6 & H7). split_and!; try done.
  unfold has_region in *. rewrite <- H7 at 2. apply read_bytes_ext. intros. apply Hm. lia.
Qed.

(** Appending a blob below the heap. *)
Lemma AppendBlob_ok p key_len blob es :
  let H := vh_heap_offset (hdr p) in
  heap_ok (body p) H es → H mod al = 0 → H ≤ DB7_PAGE_SIZE →
  valid blob → 0 ≤ key_len → Z.of_nat (length blob) = hdr_sz + key_len →
  hdr_sz + key_len ≤ H →
  ∃ off, AppendBlob hdr_sz al p key_len blob =
         Ret (set_heap_offset (set_body p (write_bytes (body p) off blob)) off, off) ∧
    off = H - padded (hdr_sz + key_len) ∧ off mod al = 0 ∧ 0 ≤ off ∧
    heap_ok (write_bytes (body p) off blob) off ((off, blob) :: es).
Proof.
  intros H [He Hd] Hm HP Hv Hl Hb Hle. unfold DB7_PAGE_SIZE in HP. pose proof al_pos.
  unfold AppendBlob. fold H.
  assert (0 ≤ CalculateHeapOffset hdr_sz al H key_len) as Hge.
  { apply CalculateHeapOffset_ge; lia || done. }
  rewrite CalculateHeapOffset_eq in * by lia.
  pose proof (padded_bounds (hdr_sz + key_len) ltac:(lia)) as Hpb.
  rewrite in_bounds_true, bind_Ret by (unfold DB7_PAGE_SIZE; lia).
  set (off := H - padded (hdr_sz + key_len)) in *.
  assert (Hoff : off mod al = 0).
  { unfold off. auto using mod_sub_0, padded_mod. }
  exists off. split; [done|]. split; [done|]. split; [done|]. split; [done|].
  assert (HF : Forall (λ e, H ≤ e.1 ∧ entry_end e ≤ DB7_PAGE_SIZE) es).
  { eapply Forall_impl; [done|]. unfold entry_ok. tauto. }
  split.
  - constructor.
    + unfold entry_ok, entry_end, DB7_PAGE_SIZE; cbn. split_and!; try done; [lia..|].
      apply has_region_write.
    + rewrite Forall_forall in He |- *. intros e Hin.
      assert (entry_ok (body p) H e) as Hok by auto.
      destruct Hok as (H3 & H4). apply entry_ok_frame; [right; lia|]. split; [lia|done].
  - apply pairwise_cons; [apply _|]. split; [|done].
    eapply Forall_impl; [exact HF|]. intros e [? ?]. left. unfold entry_end in *. cbn. lia.
Qed.

(** *** Compaction

    State of the loop: [cur] are the entries at their current offsets, [rest]
    the indexes still to move, [H] the current heap offset.  Entries already
    moved lie at or above [H], the others end at or below it and follow each
    other downwards. *)
Record compact_inv (p : page) (lo : Z) (cur : list (Z * list Z)) (rest : list Z) : Prop := {
  ci_slots : has_slots p (cur.*1);
  ci_room : header_size_ + 2 * Z.of_nat (length cur) ≤ lo ≤ vh_heap_offset (hdr p);
  ci_top : 0 ≤ vh_heap_offset (hdr p) ≤ DB7_PAGE_SIZE;
  ci_mod : vh_heap_offset (hdr p) mod al = 0;
  ci_heap : heap_ok (body p) lo cur;
  ci_rest : Forall (λ i, 0 ≤ i < Z.of_nat (length cur)) rest;
  ci_done : ∀ (i : nat) e, cur !! i = Some e → Z.of_nat i ∉ rest →
            vh_heap_offset (hdr p) ≤ e.1;
  ci_todo : ∀ (i : nat) e, cur !! i = Some e → Z.of_nat i ∈ rest →
            entry_end e ≤ vh_heap_offset (hdr p);
  ci_sorted : StronglySorted (λ i j, ∀ e f, cur !! Z.to_nat i = Some e →
            cur !! Z.to_nat j = Some f → entry_end f ≤ e.1) rest
}.

Definition blob_cost (cur : list (Z * list Z)) (i : Z) : Z :=
  padded (Z.of_nat (length ((cur.*2) !!! Z.to_nat i))).

Lemma entry_offset_u16 m lo e : 0 ≤ lo → entry_ok m lo e → is_u16 e.1.
Proof.
  unfold entry_ok, entry_end, is_u16, DB7_PAGE_SIZE. intros Hlo (H1 & H2 & _). lia.
Qed.

Lemma GetSlot_entry p lo cur (i : nat) e :
  has_slots p (cur.*1) → 0 ≤ lo → Forall (entry_ok (body p) lo) cur →
  cur !! i = Some e → GetSlot p (Z.of_nat i) = e.1.
Proof.
  intros Hs Hlo He Hi. apply (has_slots_lookup p (cur.*1)); [done| |].
  - by rewrite list_lookup_fmap, Hi.
  - rewrite Forall_lookup in He. eauto using entry_offset_u16.
Qed.

(** One step of the loop: the entry [e] at index [idx] moves to [new]. *)
Lemma MoveHeap_ok p lo cur rest (idx : nat) e :
  compact_inv p lo cur (Z.of_nat idx :: rest) → NoDup (Z.of_nat idx :: rest) →
  cur !! idx = Some e →
  let new := vh_heap_offset (hdr p) - padded (Z.of_nat (length e.2)) in
  GetSlot p (Z.of_nat idx) = e.1 ∧
  MoveHeap hdr_sz al p e.1 (len_at (body p) e.1) =
    Ret (set_heap_offset (set_body p (write_bytes (body p) new e.2)) new, new) ∧
  compact_inv (SetSlot (set_heap_offset (set_body p (write_bytes (body p) new e.2)) new)
                       (Z.of_nat idx) new) lo (<[idx := (new, e.2)]> cur) rest.
Proof.
  intros [Hs Hr Ht Hm [He Hd] Hrs Hdn Htd Hso] Hnd Hi new.
  pose proof al_pos as Hal0. apply NoDup_cons in Hnd as [Hnin Hnd].
  assert (Hlo0 : 0 ≤ lo) by (unfold header_size_ in *; lia).
  assert (Hok : entry_ok (body p) lo e) by (rewrite Forall_lookup in He; eauto).
  assert (Hu : is_u16 e.1) by eauto using entry_offset_u16.
  destruct Hok as (Ho1 & Ho2 & Ho3 & Ho4 & Ho5).
  destruct (valid_len _ _ _ Ho4 Ho5) as [Hlen Hlen0].
  assert (Hend : entry_end e ≤ vh_heap_offset (hdr p)).
  { apply (Htd idx); [done|]. by left. }
  unfold entry_end in Hend, Ho2. unfold DB7_PAGE_SIZE in *.
  assert (Hcalc : CalculateHeapOffset hdr_sz al (vh_heap_offset (hdr p)) (len_at (body p) e.1) = new).
  { rewrite CalculateHeapOffset_eq by lia. unfold new. by rewrite Hlen. }
  assert (Hge : e.1 ≤ new).
  { rewrite <- Hcalc. apply CalculateHeapOffset_ge; lia || done. }
  pose proof (padded_bounds (Z.of_nat (length e.2)) ltac:(lia)) as Hpb.
  assert (Hnew : new + Z.of_nat (length e.2) ≤ vh_heap_offset (hdr p)) by (unfold new; lia).
  assert (Hnm : new mod al = 0) by (apply mod_sub_0; [done|apply padded_mod]).
  assert (Hother : ∀ (j : nat) f, j ≠ idx → cur !! j = Some f →
            entry_end f ≤ e.1 ∧ Z.of_nat j ∈ rest ∨
            vh_heap_offset (hdr p) ≤ f.1 ∧ Z.of_nat j ∉ rest).
  { intros j f Hj Hf. destruct (decide (Z.of_nat j ∈ rest)) as [Hin|Hin]; [left|right].
    - split; [|done]. apply StronglySorted_inv in Hso as [_ Hso].
      rewrite Forall_forall in Hso. apply (Hso (Z.of_nat j) Hin); by rewrite Nat2Z.id.
    - split; [|done]. apply (Hdn j); [done|]. intros [?%Nat2Z.inj|?]%elem_of_cons; done. }
  split; [by apply (GetSlot_entry p lo cur)|].
  split.
  { unfold MoveHeap. rewrite Hcalc. rewrite in_bounds_true, bind_Ret by (unfold DB7_PAGE_SIZE; lia).
    rewrite DB7_ASSERT_true, bind_Ret by (by apply Z.leb_le).
    unfold memmove. rewrite Hlen, Nat2Z.id. unfold has_region in Ho5. by rewrite Ho5. }
  assert (Hil : (idx < length (cur.*1))%nat) by (rewrite length_fmap; eauto using lookup_lt_Some).
  assert (Hsz : Z.of_nat (length cur) = Z.of_nat (length (cur.*1))) by (by rewrite length_fmap).
  split; cbn [hdr set_heap_offset set_body vh_heap_offset SetSlot body].
  - rewrite list_fmap_insert. apply has_slots_SetSlot; [|done].
    apply (has_slots_frame p); [lia|done].
  - rewrite length_insert. lia.
  - unfold DB7_PAGE_SIZE. lia.
  - done.
  - apply (heap_ok_frame (write_bytes (body p) new e.2)).
    { intros a Ha. unfold store. apply rd_write_out. right. rewrite length_le_bytes.
      unfold slot_addr. lia. }
    split.
    + apply Forall_lookup. intros j f [(-> & <- & _)|[Hne Hf]]%list_lookup_insert_Some.
      * unfold entry_ok, entry_end, DB7_PAGE_SIZE. cbn. split_and!; try done; [lia..|].
        apply has_region_write.
      * rewrite Forall_lookup in He. apply entry_ok_frame; [|by eauto].
        destruct (Hother j f ltac:(done) Hf); unfold entry_end in *; lia.
    + assert (Hx : ∀ (j : nat) f, j ≠ idx → cur !! j = Some f → disj_entries (new, e.2) f).
      { intros j f Hj Hf. unfold disj_entries, entry_end in *. cbn.
        destruct (Hother j f Hj Hf); lia. }
      intros i j a b Hij [(-> & <- & _)|[Hni Ha]]%list_lookup_insert_Some
        [(? & <- & _)|[Hnj Hb]]%list_lookup_insert_Some; simplify_eq.
      * by apply (Hx j).
      * symmetry. by apply (Hx i).
      * by apply (Hd i j).
  - rewrite length_insert. by inversion Hrs.
  - intros j f Hf Hjr. apply list_lookup_insert_Some in Hf as [(-> & <- & _)|[Hne Hf]]; [done|].
    destruct (Hother j f ltac:(done) Hf) as [[_ ?]|[? _]]; [done|]. lia.
  - intros j f Hf Hjr. apply list_lookup_insert_Some in Hf as [(-> & <- & _)|[Hne Hf]]; [done|].
    destruct (Hother j f ltac:(done) Hf) as [[? _]|[_ ?]]; [lia|done].
  - apply StronglySorted_inv in Hso as [Hso _].
    rewrite Forall_forall in Hrs. eapply StronglySorted_impl_in; [|exact Hso].
    intros x y Hx Hy H a b Ha Hb.
    assert (0 ≤ x ∧ 0 ≤ y) as [? ?].
    { split; [apply (Hrs x)|apply (Hrs y)]; by right. }
    rewrite list_lookup_insert_ne in Ha, Hb by (intros ->; rewrite Z2Nat.id in Hnin by lia; done).
    by apply H.
Qed.

Lemma blob_cost_insert cur (idx : nat) new e i :
  cur !! idx = Some e → blob_cost (<[idx := (new, e.2)]> cur) i = blob_cost cur i.
Proof.
  intros Hi. unfold blob_cost. rewrite list_fmap_insert, list_insert_id; [done|].
  by rewrite list_lookup_fmap, Hi.
Qed.

Lemma compact_loop_ok rest p lo cur :
  compact_inv p lo cur rest → NoDup rest →
  ∃ p' cur', compact_loop hdr_sz al len_at rest p = Ret p' ∧
    cur'.*2 = cur.*2 ∧ compact_inv p' lo cur' [] ∧
    vh_heap_offset (hdr p') = vh_heap_offset (hdr p) - zsum (blob_cost cur <$> rest) ∧
    (∃ m, p' = set_heap_offset (set_body p m) (vh_heap_offset (hdr p'))).
Proof.
  revert p cur; induction rest as [|i rest IH]; intros p cur Hinv Hnd.
  { exists p, cur. cbn. split_and!; try done; [lia|]. exists (body p). by destruct p as [[] ?]. }
  pose proof (ci_rest _ _ _ _ Hinv) as Hr. apply Forall_cons in Hr as [Hi _].
  destruct (lookup_lt_is_Some_2 cur (Z.to_nat i) ltac:(lia)) as [e He].
  replace i with (Z.of_nat (Z.to_nat i)) in Hinv, Hnd |- * by lia.
  destruct (MoveHeap_ok _ _ _ _ _ _ Hinv Hnd He) as (Hslot & Hmove & Hnext).
  cbn [compact_loop]. rewrite Hslot, Hmove, bind_Ret.
  apply NoDup_cons in Hnd as [_ Hnd].
  destruct (IH _ _ Hnext Hnd) as (p' & cur' & Hp' & Hc' & Hi' & Hh' & m & Hm).
  exists p', cur'. split_and!; [done| |done| |].
  - rewrite Hc', list_fmap_insert, list_insert_id; [done|].
    by rewrite list_lookup_fmap, He.
  - rewrite Hh'. cbn [vh_heap_offset hdr SetSlot set_body set_heap_offset fmap list_fmap].
    rewrite zsum_cons. unfold blob_cost at 2. rewrite Nat2Z.id.
    rewrite (list_lookup_total_correct _ _ e.2) by (by rewrite list_lookup_fmap, He).
    erewrite (list_fmap_ext _ (blob_cost cur)); [lia|].
    intros; by apply blob_cost_insert.
  - exists m. rewrite Hm at 1. by destruct p as [[] ?].
Qed.

(** The indexes sorted by descending slot form a chain of the entries. *)
Lemma sorted_chain p lo cur rest :
  has_slots p (cur.*1) → 0 ≤ lo → heap_ok (body p) lo cur →
  rest ≡ₚ seqZ 0 (Z.of_nat (length cur)) → StronglySorted (slot_order p) rest →
  StronglySorted (λ i j, ∀ e f, cur !! Z.to_nat i = Some e →
            cur !! Z.to_nat j = Some f → entry_end f ≤ e.1) rest.
Proof.
  intros Hs Hlo [He Hd] HP Hso.
  assert (Hnd : NoDup rest) by (rewrite HP; apply NoDup_seqZ).
  assert (Hin : ∀ x, x ∈ rest → 0 ≤ x) by (intros x; rewrite HP, elem_of_seqZ; lia).
  clear HP. induction Hso as [|i rest Hso IH HF]; constructor.
  { apply NoDup_cons in Hnd as [_ Hnd]. apply IH; [done|]. intros; apply Hin; by right. }
  apply NoDup_cons in Hnd as [Hnin _]. rewrite Forall_forall in HF |- *.
  intros j Hj e f Hei Hfj. specialize (HF j Hj). unfold slot_order in HF.
  assert (0 ≤ i ∧ 0 ≤ j) as [Hi0 Hj0] by (split; apply Hin; [by left|by right]).
  rewrite Forall_lookup in He.
  pose proof (He _ _ Hei) as He1. pose proof (He _ _ Hfj) as He2.
  replace i with (Z.of_nat (Z.to_nat i)) in HF by lia.
  replace j with (Z.of_nat (Z.to_nat j)) in HF by lia.
  rewrite (GetSlot_entry p lo cur (Z.to_nat i) e), (GetSlot_entry p lo cur (Z.to_nat j) f) in HF
    by (done || by apply Forall_lookup).
  destruct (Hd (Z.to_nat i) (Z.to_nat j) e f) as [?|?]; [|done..| |done].
  - intros E. apply Hnin. by replace i with j by lia.
  - exfalso. destruct He1 as (_ & _ & _ & Hv & Hr).
    pose proof (valid_len _ _ _ Hv Hr). unfold entry_end in *. lia.
Qed.

#[local] Instance slot_order_total p : Total (slot_order p).
Proof. intros a b. unfold slot_order. lia. Qed.
#[local] Instance slot_order_trans p : Transitive (slot_order p).
Proof. intros a b c. unfold slot_order. lia. Qed.

Lemma blob_costs cur : zsum (blob_cost cur <$> seqZ 0 (Z.of_nat (length cur))) = heap_cost cur.
Proof.
  unfold heap_cost. f_equal. apply list_eq. intros i.
  rewrite !list_lookup_fmap. destruct (decide (i < length cur)%nat) as [Hi|Hi].
  - rewrite lookup_seqZ_lt by lia. destruct (lookup_lt_is_Some_2 cur i Hi) as [e He].
    rewrite He. cbn. f_equal. unfold blob_cost. rewrite Z.add_0_l, Nat2Z.id.
    by rewrite (list_lookup_total_correct _ _ e.2) by (by rewrite list_lookup_fmap, He).
  - rewrite lookup_seqZ_ge, lookup_ge_None_2; [done|lia..].
Qed.

(** [CompactHeap] returns, keeps every entry's bytes, and leaves the heap as
    small as the entries and their padding. *)
Lemma CompactHeap_ok p lo cur :
  has_slots p (cur.*1) → header_size_ + 2 * Z.of_nat (length cur) ≤ lo ≤ DB7_PAGE_SIZE →
  vh_heap_offset (hdr p) = DB7_PAGE_SIZE → DB7_PAGE_SIZE mod al = 0 →
  heap_ok (body p) lo cur →
  ∃ p' cur', CompactHeap hdr_sz al len_at p (Z.of_nat (length cur)) = Ret p' ∧
    cur'.*2 = cur.*2 ∧ has_slots p' (cur'.*1) ∧
    heap_ok (body p') (vh_heap_offset (hdr p')) cur' ∧
    lo ≤ vh_heap_offset (hdr p') ∧
    vh_heap_offset (hdr p') = DB7_PAGE_SIZE - heap_cost cur ∧
    (∃ m, p' = set_heap_offset (set_body p m) (vh_heap_offset (hdr p'))).
Proof.
  intros Hs Hlo Hh Hm Hok. unfold CompactHeap.
  rewrite DB7_ASSERT_true, bind_Ret by (by apply Z.eqb_eq).
  set (rest := merge_sort _ _).
  assert (HP : rest ≡ₚ seqZ 0 (Z.of_nat (length cur))) by apply merge_sort_Permutation.
  assert (Hlo0 : 0 ≤ lo) by (unfold header_size_ in *; lia).
  destruct (compact_loop_ok rest p lo cur) as (p' & cur' & Hp' & Hc' & Hi' & Hh' & Hm').
  { split; try done; [by rewrite Hh|unfold DB7_PAGE_SIZE in *; lia|by rewrite Hh|..].
    - rewrite HP. apply Forall_forall. intros x. rewrite elem_of_seqZ. lia.
    - intros i e He Hn. exfalso. apply Hn. rewrite HP, elem_of_seqZ.
      apply lookup_lt_Some in He. lia.
    - intros i e He _. rewrite Hh. destruct Hok as [Hok _]. rewrite Forall_lookup in Hok.
      by destruct (Hok _ _ He) as (_ & ? & _).
    - apply (sorted_chain p lo); try done. unfold rest.
      apply (StronglySorted_merge_sort (slot_order p)). }
  { rewrite HP. apply NoDup_seqZ. }
  destruct Hi' as [Hs' Hr' Ht' Hm0' [He' Hd'] _ Hdone' _ _].
  exists p', cur'. split_and!; try done; [|lia|].
  - split; [|done]. apply Forall_lookup. intros i e Hi. rewrite Forall_lookup in He'.
    destruct (He' i e Hi) as (_ & H'). split; [|done].
    apply (Hdone' i); [done|]. apply not_elem_of_nil.
  - rewrite Hh', Hh, (zsum_perm _ (blob_cost cur <$> seqZ 0 (Z.of_nat (length cur)))).
    + by rewrite blob_costs.
    + by rewrite HP.
Qed.
End HeapFacts.
