(* ===== verification/SplitFacts.v ===== *)
(** * Splitting a slotted page: what both layouts share

    The choice of the split point ([FindSplitPoint]) and the slot array of the
    page under construction. *)

From S2P Require Import Prelude Bytes Shared Memory SlottedPage.

(** ** The split point *)

Lemma foldl_to_u32_sum lens acc :
  Forall (λ z, 0 ≤ z) lens → 0 ≤ acc → acc + zsum lens < 2 ^ 32 →
  foldl (λ acc len, to_u32 (acc + len)) acc lens = acc + zsum lens.
Proof.
  intros HF. revert acc; induction HF as [|len lens Hl HF IH]; intros acc Ha Hs; cbn [foldl].
  - cbn. lia.
  - rewrite zsum_cons in *. pose proof (zsum_nonneg lens HF).
    rewrite (wrap_small 32) by lia. rewrite IH; lia.
Qed.

(** The scan stops at the first prefix whose sum reaches the target. *)
Lemma split_scan_ok lens i acc target count :
  Forall (λ z, 0 ≤ z) lens → 0 ≤ acc → acc + zsum lens < 2 ^ 32 → 0 ≤ i → 2 ≤ count →
  i + Z.of_nat (length lens) = count → count < 65536 → acc < target → target ≤ acc + zsum lens →
  ∃ j : nat, (j < length lens)%nat ∧
    split_scan lens i acc target count = Z.min (i + Z.of_nat j + 1) (count - 1) ∧
    acc + zsum (take j lens) < target ≤ acc + zsum (take (S j) lens).
Proof.
  intros HF. revert i acc; induction HF as [|len lens Hl HF IH];
    intros i acc Ha Hs Hi Hc Hic Hcs Hlt Hle; cbn [split_scan]; [cbn in *; lia|].
  rewrite zsum_cons in *. pose proof (zsum_nonneg lens HF). cbn [length] in *.
  rewrite (wrap_small 32) by lia. destruct (Z.leb_spec target (acc + len)) as [H'|H'].
  - exists 0%nat. rewrite (wrap_small 16) by lia. split; [lia|]. split; [lia|].
    rewrite firstn_cons, zsum_cons, !take_0. change (zsum []) with 0. lia.
  - destruct (IH (i + 1) (acc + len)) as (j & Hj & -> & Hsum); try lia.
    exists (S j). split; [lia|]. split; [lia|]. cbn [take]. rewrite !zsum_cons.
    cbn [take] in Hsum. lia.
Qed.

(** Both sides of the split are non-empty; the left side without its last
    entry holds less than half of the payload, and the right side holds at
    most half, unless it is a single entry. *)
Lemma FindSplitPoint_ok len_at p (L : list Z) :
  (λ i, len_at (body p) (GetSlot p i)) <$> seqZ 0 (Z.of_nat (length L)) = L →
  Forall (λ z, 0 ≤ z) L → 2 ≤ zsum L < 2 ^ 32 → (2 ≤ length L)%nat →
  Z.of_nat (length L) < 65536 →
  ∃ s : nat, FindSplitPoint len_at p (Z.of_nat (length L)) = Ret (Z.of_nat s) ∧
    (1 ≤ s < length L)%nat ∧ 2 * zsum (take (s - 1) L) < zsum L ∧
    (2 * zsum (drop s L) ≤ zsum L + 1 ∨ s = (length L - 1)%nat).
Proof.
  intros HL HF Hs Hlen Hmax. unfold FindSplitPoint. rewrite HL.
  rewrite DB7_ASSERT_true, bind_Ret by (apply Z.leb_le; lia).
  rewrite foldl_to_u32_sum by (done || lia). rewrite Z.add_0_l.
  pose proof (Z.div_mod (zsum L) 2 ltac:(lia)) as Hd. pose proof (Z.mod_pos_bound (zsum L) 2 ltac:(lia)).
  destruct (split_scan_ok L 0 0 (zsum L / 2) (Z.of_nat (length L))) as (j & Hj & -> & Hsum);
    try (done || lia).
  exists (S j `min` (length L - 1))%nat. rewrite (wrap_small 16) by lia.
  split; [f_equal; lia|]. split; [lia|].
  assert (Hmono : ∀ n : nat, (n ≤ j)%nat → zsum (take n L) ≤ zsum (take j L)).
  { intros n Hn. rewrite <- (take_drop n (take j L)), zsum_app, take_take, Nat.min_l by done.
    pose proof (zsum_nonneg (drop n (take j L))). assert (0 ≤ zsum (drop n (take j L))); [|lia].
    apply zsum_nonneg. by apply Forall_drop, Forall_take. }
  split.
  - specialize (Hmono (S j `min` (length L - 1) - 1)%nat ltac:(lia)). lia.
  - destruct (Nat.le_gt_cases (S j) (length L - 1)); [left|right; lia].
    rewrite Nat.min_l by lia. pose proof (zsum_app (take (S j) L) (drop (S j) L)) as E.
    rewrite take_drop in E. lia.
Qed.

(** ** Building a slot array *)

Lemma has_slots_snoc p l v :
  has_slots p l → has_slots (SetSlot p (Z.of_nat (length l)) v) (l ++ [v]).
Proof.
  unfold has_slots, SetSlot, store, slot_addr. cbn [body set_body]. intros H.
  rewrite enc_slots_app, has_region_app, length_enc_slots. split.
  - apply has_region_frame; [|done]. rewrite length_enc_slots. lia.
  - rewrite enc_slots_cons. cbn [enc_slots mbind list_bind]. rewrite app_nil_r.
    apply has_region_write.
Qed.

Lemma has_slots_take p l n : has_slots p l → has_slots p (take n l).
Proof.
  unfold has_slots. rewrite <- (take_drop n l) at 1. rewrite enc_slots_app, has_region_app. tauto.
Qed.

Lemma SetSlot_frame p i v a :
  slot_addr (i + 1) ≤ a → rd (body (SetSlot p i v)) a = rd (body p) a.
Proof.
  unfold SetSlot, store, slot_addr. cbn [body set_body]. intros Ha.
  apply rd_write_out. rewrite length_le_bytes. lia.
Qed.

(** ** The padded entries of a heap fit between its bounds *)
Section Packing.
Context (al : Z) (Hal : 0 < al).

Definition top_first (e f : Z * list Z) : Prop := f.1 ≤ e.1.
#[local] Instance top_first_dec : RelDecision top_first.
Proof. unfold RelDecision, top_first. intros. apply _. Defined.
#[local] Instance top_first_total : Total top_first.
Proof. intros a b. unfold top_first. lia. Qed.
#[local] Instance top_first_trans : Transitive top_first.
Proof. intros a b c. unfold top_first. lia. Qed.

Definition between (lo top : Z) (e : Z * list Z) : Prop :=
  lo ≤ e.1 ∧ entry_end e ≤ top ∧ e.1 mod al = 0 ∧ 0 < Z.of_nat (length e.2).

Lemma padded_le_gap a top sz :
  a mod al = 0 → top mod al = 0 → 0 ≤ sz → a + sz ≤ top → padded al sz ≤ top - a.
Proof.
  intros Ha Ht Hs Hle. unfold padded.
  pose proof (Z.div_mod (sz + al - 1) al ltac:(lia)). pose proof (Z.mod_pos_bound (sz + al - 1) al Hal).
  apply Z.le_0_sub, (multiple_nonneg al); [done| |lia].
  apply mod_sub_0; [by apply mod_sub_0|apply Z_mod_mult].
Qed.

Lemma sorted_heap_cost lo top es :
  StronglySorted top_first es → pairwise disj_entries es → Forall (between lo top) es →
  lo ≤ top → top mod al = 0 → heap_cost al es ≤ top - lo.
Proof.
  intros Hs. revert top; induction Hs as [|e es Hs IH HF]; intros top Hd Hb Hlo Ht.
  { unfold heap_cost. cbn. lia. }
  apply pairwise_cons in Hd as [Hde Hd]; [|apply _]. apply Forall_cons in Hb as [He Hb].
  destruct He as (H1 & H2 & H3 & H4). unfold entry_end in H2.
  assert (Hc : heap_cost al es ≤ e.1 - lo).
  { apply IH; [done| |done|done]. rewrite Forall_forall in HF, Hde, Hb |- *.
    intros f Hf. destruct (Hb f Hf) as (F1 & F2 & F3 & F4). split_and!; try done.
    destruct (Hde f Hf) as [?|?]; [|done]. specialize (HF f Hf). unfold top_first, entry_end in *. lia. }
  pose proof (padded_le_gap e.1 top (Z.of_nat (length e.2)) H3 Ht ltac:(lia) H2).
  unfold heap_cost in *. cbn [fmap list_fmap]. rewrite zsum_cons. lia.
Qed.

Lemma heap_cost_le lo top es :
  pairwise disj_entries es → Forall (between lo top) es → lo ≤ top → top mod al = 0 →
  heap_cost al es ≤ top - lo.
Proof.
  intros Hd Hb Hlo Ht. pose proof (merge_sort_Permutation top_first es) as HP.
  assert (heap_cost al es = heap_cost al (merge_sort top_first es)) as ->.
  { unfold heap_cost. apply zsum_perm. by rewrite HP. }
  apply sorted_heap_cost; [|by eapply pairwise_perm|by rewrite HP|done|done].
  apply (StronglySorted_merge_sort top_first).
Qed.
End Packing.
