(* ===== verification/NodeFacts.v ===== *)
(** * Theorems about slotted nodes, for both layouts

    [NodeFormat E] is the interface between the slotted page and a layout: how
    an entry of type [E] is stored.  [node_rep] relates a page to its entries
    (in slot order) and its high fence; the lemmas show that the heap and slot
    operations implement the list operations on them.  The leaf and the
    intermediate layout are the two instances. *)

From S2P Require Import Prelude Bytes Shared Memory SlottedPage SplitFacts.

Lemma DB7_MAX_ROW_SIZE_eq : DB7_MAX_ROW_SIZE = 819.
Proof. done. Qed.

Class NodeFormat (E : Type) := {
  nf_hdr : Z;
  nf_al : Z;
  nf_log : Z;
  nf_len_at : mem → Z → Z;
  nf_read : mem → Z → E;
  nf_blob : E → list Z;
  nf_key : E → Key;
  nf_ok : E → Prop;
  nf_al_pow : nf_al = 2 ^ nf_log;
  nf_log_range : 0 ≤ nf_log < 16;
  nf_hdr_pos : 0 < nf_hdr;
  nf_page_al : DB7_PAGE_SIZE mod nf_al = 0;
  nf_length e : Z.of_nat (length (nf_blob e)) = nf_hdr + key_len (nf_key e);
  nf_read_blob m off e : nf_ok e → has_region m off (nf_blob e) →
    nf_len_at m off = key_len (nf_key e) ∧ nf_read m off = e
}.

(** ** Lower bounds *)

(** The number of leading elements that satisfy [P]. *)
Fixpoint lower_bound {A} (P : A → bool) (l : list A) : nat :=
  match l with
  | [] => 0
  | x :: l => if P x then S (lower_bound P l) else 0
  end.

Lemma lower_bound_le {A} (P : A → bool) l : (lower_bound P l ≤ length l)%nat.
Proof. induction l as [|x l IH]; cbn; [lia|]. destruct (P x); lia. Qed.

(** [P] is downward closed along [l]. *)
Definition downward {A} (P : A → bool) (l : list A) : Prop :=
  StronglySorted (λ x y, P y = true → P x = true) l.

(** When [P] is downward closed, [lower_bound] is where it flips. *)
Lemma lower_bound_spec {A} (P : A → bool) l (i : nat) x :
  downward P l → l !! i = Some x → P x = bool_decide (i < lower_bound P l)%nat.
Proof.
  intros Hs. revert i; induction Hs as [|y l Hs IH HF]; intros [|i] Hx; cbn in *; simplify_eq.
  - destruct (P x); [by rewrite bool_decide_true by lia|by rewrite bool_decide_false by lia].
  - destruct (P y) eqn:Ey.
    + rewrite (IH i) by done. apply bool_decide_ext. lia.
    + rewrite bool_decide_false by lia. rewrite Forall_lookup in HF. specialize (HF i x Hx).
      destruct (P x); [by discriminate HF|done].
Qed.

Lemma lower_bound_split {A} (P : A → bool) l :
  downward P l →
  Forall (λ x, P x = true) (take (lower_bound P l) l) ∧
  Forall (λ x, P x = false) (drop (lower_bound P l) l).
Proof.
  intros Hs. split; apply Forall_lookup; intros i x Hx.
  - apply lookup_take_Some in Hx as [Hx Hi]. by rewrite (lower_bound_spec _ _ _ _ Hs Hx), bool_decide_true.
  - rewrite lookup_drop in Hx. rewrite (lower_bound_spec _ _ _ _ Hs Hx). apply bool_decide_false. lia.
Qed.

(** The binary searches compute a lower bound. *)
Lemma search_lower_bound {A} (P : A → bool) (l : list A) go_right :
  downward P l → (∀ (i : nat) x, l !! i = Some x → go_right (Z.of_nat i) = Ret (P x)) →
  search_loop (search_fuel 0 (Z.of_nat (length l))) go_right 0 (Z.of_nat (length l)) =
  Ret (Z.of_nat (lower_bound P l)).
Proof.
  intros Hd Hgo. pose proof (lower_bound_le P l). apply search_loop_spec.
  - unfold search_fuel. lia.
  - lia.
  - intros mid Hmid. destruct (lookup_lt_is_Some_2 l (Z.to_nat mid) ltac:(lia)) as [x Hx].
    replace mid with (Z.of_nat (Z.to_nat mid)) by lia.
    rewrite (Hgo _ _ Hx), (lower_bound_spec _ _ _ _ Hd Hx). f_equal. apply bool_decide_ext. lia.
Qed.

(** Insertion at the lower bound keeps a list sorted. *)
Lemma sorted_insert {A} (R : A → A → Prop) (P : A → bool) x l :
  StronglySorted R l → downward P l →
  (∀ y, y ∈ l → P y = true → R y x) → (∀ y, y ∈ l → P y = false → R x y) →
  StronglySorted R (take (lower_bound P l) l ++ x :: drop (lower_bound P l) l).
Proof.
  intros Hs Hd H1 H2. destruct (lower_bound_split P l Hd) as [F1 F2].
  set (n := lower_bound P l) in *. rewrite <- (take_drop n l) in Hs.
  apply StronglySorted_app_elim in Hs as (Hs1 & Hs2 & H12).
  rewrite Forall_forall in F1. rewrite Forall_forall in F2. apply StronglySorted_app_intro; [done| |].
  - constructor; [done|]. apply Forall_forall. intros y Hy. apply H2; [by apply subseteq_drop in Hy|auto].
  - intros y z Hy [->|Hz]%elem_of_cons; [|by apply H12]. apply H1; [by apply subseteq_take in Hy|auto].
Qed.

Lemma insert_middle_perm {A} n (x : A) l : take n l ++ x :: drop n l ≡ₚ x :: l.
Proof. by rewrite <- Permutation_middle, take_drop. Qed.

Lemma fmap_take_drop_insert {A B} (g : A → B) n x l :
  g <$> (take n l ++ x :: drop n l) = take n (g <$> l) ++ g x :: drop n (g <$> l).
Proof. by rewrite fmap_app, fmap_cons, fmap_take, fmap_drop. Qed.

Lemma delete_fmap {A B} (g : A → B) (n : nat) (l : list A) : g <$> delete n l = delete n (g <$> l).
Proof. by rewrite !delete_take_drop, fmap_app, fmap_take, fmap_drop. Qed.

Lemma heap_ok_entry al valid m lo e es :
  heap_ok al valid m lo (e :: es) → entry_ok al valid m lo e ∧ heap_ok al valid m lo es.
Proof.
  intros [[H1 H2]%Forall_cons H3]. apply pairwise_cons in H3 as [_ H3]; [|apply _].
  split; [done|]. by split.
Qed.

Lemma heap_ok_perm al valid m lo es es' :
  es ≡ₚ es' → heap_ok al valid m lo es → heap_ok al valid m lo es'.
Proof.
  intros HP [H1 H2]. split; [by rewrite <- HP|by eapply pairwise_perm].
Qed.

Lemma heap_ok_sublist al valid m lo es k :
  heap_ok al valid m lo (es ++ k) → heap_ok al valid m lo es ∧ heap_ok al valid m lo k.
Proof.
  intros [[H1 H2]%Forall_app H3]. split; split; try done; intros i j a b Hij Ha Hb.
  - apply (H3 i j); [done|by rewrite lookup_app_l by eauto using lookup_lt_Some..].
  - apply (H3 (length es + i)%nat (length es + j)%nat);
      [lia|by rewrite lookup_app_r, Nat.add_comm, Nat.add_sub by lia..].
Qed.

(** ** Representation *)

Definition same_ids (p q : page) : Prop :=
  vh_pid (hdr p) = vh_pid (hdr q) ∧ vh_rlink (hdr p) = vh_rlink (hdr q) ∧
  vh_level (hdr p) = vh_level (hdr q) ∧ vh_max_val (hdr p) = vh_max_val (hdr q).

Section Node.
Context {E : Type} `{!NodeFormat E}.

Definition node_valid (blob : list Z) : Prop := ∃ e : E, blob = nf_blob e ∧ nf_ok e.
Definition node_entry (e : Z * E) : Z * list Z := (e.1, nf_blob e.2).
Definition node_heap := heap_ok nf_al node_valid.

(** The bytes an entry takes, padding included. *)
Definition entry_cost (e : E) : Z := padded nf_al (nf_hdr + key_len (nf_key e)).
Definition entries_cost (l : list E) : Z := zsum (entry_cost <$> l).

(** Slots and heap hold [es] and the fence [f], whatever count and fence the
    header shows: the state of a page under construction. *)
Record node_layout (p : page) (es : list (Z * E)) (f : option (Z * E)) : Prop := {
  nl_slots : has_slots p (es.*1);
  nl_room : header_size_ + 2 * Z.of_nat (length es) ≤ vh_heap_offset (hdr p) ≤ DB7_PAGE_SIZE;
  nl_al : vh_heap_offset (hdr p) mod nf_al = 0;
  nl_heap : node_heap (body p) (vh_heap_offset (hdr p)) (node_entry <$> (option_list f ++ es));
  nl_ok : Forall nf_ok ((option_list f ++ es).*2)
}.

(** Page [p] holds the entries [es] in slot order and the high fence [f]. *)
Record node_rep (p : page) (es : list (Z * E)) (f : option (Z * E)) : Prop := {
  nr_layout : node_layout p es f;
  nr_count : vh_count (hdr p) = Z.of_nat (length es);
  nr_max : vh_max_val (hdr p) = from_option fst UNDEFINED_OFFSET f
}.

(** The abstract content: the entries and the fence, without their offsets. *)
Definition node_abs (p : page) (l : list E) (fk : option E) : Prop :=
  ∃ es f, node_rep p es f ∧ es.*2 = l ∧ snd <$> f = fk.

(** The free bytes between the slot array and the heap. *)
Definition free_bytes (p : page) : Z :=
  vh_heap_offset (hdr p) - header_size_ - 2 * vh_count (hdr p).

(** The heap holds the entries and nothing else. *)
Definition fence_cost (fk : option E) : Z := from_option entry_cost 0 fk.
Definition tight (p : page) (l : list E) (fk : option E) : Prop :=
  vh_heap_offset (hdr p) = DB7_PAGE_SIZE - entries_cost l - fence_cost fk.

Definition fits (e : E) (p : page) : Prop := 2 + entry_cost e ≤ free_bytes p.

#[export] Instance fits_dec e p : Decision (fits e p).
Proof. unfold fits. apply _. Defined.

Lemma nf_al_pos : 0 < nf_al.
Proof. rewrite nf_al_pow. pose proof nf_log_range. apply Z.pow_pos_nonneg; lia. Qed.

Lemma entry_cost_bounds e :
  nf_hdr + key_len (nf_key e) ≤ entry_cost e ∧ entry_cost e < nf_hdr + key_len (nf_key e) + nf_al.
Proof.
  pose proof nf_hdr_pos. assert (0 ≤ key_len (nf_key e)) by (unfold key_len; lia).
  pose proof (padded_bounds nf_al nf_log nf_al_pow nf_log_range (nf_hdr + key_len (nf_key e))).
  unfold entry_cost. lia.
Qed.

Lemma entry_cost_pos e : 0 < entry_cost e.
Proof.
  pose proof (entry_cost_bounds e). pose proof nf_hdr_pos. unfold key_len in *. lia.
Qed.

Lemma entry_cost_mod e : entry_cost e mod nf_al = 0.
Proof. apply padded_mod. Qed.

Lemma entries_cost_cons e l : entries_cost (e :: l) = entry_cost e + entries_cost l.
Proof. done. Qed.

Lemma entries_cost_app l k : entries_cost (l ++ k) = entries_cost l + entries_cost k.
Proof. unfold entries_cost. by rewrite fmap_app, zsum_app. Qed.

Lemma entries_cost_nonneg l : 0 ≤ entries_cost l.
Proof.
  apply zsum_nonneg, Forall_fmap, Forall_forall. intros e _. cbn. pose proof (entry_cost_pos e). lia.
Qed.

Lemma entries_cost_mod l : entries_cost l mod nf_al = 0.
Proof.
  pose proof nf_al_pos. induction l as [|e l IH].
  - apply Z.mod_0_l. lia.
  - rewrite entries_cost_cons, Zplus_mod, IH, entry_cost_mod. apply Z.mod_0_l. lia.
Qed.

Lemma node_valid_len m off blob :
  node_valid blob → has_region m off blob →
  nf_hdr + nf_len_at m off = Z.of_nat (length blob) ∧ 0 ≤ nf_len_at m off.
Proof.
  intros (e & -> & He) Hr. destruct (nf_read_blob m off e He Hr) as [-> _].
  rewrite nf_length. unfold key_len. lia.
Qed.

Lemma node_offsets es : (node_entry <$> es).*1 = es.*1.
Proof. rewrite <- list_fmap_compose. by apply list_fmap_ext. Qed.

Lemma node_blobs es : (node_entry <$> es).*2 = nf_blob <$> es.*2.
Proof. by rewrite <- !list_fmap_compose. Qed.

Lemma node_heap_cost es : heap_cost nf_al (node_entry <$> es) = entries_cost (es.*2).
Proof.
  unfold heap_cost, entries_cost. rewrite <- !list_fmap_compose. f_equal.
  apply list_fmap_ext. intros i e _. unfold compose, node_entry, entry_cost. cbn [fst snd].
  by rewrite nf_length.
Qed.

Lemma node_layout_ext p q es f :
  body p = body q → vh_heap_offset (hdr p) = vh_heap_offset (hdr q) →
  node_layout p es f → node_layout q es f.
Proof.
  intros Hb Hh [H1 H2 H3 H4 H5]. unfold has_slots in *. rewrite Hb in H1, H4.
  rewrite Hh in H2, H3, H4. by split.
Qed.

Lemma node_layout_empty p : vh_heap_offset (hdr p) = DB7_PAGE_SIZE → node_layout p [] None.
Proof.
  intros Hh. split; rewrite ?Hh; try done. apply nf_page_al.
Qed.

Lemma node_layout_slot p es f (i : nat) e :
  node_layout p es f → es !! i = Some e →
  GetSlot p (Z.of_nat i) = e.1 ∧ nf_read (body p) e.1 = e.2 ∧
  nf_len_at (body p) e.1 = key_len (nf_key e.2) ∧ nf_ok e.2.
Proof.
  intros [Hs Hro Hal Hh Hok] Hi. rewrite fmap_app in Hh. apply heap_ok_sublist in Hh as [_ Hh].
  destruct Hh as [He _].
  assert (Hslot : GetSlot p (Z.of_nat i) = e.1).
  { apply (GetSlot_entry nf_al nf_log node_valid nf_log_range p (vh_heap_offset (hdr p))
             (node_entry <$> es) i (node_entry e)).
    - by rewrite node_offsets.
    - unfold header_size_ in *. lia.
    - done.
    - by rewrite list_lookup_fmap, Hi. }
  rewrite fmap_app, Forall_app in Hok. destruct Hok as [_ Hok].
  rewrite Forall_lookup in Hok. rewrite Forall_lookup in He.
  assert (Hoke : nf_ok e.2) by (apply (Hok i); by rewrite list_lookup_fmap, Hi).
  destruct (He i (node_entry e)) as (_ & _ & _ & _ & Hreg); [by rewrite list_lookup_fmap, Hi|].
  destruct (nf_read_blob _ _ _ Hoke Hreg) as [H1 H2]. done.
Qed.

Lemma node_rep_fence p es f :
  node_rep p es f →
  match f with
  | None => (vh_max_val (hdr p) =? UNDEFINED_OFFSET) = true
  | Some e => (vh_max_val (hdr p) =? UNDEFINED_OFFSET) = false ∧
              nf_read (body p) (vh_max_val (hdr p)) = e.2 ∧ nf_ok e.2
  end.
Proof.
  intros [[_ _ _ Hh Hok] _ Hm]. destruct f as [e|]; cbn in *; [|by rewrite Hm].
  apply heap_ok_entry in Hh as [He _]. apply Forall_cons in Hok as [Hok _].
  destruct He as (_ & Hend & _ & _ & Hreg).
  destruct (nf_read_blob _ _ _ Hok Hreg) as [_ H2]. rewrite Hm.
  split_and!; [|done|done]. apply Z.eqb_neq.
  unfold entry_end, DB7_PAGE_SIZE, UNDEFINED_OFFSET, UINT16_MAX in *. cbn in *. lia.
Qed.

(** The entries and their padding fit between the slots and the end. *)
Lemma node_layout_cost p es f :
  node_layout p es f →
  entries_cost ((option_list f ++ es).*2) ≤ DB7_PAGE_SIZE - vh_heap_offset (hdr p).
Proof.
  intros [_ Hro Hal [HF Hd] _]. rewrite <- node_heap_cost. pose proof nf_hdr_pos.
  apply heap_cost_le; [apply nf_al_pos|done| |lia|apply nf_page_al].
  eapply Forall_impl; [exact HF|]. intros e (H1 & H2 & H3 & (k & Hk & _) & _). split_and!; try done.
  rewrite Hk, nf_length. unfold key_len. lia.
Qed.

Lemma node_rep_cost p es f :
  node_rep p es f →
  header_size_ + 2 * Z.of_nat (length es) + entries_cost (es.*2) + fence_cost (snd <$> f) ≤ DB7_PAGE_SIZE.
Proof.
  intros [Hl _ _]. pose proof (node_layout_cost _ _ _ Hl) as Hc. pose proof (nl_room _ _ _ Hl).
  rewrite fmap_app, entries_cost_app in Hc.
  assert (entries_cost ((option_list f).*2) = fence_cost (snd <$> f)) as Hf; [|lia].
  destruct f; cbn; [unfold entries_cost; cbn; lia|done].
Qed.

Lemma node_rep_ok p es f : node_rep p es f → Forall nf_ok (option_list (snd <$> f) ++ es.*2).
Proof.
  intros [[_ _ _ _ Hok] _ _]. rewrite fmap_app in Hok. by destruct f.
Qed.

(** ** Insertion *)

(** Allocating an entry: the heap grows, the slots still show [es]. *)
Lemma append_layout p es f e :
  node_layout p es f → nf_ok e →
  header_size_ + 2 * Z.of_nat (length es) + entry_cost e ≤ vh_heap_offset (hdr p) →
  let off := vh_heap_offset (hdr p) - entry_cost e in
  ∃ m, let p1 := set_heap_offset (set_body p m) off in
    AppendBlob nf_hdr nf_al p (key_len (nf_key e)) (nf_blob e) = Ret (p1, off) ∧
    node_layout p1 es f ∧
    node_heap m off (node_entry <$> ((off, e) :: option_list f ++ es)) ∧
    nf_read m off = e.
Proof.
  intros [Hs Hr Hm Hh Hok] Hk Hfit off. unfold header_size_ in *.
  pose proof (entry_cost_bounds e) as Hcost. pose proof nf_hdr_pos.
  assert (0 ≤ key_len (nf_key e)) by (unfold key_len; lia).
  destruct (AppendBlob_ok nf_hdr nf_al nf_log node_valid nf_al_pow nf_log_range nf_hdr_pos p
              (key_len (nf_key e)) (nf_blob e) _ Hh) as (off' & Hap & Hoff & Hmod & Hoff0 & Hheap);
    [done|lia|by exists e|done|apply nf_length|lia|].
  fold (entry_cost e) in Hoff. fold off in Hoff. subst off'.
  exists (write_bytes (body p) off (nf_blob e)). cbv zeta.
  split; [exact Hap|]. split; [|split; [exact Hheap|]].
  - split; try done.
    + apply (has_slots_frame p); [|done]. rewrite length_fmap. unfold header_size_. lia.
    + cbn. unfold header_size_. lia.
    + exact (proj2 (heap_ok_entry _ _ _ _ _ _ Hheap)).
  - destruct (heap_ok_entry _ _ _ _ _ _ Hheap) as [(_ & _ & _ & _ & Hreg) _].
    by destruct (nf_read_blob _ _ _ Hk Hreg).
Qed.

(** Publishing the entry at [off] in the slot array. *)
Lemma insert_slot_layout p es f e off (n : nat) :
  node_layout p es f → nf_ok e → (n ≤ length es)%nat →
  header_size_ + 2 * (Z.of_nat (length es) + 1) ≤ vh_heap_offset (hdr p) →
  node_heap (body p) (vh_heap_offset (hdr p)) (node_entry <$> ((off, e) :: option_list f ++ es)) →
  let q := ShiftRightInsert p (Z.of_nat n) (Z.of_nat (length es)) off in
  node_layout q (take n es ++ (off, e) :: drop n es) f ∧ hdr q = hdr p.
Proof.
  intros [Hsl Hro Hal _ Hok] Hk Hn Hroom Hheap q. split; [|done].
  assert (Hlen : Z.of_nat (length (take n es ++ (off, e) :: drop n es)) = Z.of_nat (length es) + 1).
  { rewrite length_app, length_take, length_cons, length_drop. lia. }
  assert (HP : (off, e) :: option_list f ++ es ≡ₚ option_list f ++ take n es ++ (off, e) :: drop n es).
  { rewrite <- (Permutation_middle (take n es)), take_drop. apply Permutation_middle. }
  split; cbn [q ShiftRightInsert SetSlot set_body hdr].
  - rewrite fmap_take_drop_insert. unfold q. rewrite <- (length_fmap fst es) at 1.
    apply (has_slots_ShiftRightInsert p); [done|]. by rewrite length_fmap.
  - rewrite Hlen. lia.
  - done.
  - eapply heap_ok_perm; [apply fmap_Permutation, HP|].
    apply (heap_ok_frame nf_al nf_log node_valid nf_log_range (body p)); [|exact Hheap].
    intros a Ha. apply ShiftRightInsert_frame; [lia|].
    unfold slot_addr, header_size_ in *. lia.
  - rewrite <- HP. by constructor.
Qed.

(** Appending and publishing: the two steps [Insert] and [Split] share.  The
    search between them runs on a page with the same entries. *)
Lemma append_insert p l fk e (n : nat) :
  node_abs p l fk → nf_ok e → fits e p → (n ≤ length l)%nat →
  ∃ p1 off, AppendBlob nf_hdr nf_al p (key_len (nf_key e)) (nf_blob e) = Ret (p1, off) ∧
    nf_read (body p1) off = e ∧ node_abs p1 l fk ∧ vh_count (hdr p1) = vh_count (hdr p) ∧
    let q := set_count (ShiftRightInsert p1 (Z.of_nat n) (vh_count (hdr p1)) off)
                       (to_u16 (vh_count (hdr p1) + 1)) in
    node_abs q (take n l ++ e :: drop n l) fk ∧ same_ids p q ∧
    vh_heap_offset (hdr q) = vh_heap_offset (hdr p) - entry_cost e.
Proof.
  intros (es & f & [Hl Hc Hm] & <- & <-) Hk Hfit Hn. rewrite length_fmap in Hn.
  unfold fits, free_bytes in *. rewrite Hc in *. pose proof (nl_room _ _ _ Hl) as Hro.
  pose proof (entry_cost_pos e).
  destruct (append_layout p es f e Hl Hk ltac:(lia)) as (m & Ha & Hl1 & Hh & Hread).
  set (off := vh_heap_offset (hdr p) - entry_cost e) in *.
  set (p1 := set_heap_offset (set_body p m) off) in *.
  assert (Hroom : header_size_ + 2 * (Z.of_nat (length es) + 1) ≤ vh_heap_offset (hdr p1)).
  { cbn. unfold off. lia. }
  destruct (insert_slot_layout p1 es f e off n Hl1 Hk Hn Hroom Hh) as [Hl2 Hhd].
  assert (Hc1 : vh_count (hdr p1) = Z.of_nat (length es)) by done.
  exists p1, off. rewrite Hc1 in *. split; [done|]. split; [done|]. split; [|split; [done|]].
  { exists es, f. split; [|done]. by split. }
  unfold header_size_, DB7_PAGE_SIZE in *. rewrite (wrap_small 16) by lia.
  cbv zeta. split; [|split].
  - exists (take n es ++ (off, e) :: drop n es), f. split; [|split; [|done]].
    + split; [by eapply node_layout_ext; [..|exact Hl2]| |done].
      cbn. rewrite length_app, length_take, length_cons, length_drop. lia.
    + by rewrite fmap_take_drop_insert.
  - by repeat split.
  - done.
Qed.

Lemma entries_cost_perm l k : l ≡ₚ k → entries_cost l = entries_cost k.
Proof. intros HP. apply zsum_perm. by rewrite HP. Qed.

Lemma tight_insert p q l fk e n :
  vh_heap_offset (hdr q) = vh_heap_offset (hdr p) - entry_cost e → tight p l fk →
  tight q (take n l ++ e :: drop n l) fk.
Proof.
  unfold tight. intros -> ->. rewrite (entries_cost_perm _ _ (insert_middle_perm n e l)).
  rewrite entries_cost_cons. lia.
Qed.

(** [HasSpace] is exact while the heap can hold the entry at all. *)
Lemma has_space_ok p l fk e :
  node_abs p l fk → nf_hdr + key_len (nf_key e) ≤ vh_heap_offset (hdr p) →
  SlottedPage.HasSpace nf_hdr nf_al p (key_len (nf_key e)) = bool_decide (fits e p).
Proof.
  intros (es & f & [[_ Hro Hal _ _] Hc _] & _) Hle. unfold SlottedPage.HasSpace. rewrite Hc.
  assert (0 ≤ key_len (nf_key e)) by (unfold key_len; lia).
  unfold header_size_, DB7_PAGE_SIZE in *.
  rewrite (CalculateHeapOffset_eq nf_hdr nf_al nf_log nf_al_pow nf_log_range nf_hdr_pos) by lia.
  fold (entry_cost e). rewrite (wrap_small 16) by lia.
  case_bool_decide as H'; unfold fits, free_bytes, header_size_ in H'; rewrite Hc in H';
    [apply Z.leb_le|apply Z.leb_gt]; lia.
Qed.

Lemma fits_room p l fk e :
  node_abs p l fk → fits e p → nf_hdr + key_len (nf_key e) ≤ vh_heap_offset (hdr p).
Proof.
  intros (es & f & [_ Hc _] & _). unfold fits, free_bytes, header_size_. rewrite Hc.
  pose proof (entry_cost_bounds e). lia.
Qed.

(** ** Deletion *)

Lemma delete_slot p l fk (n : nat) :
  node_abs p l fk → (n < length l)%nat →
  ∃ m, ShiftLeftDelete p (Z.of_nat n) (vh_count (hdr p)) = Ret (set_body p m) ∧
    node_abs (set_count (set_body p m) (to_u16 (vh_count (hdr p) - 1))) (delete n l) fk.
Proof.
  intros (es & f & [[Hsl Hro Hal Hh Hok] Hc Hm] & <- & <-) Hn. rewrite length_fmap in Hn.
  destruct (lookup_lt_is_Some_2 es n Hn) as [e He].
  destruct (has_slots_ShiftLeftDelete p (es.*1) n) as (m & Hsh & Hsl' & Hfr);
    [done|by rewrite length_fmap|rewrite length_fmap; lia|].
  rewrite length_fmap in *. rewrite Hc. exists m. split; [done|].
  unfold header_size_, DB7_PAGE_SIZE in *. rewrite (wrap_small 16) by lia.
  assert (Hlen : Z.of_nat (length (delete n es)) = Z.of_nat (length es) - 1).
  { rewrite length_delete by eauto. lia. }
  assert (HP : e :: option_list f ++ delete n es ≡ₚ option_list f ++ es).
  { rewrite delete_take_drop. rewrite <- (take_drop_middle es n e He) at 3.
    rewrite <- (Permutation_middle (take n es)). apply Permutation_middle. }
  exists (delete n es), f. split; [|split; [by rewrite delete_fmap|done]].
  split; [|cbn; lia|done]. split; cbn [hdr set_count set_body body vh_heap_offset].
  - rewrite delete_fmap. exact Hsl'.
  - unfold header_size_, DB7_PAGE_SIZE. lia.
  - done.
  - apply (heap_ok_frame nf_al nf_log node_valid nf_log_range (body p)); [intros a Ha; apply Hfr; lia|].
    apply (heap_ok_entry _ _ _ _ (node_entry e)). eapply heap_ok_perm; [|exact Hh].
    symmetry. by apply (fmap_Permutation node_entry) in HP.
  - rewrite <- HP in Hok. by apply Forall_cons in Hok as [_ Hok].
Qed.

(** ** Splitting *)

Lemma layout_snoc p es f e off m :
  header_size_ + 2 * (Z.of_nat (length es) + 1) ≤ off ≤ DB7_PAGE_SIZE → nf_ok e →
  node_layout (set_heap_offset (set_body p m) off) es f →
  node_heap m off (node_entry <$> ((off, e) :: option_list f ++ es)) →
  node_layout (SetSlot (set_heap_offset (set_body p m) off) (Z.of_nat (length es)) off)
              (es ++ [(off, e)]) f.
Proof.
  intros Hoff Hk [Hs _ Hal _ Hok] Hh. unfold header_size_ in *.
  split; cbn [hdr SetSlot set_body set_heap_offset vh_heap_offset body].
  - rewrite fmap_app. cbn [fmap list_fmap fst].
    rewrite <- (length_fmap fst es). by apply (has_slots_snoc (set_heap_offset (set_body p m) off)).
  - rewrite length_app. unfold header_size_. cbn. lia.
  - done.
  - apply (heap_ok_frame nf_al nf_log node_valid nf_log_range m).
    + intros a Ha. unfold store. apply rd_write_out. rewrite length_le_bytes.
      unfold slot_addr, header_size_. lia.
    + eapply heap_ok_perm; [|exact Hh]. apply fmap_Permutation.
      rewrite app_assoc. apply Permutation_cons_append.
  - rewrite app_assoc, fmap_app, Forall_app. split; [done|]. by constructor.
Qed.

Section Copy.
Context (left : page) (es : list (Z * E)) (fl : option (Z * E)) (Hl : node_rep left es fl).
Context (append_entry : page → Z → outcome (page * Z)).
Context (Happ : ∀ right off e, nf_read (body left) off = e → nf_ok e →
  append_entry right off = AppendBlob nf_hdr nf_al right (key_len (nf_key e)) (nf_blob e)).

Lemma copy_loop_ok n right (i split : nat) cur fr :
  (i + n = length es)%nat → (i = split + length cur)%nat → node_layout right cur fr →
  header_size_ + 2 * Z.of_nat (length cur + n) + entries_cost (drop i (es.*2)) ≤
    vh_heap_offset (hdr right) →
  ∃ m cur', let right' := set_heap_offset (set_body right m)
                            (vh_heap_offset (hdr right) - entries_cost (drop i (es.*2))) in
    copy_loop append_entry left n right (Z.of_nat i) (Z.of_nat split) = Ret right' ∧
    cur'.*2 = cur.*2 ++ drop i (es.*2) ∧ node_layout right' cur' fr.
Proof.
  revert right i cur; induction n as [|n IH]; intros right i cur Hn Hi Hr Hroom.
  { rewrite drop_ge by (rewrite length_fmap; lia). exists (body right), cur. cbv zeta.
    change (entries_cost []) with 0. rewrite Z.sub_0_r, app_nil_r.
    destruct right as [[] ?]. by split_and!. }
  destruct (lookup_lt_is_Some_2 es i ltac:(lia)) as [e He].
  destruct (node_layout_slot left es fl i e (nr_layout _ _ _ Hl) He) as (Hslot & Hv & _ & Hk).
  assert (Hd : drop i (es.*2) = e.2 :: drop (S i) (es.*2)).
  { apply drop_S. by rewrite list_lookup_fmap, He. }
  rewrite Hd, entries_cost_cons in *. cbn [copy_loop].
  pose proof (entries_cost_nonneg (drop (S i) es.*2)). pose proof (entry_cost_pos e.2).
  rewrite Hslot, (Happ right e.1 e.2 Hv Hk).
  destruct (append_layout right cur fr e.2 Hr Hk ltac:(lia)) as (m & -> & Hl1 & Hh1 & _).
  rewrite bind_Ret. cbv beta iota. subst i.
  replace (Z.of_nat (split + length cur) - Z.of_nat split) with (Z.of_nat (length cur)) by lia.
  set (off := vh_heap_offset (hdr right) - entry_cost e.2) in *. pose proof (nl_room _ _ _ Hr) as Hrr.
  assert (Hl2 := layout_snoc right cur fr e.2 off m ltac:(unfold off; lia) Hk Hl1 Hh1).
  set (right1 := SetSlot _ _ _) in *.
  destruct (IH right1 (S (split + length cur)) (cur ++ [(off, e.2)])) as (m' & cur' & Hc & Hc' & Hl').
  - lia.
  - rewrite length_app. cbn. lia.
  - exact Hl2.
  - rewrite length_app. cbn [length right1 SetSlot set_body set_heap_offset hdr vh_heap_offset].
    unfold off. lia.
  - exists m', cur'. cbn [right1 SetSlot set_body set_heap_offset hdr vh_heap_offset] in Hc, Hl'.
    replace (Z.of_nat (split + length cur) + 1) with (Z.of_nat (S (split + length cur))) by lia.
    replace (vh_heap_offset (hdr right) - (entry_cost e.2 + entries_cost (drop (S (split + length cur)) es.*2)))
      with (off - entries_cost (drop (S (split + length cur)) es.*2)) by (unfold off; lia).
    cbv zeta. rewrite Hc. split_and!; [done| |exact Hl'].
    rewrite Hc', fmap_app. cbn. by rewrite <- app_assoc.
Qed.

End Copy.

Lemma CopyHalfRight_ok left es fl append_entry right (s : nat) :
  node_rep left es fl →
  (∀ right off e, nf_read (body left) off = e → nf_ok e →
    append_entry right off = AppendBlob nf_hdr nf_al right (key_len (nf_key e)) (nf_blob e)) →
  (s ≤ length es)%nat → vh_heap_offset (hdr right) = DB7_PAGE_SIZE →
  header_size_ + 2 * Z.of_nat (length es - s) + entries_cost (drop s (es.*2)) +
    fence_cost (snd <$> fl) ≤ DB7_PAGE_SIZE →
  ∃ m es' f', let right' := set_heap_offset (set_body right m)
                (DB7_PAGE_SIZE - entries_cost (drop s (es.*2)) - fence_cost (snd <$> fl)) in
    CopyHalfRight append_entry left right (Z.of_nat s) = Ret (right', from_option fst UNDEFINED_OFFSET f') ∧
    snd <$> f' = snd <$> fl ∧ es'.*2 = drop s (es.*2) ∧ node_layout right' es' f'.
Proof.
  intros Hl Happ Hs Hh Hroom. unfold CopyHalfRight. rewrite (nr_count _ _ _ Hl).
  replace (Z.to_nat (Z.of_nat (length es) - Z.of_nat s)) with (length es - s)%nat by lia.
  pose proof (node_rep_fence _ _ _ Hl) as Hf. pose proof (node_layout_empty right Hh) as Hr0.
  pose proof (entries_cost_nonneg (drop s es.*2)).
  destruct fl as [e|]; cbn [fmap option_fmap option_map fence_cost from_option] in *.
  - destruct Hf as (-> & Hv & Hk). cbn [negb]. rewrite (Happ right _ e.2 Hv Hk).
    destruct (append_layout right [] None e.2 Hr0 Hk) as (m & Ha & Hl1 & Hh1 & _).
    { rewrite Hh. cbn [length]. lia. }
    rewrite Ha, bind_Ret. cbv beta iota. rewrite Hh in *.
    set (off := DB7_PAGE_SIZE - entry_cost e.2) in *.
    set (right1 := set_heap_offset (set_body right m) off) in *.
    assert (Hr1 : node_layout right1 [] (Some (off, e.2))) by (destruct Hl1; split; try done; by constructor).
    destruct (copy_loop_ok left es (Some e) Hl append_entry Happ (length es - s) right1 s s [] (Some (off, e.2)))
      as (m' & cur' & Hc & Hc' & Hlay); [lia|cbn; lia|done|cbn; unfold off; lia|].
    rewrite Hc, bind_Ret. cbn [right1 hdr set_heap_offset vh_heap_offset] in Hlay |- *.
    exists m', cur', (Some (off, e.2)).
    replace (DB7_PAGE_SIZE - entries_cost (drop s es.*2) - entry_cost e.2)
      with (off - entries_cost (drop s es.*2)) by (unfold off; lia).
    by split_and!.
  - rewrite Hf. cbn [negb]. rewrite bind_Ret. cbv beta iota.
    destruct (copy_loop_ok left es None Hl append_entry Happ (length es - s) right s s [] None)
      as (m' & cur' & Hc & Hc' & Hlay); [lia|cbn; lia|done|rewrite Hh; cbn in *; lia|].
    rewrite Hc, bind_Ret, Hh in *. exists m', cur', None. rewrite Z.sub_0_r. by split_and!.
Qed.

Lemma node_entries_of_blobs (cur : list (Z * list Z)) l :
  cur.*2 = nf_blob <$> l → ∃ es, cur = node_entry <$> es ∧ es.*2 = l.
Proof.
  revert l; induction cur as [|[o b] cur IH]; intros [|e l] Heq; try discriminate Heq.
  - by exists [].
  - injection Heq as -> Heq. destruct (IH l Heq) as (es & -> & <-). by exists ((o, e) :: es).
Qed.

(** Compacting the first [s] entries and adding the sentinel. *)
Lemma compact_left_ok left es fl (s : nat) sent :
  node_rep left es fl → (s ≤ length es)%nat → nf_ok sent →
  header_size_ + 2 * Z.of_nat s + entries_cost (take s (es.*2)) + entry_cost sent ≤ DB7_PAGE_SIZE →
  ∃ m1 m2 es', let left1 := set_heap_offset (set_body left m1) (DB7_PAGE_SIZE - entries_cost (take s (es.*2))) in
    let off := DB7_PAGE_SIZE - entries_cost (take s (es.*2)) - entry_cost sent in
    let left2 := set_heap_offset (set_body left m2) off in
    CompactHeap nf_hdr nf_al nf_len_at (set_heap_offset left DB7_PAGE_SIZE) (Z.of_nat s) = Ret left1 ∧
    AppendBlob nf_hdr nf_al left1 (key_len (nf_key sent)) (nf_blob sent) = Ret (left2, off) ∧
    es'.*2 = take s (es.*2) ∧ node_layout left2 es' (Some (off, sent)).
Proof.
  intros [[Hsl Hro Hal Hh Hok] Hc Hm] Hs Hk Hroom.
  set (lo := vh_heap_offset (hdr left)) in *.
  assert (Hlen : length (node_entry <$> take s es) = s) by (rewrite length_fmap, length_take; lia).
  assert (Htake : heap_ok nf_al node_valid (body left) lo (node_entry <$> take s es)).
  { rewrite <- (take_drop s es), !fmap_app in Hh. apply heap_ok_sublist in Hh as [_ Hh].
    by apply heap_ok_sublist in Hh as [Hh _]. }
  destruct (CompactHeap_ok nf_hdr nf_al nf_log nf_len_at node_valid nf_al_pow nf_log_range nf_hdr_pos
              node_valid_len (set_heap_offset left DB7_PAGE_SIZE) lo (node_entry <$> take s es))
    as (p' & cur' & Hcp & Hc2 & Hs' & Hh' & Hlo' & Hho & m1 & Hp').
  - rewrite node_offsets, fmap_take. by apply has_slots_take.
  - rewrite Hlen. lia.
  - done.
  - apply nf_page_al.
  - exact Htake.
  - rewrite Hlen in Hcp. rewrite node_blobs in Hc2.
    apply node_entries_of_blobs in Hc2 as (es' & -> & He2).
    rewrite node_heap_cost in Hho. rewrite !fmap_take in *. rewrite node_offsets in Hs'.
    assert (Hlen' : length es' = s).
    { rewrite <- (length_fmap snd), He2, length_take, length_fmap. lia. }
    pose proof (entry_cost_pos sent). pose proof (entries_cost_nonneg (take s es.*2)).
    assert (Hl1 : node_layout p' es' None).
    { split; [done|..].
      - rewrite Hlen', Hho. lia.
      - rewrite Hho. apply mod_sub_0; [apply nf_page_al|apply entries_cost_mod].
      - exact Hh'.
      - cbn. rewrite He2. apply Forall_take. rewrite fmap_app in Hok. by apply Forall_app in Hok as [_ ?]. }
    destruct (append_layout p' es' None sent Hl1 Hk) as (m2 & Ha & Hl2 & Hh2 & _).
    { rewrite Hlen', Hho. lia. }
    rewrite Hho in *. change (set_body (set_heap_offset left DB7_PAGE_SIZE) m1)
      with (mkPage (hdr (set_heap_offset left DB7_PAGE_SIZE)) m1) in Hp'.
    exists m1, m2, es'.
    assert (Hleft : set_heap_offset (set_body left m1) (DB7_PAGE_SIZE - entries_cost (take s es.*2)) = p')
      by (by rewrite Hp').
    rewrite Hleft. split_and!; [exact Hcp| |done|].
    + rewrite Ha, Hp'. done.
    + destruct Hl2. rewrite Hp' in *. split; try done. by constructor.
Qed.

(** The payload bytes of a list of entries. *)
Definition lens (l : list E) : Z := zsum ((λ e, key_len (nf_key e)) <$> l).

Lemma lens_cons e l : lens (e :: l) = key_len (nf_key e) + lens l.
Proof. done. Qed.

Lemma lens_app l k : lens (l ++ k) = lens l + lens k.
Proof. unfold lens. by rewrite fmap_app, zsum_app. Qed.

(** The split point cuts the entries in [A ++ [x]] and [B], where [A] holds
    less than half of the payload. *)
Lemma find_split_point p l fk :
  node_abs p l fk → (2 ≤ length l)%nat → 2 ≤ lens l →
  ∃ A x B sent, l = A ++ x :: B ∧ head B = Some sent ∧
    FindSplitPoint nf_len_at p (vh_count (hdr p)) = Ret (Z.of_nat (S (length A))) ∧
    2 * lens A < lens l ∧ (2 * lens B ≤ lens l + 1 ∨ B = [sent]).
Proof.
  intros (es & f & Hr & <- & <-) Hn Hpos. rewrite length_fmap in Hn.
  pose proof (node_rep_cost _ _ _ Hr) as Hroom. pose proof (nr_layout _ _ _ Hr) as Hl.
  assert (Hcost : ∀ l, lens l + Z.of_nat (length l) ≤ entries_cost l).
  { intros l. pose proof nf_hdr_pos. induction l as [|e l IH]; [cbn; lia|].
    rewrite lens_cons, entries_cost_cons. pose proof (entry_cost_bounds e). cbn [length]. lia. }
  specialize (Hcost es.*2). rewrite length_fmap in Hcost.
  assert (0 ≤ fence_cost (snd <$> f)) as Hfc.
  { destruct f as [e|]; cbn; [pose proof (entry_cost_pos e.2)|]; lia. }
  unfold header_size_, DB7_PAGE_SIZE in Hroom. set (g := λ e, key_len (nf_key e)).
  assert (HL : length (g <$> es.*2) = length es) by (by rewrite !length_fmap).
  destruct (FindSplitPoint_ok nf_len_at p (g <$> es.*2)) as (s & Hf & Hs & H1 & H2).
  - rewrite HL. apply list_eq. intros i. rewrite !list_lookup_fmap.
    destruct (decide (i < length es)%nat) as [Hi|Hi].
    + rewrite lookup_seqZ_lt by lia. destruct (lookup_lt_is_Some_2 es i Hi) as [e He]. rewrite He.
      cbn [fmap option_fmap option_map].
      destruct (node_layout_slot p es f i e Hl He) as (Hsl & _ & Hle & _).
      rewrite Z.add_0_l, Hsl, Hle. done.
    + rewrite lookup_seqZ_ge, lookup_ge_None_2 by lia. done.
  - apply Forall_fmap, Forall_forall. intros k _. unfold g, compose, key_len. lia.
  - change (zsum (g <$> es.*2)) with (lens es.*2). lia.
  - lia.
  - lia.
  - rewrite HL in *. rewrite <- fmap_take, <- fmap_drop in *.
    destruct (lookup_lt_is_Some_2 (es.*2) s) as [sent Hsent]; [rewrite length_fmap; lia|].
    destruct (lookup_lt_is_Some_2 (es.*2) (s - 1)) as [x Hx]; [rewrite length_fmap; lia|].
    exists (take (s - 1) (es.*2)), x, (drop s (es.*2)), sent.
    assert (Hd : drop s es.*2 = sent :: drop (S s) es.*2) by (by apply drop_S).
    split_and!.
    + rewrite <- (take_drop_middle (es.*2) (s - 1) x Hx) at 1. do 3 f_equal. lia.
    + by rewrite Hd.
    + rewrite (nr_count _ _ _ Hr), Hf. do 2 f_equal. rewrite length_take, length_fmap. lia.
    + done.
    + destruct H2 as [H2| ->]; [by left|right]. rewrite Hd. f_equal.
      apply drop_ge. rewrite length_fmap. lia.
Qed.

End Node.
