(* ===== verification/Leaf.v ===== *)
(** * The leaf layout (varlen_layout_leaf.hpp)

    [BtreeVarlenLayoutLeaf<ValTyp>] with [ValTyp = TupleId] (8 bytes): a leaf
    keeps entries [u16 len; len bytes], where the last 8 bytes are the
    big-endian tuple id, in a slot array sorted by [CmpFull].

    A [Key] is the byte string of its [len] bytes; [Key()] (null data, length
    0) is the empty string.  [ResultObj<void>::Ok()] is the normal return. *)

From S2P Require Import Prelude Bytes Shared Memory SlottedPage.

Definition sizeof_ValTyp : Z := 8.

Module Leaf.

(** [SlotValLeaf(page_data, heap_offset)]: the length header and the bytes. *)
Definition len_at (m : mem) (heap_offset : Z) : Z := load 2 m heap_offset.
Definition SlotValLeaf (m : mem) (heap_offset : Z) : list Z :=
  read_bytes m (heap_offset + 2) (Z.to_nat (len_at m heap_offset)).

(** [SlotValLeaf::Result()]: the last 8 bytes, byte-swapped. *)
Definition Result (v : list Z) : Z :=
  ByteSwapIfLittleEndian 8 (le_val (drop (Z.to_nat (key_len v - sizeof_ValTyp)) v)).

Definition CalculateHeapOffset := SlottedPage.CalculateHeapOffset 2 2.

Definition AppendHeap (data : page) (key : Key) : outcome (page * Z) :=
  AppendBlob 2 2 data (key_len key) (le_bytes 2 (key_len key) ++ key).

Definition MoveHeap := SlottedPage.MoveHeap 2 2.

(** [(main_val.len < slot_val.len) - (main_val.len > slot_val.len)]. *)
Definition len_cmp (slot_val main_val : list Z) : Z :=
  Z.b2z (key_len main_val <? key_len slot_val) - Z.b2z (key_len slot_val <? key_len main_val).

Definition CmpPrefix (slot_val main_val : list Z) : Z :=
  let min_len := to_u32 (to_u64 (Z.min (key_len main_val) (key_len slot_val) - sizeof_ValTyp)) in
  if DB7_MAX_ROW_SIZE <=? min_len then 1
  else
    let cmp := memcmp slot_val main_val min_len in
    if negb (cmp =? 0) then cmp else len_cmp slot_val main_val.

Definition CmpFull (slot_val main_val : list Z) : Z :=
  let min_len := Z.min (key_len main_val) (key_len slot_val) in
  let cmp := memcmp slot_val main_val min_len in
  if negb (cmp =? 0) then cmp else len_cmp slot_val main_val.

(** The entry of slot [mid]. *)
Definition slot_val (data : page) (mid : Z) : list Z :=
  SlotValLeaf (body data) (GetSlot data mid).

Definition FindInsertPosition (data : page) (main_val : list Z) (count : Z) : outcome Z :=
  search_loop (search_fuel 0 count)
    (λ mid, Ret (CmpFull (slot_val data mid) main_val <? 0)) 0 count.

Definition FindStartPosition (data : page) (main_val : list Z) (count : Z) : outcome Z :=
  search_loop (search_fuel 0 count)
    (λ mid, Ret (CmpPrefix (slot_val data mid) main_val <? 0)) 0 count.

Fixpoint find_delete_loop (fuel : nat) (data : page) (main_val : list Z) (lo hi : Z) : outcome Z :=
  match fuel with
  | O => OutOfFuel
  | S fuel =>
      if lo <? hi then
        let mid := lo + (hi - lo) / 2 in
        let res := CmpFull (slot_val data mid) main_val in
        if res =? 0 then Ret mid
        else if res <? 0 then find_delete_loop fuel data main_val (mid + 1) hi
        else find_delete_loop fuel data main_val lo mid
      else Ret lo
  end.

Definition FindDeletePosition (data : page) (main_val : list Z) (count : Z) : outcome Z :=
  find_delete_loop (search_fuel 0 count) data main_val 0 count.

Definition InsertSlot (data : page) (heap_offset : Z) : outcome page :=
  let main_val := SlotValLeaf (body data) heap_offset in
  let count := vh_count (hdr data) in
  idx ← FindInsertPosition data main_val count;
  let data := ShiftRightInsert data idx count heap_offset in
  Ret (set_count data (to_u16 (count + 1))).

Definition FindSplitPoint := SlottedPage.FindSplitPoint len_at.

Definition CopyHalfRight (left_data : page) :=
  SlottedPage.CopyHalfRight
    (λ right_data off, AppendHeap right_data (SlotValLeaf (body left_data) off)) left_data.

Definition CompactHeap := SlottedPage.CompactHeap 2 2 len_at.

Definition HighPrefixCmp (data : page) (key : Key) : outcome bool :=
  _ ← check_key key;
  if vh_max_val (hdr data) =? UNDEFINED_OFFSET then Ret false
  else
    let max_val := SlotValLeaf (body data) (vh_max_val (hdr data)) in
    Ret (CmpPrefix max_val key =? 0).

(** The scan [for (i = idx; i < count; i++)] of [Get]. *)
Fixpoint get_loop (n : nat) (data : page) (main_val : list Z) (i : Z) : list Z :=
  match n with
  | O => []
  | S n =>
      let cur := slot_val data i in
      if negb (CmpPrefix cur main_val =? 0) then []
      else Result cur :: get_loop n data main_val (i + 1)
  end.

(** [Get]: the tuple ids appended to [results.vec], and [results.proceed]. *)
Definition Get (data : page) (count : Z) (key : Key) : outcome (list Z * bool) :=
  _ ← check_key key;
  idx ← FindInsertPosition data key count;
  let result := get_loop (Z.to_nat (count - idx)) data key idx in
  proceed ← HighPrefixCmp data key;
  Ret (result, proceed).

Definition Insert (data : page) (key : Key) : outcome page :=
  _ ← check_key key;
  _ ← DB7_ASSERT (key_len key <? DB7_MAX_ROW_SIZE) "should be checked in the binder";
  '(data, tuple_heap_offset) ← AppendHeap data key;
  InsertSlot data tuple_heap_offset.

Definition HasSpace (data : page) (key : Key) : outcome bool :=
  _ ← check_key key;
  Ret (SlottedPage.HasSpace 2 2 data (key_len key)).

Definition HasSplit (data : page) (key : Key) : outcome bool :=
  _ ← check_key key;
  if vh_max_val (hdr data) =? UNDEFINED_OFFSET then Ret false
  else
    let max_val := SlotValLeaf (body data) (vh_max_val (hdr data)) in
    Ret (CmpFull max_val key <=? 0).

(** [Split]: the new left and right pages and the sentinel key. *)
Definition Split (left_data right_data : page) (new_pid : Z) (key : Key) :
    outcome (page * page * Key) :=
  _ ← check_key key;
  _ ← DB7_ASSERT (vh_heap_offset (hdr right_data) =? DB7_PAGE_SIZE) "Heap must not be filled";
  split ← FindSplitPoint left_data (vh_count (hdr left_data));
  '(right_data, right_max) ← CopyHalfRight left_data right_data split;
  let left_data := set_heap_offset left_data DB7_PAGE_SIZE in
  left_data ← CompactHeap left_data split;
  let sentinel := slot_val right_data 0 in
  '(left_data, left_max) ← AppendHeap left_data sentinel;
  let right_data := set_rlink right_data (vh_rlink (hdr left_data)) in
  let right_data := set_count right_data (to_u16 (vh_count (hdr left_data) - split)) in
  let right_data := set_max_val right_data right_max in
  let left_data := set_rlink left_data new_pid in
  let left_data := set_count left_data split in
  let left_data := set_max_val left_data left_max in
  if CmpFull sentinel key <=? 0 then
    space ← HasSpace right_data key;
    _ ← DB7_ASSERT space "new key does not fit in right half after split";
    '(right_data, tuple_heap_offset) ← AppendHeap right_data key;
    right_data ← InsertSlot right_data tuple_heap_offset;
    Ret (left_data, right_data, sentinel)
  else
    space ← HasSpace left_data key;
    _ ← DB7_ASSERT space "new key does not fit in left half after split";
    '(left_data, tuple_heap_offset) ← AppendHeap left_data key;
    left_data ← InsertSlot left_data tuple_heap_offset;
    Ret (left_data, right_data, sentinel).

Definition Delete (data : page) (key : Key) : outcome page :=
  _ ← check_key key;
  let count := vh_count (hdr data) in
  idx ← FindDeletePosition data key count;
  let cur := slot_val data idx in
  _ ← DB7_ASSERT (CmpFull cur key =? 0)
        "Unreachable. Key is not found. This should only be called by GC. GC tried to delete non existing value";
  data ← ShiftLeftDelete data idx count;
  Ret (set_count data (to_u16 (count - 1))).

(** The scan of [CheckUnique]; [has_unique_conflict] is
    [txn->HasUniqueConflict(_, tbl_id)].  [None] is [ResultObj<bool>::Fail()]. *)
Fixpoint check_unique_loop (n : nat) (has_unique_conflict : Z → outcome bool) (data : page)
    (main_val : list Z) (i : Z) : outcome (option unit) :=
  match n with
  | O => Ret (Some tt)
  | S n =>
      let cur := slot_val data i in
      if negb (CmpPrefix cur main_val =? 0) then Ret (Some tt)
      else
        let tid := Result cur in
        conflict ← has_unique_conflict tid;
        if conflict : bool then Ret None
        else check_unique_loop n has_unique_conflict data main_val (i + 1)
  end.

Definition CheckUnique (has_unique_conflict : Z → outcome bool) (data : page) (key : Key) (idx : Z) :
    outcome (option bool) :=
  _ ← check_key key;
  let count := vh_count (hdr data) in
  idx ← (if idx =? -1 then FindStartPosition data key count else Ret idx);
  res ← check_unique_loop (Z.to_nat (count - idx)) has_unique_conflict data key idx;
  match res with
  | None => Ret None
  | Some _ => b ← HighPrefixCmp data key; Ret (Some b)
  end.

End Leaf.
