(* ===== verification/LeafFacts.v ===== *)
(** * Theorems about the leaf layout

    The abstract state of a leaf is the sorted list of its keys and its high
    fence ([leaf_abs]).  The lemmas show that each operation of [Leaf] returns
    and implements the operation on that list. *)

From S2P Require Import Prelude Bytes Shared Memory SlottedPage NodeFacts Leaf.

(** ** Comparisons *)

Lemma len_cmp_nat a b : Leaf.len_cmp a b = sign_of (length a ?= length b)%nat.
Proof.
  unfold Leaf.len_cmp, key_len.
  destruct (Nat.compare_spec (length a) (length b)), (Z.ltb_spec (Z.of_nat (length b)) (Z.of_nat (length a))),
    (Z.ltb_spec (Z.of_nat (length a)) (Z.of_nat (length b))); cbn; lia.
Qed.

(** [CmpFull] computes the lexicographic order of the two byte strings. *)
Lemma CmpFull_lex a b : Leaf.CmpFull a b = sign_of (lex a b).
Proof.
  unfold Leaf.CmpFull, memcmp, key_len. rewrite len_cmp_nat, (lex_take_min a b).
  replace (Z.to_nat (Z.min (Z.of_nat (length b)) (Z.of_nat (length a))))
    with (length a `min` length b)%nat by lia.
  by destruct (lex (take _ a) (take _ b)).
Qed.

(** A key of the index: a code followed by the 8 bytes of the tuple id. *)
Definition key_prefix (k : Key) : list Z := take (length k - 8) k.
Definition key_tid (k : Key) : Z := be_val (drop (length k - 8) k).

Definition key_of (C : list Z → Prop) (k : Key) : Prop :=
  bytes_ok k ∧ (8 ≤ length k)%nat ∧ C (key_prefix k).

Lemma key_split k : k = key_prefix k ++ drop (length k - 8) k.
Proof. symmetry. apply take_drop. Qed.

Lemma length_key_prefix k : length (key_prefix k) = (length k - 8)%nat.
Proof. unfold key_prefix. rewrite length_take. lia. Qed.

(** On keys shorter than the row limit [CmpPrefix] orders the codes. *)
Lemma CmpPrefix_lex C `{!PrefixFree C} a b :
  key_of C a → key_of C b → key_len a < DB7_MAX_ROW_SIZE →
  Leaf.CmpPrefix a b = sign_of (lex (key_prefix a) (key_prefix b)).
Proof.
  intros (_ & Ha & HCa) (_ & Hb & HCb) Hlen.
  unfold Leaf.CmpPrefix, sizeof_ValTyp, DB7_MAX_ROW_SIZE, DB7_PAGE_SIZE, key_len in *.
  change (8192 / 10) with 819 in *.
  rewrite (wrap_small 64), (wrap_small 32) by lia.
  rewrite (proj2 (Z.leb_gt _ _)) by lia. unfold memcmp.
  set (n := Z.to_nat _).
  assert (Hn : n = (length (key_prefix a) `min` length (key_prefix b))%nat)
    by (rewrite !length_key_prefix; lia).
  assert (Ht : ∀ k, (n ≤ length (key_prefix k))%nat → take n k = take n (key_prefix k)).
  { intros k Hk. rewrite length_key_prefix in Hk. unfold key_prefix. rewrite take_take. f_equal. lia. }
  rewrite (Ht a), (Ht b) by lia.
  pose proof (lex_take_min (key_prefix a) (key_prefix b)) as E. rewrite <- Hn in E.
  rewrite E. destruct (lex (take n _) (take n _)) eqn:El; [|done..]. cbn.
  rewrite len_cmp_nat, !length_key_prefix. f_equal.
  apply lex_eq in El. rewrite Hn in El.
  assert (Hab : key_prefix a = key_prefix b).
  { destruct (Nat.le_ge_cases (length (key_prefix a)) (length (key_prefix b))).
    - apply prefix_free; [done..|]. rewrite Nat.min_l, take_ge in El by lia. rewrite El.
      exists (drop (length (key_prefix a)) (key_prefix b)). by rewrite take_drop.
    - symmetry. apply prefix_free; [done..|]. rewrite Nat.min_r, (take_ge (key_prefix b)) in El by lia.
      rewrite <- El. exists (drop (length (key_prefix b)) (key_prefix a)). by rewrite take_drop. }
  apply (f_equal length) in Hab. rewrite !length_key_prefix in Hab.
  destruct (Nat.compare_spec (length a) (length b)), (Nat.compare_spec (length a - 8) (length b - 8)); (done || lia).
Qed.

(** Full keys are ordered by code, then by tuple id. *)
Lemma key_lex C `{!PrefixFree C} a b :
  key_of C a → key_of C b →
  lex a b = match lex (key_prefix a) (key_prefix b) with
            | Eq => (key_tid a ?= key_tid b) | c => c end.
Proof.
  intros (Ba & Ha & HCa) (Bb & Hb & HCb).
  rewrite (key_split a), (key_split b) at 1. rewrite (lex_app_code C) by done.
  destruct (lex (key_prefix a) (key_prefix b)); [|done..].
  unfold key_tid.
  assert (Ht : ∀ k, bytes_ok k → (8 ≤ length k)%nat →
            0 ≤ be_val (drop (length k - 8) k) < 256 ^ Z.of_nat 8 ∧
            be_bytes 8 (be_val (drop (length k - 8) k)) = drop (length k - 8) k).
  { intros k Hk Hl. assert (Hd : bytes_ok (drop (length k - 8) k)) by (by apply Forall_drop).
    assert (Hdl : length (drop (length k - 8) k) = 8%nat) by (rewrite length_drop; lia).
    split.
    - rewrite <- Hdl at 3. rewrite <- (length_reverse (drop (length k - 8) k)).
      apply le_val_range. by apply Forall_reverse.
    - rewrite <- Hdl at 1. by apply be_bytes_be_val. }
  destruct (Ht a Ba Ha) as [Ra Ea], (Ht b Bb Hb) as [Rb Eb].
  rewrite <- Ea, <- Eb at 1. by apply lex_be_bytes.
Qed.

(** [SlotValLeaf::Result] decodes the tuple id. *)
Lemma Result_tid k : bytes_ok k → (8 ≤ length k)%nat → Leaf.Result k = key_tid k.
Proof.
  intros Hk Hl. unfold Leaf.Result, key_tid, sizeof_ValTyp, key_len.
  replace (Z.to_nat (Z.of_nat (length k) - 8)) with (length k - 8)%nat by lia.
  apply ByteSwap_le_val; [by apply Forall_drop|]. rewrite length_drop. lia.
Qed.

(** ** The entry format *)

Definition leaf_blob (k : Key) : list Z := le_bytes 2 (key_len k) ++ k.

Definition leaf_key_ok (k : Key) : Prop := 8 ≤ key_len k < DB7_MAX_ROW_SIZE.

#[export] Instance leaf_key_ok_dec k : Decision (leaf_key_ok k).
Proof. unfold leaf_key_ok. apply _. Defined.

Lemma length_leaf_blob k : Z.of_nat (length (leaf_blob k)) = 2 + key_len k.
Proof. unfold leaf_blob, key_len. rewrite length_app, length_le_bytes. lia. Qed.

Lemma leaf_blob_read m off k :
  leaf_key_ok k → has_region m off (leaf_blob k) →
  Leaf.len_at m off = key_len k ∧ Leaf.SlotValLeaf m off = k.
Proof.
  unfold leaf_key_ok, leaf_blob. rewrite DB7_MAX_ROW_SIZE_eq. intros Hk H.
  apply has_region_app in H as [H1 H2].
  assert (Hl : Leaf.len_at m off = key_len k).
  { unfold Leaf.len_at. rewrite (load_of_bytes _ _ _ (key_len k)).
    - apply Z.mod_small. cbn. lia.
    - unfold has_region in H1. by rewrite length_le_bytes in H1. }
  split; [done|]. unfold Leaf.SlotValLeaf. rewrite Hl. unfold key_len. rewrite Nat2Z.id.
  unfold has_region in H2. rewrite length_le_bytes in H2. exact H2.
Qed.

#[export] Instance leaf_format : NodeFormat Key := {
  nf_hdr := 2;
  nf_al := 2;
  nf_log := 1;
  nf_len_at := Leaf.len_at;
  nf_read := Leaf.SlotValLeaf;
  nf_blob := leaf_blob;
  nf_key := λ k, k;
  nf_ok := leaf_key_ok;
  nf_al_pow := eq_refl;
  nf_log_range := conj (Z.le_0_1) eq_refl;
  nf_hdr_pos := eq_refl;
  nf_page_al := eq_refl;
  nf_length := length_leaf_blob;
  nf_read_blob := leaf_blob_read
}.

Definition key_cost (k : Key) : Z := entry_cost k.

Lemma AppendHeap_blob p k :
  Leaf.AppendHeap p k = AppendBlob nf_hdr nf_al p (key_len (nf_key k)) (nf_blob k).
Proof. done. Qed.

(** ** Abstract state *)

Definition below_fence (k : Key) (fk : option Key) : Prop :=
  match fk with None => True | Some f => lex_lt k f end.

#[export] Instance below_fence_dec k fk : Decision (below_fence k fk).
Proof. unfold below_fence. destruct fk; apply _. Defined.

(** Keys in increasing order, all below the fence. *)
Record leaf_state (ks : list Key) (fk : option Key) : Prop := {
  ls_sorted : StronglySorted lex_lt ks;
  ls_fence : Forall (λ k, below_fence k fk) ks;
  ls_bytes : Forall bytes_ok ks
}.

Definition leaf_abs (p : page) (ks : list Key) (fk : option Key) : Prop :=
  node_abs p ks fk ∧ leaf_state ks fk.

Definition lt_key (k x : Key) : bool := bool_decide (lex_lt x k).
Definition key_pos (k : Key) (ks : list Key) : nat := lower_bound (lt_key k) ks.
Definition key_insert (k : Key) (ks : list Key) : list Key :=
  take (key_pos k ks) ks ++ k :: drop (key_pos k ks) ks.

(** Removing a key from the list. *)
Definition key_delete (k : Key) (ks : list Key) : list Key := filter (λ x, x ≠ k) ks.

Lemma CmpFull_ltb a b : (Leaf.CmpFull a b <? 0) = lt_key b a.
Proof.
  rewrite CmpFull_lex. unfold lt_key. case_bool_decide as H; unfold lex_lt in H.
  - by rewrite H.
  - by destruct (lex a b).
Qed.

Lemma lex_lt_irrefl k : ¬ lex_lt k k.
Proof. unfold lex_lt. by rewrite lex_refl. Qed.

Lemma lex_lt_asym a b : lex_lt a b → ¬ lex_lt b a.
Proof. intros H1 H2. apply (lex_lt_irrefl a). by transitivity b. Qed.

#[export] Instance lex_lt_antisymm : AntiSymm eq lex_lt.
Proof. intros x y Hx Hy. by destruct (lex_lt_asym x y). Qed.

Lemma sorted_downward k ks : StronglySorted lex_lt ks → downward (lt_key k) ks.
Proof.
  apply StronglySorted_impl_in. intros x y _ _ Hxy. unfold lt_key. rewrite !bool_decide_eq_true.
  intros. by transitivity y.
Qed.

Lemma leaf_rep_slot p ks fk (i : nat) k :
  node_abs p ks fk → ks !! i = Some k → Leaf.slot_val p (Z.of_nat i) = k ∧ leaf_key_ok k.
Proof.
  intros (es & f & [Hl _ _] & <- & _) Hi. rewrite list_lookup_fmap in Hi.
  destruct (es !! i) as [e|] eqn:He; [|done]. injection Hi as <-.
  destruct (node_layout_slot p es f i e Hl He) as (Hs & Hr & _ & Hok).
  unfold Leaf.slot_val. by rewrite Hs.
Qed.

Lemma node_abs_count {E} `{!NodeFormat E} p (l : list E) fk :
  node_abs p l fk → vh_count (hdr p) = Z.of_nat (length l).
Proof. intros (es & f & [_ Hc _] & <- & _). by rewrite length_fmap. Qed.

(** Both searches find the number of keys below the given one. *)
Lemma FindInsertPosition_ok p ks fk k :
  node_abs p ks fk → StronglySorted lex_lt ks →
  Leaf.FindInsertPosition p k (vh_count (hdr p)) = Ret (Z.of_nat (key_pos k ks)).
Proof.
  intros Hr Hs. unfold Leaf.FindInsertPosition. rewrite (node_abs_count _ _ _ Hr).
  apply search_lower_bound; [by apply sorted_downward|].
  intros i x Hx. destruct (leaf_rep_slot p ks fk i x Hr Hx) as [-> _]. by rewrite CmpFull_ltb.
Qed.

(** Keys before [key_pos] are below [k], the others are above or equal. *)
Lemma key_pos_split k ks :
  StronglySorted lex_lt ks →
  Forall (λ x, lex_lt x k) (take (key_pos k ks) ks) ∧
  Forall (λ x, ¬ lex_lt x k) (drop (key_pos k ks) ks).
Proof.
  intros Hs. destruct (lower_bound_split (lt_key k) ks (sorted_downward k ks Hs)) as [H1 H2].
  split; (eapply Forall_impl; [eassumption|]); unfold lt_key; intros x Hx;
    [by apply bool_decide_eq_true in Hx|by apply bool_decide_eq_false in Hx].
Qed.

Lemma key_insert_perm k ks : key_insert k ks ≡ₚ k :: ks.
Proof. apply insert_middle_perm. Qed.

Lemma key_insert_sorted k ks :
  StronglySorted lex_lt ks → k ∉ ks → StronglySorted lex_lt (key_insert k ks).
Proof.
  intros Hs Hn. apply sorted_insert; [done|by apply sorted_downward| |]; intros y Hy; unfold lt_key.
  - by rewrite bool_decide_eq_true.
  - rewrite bool_decide_eq_false. intros Hge.
    destruct (lex_trichotomy k y) as [?|[->|?]]; done.
Qed.

Lemma leaf_state_insert ks fk k :
  leaf_state ks fk → k ∉ ks → below_fence k fk → bytes_ok k → leaf_state (key_insert k ks) fk.
Proof.
  intros [Hs Hf Hb] Hn Hk Hkb. split; [by apply key_insert_sorted|..].
  - rewrite key_insert_perm. by constructor.
  - rewrite key_insert_perm. by constructor.
Qed.

(** ** Insertion *)

Lemma key_cost_bounds k : leaf_key_ok k → 10 ≤ 2 + key_len k ≤ key_cost k ∧ key_cost k < 4 + key_len k.
Proof.
  unfold leaf_key_ok. intros Hk. pose proof (entry_cost_bounds k) as H. cbn in H. unfold key_cost. lia.
Qed.

(** The two steps [Insert] and [Split] share. *)
Lemma append_insert_ok p ks fk k :
  leaf_abs p ks fk → leaf_key_ok k → bytes_ok k → k ∉ ks → below_fence k fk → fits k p →
  ∃ p1 off p', Leaf.AppendHeap p k = Ret (p1, off) ∧ Leaf.InsertSlot p1 off = Ret p' ∧
    leaf_abs p' (key_insert k ks) fk ∧ same_ids p p' ∧
    vh_heap_offset (hdr p') = vh_heap_offset (hdr p) - key_cost k.
Proof.
  intros [Hr Hst] Hk Hb Hn Hf Hfit.
  destruct (append_insert p ks fk k (key_pos k ks) Hr Hk Hfit (lower_bound_le _ _))
    as (p1 & off & Ha & Hread & Hr1 & Hc1 & Hr' & Hid & Hfree).
  eexists p1, off, _. split; [exact Ha|]. split.
  { unfold Leaf.InsertSlot. cbn in Hread. rewrite Hread.
    rewrite (FindInsertPosition_ok p1 ks fk) by (done || apply Hst). done. }
  split; [|done]. split; [exact Hr'|by apply leaf_state_insert].
Qed.

Lemma check_key_ok k : leaf_key_ok k → check_key k = Ret tt.
Proof.
  intros [? _]. unfold check_key. apply DB7_ASSERT_true. by rewrite (proj2 (Z.eqb_neq _ _)) by lia.
Qed.

Lemma Insert_ok p ks fk k :
  leaf_abs p ks fk → leaf_key_ok k → bytes_ok k → k ∉ ks → below_fence k fk → fits k p →
  ∃ p', Leaf.Insert p k = Ret p' ∧ leaf_abs p' (key_insert k ks) fk ∧ same_ids p p' ∧
    vh_heap_offset (hdr p') = vh_heap_offset (hdr p) - key_cost k.
Proof.
  intros Hr Hk Hb Hn Hf Hfit.
  destruct (append_insert_ok p ks fk k Hr Hk Hb Hn Hf Hfit) as (p1 & off & p' & Ha & Hi & Habs & H).
  exists p'. split; [|done]. unfold Leaf.Insert. rewrite (check_key_ok k Hk), bind_Ret.
  rewrite DB7_ASSERT_true, bind_Ret by (unfold leaf_key_ok in Hk; apply Z.ltb_lt; lia).
  by rewrite Ha, bind_Ret.
Qed.

(** ** Deletion *)

Lemma find_delete_loop_spec fuel p k lo hi b :
  (Z.to_nat (hi - lo) < fuel)%nat → lo ≤ b ≤ hi →
  (∀ mid, lo ≤ mid < hi → mid < b → Leaf.CmpFull (Leaf.slot_val p mid) k < 0) →
  (∀ mid, lo ≤ mid < hi → b = mid → 0 ≤ Leaf.CmpFull (Leaf.slot_val p mid) k) →
  (∀ mid, lo ≤ mid < hi → b < mid → 0 < Leaf.CmpFull (Leaf.slot_val p mid) k) →
  Leaf.find_delete_loop fuel p k lo hi = Ret b.
Proof.
  revert lo hi; induction fuel as [|fuel IH]; intros lo hi Hf Hb Hlt Heq Hgt; [lia|].
  cbn [Leaf.find_delete_loop].
  destruct (Z.ltb_spec lo hi); [|f_equal; lia].
  assert (lo ≤ lo + (hi - lo) / 2 < hi) as Hmid.
  { pose proof (Z.div_pos (hi - lo) 2). pose proof (Z.div_lt (hi - lo) 2). lia. }
  set (mid := lo + (hi - lo) / 2) in *. cbv zeta.
  specialize (Hlt mid Hmid) as Hlt'. specialize (Heq mid Hmid) as Heq'. specialize (Hgt mid Hmid) as Hgt'.
  destruct (Z.eqb_spec (Leaf.CmpFull (Leaf.slot_val p mid) k) 0) as [E|E].
  { f_equal. lia. }
  destruct (Z.ltb_spec (Leaf.CmpFull (Leaf.slot_val p mid) k) 0).
  - apply IH; [lia|lia|intros; apply Hlt; lia|intros; apply Heq; lia|intros; apply Hgt; lia].
  - apply IH; [lia|lia|intros; apply Hlt; lia|intros; apply Heq; lia|intros; apply Hgt; lia].
Qed.

Lemma key_pos_lookup_lt k ks (i : nat) x :
  StronglySorted lex_lt ks → ks !! i = Some x → (i < key_pos k ks)%nat ↔ lex_lt x k.
Proof.
  intros Hs Hx. pose proof (lower_bound_spec _ _ _ _ (sorted_downward k ks Hs) Hx) as E.
  unfold lt_key at 1 in E. unfold key_pos. destruct (decide (lex_lt x k)) as [H|H].
  - rewrite (bool_decide_true (lex_lt x k)) in E by done. symmetry in E.
    apply bool_decide_eq_true in E. tauto.
  - rewrite (bool_decide_false (lex_lt x k)) in E by done. symmetry in E.
    apply bool_decide_eq_false in E. tauto.
Qed.

Lemma sorted_lookup_lt ks (i j : nat) x y :
  StronglySorted lex_lt ks → ks !! i = Some x → ks !! j = Some y → (i < j)%nat → lex_lt x y.
Proof.
  intros Hs Hx Hy Hij. rewrite <- (take_drop_middle ks i x Hx) in Hs.
  apply StronglySorted_app_elim in Hs as (_ & [_ HF]%StronglySorted_inv & _).
  rewrite Forall_forall in HF. apply HF. apply list_elem_of_lookup. exists (j - S i)%nat.
  rewrite lookup_drop. by replace (S i + (j - S i))%nat with j by lia.
Qed.

(** [FindDeletePosition] finds the same position, present or not. *)
Lemma FindDeletePosition_ok p ks fk k :
  node_abs p ks fk → StronglySorted lex_lt ks →
  Leaf.FindDeletePosition p k (vh_count (hdr p)) = Ret (Z.of_nat (key_pos k ks)).
Proof.
  intros Hr Hs. unfold Leaf.FindDeletePosition. rewrite (node_abs_count _ _ _ Hr).
  assert (Hle : (key_pos k ks ≤ length ks)%nat) by apply lower_bound_le.
  assert (Hsl : ∀ mid, 0 ≤ mid < Z.of_nat (length ks) → ks !! Z.to_nat mid = Some (Leaf.slot_val p mid)).
  { intros mid Hmid. destruct (lookup_lt_is_Some_2 ks (Z.to_nat mid) ltac:(lia)) as [x Hx].
    destruct (leaf_rep_slot p ks fk _ x Hr Hx) as [Hv _].
    rewrite Z2Nat.id in Hv by lia. by rewrite Hv. }
  apply find_delete_loop_spec.
  - unfold search_fuel. lia.
  - lia.
  - intros mid Hmid Hlt. rewrite CmpFull_lex, sign_of_lt.
    apply (key_pos_lookup_lt k _ _ _ Hs (Hsl mid Hmid)). lia.
  - intros mid Hmid Hb. rewrite CmpFull_lex.
    pose proof (key_pos_lookup_lt k _ _ _ Hs (Hsl _ Hmid)) as [_ Hx]. unfold lex_lt in Hx.
    destruct (lex _ _) eqn:E; cbn; [lia| |lia]. specialize (Hx eq_refl). lia.
  - intros mid Hmid Hlt. rewrite CmpFull_lex, sign_of_gt, lex_gt.
    assert (Hb : 0 ≤ Z.of_nat (key_pos k ks) < Z.of_nat (length ks)) by lia.
    pose proof (sorted_lookup_lt _ _ _ _ _ Hs (Hsl _ Hb) (Hsl mid Hmid) ltac:(lia)) as H1.
    pose proof (key_pos_lookup_lt k _ _ _ Hs (Hsl _ Hb)) as [_ Hx]. rewrite Nat2Z.id in Hx.
    destruct (lex_trichotomy k (Leaf.slot_val p (Z.of_nat (key_pos k ks)))) as [H2|[->|H2]].
    + apply (lex_lt_trans _ _ _ H2 H1).
    + done.
    + specialize (Hx H2). lia.
Qed.

Lemma key_pos_elem k ks : StronglySorted lex_lt ks → k ∈ ks → ks !! key_pos k ks = Some k.
Proof.
  intros Hs (i & Hi)%list_elem_of_lookup. assert (key_pos k ks = i) as ->; [|done].
  pose proof (key_pos_lookup_lt k _ _ _ Hs Hi) as H1.
  assert (¬ (i < key_pos k ks)%nat) by (rewrite H1; apply lex_lt_irrefl).
  destruct (decide (key_pos k ks = i)) as [|Hne]; [done|].
  destruct (lookup_lt_is_Some_2 ks (key_pos k ks)) as [y Hy].
  { apply lookup_lt_Some in Hi. lia. }
  pose proof (key_pos_lookup_lt k _ _ _ Hs Hy) as H2.
  pose proof (sorted_lookup_lt _ _ _ _ _ Hs Hy Hi ltac:(lia)) as H3. apply H2 in H3. lia.
Qed.

Lemma key_delete_pos k ks :
  StronglySorted lex_lt ks → k ∈ ks → key_delete k ks = delete (key_pos k ks) ks.
Proof.
  intros Hs Hk. pose proof (key_pos_elem k ks Hs Hk) as Hl.
  set (n := key_pos k ks) in *. unfold key_delete.
  rewrite delete_take_drop, <- (take_drop_middle ks n k Hl) at 1.
  rewrite <- (take_drop_middle ks n k Hl) in Hs.
  apply StronglySorted_app_elim in Hs as (_ & [_ HF]%StronglySorted_inv & H12).
  rewrite filter_app, filter_cons, decide_False by (by intros []).
  f_equal; apply filter_all; apply Forall_forall; intros x Hx ->.
  - by apply (lex_lt_irrefl k), H12; [|left].
  - rewrite Forall_forall in HF. by apply (lex_lt_irrefl k), HF.
Qed.

Lemma leaf_state_delete ks fk k : leaf_state ks fk → leaf_state (key_delete k ks) fk.
Proof.
  intros [H1 H2 H3]. unfold key_delete. split.
  - by apply StronglySorted_filter.
  - by apply Forall_filter.
  - by apply Forall_filter.
Qed.

(** Deleting a present key unlinks its slot; the heap is not reclaimed. *)
Lemma Delete_ok p ks fk k :
  leaf_abs p ks fk → leaf_key_ok k → k ∈ ks →
  ∃ p', Leaf.Delete p k = Ret p' ∧ leaf_abs p' (key_delete k ks) fk ∧ same_ids p p' ∧
    vh_heap_offset (hdr p') = vh_heap_offset (hdr p).
Proof.
  intros [Hr Hst] Hk Hin. pose proof (ls_sorted _ _ Hst) as Hs.
  pose proof (key_pos_elem _ _ Hs Hin) as Hpos.
  destruct (leaf_rep_slot p ks fk _ k Hr Hpos) as [Hv _].
  unfold Leaf.Delete. rewrite (check_key_ok k Hk), bind_Ret.
  rewrite (FindDeletePosition_ok p ks fk k) by done.
  rewrite bind_Ret, Hv, CmpFull_lex, lex_refl. cbn [sign_of Z.eqb DB7_ASSERT]. rewrite bind_Ret.
  destruct (delete_slot p ks fk (key_pos k ks) Hr) as (m & -> & Hr').
  { by apply lookup_lt_Some in Hpos. }
  rewrite bind_Ret. eexists. split; [done|]. split; [|by repeat split].
  split; [by rewrite key_delete_pos|by apply leaf_state_delete].
Qed.

(** Deleting an absent key that is not the greatest fires the assertion. *)
Lemma Delete_absent p ks fk k x :
  leaf_abs p ks fk → leaf_key_ok k → k ∉ ks → x ∈ ks → lex_lt k x →
  ∃ msg, Leaf.Delete p k = AssertFail msg.
Proof.
  intros [Hr Hst] Hk Hnin (i & Hx)%list_elem_of_lookup Hlt.
  pose proof (ls_sorted _ _ Hst) as Hs. pose proof (key_pos_lookup_lt k _ _ _ Hs Hx) as [Hi _].
  assert (Hn : (key_pos k ks < length ks)%nat).
  { apply lookup_lt_Some in Hx. destruct (decide (i < key_pos k ks)%nat) as [H|H]; [|lia].
    by destruct (lex_lt_asym _ _ Hlt (Hi H)). }
  destruct (lookup_lt_is_Some_2 ks _ Hn) as [e He].
  destruct (leaf_rep_slot p ks fk _ e Hr He) as [Hv _].
  unfold Leaf.Delete. rewrite (check_key_ok k Hk), bind_Ret.
  rewrite (FindDeletePosition_ok p ks fk k) by done. rewrite bind_Ret, Hv, CmpFull_lex.
  destruct (lex e k) eqn:E; [|by eexists..].
  apply lex_eq in E. rewrite E in He. destruct Hnin. apply list_elem_of_lookup. by exists (key_pos k ks).
Qed.

(** ** Space and fences *)

Lemma HasSpace_ok p ks fk k :
  node_abs p ks fk → leaf_key_ok k → 2 + key_len k ≤ vh_heap_offset (hdr p) →
  Leaf.HasSpace p k = Ret (bool_decide (fits k p)).
Proof.
  intros Hr Hk Hle. unfold Leaf.HasSpace. rewrite (check_key_ok k Hk), bind_Ret.
  by rewrite <- (has_space_ok p ks fk k Hr Hle).
Qed.

Lemma HasSplit_ok p ks fk k :
  node_abs p ks fk → leaf_key_ok k → Leaf.HasSplit p k = Ret (bool_decide (¬ below_fence k fk)).
Proof.
  intros (es & f & Hr & _ & <-) Hk. unfold Leaf.HasSplit. rewrite (check_key_ok k Hk), bind_Ret.
  pose proof (node_rep_fence _ _ _ Hr) as Hf. destruct f as [e|]; cbn [fmap option_fmap option_map below_fence].
  - destruct Hf as (-> & Hv & _). cbn in Hv. rewrite Hv. apply (f_equal Ret).
    rewrite CmpFull_lex, (lex_antisym k e.2). unfold lex_lt.
    case_bool_decide as H; destruct (lex k e.2); cbn in *; done.
  - rewrite Hf. apply (f_equal Ret). by rewrite bool_decide_false by tauto.
Qed.

(** A fresh page: no entries, no fence. *)
Lemma InitHeader_abs p level pid : leaf_abs (InitHeader p 0 level pid) [] None.
Proof.
  split; [|by repeat constructor]. exists [], None. split; [|done].
  split; [by apply node_layout_empty|done..].
Qed.

(** ** Lookup

    [C] is the set of key encodings, none a proper prefix of another. *)
Section Lookup.
Context (C : list Z → Prop) `{!PrefixFree C}.

(** The entries a lookup of [k] returns: same code, at or after [k]. *)
Definition matching (k x : Key) : Prop := key_prefix x = key_prefix k ∧ ¬ lex_lt x k.
#[export] Instance matching_dec k x : Decision (matching k x).
Proof. unfold matching. apply _. Defined.

Lemma CmpPrefix_eqb a b :
  key_of C a → key_of C b → leaf_key_ok a →
  (Leaf.CmpPrefix a b =? 0) = bool_decide (key_prefix a = key_prefix b).
Proof.
  intros Ha Hb [_ Hl]. rewrite (CmpPrefix_lex C) by done.
  case_bool_decide as H.
  - by rewrite H, lex_refl.
  - destruct (lex _ _) eqn:E; [|done..]. by apply lex_eq in E.
Qed.

Definition same_code (k x : Key) : Prop := key_prefix x = key_prefix k.
#[export] Instance same_code_dec k x : Decision (same_code k x).
Proof. unfold same_code. apply _. Defined.

(** After the first code above that of [k], no code matches. *)
Lemma filter_code_tail k x xs :
  Forall (key_of C) (x :: xs) → StronglySorted lex_lt (x :: xs) →
  ¬ lex_lt (key_prefix x) (key_prefix k) → ¬ same_code k x → filter (same_code k) (x :: xs) = [].
Proof.
  intros HC [Hs HF]%StronglySorted_inv Hx Hne.
  apply Forall_cons in HC as [HCx HC]. apply filter_none. constructor; [done|].
  rewrite Forall_forall in HF, HC |- *. intros y Hy He. unfold same_code in He, Hne.
  pose proof (HF y Hy) as Hxy. unfold lex_lt in Hx, Hxy.
  rewrite (key_lex C) in Hxy by auto. rewrite He in Hxy.
  destruct (lex (key_prefix x) (key_prefix k)) eqn:E; [|done..].
  by apply lex_eq in E.
Qed.

Lemma get_loop_ok p ks fk k n (i : nat) :
  node_abs p ks fk → Forall (key_of C) ks → key_of C k →
  StronglySorted lex_lt ks → (i + n = length ks)%nat →
  Forall (λ x, ¬ lex_lt (key_prefix x) (key_prefix k)) (drop i ks) →
  Leaf.get_loop n p k (Z.of_nat i) = key_tid <$> filter (same_code k) (drop i ks).
Proof.
  intros Hr HC Hk Hs. revert i; induction n as [|n IH]; intros i Hi Hge; cbn [Leaf.get_loop].
  { rewrite drop_ge by lia. done. }
  destruct (lookup_lt_is_Some_2 ks i ltac:(lia)) as [e Hl].
  destruct (leaf_rep_slot p ks fk i e Hr Hl) as [-> Hok].
  assert (HCe : key_of C e) by (rewrite Forall_lookup in HC; eauto).
  rewrite CmpPrefix_eqb by done. rewrite (drop_S _ _ _ Hl) in Hge |- *.
  apply Forall_cons in Hge as [Hge Hge'].
  case_bool_decide as Hp; cbn [negb].
  - rewrite filter_cons_True by done. cbn [fmap list_fmap].
    rewrite Result_tid by (destruct HCe as (? & ? & _); done). f_equal.
    replace (Z.of_nat i + 1) with (Z.of_nat (S i)) by lia. apply IH; [lia|done].
  - rewrite <- (take_drop i ks), (drop_S _ _ _ Hl) in Hs.
    apply StronglySorted_app_elim in Hs as (_ & Hs & _).
    rewrite filter_code_tail; [done| |done..].
    rewrite <- (drop_S _ _ _ Hl). by apply Forall_drop.
Qed.

Definition same_prefix_fence (k : Key) (fk : option Key) : bool :=
  match fk with
  | None => false
  | Some f => bool_decide (key_prefix f = key_prefix k)
  end.

Lemma HighPrefixCmp_ok p ks fk k :
  node_abs p ks fk → leaf_key_ok k → key_of C k → Forall (key_of C) (option_list fk) →
  Leaf.HighPrefixCmp p k = Ret (same_prefix_fence k fk).
Proof.
  intros (es & f & Hr & _ & <-) Hk HCk HCf. unfold Leaf.HighPrefixCmp. rewrite (check_key_ok k Hk), bind_Ret.
  pose proof (node_rep_fence _ _ _ Hr) as Hf. destruct f as [e|]; cbn in *.
  - destruct Hf as (-> & -> & He). apply Forall_cons in HCf as [HCf _].
    by rewrite CmpPrefix_eqb.
  - by rewrite Hf.
Qed.

Lemma filter_matching_drop k ks :
  StronglySorted lex_lt ks →
  filter (same_code k) (drop (key_pos k ks) ks) = filter (matching k) ks.
Proof.
  intros Hs. rewrite <- (take_drop (key_pos k ks) ks) at 3. rewrite filter_app.
  destruct (key_pos_split k ks Hs) as [H1 H2].
  rewrite (filter_none _ (take _ _)).
  - apply filter_ext_in. eapply Forall_impl; [exact H2|]. unfold matching, same_code. cbn. tauto.
  - eapply Forall_impl; [exact H1|]. by intros x Hx [_ ?].
Qed.

(** Codes are ordered as the keys. *)
Lemma code_not_lt k x : key_of C x → key_of C k → ¬ lex_lt x k → ¬ lex_lt (key_prefix x) (key_prefix k).
Proof.
  intros Hx Hk Hn Hlt. apply Hn. unfold lex_lt in *. rewrite (key_lex C) by done. by rewrite Hlt.
Qed.

(** A lookup returns the tuple ids of the matching entries in key order, and
    asks to go on exactly when the fence carries the same code. *)
Lemma Get_ok p ks fk k :
  leaf_abs p ks fk → leaf_key_ok k → key_of C k → Forall (key_of C) (option_list fk ++ ks) →
  Leaf.Get p (GetCount p) k =
  Ret (key_tid <$> filter (matching k) ks, same_prefix_fence k fk).
Proof.
  intros [Hr Hst] Hk HCk HC. apply Forall_app in HC as [HCf HC].
  pose proof (ls_sorted _ _ Hst) as Hs.
  assert (Hle : (key_pos k ks ≤ length ks)%nat) by apply lower_bound_le.
  unfold Leaf.Get, GetCount. rewrite (check_key_ok k Hk), bind_Ret.
  rewrite (FindInsertPosition_ok p ks fk k) by done. rewrite bind_Ret, (node_abs_count _ _ _ Hr).
  replace (Z.to_nat (Z.of_nat (length ks) - Z.of_nat (key_pos k ks)))
    with (length ks - key_pos k ks)%nat by lia.
  rewrite (get_loop_ok p ks fk k _ _ Hr HC HCk Hs); [|lia|].
  2: { destruct (key_pos_split k _ Hs) as [_ Hge]. rewrite Forall_forall in HC. rewrite Forall_forall in Hge.
       apply Forall_forall. intros x Hx. apply code_not_lt; [|done|by apply Hge].
       apply HC. by apply (subseteq_drop (key_pos k ks)). }
  rewrite filter_matching_drop by done. by rewrite (HighPrefixCmp_ok p ks fk).
Qed.

(** *** Unique check *)

(** The answers of the check on tuple ids, up to the first conflict. *)
Fixpoint any_conflict (h : Z → outcome bool) (tids : list Z) : outcome bool :=
  match tids with
  | [] => Ret false
  | tid :: tids => b ← h tid; if b : bool then Ret true else any_conflict h tids
  end.

Lemma any_conflict_app h l k :
  any_conflict h (l ++ k) = b ← any_conflict h l; if b : bool then Ret true else any_conflict h k.
Proof.
  induction l as [|x l IH]; cbn; [done|]. destruct (h x) as [[]| | | |]; cbn; [done|apply IH|done..].
Qed.

Lemma any_conflict_pure h tids : any_conflict (λ tid, Ret (h tid)) tids = Ret (existsb h tids).
Proof. induction tids as [|x l IH]; cbn; [done|]. rewrite IH. by destruct (h x). Qed.

Lemma check_unique_loop_get n h p k i :
  Leaf.check_unique_loop n h p k i =
  b ← any_conflict h (Leaf.get_loop n p k i); Ret (if b : bool then None else Some tt).
Proof.
  revert i; induction n as [|n IH]; intros i; cbn; [done|].
  destruct (negb _); cbn; [done|]. rewrite IH. by destruct (h _) as [[]| | | |].
Qed.

Definition lt_code (k x : Key) : bool := bool_decide (lex_lt (key_prefix x) (key_prefix k)).

Lemma sorted_codes k ks :
  Forall (key_of C) ks → StronglySorted lex_lt ks → downward (lt_code k) ks.
Proof.
  intros HC. rewrite Forall_forall in HC. apply StronglySorted_impl_in. intros x y Hx Hy Hxy.
  unfold lt_code. rewrite !bool_decide_eq_true. intros H. unfold lex_lt in Hxy.
  rewrite (key_lex C) in Hxy by auto.
  destruct (lex (key_prefix x) (key_prefix y)) eqn:E; [|by transitivity (key_prefix y)|done].
  apply lex_eq in E. by rewrite E.
Qed.

Lemma FindStartPosition_ok p ks fk k :
  node_abs p ks fk → Forall (key_of C) ks → key_of C k → StronglySorted lex_lt ks →
  Leaf.FindStartPosition p k (vh_count (hdr p)) = Ret (Z.of_nat (lower_bound (lt_code k) ks)).
Proof.
  intros Hr HC Hk Hs. unfold Leaf.FindStartPosition. rewrite (node_abs_count _ _ _ Hr).
  apply search_lower_bound; [by apply sorted_codes|].
  intros i x Hx. destruct (leaf_rep_slot p ks fk i x Hr Hx) as [-> [_ Hlen]].
  rewrite (CmpPrefix_lex C) by (rewrite ?Forall_lookup in HC; eauto).
  apply (f_equal Ret). unfold lt_code.
  case_bool_decide as H; unfold lex_lt in H; [by rewrite H|by destruct (lex _ _)].
Qed.

(** The check fails when the transaction conflicts with a tuple of the same
    code on the page, and otherwise tells whether the next page matters.  On
    the first page ([idx = -1]) it starts at the first key of the code, on the
    following ones at slot 0. *)
Lemma CheckUnique_ok h p ks fk k idx :
  leaf_abs p ks fk → leaf_key_ok k → key_of C k → Forall (key_of C) (option_list fk ++ ks) →
  idx = -1 ∨ idx = 0 ∧ Forall (λ x, ¬ lex_lt (key_prefix x) (key_prefix k)) ks →
  Leaf.CheckUnique h p k idx =
  b ← any_conflict h (key_tid <$> filter (same_code k) ks);
  Ret (if b : bool then None else Some (same_prefix_fence k fk)).
Proof.
  intros [Hr Hst] Hk HCk HC Hidx. apply Forall_app in HC as [HCf HC].
  pose proof (ls_sorted _ _ Hst) as Hs.
  assert (∃ n : nat, (n ≤ length ks)%nat ∧
    (if idx =? -1 then Leaf.FindStartPosition p k (vh_count (hdr p)) else Ret idx) = Ret (Z.of_nat n) ∧
    Forall (λ x, ¬ lex_lt (key_prefix x) (key_prefix k)) (drop n ks) ∧
    filter (same_code k) ks = filter (same_code k) (drop n ks)) as (n & Hn & Hstart & Hge & Hfil).
  { destruct Hidx as [->|[-> Hge]]; [|by exists 0%nat; rewrite drop_0; split_and!; [lia|..]].
    destruct (lower_bound_split (lt_code k) ks (sorted_codes k ks HC Hs)) as [H1 H2].
    exists (lower_bound (lt_code k) ks). split_and!.
    - apply lower_bound_le.
    - by rewrite (proj2 (Z.eqb_eq (-1) (-1)) eq_refl), (FindStartPosition_ok p ks fk k).
    - eapply Forall_impl; [exact H2|]. intros x Hx. unfold lt_code in Hx. by apply bool_decide_eq_false in Hx.
    - set (m := lower_bound _ _) in *. rewrite <- (take_drop m ks) at 1. rewrite filter_app, filter_none; [done|].
      eapply Forall_impl; [exact H1|]. intros x Hx E. unfold lt_code in Hx.
      apply bool_decide_eq_true in Hx. rewrite E in Hx. by apply lex_lt_irrefl in Hx. }
  unfold Leaf.CheckUnique. rewrite (check_key_ok k Hk), bind_Ret. cbv zeta.
  rewrite Hstart, bind_Ret, (node_abs_count _ _ _ Hr), check_unique_loop_get.
  replace (Z.to_nat (Z.of_nat (length ks) - Z.of_nat n)) with (length ks - n)%nat by lia.
  rewrite (get_loop_ok p ks fk k _ _ Hr HC HCk Hs) by (lia || done).
  rewrite Hfil. destruct (any_conflict _ _) as [[]| | | |]; [done| |done..]. cbn.
  by rewrite (HighPrefixCmp_ok p ks fk).
Qed.

End Lookup.
