(* ===== verification/LeafSplit.v ===== *)
(** * Splitting a leaf

    [Split] always succeeds on a leaf with at least two keys: the moved half,
    the compacted half, the new high fence and the new key fit, whatever the
    lengths of the keys. *)

From S2P Require Import Prelude Bytes Shared Memory SlottedPage SplitFacts NodeFacts Leaf LeafFacts.

(** ** The new key fits *)

Lemma key_slot_cost (k : Key) :
  leaf_key_ok k → key_len k + 4 ≤ 2 + entry_cost k ∧ 9 * (2 + entry_cost k) ≤ 14 * key_len k.
Proof.
  intros Hk. pose proof (key_cost_bounds k Hk) as H. unfold key_cost in H.
  pose proof (entry_cost_mod k) as He. cbn [nf_al leaf_format] in He.
  unfold leaf_key_ok in Hk. apply Z_div_exact_full_2 in He; [|lia]. lia.
Qed.

(** An entry takes at most 14/9 of its payload and at least its payload. *)
Lemma keys_slot_cost (ks : list Key) :
  Forall leaf_key_ok ks →
  lens ks + 4 * Z.of_nat (length ks) ≤ 2 * Z.of_nat (length ks) + entries_cost ks ∧
  9 * (2 * Z.of_nat (length ks) + entries_cost ks) ≤ 14 * lens ks ∧ 8 * Z.of_nat (length ks) ≤ lens ks.
Proof.
  induction 1 as [|k ks Hk _ IH]; [by cbn|].
  rewrite entries_cost_cons, lens_cons. cbn [length nf_key leaf_format].
  pose proof (key_slot_cost k Hk). unfold leaf_key_ok in Hk. lia.
Qed.

Lemma key_cost_max (k : Key) : leaf_key_ok k → entry_cost k ≤ 820.
Proof.
  intros Hk. pose proof (key_slot_cost k Hk) as H. pose proof (key_cost_bounds k Hk) as Hb.
  pose proof (entry_cost_mod k) as He. cbn [nf_al leaf_format] in He. unfold key_cost in Hb.
  unfold leaf_key_ok in Hk. rewrite DB7_MAX_ROW_SIZE_eq in Hk.
  apply Z_div_exact_full_2 in He; [|lia]. lia.
Qed.

(** Either half leaves room for a fence and one more key. *)
Lemma split_room A x B :
  Forall leaf_key_ok (A ++ x :: B) →
  header_size_ + 2 * Z.of_nat (length (A ++ x :: B)) + entries_cost (A ++ x :: B) ≤ DB7_PAGE_SIZE →
  2 * lens A < lens (A ++ x :: B) →
  2 * lens B ≤ lens (A ++ x :: B) + 1 ∨ (length B ≤ 1)%nat →
  header_size_ + 2 * Z.of_nat (length (A ++ [x]) + 1) + entries_cost (A ++ [x]) + 2 * 820 ≤ DB7_PAGE_SIZE ∧
  header_size_ + 2 * Z.of_nat (length B + 1) + entries_cost B + 2 * 820 ≤ DB7_PAGE_SIZE.
Proof.
  intros [HA [Hx HB]%Forall_cons]%Forall_app Hroom H1 H2.
  rewrite entries_cost_app, entries_cost_cons, length_app in *. cbn [length] in *.
  change (entries_cost []) with 0. rewrite lens_app, lens_cons in *. cbn [nf_key leaf_format] in *.
  pose proof (keys_slot_cost A HA). pose proof (keys_slot_cost B HB). pose proof (key_slot_cost x Hx).
  pose proof (key_cost_max x Hx). unfold header_size_, DB7_PAGE_SIZE, leaf_key_ok in *.
  rewrite DB7_MAX_ROW_SIZE_eq in Hx. split; [lia|]. destruct H2 as [H2|H2]; [lia|].
  destruct B as [|y [|]]; cbn in H2; [cbn; lia| |lia].
  apply Forall_cons in HB as [Hy _]. pose proof (key_cost_max y Hy).
  unfold entries_cost. cbn [fmap list_fmap length]. rewrite zsum_cons. cbn. lia.
Qed.

(** The split point: both halves leave room for fences and one more key. *)
Lemma split_choice p ks fk :
  node_abs p ks fk → Forall leaf_key_ok ks → (2 ≤ length ks)%nat →
  ∃ (s : nat) sent, Leaf.FindSplitPoint p (vh_count (hdr p)) = Ret (Z.of_nat s) ∧
    (1 ≤ s < length ks)%nat ∧ ks !! s = Some sent ∧
    header_size_ + 2 * Z.of_nat (s + 1) + entries_cost (take s ks) + 2 * 820 ≤ DB7_PAGE_SIZE ∧
    header_size_ + 2 * Z.of_nat (length ks - s + 1) + entries_cost (drop s ks) + 2 * 820 ≤ DB7_PAGE_SIZE.
Proof.
  intros Hr Hok Hn. pose proof (keys_slot_cost ks Hok) as Hc.
  destruct (find_split_point p ks fk Hr Hn ltac:(lia)) as (A & x & B & sent & -> & HB & Hsp & H1 & H2).
  destruct Hr as (es & f & Hrep & Hes & _). pose proof (node_rep_cost _ _ _ Hrep) as Hroom.
  rewrite <- (length_fmap snd es), Hes in Hroom. unfold fence_cost in Hroom.
  destruct (split_room A x B Hok) as [RA RB]; [|done|destruct H2 as [H2| ->]; [by left|right; cbn; lia]|].
  { destruct f as [e|]; cbn in Hroom; [pose proof (entry_cost_pos e.2)|]; lia. }
  destruct B as [|y B]; [done|]. injection HB as ->.
  exists (S (length A)), sent. split; [exact Hsp|].
  assert (E : A ++ x :: sent :: B = (A ++ [x]) ++ sent :: B) by (by rewrite <- app_assoc).
  assert (El : length (A ++ [x]) = S (length A)) by (rewrite length_app; cbn; lia).
  rewrite E, take_app_length', drop_app_length' by done. rewrite El in RA.
  split; [rewrite length_app; cbn; lia|]. split; [rewrite lookup_app_r by lia; by rewrite El, Nat.sub_diag|].
  split; [done|]. rewrite length_app, El. replace (S (length A) + _ - S (length A))%nat with (length (sent :: B)) by lia.
  done.
Qed.

(** ** The pages [Split] builds *)

(** The insertion into one half, the end of [Split]. *)
Definition split_insert (left_data right_data : page) (sentinel key : Key) : outcome (page * page * Key) :=
  if Leaf.CmpFull sentinel key <=? 0 then
    space ← Leaf.HasSpace right_data key;
    _ ← DB7_ASSERT space "new key does not fit in right half after split";
    '(right_data, tuple_heap_offset) ← Leaf.AppendHeap right_data key;
    right_data ← Leaf.InsertSlot right_data tuple_heap_offset;
    Ret (left_data, right_data, sentinel)
  else
    space ← Leaf.HasSpace left_data key;
    _ ← DB7_ASSERT space "new key does not fit in left half after split";
    '(left_data, tuple_heap_offset) ← Leaf.AppendHeap left_data key;
    left_data ← Leaf.InsertSlot left_data tuple_heap_offset;
    Ret (left_data, right_data, sentinel).

Lemma leaf_state_take ks fk (s : nat) sent :
  leaf_state ks fk → ks !! s = Some sent → leaf_state (take s ks) (Some sent).
Proof.
  intros [H1 H2 H3] Hs. rewrite <- (take_drop s ks) in H1.
  apply StronglySorted_app_elim in H1 as (H1 & _ & H12). split; [done| |by apply Forall_take].
  apply Forall_forall. intros x Hx. apply H12; [done|]. rewrite (drop_S _ _ _ Hs). by left.
Qed.

Lemma leaf_state_drop ks fk (s : nat) : leaf_state ks fk → leaf_state (drop s ks) fk.
Proof.
  intros [H1 H2 H3]. rewrite <- (take_drop s ks) in H1.
  apply StronglySorted_app_elim in H1 as (_ & H1 & _).
  split; [done|by apply Forall_drop|by apply Forall_drop].
Qed.

Lemma node_abs_ok {E} `{!NodeFormat E} p (l : list E) fk :
  node_abs p l fk → Forall nf_ok (option_list fk ++ l).
Proof. intros (es & f & Hr & <- & <-). by apply (node_rep_ok p). Qed.

Lemma split_pages left right ks fk new_pid k :
  leaf_abs left ks fk → (2 ≤ length ks)%nat → vh_heap_offset (hdr right) = DB7_PAGE_SIZE →
  leaf_key_ok k →
  ∃ (s : nat) l r sent, Leaf.Split left right new_pid k = split_insert l r sent k ∧
    (1 ≤ s)%nat ∧ ks !! s = Some sent ∧
    leaf_abs l (take s ks) (Some sent) ∧ leaf_abs r (drop s ks) fk ∧ fits k l ∧ fits k r ∧
    tight l (take s ks) (Some sent) ∧ tight r (drop s ks) fk ∧
    GetRLink l = new_pid ∧ GetRLink r = GetRLink left ∧
    vh_pid (hdr l) = vh_pid (hdr left) ∧ vh_pid (hdr r) = vh_pid (hdr right) ∧
    GetLevel l = GetLevel left ∧ GetLevel r = GetLevel right.
Proof.
  intros [Hr Hst] Hn Hright Hk. pose proof (node_abs_ok _ _ _ Hr) as [Hfok Hok]%Forall_app.
  destruct (split_choice left ks fk Hr Hok Hn) as (s & sent & Hsp & Hs & Hsent & RL & RR).
  assert (Hsok : leaf_key_ok sent) by (rewrite Forall_lookup in Hok; by eapply Hok).
  pose proof (key_cost_max k Hk) as Hkc. pose proof (key_cost_max sent Hsok) as Hsc.
  destruct Hr as (es & f & Hr & <- & <-). rewrite length_fmap in *.
  assert (Hfc : fence_cost (snd <$> f) ≤ 820).
  { destruct f as [e|]; cbn; [|lia]. apply Forall_cons in Hfok as [Hfe _]. by apply key_cost_max. }
  destruct (CopyHalfRight_ok left es f
      (λ right_data off, Leaf.AppendHeap right_data (Leaf.SlotValLeaf (body left) off)) right s Hr)
    as (m & esr & fr & Hcopy & Hfr & Hesr & Hlr); [|lia|done|lia|].
  { intros r off e Hread _. cbn in Hread. by rewrite Hread. }
  destruct (compact_left_ok left es f s sent Hr) as (m1 & m2 & esl & Hcomp & Happ & Hesl & Hll);
    [lia|done|lia|].
  set (r0 := set_heap_offset _ _) in Hcopy. set (l0 := set_heap_offset (set_body left m2) _) in Happ.
  assert (Hlen_r : length esr = (length es - s)%nat).
  { rewrite <- (length_fmap snd esr), Hesr, length_drop, length_fmap. done. }
  assert (Hlen_l : length esl = s).
  { rewrite <- (length_fmap snd esl), Hesl, length_take, length_fmap. lia. }
  set (r1 := set_max_val (set_count (set_rlink r0 (GetRLink left)) (Z.of_nat (length es - s)))
                         (from_option fst UNDEFINED_OFFSET fr)).
  set (l1 := set_max_val (set_count (set_rlink l0 new_pid) (Z.of_nat s)) (vh_heap_offset (hdr l0))).
  assert (Hrep_r : node_rep r1 esr fr).
  { split; [by eapply node_layout_ext; [..|exact Hlr]| |done]. cbn. by rewrite Hlen_r. }
  assert (Hrep_l : node_rep l1 esl (Some (vh_heap_offset (hdr l0), sent))).
  { split; [by eapply node_layout_ext; [..|exact Hll]| |done]. cbn. by rewrite Hlen_l. }
  assert (Habs_r : node_abs r1 (drop s es.*2) (snd <$> f)) by (by exists esr, fr).
  assert (Hslot0 : Leaf.slot_val r0 0 = sent).
  { destruct (leaf_rep_slot r1 _ _ 0 sent Habs_r) as [Hv _]; [by rewrite lookup_drop, Nat.add_0_r|done]. }
  exists s, l1, r1, sent. split_and!; try done; [|lia|..].
  - unfold Leaf.Split. rewrite (check_key_ok k Hk), bind_Ret.
    rewrite DB7_ASSERT_true, bind_Ret by (by apply Z.eqb_eq).
    rewrite Hsp, bind_Ret. unfold Leaf.CopyHalfRight. rewrite Hcopy, bind_Ret. cbv beta iota zeta.
    unfold Leaf.CompactHeap. cbn [nf_hdr nf_al nf_len_at nf_key nf_blob leaf_format] in Hcomp. rewrite Hcomp, bind_Ret, Hslot0.
    rewrite <- AppendHeap_blob in Happ. rewrite Happ, bind_Ret. cbv beta iota zeta.
    cbn [hdr set_heap_offset set_body vh_rlink vh_count l0]. rewrite (nr_count _ _ _ Hr).
    pose proof (nl_room _ _ _ (nr_layout _ _ _ Hr)).
    rewrite (wrap_small 16) by (unfold header_size_, DB7_PAGE_SIZE in *; lia).
    unfold r1, l1, GetRLink. by rewrite Nat2Z.inj_sub by lia.
  - split; [by exists esl, (Some (vh_heap_offset (hdr l0), sent))|by eapply leaf_state_take].
  - split; [done|by apply leaf_state_drop].
  - unfold fits, free_bytes. cbn. lia.
  - unfold fits, free_bytes. cbn. lia.
Qed.

(** ** The theorem *)

Lemma filter_lt_split ks fk (s : nat) sent :
  leaf_state ks fk → ks !! s = Some sent →
  filter (λ x, lex_lt x sent) ks = take s ks ∧ filter (λ x, ¬ lex_lt x sent) ks = drop s ks.
Proof.
  intros Hst Hs. pose proof (leaf_state_take _ _ _ _ Hst Hs) as [_ Hlt _].
  assert (Hge : Forall (λ x, ¬ lex_lt x sent) (drop s ks)).
  { pose proof (leaf_state_drop _ _ s Hst) as [Hso _ _]. rewrite (drop_S _ _ _ Hs) in *.
    apply StronglySorted_inv in Hso as [_ HF]. constructor; [apply lex_lt_irrefl|].
    eapply Forall_impl; [exact HF|]. intros x Hx. by apply lex_lt_asym. }
  rewrite <- (take_drop s ks) at 1 3. rewrite !filter_app. split.
  - by rewrite filter_all, filter_none, app_nil_r.
  - rewrite filter_none, filter_all; [done..|]. eapply Forall_impl; [exact Hlt|]. cbn. tauto.
Qed.

(** Cutting the list with the new key is inserting it into one of the halves. *)
Lemma key_insert_split ks fk (s : nat) sent k :
  leaf_state ks fk → ks !! s = Some sent → bytes_ok k → k ∉ ks → below_fence k fk →
  filter (λ x, lex_lt x sent) (key_insert k ks) =
    (if decide (lex_lt k sent) then key_insert k (take s ks) else take s ks) ∧
  filter (λ x, ¬ lex_lt x sent) (key_insert k ks) =
    (if decide (lex_lt k sent) then drop s ks else key_insert k (drop s ks)).
Proof.
  intros Hst Hs Hb Hn Hf. destruct (filter_lt_split _ _ _ _ Hst Hs) as [FL FR].
  pose proof (leaf_state_take _ _ _ _ Hst Hs) as Hl. pose proof (leaf_state_drop _ _ s Hst) as Hr.
  pose proof (leaf_state_insert ks fk k Hst Hn Hf Hb) as [Hso _ _].
  assert (Hnt : k ∉ take s ks) by (intros Hin; apply Hn; by apply subseteq_take in Hin).
  assert (Hnd : k ∉ drop s ks) by (intros Hin; apply Hn; by apply subseteq_drop in Hin).
  split; apply (StronglySorted_unique lex_lt); try by apply StronglySorted_filter.
  - case_decide; [|apply Hl]. apply key_insert_sorted; [apply Hl|done].
  - rewrite key_insert_perm. case_decide as Hlt.
    + rewrite filter_cons_True, FL by done. by rewrite key_insert_perm.
    + by rewrite filter_cons_False, FL.
  - case_decide; [apply Hr|]. apply key_insert_sorted; [apply Hr|done].
  - rewrite key_insert_perm. case_decide as Hlt.
    + rewrite filter_cons_False, FR by tauto. done.
    + rewrite filter_cons_True, FR by done. by rewrite key_insert_perm.
Qed.

(** What the last step does to the half it inserts into. *)
Lemma insert_half p ks fk k :
  leaf_abs p ks fk → leaf_key_ok k → bytes_ok k → k ∉ ks → below_fence k fk → fits k p →
  ∃ p1 off p', Leaf.HasSpace p k = Ret true ∧ Leaf.AppendHeap p k = Ret (p1, off) ∧
    Leaf.InsertSlot p1 off = Ret p' ∧ leaf_abs p' (key_insert k ks) fk ∧ same_ids p p' ∧
    (tight p ks fk → tight p' (key_insert k ks) fk).
Proof.
  intros Hr Hk Hb Hn Hf Hfit.
  destruct (append_insert_ok p ks fk k Hr Hk Hb Hn Hf Hfit) as (p1 & off & p' & Ha & Hi & Habs & Hid & Hh).
  exists p1, off, p'. split; [|split_and!; try done; by apply tight_insert]. destruct Hr as [Hr _].
  rewrite (HasSpace_ok p ks fk k Hr Hk) by apply (fits_room p ks fk k Hr Hfit).
  by rewrite bool_decide_true.
Qed.

(** [Split] returns two leaves that hold the old keys and the new one, cut at
    the sentinel, which is the fence of the left leaf. *)
Lemma Split_ok left right ks fk new_pid k :
  leaf_abs left ks fk → (2 ≤ length ks)%nat → vh_heap_offset (hdr right) = DB7_PAGE_SIZE →
  leaf_key_ok k → bytes_ok k → k ∉ ks → below_fence k fk →
  ∃ l r sent, Leaf.Split left right new_pid k = Ret (l, r, sent) ∧ sent ∈ ks ∧ head ks ≠ Some sent ∧
    leaf_abs l (filter (λ x, lex_lt x sent) (key_insert k ks)) (Some sent) ∧
    leaf_abs r (filter (λ x, ¬ lex_lt x sent) (key_insert k ks)) fk ∧
    tight l (filter (λ x, lex_lt x sent) (key_insert k ks)) (Some sent) ∧
    tight r (filter (λ x, ¬ lex_lt x sent) (key_insert k ks)) fk ∧
    GetRLink l = new_pid ∧ GetRLink r = GetRLink left ∧
    vh_pid (hdr l) = vh_pid (hdr left) ∧ vh_pid (hdr r) = vh_pid (hdr right) ∧
    GetLevel l = GetLevel left ∧ GetLevel r = GetLevel right.
Proof.
  intros Habs Hn Hright Hk Hb Hnin Hbf.
  destruct (split_pages left right ks fk new_pid k Habs Hn Hright Hk)
    as (s & l & r & sent & -> & Hs & Hsent & Hl & Hr & Hfl & Hfr & Htl & Htr & R1 & R2 & P1 & P2 & L1 & L2).
  assert (Hin : sent ∈ ks) by (apply list_elem_of_lookup; eauto).
  assert (Hhd : head ks ≠ Some sent).
  { rewrite head_lookup. intros H0. destruct Habs as [_ [Hso _ _]].
    rewrite <- (take_drop_middle ks s sent Hsent) in Hso.
    apply StronglySorted_app_elim in Hso as (_ & _ & Hlt). apply (lex_lt_irrefl sent), Hlt; [|by left].
    apply list_elem_of_lookup. exists 0%nat. by rewrite lookup_take_lt by lia. }
  destruct (key_insert_split ks fk s sent k (proj2 Habs) Hsent Hb Hnin Hbf) as [EL ER].
  unfold split_insert. rewrite CmpFull_lex, (lex_antisym k sent). unfold GetRLink, GetLevel in *.
  destruct (decide (lex_lt k sent)) as [Hlt|Hge].
  - assert (E := Hlt). unfold lex_lt in E. rewrite E. cbn [CompOpp sign_of Z.leb Z.compare].
    destruct (insert_half l _ _ k Hl Hk Hb) as (p1 & off & p' & -> & Ha & Hi & Habs' & (I1 & I2 & I3 & _) & Ht);
      [intros H; apply Hnin; by apply subseteq_take in H|done|done|].
    rewrite bind_Ret. cbn [DB7_ASSERT]. rewrite bind_Ret, Ha, bind_Ret, Hi, bind_Ret.
    exists p', r, sent. rewrite EL, ER. split_and!; (congruence || done || by apply Ht).
  - assert (E : (sign_of (CompOpp (lex k sent)) <=? 0) = true).
    { unfold lex_lt in Hge. by destruct (lex k sent). }
    destruct (insert_half r _ _ k Hr Hk Hb) as (p1 & off & p' & Hsp & Ha & Hi & Habs' & (I1 & I2 & I3 & _) & Ht);
      [intros H; apply Hnin; by apply subseteq_drop in H|done|done|].
    rewrite E, Hsp, bind_Ret. cbn [DB7_ASSERT]. rewrite bind_Ret, Ha, bind_Ret, Hi, bind_Ret.
    exists l, p', sent. rewrite EL, ER. split_and!; (congruence || done || by apply Ht).
Qed.
