(* ===== verification/Inter.v ===== *)
(** * The intermediate layout (varlen_layout_intermediate.hpp)

    [BtreeVarlenLayoutIntermediate<page_id>]: an entry is a child page id and a
    separator key, stored as [SlotValHeaderInter] ([u32 result; u16 len], 8
    bytes with padding, alignment 4) followed by the key.  A child covers the
    keys from its separator on; the leftmost separator is the empty key. *)

From S2P Require Import Prelude Bytes Shared Memory SlottedPage.

Module Inter.

(** [SlotValInter(page_data, heap_offset)]: the child and the key. *)
Definition len_at (m : mem) (heap_offset : Z) : Z := load 2 m (heap_offset + 4).
Definition result_at (m : mem) (heap_offset : Z) : Z := load 4 m heap_offset.
Definition SlotValInter (m : mem) (heap_offset : Z) : Z * Key :=
  (result_at m heap_offset,
   read_bytes m (heap_offset + 8) (Z.to_nat (len_at m heap_offset))).

Definition CalculateHeapOffset := SlottedPage.CalculateHeapOffset 8 4.

(** [*hdr = {value, key.len}] and the copy of the key; C++ leaves the two
    padding bytes of the header unspecified, the model writes zeros. *)
Definition header_bytes (key : Key) (value : Z) : list Z :=
  le_bytes 4 value ++ le_bytes 2 (key_len key) ++ [0; 0].

Definition AppendHeap (data : page) (key : Key) (value : Z) : outcome (page * Z) :=
  AppendBlob 8 4 data (key_len key) (header_bytes key value ++ key).

Definition MoveHeap := SlottedPage.MoveHeap 8 4.

Definition CmpFull (slot_val main_val : Z * Key) : Z :=
  let min_len := Z.min (key_len main_val.2) (key_len slot_val.2) in
  let cmp := memcmp slot_val.2 main_val.2 min_len in
  if negb (cmp =? 0) then cmp
  else Z.b2z (key_len main_val.2 <? key_len slot_val.2) - Z.b2z (key_len slot_val.2 <? key_len main_val.2).

(** The entry of slot [mid]. *)
Definition slot_val (data : page) (mid : Z) : Z * Key :=
  SlotValInter (body data) (GetSlot data mid).

Definition FindInsertPosition (data : page) (main_val : Z * Key) (count : Z) : outcome Z :=
  search_loop (search_fuel 0 count)
    (λ mid,
       let res := CmpFull (slot_val data mid) main_val in
       _ ← DB7_ASSERT (negb (res =? 0))
             "Somehow there are identical entries in the tree. That means same tuple was inserted twice";
       Ret (res <? 0)) 0 count.

Definition FindChild (data : page) (main_val : Z * Key) (count : Z) : outcome Z :=
  search_loop (search_fuel 0 count)
    (λ mid, Ret (CmpFull (slot_val data mid) main_val <=? 0)) 0 count.

Definition InsertSlot (data : page) (heap_offset : Z) : outcome page :=
  let main_val := SlotValInter (body data) heap_offset in
  let count := vh_count (hdr data) in
  idx ← FindInsertPosition data main_val count;
  let data := ShiftRightInsert data idx count heap_offset in
  Ret (set_count data (to_u16 (count + 1))).

Definition CopyHalfRight (left_data : page) :=
  SlottedPage.CopyHalfRight
    (λ right_data off,
       let slot := SlotValInter (body left_data) off in
       AppendHeap right_data slot.2 slot.1) left_data.

Definition CompactHeap := SlottedPage.CompactHeap 8 4 len_at.
Definition FindSplitPoint := SlottedPage.FindSplitPoint len_at.

(** [Get]: [idx] is a [u16], so its assertion [idx >= 0] always holds and
    [slots[idx - 1]] is read whatever it is; [slots[-1]] lies before the slot
    array. *)
Definition Get (data : page) (count : Z) (key : Key) : outcome Z :=
  idx ← FindChild data (0, key) count;
  let idx := to_u16 idx in
  _ ← DB7_ASSERT (0 <=? idx) "no covering child — leftmost separator must be the empty key";
  if idx =? 0 then Undefined "slots[-1]"
  else Ret (result_at (body data) (GetSlot data (idx - 1))).

(** A [Key] here may be empty but not null. *)
Definition Insert (data : page) (key : Key) (value : Z) : outcome page :=
  _ ← DB7_ASSERT (key_len key <? DB7_MAX_ROW_SIZE) "should be checked in the binder";
  _ ← DB7_ASSERT (negb (value =? 0)) "Can not insert 0 which is invalid page";
  '(data, tuple_heap_offset) ← AppendHeap data key value;
  InsertSlot data tuple_heap_offset.

Definition HasSpace (data : page) (key : Key) : outcome bool :=
  _ ← check_key key;
  Ret (SlottedPage.HasSpace 8 4 data (key_len key)).

Definition HasSplit (data : page) (key : Key) : outcome bool :=
  _ ← check_key key;
  if vh_max_val (hdr data) =? UNDEFINED_OFFSET then Ret false
  else
    let max_val := SlotValInter (body data) (vh_max_val (hdr data)) in
    Ret (CmpFull max_val (0, key) <=? 0).

Definition Split (left_data right_data : page) (new_pid : Z) (key : Key) (value : Z) :
    outcome (page * page * Key) :=
  _ ← check_key key;
  _ ← DB7_ASSERT (vh_heap_offset (hdr right_data) =? DB7_PAGE_SIZE) "Heap must not be filled";
  split ← FindSplitPoint left_data (vh_count (hdr left_data));
  '(right_data, right_max) ← CopyHalfRight left_data right_data split;
  let left_data := set_heap_offset left_data DB7_PAGE_SIZE in
  left_data ← CompactHeap left_data split;
  let sentinel := slot_val right_data 0 in
  '(left_data, left_max) ← AppendHeap left_data sentinel.2 sentinel.1;
  let right_data := set_rlink right_data (vh_rlink (hdr left_data)) in
  let right_data := set_count right_data (to_u16 (vh_count (hdr left_data) - split)) in
  let right_data := set_max_val right_data right_max in
  let left_data := set_rlink left_data new_pid in
  let left_data := set_count left_data split in
  let left_data := set_max_val left_data left_max in
  if CmpFull sentinel (value, key) <=? 0 then
    space ← HasSpace right_data key;
    _ ← DB7_ASSERT space "new key does not fit in right half after split";
    '(right_data, tuple_heap_offset) ← AppendHeap right_data key value;
    right_data ← InsertSlot right_data tuple_heap_offset;
    Ret (left_data, right_data, sentinel.2)
  else
    space ← HasSpace left_data key;
    _ ← DB7_ASSERT space "new key does not fit in left half after split";
    '(left_data, tuple_heap_offset) ← AppendHeap left_data key value;
    left_data ← InsertSlot left_data tuple_heap_offset;
    Ret (left_data, right_data, sentinel.2).

Definition CreateRoot (data : page) (key : Key) (pid new_pid : Z) : outcome page :=
  '(data, off) ← AppendHeap data [] pid;
  let data := SetSlot data 0 off in
  '(data, off) ← AppendHeap data key new_pid;
  let data := SetSlot data 1 off in
  Ret (set_count data 2).

End Inter.
