(* ===== verification/InterFacts.v ===== *)
(** * Theorems about the intermediate layout

    The abstract state of an intermediate node is the list of its (child,
    separator) entries, sorted by separator, and its high fence. *)

From S2P Require Import Prelude Bytes Shared Memory SlottedPage SplitFacts NodeFacts Leaf LeafFacts.
From S2P Require Import Inter.

Abbreviation Sep := (Z * Key)%type.

(** ** The entry format *)

Lemma InterCmpFull_lex a b : Inter.CmpFull a b = sign_of (lex a.2 b.2).
Proof. rewrite <- CmpFull_lex. done. Qed.

Definition inter_blob (e : Sep) : list Z := Inter.header_bytes e.2 e.1 ++ e.2.

Definition sep_ok (e : Sep) : Prop := key_len e.2 < DB7_MAX_ROW_SIZE ∧ 0 ≤ e.1 < 2 ^ 32.

#[export] Instance sep_ok_dec e : Decision (sep_ok e).
Proof. unfold sep_ok. apply _. Defined.

Lemma length_inter_blob e : Z.of_nat (length (inter_blob e)) = 8 + key_len e.2.
Proof.
  unfold inter_blob, Inter.header_bytes, key_len. rewrite !length_app, !length_le_bytes. cbn [length]. lia.
Qed.

Lemma inter_blob_read m off e :
  sep_ok e → has_region m off (inter_blob e) →
  Inter.len_at m off = key_len e.2 ∧ Inter.SlotValInter m off = e.
Proof.
  unfold sep_ok, inter_blob, Inter.header_bytes. rewrite DB7_MAX_ROW_SIZE_eq.
  intros [Hk Hv] H. assert (0 ≤ key_len e.2) by (unfold key_len; lia).
  apply has_region_app in H as [H H3]. apply has_region_app in H as [H1 H].
  apply has_region_app in H as [H2 _]. rewrite !length_app, !length_le_bytes in H3.
  rewrite length_le_bytes in H2. cbn in H3.
  assert (Hl : Inter.len_at m off = key_len e.2).
  { unfold Inter.len_at. rewrite (load_of_bytes _ _ _ (key_len e.2)).
    - apply Z.mod_small. cbn. lia.
    - unfold has_region in H2. by rewrite length_le_bytes in H2. }
  split; [done|]. unfold Inter.SlotValInter. rewrite Hl.
  assert (Hr : Inter.result_at m off = e.1).
  { unfold Inter.result_at. rewrite (load_of_bytes _ _ _ e.1).
    - apply Z.mod_small. cbn. lia.
    - unfold has_region in H1. by rewrite length_le_bytes in H1. }
  rewrite Hr. unfold key_len. rewrite Nat2Z.id. unfold has_region in H3.
  destruct e as [v k]. cbn [fst snd] in *. change (Z.of_nat 8) with 8 in H3. by rewrite H3.
Qed.

#[export] Instance inter_format : NodeFormat Sep := {
  nf_hdr := 8;
  nf_al := 4;
  nf_log := 2;
  nf_len_at := Inter.len_at;
  nf_read := Inter.SlotValInter;
  nf_blob := inter_blob;
  nf_key := snd;
  nf_ok := sep_ok;
  nf_al_pow := eq_refl;
  nf_log_range := conj (Z.le_0_2) eq_refl;
  nf_hdr_pos := eq_refl;
  nf_page_al := eq_refl;
  nf_length := length_inter_blob;
  nf_read_blob := inter_blob_read
}.

Lemma InterAppendHeap_blob p e :
  Inter.AppendHeap p e.2 e.1 = AppendBlob nf_hdr nf_al p (key_len (nf_key e)) (nf_blob e).
Proof. done. Qed.

(** ** Abstract state *)

Definition sep_lt (a b : Sep) : Prop := lex_lt a.2 b.2.

#[export] Instance sep_lt_trans : Transitive sep_lt.
Proof. intros a b c. unfold sep_lt. apply transitivity. Qed.

Definition sep_below (e : Sep) (fk : option Sep) : Prop := below_fence e.2 (snd <$> fk).

#[export] Instance sep_below_dec e fk : Decision (sep_below e fk).
Proof. unfold sep_below. apply _. Defined.

(** Separators strictly increasing, all below the fence. *)
Record inter_state (l : list Sep) (fk : option Sep) : Prop := {
  is_sorted : StronglySorted sep_lt l;
  is_fence : Forall (λ e, sep_below e fk) l
}.

Definition inter_abs (p : page) (l : list Sep) (fk : option Sep) : Prop :=
  node_abs p l fk ∧ inter_state l fk.

Definition lt_sep (k : Key) (x : Sep) : bool := bool_decide (lex_lt x.2 k).
Definition le_sep (k : Key) (x : Sep) : bool := bool_decide (¬ lex_lt k x.2).
Definition sep_pos (k : Key) (l : list Sep) : nat := lower_bound (lt_sep k) l.
Definition child_pos (k : Key) (l : list Sep) : nat := lower_bound (le_sep k) l.
Definition sep_insert (e : Sep) (l : list Sep) : list Sep :=
  take (sep_pos e.2 l) l ++ e :: drop (sep_pos e.2 l) l.

(** The child a search for [k] follows: that of the last separator at or
    below [k]. *)
Definition child_of (k : Key) (l : list Sep) : option Sep :=
  match child_pos k l with O => None | S i => l !! i end.

Lemma sep_downward k l : StronglySorted sep_lt l → downward (lt_sep k) l.
Proof.
  apply StronglySorted_impl_in. intros x y _ _ Hxy. unfold lt_sep, sep_lt in *. rewrite !bool_decide_eq_true.
  intros. by transitivity y.2.
Qed.

Lemma child_downward k l : StronglySorted sep_lt l → downward (le_sep k) l.
Proof.
  apply StronglySorted_impl_in. intros x y _ _ Hxy. unfold le_sep, sep_lt in *. rewrite !bool_decide_eq_true.
  intros H H'. apply H. by transitivity x.2.
Qed.

Lemma inter_rep_slot p l fk (i : nat) e :
  node_abs p l fk → l !! i = Some e → Inter.slot_val p (Z.of_nat i) = e ∧ sep_ok e.
Proof.
  intros (es & f & [Hl _ _] & <- & _) Hi. rewrite list_lookup_fmap in Hi.
  destruct (es !! i) as [x|] eqn:He; [|done]. injection Hi as <-.
  destruct (node_layout_slot p es f i x Hl He) as (Hs & Hr & _ & Hok).
  unfold Inter.slot_val. by rewrite Hs.
Qed.

Lemma inter_result_slot p l fk (i : nat) e :
  node_abs p l fk → l !! i = Some e → Inter.result_at (body p) (GetSlot p (Z.of_nat i)) = e.1.
Proof.
  intros Hr Hi. destruct (inter_rep_slot p l fk i e Hr Hi) as [Hv _].
  unfold Inter.slot_val, Inter.SlotValInter in Hv. by destruct e; injection Hv.
Qed.

Lemma sep_in_keys (l : list Sep) (i : nat) x k : l !! i = Some x → k ∉ l.*2 → x.2 ≠ k.
Proof.
  intros Hi Hn <-. apply Hn. apply list_elem_of_lookup. exists i. by rewrite list_lookup_fmap, Hi.
Qed.

Lemma InterFindInsertPosition_ok p l fk e :
  node_abs p l fk → StronglySorted sep_lt l → e.2 ∉ l.*2 →
  Inter.FindInsertPosition p e (vh_count (hdr p)) = Ret (Z.of_nat (sep_pos e.2 l)).
Proof.
  intros Hr Hs Hn. unfold Inter.FindInsertPosition. rewrite (node_abs_count _ _ _ Hr).
  apply search_lower_bound; [by apply sep_downward|].
  intros i x Hx. destruct (inter_rep_slot p l fk i x Hr Hx) as [-> _].
  rewrite InterCmpFull_lex. pose proof (sep_in_keys l i x e.2 Hx Hn) as Hne.
  rewrite DB7_ASSERT_true, bind_Ret by (destruct (lex x.2 e.2) eqn:E; [by apply lex_eq in E|done..]).
  apply (f_equal Ret). unfold lt_sep.
  case_bool_decide as H; unfold lex_lt in H; [by rewrite H|by destruct (lex x.2 e.2)].
Qed.

Lemma FindChild_ok p l fk v k :
  node_abs p l fk → StronglySorted sep_lt l →
  Inter.FindChild p (v, k) (vh_count (hdr p)) = Ret (Z.of_nat (child_pos k l)).
Proof.
  intros Hr Hs. unfold Inter.FindChild. rewrite (node_abs_count _ _ _ Hr).
  apply search_lower_bound; [by apply child_downward|].
  intros i x Hx. destruct (inter_rep_slot p l fk i x Hr Hx) as [-> _].
  rewrite InterCmpFull_lex. cbn [snd]. apply (f_equal Ret). unfold le_sep.
  rewrite (lex_antisym k x.2). unfold lex_lt. case_bool_decide as H; destruct (lex k x.2); cbn; done.
Qed.

(** ** Lookup *)

Lemma child_of_spec k l c :
  StronglySorted sep_lt l → child_of k l = Some c →
  ∃ A B, l = A ++ c :: B ∧ ¬ lex_lt k c.2 ∧ Forall (λ e, lex_lt k e.2) B.
Proof.
  intros Hs. unfold child_of. destruct (child_pos k l) as [|i] eqn:Hp; [done|]. intros Hi.
  destruct (lower_bound_split (le_sep k) l (child_downward k l Hs)) as [H1 H2].
  unfold child_pos in Hp. rewrite Hp in H1, H2.
  exists (take i l), (drop (S i) l). split; [by rewrite take_drop_middle|]. split.
  - rewrite Forall_lookup in H1. specialize (H1 i c).
    rewrite lookup_take_lt in H1 by lia. specialize (H1 Hi). by apply bool_decide_eq_true in H1.
  - eapply Forall_impl; [exact H2|]. intros x Hx. unfold le_sep in Hx.
    apply bool_decide_eq_false in Hx. by apply dec_stable.
Qed.

(** A node whose first separator is at or below [k] has a child for [k]. *)
Lemma child_of_some k l e : head l = Some e → ¬ lex_lt k e.2 → ∃ c, child_of k l = Some c.
Proof.
  intros Hh Hge. destruct l as [|x l]; [done|]. injection Hh as ->.
  assert (E : le_sep k e = true) by (by apply bool_decide_eq_true).
  pose proof (lower_bound_le (le_sep k) l) as Hle.
  unfold child_of, child_pos. cbn [lower_bound]. rewrite E.
  apply lookup_lt_is_Some_2. cbn [length]. lia.
Qed.

Lemma InterGet_ok p l fk k c :
  inter_abs p l fk → child_of k l = Some c → Inter.Get p (GetCount p) k = Ret c.1.
Proof.
  intros [Hr [Hs _]] Hc. unfold Inter.Get, GetCount. rewrite (FindChild_ok p l fk 0 k Hr Hs), bind_Ret.
  unfold child_of in Hc. pose proof (lower_bound_le (le_sep k) l) as Hle. unfold child_pos in *.
  destruct (lower_bound (le_sep k) l) as [|i]; [done|].
  assert (Z.of_nat (length l) < 65536).
  { rewrite <- (node_abs_count _ _ _ Hr). destruct Hr as (es & f & [[_ Hro _ _ _] Hcnt _] & _).
    rewrite Hcnt. unfold header_size_, DB7_PAGE_SIZE in Hro. lia. }
  rewrite (wrap_small 16) by lia. rewrite DB7_ASSERT_true, bind_Ret by (apply Z.leb_le; lia).
  rewrite (proj2 (Z.eqb_neq _ _)) by lia.
  replace (Z.of_nat (S i) - 1) with (Z.of_nat i) by lia. by rewrite (inter_result_slot p l fk i c).
Qed.

(** ** Space, fences, insertion *)

Lemma check_key_nonempty k : k ≠ [] → check_key k = Ret tt.
Proof. by destruct k. Qed.

Lemma InterHasSpace_ok p l fk e :
  node_abs p l fk → e.2 ≠ [] → 8 + key_len e.2 ≤ vh_heap_offset (hdr p) →
  Inter.HasSpace p e.2 = Ret (bool_decide (fits e p)).
Proof.
  intros Hr Hk Hle. unfold Inter.HasSpace. rewrite (check_key_nonempty _ Hk), bind_Ret.
  by rewrite <- (has_space_ok p l fk e Hr Hle).
Qed.

Lemma InterHasSplit_ok p l fk k :
  node_abs p l fk → k ≠ [] → Inter.HasSplit p k = Ret (bool_decide (¬ below_fence k (snd <$> fk))).
Proof.
  intros (es & f & Hr & _ & <-) Hk. unfold Inter.HasSplit. rewrite (check_key_nonempty k Hk), bind_Ret.
  pose proof (node_rep_fence _ _ _ Hr) as Hf. destruct f as [e|]; cbn [fmap option_fmap option_map below_fence].
  - destruct Hf as (-> & Hv & _). cbn in Hv. rewrite Hv. apply (f_equal Ret).
    rewrite InterCmpFull_lex. cbn [snd]. rewrite (lex_antisym k e.2.2). unfold lex_lt.
    case_bool_decide as H; destruct (lex k e.2.2); cbn in *; done.
  - rewrite Hf. apply (f_equal Ret). by rewrite bool_decide_false by tauto.
Qed.

Lemma sep_insert_perm e l : sep_insert e l ≡ₚ e :: l.
Proof. apply insert_middle_perm. Qed.

Lemma sep_insert_sorted e l :
  StronglySorted sep_lt l → e.2 ∉ l.*2 → StronglySorted sep_lt (sep_insert e l).
Proof.
  intros Hs Hn. apply sorted_insert; [done|by apply sep_downward| |]; intros y Hy; unfold lt_sep, sep_lt.
  - by rewrite bool_decide_eq_true.
  - rewrite bool_decide_eq_false. intros Hge. apply list_elem_of_lookup in Hy as [i Hi].
    pose proof (sep_in_keys l i y e.2 Hi Hn). destruct (lex_trichotomy e.2 y.2) as [?|[?|?]]; done.
Qed.

Lemma inter_state_insert l fk e :
  inter_state l fk → e.2 ∉ l.*2 → sep_below e fk → inter_state (sep_insert e l) fk.
Proof.
  intros [Hs Hf] Hn He. split; [by apply sep_insert_sorted|].
  rewrite sep_insert_perm. by constructor.
Qed.

(** The two steps [Insert] and [Split] share. *)
Lemma inter_append_insert p l fk e :
  inter_abs p l fk → sep_ok e → e.2 ∉ l.*2 → sep_below e fk → fits e p →
  ∃ p1 off p', Inter.AppendHeap p e.2 e.1 = Ret (p1, off) ∧ Inter.InsertSlot p1 off = Ret p' ∧
    inter_abs p' (sep_insert e l) fk ∧ same_ids p p' ∧
    (tight p l fk → tight p' (sep_insert e l) fk).
Proof.
  intros [Hr Hst] Hk Hn Hf Hfit.
  destruct (append_insert p l fk e (sep_pos e.2 l) Hr Hk Hfit (lower_bound_le _ _))
    as (p1 & off & Ha & Hread & Hr1 & Hc1 & Hr' & Hid & Hfree).
  eexists p1, off, _. split; [exact Ha|]. split.
  { unfold Inter.InsertSlot. cbn in Hread. rewrite Hread.
    rewrite (InterFindInsertPosition_ok p1 l fk) by (done || apply Hst). done. }
  split; [|split; [done|by apply tight_insert]]. split; [exact Hr'|by apply inter_state_insert].
Qed.

Lemma InterInsert_ok p l fk e :
  inter_abs p l fk → sep_ok e → e.1 ≠ 0 → e.2 ∉ l.*2 → sep_below e fk → fits e p →
  ∃ p', Inter.Insert p e.2 e.1 = Ret p' ∧ inter_abs p' (sep_insert e l) fk ∧ same_ids p p' ∧
    (tight p l fk → tight p' (sep_insert e l) fk).
Proof.
  intros Hr Hk Hv Hn Hf Hfit.
  destruct (inter_append_insert p l fk e Hr Hk Hn Hf Hfit) as (p1 & off & p' & Ha & Hi & H).
  exists p'. split; [|done]. unfold Inter.Insert.
  rewrite (DB7_ASSERT_true (_ <? _)), bind_Ret by (unfold sep_ok in Hk; apply Z.ltb_lt; lia).
  rewrite DB7_ASSERT_true, bind_Ret by (by rewrite (proj2 (Z.eqb_neq _ _))).
  by rewrite Ha, bind_Ret.
Qed.
