(* ===== verification/InterSplit.v ===== *)
(** * Splitting an intermediate node

    [Split] succeeds on a node with at least two entries whose separators have
    9 to 776 bytes, the leftmost possibly empty.  Keys of an index have at
    least 9 bytes (one byte of payload and the tuple id); the header of an
    entry weighs more on short separators, so that next to separators of more
    than 776 bytes the halves could leave too little room. *)

From S2P Require Import Prelude Bytes Shared Memory SlottedPage SplitFacts NodeFacts Leaf LeafFacts.
From S2P Require Import LeafSplit Inter InterFacts.

Definition wide (e : Sep) : Prop := 9 ≤ key_len e.2 ≤ 776.

(** All separators are of that length, the first one may be empty. *)
Definition wide_node (l : list Sep) : Prop :=
  match l with [] => True | e :: l => (e.2 = [] ∨ wide e) ∧ Forall wide l end.

#[export] Instance wide_dec e : Decision (wide e).
Proof. unfold wide. apply _. Defined.
#[export] Instance wide_node_dec l : Decision (wide_node l).
Proof. unfold wide_node. destruct l; apply _. Defined.

Lemma sep_cost_bounds (e : Sep) :
  sep_ok e → 8 + key_len e.2 ≤ entry_cost e ≤ 828 ∧ entry_cost e < 12 + key_len e.2 ∧
  ∃ q, entry_cost e = 4 * q.
Proof.
  intros [Hk _]. rewrite DB7_MAX_ROW_SIZE_eq in Hk. pose proof (entry_cost_bounds e) as H.
  cbn [nf_hdr nf_al nf_key inter_format] in H. pose proof (entry_cost_mod e) as He.
  cbn [nf_al inter_format] in He. apply Z_div_exact_full_2 in He; [|lia].
  split_and!; [lia..|by eexists].
Qed.

Lemma sep_slot_cost (e : Sep) :
  sep_ok e → wide e → key_len e.2 + 10 ≤ 2 + entry_cost e ∧ 9 * (2 + entry_cost e) ≤ 22 * key_len e.2 ∧ entry_cost e ≤ 784.
Proof. intros Hk Hw. unfold wide in Hw. destruct (sep_cost_bounds e Hk) as (H1 & H2 & q & Hq). lia. Qed.

Lemma seps_slot_cost (l : list Sep) :
  Forall sep_ok l → Forall wide l →
  lens l + 10 * Z.of_nat (length l) ≤ 2 * Z.of_nat (length l) + entries_cost l ∧
  9 * (2 * Z.of_nat (length l) + entries_cost l) ≤ 22 * lens l.
Proof.
  induction 1 as [|e l He _ IH]; [by cbn|]. intros [Hw Hwl]%Forall_cons. specialize (IH Hwl).
  rewrite entries_cost_cons, lens_cons. cbn [length nf_key inter_format].
  pose proof (sep_slot_cost e He Hw). lia.
Qed.

Lemma node_slot_cost (l : list Sep) :
  Forall sep_ok l → wide_node l →
  lens l + 10 * Z.of_nat (length l) ≤ 2 * Z.of_nat (length l) + entries_cost l ∧
  9 * (2 * Z.of_nat (length l) + entries_cost l) ≤ 22 * lens l + 90.
Proof.
  destruct l as [|e l]; [by cbn|]. intros [He Hl]%Forall_cons [Hw Hwl].
  pose proof (seps_slot_cost l Hl Hwl). destruct (sep_cost_bounds e He) as (H1 & H2 & q & Hq).
  rewrite entries_cost_cons, lens_cons. cbn [length nf_key inter_format].
  destruct Hw as [Hw|Hw].
  - rewrite Hw in *. change (key_len []) with 0 in *. lia.
  - pose proof (sep_slot_cost e He Hw). lia.
Qed.

Lemma wide_node_app A x B : wide_node (A ++ x :: B) → wide_node (A ++ [x]) ∧ Forall wide B.
Proof.
  destruct A as [|a A]; cbn.
  - intros [Hx HB]. by split; [split; [|constructor]|].
  - intros [Ha [HA [Hx HB]%Forall_cons]%Forall_app]. split; [|done]. split; [done|].
    apply Forall_app. split; [done|by constructor].
Qed.

Lemma wide_node_l A B : wide_node (A ++ B) → wide_node A.
Proof. destruct A; cbn; [done|]. intros [H [? _]%Forall_app]. done. Qed.

Definition small (e : Sep) : Prop := e.2 = [] ∨ wide e.

Lemma wide_node_small l : wide_node l → Forall small l.
Proof.
  destruct l as [|e l]; cbn; [constructor|]. intros [He Hl]. constructor; [done|].
  eapply Forall_impl; [exact Hl|]. by right.
Qed.

Lemma small_cost (e : Sep) : sep_ok e → small e → entry_cost e ≤ 784.
Proof.
  intros He Hs. destruct (sep_cost_bounds e He) as (H1 & H2 & q & Hq). destruct Hs as [Hs|Hs].
  - rewrite Hs in *. change (key_len []) with 0 in *. lia.
  - unfold wide in Hs. lia.
Qed.

(** Either half leaves room for a fence and one more key. *)
Lemma inter_split_room A x B :
  Forall sep_ok (A ++ x :: B) → wide_node (A ++ x :: B) →
  header_size_ + 2 * Z.of_nat (length (A ++ x :: B)) + entries_cost (A ++ x :: B) ≤ DB7_PAGE_SIZE →
  2 * lens A < lens (A ++ x :: B) →
  2 * lens B ≤ lens (A ++ x :: B) + 1 ∨ (length B ≤ 1)%nat →
  header_size_ + 2 * Z.of_nat (length (A ++ [x]) + 1) + entries_cost (A ++ [x]) + 2 * 784 ≤ DB7_PAGE_SIZE ∧
  header_size_ + 2 * Z.of_nat (length B + 1) + entries_cost B + 2 * 784 ≤ DB7_PAGE_SIZE.
Proof.
  intros Hok Hw Hroom H1 H2. apply Forall_app in Hok as [HA [Hx HB]%Forall_cons].
  destruct (wide_node_app A x B Hw) as [HwA HwB]. apply wide_node_l in HwA.
  rewrite !entries_cost_app, !entries_cost_cons, !length_app in *. cbn [length] in *.
  change (entries_cost []) with 0. rewrite lens_app, lens_cons in *. cbn [nf_key inter_format] in *.
  pose proof (node_slot_cost A HA HwA). pose proof (seps_slot_cost B HB HwB).
  pose proof (wide_node_small _ Hw) as Hsm. apply Forall_app in Hsm as [_ [Hsx HsB]%Forall_cons].
  pose proof (small_cost x Hx Hsx) as Hx1. destruct (sep_cost_bounds x Hx) as (Hx2 & _).
  unfold header_size_, DB7_PAGE_SIZE in *. split; [lia|]. destruct H2 as [H2|H2]; [lia|].
  destruct B as [|y [|]]; cbn in H2; [cbn; lia| |lia].
  apply Forall_cons in HB as [Hy _]. apply Forall_cons in HsB as [Hsy _].
  pose proof (small_cost y Hy Hsy) as Hy1.
  rewrite entries_cost_cons in *. change (entries_cost []) with 0 in *. cbn. lia.
Qed.

Lemma inter_split_choice p l fk :
  node_abs p l fk → Forall sep_ok l → wide_node l → (2 ≤ length l)%nat →
  ∃ (s : nat) sent, Inter.FindSplitPoint p (vh_count (hdr p)) = Ret (Z.of_nat s) ∧
    (1 ≤ s < length l)%nat ∧ l !! s = Some sent ∧
    header_size_ + 2 * Z.of_nat (s + 1) + entries_cost (take s l) + 2 * 784 ≤ DB7_PAGE_SIZE ∧
    header_size_ + 2 * Z.of_nat (length l - s + 1) + entries_cost (drop s l) + 2 * 784 ≤ DB7_PAGE_SIZE.
Proof.
  intros Hr Hok Hw Hn.
  assert (Hlens : 2 ≤ lens l).
  { destruct l as [|a [|b l]]; cbn in Hn; [lia..|]. destruct Hw as [_ [Hb Hwl]%Forall_cons].
    apply Forall_cons in Hok as [_ [_ Hokl]%Forall_cons]. unfold wide in Hb.
    rewrite !lens_cons. cbn [nf_key inter_format].
    assert (0 ≤ lens l); [|unfold key_len in *; lia].
    apply zsum_nonneg, Forall_fmap, Forall_forall. intros e _. unfold compose, key_len. lia. }
  destruct (find_split_point p l fk Hr Hn Hlens) as (A & x & B & sent & -> & HB & Hsp & H1 & H2).
  destruct Hr as (es & f & Hrep & Hes & _). pose proof (node_rep_cost _ _ _ Hrep) as Hroom.
  rewrite <- (length_fmap snd es), Hes in Hroom. unfold fence_cost in Hroom.
  destruct (inter_split_room A x B Hok Hw) as [RA RB];
    [|done|destruct H2 as [H2| ->]; [by left|right; cbn; lia]|].
  { destruct f as [e|]; cbn in Hroom; [pose proof (entry_cost_pos e.2)|]; lia. }
  destruct B as [|y B]; [done|]. injection HB as ->.
  exists (S (length A)), sent. split; [exact Hsp|].
  assert (E : A ++ x :: sent :: B = (A ++ [x]) ++ sent :: B) by (by rewrite <- app_assoc).
  assert (El : length (A ++ [x]) = S (length A)) by (rewrite length_app; cbn; lia).
  rewrite E, take_app_length', drop_app_length' by done. rewrite El in RA.
  split; [rewrite length_app; cbn; lia|]. split; [rewrite lookup_app_r by lia; by rewrite El, Nat.sub_diag|].
  split; [done|]. rewrite length_app, El. replace (S (length A) + _ - S (length A))%nat with (length (sent :: B)) by lia.
  done.
Qed.

(** ** The pages [Split] builds *)

Definition inter_split_insert (left_data right_data : page) (sentinel : Sep) (key : Key) (value : Z) :
    outcome (page * page * Key) :=
  if Inter.CmpFull sentinel (value, key) <=? 0 then
    space ← Inter.HasSpace right_data key;
    _ ← DB7_ASSERT space "new key does not fit in right half after split";
    '(right_data, tuple_heap_offset) ← Inter.AppendHeap right_data key value;
    right_data ← Inter.InsertSlot right_data tuple_heap_offset;
    Ret (left_data, right_data, sentinel.2)
  else
    space ← Inter.HasSpace left_data key;
    _ ← DB7_ASSERT space "new key does not fit in left half after split";
    '(left_data, tuple_heap_offset) ← Inter.AppendHeap left_data key value;
    left_data ← Inter.InsertSlot left_data tuple_heap_offset;
    Ret (left_data, right_data, sentinel.2).

Lemma inter_state_take l fk (s : nat) sent :
  inter_state l fk → l !! s = Some sent → inter_state (take s l) (Some sent).
Proof.
  intros [H1 H2] Hs. rewrite <- (take_drop s l) in H1.
  apply StronglySorted_app_elim in H1 as (H1 & _ & H12). split; [done|].
  apply Forall_forall. intros x Hx. apply H12; [done|]. rewrite (drop_S _ _ _ Hs). by left.
Qed.

Lemma inter_state_drop l fk (s : nat) : inter_state l fk → inter_state (drop s l) fk.
Proof.
  intros [H1 H2]. rewrite <- (take_drop s l) in H1.
  apply StronglySorted_app_elim in H1 as (_ & H1 & _). split; [done|by apply Forall_drop].
Qed.

Lemma inter_split_pages left right l fk new_pid e :
  inter_abs left l fk → wide_node l → Forall wide (option_list fk) → (2 ≤ length l)%nat →
  vh_heap_offset (hdr right) = DB7_PAGE_SIZE → sep_ok e → wide e →
  ∃ (s : nat) p q sent, Inter.Split left right new_pid e.2 e.1 = inter_split_insert p q sent e.2 e.1 ∧
    (1 ≤ s)%nat ∧ l !! s = Some sent ∧
    inter_abs p (take s l) (Some sent) ∧ inter_abs q (drop s l) fk ∧ 786 ≤ free_bytes p ∧ 786 ≤ free_bytes q ∧
    tight p (take s l) (Some sent) ∧ tight q (drop s l) fk ∧
    GetRLink p = new_pid ∧ GetRLink q = GetRLink left ∧
    vh_pid (hdr p) = vh_pid (hdr left) ∧ vh_pid (hdr q) = vh_pid (hdr right) ∧
    GetLevel p = GetLevel left ∧ GetLevel q = GetLevel right.
Proof.
  intros [Hr Hst] Hw Hwf Hn Hright Hk Hwe. pose proof (node_abs_ok _ _ _ Hr) as [Hfok Hok]%Forall_app.
  destruct (inter_split_choice left l fk Hr Hok Hw Hn) as (s & sent & Hsp & Hs & Hsent & RL & RR).
  assert (Hsok : sep_ok sent) by (rewrite Forall_lookup in Hok; by eapply Hok).
  pose proof (small_cost e Hk (or_intror Hwe)) as Hkc. pose proof (wide_node_small l Hw) as Hsm.
  assert (Hsc : entry_cost sent ≤ 784).
  { apply small_cost; [done|]. rewrite Forall_lookup in Hsm. by eapply Hsm. }
  assert (Hne : e.2 ≠ []) by (intros E; unfold wide, key_len in Hwe; rewrite E in Hwe; cbn in Hwe; lia).
  destruct Hr as (es & f & Hr & <- & <-). rewrite length_fmap in *.
  assert (Hfc : fence_cost (snd <$> f) ≤ 784).
  { destruct f as [x|]; cbn; [|lia]. apply Forall_cons in Hfok as [Hfe _].
    apply Forall_cons in Hwf as [Hwx _]. by apply small_cost; [|right]. }
  destruct (CopyHalfRight_ok left es f
      (λ right_data off, let slot := Inter.SlotValInter (body left) off in
                         Inter.AppendHeap right_data slot.2 slot.1) right s Hr)
    as (m & esr & fr & Hcopy & Hfr & Hesr & Hlr); [|lia|done|lia|].
  { intros r off x Hread _. cbn in Hread. by rewrite Hread. }
  destruct (compact_left_ok left es f s sent Hr) as (m1 & m2 & esl & Hcomp & Happ & Hesl & Hll);
    [lia|done|lia|].
  set (r0 := set_heap_offset _ _) in Hcopy. set (l0 := set_heap_offset (set_body left m2) _) in Happ.
  assert (Hlen_r : length esr = (length es - s)%nat).
  { rewrite <- (length_fmap snd esr), Hesr, length_drop, length_fmap. done. }
  assert (Hlen_l : length esl = s).
  { rewrite <- (length_fmap snd esl), Hesl, length_take, length_fmap. lia. }
  set (r1 := set_max_val (set_count (set_rlink r0 (GetRLink left)) (Z.of_nat (length es - s)))
                         (from_option fst UNDEFINED_OFFSET fr)).
  set (l1 := set_max_val (set_count (set_rlink l0 new_pid) (Z.of_nat s)) (vh_heap_offset (hdr l0))).
  assert (Hrep_r : node_rep r1 esr fr).
  { split; [by eapply node_layout_ext; [..|exact Hlr]| |done]. cbn. by rewrite Hlen_r. }
  assert (Hrep_l : node_rep l1 esl (Some (vh_heap_offset (hdr l0), sent))).
  { split; [by eapply node_layout_ext; [..|exact Hll]| |done]. cbn. by rewrite Hlen_l. }
  assert (Habs_r : node_abs r1 (drop s es.*2) (snd <$> f)) by (by exists esr, fr).
  assert (Hslot0 : Inter.slot_val r0 0 = sent).
  { destruct (inter_rep_slot r1 _ _ 0 sent Habs_r) as [Hv _]; [by rewrite lookup_drop, Nat.add_0_r|done]. }
  exists s, l1, r1, sent. split_and!; try done; [|lia|..].
  - unfold Inter.Split. rewrite (check_key_nonempty _ Hne), bind_Ret.
    rewrite DB7_ASSERT_true, bind_Ret by (by apply Z.eqb_eq).
    rewrite Hsp, bind_Ret.
    change (Inter.CopyHalfRight left right (Z.of_nat s) = Ret (r0, from_option fst UNDEFINED_OFFSET fr)) in Hcopy.
    rewrite Hcopy, bind_Ret. cbv beta iota zeta.
    unfold Inter.CompactHeap. cbn [nf_hdr nf_al nf_len_at nf_key nf_blob inter_format] in Hcomp.
    rewrite Hcomp, bind_Ret, Hslot0.
    rewrite <- InterAppendHeap_blob in Happ. rewrite Happ, bind_Ret. cbv beta iota zeta.
    cbn [hdr set_heap_offset set_body vh_rlink vh_count l0]. rewrite (nr_count _ _ _ Hr).
    pose proof (nl_room _ _ _ (nr_layout _ _ _ Hr)).
    rewrite (wrap_small 16) by (unfold header_size_, DB7_PAGE_SIZE in *; lia).
    unfold r1, l1, GetRLink. by rewrite Nat2Z.inj_sub by lia.
  - split; [by exists esl, (Some (vh_heap_offset (hdr l0), sent))|by eapply inter_state_take].
  - split; [done|by apply inter_state_drop].
  - unfold free_bytes. cbn. lia.
  - unfold free_bytes. cbn. lia.
Qed.

(** ** The theorem *)

Lemma sep_filter_split l fk (s : nat) sent :
  inter_state l fk → l !! s = Some sent →
  filter (λ x, sep_lt x sent) l = take s l ∧ filter (λ x, ¬ sep_lt x sent) l = drop s l.
Proof.
  intros Hst Hs. pose proof (inter_state_take _ _ _ _ Hst Hs) as [_ Hlt].
  assert (Hge : Forall (λ x, ¬ sep_lt x sent) (drop s l)).
  { pose proof (inter_state_drop _ _ s Hst) as [Hso _]. rewrite (drop_S _ _ _ Hs) in *.
    apply StronglySorted_inv in Hso as [_ HF]. constructor; [apply lex_lt_irrefl|].
    eapply Forall_impl; [exact HF|]. intros x Hx. by apply lex_lt_asym. }
  rewrite <- (take_drop s l) at 1 3. rewrite !filter_app. split.
  - by rewrite filter_all, filter_none, app_nil_r.
  - rewrite filter_none, filter_all; [done..|]. eapply Forall_impl; [exact Hlt|]. cbn. tauto.
Qed.

Lemma sep_insert_split l fk (s : nat) sent e :
  inter_state l fk → l !! s = Some sent → e.2 ∉ l.*2 →
  filter (λ x, sep_lt x sent) (sep_insert e l) =
    (if decide (sep_lt e sent) then sep_insert e (take s l) else take s l) ∧
  filter (λ x, ¬ sep_lt x sent) (sep_insert e l) =
    (if decide (sep_lt e sent) then drop s l else sep_insert e (drop s l)).
Proof.
  intros Hst Hs Hn. destruct (sep_filter_split _ _ _ _ Hst Hs) as [FL FR].
  pose proof (inter_state_take _ _ _ _ Hst Hs) as Hl. pose proof (inter_state_drop _ _ s Hst) as Hr.
  pose proof (sep_insert_sorted e l (is_sorted _ _ Hst) Hn) as Hso.
  assert (Hnt : e.2 ∉ (take s l).*2).
  { intros Hin. apply Hn. rewrite fmap_take in Hin. by apply subseteq_take in Hin. }
  assert (Hnd : e.2 ∉ (drop s l).*2).
  { intros Hin. apply Hn. rewrite fmap_drop in Hin. by apply subseteq_drop in Hin. }
  split; apply (StronglySorted_unique_strong sep_lt); try by apply StronglySorted_filter.
  - intros x y _ _ H1 H2. by destruct (lex_lt_asym _ _ H1).
  - case_decide; [|apply Hl]. apply sep_insert_sorted; [apply Hl|done].
  - rewrite sep_insert_perm. case_decide as Hlt.
    + rewrite filter_cons_True, FL by done. by rewrite sep_insert_perm.
    + by rewrite filter_cons_False, FL.
  - intros x y _ _ H1 H2. by destruct (lex_lt_asym _ _ H1).
  - case_decide; [apply Hr|]. apply sep_insert_sorted; [apply Hr|done].
  - rewrite sep_insert_perm. case_decide as Hlt.
    + rewrite filter_cons_False, FR by tauto. done.
    + rewrite filter_cons_True, FR by done. by rewrite sep_insert_perm.
Qed.

Lemma inter_insert_half p l fk e :
  inter_abs p l fk → sep_ok e → wide e → e.2 ∉ l.*2 → sep_below e fk → fits e p →
  ∃ p1 off p', Inter.HasSpace p e.2 = Ret true ∧ Inter.AppendHeap p e.2 e.1 = Ret (p1, off) ∧
    Inter.InsertSlot p1 off = Ret p' ∧ inter_abs p' (sep_insert e l) fk ∧ same_ids p p' ∧
    (tight p l fk → tight p' (sep_insert e l) fk).
Proof.
  intros Hr Hk Hw Hn Hf Hfit.
  destruct (inter_append_insert p l fk e Hr Hk Hn Hf Hfit) as (p1 & off & p' & Ha & Hi & Habs & Hid).
  assert (Hne : e.2 ≠ []) by (intros E; unfold wide, key_len in Hw; rewrite E in Hw; cbn in Hw; lia).
  exists p1, off, p'. split; [|done]. destruct Hr as [Hr _].
  rewrite (InterHasSpace_ok p l fk e Hr Hne) by apply (fits_room p l fk e Hr Hfit).
  by rewrite bool_decide_true.
Qed.

Lemma tight_free {E} `{!NodeFormat E} p (l : list E) fk :
  node_abs p l fk → tight p l fk →
  free_bytes p = DB7_PAGE_SIZE - header_size_ - 2 * Z.of_nat (length l) - entries_cost l - fence_cost fk.
Proof. intros Hr Ht. unfold tight, free_bytes in *. rewrite (node_abs_count p l fk Hr). lia. Qed.

Lemma free_insert p q l fk e :
  inter_abs p l fk → tight p l fk → inter_abs q (sep_insert e l) fk → tight q (sep_insert e l) fk →
  free_bytes p = free_bytes q + 2 + entry_cost e.
Proof.
  intros [Hp _] Tp [Hq _] Tq. rewrite (tight_free p l fk Hp Tp), (tight_free q _ fk Hq Tq).
  rewrite (entries_cost_perm _ _ (sep_insert_perm e l)), (Permutation_length (sep_insert_perm e l)), entries_cost_cons.
  cbn [length]. lia.
Qed.

(** [Split] returns two nodes that hold the old entries and the new one, cut at
    the sentinel; both nodes stay wide, and neither is nearly full. *)
Lemma InterSplit_ok left right l fk new_pid e :
  inter_abs left l fk → wide_node l → Forall wide (option_list fk) → (2 ≤ length l)%nat →
  vh_heap_offset (hdr right) = DB7_PAGE_SIZE → sep_ok e → wide e → e.2 ∉ l.*2 → sep_below e fk →
  ∃ p q sent, Inter.Split left right new_pid e.2 e.1 = Ret (p, q, sent.2) ∧ sent ∈ l ∧
    head l ≠ Some sent ∧
    inter_abs p (filter (λ x, sep_lt x sent) (sep_insert e l)) (Some sent) ∧
    inter_abs q (filter (λ x, ¬ sep_lt x sent) (sep_insert e l)) fk ∧
    tight p (filter (λ x, sep_lt x sent) (sep_insert e l)) (Some sent) ∧
    tight q (filter (λ x, ¬ sep_lt x sent) (sep_insert e l)) fk ∧
    GetRLink p = new_pid ∧ GetRLink q = GetRLink left ∧
    vh_pid (hdr p) = vh_pid (hdr left) ∧ vh_pid (hdr q) = vh_pid (hdr right) ∧
    GetLevel p = GetLevel left ∧ GetLevel q = GetLevel right ∧
    784 ≤ free_bytes p + entry_cost e ∧ 784 ≤ free_bytes q + entry_cost e.
Proof.
  intros Habs Hw Hwf Hn Hright Hk Hwe Hnin Hbf. pose proof (small_cost e Hk (or_intror Hwe)) as Hkc.
  assert (Hfits : ∀ p, 786 ≤ free_bytes p → fits e p) by (intros p Hp; unfold fits; lia). pose proof (entry_cost_pos e) as Hpos.
  destruct (inter_split_pages left right l fk new_pid e Habs Hw Hwf Hn Hright Hk Hwe)
    as (s & p & q & sent & -> & Hs & Hsent & Hl & Hr & Hfl & Hfr & Htl & Htr & R1 & R2 & P1 & P2 & L1 & L2).
  assert (Hin : sent ∈ l) by (apply list_elem_of_lookup; eauto).
  assert (Hhd : head l ≠ Some sent).
  { rewrite head_lookup. intros H0. destruct Habs as [_ [Hso _]].
    rewrite <- (take_drop_middle l s sent Hsent) in Hso.
    apply StronglySorted_app_elim in Hso as (_ & _ & Hlt). apply (lex_lt_irrefl sent.2), Hlt; [|by left].
    apply list_elem_of_lookup. exists 0%nat. by rewrite lookup_take_lt by lia. }
  destruct (sep_insert_split l fk s sent e (proj2 Habs) Hsent Hnin) as [EL ER].
  unfold inter_split_insert. rewrite InterCmpFull_lex. cbn [snd]. rewrite (lex_antisym e.2 sent.2).
  unfold GetRLink, GetLevel in *.
  destruct (decide (sep_lt e sent)) as [Hlt|Hge].
  - assert (E := Hlt). unfold sep_lt, lex_lt in E. rewrite E. cbn [CompOpp sign_of Z.leb Z.compare].
    destruct (inter_insert_half p _ _ e Hl Hk Hwe) as (p1 & off & p' & -> & Ha & Hi & Habs' & (I1 & I2 & I3 & _) & Ht);
      [intros H; apply Hnin; rewrite fmap_take in H; by apply subseteq_take in H|done|by apply Hfits|].
    pose proof (free_insert p p' _ _ e Hl Htl Habs' (Ht Htl)) as Hfree.
    rewrite bind_Ret. cbn [DB7_ASSERT]. rewrite bind_Ret, Ha, bind_Ret, Hi, bind_Ret.
    exists p', q, sent. rewrite EL, ER. split_and!; (congruence || done || (by apply Ht) || lia).
  - assert (E : (sign_of (CompOpp (lex e.2 sent.2)) <=? 0) = true).
    { unfold sep_lt, lex_lt in Hge. by destruct (lex e.2 sent.2). }
    destruct (inter_insert_half q _ _ e Hr Hk Hwe) as (p1 & off & p' & Hsp & Ha & Hi & Habs' & (I1 & I2 & I3 & _) & Ht);
      [intros H; apply Hnin; rewrite fmap_drop in H; by apply subseteq_drop in H|done|by apply Hfits|].
    pose proof (free_insert q p' _ _ e Hr Htr Habs' (Ht Htr)) as Hfree.
    rewrite E, Hsp, bind_Ret. cbn [DB7_ASSERT]. rewrite bind_Ret, Ha, bind_Ret, Hi, bind_Ret.
    exists p, p', sent. rewrite EL, ER. split_and!; (congruence || done || (by apply Ht) || lia).
Qed.

(** ** Roots *)

(** [CreateRoot] on a fresh page gives a node of two children, the left one
    under the empty separator. *)
Lemma CreateRoot_ok p key pid new_pid level my_pid :
  sep_ok (new_pid, key) → 0 ≤ pid < 2 ^ 32 → key ≠ [] →
  ∃ p', Inter.CreateRoot (InitHeader p 1 level my_pid) key pid new_pid = Ret p' ∧
    inter_abs p' [(pid, []); (new_pid, key)] None ∧
    tight p' [(pid, []); (new_pid, key)] None ∧
    GetLevel p' = level ∧ GetRLink p' = UNDEFINED_PAGE ∧ vh_pid (hdr p') = my_pid.
Proof.
  intros Hk Hpid Hne. set (p0 := InitHeader p 1 level my_pid).
  assert (Hok0 : sep_ok (pid, [])) by (split; [done|cbn; lia]).
  pose proof (node_layout_empty p0 eq_refl) as Hl0.
  destruct (sep_cost_bounds _ Hk) as (Hc & _). destruct (sep_cost_bounds _ Hok0) as (Hc0 & _).
  pose proof (entry_cost_pos (new_pid, key)). pose proof (entry_cost_pos (pid, [])).
  destruct (append_layout p0 [] None (pid, []) Hl0 Hok0) as (m & Ha & Hl1 & Hh1 & _).
  { cbn [length p0 InitHeader WriteHeader hdr vh_heap_offset]. unfold header_size_, DB7_PAGE_SIZE. lia. }
  change (vh_heap_offset (hdr p0)) with DB7_PAGE_SIZE in *. set (off0 := DB7_PAGE_SIZE - _) in *.
  assert (Hroom0 : header_size_ + 2 * (Z.of_nat (@length (Z * Sep) []) + 1) ≤ off0 ≤ DB7_PAGE_SIZE).
  { cbn [length] in *. unfold off0, header_size_, DB7_PAGE_SIZE. lia. }
  assert (Hl2 := layout_snoc p0 [] None (pid, []) off0 m Hroom0 Hok0 Hl1 Hh1).
  set (p1 := SetSlot _ _ _) in *.
  destruct (append_layout p1 [(off0, (pid, []))] None (new_pid, key) Hl2 Hk) as (m1 & Ha1 & Hl3 & Hh3 & _).
  { cbn [length p1 SetSlot set_body set_heap_offset hdr vh_heap_offset].
    cbn [length] in *. unfold off0, header_size_, DB7_PAGE_SIZE. lia. }
  change (vh_heap_offset (hdr p1)) with off0 in *. set (off1 := off0 - _) in *.
  assert (Hroom1 : header_size_ + 2 * (Z.of_nat (length [(off0, (pid, []) : Sep)]) + 1) ≤ off1 ≤ DB7_PAGE_SIZE).
  { cbn [length] in *. unfold off1, off0, header_size_, DB7_PAGE_SIZE. lia. }
  assert (Hl4 := layout_snoc p1 [(off0, (pid, []))] None (new_pid, key) off1 m1 Hroom1 Hk Hl3 Hh3).
  eexists. split.
  { unfold Inter.CreateRoot. rewrite <- InterAppendHeap_blob in Ha, Ha1. cbn [fst snd] in Ha, Ha1.
    rewrite Ha, bind_Ret. cbv beta iota zeta.
    change (SetSlot _ 0 off0) with p1. rewrite Ha1, bind_Ret. reflexivity. }
  split; [split|split; [|done]].
  - eexists _, None. split; [|split; [|done]].
    + split; [eapply node_layout_ext; [..|exact Hl4]; done|done|done].
    + done.
  - split; [|by repeat constructor].
    repeat constructor. unfold sep_lt. cbn. unfold lex_lt. by destruct key.
  - unfold tight. rewrite !entries_cost_cons. change (entries_cost []) with 0.
    cbn [fence_cost from_option option_fmap]. cbn [hdr set_count SetSlot set_body set_heap_offset vh_heap_offset].
    unfold off1, off0. lia.
Qed.
