(* ===== verification/Fsm.v ===== *)
(** * Free space managers (storage/fsm)

    [FreeSpaceManagerIndex] hands out the page ids of the index files, one
    counter per file; [FreeSpaceManager] and [FreeSpaceManagerVarlen] hand out
    the page a row (or a long value) of a given size goes to.  The latter two
    keep one counter for all tables. *)

From S2P Require Import Prelude Shared.

(** [sizeof(PageHeader)] and the payload of a page (page_header.hpp). *)
Definition HEADER_SIZE : Z := 4.
Definition PAYLOAD_SIZE : Z := DB7_PAGE_SIZE - HEADER_SIZE.

Module FreeSpaceManagerIndex.

(** [page_ids_]: the next page id of each file. *)
Abbreviation state := (gmap Z Z).

Definition Get (page_ids : state) (tbl_id : Z) : Z * state :=
  let second := default 1 (page_ids !! tbl_id) in
  (second, <[tbl_id := to_u32 (second + 1)]> page_ids).

Definition Reset (_ : state) : state := ∅.

(** Successive calls for a file. *)
Fixpoint GetMany (n : nat) (s : state) (tbl_id : Z) : list Z * state :=
  match n with
  | O => ([], s)
  | S n => let '(p, s) := Get s tbl_id in
           let '(ps, s) := GetMany n s tbl_id in (p :: ps, s)
  end.

End FreeSpaceManagerIndex.

Module FreeSpaceManager.

(** [next_page_id] and [free_space] (both u32). *)
Record state := mkState { next_page_id : Z; free_space : Z }.

Definition init : state := mkState 1 (DB7_PAGE_SIZE - HEADER_SIZE).

Definition Get (s : state) (space : Z) : Z * state :=
  let s := if free_space s <? space
           then mkState (to_u32 (next_page_id s + 1)) (DB7_PAGE_SIZE - HEADER_SIZE) else s in
  (next_page_id s, mkState (next_page_id s) (to_u32 (free_space s - space))).

(** The pages handed out for a sequence of requests. *)
Fixpoint GetAll (s : state) (spaces : list Z) : list Z * state :=
  match spaces with
  | [] => ([], s)
  | space :: spaces =>
      let '(p, s) := Get s space in
      let '(ps, s) := GetAll s spaces in (p :: ps, s)
  end.

End FreeSpaceManager.

(** [FreeSpaceManagerVarlen] has the same code with its own counters. *)
Module FreeSpaceManagerVarlen.
Definition Get := FreeSpaceManager.Get.
End FreeSpaceManagerVarlen.

(** ** Theorems *)

Section Index.
Import FreeSpaceManagerIndex.

Lemma GetMany_seq n s tbl :
  let first := default 1 (s !! tbl) in
  0 ≤ first → first + Z.of_nat n < 2 ^ 32 →
  (GetMany n s tbl).1 = seqZ first (Z.of_nat n) ∧
  default 1 ((GetMany n s tbl).2 !! tbl) = first + Z.of_nat n.
Proof.
  revert s; induction n as [|n IH]; intros s first H0 Hlt; cbn [GetMany].
  { split; [done|]. cbn [snd]. fold first. lia. }
  unfold Get. fold first. rewrite (wrap_small 32) by lia.
  destruct (IH (<[tbl := first + 1]> s)) as [IH1 IH2];
    [rewrite lookup_insert_eq; cbn; lia..|].
  rewrite lookup_insert_eq in IH1, IH2. cbn in IH1, IH2.
  destruct (GetMany n _ tbl) as [ps s'] eqn:E. cbn [fst snd] in *. subst ps. split.
  - rewrite (seqZ_cons first) by lia. f_equal; f_equal; lia.
  - rewrite IH2. lia.
Qed.

Lemma Get_other s tbl tbl' : tbl ≠ tbl' → (Get s tbl).2 !! tbl' = s !! tbl'.
Proof. intros. cbn. by rewrite lookup_insert_ne. Qed.
End Index.

Section Space.
Import FreeSpaceManager.

(** The space handed out on page [p] by a run of requests. *)
Definition space_on (p : Z) (ps spaces : list Z) : Z :=
  zsum (zip_with (λ q space, if q =? p then space else 0) ps spaces).

Lemma space_on_cons p q ps x l :
  space_on p (q :: ps) (x :: l) = (if q =? p then x else 0) + space_on p ps l.
Proof. done. Qed.

(** The capacity of page [p] from state [s] on. *)
Definition capacity (s : state) (p : Z) : Z :=
  if p =? next_page_id s then free_space s else if next_page_id s <? p then PAYLOAD_SIZE else 0.

(** No page gets more than its free space, and no earlier page gets any. *)
Lemma GetAll_space spaces s p :
  Forall (λ z, 0 ≤ z ≤ PAYLOAD_SIZE) spaces → 0 ≤ free_space s ≤ PAYLOAD_SIZE →
  0 ≤ next_page_id s → next_page_id s + Z.of_nat (length spaces) < 2 ^ 32 →
  space_on p (GetAll s spaces).1 spaces ≤ capacity s p.
Proof.
  intros H. revert s; induction H as [|x l Hx Hl IH]; intros s Hf Hn Hlt; cbn [GetAll].
  { unfold capacity, PAYLOAD_SIZE, DB7_PAGE_SIZE, HEADER_SIZE in *.
    change (space_on p _ []) with 0. destruct (p =? next_page_id s), (next_page_id s <? p); lia. }
  cbn [length] in Hlt. unfold Get.
  set (s' := if free_space s <? x then _ else s).
  assert (Hs' : x ≤ free_space s' ≤ PAYLOAD_SIZE ∧ next_page_id s ≤ next_page_id s' ≤ next_page_id s + 1 ∧
                capacity s' p ≤ capacity s p).
  { unfold s', capacity. destruct (Z.ltb_spec (free_space s) x); cbn [next_page_id free_space].
    - rewrite (wrap_small 32) by lia. unfold PAYLOAD_SIZE in *. split; [lia|]. split; [lia|].
      destruct (Z.eqb_spec p (next_page_id s + 1)), (Z.eqb_spec p (next_page_id s)),
        (Z.ltb_spec (next_page_id s) p), (Z.ltb_spec (next_page_id s + 1) p); lia.
    - lia. }
  destruct Hs' as (H1 & H2 & H3). clearbody s'.
  unfold PAYLOAD_SIZE, DB7_PAGE_SIZE, HEADER_SIZE in *. rewrite (wrap_small 32) by lia.
  set (s2 := mkState (next_page_id s') (free_space s' - x)).
  specialize (IH s2 ltac:(cbn; lia) ltac:(cbn; lia) ltac:(cbn; lia)).
  destruct (GetAll s2 l) as [ps s3]. cbn [fst] in *. rewrite space_on_cons.
  etransitivity; [|exact H3]. unfold capacity in *. cbn [s2 next_page_id free_space] in IH.
  rewrite (Z.eqb_sym (next_page_id s') p).
  destruct (Z.eqb_spec p (next_page_id s')), (Z.ltb_spec (next_page_id s') p); lia.
Qed.
End Space.
