(* ===== verification/BTree.v ===== *)
(** * The B-link tree (btree.hpp)

    [BTreeIndex<TupleId>] run by one thread: latches are not contended and
    every optimistic read validates, so [Lock]/[Unlock] are no-ops and the
    retry branches ([continue]) are not taken.  [GetNode] is a lookup in the
    store of pages of the index file (the buffer pool is modelled in
    [BufferPool.v]); [ReserveNode] takes the next page id of the file.  The
    stack of visited pages is the thread-local [TlState].  Keys are the byte
    strings [BuildKey] makes ([KeyEncoder.v]). *)

From S2P Require Import Prelude Bytes Shared Memory SlottedPage NodeFacts Leaf Inter Fsm.

(** ** The thread-local stack (thread_local_util.hpp) *)
Module TlState.

(** The first [state_size_] entries of [state_buf_], the last one first. *)
Definition Clear : list Z := [].

Definition Push (st : list Z) (id : Z) : outcome (list Z) :=
  _ ← DB7_ASSERT (Z.of_nat (length st) <? 16) "Invalid size tried to push to full stack";
  Ret (id :: st).

Definition Pop (st : list Z) : outcome (Z * list Z) :=
  _ ← DB7_ASSERT (1 <=? Z.of_nat (length st)) "Invalid size tried to pop from empty stack";
  match st with
  | id :: st => Ret (id, st)
  | [] => Undefined "state_buf_[-1]"
  end.

Definition IsEmpty (st : list Z) : bool := Z.of_nat (length st) =? 0.

End TlState.

Module BTree.

(** The pages of the index file, [root_id_], the page counters of
    [FreeSpaceManagerIndex] and the thread's [TlState]. *)
Record btree := mkBTree {
  pages : gmap Z page;
  root_id_ : Z;
  page_ids : gmap Z Z;
  tl : list Z
}.

Definition set_page (t : btree) (pid : Z) (p : page) : btree :=
  mkBTree (<[pid := p]> (pages t)) (root_id_ t) (page_ids t) (tl t).
Definition set_root (t : btree) (pid : Z) : btree := mkBTree (pages t) pid (page_ids t) (tl t).
Definition set_tl (t : btree) (st : list Z) : btree := mkBTree (pages t) (root_id_ t) (page_ids t) st.

(** [std::numeric_limits<page_id>::max()]. *)
Definition INVALID_PAGE : Z := UINT32_MAX.

(** [memset(page->GetData(), 0, DB7_PAGE_SIZE)] of [BufferPool::Reserve]. *)
Definition zero_page : page := mkPage (mkVarlenHeader 0 0 0 0 0 0) ∅.

(** [GetNode]; [BufferPool::Pin] asserts a valid id. *)
Definition GetNode (t : btree) (id : Z) : outcome page :=
  _ ← DB7_ASSERT (negb (id =? 0)) "invalid pid";
  _ ← DB7_ASSERT (negb (id =? INVALID_PAGE)) "invalid pid";
  match pages t !! id with
  | Some p => Ret p
  | None => Undefined "page was never written"
  end.

(** What a [Key] points to: the bytes, while their buffer lives. *)
Inductive KeyRef :=
| Alive (key : Key)
| Freed.

Definition read_key (k : KeyRef) : outcome Key :=
  match k with
  | Alive key => Ret key
  | Freed => Undefined "the buffer of the sentinel was freed"
  end.

Section Ops.
Context (tbl_id_ : Z).

(** [BufferPool::Reserve(tbl_id_)]. *)
Definition ReserveNode (t : btree) : outcome (btree * Z) :=
  let '(pid, ids) := FreeSpaceManagerIndex.Get (page_ids t) tbl_id_ in
  _ ← DB7_ASSERT (pid <? BUFFER_POOL_PAGE_NUM) "no more pages";
  Ret (mkBTree (<[pid := zero_page]> (pages t)) (root_id_ t) ids (tl t), pid).

Definition CreateNewRoot (t : btree) (level : Z) (key : Key) (pid new_pid : Z) : outcome btree :=
  '(t, new_root_pid) ← ReserveNode t;
  new_root_data ← GetNode t new_root_pid;
  let new_root_data := InitHeader new_root_data 1 (to_u8 (level + 1)) new_root_pid in
  new_root_data ← Inter.CreateRoot new_root_data key pid new_pid;
  let t := set_root (set_page t new_root_pid new_root_data) new_root_pid in
  _ ← DB7_ASSERT (GetLevel new_root_data =? level + 1) "root level clobbered";
  Ret t.

(** Returns [new_pid] and a copy of the sentinel. *)
Definition SplitLeaf (t : btree) (pid : Z) (data : page) (key : Key) : outcome (btree * Z * Key) :=
  '(t, new_pid) ← ReserveNode t;
  right_data ← GetNode t new_pid;
  let right_data := InitHeader right_data 0 0 new_pid in
  '(data, right_data, sentinel) ← Leaf.Split data right_data new_pid key;
  Ret (set_page (set_page t new_pid right_data) pid data, new_pid, sentinel).

Definition SplitInter (t : btree) (pid : Z) (data : page) (key : Key) (value : Z) :
    outcome (btree * Z * Key) :=
  '(t, new_pid) ← ReserveNode t;
  right_data ← GetNode t new_pid;
  let right_data := InitHeader right_data 0 (GetLevel data) new_pid in
  '(data, right_data, sentinel) ← Inter.Split data right_data new_pid key value;
  Ret (set_page (set_page t new_pid right_data) pid data, new_pid, sentinel).

(** The loops over right links and down the tree. *)
Fixpoint GoRightInter (fuel : nat) (t : btree) (pid : Z) (key : Key) : outcome Z :=
  match fuel with
  | O => OutOfFuel
  | S fuel =>
      data ← GetNode t pid;
      right ← Inter.HasSplit data key;
      if right : bool then GoRightInter fuel t (GetRLink data) key else Ret pid
  end.

Fixpoint GoRightLeaf (fuel : nat) (t : btree) (pid : Z) (key : Key) : outcome Z :=
  match fuel with
  | O => OutOfFuel
  | S fuel =>
      data ← GetNode t pid;
      right ← Leaf.HasSplit data key;
      if right : bool then GoRightLeaf fuel t (GetRLink data) key else Ret pid
  end.

Definition GetRoot (t : btree) : Z := root_id_ t.

(** [DropToLevel(key)]: down to the leaf level; returns the leaf. *)
Fixpoint drop_loop (fuel : nat) (t : btree) (pid : Z) (key : Key) : outcome (btree * Z) :=
  match fuel with
  | O => OutOfFuel
  | S fuel =>
      _ ← DB7_ASSERT (negb (pid =? INVALID_PAGE)) "invalid pid";
      data ← GetNode t pid;
      if GetLevel data <=? 0 then Ret (t, pid)
      else
        right ← Inter.HasSplit data key;
        if right : bool then drop_loop fuel t (GetRLink data) key
        else
          new_pid ← Inter.Get data (GetCount data) key;
          st ← TlState.Push (tl t) pid;
          drop_loop fuel (set_tl t st) new_pid key
  end.

(** [DropToLevel(key, drop_level)]: pushes the page it stops at. *)
Fixpoint drop_to_loop (fuel : nat) (t : btree) (pid level : Z) (key : Key) (drop_level : Z) :
    outcome btree :=
  match fuel with
  | O => OutOfFuel
  | S fuel =>
      _ ← DB7_ASSERT (negb (pid =? INVALID_PAGE)) "invalid pid";
      data ← GetNode t pid;
      _ ← DB7_ASSERT (level =? GetLevel data) "invalid level node";
      if level <=? drop_level then
        st ← TlState.Push (tl t) pid;
        Ret (set_tl t st)
      else
        right ← Inter.HasSplit data key;
        if right : bool then drop_to_loop fuel t (GetRLink data) level key drop_level
        else
          new_pid ← Inter.Get data (GetCount data) key;
          st ← TlState.Push (tl t) pid;
          drop_to_loop fuel (set_tl t st) new_pid (to_u8 (level - 1)) key drop_level
  end.

(** Enough for every loop: each visits a page at most once, plus one step. *)
Definition bt_fuel (t : btree) : nat := S (size (pages t)).

Definition DropToLevel (t : btree) (key : Key) : outcome (btree * Z) :=
  let pid := GetRoot t in
  _ ← DB7_ASSERT (negb (pid =? INVALID_PAGE)) "invalid pid";
  drop_loop (bt_fuel t) t pid key.

Definition DropToLevelAt (t : btree) (key : Key) (drop_level : Z) : outcome btree :=
  let pid := GetRoot t in
  _ ← DB7_ASSERT (negb (pid =? INVALID_PAGE)) "invalid pid";
  data ← GetNode t pid;
  drop_to_loop (bt_fuel t) t pid (GetLevel data) key drop_level.

(** [PropagateInsert]: the loop pops a page per iteration; a split of a page
    that is not the root any more pushes a new path.  [key] is a pointer and a
    length.  [sentinel_unique] owns the buffer of the sentinel and is local to
    the block of the split: [key = sentinel] keeps the pointer and the end of the
    block frees the buffer, so the next iteration, which reads the key to find its
    place in the node, reads freed memory. *)
Fixpoint PropagateInsert (fuel : nat) (t : btree) (key : KeyRef) (value : Z) : outcome btree :=
  match fuel with
  | O => OutOfFuel
  | S fuel =>
      if TlState.IsEmpty (tl t) then Ret t
      else
        '(pid, st) ← TlState.Pop (tl t);
        let t := set_tl t st in
        _ ← DB7_ASSERT (negb (pid =? INVALID_PAGE)) "invalid pid";
        key ← read_key key;
        pid ← GoRightInter (bt_fuel t) t pid key;
        data ← GetNode t pid;
        space ← Inter.HasSpace data key;
        if space : bool then
          data ← Inter.Insert data key value;
          Ret (set_page t pid data)
        else
          '(t, new_pid, sentinel) ← SplitInter t pid data key value;
          data ← GetNode t pid;
          let level := GetLevel data in
          if TlState.IsEmpty (tl t) then
            if GetRoot t =? pid then CreateNewRoot t level sentinel pid new_pid
            else
              t ← DropToLevelAt t sentinel (to_u8 (level + 1));
              PropagateInsert fuel t Freed new_pid
          else PropagateInsert fuel t Freed new_pid
  end.

(** What [InsertInternal] and [InsertInternalUnique] do once the leaf is
    known; they differ in the latches they release.  Their [sentinel_unique]
    lives until [PropagateInsert] returns. *)
Definition InsertLeaf (t : btree) (pid : Z) (key : Key) : outcome btree :=
  data ← GetNode t pid;
  space ← Leaf.HasSpace data key;
  if space : bool then
    data ← Leaf.Insert data key;
    Ret (set_page t pid data)
  else
    '(t, new_pid, sentinel) ← SplitLeaf t pid data key;
    data ← GetNode t pid;
    let level := GetLevel data in
    let fuel := bt_fuel t in
    if TlState.IsEmpty (tl t) then
      if GetRoot t =? pid then CreateNewRoot t level sentinel pid new_pid
      else
        t ← DropToLevelAt t sentinel (to_u8 (level + 1));
        PropagateInsert fuel t (Alive sentinel) new_pid
    else PropagateInsert fuel t (Alive sentinel) new_pid.

Definition InsertInternal (t : btree) (pid : Z) (key : Key) : outcome btree :=
  pid ← GoRightLeaf (bt_fuel t) t pid key;
  InsertLeaf t pid key.

(** [InternalGet]: [results] accumulates the tuple ids. *)
Fixpoint InternalGet (fuel : nat) (t : btree) (pid : Z) (key : Key) (results : list Z) :
    outcome (list Z) :=
  match fuel with
  | O => OutOfFuel
  | S fuel =>
      _ ← DB7_ASSERT (negb (pid =? INVALID_PAGE)) "invalid pid";
      data ← GetNode t pid;
      right ← Leaf.HasSplit data key;
      if right : bool then InternalGet fuel t (GetRLink data) key results
      else
        '(tmp_results, proceed) ← Leaf.Get data (GetCount data) key;
        let results := results ++ tmp_results in
        if proceed : bool then
          let new_pid := GetRLink data in
          if new_pid =? INVALID_PAGE then Ret results
          else InternalGet fuel t new_pid key results
        else Ret results
  end.

Definition DeleteInternal (t : btree) (pid : Z) (key : Key) : outcome btree :=
  pid ← GoRightLeaf (bt_fuel t) t pid key;
  data ← GetNode t pid;
  data ← Leaf.Delete data key;
  Ret (set_page t pid data).

(** The constructor: an empty leaf as root. *)
Definition BTreeIndex (ids : gmap Z Z) : outcome btree :=
  '(t, pid) ← ReserveNode (mkBTree ∅ 0 ids []);
  data ← GetNode t pid;
  Ret (set_root (set_page t pid (InitHeader data 0 0 pid)) pid).

(** [Insert(chunk, value)] with the key [BuildKey(chunk, value)]. *)
Definition Insert (t : btree) (key : Key) : outcome btree :=
  let t := set_tl t TlState.Clear in
  '(t, pid) ← DropToLevel t key;
  InsertInternal t pid key.

(** [Delete(chunk, value)] with the key [BuildKey(chunk, value)]. *)
Definition Delete (t : btree) (key : Key) : outcome btree :=
  let t := set_tl t TlState.Clear in
  '(t, pid) ← DropToLevel t key;
  DeleteInternal t pid key.

(** [Get(chunk, results)] with the key [BuildKey(chunk, 0)]. *)
Definition Get (t : btree) (key : Key) : outcome (list Z) :=
  let t := set_tl t TlState.Clear in
  '(t, pid) ← DropToLevel t key;
  InternalGet (bt_fuel t) t pid key [].

(** *** InsertUnique *)

(** [EncodeUnsigned(key.data + key.len - sizeof(ValTyp), value)]: the key with
    its tuple id replaced. *)
Definition set_tid (key : Key) (value : Z) : Key :=
  take (length key - 8) key ++ le_bytes 8 (ByteSwapIfLittleEndian 8 value).

(** The loop over the leaves that may hold the code: [None] when the check
    fails, else the page to insert into. *)
Fixpoint unique_loop (fuel : nat) (has_unique_conflict : Z → outcome bool) (t : btree) (pid : Z) (key : Key)
    (idx : Z) (insert_page : option Z) : outcome (option (option Z)) :=
  match fuel with
  | O => OutOfFuel
  | S fuel =>
      data ← GetNode t pid;
      res ← Leaf.CheckUnique has_unique_conflict data key idx;
      match res with
      | None => Ret None
      | Some value =>
          insert_page ←
            match insert_page with
            | Some _ => Ret insert_page
            | None => right ← Leaf.HasSplit data key;
                      Ret (if right : bool then None else Some pid)
            end;
          if negb value then Ret (Some insert_page)
          else unique_loop fuel has_unique_conflict t (GetRLink data) key 0 insert_page
      end
  end.

(** [key] is [BuildKey(chunk, 0)]; [false]: the unique check failed. *)
Definition InsertUnique (has_unique_conflict : Z → outcome bool) (t : btree) (key : Key) (value : Z) :
    outcome (btree * bool) :=
  let t := set_tl t TlState.Clear in
  '(t, pid) ← DropToLevel t key;
  pid ← GoRightLeaf (bt_fuel t) t pid key;
  let key := set_tid key value in
  res ← unique_loop (bt_fuel t) has_unique_conflict t pid key (-1) None;
  match res with
  | None => Ret (t, false)
  | Some None => Undefined "insert_page is null"
  | Some (Some pid) => t ← InsertLeaf t pid key; Ret (t, true)
  end.

End Ops.
End BTree.
