(* ===== verification/BTreeInv.v ===== *)
(** * The B-link tree: shape and invariant

    Each level of the tree is a list of nodes linked to the right.  A node
    covers the keys from its separator [n_lo] on, up to the separator of its
    right neighbour, which is its high fence.  The entries of one level,
    concatenated, are the nodes of the level below; the top level is the root
    alone. *)

From S2P Require Import Prelude Bytes Shared Memory SlottedPage NodeFacts Leaf LeafFacts LeafSplit.
From S2P Require Import Inter InterFacts InterSplit Fsm BTree.

(** ** Levels *)

Record node (A : Type) := mkNode { n_pid : Z; n_lo : Key; n_con : list A }.
Arguments mkNode {A} _ _ _.
Arguments n_pid {A} _.
Arguments n_lo {A} _.
Arguments n_con {A} _.

Definition sep_of {A} (n : node A) : Sep := (n_pid n, n_lo n).

Definition head_sep {A} (ns : list (node A)) (next : option Sep) : option Sep :=
  match ns with [] => next | n :: _ => Some (sep_of n) end.

(** [P n next] for each node [n] and the separator of its right neighbour. *)
Fixpoint linked {A} (P : node A → option Sep → Prop) (ns : list (node A)) (next : option Sep) : Prop :=
  match ns with
  | [] => True
  | n :: ns => P n (head_sep ns next) ∧ linked P ns next
  end.

Lemma linked_app {A} (P : node A → option Sep → Prop) ns ms next :
  linked P (ns ++ ms) next ↔ linked P ns (head_sep ms next) ∧ linked P ms next.
Proof.
  induction ns as [|n ns IH]; cbn; [tauto|]. rewrite IH.
  assert (head_sep (ns ++ ms) next = head_sep ns (head_sep ms next)) as -> by (by destruct ns).
  tauto.
Qed.

Lemma linked_impl {A} (P Q : node A → option Sep → Prop) ns next :
  (∀ n nx, n ∈ ns → P n nx → Q n nx) → linked P ns next → linked Q ns next.
Proof.
  induction ns as [|n ns IH]; cbn; [done|]. intros H [H1 H2]. split.
  - apply H; [by left|done].
  - apply IH; [|done]. intros m nx Hm. apply H. by right.
Qed.

Lemma linked_elem {A} (P : node A → option Sep → Prop) ns next n :
  linked P ns next → n ∈ ns → ∃ nx, P n nx.
Proof.
  intros Hl (ns1 & ns2 & ->)%list_elem_of_split. apply linked_app in Hl as [_ [H _]]. eauto.
Qed.

(** [c] is the last entry of [l] at or below [k]. *)
Definition cover (l : list Sep) (k : Key) (c : Sep) : Prop :=
  ∃ X Y, l = X ++ c :: Y ∧ ¬ lex_lt k c.2 ∧ Forall (λ e, lex_lt k e.2) Y.

(** ** Keys and pages of the tree *)

Definition valid_pid (pid : Z) : Prop := 0 < pid < BTree.INVALID_PAGE.

Section Tree.
Context (C : list Z → Prop) `{!PrefixFree C} (tbl : Z).

(** The keys of an index: a code and a tuple id, of 9 to 128 bytes.  (A full
    leaf with longer keys can hit the wrap-around of [HasSpace].) *)
Definition good (k : Key) : Prop := key_of C k ∧ 9 ≤ key_len k ≤ 128.

Definition sep_good (e : Sep) : Prop := valid_pid e.1 ∧ (e.2 = [] ∨ good e.2).

Definition leaf_node (T : Prop) (pg : gmap Z page) (n : node Key) (next : option Sep) : Prop :=
  ∃ p, pg !! n_pid n = Some p ∧ GetLevel p = 0 ∧ GetRLink p = from_option fst UNDEFINED_PAGE next ∧
    leaf_abs p (n_con n) (snd <$> next) ∧ Forall (λ k, ¬ lex_lt k (n_lo n)) (n_con n) ∧
    (T → tight p (n_con n) (snd <$> next)).

Definition inter_node (lvl : Z) (pg : gmap Z page) (n : node Sep) (next : option Sep) : Prop :=
  ∃ p fe, pg !! n_pid n = Some p ∧ GetLevel p = lvl ∧ GetRLink p = from_option fst UNDEFINED_PAGE next ∧
    snd <$> fe = snd <$> next ∧ inter_abs p (n_con n) fe ∧ tight p (n_con n) fe ∧
    snd <$> head (n_con n) = Some (n_lo n).

Abbreviation entries us := (concat (n_con <$> us)).

(** The levels above [below], the lowest first; the last is the root alone. *)
Fixpoint uppers_ok (pg : gmap Z page) (lvl : Z) (below : list Sep) (uppers : list (list (node Sep)))
    (root : Z) : Prop :=
  match uppers with
  | [] => below = [(root, [])]
  | us :: uppers =>
      linked (inter_node lvl pg) us None ∧ entries us = below ∧
      uppers_ok pg (lvl + 1) (sep_of <$> us) uppers root
  end.

Definition pids_of {A} (levels : list (list (node A))) : list Z := concat ((λ ns : list (node A), n_pid <$> ns) <$> levels).

Definition next_pid (t : BTree.btree) : Z := default 1 (BTree.page_ids t !! tbl).

(** The tree [t] has the given leaves and upper levels; [T]: no heap of a leaf
    holds garbage (nothing was deleted). *)
Record btree_inv (T : Prop) (t : BTree.btree) (leaves : list (node Key)) (uppers : list (list (node Sep))) : Prop := {
  bi_leaves : linked (leaf_node T (BTree.pages t)) leaves None;
  bi_sorted : StronglySorted sep_lt (sep_of <$> leaves);
  bi_head : n_lo <$> head leaves = Some [];
  bi_uppers : uppers_ok (BTree.pages t) 1 (sep_of <$> leaves) uppers (BTree.root_id_ t);
  bi_keys : Forall good (entries leaves);
  bi_seps : Forall sep_good (sep_of <$> leaves);
  bi_pids : NoDup ((n_pid <$> leaves) ++ pids_of uppers);
  bi_range : Forall (λ pid, 0 < pid < next_pid t) ((n_pid <$> leaves) ++ pids_of uppers);
  bi_next : next_pid t ≤ BUFFER_POOL_PAGE_NUM
}.

(** An intermediate node has two children at least. *)
Definition fat (u : node Sep) : Prop := (2 ≤ length (n_con u))%nat.

(** The tree holds exactly the keys [ks], in order. *)
Definition btree_keys (T : Prop) (t : BTree.btree) (ks : list Key) : Prop :=
  ∃ leaves uppers, btree_inv T t leaves uppers ∧ entries leaves = ks ∧ Forall (Forall fat) uppers.

(** *** The height of a tree *)

(** Each level has at least twice the nodes of the one above. *)
Lemma fat_entries (us : list (node Sep)) : Forall fat us → (2 * length us ≤ length (entries us))%nat.
Proof.
  induction 1 as [|u us Hu _ IH]; [done|]. cbn [fmap list_fmap concat length]. rewrite length_app. unfold fat in Hu. lia.
Qed.

Lemma uppers_height pg uppers lvl below root :
  uppers_ok pg lvl below uppers root → Forall (Forall fat) uppers → (2 ^ length uppers ≤ length below)%nat.
Proof.
  revert lvl below; induction uppers as [|us uppers IH]; intros lvl below; cbn [uppers_ok length].
  - by intros ->.
  - intros (_ & <- & Hup) [Hus HF]%Forall_cons. specialize (IH _ _ Hup HF). rewrite length_fmap in IH.
    pose proof (fat_entries us Hus). cbn [Nat.pow]. lia.
Qed.

(** The pages of a pool bound the height. *)
Lemma inv_height T t leaves uppers : btree_inv T t leaves uppers → Forall (Forall fat) uppers → (length uppers ≤ 16)%nat.
Proof.
  intros Hi HF. pose proof (uppers_height _ _ _ _ _ (bi_uppers _ _ _ _ Hi) HF) as Hh. rewrite length_fmap in Hh.
  pose proof (bi_pids _ _ _ _ Hi) as Hnd. apply NoDup_app in Hnd as (Hnd & _ & _). pose proof (bi_range _ _ _ _ Hi) as Hr.
  apply Forall_app in Hr as [Hr _]. pose proof (bi_next _ _ _ _ Hi) as Hn. rewrite <- (length_fmap n_pid) in Hh.
  assert (Hl : (length (n_pid <$> leaves) ≤ length (seqZ 0 BUFFER_POOL_PAGE_NUM))%nat).
  { apply submseteq_length, NoDup_submseteq; [done|]. intros x Hx. rewrite Forall_forall in Hr. apply elem_of_seqZ.
    specialize (Hr x Hx). lia. }
  rewrite length_seqZ in Hl. unfold BUFFER_POOL_PAGE_NUM in Hl.
  destruct (Nat.le_gt_cases (length uppers) 16) as [|Hgt]; [done|].
  assert (2 ^ 17 ≤ 2 ^ length uppers)%nat by (apply Nat.pow_le_mono_r; lia).
  assert (Z.of_nat (2 ^ 17) = 131072) by (rewrite Nat2Z.inj_pow; done). lia.
Qed.

(** ** Facts about one level *)

Lemma inter_node_sorted lvl pg n next : inter_node lvl pg n next → StronglySorted sep_lt (n_con n).
Proof. intros (p & fe & _ & _ & _ & _ & [_ [H _]] & _). done. Qed.

Lemma inter_node_head lvl pg n next :
  inter_node lvl pg n next → ∃ pid l, n_con n = (pid, n_lo n) :: l.
Proof.
  intros (p & fe & _ & _ & _ & _ & _ & _ & H). destruct (n_con n) as [|[pid k] l]; [done|].
  cbn in H. injection H as ->. eauto.
Qed.

Lemma lo_le_entry lvl pg n next e :
  inter_node lvl pg n next → e ∈ n_con n → ¬ lex_lt e.2 (n_lo n).
Proof.
  intros Hn He. pose proof (inter_node_sorted _ _ _ _ Hn) as Hs.
  destruct (inter_node_head _ _ _ _ Hn) as (pid & l & E). rewrite E in *.
  apply StronglySorted_inv in Hs as [_ HF]. rewrite Forall_forall in HF.
  apply elem_of_cons in He as [->|He]; [apply lex_lt_irrefl|]. apply lex_lt_asym, (HF e He).
Qed.

Lemma entries_cons {A} (n : node A) ns : entries (n :: ns) = n_con n ++ entries ns.
Proof. done. Qed.

Lemma entries_app {A} (ns ms : list (node A)) : entries (ns ++ ms) = entries ns ++ entries ms.
Proof. by rewrite fmap_app, concat_app. Qed.

Lemma elem_of_entries {A} (ns : list (node A)) e : e ∈ entries ns ↔ ∃ n, n ∈ ns ∧ e ∈ n_con n.
Proof.
  induction ns as [|n ns IH]; cbn [fmap list_fmap concat].
  - split; [by intros ?%not_elem_of_nil|]. by intros (n & ?%not_elem_of_nil & _).
  - rewrite elem_of_app, IH. split.
    + intros [H|(m & H1 & H2)]; [exists n; split; [by left|done]|exists m; split; [by right|done]].
    + intros (m & [->|H1]%elem_of_cons & H2); [by left|right; eauto].
Qed.

Lemma lex_le_trans a b c : ¬ lex_lt b a → ¬ lex_lt c b → ¬ lex_lt c a.
Proof.
  intros H1 H2 H3. destruct (lex_trichotomy a b) as [H|[->|H]]; [|done|done].
  apply H2. by transitivity a.
Qed.

Lemma lex_lt_le a b c : lex_lt a b → ¬ lex_lt c b → lex_lt a c.
Proof.
  intros H1 H2. destruct (lex_trichotomy b c) as [H|[->|H]]; [by transitivity b|done|done].
Qed.

Lemma lex_le_lt a b c : ¬ lex_lt b a → lex_lt b c → lex_lt a c.
Proof.
  intros H1 H2. destruct (lex_trichotomy a b) as [H|[->|H]]; [by transitivity b|done|done].
Qed.

(** A node that has the entry covering [k] covers [k] in its own level. *)
Lemma cover_up lvl pg us k s u :
  linked (inter_node lvl pg) us None → StronglySorted sep_lt (entries us) →
  cover (entries us) k s → u ∈ us → s ∈ n_con u →
  ∃ A B, us = A ++ u :: B ∧ ¬ lex_lt k (n_lo u) ∧ Forall (λ m, lex_lt k (n_lo m)) B.
Proof.
  intros Hl Hs (X & Y & E & Hk & HY) (A & B & ->)%list_elem_of_split Hsu.
  exists A, B. apply linked_app in Hl as [_ [Hu HB]]. split; [done|]. split.
  { eapply lex_le_trans; [by eapply lo_le_entry|done]. }
  apply Forall_forall. intros m Hm. destruct (linked_elem _ _ _ _ HB Hm) as [nx Hmn].
  destruct (inter_node_head _ _ _ _ Hmn) as (pm & lm & Em).
  assert (Hin : (pm, n_lo m) ∈ entries B).
  { apply elem_of_entries. exists m. split; [done|]. rewrite Em. by left. }
  assert (Hlt : sep_lt s (pm, n_lo m)).
  { rewrite entries_app, entries_cons, app_assoc in Hs.
    apply StronglySorted_app_elim in Hs as (_ & _ & Hs). apply Hs; [|done].
    apply elem_of_app. by right. }
  assert (Hin' : (pm, n_lo m) ∈ X ++ s :: Y).
  { rewrite <- E, entries_app, entries_cons, !elem_of_app. tauto. }
  rewrite E in Hs. apply elem_of_app in Hin' as [HX|[Heq|HYin]%elem_of_cons].
  - apply StronglySorted_app_elim in Hs as (_ & _ & Hs). exfalso.
    apply (lex_lt_asym _ _ Hlt). apply (Hs (pm, n_lo m) s); [done|by left].
  - subst s. by apply lex_lt_irrefl in Hlt.
  - rewrite Forall_forall in HY. apply (HY _ HYin).
Qed.

(** The child a node finds for [k] covers [k] in the level below. *)
Lemma cover_down lvl pg us A u B k c :
  linked (inter_node lvl pg) us None → us = A ++ u :: B →
  Forall (λ m, lex_lt k (n_lo m)) B → child_of k (n_con u) = Some c →
  cover (entries us) k c ∧ c ∈ n_con u.
Proof.
  intros Hl -> HB Hc. apply linked_app in Hl as [_ [Hu HlB]].
  destruct (child_of_spec k _ c (inter_node_sorted _ _ _ _ Hu) Hc) as (Cl & D & E & Hk & HD).
  split; [|rewrite E; apply elem_of_app; right; by left].
  exists (entries A ++ Cl), (D ++ entries B). split_and!.
  - rewrite entries_app, entries_cons, E. by rewrite <- !app_assoc.
  - done.
  - apply Forall_app. split; [done|]. apply Forall_forall. intros e (m & Hm & He)%elem_of_entries.
    destruct (linked_elem _ _ _ _ HlB Hm) as [nx Hmn]. rewrite Forall_forall in HB.
    apply (lex_lt_le _ (n_lo m)); [by apply HB|by eapply lo_le_entry].
Qed.

(** The separators of a level are sorted when its entries are. *)
Lemma level_sorted lvl pg us next :
  linked (inter_node lvl pg) us next → StronglySorted sep_lt (entries us) →
  StronglySorted sep_lt (sep_of <$> us).
Proof.
  induction us as [|u us IH]; [constructor|]. intros [Hu Hl] Hs. rewrite entries_cons in Hs.
  apply StronglySorted_app_elim in Hs as (_ & Hs & Hlt). cbn [fmap list_fmap]. constructor; [auto|].
  apply Forall_fmap, Forall_forall. intros m Hm. destruct (linked_elem _ _ _ _ Hl Hm) as [nx Hmn].
  destruct (inter_node_head _ _ _ _ Hu) as (pu & lu & Eu).
  destruct (inter_node_head _ _ _ _ Hmn) as (pm & lm & Em).
  assert (H : sep_lt (pu, n_lo u) (pm, n_lo m)); [|exact H]. apply Hlt.
  - rewrite Eu. by left.
  - apply elem_of_entries. exists m. split; [done|]. rewrite Em. by left.
Qed.

(** The separators of a level are among the keys of its entries. *)
Lemma level_keys lvl pg us next u :
  linked (inter_node lvl pg) us next → u ∈ us → ∃ e, e ∈ entries us ∧ e.2 = n_lo u ∧ e ∈ n_con u.
Proof.
  intros Hl Hu. destruct (linked_elem _ _ _ _ Hl Hu) as [nx Hn].
  destruct (inter_node_head _ _ _ _ Hn) as (pu & lu & Eu).
  assert ((pu, n_lo u) ∈ n_con u) by (rewrite Eu; by left).
  exists (pu, n_lo u). split; [|done]. apply elem_of_entries. eauto.
Qed.

Lemma level_head lvl pg us next e :
  linked (inter_node lvl pg) us next → head (entries us) = Some e →
  n_lo <$> head us = Some e.2.
Proof.
  destruct us as [|u us]; [done|]. intros [Hu _]. rewrite entries_cons.
  destruct (inter_node_head _ _ _ _ Hu) as (pu & lu & ->). cbn. by intros [= <-].
Qed.

(** Later entries of a sorted list that starts with the empty key are not empty. *)
Lemma sorted_nonempty l a e : StronglySorted sep_lt (a :: l) → e ∈ l → e.2 ≠ [].
Proof.
  intros [_ HF]%StronglySorted_inv He E. rewrite Forall_forall in HF. specialize (HF e He).
  unfold sep_lt, lex_lt in HF. rewrite E in HF. by destruct a.2.
Qed.

Lemma good_wide (e : Sep) : good e.2 → wide e.
Proof. intros [_ H]. unfold wide. lia. Qed.

Lemma sorted_wide_node l : StronglySorted sep_lt l → Forall sep_good l → wide_node l.
Proof.
  destruct l as [|e l]; [done|]. intros Hs [He Hl]%Forall_cons. split.
  - destruct He as [_ [He|He]]; [by left|right; by apply good_wide].
  - rewrite Forall_forall in Hl |- *. intros x Hx. destruct (Hl x Hx) as [_ [E|E]]; [|by apply good_wide].
    by destruct (sorted_nonempty l e x Hs Hx).
Qed.

Lemma sep_good_ok e : sep_good e → sep_ok e.
Proof.
  unfold sep_good, sep_ok, valid_pid, good. rewrite DB7_MAX_ROW_SIZE_eq.
  unfold BTree.INVALID_PAGE, UINT32_MAX. intros [Hp [->|[_ Hk]]]; [change (key_len []) with 0|]; lia.
Qed.

End Tree.
