(* ===== verification/BTreeDescent.v ===== *)
(** * The B-link tree: descent, lookup and deletion *)

From S2P Require Import Prelude Bytes Shared Memory SlottedPage NodeFacts Leaf LeafFacts LeafSplit.
From S2P Require Import Inter InterFacts InterSplit Fsm BTree BTreeInv.
Import BTree.

Lemma set_tl_pages t st : pages (set_tl t st) = pages t.
Proof. done. Qed.

Lemma GetNode_ok t pid p : valid_pid pid → pages t !! pid = Some p → GetNode t pid = Ret p.
Proof.
  unfold valid_pid, GetNode. intros H Hp. rewrite Hp.
  by rewrite (proj2 (Z.eqb_neq pid 0)), (proj2 (Z.eqb_neq pid INVALID_PAGE)) by lia.
Qed.

Lemma valid_pid_assert pid msg : valid_pid pid → DB7_ASSERT (negb (pid =? INVALID_PAGE)) msg = Ret tt.
Proof. intros H. unfold valid_pid in H. by rewrite (proj2 (Z.eqb_neq pid INVALID_PAGE)) by lia. Qed.

Lemma Push_ok st pid : (length st < 16)%nat → TlState.Push st pid = Ret (pid :: st).
Proof. intros. unfold TlState.Push. by rewrite DB7_ASSERT_true by (apply Z.ltb_lt; lia). Qed.

(** An intermediate node that covers [k] does not send the search right. *)
Lemma HasSplit_covered lvl pg u (B : list (node Sep)) k p :
  inter_node lvl pg u (head_sep B None) → pg !! n_pid u = Some p → k ≠ [] →
  Forall (λ m, lex_lt k (n_lo m)) B → Inter.HasSplit p k = Ret false.
Proof.
  intros (q & fe & Hq & _ & _ & Hfe & [Hr _] & _) Hp Hk HB. rewrite Hp in Hq. injection Hq as <-.
  rewrite (InterHasSplit_ok p _ _ k Hr Hk), Hfe. apply (f_equal Ret).
  rewrite bool_decide_false; [done|]. intros H. apply H.
  destruct B as [|m B]; cbn; [done|]. by apply Forall_cons in HB as [HB _].
Qed.

(** The entry of the page that covers [k], for any separator list that starts
    with the empty key. *)
Lemma child_exists lvl pg u next k :
  inter_node lvl pg u next → ¬ lex_lt k (n_lo u) → ∃ c, child_of k (n_con u) = Some c.
Proof.
  intros Hu Hk. destruct (inter_node_head _ _ _ _ Hu) as (pid & l & E).
  apply (child_of_some k (n_con u) (pid, n_lo u)); [by rewrite E|done].
Qed.

(** The pages the descent leaves on the stack: for each level, a node at or
    left of the one that has the entry below; [GoRightInter] finds the latter. *)
Fixpoint on_path (uppers : list (list (node Sep))) (s : Sep) (path : list Z) : Prop :=
  match uppers, path with
  | [], [] => True
  | us :: uppers, pid :: path =>
      ∃ u, u ∈ us ∧ n_pid u = pid ∧ ¬ lex_lt s.2 (n_lo u) ∧ on_path uppers (sep_of u) path
  | _, _ => False
  end.

Lemma on_path_length uppers s path : on_path uppers s path → length path = length uppers.
Proof.
  revert s path; induction uppers as [|us uppers IH]; intros s [|pid path]; cbn; try done.
  intros (u & _ & _ & _ & H). f_equal. eauto.
Qed.

(** The stack also serves the entries right of the one followed. *)
Lemma on_path_le uppers s s' path : ¬ lex_lt s'.2 s.2 → on_path uppers s path → on_path uppers s' path.
Proof.
  destruct uppers as [|us uppers], path as [|pid path]; cbn; try done.
  intros Hle (u & H1 & H2 & H3 & H4). exists u. split_and!; try done. by eapply lex_le_trans.
Qed.

Definition levels_valid (uppers : list (list (node Sep))) : Prop :=
  Forall (Forall (λ u, valid_pid (n_pid u))) uppers.

(** One iteration of the descent at a node that covers [k]. *)
Lemma drop_step lvl t us A u B k st :
  linked (inter_node lvl (pages t)) us None → us = A ++ u :: B → 1 ≤ lvl → k ≠ [] →
  valid_pid (n_pid u) → ¬ lex_lt k (n_lo u) → Forall (λ m, lex_lt k (n_lo m)) B →
  (length st < 16)%nat →
  ∃ c, cover (concat (n_con <$> us)) k c ∧ c ∈ n_con u ∧
    ∀ f, drop_loop (S f) (set_tl t st) (n_pid u) k = drop_loop f (set_tl t (n_pid u :: st)) c.1 k.
Proof.
  intros Hl Hus Hlvl Hk Hv Hlo HB Hst. assert (Hlk := Hl). rewrite Hus in Hlk.
  apply linked_app in Hlk as [_ [Hu _]].
  destruct (child_exists _ _ _ _ k Hu Hlo) as [c Hc].
  destruct (cover_down lvl (pages t) us A u B k c Hl Hus HB Hc) as [Hcov Hin].
  exists c. split; [done|]. split; [done|]. intros f.
  pose proof Hu as (p & fe & Hp & Hlev & _ & _ & Habs & _). cbn [drop_loop].
  rewrite (valid_pid_assert _ _ Hv), bind_Ret. rewrite (GetNode_ok (set_tl t st) _ p Hv Hp), bind_Ret.
  rewrite Hlev, (proj2 (Z.leb_gt _ _)) by lia.
  rewrite (HasSplit_covered _ _ _ _ k p Hu Hp Hk HB), bind_Ret.
  rewrite (InterGet_ok p (n_con u) fe k c Habs Hc), bind_Ret.
  change (tl (set_tl t st)) with st. by rewrite (Push_ok st _ Hst), bind_Ret.
Qed.

Lemma cover_sep_inv {A} (us : list (node A)) k c :
  cover (sep_of <$> us) k c →
  ∃ X u Y, us = X ++ u :: Y ∧ c = sep_of u ∧ ¬ lex_lt k (n_lo u) ∧ Forall (λ m, lex_lt k (n_lo m)) Y.
Proof.
  intros (X & Y & E & Hk & HY). apply fmap_app_inv in E as (A1 & A2 & -> & E & ->).
  symmetry in E. apply fmap_cons_inv in E as (u & A3 & -> & -> & ->).
  exists A1, u, A3. split; [done|]. split; [done|]. split; [done|].
  rewrite Forall_fmap in HY. exact HY.
Qed.

(** Descending from the root through [uppers] takes one iteration per level
    and reaches the entry of [below] that covers [k]. *)
Lemma drop_levels uppers lvl below t k :
  uppers_ok (pages t) lvl below uppers (root_id_ t) → 1 ≤ lvl → k ≠ [] →
  StronglySorted sep_lt below → levels_valid uppers →
  (length (tl t) + length uppers ≤ 16)%nat →
  ∃ c path, cover below k c ∧ on_path uppers c path ∧
    ∀ f, drop_loop (length uppers + f) t (root_id_ t) k = drop_loop f (set_tl t (path ++ tl t)) c.1 k.
Proof.
  revert lvl below; induction uppers as [|us uppers IH]; intros lvl below Hup Hlvl Hk Hs Hv Hst.
  { cbn in Hup. subst below. exists (root_id_ t, []), []. split; [|split; [done|]].
    - exists [], []. split_and!; [done| |done]. cbn. unfold lex_lt. by destruct k.
    - intros f. by destruct t. }
  destruct Hup as (Hl & He & Hup). apply Forall_cons in Hv as [Hv Hvs]. cbn [length] in Hst.
  rewrite <- He in Hs.
  destruct (IH (lvl + 1) (sep_of <$> us) Hup) as (c' & path & Hcov & Hpath & Hdrop);
    [lia|done|by eapply level_sorted|done|lia|].
  pose proof (on_path_length _ _ _ Hpath) as Hlen.
  destruct (cover_sep_inv us k c' Hcov) as (A & u & B & Hus & -> & Hlo & HB).
  assert (Hu : u ∈ us) by (rewrite Hus; apply elem_of_app; right; by left).
  rewrite Forall_forall in Hv.
  destruct (drop_step lvl t us A u B k (path ++ tl t) Hl Hus Hlvl Hk (Hv u Hu) Hlo HB)
    as (c & Hc & Hin & Hstep); [rewrite length_app; lia|].
  exists c, (n_pid u :: path). split; [by rewrite <- He|]. split.
  - exists u. split_and!; try done. assert (H := Hl). rewrite Hus in H. apply linked_app in H as [_ [H _]].
    by eapply lo_le_entry.
  - intros f. cbn [length Nat.add]. rewrite <- Nat.add_succ_r, Hdrop. apply Hstep.
Qed.

(** ** Pages and fuel *)

Lemma pids_size (pg : gmap Z page) (l : list Z) :
  NoDup l → (∀ x, x ∈ l → is_Some (pg !! x)) → (length l ≤ size pg)%nat.
Proof.
  intros Hnd H. rewrite <- (size_list_to_set (C:=gset Z) l) by done. rewrite <- size_dom.
  apply subseteq_size. intros x Hx. apply elem_of_list_to_set in Hx. by apply elem_of_dom, H.
Qed.

Lemma uppers_nonempty pg lvl below uppers root :
  uppers_ok pg lvl below uppers root → below ≠ [] → Forall (λ us, us ≠ []) uppers.
Proof.
  revert lvl below; induction uppers as [|us uppers IH]; intros lvl below; [constructor|].
  intros (_ & He & Hup) Hne. assert (us ≠ []) by (intros ->; cbn in He; congruence).
  constructor; [done|]. eapply IH; [exact Hup|]. by destruct us.
Qed.

Lemma pids_of_length (levels : list (list (node Sep))) :
  Forall (λ us, us ≠ []) levels → (length levels ≤ length (pids_of levels))%nat.
Proof.
  induction 1 as [|us levels Hne _ IH]; [done|].
  change (pids_of (us :: levels)) with ((n_pid <$> us) ++ pids_of levels).
  rewrite length_app, length_fmap. destruct us; [done|]. cbn [length]. lia.
Qed.

Lemma uppers_pages pg lvl below uppers root x :
  uppers_ok pg lvl below uppers root → x ∈ pids_of uppers → is_Some (pg !! x).
Proof.
  revert lvl below; induction uppers as [|us uppers IH]; intros lvl below.
  { intros _ H. by apply not_elem_of_nil in H. }
  intros (Hl & _ & Hup). change (pids_of (us :: uppers)) with ((n_pid <$> us) ++ pids_of uppers).
  intros [Hx|Hx]%elem_of_app; [|by eapply IH].
  apply list_elem_of_fmap in Hx as (u & -> & Hu). destruct (linked_elem _ _ _ _ Hl Hu) as [nx Hn].
  destruct Hn as (p & fe & Hp & _). eauto.
Qed.

Lemma levels_valid_pids uppers : Forall valid_pid (pids_of uppers) → levels_valid uppers.
Proof.
  induction uppers as [|us uppers IH]; [constructor|].
  change (pids_of (us :: uppers)) with ((n_pid <$> us) ++ pids_of uppers).
  intros [H1 H2]%Forall_app. constructor; [rewrite Forall_fmap in H1; exact H1|by apply IH].
Qed.

Section Inv.
Context (C : list Z → Prop) `{!PrefixFree C} (tbl : Z) (T : Prop).
Context (t : btree) (leaves : list (node Key)) (uppers : list (list (node Sep))).
Context (Hinv : btree_inv C tbl T t leaves uppers).

Lemma inv_valid : Forall valid_pid ((n_pid <$> leaves) ++ pids_of uppers).
Proof.
  eapply Forall_impl; [exact (bi_range _ _ _ _ _ _ Hinv)|]. intros pid Hp.
  pose proof (bi_next _ _ _ _ _ _ Hinv) as Hn. unfold BUFFER_POOL_PAGE_NUM in Hn.
  cbv beta in Hp. unfold valid_pid, INVALID_PAGE, UINT32_MAX. lia.
Qed.

Lemma inv_leaf_valid n : n ∈ leaves → valid_pid (n_pid n).
Proof.
  intros Hn. pose proof inv_valid as H. rewrite Forall_forall in H. apply H, elem_of_app. left.
  by apply list_elem_of_fmap_2.
Qed.

Lemma inv_fuel : (length leaves + length uppers ≤ size (pages t))%nat.
Proof.
  assert (Hne : sep_of <$> leaves ≠ []).
  { pose proof (bi_head _ _ _ _ _ _ Hinv) as H. by destruct leaves. }
  pose proof (uppers_nonempty _ _ _ _ _ (bi_uppers _ _ _ _ _ _ Hinv) Hne) as Hup.
  apply pids_of_length in Hup.
  pose proof (pids_size (pages t) _ (bi_pids _ _ _ _ _ _ Hinv)) as Hsz.
  rewrite length_app, length_fmap in Hsz. etransitivity; [|apply Hsz]; [lia|].
  intros x [Hx|Hx]%elem_of_app.
  - apply list_elem_of_fmap in Hx as (n & -> & Hn).
    destruct (linked_elem _ _ _ _ (bi_leaves _ _ _ _ _ _ Hinv) Hn) as [nx (p & Hp & _)]. eauto.
  - eapply uppers_pages; [exact (bi_uppers _ _ _ _ _ _ Hinv)|done].
Qed.

Lemma inv_root : valid_pid (root_id_ t).
Proof.
  assert (Hl : ∀ us pg lvl below root, uppers_ok pg lvl below us root →
            Forall valid_pid (fst <$> below) → Forall valid_pid (pids_of us) → valid_pid root).
  { clear. induction us as [|ns us IH]; intros pg lvl below root.
    - cbn. intros -> [H _]%Forall_cons _. done.
    - intros (_ & _ & Hup) _. change (pids_of (ns :: us)) with ((n_pid <$> ns) ++ pids_of us).
      intros [H1 H2]%Forall_app. eapply IH; [exact Hup| |done]. by rewrite <- list_fmap_compose. }
  pose proof inv_valid as [H1 H2]%Forall_app.
  eapply Hl; [exact (bi_uppers _ _ _ _ _ _ Hinv)| |done]. by rewrite <- list_fmap_compose.
Qed.

(** [DropToLevel] finds the leaf whose range holds the key. *)
Lemma DropToLevel_ok k :
  (length uppers ≤ 16)%nat → k ≠ [] → tl t = [] →
  ∃ A n B path, leaves = A ++ n :: B ∧ ¬ lex_lt k (n_lo n) ∧ Forall (λ m, lex_lt k (n_lo m)) B ∧
    on_path uppers (sep_of n) path ∧ DropToLevel t k = Ret (set_tl t path, n_pid n).
Proof.
  intros Hh Hk Htl. pose proof inv_valid as [_ Hv]%Forall_app.
  destruct (drop_levels uppers 1 (sep_of <$> leaves) t k) as (c & path & Hcov & Hpath & Hdrop);
    [apply Hinv|lia|done|apply Hinv|by apply levels_valid_pids|rewrite Htl; cbn; lia|].
  destruct (cover_sep_inv leaves k c Hcov) as (A & n & B & E & -> & Hlo & HB).
  assert (Hn : n ∈ leaves) by (rewrite E; apply elem_of_app; right; by left).
  exists A, n, B, path. split_and!; try done. unfold DropToLevel, GetRoot.
  rewrite (valid_pid_assert _ _ inv_root), bind_Ret. unfold bt_fuel.
  pose proof inv_fuel as Hf.
  replace (S (size (pages t))) with (length uppers + S (size (pages t) - length uppers))%nat by lia.
  rewrite Hdrop, Htl, app_nil_r. cbn [drop_loop sep_of fst].
  rewrite (valid_pid_assert _ _ (inv_leaf_valid n Hn)), bind_Ret.
  destruct (linked_elem _ _ _ _ (bi_leaves _ _ _ _ _ _ Hinv) Hn) as [nx (p & Hp & Hlev & _)].
  rewrite (GetNode_ok (set_tl t path) _ p (inv_leaf_valid n Hn) Hp), bind_Ret, Hlev. done.
Qed.
End Inv.
