(* ===== verification/BTreeLookup.v ===== *)
(** * The B-link tree: lookup and deletion *)

From S2P Require Import Prelude Bytes Shared Memory SlottedPage NodeFacts Leaf LeafFacts LeafSplit.
From S2P Require Import Inter InterFacts InterSplit Fsm BTree BTreeInv BTreeDescent.
Import BTree.

(** ** The chain of leaves *)

Abbreviation entries us := (concat (n_con <$> us)).

Section Chain.
Context (T : Prop) (pg : gmap Z page).

Lemma leaf_fence n next x :
  leaf_node T pg n next → x ∈ n_con n → below_fence x (snd <$> next).
Proof.
  intros (p & _ & _ & _ & [_ [_ Hf _]] & _) Hx. rewrite Forall_forall in Hf. by apply Hf.
Qed.

Lemma leaf_lo n next x : leaf_node T pg n next → x ∈ n_con n → ¬ lex_lt x (n_lo n).
Proof. intros (p & _ & _ & _ & _ & Hlo & _) Hx. rewrite Forall_forall in Hlo. by apply Hlo. Qed.

(** The keys left of a leaf are below its separator. *)
Lemma chain_below A n B next x :
  linked (leaf_node T pg) (A ++ n :: B) next → StronglySorted sep_lt (sep_of <$> (A ++ n :: B)) →
  x ∈ entries A → lex_lt x (n_lo n).
Proof.
  intros Hl Hs (a & Ha & Hx)%elem_of_entries.
  apply list_elem_of_split in Ha as (A1 & A2 & ->).
  rewrite <- app_assoc in Hl, Hs. cbn [app] in Hl, Hs.
  apply linked_app in Hl as [_ [Hla _]]. pose proof (leaf_fence _ _ _ Hla Hx) as Hf.
  rewrite fmap_app in Hs. apply StronglySorted_app_elim in Hs as (_ & Hs & _).
  cbn [fmap list_fmap] in Hs. apply StronglySorted_inv in Hs as [Hs _].
  destruct A2 as [|b A2]; cbn in Hf; [done|].
  cbn [app fmap list_fmap] in Hs. apply StronglySorted_inv in Hs as [_ HF].
  rewrite Forall_forall in HF. transitivity (n_lo b); [done|].
  apply (HF (sep_of n)), list_elem_of_fmap. exists n. split; [done|]. apply elem_of_app. right. by left.
Qed.

(** The keys right of a leaf are not below the next separator. *)
Lemma chain_above B next k x :
  linked (leaf_node T pg) B next → Forall (λ m, lex_lt k (n_lo m)) B → x ∈ entries B → lex_lt k x.
Proof.
  intros Hl HB (b & Hb & Hx)%elem_of_entries. destruct (linked_elem _ _ _ _ Hl Hb) as [nx Hlb].
  rewrite Forall_forall in HB. apply (lex_lt_le _ (n_lo b)); [by apply HB|by eapply leaf_lo].
Qed.

Lemma chain_sorted ns next :
  linked (leaf_node T pg) ns next → StronglySorted sep_lt (sep_of <$> ns) →
  StronglySorted lex_lt (entries ns).
Proof.
  induction ns as [|n ns IH]; [constructor|]. intros [Hn Hl] Hs. cbn [fmap list_fmap] in Hs.
  apply StronglySorted_inv in Hs as [Hs HF]. rewrite entries_cons. apply StronglySorted_app_intro.
  - by destruct Hn as (p & _ & _ & _ & [_ [Hso _ _]] & _).
  - by apply IH.
  - intros x y Hx Hy. destruct ns as [|m ns]; [by apply not_elem_of_nil in Hy|].
    pose proof (leaf_fence _ _ _ Hn Hx) as Hf. cbn in Hf. apply (lex_lt_le _ (n_lo m)); [done|].
    destruct Hl as [Hm Hl]. rewrite entries_cons in Hy. apply elem_of_app in Hy as [Hy|Hy].
    + by eapply leaf_lo.
    + apply lex_lt_asym. eapply chain_above; [exact Hl| |exact Hy].
      cbn [fmap list_fmap] in Hs. apply StronglySorted_inv in Hs as [_ HF'].
      by rewrite Forall_fmap in HF'.
Qed.

End Chain.

Lemma leaf_key_of_len k : 9 ≤ key_len k ≤ 128 → leaf_key_ok k.
Proof. unfold leaf_key_ok. rewrite DB7_MAX_ROW_SIZE_eq. lia. Qed.

Lemma good_ok C k : good C k → leaf_key_ok k.
Proof. intros [_ H]. by apply leaf_key_of_len. Qed.

Lemma leaf_HasSplit T pg n (B : list (node Key)) k p :
  leaf_node T pg n (head_sep B None) → pg !! n_pid n = Some p → leaf_key_ok k →
  Forall (λ m, lex_lt k (n_lo m)) B → Leaf.HasSplit p k = Ret false.
Proof.
  intros (q & Hq & _ & _ & [Hr _] & _) Hp Hk HB. rewrite Hp in Hq. injection Hq as <-.
  rewrite (HasSplit_ok p _ _ k Hr Hk). apply (f_equal Ret).
  rewrite bool_decide_false; [done|]. intros H. apply H.
  destruct B as [|m B]; cbn; [done|]. by apply Forall_cons in HB as [HB _].
Qed.

Section Lookup.
Context (C : list Z → Prop) `{!PrefixFree C} (tbl : Z).

(** Right of a leaf whose fence has another code, no key has the code. *)
Lemma no_code_right T pg k (m : node Key) B next :
  linked (leaf_node T pg) (m :: B) next → StronglySorted sep_lt (sep_of <$> (m :: B)) →
  key_of C k → key_of C (n_lo m) → Forall (key_of C) (entries (m :: B)) →
  lex_lt k (n_lo m) → key_prefix (n_lo m) ≠ key_prefix k →
  Forall (λ x, ¬ same_code k x) (entries (m :: B)).
Proof.
  intros Hl Hs Hk Hm HC Hlt Hne. apply Forall_forall. intros x Hx He.
  assert (Hge : ¬ lex_lt x (n_lo m)).
  { destruct Hl as [Hlm Hl]. rewrite entries_cons in Hx. apply elem_of_app in Hx as [Hx|Hx].
    - by eapply leaf_lo.
    - apply lex_lt_asym. eapply chain_above; [exact Hl| |exact Hx].
      cbn [fmap list_fmap] in Hs. apply StronglySorted_inv in Hs as [_ HF]. by rewrite Forall_fmap in HF. }
  rewrite Forall_forall in HC. specialize (HC x Hx).
  unfold lex_lt in Hlt. rewrite (key_lex C) in Hlt by done.
  apply Hge. unfold lex_lt. rewrite (key_lex C) by done. unfold same_code in He. rewrite He.
  destruct (lex (key_prefix k) (key_prefix (n_lo m))) eqn:E; [|done|done].
  apply lex_eq in E. congruence.
Qed.

Lemma no_match_right T pg k (m : node Key) B next :
  linked (leaf_node T pg) (m :: B) next → StronglySorted sep_lt (sep_of <$> (m :: B)) →
  key_of C k → key_of C (n_lo m) → Forall (key_of C) (entries (m :: B)) →
  lex_lt k (n_lo m) → key_prefix (n_lo m) ≠ key_prefix k →
  filter (matching k) (entries (m :: B)) = [].
Proof.
  intros. apply filter_none. eapply Forall_impl; [eapply (no_code_right T pg k m B next); eassumption|]. intros x Hx [H' _]. by apply Hx.
Qed.

(** The scan over the leaves from the one that covers [k]. *)
Lemma InternalGet_ok T t n B k results fuel :
  linked (leaf_node T (pages t)) (n :: B) None → StronglySorted sep_lt (sep_of <$> (n :: B)) →
  Forall (λ m, valid_pid (n_pid m)) (n :: B) → good C k →
  Forall (key_of C) (entries (n :: B)) → Forall (λ m, good C (n_lo m)) B →
  Forall (λ m, lex_lt k (n_lo m)) B → (length (n :: B) ≤ fuel)%nat →
  InternalGet fuel t (n_pid n) k results =
  Ret (results ++ (key_tid <$> filter (matching k) (entries (n :: B)))).
Proof.
  intros Hl Hs Hv Hk HC HlB HB. revert n results fuel Hl Hs Hv HC.
  induction B as [|m B IH]; intros n results fuel Hl Hs Hv HC Hf; (destruct fuel as [|fuel]; [cbn in Hf; lia|]);
    apply Forall_cons in Hv as [Hvn Hv]; destruct Hl as [Hn Hl]; pose proof (good_ok C k Hk) as Hko;
    pose proof Hn as (p & Hp & _ & Hrl & Habs & _); cbn [InternalGet];
    rewrite (valid_pid_assert _ _ Hvn), bind_Ret, (GetNode_ok t _ p Hvn Hp), bind_Ret;
    rewrite (leaf_HasSplit T _ _ _ k p Hn Hp Hko HB), bind_Ret;
    rewrite (Get_ok C p _ _ k Habs Hko (proj1 Hk)).
  - rewrite bind_Ret. cbn [same_prefix_fence head_sep fmap option_fmap option_map].
    rewrite entries_cons. cbn [fmap list_fmap concat]. by rewrite app_nil_r.
  - cbn. by rewrite entries_cons, app_nil_r in HC.
  - apply Forall_cons in HlB as [Hgm HlB]. apply Forall_cons in HB as [Hkm HB].
    change (same_prefix_fence k (snd <$> head_sep (m :: B) None))
      with (bool_decide (key_prefix (n_lo m) = key_prefix k)). rewrite bind_Ret.
    rewrite (entries_cons n (m :: B)), filter_app, fmap_app, app_assoc.
    cbn [fmap list_fmap] in Hs. apply StronglySorted_inv in Hs as [Hs _].
    rewrite entries_cons in HC. apply Forall_app in HC as [_ HC].
    case_bool_decide as Hpre.
    + cbn [head_sep from_option] in Hrl. rewrite Hrl. cbn [sep_of fst].
      pose proof Hv as [Hvm _]%Forall_cons. unfold valid_pid in Hvm.
      rewrite (proj2 (Z.eqb_neq _ _)) by lia. cbn [length] in Hf. apply IH; try done; cbn [length]; lia.
    + rewrite (no_match_right T (pages t) k m B None Hl Hs (proj1 Hk) (proj1 Hgm) HC Hkm Hpre).
      by rewrite app_nil_r.
  - apply Forall_cons in HlB as [Hgm _]. cbn [head_sep fmap option_fmap option_map option_list].
    rewrite entries_cons in HC. apply Forall_app in HC as [HC _]. constructor; [apply Hgm|done].
Qed.

Lemma good_nonempty k : good C k → k ≠ [].
Proof. intros [_ H] ->. change (key_len []) with 0 in H. lia. Qed.

(** Separators other than the first are keys. *)
Lemma inv_lo_good T t leaves uppers A n B :
  btree_inv C tbl T t leaves uppers → leaves = A ++ n :: B → Forall (λ m, good C (n_lo m)) B.
Proof.
  intros Hi ->. pose proof (bi_sorted _ _ _ _ _ _ Hi) as Hs. pose proof (bi_seps _ _ _ _ _ _ Hi) as Hg.
  rewrite fmap_app in Hs, Hg. apply StronglySorted_app_elim in Hs as (_ & Hs & _).
  apply Forall_app in Hg as [_ Hg]. cbn [fmap list_fmap] in Hs, Hg. apply Forall_cons in Hg as [_ Hg].
  apply Forall_forall. intros m Hm. rewrite Forall_fmap, Forall_forall in Hg.
  destruct (Hg m Hm) as [_ [E|E]]; [|exact E]. exfalso.
  apply (sorted_nonempty (sep_of <$> B) (sep_of n) (sep_of m) Hs); [by apply list_elem_of_fmap_2|exact E].
Qed.

Lemma Get_tree T t ks k :
  btree_keys C tbl T t ks → good C k →
  BTree.Get t k = Ret (key_tid <$> filter (matching k) ks).
Proof.
  intros (leaves & uppers & Hi & <- & Hh) Hk.
  assert (Hi' : btree_inv C tbl T (set_tl t TlState.Clear) leaves uppers) by (destruct Hi; by split).
  destruct (DropToLevel_ok C tbl T _ _ _ Hi' k (inv_height C tbl _ _ _ _ Hi Hh) (good_nonempty k Hk) eq_refl)
    as (A & n & B & path & E & Hlo & HB & Hpath & Hd).
  unfold BTree.Get. cbv zeta. rewrite Hd, bind_Ret.
  pose proof (inv_fuel C tbl T _ _ _ Hi') as Hf. pose proof (inv_valid C tbl T _ _ _ Hi') as [Hv _]%Forall_app.
  pose proof (inv_lo_good _ _ _ _ _ _ _ Hi' E) as HlB.
  pose proof (bi_leaves _ _ _ _ _ _ Hi') as Hl. pose proof (bi_sorted _ _ _ _ _ _ Hi') as Hs.
  pose proof (bi_keys _ _ _ _ _ _ Hi') as Hg. subst leaves.
  pose proof (chain_below T (pages (set_tl t TlState.Clear)) A n B None) as Hbelow.
  assert (Hfil : filter (matching k) (entries A) = []).
  { apply filter_none, Forall_forall. intros x Hx [_ Hge]. apply Hge.
    apply (lex_lt_le _ (n_lo n)); [by apply (Hbelow x Hl Hs Hx)|done]. }
  rewrite entries_app, filter_app, Hfil. cbn [app]. rewrite length_app in Hf.
  rewrite entries_app, Forall_app in Hg. rewrite fmap_app, Forall_app in Hv.
  rewrite fmap_app in Hs. apply linked_app in Hl as [_ Hl].
  apply StronglySorted_app_elim in Hs as (_ & Hs & _).
  rewrite (InternalGet_ok T (set_tl (set_tl t TlState.Clear) path) n B k [] _ Hl Hs); try done.
  - destruct Hv as [_ Hv]. rewrite Forall_fmap in Hv. exact Hv.
  - eapply Forall_impl; [apply Hg|]. by intros x [? _].
  - unfold bt_fuel. cbn [set_tl pages] in *. lia.
Qed.

End Lookup.
