(* ===== verification/BTreeUpdate.v ===== *)
(** * The B-link tree: updates of a leaf, deletion *)

From S2P Require Import Prelude Bytes Shared Memory SlottedPage NodeFacts Leaf LeafFacts LeafSplit.
From S2P Require Import Inter InterFacts InterSplit Fsm BTree BTreeInv BTreeDescent BTreeLookup.
Import BTree.

(** ** Frames *)

Lemma linked_leaf_frame (T T' : Prop) pg pg' ns next :
  (T' → T) → (∀ n, n ∈ ns → pg' !! n_pid n = pg !! n_pid n) →
  linked (leaf_node T pg) ns next → linked (leaf_node T' pg') ns next.
Proof.
  intros HT H. apply linked_impl. intros n nx Hn (p & Hp & H1 & H2 & H3 & H4 & H5).
  exists p. rewrite H by done. split_and!; auto.
Qed.

Lemma linked_inter_frame lvl pg pg' ns next :
  (∀ n, n ∈ ns → pg' !! n_pid n = pg !! n_pid n) →
  linked (inter_node lvl pg) ns next → linked (inter_node lvl pg') ns next.
Proof.
  intros H. apply linked_impl. intros n nx Hn (p & fe & Hp & Hr). exists p, fe. by rewrite H.
Qed.

Lemma pids_of_cons {A} (ns : list (node A)) levels :
  pids_of (ns :: levels) = (n_pid <$> ns) ++ pids_of levels.
Proof. done. Qed.

Lemma uppers_ok_frame pg pg' lvl below uppers root :
  (∀ x, x ∈ pids_of uppers → pg' !! x = pg !! x) →
  uppers_ok pg lvl below uppers root → uppers_ok pg' lvl below uppers root.
Proof.
  revert lvl below; induction uppers as [|us uppers IH]; intros lvl below H; [done|].
  intros (Hl & He & Hup). rewrite pids_of_cons in H. cbn [uppers_ok]. split_and!; [|done|].
  - eapply linked_inter_frame; [|exact Hl]. intros n Hn. apply H, elem_of_app. left.
    by apply list_elem_of_fmap_2.
  - apply IH; [|done]. intros x Hx. apply H, elem_of_app. by right.
Qed.

Lemma NoDup_middle {A} (l k : list A) x : NoDup (l ++ x :: k) → x ∉ l ∧ x ∉ k.
Proof.
  intros (_ & H & [Hx _]%NoDup_cons)%NoDup_app. split; [|done]. intros Hl. apply (H x Hl). by left.
Qed.

Lemma entries_middle {A} (X Y : list (node A)) n :
  entries (X ++ n :: Y) = entries X ++ n_con n ++ entries Y.
Proof. by rewrite entries_app. Qed.

Section Update.
Context (C : list Z → Prop) `{!PrefixFree C} (tbl : Z).

(** Replacing the content of one leaf. *)
Lemma inv_replace_leaf (T T' : Prop) t A n B uppers p' con' st :
  btree_inv C tbl T t (A ++ n :: B) uppers → (T' → T) →
  leaf_node T' (<[n_pid n := p']> (pages t)) (mkNode (n_pid n) (n_lo n) con') (head_sep B None) →
  Forall (good C) con' →
  btree_inv C tbl T' (set_tl (set_page t (n_pid n) p') st)
    (A ++ mkNode (n_pid n) (n_lo n) con' :: B) uppers.
Proof.
  intros [H1 H2 H3 H4 H5 H6 H7 H8 H9] HT Hleaf Hg. set (n' := mkNode _ _ _) in *.
  assert (Hsep : sep_of <$> (A ++ n' :: B) = sep_of <$> (A ++ n :: B)) by (by rewrite !fmap_app).
  assert (Hpid : n_pid <$> (A ++ n' :: B) = n_pid <$> (A ++ n :: B)) by (by rewrite !fmap_app).
  assert (Hfr : ∀ x, x ≠ n_pid n → <[n_pid n := p']> (pages t) !! x = pages t !! x).
  { intros x Hx. by rewrite lookup_insert_ne. }
  assert (Hnd := H7). rewrite fmap_app in Hnd. cbn [fmap list_fmap] in Hnd.
  rewrite <- app_assoc in Hnd. apply NoDup_middle in Hnd as [HnA HnB].
  split; rewrite ?Hsep, ?Hpid; try done.
  - cbn [set_tl set_page pages]. apply linked_app in H1 as [HA [_ HB]]. apply linked_app. split.
    + eapply linked_leaf_frame; [exact HT| |exact HA]. intros m Hm. apply Hfr. intros E. apply HnA.
      rewrite <- E. by apply list_elem_of_fmap_2.
    + split; [exact Hleaf|]. eapply linked_leaf_frame; [exact HT| |exact HB]. intros m Hm. apply Hfr.
      intros E. apply HnB. apply elem_of_app. left. rewrite <- E. by apply list_elem_of_fmap_2.
  - destruct A; done.
  - cbn [set_tl set_page pages root_id_]. eapply uppers_ok_frame; [|exact H4]. intros x Hx. apply Hfr.
    intros ->. apply HnB, elem_of_app. by right.
  - rewrite entries_middle in H5 |- *. rewrite !Forall_app in H5 |- *. tauto.
Qed.

(** The leaf the descent found is not left. *)
Lemma GoRightLeaf_here T t A n B uppers st k :
  btree_inv C tbl T t (A ++ n :: B) uppers → leaf_key_ok k → Forall (λ m, lex_lt k (n_lo m)) B →
  ∃ p, pages t !! n_pid n = Some p ∧ GetNode (set_tl t st) (n_pid n) = Ret p ∧
    leaf_node T (pages t) n (head_sep B None) ∧
    GoRightLeaf (bt_fuel (set_tl t st)) (set_tl t st) (n_pid n) k = Ret (n_pid n).
Proof.
  intros Hi Hk HB. pose proof (bi_leaves _ _ _ _ _ _ Hi) as Hl. apply linked_app in Hl as [_ [Hn _]].
  pose proof Hn as (p & Hp & _). exists p.
  assert (Hv : valid_pid (n_pid n)).
  { apply (inv_leaf_valid _ _ _ _ _ _ Hi). apply elem_of_app. right. by left. }
  pose proof (GetNode_ok (set_tl t st) _ p Hv Hp) as Hg. split_and!; [done|done|done|].
  unfold bt_fuel. cbn [GoRightLeaf]. by rewrite Hg, bind_Ret, (leaf_HasSplit T _ _ _ k p Hn Hp Hk HB), bind_Ret.
Qed.

(** The keys of the leaf that covers [k] are all the keys of the tree that could be [k]. *)
Lemma key_in_leaf T t A n B uppers k :
  btree_inv C tbl T t (A ++ n :: B) uppers → ¬ lex_lt k (n_lo n) → Forall (λ m, lex_lt k (n_lo m)) B →
  k ∉ entries A ∧ k ∉ entries B.
Proof.
  intros Hi Hlo HB. pose proof (bi_leaves _ _ _ _ _ _ Hi) as Hl. pose proof (bi_sorted _ _ _ _ _ _ Hi) as Hs.
  split; intros Hin.
  - by apply Hlo, (chain_below T (pages t) A n B None k).
  - apply linked_app in Hl as [_ [_ Hl]]. apply (lex_lt_irrefl k). by eapply chain_above.
Qed.

Lemma Delete_tree T t ks k :
  btree_keys C tbl T t ks → good C k → k ∈ ks →
  ∃ t', BTree.Delete t k = Ret t' ∧ btree_keys C tbl False t' (key_delete k ks).
Proof.
  intros (leaves & uppers & Hi & <- & Hh) Hk Hin. pose proof (good_ok C k Hk) as Hko.
  assert (Hi' : btree_inv C tbl T (set_tl t TlState.Clear) leaves uppers) by (destruct Hi; by split).
  destruct (DropToLevel_ok C tbl T _ _ _ Hi' k (inv_height C tbl _ _ _ _ Hi Hh) (good_nonempty C k Hk) eq_refl)
    as (A & n & B & path & -> & Hlo & HB & Hpath & Hd).
  destruct (GoRightLeaf_here T _ A n B uppers path k Hi' Hko HB) as (p & Hp & Hg & Hn & Hgo).
  destruct (key_in_leaf T _ A n B uppers k Hi' Hlo HB) as [HnA HnB].
  rewrite entries_middle, !elem_of_app in Hin. destruct Hin as [?|[Hin|?]]; [done| |done].
  pose proof Hn as (q & Hq & Hlev & Hrl & Habs & Hlos & _). rewrite Hp in Hq. injection Hq as <-.
  destruct (Delete_ok p _ _ k Habs Hko Hin) as (p' & Hdel & Habs' & (I1 & I2 & I3 & I4) & _).
  eexists. unfold BTree.Delete, DeleteInternal. cbv zeta. rewrite Hd, bind_Ret. cbv beta iota.
  rewrite Hgo, bind_Ret, Hg, bind_Ret, Hdel, bind_Ret. split; [done|].
  assert (Hg' : Forall (good C) (key_delete k (n_con n))).
  { apply Forall_filter. pose proof (bi_keys _ _ _ _ _ _ Hi') as Hall.
    rewrite entries_middle, !Forall_app in Hall. tauto. }
  assert (Hleaf : leaf_node False (<[n_pid n := p']> (pages t))
            (mkNode (n_pid n) (n_lo n) (key_delete k (n_con n))) (head_sep B None)).
  { exists p'. unfold GetLevel, GetRLink in *. cbn [n_pid n_con n_lo].
    split_and!; [by rewrite lookup_insert_eq|congruence|congruence|done|by apply Forall_filter|done]. }
  eexists _, uppers. split; [exact (inv_replace_leaf T False _ A n B uppers p' _ path Hi' (False_ind _) Hleaf Hg')|].
  split; [|done]. rewrite !entries_middle. unfold key_delete. cbn [n_con].
  rewrite !filter_app, (filter_all _ (entries A)), (filter_all _ (entries B)); [done| |];
    apply Forall_forall; intros x Hx ->; done.
Qed.
End Update.
