(* ===== verification/BTreeInsert.v ===== *)
(** * The B-link tree: insertion

    [raise_ok]: the separator of a new leaf is inserted in the level above, in a
    node with room, in a root that splits, or in a new root.  A full node
    that is not the root leads to the freed buffer of [PropagateInsert]. *)

From S2P Require Import Prelude Bytes Shared Memory SlottedPage NodeFacts Leaf LeafFacts LeafSplit.
From S2P Require Import Inter InterFacts InterSplit Fsm BTree BTreeInv BTreeDescent BTreeLookup.
From S2P Require Import BTreeUpdate.
Import BTree.

(** ** Insertion in sorted lists of entries *)

Lemma lower_bound_app_l {A} (P : A → bool) l k :
  Forall (λ x, P x = true) l → lower_bound P (l ++ k) = (length l + lower_bound P k)%nat.
Proof. induction 1 as [|x l Hx _ IH]; cbn; [done|]. by rewrite Hx, IH. Qed.

Lemma lower_bound_app_r {A} (P : A → bool) l k :
  Forall (λ x, P x = false) k → lower_bound P (l ++ k) = lower_bound P l.
Proof.
  intros Hk. induction l as [|x l IH]; cbn; [|by rewrite IH].
  destruct Hk as [|y k Hy]; cbn; [done|by rewrite Hy].
Qed.

Lemma sep_insert_middle e P con Q :
  Forall (λ x, lex_lt x.2 e.2) P → Forall (λ x, ¬ lex_lt x.2 e.2) Q →
  sep_insert e (P ++ con ++ Q) = P ++ sep_insert e con ++ Q.
Proof.
  intros HP HQ. unfold sep_insert, sep_pos.
  rewrite lower_bound_app_l, lower_bound_app_r.
  2: { eapply Forall_impl; [exact HQ|]. intros x Hx. by apply bool_decide_eq_false. }
  2: { eapply Forall_impl; [exact HP|]. intros x Hx. by apply bool_decide_eq_true. }
  set (n := lower_bound _ con). assert (n ≤ length con)%nat by apply lower_bound_le.
  rewrite take_app_add, drop_app_add, take_app_le, drop_app_le by lia.
  by rewrite <- !app_assoc.
Qed.

Lemma sep_insert_after e s : lex_lt s.2 e.2 → sep_insert e [s] = [s; e].
Proof.
  intros H. unfold sep_insert, sep_pos. cbn [lower_bound]. unfold lt_sep. by rewrite bool_decide_true.
Qed.

Lemma sep_insert_head e a l : lex_lt a.2 e.2 → head (sep_insert e (a :: l)) = Some a.
Proof.
  intros H. unfold sep_insert, sep_pos. cbn [lower_bound]. unfold lt_sep at 1. by rewrite bool_decide_true.
Qed.

Lemma filter_cut_head {A} (P : A → Prop) `{!∀ x, Decision (P x)} a l :
  head l = Some a → P a → head (filter P l) = Some a.
Proof. destruct l as [|b l]; [done|]. intros [= ->] Ha. by rewrite filter_cons_True. Qed.

(** A sorted list is its part below an element followed by the rest. *)
Lemma filter_cut sent l :
  StronglySorted sep_lt l → filter (λ x, sep_lt x sent) l ++ filter (λ x, ¬ sep_lt x sent) l = l.
Proof.
  induction 1 as [|x l Hs IH HF]; [done|]. destruct (decide (sep_lt x sent)) as [H|H].
  - rewrite filter_cons_True, (filter_cons_False _ x) by (done || tauto). cbn. by f_equal.
  - rewrite filter_cons_False, (filter_cons_True _ x) by done.
    rewrite filter_none; [|eapply Forall_impl; [exact HF|]; intros y Hy Hy'; apply H; by transitivity y].
    rewrite filter_all; [done|]. eapply Forall_impl; [exact HF|]. intros y Hy Hy'. apply H. by transitivity y.
Qed.

(** The first element at or after the cut is the sentinel. *)
Lemma filter_cut_sent sent l :
  StronglySorted sep_lt l → sent ∈ l → head (filter (λ x, ¬ sep_lt x sent) l) = Some sent.
Proof.
  intros Hs. induction Hs as [|x l Hs IH HF]; [by intros ?%not_elem_of_nil|].
  intros [->|Hin]%elem_of_cons.
  - rewrite filter_cons_True; [done|apply lex_lt_irrefl].
  - rewrite Forall_forall in HF. rewrite filter_cons_False; [by apply IH|].
    intros H. apply H, HF, Hin.
Qed.

(** ** A level with a node split in two *)

Lemma split_seps {A} (ns ms : list (node A)) (n n1 n2 : node A) :
  StronglySorted sep_lt (sep_of <$> (ns ++ n :: ms)) → sep_of n1 = sep_of n → lex_lt (n_lo n) (n_lo n2) →
  Forall (λ m, lex_lt (n_lo n2) (n_lo m)) ms →
  sep_of <$> (ns ++ n1 :: n2 :: ms) = sep_insert (sep_of n2) (sep_of <$> (ns ++ n :: ms)).
Proof.
  intros Hs S1 Hlt Hms. rewrite !fmap_app. cbn [fmap list_fmap]. rewrite S1.
  rewrite fmap_app in Hs. apply StronglySorted_app_elim in Hs as (_ & _ & Hns).
  change (sep_of n :: (sep_of <$> ms)) with ([sep_of n] ++ (sep_of <$> ms)).
  rewrite sep_insert_middle; [by rewrite sep_insert_after| |].
  - apply Forall_forall. intros x Hx. transitivity (n_lo n); [|done]. apply (Hns x (sep_of n) Hx). by left.
  - apply Forall_fmap. eapply Forall_impl; [exact Hms|]. intros m Hm. cbn. by apply lex_lt_asym.
Qed.

Lemma split_pids {A} (ns ms : list (node A)) (n n1 n2 : node A) :
  n_pid n1 = n_pid n →
  n_pid <$> (ns ++ n1 :: n2 :: ms) ≡ₚ n_pid n2 :: (n_pid <$> (ns ++ n :: ms)).
Proof.
  intros P1. rewrite !fmap_app. cbn [fmap list_fmap]. rewrite P1. symmetry.
  rewrite Permutation_middle. apply Permutation_app_head. by constructor.
Qed.

(** ** Room in nodes without garbage *)

Lemma entries_cost_le {E} `{!NodeFormat E} (c : Z) (l : list E) :
  Forall (λ e, entry_cost e ≤ c) l → entries_cost l ≤ c * Z.of_nat (length l).
Proof.
  induction 1 as [|e l He _ IH]; [change (entries_cost []) with 0; cbn; lia|]. rewrite entries_cost_cons. cbn [length]. lia.
Qed.

Lemma tight_ready {E} `{!NodeFormat E} (c : Z) p (l : list E) fk :
  node_abs p l fk → tight p l fk → Forall (λ e, entry_cost e ≤ c) (option_list fk ++ l) → 0 ≤ c ≤ 136 →
  c ≤ vh_heap_offset (hdr p) ∧ (2 + c ≤ free_bytes p ∨ (2 ≤ length l)%nat).
Proof.
  intros Hr Ht [Hf Hl]%Forall_app Hc. pose proof (node_abs_count p l fk Hr) as Hcnt.
  destruct Hr as (es & f & [[_ Hro _ _ _] Hce _] & _). rewrite <- Hce, Hcnt in Hro.
  pose proof (entries_cost_le c l Hl) as Hcost.
  assert (Hfc : fence_cost fk ≤ c).
  { destruct fk as [e|]; cbn; [|lia]. by apply Forall_cons in Hf as [Hf _]. }
  unfold tight, free_bytes, header_size_, DB7_PAGE_SIZE in *. rewrite Hcnt.
  destruct (Z.le_gt_cases (Z.of_nat (length l)) 57); [split; [nia|]|split; [lia|right; lia]].
  destruct (decide (length l ≤ 1)%nat) as [Hn|Hn]; [left|right; lia].
  destruct l as [|x [|]]; cbn [length] in *; lia.
Qed.

Lemma sep_cost_short (e : Sep) : sep_ok e → key_len e.2 ≤ 128 → 8 + key_len e.2 ≤ 136 ∧ entry_cost e ≤ 136.
Proof. intros He Hl. destruct (sep_cost_bounds e He) as (H1 & H2 & q & Hq). lia. Qed.

Lemma key_cost_short (k : Key) : leaf_key_ok k → key_len k ≤ 128 → 2 + key_len k ≤ 136 ∧ entry_cost k ≤ 136.
Proof. intros Hk Hl. pose proof (key_cost_bounds k Hk). unfold key_cost in *. lia. Qed.

Section Insert.
Context (C : list Z → Prop) `{!PrefixFree C} (tbl : Z).

Lemma sep_good_cost e : sep_good C e → entry_cost e ≤ 136.
Proof.
  intros He. pose proof (sep_good_ok C e He) as Hok. apply sep_cost_short; [done|].
  destruct He as [_ [->|[_ H]]]; [change (key_len []) with 0|]; lia.
Qed.

(** ** One intermediate node *)

Section Node.
Context (lvl : Z) (pg : gmap Z page) (u : node Sep) (next : option Sep) (p : page) (e : Sep).
Context (Hu : inter_node lvl pg u next) (Hp : pg !! n_pid u = Some p).
Context (Hgood : Forall (sep_good C) (n_con u)) (Hnext : Forall (λ s, good C s.2) (option_list next)).
Context (He : sep_good C e) (Hge : good C e.2) (Hnin : e.2 ∉ (n_con u).*2).
Context (Hlo : lex_lt (n_lo u) e.2) (Hbelow : below_fence e.2 (snd <$> next)).

Lemma inter_next_fence fe :
  snd <$> fe = snd <$> next → node_abs p (n_con u) fe →
  Forall wide (option_list fe) ∧ Forall (λ x, entry_cost x ≤ 136) (option_list fe).
Proof.
  intros Hfe Hr. destruct fe as [x|]; [|by split; constructor].
  destruct next as [s|]; [|done]. cbn in Hfe. injection Hfe as Hfe.
  apply Forall_cons in Hnext as [Hs _]. rewrite <- Hfe in Hs.
  pose proof (node_abs_ok _ _ _ Hr) as [Hok _]%Forall_cons.
  split; repeat constructor; [apply Hs|..|by apply sep_cost_short; [|apply Hs]]; destruct Hs; lia.
Qed.

Lemma inter_insert_head l :
  (∃ pid r, l = (pid, n_lo u) :: r) → snd <$> head (sep_insert e l) = Some (n_lo u).
Proof. intros (pid & r & ->). by rewrite sep_insert_head. Qed.

Lemma inter_node_space :
  fits e p →
  ∃ p', Inter.Insert p e.2 e.1 = Ret p' ∧ free_bytes p = free_bytes p' + 2 + entry_cost e ∧
    inter_node lvl (<[n_pid u := p']> pg) (mkNode (n_pid u) (n_lo u) (sep_insert e (n_con u))) next.
Proof.
  intros Hfit. destruct Hu as (q & fe & Hq & Hlev & Hrl & Hfe & Habs & Ht & Hhd).
  rewrite Hp in Hq. injection Hq as <-.
  assert (Hv : e.1 ≠ 0) by (destruct He as [Hv _]; unfold valid_pid in Hv; lia).
  destruct (InterInsert_ok p _ fe e Habs (sep_good_ok C e He) Hv Hnin) as (p' & Hi & Habs' & (I1 & I2 & I3 & I4) & Ht');
    [by unfold sep_below; rewrite Hfe|done|].
  exists p'. split; [done|]. split; [by eapply free_insert; [exact Habs|exact Ht|exact Habs'|apply Ht']|].
  exists p', fe. unfold GetLevel, GetRLink in *. cbn [n_pid n_con n_lo].
  split_and!; [by rewrite lookup_insert_eq|congruence|congruence|done|done|by apply Ht'|].
  apply inter_insert_head. by eapply inter_node_head.
Qed.

(** A full node leaves two entries at least to either half. *)
Lemma halves_fat p' q fe sent :
  inter_abs p (n_con u) fe → tight p (n_con u) fe → ¬ fits e p → Forall (λ x, entry_cost x ≤ 136) (option_list fe) →
  sent ∈ n_con u →
  inter_abs p' (filter (λ x, sep_lt x sent) (sep_insert e (n_con u))) (Some sent) →
  inter_abs q (filter (λ x, ¬ sep_lt x sent) (sep_insert e (n_con u))) fe →
  tight p' (filter (λ x, sep_lt x sent) (sep_insert e (n_con u))) (Some sent) →
  tight q (filter (λ x, ¬ sep_lt x sent) (sep_insert e (n_con u))) fe →
  784 ≤ free_bytes p' + entry_cost e → 784 ≤ free_bytes q + entry_cost e →
  (2 ≤ length (filter (λ x, sep_lt x sent) (sep_insert e (n_con u))))%nat ∧
  (2 ≤ length (filter (λ x, ¬ sep_lt x sent) (sep_insert e (n_con u))))%nat.
Proof.
  intros Hr Ht Hfull Hfc Hin Hl' Hr' Tl Tr F1 F2. set (L := filter _ _) in *. set (R := filter (λ x, ¬ _) _) in *.
  assert (HP : L ++ R ≡ₚ e :: n_con u) by (unfold L, R; rewrite filter_app_complement; apply sep_insert_perm).
  pose proof (entries_cost_perm _ _ HP) as HC. pose proof (Permutation_length HP) as HL.
  rewrite entries_cost_app, entries_cost_cons in HC. rewrite length_app in HL. cbn [length] in HL.
  rewrite (tight_free p' L _ (proj1 Hl') Tl) in F1. rewrite (tight_free q R _ (proj1 Hr') Tr) in F2.
  unfold fits in Hfull. rewrite (tight_free p _ _ (proj1 Hr) Ht) in Hfull.
  assert (Hce : entry_cost e ≤ 136) by by apply sep_good_cost.
  assert (Hcs : 0 < entry_cost sent ≤ 136).
  { split; [apply entry_cost_pos|]. rewrite Forall_forall in Hgood. by apply sep_good_cost, Hgood. }
  assert (Hcf : 0 ≤ fence_cost fe ≤ 136).
  { destruct fe as [x|]; cbn; [|lia]. apply Forall_cons in Hfc as [Hx _]. pose proof (entry_cost_pos x). lia. }
  change (fence_cost (Some sent)) with (entry_cost sent) in F1.
  assert (HF : Forall (λ x, entry_cost x ≤ 136) (L ++ R)).
  { rewrite HP. constructor; [done|]. eapply Forall_impl; [exact Hgood|]. apply sep_good_cost. }
  apply Forall_app in HF as [HFL HFR]. apply entries_cost_le in HFL, HFR.
  unfold header_size_, DB7_PAGE_SIZE in *. split; lia.
Qed.

Lemma inter_node_split right np :
  (2 ≤ length (n_con u))%nat → ¬ fits e p → vh_heap_offset (hdr right) = DB7_PAGE_SIZE → GetLevel right = lvl →
  ∃ p' q sent, Inter.Split p right np e.2 e.1 = Ret (p', q, sent.2) ∧ sent ∈ n_con u ∧
    lex_lt (n_lo u) sent.2 ∧ GetLevel p' = lvl ∧
    (2 ≤ length (filter (λ x, sep_lt x sent) (sep_insert e (n_con u))))%nat ∧
    (2 ≤ length (filter (λ x, ¬ sep_lt x sent) (sep_insert e (n_con u))))%nat ∧
    ∀ pg', pg' !! n_pid u = Some p' → pg' !! np = Some q →
      inter_node lvl pg' (mkNode (n_pid u) (n_lo u) (filter (λ x, sep_lt x sent) (sep_insert e (n_con u))))
        (Some (np, sent.2)) ∧
      inter_node lvl pg' (mkNode np sent.2 (filter (λ x, ¬ sep_lt x sent) (sep_insert e (n_con u)))) next.
Proof.
  intros Hlen Hfull Hright Hlr. destruct (inter_node_head _ _ _ _ Hu) as (hp & hl & Ehd).
  pose proof (inter_node_sorted _ _ _ _ Hu) as Hso.
  destruct Hu as (p0 & fe & Hq & Hlev & Hrl & Hfe & Habs & Ht & Hhd).
  rewrite Hp in Hq. injection Hq as <-. destruct (inter_next_fence fe Hfe (proj1 Habs)) as [Hwf Hfc].
  destruct (InterSplit_ok p right _ fe np e Habs (sorted_wide_node C _ Hso Hgood) Hwf Hlen Hright
              (sep_good_ok C e He) (good_wide C e Hge) Hnin)
    as (p' & q & sent & Hsp & Hin & Hne & Hl & Hr & Htl & Htr & R1 & R2 & _ & _ & L1 & L2 & F1 & F2);
    [by unfold sep_below; rewrite Hfe|].
  assert (Hlt : lex_lt (n_lo u) sent.2).
  { rewrite Ehd in Hin, Hne, Hso. apply elem_of_cons in Hin as [->|Hin]; [done|].
    apply StronglySorted_inv in Hso as [_ HF]. rewrite Forall_forall in HF. apply (HF sent Hin). }
  exists p', q, sent. split; [done|]. split; [done|]. split; [done|]. split; [congruence|].
  apply and_assoc. split; [by apply (halves_fat p' q fe sent)|].
  intros pg' Hp' Hq'. pose proof (sep_insert_sorted e _ Hso Hnin) as Hsi. split.
  - exists p', (Some sent). cbn [n_pid n_con n_lo]. split_and!; try done; [congruence|].
    rewrite (filter_cut_head _ (hp, n_lo u)); [done| |done]. rewrite Ehd. by apply sep_insert_head.
  - exists q, fe. cbn [n_pid n_con n_lo]. split_and!; try done; [congruence|congruence|].
    rewrite filter_cut_sent; [done|done|]. rewrite sep_insert_perm. by right.
Qed.

(** What [HasSpace] answers. *)
Lemma inter_node_has_space :
  Inter.HasSpace p e.2 = Ret (bool_decide (fits e p)) ∧ (fits e p ∨ (2 ≤ length (n_con u))%nat).
Proof.
  destruct Hu as (p0 & fe & Hq & Hlev & Hrl & Hfe & Habs & Ht & Hhd).
  rewrite Hp in Hq. injection Hq as <-. destruct (inter_next_fence fe Hfe (proj1 Habs)) as [_ Hcf].
  destruct (tight_ready 136 p (n_con u) fe (proj1 Habs) Ht) as [H1 H2]; [|lia|].
  { apply Forall_app. split; [done|]. eapply Forall_impl; [exact Hgood|]. apply sep_good_cost. }
  destruct (sep_cost_short e (sep_good_ok C e He)) as [H3 H4]; [apply Hge|].
  split; [|unfold fits; destruct H2; [left|right]; lia].
  apply (InterHasSpace_ok p (n_con u) fe e (proj1 Habs)); [by eapply good_nonempty|lia].
Qed.

End Node.

(** ** One level *)

(** The end of [InsertLeaf] and of an iteration of [PropagateInsert]: a new
    root, or the insertion of the sentinel one level up, where it is passed as
    [key]. *)
Definition raise (fuel : nat) (t : btree) (level pid : Z) (sentinel : Key) (new_pid : Z) (key : KeyRef) : outcome btree :=
  if TlState.IsEmpty (tl t) then
    if GetRoot t =? pid then CreateNewRoot tbl t level sentinel pid new_pid
    else
      t ← DropToLevelAt t sentinel (to_u8 (level + 1));
      PropagateInsert tbl fuel t key new_pid
  else PropagateInsert tbl fuel t key new_pid.

(** [GoRightInter] from a node at or left of the one that covers [k]. *)
Lemma GoRightInter_walk lvl t n ns k fuel :
  linked (inter_node lvl (pages t)) (n :: ns) None → StronglySorted sep_lt (sep_of <$> (n :: ns)) →
  Forall (λ m, valid_pid (n_pid m)) (n :: ns) → k ≠ [] → ¬ lex_lt k (n_lo n) → (length (n :: ns) ≤ fuel)%nat →
  ∃ A u B, n :: ns = A ++ u :: B ∧ ¬ lex_lt k (n_lo u) ∧ Forall (λ m, lex_lt k (n_lo m)) B ∧
    GoRightInter fuel t (n_pid n) k = Ret (n_pid u).
Proof.
  intros Hl Hs Hv Hk. revert n fuel Hl Hs Hv. induction ns as [|m ns IH]; intros n fuel Hl Hs Hv Hlo Hf;
    (destruct fuel as [|fuel]; [cbn in Hf; lia|]); destruct Hl as [Hn Hl]; apply Forall_cons in Hv as [Hvn Hv];
    pose proof Hn as (p & fe & Hp & _ & Hrl & Hfe & Habs & _); cbn [GoRightInter];
    rewrite (GetNode_ok t _ p Hvn Hp), bind_Ret;
    rewrite (InterHasSplit_ok p _ _ k (proj1 Habs) Hk), bind_Ret, Hfe; cbn [head_sep fmap option_fmap option_map below_fence].
  - exists [], n, []. split_and!; [done..|]. by rewrite bool_decide_false by tauto.
  - cbn [head_sep] in *. cbn [fmap list_fmap] in Hs. apply StronglySorted_inv in Hs as [Hs _].
    cbn [sep_of snd]. destruct (decide (lex_lt k (n_lo m))) as [Hlt|Hge].
    + rewrite bool_decide_false by tauto. exists [], n, (m :: ns). split_and!; try done.
      constructor; [done|]. apply StronglySorted_inv in Hs as [_ HF]. rewrite Forall_fmap in HF.
      eapply Forall_impl; [exact HF|]. intros x Hx. by transitivity (n_lo m).
    + rewrite bool_decide_true by done. rewrite Hrl. cbn [from_option sep_of fst].
      destruct (IH m fuel Hl Hs Hv Hge) as (A & u & B & E & H1 & H2 & H3); [cbn [length] in *; lia|].
      exists (n :: A), u, B. rewrite E. by split_and!.
Qed.

(** Only one node of a level covers a key. *)
Lemma cover_node_unique {E} (us : list (node E)) k A u B A' u' B' :
  StronglySorted sep_lt (sep_of <$> us) → us = A ++ u :: B → us = A' ++ u' :: B' →
  ¬ lex_lt k (n_lo u) → ¬ lex_lt k (n_lo u') →
  Forall (λ m, lex_lt k (n_lo m)) B → Forall (λ m, lex_lt k (n_lo m)) B' → u = u'.
Proof.
  intros Hs E1 E2 Hu Hu' HB HB'.
  assert (Hlt : ∀ X v Y w, us = X ++ v :: Y → w ∈ X → lex_lt (n_lo w) (n_lo v)).
  { intros X v Y w -> Hw. rewrite fmap_app in Hs. apply StronglySorted_app_elim in Hs as (_ & _ & H).
    apply (H (sep_of w) (sep_of v)); [by apply list_elem_of_fmap_2|by left]. }
  assert (Hin : u' ∈ us) by (rewrite E2; apply elem_of_app; right; by left).
  assert (Hin' : u ∈ us) by (rewrite E1; apply elem_of_app; right; by left).
  rewrite E1 in Hin. rewrite E2 in Hin'. rewrite Forall_forall in HB, HB'.
  apply elem_of_app in Hin as [Hin|[->|Hin]%elem_of_cons]; [|done|by destruct Hu'; apply HB].
  apply elem_of_app in Hin' as [Hin'|[->|Hin']%elem_of_cons]; [|done|by destruct Hu; apply HB'].
  exfalso. eapply (lex_lt_irrefl (n_lo u)). transitivity (n_lo u'); [by eapply Hlt|by eapply Hlt].
Qed.

(** From any node of the level at or left of [k]. *)
Lemma level_go_right lvl t us u0 u A B k :
  linked (inter_node lvl (pages t)) us None → StronglySorted sep_lt (sep_of <$> us) → NoDup (n_pid <$> us) →
  Forall (λ m, valid_pid (n_pid m)) us → k ≠ [] → u0 ∈ us → ¬ lex_lt k (n_lo u0) →
  us = A ++ u :: B → ¬ lex_lt k (n_lo u) → Forall (λ m, lex_lt k (n_lo m)) B →
  valid_pid (n_pid u0) ∧ GoRightInter (bt_fuel t) t (n_pid u0) k = Ret (n_pid u).
Proof.
  intros Hl Hs Hnd Hv Hk (P & Q & E0)%list_elem_of_split Hlo0 E Hlo HB.
  assert (Hlen : (length us ≤ size (pages t))%nat).
  { rewrite <- (length_fmap n_pid us). apply pids_size; [done|]. intros x (m & -> & Hm)%list_elem_of_fmap.
    destruct (linked_elem _ _ _ _ Hl Hm) as [nx (p & fe & Hp & _)]. eauto. }
  assert (Hl' := Hl). assert (Hs' := Hs). assert (Hv' := Hv). rewrite E0 in Hl', Hs', Hv'.
  apply linked_app in Hl' as [_ Hl']. rewrite fmap_app in Hs'. apply StronglySorted_app_elim in Hs' as (_ & Hs' & _).
  apply Forall_app in Hv' as [_ Hv'].
  destruct (GoRightInter_walk lvl t u0 Q k (bt_fuel t) Hl' Hs' Hv' Hk Hlo0) as (X & w & Y & EX & Hw & HY & Hgo).
  { unfold bt_fuel. rewrite E0, length_app in Hlen. lia. }
  split; [by apply Forall_cons in Hv' as [? _]|]. rewrite Hgo.
  rewrite (cover_node_unique us k (P ++ X) w Y A u B Hs); [done|by rewrite E0, EX, app_assoc|done..].
Qed.

Lemma level_above us (u0 u : node Sep) A B k :
  StronglySorted sep_lt (sep_of <$> us) → us = A ++ u :: B → u0 ∈ us → ¬ lex_lt k (n_lo u0) →
  Forall (λ m, lex_lt k (n_lo m)) B → ¬ lex_lt (n_lo u) (n_lo u0).
Proof.
  intros Hs -> Hu0 Hlo HB Hlt. apply elem_of_app in Hu0 as [Hu0|[->|Hu0]%elem_of_cons].
  - rewrite fmap_app in Hs. apply StronglySorted_app_elim in Hs as (_ & _ & H).
    apply (lex_lt_irrefl (n_lo u)). transitivity (n_lo u0); [done|].
    apply (H (sep_of u0) (sep_of u)); [by apply list_elem_of_fmap_2|by left].
  - by apply lex_lt_irrefl in Hlt.
  - rewrite Forall_forall in HB. by apply Hlo, HB.
Qed.

Lemma ReserveNode_ok t :
  0 < next_pid tbl t < BUFFER_POOL_PAGE_NUM →
  ∃ t', ReserveNode tbl t = Ret (t', next_pid tbl t) ∧
    pages t' = <[next_pid tbl t := zero_page]> (pages t) ∧ root_id_ t' = root_id_ t ∧ tl t' = tl t ∧
    next_pid tbl t' = next_pid tbl t + 1 ∧ GetNode t' (next_pid tbl t) = Ret zero_page.
Proof.
  intros Hn. eexists. unfold ReserveNode, FreeSpaceManagerIndex.Get. fold (next_pid tbl t). cbv beta iota zeta.
  unfold BUFFER_POOL_PAGE_NUM in Hn. rewrite (wrap_small 32) by lia.
  rewrite DB7_ASSERT_true, bind_Ret by (apply Z.ltb_lt; unfold BUFFER_POOL_PAGE_NUM; lia).
  split; [done|]. split; [done|]. split; [done|]. split; [done|]. split.
  - unfold next_pid at 1. cbn [page_ids]. by rewrite lookup_insert_eq.
  - apply GetNode_ok; [|apply lookup_insert_eq]. unfold valid_pid, INVALID_PAGE, UINT32_MAX. lia.
Qed.

Lemma IsEmpty_cons x st : TlState.IsEmpty (x :: st) = false.
Proof. apply Z.eqb_neq. cbn [length]. lia. Qed.

Lemma Pop_cons x st : TlState.Pop (x :: st) = Ret (x, st).
Proof. unfold TlState.Pop. by rewrite DB7_ASSERT_true by (apply Z.leb_le; cbn [length]; lia). Qed.

(** A level with entry [e] to insert: [u] is the node that has the entry [s]
    covering it. *)
Section Level.
Context (lvl : Z) (t : btree) (us : list (node Sep)) (below : list Sep) (s e : Sep).
Context (A B : list (node Sep)) (u : node Sep) (path : list Z) (fuel : nat).
Context (Hl : linked (inter_node lvl (pages t)) us None) (Hent : entries us = below).
Context (Hs : StronglySorted sep_lt below) (Hg : Forall (sep_good C) below).
Context (He : sep_good C e) (Hge : good C e.2) (Hnin : e.2 ∉ below.*2).
Context (Hus : us = A ++ u :: B) (Hsu : s ∈ n_con u) (Hse : ¬ lex_lt e.2 s.2).
Context (HB : Forall (λ m, lex_lt e.2 (n_lo m)) B).
Context (pid0 : Z) (Htl : tl t = pid0 :: path) (Hpid0 : valid_pid pid0).
Context (Hgo : GoRightInter (bt_fuel (set_tl t path)) (set_tl t path) pid0 e.2 = Ret (n_pid u)).
Context (Hv : Forall (λ m, valid_pid (n_pid m)) us) (Hlt : Forall (λ m, n_pid m < next_pid tbl t) us).
Context (Hnd : NoDup (n_pid <$> us)).
Context (Hnp : 0 < next_pid tbl t < BUFFER_POOL_PAGE_NUM).

Local Lemma level_node : inter_node lvl (pages t) u (head_sep B None).
Proof. assert (H := Hl). rewrite Hus in H. by apply linked_app in H as [_ [H _]]. Qed.

Local Lemma level_entries : below = entries A ++ n_con u ++ entries B.
Proof. by rewrite <- Hent, Hus, entries_middle. Qed.

Local Lemma level_con : Forall (sep_good C) (n_con u) ∧ e.2 ∉ (n_con u).*2.
Proof.
  split.
  - assert (H := Hg). rewrite level_entries, !Forall_app in H. tauto.
  - intros H. apply Hnin. rewrite level_entries, !fmap_app, !elem_of_app. tauto.
Qed.

Local Lemma level_lo : lex_lt (n_lo u) e.2.
Proof.
  pose proof level_node as Hu. destruct (inter_node_head _ _ _ _ Hu) as (hp & hl & Ehd).
  assert (Hle : ¬ lex_lt e.2 (n_lo u)).
  { eapply lex_le_trans; [by eapply lo_le_entry|done]. }
  destruct (lex_trichotomy (n_lo u) e.2) as [H|[H|H]]; [done| |done].
  destruct level_con as [_ Hn]. destruct Hn. rewrite Ehd. apply elem_of_cons. by left.
Qed.

(** The level after the insertion, in one node or in two. *)
Local Lemma level_insert_entries con :
  con = sep_insert e (n_con u) → entries A ++ con ++ entries B = sep_insert e below.
Proof.
  intros ->. rewrite level_entries. symmetry. apply sep_insert_middle.
  - apply Forall_forall. intros x Hx. apply (lex_lt_le _ s.2); [|done].
    assert (H := Hs). rewrite level_entries in H. apply StronglySorted_app_elim in H as (_ & _ & H).
    apply (H x s Hx). apply elem_of_app. by left.
  - apply Forall_forall. intros x (m & Hm & Hx)%elem_of_entries. apply lex_lt_asym.
    rewrite Forall_forall in HB. apply (lex_lt_le _ (n_lo m)); [by apply HB|].
    assert (H := Hl). rewrite Hus in H. apply linked_app in H as [_ [_ H]].
    destruct (linked_elem _ _ _ _ H Hm) as [nx Hmn]. by eapply lo_le_entry.
Qed.

Local Lemma level_next_good : Forall (λ x, good C x.2) (option_list (head_sep B None)).
Proof.
  assert (H := Hl). rewrite Hus in H. apply linked_app in H as [_ [_ H]].
  assert (HgB : Forall (sep_good C) (entries B)).
  { assert (H' := Hg). rewrite level_entries, !Forall_app in H'. tauto. }
  assert (HB' := HB). revert H HgB HB'. generalize B. clear.
  intros [|m B'] H HgB HB'; cbn; constructor; [|constructor]. apply Forall_cons in HB' as [HBm _].
  destruct (level_keys lvl (pages t) (m :: B') None m H) as (x & Hx & Ex & _); [by left|].
  rewrite Forall_forall in HgB. destruct (HgB x Hx) as [_ [E|E]]; cbn; [|by rewrite <- Ex].
  rewrite <- Ex, E in HBm. unfold lex_lt in HBm. by destruct e.2.
Qed.

Local Lemma level_frame pg' :
  (∀ x, x ∈ n_pid <$> us → x ≠ n_pid u → pg' !! x = pages t !! x) →
  linked (inter_node lvl pg') A (Some (sep_of u)) ∧ linked (inter_node lvl pg') B None.
Proof.
  intros Hfr. assert (H := Hl). rewrite Hus in H. apply linked_app in H as [HlA [_ HlB]].
  assert (Hnd' := Hnd). rewrite Hus, fmap_app in Hnd'. cbn [fmap list_fmap] in Hnd'.
  apply NoDup_middle in Hnd' as [HnA HnB].
  split; (eapply linked_inter_frame; [|eassumption]); intros m Hm; apply Hfr.
  - rewrite Hus, fmap_app. apply elem_of_app. left. by apply list_elem_of_fmap_2.
  - intros E. apply HnA. rewrite <- E. by apply list_elem_of_fmap_2.
  - rewrite Hus, fmap_app. apply elem_of_app. right. right. by apply list_elem_of_fmap_2.
  - intros E. apply HnB. rewrite <- E. by apply list_elem_of_fmap_2.
Qed.

Local Lemma level_fence : below_fence e.2 (snd <$> head_sep B None).
Proof.
  assert (HB' := HB). revert HB'. generalize B. clear. intros [|m B'] HB'; cbn; [done|].
  by apply Forall_cons in HB' as [? _].
Qed.

(** One iteration of [PropagateInsert] when the node has room. *)
Lemma level_space p :
  pages t !! n_pid u = Some p → fits e p →
  ∃ p', let u' := mkNode (n_pid u) (n_lo u) (sep_insert e (n_con u)) in
    PropagateInsert tbl (S fuel) t (Alive e.2) e.1 = Ret (set_page (set_tl t path) (n_pid u) p') ∧
    free_bytes p = free_bytes p' + 2 + entry_cost e ∧
    linked (inter_node lvl (<[n_pid u := p']> (pages t))) (A ++ u' :: B) None ∧
    entries (A ++ u' :: B) = sep_insert e below.
Proof.
  intros Hp Hfit. destruct level_con as [Hgc Hnc]. pose proof level_node as Hu.
  pose proof level_fence as Hbf.
  assert (Hvu : valid_pid (n_pid u)).
  { rewrite Forall_forall in Hv. apply Hv. rewrite Hus. apply elem_of_app. right. by left. }
  destruct (inter_node_space lvl (pages t) u (head_sep B None) p e Hu Hp He Hnc level_lo Hbf Hfit) as (p' & Hi & Hfree & Hu').
  destruct (inter_node_has_space lvl (pages t) u (head_sep B None) p e Hu Hp Hgc level_next_good He Hge Hbf) as [Hsp _].
  exists p'. cbv zeta. split_and!.
  - cbn [PropagateInsert]. rewrite Htl, IsEmpty_cons, Pop_cons, bind_Ret. cbv beta iota.
    rewrite (valid_pid_assert _ _ Hpid0), bind_Ret. cbn [read_key]. rewrite bind_Ret, Hgo.
    rewrite bind_Ret, (GetNode_ok (set_tl t path) _ p Hvu Hp), bind_Ret, Hsp, bind_Ret.
    rewrite bool_decide_true by done. by rewrite Hi, bind_Ret.
  - done.
  - destruct (level_frame (<[n_pid u := p']> (pages t))) as [HfA HfB].
    { intros x _ Hx. by rewrite lookup_insert_ne. }
    apply linked_app. split; [done|]. by split.
  - rewrite entries_middle. by apply level_insert_entries.
Qed.

(** One iteration of [PropagateInsert] when it splits the node. *)
Lemma level_split p :
  pages t !! n_pid u = Some p → ¬ fits e p → GetLevel p = lvl →
  ∃ t2 u1 u2 sent, let np := next_pid tbl t in
    PropagateInsert tbl (S fuel) t (Alive e.2) e.1 = raise fuel t2 lvl (n_pid u) sent.2 np Freed ∧
    u1 = mkNode (n_pid u) (n_lo u) (filter (λ x, sep_lt x sent) (sep_insert e (n_con u))) ∧
    u2 = mkNode np sent.2 (filter (λ x, ¬ sep_lt x sent) (sep_insert e (n_con u))) ∧
    fat u1 ∧ fat u2 ∧ sent ∈ n_con u ∧ lex_lt (n_lo u) sent.2 ∧
    (∀ x, x ≠ n_pid u → x ≠ np → pages t2 !! x = pages t !! x) ∧
    root_id_ t2 = root_id_ t ∧ tl t2 = path ∧ next_pid tbl t2 = np + 1 ∧
    inter_node lvl (pages t2) u1 (Some (sep_of u2)) ∧ inter_node lvl (pages t2) u2 (head_sep B None) ∧
    entries (A ++ u1 :: u2 :: B) = sep_insert e below.
Proof.
  intros Hp Hfit Hlev. destruct level_con as [Hgc Hnc]. pose proof level_node as Hu.
  pose proof level_fence as Hbf.
  assert (Hin_us : u ∈ us) by (rewrite Hus; apply elem_of_app; right; by left).
  assert (Hvu : valid_pid (n_pid u)) by (rewrite Forall_forall in Hv; by apply Hv).
  assert (Hltu : n_pid u < next_pid tbl t) by (rewrite Forall_forall in Hlt; by apply Hlt).
  destruct (inter_node_has_space lvl (pages t) u (head_sep B None) p e Hu Hp Hgc level_next_good He Hge Hbf)
    as [Hsp [Hf|Hlen]]; [done|].
  destruct (ReserveNode_ok (set_tl t path) Hnp) as (t1 & Hres & Hpg1 & Hroot1 & Htl1 & Hnext1 & Hget1).
  change (next_pid tbl (set_tl t path)) with (next_pid tbl t) in *. set (np := next_pid tbl t) in *.
  destruct (inter_node_split lvl (pages t) u (head_sep B None) p e Hu Hp Hgc level_next_good He Hge Hnc
              level_lo Hbf (InitHeader zero_page 0 lvl np) np Hlen Hfit eq_refl eq_refl)
    as (p' & q & sent & Hsplit & Hsin & Hslo & Hlev' & Hfat1 & Hfat2 & Hnodes).
  set (t2 := set_page (set_page t1 np q) (n_pid u) p').
  assert (Hpg2 : pages t2 = <[n_pid u := p']> (<[np := q]> (<[np := zero_page]> (pages t)))).
  { cbn. by rewrite Hpg1. }
  assert (Hp2 : pages t2 !! n_pid u = Some p') by (rewrite Hpg2; apply lookup_insert_eq).
  assert (Hq2 : pages t2 !! np = Some q).
  { rewrite Hpg2, lookup_insert_ne, lookup_insert_eq by lia. done. }
  destruct (Hnodes (pages t2) Hp2 Hq2) as [Hu1 Hu2].
  exists t2. eexists _, _, sent. cbv zeta. fold np. split; [|split; [reflexivity|split; [reflexivity|]]].
  - cbn [PropagateInsert]. rewrite Htl, IsEmpty_cons, Pop_cons, bind_Ret. cbv beta iota.
    rewrite (valid_pid_assert _ _ Hpid0), bind_Ret. cbn [read_key]. rewrite bind_Ret, Hgo.
    rewrite bind_Ret, (GetNode_ok (set_tl t path) _ p Hvu Hp), bind_Ret, Hsp, bind_Ret.
    rewrite bool_decide_false by done. unfold SplitInter. rewrite Hres, bind_Ret. cbv beta iota.
    rewrite Hget1, bind_Ret, Hlev, Hsplit, bind_Ret. cbv beta iota. rewrite bind_Ret. cbv beta iota.
    fold t2. rewrite (GetNode_ok t2 _ p' Hvu Hp2), bind_Ret, Hlev'. done.
  - split; [done|]. split; [done|]. split; [done|]. split; [done|]. split.
    { intros x Hx1 Hx2. rewrite Hpg2. by rewrite !lookup_insert_ne. }
    split; [done|]. split; [done|]. split; [done|]. split; [done|]. split; [done|].
    rewrite entries_middle, entries_cons. cbn [n_con]. rewrite (app_assoc (filter _ _)).
    apply level_insert_entries, filter_cut, sep_insert_sorted; [by eapply inter_node_sorted|done].
Qed.

(** The separators of the level after the split. *)
Lemma level_split_seps (u1 u2 : node Sep) :
  sep_of u1 = sep_of u → lex_lt (n_lo u) (n_lo u2) → Forall (λ m, lex_lt (n_lo u2) (n_lo m)) B →
  sep_of <$> (A ++ u1 :: u2 :: B) = sep_insert (sep_of u2) (sep_of <$> us).
Proof.
  intros H1 Hlo HB2. rewrite Hus. apply split_seps; try done. rewrite <- Hus.
  apply (level_sorted lvl (pages t) us None Hl). by rewrite Hent.
Qed.

(** The sentinel of a split lies between the separators of the two nodes around it. *)
Lemma level_sent_cover sent :
  sent ∈ n_con u → Forall (λ m, lex_lt sent.2 (n_lo m)) B ∧ sep_good C sent.
Proof.
  intros Hin. split.
  - apply Forall_forall. intros m Hm. assert (H := Hl). rewrite Hus in H. apply linked_app in H as [_ [_ H]].
    destruct (linked_elem _ _ _ _ H Hm) as [nx Hmn]. destruct (inter_node_head _ _ _ _ Hmn) as (pm & lm & Em).
    assert (H' := Hs). rewrite level_entries in H'. apply StronglySorted_app_elim in H' as (_ & H' & _).
    apply StronglySorted_app_elim in H' as (_ & _ & H'). apply (H' sent (pm, n_lo m) Hin).
    apply elem_of_entries. exists m. split; [done|]. rewrite Em. by left.
  - destruct level_con as [Hgc _]. rewrite Forall_forall in Hgc. by apply Hgc.
Qed.
End Level.
(** ** All levels *)

Lemma inter_node_frame lvl pg pg' u next :
  pg' !! n_pid u = pg !! n_pid u → inter_node lvl pg u next → inter_node lvl pg' u next.
Proof. intros E (p & fe & Hp & H). exists p, fe. by rewrite E. Qed.

(** The separators of a level are good when its entries and pages are. *)
Lemma level_seps_good lvl pg us :
  linked (inter_node lvl pg) us None → Forall (sep_good C) (entries us) →
  Forall (λ m, valid_pid (n_pid m)) us → Forall (sep_good C) (sep_of <$> us).
Proof.
  intros Hl Hg Hv. apply Forall_fmap, Forall_forall. intros m Hm. rewrite Forall_forall in Hg. rewrite Forall_forall in Hv.
  destruct (level_keys _ _ _ _ m Hl Hm) as (x & Hx & E & _). split; [by apply Hv|].
  cbn. rewrite <- E. by apply Hg.
Qed.

(** The key of a new separator of a level is new. *)
Lemma cover_new (l X Y : list Sep) s k :
  StronglySorted sep_lt l → l = X ++ s :: Y → lex_lt s.2 k → Forall (λ x, lex_lt k x.2) Y → k ∉ l.*2.
Proof.
  intros Hs -> Hlt HY (x & -> & Hx)%list_elem_of_fmap.
  apply StronglySorted_app_elim in Hs as (_ & _ & HX). rewrite Forall_forall in HY.
  apply elem_of_app in Hx as [Hx|[->|Hx]%elem_of_cons].
  - apply (lex_lt_asym _ _ Hlt), (HX x s); [done|by left].
  - by apply lex_lt_irrefl in Hlt.
  - by apply (lex_lt_irrefl x.2), HY.
Qed.

(** What raising a separator through [uppers] achieves. *)
Definition raised (t t' : btree) (lvl : Z) (below : list Sep) (uppers uppers' : list (list (node Sep))) : Prop :=
  uppers_ok (pages t') lvl below uppers' (root_id_ t') ∧
  (∀ x, x ∉ pids_of uppers → x < next_pid tbl t → pages t' !! x = pages t !! x) ∧
  NoDup (pids_of uppers') ∧
  Forall (λ x, x ∈ pids_of uppers ∨ next_pid tbl t ≤ x < next_pid tbl t') (pids_of uppers') ∧
  next_pid tbl t ≤ next_pid tbl t' ≤ next_pid tbl t + Z.of_nat (length uppers) + 1 ∧
  (length uppers' ≤ S (length uppers))%nat ∧ (Forall (Forall fat) uppers → Forall (Forall fat) uppers').

(** At the top: a new root with two entries, which leave most of it free. *)
Lemma raise_root fuel t lvl root e kr :
  root_id_ t = root → valid_pid root → tl t = [] → sep_good C e → good C e.2 → 1 ≤ lvl ≤ 255 →
  0 < next_pid tbl t < BUFFER_POOL_PAGE_NUM →
  ∃ t' p, let np := next_pid tbl t in
    raise fuel t (lvl - 1) root e.2 e.1 kr = Ret t' ∧
    raised t t' lvl (sep_insert e [(root, [])]) [] [[mkNode np [] [(root, []); e]]] ∧
    pages t' = <[np := p]> (<[np := zero_page]> (pages t)) ∧ 7000 ≤ free_bytes p.
Proof.
  intros Hroot Hv Htl He Hge Hlvl Hnp. unfold raise. rewrite Htl. cbn [TlState.IsEmpty length Z.of_nat Z.eqb].
  unfold GetRoot. rewrite Hroot, Z.eqb_refl.
  destruct (ReserveNode_ok t Hnp) as (t1 & Hres & Hpg1 & Hroot1 & Htl1 & Hnext1 & Hget1).
  set (np := next_pid tbl t) in *.
  assert (Hne : e.2 ≠ []) by (by apply (good_nonempty C)).
  destruct (CreateRoot_ok zero_page e.2 root e.1 (to_u8 (lvl - 1 + 1)) np) as (p & Hc & Habs & Ht & Hlev & Hrl & _);
    [destruct e; by apply (sep_good_ok C)|unfold valid_pid, INVALID_PAGE, UINT32_MAX in Hv; lia|done|].
  assert (Hl8 : to_u8 (lvl - 1 + 1) = lvl) by (replace (lvl - 1 + 1) with lvl by lia; apply wrap_small; lia).
  exists (set_root (set_page t1 np p) np), p. split; [|split; [|split]].
  - unfold CreateNewRoot. rewrite Hres, bind_Ret. cbv beta iota. rewrite Hget1, bind_Ret, Hc, bind_Ret.
    cbv zeta. rewrite DB7_ASSERT_true, bind_Ret by (apply Z.eqb_eq; rewrite Hlev; lia). done.
  - unfold raised. cbn [pages set_root set_page root_id_].
    assert (Hni : next_pid tbl (set_root (set_page t1 np p) np) = np + 1) by exact Hnext1.
    rewrite Hni. split_and!; [| | | |lia|cbn; lia|cbn; lia|intros _; repeat constructor].
    + cbn [uppers_ok linked fmap list_fmap concat n_con app]. rewrite sep_insert_after by (by destruct e.2).
      split_and!; [|done|done|done]. exists p, None. cbn [n_pid n_con n_lo head_sep].
      rewrite lookup_insert_eq, Hlev, Hl8. destruct e. by split_and!.
    + intros x _ Hx. rewrite lookup_insert_ne, Hpg1, lookup_insert_ne by lia. done.
    + change (NoDup [np]). apply NoDup_singleton.
    + apply (Forall_singleton _ np). right. lia.
  - cbn [pages set_root set_page]. by rewrite Hpg1.
  - destruct e as [v k]. rewrite (tight_free p _ _ (proj1 Habs) Ht), !entries_cost_cons.
    assert (H1 : entry_cost (root, [] : Key) ≤ 136) by (apply sep_good_cost; by split; [|left]).
    assert (H2 : entry_cost (v, k) ≤ 136) by by apply sep_good_cost.
    change (entries_cost []) with 0. change (fence_cost None) with 0. cbn [length fst snd] in *.
    unfold header_size_, DB7_PAGE_SIZE in *. lia.
Qed.

(** The level of a split, once the levels above have been treated. *)
Lemma raised_level t t2 t' lvl (us : list (node Sep)) uppers uppers' A B (u u1 u2 : node Sep) below :
  us = A ++ u :: B → n_pid u1 = n_pid u → n_pid u2 = next_pid tbl t →
  sep_of u1 = sep_of u → next_pid tbl t2 = next_pid tbl t + 1 →
  (∀ x, x ≠ n_pid u → x ≠ next_pid tbl t → pages t2 !! x = pages t !! x) →
  (∀ pg', (∀ x, x ∈ n_pid <$> us → x ≠ n_pid u → pg' !! x = pages t !! x) →
     linked (inter_node lvl pg') A (Some (sep_of u)) ∧ linked (inter_node lvl pg') B None) →
  inter_node lvl (pages t2) u1 (Some (sep_of u2)) → inter_node lvl (pages t2) u2 (head_sep B None) →
  entries (A ++ u1 :: u2 :: B) = below →
  sep_of <$> (A ++ u1 :: u2 :: B) = sep_insert (sep_of u2) (sep_of <$> us) →
  NoDup (n_pid <$> us) → (∀ x, x ∈ n_pid <$> us → x ∉ pids_of uppers) →
  Forall (λ m, n_pid m < next_pid tbl t) us → Forall (λ x, 0 < x < next_pid tbl t) (pids_of uppers) →
  fat u1 → fat u2 →
  raised t2 t' (lvl + 1) (sep_insert (sep_of u2) (sep_of <$> us)) uppers uppers' →
  raised t t' lvl below (us :: uppers) ((A ++ u1 :: u2 :: B) :: uppers').
Proof.
  intros Hus P1 P2 S1 Hnx Hfr Hlk Hn1 Hn2 Hent Hsep Hnd Hdis Hlt Hrg Hfat1 Hfat2 (R1 & R2 & R3 & R4 & R5 & R6 & R7).
  set (np := next_pid tbl t) in *.
  assert (Hu : n_pid u ∈ n_pid <$> us) by (rewrite Hus, fmap_app; apply elem_of_app; right; by left).
  assert (Hltp : ∀ x, x ∈ n_pid <$> us → x < np).
  { intros x (m & -> & Hm)%list_elem_of_fmap. rewrite Forall_forall in Hlt. by apply Hlt. }
  assert (Hnpr : np ∉ pids_of uppers).
  { intros H. rewrite Forall_forall in Hrg. specialize (Hrg np H). lia. }
  assert (Hsame : ∀ x, x ∈ n_pid <$> us → pages t' !! x = pages t2 !! x).
  { intros x Hx. apply R2; [by apply Hdis|]. specialize (Hltp x Hx). lia. }
  assert (Hnp' : pages t' !! np = pages t2 !! np) by (apply R2; [done|lia]).
  destruct (Hlk (pages t')) as [HA HB].
  { intros x Hx Hxu. rewrite Hsame by done. apply Hfr; [done|]. specialize (Hltp x Hx). lia. }
  assert (Epid : n_pid <$> (A ++ u1 :: u2 :: B) ≡ₚ np :: (n_pid <$> us)).
  { rewrite Hus, <- P2. by apply split_pids. }
  unfold raised. rewrite !pids_of_cons. fold np. split_and!.
  - cbn [uppers_ok]. split; [|split; [done|by rewrite Hsep]]. apply linked_app. cbn [linked head_sep].
    split; [by rewrite S1|]. split; [|split; [|done]].
    + eapply inter_node_frame; [|exact Hn1]. rewrite P1. by apply Hsame.
    + eapply inter_node_frame; [|exact Hn2]. by rewrite P2.
  - intros x Hx Hxl. rewrite not_elem_of_app in Hx. destruct Hx as [Hx1 Hx2].
    rewrite R2 by (done || lia). apply Hfr; [by intros ->|lia].
  - rewrite Forall_forall in R4. apply NoDup_app. split_and!; [|intros x Hx Hx'|done].
    + rewrite Epid. apply NoDup_cons. split; [|done]. intros H. specialize (Hltp np H). lia.
    + rewrite Epid in Hx. destruct (R4 x Hx') as [Hr|Hr]; apply elem_of_cons in Hx as [->|Hx];
        [done|by apply (Hdis x)|lia|specialize (Hltp x Hx); lia].
  - rewrite Forall_forall in R4. apply Forall_forall. intros x Hx. rewrite elem_of_app in Hx |- *. destruct Hx as [Hx|Hx].
    + rewrite Epid in Hx. apply elem_of_cons in Hx as [->|Hx]; [right; lia|by left; left].
    + destruct (R4 x Hx); [by left; right|right; lia].
  - lia.
  - cbn [length]. lia.
  - cbn [length]. lia.
  - intros [HF HF']%Forall_cons. constructor; [|by apply R7]. rewrite Hus in HF. apply Forall_app in HF as [HFA [_ HFB]%Forall_cons].
    apply Forall_app. split; [done|]. by repeat constructor.
Qed.

(** Whether [PropagateInsert] finds the parent it pops full and not the root: its
    second iteration then reads the freed sentinel. *)
Definition parent_full (t : btree) (key : Key) : outcome bool :=
  match tl t with
  | pid :: ((_ :: _) as st) =>
      let t := set_tl t st in
      pid ← GoRightInter (bt_fuel t) t pid key;
      data ← GetNode t pid;
      space ← Inter.HasSpace data key;
      Ret (negb space)
  | _ => Ret false
  end.

(** The nodes of level 1 have room for [n] separators more, of the largest size. *)
Definition level1_room (n : nat) (t : btree) : Prop :=
  map_Forall (λ _ p, GetLevel p = 1 → 138 * Z.of_nat n ≤ free_bytes p) (pages t).

Lemma level1_room_insert n t t' x p :
  pages t' = <[x := p]> (pages t) → (GetLevel p = 1 → 138 * Z.of_nat n ≤ free_bytes p) →
  level1_room n t → level1_room n t'.
Proof. intros E Hp H. unfold level1_room. rewrite E. by apply map_Forall_insert_2. Qed.

Lemma level1_room_le n m t : (m ≤ n)%nat → level1_room n t → level1_room m t.
Proof. intros Hm H x p Hp Hl. specialize (H x p Hp Hl). cbn in *. lia. Qed.

Lemma level1_fits t x p e :
  level1_room 1 t → pages t !! x = Some p → GetLevel p = 1 → sep_good C e → fits e p.
Proof. intros H Hp Hl He. specialize (H x p Hp Hl). pose proof (sep_good_cost e He). unfold fits. cbn in *. lia. Qed.

(** The numbers of nodes of the upper levels after an insertion.  They stay,
    unless a root splits, which is at level 0 or 1. *)
Definition height_step {A} (uppers uppers' : list (list A)) : Prop :=
  length <$> uppers' = length <$> uppers ∨
  (length uppers ≤ 1)%nat ∧ length <$> uppers' = match uppers with [] => [1%nat] | _ => [2%nat; 1%nat] end.

Lemma height_step_length {A} (uppers uppers' : list (list A)) :
  height_step uppers uppers' → (length uppers' = length uppers ∨ length uppers ≤ 1 ∧ length uppers' = S (length uppers))%nat.
Proof.
  intros [E|[H E]]; apply (f_equal length) in E; rewrite !length_fmap in E; [by left|right].
  destruct uppers as [|? [|]]; cbn in *; lia.
Qed.

(** What inserting a separator in level 1 achieves. *)
Definition raised_tree (t t' : btree) (below : list Sep) (uppers uppers' : list (list (node Sep))) : Prop :=
  raised t t' 1 below uppers uppers' ∧
  height_step uppers uppers' ∧
  ∀ n, (n ≤ 50)%nat → level1_room (S n) t → level1_room n t'.

(** The level 1 of a tree with entry [e] to insert. *)
Section Raise.
Context (t : btree) (us : list (node Sep)) (uppers : list (list (node Sep))) (below : list Sep) (s e : Sep).
Context (Hl : linked (inter_node 1 (pages t)) us None) (Hent : entries us = below).
Context (Hup : uppers_ok (pages t) 2 (sep_of <$> us) uppers (root_id_ t)).
Context (Hs : StronglySorted sep_lt below) (Hg : Forall (sep_good C) below) (Hcov : cover below e.2 s).
Context (He : sep_good C e) (Hge : good C e.2) (Hnin : e.2 ∉ below.*2).
Context (pid : Z) (path : list Z) (Htl : tl t = pid :: path) (u0 : node Sep) (Hu0 : u0 ∈ us).
Context (Epid0 : n_pid u0 = pid) (Hlo0 : ¬ lex_lt s.2 (n_lo u0)) (Hpath : on_path uppers (sep_of u0) path).
Context (Hnd : NoDup (pids_of (us :: uppers))) (Hrg : Forall (λ x, 0 < x < next_pid tbl t) (pids_of (us :: uppers))).
Context (Hn0 : 0 < next_pid tbl t) (Hn1 : next_pid tbl t + Z.of_nat (length uppers) + 2 ≤ BUFFER_POOL_PAGE_NUM).
Context (fuel : nat).

(** The node that gets the entry. *)
Local Lemma raise_node : ∃ A u B p, us = A ++ u :: B ∧ s ∈ n_con u ∧ Forall (λ m, lex_lt e.2 (n_lo m)) B ∧
  ¬ lex_lt e.2 s.2 ∧ ¬ lex_lt e.2 (n_lo u0) ∧ StronglySorted sep_lt (sep_of <$> us) ∧ NoDup (n_pid <$> us) ∧
  Forall (λ m, valid_pid (n_pid m)) us ∧ Forall (λ m, n_pid m < next_pid tbl t) us ∧ valid_pid pid ∧
  GoRightInter (bt_fuel (set_tl t path)) (set_tl t path) pid e.2 = Ret (n_pid u) ∧
  pages t !! n_pid u = Some p ∧ GetLevel p = 1 ∧ Inter.HasSpace p e.2 = Ret (bool_decide (fits e p)).
Proof.
  assert (Hsin : s ∈ entries us) by (rewrite Hent; destruct Hcov as (? & ? & -> & _); apply elem_of_app; right; by left).
  apply elem_of_entries in Hsin as (u & Hu & Hsu).
  assert (Hcov' := Hcov). assert (Hs' := Hs). rewrite <- Hent in Hcov', Hs'.
  destruct (cover_up 1 _ us e.2 s u Hl Hs' Hcov' Hu Hsu) as (A & B & Hus & Hlo & HB).
  assert (Hnd' := Hnd). assert (Hrg' := Hrg). rewrite pids_of_cons in Hnd', Hrg'. apply NoDup_app in Hnd' as (Hndu & _ & _).
  apply Forall_app in Hrg' as [Hrgu _]. rewrite Forall_fmap in Hrgu.
  assert (Hse : ¬ lex_lt e.2 s.2) by (by destruct Hcov as (? & ? & _ & ? & _)).
  assert (Hlt : Forall (λ m, n_pid m < next_pid tbl t) us) by (eapply Forall_impl; [exact Hrgu|cbn; lia]).
  assert (Hv : Forall (λ m, valid_pid (n_pid m)) us).
  { eapply Forall_impl; [exact Hrgu|]. cbn. unfold valid_pid, INVALID_PAGE, UINT32_MAX, BUFFER_POOL_PAGE_NUM in *. lia. }
  assert (Hss : StronglySorted sep_lt (sep_of <$> us)) by (eapply level_sorted; [exact Hl|by rewrite Hent]).
  assert (Hle0 : ¬ lex_lt e.2 (n_lo u0)) by (by eapply lex_le_trans).
  destruct (level_go_right 1 (set_tl t path) us u0 u A B e.2 Hl Hss Hndu Hv (good_nonempty C _ Hge) Hu0 Hle0 Hus Hlo HB)
    as [Hv0 Hgo]. rewrite Epid0 in Hv0, Hgo.
  pose proof (level_node 1 t us A B u Hl Hus) as Hun. pose proof Hun as (p & fe & Hp & Hlev & _).
  assert (Hnp : 0 < next_pid tbl t < BUFFER_POOL_PAGE_NUM) by lia.
  exists A, u, B, p. split_and!; try done.
  apply (inter_node_has_space 1 (pages t) u (head_sep B None) p e Hun Hp); try done.
  - by eapply (level_con t us below e A B u).
  - by eapply (level_next_good 1 t us below e A B u).
  - by apply level_fence.
Qed.

(** In a node with room, its pid and room for [n] separators stay. *)
Local Lemma raise_space A u B p :
  us = A ++ u :: B → s ∈ n_con u → Forall (λ m, lex_lt e.2 (n_lo m)) B → ¬ lex_lt e.2 s.2 → NoDup (n_pid <$> us) →
  Forall (λ m, valid_pid (n_pid m)) us → valid_pid pid →
  GoRightInter (bt_fuel (set_tl t path)) (set_tl t path) pid e.2 = Ret (n_pid u) → pages t !! n_pid u = Some p → fits e p →
  ∃ t' us', PropagateInsert tbl (S fuel) t (Alive e.2) e.1 = Ret t' ∧
    raised_tree t t' (sep_insert e below) (us :: uppers) (us' :: uppers).
Proof.
  intros Hus Hsu HB Hse Hndu Hv Hv0 Hgo Hp Hfit. assert (Hnp : 0 < next_pid tbl t < BUFFER_POOL_PAGE_NUM) by lia.
  destruct (level_space 1 t us below s e A B u path fuel Hl Hent Hs Hg He Hge Hnin Hus Hsu Hse HB pid Htl Hv0 Hgo Hv Hndu
              Hnp p Hp Hfit) as (p' & Hpi & Hfree & Hl' & Hent').
  assert (Hup_u : n_pid u ∈ n_pid <$> us) by (rewrite Hus, fmap_app; apply elem_of_app; right; by left).
  exists (set_page (set_tl t path) (n_pid u) p'), (A ++ mkNode (n_pid u) (n_lo u) (sep_insert e (n_con u)) :: B).
  split; [exact Hpi|]. split; [|split; [left; by rewrite Hus, !fmap_cons, !length_app|]].
  2: { intros n _ Hr. eapply level1_room_insert; [reflexivity| |by eapply level1_room_le, Hr; lia].
       intros Hlev'. destruct (linked_elem _ _ _ (mkNode (n_pid u) (n_lo u) (sep_insert e (n_con u))) Hl') as (nx & q & fe & Hq & Hlq & _).
       { apply elem_of_app. right. by left. }
       assert (Hlp : GetLevel p = 1).
       { pose proof (level_node 1 t us A B u Hl Hus) as (q' & fe' & Hq' & Hlq' & _). congruence. }
       specialize (Hr _ p Hp Hlp). cbn in Hr. pose proof (sep_good_cost e He). lia. }
  pose proof Hnd as Hnd'. rewrite pids_of_cons in Hnd'. apply NoDup_app in Hnd' as (_ & Hdis & Hndr).
  unfold raised. rewrite !pids_of_cons.
  assert (Epid : n_pid <$> (A ++ mkNode (n_pid u) (n_lo u) (sep_insert e (n_con u)) :: B) = n_pid <$> us)
    by (by rewrite Hus, !fmap_app).
  rewrite Epid. cbn [set_page set_tl pages root_id_ length].
  assert (En : next_pid tbl (set_page (set_tl t path) (n_pid u) p') = next_pid tbl t) by done.
  rewrite En. split_and!; [| | | |lia|lia|lia|].
  - cbn [uppers_ok]. split; [done|]. split; [done|].
    assert (Esep : sep_of <$> (A ++ mkNode (n_pid u) (n_lo u) (sep_insert e (n_con u)) :: B) = sep_of <$> us)
      by (by rewrite Hus, !fmap_app).
    rewrite Esep. eapply uppers_ok_frame; [|exact Hup]. intros x Hx. rewrite lookup_insert_ne; [done|].
    intros <-. by apply (Hdis (n_pid u)).
  - intros x Hx _. rewrite lookup_insert_ne; [done|]. intros <-. apply Hx, elem_of_app. by left.
  - by rewrite <- pids_of_cons.
  - apply Forall_forall. auto.
  - intros [HF HF']%Forall_cons. constructor; [|done]. rewrite Hus in HF. apply Forall_app in HF as [HFA [Hfu HFB]%Forall_cons].
    apply Forall_app. split; [done|]. constructor; [|done]. unfold fat in *. cbn [n_con].
    rewrite (Permutation_length (sep_insert_perm e (n_con u))). cbn [length]. lia.
Qed.

(** A full root splits below a new one. *)
Local Lemma raise_split A u B p :
  us = A ++ u :: B → s ∈ n_con u → Forall (λ m, lex_lt e.2 (n_lo m)) B → ¬ lex_lt e.2 s.2 → NoDup (n_pid <$> us) →
  Forall (λ m, valid_pid (n_pid m)) us → Forall (λ m, n_pid m < next_pid tbl t) us → valid_pid pid →
  GoRightInter (bt_fuel (set_tl t path)) (set_tl t path) pid e.2 = Ret (n_pid u) →
  pages t !! n_pid u = Some p → GetLevel p = 1 → ¬ fits e p → uppers = [] →
  ∃ t' us' top, PropagateInsert tbl (S fuel) t (Alive e.2) e.1 = Ret t' ∧
    raised_tree t t' (sep_insert e below) (us :: uppers) (us' :: [top]).
Proof.
  intros Hus Hsu HB Hse Hndu Hv Hlt Hv0 Hgo Hp Hlev Hfit Hnil. assert (Hnp : 0 < next_pid tbl t < BUFFER_POOL_PAGE_NUM) by lia.
  destruct (level_split 1 t us below s e A B u path fuel) with (pid0 := pid) (p := p)
      as (t2 & u1 & u2 & sent & Hpi & E1 & E2 & Hfat1 & Hfat2 & Hsin & Hslo & Hfr & Hroot & Htl2 & Hnext & Hn1' & Hn2' & Hent');
      try done.
  cbv zeta in Hpi. set (np := next_pid tbl t) in *.
  destruct (level_sent_cover 1 t us below e A B u Hl Hent Hs Hg Hnin Hus Hnp sent Hsin) as [HsB Hsg].
  assert (Hgs : good C sent.2).
  { destruct Hsg as [_ [E|?]]; [|done]. rewrite E in Hslo. unfold lex_lt in Hslo. by destruct (n_lo u). }
  assert (Hnpv : valid_pid np).
  { unfold valid_pid, INVALID_PAGE, UINT32_MAX, BUFFER_POOL_PAGE_NUM in *. lia. }
  subst uppers. cbn [uppers_ok] in Hup. assert (Hone : us = [u]).
  { assert (Hlen : length us = 1%nat) by (rewrite <- (length_fmap sep_of), Hup; done).
    rewrite Hus in Hlen |- *. rewrite length_app in Hlen. destruct A, B; cbn in Hlen; [done|lia..]. }
  rewrite Hone in Hup. injection Hup as Hrt Hlou. assert (Htl0 : tl t2 = []) by (rewrite Htl2; by destruct path).
  assert (Hvu : valid_pid (n_pid u)) by (rewrite Hone in Hv; by apply Forall_cons in Hv as [? _]).
  cbn [length] in Hn1.
  destruct (raise_root fuel t2 2 (n_pid u) (np, sent.2) Freed) as (t' & q & Hr & HR & _); try done; [by rewrite Hroot|by split; [|right]|lia|].
  change (2 - 1) with 1 in Hr. cbn [fst snd] in Hr. exists t', (A ++ u1 :: u2 :: B), [mkNode (next_pid tbl t2) [] [(n_pid u, []); (np, sent.2)]].
  split; [by rewrite Hpi, Hr|].
  split; [|split; [right; split; [cbn; lia|];
    rewrite Hone in Hus; destruct A as [|? []], B; cbn in Hus; first [discriminate Hus|reflexivity]|]].
  2: { intros n _ Hr1. destruct Hfit. apply (level1_fits t (n_pid u)); [|done..]. by eapply level1_room_le, Hr1; lia. }
  assert (Hnd' := Hnd). assert (Hrg' := Hrg). rewrite pids_of_cons in Hnd', Hrg'. apply NoDup_app in Hnd' as (_ & Hdis & _).
  apply (raised_level t t2 t' 1 us [] [[mkNode (next_pid tbl t2) [] [(n_pid u, []); (np, sent.2)]]] A B u u1 u2 (sep_insert e below));
    try done; [by rewrite E1|by rewrite E2|by rewrite E1| | |].
  - intros pg' Hpg'. by apply (level_frame 1 t us A B u Hl Hus Hndu).
  - apply (level_split_seps 1 t us below A B u Hl Hent Hs Hus); rewrite ?E1, ?E2; done.
  - rewrite E2. unfold sep_of. cbn [n_pid n_lo]. rewrite Hone. cbn [fmap list_fmap]. unfold sep_of.
    rewrite Hlou. exact HR.
Qed.
End Raise.

Lemma raise_ok uppers fuel t below s e :
  uppers_ok (pages t) 1 below uppers (root_id_ t) → StronglySorted sep_lt below →
  Forall (sep_good C) below → cover below e.2 s → sep_good C e → good C e.2 → e.2 ∉ below.*2 →
  on_path uppers s (tl t) → NoDup (pids_of uppers) → Forall (λ x, 0 < x < next_pid tbl t) (pids_of uppers) →
  0 < next_pid tbl t → next_pid tbl t + Z.of_nat (length uppers) + 1 ≤ BUFFER_POOL_PAGE_NUM → (length uppers < fuel)%nat →
  ∃ lost, parent_full t e.2 = Ret lost ∧ (level1_room 1 t ∨ (length uppers ≤ 1)%nat → lost = false) ∧
    if lost then raise fuel t 0 s.1 e.2 e.1 (Alive e.2) = Undefined "the buffer of the sentinel was freed"
    else ∃ t' uppers', raise fuel t 0 s.1 e.2 e.1 (Alive e.2) = Ret t' ∧
      raised_tree t t' (sep_insert e below) uppers uppers'.
Proof.
  intros Hup Hs Hg Hcov He Hge Hnin Hpath Hnd Hrg Hn0 Hn1 Hfuel. unfold parent_full.
  destruct uppers as [|us uppers].
  { cbn [uppers_ok length] in *. subst below. apply Forall_cons in Hg as [[Hv _] _].
    destruct Hcov as ([|? [|]] & Y & E & _); injection E; [|done..]. intros _ <-.
    assert (Htl : tl t = []) by (by destruct (tl t)). rewrite Htl. exists false. split; [done|]. split; [done|].
    destruct (raise_root fuel t 1 (root_id_ t) e (Alive e.2)) as (t' & p & Hr & HR & Hpg & Hf); try done; [lia|].
    exists t', [[mkNode (next_pid tbl t) [] [(root_id_ t, []); e]]]. split; [exact Hr|]. split; [exact HR|].
    split; [by right; split; [cbn; lia|]|]. intros n Hn Hroom. unfold level1_room. rewrite Hpg.
    apply map_Forall_insert_2; [intros _; lia|]. apply map_Forall_insert_2; [done|]. by eapply level1_room_le, Hroom; lia. }
  destruct Hup as (Hl & Hent & Hup). destruct (tl t) as [|pid path] eqn:Htl; [done|].
  destruct Hpath as (u0 & Hu0 & Epid0 & Hlo0 & Hpath). cbn [length] in *.
  destruct fuel as [|fuel]; [lia|].
  destruct (raise_node t us uppers below s e) with (pid := pid) (path := path) (u0 := u0)
    as (A & u & B & p & Hus & Hsu & HB & Hse & _ & _ & Hndu & Hv & Hlt & Hv0 & Hgo & Hp & Hlev & Hsp); try done; [lia|].
  assert (Hvu : valid_pid (n_pid u)).
  { rewrite Forall_forall in Hv. apply Hv. rewrite Hus. apply elem_of_app. right. by left. }
  assert (Hraise : ∀ k, raise (S fuel) t 0 s.1 e.2 e.1 k = PropagateInsert tbl (S fuel) t k e.1).
  { intros k. unfold raise. by rewrite Htl, IsEmpty_cons. }
  assert (Hfull : ∀ x l, path = x :: l → (pid0 ← GoRightInter (bt_fuel (set_tl t path)) (set_tl t path) pid e.2;
    data ← GetNode (set_tl t path) pid0; space ← Inter.HasSpace data e.2; Ret (negb space)) = Ret (negb (bool_decide (fits e p)))).
  { intros x l _. by rewrite Hgo, bind_Ret, (GetNode_ok (set_tl t path) _ p Hvu Hp), bind_Ret, Hsp, bind_Ret. }
  destruct (decide (fits e p)) as [Hfit|Hfit].
  - exists false. split; [|split; [done|]].
    { destruct path as [|x path]; [done|]. cbn [length]. rewrite (Hfull x path eq_refl). by rewrite bool_decide_true. }
    destruct (raise_space t us uppers below s e) with (pid := pid) (path := path) (fuel := fuel) (A := A) (u := u) (B := B) (p := p)
      as (t' & us' & Hr & HR); try done; [lia|]. exists t', (us' :: uppers). by rewrite Hraise.
  - destruct uppers as [|us2 uppers].
    + assert (Htl0 : path = []) by (by destruct path). exists false. rewrite Htl0. split; [done|]. split; [done|].
      rewrite Htl0 in *.
      destruct (raise_split t us [] below s e) with (pid := pid) (path := ([] : list Z)) (u0 := u0) (fuel := fuel) (A := A) (u := u) (B := B) (p := p)
        as (t' & us' & top & Hr & HR); try done; [lia|]. exists t', (us' :: [top]). by rewrite Hraise.
    + destruct path as [|x path]; [done|]. exists true. split; [|split].
      { rewrite (Hfull x path eq_refl). by rewrite bool_decide_false. }
      { intros [Hroom|Hh]; [|cbn in Hh; lia]. destruct Hfit. by apply (level1_fits t (n_pid u)). }
      rewrite Hraise. assert (Hnp : 0 < next_pid tbl t < BUFFER_POOL_PAGE_NUM) by (cbn [length] in *; lia).
      destruct (level_split 1 t us below s e A B u (x :: path) fuel) with (pid0 := pid) (p := p)
        as (t2 & u1 & u2 & sent & Hpi & _ & _ & _ & _ & _ & _ & _ & _ & Htl2 & _); try done.
      cbv zeta in Hpi. rewrite Hpi. unfold raise. rewrite Htl2, IsEmpty_cons.
      cbn [length] in Hfuel. destruct fuel as [|fuel]; [lia|]. cbn [PropagateInsert].
      rewrite Htl2, IsEmpty_cons, Pop_cons, bind_Ret. cbv beta iota.
      destruct Hpath as (v & Hv2 & <- & _). assert (Hvv : valid_pid (n_pid v)).
      { rewrite Forall_forall in Hrg. assert (0 < n_pid v < next_pid tbl t).
        { apply Hrg. rewrite !pids_of_cons, !elem_of_app. right. left. by apply list_elem_of_fmap_2. }
        unfold valid_pid, INVALID_PAGE, UINT32_MAX, BUFFER_POOL_PAGE_NUM in *. lia. }
      by rewrite (valid_pid_assert _ _ Hvv), bind_Ret.
Qed.
End Insert.
