(* ===== verification/BTreeTree.v ===== *)
(** * The B-link tree: insertion of a key, the empty tree

    [insert_in_tree]: [Insert] on a tree from which nothing was deleted adds
    exactly the key, or reads the freed separator, which [separator_lost] tells
    apart; [empty_tree]: the constructor makes the empty tree. *)

From S2P Require Import Prelude Bytes Shared Memory SlottedPage NodeFacts Leaf LeafFacts LeafSplit.
From S2P Require Import Inter InterFacts InterSplit Fsm BTree BTreeInv BTreeDescent BTreeLookup.
From S2P Require Import BTreeUpdate BTreeInsert.
Import BTree.

(** ** Insertion in sorted lists of keys *)

Lemma key_insert_middle k P con Q :
  Forall (λ x, lex_lt x k) P → Forall (λ x, ¬ lex_lt x k) Q →
  key_insert k (P ++ con ++ Q) = P ++ key_insert k con ++ Q.
Proof.
  intros HP HQ. unfold key_insert, key_pos.
  rewrite lower_bound_app_l, lower_bound_app_r.
  2: { eapply Forall_impl; [exact HQ|]. intros x Hx. by apply bool_decide_eq_false. }
  2: { eapply Forall_impl; [exact HP|]. intros x Hx. by apply bool_decide_eq_true. }
  set (n := lower_bound _ con). assert (n ≤ length con)%nat by apply lower_bound_le.
  rewrite take_app_add, drop_app_add, take_app_le, drop_app_le by lia.
  by rewrite <- !app_assoc.
Qed.

Lemma key_cut sent l :
  StronglySorted lex_lt l → filter (λ x, lex_lt x sent) l ++ filter (λ x, ¬ lex_lt x sent) l = l.
Proof.
  induction 1 as [|x l Hs IH HF]; [done|]. destruct (decide (lex_lt x sent)) as [H|H].
  - rewrite filter_cons_True, (filter_cons_False _ x) by (done || tauto). cbn. by f_equal.
  - rewrite filter_cons_False, (filter_cons_True _ x) by done.
    rewrite filter_none; [|eapply Forall_impl; [exact HF|]; intros y Hy Hy'; apply H; by transitivity y].
    rewrite filter_all; [done|]. eapply Forall_impl; [exact HF|]. intros y Hy Hy'. apply H. by transitivity y.
Qed.

(** An element of a sorted list that is not its first is above its lower bounds. *)
Lemma head_le l x y :
  StronglySorted lex_lt l → Forall (λ z, ¬ lex_lt z y) l → x ∈ l → head l ≠ Some x → lex_lt y x.
Proof.
  destruct l as [|a l]; [by intros _ _ ?%not_elem_of_nil|].
  intros [_ HF]%StronglySorted_inv [Ha _]%Forall_cons [->|Hx]%elem_of_cons Hne; [done|].
  rewrite Forall_forall in HF. apply (lex_le_lt _ a); [done|by apply HF].
Qed.

(** A key below the fence of a node is below all the separators right of it. *)
Lemma fence_all {A} (B : list (node A)) x :
  below_fence x (snd <$> head_sep B None) → StronglySorted sep_lt (sep_of <$> B) →
  Forall (λ m, lex_lt x (n_lo m)) B.
Proof.
  destruct B as [|m B]; [constructor|]. cbn [head_sep fmap option_fmap option_map below_fence sep_of snd].
  intros Hx [_ HF]%StronglySorted_inv. constructor; [done|]. change (Forall (sep_lt (sep_of m)) (sep_of <$> B)) in HF. rewrite Forall_fmap in HF.
  eapply Forall_impl; [exact HF|]. intros y Hy. transitivity (n_lo m); [done|exact Hy].
Qed.

(** The level of the root. *)
Definition root_level (t : btree) : Z := from_option GetLevel 0 (pages t !! root_id_ t).

(** Whether the insertion of [key] in the leaf [pid] splits the leaf and then
    finds the parent full and not the root: the parent splits, and the separator of its
    halves, due in the level above, is in a buffer that is freed by then. *)
Definition leaf_separator_lost (tbl : Z) (t : btree) (pid : Z) (key : Key) : outcome bool :=
  data ← GetNode t pid;
  space ← Leaf.HasSpace data key;
  if space : bool then Ret false
  else
    '(t, _, sentinel) ← SplitLeaf tbl t pid data key;
    parent_full t sentinel.

(** The leaf is the one of [key'], at or right of the one of [key]. *)
Definition separator_lost (tbl : Z) (t : btree) (key key' : Key) : outcome bool :=
  '(t, pid) ← DropToLevel (set_tl t TlState.Clear) key;
  pid ← GoRightLeaf (bt_fuel t) t pid key';
  leaf_separator_lost tbl t pid key'.

(** What an insertion that loses the separator comes to. *)
Definition separator_freed {A} : outcome A := Undefined "the buffer of the sentinel was freed".

Section Tree.
Context (C : list Z → Prop) `{!PrefixFree C} (tbl : Z).

Lemma uppers_root_level pg lvl below uppers root :
  uppers_ok pg lvl below uppers root → uppers ≠ [] →
  from_option GetLevel 0 (pg !! root) = lvl + Z.of_nat (length uppers) - 1.
Proof.
  revert lvl below; induction uppers as [|us uppers IH]; intros lvl below; [done|].
  intros (Hl & _ & Hup) _. destruct uppers as [|us' uppers].
  - cbn in Hup. destruct us as [|u [|]]; [done| |done]. cbn in Hup. injection Hup as Hp _.
    destruct Hl as [(p & fe & E & Hlev & _) _]. rewrite <- Hp, E. cbn. lia.
  - rewrite (IH (lvl + 1) (sep_of <$> us)) by done. cbn [length]. lia.
Qed.

Lemma inv_root_level T t leaves uppers :
  btree_inv C tbl T t leaves uppers → root_level t = Z.of_nat (length uppers).
Proof.
  intros Hi. pose proof (bi_uppers _ _ _ _ _ _ Hi) as Hup. unfold root_level.
  destruct uppers as [|us uppers]; [|rewrite (uppers_root_level _ _ _ _ _ Hup) by done; lia].
  cbn in Hup. pose proof (bi_leaves _ _ _ _ _ _ Hi) as Hl.
  destruct leaves as [|n [|]]; [done| |done]. cbn in Hup. injection Hup as Hp _.
  destruct Hl as [(p & E & Hlev & _) _]. rewrite <- Hp, E. cbn. lia.
Qed.

(** ** One leaf *)
Section Leaf.
Context (pg : gmap Z page) (n : node Key) (next : option Sep) (p : page) (k : Key).
Context (Hn : leaf_node True pg n next) (Hp : pg !! n_pid n = Some p).
Context (Hgood : Forall (good C) (n_con n)) (Hnext : Forall (λ s, good C s.2) (option_list next)).
Context (Hk : good C k) (Hnin : k ∉ n_con n) (Hlo : ¬ lex_lt k (n_lo n)) (Hbelow : below_fence k (snd <$> next)).

Lemma good_cost x : good C x → entry_cost x ≤ 136.
Proof. intros Hx. apply key_cost_short; [by apply (good_ok C)|apply Hx]. Qed.

Lemma leaf_has_space :
  Leaf.HasSpace p k = Ret (bool_decide (fits k p)) ∧ (fits k p ∨ (2 ≤ length (n_con n))%nat).
Proof.
  destruct Hn as (q & Hq & _ & _ & Habs & _ & Ht). rewrite Hp in Hq. injection Hq as <-.
  destruct (tight_ready 136 p (n_con n) (snd <$> next) (proj1 Habs) (Ht I)) as [H1 H2]; [|lia|].
  { apply Forall_app. split; [|eapply Forall_impl; [exact Hgood|apply good_cost]].
    destruct next as [s|]; cbn; constructor; [|constructor]. apply Forall_cons in Hnext as [Hs _].
    by apply good_cost. }
  destruct (key_cost_short k (good_ok C k Hk)) as [H3 H4]; [apply Hk|].
  split; [|unfold fits; destruct H2; [left|right]; lia].
  apply (HasSpace_ok p (n_con n) (snd <$> next) k (proj1 Habs)); [by apply (good_ok C)|lia].
Qed.

Lemma insert_lo : Forall (λ x, ¬ lex_lt x (n_lo n)) (key_insert k (n_con n)).
Proof.
  rewrite key_insert_perm. constructor; [done|]. by destruct Hn as (q & _ & _ & _ & _ & Hf & _).
Qed.

Lemma leaf_node_space :
  fits k p →
  ∃ p', Leaf.Insert p k = Ret p' ∧
    leaf_node True (<[n_pid n := p']> pg) (mkNode (n_pid n) (n_lo n) (key_insert k (n_con n))) next.
Proof.
  intros Hfit. pose proof insert_lo as Hil. destruct Hn as (q & Hq & Hlev & Hrl & Habs & Hlos & Ht).
  rewrite Hp in Hq. injection Hq as <-. pose proof (good_ok C k Hk) as Hok.
  destruct (Insert_ok p _ _ k Habs Hok (proj1 (proj1 Hk)) Hnin Hbelow Hfit) as (p' & Hi & Habs' & (I1 & I2 & I3 & I4) & Hh).
  exists p'. split; [done|]. exists p'. unfold GetLevel, GetRLink in *. cbn [n_pid n_con n_lo].
  split_and!; [by rewrite lookup_insert_eq|congruence|congruence|done|done|].
  intros _. exact (tight_insert p p' (n_con n) (snd <$> next) k (key_pos k (n_con n)) Hh (Ht I)).
Qed.

Lemma leaf_node_split right np :
  (2 ≤ length (n_con n))%nat → vh_heap_offset (hdr right) = DB7_PAGE_SIZE → GetLevel right = 0 →
  ∃ p' q sent, Leaf.Split p right np k = Ret (p', q, sent) ∧ sent ∈ n_con n ∧ lex_lt (n_lo n) sent ∧ good C sent ∧
    GetLevel p' = 0 ∧
    ∀ pg', pg' !! n_pid n = Some p' → pg' !! np = Some q →
      leaf_node True pg' (mkNode (n_pid n) (n_lo n) (filter (λ x, lex_lt x sent) (key_insert k (n_con n))))
        (Some (np, sent)) ∧
      leaf_node True pg' (mkNode np sent (filter (λ x, ¬ lex_lt x sent) (key_insert k (n_con n)))) next.
Proof.
  intros Hlen Hright Hlr. pose proof insert_lo as Hil.
  destruct Hn as (p0 & Hq & Hlev & Hrl & Habs & Hlos & Ht). rewrite Hp in Hq. injection Hq as <-.
  destruct (Split_ok p right _ _ np k Habs Hlen Hright (good_ok C k Hk) (proj1 (proj1 Hk)) Hnin Hbelow)
    as (p' & q & sent & Hsp & Hin & Hhd & Hl & Hr & Htl & Htr & R1 & R2 & _ & _ & L1 & L2).
  exists p', q, sent. split; [done|]. split; [done|].
  assert (Hlos' : Forall (λ x, ¬ lex_lt x (n_lo n)) (n_con n)) by done.
  split; [by apply (head_le (n_con n)); [apply Habs|..]|]. split; [rewrite Forall_forall in Hgood; by apply Hgood|].
  split; [congruence|]. intros pg' Hp' Hq'. split.
  - exists p'. cbn [n_pid n_con n_lo]. split_and!; try done; [congruence|by apply Forall_filter].
  - exists q. cbn [n_pid n_con n_lo]. split_and!; try done; [congruence|congruence|].
    apply Forall_forall. by intros x [Hx _]%list_elem_of_filter.
Qed.
End Leaf.

(** ** Insertion into the leaf the descent found *)
Section InsertLeaf.
Context (t : btree) (A : list (node Key)) (n : node Key) (B : list (node Key)).
Context (uppers : list (list (node Sep))) (k : Key).
Context (Hi : btree_inv C tbl True t (A ++ n :: B) uppers).
Context (Hk : good C k) (Hnin : k ∉ entries (A ++ n :: B)).
Context (Hlo : ¬ lex_lt k (n_lo n)) (HB : Forall (λ m, lex_lt k (n_lo m)) B).
Context (Hpath : on_path uppers (sep_of n) (tl t)).

Local Lemma here_node : leaf_node True (pages t) n (head_sep B None).
Proof. pose proof (bi_leaves _ _ _ _ _ _ Hi) as Hl. by apply linked_app in Hl as [_ [H _]]. Qed.

Local Lemma here_good : Forall (good C) (n_con n) ∧ k ∉ n_con n.
Proof.
  pose proof (bi_keys _ _ _ _ _ _ Hi) as Hg. assert (H := Hnin).
  rewrite entries_middle, !Forall_app in Hg. rewrite entries_middle, !elem_of_app in H. tauto.
Qed.

Local Lemma here_next : Forall (λ s, good C s.2) (option_list (head_sep B None)).
Proof.
  pose proof (inv_lo_good _ _ _ _ _ _ _ _ _ Hi eq_refl) as H. destruct B as [|m B']; cbn; constructor; [|done].
  by apply Forall_cons in H as [H _].
Qed.

Local Lemma here_fence : below_fence k (snd <$> head_sep B None).
Proof. revert HB. generalize B. clear. intros [|m B'] HB; cbn; [done|]. by apply Forall_cons in HB as [? _]. Qed.

Local Lemma here_entries con :
  con = key_insert k (n_con n) → entries A ++ con ++ entries B = key_insert k (entries (A ++ n :: B)).
Proof.
  intros ->. rewrite entries_middle. symmetry. pose proof (bi_leaves _ _ _ _ _ _ Hi) as Hl.
  apply key_insert_middle; apply Forall_forall; intros x Hx.
  - apply (lex_lt_le _ (n_lo n)); [|done]. by apply (chain_below True _ A n B None x Hl (bi_sorted _ _ _ _ _ _ Hi)).
  - apply linked_app in Hl as [_ [_ Hl]]. apply lex_lt_asym. by eapply chain_above.
Qed.

Local Lemma InsertLeaf_space p :
  pages t !! n_pid n = Some p → fits k p →
  ∃ t' leaves', leaf_separator_lost tbl t (n_pid n) k = Ret false ∧ InsertLeaf tbl t (n_pid n) k = Ret t' ∧
    btree_inv C tbl True t' leaves' uppers ∧ entries leaves' = key_insert k (entries (A ++ n :: B)) ∧
    next_pid tbl t' = next_pid tbl t ∧ ∀ m, level1_room m t → level1_room m t'.
Proof.
  intros Hp Hfit. destruct here_good as [Hg Hn]. pose proof here_node as Hnode. pose proof here_fence as Hbf.
  assert (Hv : valid_pid (n_pid n)).
  { apply (inv_leaf_valid _ _ _ _ _ _ Hi). apply elem_of_app. right. by left. }
  destruct (leaf_node_space (pages t) n _ p k Hnode Hp Hk Hn Hlo Hbf Hfit) as (p' & Hins & Hn').
  destruct (leaf_has_space (pages t) n _ p k Hnode Hp Hg here_next Hk Hbf) as [Hsp _].
  exists (set_page t (n_pid n) p'). eexists. split; [|split; [|split; [|split; [|split; [done|]]]]].
  - unfold leaf_separator_lost. by rewrite (GetNode_ok t _ p Hv Hp), bind_Ret, Hsp, bind_Ret, bool_decide_true.
  - unfold InsertLeaf. by rewrite (GetNode_ok t _ p Hv Hp), bind_Ret, Hsp, bind_Ret, bool_decide_true, Hins, bind_Ret by done.
  - replace (set_page t (n_pid n) p') with (set_tl (set_page t (n_pid n) p') (tl t)) by done.
    apply (inv_replace_leaf C tbl True True t A n B uppers p' _ (tl t) Hi (λ H, H) Hn').
    rewrite key_insert_perm. by constructor.
  - rewrite entries_middle. by apply here_entries.
  - intros m Hm. eapply level1_room_insert; [reflexivity| |exact Hm]. intros Hl1.
    destruct Hn' as (q & Hq & Hl0 & _). cbn [n_pid] in Hq. rewrite lookup_insert_eq in Hq. injection Hq as <-. congruence.
Qed.

(** The state after the leaf was split, before the sentinel is raised. *)
Local Lemma InsertLeaf_split p :
  pages t !! n_pid n = Some p → ¬ fits k p → next_pid tbl t < BUFFER_POOL_PAGE_NUM →
  ∃ t2 sent, let np := next_pid tbl t in
    let n1 := mkNode (n_pid n) (n_lo n) (filter (λ x, lex_lt x sent) (key_insert k (n_con n))) in
    let n2 := mkNode np sent (filter (λ x, ¬ lex_lt x sent) (key_insert k (n_con n))) in
    InsertLeaf tbl t (n_pid n) k = raise tbl (bt_fuel t2) t2 0 (n_pid n) sent np (Alive sent) ∧
    leaf_separator_lost tbl t (n_pid n) k = parent_full t2 sent ∧
    lex_lt (n_lo n) sent ∧ good C sent ∧ Forall (λ m, lex_lt sent (n_lo m)) B ∧
    (∀ x, x ≠ n_pid n → x ≠ np → pages t2 !! x = pages t !! x) ∧
    root_id_ t2 = root_id_ t ∧ tl t2 = tl t ∧ next_pid tbl t2 = np + 1 ∧
    leaf_node True (pages t2) n1 (Some (sep_of n2)) ∧ leaf_node True (pages t2) n2 (head_sep B None) ∧
    entries (A ++ n1 :: n2 :: B) = key_insert k (entries (A ++ n :: B)).
Proof.
  intros Hp Hfit Hnp. destruct here_good as [Hg Hn]. pose proof here_node as Hnode.
  pose proof here_fence as Hbf. pose proof here_next as Hnx.
  assert (Hin : n ∈ A ++ n :: B) by (apply elem_of_app; right; by left).
  pose proof (inv_leaf_valid _ _ _ _ _ _ Hi n Hin) as Hv.
  pose proof (bi_range _ _ _ _ _ _ Hi) as Hrg. rewrite Forall_forall in Hrg.
  assert (Hr : 0 < n_pid n < next_pid tbl t).
  { apply Hrg, elem_of_app. left. by apply list_elem_of_fmap_2. }
  destruct (leaf_has_space (pages t) n _ p k Hnode Hp Hg Hnx Hk Hbf) as [Hsp [Hf|Hlen]]; [done|].
  destruct (ReserveNode_ok tbl t) as (t1 & Hres & Hpg1 & Hroot1 & Htl1 & Hnext1 & Hget1); [lia|].
  set (np := next_pid tbl t) in *.
  destruct (leaf_node_split (pages t) n _ p k Hnode Hp Hg Hk Hn Hlo Hbf (InitHeader zero_page 0 0 np) np
              Hlen eq_refl eq_refl) as (p' & q & sent & Hsplit & Hsin & Hslo & Hsg & Hlev & Hnodes).
  set (t2 := set_page (set_page t1 np q) (n_pid n) p').
  assert (Hpg2 : pages t2 = <[n_pid n := p']> (<[np := q]> (<[np := zero_page]> (pages t)))).
  { cbn. by rewrite Hpg1. }
  assert (Hp2 : pages t2 !! n_pid n = Some p') by (rewrite Hpg2; apply lookup_insert_eq).
  assert (Hq2 : pages t2 !! np = Some q).
  { rewrite Hpg2, lookup_insert_ne, lookup_insert_eq by lia. done. }
  destruct (Hnodes (pages t2) Hp2 Hq2) as [Hn1 Hn2].
  assert (Hsl : SplitLeaf tbl t (n_pid n) p k = Ret (t2, np, sent)).
  { unfold SplitLeaf. rewrite Hres, bind_Ret. cbv beta iota. by rewrite Hget1, bind_Ret, Hsplit, bind_Ret. }
  exists t2, sent. cbv zeta. fold np. split; [|split].
  - unfold InsertLeaf. rewrite (GetNode_ok t _ p Hv Hp), bind_Ret, Hsp, bind_Ret.
    rewrite bool_decide_false by done. rewrite Hsl, bind_Ret. cbv beta iota.
    rewrite (GetNode_ok t2 _ p' Hv Hp2), bind_Ret, Hlev. done.
  - unfold leaf_separator_lost. rewrite (GetNode_ok t _ p Hv Hp), bind_Ret, Hsp, bind_Ret.
    rewrite bool_decide_false by done. by rewrite Hsl.
  - split; [done|]. split; [done|]. split.
    { apply fence_all; [exact (leaf_fence True (pages t) n _ sent Hnode Hsin)|]. pose proof (bi_sorted _ _ _ _ _ _ Hi) as Hs.
      rewrite fmap_app in Hs. apply StronglySorted_app_elim in Hs as (_ & Hs & _).
      by apply StronglySorted_inv in Hs as [Hs _]. }
    split. { intros x Hx1 Hx2. rewrite Hpg2. by rewrite !lookup_insert_ne. }
    do 5 (split; [done|]).
    rewrite entries_middle, entries_cons. cbn [n_con]. rewrite (app_assoc (filter _ _)).
    apply here_entries, key_cut, key_insert_sorted; [|done].
    by destruct Hnode as (? & _ & _ & _ & [_ [? _ _]] & _).
Qed.

(** The tree after the sentinel was raised. *)
Local Lemma inv_raised t2 t' n1 n2 uppers' :
  let np := next_pid tbl t in
  sep_of n1 = sep_of n → n_pid n2 = np → lex_lt (n_lo n) (n_lo n2) → good C (n_lo n2) →
  Forall (λ m, lex_lt (n_lo n2) (n_lo m)) B →
  (∀ x, x ≠ n_pid n → x ≠ np → pages t2 !! x = pages t !! x) → next_pid tbl t2 = np + 1 →
  leaf_node True (pages t2) n1 (Some (sep_of n2)) → leaf_node True (pages t2) n2 (head_sep B None) →
  entries (A ++ n1 :: n2 :: B) = key_insert k (entries (A ++ n :: B)) →
  next_pid tbl t' ≤ BUFFER_POOL_PAGE_NUM →
  raised tbl t2 t' 1 (sep_insert (sep_of n2) (sep_of <$> (A ++ n :: B))) uppers uppers' →
  btree_inv C tbl True t' (A ++ n1 :: n2 :: B) uppers'.
Proof.
  intros np S1 P2 Hlt Hg2 HB2 Hfr Hnx Hl1 Hl2 Hent Hmax (R1 & R2 & R3 & R4 & R5 & R6 & R7).
  destruct Hi as [H1 H2 H3 H4 H5 H6 H7 H8 H9].
  assert (P1 : n_pid n1 = n_pid n) by (by injection S1).
  assert (Hsep : sep_of <$> (A ++ n1 :: n2 :: B) = sep_insert (sep_of n2) (sep_of <$> (A ++ n :: B))).
  { by apply split_seps. }
  assert (Epid : n_pid <$> (A ++ n1 :: n2 :: B) ≡ₚ np :: (n_pid <$> (A ++ n :: B))) by (rewrite <- P2; by apply split_pids).
  assert (Hnd := H7). rewrite Forall_forall in H8. apply NoDup_app in Hnd as (Hndl & Hdis & Hndr).
  assert (Hin : n_pid n ∈ n_pid <$> (A ++ n :: B)) by (rewrite fmap_app; apply elem_of_app; right; by left).
  assert (Hltp : ∀ x, x ∈ n_pid <$> (A ++ n :: B) → 0 < x < np).
  { intros x Hx. apply H8, elem_of_app. by left. }
  assert (Hrp : ∀ x, x ∈ pids_of uppers → 0 < x < np).
  { intros x Hx. apply H8, elem_of_app. by right. }
  assert (Hnpr : np ∉ pids_of uppers) by (intros H; specialize (Hrp np H); lia).
  assert (Hsame : ∀ x, x ∈ n_pid <$> (A ++ n :: B) → pages t' !! x = pages t2 !! x).
  { intros x Hx. apply R2; [by apply Hdis|]. specialize (Hltp x Hx). lia. }
  assert (Hold : ∀ m, m ∈ A ++ n :: B → n_pid m ≠ n_pid n → pages t' !! n_pid m = pages t !! n_pid m).
  { intros m Hm Hne. assert (Hx : n_pid m ∈ n_pid <$> (A ++ n :: B)) by (by apply list_elem_of_fmap_2).
    rewrite Hsame by done. apply Hfr; [done|]. specialize (Hltp _ Hx). lia. }
  rewrite fmap_app in Hndl. cbn [fmap list_fmap] in Hndl. apply NoDup_middle in Hndl as [HnA HnB].
  apply linked_app in H1 as [HlA [_ HlB]].
  split.
  - apply linked_app. cbn [linked head_sep]. rewrite S1. split_and!.
    + eapply linked_leaf_frame; [done| |exact HlA]. intros m Hm. apply Hold; [apply elem_of_app; by left|].
      intros E. apply HnA. rewrite <- E. by apply list_elem_of_fmap_2.
    + destruct Hl1 as (q & Hq & Hr). exists q. by rewrite P1, Hsame, <- P1.
    + destruct Hl2 as (q & Hq & Hr). exists q. rewrite P2, R2, <- P2 by (done || lia). done.
    + eapply linked_leaf_frame; [done| |exact HlB]. intros m Hm. apply Hold; [apply elem_of_app; right; by right|].
      intros E. apply HnB. rewrite <- E. by apply list_elem_of_fmap_2.
  - rewrite Hsep. apply sep_insert_sorted; [done|].
    apply (cover_new _ (sep_of <$> A) (sep_of <$> B) (sep_of n)); [done|by rewrite fmap_app|done|by apply Forall_fmap].
  - assert (L1 : n_lo n1 = n_lo n) by (by injection S1). destruct A; cbn in *; [by rewrite L1|done].
  - by rewrite Hsep.
  - rewrite Hent, key_insert_perm. by constructor.
  - rewrite Hsep. unfold sep_insert. rewrite insert_middle_perm. constructor; [|done].
    split; [|by right]. unfold sep_of. cbn [fst snd]. rewrite P2. unfold np. specialize (Hltp _ Hin).
    unfold valid_pid, INVALID_PAGE, UINT32_MAX, BUFFER_POOL_PAGE_NUM in *. lia.
  - rewrite Forall_forall in R4. apply NoDup_app. split_and!; [|intros x Hx Hx'|done].
    + rewrite Epid. apply NoDup_cons. apply NoDup_app in H7 as (H7 & _ & _). split; [|done].
      intros H. specialize (Hltp np H). lia.
    + rewrite Epid in Hx. destruct (R4 x Hx') as [Hr|Hr]; apply elem_of_cons in Hx as [->|Hx];
        [done|by apply (Hdis x)|lia|specialize (Hltp x Hx); lia].
  - rewrite Forall_forall in R4. apply Forall_forall. intros x Hx. specialize (Hltp _ Hin).
    apply elem_of_app in Hx as [Hx|Hx].
    + rewrite Epid in Hx. apply elem_of_cons in Hx as [->|Hx]; [lia|]. assert (0 < x < np) by (apply H8, elem_of_app; by left). lia.
    + destruct (R4 x Hx) as [Hr|Hr]; [specialize (Hrp x Hr); lia|lia].
  - done.
Qed.

(** The pages of the halves are leaves. *)
Local Lemma split_level1_room t2 n1 n2 next1 next2 m :
  (∀ x, x ≠ n_pid n1 → x ≠ n_pid n2 → pages t2 !! x = pages t !! x) →
  leaf_node True (pages t2) n1 next1 → leaf_node True (pages t2) n2 next2 → level1_room m t → level1_room m t2.
Proof.
  intros Hfr (p1 & E1 & L1 & _) (p2 & E2 & L2 & _) Hm x p Hp Hl.
  destruct (decide (x = n_pid n1)) as [->|H1]; [congruence|]. destruct (decide (x = n_pid n2)) as [->|H2]; [congruence|].
  rewrite Hfr in Hp by done. by apply (Hm x p Hp).
Qed.

Lemma InsertLeaf_ok :
  next_pid tbl t + Z.of_nat (length uppers) + 2 ≤ BUFFER_POOL_PAGE_NUM →
  ∃ lost, leaf_separator_lost tbl t (n_pid n) k = Ret lost ∧ (level1_room 1 t ∨ (length uppers ≤ 1)%nat → lost = false) ∧
    if lost then InsertLeaf tbl t (n_pid n) k = separator_freed
    else ∃ t' leaves' uppers', InsertLeaf tbl t (n_pid n) k = Ret t' ∧ btree_inv C tbl True t' leaves' uppers' ∧
      entries leaves' = key_insert k (entries (A ++ n :: B)) ∧ (Forall (Forall fat) uppers → Forall (Forall fat) uppers') ∧
      next_pid tbl t ≤ next_pid tbl t' ≤ next_pid tbl t + Z.of_nat (length uppers) + 2 ∧
      height_step uppers uppers' ∧ ∀ m, (m ≤ 50)%nat → level1_room (S m) t → level1_room m t'.
Proof.
  intros Hmax. pose proof here_node as (p & Hp & _). destruct (decide (fits k p)) as [Hfit|Hfit].
  { destruct (InsertLeaf_space p Hp Hfit) as (t' & leaves' & El & ? & ? & ? & En & Hroom). exists false. split; [done|].
    split; [done|]. exists t', leaves', uppers. rewrite En. split_and!; [done..|lia|lia|by left|].
    intros m _ Hm. by eapply Hroom, level1_room_le, Hm; lia. }
  destruct (InsertLeaf_split p Hp Hfit) as (t2 & sent & Hins & Hlost & Hslo & Hsg & HsB & Hfr & Hroot & Htl2 & Hnx & Hn1 & Hn2 & Hent);
    [lia|]. cbv zeta in *. set (np := next_pid tbl t) in *.
  set (n1 := mkNode (n_pid n) (n_lo n) _) in *. set (n2 := mkNode np sent _) in *.
  pose proof Hi as [H1 H2 H3 H4 H5 H6 H7 H8 H9]. apply NoDup_app in H7 as (_ & Hdis & Hndr).
  rewrite Forall_app in H8. destruct H8 as [H8 H8']. rewrite Forall_forall in H8.
  assert (Hin : n_pid n ∈ n_pid <$> (A ++ n :: B)) by (rewrite fmap_app; apply elem_of_app; right; by left).
  assert (Hnp : 0 < np) by (specialize (H8 _ Hin); lia).
  assert (Hup2 : uppers_ok (pages t2) 1 (sep_of <$> (A ++ n :: B)) uppers (root_id_ t2)).
  { rewrite Hroot. eapply uppers_ok_frame; [|exact H4]. rewrite Forall_forall in H8'. intros x Hx.
    apply Hfr; [intros ->; by apply (Hdis (n_pid n))|]. specialize (H8' x Hx). fold np in H8'. lia. }
  assert (Hsep : sep_of <$> (A ++ n :: B) = (sep_of <$> A) ++ sep_of n :: (sep_of <$> B)) by (by rewrite fmap_app).
  assert (Hroom2 : ∀ m, level1_room m t → level1_room m t2) by (intros m; by apply (split_level1_room t2 n1 n2 (Some (sep_of n2)) (head_sep B None) m)).
  destruct (raise_ok C tbl uppers (bt_fuel t2) t2 (sep_of <$> (A ++ n :: B)) (sep_of n) (np, sent))
    as (lost & Hl & Hnl & Hr); try done; try lia.
  { exists (sep_of <$> A), (sep_of <$> B). split_and!; [done|by apply lex_lt_asym|by apply Forall_fmap]. }
  { split; [|by right]. unfold valid_pid, INVALID_PAGE, UINT32_MAX, BUFFER_POOL_PAGE_NUM in *. cbn. lia. }
  { apply (cover_new _ (sep_of <$> A) (sep_of <$> B) (sep_of n)); [done..|by apply Forall_fmap]. }
  { by rewrite Htl2. }
  { rewrite Hnx. eapply Forall_impl; [exact H8'|]. cbn. fold np. lia. }
  { unfold bt_fuel. assert (Hne : sep_of <$> (A ++ n :: B) ≠ []) by (rewrite Hsep; by destruct (sep_of <$> A)).
    pose proof (pids_of_length uppers (uppers_nonempty _ _ _ _ _ Hup2 Hne)) as Hlen.
    pose proof (pids_size (pages t2) _ Hndr (λ x, uppers_pages _ _ _ _ _ x Hup2)). lia. }
  cbn [fst snd sep_of] in *. exists lost. rewrite Hins, Hlost. split; [done|]. split; [intros [Hm|Hm]; apply Hnl; auto|].
  destruct lost; [exact Hr|]. destruct Hr as (t' & uppers' & Hr & HR & Hh & Hroom). pose proof HR as (_ & _ & _ & _ & Hb & _ & Hfat).
  exists t', (A ++ n1 :: n2 :: B), uppers'. split_and!; [exact Hr| |done|done|lia|lia|exact Hh|auto].
  apply (inv_raised t2 t' n1 n2 uppers'); try done. lia.
Qed.
End InsertLeaf.

Lemma tree_height T t ks : btree_keys C tbl T t ks → 0 ≤ root_level t ≤ 16.
Proof.
  intros (leaves & uppers & Hi & _ & HF). rewrite (inv_root_level _ _ _ _ Hi). pose proof (inv_height C tbl _ _ _ _ Hi HF). lia.
Qed.

(** Room for one more key, whatever it splits: a page per level and a new
    root. *)
Definition has_room (t : btree) : Prop := next_pid tbl t + root_level t + 2 ≤ BUFFER_POOL_PAGE_NUM.

(** What an insertion that returns does to the size of the tree: the pages it
    takes, the height, the room in level 1. *)
Record grown (t t' : btree) : Prop := {
  gr_pages : next_pid tbl t ≤ next_pid tbl t' ≤ next_pid tbl t + root_level t + 2;
  gr_level : root_level t' = root_level t ∨ root_level t ≤ 1 ∧ root_level t' = root_level t + 1;
  gr_room n : (n ≤ 50)%nat → level1_room (S n) t → level1_room n t'
}.

(** When the separator is not lost for sure. *)
Definition separator_safe (t : btree) : Prop := level1_room 1 t ∨ root_level t ≤ 1.

Lemma insert_in_levels t leaves uppers k :
  btree_inv C tbl True t leaves uppers → Forall (Forall fat) uppers → good C k → k ∉ entries leaves →
  next_pid tbl t + Z.of_nat (length uppers) + 2 ≤ BUFFER_POOL_PAGE_NUM →
  ∃ lost, separator_lost tbl t k k = Ret lost ∧ (level1_room 1 t ∨ (length uppers ≤ 1)%nat → lost = false) ∧
    if lost then BTree.Insert tbl t k = separator_freed
    else ∃ t' leaves' uppers', BTree.Insert tbl t k = Ret t' ∧ btree_inv C tbl True t' leaves' uppers' ∧
      entries leaves' = key_insert k (entries leaves) ∧ (Forall (Forall fat) uppers → Forall (Forall fat) uppers') ∧
      next_pid tbl t ≤ next_pid tbl t' ≤ next_pid tbl t + Z.of_nat (length uppers) + 2 ∧
      height_step uppers uppers' ∧ ∀ m, (m ≤ 50)%nat → level1_room (S m) t → level1_room m t'.
Proof.
  intros Hi HF Hk Hnin Hmax. pose proof (inv_height C tbl _ _ _ _ Hi HF) as Hh.
  assert (Hi' : btree_inv C tbl True (set_tl t TlState.Clear) leaves uppers) by (destruct Hi; by split).
  destruct (DropToLevel_ok C tbl True _ _ _ Hi' k Hh (good_nonempty C k Hk) eq_refl)
    as (A & n & B & path & -> & Hlo & HB & Hpath & Hd).
  destruct (GoRightLeaf_here C tbl True _ A n B uppers path k Hi' (good_ok C k Hk) HB) as (p & _ & _ & _ & Hgo).
  assert (Hi2 : btree_inv C tbl True (set_tl (set_tl t TlState.Clear) path) (A ++ n :: B) uppers) by (destruct Hi'; by split).
  destruct (InsertLeaf_ok _ A n B uppers k Hi2 Hk Hnin Hlo HB Hpath Hmax) as (lost & Hl & Hnl & Hins).
  exists lost. split; [|split; [exact Hnl|]].
  - unfold separator_lost. by rewrite Hd, bind_Ret, Hgo, bind_Ret.
  - assert (E : BTree.Insert tbl t k = InsertLeaf tbl (set_tl (set_tl t TlState.Clear) path) (n_pid n) k).
    { unfold BTree.Insert, InsertInternal. cbv zeta. by rewrite Hd, bind_Ret, Hgo, bind_Ret. }
    rewrite E. by destruct lost.
Qed.

Lemma insert_in_tree t ks k :
  btree_keys C tbl True t ks → good C k → k ∉ ks → has_room t →
  ∃ lost, separator_lost tbl t k k = Ret lost ∧ (separator_safe t → lost = false) ∧
    if lost then BTree.Insert tbl t k = separator_freed
    else ∃ t', BTree.Insert tbl t k = Ret t' ∧ btree_keys C tbl True t' (key_insert k ks) ∧ grown t t'.
Proof.
  unfold has_room, separator_safe. intros (leaves & uppers & Hi & <- & HF) Hk Hnin Hmax.
  rewrite (inv_root_level _ _ _ _ Hi) in *.
  destruct (insert_in_levels t leaves uppers k Hi HF Hk Hnin Hmax) as (lost & Hl & Hnl & Hins).
  exists lost. split; [exact Hl|]. split; [intros [Hm|Hm]; apply Hnl; [by left|right; lia]|].
  destruct lost; [done|]. destruct Hins as (t' & leaves' & uppers' & Hins & Hinv & He & Hf & Hnx & Hhs & Hroom).
  exists t'. split; [done|]. split; [exists leaves', uppers'; split_and!; [done|done|by apply Hf]|].
  split; rewrite ?(inv_root_level _ _ _ _ Hi), ?(inv_root_level _ _ _ _ Hinv); [exact Hnx| |exact Hroom].
  apply height_step_length in Hhs. lia.
Qed.

(** ** The empty tree *)
Lemma empty_tree ids :
  0 < default 1 (ids !! tbl) < BUFFER_POOL_PAGE_NUM →
  ∃ t, BTreeIndex tbl ids = Ret t ∧ btree_keys C tbl True t [] ∧ root_level t = 0 ∧
    next_pid tbl t = default 1 (ids !! tbl) + 1 ∧ ∀ n, level1_room n t.
Proof.
  intros Hn. destruct (ReserveNode_ok tbl (mkBTree ∅ 0 ids [])) as (t1 & Hres & Hpg & Hroot & _ & Hnx & Hget); [done|].
  change (next_pid tbl (mkBTree ∅ 0 ids [])) with (default 1 (ids !! tbl)) in *. set (np := default 1 _) in *.
  set (p := InitHeader zero_page 0 0 np). exists (set_root (set_page t1 np p) np).
  assert (Hnx' : next_pid tbl (set_root (set_page t1 np p) np) = np + 1) by exact Hnx.
  assert (Hp : pages (set_root (set_page t1 np p) np) !! np = Some p) by apply lookup_insert_eq.
  split; [|split; [|split; [|split; [done|]]]].
  - unfold BTreeIndex. by rewrite Hres, bind_Ret, Hget, bind_Ret.
  - exists [mkNode np [] []], []. split; [|split; [done|constructor]].
    split; rewrite ?Hnx'; cbn [linked fmap list_fmap n_pid n_lo n_con head_sep concat pids_of app].
    + split; [|done]. exists p. cbn [n_pid n_con n_lo]. split_and!; try done; apply InitHeader_abs.
    + repeat constructor.
    + done.
    + done.
    + constructor.
    + apply Forall_singleton. split; [|by left]. unfold valid_pid, INVALID_PAGE, UINT32_MAX, BUFFER_POOL_PAGE_NUM in *. cbn. lia.
    + apply NoDup_singleton.
    + apply Forall_singleton. lia.
    + lia.
  - unfold root_level. cbn [root_id_ set_root]. by rewrite Hp.
  - intros n. unfold level1_room. cbn [pages set_root set_page]. rewrite Hpg. cbn [pages].
    by repeat apply map_Forall_insert_2.
Qed.
End Tree.
