(* ===== verification/BTreeUnique.v ===== *)
(** * The B-link tree: unique insertion

    [InsertUnique] scans every leaf that may hold the code of the key, asks the
    transaction about each tuple id of the code, and inserts the key with its
    tuple id in the leaf that covers it. *)

From S2P Require Import Prelude Bytes Shared Memory SlottedPage NodeFacts Leaf LeafFacts LeafSplit.
From S2P Require Import Inter InterFacts InterSplit Fsm BTree BTreeInv BTreeDescent BTreeLookup.
From S2P Require Import BTreeUpdate BTreeInsert BTreeTree.
Import BTree.

Section Unique.
Context (C : list Z → Prop) `{!PrefixFree C} (tbl : Z).

(** The key with a tuple id in place. *)
Lemma set_tid_prefix k v : key_of C k → key_prefix (set_tid k v) = key_prefix k.
Proof.
  intros (_ & Hk & _). unfold key_prefix, set_tid.
  rewrite length_app, length_take, length_le_bytes, take_app_le by (rewrite length_take; lia).
  rewrite take_take. apply (f_equal (λ n, take n k)). lia.
Qed.

Lemma length_set_tid k v : key_of C k → length (set_tid k v) = length k.
Proof. intros (_ & Hk & _). unfold set_tid. rewrite length_app, length_take, length_le_bytes. lia. Qed.

Lemma set_tid_good k v : good C k → good C (set_tid k v).
Proof.
  intros [Hk Hl]. split; [|unfold key_len in *; by rewrite (length_set_tid k v Hk)].
  pose proof Hk as (Hb & Hlen & HC). split; [|split].
  - unfold set_tid. apply Forall_app. split; [by apply Forall_take|apply le_bytes_ok].
  - by rewrite (length_set_tid k v Hk).
  - by rewrite (set_tid_prefix k v Hk).
Qed.

Lemma set_tid_same k v x : key_of C k → same_code (set_tid k v) x ↔ same_code k x.
Proof. intros Hk. unfold same_code. by rewrite (set_tid_prefix k v Hk). Qed.

(** The check of one leaf. *)
Lemma check_node T pg n next p k k' idx h :
  leaf_node T pg n next → pg !! n_pid n = Some p → good C k → good C k' → key_prefix k' = key_prefix k →
  Forall (key_of C) (n_con n) → Forall (λ s, key_of C s.2) (option_list next) →
  idx = -1 ∨ idx = 0 ∧ ¬ lex_lt (n_lo n) k →
  Leaf.CheckUnique h p k' idx =
  b ← any_conflict h (key_tid <$> filter (same_code k) (n_con n));
  Ret (if b : bool then None else Some (same_prefix_fence k (snd <$> next))).
Proof.
  intros (q & Hq & _ & _ & Habs & Hlo & _) Hp Hk Hk' Hpre HC Hnx Hidx. rewrite Hp in Hq. injection Hq as <-.
  rewrite (CheckUnique_ok C h p (n_con n) (snd <$> next) k' idx Habs (good_ok C k' Hk') (proj1 Hk')).
  - assert (E : filter (same_code k') (n_con n) = filter (same_code k) (n_con n)).
    { apply list_filter_iff. intros x. unfold same_code. by rewrite Hpre. }
    rewrite E. destruct next as [s|]; [|done]. cbn [same_prefix_fence fmap option_fmap option_map].
    by rewrite (bool_decide_ext (key_prefix s.2 = key_prefix k') (key_prefix s.2 = key_prefix k)) by (by rewrite Hpre).
  - apply Forall_app. split; [|done]. destruct next as [s|]; [|constructor].
    apply Forall_cons in Hnx as [Hs _]. by repeat constructor; apply Hs.
  - destruct Hidx as [->|[-> Hlt]]; [by left|right]. split; [done|]. rewrite Hpre.
    rewrite Forall_forall in HC, Hlo. apply Forall_forall. intros x Hx.
    apply (code_not_lt C); [by apply HC|apply Hk|]. eapply lex_le_trans; [exact Hlt|by apply Hlo].
Qed.

(** One iteration of the scan. *)
Lemma unique_step T t n next k k' idx h fuel ip :
  leaf_node T (pages t) n next → valid_pid (n_pid n) → good C k → good C k' → key_prefix k' = key_prefix k →
  Forall (key_of C) (n_con n) → Forall (λ s, key_of C s.2) (option_list next) →
  idx = -1 ∨ idx = 0 ∧ ¬ lex_lt (n_lo n) k →
  let ip1 := match ip with
             | Some q => Some q
             | None => if bool_decide (¬ below_fence k' (snd <$> next)) then None else Some (n_pid n)
             end in
  unique_loop (S fuel) h t (n_pid n) k' idx ip =
  b ← any_conflict h (key_tid <$> filter (same_code k) (n_con n));
  if b : bool then Ret None
  else if negb (same_prefix_fence k (snd <$> next)) then Ret (Some ip1)
  else unique_loop fuel h t (from_option fst UNDEFINED_PAGE next) k' 0 ip1.
Proof.
  intros Hn Hv Hk Hk' Hpre HC Hnx Hidx ip1. pose proof Hn as (p & Hp & _ & Hrl & Habs & _).
  cbn [unique_loop]. rewrite (GetNode_ok t _ p Hv Hp), bind_Ret.
  rewrite (check_node T _ n next p k k' idx h Hn Hp Hk Hk' Hpre HC Hnx Hidx).
  destruct (any_conflict _ _) as [[]| | | |]; cbn [mbind outcome_bind]; try done.
  rewrite Hrl. subst ip1. destruct ip as [q|]; [done|].
  rewrite (HasSplit_ok p _ _ k' (proj1 Habs) (good_ok C k' Hk')). cbn [mbind outcome_bind].
  by destruct (bool_decide _).
Qed.

(** The scan from leaf [n] on, for a key [k'] of the code of [k]: [ip] is the
    page found so far, if any; [k'] is not left of [n] while there is none. *)
Lemma unique_loop_ok T t h n B k k' fuel idx ip :
  linked (leaf_node T (pages t)) (n :: B) None → StronglySorted sep_lt (sep_of <$> (n :: B)) →
  Forall (λ m, valid_pid (n_pid m)) (n :: B) → good C k → good C k' → key_prefix k' = key_prefix k →
  Forall (key_of C) (entries (n :: B)) → Forall (λ m, good C (n_lo m)) B →
  Forall (λ m, lex_lt k (n_lo m)) B → (length (n :: B) ≤ fuel)%nat →
  idx = -1 ∨ idx = 0 ∧ ¬ lex_lt (n_lo n) k → (ip = None → ¬ lex_lt k' (n_lo n)) →
  ∃ q, (ip = Some q ∨ ip = None ∧ ∃ X m Y, n :: B = X ++ m :: Y ∧ q = n_pid m ∧
          ¬ lex_lt k' (n_lo m) ∧ Forall (λ m, lex_lt k' (n_lo m)) Y) ∧
    unique_loop fuel h t (n_pid n) k' idx ip =
      b ← any_conflict h (key_tid <$> filter (same_code k) (entries (n :: B)));
      Ret (if b : bool then None else Some (Some q)).
Proof.
  intros Hl Hs Hv Hk Hk' Hpre HC HlB HB Hf Hidx Hip. revert n fuel idx ip Hl Hs Hv HC Hf Hidx Hip.
  induction B as [|m B IH]; intros n fuel idx ip Hl Hs Hv HC Hf Hidx Hip;
    (destruct fuel as [|fuel]; [cbn in Hf; lia|]);
    apply Forall_cons in Hv as [Hvn Hv]; destruct Hl as [Hn Hl]; rewrite entries_cons in HC |- *;
    apply Forall_app in HC as [HCn HC].
  - rewrite (unique_step T t n None k k' idx h fuel ip Hn Hvn Hk Hk' Hpre HCn (Forall_nil_2 _) Hidx).
    cbn [fmap list_fmap concat option_fmap option_map same_prefix_fence negb below_fence].
    rewrite app_nil_r, bool_decide_false by tauto. exists (default (n_pid n) ip). split.
    + destruct ip; [by left|right]. split; [done|]. exists [], n, []. split_and!; try done. by apply Hip.
    + destruct (any_conflict _ _) as [[]| | | |]; cbn [mbind outcome_bind]; try done. by destruct ip.
  - apply Forall_cons in HlB as [Hgm HlB]. apply Forall_cons in HB as [Hkm HB]. cbn [fmap list_fmap] in Hs.
    pose proof Hs as [Hs' HF]%StronglySorted_inv.
    rewrite (unique_step T t n (Some (sep_of m)) k k' idx h fuel ip Hn Hvn Hk Hk' Hpre HCn
               (proj2 (Forall_singleton (λ s : Sep, key_of C s.2) (sep_of m)) (proj1 Hgm)) Hidx).
    change (snd <$> Some (sep_of m)) with (Some (n_lo m)).
    change (from_option fst UNDEFINED_PAGE (Some (sep_of m))) with (n_pid m). cbn [same_prefix_fence below_fence].
    rewrite filter_app, fmap_app, any_conflict_app.
    set (ip1 := match ip with Some q => Some q | None => _ end).
    assert (Hip1 : ip1 = None → ¬ lex_lt k' (n_lo m)).
    { subst ip1. destruct ip; [done|]. case_bool_decide; [tauto|done]. }
    destruct (IH HlB HB m fuel 0 ip1 Hl Hs' Hv HC) as (q & Hq & E);
      [cbn [length] in *; lia|right; split; [done|by apply lex_lt_asym]|done|].
    destruct (bool_decide (key_prefix (n_lo m) = key_prefix k)) eqn:Hsame; cbn [negb].
    + exists q. split.
      * destruct Hq as [Hq|(Hq & X & u & Y & EX & Hu)].
        { subst ip1. destruct ip as [q1|]; [by left|right].
          destruct (bool_decide (¬ lex_lt k' (n_lo m))) eqn:Hb; [done|]. apply bool_decide_eq_false in Hb. injection Hq as <-.
          split; [done|]. exists [], n, (m :: B). split_and!; [done|done|by apply Hip|].
          assert (Hk'm : lex_lt k' (n_lo m)) by (destruct (decide (lex_lt k' (n_lo m))); tauto).
          constructor; [done|]. apply StronglySorted_inv in Hs' as [_ HF']. rewrite Forall_fmap in HF'.
          eapply Forall_impl; [exact HF'|]. intros x Hx. by transitivity (n_lo m). }
        { subst ip1. destruct ip as [q1|]; [done|right]. split; [done|].
          exists (n :: X), u, Y. rewrite EX. by destruct Hu as (-> & Hu). }
      * rewrite E. by destruct (any_conflict _ (key_tid <$> filter _ (n_con n))) as [[]| | | |].
    + apply bool_decide_eq_false in Hsame.
      rewrite (filter_none (same_code k) (entries (m :: B)))
        by (by apply (no_code_right C T (pages t) k m B None Hl Hs' (proj1 Hk) (proj1 Hgm) HC)).
      assert (Hk'm : lex_lt k' (n_lo m)).
      { unfold lex_lt in Hkm |- *. rewrite (key_lex C) in Hkm |- * by (apply Hk || apply Hk' || apply Hgm). rewrite Hpre.
        destruct (lex (key_prefix k) (key_prefix (n_lo m))) eqn:El; [|done|done]. apply lex_eq in El. congruence. }
      exists (default (n_pid n) ip). split.
      * destruct ip; [by left|right]. split; [done|]. exists [], n, (m :: B). split_and!; [done|done|by apply Hip|].
        constructor; [done|]. apply StronglySorted_inv in Hs' as [_ HF']. rewrite Forall_fmap in HF'.
        eapply Forall_impl; [exact HF'|]. intros x Hx. by transitivity (n_lo m).
      * cbn [fmap list_fmap any_conflict].
        destruct (any_conflict _ (key_tid <$> filter _ (n_con n))) as [[]| | | |]; cbn [mbind outcome_bind]; try done.
        subst ip1. destruct ip; [done|]. by rewrite bool_decide_false by tauto.
Qed.

(** Tuple id 0 makes the least key of a code. *)
Lemma least_of_code k x : key_of C k → key_of C x → key_tid k = 0 → same_code k x → ¬ lex_lt x k.
Proof.
  intros Hk Hx H0 He. unfold lex_lt. rewrite (key_lex C) by done. unfold same_code in He. rewrite He, lex_refl, H0.
  assert (0 ≤ key_tid x); [|by destruct (Z.compare_spec (key_tid x) 0); [|lia|]].
  destruct Hx as [Hb _]. apply le_val_range. by apply Forall_reverse, Forall_drop.
Qed.

(** The keys of the code left of the leaf that covers its least key. *)
Lemma no_code_left T pg A n B k :
  linked (leaf_node T pg) (A ++ n :: B) None → StronglySorted sep_lt (sep_of <$> (A ++ n :: B)) →
  good C k → key_tid k = 0 → ¬ lex_lt k (n_lo n) → Forall (key_of C) (entries A) →
  filter (same_code k) (entries A) = [].
Proof.
  intros Hl Hs [Hk _] H0 Hlo HC. apply filter_none, Forall_forall. intros x Hx He.
  rewrite Forall_forall in HC. specialize (HC x Hx).
  assert (Hge : ¬ lex_lt x k) by (by apply least_of_code).
  apply Hge. apply (lex_lt_le _ (n_lo n)); [|done]. by apply (chain_below T pg A n B None).
Qed.

(** [GoRightLeaf] from a leaf at or left of the one that covers [k]. *)
Lemma GoRightLeaf_walk T t X m Y k fuel n B :
  n :: B = X ++ m :: Y → linked (leaf_node T (pages t)) (n :: B) None → StronglySorted sep_lt (sep_of <$> (n :: B)) →
  Forall (λ l, valid_pid (n_pid l)) (n :: B) → good C k → ¬ lex_lt k (n_lo m) → Forall (λ l, lex_lt k (n_lo l)) Y →
  (length (n :: B) ≤ fuel)%nat → GoRightLeaf fuel t (n_pid n) k = Ret (n_pid m).
Proof.
  intros E Hl Hs Hv Hk Hm HY. revert n B fuel E Hl Hs Hv. induction X as [|x X IH]; intros n B fuel E Hl Hs Hv Hf;
    injection E as -> ->; (destruct fuel as [|fuel]; [cbn in Hf; lia|]); destruct Hl as [Hn Hl]; apply Forall_cons in Hv as [Hvn Hv];
    pose proof Hn as (p & Hp & _ & Hrl & Habs & _); cbn [GoRightLeaf]; rewrite (GetNode_ok t _ p Hvn Hp), bind_Ret.
  - by rewrite (leaf_HasSplit T _ _ _ k p Hn Hp (good_ok C k Hk) HY), bind_Ret.
  - assert (Hge : ¬ lex_lt k (n_lo (hd m X))).
    { destruct X as [|y X]; [done|]. intros Hlt. apply Hm. transitivity (n_lo y); [exact Hlt|].
      cbn [fmap list_fmap app] in Hs. apply StronglySorted_inv in Hs as [Hs _]. apply StronglySorted_inv in Hs as [_ HF].
      rewrite Forall_forall in HF. apply (HF (sep_of m)), list_elem_of_fmap_2. apply elem_of_app. right. by left. }
    assert (Eh : head_sep (X ++ m :: Y) None = Some (sep_of (hd m X))) by by destruct X.
    rewrite (HasSplit_ok p (n_con x) _ k (proj1 Habs)) by apply (good_ok C k Hk).
    rewrite Eh. cbn [fmap option_fmap option_map below_fence sep_of snd]. rewrite bool_decide_true by tauto. rewrite bind_Ret, Hrl, Eh.
    cbn [from_option sep_of fst]. cbn [fmap list_fmap app] in Hs. apply StronglySorted_inv in Hs as [Hs _]. cbn [length app] in Hf.
    destruct X as [|y X]; cbn [app hd] in *; [apply (IH m Y)|apply (IH y (X ++ m :: Y))]; try done; cbn [length] in *; lia.
Qed.

Lemma InsertUnique_tree t ks k v h :
  btree_keys C tbl True t ks → good C k → key_tid k = 0 →
  (any_conflict h (key_tid <$> filter (same_code k) ks) = Ret true →
   ∃ t', BTree.InsertUnique tbl h t k v = Ret (t', false) ∧ btree_keys C tbl True t' ks ∧ grown tbl t t') ∧
  (any_conflict h (key_tid <$> filter (same_code k) ks) = Ret false → set_tid k v ∉ ks → has_room tbl t →
   ∃ lost, separator_lost tbl t k (set_tid k v) = Ret lost ∧ (separator_safe t → lost = false) ∧
     if lost then BTree.InsertUnique tbl h t k v = separator_freed
     else ∃ t', BTree.InsertUnique tbl h t k v = Ret (t', true) ∧ btree_keys C tbl True t' (key_insert (set_tid k v) ks) ∧ grown tbl t t').
Proof.
  unfold has_room, separator_safe. intros (leaves & uppers & Hi & <- & Hfat) Hk H0. set (t0 := set_tl t TlState.Clear).
  pose proof (inv_height C tbl _ _ _ _ Hi Hfat) as Hh.
  assert (Hi' : btree_inv C tbl True t0 leaves uppers) by (destruct Hi; by split).
  pose proof (inv_root_level C tbl _ _ _ _ Hi) as Hrl. rewrite Hrl.
  destruct (DropToLevel_ok C tbl True _ _ _ Hi' k Hh (good_nonempty C k Hk) eq_refl)
    as (A & n & B & path & E & Hlo & HB & Hpath & Hd).
  pose proof (inv_fuel C tbl True _ _ _ Hi') as Hf. pose proof (inv_valid C tbl True _ _ _ Hi') as [Hv _]%Forall_app.
  pose proof (inv_lo_good C tbl _ _ _ _ _ _ _ Hi' E) as HlB.
  pose proof (bi_leaves _ _ _ _ _ _ Hi') as Hl. pose proof (bi_sorted _ _ _ _ _ _ Hi') as Hs.
  pose proof (bi_keys _ _ _ _ _ _ Hi') as Hg. subst leaves.
  assert (HC : Forall (key_of C) (entries (A ++ n :: B))) by (eapply Forall_impl; [apply Hg|]; by intros x [? _]).
  rewrite entries_app in HC. apply Forall_app in HC as [HCA HCn].
  assert (EF : filter (same_code k) (entries (A ++ n :: B)) = filter (same_code k) (entries (n :: B))).
  { by rewrite entries_app, filter_app, (no_code_left True (pages t0) A n B k Hl Hs Hk H0 Hlo HCA). }
  rewrite EF.
  destruct (GoRightLeaf_here C tbl True _ A n B uppers path k Hi' (good_ok C k Hk) HB) as (p & _ & _ & _ & Hgo).
  pose proof (set_tid_good k v Hk) as Hk'. pose proof (set_tid_prefix k v (proj1 Hk)) as Hpre.
  assert (Hk'lo : ¬ lex_lt (set_tid k v) (n_lo n)).
  { eapply lex_le_trans; [exact Hlo|]. apply least_of_code; [apply Hk|apply Hk'|done|done]. }
  assert (Hl2 := Hl). apply linked_app in Hl2 as [_ Hl2]. assert (Hs2 := Hs). rewrite fmap_app in Hs2.
  apply StronglySorted_app_elim in Hs2 as (_ & Hs2 & _). rewrite fmap_app, Forall_app in Hv. destruct Hv as [_ Hv].
  rewrite Forall_fmap in Hv. rewrite length_app in Hf.
  set (t1 := set_tl t0 path).
  destruct (unique_loop_ok True t1 h n B k (set_tid k v) (bt_fuel t1) (-1) None Hl2 Hs2 Hv Hk Hk' Hpre HCn HlB HB)
    as (q & [?|(_ & X & m & Y & EX & -> & Hmlo & HY)] & Hu); [unfold bt_fuel; cbn [set_tl pages t0 t1] in *; lia|by left|done|done|].
  assert (Hins : BTree.InsertUnique tbl h t k v =
    b ← any_conflict h (key_tid <$> filter (same_code k) (entries (n :: B)));
    if b : bool then Ret (t1, false) else t' ← InsertLeaf tbl t1 (n_pid m) (set_tid k v); Ret (t', true)).
  { unfold BTree.InsertUnique. fold t0. cbv zeta. rewrite Hd, bind_Ret. fold t1. fold t1 in Hgo. rewrite Hgo, bind_Ret, Hu.
    by destruct (any_conflict _ _) as [[]| | | |]. }
  assert (Hi2 : btree_inv C tbl True t1 (A ++ n :: B) uppers) by (destruct Hi'; by split).
  split.
  - intros Hc. rewrite Hins, Hc. exists t1. split; [done|]. split; [by exists (A ++ n :: B), uppers|].
    change (root_level t1) with (root_level t). split; [change (next_pid tbl t1) with (next_pid tbl t); lia|by left|].
    intros x _ Hx. by apply (level1_room_le (S x)); [lia|].
  - intros Hc Hnin Hmax.
    assert (Hgo' : GoRightLeaf (bt_fuel t1) t1 (n_pid n) (set_tid k v) = Ret (n_pid m)).
    { apply (GoRightLeaf_walk True t1 X m Y _ _ n B EX Hl2 Hs2 Hv Hk' Hmlo HY).
      unfold bt_fuel. cbn [set_tl pages t0 t1] in *. lia. }
    rewrite EX, app_assoc in Hi2, Hnin |- *.
    destruct (InsertLeaf_ok C tbl t1 (A ++ X) m Y uppers (set_tid k v) Hi2 Hk' Hnin Hmlo HY)
      as (lost & Hll & Hnl & Hil); [|exact Hmax|].
    { apply (on_path_le _ (sep_of n)); [|exact Hpath]. cbn [sep_of snd].
      destruct X as [|x X]; injection EX as <- EX; [by apply lex_lt_irrefl|].
      cbn [fmap list_fmap] in Hs2. apply StronglySorted_inv in Hs2 as [_ HF]. rewrite Forall_fmap, Forall_forall in HF.
      apply lex_lt_asym, (HF m). rewrite EX. apply elem_of_app. right. by left. }
    exists lost. split; [unfold separator_lost; fold t0; rewrite Hd, bind_Ret; fold t1; by rewrite Hgo', bind_Ret|].
    split; [intros [Hm|Hm]; apply Hnl; [by left|right; lia]|]. rewrite Hins, Hc. cbn [mbind outcome_bind].
    destruct lost; [by rewrite Hil|]. destruct Hil as (t' & leaves' & uppers' & Hil & Hinv & He & Hl' & Hnx & Hhs & Hroom).
    exists t'. rewrite Hil. split; [done|]. split; [exists leaves', uppers'; split_and!; [done|done|by apply Hl']|].
    split; rewrite ?Hrl, ?(inv_root_level _ _ _ _ _ _ Hinv); [exact Hnx| |exact Hroom]. apply height_step_length in Hhs. lia.
Qed.
End Unique.
