(* ===== verification/PageTheorems.v ===== *)
(** * Theorems about B-tree pages

    The properties of the leaf and intermediate layouts, stated over the
    abstract content of a page ([leaf_abs]: a sorted list of keys under a
    fence; [inter_abs]: a sorted list of separators), with examples that show
    the hypotheses can hold. *)

From S2P Require Import Prelude Bytes Shared Memory SlottedPage NodeFacts Leaf LeafFacts LeafSplit.
From S2P Require Import Inter InterFacts InterSplit.

(** ** Example pages *)

(** Codes of two bytes, and keys of ten: a code and a tuple id. *)
Definition two_bytes (l : list Z) : Prop := length l = 2%nat.

#[export] Instance two_bytes_free : PrefixFree two_bytes.
Proof.
  intros a b Ha Hb (c & ->). unfold two_bytes in *. rewrite length_app in Hb.
  destruct c; [by rewrite app_nil_r|cbn in Hb; lia].
Qed.

Definition demo_key (a b tid : Z) : Key := [a; b; 0; 0; 0; 0; 0; 0; 0; tid].

Lemma demo_key_ok a b tid :
  is_byte a → is_byte b → is_byte tid → leaf_key_ok (demo_key a b tid) ∧ key_of two_bytes (demo_key a b tid).
Proof.
  intros Ha Hb Ht. split; [by vm_compute|].
  split; [|split; [cbn; lia|done]]. unfold demo_key, bytes_ok, is_byte in *.
  repeat (apply Forall_cons; split; [lia|]). constructor.
Qed.

Definition empty_page : page := InitHeader (mkPage (mkVarlenHeader 0 0 0 0 0 0) ∅) 0 0 7.

(** Three keys, two of them with the same code. *)
Definition demo_keys : list Key := [demo_key 1 5 9; demo_key 2 0 3; demo_key 2 0 4].

Lemma demo_insert p ks k off :
  leaf_abs p ks None → leaf_key_ok k → bytes_ok k → k ∉ ks → vh_heap_offset (hdr p) = off →
  22 + 2 * Z.of_nat (length ks) + key_cost k ≤ off →
  ∃ p', leaf_abs p' (key_insert k ks) None ∧ vh_heap_offset (hdr p') = off - key_cost k.
Proof.
  intros Hr Hk Hb Hn Ho Hf. destruct (Insert_ok p ks None k) as (p' & _ & H & _ & H'); try done.
  - unfold fits, free_bytes, header_size_, key_cost in *. rewrite (node_abs_count p ks None) by apply Hr. lia.
  - exists p'. split; [done|]. by rewrite H', Ho.
Qed.

Lemma demo_leaf : ∃ p, leaf_abs p demo_keys None ∧ vh_heap_offset (hdr p) = 8156.
Proof.
  destruct (demo_insert empty_page [] (demo_key 2 0 4) 8192) as (p1 & A1 & H1);
    [apply InitHeader_abs|by vm_compute|by apply (bool_decide_unpack _); vm_compute|by intros ?%not_elem_of_nil|done|by vm_compute|].
  destruct (demo_insert p1 [demo_key 2 0 4] (demo_key 1 5 9) 8180) as (p2 & A2 & H2);
    [done|by vm_compute|by apply (bool_decide_unpack _); vm_compute|by apply (bool_decide_unpack _); vm_compute|done|by vm_compute|].
  destruct (demo_insert p2 [demo_key 1 5 9; demo_key 2 0 4] (demo_key 2 0 3) 8168) as (p3 & A3 & H3);
    [exact A2|by vm_compute|by apply (bool_decide_unpack _); vm_compute|by apply (bool_decide_unpack _); vm_compute|done|by vm_compute|].
  by exists p3.
Qed.

(** ** Leaves *)

(** [HasSpace] answers exactly whether the slot and the aligned entry fit
    between the slots and the heap; if so [Insert] succeeds and the page holds
    the old keys and the new one in order, under the same fence. *)
Theorem leaf_insert_correct p ks fk k :
  leaf_abs p ks fk → leaf_key_ok k → bytes_ok k → k ∉ ks → below_fence k fk →
  2 + key_len k ≤ vh_heap_offset (hdr p) →
  Leaf.HasSpace p k = Ret (bool_decide (fits k p)) ∧
  (fits k p → ∃ p', Leaf.Insert p k = Ret p' ∧ leaf_abs p' (key_insert k ks) fk ∧ same_ids p p' ∧
                    free_bytes p' = free_bytes p - 2 - key_cost k).
Proof.
  intros Hr Hk Hb Hn Hf Ho. split; [by eapply HasSpace_ok; [apply Hr|..]|]. intros Hfit.
  destruct (Insert_ok p ks fk k) as (p' & Hi & Hr' & Hid & Ho'); try done.
  exists p'. split_and!; [done..|]. unfold free_bytes. rewrite Ho'.
  rewrite (node_abs_count p ks fk), (node_abs_count p' (key_insert k ks) fk) by (apply Hr || apply Hr').
  rewrite (Permutation_length (key_insert_perm k ks)). cbn [length]. lia.
Qed.

Lemma leaf_insert_correct_witness :
  ∃ p, leaf_abs p demo_keys None ∧ Leaf.HasSpace p (demo_key 2 0 200) = Ret true ∧
    ∃ p', Leaf.Insert p (demo_key 2 0 200) = Ret p' ∧ leaf_abs p' (demo_keys ++ [demo_key 2 0 200]) None.
Proof.
  destruct demo_leaf as (p & Hr & Ho). exists p. split; [done|].
  destruct (leaf_insert_correct p demo_keys None (demo_key 2 0 200) Hr) as [Hs Hi];
    [by vm_compute|by apply (bool_decide_unpack _); vm_compute|by apply (bool_decide_unpack _); vm_compute|done|
     by rewrite Ho; vm_compute|].
  assert (Hfit : fits (demo_key 2 0 200) p).
  { unfold fits, free_bytes. rewrite Ho, (node_abs_count p _ None (proj1 Hr)). by vm_compute. }
  rewrite Hs, bool_decide_true by done. split; [done|].
  destruct (Hi Hfit) as (p' & Hi' & Hr' & _). exists p'. split; [done|exact Hr'].
Defined.

(** C9: [Split] of a leaf with at least two keys, whatever their lengths,
    inserts the new key and cuts at a key [sent] that is not the first: the left
    page gets the keys below [sent], which becomes its fence, the right page the
    others and the old fence; the links and page ids are those of the tree, and
    no heap space is wasted.  The space assertions never fire. *)
Theorem leaf_split_correct left right ks fk new_pid k :
  leaf_abs left ks fk → (2 ≤ length ks)%nat → vh_heap_offset (hdr right) = DB7_PAGE_SIZE →
  leaf_key_ok k → bytes_ok k → k ∉ ks → below_fence k fk →
  ∃ l r sent, Leaf.Split left right new_pid k = Ret (l, r, sent) ∧ sent ∈ ks ∧ head ks ≠ Some sent ∧
    leaf_abs l (filter (λ x, lex_lt x sent) (key_insert k ks)) (Some sent) ∧
    leaf_abs r (filter (λ x, ¬ lex_lt x sent) (key_insert k ks)) fk ∧
    GetRLink l = new_pid ∧ GetRLink r = GetRLink left ∧
    vh_pid (hdr l) = vh_pid (hdr left) ∧ vh_pid (hdr r) = vh_pid (hdr right) ∧
    GetLevel l = GetLevel left ∧ GetLevel r = GetLevel right.
Proof.
  intros H1 H2 H3 H4 H5 H6 H7.
  destruct (Split_ok left right ks fk new_pid k H1 H2 H3 H4 H5 H6 H7)
    as (l & r & sent & ? & ? & ? & ? & ? & _ & _ & ?).
  exists l, r, sent. tauto.
Qed.

Lemma leaf_split_correct_witness :
  ∃ p l r sent, leaf_abs p demo_keys None ∧ Leaf.Split p empty_page 9 (demo_key 1 9 1) = Ret (l, r, sent) ∧
    GetRLink l = 9.
Proof.
  destruct demo_leaf as (p & Hr & _).
  destruct (leaf_split_correct p empty_page demo_keys None 9 (demo_key 1 9 1) Hr)
    as (l & r & sent & Hs & _ & _ & _ & _ & Hl & _);
    [cbn; lia|done|by vm_compute|by apply (bool_decide_unpack _); vm_compute|
     by apply (bool_decide_unpack _); vm_compute|done|].
  by exists p, l, r, sent.
Defined.

(** [Delete] of a key of the leaf removes exactly it; [Delete] of a key that
    is not there but below some key of the leaf fires the assertion and never
    corrupts the page. *)
Theorem leaf_delete_correct p ks fk k :
  leaf_abs p ks fk → leaf_key_ok k →
  (k ∈ ks → ∃ p', Leaf.Delete p k = Ret p' ∧ leaf_abs p' (key_delete k ks) fk ∧ same_ids p p' ∧
                  vh_heap_offset (hdr p') = vh_heap_offset (hdr p)) ∧
  (∀ x, k ∉ ks → x ∈ ks → lex_lt k x → ∃ msg, Leaf.Delete p k = AssertFail msg).
Proof.
  intros Hr Hk. split; [by apply Delete_ok|]. intros x. by apply (Delete_absent p ks fk).
Qed.

Lemma leaf_delete_correct_witness :
  ∃ p p', leaf_abs p demo_keys None ∧ Leaf.Delete p (demo_key 2 0 3) = Ret p' ∧
    leaf_abs p' [demo_key 1 5 9; demo_key 2 0 4] None.
Proof.
  destruct demo_leaf as (p & Hr & _).
  destruct (leaf_delete_correct p demo_keys None (demo_key 2 0 3) Hr) as [H _]; [by vm_compute|].
  destruct H as (p' & Hd & Hr' & _); [by apply (bool_decide_unpack _); vm_compute|].
  by exists p, p'.
Defined.

(** A leaf lookup returns, in key order, the tuple ids of the keys with the
    code of the searched key from its tuple id on, and asks for the next leaf
    exactly when the fence has that code. *)
Theorem leaf_get_correct C `{!PrefixFree C} p ks fk k :
  leaf_abs p ks fk → leaf_key_ok k → key_of C k → Forall (key_of C) (option_list fk ++ ks) →
  Leaf.Get p (GetCount p) k = Ret (key_tid <$> filter (matching k) ks, same_prefix_fence k fk).
Proof. by apply Get_ok. Qed.

Lemma leaf_get_correct_witness :
  ∃ p, leaf_abs p demo_keys None ∧ Leaf.Get p (GetCount p) (demo_key 2 0 0) = Ret ([3; 4], false).
Proof.
  destruct demo_leaf as (p & Hr & _). exists p. split; [done|].
  rewrite (leaf_get_correct two_bytes p demo_keys None (demo_key 2 0 0) Hr).
  - by vm_compute.
  - by vm_compute.
  - by apply demo_key_ok; vm_compute.
  - cbn [option_list app]. unfold demo_keys. repeat (apply Forall_cons; split; [by apply demo_key_ok; vm_compute|]). constructor.
Defined.

(** The unique check fails exactly when the transaction conflicts with a
    tuple of the leaf under the same code, whatever its tuple id; otherwise it
    tells whether the next leaf must be checked. *)
Theorem leaf_check_unique_correct C `{!PrefixFree C} h p ks fk k idx :
  leaf_abs p ks fk → leaf_key_ok k → key_of C k → Forall (key_of C) (option_list fk ++ ks) →
  idx = -1 ∨ idx = 0 ∧ Forall (λ x, ¬ lex_lt (key_prefix x) (key_prefix k)) ks →
  Leaf.CheckUnique h p k idx =
  b ← any_conflict h (key_tid <$> filter (same_code k) ks);
  Ret (if b : bool then None else Some (same_prefix_fence k fk)).
Proof. by apply CheckUnique_ok. Qed.

Lemma leaf_check_unique_correct_witness :
  ∃ p, leaf_abs p demo_keys None ∧
    Leaf.CheckUnique (λ tid, Ret (tid =? 4)) p (demo_key 2 0 77) (-1) = Ret None ∧
    Leaf.CheckUnique (λ tid, Ret (tid =? 9)) p (demo_key 2 0 77) (-1) = Ret (Some false).
Proof.
  destruct demo_leaf as (p & Hr & _). exists p. split; [done|].
  assert (HF : Forall (key_of two_bytes) (option_list None ++ demo_keys)).
  { cbn [option_list app]. unfold demo_keys. repeat (apply Forall_cons; split; [by apply demo_key_ok; vm_compute|]). constructor. }
  assert (HK : key_of two_bytes (demo_key 2 0 77)) by (by apply demo_key_ok; vm_compute).
  rewrite !(leaf_check_unique_correct two_bytes _ p demo_keys None (demo_key 2 0 77) (-1) Hr);
    [by vm_compute|by vm_compute|done|done|by left|by vm_compute|done|done|by left].
Defined.

(** The order of the keys in a leaf is that of their codes first, then of
    their tuple ids as numbers. *)
Theorem leaf_key_order C `{!PrefixFree C} a b :
  key_of C a → key_of C b →
  Leaf.CmpFull a b = sign_of (match lex (key_prefix a) (key_prefix b) with
                              | Eq => (key_tid a ?= key_tid b) | c => c end).
Proof. intros Ha Hb. by rewrite CmpFull_lex, (key_lex C). Qed.

Lemma leaf_key_order_witness : Leaf.CmpFull (demo_key 1 2 3) (demo_key 1 2 200) = -1.
Proof.
  rewrite (leaf_key_order two_bytes); [by vm_compute|by apply demo_key_ok; vm_compute..].
Defined.

(** ** What [HasSpace] misses *)

(** When the heap offset of a leaf is below the size of the entry, the u16
    subtraction of [CalculateHeapOffset] wraps: [HasSpace] says yes, and
    [Insert] writes past the page. *)
Theorem leaf_has_space_wraps p k :
  leaf_key_ok k → 0 ≤ vh_heap_offset (hdr p) < 2 + key_len k → 0 ≤ vh_count (hdr p) ≤ 4000 →
  Leaf.HasSpace p k = Ret true ∧ ∃ msg, Leaf.Insert p k = Undefined msg.
Proof.
  intros Hk Ho Hc. pose proof Hk as [Hl1 Hl2]. rewrite DB7_MAX_ROW_SIZE_eq in Hl2.
  assert (E : CalculateHeapOffset 2 2 (vh_heap_offset (hdr p)) (key_len k) =
              65536 + (vh_heap_offset (hdr p) - key_len k - 2) -
              (65536 + (vh_heap_offset (hdr p) - key_len k - 2)) mod 2).
  { unfold CalculateHeapOffset. assert (Ew : to_u16 (vh_heap_offset (hdr p) - key_len k - 2) =
      65536 + (vh_heap_offset (hdr p) - key_len k - 2)).
    { unfold wrap. symmetry. apply (Z.mod_unique _ _ (-1)); lia. }
    rewrite Ew. apply (AlignDown_pow2 16 _ 1); lia. }
  pose proof (Z.mod_pos_bound (65536 + (vh_heap_offset (hdr p) - key_len k - 2)) 2).
  unfold Leaf.HasSpace, Leaf.Insert, Leaf.AppendHeap. rewrite (check_key_ok k Hk), !bind_Ret. split.
  - unfold SlottedPage.HasSpace. rewrite E, (wrap_small 16) by lia. f_equal. apply Z.leb_le.
    unfold header_size_. lia.
  - rewrite DB7_ASSERT_true, bind_Ret by (apply Z.ltb_lt; unfold leaf_key_ok in Hk; lia).
    unfold AppendBlob. rewrite E. unfold in_bounds, DB7_PAGE_SIZE.
    rewrite (proj2 (Z.leb_gt _ 8192)), andb_false_r by lia. cbn. by eexists.
Qed.

(** Ten keys of 800 bytes fill a leaf to where the eleventh wraps. *)
Definition long_key (b : Z) : Key := b :: replicate 799 0.

Definition fill (p : page) (ks : list Key) : outcome page :=
  foldl (λ o k, p ← o; Leaf.Insert p k) (Ret p) ks.

Lemma fill_long :
  match fill empty_page (long_key <$> seqZ 0 10) with
  | Ret p => (vh_heap_offset (hdr p) =? 172) && (vh_count (hdr p) =? 10)
  | _ => false
  end = true.
Proof. by vm_compute. Qed.

Lemma leaf_has_space_wraps_witness :
  ∃ p, fill empty_page (long_key <$> seqZ 0 10) = Ret p ∧
    Leaf.HasSpace p (long_key 10) = Ret true ∧ ∃ msg, Leaf.Insert p (long_key 10) = Undefined msg.
Proof.
  pose proof fill_long as H. destruct (fill empty_page _) as [p| | | |] eqn:Hp; [|done..].
  apply andb_true_iff in H as [Ho%Z.eqb_eq Hc%Z.eqb_eq]. exists p. split; [done|].
  clear Hp. apply leaf_has_space_wraps; [by vm_compute|rewrite Ho; by vm_compute|rewrite Hc; lia].
Defined.

(** Deleting the greatest key twice: the second call reads the stale slot past
    the last one, passes the assertion and shifts 2^64 - 2 bytes. *)
Example leaf_delete_twice :
  (p ← fill empty_page [demo_key 1 0 1; demo_key 2 0 2];
   p ← Leaf.Delete p (demo_key 2 0 2);
   Leaf.Delete p (demo_key 2 0 2)) = Undefined "ShiftLeftDelete: memmove past the page".
Proof. by vm_compute. Qed.

(** ** Intermediate nodes *)

Definition demo_seps : list Sep := [(11, []); (12, demo_key 2 0 3); (13, demo_key 5 0 1)].

(** A root with the first two separators, then the third inserted. *)
Lemma demo_inter : ∃ p, inter_abs p demo_seps None ∧ vh_heap_offset (hdr p) = 8144.
Proof.
  destruct (CreateRoot_ok empty_page (demo_key 2 0 3) 11 12 1 7) as (p & _ & Hr & Ht & _);
    [by vm_compute|lia|done|].
  assert (Ho : vh_heap_offset (hdr p) = 8164) by (unfold tight in Ht; rewrite Ht; by vm_compute).
  destruct (InterInsert_ok p [(11, []); (12, demo_key 2 0 3)] None (13, demo_key 5 0 1) Hr) as (p' & _ & Hr' & _ & Ht');
    [by vm_compute|done|by apply (bool_decide_unpack _); vm_compute|done| |].
  { unfold fits, free_bytes. rewrite Ho, (node_abs_count p _ None (proj1 Hr)). by vm_compute. }
  exists p'. split; [exact Hr'|]. specialize (Ht' Ht). unfold tight in Ht'. rewrite Ht'. by vm_compute.
Qed.

(** [Get] of an intermediate node follows the last separator at or below
    the searched key, and finds one whenever the first separator is. *)
Theorem inter_get_correct p l fk k e :
  inter_abs p l fk → head l = Some e → ¬ lex_lt k e.2 →
  ∃ A c B, l = A ++ c :: B ∧ ¬ lex_lt k c.2 ∧ Forall (λ x, lex_lt k x.2) B ∧
    Inter.Get p (GetCount p) k = Ret c.1.
Proof.
  intros Hr Hh Hk. destruct (child_of_some k l e Hh Hk) as [c Hc].
  pose proof Hr as [_ [Hs _]]. destruct (child_of_spec k l c Hs Hc) as (A & B & HE & H1 & H2).
  exists A, c, B. split_and!; try done. by eapply InterGet_ok.
Qed.

Lemma inter_get_correct_witness :
  ∃ p c, inter_abs p demo_seps None ∧ c ∈ demo_seps ∧ Inter.Get p (GetCount p) (demo_key 3 0 0) = Ret c.1.
Proof.
  destruct demo_inter as (p & Hr & _). exists p.
  destruct (inter_get_correct p demo_seps None (demo_key 3 0 0) (11, []) Hr eq_refl) as (A & c & B & HE & _ & _ & Hg).
  { by apply (bool_decide_unpack _); vm_compute. }
  exists c. split_and!; [done| |done]. rewrite HE. apply elem_of_app. right. by left.
Defined.

(** Insertion of a separator in an intermediate node. *)
Theorem inter_insert_correct p l fk e :
  inter_abs p l fk → sep_ok e → e.1 ≠ 0 → e.2 ≠ [] → e.2 ∉ l.*2 → sep_below e fk →
  8 + key_len e.2 ≤ vh_heap_offset (hdr p) →
  Inter.HasSpace p e.2 = Ret (bool_decide (fits e p)) ∧
  (fits e p → ∃ p', Inter.Insert p e.2 e.1 = Ret p' ∧ inter_abs p' (sep_insert e l) fk ∧ same_ids p p').
Proof.
  intros Hr Hk Hv Hne Hn Hf Ho. split; [by eapply InterHasSpace_ok; [apply Hr|..]|]. intros Hfit.
  destruct (InterInsert_ok p l fk e) as (p' & Hi & Hr' & Hid & _); try done. by exists p'.
Qed.

Lemma inter_insert_correct_witness :
  ∃ p, inter_abs p demo_seps None ∧ Inter.HasSpace p (demo_key 4 0 0) = Ret true ∧
    ∃ p', Inter.Insert p (demo_key 4 0 0) 14 = Ret p' ∧
      inter_abs p' [(11, []); (12, demo_key 2 0 3); (14, demo_key 4 0 0); (13, demo_key 5 0 1)] None.
Proof.
  destruct demo_inter as (p & Hr & Ho). exists p. split; [done|].
  destruct (inter_insert_correct p demo_seps None (14, demo_key 4 0 0) Hr) as [Hs Hi];
    [by vm_compute|done|done|by apply (bool_decide_unpack _); vm_compute|done|by rewrite Ho; vm_compute|].
  assert (Hfit : fits (14, demo_key 4 0 0) p).
  { unfold fits, free_bytes. rewrite Ho, (node_abs_count p _ None (proj1 Hr)). by vm_compute. }
  cbn [fst snd] in *. rewrite Hs, bool_decide_true by done. split; [done|].
  destruct (Hi Hfit) as (p' & Hi' & Hr' & _). exists p'. split; [done|exact Hr'].
Defined.

(** C10: [Split] of an intermediate node, like that of a leaf: the sentinel it
    returns is one of the separators of the node other than the first; the left
    node keeps the separators below the sentinel and has it as its fence, the
    right node has the others and the old fence, so the sentinel bounds both
    halves.  The space assertions never fire for separators of 9 to 776 bytes. *)
Theorem inter_split_correct left right l fk new_pid e :
  inter_abs left l fk → wide_node l → Forall wide (option_list fk) → (2 ≤ length l)%nat →
  vh_heap_offset (hdr right) = DB7_PAGE_SIZE → sep_ok e → wide e → e.2 ∉ l.*2 → sep_below e fk →
  ∃ p q sent, Inter.Split left right new_pid e.2 e.1 = Ret (p, q, sent.2) ∧ sent ∈ l ∧
    head l ≠ Some sent ∧
    inter_abs p (filter (λ x, sep_lt x sent) (sep_insert e l)) (Some sent) ∧
    inter_abs q (filter (λ x, ¬ sep_lt x sent) (sep_insert e l)) fk ∧
    GetRLink p = new_pid ∧ GetRLink q = GetRLink left ∧
    vh_pid (hdr p) = vh_pid (hdr left) ∧ vh_pid (hdr q) = vh_pid (hdr right) ∧
    GetLevel p = GetLevel left ∧ GetLevel q = GetLevel right.
Proof.
  intros H1 H2 H3 H4 H5 H6 H7 H8 H9.
  destruct (InterSplit_ok left right l fk new_pid e H1 H2 H3 H4 H5 H6 H7 H8 H9)
    as (p & q & sent & ? & ? & ? & ? & ? & _ & _ & ? & ? & ? & ? & ? & ? & _).
  exists p, q, sent. tauto.
Qed.

Lemma inter_split_correct_witness :
  ∃ p l r sent, inter_abs p demo_seps None ∧ Inter.Split p empty_page 9 (demo_key 4 0 0) 14 = Ret (l, r, sent) ∧
    GetRLink l = 9.
Proof.
  destruct demo_inter as (p & Hr & _).
  destruct (inter_split_correct p empty_page demo_seps None 9 (14, demo_key 4 0 0) Hr)
    as (l & r & sent & Hs & _ & _ & _ & _ & Hl & _);
    [by apply (bool_decide_unpack _); vm_compute|constructor|cbn; lia|done|by vm_compute|
     by apply (bool_decide_unpack _); vm_compute|by apply (bool_decide_unpack _); vm_compute|done|].
  by exists p, l, r, sent.2.
Defined.

(** The root made when the old root splits has the two halves as children,
    the empty key leading to the left one. *)
Theorem create_root_correct p key pid new_pid level my_pid :
  sep_ok (new_pid, key) → 0 ≤ pid < 2 ^ 32 → key ≠ [] →
  ∃ p', Inter.CreateRoot (InitHeader p 1 level my_pid) key pid new_pid = Ret p' ∧
    inter_abs p' [(pid, []); (new_pid, key)] None ∧
    GetLevel p' = level ∧ GetRLink p' = UNDEFINED_PAGE ∧ vh_pid (hdr p') = my_pid.
Proof.
  intros H1 H2 H3. destruct (CreateRoot_ok p key pid new_pid level my_pid H1 H2 H3) as (p' & ? & ? & _ & ?).
  exists p'. tauto.
Qed.

Lemma create_root_correct_witness :
  ∃ p, Inter.CreateRoot (InitHeader empty_page 1 1 7) (demo_key 2 0 3) 11 12 = Ret p ∧
    inter_abs p [(11, []); (12, demo_key 2 0 3)] None.
Proof.
  destruct (create_root_correct empty_page (demo_key 2 0 3) 11 12 1 7) as (p & Hc & Hr & _);
    [by vm_compute|lia|done|]. by exists p.
Defined.
