(* ===== verification/BTreeTheorems.v ===== *)
(** * Theorems about the B-link tree

    [btree_keys C tbl T t ks]: the pages of [t] form a B-link tree that holds
    exactly the keys [ks], in order ([BTreeInv.v]).  The operations keep it and
    act on [ks] as on a sorted list. *)

From S2P Require Import Prelude Bytes Shared Memory SlottedPage NodeFacts Leaf LeafFacts LeafSplit.
From S2P Require Import Inter InterFacts InterSplit Fsm BTree BTreeInv BTreeDescent BTreeLookup.
From S2P Require Import BTreeUpdate BTreeInsert BTreeTree PageTheorems.
Import BTree.

(** ** An example tree *)

Definition insert_all (tbl : Z) (o : outcome btree) (ks : list Key) : outcome btree :=
  foldl (λ o k, t ← o; BTree.Insert tbl t k) o ks.

Lemma insert_all_ok tbl o ks0 ks1 k :
  (∃ t, o = Ret t ∧ btree_keys two_bytes tbl True t ks0) →
  match o with
  | Ret t => (root_level t =? 0) && (next_pid tbl t <? 100)
  | _ => false
  end = true →
  good two_bytes k → bool_decide (k ∉ ks0) = true → key_insert k ks0 = ks1 →
  ∃ t, insert_all tbl o [k] = Ret t ∧ btree_keys two_bytes tbl True t ks1.
Proof.
  intros (t & -> & Ht) [Hl%Z.eqb_eq Hn%Z.ltb_lt]%andb_true_iff Hk Hnin%bool_decide_eq_true <-.
  destruct (insert_in_tree two_bytes tbl t ks0 k Ht Hk Hnin) as (lost & _ & Hsafe & H); [unfold has_room, BUFFER_POOL_PAGE_NUM; lia|].
  rewrite Hsafe in H by (right; lia). destruct H as (t' & Hi & Ht' & _). by exists t'.
Qed.

Lemma demo_good a b tid : is_byte a → is_byte b → is_byte tid → good two_bytes (demo_key a b tid).
Proof. intros. split; [by apply demo_key_ok|]. change (key_len _) with 10. lia. Qed.

Definition demo_run (n : nat) : outcome btree :=
  insert_all 3 (BTreeIndex 3 ∅) (take n [demo_key 2 0 4; demo_key 1 5 9; demo_key 2 0 3]).

Lemma demo_tree : ∃ t, demo_run 3 = Ret t ∧ btree_keys two_bytes 3 True t demo_keys.
Proof.
  destruct (empty_tree two_bytes 3 ∅) as (t0 & H0 & K0 & _); [by vm_compute|].
  assert (E0 : ∃ t, demo_run 0 = Ret t ∧ btree_keys two_bytes 3 True t []) by (by exists t0).
  pose proof (insert_all_ok 3 (demo_run 0) [] [demo_key 2 0 4] (demo_key 2 0 4) E0) as E1.
  pose proof (insert_all_ok 3 (demo_run 1) [demo_key 2 0 4] [demo_key 1 5 9; demo_key 2 0 4] (demo_key 1 5 9)
    (E1 ltac:(by vm_compute) ltac:(by apply demo_good; vm_compute) eq_refl eq_refl)) as E2.
  exact (insert_all_ok 3 (demo_run 2) _ demo_keys (demo_key 2 0 3)
    (E2 ltac:(by vm_compute) ltac:(by apply demo_good; vm_compute) eq_refl eq_refl)
    ltac:(by vm_compute) ltac:(by apply demo_good; vm_compute) eq_refl eq_refl).
Qed.

(** ** The operations *)

(** C1: [Insert] into a tree from which nothing was deleted.  [separator_lost]
    says whether it splits a leaf, finds the parent full and the parent is not the
    root: then it reads the separator of the halves of the parent after its buffer
    was freed.  This does not happen while the tree has at most two levels or the
    nodes above the leaves have room for one more separator.  Otherwise it
    returns, whatever splits it takes up to a new root, and adds exactly the new
    key; it takes at most one page per level and one for a new root, and a tree of
    three levels or more does not become higher. *)
Theorem btree_insert_correct C `{!PrefixFree C} tbl t ks k :
  btree_keys C tbl True t ks → good C k → k ∉ ks → next_pid tbl t + root_level t + 2 ≤ BUFFER_POOL_PAGE_NUM →
  ∃ lost, separator_lost tbl t k k = Ret lost ∧ (level1_room 1 t ∨ root_level t ≤ 1 → lost = false) ∧
    if lost then BTree.Insert tbl t k = separator_freed
    else ∃ t', BTree.Insert tbl t k = Ret t' ∧ btree_keys C tbl True t' (key_insert k ks) ∧
      next_pid tbl t ≤ next_pid tbl t' ≤ next_pid tbl t + root_level t + 2 ∧ 0 ≤ root_level t' ≤ 16 ∧
      (root_level t' = root_level t ∨ root_level t ≤ 1 ∧ root_level t' = root_level t + 1).
Proof.
  intros Ht Hk Hn Hroom. destruct (insert_in_tree C tbl t ks k Ht Hk Hn Hroom) as (lost & Hl & Hsafe & H).
  exists lost. split; [done|]. split; [done|]. destruct lost; [done|]. destruct H as (t' & Hi & Ht' & [Hp Hh _]).
  exists t'. split_and!; try done; try lia; by eapply tree_height.
Qed.

Lemma btree_insert_correct_witness :
  ∃ t t', btree_keys two_bytes 3 True t demo_keys ∧ BTree.Insert 3 t (demo_key 2 0 200) = Ret t' ∧
    btree_keys two_bytes 3 True t' (demo_keys ++ [demo_key 2 0 200]).
Proof.
  destruct demo_tree as (t & Hr & Ht). exists t.
  assert (H : match demo_run 3 with Ret t => (root_level t =? 0) && (next_pid 3 t <? 100) | _ => false end = true)
    by (by vm_compute).
  rewrite Hr in H. apply andb_true_iff in H as [Hl%Z.eqb_eq Hn%Z.ltb_lt]. clear Hr.
  destruct (btree_insert_correct two_bytes 3 t demo_keys (demo_key 2 0 200)) as (lost & _ & Hsafe & H).
  - done.
  - by apply demo_good; vm_compute.
  - by apply (bool_decide_unpack _); vm_compute.
  - unfold BUFFER_POOL_PAGE_NUM. lia.
  - rewrite Hsafe in H by (right; lia). destruct H as (t' & Hi & Ht' & _). by exists t'.
Defined.

(** The freed separator is reached.  Take keys of 128 bytes: a code of 120
    bytes, as that of fifteen columns of eight bytes, and the tuple id.  A leaf
    has at most 62 of them and a node of level 1 at most 63 children.  While no
    separator is lost a tree has at most two nodes of level 1, so no tree that
    insertions alone make has more than 2 * 63 * 62 keys. *)
Definition long_code (c : list Z) : Prop := length c = 120%nat.

#[export] Instance long_code_free : PrefixFree long_code.
Proof.
  intros a b Ha Hb (c & ->). unfold long_code in *. rewrite length_app in Hb.
  destruct c; [by rewrite app_nil_r|cbn in Hb; lia].
Qed.

Lemma long_key_len k : good long_code k → key_len k = 128.
Proof.
  intros [(_ & H8 & Hc) H]. unfold long_code, key_prefix in Hc. rewrite length_take in Hc. unfold key_len in *. lia.
Qed.

(** [m] entries, and those of 128 bytes after them. *)
Lemma tight_capacity {E} `{!NodeFormat E} p (l : list E) fk m :
  node_abs p l fk → tight p l fk → Forall (λ e, key_len (nf_key e) = 128) (drop m l) → (length l ≤ m + 62)%nat.
Proof.
  intros Hr Ht HF. assert (Hf : 0 ≤ free_bytes p).
  { unfold free_bytes. rewrite (node_abs_count p l fk Hr). destruct Hr as (es & f & [[_ Hroom _ _ _] _ _] & <- & _).
    rewrite length_fmap. lia. }
  rewrite (tight_free p l fk Hr Ht), <- (take_drop m l) in Hf. rewrite entries_cost_app, length_app in Hf.
  assert (Hc : 129 * Z.of_nat (length (drop m l)) ≤ entries_cost (drop m l)).
  { clear -HF. induction HF as [|e k He HF IH]; [done|]. rewrite entries_cost_cons. cbn [length].
    pose proof (entry_cost_bounds e). pose proof nf_hdr_pos. lia. }
  pose proof (entries_cost_nonneg (take m l)).
  assert (0 ≤ fence_cost fk) by (destruct fk as [e|]; cbn; [pose proof (entry_cost_pos e)|]; lia).
  rewrite length_drop in *. unfold DB7_PAGE_SIZE, header_size_ in *. lia.
Qed.

Lemma entries_length {A} (ns : list (node A)) c :
  Forall (λ n, length (n_con n) ≤ c)%nat ns → (length (concat (n_con <$> ns)) ≤ c * length ns)%nat.
Proof. induction 1 as [|n ns Hn _ IH]; [cbn; lia|]. cbn [fmap list_fmap concat length]. rewrite length_app. lia. Qed.

Lemma leaf_capacity pg n next : leaf_node True pg n next → Forall (good long_code) (n_con n) → (length (n_con n) ≤ 62)%nat.
Proof.
  intros (p & _ & _ & _ & [Hr _] & _ & Ht) HF. apply (tight_capacity p _ _ 0 Hr (Ht I)).
  rewrite drop_0. eapply Forall_impl; [exact HF|]. apply long_key_len.
Qed.

Lemma inter_capacity lvl pg n next :
  inter_node lvl pg n next → Forall (sep_good long_code) (n_con n) → (length (n_con n) ≤ 63)%nat.
Proof.
  intros Hn HF. pose proof (inter_node_sorted _ _ _ _ Hn) as Hs. destruct Hn as (p & fe & _ & _ & _ & _ & [Hr _] & Ht & _).
  apply (tight_capacity p _ _ 1 Hr Ht). destruct (n_con n) as [|e l]; [constructor|]. cbn [drop].
  apply Forall_cons in HF as [_ HF]. apply StronglySorted_inv in Hs as [_ Hs]. rewrite Forall_forall in HF, Hs |- *.
  intros x Hx. destruct (HF x Hx) as [_ [E|Hk]]; [|by apply long_key_len].
  specialize (Hs x Hx). unfold sep_lt, lex_lt in Hs. rewrite E in Hs. by destruct e.2.
Qed.

(** The upper levels of a tree that lost no separator. *)
Definition small {A} (uppers : list (list A)) : Prop :=
  length <$> uppers ∈ [[]; [1%nat]; [2%nat; 1%nat]].

Lemma small_step {A} (uppers uppers' : list (list A)) : small uppers → height_step uppers uppers' → small uppers'.
Proof.
  unfold small. intros H [E|[Hl E]]; rewrite E; [done|]. destruct uppers as [|? [|]]; [| |cbn in Hl; lia].
  - right. by left.
  - right. right. by left.
Qed.

Lemma small_length {A} (uppers : list (list A)) : small uppers → (length uppers ≤ 2)%nat.
Proof.
  unfold small. rewrite <- (length_fmap length uppers). generalize (length <$> uppers). intros l.
  rewrite !elem_of_cons, elem_of_nil. intros [->|[->|[->|[]]]]; cbn; lia.
Qed.

Lemma small_keys tbl t leaves uppers :
  btree_inv long_code tbl True t leaves uppers → small uppers → Z.of_nat (length (concat (n_con <$> leaves))) ≤ 7812.
Proof.
  intros [H1 _ _ H4 H5 H6 _ _ _] Hs.
  assert (Hl : Forall (λ n, length (n_con n) ≤ 62)%nat leaves).
  { apply Forall_forall. intros n Hn. destruct (linked_elem _ _ _ _ H1 Hn) as [next Hp]. apply (leaf_capacity _ _ _ Hp).
    rewrite Forall_forall in H5 |- *. intros k Hk. apply H5, elem_of_entries. eauto. }
  apply entries_length in Hl. enough (length leaves ≤ 126)%nat by lia. rewrite <- (length_fmap sep_of).
  destruct uppers as [|us uppers]; cbn [uppers_ok] in H4; [rewrite H4; cbn; lia|]. destruct H4 as (Hu & E & _).
  assert (Hc : Forall (λ n, length (n_con n) ≤ 63)%nat us).
  { apply Forall_forall. intros n Hn. destruct (linked_elem _ _ _ _ Hu Hn) as [next Hp]. apply (inter_capacity _ _ _ _ Hp).
    rewrite <- E, Forall_forall in H6. apply Forall_forall. intros k Hk. apply H6, elem_of_entries. eauto. }
  apply entries_length in Hc. rewrite E in Hc. enough (length us ≤ 2)%nat by lia.
  unfold small in Hs. cbn [fmap list_fmap] in Hs. rewrite !elem_of_cons, elem_of_nil in Hs.
  destruct Hs as [Hs|[Hs|[Hs|[]]]]; [discriminate Hs|injection Hs; lia..].
Qed.

Lemma insert_all_freed tbl ks : insert_all tbl separator_freed ks = separator_freed.
Proof. by induction ks. Qed.

Lemma insert_all_small tbl ks t leaves uppers :
  btree_inv long_code tbl True t leaves uppers → Forall (Forall fat) uppers → small uppers →
  Forall (good long_code) ks → NoDup (ks ++ concat (n_con <$> leaves)) →
  next_pid tbl t + 4 * Z.of_nat (length ks) ≤ BUFFER_POOL_PAGE_NUM →
  7812 < Z.of_nat (length (ks ++ concat (n_con <$> leaves))) → insert_all tbl (Ret t) ks = separator_freed.
Proof.
  revert t leaves uppers; induction ks as [|k ks IH]; intros t leaves uppers Hi HF Hs Hks Hnd Hn Hlen.
  { pose proof (small_keys _ _ _ _ Hi Hs). cbn in Hlen. lia. }
  apply Forall_cons in Hks as [Hk Hks]. cbn [app length] in *. pose proof Hnd as [Hnin _]%NoDup_cons.
  pose proof (small_length _ Hs) as Hl. cbn [insert_all foldl]. rewrite bind_Ret.
  destruct (insert_in_levels long_code tbl t leaves uppers k Hi HF Hk) as (lost & _ & _ & H);
    [intros Hin; apply Hnin, elem_of_app; by right|lia|].
  destruct lost; [rewrite H; apply insert_all_freed|]. destruct H as (t' & leaves' & uppers' & -> & Hi' & E & HF' & Hn' & Hst & _).
  assert (HP : ks ++ concat (n_con <$> leaves') ≡ₚ k :: ks ++ concat (n_con <$> leaves)).
  { rewrite E, key_insert_perm. symmetry. apply Permutation_middle. }
  apply (IH t' leaves' uppers'); [done|by apply HF'|by eapply small_step|done|by rewrite HP|lia|].
  rewrite (Permutation_length HP). cbn [length]. lia.
Qed.

(** Any 7813 distinct keys of this size, inserted one after the other in an
    empty tree in whatever order, get to the freed separator. *)
Theorem separator_freed_reached ks :
  Forall (good long_code) ks → NoDup ks → 7812 < Z.of_nat (length ks) → insert_all 3 (BTreeIndex 3 ∅) ks = separator_freed.
Proof.
  intros Hks Hnd Hlen. destruct (empty_tree long_code 3 ∅) as (t & -> & Ht & Hl & Hn & _); [by vm_compute|].
  destruct Ht as (leaves & uppers & Hi & E & HF). rewrite (inv_root_level _ _ _ _ _ _ Hi) in Hl.
  destruct uppers; [|cbn in Hl; lia]. change (default 1 (∅ !! 3) + 1) with 2 in Hn.
  unfold insert_all. rewrite <- (take_drop (Z.to_nat 7813) ks), foldl_app. fold (insert_all 3 (Ret t) (take (Z.to_nat 7813) ks)).
  rewrite (insert_all_small 3 _ t leaves []); rewrite ?E, ?app_nil_r, ?length_take, ?Hn; try done.
  - apply insert_all_freed.
  - by left.
  - by apply Forall_take.
  - by eapply sublist_NoDup; [|apply sublist_take].
  - unfold BUFFER_POOL_PAGE_NUM. lia.
  - lia.
Qed.

(** The keys 1, 2, 3, ... *)
Definition long_key (i : Z) : Key := be_bytes 4 i ++ replicate 116 0 ++ be_bytes 8 i.

Lemma long_key_good i : good long_code (long_key i).
Proof.
  assert (Hl : length (long_key i) = 128%nat) by (unfold long_key; by rewrite !length_app, length_replicate, !length_be_bytes).
  split; [|unfold key_len; lia]. split; [|split; [lia|]].
  - unfold long_key, bytes_ok. rewrite !Forall_app. split; [apply be_bytes_ok|split; [|apply be_bytes_ok]].
    by apply Forall_replicate.
  - unfold long_code, key_prefix. rewrite length_take. lia.
Qed.

Lemma separator_freed_reached_witness : insert_all 3 (BTreeIndex 3 ∅) (long_key <$> seqZ 0 7813) = separator_freed.
Proof.
  apply separator_freed_reached.
  - apply Forall_fmap, Forall_forall. intros i _. apply long_key_good.
  - apply NoDup_fmap_2_strong; [|apply NoDup_seqZ]. intros i j Hi%elem_of_seqZ Hj%elem_of_seqZ E.
    apply app_inj_1 in E as [E _]; [|by rewrite !length_be_bytes].
    apply (f_equal be_val) in E. rewrite !be_val_be_bytes, !Z.mod_small in E by lia. done.
  - rewrite length_fmap, length_seqZ. lia.
Defined.

(** From tuple id 0 on, every key of the code matches. *)
Lemma matching_code C `{!PrefixFree C} k x :
  key_of C k → key_of C x → key_tid k = 0 → matching k x ↔ same_code k x.
Proof.
  intros Hk Hx H0. unfold matching, same_code. split; [tauto|]. intros E. split; [done|].
  unfold lex_lt. rewrite (key_lex C), E, lex_refl, H0 by done.
  assert (0 ≤ key_tid x).
  { destruct Hx as [Hx _]. apply le_val_range. by apply Forall_reverse, Forall_drop. }
  destruct (Z.compare_spec (key_tid x) 0); [done|lia|done].
Qed.

(** C2: [Get] with a key of tuple id 0 returns the tuple ids of exactly the
    keys with its code, in key order, over all the leaves that hold some. *)
Theorem btree_get_correct C `{!PrefixFree C} tbl T t ks k :
  btree_keys C tbl T t ks → good C k → key_tid k = 0 →
  BTree.Get t k = Ret (key_tid <$> filter (same_code k) ks).
Proof.
  intros Ht Hk H0. rewrite (Get_tree C tbl T t ks k Ht Hk). do 2 f_equal. apply filter_ext_in.
  destruct Ht as (leaves & uppers & Hi & <- & _). eapply Forall_impl; [exact (bi_keys _ _ _ _ _ _ Hi)|].
  intros x [Hx _]. apply (matching_code C); [apply Hk|done|done].
Qed.

Lemma btree_get_correct_witness :
  ∃ t, btree_keys two_bytes 3 True t demo_keys ∧ BTree.Get t (demo_key 2 0 0) = Ret [3; 4].
Proof.
  destruct demo_tree as (t & _ & Ht). exists t. split; [done|].
  rewrite (btree_get_correct two_bytes 3 True t demo_keys (demo_key 2 0 0) Ht); [by vm_compute| |by vm_compute].
  by apply demo_good; vm_compute.
Defined.

(** C3: [Delete] of a key of the tree returns and removes exactly it. *)
Theorem btree_delete_correct C `{!PrefixFree C} tbl T t ks k :
  btree_keys C tbl T t ks → good C k → k ∈ ks →
  ∃ t', BTree.Delete t k = Ret t' ∧ btree_keys C tbl False t' (key_delete k ks).
Proof. by apply Delete_tree. Qed.

Lemma btree_delete_correct_witness :
  ∃ t t', btree_keys two_bytes 3 True t demo_keys ∧ BTree.Delete t (demo_key 2 0 3) = Ret t' ∧
    btree_keys two_bytes 3 False t' [demo_key 1 5 9; demo_key 2 0 4].
Proof.
  destruct demo_tree as (t & _ & Ht). exists t.
  destruct (btree_delete_correct two_bytes 3 True t demo_keys (demo_key 2 0 3) Ht) as (t' & Hd & Ht').
  - by apply demo_good; vm_compute.
  - by apply (bool_decide_unpack _); vm_compute.
  - by exists t'.
Defined.

(** The constructor makes an empty tree of one leaf on the next page of
    the file. *)
Theorem btree_new_correct C `{!PrefixFree C} tbl ids :
  0 < default 1 (ids !! tbl) < BUFFER_POOL_PAGE_NUM →
  ∃ t, BTreeIndex tbl ids = Ret t ∧ btree_keys C tbl True t [] ∧ root_level t = 0 ∧
    next_pid tbl t = default 1 (ids !! tbl) + 1 ∧ ∀ n, level1_room n t.
Proof. by apply empty_tree. Qed.

Lemma btree_new_correct_witness : ∃ t, BTreeIndex 3 ∅ = Ret t ∧ btree_keys two_bytes 3 True t [] ∧ next_pid 3 t = 2.
Proof.
  destruct (btree_new_correct two_bytes 3 ∅) as (t & H1 & H2 & _ & H3 & _); [by vm_compute|].
  exists t. split; [done|]. split; [done|]. exact H3.
Defined.
