(* ===== verification/AccessTypes.v ===== *)
(** * Column types, schemas and inline values (access/)

    [type_id] and [SizeOf] (access_common.hpp), [TypeSize] and [AttrsFor]
    (index/header.hpp), [SchemaColumn], [Schema] and [IndexSchema], and the
    16-byte [VarlenEntry] (storage/varlen_entry.hpp). *)

From stdpp Require Import strings.
From S2P Require Import Prelude Bytes Shared Memory CatalogCommon.

(** ** access_common.hpp *)

Inductive type_id : Type :=
| BOOLEAN
| TINYINT | SMALLINT | INTEGER | BIGINT
| UTINYINT | USMALLINT | UINTEGER | UBIGINT
| DOUBLE
| VARCHAR | VARBINARY.

#[export] Instance type_id_eq_dec : EqDecision type_id.
Proof. solve_decision. Defined.

(** The value of the enumerator (u8). *)
Definition type_id_val (t : type_id) : Z :=
  match t with
  | BOOLEAN => 0
  | TINYINT => 1 | SMALLINT => 2 | INTEGER => 3 | BIGINT => 4
  | UTINYINT => 5 | USMALLINT => 6 | UINTEGER => 7 | UBIGINT => 8
  | DOUBLE => 9
  | VARCHAR => 10 | VARBINARY => 11
  end.

Definition SizeOf (t : type_id) : Z :=
  match t with
  | BOOLEAN | TINYINT | UTINYINT => 1
  | SMALLINT | USMALLINT => 2
  | INTEGER | UINTEGER => 4
  | BIGINT | UBIGINT | DOUBLE => 8
  | VARCHAR | VARBINARY => 16
  end.

(** Every size is a power of two, which the alignments rely on. *)
Lemma SizeOf_pow2 t : ∃ k, SizeOf t = 2 ^ k ∧ 0 ≤ k ≤ 4.
Proof. destruct t; [exists 0|exists 0|exists 1|exists 2|exists 3|exists 0|exists 1|exists 2|exists 3|exists 3|exists 4|exists 4]; cbn; lia. Qed.

Lemma SizeOf_range t : 1 ≤ SizeOf t ≤ 16.
Proof. by destruct t. Qed.

(** ** index/header.hpp *)

Record TypeSize := mkTypeSize { ts_col_id : Z; ts_type : type_id; ts_size : Z }.

Definition TypeSize_make (id : Z) (t : type_id) : TypeSize := mkTypeSize id t (SizeOf t).

Definition type_sizes (l : list (CatalogColumnOid * type_id)) : list TypeSize :=
  (λ p, TypeSize_make (CatalogColumnOid_val p.1) p.2) <$> l.

Definition AttrsFor (t : CatalogTableOid) : list TypeSize :=
  type_sizes
    match t with
    | PG_INDEX_DATABASE_DATOID => [(DATOID, INTEGER)]
    | PG_INDEX_DATABASE_DATNAME => [(DATNAME, VARCHAR)]
    | PG_INDEX_NAMESPACE_NSPOID => [(NSPOID, INTEGER)]
    | PG_INDEX_NAMESPACE_NSPNAME => [(NSPNAME, VARCHAR)]
    | PG_INDEX_CLASS_RELOID => [(RELOID, INTEGER)]
    | PG_INDEX_CLASS_RELNAME => [(RELNAME, VARCHAR)]
    | PG_INDEX_CLASS_RELNAMESPACE => [(RELNAMESPACE, INTEGER)]
    | PG_INDEX_ATTRIBUTE_ATTNUM => [(ATTNUM, SMALLINT)]
    | PG_INDEX_ATTRIBUTE_ATTRELID_ATTNAME => [(ATTRELID, INTEGER); (ATTNAME, VARCHAR)]
    | PG_INDEX_TYPE_TYPOID => [(TYPOID, INTEGER)]
    | PG_INDEX_TYPE_TYPNAME => [(TYPNAME, VARCHAR)]
    | PG_INDEX_TYPE_TYPNAMESPACE => [(TYPNAMESPACE, INTEGER)]
    | PG_INDEX_CONSTRAINT_CONOID => [(CONOID, INTEGER)]
    | PG_INDEX_CONSTRAINT_CONNAME => [(CONNAME, VARCHAR)]
    | PG_INDEX_CONSTRAINT_CONNAMESPACE => [(CONNAMESPACE, INTEGER)]
    | PG_INDEX_CONSTRAINT_CONRELID => [(CONRELID, INTEGER)]
    | PG_INDEX_CONSTRAINT_CONINDID => [(CONINDID, INTEGER)]
    | PG_INDEX_CONSTRAINT_CONFRELID => [(CONFRELID, INTEGER)]
    | PG_INDEX_LANGUAGE_LANOID => [(LANOID, INTEGER)]
    | PG_INDEX_LANGUAGE_LANNAME => [(LANNAME, VARCHAR)]
    | PG_INDEX_PROC_PROOID => [(PROOID, INTEGER)]
    | PG_INDEX_PROC_PRONAME => [(PRONAME, VARCHAR)]
    | PG_INDEX_INDEX_INDOID => [(INDOID, INTEGER)]
    | PG_INDEX_INDEX_INDRELID => [(INDRELID, INTEGER)]
    | _ => []
    end.

(** ** schema_column.hpp *)

Record SchemaColumn := mkSchemaColumn {
  sc_oid : Z;
  sc_type : type_id;
  sc_type_size : Z;
  sc_name : string;
  sc_position : Z;
  sc_nullable : bool
}.

(** [position_] is indeterminate until [SetPosition]; 0 here. *)
Definition SchemaColumn_make (oid : Z) (t : type_id) (name : string) : SchemaColumn :=
  mkSchemaColumn oid t (SizeOf t) name 0 false.

Definition SetPosition (c : SchemaColumn) (position : Z) : SchemaColumn :=
  mkSchemaColumn (sc_oid c) (sc_type c) (sc_type_size c) (sc_name c) position (sc_nullable c).

(** ** schema.hpp *)

Abbreviation Schema := (gmap Z SchemaColumn).

(** [mapping_[col.GetOid()] = col] for each column, at increasing positions. *)
Fixpoint schema_loop (columns : list SchemaColumn) (i : Z) (mapping : Schema) : Schema :=
  match columns with
  | [] => mapping
  | col :: columns =>
      let col := SetPosition col i in
      schema_loop columns (to_u32 (i + 1)) (<[sc_oid col := col]> mapping)
  end.

Definition Schema_make (columns : list SchemaColumn) : Schema := schema_loop columns 0 ∅.

(** [mapping_.at(id)] throws [std::out_of_range]. *)
Definition GetColumn (s : Schema) (id : Z) : outcome SchemaColumn :=
  match s !! id with
  | Some c => Ret c
  | None => Throw "out_of_range"
  end.

Definition Schema_GetCount (s : Schema) : Z := Z.of_nat (size s).

(** [index_schema.hpp]. *)
Record IndexSchema := mkIndexSchema {
  is_schema : Schema;
  IsUnique : bool;
  IsPrimary : bool;
  IsExclusion : bool;
  IsImmediate : bool
}.

Definition IndexSchema_make (columns : list SchemaColumn)
    (is_unique is_primary is_exclusion is_immediate : bool) : IndexSchema :=
  mkIndexSchema (Schema_make columns) is_unique is_primary is_exclusion is_immediate.

(** The columns of the schema, each at its index in the list given. *)
Definition place (columns : list SchemaColumn) (i : Z) : list SchemaColumn :=
  imap (λ n c, SetPosition c (i + Z.of_nat n)) columns.

Lemma schema_loop_ok columns i m :
  0 ≤ i → i + Z.of_nat (length columns) < 2 ^ 32 → NoDup (sc_oid <$> columns) →
  Forall (λ c, m !! sc_oid c = None) columns →
  schema_loop columns i m = list_to_map ((λ c, (sc_oid c, c)) <$> place columns i) ∪ m.
Proof.
  revert i m; induction columns as [|c cs IH]; intros i m Hi Hlt Hnd Hm; cbn [schema_loop length] in *.
  { symmetry. apply (left_id_L ∅ (∪)). }
  apply NoDup_cons in Hnd as [Hc Hnd]. apply Forall_cons in Hm as [Hmc Hm].
  rewrite (wrap_small 32) by lia. rewrite IH; [|lia|lia|done|].
  - unfold place. cbn [imap fmap list_fmap list_to_map foldr uncurry]. rewrite Z.add_0_r.
    rewrite <- insert_union_l, insert_union_r.
    + do 3 f_equal. apply imap_ext. intros n x _. cbn. f_equal. lia.
    + apply not_elem_of_list_to_map_1. rewrite <- list_fmap_compose. cbn [fst SetPosition sc_oid].
      intros Hin. apply Hc. apply list_elem_of_fmap in Hin as (x & Ex & Hx).
      apply elem_of_lookup_imap in Hx as (n & y & -> & Hy). cbn in Ex.
      apply list_elem_of_fmap. exists y. split; [done|]. apply list_elem_of_lookup. eauto.
  - eapply Forall_forall. intros x Hx. rewrite Forall_forall in Hm. cbn [SetPosition sc_oid].
    rewrite lookup_insert_ne; [by apply Hm|]. intros E. apply Hc. rewrite E. by apply list_elem_of_fmap_2.
Qed.

(** ** varlen_entry.hpp *)

Definition INLINE_SIZE_CAP : Z := 12.
Definition sizeof_VarlenEntry : Z := 16.

(** [size_], [prefix_] and the union: 4 + 12 bytes in memory order. *)
Record VarlenEntry := mkVarlenEntry { ve_size : Z; ve_inline : list Z }.

Definition VarlenEntry_bytes (e : VarlenEntry) : list Z := le_bytes 4 (ve_size e) ++ ve_inline e.

Definition IsInline (e : VarlenEntry) : bool := ve_size e <=? INLINE_SIZE_CAP.

(** [Set(data)]: copies the first 12 bytes whatever the size; [e] holds the
    bytes that were there before. *)
Definition VarlenEntry_Set (e : VarlenEntry) (data : list Z) : VarlenEntry :=
  let n := Z.to_nat (Z.min (Z.of_nat (length data)) INLINE_SIZE_CAP) in
  mkVarlenEntry (to_u32 (Z.of_nat (length data))) (take n data ++ drop n (ve_inline e)).

(** [Set(data, pid, offset)]: the prefix, and the place of the content. *)
Definition VarlenEntry_SetRef (e : VarlenEntry) (data : list Z) (pid offset : Z) : VarlenEntry :=
  let n := Nat.min (length data) 4 in
  mkVarlenEntry (to_u32 (Z.of_nat (length data)))
    (take n data ++ drop n (take 4 (ve_inline e)) ++ le_bytes 4 pid ++ le_bytes 4 offset).

Definition GetRef (e : VarlenEntry) : Z * Z :=
  (le_val (take 4 (drop 4 (ve_inline e))), le_val (drop 8 (ve_inline e))).

(** An inline string is read back whole; a longer one loses its tail. *)
Lemma VarlenEntry_Set_inline e data :
  length (ve_inline e) = 12%nat → Z.of_nat (length data) < 2 ^ 32 →
  IsInline (VarlenEntry_Set e data) = true →
  take (Z.to_nat (ve_size (VarlenEntry_Set e data))) (ve_inline (VarlenEntry_Set e data)) = data.
Proof.
  intros He Hd. unfold IsInline, VarlenEntry_Set, INLINE_SIZE_CAP. cbn [ve_size ve_inline].
  rewrite (wrap_small 32) by lia. intros H%Z.leb_le.
  replace (Z.to_nat (Z.min (Z.of_nat (length data)) 12)) with (length data) by lia.
  rewrite Nat2Z.id, firstn_all. by rewrite take_app_length.
Qed.

Lemma VarlenEntry_SetRef_GetRef e data pid offset :
  length (ve_inline e) = 12%nat → 0 ≤ pid < 2 ^ 32 → 0 ≤ offset < 2 ^ 32 →
  GetRef (VarlenEntry_SetRef e data pid offset) = (pid, offset).
Proof.
  intros He Hp Ho. unfold GetRef, VarlenEntry_SetRef. cbn [ve_inline]. set (n := Nat.min _ _).
  assert (Hl : length (take n data ++ drop n (take 4 (ve_inline e))) = 4%nat).
  { rewrite length_app, length_take, length_drop, length_take, He. unfold n. lia. }
  rewrite !(app_assoc (take n data)). set (a := take n data ++ _) in *.
  rewrite drop_app_length' by lia. rewrite take_app_length' by (by rewrite length_le_bytes).
  rewrite (app_assoc a), drop_app_length' by (rewrite length_app, length_le_bytes; lia).
  rewrite !le_val_le_bytes. by rewrite !Z.mod_small.
Qed.
