(* ===== verification/DataChunk.v ===== *)
(** * Data chunks (access/data_chunk.hpp, data_chunk.cpp)

    A [DataChunk] is one allocation: column count, total size, column ids,
    u16 offsets, then the column values at their offsets.  It is modelled as a
    byte memory addressed from [this], which [CreateDataChunk] aligns to 8. *)

From stdpp Require Import strings.
From S2P Require Import Prelude Bytes Shared Memory CatalogCommon AccessTypes.

Abbreviation DataChunk := mem.

Definition SIZE_PART : Z := 2 * 4.
Definition COLUMN_IDS_START : Z := to_u32 (AlignUp SIZE_PART 4).

(** ** DataChunkLayout *)

Record DataChunkLayout := mkDataChunkLayout {
  dl_column_count : Z;
  dl_total_size : Z;
  dl_header_size : Z;
  dl_header_underlying : mem
}.

(** The loop over the attribute sizes; writing past the [header_size] bytes
    of the header is undefined. *)
Fixpoint layout_loop (attr_sizes : list Z) (header : mem) (offsets header_size i total : Z) : outcome (mem * Z) :=
  match attr_sizes with
  | [] => Ret (header, total)
  | size :: attr_sizes =>
      let total := to_u32 (AlignUp total (Z.min size 8)) in
      _ ← in_bounds (offsets + 2 * i) 2 header_size "offsets_ptr past the header";
      let header := store 2 header (offsets + 2 * i) total in
      layout_loop attr_sizes header offsets header_size (i + 1) (to_u32 (total + size))
  end.

Definition DataChunkLayout_make (col_ids attr_sizes : list Z) : outcome DataChunkLayout :=
  let n := Z.of_nat (length col_ids) in
  let column_ids := 2 * 4 in
  let header_size := to_u32 (column_ids + 4 * n) in
  let offsets := to_u32 (AlignUp header_size 2) in
  let header_size := to_u32 (offsets + 2 * n) in
  let header := store 4 ∅ 0 n in
  let header := write_bytes header column_ids (concat (le_bytes 4 <$> col_ids)) in
  '(header, total_size) ← layout_loop attr_sizes header offsets header_size 0 header_size;
  let total_size := to_u32 (AlignUp total_size 8) in
  let header := store 4 header 4 total_size in
  Ret (mkDataChunkLayout (to_u32 n) total_size header_size header).

(** [DataChunkLayout(schema)]; [values] is the iteration order of the
    [unordered_map]. *)
Definition BuildColumnIds (values : Schema → list SchemaColumn) (s : Schema) : list Z := sc_oid <$> values s.
Definition BuildAttrSizes (values : Schema → list SchemaColumn) (s : Schema) : list Z :=
  (λ c, to_u16 (sc_type_size c)) <$> values s.
Definition DataChunkLayout_of_schema (values : Schema → list SchemaColumn) (s : Schema) : outcome DataChunkLayout :=
  DataChunkLayout_make (BuildColumnIds values s) (BuildAttrSizes values s).

(** [CreateDataChunk(dest)]: [dest] holds the bytes that were there. *)
Definition CreateDataChunk (l : DataChunkLayout) (dest : mem) : DataChunk :=
  write_bytes dest 0 (read_bytes (dl_header_underlying l) 0 (Z.to_nat (dl_header_size l))).

(** ** DataChunk *)
Module Chunk.

Definition GetColumnCount (c : DataChunk) : Z := load 4 c 0.
Definition GetSize (c : DataChunk) : Z := load 4 c 4.

Definition GetColumnIds (c : DataChunk) : list Z :=
  (λ i, load 4 c (COLUMN_IDS_START + 4 * i)) <$> seqZ 0 (GetColumnCount c).

Definition GetOffsetsPtr (c : DataChunk) : Z := AlignUp (COLUMN_IDS_START + 4 * GetColumnCount c) 4.
Definition GetDataPtr (c : DataChunk) : Z := GetOffsetsPtr c + 2 * GetColumnCount c.
Definition GetHeaderSize (c : DataChunk) : Z := to_u32 (GetDataPtr c).
Definition GetHeaderPtr (c : DataChunk) : list Z := read_bytes c 0 (Z.to_nat (GetHeaderSize c)).

(** [Access(idx)] as an address in the chunk. *)
Definition Access (c : DataChunk) (idx : Z) : Z := load 2 c (GetOffsetsPtr c + 2 * idx).

(** The index of the first column with the id. *)
Fixpoint find_column (ids : list Z) (idx oid : Z) : option Z :=
  match ids with
  | [] => None
  | id :: ids => if id =? oid then Some idx else find_column ids (idx + 1) oid
  end.

Definition Get (c : DataChunk) (oid : Z) : outcome Z :=
  match find_column (GetColumnIds c) 0 oid with
  | Some idx => Ret (Access c idx)
  | None => Throw "Tried to access invalid column"
  end.

(** Both [Write] overloads: [new_data] is the memory of the value written. *)
Definition Write (c : DataChunk) (oid : Z) (new_data : list Z) : DataChunk :=
  match find_column (GetColumnIds c) 0 oid with
  | Some idx => write_bytes c (Access c idx) new_data
  | None => c
  end.

(** ** Iterator: the index of the next column *)

Definition InitIterator : Z := 0.

(** [PushBack(span)]. *)
Definition PushBack (c : DataChunk) (it : Z) (new_data : list Z) : DataChunk * Z :=
  (write_bytes c (Access c it) new_data, it + 1).

(** [PushBack<T>]: asserts alignment to [al = alignof(T)]. *)
Definition PushBackT (al : Z) (c : DataChunk) (it : Z) (new_data : list Z) : outcome (DataChunk * Z) :=
  _ ← DB7_ASSERT (Access c it mod al =? 0) "unaligned write";
  Ret (PushBack c it new_data).

Definition Next (c : DataChunk) (it : Z) : Z * Z := (Access c it, it + 1).

End Chunk.

(** ** DataChunkBuilder *)
Module DataChunkBuilder.
Import Chunk.

Definition WriteCol (c : DataChunk) (col : CatalogColumnOid) (new_data : list Z) : DataChunk :=
  Write c (CatalogColumnOid_val col) new_data.

Section Builder.
(** The bytes of a [VarlenEntry] on the stack before [Set]. *)
Context (uninit : VarlenEntry).

Definition entry_of (data : list Z) : list Z := VarlenEntry_bytes (VarlenEntry_Set uninit data).

Definition BuildDatabaseChunk (c : DataChunk) (oid : Z) (name : list Z) : outcome DataChunk :=
  '(c, it) ← PushBackT 4 c InitIterator (le_bytes 4 oid);
  '(c, it) ← PushBackT 4 c it (entry_of name);
  Ret c.

Definition BuildNamespaceChunk (c : DataChunk) (oid : Z) (name : list Z) : DataChunk :=
  let c := WriteCol c NSPOID (le_bytes 4 oid) in
  WriteCol c NSPNAME (entry_of name).

Definition BuildNamespaceChunk_oid (c : DataChunk) (oid : Z) : DataChunk := WriteCol c NSPOID (le_bytes 4 oid).

Definition BuildClassChunk_oid (c : DataChunk) (oid : Z) : DataChunk := WriteCol c RELOID (le_bytes 4 oid).

Definition BuildClassChunk (c : DataChunk) (oid : Z) (name : list Z) (namespace_oid kind : Z)
    (options : list Z) : DataChunk :=
  let c := WriteCol c RELOID (le_bytes 4 oid) in
  let c := WriteCol c RELNAME (entry_of name) in
  let c := WriteCol c RELNAMESPACE (le_bytes 4 namespace_oid) in
  let c := WriteCol c RELKIND (le_bytes 1 kind) in
  WriteCol c RELOPTIONS (entry_of options).

(** [type_oid] is a one-byte [type_id]. *)
Definition BuildAttributeChunk (c : DataChunk) (oid rel_oid : Z) (name : list Z) (type_oid : type_id)
    (attr_len : Z) (not_null : bool) : DataChunk :=
  let c := WriteCol c ATTNUM (le_bytes 4 oid) in
  let c := WriteCol c ATTRELID (le_bytes 4 rel_oid) in
  let c := WriteCol c ATTNAME (entry_of name) in
  let c := WriteCol c ATTTYPID (le_bytes 1 (type_id_val type_oid)) in
  let c := WriteCol c ATTLEN (le_bytes 2 attr_len) in
  WriteCol c ATTNOTNULL (le_bytes 1 (Z.b2z not_null)).

Definition BuildIndexChunk (c : DataChunk) (oid rel_oid : Z)
    (is_unique is_primary is_exclusion is_imediate is_valid is_ready is_live : bool) (index_type : Z) : DataChunk :=
  let c := WriteCol c INDOID (le_bytes 4 oid) in
  let c := WriteCol c INDRELID (le_bytes 4 rel_oid) in
  let c := WriteCol c INDISUNIQUE (le_bytes 1 (Z.b2z is_unique)) in
  let c := WriteCol c INDISPRIMARY (le_bytes 1 (Z.b2z is_primary)) in
  let c := WriteCol c INDISEXCLUSION (le_bytes 1 (Z.b2z is_exclusion)) in
  let c := WriteCol c INDIMMEDIATE (le_bytes 1 (Z.b2z is_imediate)) in
  let c := WriteCol c INDISVALID (le_bytes 1 (Z.b2z is_valid)) in
  let c := WriteCol c INDISREADY (le_bytes 1 (Z.b2z is_ready)) in
  let c := WriteCol c INDISLIVE (le_bytes 1 (Z.b2z is_live)) in
  WriteCol c IND_TYPE (le_bytes 1 index_type).

Definition BuildConstraintChunk (c : DataChunk) (oid : Z) (props : ConstraintProps) : DataChunk :=
  let c := WriteCol c CONOID (le_bytes 4 oid) in
  let c := WriteCol c CONNAME (entry_of (name props)) in
  let c := WriteCol c CONNAMESPACE (le_bytes 4 (ns_oid props)) in
  let c := WriteCol c CONTYPE (le_bytes 1 (ConType_ToChar (con_type props))) in
  let c := WriteCol c CONDEFERRABLE (le_bytes 1 (Z.b2z (defferable props))) in
  let c := WriteCol c CONDEFFERED (le_bytes 1 (Z.b2z (deffered props))) in
  let c := WriteCol c CONVALIDATED (le_bytes 1 (Z.b2z (validated props))) in
  let c := WriteCol c CONRELID (le_bytes 4 (rel_oid props)) in
  let c := WriteCol c CONINDID (le_bytes 4 (ind_oid props)) in
  WriteCol c CONFRELID (le_bytes 4 (for_oid props)).
End Builder.
End DataChunkBuilder.

(** ** Layout *)

(** The sizes [SizeOf] gives. *)
Definition valid_size (s : Z) : Prop := s ∈ [1; 2; 4; 8; 16].

#[export] Instance valid_size_dec s : Decision (valid_size s).
Proof. unfold valid_size. apply _. Defined.

Lemma SizeOf_valid t : valid_size (SizeOf t).
Proof. apply (bool_decide_unpack _). by destruct t. Qed.

Lemma valid_size_align s : valid_size s → ∃ k, Z.min s 8 = 2 ^ k ∧ 0 ≤ k ≤ 3 ∧ 1 ≤ s ≤ 16.
Proof.
  unfold valid_size. rewrite !elem_of_cons, elem_of_nil.
  intros [->|[->|[->|[->|[->|[]]]]]];
    [exists 0|exists 1|exists 2|exists 3|exists 3]; cbn; lia.
Qed.

(** Where the fields go from [start] on, and where they end. *)
Fixpoint field_offsets (start : Z) (sizes : list Z) : list Z :=
  match sizes with
  | [] => []
  | s :: sizes => let o := AlignUp start (Z.min s 8) in o :: field_offsets (o + s) sizes
  end.

Fixpoint fields_end (start : Z) (sizes : list Z) : Z :=
  match sizes with
  | [] => start
  | s :: sizes => fields_end (AlignUp start (Z.min s 8) + s) sizes
  end.

(** Fields in increasing, disjoint, aligned places of [lo, hi). *)
Fixpoint placed (lo : Z) (offs sizes : list Z) (hi : Z) : Prop :=
  match offs, sizes with
  | [], [] => lo ≤ hi
  | o :: offs, s :: sizes => lo ≤ o ∧ 0 < s ∧ o mod Z.min s 8 = 0 ∧ placed (o + s) offs sizes hi
  | _, _ => False
  end.

Lemma placed_weaken lo lo' offs sizes hi hi' :
  lo' ≤ lo → hi ≤ hi' → placed lo offs sizes hi → placed lo' offs sizes hi'.
Proof.
  revert lo lo' sizes; induction offs as [|o offs IH]; intros lo lo' [|s sizes] H1 H2; cbn; [lia|done|done|].
  intros (? & ? & ? & H). split_and!; [lia|done|done|]. eapply IH; [|exact H2|exact H]. lia.
Qed.

Lemma placed_lookup lo offs sizes hi i o s :
  placed lo offs sizes hi → offs !! i = Some o → sizes !! i = Some s →
  lo ≤ o ∧ 0 < s ∧ o + s ≤ hi ∧ o mod Z.min s 8 = 0.
Proof.
  revert lo sizes i; induction offs as [|o' offs IH]; intros lo [|s' sizes] [|i]; cbn; try done.
  - intros (H1 & H2 & H3 & H) [= ->] [= ->]. split_and!; [done|done| |done].
    assert (Hmono : ∀ offs sizes lo, placed lo offs sizes hi → lo ≤ hi).
    { clear. induction offs as [|o offs IH]; intros [|s sizes] lo; cbn; try done.
      intros (? & ? & ? & H). apply IH in H. lia. }
    by apply Hmono in H.
  - intros (H1 & H2 & H3 & H) Ho Hs. destruct (IH _ _ _ H Ho Hs) as (? & ? & ? & ?). split_and!; (done || lia).
Qed.

Lemma placed_disjoint lo offs sizes hi (i j : nat) o s o' s' :
  placed lo offs sizes hi → offs !! i = Some o → sizes !! i = Some s →
  offs !! j = Some o' → sizes !! j = Some s' → (i < j)%nat → o + s ≤ o'.
Proof.
  revert lo sizes i j; induction offs as [|a offs IH]; intros lo [|b sizes] [|i] [|j]; cbn; try done; try lia.
  - intros (H1 & H2 & H3 & H) [= ->] [= ->] Ho' Hs' _. by destruct (placed_lookup _ _ _ _ _ _ _ H Ho' Hs').
  - intros (H1 & H2 & H3 & H) Ho Hs Ho' Hs' Hij. eapply (IH _ _ i j); eauto. lia.
Qed.

Lemma placed_length lo offs sizes hi : placed lo offs sizes hi → length offs = length sizes.
Proof. revert lo sizes; induction offs as [|o offs IH]; intros lo [|s sizes]; cbn; try done. intros (_ & _ & _ & H). f_equal. eauto. Qed.

Lemma field_align start s :
  valid_size s → 0 ≤ start < 2 ^ 32 →
  start ≤ AlignUp start (Z.min s 8) < start + 8 ∧ AlignUp start (Z.min s 8) mod Z.min s 8 = 0 ∧ 1 ≤ s ≤ 16.
Proof.
  intros Hs Hst. destruct (valid_size_align s Hs) as (k & -> & Hk & Hr).
  assert (2 ^ k ≤ 2 ^ 3) by (apply Z.pow_le_mono_r; lia).
  destruct (AlignUp_spec start k) as [H1 H2]; [lia..|]. split_and!; (done || lia).
Qed.

Lemma fields_placed sizes start :
  Forall valid_size sizes → 0 ≤ start → start + 24 * Z.of_nat (length sizes) < 2 ^ 32 →
  placed start (field_offsets start sizes) sizes (fields_end start sizes) ∧
  start ≤ fields_end start sizes ≤ start + 24 * Z.of_nat (length sizes).
Proof.
  revert start; induction sizes as [|s sizes IH]; intros start Hv H0 Hlt; cbn [field_offsets fields_end placed length] in *; [lia|].
  apply Forall_cons in Hv as [Hs Hv]. destruct (field_align start s Hs) as (H1 & H2 & H3); [lia|].
  destruct (IH (AlignUp start (Z.min s 8) + s) Hv) as [IH1 IH2]; [lia|lia|].
  split_and!; (done || lia).
Qed.

Lemma layout_loop_ok sizes header offsets header_size i total :
  Forall valid_size sizes → 0 ≤ offsets → 0 ≤ i → offsets + 2 * (i + Z.of_nat (length sizes)) ≤ header_size →
  0 ≤ total → total + 24 * Z.of_nat (length sizes) < 2 ^ 16 →
  ∃ header', layout_loop sizes header offsets header_size i total = Ret (header', fields_end total sizes) ∧
    (∀ x, x < offsets + 2 * i ∨ header_size ≤ x → rd header' x = rd header x) ∧
    (∀ (n : nat) o, field_offsets total sizes !! n = Some o → load 2 header' (offsets + 2 * (i + Z.of_nat n)) = o).
Proof.
  revert header i total; induction sizes as [|s sizes IH]; intros header i total Hv Ho Hi Hh Ht Hlt; cbn [layout_loop].
  { exists header. split_and!; [done|done|]. by intros n o. }
  apply Forall_cons in Hv as [Hs Hv]. cbn [length] in *.
  destruct (field_align total s Hs) as (H1 & H2 & H3); [lia|]. cbn [fields_end field_offsets].
  set (o := AlignUp total (Z.min s 8)) in *. rewrite (wrap_small 32 o) by lia. cbv zeta.
  rewrite in_bounds_true, bind_Ret by lia. rewrite (wrap_small 32) by lia.
  destruct (IH (store 2 header (offsets + 2 * i) o) (i + 1) (o + s) Hv) as (h' & Hl & Hfr & Hof); [lia..|].
  exists h'. split; [done|]. split.
  - intros x Hx. rewrite Hfr by lia. unfold store. apply rd_write_out. rewrite length_le_bytes. lia.
  - intros [|n] v; cbn [lookup list_lookup].
    + intros [= <-]. rewrite Z.add_0_r. unfold load.
      rewrite (read_bytes_ext _ (store 2 header (offsets + 2 * i) o)).
      * change (load 2 (store 2 header (offsets + 2 * i) o) (offsets + 2 * i) = o).
        rewrite load_store_same. apply Z.mod_small. lia.
      * intros x Hx. apply Hfr. lia.
    + intros Hn. rewrite <- (Hof n v Hn). f_equal. lia.
Qed.

(** ** A well-formed chunk

    [ids]: its columns; [sizes] and [offs]: the sizes and places of the values. *)
Definition header_end (ids : list Z) : Z := 8 + 6 * Z.of_nat (length ids).

Record chunk_ok (c : DataChunk) (ids sizes offs : list Z) (total : Z) : Prop := {
  co_count : Chunk.GetColumnCount c = Z.of_nat (length ids);
  co_size : Chunk.GetSize c = total;
  co_ids : Chunk.GetColumnIds c = ids;
  co_access : ∀ (i : nat) o, offs !! i = Some o → Chunk.Access c (Z.of_nat i) = o;
  co_placed : placed (header_end ids) offs sizes total;
  co_length : length sizes = length ids
}.

Lemma COLUMN_IDS_START_eq : COLUMN_IDS_START = 8.
Proof. by vm_compute. Qed.

Lemma AlignUp_same a k : 0 ≤ k < 60 → 0 ≤ a < 2 ^ 40 → a mod 2 ^ k = 0 → AlignUp a (2 ^ k) = a.
Proof.
  intros Hk Ha Hm. assert (2 ^ k ≤ 2 ^ 60) by (apply Z.pow_le_mono_r; lia).
  destruct (AlignUp_spec a k) as [H1 H2]; [lia..|].
  assert (Hp : 0 < 2 ^ k) by (apply Z.pow_pos_nonneg; lia).
  pose proof (Z.div_mod a (2 ^ k) ltac:(lia)) as E1. pose proof (Z.div_mod (AlignUp a (2 ^ k)) (2 ^ k) ltac:(lia)) as E2.
  rewrite Hm in E1. rewrite H1 in E2. revert H2 E1 E2 Hp. generalize (2 ^ k), (AlignUp a (2 ^ k)). clear.
  intros d A H2 E1 E2 Hp. assert (A / d = a / d) by nia. congruence.
Qed.

Lemma GetOffsetsPtr_eq c n :
  Chunk.GetColumnCount c = n → 0 ≤ n < 2 ^ 32 → Chunk.GetOffsetsPtr c = 8 + 4 * n.
Proof.
  intros Hc Hn. unfold Chunk.GetOffsetsPtr. rewrite Hc, COLUMN_IDS_START_eq.
  apply (AlignUp_same _ 2); [lia|lia|]. change (2 ^ 2) with 4.
  replace (8 + 4 * n) with ((2 + n) * 4) by lia. apply Z_mod_mult.
Qed.

Lemma load_ext n m m' a : (∀ x, a ≤ x < a + Z.of_nat n → rd m x = rd m' x) → load n m a = load n m' a.
Proof. intros H. unfold load. by rewrite (read_bytes_ext m m' a n H). Qed.

(** Only the header matters. *)
Lemma chunk_ok_header c c' ids sizes offs total :
  (∀ x, 0 ≤ x < header_end ids → rd c' x = rd c x) → Z.of_nat (length ids) < 2 ^ 32 →
  chunk_ok c ids sizes offs total → chunk_ok c' ids sizes offs total.
Proof.
  unfold header_end. intros Hx Hn [H1 H2 H3 H4 H5 H6].
  assert (E1 : Chunk.GetColumnCount c' = Z.of_nat (length ids)).
  { rewrite <- H1. apply load_ext. intros. apply Hx. lia. }
  split; try done.
  - rewrite <- H2. apply load_ext. intros. apply Hx. lia.
  - rewrite <- H3. unfold Chunk.GetColumnIds. rewrite E1, H1, COLUMN_IDS_START_eq.
    apply list_fmap_ext. intros i k Hk. apply lookup_seqZ in Hk as [-> Hk].
    apply load_ext. intros. apply Hx. lia.
  - intros i o Ho. rewrite <- (H4 i o Ho). unfold Chunk.Access.
    assert (i < length ids)%nat.
    { rewrite <- H6, <- (placed_length _ _ _ _ H5). by apply lookup_lt_Some in Ho. }
    rewrite (GetOffsetsPtr_eq c' _ E1), (GetOffsetsPtr_eq c _ H1) by lia.
    apply load_ext. intros. apply Hx. lia.
Qed.

Lemma find_column_ok ids (i : nat) k id :
  NoDup ids → ids !! i = Some id → Chunk.find_column ids k id = Some (k + Z.of_nat i).
Proof.
  intros Hnd. revert i k; induction ids as [|x ids IH]; intros [|i] k; cbn; try done.
  - intros [= ->]. rewrite Z.eqb_refl. f_equal. lia.
  - intros Hi. apply NoDup_cons in Hnd as [Hx Hnd]. rewrite (proj2 (Z.eqb_neq x id)).
    + rewrite (IH Hnd i (k + 1)) by done. f_equal. lia.
    + intros ->. apply Hx. apply list_elem_of_lookup. eauto.
Qed.

Section Fields.
Context (c : DataChunk) (ids sizes offs : list Z) (total : Z).
Context (Hok : chunk_ok c ids sizes offs total) (Hnd : NoDup ids) (Hlen : Z.of_nat (length ids) < 2 ^ 32).

Lemma chunk_field (i : nat) id :
  ids !! i = Some id → ∃ o s, offs !! i = Some o ∧ sizes !! i = Some s.
Proof.
  intros Hi. apply lookup_lt_Some in Hi. destruct Hok as [_ _ _ _ Hp Hl].
  destruct (lookup_lt_is_Some_2 offs i) as [o Ho]; [rewrite (placed_length _ _ _ _ Hp); lia|].
  destruct (lookup_lt_is_Some_2 sizes i) as [s Hs]; [lia|]. eauto.
Qed.

Lemma ChunkGet_ok (i : nat) id o : ids !! i = Some id → offs !! i = Some o → Chunk.Get c id = Ret o.
Proof.
  intros Hi Ho. unfold Chunk.Get. rewrite (co_ids _ _ _ _ _ Hok), (find_column_ok ids i 0 id Hnd Hi).
  f_equal. by apply (co_access _ _ _ _ _ Hok).
Qed.

Lemma Get_missing id : id ∉ ids → ∃ msg, Chunk.Get c id = Throw msg.
Proof.
  intros Hn. unfold Chunk.Get. rewrite (co_ids _ _ _ _ _ Hok).
  assert (E : ∀ k, Chunk.find_column ids k id = None); [|rewrite E; by eexists].
  clear -Hn. induction ids as [|x l IH]; intros k; cbn; [done|].
  apply not_elem_of_cons in Hn as [Hx Hn]. rewrite (proj2 (Z.eqb_neq x id)); [by apply IH|congruence].
Qed.

(** A value written within its field leaves the header and the other fields. *)
Lemma write_field (i : nat) o s data :
  offs !! i = Some o → sizes !! i = Some s → Z.of_nat (length data) ≤ s →
  let c' := write_bytes c o data in
  chunk_ok c' ids sizes offs total ∧ read_bytes c' o (length data) = data ∧
  ∀ (j : nat) o' s', j ≠ i → offs !! j = Some o' → sizes !! j = Some s' →
    read_bytes c' o' (Z.to_nat s') = read_bytes c o' (Z.to_nat s').
Proof.
  intros Ho Hs Hd. cbv zeta. destruct (placed_lookup _ _ _ _ _ _ _ (co_placed _ _ _ _ _ Hok) Ho Hs) as (P1 & P2 & P3 & _).
  split_and!.
  - eapply chunk_ok_header; [|exact Hlen|exact Hok]. intros x Hx. apply rd_write_out. lia.
  - apply read_write_same.
  - intros j o' s' Hj Ho' Hs'. pose proof (co_placed _ _ _ _ _ Hok) as Hp.
    destruct (placed_lookup _ _ _ _ _ _ _ Hp Ho' Hs') as (Q1 & Q2 & Q3 & _).
    apply read_write_disj. rewrite Z2Nat.id by lia.
    destruct (Nat.lt_ge_cases i j).
    + pose proof (placed_disjoint _ _ _ _ i j _ _ _ _ Hp Ho Hs Ho' Hs'). lia.
    + pose proof (placed_disjoint _ _ _ _ j i _ _ _ _ Hp Ho' Hs' Ho Hs). lia.
Qed.

Lemma Write_ok (i : nat) id o data :
  ids !! i = Some id → offs !! i = Some o → Chunk.Write c id data = write_bytes c o data.
Proof.
  intros Hi Ho. unfold Chunk.Write. rewrite (co_ids _ _ _ _ _ Hok), (find_column_ok ids i 0 id Hnd Hi).
  f_equal. by apply (co_access _ _ _ _ _ Hok).
Qed.
End Fields.

(** ** A new chunk *)

Lemma length_ids (k : list Z) : length (concat (le_bytes 4 <$> k)) = (4 * length k)%nat.
Proof.
  induction k as [|x k IH]; [done|]. change (le_bytes 4 <$> x :: k) with (le_bytes 4 x :: (le_bytes 4 <$> k)).
  cbn [concat length]. rewrite length_app, length_le_bytes, IH. lia.
Qed.

Lemma read_concat m a (l : list Z) (i : nat) v :
  (∀ x, a ≤ x < a + 4 * Z.of_nat (length l) → rd m x = rd (write_bytes ∅ a (concat (le_bytes 4 <$> l))) x) →
  l !! i = Some v → load 4 m (a + 4 * Z.of_nat i) = v mod 2 ^ 32.
Proof.
  intros Hm Hi. assert (Hl := lookup_lt_Some _ _ _ Hi).
  rewrite (load_ext 4 m (write_bytes ∅ a (concat (le_bytes 4 <$> l)))) by (intros; apply Hm; lia).
  rewrite <- (take_drop_middle l i v Hi), fmap_app, concat_app.
  rewrite write_bytes_app, length_ids, length_take. replace (Nat.min i (length l)) with i by lia.
  cbn [fmap list_fmap concat]. rewrite write_bytes_app, length_le_bytes.
  replace (a + Z.of_nat (4 * i)) with (a + 4 * Z.of_nat i) by lia.
  rewrite (load_ext 4 _ (store 4 (write_bytes ∅ a (concat (le_bytes 4 <$> take i l))) (a + 4 * Z.of_nat i) v)).
  - by rewrite load_store_same.
  - intros x Hx. unfold store. rewrite rd_write_out; [done|lia].
Qed.

Lemma layout_make_ok ids sizes :
  Forall valid_size sizes → length sizes = length ids → Forall (λ id, 0 ≤ id < 2 ^ 32) ids →
  Z.of_nat (length ids) ≤ 2000 →
  ∃ l total, DataChunkLayout_make ids sizes = Ret l ∧ dl_total_size l = total ∧
    dl_column_count l = Z.of_nat (length ids) ∧ dl_header_size l = header_end ids ∧
    total mod 8 = 0 ∧ fields_end (header_end ids) sizes ≤ total ∧
    ∀ dest, chunk_ok (CreateDataChunk l dest) ids sizes (field_offsets (header_end ids) sizes) total.
Proof.
  intros Hv Hl Hid Hn. unfold DataChunkLayout_make. set (n := Z.of_nat (length ids)) in *. cbv zeta.
  rewrite (wrap_small 32 (2 * 4 + 4 * n)) by lia.
  assert (EA : AlignUp (2 * 4 + 4 * n) 2 = 2 * 4 + 4 * n).
  { apply (AlignUp_same _ 1); [lia|lia|]. change (2 ^ 1) with 2.
    replace (2 * 4 + 4 * n) with ((4 + 2 * n) * 2) by lia. apply Z_mod_mult. }
  rewrite EA.
  rewrite (wrap_small 32 (2 * 4 + 4 * n)), (wrap_small 32 (2 * 4 + 4 * n + 2 * n)) by lia.
  replace (2 * 4 + 4 * n + 2 * n) with (header_end ids) by (unfold header_end; lia).
  set (h0 := write_bytes (store 4 ∅ 0 n) (2 * 4) (concat (le_bytes 4 <$> ids))).
  destruct (fields_placed sizes (header_end ids) Hv) as [Hp He]; [unfold header_end; lia..|].
  destruct (layout_loop_ok sizes h0 (2 * 4 + 4 * n) (header_end ids) 0 (header_end ids) Hv)
    as (h & -> & Hfr & Hof); [unfold header_end in *; lia..|].
  rewrite bind_Ret. set (fe := fields_end _ _) in *.
  assert (Hb : 0 ≤ header_end ids ≤ 12008) by (unfold header_end; lia).
  destruct (AlignUp_spec fe 3) as [A1 A2]; [lia..|]. change (2 ^ 3) with 8 in *.
  rewrite (wrap_small 32 (AlignUp fe 8)) by lia. set (total := AlignUp fe 8) in *.
  eexists _, total. split; [done|]. cbn [dl_total_size dl_column_count dl_header_size].
  split; [done|]. split; [apply wrap_small; lia|]. split; [done|]. split; [done|]. split; [lia|].
  intros dest. unfold CreateDataChunk. cbn [dl_header_underlying dl_header_size].
  set (h1 := store 4 h 4 total). set (c := write_bytes dest 0 _).
  assert (Hc : ∀ x, 0 ≤ x < header_end ids → rd c x = rd h1 x).
  { intros x Hx. assert (E : read_bytes c 0 (Z.to_nat (header_end ids)) = read_bytes h1 0 (Z.to_nat (header_end ids))).
    { unfold c. rewrite <- (length_read_bytes h1 0 (Z.to_nat (header_end ids))) at 2. apply read_write_same. }
    apply (f_equal (λ l, l !! Z.to_nat x)) in E. rewrite !lookup_read_bytes in E by lia.
    rewrite Z2Nat.id in E by lia. by injection E. }
  assert (Hcnt : Chunk.GetColumnCount c = n).
  { unfold Chunk.GetColumnCount. rewrite (load_ext 4 c (store 4 ∅ 0 n)).
    - rewrite load_store_same. apply Z.mod_small. lia.
    - intros x Hx. rewrite Hc by (unfold header_end; lia). unfold h1, store at 1.
      rewrite rd_write_out by lia. rewrite Hfr by lia. unfold h0. rewrite rd_write_out; [done|lia]. }
  split; try done.
  - unfold Chunk.GetSize. rewrite (load_ext 4 c h1) by (intros; apply Hc; unfold header_end; lia).
    unfold h1. rewrite load_store_same. apply Z.mod_small. lia.
  - unfold Chunk.GetColumnIds. rewrite Hcnt, COLUMN_IDS_START_eq. apply list_eq. intros i.
    rewrite list_lookup_fmap. destruct (ids !! i) as [id|] eqn:Ei.
    + pose proof (lookup_lt_Some _ _ _ Ei). rewrite lookup_seqZ_lt by lia. cbn [fmap option_fmap option_map].
      f_equal. rewrite Z.add_0_l, (read_concat c 8 ids i id); [|clear Hp; intros x Hx|done].
      * apply Z.mod_small. rewrite Forall_lookup in Hid. by eapply Hid.
      * rewrite Hc by (unfold header_end; lia). unfold h1, store at 1. rewrite rd_write_out by (cbn; lia).
        rewrite Hfr by lia. unfold h0. change (2 * 4) with 8.
        apply rd_write_same_data. rewrite length_ids. lia.
    + apply lookup_ge_None in Ei. rewrite lookup_seqZ_ge by lia. done.
  - intros i o Ho. unfold Chunk.Access. rewrite (GetOffsetsPtr_eq c n Hcnt) by lia.
    assert (i < length ids)%nat.
    { rewrite <- Hl, <- (placed_length _ _ _ _ Hp). by apply lookup_lt_Some in Ho. }
    rewrite <- (Hof i o Ho). change (2 * 4) with 8. rewrite Z.add_0_l. apply load_ext. intros x Hx.
    rewrite Hc by (unfold header_end; lia). unfold h1, store. rewrite rd_write_out; [done|cbn; lia].
  - eapply placed_weaken; [reflexivity| |exact Hp]. lia.
Qed.
