(* ===== verification/KeyEncoder.v ===== *)
(** * Index keys (access/key_encoder.hpp)

    [KeyNormEncoder] turns the columns of a chunk into bytes whose
    lexicographic order is the order of the values, and appends the tuple id.
    Encoders return the bytes they write at [buf]; [room] is what is left of
    the key buffer, and writing more is undefined. *)

From stdpp Require Import strings.
From S2P Require Import Prelude Bytes Shared Memory CatalogCommon AccessTypes DataChunk SlottedPage.
From S2P Require Import LeafFacts.

Record KeySpecs := mkKeySpecs { is_nullable : bool; is_case_sensitive : bool }.

(** The conversion to a signed type of [w] bits. *)
Definition to_signed (w x : Z) : Z := if x <? 2 ^ (w - 1) then x else x - 2 ^ w.

(** The C++ types [Encode<T>] is instantiated at, with the value: integers of
    [n] bytes, a double as its IEEE 754 bits, a span of bytes. *)
Inductive value :=
| VSigned (n : nat) (data : Z)
| VUnsigned (n : nat) (data : Z)
| VDouble (bits : Z)
| VSpan (data : list Z).

(** [d == 0.0] and [std::isnan(d)] on the bits. *)
Definition double_is_zero (u : Z) : bool := u mod 2 ^ 63 =? 0.
Definition double_is_nan (u : Z) : bool := 0x7ff0000000000000 <? u mod 2 ^ 63.
Definition quiet_NaN : Z := 0x7ff8000000000000.

Module KeyNormEncoder.

Definition put (room : Z) (bs : list Z) : outcome (list Z) :=
  _ ← in_bounds 0 (Z.of_nat (length bs)) room "write past the key buffer";
  Ret bs.

Definition EncodeUnsigned (n : nat) (data : Z) : list Z := le_bytes n (ByteSwapIfLittleEndian n data).

Definition EncodeSigned (n : nat) (data : Z) : list Z :=
  let w := 8 * Z.of_nat n in
  let u := wrap w data in
  let u := Z.lxor u (wrap w (Z.shiftl 1 (w - 1))) in
  le_bytes n (ByteSwapIfLittleEndian n u).

Definition EncodeDouble (d : Z) : list Z :=
  let d := if double_is_zero d then 0 else if double_is_nan d then quiet_NaN else d in
  let u := d in
  let mask := if negb (Z.shiftr u 63 =? 0) then not64 0 else to_u64 (Z.shiftl 1 63) in
  let u := Z.lxor u mask in
  le_bytes 8 (ByteSwapIfLittleEndian 8 u).

Section Encode.
(** [utf8proc_decompose] with [UTF8PROC_DECOMPOSE | UTF8PROC_STABLE] and, when
    the flag is set, [UTF8PROC_CASEFOLD]: an error code or the code points it
    writes, four bytes each; [utf8proc_reencode] with the same options: an error
    code or the UTF-8 bytes it writes before a terminating 0. *)
Context (utf8proc_decompose : list Z → bool → Z + list Z).
Context (utf8proc_reencode : list Z → bool → Z + list Z).

Definition EncodeStringNormalized (room : Z) (data : list Z) (is_case_sensitive : bool) : outcome (list Z) :=
  let casefold := negb is_case_sensitive in
  match utf8proc_decompose data casefold with
  | inl _ => Throw "decompose: "
  | inr cp =>
      _ ← in_bounds 0 (4 * Z.of_nat (length cp)) room "utf8proc_decompose writes past the key buffer";
      match utf8proc_reencode cp casefold with
      | inl _ => Throw "reencode: "
      | inr s => put room (s ++ [0])
      end
  end.

Definition encode_value (room : Z) (v : value) (specs : KeySpecs) : outcome (list Z) :=
  match v with
  | VSigned n data => put room (EncodeSigned n data)
  | VUnsigned n data => put room (EncodeUnsigned n data)
  | VDouble d => put room (EncodeDouble d)
  | VSpan data => EncodeStringNormalized room data (is_case_sensitive specs)
  end.

Definition Encode (room : Z) (data : value) (is_data_null : bool) (specs : KeySpecs) : outcome (list Z) :=
  if is_nullable specs then
    flag ← put room [if is_data_null then 0 else 1];
    if is_data_null then Ret flag
    else bs ← encode_value (room - 1) data specs; Ret (flag ++ bs)
  else encode_value room data specs.

Definition MaxEncodedSize (t : TypeSize) (specs : KeySpecs) : Z :=
  let n := if is_nullable specs then 1 else 0 in
  to_u16
    match ts_type t with
    | BOOLEAN | TINYINT | UTINYINT => n + 1
    | SMALLINT | USMALLINT => n + 2
    | INTEGER | UINTEGER => n + 4
    | BIGINT | UBIGINT | DOUBLE => n + 8
    | VARCHAR | VARBINARY => n + 4 * (12 + 1)
    end.

Definition MaxKeyLen (types : list TypeSize) : Z :=
  let n := foldl (λ n t, to_u16 (n + MaxEncodedSize t (mkKeySpecs false false))) 0 types in
  to_u16 (n + 8).

(** The [T] a column type is read as from [ptr]; the entry of a string is read
    with [GetInline] and [GetSize], whether inline or not. *)
Definition read_value (m : mem) (ptr : Z) (type : type_id) : value :=
  match type with
  | BOOLEAN | UTINYINT => VUnsigned 1 (load 1 m ptr)
  | TINYINT => VSigned 1 (to_signed 8 (load 1 m ptr))
  | USMALLINT => VUnsigned 2 (load 2 m ptr)
  | SMALLINT => VSigned 2 (to_signed 16 (load 2 m ptr))
  | UINTEGER => VUnsigned 4 (load 4 m ptr)
  | INTEGER => VSigned 4 (to_signed 32 (load 4 m ptr))
  | UBIGINT => VUnsigned 8 (load 8 m ptr)
  | BIGINT => VSigned 8 (to_signed 64 (load 8 m ptr))
  | DOUBLE => VDouble (load 8 m ptr)
  | VARCHAR | VARBINARY => VSpan (read_bytes m (ptr + 4) (Z.to_nat (load 4 m ptr)))
  end.

Definition SwitchType (room : Z) (m : mem) (ptr : Z) (is_data_null : bool) (type : type_id) (specs : KeySpecs) :
    outcome (list Z) := Encode room (read_value m ptr type) is_data_null specs.

(** [out]: the bytes from the start of the buffer of [cap] bytes to [cur]. *)
Fixpoint build_loop (cap : Z) (chunk : DataChunk) (types : list TypeSize) (out : list Z) : outcome (list Z) :=
  match types with
  | [] => Ret out
  | t :: types =>
      ptr ← Chunk.Get chunk (ts_col_id t);
      bs ← SwitchType (cap - Z.of_nat (length out)) chunk ptr false (ts_type t) (mkKeySpecs false false);
      build_loop cap chunk types (out ++ bs)
  end.

Definition BuildKey (cap : Z) (chunk : DataChunk) (key_value : Z) (types : list TypeSize) : outcome Key :=
  out ← build_loop cap chunk types [];
  tid ← put (cap - Z.of_nat (length out)) (EncodeUnsigned 8 key_value);
  let out := out ++ tid in
  Ret (take (Z.to_nat (to_u16 (Z.of_nat (length out)))) out).

End Encode.
End KeyNormEncoder.

(** ** The encoders preserve order *)

Lemma EncodeUnsigned_be n data : KeyNormEncoder.EncodeUnsigned n data = be_bytes n data.
Proof. apply le_bytes_ByteSwap. Qed.

Lemma pow256_2 n : 256 ^ Z.of_nat n = 2 ^ (8 * Z.of_nat n).
Proof. rewrite Z.pow_mul_r by lia. done. Qed.

Lemma wrap_signed w x : 0 < w → - 2 ^ (w - 1) ≤ x < 2 ^ (w - 1) → wrap w x = if 0 <=? x then x else x + 2 ^ w.
Proof.
  intros Hw Hx. assert (Hp : 2 ^ w = 2 * 2 ^ (w - 1)) by (rewrite <- Z.pow_succ_r by lia; f_equal; lia).
  unfold wrap. destruct (Z.leb_spec 0 x); [by apply Z.mod_small; lia|].
  symmetry. apply (Z.mod_unique _ _ (-1)); lia.
Qed.

(** Flipping the top bit. *)
Lemma lxor_top k x : 0 ≤ k → 0 ≤ x < 2 ^ (k + 1) → Z.lxor x (2 ^ k) = if x <? 2 ^ k then x + 2 ^ k else x - 2 ^ k.
Proof.
  intros Hk Hx. assert (Hp : 2 ^ (k + 1) = 2 * 2 ^ k) by (rewrite Z.pow_add_r by lia; lia).
  assert (Hsmall : ∀ y, 0 ≤ y < 2 ^ k → Z.lxor y (2 ^ k) = y + 2 ^ k).
  { intros y Hy. symmetry. apply Z.add_nocarry_lxor. apply Z.bits_inj'. intros i Hi.
    rewrite Z.land_spec, Z.bits_0, Z.pow2_bits_eqb by done. destruct (Z.eqb_spec k i) as [->|]; [|apply andb_false_r].
    rewrite <- (Z.mod_small y (2 ^ i)), Z.mod_pow2_bits_high by lia. done. }
  destruct (Z.ltb_spec x (2 ^ k)); [apply Hsmall; lia|].
  assert (E : x = Z.lxor (x - 2 ^ k) (2 ^ k)) by (rewrite Hsmall; lia). rewrite E at 1.
  by rewrite Z.lxor_assoc, Z.lxor_nilpotent, Z.lxor_0_r.
Qed.

Lemma EncodeSigned_be n data :
  (0 < n)%nat → let w := 8 * Z.of_nat n in - 2 ^ (w - 1) ≤ data < 2 ^ (w - 1) →
  KeyNormEncoder.EncodeSigned n data = be_bytes n (data + 2 ^ (w - 1)).
Proof.
  intros Hn w Hd. assert (Hp : 2 ^ w = 2 * 2 ^ (w - 1)) by (rewrite <- Z.pow_succ_r by lia; f_equal; lia).
  assert (H0 : 0 < 2 ^ (w - 1)) by (apply Z.pow_pos_nonneg; lia).
  unfold KeyNormEncoder.EncodeSigned. fold w. cbv zeta. rewrite le_bytes_ByteSwap. f_equal.
  rewrite Z.shiftl_1_l, (wrap_small w (2 ^ (w - 1))), wrap_signed by lia.
  replace w with (w - 1 + 1) in Hp by lia.
  rewrite lxor_top by (destruct (Z.leb_spec 0 data); replace (w - 1 + 1) with w in * by lia; lia).
  destruct (Z.leb_spec 0 data); [destruct (Z.ltb_spec data (2 ^ (w - 1))); lia|].
  replace (w - 1 + 1) with w in Hp by lia.
  destruct (Z.ltb_spec (data + 2 ^ w) (2 ^ (w - 1))); lia.
Qed.

(** A double as a sign and a magnitude: the order of the real values, and of
    the infinities, for bits that are not a NaN (IEEE 754). *)
Definition double_key (u : Z) : Z := if u <? 2 ^ 63 then u else - (u - 2 ^ 63).

Lemma not64_lxor u : 0 ≤ u < 2 ^ 64 → Z.lxor u (not64 0) = 2 ^ 64 - 1 - u.
Proof.
  intros Hu. change (not64 0) with (Z.ones 64).
  assert (E : 2 ^ 64 - 1 - u = Z.land (Z.lnot u) (Z.ones 64)).
  { rewrite Z.land_ones by done. unfold Z.lnot. apply (Z.mod_unique _ _ (-1)); lia. }
  rewrite E. apply Z.bits_inj'. intros i Hi. rewrite Z.lxor_spec, Z.land_spec, Z.lnot_spec by done.
  rewrite Z.testbit_ones_nonneg by lia. destruct (Z.ltb_spec i 64); [by destruct (Z.testbit u i)|].
  rewrite <- (Z.mod_small u (2 ^ 64)), Z.mod_pow2_bits_high by lia. done.
Qed.

Lemma EncodeDouble_be d :
  0 ≤ d < 2 ^ 64 → double_is_nan d = false →
  KeyNormEncoder.EncodeDouble d =
  be_bytes 8 (2 ^ 63 + double_key d - if double_key d <? 0 then 1 else 0).
Proof.
  intros Hd Hn. unfold KeyNormEncoder.EncodeDouble. rewrite Hn.
  assert (Hm : d mod 2 ^ 63 = if d <? 2 ^ 63 then d else d - 2 ^ 63).
  { destruct (Z.ltb_spec d (2 ^ 63)); [apply Z.mod_small; lia|]. symmetry. apply (Z.mod_unique _ _ 1); lia. }
  unfold double_is_zero. rewrite Hm. cbv zeta. rewrite le_bytes_ByteSwap. f_equal. unfold double_key.
  assert (Hs : ∀ u, 0 ≤ u < 2 ^ 64 → (Z.shiftr u 63 =? 0) = (u <? 2 ^ 63)).
  { intros u Hu. rewrite Z.shiftr_div_pow2 by lia. destruct (Z.ltb_spec u (2 ^ 63)).
    - apply Z.eqb_eq, Z.div_small. lia.
    - apply Z.eqb_neq. intros E. apply Z.div_small_iff in E; lia. }
  destruct (Z.ltb_spec d (2 ^ 63)); cbv iota.
  - assert (E : (if d =? 0 then 0 else d) = d) by (destruct (Z.eqb_spec d 0); lia). rewrite E, Hs by lia.
    rewrite (proj2 (Z.ltb_lt d (2 ^ 63))) by lia. cbn [negb]. change (to_u64 (Z.shiftl 1 63)) with (2 ^ 63).
    rewrite (lxor_top 63) by lia. rewrite (proj2 (Z.ltb_lt d (2 ^ 63))) by lia.
    rewrite (proj2 (Z.ltb_ge d 0)) by lia. lia.
  - destruct (Z.eqb_spec (d - 2 ^ 63) 0) as [E|E].
    + replace d with (2 ^ 63) by lia. by vm_compute.
    + rewrite Hs by lia. rewrite (proj2 (Z.ltb_ge d (2 ^ 63))) by lia. cbn [negb].
      rewrite not64_lxor by lia. rewrite (proj2 (Z.ltb_lt _ 0)) by lia. lia.
Qed.

Lemma EncodeDouble_order_num a b :
  0 ≤ a < 2 ^ 64 → 0 ≤ b < 2 ^ 64 → double_is_nan a = false → double_is_nan b = false →
  lex (KeyNormEncoder.EncodeDouble a) (KeyNormEncoder.EncodeDouble b) = (double_key a ?= double_key b).
Proof.
  intros Ha Hb Na Nb. rewrite !EncodeDouble_be by done.
  assert (R : ∀ d, 0 ≤ d < 2 ^ 64 → - 2 ^ 63 < double_key d < 2 ^ 63).
  { intros d Hd. unfold double_key. destruct (Z.ltb_spec d (2 ^ 63)); lia. }
  pose proof (R a Ha). pose proof (R b Hb).
  rewrite lex_be_bytes; [|change (256 ^ Z.of_nat 8) with (2 ^ 64)..].
  - destruct (Z.ltb_spec (double_key a) 0), (Z.ltb_spec (double_key b) 0);
      destruct (Z.compare_spec (double_key a) (double_key b));
      (apply Z.compare_eq_iff || apply Z.compare_lt_iff || apply Z.compare_gt_iff); lia.
  - destruct (double_key a <? 0) eqn:E; [apply Z.ltb_lt in E|]; lia.
  - destruct (double_key b <? 0) eqn:E; [apply Z.ltb_lt in E|]; lia.
Qed.

(** The order of the index: all NaNs are one value, above the infinity. *)
Definition double_ord (u : Z) : Z := double_key (if double_is_nan u then quiet_NaN else u).

Lemma EncodeDouble_nan u :
  KeyNormEncoder.EncodeDouble (if double_is_nan u then quiet_NaN else u) = KeyNormEncoder.EncodeDouble u.
Proof.
  destruct (double_is_nan u) eqn:E; [|done]. unfold KeyNormEncoder.EncodeDouble at 2. rewrite E.
  assert (double_is_zero u = false) as ->; [|done].
  unfold double_is_nan, double_is_zero in *. apply Z.ltb_lt in E. apply Z.eqb_neq. lia.
Qed.

Lemma quiet_NaN_lex b :
  0 ≤ b < 2 ^ 64 → double_is_nan b = false →
  lex (KeyNormEncoder.EncodeDouble quiet_NaN) (KeyNormEncoder.EncodeDouble b) = Gt ∧
  double_key b < double_key quiet_NaN.
Proof.
  intros Hb Nb. assert (Hk : double_key b < double_key quiet_NaN).
  { unfold double_is_nan in Nb. apply Z.ltb_ge in Nb. unfold double_key.
    change (quiet_NaN <? 2 ^ 63) with true. cbv iota. unfold quiet_NaN.
    destruct (Z.ltb_spec b (2 ^ 63)); [rewrite Z.mod_small in Nb by lia|]; lia. }
  split; [|done]. rewrite (EncodeDouble_be b) by done.
  change (KeyNormEncoder.EncodeDouble quiet_NaN) with (be_bytes 8 (2 ^ 63 + quiet_NaN)).
  assert (- 2 ^ 63 < double_key b) by (unfold double_key; destruct (Z.ltb_spec b (2 ^ 63)); lia).
  change (double_key quiet_NaN) with quiet_NaN in Hk.
  rewrite lex_be_bytes; [apply Z.compare_gt_iff|by vm_compute|change (256 ^ Z.of_nat 8) with (2 ^ 64)];
    destruct (Z.ltb_spec (double_key b) 0); unfold quiet_NaN in *; lia.
Qed.

Lemma EncodeDouble_order a b :
  0 ≤ a < 2 ^ 64 → 0 ≤ b < 2 ^ 64 →
  lex (KeyNormEncoder.EncodeDouble a) (KeyNormEncoder.EncodeDouble b) = (double_ord a ?= double_ord b).
Proof.
  intros Ha Hb. rewrite <- (EncodeDouble_nan a), <- (EncodeDouble_nan b). unfold double_ord.
  destruct (double_is_nan a) eqn:Na, (double_is_nan b) eqn:Nb.
  - rewrite lex_refl. by rewrite Z.compare_refl.
  - destruct (quiet_NaN_lex b Hb Nb) as [-> H]. symmetry. by apply Z.compare_gt_iff.
  - destruct (quiet_NaN_lex a Ha Na) as [H' H]. rewrite lex_antisym, H'. symmetry. by apply Z.compare_lt_iff.
  - by apply EncodeDouble_order_num.
Qed.

Lemma EncodeSigned_order n a b :
  (0 < n)%nat → let h := 2 ^ (8 * Z.of_nat n - 1) in - h ≤ a < h → - h ≤ b < h →
  lex (KeyNormEncoder.EncodeSigned n a) (KeyNormEncoder.EncodeSigned n b) = (a ?= b).
Proof.
  intros Hn h Ha Hb. rewrite !EncodeSigned_be by done. fold h.
  assert (Hp : 256 ^ Z.of_nat n = 2 * h).
  { rewrite pow256_2. unfold h. rewrite <- Z.pow_succ_r by lia. f_equal. lia. }
  rewrite lex_be_bytes by lia. rewrite !(Z.add_comm _ h). apply Z.add_compare_mono_l.
Qed.

Lemma EncodeUnsigned_order n a b :
  0 ≤ a < 256 ^ Z.of_nat n → 0 ≤ b < 256 ^ Z.of_nat n →
  lex (KeyNormEncoder.EncodeUnsigned n a) (KeyNormEncoder.EncodeUnsigned n b) = (a ?= b).
Proof. intros Ha Hb. rewrite !EncodeUnsigned_be. by apply lex_be_bytes. Qed.

(** ** Codes: what a column encodes to

    No code of a column type is a proper prefix of another one. *)

Definition is_string (t : type_id) : bool := match t with VARCHAR | VARBINARY => true | _ => false end.

Definition col_code (t : type_id) (l : list Z) : Prop :=
  bytes_ok l ∧ (if is_string t then ∃ s, l = s ++ [0] ∧ 0 ∉ s else Z.of_nat (length l) = SizeOf t).

Fixpoint row_code (ts : list type_id) (l : list Z) : Prop :=
  match ts with
  | [] => l = []
  | t :: ts => ∃ a b, l = a ++ b ∧ col_code t a ∧ row_code ts b
  end.

#[export] Instance col_code_free t : PrefixFree (col_code t).
Proof.
  intros a b [_ Ha] [_ Hb] (c & E). destruct (is_string t).
  - destruct Ha as (s1 & -> & H1), Hb as (s2 & -> & H2).
    destruct c as [|x c' _] using rev_ind; [by rewrite E, app_nil_r|].
    rewrite app_assoc in E. apply app_inj_tail in E as [E _]. destruct H2. rewrite E, !elem_of_app. left. right. by left.
  - rewrite E, length_app in Hb. destruct c; [by rewrite E, app_nil_r|cbn in Hb; lia].
Qed.

Lemma app_prefix_cases {A} (a1 b1 a2 b2 : list A) :
  (a1 ++ b1) `prefix_of` (a2 ++ b2) → a1 `prefix_of` a2 ∨ a2 `prefix_of` a1.
Proof.
  intros (c & E). revert a2 E; induction a1 as [|x a1 IH]; intros [|y a2] E.
  - left. by exists [].
  - left. by exists (y :: a2).
  - right. by exists (x :: a1).
  - cbn in E. injection E as -> E. destruct (IH a2 E) as [(d & ->)|(d & ->)]; [left|right]; by exists d.
Qed.

#[export] Instance row_code_free ts : PrefixFree (row_code ts).
Proof.
  induction ts as [|t ts IH]; intros a b; cbn [row_code]; [by intros -> ->|].
  intros (a1 & b1 & -> & Ha & Hb) (a2 & b2 & -> & Ha' & Hb') Hp.
  assert (a1 = a2) as ->.
  { destruct (app_prefix_cases _ _ _ _ Hp) as [H|H]; [|symmetry]; by apply (prefix_free (C := col_code t)). }
  f_equal. apply (prefix_free (C := row_code ts)); [done|done|].
  destruct Hp as (c & E). rewrite <- app_assoc in E. apply app_inv_head in E. by exists c.
Qed.

Lemma row_code_bytes ts l : row_code ts l → bytes_ok l.
Proof.
  revert l; induction ts as [|t ts IH]; cbn; intros l; [intros ->; constructor|].
  intros (a & b & -> & [Ha _] & Hb). apply Forall_app. split; [done|by apply IH].
Qed.

(** ** Rows *)

Section Rows.
Context (utf8proc_decompose : list Z → bool → Z + list Z).
Context (utf8proc_reencode : list Z → bool → Z + list Z).

Abbreviation BuildKey := (KeyNormEncoder.BuildKey utf8proc_decompose utf8proc_reencode).

(** The normalised form of a string (case-insensitive, as [BuildKey] asks). *)
Definition norm (data : list Z) : list Z :=
  match utf8proc_decompose data true with
  | inl _ => []
  | inr cp => match utf8proc_reencode cp true with inl _ => [] | inr s => s end
  end.

(** A string the key buffer is made for: valid UTF-8 without the character 0,
    of at most 13 code points and 51 bytes once decomposed. *)
Definition string_ok (data : list Z) : Prop :=
  ∃ cp s, utf8proc_decompose data true = inr cp ∧ utf8proc_reencode cp true = inr s ∧
    (length cp ≤ 13)%nat ∧ (length s ≤ 51)%nat ∧ 0 ∉ s ∧ bytes_ok s.

Definition value_ok (v : value) : Prop :=
  match v with VSpan data => string_ok data | _ => True end.

Definition value_code (v : value) : list Z :=
  match v with
  | VSigned n data => KeyNormEncoder.EncodeSigned n data
  | VUnsigned n data => KeyNormEncoder.EncodeUnsigned n data
  | VDouble d => KeyNormEncoder.EncodeDouble d
  | VSpan data => norm data ++ [0]
  end.

Definition value_cmp (v w : value) : comparison :=
  match v, w with
  | VSigned _ a, VSigned _ b => a ?= b
  | VUnsigned _ a, VUnsigned _ b => a ?= b
  | VDouble a, VDouble b => double_ord a ?= double_ord b
  | VSpan a, VSpan b => lex (norm a) (norm b)
  | _, _ => Eq
  end.

Fixpoint row_cmp (r s : list value) : comparison :=
  match r, s with
  | v :: r, w :: s => match value_cmp v w with Eq => row_cmp r s | c => c end
  | _, _ => Eq
  end.

Lemma norm_eq data cp s :
  utf8proc_decompose data true = inr cp → utf8proc_reencode cp true = inr s → norm data = s.
Proof. intros H1 H2. unfold norm. rewrite H1. cbv beta iota. by rewrite H2. Qed.

Lemma norm_ok data : string_ok data → 0 ∉ norm data ∧ bytes_ok (norm data) ∧ (length (norm data) ≤ 51)%nat.
Proof. intros (cp & s & H1 & H2 & _ & H3 & H4 & H5). by rewrite (norm_eq data cp s H1 H2). Qed.

(** The terminating 0 does not disturb the order. *)
Lemma lex_terminated a b :
  bytes_ok a → bytes_ok b → 0 ∉ a → 0 ∉ b → lex (a ++ [0]) (b ++ [0]) = lex a b.
Proof.
  intros Ha. revert b; induction Ha as [|x a Hx Ha IH]; intros b Hb Na Nb; destruct Hb as [|y b Hy Hb]; cbn; [done|..].
  - apply not_elem_of_cons in Nb as [Nb _]. unfold is_byte in Hy. destruct y; [done|done|lia].
  - apply not_elem_of_cons in Na as [Na _]. unfold is_byte in Hx. destruct x; [done|done|lia].
  - apply not_elem_of_cons in Na as [_ Na]. apply not_elem_of_cons in Nb as [_ Nb]. by rewrite IH.
Qed.

(** The ranges of the values read from a chunk. *)
Definition value_range (v : value) : Prop :=
  match v with
  | VSigned n a => (0 < n)%nat ∧ - 2 ^ (8 * Z.of_nat n - 1) ≤ a < 2 ^ (8 * Z.of_nat n - 1)
  | VUnsigned n a => 0 ≤ a < 256 ^ Z.of_nat n
  | VDouble d => 0 ≤ d < 2 ^ 64
  | VSpan _ => True
  end.

(** [v] is what [SwitchType] reads for the type. *)
Definition has_type (t : type_id) (v : value) : Prop :=
  value_range v ∧
  match t, v with
  | (BOOLEAN | UTINYINT), VUnsigned n _ => n = 1%nat
  | TINYINT, VSigned n _ => n = 1%nat
  | USMALLINT, VUnsigned n _ => n = 2%nat
  | SMALLINT, VSigned n _ => n = 2%nat
  | UINTEGER, VUnsigned n _ => n = 4%nat
  | INTEGER, VSigned n _ => n = 4%nat
  | UBIGINT, VUnsigned n _ => n = 8%nat
  | BIGINT, VSigned n _ => n = 8%nat
  | DOUBLE, VDouble _ => True
  | (VARCHAR | VARBINARY), VSpan _ => True
  | _, _ => False
  end.

Lemma to_signed_range w x : 0 < w → 0 ≤ x < 2 ^ w → - 2 ^ (w - 1) ≤ to_signed w x < 2 ^ (w - 1).
Proof.
  intros Hw Hx. assert (Hp : 2 ^ w = 2 * 2 ^ (w - 1)) by (rewrite <- Z.pow_succ_r by lia; f_equal; lia).
  unfold to_signed. destruct (Z.ltb_spec x (2 ^ (w - 1))); lia.
Qed.

Lemma read_value_type m ptr t : mem_ok m → has_type t (KeyNormEncoder.read_value m ptr t).
Proof.
  intros Hm. assert (R : ∀ n : nat, 0 ≤ load n m ptr < 256 ^ Z.of_nat n) by (intros; by apply load_range).
  split; [|by destruct t].
  destruct t; cbn [KeyNormEncoder.read_value value_range]; try exact (R _); try done;
    (split; [lia|]); apply to_signed_range; [lia| |lia| |lia| |lia|]; rewrite <- pow256_2; apply R.
Qed.

Lemma value_code_ok t v : has_type t v → value_ok v → col_code t (value_code v).
Proof.
  intros [Hr Ht] Hv. split.
  - destruct v as [n a|n a|d|data]; cbn [value_code]; cbn [value_range value_ok] in *.
    + rewrite EncodeSigned_be by apply Hr. apply be_bytes_ok.
    + rewrite EncodeUnsigned_be. apply be_bytes_ok.
    + unfold KeyNormEncoder.EncodeDouble. apply le_bytes_ok.
    + destruct (norm_ok data Hv) as (_ & H & _). apply Forall_app. split; [done|]. apply Forall_singleton. by vm_compute.
  - destruct t, v as [n a|n a|d|data]; cbn [is_string]; try done; cbn in Ht; subst; try done.
    all: try (unfold value_code, KeyNormEncoder.EncodeSigned, KeyNormEncoder.EncodeUnsigned, KeyNormEncoder.EncodeDouble;
              by rewrite length_le_bytes).
    all: destruct (norm_ok data Hv) as (H & _); exists (norm data); done.
Qed.

Lemma value_order t v w :
  has_type t v → has_type t w → value_ok v → value_ok w → lex (value_code v) (value_code w) = value_cmp v w.
Proof.
  intros [Rv Tv] [Rw Tw] Ov Ow. destruct v as [n a|n a|a|a], w as [m b|m b|b|b];
    try (destruct t; done); cbn [value_code value_cmp value_range value_ok] in *.
  - assert (m = n) as -> by (destruct t; cbn in Tv, Tw; try done; congruence). apply EncodeSigned_order; [apply Rv|apply Rv|apply Rw].
  - assert (m = n) as -> by (destruct t; cbn in Tv, Tw; try done; congruence). by apply EncodeUnsigned_order.
  - by apply EncodeDouble_order.
  - destruct (norm_ok a Ov) as (? & ? & _), (norm_ok b Ow) as (? & ? & _). by apply lex_terminated.
Qed.

Definition row_code_of (r : list value) : list Z := concat (value_code <$> r).

Lemma row_code_ok ts r : Forall2 has_type ts r → Forall value_ok r → row_code ts (row_code_of r).
Proof.
  induction 1 as [|t v ts r Ht Hts IH]; [done|]. intros [Hv Hr]%Forall_cons.
  exists (value_code v), (row_code_of r). split_and!; [done|by apply value_code_ok|by apply IH].
Qed.

(** The codes of rows are ordered as the rows, column by column. *)
Lemma row_order ts r s x y :
  Forall2 has_type ts r → Forall2 has_type ts s → Forall value_ok r → Forall value_ok s →
  lex (row_code_of r ++ x) (row_code_of s ++ y) = match row_cmp r s with Eq => lex x y | c => c end.
Proof.
  intros Hr. revert s; induction Hr as [|t v ts r Ht Hr IH]; intros s Hs Or Os; inversion Hs as [|? w ? s' Hw Hs']; subst.
  { done. }
  apply Forall_cons in Or as [Ov Or]. apply Forall_cons in Os as [Ow Os].
  change (row_code_of (v :: r)) with (value_code v ++ row_code_of r).
  change (row_code_of (w :: s')) with (value_code w ++ row_code_of s'). rewrite <- !app_assoc.
  rewrite (lex_app_code (col_code t)) by (by apply value_code_ok).
  rewrite (value_order t) by done. cbn [row_cmp]. destruct (value_cmp v w); [|done..]. by apply IH.
Qed.

(** ** BuildKey *)

Definition col_max (t : type_id) : Z := if is_string t then 52 else SizeOf t.

Lemma MaxEncodedSize_ok t : KeyNormEncoder.MaxEncodedSize t (mkKeySpecs false false) = col_max (ts_type t).
Proof. by destruct t as [? [] ?]. Qed.

Lemma MaxKeyLen_ok types :
  (length types ≤ 1000)%nat → KeyNormEncoder.MaxKeyLen types = zsum (col_max <$> (ts_type <$> types)) + 8.
Proof.
  intros Hn. unfold KeyNormEncoder.MaxKeyLen.
  assert (Hb : ∀ l : list TypeSize, 0 ≤ zsum (col_max <$> (ts_type <$> l)) ≤ 52 * Z.of_nat (length l)).
  { clear. induction l as [|t l IH]; [done|]. cbn [fmap list_fmap length].
    change (0 ≤ col_max (ts_type t) + zsum (col_max <$> (ts_type <$> l)) ≤ 52 * Z.of_nat (S (length l))).
    assert (0 ≤ col_max (ts_type t) ≤ 52) by (by destruct t as [? [] ?]). lia. }
  assert (H : ∀ l n, 0 ≤ n → n + 52 * Z.of_nat (length l) < 65000 →
    foldl (λ n t, to_u16 (n + KeyNormEncoder.MaxEncodedSize t (mkKeySpecs false false))) n l =
    n + zsum (col_max <$> (ts_type <$> l))).
  { clear -Hb. induction l as [|t l IH]; intros n Hn Hlt; cbn [foldl]; [cbn; lia|].
    cbn [length] in Hlt. rewrite MaxEncodedSize_ok.
    assert (0 ≤ col_max (ts_type t) ≤ 52) by (by destruct t as [? [] ?]).
    rewrite (wrap_small 16) by lia. rewrite IH by lia. cbn [fmap list_fmap].
    change (zsum (col_max (ts_type t) :: ?l)) with (col_max (ts_type t) + zsum l). lia. }
  cbv zeta. rewrite H by lia. specialize (Hb types). rewrite (wrap_small 16) by lia. lia.
Qed.

Lemma put_ok room bs : Z.of_nat (length bs) ≤ room → KeyNormEncoder.put room bs = Ret bs.
Proof. intros. unfold KeyNormEncoder.put. by rewrite in_bounds_true, bind_Ret by lia. Qed.

Lemma value_code_length t v :
  has_type t v → value_ok v → Z.of_nat (length (value_code v)) ≤ col_max t.
Proof.
  intros Ht Hv. pose proof (value_code_ok t v Ht Hv) as [_ Hc]. unfold col_max. destruct (is_string t) eqn:Es; [|lia].
  destruct Ht as [_ Ht], v as [n a|n a|a|a]; try (destruct t; done). cbn [value_code].
  destruct (norm_ok a Hv) as (_ & _ & Hl). rewrite length_app. cbn [length]. lia.
Qed.

Lemma encode_value_ok room t v :
  has_type t v → value_ok v → col_max t ≤ room →
  KeyNormEncoder.encode_value utf8proc_decompose utf8proc_reencode room v (mkKeySpecs false false) = Ret (value_code v).
Proof.
  intros Ht Hv Hroom. pose proof (value_code_length t v Ht Hv) as Hl.
  destruct v as [n a|n a|a|a]; try (apply put_ok; lia).
  assert (Hs : is_string t = true) by (destruct Ht as [_ Ht]; by destruct t). unfold col_max in *. rewrite Hs in *.
  cbn [KeyNormEncoder.encode_value value_code] in *. unfold KeyNormEncoder.EncodeStringNormalized. cbn [is_case_sensitive negb].
  destruct Hv as (cp & s & H1 & H2 & H3 & H4 & _). rewrite (norm_eq a cp s H1 H2) in *. rewrite H1.
  rewrite in_bounds_true, bind_Ret by lia. rewrite H2. apply put_ok. lia.
Qed.

(** The row of a chunk the key is built from. *)
Definition chunk_row (c : DataChunk) (types : list TypeSize) (r : list value) : Prop :=
  Forall2 (λ t v, ∃ ptr, Chunk.Get c (ts_col_id t) = Ret ptr ∧ v = KeyNormEncoder.read_value c ptr (ts_type t)) types r.

Lemma chunk_row_types c types r : mem_ok c → chunk_row c types r → Forall2 has_type (ts_type <$> types) r.
Proof.
  intros Hm. induction 1 as [|t v types r (ptr & _ & ->) Hts IH]; [constructor|].
  cbn [fmap list_fmap]. constructor; [by apply read_value_type|done].
Qed.

Lemma build_loop_ok cap c types r out :
  mem_ok c → chunk_row c types r → Forall value_ok r →
  Z.of_nat (length out) + zsum (col_max <$> (ts_type <$> types)) ≤ cap →
  KeyNormEncoder.build_loop utf8proc_decompose utf8proc_reencode cap c types out = Ret (out ++ row_code_of r).
Proof.
  intros Hm Hr. revert out; induction Hr as [|t v types r (ptr & Hg & ->) Hts IH]; intros out Ho Hcap.
  { cbn. by rewrite app_nil_r. }
  apply Forall_cons in Ho as [Ov Or]. cbn [KeyNormEncoder.build_loop]. rewrite Hg, bind_Ret.
  change (zsum (col_max <$> (ts_type <$> t :: types)))
    with (col_max (ts_type t) + zsum (col_max <$> (ts_type <$> types))) in Hcap.
  assert (Hnn : ∀ l : list type_id, 0 ≤ zsum (col_max <$> l)).
  { clear. induction l as [|t l IH]; [done|].
    change (zsum (col_max <$> t :: l)) with (col_max t + zsum (col_max <$> l)). destruct t; cbn in *; lia. }
  specialize (Hnn (ts_type <$> types)).
  pose proof (read_value_type c ptr (ts_type t) Hm) as Ht.
  unfold KeyNormEncoder.SwitchType, KeyNormEncoder.Encode. cbn [is_nullable].
  rewrite (encode_value_ok _ (ts_type t)) by (done || lia). rewrite bind_Ret.
  pose proof (value_code_length _ _ Ht Ov) as Hl.
  rewrite IH; [by rewrite <- app_assoc|done|]. rewrite length_app. lia.
Qed.

(** With the buffer the index allocates, [BuildKey] writes the code of the row
    and the tuple id, big endian. *)
Lemma BuildKey_ok c types r v :
  mem_ok c → chunk_row c types r → Forall value_ok r → (length types ≤ 1000)%nat →
  BuildKey (KeyNormEncoder.MaxKeyLen types) c v types = Ret (row_code_of r ++ be_bytes 8 v) ∧
  Z.of_nat (length (row_code_of r)) + 8 ≤ KeyNormEncoder.MaxKeyLen types.
Proof.
  intros Hm Hr Hv Hn. unfold KeyNormEncoder.BuildKey. rewrite (MaxKeyLen_ok types Hn).
  rewrite (build_loop_ok _ c types r []) by (done || cbn; lia). rewrite bind_Ret. cbn [app].
  assert (Hl : Z.of_nat (length (row_code_of r)) ≤ zsum (col_max <$> (ts_type <$> types)) ∧
               zsum (col_max <$> (ts_type <$> types)) ≤ 52 * Z.of_nat (length types)).
  { clear Hn. induction Hr as [|t w types r (ptr & Hg & ->) Hts IH]; [done|].
    apply Forall_cons in Hv as [Ov Or]. specialize (IH Or).
    pose proof (value_code_length _ _ (read_value_type c ptr (ts_type t) Hm) Ov) as Hl.
    change (row_code_of (?v :: r)) with (value_code v ++ row_code_of r).
    change (zsum (col_max <$> (ts_type <$> t :: types)))
      with (col_max (ts_type t) + zsum (col_max <$> (ts_type <$> types))).
    rewrite length_app. cbn [length]. assert (col_max (ts_type t) ≤ 52) by (by destruct t as [? [] ?]). lia. }
  rewrite EncodeUnsigned_be, put_ok, bind_Ret by (rewrite length_be_bytes; lia). cbv zeta.
  rewrite (wrap_small 16) by (rewrite length_app, length_be_bytes; lia).
  rewrite Nat2Z.id, firstn_all. split; [done|lia].
Qed.

(** The key of a row: its code and its tuple id. *)
Definition row_key (r : list value) (tid : Z) : Key := row_code_of r ++ be_bytes 8 tid.

Lemma row_key_prefix r tid : key_prefix (row_key r tid) = row_code_of r.
Proof.
  unfold key_prefix, row_key. rewrite length_app, length_be_bytes. rewrite Nat.add_sub. apply take_app_length.
Qed.

Lemma row_key_tid r tid : 0 ≤ tid < 2 ^ 64 → key_tid (row_key r tid) = tid.
Proof.
  intros Ht. unfold key_tid, row_key. rewrite length_app, length_be_bytes, Nat.add_sub, drop_app_length.
  rewrite be_val_be_bytes. by apply Z.mod_small.
Qed.

Lemma row_key_of ts r tid :
  Forall2 has_type ts r → Forall value_ok r → key_of (row_code ts) (row_key r tid).
Proof.
  intros Ht Hv. pose proof (row_code_ok ts r Ht Hv) as Hc. split; [|split].
  - apply Forall_app. split; [by eapply row_code_bytes|apply be_bytes_ok].
  - unfold row_key. rewrite length_app, length_be_bytes. lia.
  - by rewrite row_key_prefix.
Qed.
End Rows.
