(* ===== verification/Index.v ===== *)
(** * Indexes over chunks (btree.hpp, the public methods)

    [BTreeIndex::Insert], [Delete], [Get] and [InsertUnique] with the key built
    from a chunk.  [index_rows] is the abstract content of an index: the rows
    and tuple ids inserted; [Get] finds those whose row equals that of the
    chunk, whatever the column types. *)

From S2P Require Import Prelude Bytes Shared Memory CatalogCommon AccessTypes DataChunk SlottedPage.
From S2P Require Import NodeFacts Leaf LeafFacts KeyEncoder Fsm BTree BTreeInv BTreeLookup.
From S2P Require Import BTreeUpdate BTreeInsert BTreeTree BTreeUnique BTreeTheorems.
Import BTree.

Section Index.
Context (utf8proc_decompose : list Z → bool → Z + list Z).
Context (utf8proc_reencode : list Z → bool → Z + list Z).

Abbreviation BuildKey := (KeyNormEncoder.BuildKey utf8proc_decompose utf8proc_reencode).
Abbreviation value_ok := (value_ok utf8proc_decompose utf8proc_reencode).
Abbreviation row_key := (row_key utf8proc_decompose utf8proc_reencode).
Abbreviation row_code_of := (row_code_of utf8proc_decompose utf8proc_reencode).
Abbreviation row_cmp := (row_cmp utf8proc_decompose utf8proc_reencode).

Section Ops.
Context (tbl_id_ : Z) (attrs_ : list TypeSize).

Definition key_buffer_size_ : Z := KeyNormEncoder.MaxKeyLen attrs_.

Definition IndexInsert (t : btree) (chunk : DataChunk) (value : Z) : outcome btree :=
  key ← BuildKey key_buffer_size_ chunk value attrs_;
  BTree.Insert tbl_id_ t key.

Definition IndexInsertUnique (has_unique_conflict : Z → outcome bool) (t : btree) (chunk : DataChunk) (value : Z) :
    outcome (btree * bool) :=
  key ← BuildKey key_buffer_size_ chunk 0 attrs_;
  BTree.InsertUnique tbl_id_ has_unique_conflict t key value.

Definition IndexDelete (t : btree) (chunk : DataChunk) (value : Z) : outcome btree :=
  key ← BuildKey key_buffer_size_ chunk value attrs_;
  BTree.Delete t key.

Definition IndexGet (t : btree) (chunk : DataChunk) : outcome (list Z) :=
  key ← BuildKey key_buffer_size_ chunk 0 attrs_;
  BTree.Get t key.

(** ** What an index holds *)

Abbreviation types := (ts_type <$> attrs_).

Definition attrs_ok : Prop := attrs_ ≠ [] ∧ (length attrs_ ≤ 1000)%nat ∧ key_buffer_size_ ≤ 128.

(** A row of the right types whose strings fit, with its tuple id. *)
Definition entry_ok (e : list value * Z) : Prop :=
  Forall2 has_type types e.1 ∧ Forall value_ok e.1 ∧ 0 ≤ e.2 < 2 ^ 64.

Definition entry_key (e : list value * Z) : Key := row_key e.1 e.2.

Definition index_rows (T : Prop) (t : btree) (rows : list (list value * Z)) : Prop :=
  ∃ ks, btree_keys (row_code types) tbl_id_ T t ks ∧ ks ≡ₚ entry_key <$> rows ∧ Forall entry_ok rows.

(** The chunk holds row [r] in the columns of the index. *)
Definition chunk_holds (c : DataChunk) (r : list value) : Prop :=
  mem_ok c ∧ chunk_row c attrs_ r ∧ Forall value_ok r.

Lemma chunk_holds_types c r : chunk_holds c r → Forall2 has_type types r.
Proof. intros (Hm & Hr & _). by eapply chunk_row_types. Qed.

Lemma holds_key c r v : chunk_holds c r → attrs_ok → BuildKey key_buffer_size_ c v attrs_ = Ret (row_key r v).
Proof. intros (Hm & Hr & Hv) (_ & Hn & _). by apply BuildKey_ok. Qed.

Lemma holds_good c r v : chunk_holds c r → attrs_ok → good (row_code types) (row_key r v).
Proof.
  intros Hc (Hne & Hn & Hb). pose proof (chunk_holds_types c r Hc) as Ht. destruct Hc as (Hm & Hr & Hv).
  split; [by apply row_key_of|].
  destruct (BuildKey_ok utf8proc_decompose utf8proc_reencode c attrs_ r v Hm Hr Hv Hn) as [_ Hl].
  fold key_buffer_size_ in Hl. unfold key_len, KeyEncoder.row_key. rewrite length_app, length_be_bytes.
  assert (1 ≤ length (row_code_of r))%nat; [|lia].
  inversion Ht as [E|t v0 ts r0 Ht0 Hts E1 E2]; subst; [by destruct attrs_|]. apply Forall_cons in Hv as [Hv0 _].
  change (KeyEncoder.row_code_of utf8proc_decompose utf8proc_reencode (v0 :: r0))
    with (value_code utf8proc_decompose utf8proc_reencode v0 ++ row_code_of r0).
  rewrite length_app. destruct (value_code_ok utf8proc_decompose utf8proc_reencode t v0 Ht0 Hv0) as [_ Hcode].
  destruct (is_string t).
  - destruct Hcode as (s & -> & _). rewrite length_app. cbn. lia.
  - pose proof (SizeOf_range t). lia.
Qed.

Lemma entry_ok_key_of e : entry_ok e → key_of (row_code types) (entry_key e).
Proof. intros (H1 & H2 & _). by apply row_key_of. Qed.

(** Rows with equal codes are equal rows. *)
Lemma same_row r s :
  Forall2 has_type types r → Forall2 has_type types s → Forall value_ok r → Forall value_ok s →
  row_code_of r = row_code_of s ↔ row_cmp r s = Eq.
Proof.
  intros Hr Hs Or Os.
  pose proof (row_order utf8proc_decompose utf8proc_reencode types r s [] [] Hr Hs Or Os) as H.
  rewrite !app_nil_r in H. rewrite <- lex_eq, H. by destruct (row_cmp r s).
Qed.

Lemma index_insert_ok t rows c r v :
  index_rows True t rows → attrs_ok → chunk_holds c r → 0 ≤ v < 2 ^ 64 →
  row_key r v ∉ entry_key <$> rows → has_room tbl_id_ t →
  ∃ lost, separator_lost tbl_id_ t (row_key r v) (row_key r v) = Ret lost ∧ (separator_safe t → lost = false) ∧
    if lost then IndexInsert t c v = separator_freed
    else ∃ t', IndexInsert t c v = Ret t' ∧ index_rows True t' ((r, v) :: rows) ∧ grown tbl_id_ t t'.
Proof.
  intros (ks & Ht & Hp & Hok) Ha Hc Hv Hn Hroom. unfold IndexInsert. rewrite (holds_key c r v Hc Ha), bind_Ret.
  destruct (insert_in_tree (row_code types) tbl_id_ t ks (row_key r v) Ht) as (lost & Hl & Hsafe & H);
    [by eapply holds_good|by rewrite Hp|done|].
  exists lost. split; [done|]. split; [done|]. destruct lost; [done|]. destruct H as (t' & Hi & Ht' & Hg). exists t'. split; [done|]. split; [|done]. exists (key_insert (row_key r v) ks). split; [done|]. split.
  - by rewrite key_insert_perm, Hp.
  - constructor; [|done]. split; [by eapply chunk_holds_types|]. split; [apply Hc|done].
Qed.

Lemma index_delete_ok T t rows c r v :
  index_rows T t ((r, v) :: rows) → attrs_ok → chunk_holds c r →
  ∃ t', IndexDelete t c v = Ret t' ∧ index_rows False t' rows.
Proof.
  intros (ks & Ht & Hp & Hok) Ha Hc. unfold IndexDelete. rewrite (holds_key c r v Hc Ha), bind_Ret.
  assert (Hin : row_key r v ∈ ks) by (rewrite Hp; by left).
  destruct (Delete_tree (row_code types) tbl_id_ T t ks (row_key r v) Ht) as (t' & Hd & Ht');
    [by eapply holds_good|done|].
  exists t'. split; [done|]. exists (key_delete (row_key r v) ks). split; [done|].
  split; [|by apply Forall_cons in Hok as [_ Hok]].
  assert (Hs : StronglySorted lex_lt ks).
  { destruct Ht as (leaves & uppers & Hi & <- & _).
    apply (chain_sorted T (pages t) leaves None); [apply Hi|apply Hi]. }
  rewrite (key_delete_pos _ _ Hs Hin). apply (Permutation_cons_inv (a := row_key r v)).
  rewrite <- Hp. symmetry. apply delete_Permutation. by apply key_pos_elem.
Qed.

(** Tuple ids of equal codes come in increasing order. *)
Lemma tids_sorted ks k :
  StronglySorted lex_lt ks → Forall (key_of (row_code types)) ks →
  StronglySorted Z.lt (key_tid <$> filter (same_code k) ks).
Proof.
  intros Hs Hk. induction Hs as [|x l Hs IH HF]; [constructor|]. apply Forall_cons in Hk as [Hx Hk].
  rewrite filter_cons. destruct (decide (same_code k x)) as [E|]; [|by apply IH].
  cbn [fmap list_fmap]. constructor; [by apply IH|]. apply Forall_fmap, Forall_forall.
  intros y [Ey Hy]%list_elem_of_filter. rewrite Forall_forall in HF. rewrite Forall_forall in Hk.
  specialize (HF y Hy). unfold lex_lt in HF. rewrite (key_lex (row_code types)) in HF by auto.
  unfold same_code in E, Ey. rewrite E, Ey, lex_refl in HF. by apply Z.compare_lt_iff.
Qed.

(** The tuple ids of a code are those of the rows equal to the row it encodes. *)
Lemma tids_rows rows r v :
  Forall entry_ok rows → Forall2 has_type types r → Forall value_ok r →
  key_tid <$> filter (same_code (row_key r v)) (entry_key <$> rows) = snd <$> filter (λ e, row_cmp e.1 r = Eq) rows.
Proof.
  intros Hok Hrt Hrv. induction Hok as [|e rows He Hok IH]; [done|]. cbn [fmap list_fmap]. rewrite !filter_cons.
  destruct He as (He1 & He2 & He3).
  assert (Heq : same_code (row_key r v) (entry_key e) ↔ row_cmp e.1 r = Eq).
  { unfold same_code, entry_key. rewrite !row_key_prefix. by apply same_row. }
  destruct (decide (same_code (row_key r v) (entry_key e))) as [H|H], (decide (row_cmp e.1 r = Eq)) as [H'|H'];
    [|tauto|tauto|exact IH].
  cbn [fmap list_fmap]. unfold entry_key at 1. rewrite row_key_tid by done. f_equal. exact IH.
Qed.

Lemma index_get_ok T t rows c r :
  index_rows T t rows → attrs_ok → chunk_holds c r →
  ∃ tids, IndexGet t c = Ret tids ∧ StronglySorted Z.lt tids ∧
    tids ≡ₚ snd <$> filter (λ e, row_cmp e.1 r = Eq) rows.
Proof.
  intros (ks & Ht & Hp & Hok) Ha Hc. unfold IndexGet. rewrite (holds_key c r 0 Hc Ha), bind_Ret.
  exists (key_tid <$> filter (same_code (row_key r 0)) ks).
  assert (Hko : Forall (key_of (row_code types)) ks).
  { rewrite Hp. apply Forall_fmap. eapply Forall_impl; [exact Hok|]. intros e. apply entry_ok_key_of. }
  split; [|split].
  - rewrite (Get_tree (row_code types) tbl_id_ T t ks _ Ht) by (by eapply holds_good). do 2 f_equal.
    apply filter_ext_in. eapply Forall_impl; [exact Hko|]. intros x Hx.
    apply (matching_code (row_code types)); [by eapply holds_good|done|by apply row_key_tid].
  - apply tids_sorted; [|done]. destruct Ht as (leaves & uppers & Hi & <- & _).
    apply (chain_sorted T (pages t) leaves None); [apply Hi|apply Hi].
  - rewrite Hp, tids_rows; [done|done|by eapply chunk_holds_types|apply Hc].
Qed.

(** *** Unique insertion *)
Lemma set_tid_row_key r w v : set_tid (row_key r w) v = row_key r v.
Proof.
  unfold set_tid, KeyEncoder.row_key. rewrite length_app, length_be_bytes, Nat.add_sub, le_bytes_ByteSwap.
  by rewrite take_app_length.
Qed.

Lemma any_conflict_on h hb l : Forall (λ w, h w = Ret (hb w)) l → any_conflict h l = Ret (existsb hb l).
Proof. induction 1 as [|w l Hw _ IH]; [done|]. cbn. rewrite Hw, IH. by destruct (hb w). Qed.

(** The check answers [hb] on the tuple ids of the rows equal to [r]: a row in
    conflict stops the insertion, otherwise the row is added. *)
Lemma index_insert_unique_ok t rows c r v h hb :
  index_rows True t rows → attrs_ok → chunk_holds c r → 0 ≤ v < 2 ^ 64 →
  Forall (λ e, row_cmp e.1 r = Eq → h e.2 = Ret (hb e.2)) rows →
  (Exists (λ e, row_cmp e.1 r = Eq ∧ hb e.2 = true) rows →
   ∃ t', IndexInsertUnique h t c v = Ret (t', false) ∧ index_rows True t' rows ∧ grown tbl_id_ t t') ∧
  (Forall (λ e, row_cmp e.1 r = Eq → hb e.2 = false) rows → row_key r v ∉ entry_key <$> rows → has_room tbl_id_ t →
   ∃ lost, separator_lost tbl_id_ t (row_key r 0) (row_key r v) = Ret lost ∧ (separator_safe t → lost = false) ∧
     if lost then IndexInsertUnique h t c v = separator_freed
     else ∃ t', IndexInsertUnique h t c v = Ret (t', true) ∧ index_rows True t' ((r, v) :: rows) ∧ grown tbl_id_ t t').
Proof.
  intros (ks & Ht & Hp & Hok) Ha Hc Hv Hh. unfold IndexInsertUnique. rewrite (holds_key c r 0 Hc Ha), bind_Ret.
  destruct (InsertUnique_tree (row_code types) tbl_id_ t ks (row_key r 0) v h Ht) as [Hbad Hgood];
    [by eapply holds_good|by apply row_key_tid|].
  assert (Ep : key_tid <$> filter (same_code (row_key r 0)) ks ≡ₚ snd <$> filter (λ e, row_cmp e.1 r = Eq) rows).
  { rewrite Hp, tids_rows; [done|done|by eapply chunk_holds_types|apply Hc]. }
  rewrite (any_conflict_on h hb) in Hbad, Hgood.
  2,3: rewrite Ep; apply Forall_fmap, Forall_forall; intros e [He Hin]%list_elem_of_filter;
    rewrite Forall_forall in Hh; by apply Hh.
  rewrite set_tid_row_key in Hgood. split.
  - intros (e & He & Hee & Hb)%Exists_exists. destruct Hbad as (t' & Hi & Ht' & Hg); [|exists t'; split; [done|]; split; [by exists ks|done]].
    apply (f_equal Ret), existsb_exists. exists e.2. split; [|done]. apply list_elem_of_In. rewrite Ep.
    apply list_elem_of_fmap_2, list_elem_of_filter. done.
  - intros Hno Hn Hroom. destruct Hgood as (lost & Hl & Hsafe & H); [|by rewrite Hp|done|].
    + apply (f_equal Ret). apply not_true_is_false. intros (w & Hw & Hbw)%existsb_exists.
      apply list_elem_of_In in Hw. rewrite Ep in Hw. apply list_elem_of_fmap in Hw as (e & -> & [He Hin]%list_elem_of_filter).
      rewrite Forall_forall in Hno. rewrite (Hno e Hin He) in Hbw. done.
    + exists lost. split; [done|]. split; [done|]. destruct lost; [done|]. destruct H as (t' & Hi & Ht' & Hg).
      exists t'. split; [done|]. split; [|done]. exists (key_insert (row_key r v) ks). split; [done|]. split.
      * by rewrite key_insert_perm, Hp.
      * constructor; [|done]. split; [by eapply chunk_holds_types|]. split; [apply Hc|done].
Qed.
End Ops.
End Index.
