(* ===== verification/IndexTheorems.v ===== *)
(** * Theorems about keys and indexes

    The order of keys is the order of rows and tuple ids; an index answers a
    lookup with exactly the tuple ids of the equal rows. *)

From S2P Require Import Prelude Bytes Shared Memory CatalogCommon AccessTypes DataChunk SlottedPage.
From S2P Require Import NodeFacts Leaf LeafFacts KeyEncoder Fsm BTree BTreeInv BTreeInsert BTreeTree.
From S2P Require Import Index.
Import BTree.

(** ** An example: an index on one INTEGER column *)

(** The normalisation of ASCII text without capital letters changes nothing. *)
Definition ascii_decompose (data : list Z) (_ : bool) : Z + list Z := inr data.
Definition ascii_reencode (cp : list Z) (_ : bool) : Z + list Z := inr cp.

Definition demo_attrs : list TypeSize := [TypeSize_make 100 INTEGER].

(** The memory of a chunk with column 100 holding [b]. *)
Definition demo_chunk (b : Z) : DataChunk :=
  write_bytes ∅ 0 [1; 0; 0; 0; 24; 0; 0; 0; 100; 0; 0; 0; 16; 0; 0; 0; b; 0; 0; 0; 0; 0; 0; 0].

Definition demo_row (b : Z) : list value := [VSigned 4 b].

Lemma demo_holds b :
  is_byte b → KeyNormEncoder.read_value (demo_chunk b) 16 INTEGER = VSigned 4 b →
  Chunk.Get (demo_chunk b) 100 = Ret 16 →
  chunk_holds ascii_decompose ascii_reencode demo_attrs (demo_chunk b) (demo_row b).
Proof.
  intros Hb Hv Hg. split; [|split].
  - apply write_bytes_ok; [apply mem_ok_empty|]. unfold bytes_ok, is_byte in *.
    repeat (apply Forall_cons; split; [lia|]). constructor.
  - constructor; [|constructor]. exists 16. split; [exact Hg|]. symmetry. exact Hv.
  - by apply Forall_singleton.
Qed.

Lemma demo_attrs_ok : attrs_ok demo_attrs.
Proof. split; [done|]. split; [cbn; lia|by vm_compute]. Qed.

Lemma demo_empty : ∃ t, index_rows ascii_decompose ascii_reencode 9 demo_attrs True t [] ∧
  root_level t = 0 ∧ next_pid 9 t = 2.
Proof.
  destruct (empty_tree (row_code (ts_type <$> demo_attrs)) 9 ∅) as (t & _ & Ht & Hl & Hn & _); [by vm_compute|].
  exists t. split; [by exists []|done].
Qed.

(** ** Keys *)

Section Theorems.
Context (utf8proc_decompose : list Z → bool → Z + list Z).
Context (utf8proc_reencode : list Z → bool → Z + list Z).

Abbreviation BuildKey := (KeyNormEncoder.BuildKey utf8proc_decompose utf8proc_reencode).
Abbreviation chunk_holds := (chunk_holds utf8proc_decompose utf8proc_reencode).
Abbreviation row_cmp := (row_cmp utf8proc_decompose utf8proc_reencode).
Abbreviation index_rows := (index_rows utf8proc_decompose utf8proc_reencode).

(** C8: the keys [BuildKey] makes in the buffer the index allocates compare,
    byte by byte, as the rows do column by column - integers as numbers,
    doubles as IEEE numbers with all NaNs equal and greatest, strings as their
    normalised forms - and, between equal rows, as the tuple ids. *)
Theorem build_key_order attrs c c' r r' v v' :
  attrs_ok attrs → chunk_holds attrs c r → chunk_holds attrs c' r' → 0 ≤ v < 2 ^ 64 → 0 ≤ v' < 2 ^ 64 →
  ∃ k k', BuildKey (key_buffer_size_ attrs) c v attrs = Ret k ∧
    BuildKey (key_buffer_size_ attrs) c' v' attrs = Ret k' ∧
    lex k k' = match row_cmp r r' with Eq => v ?= v' | o => o end.
Proof.
  intros Ha Hc Hc' Hv Hv'. exists (row_key utf8proc_decompose utf8proc_reencode r v).
  exists (row_key utf8proc_decompose utf8proc_reencode r' v'). split_and!; [by apply holds_key..|].
  unfold row_key. rewrite (row_order _ _ (ts_type <$> attrs));
    [by rewrite lex_be_bytes|by eapply chunk_holds_types|by eapply chunk_holds_types|apply Hc|apply Hc'].
Qed.

(** ** Indexes *)

(** C4: inserting a chunk in an index from which nothing was deleted.  When the
    insertion of the key of the row loses a separator ([separator_lost]: a leaf and
    its parent split and the parent is not the root), it reads the freed buffer of
    the separator; this does not happen in a tree of at most two levels, or while
    the nodes above the leaves have room for one more separator.  Otherwise it
    returns and adds the row with the tuple id, taking at most one page per level
    and one for a new root ([grown]). *)
Theorem index_insert_correct tbl attrs t rows c r v :
  index_rows tbl attrs True t rows → attrs_ok attrs → chunk_holds attrs c r → 0 ≤ v < 2 ^ 64 →
  row_key utf8proc_decompose utf8proc_reencode r v ∉ entry_key utf8proc_decompose utf8proc_reencode <$> rows →
  next_pid tbl t + root_level t + 2 ≤ BUFFER_POOL_PAGE_NUM →
  ∃ lost, separator_lost tbl t (row_key utf8proc_decompose utf8proc_reencode r v)
      (row_key utf8proc_decompose utf8proc_reencode r v) = Ret lost ∧
    (level1_room 1 t ∨ root_level t ≤ 1 → lost = false) ∧
    if lost then IndexInsert utf8proc_decompose utf8proc_reencode tbl attrs t c v = separator_freed
    else ∃ t', IndexInsert utf8proc_decompose utf8proc_reencode tbl attrs t c v = Ret t' ∧
      index_rows tbl attrs True t' ((r, v) :: rows) ∧ grown tbl t t'.
Proof. by apply index_insert_ok. Qed.

(** C5: unique insertion in an index from which nothing was deleted: when the
    transaction is in conflict with the tuple of a row equal to that of the
    chunk, in whatever leaf, it fails and the index is as before; when it is
    with none, the row is added with its tuple id, unless the insertion loses a
    separator and reads its freed buffer - not in a tree of at most two levels,
    nor while the nodes above the leaves have room for one more separator. *)
Theorem index_insert_unique_correct tbl attrs t rows c r v h hb :
  index_rows tbl attrs True t rows → attrs_ok attrs → chunk_holds attrs c r → 0 ≤ v < 2 ^ 64 →
  Forall (λ e, row_cmp e.1 r = Eq → h e.2 = Ret (hb e.2)) rows →
  (Exists (λ e, row_cmp e.1 r = Eq ∧ hb e.2 = true) rows →
   ∃ t', IndexInsertUnique utf8proc_decompose utf8proc_reencode tbl attrs h t c v = Ret (t', false) ∧
     index_rows tbl attrs True t' rows ∧ grown tbl t t') ∧
  (Forall (λ e, row_cmp e.1 r = Eq → hb e.2 = false) rows →
   row_key utf8proc_decompose utf8proc_reencode r v ∉ entry_key utf8proc_decompose utf8proc_reencode <$> rows →
   next_pid tbl t + root_level t + 2 ≤ BUFFER_POOL_PAGE_NUM →
   ∃ lost, separator_lost tbl t (row_key utf8proc_decompose utf8proc_reencode r 0)
       (row_key utf8proc_decompose utf8proc_reencode r v) = Ret lost ∧
     (level1_room 1 t ∨ root_level t ≤ 1 → lost = false) ∧
     if lost then IndexInsertUnique utf8proc_decompose utf8proc_reencode tbl attrs h t c v = separator_freed
     else ∃ t', IndexInsertUnique utf8proc_decompose utf8proc_reencode tbl attrs h t c v = Ret (t', true) ∧
       index_rows tbl attrs True t' ((r, v) :: rows) ∧ grown tbl t t').
Proof. by apply index_insert_unique_ok. Qed.

(** C6: a lookup returns the tuple ids of the rows equal to that of the chunk,
    each once, in increasing order; [row_cmp] is the equality of column values. *)
Theorem index_get_correct tbl attrs T t rows c r :
  index_rows tbl attrs T t rows → attrs_ok attrs → chunk_holds attrs c r →
  ∃ tids, IndexGet utf8proc_decompose utf8proc_reencode attrs t c = Ret tids ∧ StronglySorted Z.lt tids ∧
    tids ≡ₚ snd <$> filter (λ e, row_cmp e.1 r = Eq) rows.
Proof. by apply index_get_ok. Qed.

(** C7: deleting an entry of the index returns and removes exactly it. *)
Theorem index_delete_correct tbl attrs T t rows c r v :
  index_rows tbl attrs T t ((r, v) :: rows) → attrs_ok attrs → chunk_holds attrs c r →
  ∃ t', IndexDelete utf8proc_decompose utf8proc_reencode attrs t c v = Ret t' ∧
    index_rows tbl attrs False t' rows.
Proof. by apply index_delete_ok. Qed.

(** A VARCHAR key whose string decomposes to more code points than the key
    buffer holds (four bytes each) is written past the buffer: the bufsize
    passed to utf8proc is its maximum. *)
Theorem string_key_overflow col c ptr data v cp :
  Chunk.Get c col = Ret ptr → KeyNormEncoder.read_value c ptr VARCHAR = VSpan data →
  utf8proc_decompose data true = inr cp → 60 < 4 * Z.of_nat (length cp) →
  ∃ msg, BuildKey (key_buffer_size_ [TypeSize_make col VARCHAR]) c v [TypeSize_make col VARCHAR] = Undefined msg.
Proof.
  intros Hg Hr Hd Hl. unfold KeyNormEncoder.BuildKey. cbn [KeyNormEncoder.build_loop ts_col_id ts_type TypeSize_make].
  rewrite Hg, bind_Ret. unfold KeyNormEncoder.SwitchType. rewrite Hr.
  unfold KeyNormEncoder.Encode. cbn [is_nullable KeyNormEncoder.encode_value is_case_sensitive].
  unfold KeyNormEncoder.EncodeStringNormalized. cbn [negb]. rewrite Hd. unfold in_bounds.
  change (key_buffer_size_ [TypeSize_make col VARCHAR] - Z.of_nat (@length Z [])) with 60.
  rewrite (proj2 (Z.leb_gt _ 60)), andb_false_r by lia. by eexists.
Qed.
End Theorems.

Lemma build_key_order_witness :
  ∃ k k', KeyNormEncoder.BuildKey ascii_decompose ascii_reencode 12 (demo_chunk 3) 9 demo_attrs = Ret k ∧
    KeyNormEncoder.BuildKey ascii_decompose ascii_reencode 12 (demo_chunk 5) 1 demo_attrs = Ret k' ∧ lex k k' = Lt.
Proof.
  apply (build_key_order ascii_decompose ascii_reencode demo_attrs (demo_chunk 3) (demo_chunk 5)
           (demo_row 3) (demo_row 5) 9 1).
  - apply demo_attrs_ok.
  - by apply demo_holds; vm_compute.
  - by apply demo_holds; vm_compute.
  - lia.
  - lia.
Defined.

Lemma index_insert_correct_witness :
  ∃ t t', index_rows ascii_decompose ascii_reencode 9 demo_attrs True t [] ∧
    IndexInsert ascii_decompose ascii_reencode 9 demo_attrs t (demo_chunk 5) 7 = Ret t' ∧
    index_rows ascii_decompose ascii_reencode 9 demo_attrs True t' [(demo_row 5, 7)].
Proof.
  destruct demo_empty as (t & Ht & Hl & Hn). exists t.
  destruct (index_insert_correct ascii_decompose ascii_reencode 9 demo_attrs t [] (demo_chunk 5) (demo_row 5) 7 Ht)
    as (lost & _ & Hsafe & H).
  - apply demo_attrs_ok.
  - by apply demo_holds; vm_compute.
  - lia.
  - by intros ?%not_elem_of_nil.
  - rewrite Hl, Hn. unfold BUFFER_POOL_PAGE_NUM. lia.
  - rewrite Hsafe in H by (right; lia). destruct H as (t' & Hi & Ht' & _). by exists t'.
Defined.

Lemma demo_one : ∃ t, index_rows ascii_decompose ascii_reencode 9 demo_attrs True t [(demo_row 5, 7)].
Proof.
  destruct demo_empty as (t & Ht & Hl & Hn).
  destruct (index_insert_ok ascii_decompose ascii_reencode 9 demo_attrs t [] (demo_chunk 5) (demo_row 5) 7 Ht)
    as (lost & _ & Hsafe & H); [apply demo_attrs_ok|by apply demo_holds; vm_compute|lia|by intros ?%not_elem_of_nil| |].
  - unfold has_room. rewrite Hl, Hn. unfold BUFFER_POOL_PAGE_NUM. lia.
  - rewrite Hsafe in H by (right; lia). destruct H as (t' & _ & Ht' & _). by exists t'.
Qed.

Lemma index_get_correct_witness :
  ∃ t, index_rows ascii_decompose ascii_reencode 9 demo_attrs True t [(demo_row 5, 7)] ∧
    IndexGet ascii_decompose ascii_reencode demo_attrs t (demo_chunk 5) = Ret [7].
Proof.
  destruct demo_one as (t & Ht). exists t. split; [done|].
  destruct (index_get_correct ascii_decompose ascii_reencode 9 demo_attrs True t _ (demo_chunk 5) (demo_row 5) Ht)
    as (tids & Hg & _ & Hp).
  - apply demo_attrs_ok.
  - by apply demo_holds; vm_compute.
  - rewrite Hg. f_equal. by apply Permutation_singleton_r in Hp.
Defined.

Lemma index_delete_correct_witness :
  ∃ t t', index_rows ascii_decompose ascii_reencode 9 demo_attrs True t [(demo_row 5, 7)] ∧
    IndexDelete ascii_decompose ascii_reencode demo_attrs t (demo_chunk 5) 7 = Ret t' ∧
    index_rows ascii_decompose ascii_reencode 9 demo_attrs False t' [].
Proof.
  destruct demo_one as (t & Ht). exists t.
  destruct (index_delete_correct ascii_decompose ascii_reencode 9 demo_attrs True t [] (demo_chunk 5) (demo_row 5) 7 Ht)
    as (t' & Hd & Ht').
  - apply demo_attrs_ok.
  - by apply demo_holds; vm_compute.
  - by exists t'.
Defined.

(** Six times U+0390 (two bytes each): case folding and canonical decomposition
    give three code points for each (Unicode), 72 bytes for a buffer of 60. *)
Definition six_iotas : list Z := concat (replicate 6 [0xce; 0x90]).
Definition iota_decompose (data : list Z) (casefold : bool) : Z + list Z :=
  if bool_decide (data = six_iotas) then inr (concat (replicate 6 [0x3b9; 0x308; 0x301])) else inr data.
Definition iota_chunk : DataChunk :=
  write_bytes ∅ 0 ([1; 0; 0; 0; 32; 0; 0; 0; 100; 0; 0; 0; 16; 0; 0; 0; 12; 0; 0; 0] ++ six_iotas).

Lemma string_key_overflow_witness :
  ∃ msg, KeyNormEncoder.BuildKey iota_decompose ascii_reencode 60 iota_chunk 1 [TypeSize_make 100 VARCHAR] = Undefined msg.
Proof.
  apply (string_key_overflow iota_decompose ascii_reencode 100 iota_chunk 16 six_iotas 1
           (concat (replicate 6 [0x3b9; 0x308; 0x301]))); by vm_compute.
Defined.

Lemma index_insert_unique_correct_witness :
  ∃ t t', index_rows ascii_decompose ascii_reencode 9 demo_attrs True t [(demo_row 5, 7)] ∧
    IndexInsertUnique ascii_decompose ascii_reencode 9 demo_attrs (λ tid, Ret (tid =? 7)) t (demo_chunk 5) 8 = Ret (t', false) ∧
    index_rows ascii_decompose ascii_reencode 9 demo_attrs True t' [(demo_row 5, 7)].
Proof.
  destruct demo_one as (t & Ht). exists t.
  destruct (index_insert_unique_correct ascii_decompose ascii_reencode 9 demo_attrs t [(demo_row 5, 7)] (demo_chunk 5)
    (demo_row 5) 8 (λ tid, Ret (tid =? 7)) (λ tid, tid =? 7) Ht) as [H _].
  - apply demo_attrs_ok.
  - by apply demo_holds; vm_compute.
  - lia.
  - by repeat constructor.
  - destruct H as (t' & H1 & H2 & _); [|by exists t']. apply Exists_cons_hd. by split; vm_compute.
Defined.
