(* ===== verification/Pax.v ===== *)
(** * The PAX layout of table pages (storage/layouts/pax.hpp, pax.cpp)

    A page holds a row count, a bitmap of deleted rows and one array per
    column.  A page is a byte memory of [DB7_PAGE_SIZE] bytes; an access past
    it is undefined. *)

From stdpp Require Import strings.
From S2P Require Import Prelude Bytes Shared Memory AccessTypes DataChunk Fsm.

Module PaxLayout.

Record PaxLayout := mkPaxLayout { offsets_ : list Z; sizes_ : list Z; max_row_count_ : Z }.

(** The second loop of [CalculateOffsets]. *)
Fixpoint offsets_loop (sizes : list Z) (max_row_count curr_offset : Z) : list Z :=
  match sizes with
  | [] => []
  | size :: sizes =>
      let curr_offset := to_u32 (AlignUp curr_offset size) in
      curr_offset :: offsets_loop sizes max_row_count (to_u32 (curr_offset + to_u32 (max_row_count * size)))
  end.

(** [PaxLayout(sizes)] with [CalculateOffsets]; the arithmetic is on u32. *)
Definition make (sizes : list Z) : PaxLayout :=
  let header_size := HEADER_SIZE in
  let row_size := foldl (λ acc size, to_u32 (acc + size)) 0 sizes in
  let worst_case_pad := foldl (λ acc size, to_u32 (acc + (size - 1))) 0 sizes in
  let max_row_count :=
    to_u32 (to_u32 (DB7_PAGE_SIZE - header_size - worst_case_pad) * 8) / to_u32 (1 + to_u32 (8 * row_size)) in
  let curr_offset := to_u32 (header_size + to_u32 (max_row_count + 7) / 8) in
  mkPaxLayout (offsets_loop sizes max_row_count curr_offset) sizes max_row_count.

(** [CalculateMaxSize] (unused by the code). *)
Definition CalculateMaxSize (l : PaxLayout) (row_count : Z) : Z :=
  foldl (λ max_size size, to_u32 (to_u32 (AlignUp max_size size) + to_u32 (size * row_count))) 0 (sizes_ l).

Definition GetMaxRowCount (l : PaxLayout) : Z := max_row_count_ l.

(** [PageHeader::count]. *)
Definition header_count (data : mem) : Z := load 4 data 0.

Definition IncrementHeaderCount (l : PaxLayout) (data : mem) (count : Z) : outcome (mem * Z) :=
  let old := header_count data in
  let data := store 4 data 0 (to_u32 (old + count)) in
  _ ← DB7_ASSERT (header_count data <? max_row_count_ l) "Tried to insert more than available in page";
  Ret (data, old).

(** A column index past [sizes_] is undefined. *)
Definition CalcOffset (l : PaxLayout) (row_idx column_idx : Z) : outcome Z :=
  match sizes_ l !! Z.to_nat column_idx, offsets_ l !! Z.to_nat column_idx with
  | Some size, Some offset => Ret (to_u32 (to_u32 (row_idx * size) + offset))
  | _, _ => Undefined "column index out of range"
  end.

Definition write_at (data : mem) (off : Z) (payload : list Z) : outcome mem :=
  _ ← in_bounds off (Z.of_nat (length payload)) DB7_PAGE_SIZE "write past the page";
  Ret (write_bytes data off payload).

Definition Update (l : PaxLayout) (page_data : mem) (update_data : list Z) (column_idx row_idx : Z) : outcome mem :=
  off ← CalcOffset l row_idx column_idx;
  write_at page_data off update_data.

Definition Insert (l : PaxLayout) (page_data : mem) (insert_data : list Z) (column_idx row_idx : Z) : outcome mem :=
  off ← CalcOffset l row_idx column_idx;
  write_at page_data off insert_data.

(** [Get]: the address of a cell. *)
Definition Get (l : PaxLayout) (column_idx row_idx : Z) : outcome Z := CalcOffset l row_idx column_idx.

Definition Delete (data : mem) (row_idx : Z) : outcome mem :=
  let byte_offset := HEADER_SIZE + row_idx / 8 in
  let mask := Z.shiftl 1 (row_idx mod 8) in
  _ ← in_bounds byte_offset 1 DB7_PAGE_SIZE "write past the page";
  Ret (<[byte_offset := Z.lor (rd data byte_offset) mask]> data).

Definition IsDeleted (data : mem) (row_idx : Z) : bool :=
  let byte_offset := HEADER_SIZE + row_idx / 8 in
  let mask := Z.shiftl 1 (row_idx mod 8) in
  0 <? Z.land (rd data byte_offset) mask.

End PaxLayout.
Import PaxLayout.

(** ** The deleted bitmap *)

Lemma bit_test x i : 0 ≤ i → 0 ≤ x → (0 <? Z.land x (Z.shiftl 1 i)) = Z.testbit x i.
Proof.
  intros Hi Hx. rewrite Z.shiftl_1_l.
  assert (E : Z.land x (2 ^ i) = if Z.testbit x i then 2 ^ i else 0).
  { apply Z.bits_inj'. intros j Hj. rewrite Z.land_spec, Z.pow2_bits_eqb by done.
    destruct (Z.eqb_spec i j) as [->|Hne].
    - rewrite andb_true_r. destruct (Z.testbit x j); [by rewrite Z.pow2_bits_true|by rewrite Z.bits_0].
    - rewrite andb_false_r. destruct (Z.testbit x i); [by rewrite Z.pow2_bits_false|by rewrite Z.bits_0]. }
  rewrite E. destruct (Z.testbit x i); [|done]. apply Z.ltb_lt, Z.pow_pos_nonneg; lia.
Qed.

(** [Delete] marks exactly its row and changes nothing past the bitmap byte. *)
Lemma PaxDelete_ok data row :
  mem_ok data → 0 ≤ row → HEADER_SIZE + row / 8 < DB7_PAGE_SIZE →
  ∃ data', Delete data row = Ret data' ∧ mem_ok data' ∧
    (∀ x, x ≠ HEADER_SIZE + row / 8 → rd data' x = rd data x) ∧
    (∀ r, 0 ≤ r → IsDeleted data' r = if decide (r = row) then true else IsDeleted data r).
Proof.
  intros Hm Hr Hb. unfold Delete. pose proof (Z.div_pos row 8 Hr) as Hd.
  assert (Hmod : ∀ r, 0 ≤ r mod 8 < 8) by (intros; apply Z.mod_pos_bound; lia).
  rewrite in_bounds_true, bind_Ret by (unfold HEADER_SIZE in *; lia).
  rewrite Z.shiftl_1_l. set (a := HEADER_SIZE + row / 8) in *. set (v := Z.lor _ _).
  assert (Hv : is_byte v).
  { pose proof (Hm a) as Ha. unfold is_byte in *. pose proof (Hmod row).
    assert (2 ^ (row mod 8) ≤ 2 ^ 7) by (apply Z.pow_le_mono_r; lia).
    assert (0 < 2 ^ (row mod 8)) by (apply Z.pow_pos_nonneg; lia).
    split; [apply Z.lor_nonneg; lia|]. unfold v.
    destruct (Z.eq_dec (rd data a) 0) as [->|Hne]; [rewrite Z.lor_0_l; lia|].
    assert (Hlog : Z.log2 (Z.lor (rd data a) (2 ^ (row mod 8))) < 8).
    { rewrite Z.log2_lor by lia. apply Z.max_lub_lt; [apply Z.log2_lt_pow2; lia|rewrite Z.log2_pow2; lia]. }
    apply Z.log2_lt_pow2 in Hlog; [done|]. pose proof (Z.lor_nonneg (rd data a) (2 ^ (row mod 8))).
    destruct (Z.eq_dec (Z.lor (rd data a) (2 ^ (row mod 8))) 0) as [E|]; [apply Z.lor_eq_0_iff in E; lia|lia]. }
  eexists. split; [done|]. split; [|split].
  - intros x. rewrite rd_insert. by case_decide.
  - intros x Hx. by rewrite rd_insert, decide_False.
  - intros r Hr'. unfold IsDeleted. rewrite rd_insert. pose proof (Hmod r). pose proof (Hmod row).
    destruct (decide (a = HEADER_SIZE + r / 8)) as [E|E].
    + rewrite bit_test by (unfold is_byte in Hv; lia). rewrite <- E. unfold v.
      rewrite Z.lor_spec, Z.pow2_bits_eqb by lia. rewrite bit_test by (try apply Hm; lia).
      case_decide as D; [subst r; by rewrite Z.eqb_refl, orb_true_r|].
      rewrite (proj2 (Z.eqb_neq _ _)); [by rewrite orb_false_r|]. intros E'. apply D.
      unfold a in E. pose proof (Z.div_mod r 8). pose proof (Z.div_mod row 8). lia.
    + rewrite decide_False; [done|]. by intros ->.
Qed.

(** ** The columns of a page *)

(** [row_size] and [worst_case_pad] without the u32. *)
Definition pads (sizes : list Z) : Z := zsum ((λ s, s - 1) <$> sizes).

(** Arrays of [n] cells in increasing, disjoint, aligned places of [lo, hi). *)
Fixpoint columns_placed (n lo : Z) (offs sizes : list Z) (hi : Z) : Prop :=
  match offs, sizes with
  | [], [] => lo ≤ hi
  | o :: offs, s :: sizes => lo ≤ o ∧ o mod s = 0 ∧ 0 < s ∧ columns_placed n (o + n * s) offs sizes hi
  | _, _ => False
  end.

Lemma valid_size_pow2 s : valid_size s → ∃ k, s = 2 ^ k ∧ 0 ≤ k ≤ 4 ∧ 1 ≤ s ≤ 16.
Proof.
  unfold valid_size. rewrite !elem_of_cons, elem_of_nil.
  intros [->|[->|[->|[->|[->|[]]]]]]; [exists 0|exists 1|exists 2|exists 3|exists 4]; lia.
Qed.

Lemma sizes_nonneg sizes : Forall valid_size sizes → 0 ≤ zsum sizes ∧ 0 ≤ pads sizes.
Proof.
  intros H. split; apply zsum_nonneg; [|apply Forall_fmap]; eapply Forall_impl; [exact H| |exact H|];
    intros s Hs; destruct (valid_size_pow2 s Hs) as (k & _ & _ & ?); cbn; lia.
Qed.

Lemma pads_cons s sizes : pads (s :: sizes) = s - 1 + pads sizes.
Proof. done. Qed.

Lemma offsets_loop_ok sizes n lo :
  Forall valid_size sizes → 0 ≤ n → 0 ≤ lo → lo + pads sizes + n * zsum sizes ≤ DB7_PAGE_SIZE →
  columns_placed n lo (offsets_loop sizes n lo) sizes DB7_PAGE_SIZE.
Proof.
  intros Hv Hn. revert lo; induction Hv as [|s sizes Hs Hv IH]; intros lo Hlo Hhi; cbn [offsets_loop columns_placed].
  { cbn in Hhi. lia. }
  rewrite pads_cons, zsum_cons in Hhi. destruct (sizes_nonneg sizes Hv) as [H1 H2].
  destruct (valid_size_pow2 s Hs) as (k & -> & Hk & Hr).
  destruct (AlignUp_spec lo k) as [Ha1 Ha2]; [unfold DB7_PAGE_SIZE in *; nia..|].
  set (o := AlignUp lo (2 ^ k)) in *. unfold DB7_PAGE_SIZE in *.
  rewrite (wrap_small 32 o) by nia. rewrite (wrap_small 32 (n * 2 ^ k)) by nia. rewrite wrap_small by nia.
  split_and!; [lia|done|lia|]. apply IH; nia.
Qed.

Lemma columns_placed_hi n lo offs sizes hi : 0 ≤ n → columns_placed n lo offs sizes hi → lo ≤ hi.
Proof.
  intros Hn. revert lo sizes; induction offs as [|o offs IH]; intros lo [|s sizes]; cbn; try done.
  intros (? & ? & ? & H). apply IH in H. nia.
Qed.

Lemma columns_placed_lookup n lo offs sizes hi (i : nat) o s :
  0 ≤ n → columns_placed n lo offs sizes hi → offs !! i = Some o → sizes !! i = Some s →
  lo ≤ o ∧ o mod s = 0 ∧ 0 < s ∧ o + n * s ≤ hi.
Proof.
  intros Hn. revert lo sizes i; induction offs as [|o' offs IH]; intros lo [|s' sizes] [|i]; cbn; try done.
  - intros (? & ? & ? & H) [= ->] [= ->]. apply columns_placed_hi in H; [|done]. done.
  - intros (? & ? & ? & H) Ho Hs. destruct (IH _ _ _ H Ho Hs) as (? & ? & ? & ?). split_and!; (done || nia).
Qed.

Lemma columns_placed_lt n lo offs sizes hi (i j : nat) o s o' s' :
  0 ≤ n → columns_placed n lo offs sizes hi → offs !! i = Some o → sizes !! i = Some s →
  offs !! j = Some o' → sizes !! j = Some s' → (i < j)%nat → o + n * s ≤ o'.
Proof.
  intros Hn. revert lo sizes i j; induction offs as [|a offs IH]; intros lo [|b sizes] [|i] [|j]; cbn; try done; try lia.
  - intros (? & ? & ? & H) [= ->] [= ->] Ho' Hs' _. by destruct (columns_placed_lookup _ _ _ _ _ _ _ _ Hn H Ho' Hs').
  - intros (? & ? & ? & H) Ho Hs Ho' Hs' Hij. eapply (IH _ _ i j); eauto. lia.
Qed.

Lemma columns_placed_length n lo offs sizes hi : columns_placed n lo offs sizes hi → length offs = length sizes.
Proof.
  revert lo sizes; induction offs as [|o offs IH]; intros lo [|s sizes]; cbn; try done.
  intros (_ & _ & _ & H). f_equal. eauto.
Qed.

(** ** The layout of a schema *)

(** What [CalculateOffsets] computes in exact arithmetic. *)
Definition max_rows (sizes : list Z) : Z := (DB7_PAGE_SIZE - HEADER_SIZE - pads sizes) * 8 / (1 + 8 * zsum sizes).
Definition bitmap_end (sizes : list Z) : Z := HEADER_SIZE + (max_rows sizes + 7) / 8.

Lemma foldl_u32 (f : Z → Z) sizes a :
  (∀ s, s ∈ sizes → 0 ≤ f s) → 0 ≤ a → a + zsum (f <$> sizes) < 2 ^ 32 →
  foldl (λ acc size, to_u32 (acc + f size)) a sizes = a + zsum (f <$> sizes).
Proof.
  revert a; induction sizes as [|s sizes IH]; intros a Hf Ha Hlt; cbn [foldl fmap list_fmap] in *; [cbn; lia|].
  change (zsum (f s :: (f <$> sizes))) with (f s + zsum (f <$> sizes)) in *.
  assert (0 ≤ f s) by (apply Hf; left). assert (0 ≤ zsum (f <$> sizes)).
  { apply zsum_nonneg, Forall_fmap, Forall_forall. intros x Hx. apply Hf. by right. }
  rewrite wrap_small by lia. rewrite IH; [lia|intros; apply Hf; by right|lia|lia].
Qed.

Record layout_ok (sizes : list Z) (l : PaxLayout) : Prop := {
  lo_sizes : sizes_ l = sizes;
  lo_max : max_row_count_ l = max_rows sizes;
  lo_placed : columns_placed (max_rows sizes) (bitmap_end sizes) (offsets_ l) sizes DB7_PAGE_SIZE
}.

(** The page holds the bitmap and [max_rows] rows of every column. *)
Lemma make_ok sizes :
  Forall valid_size sizes → HEADER_SIZE + pads sizes ≤ DB7_PAGE_SIZE → 0 < zsum sizes ≤ DB7_PAGE_SIZE →
  layout_ok sizes (make sizes) ∧ 0 ≤ max_rows sizes ∧ bitmap_end sizes ≤ DB7_PAGE_SIZE.
Proof.
  intros Hv Hp Hz. destruct (sizes_nonneg sizes Hv) as [Hs Hpos].
  assert (Hin : ∀ s, s ∈ sizes → 1 ≤ s).
  { intros s Hx. rewrite Forall_forall in Hv. destruct (valid_size_pow2 s (Hv s Hx)) as (_ & _ & _ & ?). lia. }
  unfold make. rewrite (foldl_u32 (λ s, s - 1)).
  2: { intros s Hx. apply Hin in Hx. lia. }
  2: { lia. }
  2: { unfold pads, DB7_PAGE_SIZE, HEADER_SIZE in *. lia. }
  rewrite (foldl_u32 (λ s, s)), list_fmap_id.
  2: { intros s Hx. apply Hin in Hx. lia. }
  2: { lia. }
  2: { rewrite list_fmap_id. unfold DB7_PAGE_SIZE in *. lia. }
  change (zsum ((λ s, s - 1) <$> sizes)) with (pads sizes). rewrite !Z.add_0_l.
  assert (Hm : 0 ≤ max_rows sizes ∧ (1 + 8 * zsum sizes) * max_rows sizes ≤ (DB7_PAGE_SIZE - HEADER_SIZE - pads sizes) * 8).
  { unfold max_rows, DB7_PAGE_SIZE, HEADER_SIZE in *. split; [apply Z.div_pos; lia|apply Z.mul_div_le; lia]. }
  assert (E : to_u32 (to_u32 (DB7_PAGE_SIZE - HEADER_SIZE - pads sizes) * 8) / to_u32 (1 + to_u32 (8 * zsum sizes)) = max_rows sizes).
  { unfold max_rows, DB7_PAGE_SIZE, HEADER_SIZE in *. rewrite !wrap_small; rewrite ?wrap_small; lia. }
  rewrite E. set (n := max_rows sizes) in *.
  assert (Hd : 8 * ((n + 7) / 8) ≤ n + 7) by (apply Z.mul_div_le; lia).
  assert (Hd' : 0 ≤ (n + 7) / 8) by (apply Z.div_pos; lia).
  assert (Hfit : bitmap_end sizes + pads sizes + n * zsum sizes ≤ DB7_PAGE_SIZE).
  { unfold bitmap_end. fold n. unfold DB7_PAGE_SIZE, HEADER_SIZE in *. nia. }
  assert (Hb : to_u32 (HEADER_SIZE + to_u32 (n + 7) / 8) = bitmap_end sizes).
  { unfold bitmap_end. fold n. unfold DB7_PAGE_SIZE, HEADER_SIZE in *. rewrite !wrap_small; rewrite ?wrap_small; nia. }
  rewrite Hb. split; [|split; [tauto|nia]]. split; cbn; [done|done|]. fold n.
  apply offsets_loop_ok; [done|tauto| |done]. unfold bitmap_end, HEADER_SIZE. fold n. lia.
Qed.

(** ** Cells *)

Section Cells.
Context (sizes : list Z) (l : PaxLayout) (Hl : layout_ok sizes l) (Hmax : 0 ≤ max_rows sizes).

(** The address of a cell. *)
Lemma cell_ok (col : nat) row s :
  sizes !! col = Some s → 0 ≤ row < max_rows sizes →
  ∃ o, CalcOffset l row (Z.of_nat col) = Ret o ∧ bitmap_end sizes ≤ o ∧ o + s ≤ DB7_PAGE_SIZE ∧ o mod s = 0 ∧ 0 < s.
Proof.
  intros Hs Hr. destruct Hl as [H1 H2 Hp].
  destruct (lookup_lt_is_Some_2 (offsets_ l) col) as [o Ho].
  { rewrite (columns_placed_length _ _ _ _ _ Hp). by apply lookup_lt_Some in Hs. }
  destruct (columns_placed_lookup _ _ _ _ _ _ _ _ Hmax Hp Ho Hs) as (Q1 & Q2 & Q3 & Q4).
  assert (Hb : 4 ≤ bitmap_end sizes).
  { assert (0 ≤ (max_rows sizes + 7) / 8) by (apply Z.div_pos; lia). unfold bitmap_end, HEADER_SIZE. lia. }
  exists (row * s + o). unfold CalcOffset. rewrite H1, Nat2Z.id, Hs, Ho.
  unfold DB7_PAGE_SIZE in *. rewrite (wrap_small 32 (row * s)) by nia. rewrite wrap_small by nia.
  split_and!; [done|nia|nia| |done]. rewrite Z.add_comm, Z_mod_plus_full. done.
Qed.

(** Different cells do not overlap. *)
Lemma cells_disjoint (col col' : nat) row row' s s' o o' :
  sizes !! col = Some s → sizes !! col' = Some s' → 0 ≤ row < max_rows sizes → 0 ≤ row' < max_rows sizes →
  CalcOffset l row (Z.of_nat col) = Ret o → CalcOffset l row' (Z.of_nat col') = Ret o' →
  (col, row) ≠ (col', row') → o + s ≤ o' ∨ o' + s' ≤ o.
Proof.
  intros Hs Hs' Hr Hr'. destruct Hl as [H1 H2 Hp]. unfold CalcOffset. rewrite H1, !Nat2Z.id, Hs, Hs'.
  destruct (offsets_ l !! col) as [b|] eqn:Ho; [|done]. destruct (offsets_ l !! col') as [b'|] eqn:Ho'; [|done].
  destruct (columns_placed_lookup _ _ _ _ _ _ _ _ Hmax Hp Ho Hs) as (Q1 & Q2 & Q3 & Q4).
  destruct (columns_placed_lookup _ _ _ _ _ _ _ _ Hmax Hp Ho' Hs') as (Q1' & Q2' & Q3' & Q4').
  assert (Hb : 4 ≤ bitmap_end sizes).
  { assert (0 ≤ (max_rows sizes + 7) / 8) by (apply Z.div_pos; lia). unfold bitmap_end, HEADER_SIZE. lia. }
  unfold DB7_PAGE_SIZE in *. rewrite (wrap_small 32 (row * s)), (wrap_small 32 (row' * s')) by nia. rewrite !wrap_small by nia.
  intros [= <-] [= <-] Hne. destruct (Nat.lt_trichotomy col col') as [Hlt|[->|Hlt]].
  - pose proof (columns_placed_lt _ _ _ _ _ _ _ _ _ _ _ Hmax Hp Ho Hs Ho' Hs' Hlt). left. nia.
  - simplify_eq. assert (row ≠ row') by congruence. destruct (Z.lt_ge_cases row row'); [left|right]; nia.
  - pose proof (columns_placed_lt _ _ _ _ _ _ _ _ _ _ _ Hmax Hp Ho' Hs' Ho Hs Hlt). right. nia.
Qed.

(** The value of a cell. *)
Definition cell (data : mem) (col : nat) (row : Z) : list Z :=
  match CalcOffset l row (Z.of_nat col), sizes !! col with
  | Ret o, Some s => read_bytes data o (Z.to_nat s)
  | _, _ => []
  end.

(** A write of a cell changes no other cell, nor the row count and bitmap. *)
Lemma PaxInsert_ok data (col : nat) row s v :
  sizes !! col = Some s → 0 ≤ row < max_rows sizes → Z.of_nat (length v) = s → mem_ok data → bytes_ok v →
  ∃ data', Insert l data v (Z.of_nat col) row = Ret data' ∧ mem_ok data' ∧ cell data' col row = v ∧
    (∀ col' row', (col, row) ≠ (col', row') → 0 ≤ row' < max_rows sizes → (col' < length sizes)%nat →
       cell data' col' row' = cell data col' row') ∧
    (∀ x, x < bitmap_end sizes → rd data' x = rd data x).
Proof.
  intros Hs Hr Hv Hm Hb. destruct (cell_ok col row s Hs Hr) as (o & Ho & B1 & B2 & _ & B3).
  unfold Insert, write_at. rewrite Ho, bind_Ret, in_bounds_true, bind_Ret.
  2: { assert (0 ≤ (max_rows sizes + 7) / 8) by (apply Z.div_pos; lia). unfold bitmap_end, HEADER_SIZE in *. lia. }
  2: { lia. }
  eexists. split; [done|]. split; [by apply write_bytes_ok|]. split_and!.
  - unfold cell. rewrite Ho, Hs. replace (Z.to_nat s) with (length v) by lia. apply read_write_same.
  - intros col' row' Hne Hr' [s' Hs']%lookup_lt_is_Some_2.
    destruct (cell_ok col' row' s' Hs' Hr') as (o' & Ho' & _ & _ & _ & B3'). unfold cell. rewrite Ho', Hs'.
    apply read_write_disj. destruct (cells_disjoint _ _ _ _ _ _ _ _ Hs Hs' Hr Hr' Ho Ho' Hne); lia.
  - intros x Hx. apply rd_write_out. lia.
Qed.
End Cells.

(** ** Rows handed out by the free space manager *)

(** The size of a chunk of all columns: header, values and padding. *)
Definition row_chunk_size (sizes : list Z) : Z := 8 + 6 * Z.of_nat (length sizes) + zsum sizes.

(** As many rows as the space manager puts on a page leave the row count below
    the maximum. *)
Lemma rows_below_max sizes c k :
  Forall valid_size sizes → sizes ≠ [] → zsum sizes ≤ 1100 → row_chunk_size sizes ≤ c → 0 ≤ k → k * c ≤ PAYLOAD_SIZE →
  k < max_rows sizes.
Proof.
  intros Hv Hne Hrow Hc Hk Hkc. destruct (sizes_nonneg sizes Hv) as [Hs Hp].
  assert (Hrn : zsum sizes ≤ 16 * Z.of_nat (length sizes) ∧ pads sizes ≤ 15 * Z.of_nat (length sizes) ∧ pads sizes ≤ zsum sizes).
  { clear -Hv. induction Hv as [|s l Hx _ IH]; [cbn; lia|]. rewrite pads_cons, zsum_cons. cbn [length].
    destruct (valid_size_pow2 s Hx) as (_ & _ & _ & ?). lia. }
  assert (Hn : 1 ≤ Z.of_nat (length sizes)) by (destruct sizes; [done|cbn; lia]).
  unfold row_chunk_size, PAYLOAD_SIZE, max_rows, DB7_PAGE_SIZE, HEADER_SIZE in *.
  assert (Hkk : k * (8 + 6 * Z.of_nat (length sizes) + zsum sizes) ≤ 8188) by nia. clear Hkc.
  apply Z.lt_le_trans with (k + 1); [lia|]. apply Z.div_le_lower_bound; [lia|].
  destruct (Z.le_gt_cases k 5); nia.
Qed.
