(* ===== verification/ChunkUtils.v ===== *)
(** * Rows between pages and chunks (access/chunk_utils.hpp)

    [ChunkUtils] copies a row of a page to the columns of a chunk, a chunk to a
    new row, and a chunk over a row with the row's old values kept in a delta
    chunk, which [Merge] puts back.  The spans over the column ids are read
    before the loops: the writes of the loops stay in the value part of the
    chunks. *)

From stdpp Require Import strings.
From S2P Require Import Prelude Bytes Shared Memory AccessTypes DataChunk Fsm Pax.
Import PaxLayout.

Module ChunkUtils.

Section Ops.
Context (schema : Schema) (layout : PaxLayout).

(** The cell of a column: its address in the page and its size. *)
Definition column_cell (id idx : Z) : outcome (Z * Z) :=
  info ← GetColumn schema id;
  ptr ← PaxLayout.Get layout (to_u16 (sc_position info)) idx;
  Ret (ptr, sc_type_size info).

Fixpoint read_columns (ids : list Z) (chunk : DataChunk) (data : mem) (idx : Z) : outcome DataChunk :=
  match ids with
  | [] => Ret chunk
  | id :: ids =>
      '(ptr, size) ← column_cell id idx;
      _ ← in_bounds ptr size DB7_PAGE_SIZE "read past the page";
      read_columns ids (Chunk.Write chunk id (read_bytes data ptr (Z.to_nat size))) data idx
  end.

Definition ReadSingleIntoChunk (chunk : DataChunk) (data : mem) (idx : Z) : outcome DataChunk :=
  read_columns (Chunk.GetColumnIds chunk) chunk data idx.

Fixpoint insert_columns (ids : list Z) (chunk : DataChunk) (data : mem) (old_count item_count : Z) : outcome mem :=
  match ids with
  | [] => Ret data
  | id :: ids =>
      info ← GetColumn schema id;
      ptr ← Chunk.Get chunk id;
      data ← Insert layout data (read_bytes chunk ptr (Z.to_nat (sc_type_size info * item_count)))
               (to_u16 (sc_position info)) old_count;
      insert_columns ids chunk data old_count item_count
  end.

(** [InsertBulk]: the page, and the row the chunk went to. *)
Definition InsertBulk (chunk : DataChunk) (data : mem) (item_count : Z) : outcome (mem * Z) :=
  '(data, old_count) ← IncrementHeaderCount layout data item_count;
  data ← insert_columns (Chunk.GetColumnIds chunk) chunk data old_count item_count;
  Ret (data, old_count).

Fixpoint update_columns (ids : list Z) (chunk delta : DataChunk) (chunk_iter delta_iter : Z) (data : mem) (idx : Z)
  : outcome (DataChunk * mem) :=
  match ids with
  | [] => Ret (delta, data)
  | id :: ids =>
      '(ptr, size) ← column_cell id idx;
      _ ← in_bounds ptr size DB7_PAGE_SIZE "access past the page";
      let '(delta, delta_iter) := Chunk.PushBack delta delta_iter (read_bytes data ptr (Z.to_nat size)) in
      let '(src, chunk_iter) := Chunk.Next chunk chunk_iter in
      let data := write_bytes data ptr (read_bytes chunk src (Z.to_nat size)) in
      update_columns ids chunk delta chunk_iter delta_iter data idx
  end.

(** [UpdateSingle]: the delta with the old values, and the page. *)
Definition UpdateSingle (chunk delta : DataChunk) (data : mem) (idx : Z) : outcome (DataChunk * mem) :=
  update_columns (Chunk.GetColumnIds chunk) chunk delta Chunk.InitIterator Chunk.InitIterator data idx.

(** The inner loop of [Merge]: the first column of [curr] with the id. *)
Fixpoint merge_column (cur_ids : list Z) (cur_idx new_id new_idx : Z) (curr new : DataChunk) : outcome DataChunk :=
  match cur_ids with
  | [] => Ret curr
  | cur_id :: cur_ids =>
      if cur_id =? new_id then
        info ← GetColumn schema new_id;
        Ret (write_bytes curr (Chunk.Access curr cur_idx)
               (read_bytes new (Chunk.Access new new_idx) (Z.to_nat (sc_type_size info))))
      else merge_column cur_ids (cur_idx + 1) new_id new_idx curr new
  end.

Fixpoint merge_columns (new_ids : list Z) (new_idx : Z) (curr new : DataChunk) : outcome DataChunk :=
  match new_ids with
  | [] => Ret curr
  | new_id :: new_ids =>
      curr ← merge_column (Chunk.GetColumnIds curr) 0 new_id new_idx curr new;
      merge_columns new_ids (new_idx + 1) curr new
  end.

Definition Merge (curr new : DataChunk) : outcome DataChunk :=
  merge_columns (Chunk.GetColumnIds new) 0 curr new.

End Ops.
End ChunkUtils.
Import ChunkUtils.

(** ** The values of a chunk *)

Definition vals (c : DataChunk) (offs sizes : list Z) : list (list Z) :=
  zip_with (λ o s, read_bytes c o (Z.to_nat s)) offs sizes.

Lemma vals_lookup c offs sizes (i : nat) o s :
  offs !! i = Some o → sizes !! i = Some s → vals c offs sizes !! i = Some (read_bytes c o (Z.to_nat s)).
Proof. intros Ho Hs. unfold vals. by rewrite lookup_zip_with, Ho, Hs. Qed.

Lemma vals_length c offs sizes : length offs = length sizes → length (vals c offs sizes) = length sizes.
Proof. intros H. unfold vals. rewrite length_zip_with. lia. Qed.

(** A chunk of the columns [ids] of the schema. *)
Record chunk_at (s : Schema) (c : DataChunk) (ids sizes offs : list Z) (total : Z) : Prop := {
  ca_ok : chunk_ok c ids sizes offs total;
  ca_nodup : NoDup ids;
  ca_len : Z.of_nat (length ids) < 2 ^ 32;
  ca_schema : ∀ (i : nat) id, ids !! i = Some id → ∃ col, s !! id = Some col ∧ sizes !! i = Some (sc_type_size col)
}.

Lemma chunk_at_field s c ids sizes offs total (i : nat) id :
  chunk_at s c ids sizes offs total → ids !! i = Some id →
  ∃ col o, s !! id = Some col ∧ sizes !! i = Some (sc_type_size col) ∧ offs !! i = Some o ∧ Chunk.Access c (Z.of_nat i) = o.
Proof.
  intros [Hok Hnd Hlen Hs] Hi. destruct (Hs i id Hi) as (col & H1 & H2).
  destruct (chunk_field _ _ _ _ _ Hok i id Hi) as (o & sz & Ho & _).
  exists col, o. split_and!; [done|done|done|]. by apply (co_access _ _ _ _ _ Hok).
Qed.

Lemma chunk_at_lengths s c ids sizes offs total :
  chunk_at s c ids sizes offs total → length sizes = length ids ∧ length offs = length sizes.
Proof. intros [Hok _ _ _]. destruct Hok. split; [done|]. by eapply placed_length. Qed.

(** Writing a value of the right size replaces that value only. *)
Lemma chunk_at_write s c ids sizes offs total (i : nat) o sz v :
  chunk_at s c ids sizes offs total → offs !! i = Some o → sizes !! i = Some sz → Z.of_nat (length v) = sz →
  chunk_at s (write_bytes c o v) ids sizes offs total ∧
  vals (write_bytes c o v) offs sizes = <[i := v]> (vals c offs sizes).
Proof.
  intros H Ho Hs Hv. pose proof H as [Hok Hnd Hlen Hsch]. destruct (chunk_at_lengths _ _ _ _ _ _ H) as [L1 L2].
  destruct (write_field c ids sizes offs total Hok Hlen i o sz v Ho Hs) as (W1 & W2 & W3); [lia|].
  split; [by split|]. apply list_eq. intros j. destruct (decide (j = i)) as [->|Hji].
  - rewrite list_lookup_insert_eq.
    + rewrite (vals_lookup _ _ _ _ _ _ Ho Hs). f_equal. rewrite <- Hv, Nat2Z.id. done.
    + rewrite vals_length by done. by apply lookup_lt_Some in Hs.
  - rewrite list_lookup_insert_ne by done. destruct (sizes !! j) as [s'|] eqn:Hsj.
    + destruct (lookup_lt_is_Some_2 offs j) as [o' Ho']; [rewrite L2; by apply lookup_lt_Some in Hsj|].
      rewrite !(vals_lookup _ _ _ _ _ _ Ho' Hsj). f_equal. by apply W3 with j.
    + unfold vals. rewrite !lookup_zip_with, Hsj. by destruct (offs !! j).
Qed.

Lemma chunk_field_bounds s c ids sizes offs total (i : nat) o sz :
  chunk_at s c ids sizes offs total → offs !! i = Some o → sizes !! i = Some sz →
  header_end ids ≤ o ∧ 0 < sz ∧ o + sz ≤ total.
Proof.
  intros H Ho Hs. destruct (placed_lookup _ _ _ _ _ _ _ (co_placed _ _ _ _ _ (ca_ok _ _ _ _ _ _ H)) Ho Hs) as (H1 & H2 & H3 & _).
  done.
Qed.

(** ** The rows of a page *)

(** The schema's columns are the columns of the layout. *)
Record schema_layout (s : Schema) (psizes : list Z) : Prop := {
  sl_column : ∀ id col, s !! id = Some col →
    0 ≤ sc_position col < 2 ^ 16 ∧ psizes !! Z.to_nat (sc_position col) = Some (sc_type_size col);
  sl_inj : ∀ id id' col col', s !! id = Some col → s !! id' = Some col' →
    sc_position col = sc_position col' → id = id'
}.

(** The value of a column in a row. *)
Definition row_val (s : Schema) (psizes : list Z) (l : PaxLayout) (data : mem) (idx id : Z) : list Z :=
  match s !! id with
  | Some col => cell psizes l data (Z.to_nat (sc_position col)) idx
  | None => []
  end.

Section Rows.
Context (s : Schema) (psizes : list Z) (l : PaxLayout).
Context (Hl : layout_ok psizes l) (Hmax : 0 ≤ max_rows psizes) (Hs : schema_layout s psizes).

Abbreviation row := (row_val s psizes l).

Lemma column_cell_ok id col idx :
  s !! id = Some col → 0 ≤ idx < max_rows psizes →
  ∃ ptr, column_cell s l id idx = Ret (ptr, sc_type_size col) ∧
    CalcOffset l idx (Z.of_nat (Z.to_nat (sc_position col))) = Ret ptr ∧
    bitmap_end psizes ≤ ptr ∧ 0 ≤ ptr ∧ ptr + sc_type_size col ≤ DB7_PAGE_SIZE ∧ 0 < sc_type_size col ∧
    ∀ data, row data idx id = read_bytes data ptr (Z.to_nat (sc_type_size col)).
Proof.
  intros Hid Hi. destruct (sl_column _ _ Hs id col Hid) as [Hp Hsz].
  destruct (cell_ok _ _ Hl Hmax _ _ _ Hsz Hi) as (ptr & Ho & B1 & B2 & _ & B3).
  assert (0 ≤ bitmap_end psizes).
  { assert (0 ≤ (max_rows psizes + 7) / 8) by (apply Z.div_pos; lia). unfold bitmap_end, HEADER_SIZE. lia. }
  exists ptr. unfold column_cell, GetColumn, PaxLayout.Get. rewrite Hid, bind_Ret, (wrap_small 16) by done.
  rewrite Z2Nat.id in Ho by lia. rewrite Ho, bind_Ret, Z2Nat.id by lia.
  split_and!; (done || lia || idtac). intros data. unfold row_val, cell. rewrite Hid, Z2Nat.id by lia. by rewrite Ho, Hsz.
Qed.

(** Writing the cell of a column replaces that value only. *)
Lemma row_write data idx id col ptr v :
  s !! id = Some col → 0 ≤ idx < max_rows psizes → column_cell s l id idx = Ret (ptr, sc_type_size col) →
  Z.of_nat (length v) = sc_type_size col →
  row (write_bytes data ptr v) idx id = v ∧
  (∀ id' idx', (id', idx') ≠ (id, idx) → 0 ≤ idx' < max_rows psizes →
     row (write_bytes data ptr v) idx' id' = row data idx' id') ∧
  (∀ x, x < bitmap_end psizes → rd (write_bytes data ptr v) x = rd data x).
Proof.
  intros Hid Hi Hc Hv. destruct (column_cell_ok id col idx Hid Hi) as (ptr' & Hc' & Ho & B1 & B2 & B3 & B4 & Hr).
  rewrite Hc in Hc'. injection Hc' as <-. split_and!.
  - rewrite Hr, <- Hv, Nat2Z.id. apply read_write_same.
  - intros id' idx' Hne Hi'. destruct (s !! id') as [col'|] eqn:Hid'; [|unfold row_val; by rewrite Hid'].
    destruct (column_cell_ok id' col' idx' Hid' Hi') as (ptr' & _ & Ho' & _ & _ & _ & B4' & Hr').
    rewrite !Hr'. apply read_write_disj. rewrite Hv, Z2Nat.id by lia.
    destruct (sl_column _ _ Hs _ _ Hid) as [P1 Hsz], (sl_column _ _ Hs _ _ Hid') as [P1' Hsz'].
    destruct (cells_disjoint _ _ Hl Hmax _ _ _ _ _ _ _ _ Hsz Hsz' Hi Hi' Ho Ho') as [?|?]; [|lia|lia].
    intros [= Hp ->]. apply Hne. f_equal. apply (sl_inj _ _ Hs _ _ _ _ Hid' Hid). lia.
  - intros x Hx. apply rd_write_out. lia.
Qed.

(** Rows agree but for the columns [ids] of row [idx], and so do the row count
    and the bitmap. *)
Definition rows_frame (ids : list Z) (idx : Z) (data data' : mem) : Prop :=
  (∀ id' idx', id' ∉ ids ∨ idx' ≠ idx → 0 ≤ idx' < max_rows psizes → row data' idx' id' = row data idx' id') ∧
  (∀ x, x < bitmap_end psizes → rd data' x = rd data x).

Lemma rows_frame_nil idx data : rows_frame [] idx data data.
Proof. done. Qed.

Lemma rows_frame_step ids id idx data data1 data' :
  (∀ id' idx', (id', idx') ≠ (id, idx) → 0 ≤ idx' < max_rows psizes → row data1 idx' id' = row data idx' id') →
  (∀ x, x < bitmap_end psizes → rd data1 x = rd data x) →
  rows_frame ids idx data1 data' → rows_frame (id :: ids) idx data data'.
Proof.
  intros H1 H2 [H3 H4]. split.
  - intros id' idx' Hne Hi'. rewrite H3; [|rewrite not_elem_of_cons in Hne; tauto|done].
    apply H1; [|done]. rewrite not_elem_of_cons in Hne. intros [= -> ->]. tauto.
  - intros x Hx. rewrite H4, H2; done.
Qed.

Lemma take_insert_S {A} (vs : list A) n v rest :
  (n < length vs)%nat → take (S n) (<[n := v]> vs) ++ rest = take n vs ++ v :: rest.
Proof.
  intros Hn. rewrite (take_S_r _ _ v) by (by apply list_lookup_insert_eq).
  rewrite take_insert_ge by lia. by rewrite <- (assoc (++)).
Qed.

(** ** ReadSingleIntoChunk *)

Lemma read_columns_ok pre ids c sizes offs total data idx :
  chunk_at s c (pre ++ ids) sizes offs total → 0 ≤ idx < max_rows psizes →
  ∃ c', read_columns s l ids c data idx = Ret c' ∧ chunk_at s c' (pre ++ ids) sizes offs total ∧
    vals c' offs sizes = take (length pre) (vals c offs sizes) ++ (row data idx <$> ids).
Proof.
  revert pre c; induction ids as [|id ids IH]; intros pre c Hc Hi; cbn [read_columns].
  - exists c. split; [done|]. split; [done|]. destruct (chunk_at_lengths _ _ _ _ _ _ Hc) as [L1 L2].
    rewrite app_nil_r in *. rewrite take_ge; [done|]. rewrite vals_length; lia.
  - assert (Hid : (pre ++ id :: ids) !! length pre = Some id) by (by rewrite list_lookup_middle).
    destruct (chunk_at_field _ _ _ _ _ _ _ _ Hc Hid) as (col & o & Hcol & Hsz & Ho & Ha).
    destruct (column_cell_ok id col idx Hcol Hi) as (ptr & -> & _ & B1 & B2 & B3 & B4 & Hr).
    rewrite bind_Ret, in_bounds_true, bind_Ret by lia.
    rewrite (Write_ok _ _ _ _ _ (ca_ok _ _ _ _ _ _ Hc) (ca_nodup _ _ _ _ _ _ Hc) _ _ _ _ Hid Ho).
    destruct (chunk_at_write _ _ _ _ _ _ _ _ _ (read_bytes data ptr (Z.to_nat (sc_type_size col))) Hc Ho Hsz) as [Hc1 Hv1].
    { rewrite length_read_bytes. lia. }
    rewrite (app_assoc pre [id] ids : pre ++ id :: ids = _) in Hc1 |- *.
    destruct (IH _ _ Hc1 Hi) as (c' & -> & Hc' & Hv').
    exists c'. split; [done|]. split; [done|]. rewrite Hv', Hv1, length_app. cbn [length].
    rewrite Nat.add_1_r, take_insert_S; [by rewrite <- Hr|].
    destruct (chunk_at_lengths _ _ _ _ _ _ Hc) as [L1 L2]. rewrite vals_length, L1, length_app by lia. cbn; lia.
Qed.

Lemma ReadSingleIntoChunk_ok c ids sizes offs total data idx :
  chunk_at s c ids sizes offs total → 0 ≤ idx < max_rows psizes →
  ∃ c', ReadSingleIntoChunk s l c data idx = Ret c' ∧ chunk_at s c' ids sizes offs total ∧
    vals c' offs sizes = row data idx <$> ids.
Proof.
  intros Hc Hi. unfold ReadSingleIntoChunk. rewrite (co_ids _ _ _ _ _ (ca_ok _ _ _ _ _ _ Hc)).
  destruct (read_columns_ok [] ids c sizes offs total data idx Hc Hi) as (c' & H1 & H2 & H3). eauto.
Qed.

(** ** UpdateSingle *)

Lemma update_columns_ok pre ids c delta sizes offs total data idx :
  chunk_at s c (pre ++ ids) sizes offs total → chunk_at s delta (pre ++ ids) sizes offs total →
  0 ≤ idx < max_rows psizes →
  ∃ delta' data', update_columns s l ids c delta (Z.of_nat (length pre)) (Z.of_nat (length pre)) data idx = Ret (delta', data') ∧
    chunk_at s delta' (pre ++ ids) sizes offs total ∧
    vals delta' offs sizes = take (length pre) (vals delta offs sizes) ++ (row data idx <$> ids) ∧
    (∀ x, x < header_end (pre ++ ids) ∨ total ≤ x → rd delta' x = rd delta x) ∧
    (row data' idx <$> ids) = drop (length pre) (vals c offs sizes) ∧ rows_frame ids idx data data'.
Proof.
  revert pre delta data; induction ids as [|id ids IH]; intros pre delta data Hc Hd Hi; cbn [update_columns].
  - destruct (chunk_at_lengths _ _ _ _ _ _ Hd) as [L1 L2]. rewrite app_nil_r in *.
    exists delta, data. split_and!; [done|done| |done| |apply rows_frame_nil].
    + rewrite fmap_nil, app_nil_r, take_ge; [done|]. rewrite vals_length; lia.
    + rewrite drop_ge; [done|]. rewrite vals_length; lia.
  - assert (Hid : (pre ++ id :: ids) !! length pre = Some id) by (by rewrite list_lookup_middle).
    destruct (chunk_at_field _ _ _ _ _ _ _ _ Hc Hid) as (col & o & Hcol & Hsz & Ho & Ha).
    destruct (chunk_at_field _ _ _ _ _ _ _ _ Hd Hid) as (col' & o' & _ & _ & Ho' & Hda).
    rewrite Ho in Ho'. injection Ho' as <-. clear col'.
    destruct (column_cell_ok id col idx Hcol Hi) as (ptr & Hptr & _ & B1 & B2 & B3 & B4 & Hr).
    rewrite Hptr, bind_Ret, in_bounds_true, bind_Ret by lia. unfold Chunk.PushBack, Chunk.Next. cbv beta iota zeta.
    rewrite Hda, Ha.
    destruct (chunk_at_write _ _ _ _ _ _ _ _ _ (read_bytes data ptr (Z.to_nat (sc_type_size col))) Hd Ho Hsz) as [Hd1 Hv1].
    { rewrite length_read_bytes. lia. }
    set (delta1 := write_bytes delta _ _) in *.
    set (v := read_bytes c o (Z.to_nat (sc_type_size col))).
    destruct (row_write data idx id col ptr v Hcol Hi Hptr) as (W1 & W2 & W3).
    { unfold v. rewrite length_read_bytes. lia. }
    set (data1 := write_bytes data ptr v) in *.
    pose proof Hc as Hc0. pose proof Hd as Hd0.
    rewrite (app_assoc pre [id] ids : pre ++ id :: ids = _) in Hc, Hd1, Hd |- *.
    replace (Z.of_nat (length pre) + 1) with (Z.of_nat (length (pre ++ [id]))) by (rewrite length_app; cbn; lia).
    destruct (IH _ delta1 data1 Hc Hd1 Hi) as (delta' & data' & -> & Hd' & Hv' & Hout & Hrow & Hfr).
    destruct (chunk_at_lengths _ _ _ _ _ _ Hc0) as [L1 L2].
    assert (Hlt : (length pre < length (vals delta offs sizes))%nat).
    { rewrite vals_length, L1, length_app by lia. cbn; lia. }
    assert (Hnd : id ∉ ids).
    { pose proof (ca_nodup _ _ _ _ _ _ Hc0) as Hn. apply NoDup_app in Hn as (_ & _ & Hn). by apply NoDup_cons in Hn as [? _]. }
    exists delta', data'. split; [done|]. split; [done|]. split_and!.
    + rewrite Hv', Hv1, length_app. cbn [length]. rewrite Nat.add_1_r, take_insert_S by done.
      do 2 f_equal. cbn. f_equal; [by rewrite Hr|]. apply list_fmap_ext. intros j id' Hj%list_elem_of_lookup_2.
      apply W2; [|done]. intros [= ->]. done.
    + intros x Hx. rewrite (app_assoc pre [id] ids : pre ++ id :: ids = _) in Hd0. rewrite Hout by done.
      destruct (chunk_field_bounds _ _ _ _ _ _ _ _ _ Hd0 Ho Hsz) as (F1 & F2 & F3).
      unfold delta1. apply rd_write_out. rewrite length_read_bytes. lia.
    + rewrite (drop_S _ v (length pre)).
      * cbn. f_equal; [|rewrite Hrow, length_app; cbn [length]; by rewrite Nat.add_1_r].
        rewrite <- W1. apply Hfr; [by left|done].
      * by rewrite (vals_lookup _ _ _ _ _ _ Ho Hsz).
    + by apply (rows_frame_step _ _ _ _ data1).
Qed.

Lemma UpdateSingle_ok c delta ids sizes offs total data idx :
  chunk_at s c ids sizes offs total → chunk_at s delta ids sizes offs total → 0 ≤ idx < max_rows psizes →
  ∃ delta' data', UpdateSingle s l c delta data idx = Ret (delta', data') ∧
    chunk_at s delta' ids sizes offs total ∧ vals delta' offs sizes = row data idx <$> ids ∧
    (∀ x, x < header_end ids ∨ total ≤ x → rd delta' x = rd delta x) ∧
    (row data' idx <$> ids) = vals c offs sizes ∧ rows_frame ids idx data data'.
Proof.
  intros Hc Hd Hi. unfold UpdateSingle. rewrite (co_ids _ _ _ _ _ (ca_ok _ _ _ _ _ _ Hc)).
  apply (update_columns_ok [] ids c delta sizes offs total data idx Hc Hd Hi).
Qed.

(** ** InsertBulk *)

Lemma insert_columns_ok pre ids c sizes offs total data idx :
  chunk_at s c (pre ++ ids) sizes offs total → 0 ≤ idx < max_rows psizes →
  ∃ data', insert_columns s l ids c data idx 1 = Ret data' ∧
    (row data' idx <$> ids) = drop (length pre) (vals c offs sizes) ∧ rows_frame ids idx data data'.
Proof.
  revert pre data; induction ids as [|id ids IH]; intros pre data Hc Hi; cbn [insert_columns].
  - destruct (chunk_at_lengths _ _ _ _ _ _ Hc) as [L1 L2]. rewrite app_nil_r in *.
    exists data. split; [done|]. split; [|apply rows_frame_nil].
    rewrite drop_ge; [done|]. rewrite vals_length; lia.
  - assert (Hid : (pre ++ id :: ids) !! length pre = Some id) by (by rewrite list_lookup_middle).
    destruct (chunk_at_field _ _ _ _ _ _ _ _ Hc Hid) as (col & o & Hcol & Hsz & Ho & Ha).
    destruct (column_cell_ok id col idx Hcol Hi) as (ptr & Hptr & Hoff & B1 & B2 & B3 & B4 & Hr).
    unfold GetColumn. rewrite Hcol, bind_Ret.
    rewrite (ChunkGet_ok _ _ _ _ _ (ca_ok _ _ _ _ _ _ Hc) (ca_nodup _ _ _ _ _ _ Hc) _ _ _ Hid Ho), bind_Ret.
    destruct (sl_column _ _ Hs id col Hcol) as [Hp _].
    unfold Insert, write_at. rewrite (wrap_small 16), Z.mul_1_r by done.
    rewrite Z2Nat.id in Hoff by lia. rewrite Hoff, bind_Ret, length_read_bytes, Z2Nat.id by lia.
    rewrite in_bounds_true by lia. rewrite !bind_Ret. set (v := read_bytes c o (Z.to_nat (sc_type_size col))).
    destruct (row_write data idx id col ptr v Hcol Hi Hptr) as (W1 & W2 & W3).
    { unfold v. rewrite length_read_bytes. lia. }
    set (data1 := write_bytes data ptr v) in *. pose proof Hc as Hc0.
    rewrite (app_assoc pre [id] ids : pre ++ id :: ids = _) in Hc.
    destruct (IH _ data1 Hc Hi) as (data' & -> & Hrow & Hfr).
    assert (Hnd : id ∉ ids).
    { pose proof (ca_nodup _ _ _ _ _ _ Hc0) as Hn. apply NoDup_app in Hn as (_ & _ & Hn). by apply NoDup_cons in Hn as [? _]. }
    exists data'. split; [done|]. split; [|by apply (rows_frame_step _ _ _ _ data1)].
    rewrite (drop_S _ v (length pre)) by (by rewrite (vals_lookup _ _ _ _ _ _ Ho Hsz)).
    cbn. f_equal; [|rewrite Hrow, length_app; cbn [length]; by rewrite Nat.add_1_r].
    rewrite <- W1. apply Hfr; [by left|done].
Qed.

(** A chunk goes to the row after the last one of the page. *)
Lemma InsertBulk_ok c ids sizes offs total data :
  chunk_at s c ids sizes offs total → mem_ok data → header_count data + 1 < max_rows psizes →
  let idx := header_count data in
  ∃ data', InsertBulk s l c data 1 = Ret (data', idx) ∧ header_count data' = idx + 1 ∧
    (row data' idx <$> ids) = vals c offs sizes ∧
    (∀ id' idx', id' ∉ ids ∨ idx' ≠ idx → 0 ≤ idx' < max_rows psizes → row data' idx' id' = row data idx' id') ∧
    (∀ x, HEADER_SIZE ≤ x < bitmap_end psizes → rd data' x = rd data x).
Proof.
  intros Hc Hm Hlt idx. pose proof (load_range 4 data 0 Hm) as Hr. fold (header_count data) in Hr. fold idx in Hr, Hlt.
  assert (Hbig : max_rows psizes ≤ 65504 ∧ 4 ≤ bitmap_end psizes).
  { destruct Hl as [_ _ Hp]. apply columns_placed_hi in Hp; [|done].
    unfold bitmap_end, HEADER_SIZE, DB7_PAGE_SIZE in *.
    pose proof (Z.div_mod (max_rows psizes + 7) 8). pose proof (Z.mod_pos_bound (max_rows psizes + 7) 8).
    assert (0 ≤ (max_rows psizes + 7) / 8) by (apply Z.div_pos; lia). lia. }
  unfold InsertBulk, IncrementHeaderCount. cbv zeta. fold idx. rewrite (wrap_small 32) by lia.
  set (data0 := store 4 data 0 (idx + 1)).
  assert (Hc0 : header_count data0 = idx + 1).
  { unfold header_count, data0. rewrite load_store_same. apply Z.mod_small. lia. }
  rewrite Hc0, (lo_max _ _ Hl), DB7_ASSERT_true, !bind_Ret by (by apply Z.ltb_lt).
  rewrite (co_ids _ _ _ _ _ (ca_ok _ _ _ _ _ _ Hc)).
  destruct (insert_columns_ok [] ids c sizes offs total data0 idx Hc) as (data' & -> & Hrow & Hfr1 & Hfr2); [lia|].
  rewrite bind_Ret. exists data'. split; [done|]. split_and!.
  - rewrite <- Hc0. apply load_ext. intros x Hx. apply Hfr2. lia.
  - done.
  - intros id' idx' Hne Hi'. rewrite Hfr1 by done. unfold row_val. destruct (s !! id') as [col|] eqn:Hcol; [|done].
    destruct (column_cell_ok id' col idx' Hcol Hi') as (ptr & _ & Ho & B1 & B2 & B3 & B4 & _).
    unfold cell. rewrite Ho. destruct (sl_column _ _ Hs _ _ Hcol) as [_ ->].
    unfold data0, store. apply read_write_disj. rewrite length_le_bytes. lia.
  - intros x Hx. rewrite Hfr2 by lia. unfold data0, store. apply rd_write_out. rewrite length_le_bytes.
    unfold HEADER_SIZE in Hx. lia.
Qed.
End Rows.

(** ** Merge *)

Section Merge.
Context (s : Schema).

(** The first column of [curr] with the id takes the value. *)
Lemma merge_column_ok pre ids c sizes offs total (f : Z → list Z) nid nidx new o' col :
  chunk_at s c (pre ++ ids) sizes offs total → vals c offs sizes = f <$> (pre ++ ids) → nid ∉ pre →
  s !! nid = Some col → Chunk.Access new nidx = o' →
  let v := read_bytes new o' (Z.to_nat (sc_type_size col)) in 0 < sc_type_size col →
  ∃ c', merge_column s ids (Z.of_nat (length pre)) nid nidx c new = Ret c' ∧
    chunk_at s c' (pre ++ ids) sizes offs total ∧
    vals c' offs sizes = (λ id, if decide (id = nid) then v else f id) <$> (pre ++ ids).
Proof.
  intros Hc Hv Hpre Hcol Ho v Hpos. revert pre Hc Hv Hpre; induction ids as [|id ids IH]; intros pre Hc Hv Hpre; cbn [merge_column].
  - exists c. split; [done|]. split; [done|]. rewrite Hv. apply list_fmap_ext. intros i x Hx%list_elem_of_lookup_2.
    rewrite decide_False; [done|]. intros ->. by rewrite app_nil_r in Hx.
  - destruct (Z.eqb_spec id nid) as [->|Hne].
    + assert (Hid : (pre ++ nid :: ids) !! length pre = Some nid) by (by rewrite list_lookup_middle).
      destruct (chunk_at_field _ _ _ _ _ _ _ _ Hc Hid) as (col' & o & Hcol' & Hsz & Hofs & Ha).
      rewrite Hcol in Hcol'. injection Hcol' as <-. unfold GetColumn. rewrite Hcol, bind_Ret, Ha, Ho. fold v.
      destruct (chunk_at_write _ _ _ _ _ _ _ _ _ v Hc Hofs Hsz) as [Hc1 Hv1]; [unfold v; rewrite length_read_bytes; lia|].
      eexists. split; [done|]. split; [done|]. rewrite Hv1, Hv.
      pose proof (ca_nodup _ _ _ _ _ _ Hc) as Hn. apply NoDup_app in Hn as (_ & _ & Hn). apply NoDup_cons in Hn as [Hn _].
      rewrite !fmap_app, !fmap_cons. rewrite decide_True by done.
      rewrite insert_app_r_alt by (rewrite length_fmap; lia). rewrite length_fmap, Nat.sub_diag. cbn [insert list_insert].
      f_equal; [|f_equal]; apply list_fmap_ext; intros i x Hx%list_elem_of_lookup_2; rewrite decide_False; congruence.
    + rewrite (app_assoc pre [id] ids : pre ++ id :: ids = _) in Hc, Hv |- *.
      destruct (IH (pre ++ [id]) Hc Hv) as (c' & Hm & Hr).
      { rewrite not_elem_of_app, list_elem_of_singleton. split; [done|congruence]. }
      exists c'. rewrite <- Hm. split; [|done]. f_equal. rewrite length_app. cbn. lia.
Qed.

Lemma merge_columns_ok pre nids c ids sizes offs total (f g : Z → list Z) new nsizes noffs ntotal :
  chunk_at s c ids sizes offs total → vals c offs sizes = f <$> ids →
  chunk_at s new (pre ++ nids) nsizes noffs ntotal → vals new noffs nsizes = g <$> (pre ++ nids) →
  ∃ c', merge_columns s nids (Z.of_nat (length pre)) c new = Ret c' ∧ chunk_at s c' ids sizes offs total ∧
    vals c' offs sizes = (λ id, if decide (id ∈ nids) then g id else f id) <$> ids.
Proof.
  intros Hc Hv Hn Hg. revert pre c f Hc Hv Hn Hg; induction nids as [|nid nids IH]; intros pre c f Hc Hv Hn Hg; cbn [merge_columns].
  - exists c. split; [done|]. split; [done|]. rewrite Hv. apply list_fmap_ext. intros i x _.
    rewrite decide_False; [done|]. apply not_elem_of_nil.
  - assert (Hid : (pre ++ nid :: nids) !! length pre = Some nid) by (by rewrite list_lookup_middle).
    destruct (chunk_at_field _ _ _ _ _ _ _ _ Hn Hid) as (col & o & Hcol & Hsz & Ho & Ha).
    assert (Hpos : 0 < sc_type_size col).
    { by destruct (placed_lookup _ _ _ _ _ _ _ (co_placed _ _ _ _ _ (ca_ok _ _ _ _ _ _ Hn)) Ho Hsz) as (_ & ? & _). }
    assert (Hval : read_bytes new o (Z.to_nat (sc_type_size col)) = g nid).
    { pose proof (vals_lookup new noffs nsizes _ _ _ Ho Hsz) as E. rewrite Hg, list_lookup_fmap, Hid in E.
      cbn in E. congruence. }
    rewrite (co_ids _ _ _ _ _ (ca_ok _ _ _ _ _ _ Hc)).
    destruct (merge_column_ok [] ids c sizes offs total f nid _ new o col Hc Hv ltac:(apply not_elem_of_nil) Hcol Ha Hpos)
      as (c1 & Hm & Hc1 & Hv1). cbn [length app] in Hm, Hc1, Hv1. change (Z.of_nat 0) with 0 in Hm. rewrite Hm, bind_Ret.
    rewrite Hval in Hv1. rewrite (app_assoc pre [nid] nids : pre ++ nid :: nids = _) in Hn, Hg.
    destruct (IH (pre ++ [nid]) c1 _ Hc1 Hv1 Hn Hg) as (c' & Hm' & Hc' & Hv').
    exists c'. split; [|split; [done|]].
    + rewrite <- Hm'. f_equal. rewrite length_app. cbn. lia.
    + rewrite Hv'. apply list_fmap_ext. intros i x _.
      destruct (decide (x = nid)) as [->|Hne].
      * rewrite (decide_True _ _ (list_elem_of_here nid nids)). by destruct (decide (nid ∈ nids)).
      * destruct (decide (x ∈ nids)); [by rewrite decide_True by (by right)|].
        rewrite decide_False; [done|]. by rewrite not_elem_of_cons.
Qed.

(** The columns of the delta replace those of the chunk. *)
Lemma Merge_ok c ids sizes offs total (f g : Z → list Z) new nids nsizes noffs ntotal :
  chunk_at s c ids sizes offs total → vals c offs sizes = f <$> ids →
  chunk_at s new nids nsizes noffs ntotal → vals new noffs nsizes = g <$> nids →
  ∃ c', Merge s c new = Ret c' ∧ chunk_at s c' ids sizes offs total ∧
    vals c' offs sizes = (λ id, if decide (id ∈ nids) then g id else f id) <$> ids.
Proof.
  intros Hc Hv Hn Hg. unfold Merge. rewrite (co_ids _ _ _ _ _ (ca_ok _ _ _ _ _ _ Hn)).
  by apply (merge_columns_ok [] nids c ids sizes offs total f g new nsizes noffs ntotal).
Qed.
End Merge.

(** ** Bytes stay bytes *)

Lemma update_columns_bytes s l ids c delta i j data idx delta' data' :
  update_columns s l ids c delta i j data idx = Ret (delta', data') →
  mem_ok c → mem_ok delta → mem_ok data → mem_ok delta' ∧ mem_ok data'.
Proof.
  intros H Hc. revert delta i j data H; induction ids as [|id ids IH]; intros delta i j data H Hd Hp; cbn [update_columns] in H.
  - by injection H as <- <-.
  - invert_bind H. destruct a as [ptr size]. invert_bind H. eapply IH; [exact H|..].
    + apply write_bytes_ok; [done|by apply read_bytes_ok].
    + apply write_bytes_ok; [done|by apply read_bytes_ok].
Qed.

Lemma UpdateSingle_bytes s l c delta data idx delta' data' :
  UpdateSingle s l c delta data idx = Ret (delta', data') →
  mem_ok c → mem_ok delta → mem_ok data → mem_ok delta' ∧ mem_ok data'.
Proof. apply update_columns_bytes. Qed.

Lemma insert_columns_bytes s l ids c data idx k data' :
  insert_columns s l ids c data idx k = Ret data' → mem_ok c → mem_ok data → mem_ok data'.
Proof.
  intros H Hc. revert data H; induction ids as [|id ids IH]; intros data H Hp; cbn [insert_columns] in H; [by injection H as <-|].
  invert_bind H. invert_bind H. invert_bind H. eapply IH; [exact H|].
  unfold Insert, write_at in Hm1. invert_bind Hm1. invert_bind Hm1. injection Hm1 as <-.
  apply write_bytes_ok; [done|by apply read_bytes_ok].
Qed.

Lemma InsertBulk_bytes s l c data k data' n :
  InsertBulk s l c data k = Ret (data', n) → mem_ok c → mem_ok data → mem_ok data'.
Proof.
  unfold InsertBulk, IncrementHeaderCount. intros H Hc Hd. invert_bind H. destruct a as [data1 old]. invert_bind H. injection H as -> ->.
  invert_bind Hm. injection Hm as <- <-. eapply insert_columns_bytes; [exact Hm0|done|].
  apply write_bytes_ok; [done|apply le_bytes_ok].
Qed.
