(* ===== verification/Arena.v ===== *)
(** * Arenas and their pool (shared/arena)

    The heap is one byte memory.  [operator new] hands out fresh 16-aligned
    blocks whose bytes are whatever the memory holds; a [FixedBumpArena] is a
    block of 4096 data bytes followed by its u32 [size_].  The pool keeps the
    released arenas in a concurrent queue, a vendored third-party class: its
    [try_dequeue] is a parameter. *)

From stdpp Require Import strings.
From S2P Require Import Prelude Bytes Shared Memory.

(** ** The heap *)

Record heap := mkHeap { h_mem : mem; h_brk : Z; h_blocks : gmap Z Z }.

Definition set_mem (h : heap) (m : mem) : heap := mkHeap m (h_brk h) (h_blocks h).

(** [operator new(n)]. *)
Definition operator_new (h : heap) (n : Z) : Z * heap :=
  let a := h_brk h in
  (a, mkHeap (h_mem h) (a + (n + 15) / 16 * 16) (<[a := n]> (h_blocks h))).

Definition hload (n : nat) (h : heap) (a : Z) : Z := load n (h_mem h) a.
Definition hstore (n : nat) (h : heap) (a v : Z) : heap := set_mem h (store n (h_mem h) a v).

(** ** FixedBumpArena *)
Module FixedBumpArena.

Definition ALLOCATOR_BLOCK_SIZE : Z := 4096.
Definition sizeof : Z := ALLOCATOR_BLOCK_SIZE + 4.

Definition size_ (h : heap) (this : Z) : Z := hload 4 h (this + ALLOCATOR_BLOCK_SIZE).
Definition set_size (h : heap) (this v : Z) : heap := hstore 4 h (this + ALLOCATOR_BLOCK_SIZE) v.

Definition Reset (h : heap) (this : Z) : heap := set_size h this 0.

Definition HasAvailableSpace (h : heap) (this size : Z) : bool :=
  to_u64 (size_ h this + AlignUp size 8) <=? ALLOCATOR_BLOCK_SIZE.

Definition Allocate (h : heap) (this size : Z) : outcome (Z * heap) :=
  _ ← DB7_ASSERT (HasAvailableSpace h this size) "No space available";
  let res := this + size_ h this in
  Ret (res, set_size h this (to_u32 (size_ h this + AlignUp size 8))).

(** [new FixedBumpArena()]. *)
Definition make (h : heap) : Z * heap :=
  let '(this, h) := operator_new h sizeof in (this, set_size h this 0).

End FixedBumpArena.

(** ** ObjectPool<FixedBumpArena> *)
Module ObjectPool.

Record ObjectPool := mkObjectPool {
  queue_ : list Z;
  size_limit_ : Z;
  reuse_limit_ : Z;
  curr_size_ : Z
}.

Definition make (size_limit reuse_limit : Z) : ObjectPool := mkObjectPool [] size_limit reuse_limit 0.

Definition set_queue (p : ObjectPool) (q : list Z) : ObjectPool :=
  mkObjectPool q (size_limit_ p) (reuse_limit_ p) (curr_size_ p).
Definition set_curr (p : ObjectPool) (n : Z) : ObjectPool :=
  mkObjectPool (queue_ p) (size_limit_ p) (reuse_limit_ p) (to_u32 n).

Section Queue.
(** [ConcurrentQueue::try_dequeue]. *)
Context (try_dequeue : list Z → option (Z * list Z)).

Definition Get (h : heap) (p : ObjectPool) : outcome (Z * heap * ObjectPool) :=
  match try_dequeue (queue_ p) with
  | Some (obj, q) => Ret (obj, h, set_queue p q)
  | None =>
      let size := curr_size_ p in
      let p := set_curr p (size + 1) in
      if size_limit_ p <=? size then Throw "No more objects in the pool"
      else let '(obj, h) := FixedBumpArena.make h in Ret (obj, h, p)
  end.
End Queue.

(** [delete obj] does not change the bytes; [enqueue] adds at the tail. *)
Definition Release (p : ObjectPool) (obj : Z) : outcome ObjectPool :=
  _ ← DB7_ASSERT (negb (obj =? 0)) "Releasing null pointer";
  if reuse_limit_ p <=? curr_size_ p then Ret (set_curr p (curr_size_ p - 1))
  else Ret (set_queue (set_curr p (curr_size_ p + 1)) (queue_ p ++ [obj])).

End ObjectPool.

(** ** Facts *)

Lemma hload_hstore_same n h a v : hload n (hstore n h a v) a = v mod 256 ^ Z.of_nat n.
Proof. apply load_store_same. Qed.

Lemma hload_hstore_disj n h a v k b :
  b + Z.of_nat k ≤ a ∨ a + Z.of_nat n ≤ b → hload k (hstore n h a v) b = hload k h b.
Proof. apply load_store_disj. Qed.

Section Arena.
Import FixedBumpArena.

Lemma AlignUp8 n : 0 ≤ n < 2 ^ 32 → AlignUp n 8 mod 8 = 0 ∧ n ≤ AlignUp n 8 < n + 8.
Proof. intros Hn. apply (AlignUp_spec n 3); lia. Qed.

(** An allocation is the next [AlignUp size 8] bytes of the block. *)
Lemma Allocate_ok h this size :
  0 ≤ size < 2 ^ 32 → 0 ≤ size_ h this → size_ h this + AlignUp size 8 ≤ ALLOCATOR_BLOCK_SIZE →
  Allocate h this size = Ret (this + size_ h this, set_size h this (size_ h this + AlignUp size 8)).
Proof.
  intros Hs H0 Hle. destruct (AlignUp8 size Hs) as [_ Ha]. unfold ALLOCATOR_BLOCK_SIZE in *.
  unfold Allocate, HasAvailableSpace. rewrite (wrap_small 64) by lia.
  rewrite DB7_ASSERT_true, bind_Ret by (apply Z.leb_le; unfold ALLOCATOR_BLOCK_SIZE; lia).
  by rewrite (wrap_small 32) by lia.
Qed.

Lemma size_set_size h this v : 0 ≤ v < 2 ^ 32 → size_ (set_size h this v) this = v.
Proof. intros Hv. unfold size_, set_size. rewrite hload_hstore_same. by apply Z.mod_small. Qed.

Lemma size_set_other h this this' v :
  this + sizeof ≤ this' ∨ this' + sizeof ≤ this → size_ (set_size h this v) this' = size_ h this'.
Proof.
  unfold sizeof, ALLOCATOR_BLOCK_SIZE. intros H. unfold size_, set_size, ALLOCATOR_BLOCK_SIZE.
  apply hload_hstore_disj. lia.
Qed.
End Arena.
