(* ===== verification/Undo.v ===== *)
(** * Undo records and buffers (storage/undo_buffer.hpp)

    An [UndoRecord] is 40 bytes of the heap: [type_] at 0, [next_] at 8,
    [timestamp_] at 16, [t_id_], [p_id_] and [idx_] at 24, 28 and 32, then the
    contents.  An [UndoBuffer] allocates records in arenas of the pool. *)

From stdpp Require Import strings.
From S2P Require Import Prelude Bytes Shared Memory AccessTypes DataChunk Arena.

(** The memory seen from address [a]. *)
Definition shift (a : Z) (m : mem) : mem := kmap (λ x, x - a) m.

Inductive DeltaRecordType := UPDATE | INSERT | DELETE | INVALID.

#[export] Instance DeltaRecordType_eq_dec : EqDecision DeltaRecordType.
Proof. solve_decision. Defined.

Definition DeltaRecordType_val (t : DeltaRecordType) : Z :=
  match t with UPDATE => 0 | INSERT => 1 | DELETE => 2 | INVALID => 3 end.

(** A byte with no enumerator matches no [case]. *)
Definition DeltaRecordType_of_val (v : Z) : option DeltaRecordType :=
  if v =? 0 then Some UPDATE else if v =? 1 then Some INSERT
  else if v =? 2 then Some DELETE else if v =? 3 then Some INVALID else None.

(** ** UndoRecord: operations on the record at address [r] *)
Module UndoRecord.

Definition sizeof : Z := 40.

Definition GetType (h : heap) (r : Z) : option DeltaRecordType := DeltaRecordType_of_val (hload 1 h r).
Definition SetType (h : heap) (r : Z) (t : DeltaRecordType) : heap := hstore 1 h r (DeltaRecordType_val t).

Definition GetTimestamp (h : heap) (r : Z) : Z := hload 8 h (r + 16).
Definition SetTimestamp (h : heap) (r time : Z) : heap := hstore 8 h (r + 16) time.

Definition IsDeleted (h : heap) (r : Z) : bool := bool_decide (GetType h r = Some DELETE).
Definition IsInvalidated (h : heap) (r : Z) : bool := bool_decide (GetType h r = Some INVALID).
Definition Invalidate (h : heap) (r : Z) : heap := SetType h r INVALID.

Definition GetNext (h : heap) (r : Z) : Z := hload 8 h (r + 8).
Definition SetNext (h : heap) (r next : Z) : heap := hstore 8 h (r + 8) next.

Definition GetDelta (r : Z) : Z := r + sizeof.

(** The delta as a chunk. *)
Definition delta_chunk (h : heap) (r : Z) : DataChunk := shift (GetDelta r) (h_mem h).

Definition initialize (h : heap) (r : Z) (t : DeltaRecordType) (timestamp tbl_id pid idx : Z) : heap :=
  let h := SetType h r t in
  let h := SetNext h r 0 in
  let h := SetTimestamp h r timestamp in
  let h := hstore 4 h (r + 24) tbl_id in
  let h := hstore 4 h (r + 28) pid in
  hstore 4 h (r + 32) idx.

Definition InitializeInsert (h : heap) (head timestamp tbl_id pid idx : Z) : heap :=
  initialize h head INSERT timestamp tbl_id pid idx.

Definition InitializeDelete (h : heap) (head timestamp tbl_id pid idx : Z) : heap :=
  initialize h head DELETE timestamp tbl_id pid idx.

Definition InitializeUpdate (h : heap) (head timestamp tbl_id pid idx : Z) (chunk_header : list Z) : heap :=
  let h := initialize h head UPDATE timestamp tbl_id pid idx in
  set_mem h (write_bytes (h_mem h) (GetDelta head) chunk_header).

End UndoRecord.

(** ** UndoBuffer *)
Module UndoBuffer.

Record UndoBuffer := mkUndoBuffer { buffers_ : list Z; last_record_ : Z }.

Definition make : UndoBuffer := mkUndoBuffer [] 0.

Definition GetLastRecord (u : UndoBuffer) : Z := last_record_ u.

Section Pool.
Context (try_dequeue : list Z → option (Z * list Z)).

Definition needs_segment (h : heap) (u : UndoBuffer) (size : Z) : bool :=
  match last (buffers_ u) with
  | None => true
  | Some back => negb (FixedBumpArena.HasAvailableSpace h back size)
  end.

Definition NewEntry (h : heap) (p : ObjectPool.ObjectPool) (u : UndoBuffer) (size : Z)
  : outcome (Z * heap * ObjectPool.ObjectPool * UndoBuffer) :=
  '(h, p, buffers) ←
    (if needs_segment h u size then
       '(new_segment, h, p) ← ObjectPool.Get try_dequeue h p;
       _ ← DB7_ASSERT (new_segment mod 8 =? 0) "a delta entry should be aligned to 8 bytes";
       Ret (h, p, buffers_ u ++ [new_segment])
     else Ret (h, p, buffers_ u));
  match last buffers with
  | None => Undefined "back() of an empty vector"
  | Some back =>
      '(last_record, h) ← FixedBumpArena.Allocate h back size;
      _ ← DB7_ASSERT (last_record mod 8 =? 0) "unaligned ptr";
      Ret (last_record, h, p, mkUndoBuffer buffers last_record)
  end.
End Pool.

(** The destructor. *)
Fixpoint release_all (p : ObjectPool.ObjectPool) (segments : list Z) : outcome ObjectPool.ObjectPool :=
  match segments with
  | [] => Ret p
  | segment :: segments => p ← ObjectPool.Release p segment; release_all p segments
  end.

Definition destroy (p : ObjectPool.ObjectPool) (u : UndoBuffer) : outcome ObjectPool.ObjectPool :=
  release_all p (buffers_ u).

(** ** Iterator: a segment index and an offset in the segment *)
Definition Iterator : Type := nat * Z.
Definition begin_ : Iterator := (0%nat, 0).
Definition end_ (u : UndoBuffer) : Iterator := (length (buffers_ u), 0).

(** [operator*]: dereferencing a segment past the last is undefined. *)
Definition deref (u : UndoBuffer) (it : Iterator) : outcome Z :=
  match buffers_ u !! it.1 with
  | Some segment => Ret (segment + it.2)
  | None => Undefined "iterator past the last segment"
  end.

(** [operator++] reads the size of the chunk of the record, whatever its type. *)
Definition next (h : heap) (u : UndoBuffer) (it : Iterator) : outcome Iterator :=
  match buffers_ u !! it.1 with
  | Some segment =>
      let me := segment + it.2 in
      _ ← in_bounds (it.2 + UndoRecord.sizeof + 4) 4 FixedBumpArena.sizeof "read past the arena";
      let offset := to_u32 (it.2 + UndoRecord.sizeof + Chunk.GetSize (UndoRecord.delta_chunk h me)) in
      if offset =? FixedBumpArena.size_ h segment then Ret (S it.1, 0) else Ret (it.1, offset)
  | None => Undefined "iterator past the last segment"
  end.

(** The loop of [RestampVersions]. *)
Fixpoint restamp_loop (fuel : nat) (h : heap) (u : UndoBuffer) (it : Iterator) (commit_time : Z) : outcome heap :=
  match fuel with
  | O => OutOfFuel
  | S fuel =>
      if bool_decide (it = end_ u) then Ret h
      else
        item ← deref u it;
        _ ← in_bounds (it.2 + 16) 8 FixedBumpArena.sizeof "write past the arena";
        let h := UndoRecord.SetTimestamp h item commit_time in
        it ← next h u it;
        restamp_loop fuel h u it commit_time
  end.

(** A segment holds at most [4096 / 40] records. *)
Definition restamp_fuel (u : UndoBuffer) : nat := S (103 * length (buffers_ u)).

End UndoBuffer.
