(* ===== verification/Redo.v ===== *)
(** * Redo records and buffers (storage/redo_buffer.hpp, storage/wal/log_record.hpp)

    A [LogRecord] is 16 bytes ([type_] at 0, [size_] at 4, [txn_begin_] at 8)
    and its contents; a [RedoRecord] is 16 bytes ([t_id_], [p_id_], [idx_] at
    0, 4, 8) and its chunk. *)

From stdpp Require Import strings.
From S2P Require Import Prelude Bytes Shared Memory AccessTypes DataChunk Arena Undo.

Inductive DurabilityPolicy := DISABLED | SYNC.
Inductive LogRecordType := REDO | LOG_DELETE | COMMIT | ABORT.

Definition LogRecordType_val (t : LogRecordType) : Z :=
  match t with REDO => 0 | LOG_DELETE => 1 | COMMIT => 2 | ABORT => 3 end.

Module LogRecord.
Definition sizeof : Z := 16.
Definition RecordType (h : heap) (r : Z) : Z := hload 1 h r.
Definition Size (h : heap) (r : Z) : Z := hload 4 h (r + 4).
Definition TxnBegin (h : heap) (r : Z) : Z := hload 8 h (r + 8).
Definition GetDelta (r : Z) : Z := r + sizeof.

Definition InitializeHeader (h : heap) (head : Z) (type : LogRecordType) (size txn_begin : Z) : heap :=
  let h := hstore 1 h head (LogRecordType_val type) in
  let h := hstore 4 h (head + 4) size in
  hstore 8 h (head + 8) txn_begin.
End LogRecord.

Module RedoRecord.
Definition sizeof : Z := 16.
Definition GetHeadersSize : Z := sizeof + LogRecord.sizeof.
Definition GetDelta (r : Z) : Z := r + sizeof.
Definition GetTableId (h : heap) (r : Z) : Z := hload 4 h r.
Definition GetPageId (h : heap) (r : Z) : Z := hload 4 h (r + 4).
Definition GetRowIndex (h : heap) (r : Z) : Z := hload 4 h (r + 8).

(** The chunk of the record at [r]. *)
Definition chunk (h : heap) (r : Z) : DataChunk := shift (GetDelta r) (h_mem h).

(** [Initialize]: the [LogRecord] is at [head]; [CreateDataChunk] copies the
    header of the layout after the two headers. *)
Definition Initialize (h : heap) (head txn_begin : Z) (initializer : DataChunkLayout) (t_id p_id idx : Z) : heap :=
  let h := LogRecord.InitializeHeader h head REDO (dl_total_size initializer) txn_begin in
  let body := LogRecord.GetDelta head in
  let h := hstore 4 h body t_id in
  let h := hstore 4 h (body + 4) p_id in
  let h := hstore 4 h (body + 8) idx in
  set_mem h (shift (- GetDelta body) (CreateDataChunk initializer (shift (GetDelta body) (h_mem h)))).
End RedoRecord.

Module RedoBuffer.
Record RedoBuffer := mkRedoBuffer { segment_old_ : Z; segment_ : Z; last_record_ : Z; has_flushed_ : bool }.

Definition HasFlushed (b : RedoBuffer) : bool := has_flushed_ b.
Definition GetLastRecord (b : RedoBuffer) : Z := last_record_ b.

(** The constructor takes a segment from the pool. *)
Definition make (try_dequeue : list Z → option (Z * list Z)) (h : heap) (p : ObjectPool.ObjectPool)
  : outcome (RedoBuffer * heap * ObjectPool.ObjectPool) :=
  '(segment, h, p) ← ObjectPool.Get try_dequeue h p;
  Ret (mkRedoBuffer segment segment 0 false, h, p).

Definition destroy (p : ObjectPool.ObjectPool) (b : RedoBuffer) : outcome ObjectPool.ObjectPool :=
  ObjectPool.Release p (segment_ b).

(** [has_log_manager]: [log_manager_ != nullptr]. *)
Definition NewEntry (has_log_manager : bool) (h : heap) (b : RedoBuffer) (size : Z) (policy : DurabilityPolicy)
  : outcome (Z * heap * RedoBuffer) :=
  let b :=
    if FixedBumpArena.HasAvailableSpace h (segment_ b) size then b
    else match policy with
         | DISABLED =>
             if has_log_manager then mkRedoBuffer (segment_old_ b) (segment_ b) (last_record_ b) true
             else mkRedoBuffer (segment_old_ b) (segment_old_ b) (last_record_ b) (has_flushed_ b)
         | SYNC => mkRedoBuffer (segment_old_ b) (segment_old_ b) (last_record_ b) (has_flushed_ b)
         end in
  _ ← DB7_ASSERT (FixedBumpArena.HasAvailableSpace h (segment_ b) size) "Data larger than page";
  '(last_record, h) ← FixedBumpArena.Allocate h (segment_ b) size;
  Ret (last_record, h, mkRedoBuffer (segment_old_ b) (segment_ b) last_record (has_flushed_ b)).
End RedoBuffer.
