(* ===== verification/Txn.v ===== *)
(** * Transactions (transaction/, storage/mvcc/)

    Timestamps, the conflict test, the version arrays of the pages, the state
    of a transaction and the begin and commit of the manager.  Each method runs
    alone: [PageVersionManager] takes its lock around every method, and the
    table operations hold the page latch. *)

From stdpp Require Import strings.
From S2P Require Import Prelude Bytes Shared Memory AccessTypes DataChunk Arena Undo Redo.

Module TransactionUtil.
Definition IsCommitted (timestamp : Z) : bool := 0 <=? to_signed 64 timestamp.
Definition IsNewerThan (a b : Z) : bool := b <? a.
Definition HasConflict (version_timestamp txn_id start_time : Z) : bool :=
  let owned_by_other_txn := negb (IsCommitted version_timestamp) && negb (version_timestamp =? txn_id) in
  let newer_committed_version := IsCommitted version_timestamp && IsNewerThan version_timestamp start_time in
  owned_by_other_txn || newer_committed_version.
End TransactionUtil.

(** [time_] is the state. *)
Module TimestampManager.
Definition INITIAL_TXN_TIMESTAMP : Z := 0.
Definition INT64_MIN : Z := - 2 ^ 63.
Definition INVALID_TXN_TIMESTAMP : Z := to_u64 INT64_MIN.
Definition CheckOutTimestamp (time : Z) : Z * Z := (time, to_u64 (time + 1)).
Definition CurrentTime (time : Z) : Z := time.
Definition BeginTransaction (time : Z) : Z * Z := CheckOutTimestamp time.
End TimestampManager.

(** [adaptive_spin_lock.hpp]; a thread that runs alone never leaves [Try] while
    the counter is above 0. *)
Module AdaptiveSpinLock.
Definition Lock (counter : Z) : Z := to_u64 (counter + 1).
Definition Unlock (counter : Z) : Z := to_u64 (counter - 1).
Definition Try (counter : Z) : outcome unit := if 0 <? counter then OutOfFuel else Ret tt.
End AdaptiveSpinLock.

(** ** VersionPtr: an element of a version array on the heap *)
Module VersionPtr.
Definition sizeof : Z := 8.

(** [&versions[idx]]; an index past the block is undefined. *)
Definition elem (h : heap) (versions idx : Z) : outcome Z :=
  match h_blocks h !! versions with
  | Some n => _ ← in_bounds (sizeof * idx) sizeof n "version index out of range"; Ret (versions + sizeof * idx)
  | None => Undefined "not an allocated block"
  end.

Definition Get (h : heap) (ptr : Z) : Z := hload 8 h ptr.
Definition Set_ (h : heap) (ptr new_ptr : Z) : heap := hstore 8 h ptr new_ptr.

(** [compare_exchange_strong]. *)
Definition CompareAndSwap (h : heap) (ptr expected desired : Z) : bool * heap :=
  if Get h ptr =? expected then (true, Set_ h ptr desired) else (false, h).
End VersionPtr.

(** ** PageVersionManager: [table_] maps a page to its version array *)
Module PageVersionManager.
Abbreviation state := (gmap PageIdentifier Z).

Definition GetUnsafe (table_ : state) (new_page_id : PageIdentifier) : Z := default 0 (table_ !! new_page_id).
Definition Get (table_ : state) (new_page_id : PageIdentifier) : Z := GetUnsafe table_ new_page_id.

(** [new VersionPtr[count]()] clears the array. *)
Definition new_versions (h : heap) (count : Z) : Z * heap :=
  let '(a, h) := operator_new h (VersionPtr.sizeof * count) in
  (a, set_mem h (write_bytes (h_mem h) a (replicate (Z.to_nat (VersionPtr.sizeof * count)) 0))).

Definition GetCreateVersions (h : heap) (table_ : state) (id : PageIdentifier) (count : Z) : Z * heap * state :=
  let result := GetUnsafe table_ id in
  let '(result, h) := if result =? 0 then new_versions h count else (result, h) in
  (result, h, <[id := result]> table_).

Definition GetDelta (h : heap) (table_ : state) (tid : TupleId) (tbl_id : Z) : outcome Z :=
  let versions := GetUnsafe table_ (mkPageIdentifier tbl_id (GetPageId tid)) in
  if versions =? 0 then Ret 0
  else ptr ← VersionPtr.elem h versions (GetIndex tid); Ret (VersionPtr.Get h ptr).
End PageVersionManager.

(** ** The state the transactions share *)
Record system := mkSystem {
  s_heap : heap;
  s_pool : ObjectPool.ObjectPool;
  s_versions : PageVersionManager.state
}.

Definition set_heap (s : system) (h : heap) : system := mkSystem h (s_pool s) (s_versions s).

(** [storage::Page] as the table operations see it. *)
Record Page := mkPageFrame { versions_ : Z; data_ : mem }.

(** ** TransactionContext *)
Module TransactionContext.

Record TransactionContext := mkTransactionContext {
  start_time_ : Z;
  finish_time_ : Z;
  rollback_ : bool;
  undo_buffer_ : UndoBuffer.UndoBuffer;
  redo_buffer_ : RedoBuffer.RedoBuffer;
  durability_policy_ : DurabilityPolicy
}.

Definition StartTime (txn : TransactionContext) : Z := start_time_ txn.
Definition FinishTime (txn : TransactionContext) : Z := finish_time_ txn.
Definition GetState (txn : TransactionContext) : bool := rollback_ txn.

Definition set_undo (txn : TransactionContext) (u : UndoBuffer.UndoBuffer) : TransactionContext :=
  mkTransactionContext (start_time_ txn) (finish_time_ txn) (rollback_ txn) u (redo_buffer_ txn) (durability_policy_ txn).

Definition set_redo (txn : TransactionContext) (r : RedoBuffer.RedoBuffer) : TransactionContext :=
  mkTransactionContext (start_time_ txn) (finish_time_ txn) (rollback_ txn) (undo_buffer_ txn) r (durability_policy_ txn).

Definition Abort (txn : TransactionContext) : TransactionContext :=
  mkTransactionContext (start_time_ txn) (finish_time_ txn) true (undo_buffer_ txn) (redo_buffer_ txn) (durability_policy_ txn).

Section Ops.
Context (try_dequeue : list Z → option (Z * list Z)).

Definition make (s : system) (time finish_time : Z) : outcome (TransactionContext * system) :=
  '(redo, h, p) ← RedoBuffer.make try_dequeue (s_heap s) (s_pool s);
  Ret (mkTransactionContext time finish_time false UndoBuffer.make redo SYNC, mkSystem h p (s_versions s)).

Definition RestampVersions (s : system) (txn : TransactionContext) (commit_time : Z) : outcome system :=
  let u := undo_buffer_ txn in
  h ← UndoBuffer.restamp_loop (UndoBuffer.restamp_fuel u) (s_heap s) u UndoBuffer.begin_ commit_time;
  Ret (set_heap s h).

(** [GetVersions(page, id, count)]. *)
Definition GetVersions (s : system) (page : Page) (id : PageIdentifier) (count : Z) : Z * system * Page :=
  let versions_arr := versions_ page in
  if versions_arr =? 0 then
    let '(new_version, h, t) := PageVersionManager.GetCreateVersions (s_heap s) (s_versions s) id count in
    (new_version, mkSystem h (s_pool s) t, mkPageFrame new_version (data_ page))
  else (versions_arr, s, page).

(** [GetVersions(id, count)]. *)
Definition GetVersionsRaw (s : system) (id : PageIdentifier) (count : Z) : Z * system :=
  let '(versions, h, t) := PageVersionManager.GetCreateVersions (s_heap s) (s_versions s) id count in
  (versions, mkSystem h (s_pool s) t).

(** An entry of the undo buffer. *)
Definition NewUndo (s : system) (txn : TransactionContext) (size : Z) : outcome (Z * system * TransactionContext) :=
  '(result, h, p, u) ← UndoBuffer.NewEntry try_dequeue (s_heap s) (s_pool s) (undo_buffer_ txn) size;
  Ret (result, mkSystem h p (s_versions s), set_undo txn u).

Definition UndoRecordForInsert (s : system) (txn : TransactionContext) (tbl_id pid idx : Z)
  : outcome (Z * system * TransactionContext) :=
  '(result, s, txn) ← NewUndo s txn UndoRecord.sizeof;
  Ret (result, set_heap s (UndoRecord.InitializeInsert (s_heap s) result (finish_time_ txn) tbl_id pid idx), txn).

Definition UndoRecordForDelete (s : system) (txn : TransactionContext) (tbl_id pid idx : Z)
  : outcome (Z * system * TransactionContext) :=
  '(result, s, txn) ← NewUndo s txn UndoRecord.sizeof;
  Ret (result, set_heap s (UndoRecord.InitializeDelete (s_heap s) result (finish_time_ txn) tbl_id pid idx), txn).

Definition UndoRecordForUpdate (s : system) (txn : TransactionContext) (tbl_id pid idx : Z) (chunk : DataChunk)
  : outcome (Z * system * TransactionContext) :=
  '(result, s, txn) ← NewUndo s txn (to_u32 (UndoRecord.sizeof + Chunk.GetSize chunk));
  Ret (result, set_heap s (UndoRecord.InitializeUpdate (s_heap s) result (finish_time_ txn) tbl_id pid idx
                             (Chunk.GetHeaderPtr chunk)), txn).

(** [StageWrite]; [RedoBuffer] is built with a null log manager. *)
Definition StageWrite (s : system) (txn : TransactionContext) (t_id p_id idx : Z) (initializer : DataChunkLayout)
  : outcome (Z * system * TransactionContext) :=
  '(head, h, r) ← RedoBuffer.NewEntry false (s_heap s) (redo_buffer_ txn) RedoRecord.GetHeadersSize (durability_policy_ txn);
  let h := RedoRecord.Initialize h head (start_time_ txn) initializer t_id p_id idx in
  Ret (LogRecord.GetDelta head, set_heap s h, set_redo txn r).
End Ops.

Section Checks.
Context (s : system) (txn : TransactionContext).

Definition undo_conflict (undo : Z) : bool :=
  TransactionUtil.HasConflict (UndoRecord.GetTimestamp (s_heap s) undo) (finish_time_ txn) (start_time_ txn).

Definition HasUniqueConflict (tid : TupleId) (tbl_id : Z) : outcome bool :=
  undo ← PageVersionManager.GetDelta (s_heap s) (s_versions s) tid tbl_id;
  if undo =? 0 then Ret true
  else
    let safely_deleted := UndoRecord.IsDeleted (s_heap s) undo && negb (undo_conflict undo) in
    Ret (negb safely_deleted).

(** [None] is the failed [ResultObj]. *)
Fixpoint GetTidForModify (tids : list TupleId) (tbl_id : Z) : outcome (option TupleId) :=
  match tids with
  | [] => Ret (Some INVALID_TID)
  | tid :: tids =>
      undo ← PageVersionManager.GetDelta (s_heap s) (s_versions s) tid tbl_id;
      if undo =? 0 then Ret (Some tid)
      else if undo_conflict undo then Ret None
      else if negb (UndoRecord.IsDeleted (s_heap s) undo) then Ret (Some tid)
      else GetTidForModify tids tbl_id
  end.

Fixpoint GetTidExists (tids : list TupleId) (tbl_id : Z) : outcome bool :=
  match tids with
  | [] => Ret false
  | tid :: tids =>
      undo ← PageVersionManager.GetDelta (s_heap s) (s_versions s) tid tbl_id;
      if (undo =? 0) || negb (UndoRecord.IsDeleted (s_heap s) undo) then Ret true
      else GetTidExists tids tbl_id
  end.
End Checks.
End TransactionContext.

(** ** TransactionManager: [time_] and [commit_latch_] *)
Module TransactionManager.
Import TransactionContext.

Record TransactionManager := mkTransactionManager { time_ : Z; commit_latch_ : Z }.

Definition BeginTransaction (try_dequeue : list Z → option (Z * list Z)) (m : TransactionManager) (s : system)
  : outcome (TransactionContext * TransactionManager * system) :=
  let '(start_time, time) := TimestampManager.BeginTransaction (time_ m) in
  '(result, s) ← TransactionContext.make try_dequeue s start_time (to_u64 (start_time + TimestampManager.INT64_MIN));
  _ ← AdaptiveSpinLock.Try (commit_latch_ m);
  Ret (result, mkTransactionManager time (commit_latch_ m), s).

Definition Commit (m : TransactionManager) (s : system) (txn : TransactionContext)
  : outcome (Z * TransactionManager * system) :=
  _ ← DB7_ASSERT (negb (GetState txn)) "Txn shouldnt be aborted";
  let latch := AdaptiveSpinLock.Lock (commit_latch_ m) in
  let '(commit_time, time) := TimestampManager.CheckOutTimestamp (time_ m) in
  s ← RestampVersions s txn commit_time;
  Ret (commit_time, mkTransactionManager time (AdaptiveSpinLock.Unlock latch), s).
End TransactionManager.
