(* ===== verification/Table.v ===== *)
(** * Tables (access/table.hpp, table.cpp)

    A row is a slot of a page; its older values hang off the version array of
    the page as undo records.  The operations hold the page latch, so each runs
    alone but for the compare-and-swap loops: [others] is what the threads that
    do not take the latch ([DeleteUndoRaw]) do to the heap before the swap of
    each try.  Pages are a store with the contents of the file as a parameter;
    frames are the subject of [BufferPool.v]. *)

From stdpp Require Import strings.
From S2P Require Import Prelude Bytes Shared Memory AccessTypes DataChunk Fsm Pax ChunkUtils.
From S2P Require Import Arena Undo Redo Txn.
Import TransactionContext.

Inductive RowStatus := Visible | Deleted | NotVisible.

#[export] Instance RowStatus_eq_dec : EqDecision RowStatus.
Proof. solve_decision. Defined.

(** The free function [HasConflict]. *)
Definition HasConflict (h : heap) (txn : TransactionContext) (version_ptr : Z) : bool :=
  if version_ptr =? 0 then false
  else TransactionUtil.HasConflict (UndoRecord.GetTimestamp h version_ptr) (FinishTime txn) (StartTime txn).

Module Table.

Record Table := mkTable { schema_ : Schema; oid_ : Z; varlen_oid_ : Z; layout_ : PaxLayout.PaxLayout }.

(** [sizes[col.GetPosiiton()] = col.GetTypeSize()] for each column. *)
Fixpoint layout_sizes (cols : list SchemaColumn) (sizes : list Z) : outcome (list Z) :=
  match cols with
  | [] => Ret sizes
  | col :: cols =>
      _ ← DB7_ASSERT (sc_position col <? Z.of_nat (length sizes)) "Column position out of range";
      layout_sizes cols (<[Z.to_nat (sc_position col) := sc_type_size col]> sizes)
  end.

(** [values] is the iteration order of the [unordered_map]. *)
Definition CreateLayoutFromSchema (values : Schema → list SchemaColumn) (schema : Schema) : outcome PaxLayout.PaxLayout :=
  sizes ← layout_sizes (values schema) (replicate (Z.to_nat (Schema_GetCount schema)) 0);
  Ret (PaxLayout.make sizes).

(** The constructor; creating the files is I/O. *)
Definition make (values : Schema → list SchemaColumn) (schema : Schema) (oid varlen_oid : Z) : outcome Table :=
  layout ← CreateLayoutFromSchema values schema; Ret (mkTable schema oid varlen_oid layout).

Definition GetMaxRowCount (t : Table) : Z := PaxLayout.GetMaxRowCount (layout_ t).
Definition GetTableOid (t : Table) : Z := oid_ t.

(** A chain of records has at most one record per 8 bytes of the heap. *)
Definition chain_fuel (h : heap) : nat := S (Z.to_nat (h_brk h / 8)).

Section Ops.
Context (try_dequeue : list Z → option (Z * list Z)) (others : nat → heap → heap) (t : Table).

(** Tries of a compare-and-swap loop. *)
Definition cas_fuel : nat := 100.

Fixpoint update_loop (fuel tries : nat) (h : heap) (data : mem) (txn : TransactionContext)
    (slot record idx : Z) (chunk : DataChunk) : outcome (bool * heap * mem) :=
  match fuel with
  | O => OutOfFuel
  | S fuel =>
      let version_ptr := VersionPtr.Get h slot in
      if negb (version_ptr =? 0) && (HasConflict h txn version_ptr || PaxLayout.IsDeleted data idx)
      then Ret (false, UndoRecord.Invalidate h record, data)
      else
        '(delta, data) ← ChunkUtils.UpdateSingle (schema_ t) (layout_ t) chunk (UndoRecord.delta_chunk h record) data idx;
        let h := set_mem h (shift (- UndoRecord.GetDelta record) delta) in
        let h := UndoRecord.SetNext h record version_ptr in
        let h := others tries h in
        let '(swapped, h) := VersionPtr.CompareAndSwap h slot version_ptr record in
        if swapped then Ret (true, h, data) else update_loop fuel (S tries) h data txn slot record idx chunk
  end.

Definition UpdateUndo (s : system) (txn : TransactionContext) (tup_id : TupleId) (page : Page) (chunk : DataChunk)
  : outcome (bool * system * TransactionContext * Page) :=
  let count := GetMaxRowCount t in
  '(record, s, txn) ← UndoRecordForUpdate try_dequeue s txn (oid_ t) (GetPageId tup_id) (GetIndex tup_id) chunk;
  let '(versions, s, page) := GetVersions s page (mkPageIdentifier (oid_ t) (GetPageId tup_id)) count in
  slot ← VersionPtr.elem (s_heap s) versions (GetIndex tup_id);
  '(ok, h, data) ← update_loop cas_fuel 0 (s_heap s) (data_ page) txn slot record (GetIndex tup_id) chunk;
  Ret (ok, set_heap s h, txn, mkPageFrame (versions_ page) data).

Definition InsertUndo (s : system) (txn : TransactionContext) (tup_id : TupleId) (page : Page)
  : outcome (system * TransactionContext * Page) :=
  let count := GetMaxRowCount t in
  '(record, s, txn) ← UndoRecordForInsert try_dequeue s txn (oid_ t) (GetPageId tup_id) (GetIndex tup_id);
  let '(versions, s, page) := GetVersions s page (mkPageIdentifier (oid_ t) (GetPageId tup_id)) count in
  slot ← VersionPtr.elem (s_heap s) versions (GetIndex tup_id);
  Ret (set_heap s (VersionPtr.Set_ (s_heap s) slot record), txn, page).

(** The loop of both deletes; [deleted] is the test of the current version. *)
Fixpoint delete_loop (fuel tries : nat) (h : heap) (txn : TransactionContext) (slot record : Z)
    (refuse : heap → Z → bool) : outcome (bool * heap) :=
  match fuel with
  | O => OutOfFuel
  | S fuel =>
      let version_ptr := VersionPtr.Get h slot in
      if refuse h version_ptr then Ret (false, UndoRecord.Invalidate h record)
      else
        let h := UndoRecord.SetNext h record version_ptr in
        let h := others tries h in
        let '(swapped, h) := VersionPtr.CompareAndSwap h slot version_ptr record in
        if swapped then Ret (true, h) else delete_loop fuel (S tries) h txn slot record refuse
  end.

Definition DeleteUndoRaw (s : system) (txn : TransactionContext) (tup_id : TupleId)
  : outcome (bool * system * TransactionContext) :=
  let count := GetMaxRowCount t in
  '(record, s, txn) ← UndoRecordForDelete try_dequeue s txn (oid_ t) (GetPageId tup_id) (GetIndex tup_id);
  let '(versions, s) := GetVersionsRaw s (mkPageIdentifier (oid_ t) (GetPageId tup_id)) count in
  slot ← VersionPtr.elem (s_heap s) versions (GetIndex tup_id);
  '(ok, h) ← delete_loop cas_fuel 0 (s_heap s) txn slot record
     (λ h version_ptr, negb (version_ptr =? 0) && (HasConflict h txn version_ptr || UndoRecord.IsDeleted h version_ptr));
  Ret (ok, set_heap s h, txn).

Definition DeleteUndo (s : system) (txn : TransactionContext) (tup_id : TupleId) (page : Page)
  : outcome (bool * system * TransactionContext * Page) :=
  let count := GetMaxRowCount t in
  '(record, s, txn) ← UndoRecordForDelete try_dequeue s txn (oid_ t) (GetPageId tup_id) (GetIndex tup_id);
  let '(versions, s, page) := GetVersions s page (mkPageIdentifier (oid_ t) (GetPageId tup_id)) count in
  slot ← VersionPtr.elem (s_heap s) versions (GetIndex tup_id);
  '(ok, h) ← delete_loop cas_fuel 0 (s_heap s) txn slot record
     (λ h version_ptr, HasConflict h txn version_ptr || PaxLayout.IsDeleted (data_ page) (GetIndex tup_id));
  Ret (ok, set_heap s h, txn, page).

(** The walk over the versions newer than the snapshot. *)
Fixpoint select_loop (fuel : nat) (h : heap) (start_time version_ptr : Z) (is_deleted : bool) (chunk : DataChunk)
  : outcome (RowStatus * DataChunk) :=
  match fuel with
  | O => OutOfFuel
  | S fuel =>
      if negb (version_ptr =? 0) && TransactionUtil.IsNewerThan (UndoRecord.GetTimestamp h version_ptr) start_time then
        let next := UndoRecord.GetNext h version_ptr in
        match UndoRecord.GetType h version_ptr with
        | Some UPDATE =>
            chunk ← ChunkUtils.Merge (schema_ t) chunk (UndoRecord.delta_chunk h version_ptr);
            select_loop fuel h start_time next is_deleted chunk
        | Some INSERT => Ret (NotVisible, chunk)
        | _ => select_loop fuel h start_time next is_deleted chunk
        end
      else Ret (if is_deleted then Deleted else Visible, chunk)
  end.

Definition SelectIntoChunk (s : system) (txn : TransactionContext) (idx : Z) (pid : Z) (page : Page) (chunk : DataChunk)
  : outcome (RowStatus * DataChunk * system * Page) :=
  chunk ← ChunkUtils.ReadSingleIntoChunk (schema_ t) (layout_ t) chunk (data_ page) idx;
  let count := GetMaxRowCount t in
  _ ← DB7_ASSERT (idx <? count) "Out of range index";
  let '(versions, s, page) := GetVersions s page (mkPageIdentifier (oid_ t) pid) count in
  let h := s_heap s in
  slot ← VersionPtr.elem h versions idx;
  let version_ptr := VersionPtr.Get h slot in
  let is_deleted := if version_ptr =? 0 then PaxLayout.IsDeleted (data_ page) idx else UndoRecord.IsDeleted h version_ptr in
  if (version_ptr =? 0) || (UndoRecord.GetTimestamp h version_ptr =? FinishTime txn) then
    Ret (if is_deleted then Deleted else Visible, chunk, s, page)
  else
    '(status, chunk) ← select_loop (chain_fuel h) h (StartTime txn) version_ptr is_deleted chunk;
    Ret (status, chunk, s, page).
End Ops.

(** ** The operations on pages of the buffer pool *)
Section Pages.
Context (try_dequeue : list Z → option (Z * list Z)) (others : nat → heap → heap).
Context (file : PageIdentifier → mem) (t : Table).

Record store := mkStore { st_system : system; st_pages : gmap PageIdentifier Page; st_fsm : FreeSpaceManager.state }.

Definition set_state (st : store) (s : system) (id : PageIdentifier) (page : Page) : store :=
  mkStore s (<[id := page]> (st_pages st)) (st_fsm st).

(** [buffer_->Pin(id)]: a page read from the file takes the versions of the
    version table. *)
Definition Pin (st : store) (id : PageIdentifier) : outcome Page :=
  _ ← DB7_ASSERT (negb (pid id =? 0)) "invalid pid";
  _ ← DB7_ASSERT (negb (pid id =? UINT32_MAX)) "invalid pid";
  Ret (default (mkPageFrame (PageVersionManager.Get (s_versions (st_system st)) id) (file id)) (st_pages st !! id)).

(** [Update] is only ever applied to page 1. *)
Definition Update (st : store) (txn : TransactionContext) (idx : Z) (chunk : DataChunk)
  : outcome (bool * store * TransactionContext) :=
  let page_id := 1 in
  let id := mkPageIdentifier (oid_ t) page_id in
  page ← Pin st id;
  '(valid, s, txn, page) ← UpdateUndo try_dequeue others t (st_system st) txn (TupleId_make idx page_id) page chunk;
  Ret (valid, set_state st s id page, txn).

Definition Insert (st : store) (txn : TransactionContext) (chunk : DataChunk)
  : outcome (TupleId * store * TransactionContext) :=
  let '(page_id, fsm) := FreeSpaceManagerVarlen.Get (st_fsm st) (Chunk.GetSize chunk) in
  let id := mkPageIdentifier (oid_ t) page_id in
  insert_page ← Pin st id;
  '(data, old_count) ← ChunkUtils.InsertBulk (schema_ t) (layout_ t) chunk (data_ insert_page) 1;
  let tup_id := TupleId_make old_count page_id in
  '(s, txn, page) ← InsertUndo try_dequeue t (st_system st) txn tup_id (mkPageFrame (versions_ insert_page) data);
  Ret (tup_id, mkStore s (<[id := page]> (st_pages st)) fsm, txn).

Definition Delete (st : store) (txn : TransactionContext) (idx pid : Z)
  : outcome (bool * store * TransactionContext) :=
  let id := mkPageIdentifier (oid_ t) pid in
  page ← Pin st id;
  '(is_valid, s, txn, page) ← DeleteUndo try_dequeue others t (st_system st) txn (TupleId_make idx pid) page;
  data ← (if is_valid : bool then PaxLayout.Delete (data_ page) idx else Ret (data_ page));
  Ret (is_valid, set_state st s id (mkPageFrame (versions_ page) data), txn).

(** [Select] without the printing of the row. *)
Definition Select (st : store) (txn : TransactionContext) (idx pid : Z) (chunk : DataChunk)
  : outcome (RowStatus * DataChunk * store) :=
  let id := mkPageIdentifier (oid_ t) pid in
  page ← Pin st id;
  '(res, chunk, s, page) ← SelectIntoChunk t (st_system st) txn idx pid page chunk;
  Ret (res, chunk, set_state st s id page).
End Pages.
End Table.
