(* ===== verification/HeapFacts.v ===== *)
(** * The heap invariant

    The arenas and version arrays are disjoint blocks below [h_brk]; the undo
    records are disjoint extents in the allocated part of the arenas.  An
    allocation gives an extent disjoint from all others, and writes inside one
    extent keep the invariant and the other extents. *)

From stdpp Require Import strings.
From S2P Require Import Prelude Bytes Shared Memory DataChunk Arena Undo.

(** An address and a length. *)
Abbreviation extent := (Z * Z)%type.

Definition disj (e f : extent) : Prop := e.1 + e.2 ≤ f.1 ∨ f.1 + f.2 ≤ e.1.
Definition inside (e f : extent) : Prop := f.1 ≤ e.1 ∧ e.1 + e.2 ≤ f.1 + f.2.
Definition same_on (m m' : mem) (e : extent) : Prop := ∀ x, e.1 ≤ x < e.1 + e.2 → rd m' x = rd m x.
Definition same_off (m m' : mem) (e : extent) : Prop := ∀ x, x < e.1 ∨ e.1 + e.2 ≤ x → rd m' x = rd m x.

Definition apart (l : list extent) : Prop := ∀ e f, e ∈ l → f ∈ l → e = f ∨ disj e f.

Lemma disj_sym e f : disj e f → disj f e.
Proof. unfold disj. tauto. Qed.

Lemma same_off_on m m' e f : same_off m m' e → disj e f → same_on m m' f.
Proof. intros H Hd x Hx. apply H. unfold disj in Hd. lia. Qed.

Lemma same_on_refl m e : same_on m m e.
Proof. by intros x _. Qed.

Lemma same_on_trans m1 m2 m3 e : same_on m1 m2 e → same_on m2 m3 e → same_on m1 m3 e.
Proof. intros H1 H2 x Hx. by rewrite H2, H1. Qed.

Lemma same_on_inside m m' e f : same_on m m' f → inside e f → same_on m m' e.
Proof. intros H [H1 H2] x Hx. apply H. lia. Qed.

Lemma disj_inside e f g : disj e f → inside g f → disj e g.
Proof. unfold disj, inside. lia. Qed.

Lemma apart_cons e l : (∀ f, f ∈ l → disj e f) → apart l → apart (e :: l).
Proof.
  intros He Hl x y Hx Hy. apply elem_of_cons in Hx as [->|Hx], Hy as [->|Hy]; [by left| | |by apply Hl].
  - right. by apply He.
  - right. by apply disj_sym, He.
Qed.

Lemma hload_same n h h' e a :
  same_on (h_mem h) (h_mem h') e → e.1 ≤ a → a + Z.of_nat n ≤ e.1 + e.2 → hload n h' a = hload n h a.
Proof. intros H H1 H2. apply load_ext. intros x Hx. apply H. lia. Qed.

(** ** Views *)

#[export] Instance sub_inj a : Inj (=) (=) (λ y : Z, y - a).
Proof. intros x y. lia. Qed.

Lemma rd_shift a m x : rd (shift a m) x = rd m (x + a).
Proof.
  unfold rd, shift. f_equal. replace x with ((λ y, y - a) (x + a)) at 1 by lia.
  by rewrite (lookup_kmap (λ y, y - a)).
Qed.

(** ** The invariant *)

Definition arena_ext (a : Z) : extent := (a, FixedBumpArena.sizeof).

(** A record in the allocated part of an arena. *)
Definition in_arena (h : heap) (arenas : list Z) (e : extent) : Prop :=
  ∃ a, a ∈ arenas ∧ a ≤ e.1 ∧ e.1 + e.2 ≤ a + FixedBumpArena.size_ h a ∧ e.1 mod 8 = 0 ∧ 0 < e.2.

(** A block of the heap. *)
Definition block_ok (h : heap) (e : extent) : Prop := 16 ≤ e.1 ∧ e.1 + e.2 ≤ h_brk h ∧ e.1 mod 8 = 0 ∧ 0 < e.2.

Record heap_ok (h : heap) (arenas : list Z) (arrays recs : list extent) : Prop := {
  ho_mem : mem_ok (h_mem h);
  ho_brk : 16 ≤ h_brk h ∧ h_brk h mod 16 = 0;
  ho_arenas : ∀ a, a ∈ arenas → block_ok h (arena_ext a);
  ho_arrays : ∀ e, e ∈ arrays → block_ok h e ∧ h_blocks h !! e.1 = Some e.2;
  ho_arenas_apart : apart (arena_ext <$> arenas);
  ho_arrays_apart : apart arrays;
  ho_sep : ∀ a e, a ∈ arenas → e ∈ arrays → disj (arena_ext a) e;
  ho_sizes : ∀ a, a ∈ arenas →
    0 ≤ FixedBumpArena.size_ h a ≤ FixedBumpArena.ALLOCATOR_BLOCK_SIZE ∧ FixedBumpArena.size_ h a mod 8 = 0;
  ho_recs : ∀ e, e ∈ recs → in_arena h arenas e;
  ho_apart : apart recs
}.

Lemma arenas_apart h arenas arrays recs a b :
  heap_ok h arenas arrays recs → a ∈ arenas → b ∈ arenas → a = b ∨ disj (arena_ext a) (arena_ext b).
Proof.
  intros H Ha Hb. destruct (ho_arenas_apart _ _ _ _ H (arena_ext a) (arena_ext b)) as [[=]|]; [..|tauto|by right];
    by apply list_elem_of_fmap_2.
Qed.

Section Facts.
Context (h : heap) (arenas : list Z) (arrays recs : list extent) (Hok : heap_ok h arenas arrays recs).

Lemma rec_inside e : e ∈ recs → ∃ a, a ∈ arenas ∧ inside e (a, FixedBumpArena.size_ h a) ∧
  inside e (a, FixedBumpArena.ALLOCATOR_BLOCK_SIZE) ∧ inside e (arena_ext a).
Proof.
  intros He. destruct (ho_recs _ _ _ _ Hok e He) as (a & Ha & H1 & H2 & H3 & H4).
  destruct (ho_sizes _ _ _ _ Hok a Ha) as [Hs _].
  exists a. unfold inside, arena_ext, FixedBumpArena.sizeof. cbn [fst snd]. split_and!; (done || lia).
Qed.

Lemma rec_range e : e ∈ recs → block_ok h e.
Proof.
  intros He. destruct (ho_recs _ _ _ _ Hok e He) as (a & Ha & H1 & H2 & H3 & H4).
  destruct (ho_sizes _ _ _ _ Hok a Ha) as [Hs _].
  destruct (ho_arenas _ _ _ _ Hok a Ha) as (R1 & R2 & _).
  unfold block_ok, arena_ext, FixedBumpArena.sizeof in *. cbn [fst snd] in *. split_and!; (done || lia).
Qed.

(** Records are apart from arrays and from the size fields. *)
Lemma rec_array e f : e ∈ recs → f ∈ arrays → disj e f.
Proof.
  intros He Hf. destruct (rec_inside e He) as (a & Ha & _ & _ & Hin).
  pose proof (ho_sep _ _ _ _ Hok a f Ha Hf). unfold disj, inside in *. lia.
Qed.

Definition size_ext (a : Z) : extent := (a + FixedBumpArena.ALLOCATOR_BLOCK_SIZE, 4).

Lemma rec_size_field e a : e ∈ recs → a ∈ arenas → disj e (size_ext a).
Proof.
  intros He Ha. destruct (rec_inside e He) as (b & Hb & _ & Hin & _).
  destruct (arenas_apart _ _ _ _ _ _ Hok Ha Hb) as [<-|D];
    unfold disj, inside, size_ext, arena_ext, FixedBumpArena.sizeof, FixedBumpArena.ALLOCATOR_BLOCK_SIZE in *; cbn [fst snd] in *; lia.
Qed.

Lemma array_size_field e a : e ∈ arrays → a ∈ arenas → disj e (size_ext a).
Proof.
  intros He Ha. pose proof (ho_sep _ _ _ _ Hok a e Ha He).
  unfold disj, size_ext, arena_ext, FixedBumpArena.sizeof, FixedBumpArena.ALLOCATOR_BLOCK_SIZE in *; cbn [fst snd] in *; lia.
Qed.

(** A write inside a record or an array. *)
Lemma heap_ok_write h' e :
  e ∈ recs ∨ e ∈ arrays → h_brk h' = h_brk h → h_blocks h' = h_blocks h → mem_ok (h_mem h') →
  same_off (h_mem h) (h_mem h') e → heap_ok h' arenas arrays recs.
Proof.
  intros He Hb Hbl Hm Hoff. destruct Hok as [O1 O2 O3 O4 O5 O6 O7 O8 O9 O10].
  assert (Hsz : ∀ a, a ∈ arenas → FixedBumpArena.size_ h' a = FixedBumpArena.size_ h a).
  { intros a Ha. apply (hload_same _ _ _ (size_ext a)); cbn; [|lia|lia].
    apply (same_off_on _ _ _ _ Hoff). destruct He; [by apply rec_size_field|by apply array_size_field]. }
  split; try done.
  - by rewrite Hb.
  - intros a Ha. unfold block_ok. rewrite Hb. by apply O3.
  - intros f Hf. unfold block_ok. rewrite Hb, Hbl. by apply O4.
  - intros a Ha. rewrite Hsz by done. by apply O8.
  - intros f Hf. destruct (O9 f Hf) as (a & Ha & R). exists a. by rewrite Hsz.
Qed.

(** Other extents keep their bytes. *)
Lemma same_on_other m m' e f :
  (e ∈ recs ∨ e ∈ arrays) → same_off m m' e → (f ∈ recs ∨ f ∈ arrays) → e ≠ f → same_on m m' f.
Proof.
  intros He Hoff Hf Hne. apply (same_off_on _ _ _ _ Hoff). destruct He as [He|He], Hf as [Hf|Hf].
  - by destruct (ho_apart _ _ _ _ Hok e f He Hf).
  - by apply rec_array.
  - by apply disj_sym, rec_array.
  - by destruct (ho_arrays_apart _ _ _ _ Hok e f He Hf).
Qed.

(** The next bytes of an arena become a record. *)
Lemma Allocate_heap a size :
  a ∈ arenas → 0 < size < 2 ^ 32 →
  FixedBumpArena.size_ h a + AlignUp size 8 ≤ FixedBumpArena.ALLOCATOR_BLOCK_SIZE →
  let e := (a + FixedBumpArena.size_ h a, AlignUp size 8) in
  ∃ h', FixedBumpArena.Allocate h a size = Ret (e.1, h') ∧ heap_ok h' arenas arrays (e :: recs) ∧
    h_brk h' = h_brk h ∧ h_blocks h' = h_blocks h ∧ same_off (h_mem h) (h_mem h') (size_ext a) ∧
    FixedBumpArena.size_ h' a = FixedBumpArena.size_ h a + AlignUp size 8 ∧
    (∀ f, f ∈ recs → disj e f).
Proof.
  intros Ha Hs Hle e. destruct (AlignUp8 size) as [A1 A2]; [lia|].
  destruct (ho_sizes _ _ _ _ Hok a Ha) as [S1 S2].
  rewrite Allocate_ok by lia. eexists. split; [done|]. set (n := AlignUp size 8) in *.
  set (h' := FixedBumpArena.set_size h a _).
  assert (Hoff : same_off (h_mem h) (h_mem h') (size_ext a)).
  { intros x Hx. unfold h', FixedBumpArena.set_size, hstore, set_mem, store. cbn [h_mem].
    apply rd_write_out. rewrite length_le_bytes. exact Hx. }
  unfold FixedBumpArena.ALLOCATOR_BLOCK_SIZE in S1, Hle.
  assert (Hsz : FixedBumpArena.size_ h' a = FixedBumpArena.size_ h a + n) by (apply size_set_size; lia).
  assert (Hsz' : ∀ b, b ∈ arenas → b ≠ a → FixedBumpArena.size_ h' b = FixedBumpArena.size_ h b).
  { intros b Hb Hne. apply size_set_other. destruct (arenas_apart _ _ _ _ _ _ Hok Ha Hb) as [?|D]; [congruence|].
    unfold disj, arena_ext in D. cbn [fst snd] in D. lia. }
  assert (Hd : ∀ f, f ∈ recs → disj e f).
  { intros f Hf. destruct (rec_inside f Hf) as (b & Hb & I1 & _ & I3).
    destruct (arenas_apart _ _ _ _ _ _ Hok Ha Hb) as [<-|D];
      unfold disj, inside, e, arena_ext, FixedBumpArena.sizeof, FixedBumpArena.ALLOCATOR_BLOCK_SIZE in *; cbn [fst snd] in *; lia. }
  split; [|done]. destruct Hok as [O1 O2 O3 O4 O5 O6 O7 O8 O9 O10]. split; try done.
  - apply write_bytes_ok; [done|apply le_bytes_ok].
  - intros b Hb. destruct (decide (b = a)) as [->|Hne]; [|rewrite Hsz' by done; by apply O8].
    rewrite Hsz. unfold FixedBumpArena.ALLOCATOR_BLOCK_SIZE. split; [lia|].
    rewrite <- Z.add_mod_idemp_l, <- Z.add_mod_idemp_r, S2, A1 by lia. done.
  - intros f [->|Hf]%elem_of_cons.
    + exists a. rewrite Hsz. unfold e; cbn [fst snd]. split_and!; [done|lia|lia| |lia].
      destruct (O3 a Ha) as (_ & _ & Hm8 & _). cbn [arena_ext fst] in Hm8.
      rewrite <- Z.add_mod_idemp_l, <- Z.add_mod_idemp_r, S2, Hm8 by lia. done.
    + destruct (O9 f Hf) as (b & Hb & R1 & R2 & R3). exists b. split; [done|].
      destruct (decide (b = a)) as [->|Hne]; [rewrite Hsz; split_and!; (done || lia)|by rewrite Hsz'].
  - by apply apart_cons.
Qed.

(** A new arena. *)
Lemma make_arena :
  ∃ h', FixedBumpArena.make h = (h_brk h, h') ∧ heap_ok h' (h_brk h :: arenas) arrays recs ∧
    FixedBumpArena.size_ h' (h_brk h) = 0 ∧ h_brk h' = h_brk h + 4112 ∧
    same_off (h_mem h) (h_mem h') (size_ext (h_brk h)) ∧
    (∀ a, a < h_brk h → h_blocks h' !! a = h_blocks h !! a).
Proof.
  unfold FixedBumpArena.make, operator_new. eexists. split; [done|].
  set (h1 := mkHeap (h_mem h) _ _). set (a := h_brk h). set (h' := FixedBumpArena.set_size h1 a 0).
  assert (Hoff : same_off (h_mem h) (h_mem h') (size_ext a)).
  { intros x Hx. unfold h', FixedBumpArena.set_size, hstore, set_mem, store. cbn [h_mem h1].
    apply rd_write_out. rewrite length_le_bytes. exact Hx. }
  assert (Hsz : FixedBumpArena.size_ h' a = 0) by (apply size_set_size; lia).
  assert (Hbrk : h_brk h' = h_brk h + 4112) by done.
  destruct Hok as [O1 O2 O3 O4 O5 O6 O7 O8 O9 O10].
  assert (Hsz' : ∀ b, b ∈ arenas → FixedBumpArena.size_ h' b = FixedBumpArena.size_ h b).
  { intros b Hb. destruct (O3 b Hb) as (_ & R2 & _). cbn [arena_ext fst snd] in R2.
    unfold h'. rewrite size_set_other; [done|]. unfold a. lia. }
  split; [|split_and!; [done|done|done|]].
  - split; try done.
    + apply write_bytes_ok; [done|apply le_bytes_ok].
    + rewrite Hbrk. split; [lia|]. rewrite <- Z.add_mod_idemp_l, (proj2 O2) by lia. done.
    + intros b [->|Hb]%elem_of_cons.
      * unfold block_ok, arena_ext, FixedBumpArena.sizeof, FixedBumpArena.ALLOCATOR_BLOCK_SIZE. rewrite Hbrk. cbn [fst snd]. unfold a.
        split_and!; [lia|lia| |lia]. rewrite (Z.div_mod (h_brk h) 16), (proj2 O2), Z.add_0_r by lia.
        replace (16 * (h_brk h / 16)) with (h_brk h / 16 * 2 * 8) by lia. apply Z_mod_mult.
      * destruct (O3 b Hb) as (R1 & R2 & R3). unfold block_ok. rewrite Hbrk. split_and!; (done || lia).
    + intros e He. destruct (O4 e He) as [(R1 & R2 & R3) Hbl]. split; [unfold block_ok; rewrite Hbrk; split_and!; (done || lia)|].
      change (h_blocks h') with (<[a := FixedBumpArena.sizeof]> (h_blocks h)). rewrite lookup_insert_ne; [done|]. unfold a. lia.
    + rewrite fmap_cons. apply apart_cons; [|done]. intros f Hf. apply list_elem_of_fmap in Hf as (b & -> & Hb).
      destruct (O3 b Hb) as (_ & R2 & _). cbn [arena_ext fst snd] in R2. right. cbn. unfold a. lia.
    + intros b e [->|Hb]%elem_of_cons He; [|by apply O7].
      destruct (O4 e He) as [(R1 & R2 & R3) _]. right. cbn. unfold a. lia.
    + intros b [->|Hb]%elem_of_cons; [rewrite Hsz; unfold FixedBumpArena.ALLOCATOR_BLOCK_SIZE; done|].
      rewrite Hsz' by done. by apply O8.
    + intros e He. destruct (O9 e He) as (b & Hb & R). exists b. split; [by right|]. by rewrite Hsz'.
  - intros b Hb. change (h_blocks h') with (<[a := FixedBumpArena.sizeof]> (h_blocks h)).
    rewrite lookup_insert_ne; [done|]. unfold a. lia.
Qed.

(** A new version array. *)
Lemma new_array n :
  0 < n → let e := (h_brk h, n) in
  let h' := mkHeap (write_bytes (h_mem h) (h_brk h) (replicate (Z.to_nat n) 0)) (h_brk h + (n + 15) / 16 * 16)
              (<[h_brk h := n]> (h_blocks h)) in
  heap_ok h' arenas (e :: arrays) recs ∧ same_off (h_mem h) (h_mem h') e ∧
  (∀ f, f ∈ arrays → disj e f) ∧ (∀ x, e.1 ≤ x < e.1 + e.2 → rd (h_mem h') x = 0).
Proof.
  intros Hn e h'. set (a := h_brk h) in *.
  assert (Hoff : same_off (h_mem h) (h_mem h') e).
  { intros x Hx. cbn. apply rd_write_out. rewrite length_replicate, Z2Nat.id by lia. exact Hx. }
  assert (Hbrk : h_brk h + n ≤ h_brk h') by (cbn; pose proof (Z.div_mod (n + 15) 16); pose proof (Z.mod_pos_bound (n + 15) 16); unfold a; lia).
  destruct Hok as [O1 O2 O3 O4 O5 O6 O7 O8 O9 O10].
  assert (Hd : ∀ f, block_ok h f → disj e f) by (intros f (R1 & R2 & _); right; cbn; unfold a; lia).
  assert (Hsz : ∀ b, b ∈ arenas → FixedBumpArena.size_ h' b = FixedBumpArena.size_ h b).
  { intros b Hb. apply (hload_same _ _ _ (arena_ext b)); [|cbn; unfold FixedBumpArena.ALLOCATOR_BLOCK_SIZE; lia|cbn; unfold FixedBumpArena.sizeof; lia].
    apply (same_off_on _ _ _ _ Hoff), Hd, O3, Hb. }
  split; [|split_and!; [done|intros f Hf; apply Hd, O4, Hf|]].
  - split; try done.
    + apply write_bytes_ok; [done|]. unfold bytes_ok, is_byte. apply Forall_replicate. lia.
    + cbn. split; [pose proof (Z.div_pos (n + 15) 16); unfold a; lia|].
      rewrite Z_mod_plus_full. unfold a. apply O2.
    + intros b Hb. destruct (O3 b Hb) as (R1 & R2 & R3). unfold block_ok. split_and!; (done || lia).
    + intros f [->|Hf]%elem_of_cons.
      * split; [|cbn; by rewrite lookup_insert_eq]. unfold block_ok, e. cbn [fst snd]. unfold a. split_and!; [lia|lia| |lia].
        rewrite (Z.div_mod (h_brk h) 16), (proj2 O2), Z.add_0_r by lia.
        replace (16 * (h_brk h / 16)) with (h_brk h / 16 * 2 * 8) by lia. apply Z_mod_mult.
      * destruct (O4 f Hf) as [(R1 & R2 & R3) Hbl]. split; [unfold block_ok; split_and!; (done || lia)|].
        cbn. rewrite lookup_insert_ne; [done|]. unfold a. lia.
    + apply apart_cons; [|done]. intros f Hf. apply Hd, O4, Hf.
    + intros b f Hb [->|Hf]%elem_of_cons; [|by apply O7]. apply disj_sym, Hd, O3, Hb.
    + intros b Hb. rewrite Hsz by done. by apply O8.
    + intros f Hf. destruct (O9 f Hf) as (b & Hb & R). exists b. by rewrite Hsz.
  - intros x Hx. cbn [h_mem h']. replace x with (a + Z.of_nat (Z.to_nat (x - a))) by (cbn in Hx; lia).
    rewrite rd_write_in by (rewrite length_replicate; cbn in Hx; lia).
    rewrite lookup_total_replicate_2; [done|]. cbn in Hx; lia.
Qed.
End Facts.
