(* ===== verification/UndoFacts.v ===== *)
(** * Facts on undo records and buffers *)

From stdpp Require Import strings.
From S2P Require Import Prelude Bytes Shared Memory DataChunk Arena Undo HeapFacts.
Import UndoRecord UndoBuffer.

(** ** Records *)

(** The fields a transaction reads. *)
Definition rec_fields (h : heap) (r : Z) (t : DeltaRecordType) (ts next : Z) : Prop :=
  GetType h r = Some t ∧ GetTimestamp h r = ts ∧ GetNext h r = next.

Lemma rec_fields_same h h' r n t ts next :
  same_on (h_mem h) (h_mem h') (r, n) → 40 ≤ n → rec_fields h r t ts next → rec_fields h' r t ts next.
Proof.
  unfold rec_fields, GetType, GetTimestamp, GetNext. intros Hs Hn.
  rewrite !(hload_same _ _ _ (r, n) _ Hs) by (cbn [fst snd]; lia). done.
Qed.

Lemma delta_chunk_same h h' r n x :
  same_on (h_mem h) (h_mem h') (r, n) → 0 ≤ x < n - 40 → rd (delta_chunk h' r) x = rd (delta_chunk h r) x.
Proof.
  intros Hs Hx. unfold delta_chunk, GetDelta, sizeof. rewrite !rd_shift. apply Hs. cbn [fst snd]. lia.
Qed.

(** A store inside an extent. *)
Lemma hstore_off n h a v e :
  e.1 ≤ a → a + Z.of_nat n ≤ e.1 + e.2 → same_off (h_mem h) (h_mem (hstore n h a v)) e.
Proof. intros H1 H2 x Hx. unfold hstore, set_mem, store. cbn. apply rd_write_out. rewrite length_le_bytes. lia. Qed.

Lemma same_off_trans m1 m2 m3 e : same_off m1 m2 e → same_off m2 m3 e → same_off m1 m3 e.
Proof. intros H1 H2 x Hx. by rewrite H2, H1. Qed.

Lemma same_off_weaken m m' e f : same_off m m' e → inside e f → same_off m m' f.
Proof. intros H [H1 H2] x Hx. apply H. lia. Qed.

Lemma hstore_ok n h a v : mem_ok (h_mem h) → mem_ok (h_mem (hstore n h a v)).
Proof. intros H. apply write_bytes_ok; [done|apply le_bytes_ok]. Qed.

Lemma DeltaRecordType_of_val_val t : DeltaRecordType_of_val (DeltaRecordType_val t) = Some t.
Proof. by destruct t. Qed.

Lemma DeltaRecordType_val_mod t : DeltaRecordType_val t mod 256 = DeltaRecordType_val t.
Proof. by destruct t. Qed.

Lemma initialize_ok h r t ts tbl pid idx :
  0 ≤ ts < 2 ^ 64 →
  let h' := initialize h r t ts tbl pid idx in
  rec_fields h' r t ts 0 ∧ same_off (h_mem h) (h_mem h') (r, 40) ∧
  (mem_ok (h_mem h) → mem_ok (h_mem h')) ∧ h_brk h' = h_brk h ∧ h_blocks h' = h_blocks h.
Proof.
  intros Hts h'. split_and!; [| |intros Hm; repeat apply hstore_ok; done|done|done].
  - unfold rec_fields, GetType, GetTimestamp, GetNext, h', initialize, SetType, SetTimestamp, SetNext. split_and!.
    + rewrite !hload_hstore_disj by lia. rewrite hload_hstore_same. change (256 ^ Z.of_nat 1) with 256.
      by rewrite DeltaRecordType_val_mod, DeltaRecordType_of_val_val.
    + rewrite !(hload_hstore_disj 4) by lia. rewrite hload_hstore_same. apply Z.mod_small. exact Hts.
    + rewrite !(hload_hstore_disj 4) by lia. rewrite hload_hstore_disj by lia. by rewrite hload_hstore_same.
  - unfold h', initialize, SetType, SetTimestamp, SetNext.
    repeat (eapply same_off_trans; [|apply hstore_off; cbn [fst snd]; lia]). by intros x _.
Qed.

Lemma SetNext_ok h r next t ts old :
  0 ≤ next < 2 ^ 64 → rec_fields h r t ts old →
  let h' := SetNext h r next in
  rec_fields h' r t ts next ∧ same_off (h_mem h) (h_mem h') (r, 40) ∧ (mem_ok (h_mem h) → mem_ok (h_mem h')).
Proof.
  intros Hn (H1 & H2 & H3) h'. split_and!; [|apply hstore_off; cbn [fst snd]; lia|apply hstore_ok].
  unfold h', rec_fields, GetType, GetTimestamp, GetNext, SetNext in *.
  rewrite !(hload_hstore_disj 8) by lia. rewrite hload_hstore_same. split_and!; [done|done|]. by apply Z.mod_small.
Qed.

Lemma SetTimestamp_ok h r t ts next time :
  0 ≤ time < 2 ^ 64 → rec_fields h r t ts next →
  let h' := SetTimestamp h r time in
  rec_fields h' r t time next ∧ same_off (h_mem h) (h_mem h') (r + 16, 8) ∧ (mem_ok (h_mem h) → mem_ok (h_mem h')).
Proof.
  intros Hn (H1 & H2 & H3) h'. split_and!; [|apply hstore_off; cbn [fst snd]; lia|apply hstore_ok].
  unfold h', rec_fields, GetType, GetTimestamp, GetNext, SetTimestamp in *. split_and!.
  - by rewrite hload_hstore_disj by lia.
  - rewrite hload_hstore_same. by apply Z.mod_small.
  - by rewrite hload_hstore_disj by lia.
Qed.

(** ** NewEntry *)

Section NewEntry.
Context (try_dequeue : list Z → option (Z * list Z)).

(** The pool can give a segment with room for [size] bytes. *)
Definition segment_ready (h : heap) (p : ObjectPool.ObjectPool) (arenas : list Z) (size : Z) : Prop :=
  match try_dequeue (ObjectPool.queue_ p) with
  | Some (obj, _) => obj ∈ arenas ∧ FixedBumpArena.size_ h obj + AlignUp size 8 ≤ FixedBumpArena.ALLOCATOR_BLOCK_SIZE
  | None => ObjectPool.curr_size_ p < ObjectPool.size_limit_ p
  end.

Lemma pool_get_ok h p arenas arrays recs size :
  heap_ok h arenas arrays recs → 0 < size → AlignUp size 8 ≤ FixedBumpArena.ALLOCATOR_BLOCK_SIZE →
  segment_ready h p arenas size →
  ∃ a h' p' arenas', ObjectPool.Get try_dequeue h p = Ret (a, h', p') ∧ a ∈ arenas' ∧
    heap_ok h' arenas' arrays recs ∧ (∀ b, b ∈ arenas → b ∈ arenas') ∧
    FixedBumpArena.size_ h' a + AlignUp size 8 ≤ FixedBumpArena.ALLOCATOR_BLOCK_SIZE ∧
    (∀ f, f ∈ recs ∨ f ∈ arrays → same_on (h_mem h) (h_mem h') f) ∧
    h_brk h ≤ h_brk h' ≤ h_brk h + 4112 ∧
    (a ∈ arenas ∧ try_dequeue (ObjectPool.queue_ p) ≠ None ∧ h' = h ∨ a ∉ arenas ∧ FixedBumpArena.size_ h' a = 0 ∧
       (∀ b, b ∈ arenas → FixedBumpArena.size_ h' b = FixedBumpArena.size_ h b)).
Proof.
  intros Hok Hs Ha Hr. unfold segment_ready in Hr. unfold ObjectPool.Get.
  destruct (try_dequeue (ObjectPool.queue_ p)) as [[obj q]|].
  - destruct Hr as [Hin Hsz]. exists obj, h, (ObjectPool.set_queue p q), arenas.
    split_and!; [done|done|done|done|done|by intros|lia|lia|by left].
  - rewrite (proj2 (Z.leb_gt _ _)) by (cbn; exact Hr).
    destruct (make_arena h arenas arrays recs Hok) as (h' & -> & Hok' & Hsz & Hbrk & Hoff & _).
    assert (Hnew : ∀ f, block_ok h f → disj (size_ext (h_brk h)) f).
    { intros f (F1 & F2 & _). right. unfold size_ext, FixedBumpArena.ALLOCATOR_BLOCK_SIZE. cbn [fst snd]. lia. }
    exists (h_brk h), h', (ObjectPool.set_curr p (ObjectPool.curr_size_ p + 1)), (h_brk h :: arenas).
    split_and!; [done|by left|done|by intros; right|by rewrite Hsz| |lia|lia|right; split_and!; [|done|]].
    + intros f Hf. apply (same_off_on _ _ _ _ Hoff), Hnew. destruct Hf as [Hf|Hf]; [by eapply rec_range|].
      by apply (ho_arrays _ _ _ _ Hok).
    + intros Hin. destruct (ho_arenas _ _ _ _ Hok _ Hin) as (_ & R2 & _ & R4). cbn [arena_ext fst snd] in *. lia.
    + intros b Hb. pose proof (ho_arenas _ _ _ _ Hok _ Hb) as Hblk.
      apply (hload_same _ _ _ (arena_ext b)); [|cbn; unfold FixedBumpArena.ALLOCATOR_BLOCK_SIZE; lia|cbn; unfold FixedBumpArena.sizeof; lia].
      by apply (same_off_on _ _ _ _ Hoff), Hnew.
Qed.

Lemma NewEntry_ok h p u arenas arrays recs size :
  heap_ok h arenas arrays recs → (∀ a, a ∈ buffers_ u → a ∈ arenas) → 0 < size →
  AlignUp size 8 ≤ FixedBumpArena.ALLOCATOR_BLOCK_SIZE → segment_ready h p arenas size →
  size < 2 ^ 32 →
  ∃ e h' p' u' arenas' a, NewEntry try_dequeue h p u size = Ret (e.1, h', p', u') ∧ e.2 = AlignUp size 8 ∧
    heap_ok h' arenas' arrays (e :: recs) ∧ (∀ b, b ∈ arenas → b ∈ arenas') ∧ (∀ b, b ∈ buffers_ u' → b ∈ arenas') ∧
    (∀ f, f ∈ recs → disj e f) ∧ (∀ f, f ∈ recs ∨ f ∈ arrays → same_on (h_mem h) (h_mem h') f) ∧
    h_brk h ≤ h_brk h' ≤ h_brk h + 4112 ∧
    e.1 + e.2 = a + FixedBumpArena.size_ h' a ∧
    (∀ b, b ∈ arenas → b ≠ a → FixedBumpArena.size_ h' b = FixedBumpArena.size_ h b) ∧
    (buffers_ u' = buffers_ u ∧ last (buffers_ u) = Some a ∧ e.1 = a + FixedBumpArena.size_ h a ∨
     buffers_ u' = buffers_ u ++ [a] ∧ (a ∈ arenas ∧ try_dequeue (ObjectPool.queue_ p) ≠ None ∨ a ∉ arenas ∧ e.1 = a)).
Proof.
  intros Hok Hu Hs Ha Hr Hs32. unfold NewEntry. destruct (needs_segment h u size) eqn:Hneed.
  - destruct (pool_get_ok h p arenas arrays recs size Hok Hs Ha Hr)
      as (a & h1 & p1 & arenas1 & -> & Hin & Hok1 & Hsub & Hsz1 & Hsame1 & Hbrk & Hcase).
    rewrite !bind_Ret. cbv beta iota. destruct (ho_arenas _ _ _ _ Hok1 a Hin) as (_ & _ & Ha8 & _). cbn [arena_ext fst] in Ha8.
    rewrite DB7_ASSERT_true, !bind_Ret by (by apply Z.eqb_eq). rewrite last_snoc.
    destruct (Allocate_heap h1 arenas1 arrays recs Hok1 a size Hin) as (h2 & HA & Hok2 & Hb2 & Hbl2 & Hoff2 & Hsz2 & Hd2); [lia|done|].
    set (e := (a + FixedBumpArena.size_ h1 a, AlignUp size 8)) in *. rewrite HA, bind_Ret.
    destruct (rec_range _ _ _ _ Hok2 e) as (_ & _ & He8 & _); [by left|].
    rewrite DB7_ASSERT_true, !bind_Ret by (by apply Z.eqb_eq).
    exists e, h2, p1, (mkUndoBuffer (buffers_ u ++ [a]) e.1), arenas1, a. cbn [buffers_].
    split_and!; [done|done|done|done| |done| |lia|lia| | |right; split; [done|]].
    + intros b [Hb| ->%list_elem_of_singleton]%elem_of_app; [by apply Hsub, Hu|done].
    + intros f Hf. eapply same_on_trans; [by apply Hsame1|]. apply (same_off_on _ _ _ _ Hoff2), disj_sym.
      destruct Hf; [by apply (rec_size_field h1 arenas1 arrays recs Hok1)|by apply (array_size_field h1 arenas1 arrays recs Hok1)].
    + unfold e. cbn [fst snd]. lia.
    + intros b Hb Hne. transitivity (FixedBumpArena.size_ h1 b).
      * apply (hload_same _ _ _ (size_ext b)); [|unfold size_ext; cbn [fst snd]; lia|unfold size_ext; cbn [fst snd]; lia]. apply (same_off_on _ _ _ _ Hoff2).
        destruct (arenas_apart _ _ _ _ _ _ Hok1 Hin (Hsub b Hb)) as [?|D]; [congruence|].
        unfold disj, arena_ext, size_ext, FixedBumpArena.sizeof, FixedBumpArena.ALLOCATOR_BLOCK_SIZE in *. cbn [fst snd] in *. lia.
      * destruct Hcase as [(_ & _ & ->)|(_ & _ & Hrest)]; [done|by apply Hrest].
    + destruct Hcase as [(? & ? & _)|(Hn & Hz & _)]; [by left|right; split; [done|]]. unfold e. cbn [fst]. lia.
  - rewrite bind_Ret. unfold needs_segment in Hneed.
    destruct (last (buffers_ u)) as [a|] eqn:Hlast; [|done]. apply negb_false_iff in Hneed.
    assert (Hin : a ∈ arenas) by (apply Hu; apply last_Some_elem_of in Hlast; done).
    destruct (ho_sizes _ _ _ _ Hok a Hin) as [S1 _]. destruct (AlignUp8 size) as [A1 A2]; [lia|].
    unfold FixedBumpArena.HasAvailableSpace in Hneed. unfold FixedBumpArena.ALLOCATOR_BLOCK_SIZE in S1.
    rewrite (wrap_small 64) in Hneed by lia. apply Z.leb_le in Hneed.
    destruct (Allocate_heap h arenas arrays recs Hok a size Hin) as (h2 & HA & Hok2 & Hb2 & Hbl2 & Hoff2 & Hsz2 & Hd2); [lia|done|].
    set (e := (a + FixedBumpArena.size_ h a, AlignUp size 8)) in *. rewrite HA, bind_Ret.
    destruct (rec_range _ _ _ _ Hok2 e) as (_ & _ & He8 & _); [by left|].
    rewrite DB7_ASSERT_true, !bind_Ret by (by apply Z.eqb_eq).
    exists e, h2, p, (mkUndoBuffer (buffers_ u) e.1), arenas, a. cbn [buffers_].
    split_and!; [done|done|done|done|done|done| |lia|lia| | |by left].
    + intros f Hf. apply (same_off_on _ _ _ _ Hoff2), disj_sym.
      destruct Hf; [by apply (rec_size_field h arenas arrays recs Hok)|by apply (array_size_field h arenas arrays recs Hok)].
    + unfold e. cbn [fst snd]. lia.
    + intros b Hb Hne. apply (hload_same _ _ _ (size_ext b)); [|unfold size_ext; cbn [fst snd]; lia|unfold size_ext; cbn [fst snd]; lia]. apply (same_off_on _ _ _ _ Hoff2).
      destruct (arenas_apart _ _ _ _ _ _ Hok Hin Hb) as [?|D]; [congruence|].
      unfold disj, arena_ext, size_ext, FixedBumpArena.sizeof, FixedBumpArena.ALLOCATOR_BLOCK_SIZE in *. cbn [fst snd] in *. lia.
Qed.
End NewEntry.
