(* ===== verification/Mvcc.v ===== *)
(** * Version chains and snapshots

    The records of a row, newest first, with the row before each of them: the
    abstract history the table operations work on, and the row a snapshot
    reads. *)

From stdpp Require Import strings.
From S2P Require Import Prelude Bytes Shared Memory AccessTypes DataChunk Fsm Pax ChunkUtils.
From S2P Require Import Arena Undo Redo Txn Table HeapFacts UndoFacts.
Import UndoRecord.

(** The values of a row by column id. *)
Abbreviation rowval := (Z → list Z).

Record version := mkVersion { v_addr : Z; v_type : DeltaRecordType; v_ts : Z; v_before : rowval }.

(** ** Specification *)

(** The row a snapshot at [start] reads: the current one without the versions
    newer than the snapshot; [None] before the row was inserted. *)
Fixpoint read_at (start : Z) (cur : rowval) (hist : list version) : option rowval :=
  match hist with
  | [] => Some cur
  | v :: hist =>
      if start <? v_ts v then
        match v_type v with INSERT => None | _ => read_at start (v_before v) hist end
      else Some cur
  end.

(** Another transaction wrote the row: uncommitted, or committed after the
    start of this one. *)
Definition write_conflict (start finish : Z) (hist : list version) : bool :=
  match hist with
  | [] => false
  | v :: _ => negb (v_ts v =? finish) && (start <? v_ts v)
  end.

(** Commit of the versions stamped [finish]. *)
Definition restamp (finish commit : Z) (v : version) : version :=
  mkVersion (v_addr v) (v_type v) (if v_ts v =? finish then commit else v_ts v) (v_before v).

(** ** Chains in the heap *)

Lemma placed_hi lo offs sizes hi : placed lo offs sizes hi → lo ≤ hi.
Proof.
  revert lo sizes; induction offs as [|o offs IH]; intros lo [|s sizes]; cbn; try done.
  intros (? & ? & ? & H). apply IH in H. lia.
Qed.

Lemma chunk_at_same s c c' ids sizes offs total :
  (∀ x, 0 ≤ x < total → rd c' x = rd c x) → chunk_at s c ids sizes offs total →
  chunk_at s c' ids sizes offs total ∧ vals c' offs sizes = vals c offs sizes.
Proof.
  intros Hx Hc. pose proof (placed_hi _ _ _ _ (co_placed _ _ _ _ _ (ca_ok _ _ _ _ _ _ Hc))) as Hle.
  split.
  - destruct Hc as [Hok Hnd Hlen Hs]. split; [|done..]. eapply chunk_ok_header; [|done|exact Hok]. intros x Hr. apply Hx. lia.
  - apply list_eq. intros i. unfold vals. rewrite !lookup_zip_with.
    destruct (offs !! i) as [o|] eqn:Ho; [|done]. destruct (sizes !! i) as [sz|] eqn:Hs; [|done]. cbn. f_equal.
    destruct (chunk_field_bounds _ _ _ _ _ _ _ _ _ Hc Ho Hs) as (B1 & B2 & B3).
    unfold header_end in B1. apply read_bytes_ext. intros x Hr. apply Hx. lia.
Qed.

Section Chain.
Context (s : Schema).

(** What a record says about the row before it. *)
Definition before_ok (h : heap) (r n : Z) (v : version) (cur : rowval) : Prop :=
  match v_type v with
  | UPDATE => ∃ ids sizes offs total, total ≤ n - sizeof ∧ chunk_at s (delta_chunk h r) ids sizes offs total ∧
      vals (delta_chunk h r) offs sizes = v_before v <$> ids ∧ ∀ id, id ∉ ids → v_before v id = cur id
  | INSERT => True
  | _ => ∀ id, v_before v id = cur id
  end.

Fixpoint chain (h : heap) (recs : list extent) (p : Z) (cur : rowval) (hist : list version) : Prop :=
  match hist with
  | [] => p = 0
  | v :: hist => p = v_addr v ∧ ∃ n next, (p, n) ∈ recs ∧ sizeof ≤ n ∧ rec_fields h p (v_type v) (v_ts v) next ∧
      before_ok h p n v cur ∧ chain h recs next (v_before v) hist
  end.

Lemma before_ok_same h h' r n v cur :
  same_on (h_mem h) (h_mem h') (r, n) → before_ok h r n v cur → before_ok h' r n v cur.
Proof.
  intros Hs. unfold before_ok. destruct (v_type v); try done.
  intros (ids & sizes & offs & total & Ht & Hc & Hv & Hb).
  destruct (chunk_at_same s (delta_chunk h r) (delta_chunk h' r) ids sizes offs total) as [Hc' Hv']; [|done|].
  { intros x Hx. apply (delta_chunk_same h h' r n x Hs). unfold sizeof in Ht. lia. }
  exists ids, sizes, offs, total. rewrite Hv'. done.
Qed.

(** Chains survive changes outside the records. *)
Lemma chain_same h h' recs recs' p cur hist :
  (∀ e, e ∈ recs → same_on (h_mem h) (h_mem h') e) → (∀ e, e ∈ recs → e ∈ recs') →
  chain h recs p cur hist → chain h' recs' p cur hist.
Proof.
  intros Hs Hsub. revert p cur; induction hist as [|v hist IH]; intros p cur; cbn [chain]; [done|].
  intros (Hp & n & next & Hin & Hn & Hf & Hb & Hc). split; [done|]. exists n, next.
  split_and!; [by apply Hsub|done| | |by apply IH].
  - eapply rec_fields_same; [by apply Hs|unfold sizeof in Hn; lia|done].
  - eapply before_ok_same; [by apply Hs|done].
Qed.

Lemma chain_ext h recs p cur cur' hist : (∀ id, cur id = cur' id) → chain h recs p cur hist → chain h recs p cur' hist.
Proof.
  intros He. destruct hist as [|v hist]; cbn [chain]; [done|].
  intros (Hp & n & next & Hin & Hn & Hf & Hb & Hc). split; [done|]. exists n, next. split_and!; try done.
  unfold before_ok in *. destruct (v_type v); try done.
  - destruct Hb as (ids & sizes & offs & total & Ht & Hk & Hv & Hb). exists ids, sizes, offs, total.
    split_and!; try done. intros id Hid. rewrite <- He. by apply Hb.
  - intros id. by rewrite <- He.
  - intros id. by rewrite <- He.
Qed.

Lemma chain_length h recs p cur cur' hist hist' :
  (∀ e, e ∈ recs → e.1 ≠ 0) → chain h recs p cur hist → chain h recs p cur' hist' → length hist = length hist'.
Proof.
  intros Hnz. revert p cur cur' hist'; induction hist as [|v hist IH]; intros p cur cur' [|v' hist']; cbn [chain length].
  - done.
  - intros -> (_ & n & next & Hin & _). by destruct (Hnz _ Hin).
  - intros (_ & n & next & Hin & _) ->. by destruct (Hnz _ Hin).
  - intros (_ & n & next & _ & _ & (_ & _ & F) & _ & Hc) (_ & n' & next' & _ & _ & (_ & _ & F') & _ & Hc').
    f_equal. apply (IH next (v_before v) (v_before v')); [done|]. congruence.
Qed.

Lemma chain_suffix h recs p cur l v hist :
  chain h recs p cur (l ++ v :: hist) → ∃ cur', chain h recs (v_addr v) cur' (v :: hist).
Proof.
  revert p cur; induction l as [|w l IH]; intros p cur; cbn [app].
  - intros H. exists cur. destruct H as [-> H]. by split.
  - intros (_ & n & next & _ & _ & _ & _ & Hc). by eapply IH.
Qed.

Lemma chain_nodup h recs p cur hist :
  (∀ e, e ∈ recs → e.1 ≠ 0) → chain h recs p cur hist → NoDup (v_addr <$> hist).
Proof.
  intros Hnz. revert p cur; induction hist as [|v hist IH]; intros p cur Hc; [constructor|].
  rewrite fmap_cons. pose proof Hc as Hc0. destruct Hc as (-> & n & next & _ & _ & _ & _ & Hc).
  constructor; [|by eapply IH]. intros Hin. apply list_elem_of_fmap in Hin as (w & E & Hw).
  apply list_elem_of_split in Hw as (l & k & ->).
  destruct (chain_suffix h recs next (v_before v) l w k Hc) as (cur' & Hw). rewrite <- E in Hw.
  pose proof (chain_length _ _ _ _ _ _ _ Hnz Hc0 Hw) as Hlen. cbn [length] in Hlen. rewrite length_app in Hlen. cbn in Hlen. lia.
Qed.

Lemma chain_recs h recs p cur hist : chain h recs p cur hist → ∀ v, v ∈ hist → ∃ n, (v_addr v, n) ∈ recs ∧ sizeof ≤ n.
Proof.
  revert p cur; induction hist as [|v hist IH]; intros p cur Hc w Hw; [by apply not_elem_of_nil in Hw|].
  destruct Hc as (-> & n & next & Hin & Hn & _ & _ & Hc). apply elem_of_cons in Hw as [->|Hw]; [eauto|by eapply IH].
Qed.

(** The fuel of [SelectIntoChunk] is enough. *)
Lemma chain_fuel_ok h arenas arrays recs p cur hist :
  heap_ok h arenas arrays recs → chain h recs p cur hist → (length hist < Table.chain_fuel h)%nat.
Proof.
  intros Hok Hc. assert (Hnz : ∀ e, e ∈ recs → e.1 ≠ 0).
  { intros e He. destruct (rec_range _ _ _ _ Hok e He) as (? & _). lia. }
  pose proof (chain_nodup _ _ _ _ _ Hnz Hc) as Hnd.
  unfold Table.chain_fuel. enough (length hist ≤ Z.to_nat (h_brk h / 8))%nat by lia.
  assert (Hr : ∀ a, a ∈ v_addr <$> hist → 0 ≤ a ∧ a + 40 ≤ h_brk h ∧ a mod 8 = 0).
  { intros a Ha. apply list_elem_of_fmap in Ha as (v & -> & Hv). destruct (chain_recs _ _ _ _ _ Hc v Hv) as (n & Hn & Hs).
    destruct (rec_range _ _ _ _ Hok _ Hn) as (R1 & R2 & R3 & _). cbn [fst snd] in *. unfold sizeof in Hs. split_and!; (done || lia). }
  rewrite <- (length_fmap v_addr), <- (length_fmap (λ a, a / 8)).
  assert (Hsub : (λ a, a / 8) <$> (v_addr <$> hist) ⊆+ seqZ 0 (h_brk h / 8)).
  { apply NoDup_submseteq.
    - apply NoDup_fmap_2_strong; [|done]. intros x y Hx Hy E. destruct (Hr x Hx) as (_ & _ & Mx), (Hr y Hy) as (_ & _ & My).
      pose proof (Z.div_mod x 8). pose proof (Z.div_mod y 8). lia.
    - intros a Ha. apply list_elem_of_fmap in Ha as (x & -> & Hx). destruct (Hr x Hx) as (H1 & H2 & H3).
      apply elem_of_seqZ. split; [apply Z.div_pos; lia|]. rewrite Z.add_0_l.
      pose proof (Z.div_mod x 8). pose proof (Z.div_mod (h_brk h) 8). pose proof (Z.mod_pos_bound (h_brk h) 8). lia. }
  apply submseteq_length in Hsub. rewrite length_seqZ in Hsub. exact Hsub.
Qed.

(** ** Reading a snapshot *)

Lemma select_loop_ok t fuel h arenas arrays recs start p is_deleted c ids sizes offs total cur hist :
  Table.schema_ t = s → heap_ok h arenas arrays recs → chain h recs p cur hist →
  chunk_at s c ids sizes offs total → vals c offs sizes = cur <$> ids → (length hist < fuel)%nat →
  ∃ st c', Table.select_loop t fuel h start p is_deleted c = Ret (st, c') ∧ chunk_at s c' ids sizes offs total ∧
    match read_at start cur hist with
    | None => st = NotVisible
    | Some row => st = (if is_deleted then Deleted else Visible) ∧ vals c' offs sizes = row <$> ids
    end.
Proof.
  intros Ht Hok. revert fuel p cur c; induction hist as [|v hist IH]; intros fuel p cur c Hc Hk Hv Hf;
    (destruct fuel as [|fuel]; [cbn in Hf; lia|]); cbn [Table.select_loop].
  { cbn in Hc. subst p. cbn. eexists _, c. done. }
  destruct Hc as (-> & n & next & Hin & Hn & (F1 & F2 & F3) & Hb & Hc).
  destruct (rec_range _ _ _ _ Hok _ Hin) as (R1 & _). cbn [fst] in R1.
  rewrite (proj2 (Z.eqb_neq _ _)) by lia. cbn [negb andb]. unfold TransactionUtil.IsNewerThan. rewrite F1, F2, F3.
  cbn [read_at]. destruct (start <? v_ts v); [|eexists _, c; done].
  unfold before_ok in Hb. destruct (v_type v).
  - destruct Hb as (dids & dsizes & doffs & dtotal & Hle & Hd & Hdv & Hb).
    destruct (Merge_ok s c ids sizes offs total cur (v_before v) _ _ _ _ _ Hk Hv Hd Hdv) as (c1 & HM & Hk1 & Hv1).
    rewrite Ht, HM, bind_Ret. cbn in Hf. apply (IH fuel next (v_before v) c1); [done|done| |lia].
    rewrite Hv1. apply list_fmap_ext. intros i id _. destruct (decide (id ∈ dids)); [done|]. symmetry. by apply Hb.
  - eexists _, c. done.
  - cbn in Hf. apply (IH fuel next (v_before v) c); [done|done| |lia]. rewrite Hv. apply list_fmap_ext. intros; by rewrite Hb.
  - cbn in Hf. apply (IH fuel next (v_before v) c); [done|done| |lia]. rewrite Hv. apply list_fmap_ext. intros; by rewrite Hb.
Qed.
End Chain.

(** ** Conflicts *)

(** Timestamps below [2^63] are committed. *)
Lemma HasConflict_spec ts finish start :
  0 ≤ ts < 2 ^ 64 → 0 ≤ start < 2 ^ 63 → 2 ^ 63 ≤ finish < 2 ^ 64 →
  TransactionUtil.HasConflict ts finish start = negb (ts =? finish) && (start <? ts).
Proof.
  intros Ht Hs Hf. unfold TransactionUtil.HasConflict, TransactionUtil.IsCommitted, TransactionUtil.IsNewerThan, to_signed.
  rewrite (wrap_small 64) by lia. change (2 ^ (64 - 1)) with (2 ^ 63).
  destruct (Z.ltb_spec ts (2 ^ 63)); destruct (Z.eqb_spec ts finish); destruct (Z.ltb_spec start ts);
    repeat match goal with |- context [0 <=? ?x] => destruct (Z.leb_spec 0 x) end; cbn; lia || done.
Qed.

(** ** What a snapshot reads, by the order of the versions *)

(** The row before the oldest of [newer], versions on top of the row [cur]. *)
Definition row_before (cur : rowval) (newer : list version) : rowval :=
  match last newer with Some v => v_before v | None => cur end.

Definition newer_than (start : Z) (v : version) : Prop := start < v_ts v ∧ v_type v ≠ INSERT.

Lemma row_before_cons cur v newer : row_before cur (v :: newer) = row_before (v_before v) newer.
Proof. unfold row_before. rewrite last_cons. by destruct (last newer). Qed.

Lemma read_at_app start cur newer older :
  Forall (newer_than start) newer → read_at start cur (newer ++ older) = read_at start (row_before cur newer) older.
Proof.
  intros H. revert cur; induction H as [|v newer [Hs Hi] _ IH]; intros cur; [done|]. cbn [app read_at].
  rewrite (proj2 (Z.ltb_lt _ _) Hs), row_before_cons, IH. destruct (v_type v) eqn:E; done.
Qed.

(** Commit of another transaction does not move a running snapshot. *)
Lemma read_at_restamp start cur finish commit hist :
  start < finish → start < commit → read_at start cur (restamp finish commit <$> hist) = read_at start cur hist.
Proof.
  intros Hf Hc. revert cur; induction hist as [|v hist IH]; intros cur; [done|]. rewrite fmap_cons. cbn [read_at restamp v_ts v_type v_before].
  destruct (Z.eqb_spec (v_ts v) finish) as [E|E].
  - rewrite (proj2 (Z.ltb_lt _ _) Hc), (proj2 (Z.ltb_lt start (v_ts v))) by lia. destruct (v_type v); auto.
  - destruct (start <? v_ts v); [|done]. destruct (v_type v); auto.
Qed.
