(* ===== verification/TableFacts.v ===== *)
(** * Facts on the table operations

    Each operation on a row, run under the page latch with no interference,
    extends or refuses to extend the row's version chain. *)

From stdpp Require Import strings.
From S2P Require Import Prelude Bytes Shared Memory AccessTypes DataChunk Fsm Pax ChunkUtils.
From S2P Require Import Arena Undo Redo Txn Table HeapFacts UndoFacts Mvcc.
Import TransactionContext.

(** ** Version arrays *)

(** The version array of a page: what the table of versions and the page say. *)
Record versions_at (arrays : list extent) (sys : system) (page : Page) (id : PageIdentifier) (count arr : Z) : Prop := {
  va_table : arr = PageVersionManager.Get (s_versions sys) id;
  va_page : versions_ page = 0 ∨ versions_ page = arr;
  va_array : arr = 0 ∨ ∃ n, (arr, n) ∈ arrays ∧ 8 * count ≤ n
}.

(** The newest version of a row. *)
Definition head (h : heap) (arr idx : Z) : Z := if arr =? 0 then 0 else VersionPtr.Get h (arr + 8 * idx).

Section Versions.
Context (h : heap) (arenas : list Z) (arrays recs : list extent) (Hok : heap_ok h arenas arrays recs).

Lemma elem_ok arr n idx :
  (arr, n) ∈ arrays → 0 ≤ idx → 8 * idx + 8 ≤ n → VersionPtr.elem h arr idx = Ret (arr + 8 * idx).
Proof.
  intros Hin Hi Hn. destruct (ho_arrays _ _ _ _ Hok _ Hin) as [_ Hb]. cbn [fst snd] in Hb.
  unfold VersionPtr.elem, VersionPtr.sizeof. rewrite Hb, in_bounds_true by lia. done.
Qed.

(** A store of a pointer in an array. *)
Lemma slot_store arr n idx v :
  (arr, n) ∈ arrays → 0 ≤ idx → 8 * idx + 8 ≤ n → 0 ≤ v < 2 ^ 64 →
  let h' := VersionPtr.Set_ h (arr + 8 * idx) v in
  heap_ok h' arenas arrays recs ∧ VersionPtr.Get h' (arr + 8 * idx) = v ∧
  (∀ arr' n' idx', (arr', n') ∈ arrays → 0 ≤ idx' → 8 * idx' + 8 ≤ n' → (arr', idx') ≠ (arr, idx) →
     VersionPtr.Get h' (arr' + 8 * idx') = VersionPtr.Get h (arr' + 8 * idx')) ∧
  (∀ e, e ∈ recs → same_on (h_mem h) (h_mem h') e).
Proof.
  intros Hin Hi Hn Hv h'.
  assert (Hoff : same_off (h_mem h) (h_mem h') (arr, n)) by (apply hstore_off; cbn [fst snd]; lia).
  split_and!.
  - apply (heap_ok_write h arenas arrays recs Hok h' (arr, n)); [by right|done|done| |done]. apply hstore_ok, (ho_mem _ _ _ _ Hok).
  - unfold h', VersionPtr.Get, VersionPtr.Set_. rewrite hload_hstore_same. by apply Z.mod_small.
  - intros arr' n' idx' Hin' Hi' Hn' Hne. unfold h', VersionPtr.Get, VersionPtr.Set_. apply hload_hstore_disj.
    destruct (decide (arr' = arr)) as [->|Hna].
    + assert (idx' ≠ idx) by congruence. lia.
    + destruct (ho_arrays_apart _ _ _ _ Hok _ _ Hin' Hin) as [E|D]; [congruence|]. unfold disj in D. cbn [fst snd] in D. lia.
  - intros e He. apply (same_off_on _ _ _ _ Hoff), disj_sym. by apply (rec_array h arenas arrays recs Hok).
Qed.
End Versions.

Lemma Get_array_same h h' arr n idx :
  same_on (h_mem h) (h_mem h') (arr, n) → 0 ≤ idx → 8 * idx + 8 ≤ n →
  VersionPtr.Get h' (arr + 8 * idx) = VersionPtr.Get h (arr + 8 * idx).
Proof. intros Hs Hi Hn. apply (hload_same _ _ _ (arr, n)); cbn [fst snd]; [done|lia|lia]. Qed.

(** [GetVersions] finds or makes the array; a new one is empty. *)
Lemma GetVersions_ok sys arenas arrays recs page id count arr :
  heap_ok (s_heap sys) arenas arrays recs → versions_at arrays sys page id count arr → 0 < count →
  ∃ arr' sys' page' arrays' n, GetVersions sys page id count = (arr', sys', page') ∧
    heap_ok (s_heap sys') arenas arrays' recs ∧ versions_at arrays' sys' page' id count arr' ∧
    (arr', n) ∈ arrays' ∧ 8 * count ≤ n ∧ data_ page' = data_ page ∧
    (∀ e, e ∈ arrays → e ∈ arrays') ∧
    (∀ e, e ∈ recs ∨ e ∈ arrays → same_on (h_mem (s_heap sys)) (h_mem (s_heap sys')) e) ∧
    (∀ idx, 0 ≤ idx < count → head (s_heap sys') arr' idx = head (s_heap sys) arr idx) ∧
    (∀ id', id' ≠ id → s_versions sys' !! id' = s_versions sys !! id') ∧
    s_pool sys' = s_pool sys ∧ h_brk (s_heap sys) ≤ h_brk (s_heap sys') ≤ h_brk (s_heap sys) + (8 * count + 16) ∧
    (arr = 0 ∨ arr' = arr).
Proof.
  intros Hok [Ht Hp Ha] Hc. unfold GetVersions.
  destruct (Z.eqb_spec (versions_ page) 0) as [E0|E0].
  - unfold PageVersionManager.GetCreateVersions. unfold PageVersionManager.Get in Ht. rewrite <- Ht.
    destruct (Z.eqb_spec arr 0) as [->|Hne].
    + unfold PageVersionManager.new_versions, operator_new, VersionPtr.sizeof.
      destruct (new_array (s_heap sys) arenas arrays recs Hok (8 * count)) as (Hok' & Hoff & Hd & Hz); [lia|].
      set (h' := mkHeap _ _ _) in Hok', Hoff, Hz. set (e := (h_brk (s_heap sys), 8 * count)) in *.
      assert (Hsame : ∀ f, f ∈ recs ∨ f ∈ arrays → same_on (h_mem (s_heap sys)) (h_mem h') f).
      { intros f Hf. apply (same_off_on _ _ _ _ Hoff). destruct Hf as [Hf|Hf]; [|by apply Hd].
        destruct (rec_range _ _ _ _ Hok f Hf) as (_ & R2 & _). right. unfold e. cbn [fst snd]. lia. }
      destruct (ho_brk _ _ _ _ Hok) as [B1 _]. pose proof (Z.div_mod (8 * count + 15) 16). pose proof (Z.mod_pos_bound (8 * count + 15) 16).
      eexists _, _, _, (e :: arrays), (8 * count). split; [done|]. cbn [s_heap s_versions s_pool].
      split_and!; [exact Hok'| |by left|lia|done|by intros; right|exact Hsame| |intros; by rewrite lookup_insert_ne|done|cbn; lia| |by left].
      * split; cbn [s_versions versions_]; [|by right|right; eexists; split; [by left|lia]].
        unfold PageVersionManager.Get, PageVersionManager.GetUnsafe. by rewrite lookup_insert_eq.
      * intros idx Hi. unfold head. rewrite (proj2 (Z.eqb_neq _ _)) by lia. cbn [Z.eqb].
        unfold VersionPtr.Get, hload, load. rewrite (read_bytes_ext _ ∅).
        -- change (read_bytes ∅ ?a 8) with (replicate 8 0). by vm_compute.
        -- intros x Hx. change (rd ∅ x) with 0. apply (Hz x). unfold e. cbn [fst snd]. lia.
      * cbn. lia.
    + destruct Ha as [?|(n & Hin & Hn)]; [done|].
      eexists _, _, _, arrays, n. split; [done|]. cbn [s_heap s_versions s_pool].
      split_and!; [by destruct (s_heap sys)| |done|done|done|done|by intros|done|intros; by rewrite lookup_insert_ne|done|lia|lia|by right].
      split; cbn [s_versions versions_]; [|by right|right; eauto].
      unfold PageVersionManager.Get, PageVersionManager.GetUnsafe. by rewrite lookup_insert_eq.
  - destruct Hp as [?|Hp]; [done|]. destruct Ha as [?|(n & Hin & Hn)]; [congruence|].
    exists arr, sys, page, arrays, n. rewrite Hp.
    split_and!; [done|done| |done|done|done|done|by intros|done|done|done|lia|lia|by right].
    split; [done|by right|right; eauto].
Qed.

(** ** What every operation keeps *)

(** The chains and version slots of other rows. *)
Definition keeps (sys sys' : system) (recs recs' : list extent) (arrays arrays' : list extent) (arr idx : Z) : Prop :=
  (∀ s p cur hist, chain s (s_heap sys) recs p cur hist → chain s (s_heap sys') recs' p cur hist) ∧
  (∀ arr' n idx', (arr', n) ∈ arrays → 0 ≤ idx' → 8 * idx' + 8 ≤ n → (arr', idx') ≠ (arr, idx) →
     VersionPtr.Get (s_heap sys') (arr' + 8 * idx') = VersionPtr.Get (s_heap sys) (arr' + 8 * idx')) ∧
  (∀ e, e ∈ arrays → e ∈ arrays') ∧ (∀ e, e ∈ recs → e ∈ recs').

(** ** New records *)

Record txn_ok (txn : TransactionContext) (arenas : list Z) : Prop := {
  to_start : 0 ≤ start_time_ txn < 2 ^ 63;
  to_finish : 2 ^ 63 ≤ finish_time_ txn < 2 ^ 64;
  to_buffers : ∀ a, a ∈ UndoBuffer.buffers_ (undo_buffer_ txn) → a ∈ arenas
}.

(** Where the buffer put a record: at the end of the last segment, which may
    be one the pool gave. *)
Definition placed_last (dq : option (Z * list Z)) (h h' : heap) (arenas buffers buffers' : list Z) (e : extent) : Prop :=
  ∃ a, e.1 + e.2 = a + FixedBumpArena.size_ h' a ∧
    (∀ b, b ∈ arenas → b ≠ a → FixedBumpArena.size_ h' b = FixedBumpArena.size_ h b) ∧
    (buffers' = buffers ∧ last buffers = Some a ∧ e.1 = a + FixedBumpArena.size_ h a ∨
     buffers' = buffers ++ [a] ∧ (a ∈ arenas ∧ dq ≠ None ∨ a ∉ arenas ∧ e.1 = a)).

Record fresh_record (try_dequeue : list Z → option (Z * list Z)) (sys sys' : system) (txn txn' : TransactionContext) (arenas arenas' : list Z)
    (arrays recs : list extent) (e : extent) (t : DeltaRecordType) : Prop := {
  fr_heap : heap_ok (s_heap sys') arenas' arrays (e :: recs);
  fr_arenas : ∀ b, b ∈ arenas → b ∈ arenas';
  fr_txn : txn_ok txn' arenas';
  fr_start : start_time_ txn' = start_time_ txn;
  fr_finish : finish_time_ txn' = finish_time_ txn;
  fr_disj : ∀ f, f ∈ recs → disj e f;
  fr_same : ∀ f, f ∈ recs ∨ f ∈ arrays → same_on (h_mem (s_heap sys)) (h_mem (s_heap sys')) f;
  fr_fields : rec_fields (s_heap sys') e.1 t (finish_time_ txn) 0;
  fr_versions : s_versions sys' = s_versions sys;
  fr_brk : h_brk (s_heap sys) ≤ h_brk (s_heap sys') ≤ h_brk (s_heap sys) + 4112;
  fr_pos : 16 ≤ e.1 ∧ 40 ≤ e.2;
  fr_place : placed_last (try_dequeue (ObjectPool.queue_ (s_pool sys))) (s_heap sys) (s_heap sys') arenas (UndoBuffer.buffers_ (undo_buffer_ txn))
    (UndoBuffer.buffers_ (undo_buffer_ txn')) e
}.

Section Records.
Context (try_dequeue : list Z → option (Z * list Z)).
Context (sys : system) (txn : TransactionContext) (arenas : list Z) (arrays recs : list extent).
Context (Hok : heap_ok (s_heap sys) arenas arrays recs) (Htxn : txn_ok txn arenas).

(** [NewUndo] and the writes of an [Initialize*] inside the record. *)
Lemma new_record size t (init : heap → Z → heap) :
  40 ≤ size → AlignUp size 8 ≤ FixedBumpArena.ALLOCATOR_BLOCK_SIZE →
  segment_ready try_dequeue (s_heap sys) (s_pool sys) arenas size → size < 2 ^ 32 →
  (∀ h r n, AlignUp size 8 = n → mem_ok (h_mem h) →
     rec_fields (init h r) r t (finish_time_ txn) 0 ∧ same_off (h_mem h) (h_mem (init h r)) (r, n) ∧
     mem_ok (h_mem (init h r)) ∧ h_brk (init h r) = h_brk h ∧ h_blocks (init h r) = h_blocks h) →
  ∃ e s1 txn' arenas' h1, NewUndo try_dequeue sys txn size = Ret (e.1, s1, txn') ∧ e.2 = AlignUp size 8 ∧
    s_heap s1 = h1 ∧ mem_ok (h_mem h1) ∧
    fresh_record try_dequeue sys (set_heap s1 (init h1 e.1)) txn txn' arenas arenas' arrays recs e t.
Proof.
  intros Hs Ha Hr H32 Hinit. unfold NewUndo.
  destruct (NewEntry_ok try_dequeue (s_heap sys) (s_pool sys) (undo_buffer_ txn) arenas arrays recs size Hok (to_buffers _ _ Htxn))
    as (e & h1 & p1 & u1 & arenas1 & a & -> & He2 & Hok1 & Hsub & Hbuf & Hd & Hsame & Hbrk & Hend & Hsz & Hcase); [lia|done|done|done|].
  rewrite bind_Ret. exists e, (mkSystem h1 p1 (s_versions sys)), (set_undo txn u1), arenas1, h1.
  split; [done|]. split; [done|]. split; [done|]. split; [apply Hok1|].
  destruct (Hinit h1 e.1 e.2 (eq_sym He2) (ho_mem _ _ _ _ Hok1)) as (I1 & I2 & I3 & I4 & I5).
  replace (e.1, e.2) with e in I2 by by destruct e.
  split; cbn [set_heap s_heap s_versions set_undo start_time_ finish_time_]; try done.
  - apply (heap_ok_write h1 arenas1 arrays (e :: recs) Hok1 _ e); [left; by left|done|done|done|done].
  - split; cbn; [apply (to_start _ _ Htxn)|apply (to_finish _ _ Htxn)|done].
  - intros f Hf. eapply same_on_trans; [by apply Hsame|]. apply (same_off_on _ _ _ _ I2).
    destruct Hf as [Hf|Hf]; [by apply Hd|]. apply (rec_array h1 arenas1 arrays (e :: recs) Hok1); [by left|done].
  - by rewrite I4.
  - destruct (rec_range h1 arenas1 arrays (e :: recs) Hok1 e) as (? & _); [by left|].
    destruct (AlignUp8 size) as [_ ?]; [lia|]. lia.
  - assert (Es : ∀ b, b ∈ arenas1 → FixedBumpArena.size_ (init h1 e.1) b = FixedBumpArena.size_ h1 b).
    { intros b Hb. apply (hload_same _ _ _ (size_ext b)); [|unfold size_ext; cbn [fst snd]; lia|unfold size_ext; cbn [fst snd]; lia].
      apply (same_off_on _ _ _ _ I2). apply (rec_size_field h1 arenas1 arrays (e :: recs) Hok1); [by left|done]. }
    assert (Hina : a ∈ arenas1).
    { apply Hbuf. destruct Hcase as [(-> & Hla & _)|[-> _]]; [by apply last_Some_elem_of|apply elem_of_app; right; by left]. }
    exists a. cbn [set_undo undo_buffer_]. rewrite Es by done. split_and!; [done| |done].
    intros b Hb Hne. rewrite Es by (by apply Hsub). by apply Hsz.
Qed.

Lemma AlignUp_40 : AlignUp 40 8 = 40.
Proof. by vm_compute. Qed.

Lemma init_plain t ts tbl pid idx h r n :
  0 ≤ ts < 2 ^ 64 → 40 ≤ n → mem_ok (h_mem h) →
  let h' := UndoRecord.initialize h r t ts tbl pid idx in
  rec_fields h' r t ts 0 ∧ same_off (h_mem h) (h_mem h') (r, n) ∧ mem_ok (h_mem h') ∧
  h_brk h' = h_brk h ∧ h_blocks h' = h_blocks h.
Proof.
  intros Hts Hn Hm h'. destruct (initialize_ok h r t ts tbl pid idx Hts) as (I1 & I2 & I3 & I4 & I5).
  split_and!; [done| |by apply I3|done|done].
  eapply same_off_weaken; [exact I2|]. unfold inside. cbn [fst snd]. lia.
Qed.

Lemma new_plain t tbl pid idx (mk : heap → Z → Z → Z → Z → Z → heap) :
  (∀ h r ts, mk h r ts tbl pid idx = UndoRecord.initialize h r t ts tbl pid idx) →
  segment_ready try_dequeue (s_heap sys) (s_pool sys) arenas 40 →
  ∃ e sys' txn' arenas', ('(result, s, txn') ← NewUndo try_dequeue sys txn UndoRecord.sizeof;
     Ret (result, set_heap s (mk (s_heap s) result (finish_time_ txn) tbl pid idx), txn')) = Ret (e.1, sys', txn') ∧
    e.2 = 40 ∧ fresh_record try_dequeue sys sys' txn txn' arenas arenas' arrays recs e t.
Proof.
  intros Hmk Hr. destruct (to_finish _ _ Htxn) as [F1 F2].
  destruct (new_record 40 t (λ h r, mk h r (finish_time_ txn) tbl pid idx))
    as (e & s1 & txn' & arenas' & h1 & E & He & Hh & _ & Hf); [lia|by rewrite AlignUp_40|done|lia| |].
  - intros h r n Hn Hm. rewrite AlignUp_40 in Hn. rewrite Hmk. apply init_plain; [lia|lia|done].
  - unfold UndoRecord.sizeof. rewrite E, bind_Ret. rewrite AlignUp_40 in He. subst h1.
    exists e, (set_heap s1 (mk (s_heap s1) e.1 (finish_time_ txn) tbl pid idx)), txn', arenas'. done.
Qed.

Lemma UndoRecordForInsert_ok tbl pid idx :
  segment_ready try_dequeue (s_heap sys) (s_pool sys) arenas 40 →
  ∃ e sys' txn' arenas', UndoRecordForInsert try_dequeue sys txn tbl pid idx = Ret (e.1, sys', txn') ∧
    e.2 = 40 ∧ fresh_record try_dequeue sys sys' txn txn' arenas arenas' arrays recs e INSERT.
Proof.
  intros Hr. destruct (new_plain INSERT tbl pid idx UndoRecord.InitializeInsert) as (e & sys' & txn' & arenas' & E & He & Hf); [done|done|].
  exists e, sys', txn', arenas'. split; [|done]. rewrite <- E. unfold UndoRecordForInsert.
  destruct (NewUndo try_dequeue sys txn UndoRecord.sizeof) as [[[r s1] txn1]| | | |] eqn:En; cbn; [|done..].
  unfold NewUndo in En. destruct (UndoBuffer.NewEntry _ _ _ _ _) as [[[[? ?] ?] ?]| | | |]; cbn in En; [|done..].
  injection En as <- <- <-. done.
Qed.

Lemma UndoRecordForDelete_ok tbl pid idx :
  segment_ready try_dequeue (s_heap sys) (s_pool sys) arenas 40 →
  ∃ e sys' txn' arenas', UndoRecordForDelete try_dequeue sys txn tbl pid idx = Ret (e.1, sys', txn') ∧
    e.2 = 40 ∧ fresh_record try_dequeue sys sys' txn txn' arenas arenas' arrays recs e DELETE.
Proof.
  intros Hr. destruct (new_plain DELETE tbl pid idx UndoRecord.InitializeDelete) as (e & sys' & txn' & arenas' & E & He & Hf); [done|done|].
  exists e, sys', txn', arenas'. split; [|done]. rewrite <- E. unfold UndoRecordForDelete.
  destruct (NewUndo try_dequeue sys txn UndoRecord.sizeof) as [[[r s1] txn1]| | | |] eqn:En; cbn; [|done..].
  unfold NewUndo in En. destruct (UndoBuffer.NewEntry _ _ _ _ _) as [[[[? ?] ?] ?]| | | |]; cbn in En; [|done..].
  injection En as <- <- <-. done.
Qed.

(** ** Update records *)

Context (s : Schema) (c : DataChunk) (ids sizes offs : list Z) (total : Z).
Context (Hc : chunk_at s c ids sizes offs total) (Htot : total ≤ 4056).

Lemma GetHeaderPtr_ok : Chunk.GetHeaderPtr c = read_bytes c 0 (Z.to_nat (header_end ids)).
Proof.
  pose proof (ca_ok _ _ _ _ _ _ Hc) as [H1 _ _ _ Hp _]. pose proof (ca_len _ _ _ _ _ _ Hc) as Hlen.
  unfold Chunk.GetHeaderPtr, Chunk.GetHeaderSize, Chunk.GetDataPtr.
  rewrite (GetOffsetsPtr_eq c _ H1) by lia. rewrite H1.
  apply placed_hi in Hp. unfold header_end in *. rewrite (wrap_small 32) by lia. do 2 f_equal. lia.
Qed.

(** The header of the chunk is copied to the delta. *)
Lemma delta_header_at h r :
  chunk_at s (UndoRecord.delta_chunk (set_mem h (write_bytes (h_mem h) (r + 40) (Chunk.GetHeaderPtr c))) r) ids sizes offs total.
Proof.
  rewrite GetHeaderPtr_ok. destruct Hc as [Hk Hnd Hlen Hsch]. split; [|done..].
  apply (chunk_ok_header c); [|done|done]. intros x Hx. unfold UndoRecord.delta_chunk, UndoRecord.GetDelta, UndoRecord.sizeof.
  rewrite rd_shift. cbn [set_mem h_mem]. replace (x + (r + 40)) with (r + 40 + Z.of_nat (Z.to_nat x)) by lia.
  rewrite rd_write_in by (rewrite length_read_bytes; lia).
  erewrite list_lookup_total_correct; [|apply lookup_read_bytes; lia]. f_equal. lia.
Qed.

Lemma UndoRecordForUpdate_ok tbl pid idx :
  mem_ok c → segment_ready try_dequeue (s_heap sys) (s_pool sys) arenas (40 + total) →
  ∃ e sys' txn' arenas', UndoRecordForUpdate try_dequeue sys txn tbl pid idx c = Ret (e.1, sys', txn') ∧
    (40 + total ≤ e.2 ∧ e.2 = AlignUp (40 + total) 8) ∧ fresh_record try_dequeue sys sys' txn txn' arenas arenas' arrays recs e UPDATE ∧
    chunk_at s (UndoRecord.delta_chunk (s_heap sys') e.1) ids sizes offs total.
Proof.
  intros Hm Hr. destruct (to_finish _ _ Htxn) as [F1 F2].
  pose proof (ca_ok _ _ _ _ _ _ Hc) as [_ Hsz _ _ Hp _]. apply placed_hi in Hp.
  assert (H8 : 8 ≤ total) by (unfold header_end in Hp; lia).
  destruct (AlignUp8 (40 + total)) as [_ HA]; [lia|].
  assert (Hmax : AlignUp (40 + total) 8 ≤ FixedBumpArena.ALLOCATOR_BLOCK_SIZE).
  { unfold FixedBumpArena.ALLOCATOR_BLOCK_SIZE. destruct (AlignUp8 (40 + total)) as [Hm8 _]; [lia|].
    pose proof (Z.div_mod (AlignUp (40 + total) 8) 8). lia. }
  set (init := λ h r, UndoRecord.InitializeUpdate h r (finish_time_ txn) tbl pid idx (Chunk.GetHeaderPtr c)).
  destruct (new_record (40 + total) UPDATE init) as (e & s1 & txn' & arenas' & h1 & E & He & Hh & Hm1 & Hf); [lia|done|done|lia| |].
  - intros h r n Hn Hmh. unfold init, UndoRecord.InitializeUpdate.
    destruct (init_plain UPDATE (finish_time_ txn) tbl pid idx h r n) as (I1 & I2 & I3 & I4 & I5); [lia|lia|done|].
    set (h' := UndoRecord.initialize _ _ _ _ _ _ _) in *. rewrite GetHeaderPtr_ok.
    unfold UndoRecord.GetDelta, UndoRecord.sizeof.
    assert (Hoff : same_off (h_mem h') (h_mem (set_mem h' (write_bytes (h_mem h') (r + 40)
                      (read_bytes c 0 (Z.to_nat (header_end ids)))))) (r + 40, header_end ids)).
    { intros x Hx. cbn [fst snd] in Hx. cbn. apply rd_write_out. rewrite length_read_bytes. unfold header_end in *. lia. }
    split_and!; [| | |done|done].
    + eapply (rec_fields_same h'); [|reflexivity|done]. apply (same_off_on _ _ _ _ Hoff). right. cbn [fst snd]. lia.
    + eapply same_off_trans; [exact I2|]. eapply same_off_weaken; [exact Hoff|]. unfold inside. cbn [fst snd]. unfold header_end in *. lia.
    + cbn. apply write_bytes_ok; [done|by apply read_bytes_ok].
  - unfold UndoRecordForUpdate. unfold UndoRecord.sizeof. rewrite Hsz, (wrap_small 32) by lia. rewrite E, bind_Ret.
    exists e, (set_heap s1 (init h1 e.1)), txn', arenas'. subst h1. split_and!.
    + unfold init. by rewrite (fr_finish _ _ _ _ _ _ _ _ _ _ _ Hf).
    + lia.
    + done.
    + done.
    + cbn [set_heap s_heap]. unfold init, UndoRecord.InitializeUpdate. apply delta_header_at.
Qed.
End Records.

(** ** The operations of a row *)

(** No thread runs between the load and the swap of a loop. *)
Definition no_others : nat → heap → heap := λ _ h, h.

(** What holds after any operation on the row [idx] of the page. *)
Record op_post (sys sys' : system) (txn txn' : TransactionContext) (page' : Page) (id : PageIdentifier) (count : Z)
    (arenas arenas' : list Z) (arrays arrays' recs recs' : list extent) (arr' idx : Z) : Prop := {
  op_heap : heap_ok (s_heap sys') arenas' arrays' recs';
  op_arenas : ∀ b, b ∈ arenas → b ∈ arenas';
  op_txn : txn_ok txn' arenas';
  op_start : start_time_ txn' = start_time_ txn;
  op_finish : finish_time_ txn' = finish_time_ txn;
  op_versions : versions_at arrays' sys' page' id count arr';
  op_keeps : keeps sys sys' recs recs' arrays arrays' arr' idx;
  op_others : ∀ id', id' ≠ id → s_versions sys' !! id' = s_versions sys !! id';
  op_brk : h_brk (s_heap sys') ≤ h_brk (s_heap sys) + 8 * count + 4128
}.

Lemma delta_write_back h r total delta' :
  (∀ x, x < 0 ∨ total ≤ x → rd delta' x = rd (UndoRecord.delta_chunk h r) x) →
  let h' := set_mem h (shift (- UndoRecord.GetDelta r) delta') in
  same_off (h_mem h) (h_mem h') (r + 40, total) ∧ (∀ x, rd (UndoRecord.delta_chunk h' r) x = rd delta' x) ∧
  (mem_ok delta' → mem_ok (h_mem h')).
Proof.
  intros Hd h'. unfold h', UndoRecord.delta_chunk, UndoRecord.GetDelta, UndoRecord.sizeof in *. split_and!.
  - intros x Hx. cbn [fst snd] in Hx. cbn [set_mem h_mem]. rewrite rd_shift, Hd by lia. rewrite rd_shift. f_equal. lia.
  - intros x. rewrite rd_shift. cbn [set_mem h_mem]. rewrite rd_shift. f_equal. lia.
  - intros Hm x. cbn [set_mem h_mem]. rewrite rd_shift. apply Hm.
Qed.

Section Ops.
Context (try_dequeue : list Z → option (Z * list Z)) (t : Table.Table) (psizes : list Z).
Context (Hl : layout_ok psizes (Table.layout_ t)) (Hmax : 0 ≤ max_rows psizes) (Hs : schema_layout (Table.schema_ t) psizes).

Abbreviation s := (Table.schema_ t).
Abbreviation row := (row_val (Table.schema_ t) psizes (Table.layout_ t)).

(** A new record and the version array of its page. *)
Lemma record_versions sys sys1 txn txn1 arenas arenas1 arrays recs e ty page id arr idx cur hist :
  heap_ok (s_heap sys) arenas arrays recs → versions_at arrays sys page id (max_rows psizes) arr →
  fresh_record try_dequeue sys sys1 txn txn1 arenas arenas1 arrays recs e ty → 0 ≤ idx < max_rows psizes →
  chain s (s_heap sys) recs (head (s_heap sys) arr idx) cur hist →
  ∃ arr' sys2 page' arrays' n, GetVersions sys1 page id (Table.GetMaxRowCount t) = (arr', sys2, page') ∧
    heap_ok (s_heap sys2) arenas1 arrays' (e :: recs) ∧ versions_at arrays' sys2 page' id (max_rows psizes) arr' ∧
    (arr', n) ∈ arrays' ∧ 8 * idx + 8 ≤ n ∧ arr' ≠ 0 ∧ data_ page' = data_ page ∧
    VersionPtr.elem (s_heap sys2) arr' idx = Ret (arr' + 8 * idx) ∧
    VersionPtr.Get (s_heap sys2) (arr' + 8 * idx) = head (s_heap sys) arr idx ∧
    chain s (s_heap sys2) recs (head (s_heap sys) arr idx) cur hist ∧
    rec_fields (s_heap sys2) e.1 ty (finish_time_ txn) 0 ∧ same_on (h_mem (s_heap sys1)) (h_mem (s_heap sys2)) e ∧
    (∀ f, f ∈ recs ∨ f ∈ arrays → same_on (h_mem (s_heap sys)) (h_mem (s_heap sys2)) f) ∧
    (∀ e, e ∈ arrays → e ∈ arrays') ∧ (∀ id', id' ≠ id → s_versions sys2 !! id' = s_versions sys !! id') ∧
    h_brk (s_heap sys2) ≤ h_brk (s_heap sys) + 8 * max_rows psizes + 4128 ∧ (arr = 0 ∨ arr' = arr).
Proof.
  intros Hok Hva Hfr Hi Hch. destruct Hfr as [R1 R2 R3 R4 R5 R6 R7 R8 R9 R10 R11 _].
  assert (Hva1 : versions_at arrays sys1 page id (max_rows psizes) arr).
  { destruct Hva as [V1 V2 V3]. split; [by rewrite R9|done|done]. }
  unfold Table.GetMaxRowCount, PaxLayout.GetMaxRowCount. rewrite (lo_max _ _ Hl).
  destruct (GetVersions_ok sys1 arenas1 arrays (e :: recs) page id (max_rows psizes) arr R1 Hva1) as
    (arr' & sys2 & page' & arrays' & n & E & Hok2 & Hva2 & Hin & Hn & Hd & Hsub & Hsame & Hhead & Hoth & Hpool & Hbrk & Harr); [lia|].
  assert (Hnz : arr' ≠ 0).
  { destruct (ho_arrays _ _ _ _ Hok2 _ Hin) as [(B1 & _) _]. cbn [fst] in B1. lia. }
  assert (Hsame' : ∀ f, f ∈ recs ∨ f ∈ arrays → same_on (h_mem (s_heap sys)) (h_mem (s_heap sys2)) f).
  { intros f Hf. eapply same_on_trans; [by apply R7|]. apply Hsame. destruct Hf; [left; by right|by right]. }
  assert (Hh1 : head (s_heap sys1) arr idx = head (s_heap sys) arr idx).
  { unfold head. destruct (Z.eqb_spec arr 0); [done|]. destruct (va_array _ _ _ _ _ _ Hva) as [?|(k & Hin0 & Hn0)]; [done|].
    apply (Get_array_same _ _ _ k); [apply R7; by right|lia|lia]. }
  exists arr', sys2, page', arrays', n. split_and!; try done.
  - lia.
  - eapply elem_ok; [exact Hok2|exact Hin|lia|lia].
  - rewrite <- Hh1, <- Hhead by done. unfold head. by rewrite (proj2 (Z.eqb_neq _ _)).
  - eapply chain_same; [|by intros|exact Hch]. intros f Hf. apply Hsame'. by left.
  - destruct e as [r n']. eapply rec_fields_same; [apply Hsame; left; by left| |done].
    apply R11.
  - apply Hsame. left. by left.
  - intros id' Hid'. rewrite Hoth by done. by rewrite R9.
  - lia.
Qed.

(** A row whose newest version is another transaction's, or that is deleted,
    is not written. *)
Definition refused (txn : TransactionContext) (deleted : bool) (hist : list version) : bool :=
  match hist with
  | [] => false
  | _ => write_conflict (start_time_ txn) (finish_time_ txn) hist || deleted
  end.

Lemma chain_head_test h arenas arrays recs p cur hist txn :
  heap_ok h arenas arrays recs → txn_ok txn arenas → chain s h recs p cur hist →
  negb (p =? 0) = negb (bool_decide (hist = [])) ∧
  HasConflict h txn p = write_conflict (start_time_ txn) (finish_time_ txn) hist.
Proof.
  intros Hok Htxn Hc. destruct hist as [|v hist]; cbn [chain] in Hc.
  - subst p. by unfold HasConflict.
  - destruct Hc as (-> & n & next & Hin & Hn & (F1 & F2 & F3) & _).
    destruct (rec_range _ _ _ _ Hok _ Hin) as (R1 & _). cbn [fst] in R1.
    unfold HasConflict. rewrite (proj2 (Z.eqb_neq (v_addr v) 0)) by lia. split; [done|].
    rewrite F2. unfold FinishTime, StartTime. cbn [write_conflict].
    apply HasConflict_spec; [|apply Htxn|apply Htxn].
    rewrite <- F2. apply (load_range 8). apply Hok.
Qed.

(** The writes of a swapped-in record: delta, next pointer and slot. *)
Lemma publish h2 arenas arrays recs e ty finish arr n idx p h3 :
  heap_ok h2 arenas arrays (e :: recs) → (∀ f, f ∈ recs → disj e f) → 40 ≤ e.2 →
  (arr, n) ∈ arrays → 0 ≤ idx → 8 * idx + 8 ≤ n → h_brk h2 < 2 ^ 63 →
  VersionPtr.Get h2 (arr + 8 * idx) = p → 0 ≤ p < 2 ^ 64 →
  h_brk h3 = h_brk h2 → h_blocks h3 = h_blocks h2 → mem_ok (h_mem h3) → same_off (h_mem h2) (h_mem h3) e →
  rec_fields h3 e.1 ty finish 0 →
  let h4 := UndoRecord.SetNext h3 e.1 p in
  ∃ h5, VersionPtr.CompareAndSwap h4 (arr + 8 * idx) p e.1 = (true, h5) ∧
    heap_ok h5 arenas arrays (e :: recs) ∧ rec_fields h5 e.1 ty finish p ∧
    VersionPtr.Get h5 (arr + 8 * idx) = e.1 ∧
    (∀ f, f ∈ recs → same_on (h_mem h2) (h_mem h5) f) ∧
    (∀ x, e.1 + 40 ≤ x < e.1 + e.2 → rd (h_mem h5) x = rd (h_mem h3) x) ∧
    (∀ arr' n' idx', (arr', n') ∈ arrays → 0 ≤ idx' → 8 * idx' + 8 ≤ n' → (arr', idx') ≠ (arr, idx) →
       VersionPtr.Get h5 (arr' + 8 * idx') = VersionPtr.Get h2 (arr' + 8 * idx')) ∧
    h_brk h5 = h_brk h2.
Proof.
  intros Hok Hd He Hin Hi Hn Hbrk Hp Hp64 Hb3 Hbl3 Hm3 Hoff3 Hf3 h4.
  assert (Hine : e ∈ e :: recs) by left.
  destruct (rec_range _ _ _ _ Hok e Hine) as (E1 & E2 & _).
  destruct (SetNext_ok h3 e.1 p ty finish 0 Hp64 Hf3) as (Hf4 & Hoff4 & Hm4). fold h4 in Hf4, Hoff4, Hm4.
  assert (Hoff : same_off (h_mem h2) (h_mem h4) e).
  { eapply same_off_trans; [exact Hoff3|]. eapply same_off_weaken; [exact Hoff4|]. unfold inside. cbn [fst snd]. lia. }
  assert (Hok4 : heap_ok h4 arenas arrays (e :: recs)).
  { apply (heap_ok_write h2 arenas arrays (e :: recs) Hok h4 e); [by left|done|done|by apply Hm4|done]. }
  assert (Harr : ∀ f, f ∈ arrays → same_on (h_mem h2) (h_mem h4) f).
  { intros f Hf. apply (same_off_on _ _ _ _ Hoff). by apply (rec_array h2 arenas arrays (e :: recs) Hok). }
  assert (Hslot : VersionPtr.Get h4 (arr + 8 * idx) = p).
  { rewrite <- Hp. apply (Get_array_same _ _ _ n); [by apply Harr|lia|lia]. }
  destruct (slot_store h4 arenas arrays (e :: recs) Hok4 arr n idx e.1 Hin Hi Hn) as (Hok5 & Hg5 & Hoth5 & Hsame5); [lia|].
  set (h5 := VersionPtr.Set_ h4 (arr + 8 * idx) e.1) in *.
  exists h5. split_and!; [|done| |done| | | |done].
  - unfold VersionPtr.CompareAndSwap. by rewrite Hslot, Z.eqb_refl.
  - destruct e as [r k]. eapply rec_fields_same; [by apply Hsame5|exact He|done].
  - intros f Hf. eapply same_on_trans; [|apply Hsame5; by right]. apply (same_off_on _ _ _ _ Hoff). by apply Hd.
  - intros x Hx. rewrite (Hsame5 e Hine) by lia. apply Hoff4. cbn [fst snd]. lia.
  - intros arr' n' idx' Hin' Hi' Hn' Hne. rewrite (Hoth5 arr' n' idx' Hin' Hi' Hn' Hne).
    apply (Get_array_same _ _ _ n'); [by apply Harr|lia|lia].
Qed.

(** A refused record is marked and stays out of the chain. *)
Lemma invalidate h arenas arrays recs e :
  heap_ok h arenas arrays (e :: recs) → (∀ f, f ∈ recs → disj e f) → 40 ≤ e.2 →
  let h' := UndoRecord.Invalidate h e.1 in
  heap_ok h' arenas arrays (e :: recs) ∧ (∀ f, f ∈ recs ∨ f ∈ arrays → same_on (h_mem h) (h_mem h') f) ∧ h_brk h' = h_brk h.
Proof.
  intros Hok Hd He h'. assert (Hine : e ∈ e :: recs) by left.
  assert (Hoff : same_off (h_mem h) (h_mem h') e) by (apply hstore_off; lia).
  split_and!; [|intros f Hf; apply (same_off_on _ _ _ _ Hoff)|done].
  - apply (heap_ok_write h arenas arrays (e :: recs) Hok h' e); [by left|done|done| |done]. apply hstore_ok, Hok.
  - destruct Hf as [Hf|Hf]; [by apply Hd|by apply (rec_array h arenas arrays (e :: recs) Hok)].
Qed.

(** The common part of the operations: what the steps up to the loop and the
    loop itself give. *)
Lemma op_post_intro sys sys2 h5 txn txn1 page2 id arenas arenas1 arrays arrays' recs e ty arr' n idx sys1 :
  heap_ok (s_heap sys) arenas arrays recs →
  fresh_record try_dequeue sys sys1 txn txn1 arenas arenas1 arrays recs e ty →
  versions_at arrays' sys2 page2 id (max_rows psizes) arr' → (arr', n) ∈ arrays' →
  (∀ f, f ∈ arrays → f ∈ arrays') → (∀ id', id' ≠ id → s_versions sys2 !! id' = s_versions sys !! id') →
  (∀ f, f ∈ recs ∨ f ∈ arrays → same_on (h_mem (s_heap sys)) (h_mem (s_heap sys2)) f) →
  heap_ok h5 arenas1 arrays' (e :: recs) →
  (∀ f, f ∈ recs → same_on (h_mem (s_heap sys2)) (h_mem h5) f) →
  (∀ a k j, (a, k) ∈ arrays' → 0 ≤ j → 8 * j + 8 ≤ k → (a, j) ≠ (arr', idx) →
     VersionPtr.Get h5 (a + 8 * j) = VersionPtr.Get (s_heap sys2) (a + 8 * j)) →
  h_brk h5 = h_brk (s_heap sys2) → h_brk (s_heap sys2) ≤ h_brk (s_heap sys) + 8 * max_rows psizes + 4128 →
  (∀ page', versions_ page' = versions_ page2 → op_post sys (set_heap sys2 h5) txn txn1 page' id (max_rows psizes) arenas arenas1 arrays arrays' recs (e :: recs) arr' idx) ∧
  (∀ s' p cur hist, chain s' (s_heap sys) recs p cur hist → chain s' h5 (e :: recs) p cur hist).
Proof.
  intros Hok Hfr Hva Hin Hsub Hoth Hsame Hok5 Hrec Hslots Hbrk Hb2.
  assert (Hch : ∀ s' p cur hist, chain s' (s_heap sys) recs p cur hist → chain s' h5 (e :: recs) p cur hist).
  { intros s' p cur hist Hc. eapply chain_same; [|intros; by right|exact Hc]. intros f Hf.
    eapply same_on_trans; [apply Hsame; by left|by apply Hrec]. }
  split; [|done]. intros page' Hp'. destruct Hfr as [R1 R2 R3 R4 R5 R6 R7 R8 R9 R10 R11 _].
  split; cbn [set_heap s_heap s_versions]; try done.
  - destruct Hva as [V1 V2 V3]. split; cbn [set_heap s_versions]; [done|by rewrite Hp'|done].
  - split_and!; [done| |done|intros; by right]. intros a k j Ha Hj Hk Hne. cbn [set_heap s_heap].
    rewrite (Hslots a k j (Hsub _ Ha) Hj Hk Hne). apply (Get_array_same _ _ _ k); [apply Hsame; by right|lia|lia].
  - lia.
Qed.

(** The row as the operations leave it: [ok] says whether the operation was
    applied; the refused one leaves the page and the row's chain. *)
Lemma UpdateUndo_ok sys txn arenas arrays recs page pid idx arr c ids sizes offs total hist :
  let id := mkPageIdentifier (Table.oid_ t) pid in
  heap_ok (s_heap sys) arenas arrays recs → txn_ok txn arenas → mem_ok (data_ page) →
  versions_at arrays sys page id (max_rows psizes) arr → 0 ≤ idx < max_rows psizes → 0 ≤ pid < 2 ^ 32 →
  h_brk (s_heap sys) < 2 ^ 62 →
  chunk_at s c ids sizes offs total → total ≤ 4056 → mem_ok c →
  segment_ready try_dequeue (s_heap sys) (s_pool sys) arenas (40 + total) →
  chain s (s_heap sys) recs (head (s_heap sys) arr idx) (row (data_ page) idx) hist →
  ∃ r sys' txn' page' arenas' arrays' recs' arr',
    Table.UpdateUndo try_dequeue no_others t sys txn (TupleId_make idx pid) page c =
      Ret (negb (refused txn (PaxLayout.IsDeleted (data_ page) idx) hist), sys', txn', page') ∧
    op_post sys sys' txn txn' page' id (max_rows psizes) arenas arenas' arrays arrays' recs recs' arr' idx ∧
    mem_ok (data_ page') ∧
    if refused txn (PaxLayout.IsDeleted (data_ page) idx) hist
    then data_ page' = data_ page ∧
         chain s (s_heap sys') recs' (head (s_heap sys') arr' idx) (row (data_ page) idx) hist
    else (row (data_ page') idx <$> ids) = vals c offs sizes ∧
         rows_frame s psizes (Table.layout_ t) ids idx (data_ page) (data_ page') ∧
         chain s (s_heap sys') recs' (head (s_heap sys') arr' idx) (row (data_ page') idx)
           (mkVersion r UPDATE (finish_time_ txn) (row (data_ page) idx) :: hist).
Proof.
  intros id Hok Htxn Hpm Hva Hi Hpid Hbrk Hc Htot Hcm Hr Hch.
  assert (Hmx : max_rows psizes ≤ 65504).
  { destruct Hl as [_ _ Hp]. apply columns_placed_hi in Hp; [|done]. unfold bitmap_end, HEADER_SIZE, DB7_PAGE_SIZE in *.
    pose proof (Z.div_mod (max_rows psizes + 7) 8). pose proof (Z.mod_pos_bound (max_rows psizes + 7) 8). lia. }
  destruct (TupleId_roundtrip idx pid) as [Gi Gp]; [lia..|].
  destruct (UndoRecordForUpdate_ok try_dequeue sys txn arenas arrays recs Hok Htxn s c ids sizes offs total Hc Htot
              (Table.oid_ t) pid idx Hcm Hr) as (e & sys1 & txn1 & arenas1 & HE & [Hlen _] & Hfr & Hdelta).
  destruct (record_versions sys sys1 txn txn1 arenas arenas1 arrays recs e UPDATE page id arr idx _ hist Hok Hva Hfr Hi Hch)
    as (arr' & sys2 & page2 & arrays' & n & HG & Hok2 & Hva2 & Hin & Hn & Hnz & Hdata & Helem & Hget & Hch2 & Hf2 & Hse & Hsame & Hsub & Hoth & Hb2 & _).
  unfold Table.UpdateUndo. rewrite Gi, Gp. cbv zeta. rewrite HE, bind_Ret. cbv beta iota. fold id. rewrite HG, Helem, bind_Ret.
  set (p := head (s_heap sys) arr idx) in *. set (h2 := s_heap sys2) in *.
  assert (Htxn1 : txn_ok txn1 arenas1) by apply Hfr.
  assert (Hch2' : chain s h2 (e :: recs) p (row (data_ page) idx) hist).
  { eapply chain_same; [|intros; by right|exact Hch2]. by intros. }
  destruct (chain_head_test h2 arenas1 arrays' (e :: recs) p _ hist txn1 Hok2 Htxn1 Hch2') as [Hz Hcf].
  rewrite (fr_start _ _ _ _ _ _ _ _ _ _ _ Hfr), (fr_finish _ _ _ _ _ _ _ _ _ _ _ Hfr) in Hcf.
  assert (Htest : negb (p =? 0) && (HasConflict h2 txn1 p || PaxLayout.IsDeleted (data_ page) idx) =
                  refused txn (PaxLayout.IsDeleted (data_ page) idx) hist).
  { rewrite Hz, Hcf. by destruct hist. }
  unfold Table.cas_fuel. cbn [Table.update_loop]. fold h2. rewrite Hget, Hdata, Htest.
  destruct (fr_pos _ _ _ _ _ _ _ _ _ _ _ Hfr) as [E1 E2].
  destruct (refused txn _ hist) eqn:Href.
  - destruct (invalidate h2 arenas1 arrays' recs e Hok2 (fr_disj _ _ _ _ _ _ _ _ _ _ _ Hfr) E2) as (Hok5 & Hs5 & Hb5).
    destruct (op_post_intro sys sys2 (UndoRecord.Invalidate h2 e.1) txn txn1 page2 id arenas arenas1 arrays arrays' recs e UPDATE arr' n idx sys1)
      as [Hpost Hkeep]; try done; [by intros; apply Hs5; left|intros; apply (Get_array_same _ _ _ k); [apply Hs5; by right|lia|lia]|].
    rewrite bind_Ret. eexists e.1, _, _, _, _, _, _, arr'. split; [done|]. split; [by apply Hpost|].
    cbn [data_]. split; [done|]. split; [done|]. cbn [set_heap s_heap].
    assert (Hhd : head (UndoRecord.Invalidate h2 e.1) arr' idx = p).
    { unfold head. rewrite (proj2 (Z.eqb_neq _ _)) by done. rewrite <- Hget.
      apply (Get_array_same _ _ _ n); [apply Hs5; by right|lia|lia]. }
    rewrite Hhd. by apply Hkeep.
  - assert (Hd2 : chunk_at s (UndoRecord.delta_chunk h2 e.1) ids sizes offs total).
    { destruct e as [r k]. refine (proj1 (chunk_at_same s _ _ ids sizes offs total _ Hdelta)). intros x Hx.
      apply (delta_chunk_same _ _ r k); [exact Hse|]. cbn [fst snd] in *. lia. }
    destruct (UpdateSingle_ok s psizes (Table.layout_ t) Hl Hmax Hs c _ ids sizes offs total (data_ page) idx Hc Hd2 Hi)
      as (delta' & data' & HU & Hd' & Hv' & Hout & Hrow & Hfrm).
    rewrite HU, bind_Ret. cbv zeta.
    destruct (UpdateSingle_bytes _ _ _ _ _ _ _ _ HU Hcm) as [Hmd Hmp]; [intros x; unfold UndoRecord.delta_chunk; rewrite rd_shift; apply Hok2|done|].
    assert (Hhe : 0 ≤ header_end ids) by (unfold header_end; lia).
    destruct (delta_write_back h2 e.1 total delta') as (Hoff3 & Hview & Hm3); [intros x Hx; apply Hout; lia|].
    set (h3 := set_mem h2 _) in *.
    assert (Hf3 : rec_fields h3 e.1 UPDATE (finish_time_ txn) 0).
    { eapply (rec_fields_same h2 h3 e.1 40); [|lia|exact Hf2]. apply (same_off_on _ _ _ _ Hoff3). right. cbn [fst snd]. lia. }
    assert (Hp64 : 0 ≤ p < 2 ^ 64) by (rewrite <- Hget; apply (load_range 8), Hok2).
    destruct (publish h2 arenas1 arrays' recs e UPDATE (finish_time_ txn) arr' n idx p h3) as
      (h5 & HC & Hok5 & Hf5 & Hg5 & Hs5 & Hx5 & Hsl5 & Hb5); try done; [by apply Hfr|lia|lia|by apply Hm3| |].
    { eapply same_off_weaken; [exact Hoff3|]. unfold inside. cbn [fst snd]. lia. }
    unfold no_others. rewrite HC. cbv iota. rewrite bind_Ret.
    destruct (op_post_intro sys sys2 h5 txn txn1 page2 id arenas arenas1 arrays arrays' recs e UPDATE arr' n idx sys1)
      as [Hpost Hkeep]; try done.
    eexists e.1, _, _, _, _, _, _, arr'. split; [done|]. split; [by apply Hpost|]. cbn [data_]. split; [done|].
    split; [done|]. split; [done|]. cbn [set_heap s_heap].
    assert (Hhd : head h5 arr' idx = e.1) by (unfold head; by rewrite (proj2 (Z.eqb_neq _ _))).
    rewrite Hhd. cbn [chain v_addr v_type v_ts v_before]. split; [done|]. exists e.2, p.
    split_and!; [by destruct e; left|unfold UndoRecord.sizeof; lia|done| |by apply Hkeep].
    cbn. destruct (chunk_at_same s delta' (UndoRecord.delta_chunk h5 e.1) ids sizes offs total) as [K1 K2]; [|done|].
    { intros x Hx. rewrite <- Hview. unfold UndoRecord.delta_chunk, UndoRecord.GetDelta, UndoRecord.sizeof.
      rewrite !rd_shift. apply Hx5. lia. }
    exists ids, sizes, offs, total. rewrite K2, Hv'. unfold UndoRecord.sizeof.
    split_and!; [lia|done|done|]. intros id' Hid'. symmetry. apply Hfrm; [by left|done].
Qed.

Lemma max_rows_bound : max_rows psizes ≤ 65504.
Proof.
  destruct Hl as [_ _ Hp]. apply columns_placed_hi in Hp; [|done]. unfold bitmap_end, HEADER_SIZE, DB7_PAGE_SIZE in *.
  pose proof (Z.div_mod (max_rows psizes + 7) 8). pose proof (Z.mod_pos_bound (max_rows psizes + 7) 8). lia.
Qed.

(** Both deletes: a new record, the version array, and the loop with a test of
    the newest version. *)
Definition delete_with (stop : TransactionContext → heap → Z → bool) (sys : system) (txn : TransactionContext) (pid idx : Z) (page : Page)
  : outcome (bool * system * TransactionContext * Page) :=
  '(record, s, txn) ← UndoRecordForDelete try_dequeue sys txn (Table.oid_ t) pid idx;
  let '(versions, s, page) := GetVersions s page (mkPageIdentifier (Table.oid_ t) pid) (Table.GetMaxRowCount t) in
  slot ← VersionPtr.elem (s_heap s) versions idx;
  '(ok, h) ← Table.delete_loop no_others Table.cas_fuel 0 (s_heap s) txn slot record (stop txn);
  Ret (ok, set_heap s h, txn, page).

Lemma delete_with_ok stop refuse sys txn arenas arrays recs page pid idx arr hist :
  let id := mkPageIdentifier (Table.oid_ t) pid in
  (∀ h txn1 arenas1 arrays1 recs1, heap_ok h arenas1 arrays1 recs1 → txn_ok txn1 arenas1 →
     start_time_ txn1 = start_time_ txn → finish_time_ txn1 = finish_time_ txn →
     chain s h recs1 (head (s_heap sys) arr idx) (row (data_ page) idx) hist →
     stop txn1 h (head (s_heap sys) arr idx) = refuse) →
  heap_ok (s_heap sys) arenas arrays recs → txn_ok txn arenas →
  versions_at arrays sys page id (max_rows psizes) arr → 0 ≤ idx < max_rows psizes → 0 ≤ pid < 2 ^ 32 →
  h_brk (s_heap sys) < 2 ^ 62 →
  segment_ready try_dequeue (s_heap sys) (s_pool sys) arenas 40 →
  chain s (s_heap sys) recs (head (s_heap sys) arr idx) (row (data_ page) idx) hist →
  ∃ r sys' txn' page' arenas' arrays' recs' arr',
    delete_with stop sys txn pid idx page = Ret (negb refuse, sys', txn', page') ∧
    (∀ page0, versions_ page0 = versions_ page' →
       op_post sys sys' txn txn' page0 id (max_rows psizes) arenas arenas' arrays arrays' recs recs' arr' idx) ∧
    data_ page' = data_ page ∧ (arr = 0 ∨ arr' = arr) ∧
    chain s (s_heap sys') recs' (head (s_heap sys') arr' idx) (row (data_ page) idx)
      (if refuse then hist else mkVersion r DELETE (finish_time_ txn) (row (data_ page) idx) :: hist).
Proof.
  intros id Hstop Hok Htxn Hva Hi Hpid Hbrk Hr Hch. pose proof max_rows_bound as Hmx.
  destruct (UndoRecordForDelete_ok try_dequeue sys txn arenas arrays recs Hok Htxn (Table.oid_ t) pid idx Hr)
    as (e & sys1 & txn1 & arenas1 & HE & Hlen & Hfr).
  destruct (record_versions sys sys1 txn txn1 arenas arenas1 arrays recs e DELETE page id arr idx _ hist Hok Hva Hfr Hi Hch)
    as (arr' & sys2 & page2 & arrays' & n & HG & Hok2 & Hva2 & Hin & Hn & Hnz & Hdata & Helem & Hget & Hch2 & Hf2 & Hse & Hsame & Hsub & Hoth & Hb2 & Harr).
  unfold delete_with. rewrite HE, bind_Ret. cbv beta iota. fold id. rewrite HG, Helem, bind_Ret.
  set (p := head (s_heap sys) arr idx) in *. set (h2 := s_heap sys2) in *.
  assert (Hch2' : chain s h2 (e :: recs) p (row (data_ page) idx) hist).
  { eapply chain_same; [|intros; by right|exact Hch2]. by intros. }
  pose proof (Hstop h2 txn1 _ _ _ Hok2 (fr_txn _ _ _ _ _ _ _ _ _ _ _ Hfr) (fr_start _ _ _ _ _ _ _ _ _ _ _ Hfr)
    (fr_finish _ _ _ _ _ _ _ _ _ _ _ Hfr) Hch2') as Hcf.
  unfold Table.cas_fuel. cbn [Table.delete_loop]. fold h2. rewrite Hget, Hcf.
  destruct (fr_pos _ _ _ _ _ _ _ _ _ _ _ Hfr) as [E1 E2].
  destruct refuse eqn:Href.
  - destruct (invalidate h2 arenas1 arrays' recs e Hok2 (fr_disj _ _ _ _ _ _ _ _ _ _ _ Hfr) E2) as (Hok5 & Hs5 & Hb5).
    destruct (op_post_intro sys sys2 (UndoRecord.Invalidate h2 e.1) txn txn1 page2 id arenas arenas1 arrays arrays' recs e DELETE arr' n idx sys1)
      as [Hpost Hkeep]; try done; [by intros; apply Hs5; left|intros; apply (Get_array_same _ _ _ k); [apply Hs5; by right|lia|lia]|].
    rewrite bind_Ret. eexists e.1, _, _, _, _, _, _, arr'. split; [done|]. split; [exact Hpost|]. split; [done|]. split; [exact Harr|].
    cbn [set_heap s_heap].
    assert (Hhd : head (UndoRecord.Invalidate h2 e.1) arr' idx = p).
    { unfold head. rewrite (proj2 (Z.eqb_neq _ _)) by done. rewrite <- Hget.
      apply (Get_array_same _ _ _ n); [apply Hs5; by right|lia|lia]. }
    rewrite Hhd. by apply Hkeep.
  - assert (Hp64 : 0 ≤ p < 2 ^ 64) by (rewrite <- Hget; apply (load_range 8), Hok2).
    destruct (publish h2 arenas1 arrays' recs e DELETE (finish_time_ txn) arr' n idx p h2) as
      (h5 & HC & Hok5 & Hf5 & Hg5 & Hs5 & Hx5 & Hsl5 & Hb5); try done; [by apply Hfr|lia|lia|by apply Hok2|].
    unfold no_others. rewrite HC. cbv iota. rewrite bind_Ret.
    destruct (op_post_intro sys sys2 h5 txn txn1 page2 id arenas arenas1 arrays arrays' recs e DELETE arr' n idx sys1)
      as [Hpost Hkeep]; try done.
    eexists e.1, _, _, _, _, _, _, arr'. split; [done|]. split; [exact Hpost|]. split; [done|]. split; [exact Harr|]. cbn [set_heap s_heap].
    assert (Hhd : head h5 arr' idx = e.1) by (unfold head; by rewrite (proj2 (Z.eqb_neq _ _))).
    rewrite Hhd. cbn [chain v_addr v_type v_ts v_before]. split; [done|]. exists e.2, p.
    split_and!; [by destruct e; left|unfold UndoRecord.sizeof; lia|done|done|by apply Hkeep].
Qed.

Lemma DeleteUndo_ok sys txn arenas arrays recs page pid idx arr hist :
  let id := mkPageIdentifier (Table.oid_ t) pid in
  let refuse := write_conflict (start_time_ txn) (finish_time_ txn) hist || PaxLayout.IsDeleted (data_ page) idx in
  heap_ok (s_heap sys) arenas arrays recs → txn_ok txn arenas →
  versions_at arrays sys page id (max_rows psizes) arr → 0 ≤ idx < max_rows psizes → 0 ≤ pid < 2 ^ 32 →
  h_brk (s_heap sys) < 2 ^ 62 →
  segment_ready try_dequeue (s_heap sys) (s_pool sys) arenas 40 →
  chain s (s_heap sys) recs (head (s_heap sys) arr idx) (row (data_ page) idx) hist →
  ∃ r sys' txn' page' arenas' arrays' recs' arr',
    Table.DeleteUndo try_dequeue no_others t sys txn (TupleId_make idx pid) page = Ret (negb refuse, sys', txn', page') ∧
    (∀ page0, versions_ page0 = versions_ page' →
       op_post sys sys' txn txn' page0 id (max_rows psizes) arenas arenas' arrays arrays' recs recs' arr' idx) ∧
    data_ page' = data_ page ∧
    chain s (s_heap sys') recs' (head (s_heap sys') arr' idx) (row (data_ page) idx)
      (if refuse then hist else mkVersion r DELETE (finish_time_ txn) (row (data_ page) idx) :: hist).
Proof.
  intros id refuse Hok Htxn Hva Hi Hpid Hbrk Hr Hch. pose proof max_rows_bound as Hmx.
  destruct (TupleId_roundtrip idx pid) as [Gi Gp]; [lia..|].
  destruct (delete_with_ok (λ txn h p, HasConflict h txn p || PaxLayout.IsDeleted (data_ page) idx) refuse
    sys txn arenas arrays recs page pid idx arr hist)
    as (r & sys' & txn' & page' & arenas' & arrays' & recs' & arr' & HD & Hpost & Hdata & _ & Hch'); try done.
  { intros h txn1 arenas1 arrays1 recs1 Hok1 Htxn1 E1 E2 Hc. unfold refuse. rewrite <- E1, <- E2.
    by destruct (chain_head_test h arenas1 arrays1 recs1 _ _ hist txn1 Hok1 Htxn1 Hc) as [_ ->]. }
  exists r, sys', txn', page', arenas', arrays', recs', arr'. split; [|done].
  rewrite <- HD. unfold Table.DeleteUndo, delete_with. rewrite Gi, Gp. cbv zeta.
  destruct (UndoRecordForDelete _ _ _ _ _ _) as [[[e s1] txn1]| | | |]; [|cbn [mbind outcome_bind]; reflexivity..]. rewrite !bind_Ret. cbv beta iota.
  assert (HG : data_ (GetVersions s1 page (mkPageIdentifier (Table.oid_ t) pid) (Table.GetMaxRowCount t)).2 = data_ page).
  { unfold GetVersions. destruct (versions_ page =? 0); [|done]. by destruct (PageVersionManager.GetCreateVersions _ _ _ _) as [[? ?] ?]. }
  destruct (GetVersions s1 page _ _) as [[a s2] p2]. cbn [snd] in HG. rewrite HG. reflexivity.
Qed.

(** Refused for a newest version of another transaction or a deletion. *)
Definition raw_refused (txn : TransactionContext) (hist : list version) : bool :=
  match hist with
  | [] => false
  | v :: _ => write_conflict (start_time_ txn) (finish_time_ txn) hist || bool_decide (v_type v = DELETE)
  end.

(** [DeleteUndoRaw] works on the version table and not on the page. *)
Lemma DeleteUndoRaw_with sys txn pid idx data :
  0 ≤ idx < 2 ^ 32 → 0 ≤ pid < 2 ^ 32 →
  Table.DeleteUndoRaw try_dequeue no_others t sys txn (TupleId_make idx pid) =
  '(ok, s, txn, _) ← delete_with (λ txn h p, negb (p =? 0) && (HasConflict h txn p || UndoRecord.IsDeleted h p)) sys txn pid idx
    (mkPageFrame 0 data);
  Ret (ok, s, txn).
Proof.
  intros Hi Hp. destruct (TupleId_roundtrip idx pid) as [Gi Gp]; [done..|].
  unfold Table.DeleteUndoRaw, delete_with. rewrite Gi, Gp. cbv zeta.
  destruct (UndoRecordForDelete _ _ _ _ _ _) as [[[e s1] txn1]| | | |]; [|cbn [mbind outcome_bind]; reflexivity..]. rewrite !bind_Ret. cbv beta iota.
  unfold GetVersionsRaw, GetVersions. cbn [versions_ Z.eqb].
  destruct (PageVersionManager.GetCreateVersions _ _ _ _) as [[a h] vt]. cbn [data_].
  destruct (VersionPtr.elem _ _ _) as [slot| | | |]; [|cbn [mbind outcome_bind]; reflexivity..]. rewrite !bind_Ret.
  destruct (Table.delete_loop _ _ _ _ _ _ _ _) as [[ok h']| | | |]; cbn [mbind outcome_bind]; reflexivity.
Qed.

Lemma DeleteUndoRaw_ok sys txn arenas arrays recs page pid idx arr hist :
  let id := mkPageIdentifier (Table.oid_ t) pid in
  let refuse := raw_refused txn hist in
  heap_ok (s_heap sys) arenas arrays recs → txn_ok txn arenas →
  versions_at arrays sys page id (max_rows psizes) arr → 0 ≤ idx < max_rows psizes → 0 ≤ pid < 2 ^ 32 →
  h_brk (s_heap sys) < 2 ^ 62 →
  segment_ready try_dequeue (s_heap sys) (s_pool sys) arenas 40 →
  chain s (s_heap sys) recs (head (s_heap sys) arr idx) (row (data_ page) idx) hist →
  ∃ r sys' txn' arenas' arrays' recs' arr',
    Table.DeleteUndoRaw try_dequeue no_others t sys txn (TupleId_make idx pid) = Ret (negb refuse, sys', txn') ∧
    op_post sys sys' txn txn' page id (max_rows psizes) arenas arenas' arrays arrays' recs recs' arr' idx ∧
    chain s (s_heap sys') recs' (head (s_heap sys') arr' idx) (row (data_ page) idx)
      (if refuse then hist else mkVersion r DELETE (finish_time_ txn) (row (data_ page) idx) :: hist).
Proof.
  intros id refuse Hok Htxn [V1 V2 V3] Hi Hpid Hbrk Hr Hch. pose proof max_rows_bound as Hmx.
  set (page0 := mkPageFrame 0 (data_ page)).
  destruct (delete_with_ok (λ txn h p, negb (p =? 0) && (HasConflict h txn p || UndoRecord.IsDeleted h p)) refuse
    sys txn arenas arrays recs page0 pid idx arr hist)
    as (r & sys' & txn' & page' & arenas' & arrays' & recs' & arr' & HD & Hpost & _ & Harr & Hch'); try done.
  { intros h txn1 arenas1 arrays1 recs1 Hok1 Htxn1 E1 E2 Hc.
    destruct (chain_head_test h arenas1 arrays1 recs1 _ _ hist txn1 Hok1 Htxn1 Hc) as [-> ->]. rewrite E1, E2.
    unfold refuse, raw_refused. destruct hist as [|v hist]; [done|]. rewrite bool_decide_eq_false_2 by done. cbn [negb andb]. f_equal.
    destruct Hc as (-> & n & next & _ & _ & (F1 & _) & _). unfold UndoRecord.IsDeleted. rewrite F1. by destruct (v_type v). }
  { split; [done|by left|done]. }
  exists r, sys', txn', arenas', arrays', recs', arr'. split; [|split; [|exact Hch']].
  - rewrite (DeleteUndoRaw_with sys txn pid idx (data_ page)) by lia. fold page0. by rewrite HD.
  - destruct (Hpost page' eq_refl) as [P1 P2 P3 P4 P5 [W1 W2 W3] P7 P8 P9]. split; try done. split; [done| |done].
    destruct V2 as [V2|V2]; [by left|]. destruct (decide (arr = 0)) as [->|Hne]; [by left|right]. destruct Harr; congruence.
Qed.

(** [InsertUndo] starts the chain of a new row. *)
Lemma InsertUndo_ok sys txn arenas arrays recs page pid idx arr :
  let id := mkPageIdentifier (Table.oid_ t) pid in
  heap_ok (s_heap sys) arenas arrays recs → txn_ok txn arenas →
  versions_at arrays sys page id (max_rows psizes) arr → 0 ≤ idx < max_rows psizes → 0 ≤ pid < 2 ^ 32 →
  h_brk (s_heap sys) < 2 ^ 62 →
  segment_ready try_dequeue (s_heap sys) (s_pool sys) arenas 40 →
  ∃ r sys' txn' page' arenas' arrays' recs' arr',
    Table.InsertUndo try_dequeue t sys txn (TupleId_make idx pid) page = Ret (sys', txn', page') ∧
    (∀ page0, versions_ page0 = versions_ page' →
       op_post sys sys' txn txn' page0 id (max_rows psizes) arenas arenas' arrays arrays' recs recs' arr' idx) ∧
    data_ page' = data_ page ∧
    ∀ cur before, chain s (s_heap sys') recs' (head (s_heap sys') arr' idx) cur
      [mkVersion r INSERT (finish_time_ txn) before].
Proof.
  intros id Hok Htxn Hva Hi Hpid Hbrk Hr. pose proof max_rows_bound as Hmx.
  destruct (TupleId_roundtrip idx pid) as [Gi Gp]; [lia..|].
  destruct (UndoRecordForInsert_ok try_dequeue sys txn arenas arrays recs Hok Htxn (Table.oid_ t) pid idx Hr)
    as (e & sys1 & txn1 & arenas1 & HE & Hlen & Hfr).
  destruct Hfr as [R1 R2 R3 R4 R5 R6 R7 R8 R9 R10 R11 R13] eqn:Efr.
  assert (Hva1 : versions_at arrays sys1 page id (max_rows psizes) arr).
  { destruct Hva as [V1 V2 V3]. split; [by rewrite R9|done|done]. }
  unfold Table.InsertUndo, Table.GetMaxRowCount, PaxLayout.GetMaxRowCount. rewrite (lo_max _ _ Hl), Gi, Gp. cbv zeta.
  rewrite HE, bind_Ret. cbv beta iota. fold id.
  destruct (GetVersions_ok sys1 arenas1 arrays (e :: recs) page id (max_rows psizes) arr R1 Hva1) as
    (arr' & sys2 & page2 & arrays' & n & HG & Hok2 & Hva2 & Hin & Hn & Hd & Hsub & Hsame & Hhead & Hoth & Hpool & Hbrk2); [lia|].
  rewrite HG. rewrite (elem_ok _ _ _ _ Hok2 arr' n idx Hin), bind_Ret by lia.
  set (h2 := s_heap sys2) in *.
  assert (Hnz : arr' ≠ 0).
  { destruct (ho_arrays _ _ _ _ Hok2 _ Hin) as [(B1 & _) _]. cbn [fst] in B1. lia. }
  destruct (rec_range _ _ _ _ R1 e ltac:(by left)) as (_ & R12 & _).
  destruct (slot_store h2 arenas1 arrays' (e :: recs) Hok2 arr' n idx e.1 Hin) as (Hok5 & Hg5 & Hoth5 & Hsame5); [lia|lia|lia|].
  set (h5 := VersionPtr.Set_ h2 (arr' + 8 * idx) e.1) in *.
  assert (Hsame' : ∀ f, f ∈ recs ∨ f ∈ arrays → same_on (h_mem (s_heap sys)) (h_mem h2) f).
  { intros f Hf. eapply same_on_trans; [by apply R7|]. apply Hsame. destruct Hf; [left; by right|by right]. }
  destruct (op_post_intro sys sys2 h5 txn txn1 page2 id arenas arenas1 arrays arrays' recs e INSERT arr' n idx sys1)
    as [Hpost Hkeep]; try done.
  { intros id' Hid'. rewrite Hoth by done. by rewrite R9. }
  { intros f Hf. apply Hsame5. by right. }
  { fold h2. lia. }
  eexists e.1, _, _, _, _, _, _, arr'. split; [done|]. split; [exact Hpost|]. split; [done|].
  intros cur before. cbn [set_heap s_heap].
  assert (Hhd : head h5 arr' idx = e.1) by (unfold head; by rewrite (proj2 (Z.eqb_neq _ _))).
  rewrite Hhd. cbn [chain v_addr v_type v_ts v_before]. split; [done|]. exists e.2, 0.
  split_and!; [by destruct e; left|unfold UndoRecord.sizeof; lia| |done|done].
  destruct e as [r k]. cbn [fst snd] in *. eapply (rec_fields_same h2 h5 r k); [apply Hsame5; by left|lia|].
  eapply (rec_fields_same (s_heap sys1) h2 r k); [apply Hsame; left; by left|lia|done].
Qed.

(** ** SelectIntoChunk *)

(** Whether the page or the newest version says the row is deleted. *)
Definition head_deleted (page_deleted : bool) (hist : list version) : bool :=
  match hist with [] => page_deleted | v :: _ => bool_decide (v_type v = DELETE) end.

(** What a transaction reads: its own last write, or its snapshot. *)
Definition read_row (txn : TransactionContext) (cur : rowval) (hist : list version) : option rowval :=
  match hist with
  | [] => Some cur
  | v :: _ => if v_ts v =? finish_time_ txn then Some cur else read_at (start_time_ txn) cur hist
  end.

Lemma SelectIntoChunk_ok sys txn arenas arrays recs page pid idx arr c ids sizes offs total hist :
  let id := mkPageIdentifier (Table.oid_ t) pid in
  let del := head_deleted (PaxLayout.IsDeleted (data_ page) idx) hist in
  heap_ok (s_heap sys) arenas arrays recs → 
  versions_at arrays sys page id (max_rows psizes) arr → 0 ≤ idx < max_rows psizes →
  chunk_at s c ids sizes offs total →
  chain s (s_heap sys) recs (head (s_heap sys) arr idx) (row (data_ page) idx) hist →
  ∃ st c' sys' page', Table.SelectIntoChunk t sys txn idx pid page c = Ret (st, c', sys', page') ∧
    data_ page' = data_ page ∧ chunk_at s c' ids sizes offs total ∧
    match read_row txn (row (data_ page) idx) hist with
    | None => st = NotVisible
    | Some value => st = (if del then Deleted else Visible) ∧ vals c' offs sizes = value <$> ids
    end.
Proof.
  intros id del Hok Hva Hi Hc Hch. unfold Table.SelectIntoChunk.
  destruct (ReadSingleIntoChunk_ok s psizes (Table.layout_ t) Hl Hmax Hs c ids sizes offs total (data_ page) idx Hc Hi)
    as (c1 & HR & Hc1 & Hv1). rewrite HR, bind_Ret. unfold Table.GetMaxRowCount, PaxLayout.GetMaxRowCount. rewrite (lo_max _ _ Hl).
  rewrite DB7_ASSERT_true, bind_Ret by (apply Z.ltb_lt; lia). fold id.
  destruct (GetVersions_ok sys arenas arrays recs page id (max_rows psizes) arr Hok Hva) as
    (arr' & sys2 & page2 & arrays' & n & HG & Hok2 & Hva2 & Hin & Hn & Hd & Hsub & Hsame & Hhead & Hoth & Hpool & Hbrk2); [lia|].
  rewrite HG. cbv zeta. rewrite (elem_ok _ _ _ _ Hok2 arr' n idx Hin), bind_Ret by lia.
  assert (Hnz : arr' ≠ 0).
  { destruct (ho_arrays _ _ _ _ Hok2 _ Hin) as [(B1 & _) _]. cbn [fst] in B1. lia. }
  assert (Hp : VersionPtr.Get (s_heap sys2) (arr' + 8 * idx) = head (s_heap sys) arr idx).
  { rewrite <- Hhead by done. unfold head. by rewrite (proj2 (Z.eqb_neq _ _)). }
  rewrite Hp, Hd. set (p := head (s_heap sys) arr idx) in *. set (h2 := s_heap sys2) in *.
  assert (Hch2 : chain s h2 recs p (row (data_ page) idx) hist).
  { eapply chain_same; [|by intros|exact Hch]. intros f Hf. apply Hsame. by left. }
  assert (Hdel : (if p =? 0 then PaxLayout.IsDeleted (data_ page) idx else UndoRecord.IsDeleted h2 p) = del ∧
    ((p =? 0) || (UndoRecord.GetTimestamp h2 p =? FinishTime txn)) =
      match hist with [] => true | v :: _ => v_ts v =? finish_time_ txn end).
  { destruct hist as [|v hist]; cbn [chain] in Hch2; [by rewrite Hch2|].
    destruct Hch2 as (Hpv & k & next & Hin2 & _ & (F1 & F2 & _) & _).
    destruct (rec_range _ _ _ _ Hok2 _ Hin2) as (B1 & _). cbn [fst] in B1. rewrite (proj2 (Z.eqb_neq p 0)) by lia.
    unfold UndoRecord.IsDeleted. rewrite F1, F2. cbn. split; [|done]. by destruct (v_type v). }
  destruct Hdel as [-> ->]. unfold read_row. destruct hist as [|v hist].
  - eexists _, c1, sys2, page2. done.
  - destruct (v_ts v =? finish_time_ txn); [eexists _, c1, sys2, page2; done|].
    destruct (select_loop_ok s t (Table.chain_fuel h2) h2 arenas arrays' recs (StartTime txn) p del c1 ids sizes offs total _ _
                eq_refl Hok2 Hch2 Hc1 Hv1) as (st & c2 & HS & Hc2 & Hres); [by eapply chain_fuel_ok|].
    rewrite HS, bind_Ret. exists st, c2, sys2, page2. done.
Qed.
End Ops.
