(* ===== verification/CommitFacts.v ===== *)
(** * Facts on commit: the undo buffer iterator and the timestamps it writes *)

From stdpp Require Import strings.
From S2P Require Import Prelude Bytes Shared Memory AccessTypes DataChunk ChunkUtils.
From S2P Require Import Arena Undo Redo Txn HeapFacts UndoFacts Mvcc.
Import UndoRecord UndoBuffer.

(** ** Stamping a list of records *)

Definition stamps (commit : Z) (h : heap) (l : list Z) : heap := foldl (λ h r, SetTimestamp h r commit) h l.

Section Stamps.
Context (arenas : list Z) (arrays recs : list extent) (commit : Z) (Hc : 0 ≤ commit < 2 ^ 64).

Definition are_records (l : list Z) : Prop := ∀ r, r ∈ l → ∃ n, (r, n) ∈ recs ∧ 40 ≤ n.

Lemma stamp_ok h r n :
  heap_ok h arenas arrays recs → (r, n) ∈ recs → 40 ≤ n →
  let h' := SetTimestamp h r commit in
  heap_ok h' arenas arrays recs ∧ same_off (h_mem h) (h_mem h') (r + 16, 8).
Proof.
  intros Hok Hin Hn h'. assert (Hoff : same_off (h_mem h) (h_mem h') (r + 16, 8)) by (apply hstore_off; cbn [fst snd]; lia).
  split; [|done]. apply (heap_ok_write h arenas arrays recs Hok h' (r, n)); [by left|done|done| |].
  - apply hstore_ok, Hok.
  - eapply same_off_weaken; [exact Hoff|]. unfold inside. cbn [fst snd]. lia.
Qed.

Lemma stamps_ok h l :
  heap_ok h arenas arrays recs → are_records l →
  heap_ok (stamps commit h l) arenas arrays recs ∧
  (∀ x, (∀ r, r ∈ l → x < r + 16 ∨ r + 24 ≤ x) → rd (h_mem (stamps commit h l)) x = rd (h_mem h) x) ∧
  (∀ r n, (r, n) ∈ recs → 40 ≤ n → GetTimestamp (stamps commit h l) r = if decide (r ∈ l) then commit else GetTimestamp h r).
Proof.
  revert h; induction l as [|a l IH]; intros h Hok Hl; cbn [stamps foldl].
  { split_and!; [done|done|]. intros r n _ _. rewrite decide_False; [done|]. apply not_elem_of_nil. }
  destruct (Hl a) as (k & Ha & Hk); [by left|]. destruct (stamp_ok h a k Hok Ha Hk) as [Hok1 Hoff1].
  destruct (IH (SetTimestamp h a commit) Hok1) as (I1 & I2 & I3); [intros r Hr; apply Hl; by right|].
  fold (stamps commit (SetTimestamp h a commit) l) in *. split_and!; [done| |].
  - intros x Hx. rewrite I2 by (intros r Hr; apply Hx; by right). apply Hoff1. cbn [fst snd].
    destruct (Hx a); [by left|lia|lia].
  - intros r n Hr Hn. rewrite (I3 r n Hr Hn). destruct (decide (r ∈ l)) as [Hin|Hin].
    + by rewrite decide_True by (by right).
    + destruct (decide (r = a)) as [->|Hne].
      * rewrite decide_True by (by left). unfold GetTimestamp, SetTimestamp. rewrite hload_hstore_same. by apply Z.mod_small.
      * rewrite decide_False by (rewrite not_elem_of_cons; done). unfold GetTimestamp, SetTimestamp. apply hload_hstore_disj.
        destruct (ho_apart _ _ _ _ Hok _ _ Hr Ha) as [E|D]; [congruence|]. unfold disj in D. cbn [fst snd] in D. lia.
Qed.

(** The bytes of a record but its timestamp. *)
Lemma stamps_record h l r n x :
  heap_ok h arenas arrays recs → are_records l → (r, n) ∈ recs → 40 ≤ n →
  r ≤ x < r + n → x < r + 16 ∨ r + 24 ≤ x → rd (h_mem (stamps commit h l)) x = rd (h_mem h) x.
Proof.
  intros Hok Hl Hin Hn Hx Ho. destruct (stamps_ok h l Hok Hl) as (_ & I2 & _). apply I2.
  intros a Ha. destruct (Hl a Ha) as (k & Hk & Hk40).
  destruct (ho_apart _ _ _ _ Hok _ _ Hin Hk) as [E|D]; [by injection E as -> _|].
  unfold disj in D. cbn [fst snd] in D. lia.
Qed.

Lemma stamps_chain s h l p cur hist :
  heap_ok h arenas arrays recs → are_records l → chain s h recs p cur hist →
  chain s (stamps commit h l) recs p cur
    ((λ v, mkVersion (v_addr v) (v_type v) (if decide (v_addr v ∈ l) then commit else v_ts v) (v_before v)) <$> hist).
Proof.
  intros Hok Hl. revert p cur; induction hist as [|v hist IH]; intros p cur; [done|]. rewrite fmap_cons. cbn [chain].
  intros (-> & n & next & Hin & Hn & (F1 & F2 & F3) & Hb & Hch). cbn [v_addr v_type v_ts v_before].
  unfold sizeof in Hn. split; [done|]. exists n, next. split_and!; [done|done| | |by apply IH].
  - destruct (stamps_ok h l Hok Hl) as (_ & _ & I3). unfold rec_fields. rewrite (I3 _ n Hin Hn), F2.
    unfold GetType, GetNext in *. split_and!; [|done|].
    + rewrite <- F1. f_equal. apply load_ext. intros x Hx. apply (stamps_record h l (v_addr v) n); [done|done|done|done|lia|lia].
    + rewrite <- F3. apply load_ext. intros x Hx. apply (stamps_record h l (v_addr v) n); [done|done|done|done|lia|lia].
  - unfold before_ok in *. cbn [v_type v_before]. destruct (v_type v); try done.
    destruct Hb as (ids & sizes & offs & total & Ht & Hk & Hv & Hb). exists ids, sizes, offs, total.
    destruct (chunk_at_same s (delta_chunk h (v_addr v)) (delta_chunk (stamps commit h l) (v_addr v)) ids sizes offs total) as [K1 K2]; [|done|].
    { intros x Hx. unfold delta_chunk, GetDelta, sizeof in *. rewrite !rd_shift.
      apply (stamps_record h l (v_addr v) n); [done|done|done|done|lia|lia]. }
    rewrite K2. done.
Qed.
End Stamps.

(** ** The iterator *)

Section Iterator.
Context (arenas : list Z) (arrays recs : list extent) (commit : Z) (Hc : 0 ≤ commit < 2 ^ 64).

(** The records an iterator goes through. *)
Fixpoint iter_path (h : heap) (u : UndoBuffer) (it : Iterator) (l : list Z) : Prop :=
  match l with
  | [] => it = end_ u
  | r :: l => it ≠ end_ u ∧ deref u it = Ret r ∧ 0 ≤ it.2 ≤ 4056 ∧ (∃ n, (r, n) ∈ recs ∧ 40 ≤ n) ∧
      (∃ a, a ∈ arenas ∧ buffers_ u !! it.1 = Some a) ∧
      ∃ it', next h u it = Ret it' ∧ iter_path h u it' l
  end.

Lemma next_stamp h u it r k it' a n :
  heap_ok h arenas arrays recs → (r, k) ∈ recs → 40 ≤ k →
  buffers_ u !! it.1 = Some a → a ∈ arenas → (a + it.2, n) ∈ recs → 40 ≤ n →
  next h u it = Ret it' → next (SetTimestamp h r commit) u it = Ret it'.
Proof.
  intros Hok Hr Hk Hseg Ha Hin Hn H. unfold next in *. rewrite Hseg in *. invert_bind H. rewrite Hm, bind_Ret.
  destruct (stamp_ok arenas arrays recs commit h r k Hok Hr Hk) as [_ Hoff]. cbn in Hoff.
  assert (Es : FixedBumpArena.size_ (SetTimestamp h r commit) a = FixedBumpArena.size_ h a).
  { apply (hload_same _ _ _ (size_ext a)); [|unfold size_ext; cbn [fst snd]; lia|unfold size_ext; cbn [fst snd]; lia].
    apply (same_off_on _ _ _ _ Hoff). pose proof (rec_size_field h arenas arrays recs Hok _ _ Hr Ha) as D.
    unfold disj in *. cbn [fst snd] in *. lia. }
  assert (Eg : Chunk.GetSize (delta_chunk (SetTimestamp h r commit) (a + it.2)) = Chunk.GetSize (delta_chunk h (a + it.2))).
  { apply load_ext. intros x Hx. unfold delta_chunk, GetDelta, sizeof. rewrite !rd_shift. apply Hoff. cbn [fst snd].
    destruct (ho_apart _ _ _ _ Hok _ _ Hr Hin) as [E|D]; [injection E as -> _; lia|]. unfold disj in D. cbn [fst snd] in D. lia. }
  cbv zeta. rewrite Eg, Es. exact H.
Qed.

Lemma iter_path_stamp h u it l r k :
  heap_ok h arenas arrays recs → (r, k) ∈ recs → 40 ≤ k →
  iter_path h u it l → iter_path (SetTimestamp h r commit) u it l.
Proof.
  intros Hok Hr Hk. revert it; induction l as [|x l IH]; intros it; cbn [iter_path]; [done|].
  intros (H1 & H2 & H3 & (n & Hn & Hn40) & (a & Ha & Hseg) & it' & Hnx & Hp).
  assert (E : x = a + it.2) by (unfold deref in H2; rewrite Hseg in H2; congruence). subst x.
  split_and!; [done|done|lia|lia|eauto|eauto|]. exists it'. split; [|by apply IH].
  by apply (next_stamp h u it r k it' a n).
Qed.

Lemma iter_path_records h u it l : iter_path h u it l → are_records recs l.
Proof.
  revert it; induction l as [|x l IH]; intros it; cbn [iter_path]; [by intros _ r ?%not_elem_of_nil|].
  intros (_ & _ & _ & Hn & _ & it' & _ & Hp) r [->|Hr]%elem_of_cons; [done|by eapply IH].
Qed.

(** The loop stamps every record of the path and ends. *)
Lemma restamp_loop_ok fuel h u it l :
  heap_ok h arenas arrays recs → iter_path h u it l → (length l < fuel)%nat →
  restamp_loop fuel h u it commit = Ret (stamps commit h l).
Proof.
  revert h it l; induction fuel as [|fuel IH]; intros h it l Hok Hp Hf; [lia|]. cbn [restamp_loop].
  destruct l as [|r l]; cbn [iter_path] in Hp.
  - by rewrite bool_decide_true.
  - destruct Hp as (H1 & H2 & H3 & (n & Hn & Hn40) & (a & Ha & Hseg) & it' & Hnx & Hp).
    assert (E : r = a + it.2) by (unfold deref in H2; rewrite Hseg in H2; congruence). subst r.
    rewrite bool_decide_false by done. rewrite H2, bind_Ret, in_bounds_true, bind_Ret.
    2: { lia. }
    2: { unfold FixedBumpArena.sizeof, FixedBumpArena.ALLOCATOR_BLOCK_SIZE. lia. }
    cbv zeta. destruct (stamp_ok arenas arrays recs commit h _ n Hok Hn Hn40) as [Hok1 _]. cbn in Hok1.
    rewrite (next_stamp h u it _ n it' a n) by done. rewrite bind_Ret.
    cbn [length] in Hf. rewrite (IH _ it' l); [done|done| |lia]. by eapply iter_path_stamp.
Qed.

(** ** Buffers filled by one transaction *)

(** The records of a segment from [off] on. *)
Fixpoint seg_recs (off : Z) (lens : list Z) : list extent :=
  match lens with
  | [] => []
  | n :: lens => (off, n) :: seg_recs (off + n) lens
  end.

Definition rec_len_ok (h : heap) (e : extent) : Prop :=
  e ∈ recs ∧ 40 ≤ e.2 ∧ sizeof + Chunk.GetSize (delta_chunk h e.1) = e.2.

(** [next] reads the size of a chunk after the 40 bytes of the record, which
    must still be in the arena. *)
Definition size_in_arena (a : Z) (e : extent) : Prop := e.1 + 48 ≤ a + FixedBumpArena.sizeof.

(** The segment is full of records of this buffer. *)
Definition segment_filled (h : heap) (a : Z) (lens : list Z) : Prop :=
  lens ≠ [] ∧ a ∈ arenas ∧ zsum lens = FixedBumpArena.size_ h a ∧ Forall (λ e, e ∈ recs ∧ 40 ≤ e.2) (seg_recs a lens).

(** [next] takes the iterator from the record to the one after it: the size it
    reads after the 40 bytes is the rest of the record.  An update record holds its
    chunk there.  INSERT and DELETE records end at the 40 bytes: for them it says
    that the word at 44, which is not theirs, is zero. *)
Definition next_lands (h : heap) (a : Z) (e : extent) : Prop :=
  sizeof + Chunk.GetSize (delta_chunk h e.1) = e.2 ∧ size_in_arena a e.

(** Both together. *)

Definition segment_ok (h : heap) (a : Z) (lens : list Z) : Prop :=
  lens ≠ [] ∧ a ∈ arenas ∧ zsum lens = FixedBumpArena.size_ h a ∧ Forall (rec_len_ok h) (seg_recs a lens) ∧
  Forall (size_in_arena a) (seg_recs a lens).

Lemma segment_ok_split h a lens :
  segment_filled h a lens → Forall (next_lands h a) (seg_recs a lens) → segment_ok h a lens.
Proof.
  intros (S1 & S2 & S3 & S4) HN. split_and!; [done|done|done| |].
  - apply Forall_forall. intros e He. rewrite Forall_forall in S4, HN. destruct (S4 e He), (HN e He). done.
  - eapply Forall_impl; [exact HN|]. by intros e [_ ?].
Qed.

Lemma segments_ok_split h bufs segs :
  Forall2 (segment_filled h) bufs segs → Forall2 (λ a lens, Forall (next_lands h a) (seg_recs a lens)) bufs segs →
  Forall2 (segment_ok h) bufs segs.
Proof.
  intros H1 H2. induction H1 as [|a lens bufs segs H H1 IH]; [constructor|]. apply Forall2_cons in H2 as [H2 H3].
  constructor; [by apply segment_ok_split|by apply IH].
Qed.

Lemma segment_ok_parts h a lens :
  segment_ok h a lens → segment_filled h a lens ∧ Forall (next_lands h a) (seg_recs a lens).
Proof.
  intros (S1 & S2 & S3 & S4 & S5). split; [split_and!; [done|done|done|]|].
  - eapply Forall_impl; [exact S4|]. by intros e (? & ? & _).
  - apply Forall_forall. intros e He. rewrite Forall_forall in S4, S5. destruct (S4 e He) as (_ & _ & ?). split; [done|by apply S5].
Qed.

Lemma segments_ok_parts h bufs segs :
  Forall2 (segment_ok h) bufs segs →
  Forall2 (segment_filled h) bufs segs ∧ Forall2 (λ a lens, Forall (next_lands h a) (seg_recs a lens)) bufs segs.
Proof.
  induction 1 as [|a lens bufs segs H _ [IH1 IH2]]; [split; constructor|]. apply segment_ok_parts in H as [H1 H2].
  split; by constructor.
Qed.

Definition undo_records (segs : list (list Z)) (buffers : list Z) : list Z :=
  concat (zip_with (λ a lens, fst <$> seg_recs a lens) buffers segs).

Lemma seg_recs_sum h off lens : Forall (rec_len_ok h) (seg_recs off lens) → 40 * Z.of_nat (length lens) ≤ zsum lens.
Proof.
  revert off; induction lens as [|n lens IH]; intros off H; cbn [seg_recs length] in *; [done|]. rewrite zsum_cons.
  apply Forall_cons in H as [(_ & H & _) H2]. apply IH in H2. cbn in H. lia.
Qed.

(** The path inside a segment. *)
Lemma seg_path h u (i : nat) a done_ rest l :
  heap_ok h arenas arrays recs → buffers_ u !! i = Some a → a ∈ arenas → rest ≠ [] → 0 ≤ done_ →
  done_ + zsum rest = FixedBumpArena.size_ h a → Forall (rec_len_ok h) (seg_recs (a + done_) rest) →
  Forall (size_in_arena a) (seg_recs (a + done_) rest) →
  iter_path h u (S i, 0) l → iter_path h u (i, done_) ((fst <$> seg_recs (a + done_) rest) ++ l).
Proof.
  intros Hok Hseg Ha Hne Hd Hz HF HA Hl. revert done_ Hd Hz HF HA; induction rest as [|n rest IH]; intros done_ Hd Hz HF HA; [done|].
  cbn [seg_recs fmap list_fmap app iter_path] in *. apply Forall_cons in HF as [(E1 & E2 & E3) HF]. apply Forall_cons in HA as [EA HA].
  unfold size_in_arena in EA. cbn [fst snd] in *. rewrite zsum_cons in Hz. destruct (ho_sizes _ _ _ _ Hok a Ha) as [Hs _]. unfold FixedBumpArena.ALLOCATOR_BLOCK_SIZE in Hs.
  pose proof (seg_recs_sum _ _ _ HF) as Hsum. unfold sizeof in E3.
  split_and!; [|unfold deref; cbn [fst snd]; by rewrite Hseg|lia|lia|eauto|eauto|].
  { unfold end_. intros [= -> _]. apply lookup_lt_Some in Hseg. lia. }
  unfold next. cbn [fst snd]. rewrite Hseg.
  rewrite in_bounds_true by (unfold sizeof; lia). rewrite bind_Ret. cbv zeta.
  unfold sizeof. replace (done_ + 40 + Chunk.GetSize (delta_chunk h (a + done_))) with (done_ + n) by lia.
  rewrite (wrap_small 32) by lia. destruct rest as [|n' rest].
  - cbn [zsum foldr] in Hz. rewrite (proj2 (Z.eqb_eq _ _)) by lia. eexists. split; [done|]. exact Hl.
  - assert (0 < zsum (n' :: rest)) by (cbn [length] in Hsum; lia).
    rewrite (proj2 (Z.eqb_neq _ _)) by lia. eexists. split; [done|].
    replace (a + done_ + n) with (a + (done_ + n)) in * by lia. apply IH; [done|lia|lia|done|done].
Qed.
Lemma segs_path h u (pre : list Z) bufs segs :
  heap_ok h arenas arrays recs → buffers_ u = pre ++ bufs → Forall2 (segment_ok h) bufs segs →
  iter_path h u (length pre, 0) (undo_records segs bufs) ∧
  (length (undo_records segs bufs) ≤ 102 * length bufs)%nat.
Proof.
  intros Hok Hb H2. revert pre Hb; induction H2 as [|a lens bufs segs (S1 & S2 & S3 & S4 & S5) H2 IH]; intros pre Hb.
  - cbn. split; [|lia]. unfold end_. rewrite Hb, app_nil_r. done.
  - destruct (IH (pre ++ [a])) as [IH1 IH2]; [by rewrite <- (assoc (++))|].
    rewrite length_app in IH1. cbn [length] in IH1. rewrite Nat.add_1_r in IH1.
    unfold undo_records in *. cbn [zip_with concat]. split.
    + rewrite <- (Z.add_0_r a) at 1. apply (seg_path h u (length pre) a 0 lens); try done; [|by rewrite Z.add_0_r..].
      rewrite Hb. by rewrite list_lookup_middle.
    + pose proof (seg_recs_sum _ _ _ S4) as Hsum. destruct (ho_sizes _ _ _ _ Hok a S2) as [Hs _].
      unfold FixedBumpArena.ALLOCATOR_BLOCK_SIZE in Hs.
      assert (Hlen : ∀ off l, length (seg_recs off l) = length l) by (intros off l; revert off; induction l; cbn; auto).
      rewrite length_app, length_fmap, Hlen. cbn [length]. lia.
Qed.

(** [RestampVersions] returns and stamps exactly the records of the buffer. *)
Lemma restamp_ok h u segs :
  heap_ok h arenas arrays recs → Forall2 (segment_ok h) (buffers_ u) segs →
  restamp_loop (restamp_fuel u) h u begin_ commit = Ret (stamps commit h (undo_records segs (buffers_ u))) ∧
  are_records recs (undo_records segs (buffers_ u)).
Proof.
  intros Hok H2. destruct (segs_path h u [] (buffers_ u) segs Hok eq_refl H2) as [Hp Hlen].
  split; [|by eapply iter_path_records]. apply restamp_loop_ok; [done|done|]. unfold restamp_fuel. lia.
Qed.
End Iterator.

(** ** The buffer stays full of its records *)

Lemma seg_recs_app off l k : seg_recs off (l ++ k) = seg_recs off l ++ seg_recs (off + zsum l) k.
Proof.
  revert off; induction l as [|n l IH]; intros off; cbn [seg_recs app]; [by rewrite Z.add_0_r|].
  rewrite IH, zsum_cons. do 3 f_equal. lia.
Qed.

Lemma seg_recs_len off lens e : e ∈ seg_recs off lens → e.2 ∈ lens.
Proof.
  revert off; induction lens as [|n lens IH]; intros off; cbn [seg_recs]; [by intros ?%not_elem_of_nil|].
  intros [->|H]%elem_of_cons; [by left|right; by eapply IH].
Qed.

(** Buffers of update records: their chunk sizes are inside them. *)
Definition update_lens (lens : list Z) : Prop := Forall (λ n, 48 ≤ n) lens.

Lemma rec_len_same recs e h h' a lens :
  (∀ f, f ∈ recs → same_on (h_mem h) (h_mem h') f) → update_lens lens →
  Forall (rec_len_ok recs h) (seg_recs a lens) → Forall (rec_len_ok (e :: recs) h') (seg_recs a lens).
Proof.
  intros Hs H48 HF. apply Forall_forall. intros f Hf. rewrite Forall_forall in HF. destruct (HF f Hf) as (E1 & E2 & E3).
  split_and!; [by right|done|]. rewrite <- E3. f_equal. apply load_ext. intros x Hx. unfold delta_chunk, GetDelta, sizeof.
  rewrite !rd_shift. apply (Hs f E1). unfold update_lens in H48. rewrite Forall_forall in H48.
  pose proof (H48 _ (seg_recs_len _ _ _ Hf)). lia.
Qed.

Lemma segment_ok_weaken arenas arenas' recs e h h' a lens :
  (∀ b, b ∈ arenas → b ∈ arenas') → (∀ f, f ∈ recs → same_on (h_mem h) (h_mem h') f) →
  FixedBumpArena.size_ h' a = FixedBumpArena.size_ h a → update_lens lens →
  segment_ok arenas recs h a lens → segment_ok arenas' (e :: recs) h' a lens.
Proof.
  intros Hsub Hs Hsz H48 (S1 & S2 & S3 & S4 & S5). split_and!; [done|by apply Hsub|by rewrite Hsz| |done].
  by eapply rec_len_same.
Qed.

(** A record whose chunk fills it, in the last segment or in a fresh one. *)
Lemma segs_extend arenas arenas' recs e h h' buffers buffers' segs :
  (∀ b, b ∈ arenas → b ∈ arenas') → (∀ f, f ∈ recs → same_on (h_mem h) (h_mem h') f) →
  Forall update_lens segs → 48 ≤ e.2 → sizeof + Chunk.GetSize (delta_chunk h' e.1) = e.2 →
  (∀ b, b ∈ arenas' → FixedBumpArena.size_ h' b ≤ FixedBumpArena.ALLOCATOR_BLOCK_SIZE) →
  (∀ b, b ∈ buffers' → b ∈ arenas') → NoDup buffers' →
  (∃ a, e.1 + e.2 = a + FixedBumpArena.size_ h' a ∧
    (∀ b, b ∈ arenas → b ≠ a → FixedBumpArena.size_ h' b = FixedBumpArena.size_ h b) ∧
    (buffers' = buffers ∧ last buffers = Some a ∧ e.1 = a + FixedBumpArena.size_ h a ∨
     buffers' = buffers ++ [a] ∧ e.1 = a)) →
  Forall2 (segment_ok arenas recs h) buffers segs →
  ∃ segs', Forall2 (segment_ok arenas' (e :: recs) h') buffers' segs' ∧ Forall update_lens segs' ∧
    (∀ r, r ∈ undo_records segs' buffers' ↔ r = e.1 ∨ r ∈ undo_records segs buffers).
Proof.
  intros Hsub Hs H48 He HG Hle Hbuf Hnd (a & Hend & Hsz & Hcase) H2.
  assert (Hnew : ∀ off, off + e.2 ≤ a + FixedBumpArena.ALLOCATOR_BLOCK_SIZE → off = e.1 →
    Forall (rec_len_ok (e :: recs) h') (seg_recs off [e.2]) ∧ Forall (size_in_arena a) (seg_recs off [e.2])).
  { intros off Hoff ->. cbn. unfold size_in_arena, FixedBumpArena.sizeof. cbn. split; (constructor; [|constructor]).
    - split_and!; cbn; [destruct e; by left|lia|done].
    - unfold FixedBumpArena.ALLOCATOR_BLOCK_SIZE in *. cbn [fst]. lia. }
  assert (Hkeep : ∀ bs ss, Forall2 (segment_ok arenas recs h) bs ss → Forall update_lens ss → (∀ b, b ∈ bs → b ≠ a) →
    Forall2 (segment_ok arenas' (e :: recs) h') bs ss).
  { intros bs ss HF Hu Hne. induction HF as [|b lens bs ss Hb HF IH]; constructor; apply Forall_cons in Hu as [Hu1 Hu2].
    - apply (segment_ok_weaken arenas arenas' recs e h h'); try done. apply Hsz; [apply Hb|apply Hne; by left].
    - apply IH; [done|]. intros c Hcin. apply Hne. by right. }
  destruct Hcase as [(-> & Hlast & He1)|[-> He1]].
  - apply last_Some in Hlast as (bs & ->). apply Forall2_app_inv_l in H2 as (ss & ks & HF & HL & ->).
    apply Forall2_cons_inv_l in HL as (lens & nil_ & Ha & Hnil & ->). apply Forall2_nil_inv_l in Hnil as ->.
    assert (Hina : a ∈ arenas') by (apply Hbuf, elem_of_app; right; by left).
    pose proof (Hle a Hina) as Hlea. destruct Ha as (S1 & S2 & S3 & S4 & S5).
    apply Forall_app in H48 as [Hu Hu1]. apply Forall_cons in Hu1 as [Hu1 _].
    exists (ss ++ [lens ++ [e.2]]). split; [|split].
    + apply Forall2_app; [apply Hkeep; [done|done|]|].
      { intros b Hb ->. apply NoDup_app in Hnd as (_ & Hx & _). apply (Hx a Hb). by left. }
      constructor; [|constructor].
      assert (Ew : segment_ok arenas' (e :: recs) h' a (lens ++ [e.2])); [|exact Ew].
      destruct (Hnew (a + zsum lens)) as [N1 N2]; [rewrite S3; lia|rewrite S3; lia|].
      split_and!; [by destruct lens|done| | |].
      * rewrite zsum_app, zsum_cons. cbn [zsum foldr]. rewrite S3. lia.
      * rewrite seg_recs_app. apply Forall_app. split; [|done].
        by eapply rec_len_same.
      * rewrite seg_recs_app. by apply Forall_app.
    + apply Forall_app. split; [done|]. constructor; [|constructor]. apply Forall_app. split; [done|]. by constructor.
    + intros r. unfold undo_records. rewrite !zip_with_app by (by apply Forall2_length in HF).
      cbn [zip_with concat]. rewrite !concat_app. cbn [concat]. rewrite !app_nil_r, seg_recs_app, fmap_app, !elem_of_app.
      cbn [seg_recs fmap list_fmap]. rewrite list_elem_of_singleton. cbn [fst]. rewrite S3. intuition (subst; auto with lia).
      all: try (left; lia).
  - assert (Hina : a ∈ arenas') by (apply Hbuf, elem_of_app; right; by left). pose proof (Hle a Hina) as Hlea.
    exists (segs ++ [[e.2]]). destruct (Hnew a) as [N1 N2]; [lia|done|]. split; [|split].
    + apply Forall2_app; [apply Hkeep; [done|done|]|].
      { intros b Hb ->. apply NoDup_app in Hnd as (_ & Hx & _). apply (Hx a Hb). by left. }
      constructor; [|constructor]. split_and!; [done|done| |done|done]. rewrite zsum_cons. cbn [zsum foldr]. lia.
    + apply Forall_app. split; [done|]. constructor; [|constructor]. by constructor.
    + intros r. unfold undo_records. rewrite zip_with_app by (by apply Forall2_length in H2).
      cbn [zip_with concat]. rewrite concat_app. cbn [concat seg_recs fmap list_fmap]. rewrite elem_of_app. cbn [app].
      rewrite list_elem_of_singleton. cbn [fst]. rewrite He1. tauto.
Qed.

(** ** A record without a chunk, alone in a fresh arena *)
Section Single.
Context (m : mem) (brk : Z) (blocks : gmap Z Z) (ts tbl pid idx : Z).

Definition single_heap : heap :=
  InitializeInsert (FixedBumpArena.set_size (FixedBumpArena.set_size (mkHeap m (brk + 4112) (<[brk := 4100]> blocks)) brk 0) brk 40)
    brk ts tbl pid idx.
Definition single_buffer : UndoBuffer := mkUndoBuffer [brk] brk.

(** The word [next] takes for the size of the chunk was in the memory before
    the arena was made. *)
Lemma single_word time :
  Chunk.GetSize (delta_chunk (SetTimestamp single_heap brk time) brk) = load 4 m (brk + 44) ∧
  FixedBumpArena.size_ (SetTimestamp single_heap brk time) brk = 40.
Proof.
  split.
  - transitivity (hload 4 (SetTimestamp single_heap brk time) (brk + 44)).
    { unfold hload, Chunk.GetSize, load, delta_chunk, GetDelta, sizeof. f_equal. cbn [read_bytes]. rewrite !rd_shift.
      repeat (apply (f_equal2 cons); [f_equal; lia|]). done. }
    unfold SetTimestamp, single_heap, InitializeInsert, initialize, SetType, SetNext, SetTimestamp, FixedBumpArena.set_size,
      FixedBumpArena.ALLOCATOR_BLOCK_SIZE. cbv zeta. by rewrite !hload_hstore_disj by lia.
  - unfold FixedBumpArena.size_, SetTimestamp, single_heap, InitializeInsert, initialize, SetType, SetNext, SetTimestamp, FixedBumpArena.set_size,
      FixedBumpArena.ALLOCATOR_BLOCK_SIZE. cbv zeta. rewrite !hload_hstore_disj by lia. by rewrite hload_hstore_same.
Qed.

Lemma single_restamp time :
  let w := load 4 m (brk + 44) in
  (w = 0 → restamp_loop (restamp_fuel single_buffer) single_heap single_buffer begin_ time = Ret (SetTimestamp single_heap brk time)) ∧
  (4036 < w < 2 ^ 32 - 40 →
   restamp_loop (restamp_fuel single_buffer) single_heap single_buffer begin_ time = Undefined "write past the arena").
Proof.
  intros w. destruct (single_word time) as [Ew Es]. fold w in Ew.
  assert (Hfirst : ∀ fuel, restamp_loop (S fuel) single_heap single_buffer begin_ time =
    it ← (let offset := to_u32 (40 + w) in if offset =? 40 then Ret (1%nat, 0) else Ret (0%nat, offset));
    restamp_loop fuel (SetTimestamp single_heap brk time) single_buffer it time).
  { intros fuel. cbn [restamp_loop]. rewrite bool_decide_false by done. unfold deref, next, begin_. cbn [fst snd buffers_ single_buffer].
    cbn [lookup list_lookup]. rewrite Z.add_0_r, bind_Ret. rewrite in_bounds_true, bind_Ret by (cbn; done || lia). cbv zeta.
    rewrite Ew, Es. by rewrite in_bounds_true, bind_Ret by (cbn; done || lia). }
  change (restamp_fuel single_buffer) with (S (S 102)). rewrite Hfirst. cbv zeta. split; [by intros ->|]. intros Hw.
  rewrite (wrap_small 32) by lia. rewrite (proj2 (Z.eqb_neq _ _)), bind_Ret by lia. generalize 102%nat. intros fuel. cbn [restamp_loop].
  rewrite bool_decide_false by (unfold end_; intros [=]). unfold deref. cbn [fst snd buffers_ single_buffer lookup list_lookup].
  rewrite bind_Ret. unfold in_bounds. rewrite (proj2 (Z.leb_gt (40 + w + 16 + 8) _)), andb_false_r; [done|].
  unfold FixedBumpArena.sizeof, FixedBumpArena.ALLOCATOR_BLOCK_SIZE. lia.
Qed.
End Single.
