(* ===== verification/TableTheorems.v ===== *)
(** * Theorems on tables and transactions *)

From stdpp Require Import strings.
From S2P Require Import Prelude Bytes Shared Memory AccessTypes DataChunk Fsm Pax ChunkUtils.
From S2P Require Import Arena Undo Redo Txn Table HeapFacts UndoFacts Mvcc TableFacts CommitFacts.
Import TransactionContext.

(** ** Beginning a transaction *)

Lemma BeginTransaction_ok tdq m sys arenas arrays recs :
  heap_ok (s_heap sys) arenas arrays recs → segment_ready tdq (s_heap sys) (s_pool sys) arenas 8 →
  0 ≤ TransactionManager.time_ m < 2 ^ 63 → TransactionManager.commit_latch_ m = 0 →
  ∃ txn m' sys' arenas', TransactionManager.BeginTransaction tdq m sys = Ret (txn, m', sys') ∧
    start_time_ txn = TransactionManager.time_ m ∧ finish_time_ txn = TransactionManager.time_ m + 2 ^ 63 ∧
    TransactionManager.time_ m' = TransactionManager.time_ m + 1 ∧ TransactionManager.commit_latch_ m' = 0 ∧
    rollback_ txn = false ∧ UndoBuffer.buffers_ (undo_buffer_ txn) = [] ∧
    txn_ok txn arenas' ∧ heap_ok (s_heap sys') arenas' arrays recs ∧ s_versions sys' = s_versions sys ∧
    h_brk (s_heap sys') ≤ h_brk (s_heap sys) + 4112 ∧
    (∀ f, f ∈ recs ∨ f ∈ arrays → same_on (h_mem (s_heap sys)) (h_mem (s_heap sys')) f).
Proof.
  intros Hok Hr Ht Hl. destruct (pool_get_ok tdq (s_heap sys) (s_pool sys) arenas arrays recs 8 Hok) as
    (a & h' & p' & arenas' & HG & Ha & Hok' & Hsub & _ & Hsame & Hb & _); [lia|by vm_compute|done|].
  unfold TransactionManager.BeginTransaction, TimestampManager.BeginTransaction, TimestampManager.CheckOutTimestamp.
  unfold make, RedoBuffer.make. rewrite HG. repeat (rewrite bind_Ret; cbv beta iota).
  rewrite Hl. unfold AdaptiveSpinLock.Try. change (0 <? 0) with false. cbv iota. rewrite bind_Ret.
  unfold TimestampManager.INT64_MIN.
  assert (E : to_u64 (TransactionManager.time_ m + - 2 ^ 63) = TransactionManager.time_ m + 2 ^ 63).
  { unfold wrap. symmetry. apply (Z.mod_unique _ _ (-1)); lia. }
  rewrite E. eexists _, _, _, arenas'. split; [done|]. cbn.
  rewrite (wrap_small 64) by lia. split_and!; try done; try lia.
  split; cbn; [lia|lia|]. intros b Hb'. by apply not_elem_of_nil in Hb'.
Qed.

(** ** A row to start from *)

Definition demo_columns : list SchemaColumn := [SchemaColumn_make 1 INTEGER "id"; SchemaColumn_make 2 VARCHAR "name"].
Definition demo_schema : Schema := Schema_make demo_columns.
Definition demo_sizes : list Z := [4; 16].
Definition demo_table : Table.Table := Table.mkTable demo_schema 7 0 (PaxLayout.make demo_sizes).
Definition demo_queue (q : list Z) : option (Z * list Z) := match q with [] => None | x :: q => Some (x, q) end.

Definition demo_chunk (v : Z) : DataChunk :=
  match DataChunkLayout_make [1; 2] demo_sizes with
  | Ret l => Chunk.Write (CreateDataChunk l ∅) 1 (le_bytes 4 v)
  | _ => ∅
  end.

Lemma mem_ok_check m : bool_decide (map_Forall (λ _ v, is_byte v) m) = true → mem_ok m.
Proof.
  intros H%bool_decide_eq_true_1 a. unfold rd. destruct (m !! a) eqn:E; cbn; [by apply (H a)|unfold is_byte; lia].
Qed.

Lemma demo_layout : layout_ok demo_sizes (Table.layout_ demo_table) ∧ 0 ≤ max_rows demo_sizes ∧ max_rows demo_sizes = 405.
Proof.
  assert (Hv : Forall valid_size demo_sizes) by (apply (bool_decide_unpack _); by vm_compute).
  destruct (make_ok demo_sizes Hv) as (H1 & H2 & _); [by vm_compute|by vm_compute|]. split_and!; [done|done|by vm_compute].
Qed.

Lemma demo_schema_layout : schema_layout (Table.schema_ demo_table) demo_sizes.
Proof.
  assert (H : ∀ id col, demo_schema !! id = Some col →
    (id = 1 ∧ col = SetPosition (SchemaColumn_make 1 INTEGER "id") 0) ∨ (id = 2 ∧ col = SetPosition (SchemaColumn_make 2 VARCHAR "name") 1)).
  { intros id col. change demo_schema with
      (<[2 := SetPosition (SchemaColumn_make 2 VARCHAR "name") 1]> (<[1 := SetPosition (SchemaColumn_make 1 INTEGER "id") 0]> (∅ : Schema))).
    rewrite !lookup_insert_Some, lookup_empty. intros [[<- <-]|[_ [[<- <-]|[_ [=]]]]]; tauto. }
  split.
  - intros id col [[-> ->]|[-> ->]]%H; cbn; split; (lia || done).
  - intros id id' col col' [[-> ->]|[-> ->]]%H [[-> ->]|[-> ->]]%H; cbn; lia.
Qed.

Lemma demo_chunk_at v : ∃ offs total, chunk_at demo_schema (demo_chunk v) [1; 2] demo_sizes offs total ∧
  total ≤ 4056 ∧ 40 + total ≤ 4096 ∧ mem_ok (demo_chunk v).
Proof.
  assert (Hv : Forall valid_size demo_sizes) by (apply (bool_decide_unpack _); by vm_compute).
  destruct (layout_make_ok [1; 2] demo_sizes Hv) as (l & total & HL & Ht & _ & _ & _ & _ & Hk);
    [done|repeat (apply Forall_cons; split; [lia|]); constructor|done|].
  unfold demo_chunk. rewrite HL. specialize (Hk ∅). set (offs := field_offsets _ _) in Hk.
  assert (Hmem : mem_ok (CreateDataChunk l ∅)).
  { assert (E : mem_ok (match DataChunkLayout_make [1; 2] demo_sizes with Ret l => CreateDataChunk l ∅ | _ => ∅ end)).
    { apply mem_ok_check. by vm_compute. } by rewrite HL in E. }
  assert (Etot : total = 40).
  { assert (E : match DataChunkLayout_make [1; 2] demo_sizes with Ret l => dl_total_size l | _ => 0 end = 40) by by vm_compute.
    rewrite HL in E. congruence. }
  assert (Hc : chunk_at demo_schema (CreateDataChunk l ∅) [1; 2] demo_sizes offs total).
  { split; [done|apply (bool_decide_unpack _); by vm_compute|done|].
    intros [|[|i]] id; cbn; [intros [= <-]; eexists; split; by vm_compute|intros [= <-]; eexists; split; by vm_compute|done]. }
  exists offs, total. rewrite (Write_ok _ _ _ _ _ Hk (ca_nodup _ _ _ _ _ _ Hc) 0 1 (AlignUp 20 4)) by by vm_compute.
  destruct (chunk_at_write _ _ _ _ _ _ 0 (AlignUp 20 4) 4 (le_bytes 4 v) Hc) as [Hc' _]; [by vm_compute|done|by rewrite length_le_bytes|].
  split_and!; [done|lia|lia|]. apply write_bytes_ok; [done|apply le_bytes_ok].
Qed.

(** ** The state of a row *)

(** The blocks of the heap. *)
Record heap_map := mkHeapMap { hm_arenas : list Z; hm_arrays : list extent; hm_recs : list extent }.

Abbreviation row_of t psizes := (row_val (Table.schema_ t) psizes (Table.layout_ t)).

(** The page's row [idx] is the newest of the history [hist], whose records
    hang off the version array [arr]. *)
Record row_state (t : Table.Table) (psizes : list Z) (sys : system) (page : Page) (pid idx : Z)
    (m : heap_map) (arr : Z) (hist : list version) : Prop := {
  rs_layout : layout_ok psizes (Table.layout_ t);
  rs_schema : schema_layout (Table.schema_ t) psizes;
  rs_idx : 0 ≤ idx < max_rows psizes;
  rs_pid : 0 ≤ pid < 2 ^ 32;
  rs_heap : heap_ok (s_heap sys) (hm_arenas m) (hm_arrays m) (hm_recs m);
  rs_page : mem_ok (data_ page);
  rs_versions : versions_at (hm_arrays m) sys page (mkPageIdentifier (Table.oid_ t) pid) (max_rows psizes) arr;
  rs_chain : chain (Table.schema_ t) (s_heap sys) (hm_recs m) (head (s_heap sys) arr idx) (row_of t psizes (data_ page) idx) hist
}.

(** The other rows' chains and slots, and the transaction, after an operation. *)
Record step_ok (sys sys' : system) (txn txn' : TransactionContext) (m m' : heap_map) (arr' idx : Z) : Prop := {
  so_txn : txn_ok txn' (hm_arenas m');
  so_start : start_time_ txn' = start_time_ txn;
  so_finish : finish_time_ txn' = finish_time_ txn;
  so_keeps : keeps sys sys' (hm_recs m) (hm_recs m') (hm_arrays m) (hm_arrays m') arr' idx
}.

Lemma op_post_step sys sys' txn txn' page' id count arenas arenas' arrays arrays' recs recs' arr' idx :
  op_post sys sys' txn txn' page' id count arenas arenas' arrays arrays' recs recs' arr' idx →
  step_ok sys sys' txn txn' (mkHeapMap arenas arrays recs) (mkHeapMap arenas' arrays' recs') arr' idx.
Proof. intros []. by split. Qed.

(** C11: [UpdateUndo] run alone refuses the row, and leaves it, exactly when the
    row has versions and either the newest belongs to another transaction that is
    running or committed after this one started, or the page marks the row
    deleted.  Otherwise - and so for every row without versions, marked deleted or
    not - it writes the chunk's columns over the row and puts a version on top of
    the history that holds the row as it was.  Chains and version slots of other
    rows stay. *)
Theorem table_update_correct tdq t psizes sys txn page pid idx m arr hist c ids sizes offs total :
  row_state t psizes sys page pid idx m arr hist → txn_ok txn (hm_arenas m) → h_brk (s_heap sys) < 2 ^ 62 →
  chunk_at (Table.schema_ t) c ids sizes offs total → total ≤ 4056 → mem_ok c →
  segment_ready tdq (s_heap sys) (s_pool sys) (hm_arenas m) (40 + total) →
  let refuse := match hist with
                | [] => false
                | _ => write_conflict (start_time_ txn) (finish_time_ txn) hist || PaxLayout.IsDeleted (data_ page) idx
                end in
  let old := row_of t psizes (data_ page) idx in
  ∃ r sys' txn' page' m' arr',
    Table.UpdateUndo tdq no_others t sys txn (TupleId_make idx pid) page c = Ret (negb refuse, sys', txn', page') ∧
    step_ok sys sys' txn txn' m m' arr' idx ∧
    row_state t psizes sys' page' pid idx m' arr'
      (if refuse then hist else mkVersion r UPDATE (finish_time_ txn) old :: hist) ∧
    if refuse then data_ page' = data_ page
    else (row_of t psizes (data_ page') idx <$> ids) = vals c offs sizes ∧
         rows_frame (Table.schema_ t) psizes (Table.layout_ t) ids idx (data_ page) (data_ page').
Proof.
  intros [L1 L2 L3 L4 L5 L6 L7 L8] Htxn Hb Hc Htot Hcm Hr refuse old. destruct m as [arenas arrays recs]. cbn [hm_arenas hm_arrays hm_recs] in *.
  destruct (UpdateUndo_ok tdq t psizes L1 ltac:(lia) L2 sys txn arenas arrays recs page pid idx arr c ids sizes offs total hist)
    as (r & sys' & txn' & page' & arenas' & arrays' & recs' & arr' & HU & Hpost & Hpm & Hres); try done.
  exists r, sys', txn', page', (mkHeapMap arenas' arrays' recs'), arr'.
  change (refused txn (PaxLayout.IsDeleted (data_ page) idx) hist) with refuse in HU, Hres.
  split; [exact HU|]. split; [by eapply op_post_step|]. destruct Hpost. destruct refuse.
  - destruct Hres as [Hd Hch]. split; [|done]. split; cbn; rewrite ?Hd; done.
  - destruct Hres as (Hv & Hf & Hch). split; [|done]. split; cbn; done.
Qed.

(** ** Rows to run the operations on *)

Definition demo_page : Page := mkPageFrame 0 ∅.
Definition demo_system : system := mkSystem (mkHeap ∅ 16 ∅) (ObjectPool.make 100 100) ∅.

Lemma demo_heap : heap_ok (s_heap demo_system) [] [] [].
Proof.
  split; [apply mem_ok_empty|done| | | | | | | |]; try (by intros ? ?%not_elem_of_nil); by intros ? ? ?%not_elem_of_nil.
Qed.

Lemma demo_ready h p arenas size : ObjectPool.queue_ p = [] → ObjectPool.curr_size_ p < ObjectPool.size_limit_ p →
  segment_ready demo_queue h p arenas size.
Proof. unfold segment_ready. intros -> H. exact H. Qed.

(** A transaction that began at time 0, before any row. *)
Lemma demo_start : ∃ sys txn m, heap_ok (s_heap sys) (hm_arenas m) (hm_arrays m) (hm_recs m) ∧ s_versions sys = ∅ ∧
  txn_ok txn (hm_arenas m) ∧ h_brk (s_heap sys) < 2 ^ 62 ∧ start_time_ txn = 0 ∧ finish_time_ txn = 2 ^ 63 ∧
  ∀ size, segment_ready demo_queue (s_heap sys) (s_pool sys) (hm_arenas m) size.
Proof.
  destruct (BeginTransaction_ok demo_queue (TransactionManager.mkTransactionManager 0 0) demo_system [] [] [] demo_heap)
    as (txn & tm & sys' & arenas' & HB & S1 & S2 & _ & _ & _ & _ & Htxn & Hok & Hv & Hb & _); [by apply demo_ready|done|done|].
  exists sys', txn, (mkHeapMap arenas' [] []). cbn [TransactionManager.time_] in *.
  assert (Hp : s_pool sys' = ObjectPool.mkObjectPool [] 100 100 1).
  { revert HB. unfold TransactionManager.BeginTransaction. vm_compute. intros [= _ _ <-]. done. }
  split_and!; [done|done|done|change (h_brk (s_heap demo_system)) with 16 in Hb; lia|done|done|by intros; apply demo_ready; rewrite Hp].
Qed.

(** An empty row of an empty page, seen by that transaction. *)
Lemma demo_row : ∃ sys txn m, row_state demo_table demo_sizes sys demo_page 1 0 m 0 [] ∧ txn_ok txn (hm_arenas m) ∧
  h_brk (s_heap sys) < 2 ^ 62 ∧ start_time_ txn = 0 ∧ finish_time_ txn = 2 ^ 63 ∧
  ∀ size, segment_ready demo_queue (s_heap sys) (s_pool sys) (hm_arenas m) size.
Proof.
  destruct demo_layout as (L1 & L2 & L3), demo_start as (sys & txn & m & Hok & Hv & Htxn & Hb & H0 & Hf & Hs).
  exists sys, txn, m. split_and!; try done.
  split; [done|apply demo_schema_layout|lia|lia|done|apply mem_ok_empty| |done].
  split; [rewrite Hv; by vm_compute|by left|by left].
Qed.

Lemma table_update_correct_witness : ∃ sys txn r sys' txn' page' m' arr',
  Table.UpdateUndo demo_queue no_others demo_table sys txn (TupleId_make 0 1) demo_page (demo_chunk 5) = Ret (true, sys', txn', page') ∧
  row_state demo_table demo_sizes sys' page' 1 0 m' arr'
    [mkVersion r UPDATE (2 ^ 63) (row_of demo_table demo_sizes ∅ 0)].
Proof.
  destruct demo_row as (sys & txn & m & Hrow & Htxn & Hb & _ & Hf & Hr).
  destruct (demo_chunk_at 5) as (offs & total & Hc & Ht & _ & Hm).
  destruct (table_update_correct demo_queue demo_table demo_sizes sys txn demo_page 1 0 m 0 [] (demo_chunk 5) [1; 2] demo_sizes offs total
    Hrow Htxn Hb Hc Ht Hm (Hr _)) as (r & sys' & txn' & page' & m' & arr' & HU & _ & Hrow' & _).
  exists sys, txn, r, sys', txn', page', m', arr'. rewrite <- Hf. split; [exact HU|exact Hrow'].
Defined.

(** C13: [Delete] run alone refuses a row that another transaction wrote or that
    the page marks deleted; otherwise it puts a delete version on top of the
    row's history and marks the row, and no other row, deleted in the page. *)
Theorem table_delete_correct tdq file t psizes st txn page pid idx m arr hist :
  let id := mkPageIdentifier (Table.oid_ t) pid in
  Table.st_pages st !! id = Some page → pid ≠ 0 → pid ≠ UINT32_MAX →
  row_state t psizes (Table.st_system st) page pid idx m arr hist → txn_ok txn (hm_arenas m) →
  h_brk (s_heap (Table.st_system st)) < 2 ^ 62 →
  segment_ready tdq (s_heap (Table.st_system st)) (s_pool (Table.st_system st)) (hm_arenas m) 40 →
  let refuse := write_conflict (start_time_ txn) (finish_time_ txn) hist || PaxLayout.IsDeleted (data_ page) idx in
  ∃ r st' txn' page' m' arr',
    Table.Delete tdq no_others file t st txn idx pid = Ret (negb refuse, st', txn') ∧
    Table.st_pages st' = <[id := page']> (Table.st_pages st) ∧
    step_ok (Table.st_system st) (Table.st_system st') txn txn' m m' arr' idx ∧
    row_state t psizes (Table.st_system st') page' pid idx m' arr'
      (if refuse then hist else mkVersion r DELETE (finish_time_ txn) (row_of t psizes (data_ page) idx) :: hist) ∧
    (∀ i id, 0 ≤ i < max_rows psizes → row_of t psizes (data_ page') i id = row_of t psizes (data_ page) i id) ∧
    (∀ i, 0 ≤ i < max_rows psizes → PaxLayout.IsDeleted (data_ page') i =
       if decide (i = idx) then negb refuse || PaxLayout.IsDeleted (data_ page) i else PaxLayout.IsDeleted (data_ page) i).
Proof.
  intros id Hpage Hp0 HpM [L1 L2 L3 L4 L5 L6 L7 L8] Htxn Hb Hr refuse. destruct m as [arenas arrays recs]. cbn [hm_arenas hm_arrays hm_recs] in *.
  destruct (DeleteUndo_ok tdq t psizes L1 ltac:(lia) (Table.st_system st) txn arenas arrays recs page pid idx arr hist)
    as (r & sys' & txn' & page1 & arenas' & arrays' & recs' & arr' & HD & Hpost & Hdata & Hch); try done.
  fold refuse in HD, Hch. unfold Table.Delete, Table.Pin. fold id. change (Shared.pid id) with pid.
  rewrite (proj2 (Z.eqb_neq pid 0)), (proj2 (Z.eqb_neq pid UINT32_MAX)) by done. cbn [negb DB7_ASSERT]. rewrite !bind_Ret, Hpage. change (from_option Datatypes.id _ (Some page)) with page.
  rewrite HD, bind_Ret. cbv beta iota.
  assert (Hbit : 0 ≤ idx / 8 ∧ HEADER_SIZE + idx / 8 < bitmap_end psizes ∧ bitmap_end psizes ≤ DB7_PAGE_SIZE).
  { pose proof (columns_placed_hi (max_rows psizes) _ _ _ _ ltac:(lia) (lo_placed _ _ L1)). unfold bitmap_end in *. split_and!; [apply Z.div_pos; lia| |done].
    pose proof (Z.div_mod idx 8). pose proof (Z.mod_pos_bound idx 8). pose proof (Z.div_mod (max_rows psizes + 7) 8).
    pose proof (Z.mod_pos_bound (max_rows psizes + 7) 8). lia. }
  destruct refuse eqn:Href; cbn [negb].
  - rewrite bind_Ret. exists r, (Table.set_state st sys' id (mkPageFrame (versions_ page1) (data_ page1))), txn',
      (mkPageFrame (versions_ page1) (data_ page1)), (mkHeapMap arenas' arrays' recs'), arr'.
    cbn [Table.set_state Table.st_system Table.st_pages data_]. rewrite Hdata.
    pose proof (Hpost (mkPageFrame (versions_ page1) (data_ page)) eq_refl) as Hp. split_and!; [done|done|by eapply op_post_step| |done|].
    + destruct Hp. split; cbn; done.
    + intros i Hi. by case_decide.
  - destruct (PaxDelete_ok (data_ page) idx L6) as (data' & HPD & Hm' & Hoff & Hdel); [lia|lia|].
    rewrite Hdata, HPD, bind_Ret.
    assert (Hrows : ∀ i k, 0 ≤ i < max_rows psizes → row_of t psizes data' i k = row_of t psizes (data_ page) i k).
    { intros i k Hi. destruct (Table.schema_ t !! k) as [col|] eqn:Hk; [|unfold row_val; by rewrite Hk].
      destruct (column_cell_ok _ psizes _ L1 ltac:(lia) L2 k col i Hk Hi) as (ptr & _ & _ & B1 & _ & _ & _ & Hv).
      rewrite !Hv. apply read_bytes_ext. intros x Hx. apply Hoff. lia. }
    exists r, (Table.set_state st sys' id (mkPageFrame (versions_ page1) data')), txn',
      (mkPageFrame (versions_ page1) data'), (mkHeapMap arenas' arrays' recs'), arr'.
    cbn [Table.set_state Table.st_system Table.st_pages data_].
    pose proof (Hpost (mkPageFrame (versions_ page1) data') eq_refl) as Hp. split_and!; [done|done|by eapply op_post_step| |done|].
    + destruct Hp. split; cbn [hm_arenas hm_arrays hm_recs data_ Table.st_system]; try done. eapply chain_ext; [|exact Hch]. intros k. symmetry. by apply Hrows.
    + intros i Hi. rewrite Hdel by lia. by case_decide.
Qed.

Lemma table_delete_correct_witness : ∃ sys txn r st' txn' page' m' arr',
  Table.Delete demo_queue no_others (λ _, ∅) demo_table (Table.mkStore sys {[mkPageIdentifier 7 1 := demo_page]} FreeSpaceManager.init) txn 0 1
    = Ret (true, st', txn') ∧
  row_state demo_table demo_sizes (Table.st_system st') page' 1 0 m' arr' [mkVersion r DELETE (2 ^ 63) (row_of demo_table demo_sizes ∅ 0)] ∧
  PaxLayout.IsDeleted (data_ page') 0 = true.
Proof.
  destruct demo_row as (sys & txn & m & Hrow & Htxn & Hb & _ & Hf & Hr).
  destruct (table_delete_correct demo_queue (λ _, ∅) demo_table demo_sizes
    (Table.mkStore sys {[mkPageIdentifier 7 1 := demo_page]} FreeSpaceManager.init) txn demo_page 1 0 m 0 []
    (lookup_singleton_eq _ _) ltac:(done) ltac:(done) Hrow Htxn Hb (Hr _)) as (r & st' & txn' & page' & m' & arr' & HU & _ & _ & Hrow' & _ & Hd).
  exists sys, txn, r, st', txn', page', m', arr'. rewrite <- Hf. split; [exact HU|]. split; [exact Hrow'|].
  specialize (Hd 0). rewrite Hd; [done|]. destruct demo_layout as (_ & _ & ->). lia.
Defined.

Lemma table_insert_ok tdq file t psizes st txn page m arr c ids sizes offs total :
  let page_id := (FreeSpaceManagerVarlen.Get (Table.st_fsm st) (Chunk.GetSize c)).1 in
  let id := mkPageIdentifier (Table.oid_ t) page_id in
  let idx := PaxLayout.header_count (data_ page) in
  Table.st_pages st !! id = Some page → 0 < page_id < UINT32_MAX →
  layout_ok psizes (Table.layout_ t) → schema_layout (Table.schema_ t) psizes → idx + 1 < max_rows psizes →
  heap_ok (s_heap (Table.st_system st)) (hm_arenas m) (hm_arrays m) (hm_recs m) → mem_ok (data_ page) →
  versions_at (hm_arrays m) (Table.st_system st) page id (max_rows psizes) arr →
  txn_ok txn (hm_arenas m) → h_brk (s_heap (Table.st_system st)) < 2 ^ 62 →
  chunk_at (Table.schema_ t) c ids sizes offs total → mem_ok c →
  segment_ready tdq (s_heap (Table.st_system st)) (s_pool (Table.st_system st)) (hm_arenas m) 40 →
  ∃ r st' txn' page' m' arr',
    Table.Insert tdq file t st txn c = Ret (TupleId_make idx page_id, st', txn') ∧
    Table.st_pages st' = <[id := page']> (Table.st_pages st) ∧
    step_ok (Table.st_system st) (Table.st_system st') txn txn' m m' arr' idx ∧
    row_state t psizes (Table.st_system st') page' page_id idx m' arr'
      [mkVersion r INSERT (finish_time_ txn) (λ _, [])] ∧
    PaxLayout.header_count (data_ page') = idx + 1 ∧
    (row_of t psizes (data_ page') idx <$> ids) = vals c offs sizes ∧
    (∀ i k, 0 ≤ i < max_rows psizes → i ≠ idx → row_of t psizes (data_ page') i k = row_of t psizes (data_ page) i k).
Proof.
  intros page_id id idx Hpage Hpid L1 L2 Hidx Hok Hpm Hva Htxn Hb Hc Hcm Hr. destruct m as [arenas arrays recs]. cbn [hm_arenas hm_arrays hm_recs] in *.
  assert (Hi0 : 0 ≤ idx) by (apply (load_range 4), Hpm).
  destruct (InsertBulk_ok _ psizes _ L1 ltac:(lia) L2 c ids sizes offs total (data_ page) Hc Hpm Hidx) as (data' & HB & Hcnt & Hv & Hrows & Hbits).
  fold idx in HB, Hcnt, Hv, Hrows. pose proof (InsertBulk_bytes _ _ _ _ _ _ _ HB Hcm Hpm) as Hpm'.
  set (page0 := mkPageFrame (versions_ page) data').
  destruct (InsertUndo_ok tdq t psizes L1 ltac:(lia) (Table.st_system st) txn arenas arrays recs page0 page_id idx arr)
    as (r & sys' & txn' & page1 & arenas' & arrays' & recs' & arr' & HI & Hpost & Hdata & Hch); try done; [|lia|unfold UINT32_MAX in Hpid; lia|].
  { destruct Hva as [V1 V2 V3]. by split. }
  unfold Table.Insert. destruct (FreeSpaceManagerVarlen.Get (Table.st_fsm st) (Chunk.GetSize c)) as [q fsm] eqn:HF.
  cbn [fst] in page_id. subst page_id. fold id. unfold Table.Pin. change (Shared.pid id) with q.
  rewrite (proj2 (Z.eqb_neq q 0)), (proj2 (Z.eqb_neq q UINT32_MAX)) by lia. cbn [negb DB7_ASSERT]. rewrite !bind_Ret, Hpage.
  change (from_option Datatypes.id _ (Some page)) with page. rewrite HB, bind_Ret. cbv beta iota zeta. fold page0. rewrite HI, bind_Ret.
  pose proof (Hpost page1 eq_refl) as Hp.
  exists r, (Table.mkStore sys' (<[id := page1]> (Table.st_pages st)) fsm), txn', page1, (mkHeapMap arenas' arrays' recs'), arr'.
  cbn [Table.st_system Table.st_pages]. rewrite Hdata. change (data_ page0) with data'.
  split_and!; [done|done|by eapply op_post_step| |done|done|].
  - destruct Hp. split; cbn [hm_arenas hm_arrays hm_recs]; rewrite ?Hdata; change (data_ page0) with data'; try done; [lia|unfold UINT32_MAX in Hpid; lia].
  - intros i k Hi Hne. apply Hrows; [by right|done].
Qed.

(** A page whose rows but the last are taken refuses another one. *)
Lemma table_insert_full tdq file t psizes st txn page c :
  let page_id := (FreeSpaceManagerVarlen.Get (Table.st_fsm st) (Chunk.GetSize c)).1 in
  let idx := PaxLayout.header_count (data_ page) in
  Table.st_pages st !! mkPageIdentifier (Table.oid_ t) page_id = Some page → 0 < page_id < UINT32_MAX →
  layout_ok psizes (Table.layout_ t) → 0 ≤ idx < 2 ^ 32 - 1 → ¬ idx + 1 < max_rows psizes →
  Table.Insert tdq file t st txn c = AssertFail "Tried to insert more than available in page".
Proof.
  intros page_id idx Hpage Hpid L Hidx Hfull. unfold Table.Insert.
  destruct (FreeSpaceManagerVarlen.Get (Table.st_fsm st) (Chunk.GetSize c)) as [q fsm]. cbn [fst] in page_id. subst page_id.
  unfold Table.Pin. change (Shared.pid (mkPageIdentifier (Table.oid_ t) q)) with q.
  rewrite (proj2 (Z.eqb_neq q 0)), (proj2 (Z.eqb_neq q UINT32_MAX)) by lia. cbn [negb DB7_ASSERT]. rewrite !bind_Ret, Hpage.
  change (from_option Datatypes.id _ (Some page)) with page. unfold ChunkUtils.InsertBulk, PaxLayout.IncrementHeaderCount. cbv zeta. fold idx.
  change (to_u32 (idx + 1)) with (wrap 32 (idx + 1)). rewrite (wrap_small 32) by lia.
  assert (Eh : PaxLayout.header_count (store 4 (data_ page) 0 (idx + 1)) = idx + 1).
  { unfold PaxLayout.header_count at 1. rewrite load_store_same. apply Z.mod_small. change (256 ^ Z.of_nat 4) with (2 ^ 32). lia. }
  rewrite Eh, (lo_max _ _ L), (proj2 (Z.ltb_ge _ _)) by lia. reflexivity.
Qed.

(** C12: [Insert] into the page the space manager names, which is in the pool.
    While the page has a row to spare it puts the chunk in the row after its last
    one, returns its tuple id, starts its version chain with an insert version and
    counts it; the other rows of the page stay.  When the chunk would take the
    last row, the assertion of [IncrementHeaderCount] ends the program. *)
Theorem table_insert_correct tdq file t psizes st txn page m arr c ids sizes offs total :
  let page_id := (FreeSpaceManagerVarlen.Get (Table.st_fsm st) (Chunk.GetSize c)).1 in
  let id := mkPageIdentifier (Table.oid_ t) page_id in
  let idx := PaxLayout.header_count (data_ page) in
  Table.st_pages st !! id = Some page → 0 < page_id < UINT32_MAX →
  layout_ok psizes (Table.layout_ t) → schema_layout (Table.schema_ t) psizes → idx < 2 ^ 32 - 1 →
  heap_ok (s_heap (Table.st_system st)) (hm_arenas m) (hm_arrays m) (hm_recs m) → mem_ok (data_ page) →
  versions_at (hm_arrays m) (Table.st_system st) page id (max_rows psizes) arr →
  txn_ok txn (hm_arenas m) → h_brk (s_heap (Table.st_system st)) < 2 ^ 62 →
  chunk_at (Table.schema_ t) c ids sizes offs total → mem_ok c →
  segment_ready tdq (s_heap (Table.st_system st)) (s_pool (Table.st_system st)) (hm_arenas m) 40 →
  if decide (idx + 1 < max_rows psizes) then
    ∃ r st' txn' page' m' arr',
      Table.Insert tdq file t st txn c = Ret (TupleId_make idx page_id, st', txn') ∧
      Table.st_pages st' = <[id := page']> (Table.st_pages st) ∧
      step_ok (Table.st_system st) (Table.st_system st') txn txn' m m' arr' idx ∧
      row_state t psizes (Table.st_system st') page' page_id idx m' arr'
        [mkVersion r INSERT (finish_time_ txn) (λ _, [])] ∧
      PaxLayout.header_count (data_ page') = idx + 1 ∧
      (row_of t psizes (data_ page') idx <$> ids) = vals c offs sizes ∧
      (∀ i k, 0 ≤ i < max_rows psizes → i ≠ idx → row_of t psizes (data_ page') i k = row_of t psizes (data_ page) i k)
  else Table.Insert tdq file t st txn c = AssertFail "Tried to insert more than available in page".
Proof.
  intros page_id id idx Hpage Hpid L1 L2 Hidx Hok Hpm Hva Htxn Hb Hc Hcm Hr. destruct (decide _) as [Hlt|Hge].
  - by apply (table_insert_ok tdq file t psizes st txn page m arr c ids sizes offs total).
  - apply (table_insert_full tdq file t psizes st txn page c); try done. split; [|done]. apply (load_range 4), Hpm.
Qed.

Lemma table_insert_correct_witness : ∃ st txn r st' txn' page' m' arr',
  Table.Insert demo_queue (λ _, ∅) demo_table st txn (demo_chunk 5) = Ret (TupleId_make 0 1, st', txn') ∧
  row_state demo_table demo_sizes (Table.st_system st') page' 1 0 m' arr' [mkVersion r INSERT (2 ^ 63) (λ _, [])].
Proof.
  destruct demo_row as (sys & txn & m & [L1 L2 L3 L4 L5 L6 L7 L8] & Htxn & Hb & _ & Hf & Hr).
  destruct (demo_chunk_at 5) as (offs & total & Hc & Ht & _ & Hm). destruct demo_layout as (_ & _ & Hmx).
  set (st := Table.mkStore sys {[mkPageIdentifier 7 1 := demo_page]} FreeSpaceManager.init).
  assert (Hq : (FreeSpaceManagerVarlen.Get (Table.st_fsm st) (Chunk.GetSize (demo_chunk 5))).1 = 1) by by vm_compute.
  assert (Hidx : PaxLayout.header_count (data_ demo_page) + 1 < max_rows demo_sizes) by (rewrite Hmx; by vm_compute).
  pose proof (table_insert_correct demo_queue (λ _, ∅) demo_table demo_sizes st txn demo_page m 0 (demo_chunk 5) [1; 2] demo_sizes offs total) as H.
  cbv zeta in H. rewrite Hq in H. rewrite decide_True in H by exact Hidx. change (PaxLayout.header_count (data_ demo_page)) with 0 in *.
  destruct (H (lookup_singleton_eq _ _) ltac:(split; by vm_compute) L1 L2 ltac:(lia) L5 L6 L7 Htxn Hb Hc Hm (Hr _))
    as (r & st' & txn' & page' & m' & arr' & HU & _ & _ & Hrow' & _).
  exists st, txn, r, st', txn', page', m', arr'. rewrite <- Hf. split; [exact HU|exact Hrow'].
Defined.

(** ** Reading *)

(** C14: a transaction reads a row as it last wrote it; a row written by others
    as it was before every version newer than the transaction's start, and not
    at all when it was inserted since.  The walk ends within its fuel. *)
Theorem select_snapshot t psizes sys txn page pid idx m arr hist c ids sizes offs total :
  row_state t psizes sys page pid idx m arr hist → chunk_at (Table.schema_ t) c ids sizes offs total →
  let cur := row_of t psizes (data_ page) idx in
  let visible := if head_deleted (PaxLayout.IsDeleted (data_ page) idx) hist then Deleted else Visible in
  ∃ st c' sys' page', Table.SelectIntoChunk t sys txn idx pid page c = Ret (st, c', sys', page') ∧
    data_ page' = data_ page ∧ chunk_at (Table.schema_ t) c' ids sizes offs total ∧
    ((∃ v older, hist = v :: older ∧ v_ts v = finish_time_ txn) → st = visible ∧ vals c' offs sizes = cur <$> ids) ∧
    ((∀ v older, hist = v :: older → v_ts v ≠ finish_time_ txn) →
      ∀ newer older, hist = newer ++ older → Forall (newer_than (start_time_ txn)) newer →
      match older with
      | [] => st = visible ∧ vals c' offs sizes = row_before cur newer <$> ids
      | v :: _ =>
          (v_ts v ≤ start_time_ txn → st = visible ∧ vals c' offs sizes = row_before cur newer <$> ids) ∧
          (start_time_ txn < v_ts v → v_type v = INSERT → st = NotVisible)
      end).
Proof.
  intros [L1 L2 L3 L4 L5 L6 L7 L8] Hc cur visible.
  destruct (SelectIntoChunk_ok t psizes L1 ltac:(lia) L2 sys txn _ _ _ page pid idx arr c ids sizes offs total hist L5 L7 L3 Hc L8)
    as (st & c' & sys' & page' & HS & Hd & Hc' & Hres).
  exists st, c', sys', page'. split_and!; [done|done|done| |].
  - intros (v & older & -> & E). unfold read_row in Hres. by rewrite E, Z.eqb_refl in Hres.
  - intros Hown newer older E Hn.
    assert (Hr : read_row txn cur hist = read_at (start_time_ txn) (row_before cur newer) older).
    { rewrite <- (read_at_app _ cur newer older Hn), <- E. unfold read_row. destruct hist as [|v hist]; [done|].
      by rewrite (proj2 (Z.eqb_neq _ _)) by (by eapply Hown). }
    change (row_of t psizes (data_ page) idx) with cur in Hres. rewrite Hr in Hres. destruct older as [|v older]; cbn [read_at] in Hres; [done|].
    split; intros Hv.
    + by rewrite (proj2 (Z.ltb_ge _ _) Hv) in Hres.
    + intros Hi. by rewrite (proj2 (Z.ltb_lt _ _) Hv), Hi in Hres.
Qed.

(** A row updated by the transaction begun at 0, not yet committed. *)
Lemma demo_updated : ∃ sys page m arr r, row_state demo_table demo_sizes sys page 1 0 m arr
    [mkVersion r UPDATE (2 ^ 63) (row_of demo_table demo_sizes ∅ 0)] ∧
  row_of demo_table demo_sizes (data_ page) 0 1 = le_bytes 4 5.
Proof.
  destruct demo_row as (sys & txn & m & [L1 L2 L3 L4 L5 L6 L7 L8] & Htxn & Hb & _ & Hf & Hr).
  destruct (demo_chunk_at 5) as (offs & total & Hc & Ht & _ & Hm).
  destruct (UpdateUndo_ok demo_queue demo_table demo_sizes L1 ltac:(lia) L2 sys txn _ _ _ demo_page 1 0 0 (demo_chunk 5) [1; 2] demo_sizes
    offs total [] L5 Htxn L6 L7 L3 L4 Hb Hc Ht Hm (Hr _) L8)
    as (r & sys' & txn' & page' & arenas' & arrays' & recs' & arr' & HU & [P1 P2 P3 P4 P5 P6 P7 P8 P9] & Hpm & Hv & Hfr & Hch).
  exists sys', page', (mkHeapMap arenas' arrays' recs'), arr', r. rewrite Hf in Hch. split.
  - split; cbn [hm_arenas hm_arrays hm_recs]; [exact L1|exact L2|exact L3|exact L4|exact P1|exact Hpm|exact P6|exact Hch].
  - assert (E : (vals (demo_chunk 5) offs demo_sizes) !! 0%nat = Some (le_bytes 4 5)).
    { destruct (chunk_at_field _ _ _ _ _ _ 0 1 Hc eq_refl) as (col & o & Hcol & Hsz & Ho & Ha).
      rewrite (vals_lookup (demo_chunk 5) offs demo_sizes 0 o 4 Ho eq_refl). f_equal.
      assert (Eo : o = 20) by (rewrite <- Ha; by vm_compute). rewrite Eo. by vm_compute. }
    rewrite <- Hv in E. change (Some (row_of demo_table demo_sizes (data_ page') 0 1) = Some (le_bytes 4 5)) in E. congruence.
Qed.

(** A transaction that began after the writer, and one that wrote. *)
Definition demo_txn (start finish : Z) : TransactionContext :=
  mkTransactionContext start finish false UndoBuffer.make (RedoBuffer.mkRedoBuffer 0 0 0 false) SYNC.

Lemma select_snapshot_witness : ∃ sys page,
  ∃ st c' sys' page' offs, Table.SelectIntoChunk demo_table sys (demo_txn 1 (1 + 2 ^ 63)) 0 1 page (demo_chunk 9) = Ret (st, c', sys', page') ∧
  st = Visible ∧ vals c' offs demo_sizes = row_of demo_table demo_sizes ∅ 0 <$> [1; 2].
Proof.
  destruct demo_updated as (sys & page & m & arr & r & Hrow & _). destruct (demo_chunk_at 9) as (offs & total & Hc & _).
  destruct (select_snapshot demo_table demo_sizes sys (demo_txn 1 (1 + 2 ^ 63)) page 1 0 m arr _ (demo_chunk 9) [1; 2] demo_sizes offs total Hrow Hc)
    as (st & c' & sys' & page' & HS & _ & _ & _ & Hres).
  exists sys, page, st, c', sys', page', offs. split; [exact HS|].
  apply (Hres ltac:(intros v older [= <- _]; cbn; lia) [_] [] eq_refl).
  constructor; [|constructor]. split; cbn; [lia|done].
Defined.

(** C15: repeatable reads: an update of the row by another transaction, applied
    or refused, does not change what a transaction that had started reads, as
    long as the row is not marked deleted. *)
Theorem repeatable_read tdq t psizes sys writer reader page pid idx m arr hist c ids sizes offs total c0 ids0 sizes0 offs0 total0 :
  row_state t psizes sys page pid idx m arr hist → txn_ok writer (hm_arenas m) → h_brk (s_heap sys) < 2 ^ 62 →
  chunk_at (Table.schema_ t) c ids sizes offs total → total ≤ 4056 → mem_ok c →
  segment_ready tdq (s_heap sys) (s_pool sys) (hm_arenas m) (40 + total) →
  0 ≤ start_time_ reader < 2 ^ 63 → 2 ^ 63 ≤ finish_time_ reader < 2 ^ 64 → finish_time_ reader ≠ finish_time_ writer →
  head_deleted (PaxLayout.IsDeleted (data_ page) idx) hist = false →
  chunk_at (Table.schema_ t) c0 ids0 sizes0 offs0 total0 →
  ∃ ok sys1 writer' page1 st c1 sys2 page2 c1' sys2' page2',
    Table.UpdateUndo tdq no_others t sys writer (TupleId_make idx pid) page c = Ret (ok, sys1, writer', page1) ∧
    Table.SelectIntoChunk t sys reader idx pid page c0 = Ret (st, c1, sys2, page2) ∧
    Table.SelectIntoChunk t sys1 reader idx pid page1 c0 = Ret (st, c1', sys2', page2') ∧
    (st ≠ NotVisible → vals c1' offs0 sizes0 = vals c1 offs0 sizes0).
Proof.
  intros [L1 L2 L3 L4 L5 L6 L7 L8] Htxn Hb Hc Htot Hcm Hr Hrs Hrf Hne Hdel Hc0. pose proof Htxn as [W1 W2 _].
  destruct (UpdateUndo_ok tdq t psizes L1 ltac:(lia) L2 sys writer _ _ _ page pid idx arr c ids sizes offs total hist
    L5 Htxn L6 L7 L3 L4 Hb Hc Htot Hcm Hr L8)
    as (r & sys1 & writer' & page1 & arenas' & arrays' & recs' & arr' & HU & [P1 P2 P3 P4 P5 P6 P7 P8 P9] & Hpm & Hres).
  destruct (SelectIntoChunk_ok t psizes L1 ltac:(lia) L2 sys reader _ _ _ page pid idx arr c0 ids0 sizes0 offs0 total0 hist L5 L7 L3 Hc0 L8)
    as (st & c1 & sys2 & page2 & HS & _ & _ & HV).
  assert (Hsame : ∃ hist1, chain (Table.schema_ t) (s_heap sys1) recs' (head (s_heap sys1) arr' idx) (row_of t psizes (data_ page1) idx) hist1 ∧
    read_row reader (row_of t psizes (data_ page1) idx) hist1 = read_row reader (row_of t psizes (data_ page) idx) hist ∧
    head_deleted (PaxLayout.IsDeleted (data_ page1) idx) hist1 = false).
  { destruct (refused writer _ hist) eqn:Href.
    - destruct Hres as [Hd Hch]. exists hist. rewrite Hd. done.
    - destruct Hres as (_ & _ & Hch). eexists. split; [exact Hch|]. split; [|done]. unfold read_row. cbn [v_ts read_at v_type v_before].
      rewrite (proj2 (Z.eqb_neq _ _)) by done. rewrite (proj2 (Z.ltb_lt _ _)) by lia. destruct hist as [|v hist]; [done|].
      destruct (Z.eqb_spec (v_ts v) (finish_time_ reader)) as [E|E]; [|done]. exfalso.
      unfold refused in Href. apply orb_false_iff in Href as [Href _]. cbn [write_conflict] in Href.
      rewrite E, (proj2 (Z.eqb_neq _ _)), (proj2 (Z.ltb_lt _ _)) in Href by lia. done. }
  destruct Hsame as (hist1 & Hch1 & Hread & Hdel1).
  destruct (SelectIntoChunk_ok t psizes L1 ltac:(lia) L2 sys1 reader _ _ _ page1 pid idx arr' c0 ids0 sizes0 offs0 total0 hist1 P1 P6 L3 Hc0 Hch1)
    as (st1 & c1' & sys2' & page2' & HS1 & _ & _ & HV1).
  rewrite Hread, Hdel1 in HV1. rewrite Hdel in HV. exists (negb (refused writer (PaxLayout.IsDeleted (data_ page) idx) hist)), sys1, writer', page1.
  destruct (read_row reader _ hist) as [value|].
  - destruct HV as [-> HV], HV1 as [-> HV1]. exists Visible, c1, sys2, page2, c1', sys2', page2'. split_and!; [done|done|done|]. intros _. by rewrite HV, HV1.
  - subst st st1. exists NotVisible, c1, sys2, page2, c1', sys2', page2'. split_and!; done.
Qed.

Lemma repeatable_read_witness : ∃ sys writer st c1 sys2 page2 ok sys1 writer' page1 c1' sys2' page2' offs,
    Table.UpdateUndo demo_queue no_others demo_table sys writer (TupleId_make 0 1) demo_page (demo_chunk 5) = Ret (ok, sys1, writer', page1) ∧
    Table.SelectIntoChunk demo_table sys (demo_txn 1 (1 + 2 ^ 63)) 0 1 demo_page (demo_chunk 9) = Ret (st, c1, sys2, page2) ∧
    Table.SelectIntoChunk demo_table sys1 (demo_txn 1 (1 + 2 ^ 63)) 0 1 page1 (demo_chunk 9) = Ret (st, c1', sys2', page2') ∧
    (st ≠ NotVisible → vals c1' offs demo_sizes = vals c1 offs demo_sizes).
Proof.
  destruct demo_row as (sys & txn & m & Hrow & Htxn & Hb & _ & Hf & Hr).
  destruct (demo_chunk_at 5) as (offs & total & Hc & Ht & _ & Hm). destruct (demo_chunk_at 9) as (offs0 & total0 & Hc0 & _).
  destruct (repeatable_read demo_queue demo_table demo_sizes sys txn (demo_txn 1 (1 + 2 ^ 63)) demo_page 1 0 m 0 [] (demo_chunk 5) [1; 2] demo_sizes
    offs total (demo_chunk 9) [1; 2] demo_sizes offs0 total0 Hrow Htxn Hb Hc Ht Hm (Hr _) ltac:(cbn; lia) ltac:(cbn; lia) ltac:(cbn; lia)
    ltac:(by vm_compute) Hc0) as (ok & sys1 & w & page1 & st & c1 & sys2 & page2 & c1' & sys2' & page2' & H1 & H2 & H3 & H4).
  exists sys, txn, st, c1, sys2, page2, ok, sys1, w, page1, c1', sys2', page2', offs0. exact (conj H1 (conj H2 (conj H3 H4))).
Defined.

(** ** Undo records, conflicts and commit *)

(** The conflict test, on the 64-bit words as they are stored: a version
    conflicts exactly when it is not the transaction's own and its word is
    above the start time as an unsigned number, since the words of running
    transactions, and only they, have the top bit. *)
Theorem has_conflict_correct ts finish start :
  0 ≤ ts < 2 ^ 64 → 0 ≤ start < 2 ^ 63 → 2 ^ 63 ≤ finish < 2 ^ 64 →
  TransactionUtil.HasConflict ts finish start = bool_decide (ts ≠ finish ∧ start < ts) ∧
  TransactionUtil.IsCommitted ts = negb (Z.testbit ts 63) ∧
  TransactionUtil.HasConflict finish finish start = false.
Proof.
  intros Ht Hs Hf. rewrite !HasConflict_spec by lia. rewrite Z.eqb_refl. split_and!; [| |done].
  - destruct (Z.eqb_spec ts finish), (Z.ltb_spec start ts); cbn; symmetry; first [apply bool_decide_eq_true_2; lia|apply bool_decide_eq_false_2; lia].
  - unfold TransactionUtil.IsCommitted, to_signed. rewrite (wrap_small 64) by lia.
    rewrite Z.testbit_eqb by lia. change (2 ^ (64 - 1)) with (2 ^ 63). destruct (Z.ltb_spec ts (2 ^ 63)) as [H|H].
    + rewrite Z.div_small by lia. change (0 mod 2 =? 1) with false. apply Z.leb_le. lia.
    + assert (E : ts / 2 ^ 63 = 1) by (symmetry; apply (Z.div_unique ts (2 ^ 63) 1 (ts - 2 ^ 63)); lia). rewrite E.
      change (1 mod 2 =? 1) with true. apply Z.leb_gt. lia.
Qed.

Lemma has_conflict_correct_witness :
  TransactionUtil.HasConflict 7 (5 + 2 ^ 63) 5 = bool_decide (7 ≠ 5 + 2 ^ 63 ∧ 5 < 7) ∧
  TransactionUtil.IsCommitted 7 = negb (Z.testbit 7 63) ∧
  TransactionUtil.HasConflict (5 + 2 ^ 63) (5 + 2 ^ 63) 5 = false.
Proof. apply (has_conflict_correct 7 (5 + 2 ^ 63) 5); lia. Defined.

(** A new update record keeps the segments of the buffer full. *)
Lemma update_record_segments tdq sys txn arenas arrays recs s c ids sizes offs total segs tbl pid idx :
  heap_ok (s_heap sys) arenas arrays recs → txn_ok txn arenas → NoDup (UndoBuffer.buffers_ (undo_buffer_ txn)) →
  chunk_at s c ids sizes offs total → 8 ≤ total ≤ 4056 → total mod 8 = 0 → mem_ok c →
  tdq (ObjectPool.queue_ (s_pool sys)) = None → ObjectPool.curr_size_ (s_pool sys) < ObjectPool.size_limit_ (s_pool sys) →
  Forall2 (segment_ok arenas recs (s_heap sys)) (UndoBuffer.buffers_ (undo_buffer_ txn)) segs → Forall update_lens segs →
  let bufs := λ t, UndoBuffer.buffers_ (undo_buffer_ t) in
  ∃ r n sys' txn' arenas' segs', UndoRecordForUpdate tdq sys txn tbl pid idx c = Ret (r, sys', txn') ∧
    heap_ok (s_heap sys') arenas' arrays ((r, n) :: recs) ∧ (∀ f, f ∈ recs → disj (r, n) f) ∧
    (∀ f, f ∈ recs ∨ f ∈ arrays → same_on (h_mem (s_heap sys)) (h_mem (s_heap sys')) f) ∧
    rec_fields (s_heap sys') r UPDATE (finish_time_ txn) 0 ∧
    chunk_at s (UndoRecord.delta_chunk (s_heap sys') r) ids sizes offs total ∧
    txn_ok txn' arenas' ∧ NoDup (bufs txn') ∧
    Forall2 (segment_ok arenas' ((r, n) :: recs) (s_heap sys')) (bufs txn') segs' ∧ Forall update_lens segs' ∧
    (∀ x, x ∈ undo_records segs' (bufs txn') ↔ x = r ∨ x ∈ undo_records segs (bufs txn)).
Proof.
  intros Hok Htxn Hnd Hc Ht Hm8 Hm Hq Hlim H2 Hu bufs.
  destruct (UndoRecordForUpdate_ok tdq sys txn arenas arrays recs Hok Htxn s c ids sizes offs total Hc ltac:(lia) tbl pid idx Hm)
    as (e & sys' & txn' & arenas' & HE & [_ Hlen] & Hfr & Hd); [unfold segment_ready; by rewrite Hq|].
  assert (E40 : AlignUp (40 + total) 8 = 40 + total).
  { apply (AlignUp_same _ 3); [lia|lia|]. change (2 ^ 3) with 8. rewrite <- Z.add_mod_idemp_r, Hm8 by lia. done. }
  rewrite E40 in Hlen. pose proof (ca_ok _ _ _ _ _ _ Hd) as [_ Hsz _ _ _ _].
  destruct (fr_place _ _ _ _ _ _ _ _ _ _ _ Hfr) as (a & P1 & P2 & P3). rewrite Hq in P3.
  pose proof (fr_txn _ _ _ _ _ _ _ _ _ _ _ Hfr) as Htxn'. pose proof (fr_heap _ _ _ _ _ _ _ _ _ _ _ Hfr) as Hok'.
  assert (Hnd' : NoDup (bufs txn')).
  { unfold bufs. destruct P3 as [(-> & _)|(-> & [[_ Hx]|[Hx _]])]; [done|done|].
    apply NoDup_app. split_and!; [done| |apply NoDup_singleton].
    intros b Hb ->%list_elem_of_singleton. apply Hx. by apply (to_buffers _ _ Htxn). }
  destruct (segs_extend arenas arenas' recs e (s_heap sys) (s_heap sys') (bufs txn) (bufs txn') segs
    (fr_arenas _ _ _ _ _ _ _ _ _ _ _ Hfr)) as (segs' & Q1 & Q2 & Q3); [|done|lia| | | |done| |done|].
  - intros f Hf. apply (fr_same _ _ _ _ _ _ _ _ _ _ _ Hfr). by left.
  - unfold UndoRecord.sizeof. lia.
  - intros b Hb. by apply (ho_sizes _ _ _ _ Hok').
  - apply (to_buffers _ _ Htxn').
  - exists a. split_and!; [done|done|]. destruct P3 as [?|(? & [[_ ?]|[_ ?]])]; [by left|done|by right].
  - exists e.1, e.2, sys', txn', arenas', segs'. replace (e.1, e.2) with e by by destruct e.
    split_and!; try done; by destruct Hfr.
Qed.

(** C17: [UndoRecordForUpdate] with a pool that has no released segment returns
    a record apart from all others, owned by the transaction, with the chunk's
    columns; the segments of the buffer stay full of the records it made. *)
Theorem undo_record_correct tdq sys txn arenas arrays recs s c ids sizes offs total segs tbl pid idx :
  heap_ok (s_heap sys) arenas arrays recs → txn_ok txn arenas → NoDup (UndoBuffer.buffers_ (undo_buffer_ txn)) →
  chunk_at s c ids sizes offs total → 8 ≤ total ≤ 4056 → total mod 8 = 0 → mem_ok c →
  tdq (ObjectPool.queue_ (s_pool sys)) = None → ObjectPool.curr_size_ (s_pool sys) < ObjectPool.size_limit_ (s_pool sys) →
  Forall2 (segment_ok arenas recs (s_heap sys)) (UndoBuffer.buffers_ (undo_buffer_ txn)) segs → Forall update_lens segs →
  let bufs := λ t, UndoBuffer.buffers_ (undo_buffer_ t) in
  ∃ r n sys' txn' arenas' segs', UndoRecordForUpdate tdq sys txn tbl pid idx c = Ret (r, sys', txn') ∧
    heap_ok (s_heap sys') arenas' arrays ((r, n) :: recs) ∧ (∀ f, f ∈ recs → disj (r, n) f) ∧
    (∀ f, f ∈ recs ∨ f ∈ arrays → same_on (h_mem (s_heap sys)) (h_mem (s_heap sys')) f) ∧
    rec_fields (s_heap sys') r UPDATE (finish_time_ txn) 0 ∧
    chunk_at s (UndoRecord.delta_chunk (s_heap sys') r) ids sizes offs total ∧
    txn_ok txn' arenas' ∧ NoDup (bufs txn') ∧
    Forall2 (segment_ok arenas' ((r, n) :: recs) (s_heap sys')) (bufs txn') segs' ∧ Forall update_lens segs' ∧
    (∀ x, x ∈ undo_records segs' (bufs txn') ↔ x = r ∨ x ∈ undo_records segs (bufs txn)).
Proof. apply update_record_segments. Qed.

Lemma undo_record_correct_witness : ∃ r n sys' txn' arenas' segs',
    UndoRecordForUpdate demo_queue demo_system (demo_txn 0 (2 ^ 63)) 7 1 0 (demo_chunk 5) = Ret (r, sys', txn') ∧
    rec_fields (s_heap sys') r UPDATE (2 ^ 63) 0 ∧ heap_ok (s_heap sys') arenas' [] [(r, n)] ∧
    Forall2 (segment_ok arenas' [(r, n)] (s_heap sys')) (UndoBuffer.buffers_ (undo_buffer_ txn')) segs' ∧
    (∀ x, x ∈ undo_records segs' (UndoBuffer.buffers_ (undo_buffer_ txn')) ↔ x = r ∨ x ∈ undo_records [] []).
Proof.
  destruct (demo_chunk_at 5) as (offs & total & Hc & Ht & _ & Hm).
  assert (Hk : total = 40) by (rewrite <- (co_size _ _ _ _ _ (ca_ok _ _ _ _ _ _ Hc)); by vm_compute).
  destruct (undo_record_correct demo_queue demo_system (demo_txn 0 (2 ^ 63)) [] [] [] demo_schema (demo_chunk 5) [1; 2] demo_sizes offs total
    [] 7 1 0 demo_heap) as (r & n & sys' & txn' & arenas' & segs' & H1 & H2 & _ & _ & H3 & _ & _ & _ & H4 & _ & H5).
  - split; cbn; [lia|lia|by intros a ?%not_elem_of_nil].
  - constructor.
  - done.
  - lia.
  - by subst total.
  - done.
  - done.
  - by vm_compute.
  - constructor.
  - constructor.
  - exists r, n, sys', txn', arenas', segs'. exact (conj H1 (conj H3 (conj H2 (conj H4 H5)))).
Defined.

(** C16: [Commit] of a transaction whose undo records the iterator of the buffer
    goes through one by one ([next_lands]: the size it reads after the 40 bytes
    of a record is the rest of the record).  C17 shows it of update records;
    for INSERT and DELETE records it is an assumption on the four bytes at 44,
    which are outside the record: they must be zero, and the theorem after this
    one says what happens when they are not.  Under it, [Commit] takes the time of
    the clock and stamps exactly the records of the buffer: in every row whose
    versions of the transaction are those records the history keeps its order and
    its rows, the transaction's versions now have the commit time, and what any
    other transaction that had started reads in the row is unchanged.  The loop
    ends within its fuel. *)
Theorem commit_correct m sys txn mp segs :
  heap_ok (s_heap sys) (hm_arenas mp) (hm_arrays mp) (hm_recs mp) → rollback_ txn = false →
  0 ≤ TransactionManager.time_ m < 2 ^ 63 → 0 ≤ TransactionManager.commit_latch_ m < 2 ^ 64 - 1 →
  2 ^ 63 ≤ finish_time_ txn < 2 ^ 64 →
  Forall2 (segment_filled (hm_arenas mp) (hm_recs mp) (s_heap sys)) (UndoBuffer.buffers_ (undo_buffer_ txn)) segs →
  Forall2 (λ a lens, Forall (next_lands (s_heap sys) a) (seg_recs a lens)) (UndoBuffer.buffers_ (undo_buffer_ txn)) segs →
  let time := TransactionManager.time_ m in
  let stamp := restamp (finish_time_ txn) time in
  ∃ sys', TransactionManager.Commit m sys txn =
      Ret (time, TransactionManager.mkTransactionManager (time + 1) (TransactionManager.commit_latch_ m), sys') ∧
    heap_ok (s_heap sys') (hm_arenas mp) (hm_arrays mp) (hm_recs mp) ∧ s_versions sys' = s_versions sys ∧
    ∀ t psizes page pid idx arr hist, row_state t psizes sys page pid idx mp arr hist →
      (∀ v, v ∈ hist → v_addr v ∈ undo_records segs (UndoBuffer.buffers_ (undo_buffer_ txn)) ↔ v_ts v = finish_time_ txn) →
      row_state t psizes sys' page pid idx mp arr (stamp <$> hist) ∧
      ∀ reader cur, start_time_ reader < time → time ≤ finish_time_ reader → finish_time_ reader ≠ finish_time_ txn →
        finish_time_ reader ≠ time → read_row reader cur (stamp <$> hist) = read_row reader cur hist.
Proof.
  intros Hok Hrb Ht Hl Hf HF HN time stamp.
  pose proof (segments_ok_split _ _ _ _ _ HF HN) as H2. clear HF HN. assert (Htime : 0 ≤ time < 2 ^ 64) by (unfold time; lia).
  destruct (restamp_ok (hm_arenas mp) (hm_arrays mp) (hm_recs mp) time (s_heap sys) (undo_buffer_ txn) segs Hok H2)
    as [HR Hrec].
  set (l := undo_records segs _) in *.
  destruct (stamps_ok (hm_arenas mp) (hm_arrays mp) (hm_recs mp) time Htime (s_heap sys) l Hok Hrec) as (Hok' & Hoff & _).
  exists (set_heap sys (stamps time (s_heap sys) l)). split_and!.
  - unfold TransactionManager.Commit, GetState. rewrite Hrb, DB7_ASSERT_true, bind_Ret by done.
    unfold TimestampManager.CheckOutTimestamp, RestampVersions. cbv zeta. change (TransactionManager.time_ m) with time.
    rewrite HR, !bind_Ret. unfold AdaptiveSpinLock.Lock, AdaptiveSpinLock.Unlock.
    rewrite !(wrap_small 64) by (rewrite ?(wrap_small 64); unfold time; lia). do 4 f_equal. lia.
  - done.
  - done.
  - intros t psizes page pid idx arr hist [L1 L2 L3 L4 L5 L6 L7 L8] Hown.
    assert (Harr : ∀ f, f ∈ hm_arrays mp → same_on (h_mem (s_heap sys)) (h_mem (stamps time (s_heap sys) l)) f).
    { intros f Hfa x Hx. apply Hoff. intros r Hr. destruct (Hrec r Hr) as (n & Hn & Hn40).
      pose proof (rec_array _ _ _ _ Hok _ _ Hn Hfa) as D. unfold disj in D. cbn [fst snd] in D. lia. }
    split.
    + split; try done.
      * destruct L7 as [V1 V2 V3]. by split.
      * assert (Eh : head (stamps time (s_heap sys) l) arr idx = head (s_heap sys) arr idx).
        { unfold head. destruct (Z.eqb_spec arr 0) as [?|Hne]; [done|]. destruct (va_array _ _ _ _ _ _ L7) as [?|(n & Hin & Hn)]; [done|].
          apply (Get_array_same _ _ arr n idx); [by apply Harr|lia|lia]. }
        cbn [set_heap s_heap]. rewrite Eh.
        pose proof (stamps_chain (hm_arenas mp) (hm_arrays mp) (hm_recs mp) time Htime _ _ l _ _ _ Hok Hrec L8) as Hch.
        assert (Em : stamp <$> hist = (λ v, mkVersion (v_addr v) (v_type v) (if decide (v_addr v ∈ l) then time else v_ts v) (v_before v)) <$> hist).
        { apply list_fmap_ext. intros i v Hv. apply list_elem_of_lookup_2 in Hv. unfold stamp, restamp. f_equal.
          destruct (Z.eqb_spec (v_ts v) (finish_time_ txn)) as [E|E]; [rewrite decide_True by (by apply Hown)|rewrite decide_False by (by rewrite Hown)]; done. }
        rewrite Em. exact Hch.
    + intros reader cur R1 R2 R3 R4. unfold read_row. destruct hist as [|v hist]; [done|]. cbn [fmap list_fmap].
      assert (E : (v_ts (stamp v) =? finish_time_ reader) = (v_ts v =? finish_time_ reader)).
      { unfold stamp, restamp. cbn [v_ts]. destruct (Z.eqb_spec (v_ts v) (finish_time_ txn)) as [E|E]; [|done].
        rewrite E. destruct (Z.eqb_spec time (finish_time_ reader)), (Z.eqb_spec (finish_time_ txn) (finish_time_ reader)); congruence. }
      rewrite E. destruct (v_ts v =? finish_time_ reader); [done|].
      apply (read_at_restamp _ cur (finish_time_ txn) time (v :: hist)); [unfold time in *; lia|done].
Qed.

Lemma demo_record : ∃ r n sys' txn' arenas' segs',
    UndoRecordForUpdate demo_queue demo_system (demo_txn 0 (2 ^ 63)) 7 1 0 (demo_chunk 5) = Ret (r, sys', txn') ∧
    heap_ok (s_heap sys') arenas' [] [(r, n)] ∧ rollback_ txn' = false ∧ finish_time_ txn' = 2 ^ 63 ∧
    Forall2 (segment_ok arenas' [(r, n)] (s_heap sys')) (UndoBuffer.buffers_ (undo_buffer_ txn')) segs' ∧
    r ∈ undo_records segs' (UndoBuffer.buffers_ (undo_buffer_ txn')).
Proof.
  destruct (demo_chunk_at 5) as (offs & total & Hc & Ht & _ & Hm).
  assert (Hk : total = 40) by (rewrite <- (co_size _ _ _ _ _ (ca_ok _ _ _ _ _ _ Hc)); by vm_compute).
  destruct (update_record_segments demo_queue demo_system (demo_txn 0 (2 ^ 63)) [] [] [] demo_schema (demo_chunk 5) [1; 2] demo_sizes offs total
    [] 7 1 0 demo_heap) as (r & n & sys' & txn' & arenas' & segs' & H1 & H2 & _ & _ & H3 & _ & _ & _ & H4 & _ & H5);
    [split; cbn; [lia|lia|by intros a ?%not_elem_of_nil]|constructor|exact Hc|lia|by subst total|exact Hm|done|by vm_compute|constructor|constructor|].
  assert (E : match UndoRecordForUpdate demo_queue demo_system (demo_txn 0 (2 ^ 63)) 7 1 0 (demo_chunk 5) with
    | Ret (_, _, txn) => (rollback_ txn, finish_time_ txn) | _ => (true, 0) end = (false, 2 ^ 63)) by by vm_compute.
  rewrite H1 in E. injection E as E1 E2. exists r, n, sys', txn', arenas', segs'. split_and!; [exact H1|exact H2|exact E1|exact E2|exact H4|]. apply H5. by left.
Qed.

Lemma commit_correct_witness : ∃ r sys txn sys' segs, r ∈ undo_records segs (UndoBuffer.buffers_ (undo_buffer_ txn)) ∧
  TransactionManager.Commit (TransactionManager.mkTransactionManager 3 0) sys txn = Ret (3, TransactionManager.mkTransactionManager 4 0, sys').
Proof.
  destruct demo_record as (r & n & sys & txn & arenas & segs & _ & Hok & Hrb & Hf & H2 & Hr). apply segments_ok_parts in H2 as [H2 H3].
  destruct (commit_correct (TransactionManager.mkTransactionManager 3 0) sys txn (mkHeapMap arenas [] [(r, n)]) segs)
    as (sys' & HC & _); [exact Hok|exact Hrb|cbn; lia|cbn; lia|lia|exact H2|exact H3|].
  exists r, sys, txn, sys', segs. exact (conj Hr HC).
Defined.

(** C40: the commit of a transaction whose only record is that of an inserted
    row, in a new arena.  [operator++] adds the word at 44 to the 40 bytes of the
    record; nothing has written it since the memory of the arena was allocated.
    When it is zero the record is stamped with the time of the commit; when it
    takes the iterator out of the arena, [Commit] writes there. *)
Theorem commit_insert_record tdq m sys txn tbl pid idx :
  let r := h_brk (s_heap sys) in
  let w := hload 4 (s_heap sys) (r + 44) in
  let time := TransactionManager.time_ m in
  tdq (ObjectPool.queue_ (s_pool sys)) = None → ObjectPool.curr_size_ (s_pool sys) < ObjectPool.size_limit_ (s_pool sys) →
  r mod 16 = 0 → UndoBuffer.buffers_ (undo_buffer_ txn) = [] → rollback_ txn = false → 0 ≤ finish_time_ txn < 2 ^ 64 →
  0 ≤ time < 2 ^ 63 → 0 ≤ TransactionManager.commit_latch_ m < 2 ^ 64 - 1 →
  ∃ sys1 txn1, UndoRecordForInsert tdq sys txn tbl pid idx = Ret (r, sys1, txn1) ∧
    rec_fields (s_heap sys1) r INSERT (finish_time_ txn) 0 ∧
    (w = 0 → ∃ sys2, TransactionManager.Commit m sys1 txn1 =
       Ret (time, TransactionManager.mkTransactionManager (time + 1) (TransactionManager.commit_latch_ m), sys2) ∧
       rec_fields (s_heap sys2) r INSERT time 0) ∧
    (4036 < w < 2 ^ 32 - 40 → TransactionManager.Commit m sys1 txn1 = Undefined "write past the arena").
Proof.
  intros r w time Hq Hlim Hal Hbuf Hrb Hf Ht Hl.
  set (h1 := single_heap (h_mem (s_heap sys)) r (h_blocks (s_heap sys)) (finish_time_ txn) tbl pid idx).
  set (p1 := ObjectPool.set_curr (s_pool sys) (ObjectPool.curr_size_ (s_pool sys) + 1)).
  set (sys1 := mkSystem h1 p1 (s_versions sys)). set (txn1 := set_undo txn (single_buffer r)).
  assert (H8 : r mod 8 = 0).
  { apply Z.mod_divide; [lia|]. apply Z.mod_divide in Hal as [k Hk]; [|lia]. exists (2 * k). lia. }
  set (h0 := FixedBumpArena.set_size (mkHeap (h_mem (s_heap sys)) (r + 4112) (<[r := FixedBumpArena.sizeof]> (h_blocks (s_heap sys)))) r 0).
  assert (E0 : FixedBumpArena.size_ h0 r = 0) by by apply size_set_size.
  pose proof (Allocate_ok h0 r 40 ltac:(lia)) as HA. rewrite E0, Z.add_0_r in HA. specialize (HA ltac:(lia) ltac:(done)).
  assert (HU : UndoRecordForInsert tdq sys txn tbl pid idx = Ret (r, sys1, txn1)).
  { unfold UndoRecordForInsert, NewUndo, UndoBuffer.NewEntry, UndoBuffer.needs_segment, ObjectPool.Get. rewrite Hbuf. cbn [last]. rewrite Hq.
    rewrite (proj2 (Z.leb_gt _ _)) by (cbn; exact Hlim). unfold FixedBumpArena.make, operator_new. fold r.
    change (r + (FixedBumpArena.sizeof + 15) / 16 * 16) with (r + 4112). fold h0. rewrite !bind_Ret.
    rewrite DB7_ASSERT_true, !bind_Ret by (by apply Z.eqb_eq). cbn [app last]. change UndoRecord.sizeof with 40. rewrite HA.
    rewrite bind_Ret, DB7_ASSERT_true, !bind_Ret by (by apply Z.eqb_eq). done. }
  destruct (initialize_ok (FixedBumpArena.set_size h0 r 40) r INSERT (finish_time_ txn) tbl pid idx Hf) as [Hrec _].
  change (rec_fields h1 r INSERT (finish_time_ txn) 0) in Hrec.
  destruct (single_restamp (h_mem (s_heap sys)) r (h_blocks (s_heap sys)) (finish_time_ txn) tbl pid idx time) as [Hz Hbig]. fold h1 in Hz, Hbig.
  assert (HC : TransactionManager.Commit m sys1 txn1 =
    h ← UndoBuffer.restamp_loop (UndoBuffer.restamp_fuel (single_buffer r)) h1 (single_buffer r) UndoBuffer.begin_ time;
    Ret (time, TransactionManager.mkTransactionManager (time + 1) (TransactionManager.commit_latch_ m), set_heap sys1 h)).
  { unfold TransactionManager.Commit, GetState. cbn [rollback_ set_undo txn1]. rewrite Hrb, DB7_ASSERT_true, bind_Ret by done.
    unfold TimestampManager.CheckOutTimestamp, RestampVersions. cbv zeta. fold time. cbn [undo_buffer_ set_undo txn1 s_heap sys1].
    destruct (UndoBuffer.restamp_loop _ _ _ _ _) as [h| | | |]; try done. rewrite !bind_Ret.
    unfold AdaptiveSpinLock.Lock, AdaptiveSpinLock.Unlock.
    rewrite !(wrap_small 64) by (rewrite ?(wrap_small 64); unfold time in *; lia). do 4 f_equal. lia. }
  exists sys1, txn1. split; [exact HU|]. split; [exact Hrec|]. rewrite HC. split.
  - intros Hw. exists (set_heap sys1 (UndoRecord.SetTimestamp h1 r time)). rewrite (Hz Hw). split; [done|].
    apply (SetTimestamp_ok h1 r INSERT (finish_time_ txn) 0 time); [lia|exact Hrec].
  - intros Hw. by rewrite (Hbig Hw).
Qed.

(** The same transaction over cleared memory and over memory of ones. *)
Lemma commit_insert_record_witness :
  let m := TransactionManager.mkTransactionManager 3 0 in
  let ones := mkSystem (mkHeap (write_bytes ∅ 60 [255; 255]) 16 ∅) (ObjectPool.make 100 100) ∅ in
  (∃ sys1 txn1 sys2, UndoRecordForInsert demo_queue demo_system (demo_txn 0 (2 ^ 63)) 7 1 0 = Ret (16, sys1, txn1) ∧
     TransactionManager.Commit m sys1 txn1 = Ret (3, TransactionManager.mkTransactionManager 4 0, sys2)) ∧
  (∃ sys1 txn1, UndoRecordForInsert demo_queue ones (demo_txn 0 (2 ^ 63)) 7 1 0 = Ret (16, sys1, txn1) ∧
     TransactionManager.Commit m sys1 txn1 = Undefined "write past the arena").
Proof.
  intros m ones. split.
  - destruct (commit_insert_record demo_queue m demo_system (demo_txn 0 (2 ^ 63)) 7 1 0)
      as (sys1 & txn1 & H1 & _ & H2 & _); [done|by vm_compute|done|by vm_compute|by vm_compute|by vm_compute|cbn; lia|cbn; lia|].
    destruct H2 as (sys2 & H2 & _); [by vm_compute|]. by exists sys1, txn1, sys2.
  - destruct (commit_insert_record demo_queue m ones (demo_txn 0 (2 ^ 63)) 7 1 0)
      as (sys1 & txn1 & H1 & _ & _ & H2); [done|by vm_compute|done|by vm_compute|by vm_compute|by vm_compute|cbn; lia|cbn; lia|].
    exists sys1, txn1. split; [exact H1|]. apply H2. by vm_compute.
Defined.
