(* ===== verification/StorageTheorems.v ===== *)
(** * Theorems on the storage layouts: chunks, table pages and free space *)

From stdpp Require Import strings.
From S2P Require Import Prelude Bytes Shared Memory AccessTypes DataChunk Fsm Pax ChunkUtils.
From S2P Require Import TableTheorems.

(** ** Table pages *)

(** C24: the layout computed for any columns of 1, 2, 4, 8 and 16 bytes that fit
    a page is sound: every cell of every row below the maximum lies after the
    delete bitmap and inside the page, is aligned to its size, and is apart
    from every other cell; the bitmap has a bit for every row. *)
Theorem pax_layout_correct sizes :
  Forall valid_size sizes → HEADER_SIZE + pads sizes ≤ DB7_PAGE_SIZE → 0 < zsum sizes ≤ DB7_PAGE_SIZE →
  let l := PaxLayout.make sizes in
  (∀ (col : nat) row s, sizes !! col = Some s → 0 ≤ row < PaxLayout.GetMaxRowCount l →
     ∃ o, PaxLayout.CalcOffset l row (Z.of_nat col) = Ret o ∧ bitmap_end sizes ≤ o ∧ o + s ≤ DB7_PAGE_SIZE ∧ o mod s = 0) ∧
  (∀ (col col' : nat) row row' s s' o o', sizes !! col = Some s → sizes !! col' = Some s' →
     0 ≤ row < PaxLayout.GetMaxRowCount l → 0 ≤ row' < PaxLayout.GetMaxRowCount l →
     PaxLayout.CalcOffset l row (Z.of_nat col) = Ret o → PaxLayout.CalcOffset l row' (Z.of_nat col') = Ret o' →
     (col, row) ≠ (col', row') → o + s ≤ o' ∨ o' + s' ≤ o) ∧
  (∀ row, 0 ≤ row < PaxLayout.GetMaxRowCount l → HEADER_SIZE ≤ HEADER_SIZE + row / 8 < bitmap_end sizes).
Proof.
  intros Hv Hp Hz l. destruct (make_ok sizes Hv Hp Hz) as (Hl & Hmax & Hb). fold l in Hl.
  assert (E : PaxLayout.GetMaxRowCount l = max_rows sizes) by (destruct Hl; done). rewrite E. split_and!.
  - intros col row s Hs Hr. destruct (cell_ok sizes l Hl Hmax col row s Hs Hr) as (o & H1 & H2 & H3 & H4 & _). by exists o.
  - intros col col' row row' s s' o o'. apply (cells_disjoint sizes l Hl Hmax).
  - intros row Hr. unfold bitmap_end. pose proof (Z.div_pos row 8). split; [lia|].
    assert (row / 8 < (max_rows sizes + 7) / 8); [|lia]. pose proof (Z.div_mod row 8). pose proof (Z.mod_pos_bound row 8).
    pose proof (Z.div_mod (max_rows sizes + 7) 8). pose proof (Z.mod_pos_bound (max_rows sizes + 7) 8). lia.
Qed.

Definition three_sizes : list Z := [4; 16; 1].

Lemma three_sizes_valid : Forall valid_size three_sizes.
Proof. apply (bool_decide_unpack _). by vm_compute. Qed.

Lemma pax_layout_correct_witness :
  PaxLayout.GetMaxRowCount (PaxLayout.make three_sizes) = 386 ∧
  ∃ o, PaxLayout.CalcOffset (PaxLayout.make three_sizes) 300 1 = Ret o ∧ bitmap_end three_sizes ≤ o ∧ o + 16 ≤ DB7_PAGE_SIZE ∧ o mod 16 = 0.
Proof.
  split; [by vm_compute|]. refine (proj1 (pax_layout_correct three_sizes three_sizes_valid _ _) 1%nat 300 16 _ _).
  - by vm_compute.
  - split; by vm_compute.
  - done.
  - split; by vm_compute.
Defined.

(** C25: the undo delta of an update is exact: [UpdateSingle] leaves the new
    values in the row and the old ones in the delta, so that a reader that
    copies any columns of the row and merges the delta has the row as it was
    before the update. *)
Theorem update_merge_roundtrip s psizes l c delta ids sizes offs total data idx r rids rsizes roffs rtotal :
  layout_ok psizes l → 0 ≤ max_rows psizes → schema_layout s psizes → 0 ≤ idx < max_rows psizes →
  chunk_at s c ids sizes offs total → chunk_at s delta ids sizes offs total → chunk_at s r rids rsizes roffs rtotal →
  ∃ delta' data' r1 r2,
    ChunkUtils.UpdateSingle s l c delta data idx = Ret (delta', data') ∧
    (row_val s psizes l data' idx <$> ids) = vals c offs sizes ∧
    (∀ id, id ∉ ids → row_val s psizes l data' idx id = row_val s psizes l data idx id) ∧
    ChunkUtils.ReadSingleIntoChunk s l r data' idx = Ret r1 ∧ vals r1 roffs rsizes = row_val s psizes l data' idx <$> rids ∧
    ChunkUtils.Merge s r1 delta' = Ret r2 ∧ vals r2 roffs rsizes = row_val s psizes l data idx <$> rids.
Proof.
  intros Hl Hmax Hs Hi Hc Hd Hr.
  destruct (UpdateSingle_ok s psizes l Hl Hmax Hs c delta ids sizes offs total data idx Hc Hd Hi)
    as (delta' & data' & E1 & Hd' & Hv & _ & Hnew & Hf & _).
  destruct (ReadSingleIntoChunk_ok s psizes l Hl Hmax Hs r rids rsizes roffs rtotal data' idx Hr Hi) as (r1 & E2 & Hr1 & Hv1).
  destruct (Merge_ok s r1 rids rsizes roffs rtotal _ _ delta' ids sizes offs total Hr1 Hv1 Hd' Hv) as (r2 & E3 & _ & Hv2).
  assert (Hrest : ∀ id, id ∉ ids → row_val s psizes l data' idx id = row_val s psizes l data idx id) by (intros id Hid; apply Hf; [by left|done]).
  exists delta', data', r1, r2. split_and!; try done. rewrite Hv2. apply list_fmap_ext. intros i id _.
  destruct (decide (id ∈ ids)); [done|by apply Hrest].
Qed.

Lemma update_merge_roundtrip_witness : ∃ offs delta' data' r1 r2,
    ChunkUtils.UpdateSingle demo_schema (Table.Table.layout_ demo_table) (demo_chunk 5) (demo_chunk 0) ∅ 3 = Ret (delta', data') ∧
    ChunkUtils.ReadSingleIntoChunk demo_schema (Table.Table.layout_ demo_table) (demo_chunk 9) data' 3 = Ret r1 ∧
    ChunkUtils.Merge demo_schema r1 delta' = Ret r2 ∧
    vals r2 offs demo_sizes = row_val demo_schema demo_sizes (Table.Table.layout_ demo_table) ∅ 3 <$> [1; 2].
Proof.
  destruct (demo_chunk_at 5) as (o1 & t1 & H1 & _). destruct (demo_chunk_at 0) as (o0 & t0 & H0 & _).
  destruct (demo_chunk_at 9) as (o2 & t2 & H2 & _). destruct demo_layout as (Hl & Hm & E).
  assert (Eo : o0 = o1 ∧ t0 = t1).
  { pose proof (ca_ok _ _ _ _ _ _ H0) as K0. pose proof (ca_ok _ _ _ _ _ _ H1) as K1. split.
    - pose proof (placed_length _ _ _ _ (co_placed _ _ _ _ _ K0)) as L0. pose proof (placed_length _ _ _ _ (co_placed _ _ _ _ _ K1)) as L1.
      cbn in L0, L1. apply list_eq. intros i. destruct (o0 !! i) as [x|] eqn:X, (o1 !! i) as [y|] eqn:Y; [| | |reflexivity].
      + rewrite <- (co_access _ _ _ _ _ K0 i x X), <- (co_access _ _ _ _ _ K1 i y Y).
        apply lookup_lt_Some in X. destruct i as [|[|i]]; [vm_compute; reflexivity|vm_compute; reflexivity|lia].
      + exfalso. apply lookup_lt_Some in X. apply lookup_ge_None in Y. lia.
      + exfalso. apply lookup_lt_Some in Y. apply lookup_ge_None in X. lia.
    - rewrite <- (co_size _ _ _ _ _ K0), <- (co_size _ _ _ _ _ K1). vm_compute. reflexivity. }
  destruct Eo as [-> ->].
  destruct (update_merge_roundtrip demo_schema demo_sizes (Table.Table.layout_ demo_table) (demo_chunk 5) (demo_chunk 0) [1; 2] demo_sizes o1 t1 ∅ 3
    (demo_chunk 9) [1; 2] demo_sizes o2 t2 Hl Hm demo_schema_layout ltac:(rewrite E; lia) H1 H0 H2)
    as (delta' & data' & r1 & r2 & E1 & _ & _ & E2 & _ & E3 & E4).
  exists o2, delta', data', r1, r2. exact (conj E1 (conj E2 (conj E3 E4))).
Defined.

(** ** Data chunks *)

(** A chunk made for any columns gives every column a place of its size
    inside the chunk: [Write] then [Get] finds the bytes written and touches no
    other column; for a column the chunk does not have, [Write] does nothing
    and [Get] throws. *)
Theorem chunk_write_get ids sizes dest :
  Forall valid_size sizes → length sizes = length ids → Forall (λ id, 0 ≤ id < 2 ^ 32) ids →
  Z.of_nat (length ids) ≤ 2000 → NoDup ids →
  ∃ l, DataChunkLayout_make ids sizes = Ret l ∧
    let c := CreateDataChunk l dest in
    Chunk.GetColumnIds c = ids ∧
    (∀ (i : nat) id s v, ids !! i = Some id → sizes !! i = Some s → Z.of_nat (length v) = s →
       let c' := Chunk.Write c id v in
       ∃ o, Chunk.Get c id = Ret o ∧ Chunk.Get c' id = Ret o ∧ o + s ≤ Chunk.GetSize c ∧ read_bytes c' o (length v) = v ∧
         Chunk.GetColumnIds c' = ids ∧
         ∀ (j : nat) id' s', j ≠ i → ids !! j = Some id' → sizes !! j = Some s' →
           ∃ o', Chunk.Get c id' = Ret o' ∧ Chunk.Get c' id' = Ret o' ∧
             read_bytes c' o' (Z.to_nat s') = read_bytes c o' (Z.to_nat s')) ∧
    (∀ id v, id ∉ ids → Chunk.Write c id v = c ∧ ∃ what, Chunk.Get c id = Throw what).
Proof.
  intros Hv Hl Hid Hn Hnd.
  destruct (layout_make_ok ids sizes Hv Hl Hid Hn) as (l & total & E & _ & _ & _ & _ & _ & Hk). exists l. split; [done|].
  intros c. specialize (Hk dest). fold c in Hk. set (offs := field_offsets _ _) in Hk.
  assert (Hlen : Z.of_nat (length ids) < 2 ^ 32) by lia. split_and!.
  - apply (co_ids _ _ _ _ _ Hk).
  - intros i id s v Hi Hs Hlv c'. destruct (chunk_field c ids sizes offs total Hk i id Hi) as (o & s0 & Ho & Hs0).
    assert (Ec : c' = write_bytes c o v) by (apply (Write_ok c ids sizes offs total Hk Hnd i id o v Hi Ho)).
    destruct (write_field c ids sizes offs total Hk Hlen i o s v Ho Hs ltac:(lia)) as (W1 & W2 & W3). rewrite <- Ec in W1, W2, W3.
    destruct (placed_lookup _ _ _ _ _ _ _ (co_placed _ _ _ _ _ Hk) Ho Hs) as (_ & _ & P3 & _).
    exists o. split_and!.
    + by apply (ChunkGet_ok c ids sizes offs total Hk Hnd i).
    + by apply (ChunkGet_ok c' ids sizes offs total W1 Hnd i).
    + rewrite (co_size _ _ _ _ _ Hk). lia.
    + done.
    + apply (co_ids _ _ _ _ _ W1).
    + intros j id' s' Hj Hid' Hs'. destruct (chunk_field c ids sizes offs total Hk j id' Hid') as (o' & s1 & Ho' & Hs1).
      exists o'. split_and!; [by apply (ChunkGet_ok c ids sizes offs total Hk Hnd j)|by apply (ChunkGet_ok c' ids sizes offs total W1 Hnd j)|].
      by apply (W3 j).
  - intros id v Hid'. split; [|destruct (Get_missing c ids sizes offs total Hk id Hid') as [w Hw]; by exists w].
    unfold Chunk.Write. rewrite (co_ids _ _ _ _ _ Hk).
    assert (En : ∀ k l, id ∉ l → Chunk.find_column l k id = None); [|by rewrite En].
    clear. intros k l; revert k; induction l as [|x l IH]; intros k Hn; cbn; [done|].
    apply not_elem_of_cons in Hn as [Hx Hn]. rewrite (proj2 (Z.eqb_neq x id)); [by apply IH|congruence].
Qed.

Lemma chunk_write_get_witness : ∃ l, DataChunkLayout_make [7; 9; 11] three_sizes = Ret l ∧
  (∀ v, Z.of_nat (length v) = 16 → ∃ o, Chunk.Get (Chunk.Write (CreateDataChunk l ∅) 9 v) 9 = Ret o ∧
     read_bytes (Chunk.Write (CreateDataChunk l ∅) 9 v) o (length v) = v) ∧
  ∃ what, Chunk.Get (CreateDataChunk l ∅) 8 = Throw what.
Proof.
  destruct (chunk_write_get [7; 9; 11] three_sizes ∅ three_sizes_valid) as (l & E & _ & H1 & H2).
  - done.
  - repeat (apply Forall_cons; split; [lia|]). constructor.
  - cbn. lia.
  - apply (bool_decide_unpack _). by vm_compute.
  - exists l. split; [exact E|]. split.
    + intros v Hv. destruct (H1 1%nat 9 16 v eq_refl eq_refl Hv) as (o & _ & G1 & _ & G2 & _). exists o. exact (conj G1 G2).
    + apply (H2 8 []). apply (bool_decide_unpack _). by vm_compute.
Defined.

(** ** Where rows go *)

(** The rows of a table among the requests to the free space manager (marked
    [true]; the others are of other tables) that went to page [p]. *)
Definition rows_on (p : Z) (pages : list Z) (reqs : list (bool * Z)) : Z :=
  zsum (zip_with (λ q r, if r.1 && (q =? p) then 1 else 0) pages reqs).

Lemma rows_space p pages reqs c :
  0 ≤ c → Forall (λ r, 0 ≤ r.2 ∧ (r.1 = true → c ≤ r.2)) reqs →
  0 ≤ rows_on p pages reqs ∧ rows_on p pages reqs * c ≤ space_on p pages (reqs.*2).
Proof.
  intros Hc H. revert pages; induction H as [|[mine z] reqs [Hz Hm] _ IH]; intros [|q pages]; try (cbn; lia).
  destruct (IH pages) as [I1 I2]. unfold rows_on in *. cbn [zip_with fmap list_fmap fst snd] in *. rewrite zsum_cons, space_on_cons.
  destruct mine; cbn [andb]; destruct (q =? p); cbn in *; specialize (Hm eq_refl) || clear Hm; lia.
Qed.

(** The page the space manager picks for a row is never full: among any
    requests of any tables, fewer rows of a table than its pages can hold go to
    one page, so that the assertion of [IncrementHeaderCount] holds for each of
    them. *)
Theorem insert_never_overfills sizes reqs p data :
  Forall valid_size sizes → sizes ≠ [] → zsum sizes ≤ 1100 →
  Forall (λ r, 0 ≤ r.2 ≤ PAYLOAD_SIZE ∧ (r.1 = true → row_chunk_size sizes ≤ r.2)) reqs →
  1 + Z.of_nat (length reqs) < 2 ^ 32 → mem_ok data →
  let pages := (FreeSpaceManager.GetAll FreeSpaceManager.init (reqs.*2)).1 in
  rows_on p pages reqs < PaxLayout.GetMaxRowCount (PaxLayout.make sizes) ∧
  (PaxLayout.header_count data < rows_on p pages reqs →
   ∃ data', PaxLayout.IncrementHeaderCount (PaxLayout.make sizes) data 1 = Ret (data', PaxLayout.header_count data) ∧
     PaxLayout.header_count data' = PaxLayout.header_count data + 1).
Proof.
  intros Hv Hne Hz Hr Hn Hmem pages. destruct (sizes_nonneg sizes Hv) as [Hs Hp].
  assert (Hc : 0 ≤ row_chunk_size sizes) by (unfold row_chunk_size; lia).
  destruct (rows_space p pages reqs (row_chunk_size sizes) Hc) as [R1 R2].
  { eapply Forall_impl; [exact Hr|]. cbn. intros r [[? ?] ?]. done. }
  assert (Hsp : space_on p pages (reqs.*2) ≤ PAYLOAD_SIZE).
  { transitivity (capacity FreeSpaceManager.init p).
    - apply GetAll_space; rewrite ?length_fmap; [|unfold FreeSpaceManager.init, PAYLOAD_SIZE, DB7_PAGE_SIZE, HEADER_SIZE; cbn; lia|cbn; lia|cbn; lia].
      apply Forall_fmap. eapply Forall_impl; [exact Hr|]. cbn. tauto.
    - unfold capacity. cbn. destruct (p =? 1), (1 <? p); unfold PAYLOAD_SIZE, DB7_PAGE_SIZE, HEADER_SIZE; lia. }
  assert (Hmax : rows_on p pages reqs < max_rows sizes).
  { apply (rows_below_max sizes (row_chunk_size sizes)); [done|done|done|lia|done|]. lia. }
  assert (Hz1 : 1 ≤ zsum sizes ∧ pads sizes ≤ zsum sizes).
  { destruct Hv as [|x l Hx Hl]; [done|]. destruct (sizes_nonneg l Hl) as [? _]. destruct (valid_size_pow2 x Hx) as (_ & _ & _ & ?).
    rewrite pads_cons, zsum_cons. split; [lia|].
    assert (Hpl : pads l ≤ zsum l); [|lia]. clear -Hl. induction Hl as [|y l Hy _ IH]; [cbn; lia|]. rewrite pads_cons, zsum_cons. lia. }
  destruct (make_ok sizes Hv) as (Hl & Hm0 & Hb); [unfold HEADER_SIZE, DB7_PAGE_SIZE; lia|unfold DB7_PAGE_SIZE; lia|].
  assert (E : PaxLayout.GetMaxRowCount (PaxLayout.make sizes) = max_rows sizes) by (destruct Hl; done).
  split; [by rewrite E|]. intros Hcount. pose proof (load_range 4 data 0 Hmem) as Hld. fold (PaxLayout.header_count data) in Hld.
  unfold PaxLayout.IncrementHeaderCount. cbv zeta. unfold PaxLayout.GetMaxRowCount in E.
  assert (Hbig : max_rows sizes ≤ 65504).
  { unfold max_rows, DB7_PAGE_SIZE, HEADER_SIZE. apply Z.div_le_upper_bound; [lia|]. nia. }
  rewrite (wrap_small 32) by lia.
  assert (Eh : PaxLayout.header_count (store 4 data 0 (PaxLayout.header_count data + 1)) = PaxLayout.header_count data + 1).
  { unfold PaxLayout.header_count at 1. rewrite load_store_same. apply Z.mod_small. change (256 ^ Z.of_nat 4) with (2 ^ 32). lia. }
  rewrite DB7_ASSERT_true, bind_Ret by (rewrite Eh, E; apply Z.ltb_lt; lia). eexists. split; [done|exact Eh].
Qed.

Lemma insert_never_overfills_witness :
  let reqs := replicate 300 (true, 50) in
  rows_on 1 (FreeSpaceManager.GetAll FreeSpaceManager.init (reqs.*2)).1 reqs = 163 ∧
  rows_on 1 (FreeSpaceManager.GetAll FreeSpaceManager.init (reqs.*2)).1 reqs < PaxLayout.GetMaxRowCount (PaxLayout.make three_sizes).
Proof.
  intros reqs. split; [by vm_compute|].
  refine (proj1 (insert_never_overfills three_sizes reqs 1 ∅ three_sizes_valid _ _ _ _ mem_ok_empty)).
  - done.
  - by vm_compute.
  - apply (bool_decide_unpack _). by vm_compute.
  - by vm_compute.
Defined.
