(* ===== verification/Locks.v ===== *)
(** * Page locks: [AdaptiveVersionLock] and the optimistic sections

    [adaptive_version_lock.hpp] and the [Lock]/[Unlock] templates of
    [thread_local_util.hpp], as a machine whose steps are the atomic operations
    of the threads that share one page: the sequence counter [seq], the
    [std::shared_mutex] [rw_mtx] and the bytes the lock protects.  Atomics are
    sequentially consistent and a step that would block is not enabled. *)

From S2P Require Import Prelude Bytes Memory.

(** [std::shared_mutex]: the thread that holds it exclusively, and those that
    share it. *)
Record shared_mutex := mkMutex { owner : option nat; sharers : gset nat }.

(** ** The lock *)
Module AdaptiveVersionLock.

Record AdaptiveVersionLock := mkLock { seq : Z; rw_mtx : shared_mutex }.

Definition make : AdaptiveVersionLock := mkLock 0 (mkMutex None ∅).

(** [seq.fetch_add(1)]. *)
Definition fetch_add (l : AdaptiveVersionLock) : AdaptiveVersionLock := mkLock (to_u64 (seq l + 1)) (rw_mtx l).

(** [rw_mtx.lock()] and the other calls of the mutex; [None] blocks. *)
Definition mtx_lock (l : AdaptiveVersionLock) (t : nat) : option AdaptiveVersionLock :=
  if bool_decide (owner (rw_mtx l) = None ∧ sharers (rw_mtx l) = ∅)
  then Some (mkLock (seq l) (mkMutex (Some t) ∅)) else None.

Definition mtx_unlock (l : AdaptiveVersionLock) : AdaptiveVersionLock :=
  mkLock (seq l) (mkMutex None (sharers (rw_mtx l))).

Definition ReadLock (l : AdaptiveVersionLock) (t : nat) : option AdaptiveVersionLock :=
  if bool_decide (owner (rw_mtx l) = None)
  then Some (mkLock (seq l) (mkMutex None ({[t]} ∪ sharers (rw_mtx l)))) else None.

Definition ReadUnlock (l : AdaptiveVersionLock) (t : nat) : AdaptiveVersionLock :=
  mkLock (seq l) (mkMutex (owner (rw_mtx l)) (sharers (rw_mtx l) ∖ {[t]})).

(** The version is an out parameter. *)
Definition ReadOptimistic (l : AdaptiveVersionLock) : Z * bool := (seq l, Z.land (seq l) 1 =? 0).

Definition Validate (l : AdaptiveVersionLock) (version : Z) : bool := seq l =? version.
End AdaptiveVersionLock.

(** ** The page as its threads see it *)

(** Where a thread is in [WriteLock], the writes and [WriteUnlock], or in a
    read-locked section. *)
Inductive pc := Idle | Acquired | Writing | Released | Reading.

#[export] Instance pc_eq_dec : EqDecision pc.
Proof. solve_decision. Defined.

Record page_state := mkPageState {
  lock_ : AdaptiveVersionLock.AdaptiveVersionLock;
  bytes_ : mem;
  pcs : gmap nat pc
}.

Definition pc_of (s : page_state) (t : nat) : pc := default Idle (pcs s !! t).

Definition initial (data : mem) : page_state := mkPageState AdaptiveVersionLock.make data ∅.

(** [WriteLock] is [AMutex] then [AEnter], [WriteUnlock] is [ALeave] then
    [ARelease]; a store writes a byte of the page. *)
Inductive action := AMutex | AEnter | AStore (a v : Z) | ALeave | ARelease | ARead | AReadDone.

#[export] Instance action_eq_dec : EqDecision action.
Proof. solve_decision. Defined.

Definition step (t : nat) (a : action) (s : page_state) : option page_state :=
  let l := lock_ s in
  let go l data p := Some (mkPageState l data (<[t := p]> (pcs s))) in
  match a, pc_of s t with
  | AMutex, Idle => l ← AdaptiveVersionLock.mtx_lock l t; go l (bytes_ s) Acquired
  | AEnter, Acquired => go (AdaptiveVersionLock.fetch_add l) (bytes_ s) Writing
  | AStore a v, Writing => go l (<[a := v]> (bytes_ s)) Writing
  | ALeave, Writing => go (AdaptiveVersionLock.fetch_add l) (bytes_ s) Released
  | ARelease, Released => go (AdaptiveVersionLock.mtx_unlock l) (bytes_ s) Idle
  | ARead, Idle => l ← AdaptiveVersionLock.ReadLock l t; go l (bytes_ s) Reading
  | AReadDone, Reading => go (AdaptiveVersionLock.ReadUnlock l t) (bytes_ s) Idle
  | _, _ => None
  end.

(** A schedule. *)
Fixpoint exec (tr : list (nat * action)) (s : page_state) : option page_state :=
  match tr with
  | [] => Some s
  | (t, a) :: tr => s ← step t a s; exec tr s
  end.

(** ** The thread-local state of an optimistic section *)
Module TlLock.

Record TlState := mkTlState { version_ : Z; tries_ : Z }.

Definition MAX_OPTIMISTIC_TRIES : Z := 1.

Definition SetVersion (tl : TlState) (v : Z) : TlState := mkTlState v (tries_ tl).
Definition IncrementTries (tl : TlState) : TlState := mkTlState (version_ tl) (to_u32 (tries_ tl + 1)).
Definition Clear : TlState := mkTlState 0 0.

(** The loop of [Lock<Optimistic>]: the version read last and whether the loop
    read it even.  The i-th load sees the lock [loads i]. *)
Fixpoint lock_loop (fuel : nat) (loads : nat → AdaptiveVersionLock.AdaptiveVersionLock) (tl : TlState) (ver : Z)
  : TlState * Z :=
  match fuel with
  | O => (tl, ver)
  | S fuel =>
      if tries_ tl <? MAX_OPTIMISTIC_TRIES then
        let '(ver, ok) := AdaptiveVersionLock.ReadOptimistic (loads 0%nat) in
        if ok then (tl, ver) else lock_loop fuel (λ i, loads (S i)) (IncrementTries tl) ver
      else (tl, ver)
  end.

Definition lock_fuel : nat := S (Z.to_nat MAX_OPTIMISTIC_TRIES).

(** [Lock<Optimistic>] up to [RDataLock], and whether it takes that lock. *)
Definition Lock_begin (loads : nat → AdaptiveVersionLock.AdaptiveVersionLock) (tl : TlState) : TlState * bool :=
  let '(tl, ver) := lock_loop lock_fuel loads tl 0 in
  let tl := SetVersion tl ver in
  (tl, MAX_OPTIMISTIC_TRIES <=? tries_ tl).

(** [Unlock<Optimistic>]: [None] if its step is not enabled. *)
Definition Unlock (t : nat) (tl : TlState) (s : page_state) : option (bool * TlState * page_state) :=
  if MAX_OPTIMISTIC_TRIES <=? tries_ tl then
    s ← step t AReadDone s; Some (true, tl, s)
  else if negb (AdaptiveVersionLock.Validate (lock_ s) (version_ tl)) then Some (false, IncrementTries tl, s)
  else Some (true, tl, s).
End TlLock.

(** ** Invariant *)

(** The mutex tells who is in the sections it protects, and the counter is odd
    while a thread is between its two increments. *)
Record lock_inv (s : page_state) : Prop := {
  li_owner : ∀ t, owner (AdaptiveVersionLock.rw_mtx (lock_ s)) = Some t ↔ pc_of s t ∈ [Acquired; Writing; Released];
  li_sharers : ∀ t, t ∈ sharers (AdaptiveVersionLock.rw_mtx (lock_ s)) ↔ pc_of s t = Reading;
  li_excl : owner (AdaptiveVersionLock.rw_mtx (lock_ s)) = None ∨ sharers (AdaptiveVersionLock.rw_mtx (lock_ s)) = ∅;
  li_seq : 0 ≤ AdaptiveVersionLock.seq (lock_ s) < 2 ^ 64;
  li_odd : Z.odd (AdaptiveVersionLock.seq (lock_ s)) = true ↔ ∃ t, pc_of s t = Writing
}.

Lemma pc_of_insert s l data t p t' :
  pc_of (mkPageState l data (<[t := p]> (pcs s))) t' = if decide (t' = t) then p else pc_of s t'.
Proof.
  unfold pc_of. cbn. destruct (decide (t' = t)) as [->|Hne]; [by rewrite lookup_insert_eq|by rewrite lookup_insert_ne].
Qed.

Lemma odd_wrap x : Z.odd (to_u64 (x + 1)) = negb (Z.odd x).
Proof.
  unfold wrap. rewrite <- Z.bit0_odd, Z.mod_pow2_bits_low by lia. rewrite Z.bit0_odd, Z.odd_add. by destruct (Z.odd x).
Qed.

Lemma lock_inv_initial data : lock_inv (initial data).
Proof.
  assert (E : ∀ t, pc_of (initial data) t = Idle) by (intros t; unfold pc_of, initial; cbn; by rewrite lookup_empty).
  split; cbn; [| |by left|lia|].
  - intros t. rewrite E. split; [done|]. rewrite !elem_of_cons, elem_of_nil. naive_solver.
  - intros t. rewrite E. set_solver.
  - split; [done|]. intros (t & Ht). by rewrite E in Ht.
Qed.

(** The pcs of the sections under the exclusive lock. *)
Lemma in_write_pcs p : p ∈ [Acquired; Writing; Released] ↔ p = Acquired ∨ p = Writing ∨ p = Released.
Proof. rewrite !elem_of_cons, elem_of_nil. tauto. Qed.

Lemma writing_owner s t : lock_inv s → pc_of s t = Writing → owner (AdaptiveVersionLock.rw_mtx (lock_ s)) = Some t.
Proof. intros Hi Hp. apply (li_owner _ Hi), in_write_pcs. tauto. Qed.

Lemma no_other_writer s t t' : lock_inv s → pc_of s t ∈ [Acquired; Writing; Released] → t' ≠ t → pc_of s t' ∉ [Acquired; Writing; Released].
Proof. intros Hi Ht Hne Ht'. apply (li_owner _ Hi) in Ht, Ht'. congruence. Qed.

(** A step of the thread that owns the mutex, which stays the owner. *)
Lemma lock_inv_section s t l data p :
  lock_inv s → pc_of s t ∈ [Acquired; Writing; Released] → p ∈ [Acquired; Writing; Released] →
  AdaptiveVersionLock.rw_mtx l = AdaptiveVersionLock.rw_mtx (lock_ s) →
  0 ≤ AdaptiveVersionLock.seq l < 2 ^ 64 → (Z.odd (AdaptiveVersionLock.seq l) = true ↔ p = Writing) →
  lock_inv (mkPageState l data (<[t := p]> (pcs s))).
Proof.
  intros Hi Ht Hp Hm Hr Ho. pose proof (proj2 (li_owner _ Hi t) Ht) as Hown.
  split; cbn [lock_]; rewrite ?Hm; [| |apply (li_excl _ Hi)|done|].
  - intros t'. rewrite pc_of_insert. destruct (decide (t' = t)) as [->|Hne]; [tauto|apply (li_owner _ Hi)].
  - intros t'. rewrite pc_of_insert. destruct (decide (t' = t)) as [->|Hne]; [|apply (li_sharers _ Hi)].
    rewrite (li_sharers _ Hi). apply in_write_pcs in Ht, Hp. split; intros; naive_solver congruence.
  - rewrite Ho. split; [intros ->; exists t; rewrite pc_of_insert; by rewrite decide_True|].
    intros (t' & Ht'). rewrite pc_of_insert in Ht'. destruct (decide (t' = t)); [done|].
    exfalso. apply (no_other_writer s t t' Hi Ht); [done|]. rewrite Ht'. apply in_write_pcs. tauto.
Qed.

(** A step outside a writing section that moves the mutex. *)
Lemma lock_inv_mutex s t m p :
  lock_inv s → pc_of s t ≠ Writing → p ≠ Writing →
  (∀ t', owner m = Some t' ↔ (if decide (t' = t) then p else pc_of s t') ∈ [Acquired; Writing; Released]) →
  (∀ t', t' ∈ sharers m ↔ (if decide (t' = t) then p else pc_of s t') = Reading) →
  owner m = None ∨ sharers m = ∅ →
  lock_inv (mkPageState (AdaptiveVersionLock.mkLock (AdaptiveVersionLock.seq (lock_ s)) m) (bytes_ s) (<[t := p]> (pcs s))).
Proof.
  intros Hi Ht Hp H1 H2 H3. split; cbn [lock_ AdaptiveVersionLock.rw_mtx AdaptiveVersionLock.seq]; [| |done|apply (li_seq _ Hi)|].
  - intros t'. rewrite pc_of_insert. apply H1.
  - intros t'. rewrite pc_of_insert. apply H2.
  - rewrite (li_odd _ Hi). split; intros (t' & Ht'); exists t'; rewrite pc_of_insert in *; destruct (decide (t' = t)) as [->|]; done.
Qed.

Lemma lock_inv_step s t a s' : lock_inv s → step t a s = Some s' → lock_inv s'.
Proof.
  intros Hi H. unfold step in H. pose proof (li_owner _ Hi) as Hown. pose proof (li_sharers _ Hi) as Hsh.
  pose proof (li_seq _ Hi) as Hseq. pose proof (li_odd _ Hi) as Hodd. pose proof (li_excl _ Hi) as Hex.
  destruct a, (pc_of s t) eqn:Hp; try discriminate H; try (injection H as <-).
  - unfold AdaptiveVersionLock.mtx_lock in H. case_bool_decide as Hb; [|done]. injection H as <-. destruct Hb as [Hn Hz].
    apply lock_inv_mutex; cbn; [done|congruence|done| | |by right].
    + intros t'. rewrite in_write_pcs. destruct (decide (t' = t)) as [->|Hne]; [tauto|]. rewrite <- in_write_pcs, <- Hown, Hn.
      split; congruence.
    + intros t'. destruct (decide (t' = t)) as [->|Hne]; [set_solver|]. rewrite <- Hsh. set_solver.
  - apply lock_inv_section; [done|rewrite Hp; apply in_write_pcs; tauto|apply in_write_pcs; tauto|done|by apply wrap_range|].
    cbn [AdaptiveVersionLock.fetch_add AdaptiveVersionLock.seq]. rewrite odd_wrap.
    destruct (Z.odd (AdaptiveVersionLock.seq (lock_ s))) eqn:E; [|done]. exfalso. destruct (proj1 Hodd eq_refl) as (t' & Ht').
    apply (no_other_writer s t t' Hi); [rewrite Hp; apply in_write_pcs; tauto|congruence|rewrite Ht'; apply in_write_pcs; tauto].
  - apply lock_inv_section; [done|rewrite Hp; apply in_write_pcs; tauto|apply in_write_pcs; tauto|done|done|].
    split; [done|]. intros _. apply Hodd. by exists t.
  - apply lock_inv_section; [done|rewrite Hp; apply in_write_pcs; tauto|apply in_write_pcs; tauto|done|by apply wrap_range|].
    cbn [AdaptiveVersionLock.fetch_add AdaptiveVersionLock.seq]. rewrite odd_wrap.
    rewrite (proj2 Hodd) by (by exists t). done.
  - assert (Ho : owner (AdaptiveVersionLock.rw_mtx (lock_ s)) = Some t) by (apply Hown; rewrite Hp; apply in_write_pcs; tauto).
    destruct Hex as [Hex|Hex]; [congruence|].
    apply lock_inv_mutex; cbn; [done|congruence|done| | |by left].
    + intros t'. destruct (decide (t' = t)) as [->|Hne]; [rewrite in_write_pcs; naive_solver|]. rewrite <- Hown, Ho. split; congruence.
    + intros t'. destruct (decide (t' = t)) as [->|Hne]; [set_solver|]. apply Hsh.
  - unfold AdaptiveVersionLock.ReadLock in H. case_bool_decide as Hb; [|done]. injection H as <-.
    apply lock_inv_mutex; cbn; [done|congruence|done| | |by left].
    + intros t'. destruct (decide (t' = t)) as [->|Hne]; [rewrite in_write_pcs; naive_solver|]. rewrite <- Hown, Hb. done.
    + intros t'. destruct (decide (t' = t)) as [->|Hne]; [set_solver|]. rewrite <- Hsh. set_solver.
  - assert (Hs : t ∈ sharers (AdaptiveVersionLock.rw_mtx (lock_ s))) by (by apply Hsh).
    destruct Hex as [Hex|Hex]; [|set_solver].
    apply lock_inv_mutex; cbn; [done|congruence|done| | |by left].
    + intros t'. destruct (decide (t' = t)) as [->|Hne]; [rewrite in_write_pcs, Hex; naive_solver|]. apply Hown.
    + intros t'. destruct (decide (t' = t)) as [->|Hne]; [set_solver|]. rewrite <- Hsh. set_solver.
Qed.

Lemma exec_inv tr s s' : lock_inv s → exec tr s = Some s' → lock_inv s'.
Proof.
  revert s; induction tr as [|[t a] tr IH]; intros s Hi H; cbn [exec] in H; [congruence|].
  destruct (step t a s) as [s1|] eqn:E; [|done]. apply (IH s1); [by eapply lock_inv_step|done].
Qed.

Lemma exec_app tr1 tr2 s : exec (tr1 ++ tr2) s = exec tr1 s ≫= exec tr2.
Proof. revert s; induction tr1 as [|[t a] tr IH]; intros s; cbn [exec app]; [done|]. destruct (step t a s); [apply IH|done]. Qed.

(** ** The increments of a schedule *)

Definition is_add (e : nat * action) : bool := match e.2 with AEnter | ALeave => true | _ => false end.

Definition adds (tr : list (nat * action)) : Z := Z.of_nat (length (filter is_add tr)).

Lemma adds_cons e tr : adds (e :: tr) = (if is_add e then 1 else 0) + adds tr.
Proof. unfold adds. rewrite filter_cons. destruct (is_add e); cbn [decide]; [rewrite decide_True by done|rewrite decide_False by auto]; cbn [length]; lia. Qed.

Lemma adds_app tr1 tr2 : adds (tr1 ++ tr2) = adds tr1 + adds tr2.
Proof. unfold adds. rewrite filter_app, length_app. lia. Qed.

Lemma adds_range tr : 0 ≤ adds tr ≤ Z.of_nat (length tr).
Proof. unfold adds. pose proof (length_filter is_add tr). lia. Qed.

Lemma step_seq t a s s' :
  step t a s = Some s' → 0 ≤ AdaptiveVersionLock.seq (lock_ s) < 2 ^ 64 →
  AdaptiveVersionLock.seq (lock_ s') = to_u64 (AdaptiveVersionLock.seq (lock_ s) + (if is_add (t, a) then 1 else 0)).
Proof.
  intros H Hr. unfold step in H. destruct a, (pc_of s t); try discriminate H; cbn [is_add snd];
    try (injection H as <-; cbn; rewrite ?Z.add_0_r, ?(wrap_small 64) by lia; done).
  - unfold AdaptiveVersionLock.mtx_lock in H. case_bool_decide; [|done]. injection H as <-. cbn. by rewrite Z.add_0_r, (wrap_small 64).
  - unfold AdaptiveVersionLock.ReadLock in H. case_bool_decide; [|done]. injection H as <-. cbn. by rewrite Z.add_0_r, (wrap_small 64).
Qed.

Lemma exec_seq tr s s' :
  exec tr s = Some s' → 0 ≤ AdaptiveVersionLock.seq (lock_ s) < 2 ^ 64 →
  AdaptiveVersionLock.seq (lock_ s') = to_u64 (AdaptiveVersionLock.seq (lock_ s) + adds tr).
Proof.
  revert s; induction tr as [|[t a] tr IH]; intros s H Hr; cbn [exec] in H.
  { injection H as <-. change (adds []) with 0. by rewrite Z.add_0_r, (wrap_small 64). }
  destruct (step t a s) as [s1|] eqn:E; [|done]. pose proof (step_seq _ _ _ _ E Hr) as E1.
  cbn [mbind option_bind] in H. rewrite (IH s1 H) by (rewrite E1; by apply wrap_range). rewrite E1, adds_cons.
  unfold wrap. rewrite Zplus_mod_idemp_l. f_equal. lia.
Qed.

(** Without an increment nobody starts writing. *)
Lemma step_quiet t a s s' :
  step t a s = Some s' → is_add (t, a) = false → (∀ t', pc_of s t' ≠ Writing) →
  bytes_ s' = bytes_ s ∧ ∀ t', pc_of s' t' ≠ Writing.
Proof.
  intros H Ha Hq. pose proof (Hq t) as Hqt. unfold step in H. destruct a, (pc_of s t); try discriminate H; try done.
  - destruct (AdaptiveVersionLock.mtx_lock (lock_ s) t); [|done]. injection H as <-. split; [done|].
    intros t'. rewrite pc_of_insert. by destruct (decide (t' = t)).
  - injection H as <-. split; [done|]. intros t'. rewrite pc_of_insert. by destruct (decide (t' = t)).
  - destruct (AdaptiveVersionLock.ReadLock (lock_ s) t); [|done]. injection H as <-. split; [done|].
    intros t'. rewrite pc_of_insert. by destruct (decide (t' = t)).
  - injection H as <-. split; [done|]. intros t'. rewrite pc_of_insert. by destruct (decide (t' = t)).
Qed.

Lemma exec_quiet tr s s' :
  exec tr s = Some s' → adds tr = 0 → (∀ t', pc_of s t' ≠ Writing) →
  bytes_ s' = bytes_ s ∧ ∀ t', pc_of s' t' ≠ Writing.
Proof.
  revert s; induction tr as [|[t a] tr IH]; intros s H Ha Hq; cbn [exec] in H; [naive_solver|].
  rewrite adds_cons in Ha. pose proof (adds_range tr) as Hr. destruct (is_add (t, a)) eqn:Ea; [lia|].
  destruct (step t a s) as [s1|] eqn:E; [|done]. destruct (step_quiet _ _ _ _ E Ea Hq) as [E1 E2].
  destruct (IH s1 H) as [E3 E4]; [lia|done|]. split; [congruence|done].
Qed.

(** While a thread shares the mutex nobody writes. *)
Lemma exec_shared tr t s s' :
  lock_inv s → pc_of s t = Reading → (t, AReadDone) ∉ tr → exec tr s = Some s' → bytes_ s' = bytes_ s ∧ pc_of s' t = Reading.
Proof.
  revert s; induction tr as [|[t1 a] tr IH]; intros s Hi Hp Hn H; cbn [exec] in H; [naive_solver|].
  apply not_elem_of_cons in Hn as [Hn1 Hn]. destruct (step t1 a s) as [s1|] eqn:E; [|done].
  assert (Hs1 : bytes_ s1 = bytes_ s ∧ pc_of s1 t = Reading).
  { unfold step in E. destruct (decide (t1 = t)) as [->|Hne].
    - rewrite Hp in E. destruct a; try discriminate E. done.
    - assert (Hnw : pc_of s t1 ≠ Writing).
      { intros Hw. pose proof (writing_owner _ _ Hi Hw). apply (li_sharers _ Hi) in Hp.
        destruct (li_excl _ Hi) as [?|Hx]; [congruence|]. rewrite Hx in Hp. set_solver. }
      assert (K : ∀ l data p, pc_of (mkPageState l data (<[t1 := p]> (pcs s))) t = Reading).
      { intros. rewrite pc_of_insert. by rewrite decide_False. }
      destruct a, (pc_of s t1); try discriminate E; try done; try (injection E as <-; by rewrite K).
      + destruct (AdaptiveVersionLock.mtx_lock (lock_ s) t1); [|done]. injection E as <-. by rewrite K.
      + destruct (AdaptiveVersionLock.ReadLock (lock_ s) t1); [|done]. injection E as <-. by rewrite K. }
  destruct Hs1 as [E1 E2]. destruct (IH s1) as [E3 E4]; [by eapply lock_inv_step|done|done|done|]. split; [congruence|done].
Qed.

(** ** Theorems *)

(** The state in which [Lock<Optimistic>] of thread [t], begun in [s0], ends:
    where the version was loaded, or after the read lock, which other threads
    may delay. *)
Definition Lock_done (t : nat) (locked : bool) (s0 s1 : page_state) : Prop :=
  if locked then ∃ tr s, exec tr s0 = Some s ∧ step t ARead s = Some s1 else s1 = s0.

Lemma Lock_begin_ok loads tl tl1 locked :
  TlLock.Lock_begin loads tl = (tl1, locked) → 0 ≤ TlLock.tries_ tl < 2 ^ 32 →
  locked = (TlLock.MAX_OPTIMISTIC_TRIES <=? TlLock.tries_ tl1) ∧
  (locked = false → TlLock.version_ tl1 = AdaptiveVersionLock.seq (loads 0%nat) ∧
     Z.odd (AdaptiveVersionLock.seq (loads 0%nat)) = false).
Proof.
  unfold TlLock.Lock_begin, TlLock.lock_fuel, TlLock.MAX_OPTIMISTIC_TRIES. intros H Hr.
  change (S (Z.to_nat 1)) with 2%nat in H. cbn [TlLock.lock_loop] in H. unfold TlLock.MAX_OPTIMISTIC_TRIES in H.
  unfold AdaptiveVersionLock.ReadOptimistic in H.
  destruct (Z.ltb_spec (TlLock.tries_ tl) 1) as [Ht|Ht].
  - destruct (Z.eqb_spec (Z.land (AdaptiveVersionLock.seq (loads 0%nat)) 1) 0) as [E|E].
    + injection H as <- <-. cbn. split; [done|]. intros _. split; [done|].
      rewrite <- Z.bit0_odd. change 1 with (Z.ones 1) in E. rewrite Z.land_ones in E by lia. change (2 ^ 1) with 2 in E.
      rewrite Z.bit0_odd, Zodd_mod, E. done.
    + cbn [TlLock.IncrementTries TlLock.tries_] in H. rewrite (wrap_small 32) in H by lia.
      rewrite (proj2 (Z.ltb_ge _ _)) in H by lia. injection H as <- <-. cbn. rewrite (wrap_small 32) by lia.
      rewrite (proj2 (Z.leb_le _ _)) by lia. done.
  - injection H as <- <-. cbn. rewrite (proj2 (Z.leb_le _ _)) by lia. done.
Qed.

(** C18: the lock under every interleaving: at most one thread is inside
    [WriteLock]..[WriteUnlock] and then no thread holds the read lock; the
    sequence counter is odd exactly while a thread is between its two
    increments, which is the only time the bytes change. *)
Theorem lock_exclusion data tr s :
  exec tr (initial data) = Some s →
  (∀ t t', pc_of s t ∈ [Acquired; Writing; Released] → pc_of s t' ∈ [Acquired; Writing; Released] → t = t') ∧
  (∀ t t', pc_of s t ∈ [Acquired; Writing; Released] → pc_of s t' ≠ Reading) ∧
  (Z.odd (AdaptiveVersionLock.seq (lock_ s)) = true ↔ ∃ t, pc_of s t = Writing) ∧
  (∀ t a s', step t a s = Some s' → bytes_ s' ≠ bytes_ s → pc_of s t = Writing).
Proof.
  intros H. pose proof (exec_inv _ _ _ (lock_inv_initial data) H) as Hi. split_and!.
  - intros t t' Ht Ht'. apply (li_owner _ Hi) in Ht, Ht'. congruence.
  - intros t t' Ht Ht'. apply (li_owner _ Hi) in Ht. apply (li_sharers _ Hi) in Ht'.
    destruct (li_excl _ Hi) as [?|Hx]; [congruence|]. rewrite Hx in Ht'. set_solver.
  - apply (li_odd _ Hi).
  - intros t a s' Hs Hb. unfold step in Hs. destruct a, (pc_of s t) eqn:Hp; try discriminate Hs; try done;
      try (by injection Hs as <-).
    + by destruct (AdaptiveVersionLock.mtx_lock (lock_ s) t); [injection Hs as <-|].
    + by destruct (AdaptiveVersionLock.ReadLock (lock_ s) t); [injection Hs as <-|].
Qed.

(** A writer, then a reader of the same page. *)
Definition demo_schedule : list (nat * action) :=
  [(1%nat, AMutex); (1%nat, AEnter); (1%nat, AStore 5 42); (1%nat, ALeave); (1%nat, ARelease); (2%nat, ARead)].

Definition demo_state : page_state := default (initial ∅) (exec demo_schedule (initial ∅)).

Lemma demo_exec : exec demo_schedule (initial ∅) = Some demo_state.
Proof. by vm_compute. Qed.

Lemma lock_exclusion_witness :
  exec demo_schedule (initial ∅) = Some demo_state ∧
  (∀ t t', pc_of demo_state t ∈ [Acquired; Writing; Released] → pc_of demo_state t' ≠ Reading).
Proof. split; [exact demo_exec|]. apply (lock_exclusion ∅ demo_schedule demo_state). exact demo_exec. Defined.

(** C19: an optimistic section never uses a torn page: between [Lock<Optimistic>]
    and an [Unlock<Optimistic>] that returns true, with any interleaving of
    fewer than [2^64] steps of the other threads, the bytes of the page are at
    every moment those of the beginning; [Unlock] returns false only if a
    writer entered or left the page meanwhile. *)
Theorem optimistic_section_correct data tr0 s0 loads t tl tl1 locked s1 tr s2 ok tl2 s3 :
  exec tr0 (initial data) = Some s0 → 0 ≤ TlLock.tries_ tl < 2 ^ 32 - 1 → loads 0%nat = lock_ s0 →
  TlLock.Lock_begin loads tl = (tl1, locked) → Lock_done t locked s0 s1 →
  exec tr s1 = Some s2 → (t, AReadDone) ∉ tr → Z.of_nat (length tr) < 2 ^ 64 →
  TlLock.Unlock t tl1 s2 = Some (ok, tl2, s3) →
  (ok = true → ∀ pre post s, tr = pre ++ post → exec pre s1 = Some s → bytes_ s = bytes_ s1) ∧
  (ok = false → 0 < adds tr).
Proof.
  intros H0 Ht Hl HL HD Hx Hn Hlen HU. pose proof (exec_inv _ _ _ (lock_inv_initial data) H0) as Hi0.
  destruct (Lock_begin_ok _ _ _ _ HL ltac:(lia)) as [Elocked Hver]. unfold TlLock.Unlock in HU. rewrite <- Elocked in HU.
  destruct locked; unfold Lock_done in HD.
  - destruct HD as (tr1 & s & Hx1 & HR). pose proof (exec_inv _ _ _ Hi0 Hx1) as Hi. pose proof (lock_inv_step _ _ _ _ Hi HR) as Hi1.
    assert (Hp : pc_of s1 t = Reading).
    { unfold step in HR. destruct (pc_of s t); try discriminate HR.
      destruct (AdaptiveVersionLock.ReadLock (lock_ s) t); [|done]. injection HR as <-. rewrite pc_of_insert. by rewrite decide_True. }
    destruct (step t AReadDone s2); [|done]. injection HU as <- _ _. split; [|done]. intros _ pre post s' -> Hpre.
    apply (exec_shared pre t s1 s' Hi1 Hp); [|done]. intros Hin. apply Hn, elem_of_app. by left.
  - subst s1. destruct (Hver eq_refl) as [Ev Eo]. rewrite Hl in Ev, Eo.
    pose proof (exec_seq _ _ _ Hx (li_seq _ Hi0)) as Es. pose proof (adds_range tr) as Ha. pose proof (li_seq _ Hi0) as Hs0.
    unfold AdaptiveVersionLock.Validate in HU. rewrite Ev in HU.
    destruct (Z.eqb_spec (AdaptiveVersionLock.seq (lock_ s2)) (AdaptiveVersionLock.seq (lock_ s0))) as [E|E]; cbn [negb] in HU.
    + injection HU as <- _ _. split; [|done]. intros _ pre post s -> Hpre.
      assert (Ez : adds (pre ++ post) = 0).
      { rewrite Es in E. unfold wrap in E. pose proof (Z.div_mod (AdaptiveVersionLock.seq (lock_ s0) + adds (pre ++ post)) (2 ^ 64) ltac:(lia)). lia. }
      rewrite adds_app in Ez. pose proof (adds_range pre). pose proof (adds_range post).
      destruct (exec_quiet _ _ _ Hpre) as [? _]; [lia| |done].
      intros t' Hw. assert (Hodd : ∃ t', pc_of s0 t' = Writing) by eauto. apply (li_odd _ Hi0) in Hodd. congruence.
    + injection HU as <- _ _. split; [done|]. intros _. destruct (decide (adds tr = 0)) as [Ez|]; [|lia].
      exfalso. apply E. rewrite Es, Ez, Z.add_0_r, (wrap_small 64); done.
Qed.

(** A reader whose section overlaps only another reader. *)
Lemma optimistic_section_correct_witness :
  ∃ s2, exec [(3%nat, ARead); (3%nat, AReadDone)] demo_state = Some s2 ∧
    TlLock.Unlock 4 (TlLock.mkTlState 2 0) s2 = Some (true, TlLock.mkTlState 2 0, s2) ∧
    ∀ pre post s, [(3%nat, ARead); (3%nat, AReadDone)] = pre ++ post → exec pre demo_state = Some s → bytes_ s = bytes_ demo_state.
Proof.
  eexists. split; [by vm_compute|]. split; [by vm_compute|].
  refine (proj1 (optimistic_section_correct ∅ demo_schedule demo_state (λ _, lock_ demo_state) 4 TlLock.Clear (TlLock.mkTlState 2 0) false
    demo_state [(3%nat, ARead); (3%nat, AReadDone)] _ true (TlLock.mkTlState 2 0) _ demo_exec _ eq_refl _ eq_refl _ _ _ _) eq_refl).
  - cbn. lia.
  - by vm_compute.
  - by vm_compute.
  - apply (bool_decide_unpack _). by vm_compute.
  - cbn. lia.
  - by vm_compute.
Defined.
