(* ===== verification/CommitLatch.v ===== *)
(** * Begin and commit under interleaving

    [TransactionManager::BeginTransaction] and [TransactionManager::Commit] cut
    into their atomic steps on the shared clock [time_] and on [commit_latch_]:
    a transaction waits in [Try] until no commit is in progress, a commit holds
    the latch from before it takes its time until its records are stamped. *)

From S2P Require Import Prelude Bytes Shared Memory Arena Undo Redo Txn.

(** Where the thread of a transaction is.  [Starting]: the start time is taken,
    [Try] has not returned; [Committing]: the latch is held; [Stamping]: the
    commit time is taken, [RestampVersions] runs. *)
Inductive txn_pc :=
| Outside
| Starting (start : Z)
| Running (start : Z)
| Committing (start : Z)
| Stamping (start commit : Z).

#[export] Instance txn_pc_eq_dec : EqDecision txn_pc.
Proof. solve_decision. Defined.

Record clock_state := mkClockState { manager : TransactionManager.TransactionManager; txns : gmap nat txn_pc }.

Definition txn_of (s : clock_state) (t : nat) : txn_pc := default Outside (txns s !! t).

Definition start_state : clock_state :=
  mkClockState (TransactionManager.mkTransactionManager TimestampManager.INITIAL_TXN_TIMESTAMP 0) ∅.

Inductive txn_action := TBegin | TTry | TLock | TCheckOut | TUnlock.

#[export] Instance txn_action_eq_dec : EqDecision txn_action.
Proof. solve_decision. Defined.

Definition txn_step (t : nat) (a : txn_action) (s : clock_state) : option clock_state :=
  let m := manager s in
  let go time latch p := Some (mkClockState (TransactionManager.mkTransactionManager time latch) (<[t := p]> (txns s))) in
  match a, txn_of s t with
  | TBegin, Outside =>
      let '(start, time) := TimestampManager.BeginTransaction (TransactionManager.time_ m) in
      go time (TransactionManager.commit_latch_ m) (Starting start)
  | TTry, Starting start =>
      match AdaptiveSpinLock.Try (TransactionManager.commit_latch_ m) with
      | Ret _ => go (TransactionManager.time_ m) (TransactionManager.commit_latch_ m) (Running start)
      | _ => None
      end
  | TLock, Running start =>
      go (TransactionManager.time_ m) (AdaptiveSpinLock.Lock (TransactionManager.commit_latch_ m)) (Committing start)
  | TCheckOut, Committing start =>
      let '(commit, time) := TimestampManager.CheckOutTimestamp (TransactionManager.time_ m) in
      go time (TransactionManager.commit_latch_ m) (Stamping start commit)
  | TUnlock, Stamping _ _ =>
      go (TransactionManager.time_ m) (AdaptiveSpinLock.Unlock (TransactionManager.commit_latch_ m)) Outside
  | _, _ => None
  end.

Fixpoint txn_exec (tr : list (nat * txn_action)) (s : clock_state) : option clock_state :=
  match tr with
  | [] => Some s
  | (t, a) :: tr => s ← txn_step t a s; txn_exec tr s
  end.

(** ** Invariant *)

Definition started (p : txn_pc) : option Z :=
  match p with Outside => None | Starting s | Running s | Committing s | Stamping s _ => Some s end.

(** The start of a transaction whose [BeginTransaction] returned. *)
Definition snapshot (p : txn_pc) : option Z :=
  match p with Running s | Committing s | Stamping s _ => Some s | _ => None end.

Definition commit_time (p : txn_pc) : option Z := match p with Stamping _ c => Some c | _ => None end.

Definition in_latch (p : txn_pc) : bool := match p with Committing _ | Stamping _ _ => true | _ => false end.

(** After at most [n] steps. *)
Record clock_inv (n : Z) (s : clock_state) : Prop := {
  ci_time : 0 ≤ TransactionManager.time_ (manager s) ≤ n;
  ci_latch : ∃ B : gset nat, (∀ t, t ∈ B ↔ in_latch (txn_of s t) = true) ∧
    TransactionManager.commit_latch_ (manager s) = Z.of_nat (size B) ∧ Z.of_nat (size B) ≤ n;
  ci_started : ∀ t x, started (txn_of s t) = Some x → x < TransactionManager.time_ (manager s);
  ci_commit : ∀ t c, commit_time (txn_of s t) = Some c → c < TransactionManager.time_ (manager s);
  ci_snapshot : ∀ t t' x c, snapshot (txn_of s t) = Some x → commit_time (txn_of s t') = Some c → x < c
}.

Lemma txn_of_insert m s t p t' :
  txn_of (mkClockState m (<[t := p]> (txns s))) t' = if decide (t' = t) then p else txn_of s t'.
Proof.
  unfold txn_of. cbn. destruct (decide (t' = t)) as [->|Hne]; [by rewrite lookup_insert_eq|by rewrite lookup_insert_ne].
Qed.

(** A step of [t] to [p] that moves the clock forward. *)
Lemma clock_inv_move n s t p time latch :
  clock_inv n s → TransactionManager.time_ (manager s) ≤ time ≤ n + 1 →
  (∃ B : gset nat, (∀ t', t' ∈ B ↔ (if decide (t' = t) then in_latch p else in_latch (txn_of s t')) = true) ∧
     latch = Z.of_nat (size B) ∧ Z.of_nat (size B) ≤ n + 1) →
  (∀ x, started p = Some x → x < time) → (∀ c, commit_time p = Some c → c < time) →
  (∀ x t' c, snapshot p = Some x → commit_time (txn_of s t') = Some c → x < c) →
  (∀ t' x c, snapshot (txn_of s t') = Some x → commit_time p = Some c → x < c) →
  (∀ x c, snapshot p = Some x → commit_time p = Some c → x < c) →
  clock_inv (n + 1) (mkClockState (TransactionManager.mkTransactionManager time latch) (<[t := p]> (txns s))).
Proof.
  intros Hi Ht (B & HB & HL & Hn) H1 H2 H3 H4 H5. pose proof (ci_time _ _ Hi). split; cbn.
  - lia.
  - exists B. split_and!; [|done|done]. intros t'. rewrite HB, txn_of_insert. by destruct (decide (t' = t)).
  - intros t' x. rewrite txn_of_insert. destruct (decide (t' = t)); [apply H1|]. intros Hx. apply (ci_started _ _ Hi) in Hx. lia.
  - intros t' x. rewrite txn_of_insert. destruct (decide (t' = t)); [apply H2|]. intros Hx. apply (ci_commit _ _ Hi) in Hx. lia.
  - intros t1 t2 x c. rewrite !txn_of_insert. destruct (decide (t1 = t)), (decide (t2 = t)); eauto using ci_snapshot.
Qed.

(** The threads in the latch after a step that does not move [t] in or out. *)
Lemma latch_same n s t p :
  clock_inv n s → in_latch p = in_latch (txn_of s t) →
  ∃ B : gset nat, (∀ t', t' ∈ B ↔ (if decide (t' = t) then in_latch p else in_latch (txn_of s t')) = true) ∧
    TransactionManager.commit_latch_ (manager s) = Z.of_nat (size B) ∧ Z.of_nat (size B) ≤ n + 1.
Proof.
  intros Hi Hp. destruct (ci_latch _ _ Hi) as (B & HB & HL & Hn). exists B. split_and!; [|done|lia].
  intros t'. rewrite HB. destruct (decide (t' = t)) as [->|]; [by rewrite Hp|done].
Qed.

Lemma clock_inv_step n s t a s' :
  clock_inv n s → n < 2 ^ 64 - 1 → txn_step t a s = Some s' → clock_inv (n + 1) s'.
Proof.
  intros Hi Hn H. pose proof (ci_time _ _ Hi) as Ht. destruct (ci_latch _ _ Hi) as (B & HB & HL & HBn).
  unfold txn_step, TimestampManager.BeginTransaction, TimestampManager.CheckOutTimestamp in H.
  pose proof (λ x, ci_started _ _ Hi t x) as Hst.
  destruct a, (txn_of s t) as [|x|x|x|x c] eqn:Hp; try discriminate H; cbn [started] in Hst;
    try (specialize (Hst x eq_refl)).
  - injection H as <-. rewrite (wrap_small 64) by lia. apply clock_inv_move; try done; [lia|apply (latch_same n); [done|by rewrite Hp]| ].
    cbn. intros y [= <-]. lia.
  - unfold AdaptiveSpinLock.Try in H. destruct (Z.ltb_spec 0 (TransactionManager.commit_latch_ (manager s))) as [|Hz]; [done|].
    injection H as <-. apply clock_inv_move; try done; [lia|apply (latch_same n); [done|by rewrite Hp]| |].
    + cbn. intros y [= <-]. lia.
    + intros y t' c _ Hc. exfalso. assert (Hin : t' ∈ B) by (apply HB; destruct (txn_of s t'); by try discriminate Hc).
      assert (size B = 0%nat) as Es by lia. apply size_empty_inv in Es. set_solver.
  - injection H as <-. apply clock_inv_move; try done; [lia| | |].
    + assert (Hnin : t ∉ B) by (rewrite HB, Hp; done). exists ({[t]} ∪ B). unfold AdaptiveSpinLock.Lock.
      rewrite size_union, size_singleton by set_solver. rewrite HL, (wrap_small 64) by lia. split_and!; [|lia|lia].
      intros t'. rewrite elem_of_union, elem_of_singleton, HB. destruct (decide (t' = t)); [cbn; tauto|naive_solver].
    + cbn. intros y [= <-]. lia.
    + cbn. intros y t' c [= <-] Hc. eapply (ci_snapshot _ _ Hi t t'); [by rewrite Hp|done].
  - injection H as <-. rewrite (wrap_small 64) by lia. apply clock_inv_move; [done|lia|apply (latch_same n); [done|by rewrite Hp]|..]; cbn.
    + intros y [= <-]. lia.
    + intros y [= <-]. lia.
    + intros y t' c [= <-] Hc. eapply (ci_snapshot _ _ Hi t t'); [by rewrite Hp|done].
    + intros t' y c Hy [= <-]. apply (ci_started _ _ Hi t'). by destruct (txn_of s t').
    + intros y c [= <-] [= <-]. lia.
  - injection H as <-. apply clock_inv_move; try done; [lia|].
    assert (Hin : t ∈ B) by (by rewrite HB, Hp). exists (B ∖ {[t]}). unfold AdaptiveSpinLock.Unlock.
    assert (Es : size B = S (size (B ∖ {[t]}))).
    { rewrite (union_difference_L {[t]} B) at 1 by set_solver. rewrite size_union, size_singleton by set_solver. lia. }
    rewrite HL, (wrap_small 64) by lia. split_and!; [|lia|lia].
    intros t'. rewrite elem_of_difference, elem_of_singleton, HB. destruct (decide (t' = t)); [cbn; naive_solver|tauto].
Qed.

Lemma clock_inv_start : clock_inv 0 start_state.
Proof.
  assert (E : ∀ t, txn_of start_state t = Outside) by (intros t; unfold txn_of; cbn; by rewrite lookup_empty).
  split; cbn; [unfold TimestampManager.INITIAL_TXN_TIMESTAMP; lia| |intros t x; by rewrite E..|intros t t' x c; by rewrite E].
  exists ∅. rewrite size_empty. split_and!; [|done|done]. intros t. rewrite E. set_solver.
Qed.

Lemma txn_exec_inv tr n s s' :
  clock_inv n s → n + Z.of_nat (length tr) < 2 ^ 64 → txn_exec tr s = Some s' → clock_inv (n + Z.of_nat (length tr)) s'.
Proof.
  revert n s; induction tr as [|[t a] tr IH]; intros n s Hi Hn H; cbn [txn_exec length] in *.
  { injection H as <-. by rewrite Z.add_0_r. }
  destruct (txn_step t a s) as [s1|] eqn:E; [|done]. pose proof (clock_inv_step n s t a s1 Hi ltac:(lia) E) as Hi1.
  replace (n + Z.of_nat (S (length tr))) with (n + 1 + Z.of_nat (length tr)) by lia. apply (IH (n + 1) s1); [done|lia|done].
Qed.

(** ** Theorem *)

(** C20: under every interleaving of begins and commits, a transaction that runs
    started before the commit time of every commit still stamping its records:
    no commit it may count as done is half-way.  Times are handed out once. *)
Theorem begin_waits_for_commits tr s :
  Z.of_nat (length tr) < 2 ^ 64 → txn_exec tr start_state = Some s →
  (∀ t t' start t_start commit, txn_of s t = Running start → txn_of s t' = Stamping t_start commit → start < commit) ∧
  (∀ t start, started (txn_of s t) = Some start → start < TransactionManager.time_ (manager s)) ∧
  (TransactionManager.commit_latch_ (manager s) = 0 ↔ ∀ t, in_latch (txn_of s t) = false).
Proof.
  intros Hn H. pose proof (txn_exec_inv tr 0 _ _ clock_inv_start ltac:(lia) H) as Hi. split_and!.
  - intros t t' x y c E E'. apply (ci_snapshot _ _ Hi t t' x c); [by rewrite E|by rewrite E'].
  - apply (ci_started _ _ Hi).
  - destruct (ci_latch _ _ Hi) as (B & HB & HL & _). rewrite HL. split.
    + intros Hz t. assert (size B = 0%nat) as Es by lia. apply size_empty_inv in Es.
      destruct (in_latch (txn_of s t)) eqn:E; [|done]. apply HB in E. set_solver.
    + intros Hz. assert (B ≡ ∅) as Es by (intros t; rewrite HB, Hz; set_solver). rewrite Es, size_empty. done.
Qed.

(** One commit stamps while a transaction that began before it runs. *)
Definition demo_txns : list (nat * txn_action) :=
  [(1%nat, TBegin); (1%nat, TTry); (2%nat, TBegin); (2%nat, TTry); (1%nat, TLock); (3%nat, TBegin); (1%nat, TCheckOut)].

Lemma begin_waits_for_commits_witness :
  ∃ s, txn_exec demo_txns start_state = Some s ∧ txn_of s 2 = Running 1 ∧ txn_of s 1 = Stamping 0 3 ∧
    txn_of s 3 = Starting 2 ∧ txn_step 3 TTry s = None ∧ 1 < 3 ∧
    (∀ t t' start t_start commit, txn_of s t = Running start → txn_of s t' = Stamping t_start commit → start < commit).
Proof.
  eexists. split; [by vm_compute|]. split; [by vm_compute|]. split; [by vm_compute|]. split; [by vm_compute|].
  split; [by vm_compute|]. split; [lia|]. eapply (begin_waits_for_commits demo_txns); [cbn; lia|by vm_compute].
Defined.
