(* ===== verification/BufferPool.v ===== *)
(** * The buffer pool ([buffer_pool.cpp], [page.hpp], [buffer_partitions.hpp])

    A machine of threads that run [Pin], [Reserve] and [Unpin] over shared
    frames.  A step is one atomic operation of the code: a load or a store of
    an atomic field of a [Page], an operation on its latch, a call of a
    [BufferPartitions] function (a critical section of its lock), or a call of
    the disk scheduler.  Reads and completions of the device are steps of their
    own. *)

From S2P Require Import Prelude Bytes Shared Memory Fsm Arena Undo Redo Txn.

(** ** Page *)
Module Frame.

Definition DIRTY_FLAG : Z := Z.shiftl 1 0.
Definition IO_IN_PROGRESS_FLAG : Z := Z.shiftl 1 1.

(** [latch_] is the thread that holds the mutex. *)
Record Page := mkPage {
  id_ : PageIdentifier;
  versions_ : Z;
  data_ : mem;
  ref_count_ : Z;
  flags_ : Z;
  latch_ : option nat
}.

(** The constructor, and the id [BufferPool] gives every frame. *)
Definition make : Page := mkPage (PageIdentifier_of_packed 0) 0 ∅ 0 0 None.

Definition SetVersions (p : Page) (ptr : Z) : Page := mkPage (id_ p) ptr (data_ p) (ref_count_ p) (flags_ p) (latch_ p).
Definition SetData (p : Page) (data : mem) : Page := mkPage (id_ p) (versions_ p) data (ref_count_ p) (flags_ p) (latch_ p).
Definition SetId (p : Page) (id : PageIdentifier) : Page := mkPage id (versions_ p) (data_ p) (ref_count_ p) (flags_ p) (latch_ p).
Definition set_refs (p : Page) (n : Z) : Page := mkPage (id_ p) (versions_ p) (data_ p) n (flags_ p) (latch_ p).
Definition set_flags (p : Page) (n : Z) : Page := mkPage (id_ p) (versions_ p) (data_ p) (ref_count_ p) n (latch_ p).
Definition set_latch (p : Page) (l : option nat) : Page := mkPage (id_ p) (versions_ p) (data_ p) (ref_count_ p) (flags_ p) l.

Definition Pin (p : Page) : Page := set_refs p (to_u32 (ref_count_ p + 1)).
Definition Unpin (p : Page) : Page := set_refs p (to_u32 (ref_count_ p - 1)).
Definition PinCount (p : Page) : Z := ref_count_ p.
Definition IsPinned (p : Page) : bool := 0 <? PinCount p.

Definition IsIOInProgress (p : Page) : bool := negb (Z.land (flags_ p) IO_IN_PROGRESS_FLAG =? 0).
Definition SetIOInProgress (p : Page) : Page := set_flags p (Z.lor (flags_ p) IO_IN_PROGRESS_FLAG).
Definition ClearIOInProgress (p : Page) : Page := set_flags p (Z.land (flags_ p) (to_u8 (Z.lnot IO_IN_PROGRESS_FLAG))).

Definition IsDirty (p : Page) : bool := negb (Z.land (flags_ p) DIRTY_FLAG =? 0).
Definition SetDirty (p : Page) : Page := set_flags p (Z.lor (flags_ p) DIRTY_FLAG).
Definition ClearDirty (p : Page) : Page := set_flags p (Z.land (flags_ p) (to_u8 (Z.lnot DIRTY_FLAG))).

(** The loads of [IsEvictable] after that of [ref_count_]. *)
Definition flags_clear (p : Page) : bool := negb (IsDirty p) && negb (IsIOInProgress p).
Definition IsEvictable (p : Page) : bool := negb (IsPinned p) && flags_clear p.

(** [latch_.lock()] and [latch_.unlock()]; [None] blocks. *)
Definition WLock (p : Page) (t : nat) : option Page :=
  match latch_ p with None => Some (set_latch p (Some t)) | Some _ => None end.
Definition WUnlock (p : Page) : Page := set_latch p None.
Definition TryWLock (p : Page) (t : nat) : bool * Page :=
  match latch_ p with None => (true, set_latch p (Some t)) | Some _ => (false, p) end.

(** [SignalIO]: the critical section of the latch. *)
Definition SignalIO (p : Page) : outcome Page :=
  _ ← DB7_ASSERT (IsIOInProgress p) "Io in progress not set";
  _ ← DB7_ASSERT (IsPinned p) "Pin not set";
  Ret (ClearIOInProgress p).
End Frame.

(** ** BufferPartitions *)
Module BufferPartitions.

(** [partition_maps_]. *)
Abbreviation state := (gmap Z (gmap PageIdentifier Z)).

Definition partition (s : state) (partIdx : Z) : gmap PageIdentifier Z := default ∅ (s !! partIdx).

Definition GetUnsafe (partition_map : gmap PageIdentifier Z) (id : PageIdentifier) : Z :=
  default UINT32_MAX (partition_map !! id).

Definition Get (s : state) (id : PageIdentifier) (partIdx : Z) : Z := GetUnsafe (partition s partIdx) id.

(** [emplace] keeps an entry that is there. *)
Definition Put (s : state) (id : PageIdentifier) (frame_idx partIdx : Z) : bool * Z * state :=
  match partition s partIdx !! id with
  | Some frame => (false, frame, s)
  | None => (true, frame_idx, <[partIdx := <[id := frame_idx]> (partition s partIdx)]> s)
  end.

Definition Delete (s : state) (evict_page_id : PageIdentifier) (old_frame_idx partIdx : Z) : state :=
  match partition s partIdx !! evict_page_id with
  | Some frame => if frame =? old_frame_idx then <[partIdx := delete evict_page_id (partition s partIdx)]> s else s
  | None => s
  end.
End BufferPartitions.

(** ** BufferPool *)
Module BufferPool.

Definition GetPartitionIdx (id : PageIdentifier) : Z := murmurhash64 (packed id) mod BUFFER_POOL_PARTITION_NUM.

(** Where a thread is.  [io] tells [Pin] from [Reserve] (the [isIO] of
    [GetVictim]); [vid] is [victim_page_id], [last] tells the second call of
    [PageVisit] from the first.  In [Holds] the call has returned and the caller
    waits in [WaitIO], as the callers of [Pin] do; in [Ready] it uses the page
    until it calls [Unpin].  A thread that has aborted keeps its pin. *)
Inductive pc :=
| Idle
| Lookup (id : PageIdentifier)
| Visit (id : PageIdentifier) (frame : Z) (last : bool)
| Visited (id : PageIdentifier) (frame : Z) (last : bool)
| Unvisit (id : PageIdentifier) (frame : Z) (last : bool)
| Sweep (io : bool) (id : PageIdentifier)
| TryLatch (io : bool) (id : PageIdentifier) (head : Z)
| CheckRefs (io : bool) (id : PageIdentifier) (head : Z)
| CheckFlags (io : bool) (id : PageIdentifier) (head : Z)
| Unlatch (io : bool) (id : PageIdentifier) (head : Z)
| TakeId (io : bool) (id : PageIdentifier) (head : Z)
| GiveId (io : bool) (id : PageIdentifier) (head : Z) (vid : PageIdentifier)
| TakePin (io : bool) (id : PageIdentifier) (head : Z) (vid : PageIdentifier)
| TakeFlag (id : PageIdentifier) (head : Z) (vid : PageIdentifier)
| TakeDone (io : bool) (id : PageIdentifier) (head : Z) (vid : PageIdentifier)
| Put (io : bool) (id : PageIdentifier) (frame : Z) (vid : PageIdentifier)
| Forget (io : bool) (id : PageIdentifier) (frame : Z) (vid : PageIdentifier)
| LoadVersions (id : PageIdentifier) (frame : Z)
| StoreVersions (id : PageIdentifier) (frame new_versions : Z)
| Enqueue (id : PageIdentifier) (frame : Z)
| Clear (id : PageIdentifier) (frame : Z)
| UndoLatch (id : PageIdentifier) (frame : Z) (vid : PageIdentifier) (new_frame : Z)
| UndoPin (id : PageIdentifier) (frame : Z) (vid : PageIdentifier) (new_frame : Z)
| UndoId (id : PageIdentifier) (frame : Z) (vid : PageIdentifier) (new_frame : Z)
| UndoFlag (id : PageIdentifier) (frame : Z) (new_frame : Z)
| UndoUnlatch (id : PageIdentifier) (frame : Z) (new_frame : Z)
| Holds (id : PageIdentifier) (frame : Z)
| Ready (id : PageIdentifier) (frame : Z)
| Crashed (why : string) (pin : option Z).

(** [pages_] has [pool_size_] frames, those that are not in the map as the
    constructor made them; [tasks_] are the reads in the scheduler. *)
Record BufferPool := mkBufferPool {
  pages_ : gmap Z Frame.Page;
  pool_size_ : Z;
  sweep_head_ : Z;
  partitions_ : BufferPartitions.state;
  version_table_ : PageVersionManager.state;
  page_ids_ : FreeSpaceManagerIndex.state;
  tasks_ : list (Z * PageIdentifier);
  pcs : gmap nat pc
}.

Definition make (page_num : Z) (versions : PageVersionManager.state) : BufferPool :=
  mkBufferPool ∅ page_num 0 ∅ versions (FreeSpaceManagerIndex.Reset ∅) [] ∅.

Definition page_at (s : BufferPool) (frame : Z) : Frame.Page := default Frame.make (pages_ s !! frame).
Definition pc_of (s : BufferPool) (t : nat) : pc := default Idle (pcs s !! t).

Definition set_pc (s : BufferPool) (t : nat) (p : pc) : BufferPool :=
  mkBufferPool (pages_ s) (pool_size_ s) (sweep_head_ s) (partitions_ s) (version_table_ s) (page_ids_ s) (tasks_ s) (<[t := p]> (pcs s)).
Definition set_page (s : BufferPool) (frame : Z) (p : Frame.Page) : BufferPool :=
  mkBufferPool (<[frame := p]> (pages_ s)) (pool_size_ s) (sweep_head_ s) (partitions_ s) (version_table_ s) (page_ids_ s) (tasks_ s) (pcs s).
Definition set_sweep (s : BufferPool) (n : Z) : BufferPool :=
  mkBufferPool (pages_ s) (pool_size_ s) n (partitions_ s) (version_table_ s) (page_ids_ s) (tasks_ s) (pcs s).
Definition set_partitions (s : BufferPool) (p : BufferPartitions.state) : BufferPool :=
  mkBufferPool (pages_ s) (pool_size_ s) (sweep_head_ s) p (version_table_ s) (page_ids_ s) (tasks_ s) (pcs s).
Definition set_ids (s : BufferPool) (ids : FreeSpaceManagerIndex.state) : BufferPool :=
  mkBufferPool (pages_ s) (pool_size_ s) (sweep_head_ s) (partitions_ s) (version_table_ s) ids (tasks_ s) (pcs s).
Definition set_tasks (s : BufferPool) (l : list (Z * PageIdentifier)) : BufferPool :=
  mkBufferPool (pages_ s) (pool_size_ s) (sweep_head_ s) (partitions_ s) (version_table_ s) (page_ids_ s) l (pcs s).

(** ** The calls *)

(** [Pin(id)]: the assertions, then the loop. *)
Definition Pin (s : BufferPool) (t : nat) (id : PageIdentifier) : BufferPool :=
  if pid id =? 0 then set_pc s t (Crashed "invalid pid" None)
  else if pid id =? UINT32_MAX then set_pc s t (Crashed "invalid pid" None)
  else set_pc s t (Lookup id).

(** [Reserve(tbl_id)]. *)
Definition Reserve (s : BufferPool) (t : nat) (tbl_id : Z) : BufferPool :=
  let '(pid, ids) := FreeSpaceManagerIndex.Get (page_ids_ s) tbl_id in
  let s := set_ids s ids in
  if pid <? BUFFER_POOL_PAGE_NUM then set_pc s t (Sweep false (mkPageIdentifier tbl_id pid))
  else set_pc s t (Crashed "no more pages" None).

(** One step of thread [t] in a call; [None]: blocked, or not in a call. *)
Definition step (t : nat) (s : BufferPool) : option BufferPool :=
  let goto s p := Some (set_pc s t p) in
  let upd frame f p := Some (set_pc (set_page s frame (f (page_at s frame))) t p) in
  match pc_of s t with
  | Idle | Crashed _ _ => None
  | Lookup id =>
      let frame_idx := BufferPartitions.Get (partitions_ s) id (GetPartitionIdx id) in
      if negb (frame_idx =? UINT32_MAX) then goto s (Visit id frame_idx false) else goto s (Sweep true id)
  | Visit id frame last => upd frame Frame.Pin (Visited id frame last)
  | Visited id frame last =>
      if PageIdentifier_eqb (Frame.id_ (page_at s frame)) id then goto s (Holds id frame) else goto s (Unvisit id frame last)
  | Unvisit id frame last => upd frame Frame.Unpin (if last then Lookup id else Sweep true id)
  | Sweep io id =>
      let head := sweep_head_ s mod BUFFER_POOL_PAGE_NUM in
      let s := set_sweep s (to_u32 (sweep_head_ s + 1)) in
      if head <? pool_size_ s then goto s (TryLatch io id head) else goto s (Crashed "frame past the pool" None)
  | TryLatch io id head =>
      let '(ok, page) := Frame.TryWLock (page_at s head) t in
      if ok then goto (set_page s head page) (CheckRefs io id head) else goto s (Sweep io id)
  | CheckRefs io id head =>
      if Frame.IsPinned (page_at s head) then goto s (Unlatch io id head) else goto s (CheckFlags io id head)
  | CheckFlags io id head =>
      if Frame.flags_clear (page_at s head) then goto s (TakeId io id head) else goto s (Unlatch io id head)
  | Unlatch io id head => upd head Frame.WUnlock (Sweep io id)
  | TakeId io id head => goto s (GiveId io id head (Frame.id_ (page_at s head)))
  | GiveId io id head vid => upd head (λ p, Frame.SetId p id) (TakePin io id head vid)
  | TakePin io id head vid => upd head Frame.Pin (if io then TakeFlag id head vid else TakeDone io id head vid)
  | TakeFlag id head vid => upd head Frame.SetIOInProgress (TakeDone true id head vid)
  | TakeDone io id head vid => upd head Frame.WUnlock (Put io id head vid)
  | Put io id frame vid =>
      let '(inserted, new_frame, parts) := BufferPartitions.Put (partitions_ s) id frame (GetPartitionIdx id) in
      if inserted then goto (set_partitions s parts) (Forget io id frame vid)
      else if io then goto s (UndoLatch id frame vid new_frame) else goto s (Crashed "unreachable" (Some frame))
  | Forget io id frame vid =>
      goto (set_partitions s (BufferPartitions.Delete (partitions_ s) vid frame (GetPartitionIdx vid)))
        (if io then LoadVersions id frame else Clear id frame)
  | LoadVersions id frame => goto s (StoreVersions id frame (PageVersionManager.Get (version_table_ s) id))
  | StoreVersions id frame v => upd frame (λ p, Frame.SetVersions p v) (Enqueue id frame)
  | Enqueue id frame => goto (set_tasks s (tasks_ s ++ [(frame, id)])) (Holds id frame)
  | Clear id frame => upd frame (λ p, Frame.SetData p ∅) (Ready id frame)
  | UndoLatch id frame vid new_frame =>
      page ← Frame.WLock (page_at s frame) t;
      goto (set_page s frame page) (UndoPin id frame vid new_frame)
  | UndoPin id frame vid new_frame => upd frame Frame.Unpin (UndoId id frame vid new_frame)
  | UndoId id frame vid new_frame => upd frame (λ p, Frame.SetId p vid) (UndoFlag id frame new_frame)
  | UndoFlag id frame new_frame => upd frame Frame.ClearIOInProgress (UndoUnlatch id frame new_frame)
  | UndoUnlatch id frame new_frame => upd frame Frame.WUnlock (Visit id new_frame true)
  | Holds id frame => if Frame.IsIOInProgress (page_at s frame) then None else goto s (Ready id frame)
  | Ready id frame => None
  end.

(** [Unpin(page, dirty)] by the thread that holds the page; [dirty] is unused. *)
Definition Unpin (s : BufferPool) (t : nat) (dirty : bool) : option BufferPool :=
  match pc_of s t with
  | Ready id frame => Some (set_pc (set_page s frame (Frame.Unpin (page_at s frame))) t Idle)
  | _ => None
  end.

(** The device has read a page ([disk]) into the frame of a task, and the
    scheduler's thread runs the completion; the latch must be free. *)
Definition complete (disk : PageIdentifier → mem) (s : BufferPool) (i : nat) : option (outcome BufferPool) :=
  match tasks_ s !! i with
  | Some (frame, id) =>
      let page := Frame.SetData (page_at s frame) (disk id) in
      match Frame.latch_ page with
      | Some _ => None
      | None => Some (page ← Frame.SignalIO page; Ret (set_tasks (set_page s frame page) (take i (tasks_ s) ++ drop (S i) (tasks_ s))))
      end
  | None => None
  end.

(** ** Schedules *)
Inductive event :=
| StartPin (t : nat) (id : PageIdentifier)
| StartReserve (t : nat) (tbl_id : Z)
| Step (t : nat)
| StartUnpin (t : nat) (dirty : bool)
| Complete (i : nat).

Section Run.
Context (disk : PageIdentifier → mem).

Definition fire (e : event) (s : BufferPool) : option BufferPool :=
  match e with
  | StartPin t id => match pc_of s t with Idle => Some (Pin s t id) | _ => None end
  | StartReserve t tbl_id => match pc_of s t with Idle => Some (Reserve s t tbl_id) | _ => None end
  | Step t => step t s
  | StartUnpin t dirty => Unpin s t dirty
  | Complete i => match complete disk s i with Some (Ret s) => Some s | _ => None end
  end.

Fixpoint run (tr : list event) (s : BufferPool) : option BufferPool :=
  match tr with
  | [] => Some s
  | e :: tr => s ← fire e s; run tr s
  end.
End Run.

(** [n] steps of one thread. *)
Fixpoint steps (n : nat) (t : nat) (s : BufferPool) : option BufferPool :=
  match n with
  | O => Some s
  | S n => s ← step t s; steps n t s
  end.
End BufferPool.
