(* ===== verification/BufferPoolFacts.v ===== *)
(** * Facts on the buffer pool machine *)

From S2P Require Import Prelude Bytes Shared Memory Fsm Arena Undo Redo Txn BufferPool.
Import BufferPool.

(** ** What a thread holds *)

(** The frame on which a thread has a pin. *)
Definition pinned_on (p : pc) : option Z :=
  match p with
  | Visited _ f _ | Unvisit _ f _ | TakeFlag _ f _ | TakeDone _ _ f _ | Put _ _ f _ | Forget _ _ f _
  | LoadVersions _ f | StoreVersions _ f _ | Enqueue _ f | Clear _ f | UndoLatch _ f _ _ | UndoPin _ f _ _
  | Holds _ f | Ready _ f => Some f
  | Crashed _ o => o
  | _ => None
  end.

(** The frame whose latch it holds. *)
Definition latched_on (p : pc) : option Z :=
  match p with
  | CheckRefs _ _ f | CheckFlags _ _ f | Unlatch _ _ f | TakeId _ _ f | GiveId _ _ f _ | TakePin _ _ f _
  | TakeFlag _ f _ | TakeDone _ _ f _ | UndoPin _ f _ _ | UndoId _ f _ _ | UndoFlag _ f _ | UndoUnlatch _ f _ => Some f
  | _ => None
  end.

(** The frame whose I/O flag it has set and has to clear or pass to a task. *)
Definition io_on (p : pc) : option Z :=
  match p with
  | TakeDone true _ f _ | Put true _ f _ | Forget true _ f _ | LoadVersions _ f | StoreVersions _ f _ | Enqueue _ f
  | UndoLatch _ f _ _ | UndoPin _ f _ _ | UndoId _ f _ _ | UndoFlag _ f _ => Some f
  | _ => None
  end.

(** The frame it has found without flags. *)
Definition quiet_on (p : pc) : option Z :=
  match p with TakeId _ _ f | GiveId _ _ f _ | TakePin _ _ f _ | TakeFlag _ f _ => Some f | _ => None end.

(** The page it waits for. *)
Definition holds_on (p : pc) : option (Z * PageIdentifier) := match p with Holds id f => Some (f, id) | _ => None end.

(** ** Counting pins *)

Definition has_pin (f : Z) (kv : nat * pc) : Prop := pinned_on kv.2 = Some f.

#[export] Instance has_pin_dec f kv : Decision (has_pin f kv).
Proof. unfold has_pin. apply _. Defined.

Definition pins (m : gmap nat pc) (f : Z) : Z := Z.of_nat (size (filter (has_pin f) m)).

Definition here {A} `{EqDecision A} (o : option A) (x : A) : Z := if decide (o = Some x) then 1 else 0.

Lemma pins_insert m t p f :
  pins (<[t := p]> m) f = pins m f - here (pinned_on (default Idle (m !! t))) f + here (pinned_on p) f.
Proof.
  set (P := has_pin f).
  assert (E : ∀ q, m !! t = Some q → (filter P m !! t = Some q ↔ pinned_on q = Some f)).
  { intros q Hq. rewrite map_lookup_filter_Some, Hq. unfold P, has_pin. cbn. tauto. }
  assert (En : m !! t = None → filter P m !! t = None) by (intros Hn; apply map_lookup_filter_None_2; left; exact Hn).
  assert (Eo : ∀ q, m !! t = Some q → pinned_on q ≠ Some f → filter P m !! t = None).
  { intros q Hq Hn. apply map_lookup_filter_None. right. intros q'. rewrite Hq. intros [= <-]. exact Hn. }
  assert (Hold : (filter P m !! t = None ∧ here (pinned_on (default Idle (m !! t))) f = 0) ∨
                 (is_Some (filter P m !! t) ∧ here (pinned_on (default Idle (m !! t))) f = 1)).
  { unfold here. destruct (m !! t) as [q|] eqn:Em; simpl; [|left; split; [by apply En|reflexivity]].
    destruct (decide (pinned_on q = Some f)) as [Hq|Hq]; [right|left; split; [by apply (Eo q)|done]].
    split; [exists q; by apply E|done]. }
  unfold pins. rewrite map_filter_insert. fold P. unfold here at 2.
  destruct (decide (P (t, p))) as [Hp|Hp]; [rewrite (decide_True (P := pinned_on p = Some f)) by exact Hp|rewrite (decide_False (P := pinned_on p = Some f)) by exact Hp].
  - destruct Hold as [[Hn ->]|[[q Hq] ->]].
    + rewrite map_size_insert_None by done. lia.
    + rewrite map_size_insert_Some by done. lia.
  - rewrite map_filter_delete. destruct Hold as [[Hn ->]|[[q Hq] ->]].
    + rewrite map_size_delete_None by done. lia.
    + rewrite map_size_delete_Some by done. assert (size (filter P m) ≠ 0%nat); [|lia].
      apply map_size_ne_0_lookup. by exists t, q.
Qed.

Lemma pins_range m f : 0 ≤ pins m f ≤ Z.of_nat (size m).
Proof. unfold pins. pose proof (map_size_filter (has_pin f) m). lia. Qed.

Lemma pins_pos m t p f : m !! t = Some p → pinned_on p = Some f → 0 < pins m f.
Proof.
  intros Hm Hp. unfold pins. assert (size (filter (has_pin f) m) ≠ 0%nat); [|lia].
  apply map_size_ne_0_lookup. exists t, p. by apply map_lookup_filter_Some.
Qed.

(** ** Invariant *)

Abbreviation flags s f := (Frame.flags_ (page_at s f)).
Abbreviation io_flag := Frame.IO_IN_PROGRESS_FLAG.

(** With at most [n] threads. *)
Record pool_inv (n : Z) (s : BufferPool) : Prop := {
  pi_threads : Z.of_nat (size (pcs s)) ≤ n;
  pi_refs : ∀ f, Frame.ref_count_ (page_at s f) = pins (pcs s) f;
  pi_latch : ∀ f t, Frame.latch_ (page_at s f) = Some t ↔ latched_on (pc_of s t) = Some f;
  pi_flags : ∀ f, flags s f = 0 ∨ flags s f = io_flag;
  pi_io : ∀ t f, io_on (pc_of s t) = Some f → flags s f = io_flag;
  pi_io_one : ∀ t t' f, io_on (pc_of s t) = Some f → io_on (pc_of s t') = Some f → t = t';
  pi_task : ∀ f id, (f, id) ∈ tasks_ s → flags s f = io_flag ∧ ∃ t, pc_of s t = Holds id f;
  pi_io_task : ∀ t f, io_on (pc_of s t) = Some f → f ∉ (tasks_ s).*1;
  pi_task_one : NoDup (tasks_ s).*1;
  pi_quiet : ∀ t f, quiet_on (pc_of s t) = Some f → flags s f = 0
}.

(** The state after a step of [t] to [p] that sets frame [f]. *)
Record moved (s s' : BufferPool) (t : nat) (p : pc) (f : Z) (page : Frame.Page) : Prop := {
  mv_pcs : pcs s' = <[t := p]> (pcs s);
  mv_page : ∀ g, page_at s' g = if decide (g = f) then page else page_at s g
}.

Lemma moved_pc s s' t p f page : moved s s' t p f page → ∀ t', pc_of s' t' = if decide (t' = t) then p else pc_of s t'.
Proof.
  intros H t'. unfold pc_of. rewrite (mv_pcs _ _ _ _ _ _ H).
  destruct (decide (t' = t)) as [->|]; [by rewrite lookup_insert_eq|by rewrite lookup_insert_ne].
Qed.

Lemma moved_same s t p : ∀ f, moved s (set_pc s t p) t p f (page_at s f).
Proof. intros f. split; [done|]. intros g. by destruct (decide (g = f)) as [->|]. Qed.

Lemma moved_page s t p f page : moved s (set_pc (set_page s f page) t p) t p f page.
Proof.
  split; [done|]. intros g. unfold page_at, set_page. cbn.
  destruct (decide (g = f)) as [->|]; [by rewrite lookup_insert_eq|by rewrite lookup_insert_ne].
Qed.

Section Moved.
Context (n : Z) (s s' : BufferPool) (t : nat) (p : pc) (f : Z) (page : Frame.Page).
Context (Hi : pool_inv n s) (Hm : moved s s' t p f page).

(** The parts of the invariant on pins and latches. *)
Lemma moved_refs :
  Frame.ref_count_ page = Frame.ref_count_ (page_at s f) - here (pinned_on (pc_of s t)) f + here (pinned_on p) f →
  (∀ g, g ≠ f → here (pinned_on p) g = here (pinned_on (pc_of s t)) g) →
  ∀ g, Frame.ref_count_ (page_at s' g) = pins (pcs s') g.
Proof.
  intros H1 H2 g. rewrite (mv_pcs _ _ _ _ _ _ Hm), pins_insert, (mv_page _ _ _ _ _ _ Hm).
  change (default Idle (pcs s !! t)) with (pc_of s t). rewrite <- (pi_refs _ _ Hi).
  destruct (decide (g = f)) as [->|Hg]; [done|]. rewrite (H2 g Hg). lia.
Qed.

Lemma moved_latch :
  (∀ t', Frame.latch_ page = Some t' ↔ (if decide (t' = t) then latched_on p else latched_on (pc_of s t')) = Some f) →
  (∀ g, g ≠ f → latched_on p = Some g ↔ latched_on (pc_of s t) = Some g) →
  ∀ g t', Frame.latch_ (page_at s' g) = Some t' ↔ latched_on (pc_of s' t') = Some g.
Proof.
  intros H1 H2 g t'. rewrite (moved_pc _ _ _ _ _ _ Hm), (mv_page _ _ _ _ _ _ Hm).
  destruct (decide (g = f)) as [->|Hg].
  - rewrite H1. by destruct (decide (t' = t)).
  - rewrite (pi_latch _ _ Hi). destruct (decide (t' = t)) as [->|]; [|done]. by rewrite H2.
Qed.

Lemma moved_threads : Z.of_nat (size (pcs s')) ≤ n + 1.
Proof.
  rewrite (mv_pcs _ _ _ _ _ _ Hm). pose proof (pi_threads _ _ Hi).
  destruct (pcs s !! t) eqn:E; [rewrite map_size_insert_Some by eauto|rewrite map_size_insert_None by done]; lia.
Qed.

(** A step that leaves the flags and the tasks alone. *)
Lemma inv_plain :
  tasks_ s' = tasks_ s → Frame.flags_ page = flags s f →
  Frame.ref_count_ page = Frame.ref_count_ (page_at s f) - here (pinned_on (pc_of s t)) f + here (pinned_on p) f →
  (∀ g, g ≠ f → here (pinned_on p) g = here (pinned_on (pc_of s t)) g) →
  (∀ t', Frame.latch_ page = Some t' ↔ (if decide (t' = t) then latched_on p else latched_on (pc_of s t')) = Some f) →
  (∀ g, g ≠ f → latched_on p = Some g ↔ latched_on (pc_of s t) = Some g) →
  io_on p = io_on (pc_of s t) → (∀ g, quiet_on p = Some g → flags s g = 0) →
  (∀ id g, pc_of s t = Holds id g → flags s g = 0) →
  pool_inv (n + 1) s'.
Proof.
  intros Et Hf H1 H2 H3 H4 Hio Hq Hh.
  assert (Hfl : ∀ g, flags s' g = flags s g).
  { intros g. rewrite (mv_page _ _ _ _ _ _ Hm). by destruct (decide (g = f)) as [->|]. }
  assert (Hios : ∀ t', io_on (pc_of s' t') = io_on (pc_of s t')).
  { intros t'. rewrite (moved_pc _ _ _ _ _ _ Hm). by destruct (decide (t' = t)) as [->|]. }
  split; [apply moved_threads|by apply moved_refs|by apply moved_latch|..].
  - intros g. rewrite Hfl. apply (pi_flags _ _ Hi).
  - intros t' g. rewrite Hfl, Hios. apply (pi_io _ _ Hi).
  - intros t1 t2 g. rewrite !Hios. apply (pi_io_one _ _ Hi).
  - intros g id. rewrite Et, Hfl. intros Hin. destruct (pi_task _ _ Hi _ _ Hin) as [Hg (t' & Ht')]. split; [done|].
    exists t'. rewrite (moved_pc _ _ _ _ _ _ Hm). destruct (decide (t' = t)) as [->|]; [|done].
    rewrite (Hh id g Ht') in Hg. done.
  - intros t' g. rewrite Et, Hios. apply (pi_io_task _ _ Hi).
  - rewrite Et. apply (pi_task_one _ _ Hi).
  - intros t' g. rewrite Hfl, (moved_pc _ _ _ _ _ _ Hm). destruct (decide (t' = t)); [apply Hq|apply (pi_quiet _ _ Hi)].
Qed.
End Moved.

Lemma refs_pos n s t f : pool_inv n s → pinned_on (pc_of s t) = Some f → 0 < Frame.ref_count_ (page_at s f).
Proof.
  intros Hi Hp. rewrite (pi_refs _ _ Hi). unfold pc_of in Hp. destruct (pcs s !! t) as [q|] eqn:E; [|done]. by eapply pins_pos.
Qed.

Lemma refs_range n s f : pool_inv n s → 0 ≤ Frame.ref_count_ (page_at s f) ≤ n.
Proof. intros Hi. rewrite (pi_refs _ _ Hi). pose proof (pins_range (pcs s) f). pose proof (pi_threads _ _ Hi). lia. Qed.

Lemma latched_one n s t t' f : pool_inv n s → latched_on (pc_of s t) = Some f → latched_on (pc_of s t') = Some f → t = t'.
Proof. intros Hi H H'. apply (pi_latch _ _ Hi) in H, H'. congruence. Qed.

Lemma here_same {A} `{EqDecision A} (o : option A) x : here o x = here o x.
Proof. done. Qed.

(** The flag is set on a frame that nobody reads into. *)
Lemma inv_take n s t id f vid :
  pool_inv n s → pc_of s t = TakeFlag id f vid →
  pool_inv (n + 1) (set_pc (set_page s f (Frame.SetIOInProgress (page_at s f))) t (TakeDone true id f vid)).
Proof.
  intros Hi Hq. set (s' := set_pc _ _ _). pose proof (moved_page s t (TakeDone true id f vid) f (Frame.SetIOInProgress (page_at s f))) as Hm.
  fold s' in Hm. assert (H0 : flags s f = 0) by (apply (pi_quiet _ _ Hi t); by rewrite Hq).
  assert (Hpc := moved_pc _ _ _ _ _ _ Hm). assert (Hpg := mv_page _ _ _ _ _ _ Hm).
  assert (Hnio : ∀ t', io_on (pc_of s t') ≠ Some f) by (intros t' Ht'; apply (pi_io _ _ Hi) in Ht'; by rewrite H0 in Ht').
  assert (Hntask : f ∉ (tasks_ s).*1).
  { intros Hin. apply list_elem_of_fmap in Hin as ([g i] & E & Hin). cbn in E. subst g. apply (pi_task _ _ Hi) in Hin as [Hin _]. by rewrite H0 in Hin. }
  assert (Hfl : ∀ g, flags s' g = if decide (g = f) then io_flag else flags s g).
  { intros g. rewrite Hpg. destruct (decide (g = f)); [|done]. cbn. by rewrite H0. }
  split; [by apply (moved_threads n s s' t _ f _ Hi Hm)|apply (moved_refs n s s' t _ f _ Hi Hm)|apply (moved_latch n s s' t _ f _ Hi Hm)|..].
  - rewrite Hq. cbn. lia.
  - intros g Hg. by rewrite Hq.
  - intros t'. cbn [Frame.latch_ Frame.SetIOInProgress Frame.set_flags]. rewrite (pi_latch _ _ Hi).
    destruct (decide (t' = t)) as [->|]; [by rewrite Hq|done].
  - intros g Hg. by rewrite Hq.
  - intros g. rewrite Hfl. destruct (decide (g = f)); [by right|apply (pi_flags _ _ Hi)].
  - intros t' g. rewrite Hfl, Hpc. destruct (decide (t' = t)) as [->|]; [cbn; intros [= <-]; by rewrite decide_True|].
    destruct (decide (g = f)); [done|apply (pi_io _ _ Hi)].
  - intros t1 t2 g. rewrite !Hpc. destruct (decide (t1 = t)) as [->|], (decide (t2 = t)) as [->|]; cbn [io_on].
    + done.
    + intros [= <-] H. by apply Hnio in H.
    + intros H [= <-]. by apply Hnio in H.
    + apply (pi_io_one _ _ Hi).
  - intros g i Hin. change (tasks_ s') with (tasks_ s) in Hin. destruct (pi_task _ _ Hi _ _ Hin) as [Hg (t' & Ht')]. rewrite Hfl.
    split; [by destruct (decide (g = f))|]. exists t'. rewrite Hpc. destruct (decide (t' = t)) as [->|]; [congruence|done].
  - intros t' g. change (tasks_ s') with (tasks_ s). rewrite Hpc. destruct (decide (t' = t)); [cbn; by intros [= <-]|apply (pi_io_task _ _ Hi)].
  - apply (pi_task_one _ _ Hi).
  - intros t' g. rewrite Hfl, Hpc. destruct (decide (t' = t)) as [->|Ht]; [done|]. intros Hg. destruct (decide (g = f)) as [->|]; [|by apply (pi_quiet _ _ Hi t')].
    exfalso. apply Ht. apply (latched_one n s t' t f Hi); [|by rewrite Hq]. revert Hg. by destruct (pc_of s t').
Qed.

Lemma clear_flag : Z.land io_flag (to_u8 (Z.lnot io_flag)) = 0.
Proof. by vm_compute. Qed.

(** The flag of frame [f] is cleared by the one that answers for it. *)
Lemma inv_undo_flag n s t id f new_frame :
  pool_inv n s → pc_of s t = UndoFlag id f new_frame →
  pool_inv (n + 1) (set_pc (set_page s f (Frame.ClearIOInProgress (page_at s f))) t (UndoUnlatch id f new_frame)).
Proof.
  intros Hi Hq. set (s' := set_pc _ _ _). pose proof (moved_page s t (UndoUnlatch id f new_frame) f (Frame.ClearIOInProgress (page_at s f))) as Hm.
  fold s' in Hm. assert (Hpc := moved_pc _ _ _ _ _ _ Hm). assert (Hpg := mv_page _ _ _ _ _ _ Hm).
  assert (Hio : io_on (pc_of s t) = Some f) by (by rewrite Hq).
  assert (H2 : flags s f = io_flag) by (by apply (pi_io _ _ Hi t)).
  assert (Hntask := pi_io_task _ _ Hi t f Hio).
  assert (Hfl : ∀ g, flags s' g = if decide (g = f) then 0 else flags s g).
  { intros g. rewrite Hpg. destruct (decide (g = f)); [|done]. cbn. rewrite H2. apply clear_flag. }
  split; [by apply (moved_threads n s s' t _ f _ Hi Hm)|apply (moved_refs n s s' t _ f _ Hi Hm)|apply (moved_latch n s s' t _ f _ Hi Hm)|..].
  - rewrite Hq. cbn. lia.
  - intros g Hg. by rewrite Hq.
  - intros t'. cbn [Frame.latch_ Frame.ClearIOInProgress Frame.set_flags]. rewrite (pi_latch _ _ Hi).
    destruct (decide (t' = t)) as [->|]; [by rewrite Hq|done].
  - intros g Hg. by rewrite Hq.
  - intros g. rewrite Hfl. destruct (decide (g = f)); [by left|apply (pi_flags _ _ Hi)].
  - intros t' g. rewrite Hfl, Hpc. destruct (decide (t' = t)) as [->|Ht]; [done|]. intros Hg.
    destruct (decide (g = f)) as [->|]; [|by apply (pi_io _ _ Hi t')]. exfalso. apply Ht. by apply (pi_io_one _ _ Hi t' t f).
  - intros t1 t2 g. rewrite !Hpc. destruct (decide (t1 = t)), (decide (t2 = t)); try done. apply (pi_io_one _ _ Hi).
  - intros g i Hin. change (tasks_ s') with (tasks_ s) in Hin. destruct (pi_task _ _ Hi _ _ Hin) as [Hg (t' & Ht')]. rewrite Hfl.
    split; [|exists t'; rewrite Hpc; destruct (decide (t' = t)) as [->|]; [congruence|done]].
    destruct (decide (g = f)) as [->|]; [|done]. exfalso. apply Hntask, list_elem_of_fmap. by exists (f, i).
  - intros t' g. change (tasks_ s') with (tasks_ s). rewrite Hpc. destruct (decide (t' = t)); [done|apply (pi_io_task _ _ Hi)].
  - apply (pi_task_one _ _ Hi).
  - intros t' g. rewrite Hfl, Hpc. destruct (decide (t' = t)) as [->|Ht]; [done|]. intros Hg. destruct (decide (g = f)); [done|by apply (pi_quiet _ _ Hi t')].
Qed.

(** The read is handed to the scheduler. *)
Lemma inv_enqueue n s t id f :
  pool_inv n s → pc_of s t = Enqueue id f →
  pool_inv (n + 1) (set_pc (set_tasks s (tasks_ s ++ [(f, id)])) t (Holds id f)).
Proof.
  intros Hi Hq. set (s' := set_pc _ _ _).
  assert (Hm : moved s s' t (Holds id f) f (page_at s f)) by (split; [done|]; intros g; by destruct (decide (g = f)) as [->|]).
  assert (Hpc := moved_pc _ _ _ _ _ _ Hm). assert (Hio : io_on (pc_of s t) = Some f) by (by rewrite Hq).
  assert (Ht : tasks_ s' = tasks_ s ++ [(f, id)]) by done.
  split; [by apply (moved_threads n s s' t _ f _ Hi Hm)|apply (moved_refs n s s' t _ f _ Hi Hm)|apply (moved_latch n s s' t _ f _ Hi Hm)|..].
  - rewrite Hq. cbn. lia.
  - intros g Hg. by rewrite Hq.
  - intros t'. rewrite (pi_latch _ _ Hi). destruct (decide (t' = t)) as [->|]; [by rewrite Hq|done].
  - intros g Hg. by rewrite Hq.
  - apply (pi_flags _ _ Hi).
  - intros t' g. rewrite Hpc. destruct (decide (t' = t)); [done|apply (pi_io _ _ Hi)].
  - intros t1 t2 g. rewrite !Hpc. destruct (decide (t1 = t)), (decide (t2 = t)); try done. apply (pi_io_one _ _ Hi).
  - intros g i. rewrite Ht, elem_of_app, list_elem_of_singleton. intros [Hin|[= -> ->]].
    + destruct (pi_task _ _ Hi _ _ Hin) as [Hg (t' & Ht')]. split; [done|]. exists t'. rewrite Hpc.
      destruct (decide (t' = t)) as [->|]; [congruence|done].
    + split; [by apply (pi_io _ _ Hi t)|]. exists t. rewrite Hpc. by rewrite decide_True.
  - intros t' g. rewrite Ht, fmap_app, Hpc. destruct (decide (t' = t)) as [->|Hne]; [done|]. intros Hg Hin.
    apply elem_of_app in Hin as [Hin|Hin]; [by apply (pi_io_task _ _ Hi t' g)|].
    apply list_elem_of_singleton in Hin. cbn in Hin. subst g. apply Hne. by apply (pi_io_one _ _ Hi t' t f).
  - rewrite Ht, fmap_app. apply NoDup_app. split_and!; [apply (pi_task_one _ _ Hi)| |apply NoDup_singleton].
    intros g Hg Hin. apply list_elem_of_singleton in Hin. cbn in Hin. subst g. by apply (pi_io_task _ _ Hi t f).
  - intros t' g. rewrite Hpc. destruct (decide (t' = t)); [done|apply (pi_quiet _ _ Hi)].
Qed.

(** A step that changes no frame. *)
Lemma inv_goto n s s1 t p :
  pool_inv n s → pages_ s1 = pages_ s → tasks_ s1 = tasks_ s → pcs s1 = pcs s →
  pinned_on p = pinned_on (pc_of s t) → latched_on p = latched_on (pc_of s t) → io_on p = io_on (pc_of s t) →
  (∀ g, quiet_on p = Some g → flags s g = 0) → (∀ id g, pc_of s t = Holds id g → flags s g = 0) →
  pool_inv (n + 1) (set_pc s1 t p).
Proof.
  intros Hi Ep Et Epc H1 H2 H3 H4 H5.
  assert (Hm : moved s (set_pc s1 t p) t p 0 (page_at s 0)).
  { split; [cbn; by rewrite Epc|]. intros g. unfold page_at. cbn. rewrite Ep. by destruct (decide (g = 0)) as [->|]. }
  apply (inv_plain n s _ t p 0 (page_at s 0) Hi Hm); [done|done|rewrite H1; lia|by rewrite H1| |by rewrite H2|done|done|done].
  intros t'. rewrite (pi_latch _ _ Hi). destruct (decide (t' = t)) as [->|]; [by rewrite H2|done].
Qed.

(** A step on the fields of a frame that are neither flags nor latch. *)
Lemma inv_page n s t p f page :
  pool_inv n s → Frame.flags_ page = flags s f → Frame.latch_ page = Frame.latch_ (page_at s f) →
  Frame.ref_count_ page = Frame.ref_count_ (page_at s f) - here (pinned_on (pc_of s t)) f + here (pinned_on p) f →
  (∀ g, g ≠ f → here (pinned_on p) g = here (pinned_on (pc_of s t)) g) →
  latched_on p = latched_on (pc_of s t) → io_on p = io_on (pc_of s t) → (∀ g, quiet_on p = Some g → flags s g = 0) →
  (∀ id g, pc_of s t = Holds id g → flags s g = 0) →
  pool_inv (n + 1) (set_pc (set_page s f page) t p).
Proof.
  intros Hi Hf Hl Hr Hg H2 H3 H4 H5.
  apply (inv_plain n s _ t p f page Hi (moved_page s t p f page)); [done|done|done|done| |by rewrite H2|done|done|done].
  intros t'. rewrite Hl, (pi_latch _ _ Hi). destruct (decide (t' = t)) as [->|]; [by rewrite H2|done].
Qed.

(** A step that takes or drops the latch of a frame. *)
Lemma inv_latch n s t p f l :
  pool_inv n s → pinned_on p = pinned_on (pc_of s t) →
  (latched_on p = Some f ∧ latched_on (pc_of s t) = None ∧ Frame.latch_ (page_at s f) = None ∧ l = Some t ∨
   latched_on p = None ∧ latched_on (pc_of s t) = Some f ∧ l = None) →
  io_on p = io_on (pc_of s t) → (∀ g, quiet_on p = Some g → flags s g = 0) → (∀ id g, pc_of s t = Holds id g → flags s g = 0) →
  pool_inv (n + 1) (set_pc (set_page s f (Frame.set_latch (page_at s f) l)) t p).
Proof.
  intros Hi H1 H2 H3 H4 H5.
  apply (inv_plain n s _ t p f (Frame.set_latch (page_at s f) l) Hi (moved_page s t p f _)); [done|done| | | | |done|done|done].
  - rewrite H1. cbn. lia.
  - by rewrite H1.
  - intros t'. cbn [Frame.latch_ Frame.set_latch]. destruct H2 as [(E1 & E2 & E3 & ->)|(E1 & E2 & ->)].
    + destruct (decide (t' = t)) as [->|Hne]; [by rewrite E1|]. rewrite <- (pi_latch _ _ Hi), E3. split; congruence.
    + destruct (decide (t' = t)) as [->|Hne]; [by rewrite E1|]. split; [done|]. intros H. exfalso. apply Hne. by apply (latched_one n s t' t f).
  - intros g Hg. destruct H2 as [(E1 & E2 & _)|(E1 & E2 & _)]; rewrite E1, E2; split; congruence.
Qed.

Lemma land_flag s f n : pool_inv n s → Frame.flags_clear (page_at s f) = true → flags s f = 0.
Proof.
  intros Hi H. destruct (pi_flags _ _ Hi f) as [E|E]; [done|]. exfalso. revert H.
  unfold Frame.flags_clear, Frame.IsDirty, Frame.IsIOInProgress. rewrite E. by vm_compute.
Qed.

Lemma land_io s f n : pool_inv n s → Frame.IsIOInProgress (page_at s f) = false → flags s f = 0.
Proof.
  intros Hi H. destruct (pi_flags _ _ Hi f) as [E|E]; [done|]. exfalso. revert H.
  unfold Frame.IsIOInProgress. rewrite E. by vm_compute.
Qed.

Lemma here_other (f g : Z) : g ≠ f → here (Some f) g = 0.
Proof. intros Hne. unfold here. rewrite decide_False; [done|]. congruence. Qed.

Lemma here_self (f : Z) : here (Some f) f = 1.
Proof. unfold here. by rewrite decide_True. Qed.

Lemma here_none (f : Z) : here None f = 0.
Proof. done. Qed.

(** Pinning a frame and dropping the pin. *)
Lemma inv_pin n s t p f :
  pool_inv n s → n < 2 ^ 32 - 1 → pinned_on (pc_of s t) = None → pinned_on p = Some f →
  latched_on p = latched_on (pc_of s t) → io_on p = io_on (pc_of s t) → (∀ g, quiet_on p = Some g → flags s g = 0) →
  (∀ id g, pc_of s t = Holds id g → flags s g = 0) →
  pool_inv (n + 1) (set_pc (set_page s f (Frame.Pin (page_at s f))) t p).
Proof.
  intros Hi Hn H1 H2 H3 H4 H5 H6. pose proof (refs_range n s f Hi) as Hr.
  apply inv_page; [done|done|done| | |done|done|done|done]; rewrite H1, H2.
  - cbn [Frame.ref_count_ Frame.Pin Frame.set_refs]. rewrite here_none, here_self, (wrap_small 32) by lia. lia.
  - intros g Hg. by rewrite here_other.
Qed.

Lemma inv_unpin n s t p f :
  pool_inv n s → n < 2 ^ 32 - 1 → pinned_on (pc_of s t) = Some f → pinned_on p = None →
  latched_on p = latched_on (pc_of s t) → io_on p = io_on (pc_of s t) → (∀ g, quiet_on p = Some g → flags s g = 0) →
  (∀ id g, pc_of s t = Holds id g → flags s g = 0) →
  pool_inv (n + 1) (set_pc (set_page s f (Frame.Unpin (page_at s f))) t p).
Proof.
  intros Hi Hn H1 H2 H3 H4 H5 H6. pose proof (refs_range n s f Hi) as Hr. pose proof (refs_pos n s t f Hi H1) as Hp.
  apply inv_page; [done|done|done| | |done|done|done|done]; rewrite H1, H2.
  - cbn [Frame.ref_count_ Frame.Unpin Frame.set_refs]. rewrite here_none, here_self, (wrap_small 32) by lia. lia.
  - intros g Hg. by rewrite here_other.
Qed.

(** ** Every step *)

(** Closes the side conditions that only look at the program counters. *)
Ltac pc_side Hq := rewrite ?Hq; try reflexivity; try (intros; discriminate); try (by intros ? ? [=]).

Lemma step_inv n s t s' : pool_inv n s → n < 2 ^ 32 - 1 → step t s = Some s' → pool_inv (n + 1) s'.
Proof.
  intros Hi Hn H. unfold step in H. destruct (pc_of s t) eqn:Hq; try discriminate H.
  - destruct (negb _); injection H as <-; apply (inv_goto n s s); pc_side Hq; done.
  - injection H as <-. apply inv_pin; pc_side Hq; done.
  - destruct (PageIdentifier_eqb _ _); injection H as <-; apply (inv_goto n s s); pc_side Hq; done.
  - injection H as <-. apply inv_unpin; pc_side Hq; try done; match goal with |- context [if ?b then _ else _] => by destruct b end.
  - destruct (_ <? _); injection H as <-; apply (inv_goto n s (set_sweep s _)); pc_side Hq; done.
  - unfold Frame.TryWLock in H. destruct (Frame.latch_ (page_at s head)) eqn:El; injection H as <-.
    + apply (inv_goto n s s); pc_side Hq; done.
    + apply inv_latch; pc_side Hq; [done|]. left. done.
  - destruct (Frame.IsPinned _); injection H as <-; apply (inv_goto n s s); pc_side Hq; done.
  - destruct (Frame.flags_clear _) eqn:Ef; injection H as <-; apply (inv_goto n s s); pc_side Hq; try done.
    intros g [= <-]. by apply (land_flag s head n).
  - injection H as <-. unfold Frame.WUnlock. apply inv_latch; pc_side Hq; [done|]. by right.
  - injection H as <-. apply (inv_goto n s s); pc_side Hq; try done. intros g [= <-]. apply (pi_quiet _ _ Hi t). by rewrite Hq.
  - injection H as <-. apply inv_page; pc_side Hq; try done; [cbn; lia|]. intros g [= <-]. apply (pi_quiet _ _ Hi t). by rewrite Hq.
  - injection H as <-. apply inv_pin; pc_side Hq; try done; destruct io; try done.
    intros g [= <-]. apply (pi_quiet _ _ Hi t). by rewrite Hq.
  - injection H as <-. by apply inv_take.
  - injection H as <-. unfold Frame.WUnlock. apply inv_latch; pc_side Hq; [done|by right].
  - destruct (BufferPartitions.Put _ _ _ _) as [[inserted new_frame] parts]. destruct inserted; [|destruct io]; injection H as <-.
    + apply (inv_goto n s (set_partitions s parts)); pc_side Hq; try done.
    + apply (inv_goto n s s); pc_side Hq; done.
    + apply (inv_goto n s s); pc_side Hq; done.
  - injection H as <-. destruct io; apply (inv_goto n s (set_partitions s _)); pc_side Hq; done.
  - injection H as <-. apply (inv_goto n s s); pc_side Hq; done.
  - injection H as <-. apply inv_page; pc_side Hq; try done. cbn. lia.
  - injection H as <-. by apply inv_enqueue.
  - injection H as <-. apply inv_page; pc_side Hq; try done. cbn. lia.
  - unfold Frame.WLock in H. destruct (Frame.latch_ (page_at s frame)) eqn:El; [done|]. injection H as <-.
    apply inv_latch; pc_side Hq; [done|]. left. done.
  - injection H as <-. apply inv_unpin; pc_side Hq; done.
  - injection H as <-. apply inv_page; pc_side Hq; try done. cbn. lia.
  - injection H as <-. by apply inv_undo_flag.
  - injection H as <-. unfold Frame.WUnlock. apply inv_latch; pc_side Hq; [done|]. by right.
  - destruct (Frame.IsIOInProgress _) eqn:Ef; [done|]. injection H as <-. apply (inv_goto n s s); pc_side Hq; try done.
    intros id' g [= <- <-]. by apply (land_io s frame n).
Qed.

(** A completion: the latch is free, the flag was set for this task. *)
Lemma complete_ok disk n s i f id :
  pool_inv n s → tasks_ s !! i = Some (f, id) →
  complete disk s i = None ∨
  ∃ s', complete disk s i = Some (Ret s') ∧ pool_inv n s' ∧ page_at s' f = Frame.ClearIOInProgress (Frame.SetData (page_at s f) (disk id)).
Proof.
  intros Hi Hti. unfold complete. rewrite Hti. cbn [Frame.latch_ Frame.SetData].
  destruct (Frame.latch_ (page_at s f)) eqn:El; [by left|right].
  assert (Hin : (f, id) ∈ tasks_ s) by (by eapply list_elem_of_lookup_2).
  destruct (pi_task _ _ Hi _ _ Hin) as [Hfl (t & Ht)].
  assert (Hp : 0 < Frame.ref_count_ (page_at s f)) by (apply (refs_pos n s t); [done|by rewrite Ht]).
  assert (A1 : Frame.IsIOInProgress (Frame.SetData (page_at s f) (disk id)) = true).
  { unfold Frame.IsIOInProgress. change (Frame.flags_ (Frame.SetData (page_at s f) (disk id))) with (flags s f). rewrite Hfl. by vm_compute. }
  assert (A2 : Frame.IsPinned (Frame.SetData (page_at s f) (disk id)) = true) by (unfold Frame.IsPinned, Frame.PinCount; cbn; by apply Z.ltb_lt).
  unfold Frame.SignalIO. rewrite (DB7_ASSERT_true _ _ A1), (DB7_ASSERT_true _ _ A2), !bind_Ret.
  set (page := Frame.ClearIOInProgress _). set (s' := set_tasks _ _). exists s'.
  assert (Hpg : ∀ g, page_at s' g = if decide (g = f) then page else page_at s g).
  { intros g. unfold page_at. cbn. destruct (decide (g = f)) as [->|]; [by rewrite lookup_insert_eq|by rewrite lookup_insert_ne]. }
  assert (Hts : (tasks_ s).*1 = (take i (tasks_ s)).*1 ++ f :: (drop (S i) (tasks_ s)).*1).
  { rewrite <- (take_drop_middle _ _ _ Hti) at 1. by rewrite fmap_app, fmap_cons. }
  assert (Hone := pi_task_one _ _ Hi). rewrite Hts in Hone.
  assert (Hsub : ∀ x, x ∈ tasks_ s' → x ∈ tasks_ s ∧ x.1 ≠ f).
  { intros x Hx. cbn in Hx. apply NoDup_app in Hone as (_ & N1 & N2). apply NoDup_cons in N2 as [N2 _]. apply elem_of_app in Hx as [Hx|Hx].
    - split; [rewrite <- (take_drop i (tasks_ s)); apply elem_of_app; by left|]. intros E.
      apply (N1 f); [rewrite <- E; by apply list_elem_of_fmap_2|by left].
    - split; [rewrite <- (take_drop (S i) (tasks_ s)); apply elem_of_app; by right|]. intros E.
      apply N2. rewrite <- E. by apply list_elem_of_fmap_2. }
  assert (Hflags : ∀ g, flags s' g = if decide (g = f) then 0 else flags s g).
  { intros g. rewrite Hpg. destruct (decide (g = f)); [|done]. cbn. rewrite Hfl. apply clear_flag. }
  split; [done|]. split; [|by rewrite Hpg, decide_True].
  split; [apply (pi_threads _ _ Hi)|..].
  - intros g. rewrite Hpg. destruct (decide (g = f)) as [->|]; apply (pi_refs _ _ Hi).
  - intros g t'. rewrite Hpg. destruct (decide (g = f)) as [->|]; apply (pi_latch _ _ Hi).
  - intros g. rewrite Hflags. destruct (decide (g = f)); [by left|apply (pi_flags _ _ Hi)].
  - intros t' g Hg. rewrite Hflags. destruct (decide (g = f)) as [->|]; [|by apply (pi_io _ _ Hi t')].
    exfalso. apply (pi_io_task _ _ Hi t' f Hg), list_elem_of_fmap. by exists (f, id).
  - apply (pi_io_one _ _ Hi).
  - intros g id' Hg. apply Hsub in Hg as [Hg Hne]. cbn in Hne. rewrite Hflags, decide_False by done. by apply (pi_task _ _ Hi).
  - intros t' g Hg Hin'. apply list_elem_of_fmap in Hin' as (x & -> & Hx). apply Hsub in Hx as [Hx _].
    apply (pi_io_task _ _ Hi t' x.1 Hg), list_elem_of_fmap. by exists x.
  - cbn. rewrite fmap_app. apply NoDup_app in Hone as (N0 & N1 & N2). apply NoDup_cons in N2 as [_ N2].
    apply NoDup_app. split_and!; [done| |done]. intros x Hx Hx'. apply (N1 x Hx). by right.
  - intros t' g Hg. rewrite Hflags. destruct (decide (g = f)); [done|by apply (pi_quiet _ _ Hi t')].
Qed.

Lemma pool_inv_weaken n n' s : pool_inv n s → n ≤ n' → pool_inv n' s.
Proof. intros [] Hn. split; try done. lia. Qed.

Lemma fire_inv disk n s e s' : pool_inv n s → n < 2 ^ 32 - 1 → fire disk e s = Some s' → pool_inv (n + 1) s'.
Proof.
  intros Hi Hn H. destruct e as [t id|t tbl|t|t dirty|i]; cbn [fire] in H.
  - destruct (pc_of s t) eqn:Hq; try discriminate H. injection H as <-. unfold Pin.
    destruct (_ =? _); [|destruct (_ =? _)]; apply (inv_goto n s s); pc_side Hq; done.
  - destruct (pc_of s t) eqn:Hq; try discriminate H. injection H as <-. unfold Reserve, FreeSpaceManagerIndex.Get. cbv zeta.
    destruct (_ <? _); apply (inv_goto n s (set_ids s _)); pc_side Hq; done.
  - by apply (step_inv n s t).
  - unfold Unpin in H. destruct (pc_of s t) eqn:Hq; try discriminate H. injection H as <-. apply inv_unpin; pc_side Hq; done.
  - destruct (complete disk s i) as [[]|] eqn:E; try discriminate H. injection H as <-.
    destruct (tasks_ s !! i) as [[f id]|] eqn:Et; [|unfold complete in E; by rewrite Et in E].
    destruct (complete_ok disk n s i f id Hi Et) as [E'|(s' & E' & Hi' & _)]; [congruence|].
    apply (pool_inv_weaken n); [congruence|lia].
Qed.

Lemma run_inv disk tr n s s' :
  pool_inv n s → n + Z.of_nat (length tr) < 2 ^ 32 → run disk tr s = Some s' → pool_inv (n + Z.of_nat (length tr)) s'.
Proof.
  revert n s; induction tr as [|e tr IH]; intros n s Hi Hn H; cbn [run length] in *.
  { injection H as <-. by rewrite Z.add_0_r. }
  destruct (fire disk e s) as [s1|] eqn:E; [|done]. pose proof (fire_inv disk n s e s1 Hi ltac:(lia) E) as Hi1.
  replace (n + Z.of_nat (S (length tr))) with (n + 1 + Z.of_nat (length tr)) by lia. apply (IH (n + 1) s1); [done|lia|done].
Qed.

Lemma pool_inv_make page_num versions : pool_inv 0 (make page_num versions).
Proof.
  assert (Ep : ∀ f, page_at (make page_num versions) f = Frame.make) by (intros; unfold page_at; cbn; by rewrite lookup_empty).
  assert (Ec : ∀ t, pc_of (make page_num versions) t = Idle) by (intros; unfold pc_of; cbn; by rewrite lookup_empty).
  split; [done|..].
  - intros f. rewrite Ep. cbn. unfold pins. by rewrite map_filter_empty.
  - intros f t. rewrite Ep, Ec. done.
  - intros f. rewrite Ep. by left.
  - intros t f. by rewrite Ec.
  - intros t t' f. by rewrite Ec.
  - intros f id H. by apply not_elem_of_nil in H.
  - intros t f. by rewrite Ec.
  - constructor.
  - intros t f. by rewrite Ec.
Qed.

(** ** A thread that runs while the others rest *)

Definition upd {A} (pg : Z → A) (f : Z) (x : A) (g : Z) : A := if decide (g = f) then x else pg g.

Lemma upd_same {A} (pg : Z → A) f x : upd pg f x f = x.
Proof. unfold upd. by rewrite decide_True. Qed.

(** The state [s], which thread [t] reached from [s0]. *)
Record state_is (s0 s : BufferPool) (t : nat) (p : pc) (pg : Z → Frame.Page) (sweep : Z)
    (parts : BufferPartitions.state) (tasks : list (Z * PageIdentifier)) : Prop := {
  si_pcs : pcs s = <[t := p]> (pcs s0);
  si_page : ∀ g, page_at s g = pg g;
  si_size : pool_size_ s = pool_size_ s0;
  si_sweep : sweep_head_ s = sweep;
  si_parts : partitions_ s = parts;
  si_versions : version_table_ s = version_table_ s0;
  si_tasks : tasks_ s = tasks
}.

Lemma si_pc s0 s t p pg sweep parts tasks : state_is s0 s t p pg sweep parts tasks → pc_of s t = p.
Proof. intros H. unfold pc_of. rewrite (si_pcs _ _ _ _ _ _ _ _ H). by rewrite lookup_insert_eq. Qed.

Lemma si_other s0 s t p pg sweep parts tasks t' : state_is s0 s t p pg sweep parts tasks → t' ≠ t → pc_of s t' = pc_of s0 t'.
Proof. intros H Hne. unfold pc_of. rewrite (si_pcs _ _ _ _ _ _ _ _ H). by rewrite lookup_insert_ne. Qed.

Lemma si_goto s0 s t p pg sweep parts tasks p' :
  state_is s0 s t p pg sweep parts tasks → state_is s0 (set_pc s t p') t p' pg sweep parts tasks.
Proof. intros []. split; cbn; try done. rewrite si_pcs0. by rewrite insert_insert_eq. Qed.

Lemma si_upd s0 s t p pg sweep parts tasks f page p' :
  state_is s0 s t p pg sweep parts tasks → state_is s0 (set_pc (set_page s f page) t p') t p' (upd pg f page) sweep parts tasks.
Proof.
  intros []. split; cbn; try done; [rewrite si_pcs0; by rewrite insert_insert_eq|].
  intros g. unfold upd. rewrite <- si_page0. unfold page_at. cbn.
  destruct (decide (g = f)) as [->|]; [by rewrite lookup_insert_eq|by rewrite lookup_insert_ne].
Qed.

Lemma si_set_sweep s0 s t p pg sweep parts tasks n :
  state_is s0 s t p pg sweep parts tasks → state_is s0 (set_sweep s n) t p pg n parts tasks.
Proof. intros []. by split. Qed.

Lemma si_set_parts s0 s t p pg sweep parts tasks parts' :
  state_is s0 s t p pg sweep parts tasks → state_is s0 (set_partitions s parts') t p pg sweep parts' tasks.
Proof. intros []. by split. Qed.

Lemma si_set_tasks s0 s t p pg sweep parts tasks tasks' :
  state_is s0 s t p pg sweep parts tasks → state_is s0 (set_tasks s tasks') t p pg sweep parts tasks'.
Proof. intros []. by split. Qed.

Lemma si_page_ext s0 s t p pg pg' sweep parts tasks :
  (∀ g, pg' g = pg g) → state_is s0 s t p pg sweep parts tasks → state_is s0 s t p pg' sweep parts tasks.
Proof. intros E []. split; try done. intros g. by rewrite E. Qed.

Lemma si_start s0 t p : state_is s0 (set_pc s0 t p) t p (page_at s0) (sweep_head_ s0) (partitions_ s0) (tasks_ s0).
Proof. by split. Qed.

Lemma steps_app a b t s : steps (a + b) t s = steps a t s ≫= steps b t.
Proof. revert s; induction a as [|a IH]; intros s; cbn [steps Nat.add]; [done|]. destruct (step t s); [apply IH|done]. Qed.

Lemma steps_S n t s s1 : step t s = Some s1 → steps (S n) t s = steps n t s1.
Proof. intros H. cbn [steps]. by rewrite H. Qed.

Section Alone.
Context (s0 : BufferPool) (t : nat).

Abbreviation is_ := (state_is s0).

(** The head of the sweep is free and clean: it is latched and found. *)
Lemma sweep_find s io id pg sweep parts tasks :
  is_ s t (Sweep io id) pg sweep parts tasks →
  let f := sweep mod BUFFER_POOL_PAGE_NUM in
  f < pool_size_ s0 → Frame.latch_ (pg f) = None → Frame.IsEvictable (pg f) = true →
  ∃ s', steps 5 t s = Some s' ∧
    is_ s' t (GiveId io id f (Frame.id_ (pg f))) (upd pg f (Frame.set_latch (pg f) (Some t))) (to_u32 (sweep + 1)) parts tasks.
Proof.
  intros Hs f Hf Hl He. unfold Frame.IsEvictable in He. apply andb_true_iff in He as [He1 He2]. apply negb_true_iff in He1.
  pose proof (si_pc _ _ _ _ _ _ _ _ Hs) as Hp.
  set (s1 := set_pc (set_sweep s (to_u32 (sweep + 1))) t (TryLatch io id f)).
  assert (E1 : step t s = Some s1).
  { unfold step. rewrite Hp. cbv zeta. cbn [pool_size_ set_sweep]. rewrite (si_sweep _ _ _ _ _ _ _ _ Hs), (si_size _ _ _ _ _ _ _ _ Hs). fold f. by rewrite (proj2 (Z.ltb_lt _ _) Hf). }
  pose proof (si_goto _ _ _ _ _ _ _ _ (TryLatch io id f) (si_set_sweep _ _ _ _ _ _ _ _ (to_u32 (sweep + 1)) Hs)) as H1. fold s1 in H1.
  set (s2 := set_pc (set_page s1 f (Frame.set_latch (pg f) (Some t))) t (CheckRefs io id f)).
  assert (E2 : step t s1 = Some s2).
  { unfold step. rewrite (si_pc _ _ _ _ _ _ _ _ H1), (si_page _ _ _ _ _ _ _ _ H1). unfold Frame.TryWLock. by rewrite Hl. }
  pose proof (si_upd _ _ _ _ _ _ _ _ f (Frame.set_latch (pg f) (Some t)) (CheckRefs io id f) H1) as H2. fold s2 in H2.
  set (s3 := set_pc s2 t (CheckFlags io id f)).
  assert (E3 : step t s2 = Some s3).
  { unfold step. rewrite (si_pc _ _ _ _ _ _ _ _ H2), (si_page _ _ _ _ _ _ _ _ H2), upd_same.
    change (Frame.IsPinned (Frame.set_latch (pg f) (Some t))) with (Frame.IsPinned (pg f)). by rewrite He1. }
  pose proof (si_goto _ _ _ _ _ _ _ _ (CheckFlags io id f) H2) as H3. fold s3 in H3.
  set (s4 := set_pc s3 t (TakeId io id f)).
  assert (E4 : step t s3 = Some s4).
  { unfold step. rewrite (si_pc _ _ _ _ _ _ _ _ H3), (si_page _ _ _ _ _ _ _ _ H3), upd_same.
    change (Frame.flags_clear (Frame.set_latch (pg f) (Some t))) with (Frame.flags_clear (pg f)). by rewrite He2. }
  pose proof (si_goto _ _ _ _ _ _ _ _ (TakeId io id f) H3) as H4. fold s4 in H4.
  exists (set_pc s4 t (GiveId io id f (Frame.id_ (pg f)))). split; [|by apply (si_goto _ _ _ _ _ _ _ _ _ H4)].
  rewrite (steps_S _ _ _ _ E1), (steps_S _ _ _ _ E2), (steps_S _ _ _ _ E3), (steps_S _ _ _ _ E4). cbn [steps].
  unfold step. rewrite (si_pc _ _ _ _ _ _ _ _ H4), (si_page _ _ _ _ _ _ _ _ H4), upd_same. done.
Qed.
End Alone.

Lemma run_app disk tr1 tr2 s : run disk (tr1 ++ tr2) s = run disk tr1 s ≫= run disk tr2.
Proof. revert s; induction tr1 as [|e tr IH]; intros s; cbn [run app]; [done|]. destruct (fire disk e s); [apply IH|done]. Qed.

Lemma run_steps disk n t s : run disk (replicate n (Step t)) s = steps n t s.
Proof. revert s; induction n as [|n IH]; intros s; cbn [run replicate steps fire]; [done|]. destruct (step t s); [apply IH|done]. Qed.

Definition valid_id (id : PageIdentifier) : Prop := pid id ≠ 0 ∧ pid id ≠ UINT32_MAX.

Lemma Pin_start s t id : valid_id id → Pin s t id = set_pc s t (Lookup id).
Proof. intros [H1 H2]. unfold Pin. by rewrite (proj2 (Z.eqb_neq _ _) H1), (proj2 (Z.eqb_neq _ _) H2). Qed.

(** A page that is in the pool is visited. *)
Lemma pin_hit s t id f :
  valid_id id → BufferPartitions.Get (partitions_ s) id (GetPartitionIdx id) = f → f ≠ UINT32_MAX →
  Frame.id_ (page_at s f) = id →
  ∃ s', steps 3 t (Pin s t id) = Some s' ∧
    state_is s s' t (Holds id f) (upd (page_at s) f (Frame.Pin (page_at s f))) (sweep_head_ s) (partitions_ s) (tasks_ s).
Proof.
  intros Hid Hg Hf Hpid. rewrite (Pin_start _ _ _ Hid). pose proof (si_start s t (Lookup id)) as H0. set (s1 := set_pc s t _) in *.
  set (s2 := set_pc s1 t (Visit id f false)).
  assert (E1 : step t s1 = Some s2).
  { unfold step. rewrite (si_pc _ _ _ _ _ _ _ _ H0), (si_parts _ _ _ _ _ _ _ _ H0). cbv zeta. rewrite Hg. by rewrite (proj2 (Z.eqb_neq _ _) Hf). }
  pose proof (si_goto _ _ _ _ _ _ _ _ (Visit id f false) H0) as H2. fold s2 in H2.
  set (s3 := set_pc (set_page s2 f (Frame.Pin (page_at s2 f))) t (Visited id f false)).
  assert (E2 : step t s2 = Some s3) by (unfold step; by rewrite (si_pc _ _ _ _ _ _ _ _ H2)).
  pose proof (si_upd _ _ _ _ _ _ _ _ f (Frame.Pin (page_at s2 f)) (Visited id f false) H2) as H3. fold s3 in H3.
  rewrite (si_page _ _ _ _ _ _ _ _ H2) in H3.
  exists (set_pc s3 t (Holds id f)). split; [|by apply (si_goto _ _ _ _ _ _ _ _ _ H3)].
  rewrite (steps_S _ _ _ _ E1), (steps_S _ _ _ _ E2). cbn [steps]. unfold step.
  rewrite (si_pc _ _ _ _ _ _ _ _ H3), (si_page _ _ _ _ _ _ _ _ H3), upd_same.
  change (Frame.id_ (Frame.Pin (page_at s f))) with (Frame.id_ (page_at s f)). rewrite Hpid.
  unfold PageIdentifier_eqb. by rewrite Z.eqb_refl.
Qed.

(** A page that is not starts the search for a victim. *)
Lemma pin_miss s t id :
  valid_id id → BufferPartitions.Get (partitions_ s) id (GetPartitionIdx id) = UINT32_MAX →
  ∃ s', steps 1 t (Pin s t id) = Some s' ∧
    state_is s s' t (Sweep true id) (page_at s) (sweep_head_ s) (partitions_ s) (tasks_ s).
Proof.
  intros Hid Hg. rewrite (Pin_start _ _ _ Hid). pose proof (si_start s t (Lookup id)) as H0. set (s1 := set_pc s t _) in *.
  exists (set_pc s1 t (Sweep true id)). split; [|by apply (si_goto _ _ _ _ _ _ _ _ _ H0)]. cbn [steps]. unfold step.
  rewrite (si_pc _ _ _ _ _ _ _ _ H0), (si_parts _ _ _ _ _ _ _ _ H0). cbv zeta. rewrite Hg. by rewrite Z.eqb_refl.
Qed.

(** ** The partitions *)

(** The frame the partitions give for a page. *)
Definition frame_of (parts : BufferPartitions.state) (id : PageIdentifier) : option Z :=
  BufferPartitions.partition parts (GetPartitionIdx id) !! id.

Lemma partition_insert parts i m j :
  BufferPartitions.partition (<[i := m]> parts) j = if decide (j = i) then m else BufferPartitions.partition parts j.
Proof.
  unfold BufferPartitions.partition. destruct (decide (j = i)) as [->|]; [by rewrite lookup_insert_eq|by rewrite lookup_insert_ne].
Qed.

Lemma Put_new parts id f :
  frame_of parts id = None →
  ∃ parts', BufferPartitions.Put parts id f (GetPartitionIdx id) = (true, f, parts') ∧
    ∀ x, frame_of parts' x = if decide (x = id) then Some f else frame_of parts x.
Proof.
  intros H. unfold BufferPartitions.Put. unfold frame_of in H. rewrite H. eexists. split; [done|].
  intros x. unfold frame_of. rewrite partition_insert. destruct (decide (x = id)) as [->|Hne].
  - rewrite decide_True by done. by rewrite lookup_insert_eq.
  - destruct (decide (GetPartitionIdx x = GetPartitionIdx id)) as [E|]; [|done]. rewrite lookup_insert_ne by done. by rewrite E.
Qed.

Lemma Delete_frame parts vid f x :
  frame_of (BufferPartitions.Delete parts vid f (GetPartitionIdx vid)) x =
    if decide (x = vid ∧ frame_of parts vid = Some f) then None else frame_of parts x.
Proof.
  unfold BufferPartitions.Delete. fold (frame_of parts vid). destruct (frame_of parts vid) as [g|] eqn:E.
  - destruct (Z.eqb_spec g f) as [->|Hne].
    + unfold frame_of. rewrite partition_insert. destruct (decide (x = vid)) as [->|Hx].
      * rewrite (decide_True (P := GetPartitionIdx vid = GetPartitionIdx vid)) by done. rewrite lookup_delete_eq. by rewrite decide_True.
      * rewrite (decide_False (P := x = vid ∧ _)) by naive_solver.
        destruct (decide (GetPartitionIdx x = GetPartitionIdx vid)) as [Ei|]; [|done]. rewrite lookup_delete_ne by done. by rewrite Ei.
    + rewrite decide_False; [done|]. intros [_ ?]. congruence.
  - rewrite decide_False; [done|]. intros [_ ?]. congruence.
Qed.

(** ** The sweep *)

Section Alone.
Context (s0 : BufferPool) (t : nat).

Abbreviation is_ := (state_is s0).

Definition usable (page : Frame.Page) : bool := bool_decide (Frame.latch_ page = None) && Frame.IsEvictable page.

Lemma unlatch_latch (page : Frame.Page) l : Frame.latch_ page = None → Frame.set_latch (Frame.set_latch page l) None = page.
Proof. intros H. destruct page. cbn in H. by subst. Qed.

(** A head that cannot be used is skipped and left as it was. *)
Lemma sweep_skip s io id pg sweep parts tasks :
  is_ s t (Sweep io id) pg sweep parts tasks →
  let f := sweep mod BUFFER_POOL_PAGE_NUM in
  f < pool_size_ s0 → usable (pg f) = false →
  ∃ k s', steps k t s = Some s' ∧ (k ≤ 5)%nat ∧ is_ s' t (Sweep io id) pg (to_u32 (sweep + 1)) parts tasks.
Proof.
  intros Hs f Hf Hu. pose proof (si_pc _ _ _ _ _ _ _ _ Hs) as Hp.
  set (s1 := set_pc (set_sweep s (to_u32 (sweep + 1))) t (TryLatch io id f)).
  assert (E1 : step t s = Some s1).
  { unfold step. rewrite Hp. cbv zeta. cbn [pool_size_ set_sweep]. rewrite (si_sweep _ _ _ _ _ _ _ _ Hs), (si_size _ _ _ _ _ _ _ _ Hs). fold f. by rewrite (proj2 (Z.ltb_lt _ _) Hf). }
  pose proof (si_goto _ _ _ _ _ _ _ _ (TryLatch io id f) (si_set_sweep _ _ _ _ _ _ _ _ (to_u32 (sweep + 1)) Hs)) as H1. fold s1 in H1.
  unfold usable in Hu. destruct (Frame.latch_ (pg f)) as [o|] eqn:Hl.
  { exists 2%nat, (set_pc s1 t (Sweep io id)). split; [|split; [lia|by apply (si_goto _ _ _ _ _ _ _ _ _ H1)]].
    rewrite (steps_S _ _ _ _ E1). cbn [steps]. unfold step. rewrite (si_pc _ _ _ _ _ _ _ _ H1), (si_page _ _ _ _ _ _ _ _ H1).
    unfold Frame.TryWLock. by rewrite Hl. }
  rewrite bool_decide_true in Hu by done. cbn [andb] in Hu.
  set (lp := Frame.set_latch (pg f) (Some t)). set (s2 := set_pc (set_page s1 f lp) t (CheckRefs io id f)).
  assert (E2 : step t s1 = Some s2).
  { unfold step. rewrite (si_pc _ _ _ _ _ _ _ _ H1), (si_page _ _ _ _ _ _ _ _ H1). unfold Frame.TryWLock. by rewrite Hl. }
  pose proof (si_upd _ _ _ _ _ _ _ _ f lp (CheckRefs io id f) H1) as H2. fold s2 in H2.
  assert (Hlast : ∀ s3 k, steps k t s2 = Some s3 → is_ s3 t (Unlatch io id f) (upd pg f lp) (to_u32 (sweep + 1)) parts tasks → (k ≤ 2)%nat →
    ∃ k s', steps k t s = Some s' ∧ (k ≤ 5)%nat ∧ is_ s' t (Sweep io id) pg (to_u32 (sweep + 1)) parts tasks).
  { intros s3 k Hk H3 Hk2. exists (S (S (k + 1))), (set_pc (set_page s3 f (Frame.WUnlock (page_at s3 f))) t (Sweep io id)).
    split; [|split; [lia|]].
    - rewrite (steps_S _ _ _ _ E1), (steps_S _ _ _ _ E2), steps_app, Hk. cbn [mbind option_bind steps]. unfold step.
      by rewrite (si_pc _ _ _ _ _ _ _ _ H3).
    - eapply si_page_ext; [|apply (si_upd _ _ _ _ _ _ _ _ _ _ _ H3)]. intros g. rewrite (si_page _ _ _ _ _ _ _ _ H3), upd_same.
      unfold upd. destruct (decide (g = f)) as [->|]; [|done]. unfold Frame.WUnlock, lp. by rewrite unlatch_latch. }
  unfold Frame.IsEvictable in Hu. destruct (Frame.IsPinned (pg f)) eqn:Hpin.
  - apply (Hlast (set_pc s2 t (Unlatch io id f)) 1%nat); [|by apply (si_goto _ _ _ _ _ _ _ _ _ H2)|lia]. cbn [steps]. unfold step.
    rewrite (si_pc _ _ _ _ _ _ _ _ H2), (si_page _ _ _ _ _ _ _ _ H2), upd_same.
    change (Frame.IsPinned lp) with (Frame.IsPinned (pg f)). by rewrite Hpin.
  - cbn [negb andb] in Hu. set (s3 := set_pc s2 t (CheckFlags io id f)).
    assert (E3 : step t s2 = Some s3).
    { unfold step. rewrite (si_pc _ _ _ _ _ _ _ _ H2), (si_page _ _ _ _ _ _ _ _ H2), upd_same.
      change (Frame.IsPinned lp) with (Frame.IsPinned (pg f)). by rewrite Hpin. }
    pose proof (si_goto _ _ _ _ _ _ _ _ (CheckFlags io id f) H2) as H3. fold s3 in H3.
    apply (Hlast (set_pc s3 t (Unlatch io id f)) 2%nat); [|by apply (si_goto _ _ _ _ _ _ _ _ _ H3)|lia].
    rewrite (steps_S _ _ _ _ E3). cbn [steps]. unfold step.
    rewrite (si_pc _ _ _ _ _ _ _ _ H3), (si_page _ _ _ _ _ _ _ _ H3), upd_same.
    change (Frame.flags_clear lp) with (Frame.flags_clear (pg f)). by rewrite Hu.
Qed.

(** The clock hand after [k] more steps. *)
Definition hand (k : nat) (sweep : Z) : Z := Nat.iter k (λ x, to_u32 (x + 1)) sweep.

Lemma hand_S k sweep : hand (S k) sweep = hand k (to_u32 (sweep + 1)).
Proof. unfold hand. by rewrite Nat.iter_succ_r. Qed.

Lemma hand_small k sweep : 0 ≤ sweep → sweep + Z.of_nat k < 2 ^ 32 → hand k sweep = sweep + Z.of_nat k.
Proof.
  revert sweep; induction k as [|k IH]; intros sweep H0 H; [cbn; lia|]. rewrite hand_S, (wrap_small 32) by lia. rewrite IH by lia. lia.
Qed.

Lemma hand_add a b sweep : hand (a + b) sweep = hand b (hand a sweep).
Proof. revert sweep; induction a as [|a IH]; intros sweep; [done|]. rewrite Nat.add_succ_l, !hand_S. apply IH. Qed.

(** Every frame of the pool comes up within two rounds. *)
Lemma hand_reaches f sweep :
  0 ≤ f < BUFFER_POOL_PAGE_NUM → 0 ≤ sweep < 2 ^ 32 →
  ∃ k, Z.of_nat k < 2 * BUFFER_POOL_PAGE_NUM ∧ hand k sweep mod BUFFER_POOL_PAGE_NUM = f.
Proof.
  unfold BUFFER_POOL_PAGE_NUM. intros Hf Hs. destruct (Z.leb_spec (sweep + 80000) (2 ^ 32)) as [H|H].
  - exists (Z.to_nat ((f - sweep) mod 80000)). pose proof (Z.mod_pos_bound (f - sweep) 80000). split; [lia|].
    rewrite hand_small by lia. rewrite Z2Nat.id by lia. rewrite Z.add_mod_idemp_r by lia.
    replace (sweep + (f - sweep)) with f by lia. by apply Z.mod_small.
  - exists (Z.to_nat (2 ^ 32 - 1 - sweep) + (1 + Z.to_nat f))%nat. split; [lia|]. rewrite hand_add, (hand_small (Z.to_nat (2 ^ 32 - 1 - sweep)) sweep) by lia.
    rewrite hand_add. replace (hand 1 (sweep + Z.of_nat (Z.to_nat (2 ^ 32 - 1 - sweep)))) with 0.
    + rewrite hand_small by lia. rewrite Z2Nat.id by lia. rewrite Z.mod_small; lia.
    + cbn. rewrite Z2Nat.id by lia. replace (sweep + (2 ^ 32 - 1 - sweep) + 1) with (2 ^ 32) by lia. done.
Qed.

(** The search ends at a usable frame. *)
Lemma sweep_ends k s io id pg sweep parts tasks :
  is_ s t (Sweep io id) pg sweep parts tasks → pool_size_ s0 = BUFFER_POOL_PAGE_NUM →
  usable (pg (hand k sweep mod BUFFER_POOL_PAGE_NUM)) = true →
  ∃ n s' f sweep', steps n t s = Some s' ∧ (n ≤ 5 * (k + 1))%nat ∧ 0 ≤ f < BUFFER_POOL_PAGE_NUM ∧ usable (pg f) = true ∧ 0 ≤ sweep' < 2 ^ 32 ∧
    is_ s' t (GiveId io id f (Frame.id_ (pg f))) (upd pg f (Frame.set_latch (pg f) (Some t))) sweep' parts tasks.
Proof.
  intros Hs Hsz. revert s sweep Hs; induction k as [|k IH]; intros s sweep Hs Hu.
  all: pose proof (Z.mod_pos_bound sweep BUFFER_POOL_PAGE_NUM ltac:(done)) as Hf;
    assert (Hlt : sweep mod BUFFER_POOL_PAGE_NUM < pool_size_ s0) by (rewrite Hsz; lia);
    destruct (usable (pg (sweep mod BUFFER_POOL_PAGE_NUM))) eqn:Hhead.
  1, 3: pose proof Hhead as Hu1; unfold usable in Hu1; apply andb_true_iff in Hu1 as [U1 U2]; apply bool_decide_eq_true in U1;
    destruct (sweep_find s0 t s io id pg sweep parts tasks Hs Hlt U1 U2) as (s' & R & S');
    exists 5%nat, s', (sweep mod BUFFER_POOL_PAGE_NUM), (to_u32 (sweep + 1)); pose proof (wrap_range 32 (sweep + 1)); split_and!; (done || lia).
  - cbn in Hu. congruence.
  - destruct (sweep_skip s io id pg sweep parts tasks Hs Hlt Hhead) as (j & s1 & R1 & Hj & S1).
    rewrite hand_S in Hu. destruct (IH s1 _ S1 Hu) as (n & s' & f & sweep' & R & Hn & Hr & Hus & Hsw & S').
    exists (j + n)%nat, s', f, sweep'. split_and!; try done; [|lia|lia..]. rewrite steps_app, R1. exact R.
Qed.
End Alone.

(** A step that writes a frame, as a change of the described state. *)
Lemma si_step_upd s0 s t p pg sweep parts tasks f (F : Frame.Page → Frame.Page) p' :
  state_is s0 s t p pg sweep parts tasks →
  step t s = Some (set_pc (set_page s f (F (page_at s f))) t p') →
  ∃ s', step t s = Some s' ∧ state_is s0 s' t p' (upd pg f (F (pg f))) sweep parts tasks.
Proof.
  intros Hs E. eexists. split; [exact E|]. rewrite (si_page _ _ _ _ _ _ _ _ Hs). by apply (si_upd _ _ _ _ _ _ _ _ _ _ _ Hs).
Qed.

(** The frame a victim becomes: it has the new id, a pin, its versions, and its
    read is in progress. *)
Definition claimed (page : Frame.Page) (id : PageIdentifier) (versions : Z) : Frame.Page :=
  Frame.SetVersions (Frame.WUnlock (Frame.SetIOInProgress (Frame.Pin (Frame.SetId page id)))) versions.

Lemma upd_upd {A} (pg : Z → A) f x y g : upd (upd pg f x) f y g = upd pg f y g.
Proof. unfold upd. by destruct (decide (g = f)). Qed.

(** The victim's frame is claimed, entered in the partitions, and its read
    queued. *)
Lemma victim_claimed s0 s t id f vid pg sweep parts tasks :
  state_is s0 s t (GiveId true id f vid) pg sweep parts tasks → frame_of parts id = None →
  ∃ s' parts', steps 9 t s = Some s' ∧
    state_is s0 s' t (Holds id f) (upd pg f (claimed (pg f) id (PageVersionManager.Get (version_table_ s0) id))) sweep parts' (tasks ++ [(f, id)]) ∧
    (∀ x, frame_of parts' x = if decide (x = vid ∧ (x = id ∨ frame_of parts vid = Some f)) then None
       else if decide (x = id) then Some f else frame_of parts x).
Proof.
  intros H0 Hnew.
  destruct (si_step_upd _ _ _ _ _ _ _ _ f (λ p, Frame.SetId p id) (TakePin true id f vid) H0) as (s1 & E1 & H1).
  { unfold step. by rewrite (si_pc _ _ _ _ _ _ _ _ H0). }
  destruct (si_step_upd _ _ _ _ _ _ _ _ f Frame.Pin (TakeFlag id f vid) H1) as (s2 & E2 & H2).
  { unfold step. by rewrite (si_pc _ _ _ _ _ _ _ _ H1). }
  destruct (si_step_upd _ _ _ _ _ _ _ _ f Frame.SetIOInProgress (TakeDone true id f vid) H2) as (s3 & E3 & H3).
  { unfold step. by rewrite (si_pc _ _ _ _ _ _ _ _ H2). }
  destruct (si_step_upd _ _ _ _ _ _ _ _ f Frame.WUnlock (Put true id f vid) H3) as (s4 & E4 & H4).
  { unfold step. by rewrite (si_pc _ _ _ _ _ _ _ _ H3). }
  destruct (Put_new parts id f Hnew) as (parts1 & EP & Hparts1).
  set (s5 := set_pc (set_partitions s4 parts1) t (Forget true id f vid)).
  assert (E5 : step t s4 = Some s5).
  { unfold step. rewrite (si_pc _ _ _ _ _ _ _ _ H4), (si_parts _ _ _ _ _ _ _ _ H4). by rewrite EP. }
  pose proof (si_goto _ _ _ _ _ _ _ _ (Forget true id f vid) (si_set_parts _ _ _ _ _ _ _ _ parts1 H4)) as H5. fold s5 in H5.
  set (parts2 := BufferPartitions.Delete parts1 vid f (GetPartitionIdx vid)).
  set (s6 := set_pc (set_partitions s5 parts2) t (LoadVersions id f)).
  assert (E6 : step t s5 = Some s6).
  { unfold step. rewrite (si_pc _ _ _ _ _ _ _ _ H5), (si_parts _ _ _ _ _ _ _ _ H5). done. }
  pose proof (si_goto _ _ _ _ _ _ _ _ (LoadVersions id f) (si_set_parts _ _ _ _ _ _ _ _ parts2 H5)) as H6. fold s6 in H6.
  set (v := PageVersionManager.Get (version_table_ s0) id). set (s7 := set_pc s6 t (StoreVersions id f v)).
  assert (E7 : step t s6 = Some s7).
  { unfold step. rewrite (si_pc _ _ _ _ _ _ _ _ H6), (si_versions _ _ _ _ _ _ _ _ H6). done. }
  pose proof (si_goto _ _ _ _ _ _ _ _ (StoreVersions id f v) H6) as H7. fold s7 in H7.
  destruct (si_step_upd _ _ _ _ _ _ _ _ f (λ p, Frame.SetVersions p v) (Enqueue id f) H7) as (s8 & E8 & H8).
  { unfold step. by rewrite (si_pc _ _ _ _ _ _ _ _ H7). }
  set (s9 := set_pc (set_tasks s8 (tasks ++ [(f, id)])) t (Holds id f)).
  assert (E9 : step t s8 = Some s9).
  { unfold step. rewrite (si_pc _ _ _ _ _ _ _ _ H8), (si_tasks _ _ _ _ _ _ _ _ H8). done. }
  pose proof (si_goto _ _ _ _ _ _ _ _ (Holds id f) (si_set_tasks _ _ _ _ _ _ _ _ (tasks ++ [(f, id)]) H8)) as H9. fold s9 in H9.
  exists s9, parts2. split_and!.
  - rewrite (steps_S _ _ _ _ E1), (steps_S _ _ _ _ E2), (steps_S _ _ _ _ E3), (steps_S _ _ _ _ E4), (steps_S _ _ _ _ E5),
      (steps_S _ _ _ _ E6), (steps_S _ _ _ _ E7), (steps_S _ _ _ _ E8), (steps_S _ _ _ _ E9). done.
  - eapply si_page_ext; [|exact H9]. intros g. rewrite !upd_same. unfold upd. destruct (decide (g = f)); [|done]. done.
  - intros x. unfold parts2. rewrite Delete_frame, !Hparts1.
    repeat case_decide; naive_solver.
Qed.
