(* ===== verification/BufferPoolTheorems.v ===== *)
(** * Theorems on the buffer pool *)

From S2P Require Import Prelude Bytes Shared Memory Fsm Arena Undo Redo Txn BufferPool BufferPoolFacts.
Import BufferPool.

(** ** Every interleaving *)

(** C22: in every state the threads can reach, the pin count of a frame is
    exactly the number of threads that hold a pin on it, so that it never
    wraps, and its latch is held by the one thread that is inside a section it
    protects. *)
Theorem pin_counts_exact disk tr page_num versions s :
  run disk tr (make page_num versions) = Some s → Z.of_nat (length tr) < 2 ^ 32 →
  ∀ f, Frame.ref_count_ (page_at s f) = pins (pcs s) f ∧
    (∀ t, pinned_on (pc_of s t) = Some f → Frame.IsPinned (page_at s f) = true) ∧
    (∀ t, Frame.latch_ (page_at s f) = Some t ↔ latched_on (pc_of s t) = Some f) ∧
    (∀ t t', latched_on (pc_of s t) = Some f → latched_on (pc_of s t') = Some f → t = t').
Proof.
  intros H Hn f. pose proof (run_inv disk tr 0 _ _ (pool_inv_make page_num versions) ltac:(lia) H) as Hi. split_and!.
  - apply (pi_refs _ _ Hi).
  - intros t Ht. apply Z.ltb_lt. exact (refs_pos _ _ _ _ Hi Ht).
  - apply (pi_latch _ _ Hi).
  - intros t t' Ht Ht'. exact (latched_one _ _ _ _ _ Hi Ht Ht').
Qed.

Definition no_disk : PageIdentifier → mem := λ _, ∅.
Definition page_A : PageIdentifier := mkPageIdentifier 2 1.
Definition page_B : PageIdentifier := mkPageIdentifier 2 2.

(** Two threads that pin the same page. *)
Definition demo_events : list event :=
  StartPin 1 page_A :: StartPin 2 page_A :: replicate 12 (Step 1) ++ replicate 3 (Step 2) ++ replicate 3 (Step 1).

Definition demo_pool : BufferPool :=
  default (make 0 ∅) (run no_disk demo_events (make BUFFER_POOL_PAGE_NUM ∅)).

Lemma demo_run : run no_disk demo_events (make BUFFER_POOL_PAGE_NUM ∅) = Some demo_pool.
Proof. by vm_compute. Qed.

Lemma pin_counts_exact_witness :
  run no_disk demo_events (make BUFFER_POOL_PAGE_NUM ∅) = Some demo_pool ∧
  Frame.ref_count_ (page_at demo_pool 0) = 2 ∧ Frame.ref_count_ (page_at demo_pool 0) = pins (pcs demo_pool) 0.
Proof.
  split; [exact demo_run|]. split; [by vm_compute|].
  refine (proj1 (pin_counts_exact no_disk demo_events BUFFER_POOL_PAGE_NUM ∅ demo_pool demo_run _ 0)). by vm_compute.
Defined.

(** C23: a completion of the disk never aborts: whatever the interleaving, the
    frame of a task is in I/O and pinned by the thread that waits for it, so
    that [SignalIO] passes its assertions, fills the frame and clears the flag,
    unless another thread holds the latch, which delays it. *)
Theorem completion_never_aborts disk tr page_num versions s i f id :
  run disk tr (make page_num versions) = Some s → Z.of_nat (length tr) < 2 ^ 32 → tasks_ s !! i = Some (f, id) →
  (∃ t, pc_of s t = Holds id f) ∧
  ((∃ t, Frame.latch_ (page_at s f) = Some t) ∧ complete disk s i = None ∨
   ∃ s', complete disk s i = Some (Ret s') ∧ Frame.data_ (page_at s' f) = disk id ∧
     Frame.IsIOInProgress (page_at s' f) = false ∧ Frame.ref_count_ (page_at s' f) = Frame.ref_count_ (page_at s f)).
Proof.
  intros H Hn Ht. pose proof (run_inv disk tr 0 _ _ (pool_inv_make page_num versions) ltac:(lia) H) as Hi.
  destruct (pi_task _ _ Hi f id) as [Hfl Hw]; [by eapply list_elem_of_lookup_2|]. split; [done|].
  destruct (complete_ok disk _ s i f id Hi Ht) as [E|(s' & E & _ & Ep)].
  - left. split; [|done]. unfold complete in E. rewrite Ht in E. cbn [Frame.latch_ Frame.SetData] in E.
    destruct (Frame.latch_ (page_at s f)) as [t|]; [by exists t|done].
  - right. exists s'. rewrite Ep. split_and!; [done|done| |done].
    unfold Frame.IsIOInProgress.
    change (Frame.flags_ (Frame.ClearIOInProgress (Frame.SetData (page_at s f) (disk id)))) with (Z.land (flags s f) (to_u8 (Z.lnot io_flag))).
    rewrite Hfl, clear_flag. by vm_compute.
Qed.

Lemma completion_never_aborts_witness : ∃ s', complete (λ _, {[0 := 7]}) demo_pool 0 = Some (Ret s') ∧
  Frame.data_ (page_at s' 0) = {[0 := 7]}.
Proof.
  destruct (completion_never_aborts (λ _, {[0 := 7]}) demo_events BUFFER_POOL_PAGE_NUM ∅ demo_pool 0 0 page_A) as
    [_ [[[t Ht] _]|(s' & E & Ed & _)]].
  - by vm_compute.
  - by vm_compute.
  - by vm_compute.
  - exfalso. revert Ht. by vm_compute.
  - exists s'. exact (conj E Ed).
Defined.

(** [PageVisit] pins a frame without its latch, so a victim search that has
    just found the frame free may rename it after the visit has checked its id:
    from every pool where frame [f] holds page [A] and is next in the sweep,
    the calls [Pin(A)] and [Pin(B)] of two threads can end with [Pin(A)]
    returning frame [f], which now belongs to [B]. *)
Theorem pin_race disk s t1 t2 A B f :
  t1 ≠ t2 → pc_of s t1 = Idle → pc_of s t2 = Idle → valid_id A → valid_id B →
  BufferPartitions.Get (partitions_ s) A (GetPartitionIdx A) = f →
  BufferPartitions.Get (partitions_ s) B (GetPartitionIdx B) = UINT32_MAX →
  f ≠ UINT32_MAX → f < pool_size_ s → sweep_head_ s mod BUFFER_POOL_PAGE_NUM = f →
  Frame.id_ (page_at s f) = A → Frame.latch_ (page_at s f) = None → Frame.IsEvictable (page_at s f) = true →
  ∃ tr s', run disk tr s = Some s' ∧ pc_of s' t1 = Holds A f ∧ Frame.id_ (page_at s' f) = B.
Proof.
  intros Ht E1 E2 HA HB HgA HgB Hf Hsz Hsw Hid Hl He.
  destruct (pin_miss s t2 B HB HgB) as (s1 & R1 & S1). rewrite <- Hsw in Hsz, Hl, He.
  destruct (sweep_find s t2 s1 true B _ _ _ _ S1 Hsz Hl He) as (s2 & R2 & S2). cbv zeta in S2. rewrite Hsw in S2.
  assert (Ep : page_at s2 f = Frame.set_latch (page_at s f) (Some t2)) by (rewrite (si_page _ _ _ _ _ _ _ _ S2); apply upd_same).
  destruct (pin_hit s2 t1 A f HA) as (s3 & R3 & S3).
  { by rewrite (si_parts _ _ _ _ _ _ _ _ S2). }
  { done. }
  { by rewrite Ep. }
  assert (P2 : pc_of s3 t2 = GiveId true B f (Frame.id_ (page_at s f))).
  { rewrite (si_other _ _ _ _ _ _ _ _ t2 S3) by done. apply (si_pc _ _ _ _ _ _ _ _ S2). }
  assert (Q1 : pc_of s2 t1 = Idle) by (rewrite (si_other _ _ _ _ _ _ _ _ t1 S2); done).
  set (s4 := set_pc (set_page s3 f (Frame.SetId (page_at s3 f) B)) t2 (TakePin true B f (Frame.id_ (page_at s f)))).
  exists (StartPin t2 B :: replicate 6 (Step t2) ++ StartPin t1 A :: replicate 3 (Step t1) ++ [Step t2]), s4. split_and!.
  - cbn [run fire]. rewrite E2. cbn [mbind option_bind]. rewrite run_app, run_steps. change 6%nat with (1 + 5)%nat.
    rewrite steps_app, R1. cbn [mbind option_bind]. rewrite R2. cbn [mbind option_bind run fire]. rewrite Q1. cbn [mbind option_bind].
    rewrite run_app, run_steps, R3. cbn [mbind option_bind run fire]. unfold step. by rewrite P2.
  - pose proof (moved_pc _ _ _ _ _ _ (moved_page s3 t2 (TakePin true B f (Frame.id_ (page_at s f))) f (Frame.SetId (page_at s3 f) B)) t1) as E.
    fold s4 in E. rewrite E, decide_False by done. apply (si_pc _ _ _ _ _ _ _ _ S3).
  - pose proof (mv_page _ _ _ _ _ _ (moved_page s3 t2 (TakePin true B f (Frame.id_ (page_at s f))) f (Frame.SetId (page_at s3 f) B)) f) as E.
    fold s4 in E. by rewrite E, decide_True.
Qed.

(** A pool that holds [A] in frame 0, unpinned, with the sweep at its start. *)
Definition race_pool : BufferPool :=
  mkBufferPool {[0 := Frame.SetId Frame.make page_A]} BUFFER_POOL_PAGE_NUM 80000 {[GetPartitionIdx page_A := {[page_A := 0]}]} ∅ ∅ [] ∅.

Lemma pin_race_witness : ∃ tr s', run no_disk tr race_pool = Some s' ∧ pc_of s' 1%nat = Holds page_A 0 ∧ Frame.id_ (page_at s' 0) = page_B.
Proof.
  apply (pin_race no_disk race_pool 1 2 page_A page_B 0); try (by vm_compute); split; by vm_compute.
Defined.

(** ** One thread at a time *)

(** Between calls: a page the partitions name is in the frame they give, and a
    frame that holds a page is the one the partitions give for it. *)
Record pool_quiet (s : BufferPool) : Prop := {
  pq_size : pool_size_ s = BUFFER_POOL_PAGE_NUM;
  pq_sweep : 0 ≤ sweep_head_ s < 2 ^ 32;
  pq_map : ∀ id f, frame_of (partitions_ s) id = Some f →
    0 ≤ f < BUFFER_POOL_PAGE_NUM ∧ Frame.id_ (page_at s f) = id ∧ pid id ≠ 0;
  pq_frame : ∀ f, 0 ≤ f < BUFFER_POOL_PAGE_NUM → pid (Frame.id_ (page_at s f)) = 0 ∨ frame_of (partitions_ s) (Frame.id_ (page_at s f)) = Some f
}.

Lemma hand_range k sweep : 0 ≤ sweep < 2 ^ 32 → 0 ≤ hand k sweep < 2 ^ 32.
Proof. intros H. destruct k as [|k]; [done|]. unfold hand. cbn. by apply wrap_range. Qed.

(** C21: a [Pin] that no other thread disturbs returns, within two rounds of the
    clock when some frame is free: a page of the pool in its frame with one
    more pin, any other page in an unpinned, clean frame that now carries its
    id, a pin and its versions, whose former page the partitions forget, with
    its read queued.  Other frames and the agreement of frames and partitions
    are kept. *)
Theorem pin_alone_correct s t id :
  pool_quiet s → valid_id id → (∃ g, 0 ≤ g < BUFFER_POOL_PAGE_NUM ∧ usable (page_at s g) = true) →
  ∃ n f s', steps n t (Pin s t id) = Some s' ∧ Z.of_nat n ≤ 10 * BUFFER_POOL_PAGE_NUM + 10 ∧
    pc_of s' t = Holds id f ∧ (∀ t', t' ≠ t → pc_of s' t' = pc_of s t') ∧ 0 ≤ f < BUFFER_POOL_PAGE_NUM ∧
    Frame.id_ (page_at s' f) = id ∧ pool_quiet s' ∧ (∀ g, g ≠ f → page_at s' g = page_at s g) ∧
    match frame_of (partitions_ s) id with
    | Some f0 => f = f0 ∧ page_at s' f = Frame.Pin (page_at s f) ∧ tasks_ s' = tasks_ s ∧ partitions_ s' = partitions_ s
    | None =>
        usable (page_at s f) = true ∧
        page_at s' f = claimed (page_at s f) id (PageVersionManager.Get (version_table_ s) id) ∧
        tasks_ s' = tasks_ s ++ [(f, id)] ∧
        ∀ x, frame_of (partitions_ s') x = if decide (x = id) then Some f
          else if decide (x = Frame.id_ (page_at s f)) then None else frame_of (partitions_ s) x
    end.
Proof.
  intros [Hsz Hsw Hmap Hfr] Hid (g0 & Hg0 & Hu0). destruct (frame_of (partitions_ s) id) as [f|] eqn:Ef.
  - destruct (Hmap id f Ef) as (Hf & Hpid & _).
    assert (HG : BufferPartitions.Get (partitions_ s) id (GetPartitionIdx id) = f).
    { unfold BufferPartitions.Get, BufferPartitions.GetUnsafe. unfold frame_of in Ef. by rewrite Ef. }
    destruct (pin_hit s t id f Hid HG) as (s' & R & S'); [unfold UINT32_MAX, BUFFER_POOL_PAGE_NUM in *; lia|done|].
    assert (Hidf : ∀ g, Frame.id_ (page_at s' g) = Frame.id_ (page_at s g)).
    { intros g. rewrite (si_page _ _ _ _ _ _ _ _ S'). unfold upd. by destruct (decide (g = f)) as [->|]. }
    exists 3%nat, f, s'. split_and!; try done; try lia.
    + apply (si_pc _ _ _ _ _ _ _ _ S').
    + intros t' Ht'. by apply (si_other _ _ _ _ _ _ _ _ _ S').
    + by rewrite Hidf.
    + split; [by rewrite (si_size _ _ _ _ _ _ _ _ S')|by rewrite (si_sweep _ _ _ _ _ _ _ _ S')| |];
        rewrite (si_parts _ _ _ _ _ _ _ _ S'); intros; rewrite ?Hidf; auto.
    + intros g Hg. rewrite (si_page _ _ _ _ _ _ _ _ S'). unfold upd. by rewrite decide_False.
    + rewrite (si_page _ _ _ _ _ _ _ _ S'). apply upd_same.
    + apply (si_tasks _ _ _ _ _ _ _ _ S').
    + apply (si_parts _ _ _ _ _ _ _ _ S').
  - assert (HG : BufferPartitions.Get (partitions_ s) id (GetPartitionIdx id) = UINT32_MAX).
    { unfold BufferPartitions.Get, BufferPartitions.GetUnsafe. unfold frame_of in Ef. by rewrite Ef. }
    destruct (pin_miss s t id Hid HG) as (s1 & R1 & S1).
    destruct (hand_reaches g0 (sweep_head_ s) Hg0 Hsw) as (k & Hk & Ek). rewrite <- Ek in Hu0.
    destruct (sweep_ends s t k s1 true id _ _ _ _ S1 Hsz Hu0) as (n & s2 & f & sweep' & R2 & Hn & Hf & Huf & Hsw' & S2).
    destruct (victim_claimed s s2 t id f _ _ _ _ _ S2 Ef) as (s3 & parts' & R3 & S3 & Hparts). rewrite upd_same in S3.
    change (claimed (Frame.set_latch (page_at s f) (Some t)) id) with (claimed (page_at s f) id) in S3.
    set (vid := Frame.id_ (page_at s f)) in *.
    assert (Hvid : vid ≠ id).
    { intros E. destruct (Hfr f Hf) as [H0|H0]; fold vid in H0; rewrite E in H0; [by destruct Hid as [Hid _]|congruence]. }
    assert (Hparts' : ∀ x, frame_of parts' x = if decide (x = id) then Some f else if decide (x = vid) then None else frame_of (partitions_ s) x).
    { intros x. rewrite Hparts. destruct (decide (x = id)) as [->|Hx]; [rewrite decide_False by naive_solver; done|].
      destruct (decide (x = vid)) as [->|Hxv]; [|rewrite decide_False by tauto; done].
      destruct (frame_of (partitions_ s) vid) as [f'|] eqn:Ev; [|rewrite decide_False by (intros [_ [?|?]]; congruence); done].
      destruct (Hfr f Hf) as [H0|H0]; fold vid in H0; [|rewrite decide_True by naive_solver; done].
      destruct (Hmap vid f' Ev) as (_ & _ & Hp'). done. }
    assert (Hpg : ∀ g, g ≠ f → page_at s3 g = page_at s g).
    { intros g Hg. rewrite (si_page _ _ _ _ _ _ _ _ S3). unfold upd. by rewrite !decide_False. }
    assert (Hpf : page_at s3 f = claimed (page_at s f) id (PageVersionManager.Get (version_table_ s) id)).
    { rewrite (si_page _ _ _ _ _ _ _ _ S3). apply upd_same. }
    assert (Hpart : partitions_ s3 = parts') by apply (si_parts _ _ _ _ _ _ _ _ S3).
    exists (1 + (n + 9))%nat, f, s3. split_and!; try done.
    + rewrite steps_app, R1. cbn [mbind option_bind]. rewrite steps_app, R2. exact R3.
    + lia.
    + apply (si_pc _ _ _ _ _ _ _ _ S3).
    + intros t' Ht'. by apply (si_other _ _ _ _ _ _ _ _ _ S3).
    + lia.
    + lia.
    + by rewrite Hpf.
    + split; [by rewrite (si_size _ _ _ _ _ _ _ _ S3)| |rewrite Hpart..].
      * by rewrite (si_sweep _ _ _ _ _ _ _ _ S3).
      * intros x g. rewrite Hparts'. destruct (decide (x = id)) as [->|Hx].
        -- intros [= <-]. rewrite Hpf. split_and!; [lia|lia|done|by destruct Hid].
        -- destruct (decide (x = vid)); [done|]. intros Hg. destruct (Hmap x g Hg) as (G1 & G2 & G3).
           destruct (decide (g = f)) as [->|Hgf]; [done|]. by rewrite Hpg.
      * intros g Hg. destruct (decide (g = f)) as [->|Hgf].
        -- right. assert (Ec : Frame.id_ (page_at s3 f) = id) by (by rewrite Hpf). by rewrite Ec, Hparts', decide_True.
        -- rewrite (Hpg g Hgf). destruct (Hfr g Hg) as [H0|H0]; [by left|right]. rewrite Hparts'.
           destruct (decide (Frame.id_ (page_at s g) = id)) as [E|]; [congruence|].
           destruct (decide (Frame.id_ (page_at s g) = vid)) as [E|]; [|done].
           destruct (Hfr f Hf) as [Hz|Hz]; fold vid in Hz; [|congruence]. destruct (Hmap _ _ H0) as (_ & _ & Hnz). congruence.
    + apply (si_tasks _ _ _ _ _ _ _ _ S3).
    + intros x. rewrite Hpart. apply Hparts'.
Qed.

Lemma pool_quiet_make versions : pool_quiet (make BUFFER_POOL_PAGE_NUM versions).
Proof.
  split; [done|cbn; lia|..].
  - intros id f H. unfold frame_of, BufferPartitions.partition in H. cbn in H. rewrite lookup_empty in H. cbn in H. by rewrite lookup_empty in H.
  - intros f _. left. unfold page_at. cbn. by rewrite lookup_empty.
Qed.

Lemma pin_alone_correct_witness : ∃ n f s', steps n 1 (Pin (make BUFFER_POOL_PAGE_NUM ∅) 1 page_A) = Some s' ∧
  pc_of s' 1%nat = Holds page_A f ∧ Frame.id_ (page_at s' f) = page_A ∧ pool_quiet s' ∧ tasks_ s' = [(f, page_A)].
Proof.
  destruct (pin_alone_correct (make BUFFER_POOL_PAGE_NUM ∅) 1 page_A (pool_quiet_make ∅)) as
    (n & f & s' & H1 & _ & H2 & _ & _ & H3 & H4 & _ & _ & _ & H5 & _).
  - split; by vm_compute.
  - exists 0. split; [unfold BUFFER_POOL_PAGE_NUM; lia|by vm_compute].
  - exists n, f, s'. exact (conj H1 (conj H2 (conj H3 (conj H4 H5)))).
Defined.
