(* ===== verification/Disk.v ===== *)
(** * The disk manager and its scheduler (storage/disk_manager)

    [FdCache], [DiskManagerAsync] and [DiskScheduler].  The operating system,
    liburing and the concurrent queue are interfaces: a file system with the
    calls the code makes, a ring whose pending requests are a multiset, and a
    queue whose contents are a multiset. *)

From stdpp Require Import strings.
From S2P Require Import Prelude Bytes Shared Memory Txn Table.

(** ** FdCache *)
Module FdCache.

Record FdCacheEntry := mkEntry { fd : Z; page_count : Z }.

Definition empty_entry : FdCacheEntry := mkEntry (-1) 0.

Definition MAX_OPEN_FILES : Z := 128.

(** [cache_]: the entries that differ from those of the constructor. *)
Abbreviation state := (gmap Z FdCacheEntry).

Definition Get (cache_ : state) (idx : Z) : outcome FdCacheEntry :=
  _ ← DB7_ASSERT (idx <? MAX_OPEN_FILES) "Out of range idx";
  Ret (default empty_entry (cache_ !! idx)).

Definition Set_ (cache_ : state) (idx : Z) (entry : FdCacheEntry) : outcome state :=
  _ ← DB7_ASSERT (idx <? MAX_OPEN_FILES) "Out of range idx";
  Ret (<[idx := entry]> cache_).

Definition Invalidate (cache_ : state) (idx : Z) : outcome (FdCacheEntry * state) :=
  _ ← DB7_ASSERT (idx <? MAX_OPEN_FILES) "Out of range idx";
  Ret (default empty_entry (cache_ !! idx), <[idx := mkEntry (-1) 0]> cache_).
End FdCache.

(** ** The interfaces *)

(** The system calls on files; a negative descriptor or result is an error. *)
Class FileSystem (os : Type) := {
  open_ : os → string → bool → Z * os;
  st_size : os → Z → Z;
  fallocate : os → Z → Z → Z → Z * os;
  access_ : os → string → bool;
  close : os → Z → os;
  unlink : os → string → os
}.

(** A request of the ring: [write], file, buffer, length, offset and user data. *)
Record request := mkRequest { rq_write : bool; rq_fd : Z; rq_buf : Z; rq_len : Z; rq_offset : Z; rq_data : Z }.

(** [io_uring]: [pending] are the requests prepared and not yet reaped;
    [elapse] is what the device does on its own. *)
Class IoUring (ring : Type) := {
  prepare : ring → request → option ring;
  submit : ring → ring;
  peek : ring → option (Z * Z * ring);
  pending : ring → list request;
  elapse : ring → ring
}.

Class IoUringLaws (ring : Type) `{IoUring ring} := {
  prepare_pending r q r' : prepare r q = Some r' → pending r' ≡ₚ q :: pending r;
  submit_pending r : pending (submit r) ≡ₚ pending r;
  peek_pending r data result r' : peek r = Some (data, result, r') → ∃ q, rq_data q = data ∧ pending r ≡ₚ q :: pending r';
  elapse_pending r : pending (elapse r) ≡ₚ pending r
}.

(** [transfers q n]: the completion of request [q] may report [n]: the bytes
    [read] or [write] transferred, fewer than asked for at the end of a file, or a
    negative error. *)
Class IoResults (ring : Type) `{IoUring ring} (transfers : request → Z → Prop) :=
  peek_transfers r data result r' : peek r = Some (data, result, r') →
    ∃ q, rq_data q = data ∧ transfers q result ∧ pending r ≡ₚ q :: pending r'.

(** [moodycamel::ConcurrentQueue]. *)
Class ConcurrentQueue (task queue : Type) := {
  try_dequeue_bulk : queue → nat → list task * queue;
  enqueue_bulk : queue → list task → queue;
  contents : queue → list task
}.

Class ConcurrentQueueLaws (task queue : Type) `{ConcurrentQueue task queue} := {
  dequeue_contents q n l q' : try_dequeue_bulk q n = (l, q') → contents q ≡ₚ l ++ contents q' ∧ (length l ≤ n)%nat;
  enqueue_contents q l : contents (enqueue_bulk q l) ≡ₚ contents q ++ l
}.

(** ** DiskManagerAsync: the table files *)
Module DiskManagerAsync.
Section Files.
Context {os : Type} `{FileSystem os}.

Definition MAX_PATH_LEN : Z := 256.
Definition INIT_FREE_PAGES : Z := 3.

(** [base_dir_], [cache_] and the operating system. *)
Record DiskManagerAsync := mkDisk { base_dir_ : string; cache_ : FdCache.state; sys : os }.

(** The decimal digits of [%u]. *)
Definition BuildPath (d : DiskManagerAsync) (tid len : Z) : outcome string :=
  let path := (base_dir_ d ++ "/table_" ++ pretty.pretty tid ++ ".db")%string in
  let n := Z.of_nat (String.length path) in
  _ ← DB7_ASSERT ((0 <? n) && (n <? len)) "Path buffer too small";
  Ret path.

(** Throws [IO_EXCEPTION]. *)
Definition CreateTable (d : DiskManagerAsync) (tbl_id initial_pages : Z) : outcome (bool * DiskManagerAsync) :=
  hdr ← FdCache.Get (cache_ d) tbl_id;
  if negb (FdCache.fd hdr =? -1) then Throw "File already exists"
  else
    path ← BuildPath d tbl_id MAX_PATH_LEN;
    let '(fd, s) := open_ (sys d) path true in
    if fd <? 0 then Throw "File not found"
    else
      cache ← FdCache.Set_ (cache_ d) tbl_id (FdCache.mkEntry fd initial_pages);
      let '(ret, s) := fallocate s fd 0 (initial_pages * DB7_PAGE_SIZE) in
      _ ← DB7_ASSERT (ret =? 0) "fallocate failed";
      Ret (true, mkDisk (base_dir_ d) cache s).

Definition OpenFile (d : DiskManagerAsync) (tbl_id : Z) : outcome (bool * DiskManagerAsync) :=
  path ← BuildPath d tbl_id MAX_PATH_LEN;
  let '(fd, s) := open_ (sys d) path false in
  if fd <? 0 then Throw "File not found"
  else
    let page_count := to_u32 (st_size s fd / DB7_PAGE_SIZE) in
    cache ← FdCache.Set_ (cache_ d) tbl_id (FdCache.mkEntry fd page_count);
    Ret (true, mkDisk (base_dir_ d) cache s).

Definition ExistsTable (d : DiskManagerAsync) (tbl_id : Z) : outcome bool :=
  path ← BuildPath d tbl_id MAX_PATH_LEN; Ret (access_ (sys d) path).

Definition CreateOpenFile (d : DiskManagerAsync) (tbl_id initial_pages : Z) : outcome (bool * DiskManagerAsync) :=
  path ← BuildPath d tbl_id MAX_PATH_LEN;
  if access_ (sys d) path then OpenFile d tbl_id else CreateTable d tbl_id initial_pages.

Definition DropTable (d : DiskManagerAsync) (tbl_id : Z) : outcome (bool * DiskManagerAsync) :=
  '(hdr, cache) ← FdCache.Invalidate (cache_ d) tbl_id;
  _ ← DB7_ASSERT (0 <=? FdCache.fd hdr) "Invalid file";
  path ← BuildPath d tbl_id MAX_PATH_LEN;
  Ret (true, mkDisk (base_dir_ d) cache (unlink (close (sys d) (FdCache.fd hdr)) path)).

(** The offset of [fallocate] is a u32 product. *)
Definition ExtendFile (d : DiskManagerAsync) (tbl_id pages_num : Z) : outcome (bool * DiskManagerAsync) :=
  hdr ← FdCache.Get (cache_ d) tbl_id;
  _ ← DB7_ASSERT (0 <=? FdCache.fd hdr) "File not found";
  let '(ret, s) := fallocate (sys d) (FdCache.fd hdr) (to_u32 (FdCache.page_count hdr * DB7_PAGE_SIZE)) (pages_num * DB7_PAGE_SIZE) in
  _ ← DB7_ASSERT (ret =? 0) "fallocate failed";
  cache ← FdCache.Set_ (cache_ d) tbl_id (FdCache.mkEntry (FdCache.fd hdr) (to_u32 (FdCache.page_count hdr + pages_num)));
  Ret (true, mkDisk (base_dir_ d) cache s).

Definition PageCount (d : DiskManagerAsync) (tbl_id : Z) : outcome Z :=
  hdr ← FdCache.Get (cache_ d) tbl_id; Ret (FdCache.page_count hdr).

(** [Table::PageCount]. *)
Definition Table_PageCount (d : DiskManagerAsync) (t : Table.Table) : outcome Z := PageCount d (Table.oid_ t).
End Files.

(** [SubmitRead] ([write = false]) and [SubmitWrite]. *)
Section Ring.
Context {ring : Type} `{IoUring ring}.

Definition Submit_ (write : bool) (cache_ : FdCache.state) (r : ring) (tid buf len offset user_data : Z) : outcome (bool * ring) :=
  _ ← DB7_ASSERT (buf mod 4096 =? 0) "unaligned buffer";
  _ ← DB7_ASSERT (len mod 4096 =? 0) "unaligned length";
  _ ← DB7_ASSERT (offset mod 4096 =? 0) "unaligned offset";
  hdr ← FdCache.Get cache_ tid;
  _ ← DB7_ASSERT (0 <=? FdCache.fd hdr) "No valid file descriptor";
  match prepare r (mkRequest write (FdCache.fd hdr) buf len offset user_data) with
  | None => Ret (false, r)
  | Some r => Ret (true, r)
  end.

Definition SubmitRead := Submit_ false.
Definition SubmitWrite := Submit_ true.

(** [completion_cb_], which [SetCompletionCallback] sets: what it gets and what
    it does, in so far as it can abort. *)
Variable completion_cb_ : Z → Z → outcome unit.

(** [ReapCompletions]: the data of the completions given to the callback;
    [fuel] bounds the loop, which stops at [max_completions]. *)
Fixpoint reap (fuel : nat) (r : ring) (reaped max_completions : Z) : outcome (list Z * ring) :=
  match fuel with
  | O => OutOfFuel
  | S fuel =>
      match peek r with
      | None => Ret ([], r)
      | Some (data, result, r) =>
          _ ← completion_cb_ data result;
          let reaped := reaped + 1 in
          if max_completions <=? reaped then Ret ([data], r)
          else '(l, r) ← reap fuel r reaped max_completions; Ret (data :: l, r)
      end
  end.

Definition ReapCompletions (r : ring) (max_completions : Z) : outcome (list Z * ring) :=
  reap (S (Z.to_nat max_completions)) r 0 max_completions.
End Ring.
End DiskManagerAsync.

(** ** DiskScheduler *)
Module DiskScheduler.

Inductive Op := READ | WRITE.
Inductive IoPriority := CRITICAL | HIGH | LOW.

(** The page is the address of the [Page] and that of its data. *)
Record IoTask := mkTask { op : Op; priority : IoPriority; page : Z; page_data : Z; id : PageIdentifier }.

Section Scheduler.
Context {ring queue : Type} `{IoUring ring} `{ConcurrentQueue IoTask queue}.

(** [queue_], [inflight_] (u32) and the ring of [io_]; the file table is that of
    the disk manager. *)
Record DiskScheduler := mkScheduler { io_ : ring; inflight_ : Z; queue_ : queue }.

Definition max_inflight_ : Z := IOURING_QUEUE_SIZE.

(** [(pid - 1) * DB7_PAGE_SIZE] is a u32 product. *)
Definition task_offset (t : IoTask) : Z := to_u32 (to_u32 (pid (id t) - 1) * DB7_PAGE_SIZE).

Definition submit_task (cache : FdCache.state) (r : ring) (t : IoTask) : outcome (bool * ring) :=
  match op t with
  | READ => DiskManagerAsync.SubmitRead cache r (tbl_id (id t)) (page_data t) DB7_PAGE_SIZE (task_offset t) (page t)
  | WRITE => DiskManagerAsync.SubmitWrite cache r (tbl_id (id t)) (page_data t) DB7_PAGE_SIZE (task_offset t) (page t)
  end.

(** The loop of [SubmitPending]: the scheduler after it and whether anything
    was submitted. *)
Fixpoint submit_tasks (cache : FdCache.state) (s : DiskScheduler) (tasks : list IoTask) (any : bool) : outcome (DiskScheduler * bool) :=
  match tasks with
  | [] => Ret (s, any)
  | t :: rest =>
      '(ok, r) ← submit_task cache (io_ s) t;
      if (ok : bool) then submit_tasks cache (mkScheduler r (to_u32 (inflight_ s + 1)) (queue_ s)) rest true
      else Ret (mkScheduler r (inflight_ s) (enqueue_bulk (queue_ s) tasks), any)
  end.

Definition SubmitPending (cache : FdCache.state) (s : DiskScheduler) : outcome DiskScheduler :=
  let slots := Z.min IOURING_QUEUE_SIZE (to_u32 (max_inflight_ - inflight_ s)) in
  if slots =? 0 then Ret s
  else
    let '(tasks, q) := try_dequeue_bulk (queue_ s) (Z.to_nat slots) in
    '(s, submitted_any) ← submit_tasks cache (mkScheduler (io_ s) (inflight_ s) q) tasks false;
    Ret (if (submitted_any : bool) then mkScheduler (submit (io_ s)) (inflight_ s) (queue_ s) else s).

(** The callback that [Run] sets; it then calls [SignalIO] of the page
    ([BufferPool.complete]). *)
Definition completion_cb (page result : Z) : outcome unit := DB7_ASSERT (result =? DB7_PAGE_SIZE) "Short read".

(** The pages whose I/O is signalled. *)
Definition DrainCompletions (s : DiskScheduler) : outcome (list Z * DiskScheduler) :=
  if 0 <? inflight_ s then
    '(l, r) ← DiskManagerAsync.ReapCompletions completion_cb (io_ s) max_inflight_;
    Ret (l, mkScheduler r (to_u32 (inflight_ s - Z.of_nat (length l))) (queue_ s))
  else Ret ([], s).

Definition Enqueue (s : DiskScheduler) (task : IoTask) : DiskScheduler :=
  mkScheduler (io_ s) (inflight_ s) (enqueue_bulk (queue_ s) [task]).

(** One iteration of [Run]. *)
Definition round (cache : FdCache.state) (s : DiskScheduler) : outcome (list Z * DiskScheduler) :=
  '(l, s) ← DrainCompletions s;
  s ← SubmitPending cache s;
  Ret (l, s).

(** The constructor. *)
Definition make (r : ring) (q : queue) : DiskScheduler := mkScheduler r 0 q.

(** The scheduler's thread interleaved with the threads that enqueue tasks and
    with the device: [Iterate] is an iteration of [Run].  The result lists the
    signalled pages. *)
Inductive event := Arrive (t : IoTask) | Iterate | Elapse.

Fixpoint run (cache : FdCache.state) (s : DiskScheduler) (events : list event) : outcome (list Z * DiskScheduler) :=
  match events with
  | [] => Ret ([], s)
  | Arrive t :: rest => run cache (Enqueue s t) rest
  | Elapse :: rest => run cache (mkScheduler (elapse (io_ s)) (inflight_ s) (queue_ s)) rest
  | Iterate :: rest =>
      '(l, s) ← round cache s;
      '(l', s) ← run cache s rest;
      Ret (l ++ l', s)
  end.
End Scheduler.
Arguments DiskScheduler : clear implicits.
End DiskScheduler.
