(* ===== verification/DiskTheorems.v ===== *)
(** * The disk scheduler neither loses nor repeats a request, and where it reads

    The scheduler's thread moves tasks from the queue to the ring and from the
    ring to the callback; the theorems state conservation over any interleaving
    with the threads that enqueue, that a whole run returns, and the offsets of
    the pages. *)

From stdpp Require Import strings.
From S2P Require Import Prelude.
From S2P Require Import Bytes.
From S2P Require Import Shared.
From S2P Require Import Memory.
From S2P Require Import Disk.

Import DiskManagerAsync DiskScheduler.

(** ** Permutations of an image *)
Lemma map_perm_cons {A B} (f : A → B) (l : list A) q k :
  map f l ≡ₚ q :: k → ∃ a l', f a = q ∧ l ≡ₚ a :: l' ∧ k ≡ₚ map f l'.
Proof.
  intros HP. assert (q ∈ map f l) as Hq by (rewrite HP; left).
  apply list_elem_of_fmap in Hq as (a & -> & Ha).
  apply elem_of_Permutation in Ha as (l' & Hl).
  exists a, l'. split; [done|]. split; [done|].
  rewrite Hl in HP. cbn in HP. by apply Permutation_cons_inv in HP.
Qed.

(** Any ring completes its requests with some result. *)
#[export] Instance any_results (ring : Type) `{IoUringLaws ring} : IoResults ring (λ _ _, True).
Proof. intros r data res r' Hk. apply peek_pending in Hk as (q & ? & ?). by exists q. Qed.

Section Scheduler.
Context {ring queue : Type} `{IoUring ring} `{ConcurrentQueue IoTask queue}.
Context `{!IoUringLaws ring} `{!ConcurrentQueueLaws IoTask queue}.

Abbreviation DiskScheduler := (DiskScheduler ring queue).

(** The request of a task: the descriptor of its table's file, a page, the
    offset of the page and the address of the frame. *)
Definition task_request (cache : FdCache.state) (t : IoTask) : request :=
  mkRequest (match op t with READ => false | WRITE => true end)
    (FdCache.fd (default FdCache.empty_entry (cache !! tbl_id (id t)))) (page_data t) DB7_PAGE_SIZE (task_offset t) (page t).

(** The ring holds the requests of the tasks [ts], which [inflight_] counts. *)
Definition in_flight (cache : FdCache.state) (s : DiskScheduler) (ts : list IoTask) : Prop :=
  pending (io_ s) ≡ₚ map (task_request cache) ts ∧ inflight_ s = Z.of_nat (length ts) ∧ Z.of_nat (length ts) ≤ max_inflight_.

(** The tasks the scheduler has not completed. *)
Definition open_tasks (s : DiskScheduler) (ts : list IoTask) : list IoTask := contents (queue_ s) ++ ts.

(** The callback accepts a completion of a whole page only. *)
Lemma completion_cb_inv data res o : completion_cb data res = Ret o → res = DB7_PAGE_SIZE.
Proof. unfold completion_cb. destruct (Z.eqb_spec res DB7_PAGE_SIZE); [done|by intros]. Qed.

Section Results.
Context (transfers : request → Z → Prop) `{!IoResults ring transfers}.

(** A request that transferred a whole page; one of the tasks may come to
    something else. *)
Definition whole (cache : FdCache.state) (t : IoTask) : Prop := transfers (task_request cache t) DB7_PAGE_SIZE.
Definition may_fall_short (cache : FdCache.state) (ts : list IoTask) : Prop :=
  ∃ t res, t ∈ ts ∧ transfers (task_request cache t) res ∧ res ≠ DB7_PAGE_SIZE.

Lemma short_mono cache ts us : (∀ t, t ∈ ts → t ∈ us) → may_fall_short cache ts → may_fall_short cache us.
Proof. intros Hs (t & res & Ht & Hr). exists t, res. split; [by apply Hs|done]. Qed.

(** ** Completions *)
Lemma peek_task cache r ts data res r' :
  pending r ≡ₚ map (task_request cache) ts → peek r = Some (data, res, r') →
  ∃ t ts', page t = data ∧ transfers (task_request cache t) res ∧ ts ≡ₚ t :: ts' ∧ pending r' ≡ₚ map (task_request cache) ts'.
Proof.
  intros HP Hk. apply peek_transfers in Hk as (q & Hq & Ht & Hr). rewrite Hr in HP. symmetry in HP.
  apply map_perm_cons in HP as (t & ts' & <- & Hts & Hk). by exists t, ts'.
Qed.

Lemma reap_tasks cache fuel r reaped m l r' ts :
  pending r ≡ₚ map (task_request cache) ts → reap completion_cb fuel r reaped m = Ret (l, r') →
  ∃ finished ts', map page finished = l ∧ Forall (whole cache) finished ∧ ts ≡ₚ finished ++ ts' ∧
    pending r' ≡ₚ map (task_request cache) ts'.
Proof.
  revert r reaped l ts. induction fuel as [|fuel IH]; intros r reaped l ts HP; cbn [reap]; [done|].
  destruct (peek r) as [[[data res] r1]|] eqn:Hk; [|intros [= <- <-]; by exists [], ts].
  destruct (peek_task _ _ _ _ _ _ HP Hk) as (t & ts1 & <- & Htr & Hts & HP1).
  intros E. apply bind_inv in E as (o & Hcb & E). apply completion_cb_inv in Hcb as ->. destruct (_ <=? _).
  - injection E as <- <-. exists [t], ts1. split_and!; [done|by constructor|done|done].
  - apply bind_inv in E as ([l1 r2] & E1 & [= <- <-]).
    destruct (IH _ _ _ _ HP1 E1) as (fin & ts2 & <- & Hw & Hts1 & HP2).
    exists (t :: fin), ts2. split; [done|]. split; [by constructor|]. split; [|done]. by rewrite Hts, Hts1.
Qed.

Lemma drain_tasks cache s l s' ts :
  in_flight cache s ts → DrainCompletions s = Ret (l, s') →
  ∃ finished ts', map page finished = l ∧ Forall (whole cache) finished ∧
    open_tasks s ts ≡ₚ finished ++ open_tasks s' ts' ∧ in_flight cache s' ts'.
Proof.
  intros (HP & Hi & Hm). unfold DrainCompletions. destruct (0 <? inflight_ s); [|intros [= <- <-]; by exists [], ts].
  intros E. apply bind_inv in E as ([l1 r] & E1 & [= <- <-]).
  destruct (reap_tasks _ _ _ _ _ _ _ _ HP E1) as (fin & ts' & <- & Hw & Hts & HP').
  exists fin, ts'. split; [done|]. split; [done|]. split.
  - unfold open_tasks; cbn [queue_]. rewrite Hts. rewrite !(assoc_L (++)). f_equiv. apply Permutation_app_comm.
  - pose proof (Permutation_length Hts) as HL. rewrite length_app in HL.
    split; [done|]. unfold max_inflight_, IOURING_QUEUE_SIZE in *. cbn [inflight_]. rewrite length_map. wrap_lia.
Qed.

(** ** Submission *)
Lemma submit_task_eq cache r t :
  submit_task cache r t = Submit_ (match op t with READ => false | WRITE => true end) cache r (tbl_id (id t)) (page_data t) DB7_PAGE_SIZE (task_offset t) (page t).
Proof. by destruct t as [[] ? ? ? ?]. Qed.

Lemma submit_task_inv cache r t ok r' :
  submit_task cache r t = Ret (ok, r') →
  if ok then prepare r (task_request cache t) = Some r' else r' = r ∧ prepare r (task_request cache t) = None.
Proof.
  rewrite submit_task_eq. unfold Submit_. intros E.
  apply bind_inv in E as (_ & _ & E). apply bind_inv in E as (_ & _ & E). apply bind_inv in E as (_ & _ & E).
  apply bind_inv in E as (hdr & E1 & E). unfold FdCache.Get in E1. apply bind_inv in E1 as (_ & _ & [= <-]).
  apply bind_inv in E as (_ & _ & E). fold (task_request cache t) in E.
  destruct (prepare r _) eqn:Hp; injection E as <- <-; done.
Qed.

Lemma submit_tasks_inv cache tasks s any s' any' ts :
  in_flight cache s ts → Z.of_nat (length ts + length tasks) ≤ max_inflight_ →
  submit_tasks cache s tasks any = Ret (s', any') →
  ∃ ts', (contents (queue_ s) ++ tasks) ++ ts ≡ₚ open_tasks s' ts' ∧ in_flight cache s' ts'.
Proof.
  revert s any ts. induction tasks as [|t rest IH]; intros s any ts Hf Hm; cbn [submit_tasks].
  - intros [= <- _]. exists ts. by rewrite app_nil_r.
  - intros E. apply bind_inv in E as ([ok r] & E1 & E). apply submit_task_inv in E1.
    destruct Hf as (HP & Hi & Hle). cbn [length] in Hm. destruct ok.
    + apply (IH _ _ (t :: ts)) in E.
      * destruct E as (ts' & HQ & Hf'). exists ts'. split; [|done]. rewrite <- HQ. cbn [queue_].
        rewrite <- !(assoc_L (++)). f_equiv. cbn [app]. by rewrite Permutation_middle.
      * split; [|split; cbn [length inflight_]; [|lia]].
        { cbn [io_ map]. rewrite (prepare_pending _ _ _ E1). by f_equiv. }
        unfold max_inflight_, IOURING_QUEUE_SIZE in *. wrap_lia.
      * cbn [length]. lia.
    + injection E as <- _. exists ts. destruct E1 as [-> _]. split; [|done].
      unfold open_tasks. cbn [queue_]. by rewrite enqueue_contents.
Qed.

Lemma SubmitPending_inv cache s s' ts :
  in_flight cache s ts → SubmitPending cache s = Ret s' →
  ∃ ts', open_tasks s ts ≡ₚ open_tasks s' ts' ∧ in_flight cache s' ts'.
Proof.
  intros Hf. unfold SubmitPending. destruct (_ =? 0) eqn:Hz; [intros [= <-]; by exists ts|].
  apply Z.eqb_neq in Hz. pose proof Hf as (HP & Hi & Hle).
  destruct (try_dequeue_bulk _ _) as [tasks q] eqn:Hd. apply dequeue_contents in Hd as [Hq Hl].
  intros E. apply bind_inv in E as ([s1 any] & E1 & [= <-]).
  apply (submit_tasks_inv _ _ _ _ _ _ ts) in E1 as (ts' & HQ & HP' & Hi' & Hle').
  - exists ts'. split.
    + transitivity (open_tasks s1 ts'); [|by destruct any].
      rewrite <- HQ. unfold open_tasks. cbn [queue_]. rewrite Hq.
      f_equiv. apply Permutation_app_comm.
    + destruct any; (split; [|split]); cbn [io_ inflight_]; try done. by rewrite submit_pending.
  - done.
  - revert Hl. unfold max_inflight_, IOURING_QUEUE_SIZE in *. rewrite Hi, wrap_small by lia. lia.
Qed.

Lemma sched_round_inv cache s l s' ts :
  in_flight cache s ts → round cache s = Ret (l, s') →
  ∃ finished ts', map page finished = l ∧ Forall (whole cache) finished ∧
    open_tasks s ts ≡ₚ finished ++ open_tasks s' ts' ∧ in_flight cache s' ts'.
Proof.
  intros Hf E. apply bind_inv in E as ([l1 s1] & E1 & E). apply bind_inv in E as (s2 & E2 & [= <- <-]).
  destruct (drain_tasks _ _ _ _ _ Hf E1) as (fin & ts1 & <- & Hw & HQ1 & Hf1).
  destruct (SubmitPending_inv _ _ _ _ Hf1 E2) as (ts2 & HQ2 & Hf2).
  exists fin, ts2. split; [done|]. split; [done|]. split; [|done]. by rewrite HQ1, HQ2.
Qed.

Lemma in_flight_elapse cache s ts :
  in_flight cache s ts → in_flight cache (mkScheduler (elapse (io_ s)) (inflight_ s) (queue_ s)) ts.
Proof. intros (HP & Hi & Hle). split; [|done]. cbn [io_]. by rewrite elapse_pending. Qed.

(** The tasks the schedule enqueues. *)
Definition enqueued (events : list event) : list IoTask := omap (λ e, match e with Arrive t => Some t | _ => None end) events.

Lemma sched_run_inv cache events s l s' ts :
  in_flight cache s ts → run cache s events = Ret (l, s') →
  ∃ finished ts', map page finished = l ∧ Forall (whole cache) finished ∧
    open_tasks s ts ++ enqueued events ≡ₚ finished ++ open_tasks s' ts' ∧ in_flight cache s' ts'.
Proof.
  revert s l ts. induction events as [|[t| |] rest IH]; intros s l ts Hf; cbn [run].
  - intros [= <- <-]. exists [], ts. split; [done|]. split; [done|]. split; [|done]. cbn. by rewrite app_nil_r.
  - intros E. apply (IH _ _ ts) in E as (fin & ts' & Hl & Hw & HQ & Hf'); [|done].
    exists fin, ts'. split; [done|]. split; [done|]. split; [|done]. rewrite <- HQ. cbn.
    unfold open_tasks, Enqueue. cbn [queue_]. rewrite enqueue_contents. cbn [omap list_omap]. fold (enqueued rest).
    rewrite <- !app_assoc. f_equiv. cbn [app]. by rewrite <- Permutation_middle.
  - intros E. apply bind_inv in E as ([l1 s1] & E1 & E). apply bind_inv in E as ([l2 s2] & E2 & [= <- <-]).
    destruct (sched_round_inv _ _ _ _ _ Hf E1) as (fin1 & ts1 & <- & Hw1 & HQ1 & Hf1).
    destruct (IH _ _ _ Hf1 E2) as (fin2 & ts2 & <- & Hw2 & HQ2 & Hf2).
    exists (fin1 ++ fin2), ts2. split; [by rewrite map_app|]. split; [by apply Forall_app|]. split; [|done].
    cbn [enqueued omap list_omap]. fold (enqueued rest). rewrite HQ1, <- !app_assoc. f_equiv. done.
  - intros E. apply (IH _ _ ts) in E as (fin & ts' & Hl & Hw & HQ & Hf'); [by exists fin, ts'|by apply in_flight_elapse].
Qed.

(** ** Termination *)
(** The drain returns, or stops at a completion that is not of a whole page. *)
Lemma reap_total cache fuel (r : ring) reaped m ts :
  pending r ≡ₚ map (task_request cache) ts → 0 < m → reaped < m → m - reaped < Z.of_nat fuel →
  (∃ p, reap completion_cb fuel r reaped m = Ret p) ∨
  reap completion_cb fuel r reaped m = AssertFail "Short read" ∧ may_fall_short cache ts.
Proof.
  intros HP Hm. revert r ts reaped HP. induction fuel as [|fuel IH]; intros r ts reaped HP Hr Hf; [lia|].
  cbn [reap]. destruct (peek r) as [[[data res] r1]|] eqn:Hk; [|eauto].
  destruct (peek_task _ _ _ _ _ _ HP Hk) as (t & ts1 & <- & Htr & Hts & HP1).
  change (completion_cb (page t) res) with (DB7_ASSERT (res =? DB7_PAGE_SIZE) "Short read").
  destruct (Z.eqb_spec res DB7_PAGE_SIZE) as [->|Hne]; cbn [DB7_ASSERT].
  2: { right. split; [done|]. exists t, res. split; [rewrite Hts; by left|done]. }
  rewrite bind_Ret. destruct (m <=? reaped + 1) eqn:Hc; [eauto|]. apply Z.leb_gt in Hc.
  destruct (IH r1 ts1 (reaped + 1) HP1) as [[[l r2] E]|[E Hs]]; [lia|lia|rewrite E; cbn; eauto|rewrite E; right].
  split; [done|]. apply (short_mono cache ts1); [|done]. intros u Hu. rewrite Hts. by right.
Qed.

(** A task the scheduler can submit: a frame that is aligned as [PageDataPool]
    aligns it, a table whose file is open. *)
Definition task_ok (cache : FdCache.state) (t : IoTask) : Prop :=
  page_data t mod 4096 = 0 ∧ tbl_id (id t) < FdCache.MAX_OPEN_FILES ∧
  0 ≤ FdCache.fd (default FdCache.empty_entry (cache !! tbl_id (id t))).

Lemma task_offset_mod t k : (k | DB7_PAGE_SIZE) → task_offset t mod k = 0.
Proof.
  intros (c & Hc). unfold task_offset, wrap. replace (2 ^ 32) with (2 ^ 19 * DB7_PAGE_SIZE) by reflexivity.
  rewrite Z.mul_mod_distr_r by done. rewrite Hc, (assoc_L Z.mul). apply Z_mod_mult.
Qed.

Lemma submit_task_returns cache r t : task_ok cache t → ∃ p, submit_task cache r t = Ret p.
Proof.
  intros (Ha & Ht & Hfd). rewrite submit_task_eq. unfold Submit_, FdCache.Get.
  rewrite Ha, (task_offset_mod _ 4096) by by exists 2.
  rewrite (proj2 (Z.ltb_lt _ _) Ht). cbn [DB7_ASSERT Z.eqb]. rewrite !bind_Ret.
  rewrite (proj2 (Z.leb_le _ _) Hfd). cbn. destruct (prepare _ _); eauto.
Qed.

Lemma submit_tasks_returns cache tasks s any :
  Forall (task_ok cache) tasks → ∃ p, submit_tasks cache s tasks any = Ret p.
Proof.
  revert s any. induction tasks as [|t rest IH]; intros s any HF; cbn [submit_tasks]; [eauto|].
  apply Forall_cons in HF as [Ht HF].
  destruct (submit_task_returns cache (io_ s) t Ht) as [[ok r] ->]. rewrite bind_Ret. destruct ok; eauto.
Qed.

Lemma sched_round_total cache s ts :
  in_flight cache s ts → Forall (task_ok cache) (contents (queue_ s)) →
  (∃ p, round cache s = Ret p) ∨ round cache s = AssertFail "Short read" ∧ may_fall_short cache ts.
Proof.
  intros (HP & _ & _) HF. unfold round.
  assert ((∃ l r i, DrainCompletions s = Ret (l, mkScheduler r i (queue_ s))) ∨
    DrainCompletions s = AssertFail "Short read" ∧ may_fall_short cache ts) as [(l & r & i & ->)|[-> Hs]]; [| |by right].
  { unfold DrainCompletions. destruct (_ <? _); [|left; destruct s; eauto].
    destruct (reap_total cache (S (Z.to_nat max_inflight_)) (io_ s) 0 max_inflight_ ts HP) as [[[l r] E]|[E Hs]]; [done..| |];
      unfold ReapCompletions; rewrite E; [left; cbn; eauto|by right]. }
  left. rewrite bind_Ret. unfold SubmitPending. cbn [queue_ inflight_ io_].
  destruct (_ =? 0); [cbn; eauto|].
  destruct (try_dequeue_bulk _ _) as [tasks q] eqn:Hd. apply dequeue_contents in Hd as [Hq _].
  rewrite Hq in HF. apply Forall_app in HF as [HF _].
  destruct (submit_tasks_returns cache tasks (mkScheduler r i q) false HF) as [[s1 any] E]. rewrite E. cbn. eauto.
Qed.

Lemma sched_run_total cache events s ts :
  in_flight cache s ts → Forall (task_ok cache) (open_tasks s ts ++ enqueued events) →
  (∃ p, run cache s events = Ret p) ∨
  run cache s events = AssertFail "Short read" ∧ may_fall_short cache (open_tasks s ts ++ enqueued events).
Proof.
  revert s ts. induction events as [|[t| |] rest IH]; intros s ts Hf HF; cbn [run]; [eauto| | |].
  - assert (HP : open_tasks (Enqueue s t) ts ++ enqueued rest ≡ₚ open_tasks s ts ++ enqueued (Arrive t :: rest)).
    { unfold open_tasks, Enqueue. cbn [queue_ enqueued omap list_omap]. fold (enqueued rest). rewrite enqueue_contents, <- !app_assoc.
      f_equiv. cbn [app]. by rewrite <- Permutation_middle. }
    rewrite <- HP in HF. destruct (IH (Enqueue s t) ts Hf HF) as [?|[E Hs]]; [by left|right]. split; [done|].
    revert Hs. apply short_mono. intros u Hu. by rewrite <- HP.
  - cbn [enqueued omap list_omap] in HF |- *. fold (enqueued rest) in HF |- *.
    destruct (sched_round_total cache s ts Hf) as [[[l s1] E]|[E Hs]].
    { unfold open_tasks in HF. rewrite !Forall_app in HF. naive_solver. }
    + rewrite E. cbn. destruct (sched_round_inv _ _ _ _ _ Hf E) as (fin & ts1 & _ & _ & HQ & Hf1).
      destruct (IH s1 ts1 Hf1) as [[[l1 s2] E1]|[E1 Hs]].
      { rewrite HQ, !Forall_app in HF. rewrite Forall_app. naive_solver. }
      * rewrite E1. cbn. eauto.
      * rewrite E1. right. split; [done|]. revert Hs. apply short_mono.
        intros u [Hu|Hu]%elem_of_app; apply elem_of_app; [left|by right]. rewrite HQ. apply elem_of_app. by right.
    + rewrite E. right. split; [done|]. revert Hs. apply short_mono. intros u Hu. apply elem_of_app. left. apply elem_of_app. by right.
  - by apply (IH (mkScheduler (elapse (io_ s)) (inflight_ s) (queue_ s)) ts), HF; apply in_flight_elapse.
Qed.
End Results.

Lemma in_flight_make cache (r : ring) (q : queue) : pending r = [] → in_flight cache (make r q) [].
Proof. intros E. split; [unfold make; cbn; by rewrite E|]. done. Qed.

(** C26: in every interleaving of the scheduler's thread with the threads that
    enqueue tasks and with the device, each enqueued task is, at any time, exactly one of: signalled
    to its page, queued, or in the ring, where the request is the one of the
    task (its file, its page's offset, its frame); [inflight_] counts the latter
    exactly and stays within the depth of the ring, and a full ring loses
    nothing. *)
Theorem scheduler_conserves cache r q events l s' :
  pending r = [] → contents q = [] → run cache (make r q) events = Ret (l, s') →
  ∃ finished ts, map page finished = l ∧
    enqueued events ≡ₚ finished ++ contents (queue_ s') ++ ts ∧
    pending (io_ s') ≡ₚ map (task_request cache) ts ∧
    inflight_ s' = Z.of_nat (length ts) ∧ Z.of_nat (length ts) ≤ max_inflight_.
Proof.
  intros Hr Hq E.
  destruct (sched_run_inv (λ _ _, True) _ _ _ _ _ _ (in_flight_make cache r q Hr) E) as (fin & ts & Hl & _ & HQ & Hf).
  exists fin, ts. split; [done|]. split; [|done].
  revert HQ. unfold open_tasks, make. cbn [queue_]. by rewrite Hq.
Qed.

(** A schedule of tasks whose frames are aligned and whose files are open
    never stops the scheduler's thread: every loop of [Run] ends, none of the
    assertions of [SubmitRead], [SubmitWrite] or [FdCache] fires, provided that
    the device transfers whole pages. *)
Theorem scheduler_runs cache r q events :
  (∀ (r : ring) data res r', peek r = Some (data, res, r') → res = DB7_PAGE_SIZE) →
  pending r = [] → contents q = [] → Forall (task_ok cache) (enqueued events) →
  ∃ l s', run cache (make r q) events = Ret (l, s').
Proof.
  intros Hw Hr Hq HF. assert (IoResults ring (λ _ res, res = DB7_PAGE_SIZE)).
  { intros x data res x' Hk. pose proof (Hw _ _ _ _ Hk) as ->. apply peek_pending in Hk as (p & ? & ?). by exists p. }
  destruct (sched_run_total (λ _ res, res = DB7_PAGE_SIZE) cache events (make r q) [] (in_flight_make cache r q Hr))
    as [[[l s'] E]|[_ (t & res & _ & E & Hne)]]; [|eauto|done].
  unfold open_tasks, make. cbn [queue_]. by rewrite Hq.
Qed.
End Scheduler.

(** ** Offsets *)

(** [SubmitPending] computes a page's offset in 32 bits: pages 1 to 2^19 of a
    table get their place in its file, inside the first 4 GiB; beyond, two pages
    of a table share an offset exactly when their numbers agree modulo 2^19. *)
Theorem page_offsets t u :
  1 ≤ pid (id t) < 2 ^ 32 → 1 ≤ pid (id u) < 2 ^ 32 →
  (pid (id t) ≤ 2 ^ 19 → task_offset t = (pid (id t) - 1) * DB7_PAGE_SIZE ∧ task_offset t + DB7_PAGE_SIZE ≤ 2 ^ 32) ∧
  (task_offset t = task_offset u ↔ pid (id t) mod 2 ^ 19 = pid (id u) mod 2 ^ 19).
Proof.
  intros Ht Hu. unfold task_offset. rewrite !(wrap_small 32 (_ - 1)) by lia. unfold DB7_PAGE_SIZE. split.
  - intros Hle. rewrite wrap_small by lia. lia.
  - unfold wrap. replace (2 ^ 32) with (2 ^ 19 * 8192) by reflexivity. rewrite !Z.mul_mod_distr_r by done.
    split; intros E.
    + assert ((pid (id t) - 1) mod 2 ^ 19 = (pid (id u) - 1) mod 2 ^ 19) as E1 by lia.
      replace (pid (id t)) with (pid (id t) - 1 + 1) by lia. replace (pid (id u)) with (pid (id u) - 1 + 1) by lia.
      by rewrite <- Z.add_mod_idemp_l, E1, Z.add_mod_idemp_l.
    + by rewrite <- Zminus_mod_idemp_l, E, Zminus_mod_idemp_l.
Qed.

(** ** The table files *)
Section Files.
Context {os : Type} `{FileSystem os}.

Lemma FdCache_get_set cache i e cache' : FdCache.Set_ cache i e = Ret cache' → cache' = <[i := e]> cache ∧ i < FdCache.MAX_OPEN_FILES.
Proof. unfold FdCache.Set_. destruct (Z.ltb_spec i FdCache.MAX_OPEN_FILES); cbn; [by intros [= <-]|done]. Qed.

Lemma FdCache_get cache i : i < FdCache.MAX_OPEN_FILES → FdCache.Get cache i = Ret (default FdCache.empty_entry (cache !! i)).
Proof. intros. unfold FdCache.Get. by rewrite (proj2 (Z.ltb_lt _ _)). Qed.

(** [CreateTable] opens a file once: while a table's file is open a second
    [CreateTable] throws; a creation that returns caches an open file with the
    requested pages and no other entry changes; [ExtendFile] adds to the page
    count; after [DropTable] the entry is that of a closed file. *)
Theorem table_files_correct (d d' : DiskManagerAsync (os := os)) tbl_id initial_pages b :
  CreateTable d tbl_id initial_pages = Ret (b, d') →
  (∀ n, CreateTable d' tbl_id n = Throw "File already exists") ∧
  PageCount d' tbl_id = Ret initial_pages ∧
  (∀ u, u ≠ tbl_id → cache_ d' !! u = cache_ d !! u) ∧
  (∀ n b' d'', ExtendFile d' tbl_id n = Ret (b', d'') → PageCount d'' tbl_id = Ret (to_u32 (initial_pages + n))) ∧
  (∀ b' d'', DropTable d' tbl_id = Ret (b', d'') → FdCache.Get (cache_ d'') tbl_id = Ret FdCache.empty_entry).
Proof.
  unfold CreateTable at 1. intros E. apply bind_inv in E as (hdr & E1 & E).
  destruct (negb _); [done|]. apply bind_inv in E as (path & E2 & E).
  destruct (open_ (sys d) path true) as [fd s]. destruct (Z.ltb_spec fd 0) as [|Hfd]; [done|].
  apply bind_inv in E as (cache & E3 & E). apply FdCache_get_set in E3 as [-> Ht].
  destruct (fallocate _ _ _ _) as [ret s']. apply bind_inv in E as (_ & _ & [= _ <-]).
  unfold PageCount, CreateTable, ExtendFile, DropTable, FdCache.Invalidate. cbn [cache_].
  rewrite (FdCache_get (<[tbl_id := _]> _)), lookup_insert_eq by done. cbn [default from_option Datatypes.id].
  rewrite !bind_Ret. cbn [FdCache.fd FdCache.page_count].
  split; [|split; [|split; [|split]]].
  - intros n. rewrite bind_Ret. cbn [FdCache.fd].
    by rewrite (proj2 (Z.eqb_neq fd (-1))) by lia.
  - done.
  - intros u Hu. by rewrite lookup_insert_ne.
  - intros n b2 d2 E. rewrite bind_Ret in E. cbn [FdCache.fd FdCache.page_count] in E. apply bind_inv in E as (? & _ & E). destruct (fallocate _ _ _ _) as [r2 s2].
    apply bind_inv in E as (? & _ & E). apply bind_inv in E as (cache & E3 & [= _ <-]).
    apply FdCache_get_set in E3 as [-> _]. cbn [cache_]. by rewrite FdCache_get, lookup_insert_eq by done.
  - intros b2 d2 E. apply bind_inv in E as ([h c] & E1' & E). apply bind_inv in E1' as (? & _ & [= <- <-]).
    apply bind_inv in E as (? & _ & E). apply bind_inv in E as (p & ? & [= _ <-]). cbn [cache_].
    by rewrite FdCache_get, lookup_insert_eq by done.
Qed.
End Files.

(** ** Instances: lists *)

(** A ring of two entries whose requests complete in order. *)
#[local] Instance list_ring : IoUring (list request) := {
  prepare r q := if (length r <? 2)%nat then Some (r ++ [q]) else None;
  submit r := r;
  peek r := match r with [] => None | q :: r => Some (rq_data q, rq_len q, r) end;
  pending r := r;
  elapse r := r
}.

#[local] Instance list_ring_laws : IoUringLaws (list request).
Proof.
  split.
  - intros r q r'. unfold prepare, pending, list_ring. destruct (length r <? 2)%nat; [|done]. intros [= <-]. by rewrite Permutation_app_comm.
  - done.
  - cbn; intros [|q r] data res r'; [done|]. intros [= <- _ <-]. by exists q.
  - done.
Qed.

#[export] Instance list_queue : ConcurrentQueue IoTask (list IoTask) := {
  try_dequeue_bulk q n := (take n q, drop n q);
  enqueue_bulk q l := q ++ l;
  contents q := q
}.

#[export] Instance list_queue_laws : ConcurrentQueueLaws IoTask (list IoTask).
Proof.
  split; cbn; [|done]. intros q n l q' [= <- <-]. split; [by rewrite take_drop|]. rewrite length_take. lia.
Qed.

(** A file system with the files opened so far. *)
#[local] Instance list_files : FileSystem (list string) := {
  open_ s path create := (3 + Z.of_nat (length s), path :: s);
  st_size s fd := 3 * DB7_PAGE_SIZE;
  fallocate s fd off len := (0, s);
  access_ s path := existsb (String.eqb path) s;
  close s fd := s;
  unlink s path := filter (λ p, p ≠ path) s
}.

Definition demo_tasks : list IoTask :=
  [mkTask READ HIGH 111 8192 (mkPageIdentifier 4 1); mkTask READ HIGH 222 16384 (mkPageIdentifier 4 2);
   mkTask READ HIGH 333 24576 (mkPageIdentifier 4 524289)].
Definition demo_cache : FdCache.state := {[ 4 := FdCache.mkEntry 7 3 ]}.
Definition demo_events : list event := map Arrive demo_tasks ++ [Iterate; Elapse; Iterate].

Lemma scheduler_conserves_witness :
  ∃ s' : DiskScheduler (list request) (list IoTask), run demo_cache (make [] []) demo_events = Ret ([111; 222], s') ∧
  ∃ finished ts, map page finished = [111; 222] ∧
    enqueued demo_events ≡ₚ finished ++ contents (queue_ s') ++ ts ∧
    pending (io_ s') ≡ₚ map (task_request demo_cache) ts ∧
    inflight_ s' = Z.of_nat (length ts) ∧ Z.of_nat (length ts) ≤ max_inflight_.
Proof.
  eexists. split; [vm_compute; reflexivity|].
  apply (scheduler_conserves demo_cache [] [] demo_events); vm_compute; reflexivity.
Defined.

Section WholePages.
(** The ring of lists as a device that transfers whole pages. *)
#[local] Instance page_ring : IoUring (list request) := {
  prepare := @prepare _ list_ring; submit r := r; pending r := r; elapse r := r;
  peek r := match r with [] => None | q :: r => Some (rq_data q, DB7_PAGE_SIZE, r) end
}.

#[local] Instance page_ring_laws : IoUringLaws (list request).
Proof.
  split; [apply (@prepare_pending _ list_ring); apply list_ring_laws|done| |done].
  intros [|q r] data res r'; [done|]. intros [= <- _ <-]. by exists q.
Qed.

Lemma scheduler_runs_witness :
  ∃ l s', run demo_cache (make ([] : list request) ([] : list IoTask)) demo_events = Ret (l, s').
Proof.
  apply (scheduler_runs demo_cache [] [] demo_events); [|reflexivity|reflexivity|].
  - intros [|q r] data res r'; cbn; [done|]. congruence.
  - repeat (constructor; [split; [|split]; vm_compute; congruence|]). constructor.
Defined.
End WholePages.

Lemma page_offsets_witness :
  let t := mkTask READ HIGH 0 0 (mkPageIdentifier 4 1) in let u := mkTask READ HIGH 0 0 (mkPageIdentifier 4 524289) in
  (pid (id t) ≤ 2 ^ 19 → task_offset t = (pid (id t) - 1) * DB7_PAGE_SIZE ∧ task_offset t + DB7_PAGE_SIZE ≤ 2 ^ 32) ∧
  (task_offset t = task_offset u ↔ pid (id t) mod 2 ^ 19 = pid (id u) mod 2 ^ 19).
Proof. apply page_offsets; cbn; lia. Defined.

Lemma table_files_correct_witness :
  ∃ d', CreateTable (mkDisk "db" ∅ ([] : list string)) 4 3 = Ret (true, d') ∧ PageCount d' 4 = Ret 3 ∧
    CreateTable d' 4 5 = Throw "File already exists".
Proof.
  eexists. split; [vm_compute; reflexivity|].
  destruct (table_files_correct (mkDisk "db" ∅ ([] : list string)) (mkDisk "db" {[ 4 := FdCache.mkEntry 3 3 ]} ["db/table_4.db"]%string) 4 3 true)
    as (H1 & H2 & _); [vm_compute; reflexivity|]. split; [exact H2|exact (H1 5)].
Defined.
