(* ===== verification/DiskLiveness.v ===== *)
(** * Every request of the disk scheduler is completed

    A device that finishes what was submitted to it, and a scheduler whose
    iterations and the device's progress alternate: every enqueued task is
    signalled after finitely many iterations. *)

From stdpp Require Import base list.
From S2P Require Import Prelude Bytes Shared Memory Disk DiskTheorems.

Import DiskManagerAsync DiskScheduler.

(** ** The device *)

(** [settled r]: every prepared request has been submitted.  [delay r]: how much
    the device has to do before the next completion. *)
Class IoDevice (ring : Type) `{IoUring ring} := {
  settled : ring → Prop;
  delay : ring → nat
}.

(** A ring without requests takes one; taking a completion and waiting leave a
    settled ring so; a completion stays until it is taken; a device with submitted
    requests comes closer to a completion. *)
Class IoDeviceLaws (ring : Type) `{IoDevice ring} := {
  prepare_room r q : pending r = [] → is_Some (prepare r q);
  peek_settled r data result r' : peek r = Some (data, result, r') → settled r → settled r';
  elapse_settled r : settled r → settled (elapse r);
  elapse_ready r : is_Some (peek r) → is_Some (peek (elapse r));
  elapse_progress r : settled r → pending r ≠ [] → peek r = None → (delay (elapse r) < delay r)%nat
}.

(** [io_uring_submit] takes every prepared request.  It can fail and take fewer;
    the scheduler does not look at its result. *)
Definition submissions_succeed (ring : Type) `{IoDevice ring} : Prop := ∀ r : ring, settled (submit r).

(** A queue that holds something gives something. *)
Class QueueProgress (task queue : Type) `{ConcurrentQueue task queue} :=
  dequeue_progress q n : contents q ≠ [] → (0 < n)%nat → (try_dequeue_bulk q n).1 ≠ [].

Section Liveness.
Context {ring queue : Type} `{IoDevice ring} `{ConcurrentQueue IoTask queue}.
Context `{!IoUringLaws ring} `{!IoDeviceLaws ring} `{!ConcurrentQueueLaws IoTask queue} `{!QueueProgress IoTask queue}.
Context (transfers : request → Z → Prop) `{!IoResults ring transfers}.
Hypothesis submit_settled : submissions_succeed ring.

Abbreviation DiskScheduler := (DiskScheduler ring queue).
Abbreviation queued s := (length (contents (queue_ s))).

(** ** One iteration *)
Lemma reap_progress cb fuel (r : ring) reaped m l r' :
  reap cb fuel r reaped m = Ret (l, r') → settled r → settled r' ∧ (l = [] → r' = r ∧ peek r = None).
Proof.
  revert r reaped l. induction fuel as [|fuel IH]; intros r reaped l; cbn [reap]; [done|].
  destruct (peek r) as [[[data res] r1]|] eqn:Hk; [|by intros [= <- <-]].
  intros E Hs. apply bind_inv in E as (_ & _ & E). apply peek_settled in Hk; [|done]. destruct (_ <=? _).
  - by injection E as <- <-.
  - apply bind_inv in E as ([l1 r2] & E1 & [= <- <-]). by destruct (IH _ _ _ E1 Hk).
Qed.

Lemma drain_progress (s : DiskScheduler) l s' ts cache :
  DrainCompletions s = Ret (l, s') → settled (io_ s) → in_flight cache s ts →
  settled (io_ s') ∧ queue_ s' = queue_ s ∧ (l = [] → s' = s ∧ peek (io_ s) = None).
Proof.
  unfold DrainCompletions, ReapCompletions. intros E Hs (HP & Hi & Hle). destruct (Z.ltb_spec 0 (inflight_ s)) as [Hp|Hz].
  - apply bind_inv in E as ([l1 r] & E1 & [= <- <-]). destruct (reap_progress _ _ _ _ _ _ _ E1 Hs) as [Hs1 Hn].
    cbn [io_ queue_]. split; [done|]. split; [done|]. intros ->. destruct (Hn eq_refl) as [-> Hk]. split; [|done].
    destruct s as [io i q]. cbn [inflight_ io_ queue_ length] in *. f_equal.
    unfold max_inflight_, IOURING_QUEUE_SIZE in Hle. rewrite wrap_small; lia.
  - injection E as <- <-. split; [done|]. split; [done|]. intros _. split; [done|].
    destruct ts; [|cbn in Hi; lia]. destruct (peek (io_ s)) as [[[? ?] ?]|] eqn:Hk; [|done].
    apply peek_pending in Hk as (q & _ & Hq). rewrite HP in Hq. by apply Permutation_nil_cons in Hq.
Qed.

(** What the loop leaves: nothing was submitted and the tasks are back in the
    queue, or fewer tasks are queued. *)
Lemma submit_tasks_progress cache tasks (s : DiskScheduler) any s' any' :
  submit_tasks cache s tasks any = Ret (s', any') →
  (io_ s' = io_ s ∧ any' = any ∧ queued s' = (queued s + length tasks)%nat ∧ (pending (io_ s) = [] → tasks = [])) ∨
  (any' = true ∧ (queued s' < queued s + length tasks)%nat).
Proof.
  revert s any. induction tasks as [|t rest IH]; intros s any; cbn [submit_tasks length].
  - intros [= <- <-]. left. split_and!; [done|done|lia|done].
  - intros E. apply bind_inv in E as ([ok r] & E1 & E). apply submit_task_inv in E1. destruct ok.
    + right. apply IH in E as [(_ & -> & -> & _)|(-> & Hl)]; cbn [queue_] in *; (split; [done|lia]).
    + destruct E1 as [-> Hp]. injection E as <- <-. left. cbn [io_ queue_]. split_and!; [done|done| |].
      * pose proof (Permutation_length (enqueue_contents (queue_ s) (t :: rest))) as ->. by rewrite length_app.
      * intros He. destruct (prepare_room (io_ s) (task_request cache t) He) as [? E]. congruence.
Qed.

Lemma SubmitPending_progress cache (s s' : DiskScheduler) ts :
  SubmitPending cache s = Ret s' → settled (io_ s) → in_flight cache s ts →
  settled (io_ s') ∧ ((queued s' < queued s)%nat ∨ (io_ s' = io_ s ∧ queued s' = queued s ∧ (ts = [] → contents (queue_ s) = []))).
Proof.
  unfold SubmitPending. intros E Hs (HP & Hi & Hle). set (slots := Z.min _ _) in E.
  assert (Hslots : slots = Z.min 512 (512 - Z.of_nat (length ts))).
  { subst slots. unfold max_inflight_, IOURING_QUEUE_SIZE in *. rewrite Hi, wrap_small; lia. }
  destruct (Z.eqb_spec slots 0) as [Hz|Hz].
  { injection E as <-. split; [done|]. right. split_and!; [done|done|]. intros ->. cbn in Hslots. lia. }
  destruct (try_dequeue_bulk (queue_ s) (Z.to_nat slots)) as [tasks q] eqn:Hd.
  pose proof (dequeue_contents _ _ _ _ Hd) as [Hc _]. apply Permutation_length in Hc. rewrite length_app in Hc.
  apply bind_inv in E as ([s1 any] & E1 & [= <-]).
  apply submit_tasks_progress in E1 as [(Hio & -> & Hq & Ht)|(-> & Hq)]; cbn [io_ queue_] in *.
  - split; [by rewrite Hio|]. right. split_and!; [done|lia|]. intros ->. destruct (decide (contents (queue_ s) = [])) as [|Hne]; [done|].
    apply (dequeue_progress _ (Z.to_nat slots)) in Hne; [|cbn in *; unfold max_inflight_, IOURING_QUEUE_SIZE in *; lia].
    rewrite Hd in Hne. cbn in Hne. destruct Hne. apply Ht. by apply Permutation_nil_r.
  - split; [apply submit_settled|]. left. lia.
Qed.

(** ** The schedule *)

(** The device, then the scheduler. *)
Definition cycle (k : nat) : list event := repeat Elapse k ++ [Iterate].

Fixpoint cycles (ks : nat → nat) (n : nat) : list event :=
  match n with
  | O => []
  | S n => cycle (ks 0%nat) ++ cycles (λ i, ks (S i)) n
  end.

Lemma cycles_enqueued ks n : enqueued (cycles ks n) = [].
Proof.
  revert ks. induction n as [|n IH]; intros ks; [done|]. cbn [cycles]. unfold cycle, enqueued in *. rewrite !omap_app, IH, app_nil_r.
  rewrite app_nil_r. induction (ks 0%nat); done.
Qed.

(** The scheduler after [k] steps of the device. *)
Definition wait (k : nat) (s : DiskScheduler) : DiskScheduler := mkScheduler (Nat.iter k elapse (io_ s)) (inflight_ s) (queue_ s).

Lemma sched_run_wait cache k (s : DiskScheduler) events : run cache s (repeat Elapse k ++ events) = run cache (wait k s) events.
Proof.
  revert s. induction k as [|k IH]; intros s; cbn [repeat app run]; [by destruct s|]. rewrite IH. unfold wait. cbn [io_ inflight_ queue_].
  by rewrite Nat.iter_succ_r.
Qed.

Lemma iter_progress k (r : ring) :
  settled r → pending r ≠ [] → (0 < k)%nat →
  settled (Nat.iter k elapse r) ∧ pending (Nat.iter k elapse r) ≡ₚ pending r ∧
  (peek (Nat.iter k elapse r) = None → (delay (Nat.iter k elapse r) < delay r)%nat).
Proof.
  intros Hs Hp Hk. destruct k as [|k]; [lia|]. clear Hk.
  assert (Hall : settled (Nat.iter (S k) elapse r) ∧ pending (Nat.iter (S k) elapse r) ≡ₚ pending r ∧
    (peek (Nat.iter (S k) elapse r) = None → peek r = None ∧ (delay (Nat.iter (S k) elapse r) < delay r)%nat)); [|naive_solver].
  assert (Hstep : ∀ x, settled x → pending x ≠ [] →
    settled (elapse x) ∧ pending (elapse x) ≡ₚ pending x ∧ (peek (elapse x) = None → peek x = None ∧ (delay (elapse x) < delay x)%nat)).
  { intros x Hx Hpx. split; [by apply elapse_settled|]. split; [apply elapse_pending|]. intros Hn.
    assert (Hn' : peek x = None).
    { destruct (peek x) eqn:E; [|done]. destruct (elapse_ready x) as [? E']; [eauto|congruence]. }
    split; [done|]. by apply elapse_progress. }
  induction k as [|k IH]; [by apply Hstep|]. destruct IH as (I1 & I2 & I3).
  change (Nat.iter (S (S k)) elapse r) with (elapse (Nat.iter (S k) elapse r)). set (x := Nat.iter (S k) elapse r) in *.
  destruct (Hstep x I1) as (S1 & S2 & S3).
  { intros E. rewrite E in I2. by apply Permutation_nil_l in I2. }
  split; [done|]. split; [by rewrite S2|]. intros Hn. destruct (S3 Hn) as [Hx Hd]. destruct (I3 Hx). split; [done|lia].
Qed.

Lemma in_flight_wait cache k (s : DiskScheduler) ts : in_flight cache s ts → in_flight cache (wait k s) ts.
Proof.
  intros (HP & Hi & Hle). split; [|done]. unfold wait. cbn [io_]. rewrite <- HP. clear HP Hi Hle.
  induction k as [|k IH]; [done|]. cbn [Nat.iter nat_rect]. by rewrite elapse_pending.
Qed.

Lemma iter_settled k (r : ring) : settled r → settled (Nat.iter k elapse r).
Proof. induction k as [|k IH]; intros Hs; [done|]. by apply elapse_settled, IH. Qed.

(** One turn completes a task, submits one, or brings the device closer to a
    completion, unless nothing is left to do. *)
Lemma turn_progress cache k (s : DiskScheduler) ts l s' :
  in_flight cache s ts → settled (io_ s) → (0 < k)%nat → round cache (wait k s) = Ret (l, s') → open_tasks s ts ≠ [] →
  settled (io_ s') ∧ (l ≠ [] ∨ (queued s' < queued s)%nat ∨ (queued s' = queued s ∧ (delay (io_ s') < delay (io_ s))%nat)).
Proof.
  intros Hf Hs Hk E Hne. pose proof (in_flight_wait cache k s ts Hf) as Hfw.
  pose proof (iter_settled k (io_ s) Hs) as Hsw. apply bind_inv in E as ([l1 s1] & E1 & E).
  apply bind_inv in E as (s2 & E2 & [= <- <-]). pose proof (drain_tasks transfers _ _ _ _ _ Hfw E1) as (fin & ts1 & Hfin & _ & Hop & Hf1).
  destruct (drain_progress (wait k s) l1 s1 ts cache E1 Hsw Hfw) as (Hs1 & Hq & Hl).
  destruct (SubmitPending_progress cache s1 s2 ts1 E2 Hs1 Hf1) as [Hs2 Hp]. split; [done|].
  destruct (decide (l1 = [])) as [Hl1|]; [right|by left]. destruct (Hl Hl1) as [-> Hpk]. unfold wait in Hp. cbn [queue_ io_] in Hp.
  destruct Hp as [|(Hio & Hql & Hcont)]; [by left|right]. split; [done|]. rewrite Hio.
  apply (iter_progress k (io_ s) Hs); [|done|exact Hpk]. intros Hpend. destruct Hf as (HP & _). rewrite Hpend in HP.
  symmetry in HP. apply Permutation_nil_r, map_eq_nil in HP as ->. destruct fin; [|by rewrite <- Hfin in Hl1]. cbn [app] in Hop.
  apply Hne. destruct Hfw as (HPw & Hi & _), Hf1 as (HP1 & Hi1 & _). rewrite Hi in Hi1. destruct ts1; [|done].
  unfold open_tasks. by rewrite Hcont.
Qed.

Section Completion.
Context (cache : FdCache.state).

(** Nothing is queued, in the ring or counted. *)
Definition idle (s : DiskScheduler) : Prop := contents (queue_ s) = [] ∧ pending (io_ s) = [] ∧ inflight_ s = 0.

Lemma cycles_complete o c d (s : DiskScheduler) ts ks :
  length (open_tasks s ts) = o → queued s = c → delay (io_ s) = d →
  in_flight cache s ts → settled (io_ s) → Forall (task_ok cache) (open_tasks s ts) → (∀ i, (0 < ks i)%nat) →
  ∃ n, (∃ l s', run cache s (cycles ks n) = Ret (l, s') ∧ idle s') ∨
    run cache s (cycles ks n) = AssertFail "Short read" ∧ may_fall_short transfers cache (open_tasks s ts).
Proof.
  revert c d s ts ks. induction o as [o IHo] using lt_wf_ind. induction c as [c IHc] using lt_wf_ind.
  induction d as [d IHd] using lt_wf_ind. intros s ts ks Ho Hc Hd Hf Hs HF Hks.
  destruct (decide (open_tasks s ts = [])) as [He|Hne].
  { exists 0%nat. left. exists [], s. split; [done|]. unfold open_tasks in He. apply app_eq_nil in He as [Hq ->].
    destruct Hf as (HP & Hi & _). split; [done|]. split; [|done]. by apply Permutation_nil_r. }
  assert (HFq : Forall (task_ok cache) (contents (queue_ (wait (ks 0%nat) s)))).
  { unfold open_tasks in HF. by apply Forall_app in HF as [HF _]. }
  assert (Hstep : ∀ n, run cache s (cycles ks (S n)) = '(l, s1) ← round cache (wait (ks 0%nat) s);
    '(l', s2) ← run cache s1 (cycles (λ i, ks (S i)) n); Ret (l ++ l', s2)).
  { intros n. cbn [cycles]. unfold cycle. by rewrite <- app_assoc, sched_run_wait. }
  destruct (sched_round_total transfers cache (wait (ks 0%nat) s) ts (in_flight_wait cache (ks 0%nat) s ts Hf) HFq) as [[[l1 s1] E1]|[E1 Hsh]].
  2: { exists 1%nat. right. rewrite Hstep, E1. split; [done|]. revert Hsh. apply short_mono. intros u Hu. apply elem_of_app. by right. }
  destruct (sched_round_inv transfers _ _ _ _ _ (in_flight_wait cache (ks 0%nat) s ts Hf) E1) as (fin & ts1 & Hfin & _ & Hop & Hf1).
  change (open_tasks (wait (ks 0%nat) s) ts) with (open_tasks s ts) in Hop.
  destruct (turn_progress cache (ks 0%nat) s ts l1 s1 Hf Hs (Hks 0%nat) E1 Hne) as [Hs1 Hprog].
  assert (HF1 : Forall (task_ok cache) (open_tasks s1 ts1)) by (rewrite Hop in HF; by apply Forall_app in HF as [_ HF]).
  assert (Hnext : ∃ n, (∃ l s', run cache s1 (cycles (λ i, ks (S i)) n) = Ret (l, s') ∧ idle s') ∨
    run cache s1 (cycles (λ i, ks (S i)) n) = AssertFail "Short read" ∧ may_fall_short transfers cache (open_tasks s1 ts1)).
  { pose proof (Permutation_length Hop) as Hlen. rewrite length_app in Hlen.
    assert (Hl1 : length fin = length l1) by (rewrite <- Hfin; by rewrite length_map).
    assert (Hle : (length (open_tasks s1 ts1) < o ∨ length (open_tasks s1 ts1) = o ∧ l1 = [])%nat).
    { destruct l1; [right|left]; cbn in Hl1; [|lia]. split; [lia|done]. }
    destruct Hle as [Hlt|[Heq ->]]; [by apply (IHo _ Hlt (queued s1) (delay (io_ s1)) s1 ts1)|].
    destruct Hprog as [|[Hlt|[Hqe Hlt]]]; [done| |].
    - rewrite Hc in Hlt. by apply (IHc _ Hlt (delay (io_ s1)) s1 ts1).
    - rewrite Hd in Hlt. rewrite Hc in Hqe. by apply (IHd _ Hlt s1 ts1). }
  destruct Hnext as (n & [(l & s' & E & Hidle)|[E Hsh]]); exists (S n); rewrite Hstep, E1, bind_Ret, E.
  - left. by exists (l1 ++ l), s'.
  - right. split; [done|]. revert Hsh. apply short_mono. intros u Hu. rewrite Hop. apply elem_of_app. by right.
Qed.

Lemma sched_run_app (s : DiskScheduler) a b :
  run cache s (a ++ b) = ('(l, s1) ← run cache s a; '(l', s2) ← run cache s1 b; Ret (l ++ l', s2)).
Proof.
  revert s. induction a as [|[t| |] a IH]; intros s; cbn [app run]; [|done| |done].
  - rewrite bind_Ret. by destruct (run cache s b) as [[]| | | |].
  - destruct (round cache s) as [[l1 s1]| | | |]; [|done..]. rewrite !bind_Ret, IH.
    destruct (run cache s1 a) as [[l2 s2]| | | |]; [|done..]. rewrite !bind_Ret.
    destruct (run cache s2 b) as [[l3 s3]| | | |]; [|done..]. by rewrite !bind_Ret, app_assoc.
Qed.

Lemma sched_run_settled events (s : DiskScheduler) l s' ts :
  run cache s events = Ret (l, s') → in_flight cache s ts → settled (io_ s) → settled (io_ s').
Proof.
  revert s l ts. induction events as [|[t| |] rest IH]; intros s l ts; cbn [run].
  - by intros [= _ <-].
  - intros E Hf Hs. by apply (IH _ _ ts E).
  - intros E Hf Hs. apply bind_inv in E as ([l1 s1] & E1 & E). apply bind_inv in E as ([l2 s2] & E2 & [= _ <-]).
    destruct (sched_round_inv transfers _ _ _ _ _ Hf E1) as (fin & ts1 & _ & _ & _ & Hf1).
    apply (IH _ _ ts1 E2 Hf1). apply bind_inv in E1 as ([l3 s3] & E3 & E1). apply bind_inv in E1 as (s4 & E4 & [= _ <-]).
    destruct (drain_progress s l3 s3 ts cache E3 Hs Hf) as [Hs3 _], (drain_tasks transfers _ _ _ _ _ Hf E3) as (fin3 & ts3 & _ & _ & _ & Hf3).
    by destruct (SubmitPending_progress cache s3 s4 ts3 E4 Hs3 Hf3).
  - intros E Hf Hs. apply (IH _ _ ts E); [by apply in_flight_elapse|by apply elapse_settled].
Qed.

(** C27: whatever the threads enqueued and however far the scheduler and the
    device got, if from then on the device works between any two iterations of
    the scheduler, and submissions succeed, then after finitely many iterations
    one of two things has happened.  Either every enqueued task has been signalled
    to its page exactly once, each with a whole page transferred, the queue and the
    ring are empty and [inflight_] is zero; or the program has ended in the
    assertion "Short read", and the request of some enqueued task - a page past the
    end of its file, an error - could complete with something else than a whole
    page ([transfers]). *)
Theorem scheduler_completes r q events ks :
  pending r = [] → settled r → contents q = [] → Forall (task_ok cache) (enqueued events) → (∀ i, (0 < ks i)%nat) →
  ∃ n,
    (∃ l s', run cache (make r q) (events ++ cycles ks n) = Ret (l, s') ∧ idle s' ∧ l ≡ₚ map page (enqueued events) ∧
       Forall (λ t, transfers (task_request cache t) DB7_PAGE_SIZE) (enqueued events)) ∨
    (run cache (make r q) (events ++ cycles ks n) = AssertFail "Short read" ∧
       ∃ t res, t ∈ enqueued events ∧ transfers (task_request cache t) res ∧ res ≠ DB7_PAGE_SIZE).
Proof.
  intros Hr Hst Hq HF Hks. pose proof (in_flight_make cache r q Hr) as Hf0.
  assert (E0 : open_tasks (make r q) [] ++ enqueued events = enqueued events) by (unfold open_tasks, make; cbn [queue_]; by rewrite Hq).
  assert (HF0 : Forall (task_ok cache) (open_tasks (make r q) [] ++ enqueued events)) by by rewrite E0.
  destruct (sched_run_total transfers cache events (make r q) [] Hf0 HF0) as [[[l1 s1] E1]|[E1 Hsh]].
  2: { exists 0%nat. right. rewrite sched_run_app, E1. split; [done|]. by rewrite E0 in Hsh. }
  destruct (sched_run_inv transfers _ _ _ _ _ _ Hf0 E1) as (fin & ts & Hfin & Hw1 & Hop & Hf1). rewrite E0 in HF0, Hop.
  assert (HF1 : Forall (task_ok cache) (open_tasks s1 ts)) by (rewrite Hop in HF0; by apply Forall_app in HF0 as [_ ?]).
  destruct (cycles_complete _ _ _ s1 ts ks eq_refl eq_refl eq_refl Hf1 (sched_run_settled _ _ _ _ _ E1 Hf0 Hst) HF1 Hks)
    as (n & [(l2 & s2 & E2 & Hidle)|[E2 Hsh]]); exists n; rewrite sched_run_app, E1, bind_Ret, E2.
  - left. exists (l1 ++ l2), s2. split; [done|]. split; [done|].
    destruct (sched_run_inv transfers _ _ _ _ _ _ Hf1 E2) as (fin2 & ts2 & Hfin2 & Hw2 & Hop2 & Hf2). destruct Hidle as (I1 & I2 & I3).
    destruct Hf2 as (_ & Hi2 & _). rewrite I3 in Hi2. destruct ts2; [|done]. unfold open_tasks at 2 in Hop2.
    rewrite I1, cycles_enqueued, !app_nil_r in Hop2. rewrite Hop, Hop2, map_app, Hfin, Hfin2. split; [done|].
    apply Forall_app. by split.
  - right. split; [done|]. destruct Hsh as (t & res & Ht & Hs). exists t, res. split; [|done]. rewrite Hop. apply elem_of_app. by right.
Qed.
End Completion.
End Liveness.

(** ** A device with latency *)

(** The pages the file of a descriptor has, and what reading or writing a page
    at an offset transfers (the writes of the scheduler extend no file here). *)
Definition transferred (pages : Z) (q : request) : Z :=
  Z.max 0 (Z.min (rq_len q) (pages * DB7_PAGE_SIZE - rq_offset q)).

(** Whether submission works; what is prepared and not submitted, the steps
    until the next completion, the requests, at most two, over files of three
    pages. *)
Record slow_ring := mkSlow { unsubmitted : bool; steps_left : nat; requests : list request }.

Definition file_pages : Z := 3.

Section Slow.
Context (submits : bool).

#[local] Instance slow_uring : IoUring slow_ring := {
  prepare r q := if (length (requests r) <? 2)%nat then Some (mkSlow true 3 (requests r ++ [q])) else None;
  submit r := if submits then mkSlow false (steps_left r) (requests r) else r;
  peek r := match steps_left r, requests r with
            | O, q :: l => Some (rq_data q, transferred file_pages q, mkSlow (unsubmitted r) 2 l)
            | _, _ => None
            end;
  pending r := requests r;
  elapse r := if unsubmitted r then r else mkSlow false (pred (steps_left r)) (requests r)
}.

#[local] Instance slow_uring_laws : IoUringLaws slow_ring.
Proof.
  split.
  - intros r q r'. unfold prepare, pending, slow_uring. destruct (_ <? _)%nat; [|done]. intros [= <-]. cbn. by rewrite Permutation_app_comm.
  - intros r. cbn. by destruct submits.
  - intros [u [|n] [|q l]] data res r'; cbn; try done. intros [= <- _ <-]. by exists q.
  - by intros [[] n l].
Qed.

#[local] Instance slow_results : IoResults slow_ring (λ q res, res = transferred file_pages q).
Proof. intros [u [|n] [|q l]] data res r'; cbn; try done. intros [= <- <- <-]. by exists q. Qed.

#[local] Instance slow_device : IoDevice slow_ring := { settled r := unsubmitted r = false; delay := steps_left }.

#[local] Instance slow_device_laws : IoDeviceLaws slow_ring.
Proof.
  split.
  - intros [u n l] q E. cbn in E. subst l. by eexists.
  - intros [u [|n] [|q l]] data res r'; cbn; try done. by intros [= _ _ <-].
  - by intros [[] n l].
  - intros [[] [|n] [|q l]] [? E]; cbn in *; try done; by eexists.
  - intros [[] [|n] [|q l]]; cbn; try done. lia.
Qed.
End Slow.

#[local] Instance list_queue_progress : @QueueProgress IoTask (list IoTask) list_queue.
Proof. intros q n Hq Hn. cbn in *. destruct q; [done|]. by destruct n; [lia|]. Qed.

#[local] Existing Instances slow_uring_laws slow_results slow_device slow_device_laws.

Lemma slow_submits : @submissions_succeed slow_ring (slow_uring true) (slow_device true).
Proof. by intros r. Qed.

Definition demo_scheduler : DiskScheduler slow_ring (list IoTask) := make (mkSlow false 0 []) [].

(** Page 7 of a file of three pages. *)
Definition late_task : IoTask := mkTask READ HIGH 444 8192 (mkPageIdentifier 4 7).

(** The pages of the file are read; a page past its end stops the program. *)
Lemma scheduler_completes_witness :
  (∃ n l s', run (H := slow_uring true) demo_cache demo_scheduler (map Arrive demo_tasks ++ cycles (λ _, 1%nat) n) = Ret (l, s') ∧
     idle (H := slow_uring true) s' ∧ l ≡ₚ [111; 222; 333]) ∧
  (∃ n, run (H := slow_uring true) demo_cache demo_scheduler (map Arrive (late_task :: demo_tasks) ++ cycles (λ _, 1%nat) n)
     = AssertFail "Short read").
Proof.
  split.
  - destruct (scheduler_completes (H := slow_uring true) (λ q res, res = transferred file_pages q) slow_submits demo_cache
      (mkSlow false 0 []) [] (map Arrive demo_tasks) (λ _, 1%nat)) as (n & [(l & s' & E & Hi & Hl & _)|[_ (t & res & Ht & -> & Hne)]]);
      [reflexivity|reflexivity|reflexivity| |lia|by exists n, l, s'|].
    + repeat (constructor; [split; [|split]; vm_compute; congruence|]). constructor.
    + destruct Hne. revert Ht. change (enqueued (map Arrive demo_tasks)) with demo_tasks.
      repeat (intros [->|Ht]%elem_of_cons; [vm_compute; reflexivity|revert Ht]). by intros ?%not_elem_of_nil.
  - destruct (scheduler_completes (H := slow_uring true) (λ q res, res = transferred file_pages q) slow_submits demo_cache
      (mkSlow false 0 []) [] (map Arrive (late_task :: demo_tasks)) (λ _, 1%nat)) as (n & [(l & s' & _ & _ & _ & Hw)|[E _]]);
      [reflexivity|reflexivity|reflexivity| |lia| |by exists n].
    + repeat (constructor; [split; [|split]; vm_compute; congruence|]). constructor.
    + apply Forall_cons in Hw as [Hw _]. by vm_compute in Hw.
Defined.

(** Without the assumption on submissions a task may never be completed: when
    [io_uring_submit] fails after the one task there is, no iteration submits it
    again. *)
Theorem failed_submission_stalls n :
  ∃ s', run (H := slow_uring false) demo_cache demo_scheduler (Arrive late_task :: Iterate :: cycles (λ _, 1%nat) n) = Ret ([], s') ∧
    length (requests (io_ s')) = 1%nat.
Proof.
  set (s1 := mkScheduler (mkSlow true 3 [task_request demo_cache late_task]) 1 [] : DiskScheduler slow_ring (list IoTask)).
  assert (E : ∀ events, run (H := slow_uring false) demo_cache demo_scheduler (Arrive late_task :: Iterate :: events) =
    '(l, s) ← run (H := slow_uring false) demo_cache s1 events; Ret (l, s)) by by intros.
  rewrite E. exists s1. split; [|done]. clear E. induction n as [|n IH]; [done|].
  change (cycles (λ _, 1%nat) (S n)) with ([Elapse; Iterate] ++ cycles (λ _, 1%nat) n). cbn [app].
  change (run (H := slow_uring false) demo_cache s1 (Elapse :: Iterate :: cycles (λ _, 1%nat) n)) with
    ('(l, s) ← run (H := slow_uring false) demo_cache s1 (cycles (λ _, 1%nat) n); Ret (l, s)).
  by destruct (run _ _ _) as [[]| | | |].
Qed.
