(* ===== verification/DiskOpen.v ===== *)
(** * Opening a database directory (storage/disk_manager)

    The constructors of both disk managers: they copy the path of the
    directory, make the directory, and open every regular file whose name scans
    as a table, which [LoadExistingTables] does in the same words for both. *)

From stdpp Require Import strings pretty.
From Stdlib Require Import Ascii.
From S2P Require Import Prelude Bytes Shared Memory Disk.

(** ** The interface *)

(** A directory entry: [d_type == DT_REG] and the name. *)
Record dirent := mkDirent { d_reg : bool; d_name : string }.

#[export] Instance dirent_eq_dec : EqDecision dirent.
Proof. solve_decision. Defined.

(** [opendir] with all of [readdir]; [None] when the directory cannot be
    opened. *)
Class Directory (os : Type) := {
  readdir : os → string → option (list dirent);
  mkdir : os → string → os;
  rmdir : os → string → bool * os
}.

(** ** sscanf(name, "table_%u", &id) *)
Module Scan.

Definition digit (c : ascii) : option Z :=
  let n := Z.of_N (N_of_ascii c) in if (48 <=? n) && (n <=? 57) then Some (n - 48) else None.

(** [isspace] of the C locale. *)
Definition is_space (c : ascii) : bool := let n := Z.of_N (N_of_ascii c) in (n =? 32) || ((9 <=? n) && (n <=? 13)).

Fixpoint skip_space (s : string) : string :=
  match s with
  | String c s' => if is_space c then skip_space s' else s
  | EmptyString => s
  end.

(** The digits at the head of [s] on from [acc]. *)
Fixpoint digits (s : string) (acc : Z) : Z :=
  match s with
  | String c s => match digit c with Some d => digits s (10 * acc + d) | None => acc end
  | EmptyString => acc
  end.

Definition sign (s : string) : bool * string :=
  match s with
  | String c s' => if decide (c = "-"%char) then (true, s') else (false, if decide (c = "+"%char) then s' else s)
  | EmptyString => (false, s)
  end.

(** [%u] into a u32: blanks, a sign, one digit or more; a value that the
    integer cannot hold is undefined behaviour of [sscanf]. *)
Definition unsigned (s : string) : outcome (option Z) :=
  let '(neg, s) := sign (skip_space s) in
  match s with
  | String c _ =>
      match digit c with
      | None => Ret None
      | Some _ =>
          let v := digits s 0 in
          if v <? 2 ^ 32 then Ret (Some (if (neg : bool) then to_u32 (- v) else v)) else Undefined "sscanf: value out of range"
      end
  | EmptyString => Ret None
  end.

(** The characters of the format before a conversion. *)
Fixpoint literal (format s : string) : option string :=
  match format, s with
  | EmptyString, _ => Some s
  | String c format, String c' s => if decide (c = c') then literal format s else None
  | String _ _, EmptyString => None
  end.

(** [None]: the call does not return 1. *)
Definition table_u (name : string) : outcome (option Z) :=
  match literal "table_" name with
  | None => Ret None
  | Some rest => unsigned rest
  end.
End Scan.

(** ** LoadExistingTables and the constructors *)
Module DiskOpen.
Import DiskManagerAsync.
Section Open.
Context {os : Type} `{FileSystem os} `{Directory os}.

Definition MAX_PATH_LEN_2 : Z := 128.

(** [strncpy(base_dir_, base_dir, MAX_PATH_LEN_2 - 1)] into uninitialised
    memory: a longer path is left without its terminator. *)
Definition copy_base_dir (base_dir : string) : outcome string :=
  if Z.of_nat (String.length base_dir) <? MAX_PATH_LEN_2 - 1 then Ret base_dir
  else Undefined "base_dir_ has no terminator".

(** The loop of [LoadExistingTables] over the directory. *)
Fixpoint load_entries (d : DiskManagerAsync (os := os)) (entries : list dirent) : outcome (DiskManagerAsync (os := os)) :=
  match entries with
  | [] => Ret d
  | entry :: entries =>
      if negb (d_reg entry) then load_entries d entries
      else
        scanned ← Scan.table_u (d_name entry);
        match scanned with
        | None => load_entries d entries
        | Some tbl_id =>
            path ← BuildPath d tbl_id MAX_PATH_LEN;
            let '(fd, s) := open_ (sys d) path false in
            if fd <? 0 then load_entries (mkDisk (base_dir_ d) (cache_ d) s) entries
            else
              let page_count := to_u32 (st_size s fd / DB7_PAGE_SIZE) in
              cache ← FdCache.Set_ (cache_ d) tbl_id (FdCache.mkEntry fd page_count);
              load_entries (mkDisk (base_dir_ d) cache s) entries
        end
  end.

Definition LoadExistingTables (d : DiskManagerAsync (os := os)) : outcome (DiskManagerAsync (os := os)) :=
  match readdir (sys d) (base_dir_ d) with
  | None => Ret d
  | Some entries => load_entries d entries
  end.

(** [for (i < MAX_OPEN_FILES) cache_->Invalidate(i)]. *)
Fixpoint invalidate_all (n : nat) (i : Z) (cache : FdCache.state) : outcome FdCache.state :=
  match n with
  | O => Ret cache
  | S n => '(_, cache) ← FdCache.Invalidate cache i; invalidate_all n (i + 1) cache
  end.

(** The constructors of the two disk managers, but for the ring. *)
Definition open_dir (s : os) (base_dir : string) : outcome (DiskManagerAsync (os := os)) :=
  base ← copy_base_dir base_dir;
  cache ← invalidate_all (Z.to_nat FdCache.MAX_OPEN_FILES) 0 ∅;
  LoadExistingTables (mkDisk base cache (mkdir s base)).

(** The constructor of [DiskManagerAsync]; [ring]: what [io_uring_queue_init]
    gives. *)
Definition make_async {ring : Type} (s : os) (ring_ : option ring) (base_dir : string) :
    outcome (DiskManagerAsync (os := os) * ring) :=
  match ring_ with
  | None => Throw "io_uring_queue_init failed"
  | Some r => d ← open_dir s base_dir; Ret (d, r)
  end.

(** The destructors close every open file. *)
Fixpoint close_all (n : nat) (i : Z) (cache : FdCache.state) (s : os) : outcome os :=
  match n with
  | O => Ret s
  | S n =>
      hdr ← FdCache.Get cache i;
      close_all n (i + 1) cache (if 0 <=? FdCache.fd hdr then close s (FdCache.fd hdr) else s)
  end.

Definition DeleteDir (s : os) (directory : string) : bool * os := rmdir s directory.

Definition destroy_async (d : DiskManagerAsync (os := os)) : outcome os :=
  s ← close_all (Z.to_nat FdCache.MAX_OPEN_FILES) 0 (cache_ d) (sys d);
  Ret (snd (DeleteDir s (base_dir_ d))).
End Open.
End DiskOpen.
