(* ===== verification/DiskSync.v ===== *)
(** * The synchronous disk manager (storage/disk_manager/disk_manager.cpp)

    [DiskManager]: the same table files as [DiskManagerAsync], of which it has
    the fields and the path of a file, read and written a page at a time. *)

From stdpp Require Import strings pretty.
From S2P Require Import Prelude Bytes Shared Memory Disk DiskOpen.

(** [pread] returns the bytes it read, [pwrite] their number, [ftruncate] 0 on
    success; both change the file. *)
Class FileIO (os : Type) := {
  pread : os → Z → Z → Z → list Z;
  pwrite : os → Z → list Z → Z → Z * os;
  ftruncate : os → Z → Z → Z * os
}.

Module DiskManager.
Section Ops.
Context {os : Type} `{FileSystem os} `{Directory os} `{FileIO os}.

Abbreviation DiskManager := (DiskManagerAsync.DiskManagerAsync (os := os)).
Import DiskManagerAsync.

Definition DIRECT_ALIGN : Z := 4096.

(** As in [DiskManagerAsync], word for word. *)
Definition BuildPath (d : DiskManager) (tid len : Z) : outcome string := DiskManagerAsync.BuildPath d tid len.

Definition LoadExistingTables (d : DiskManager) : outcome DiskManager := DiskOpen.LoadExistingTables d.

(** The constructor. *)
Definition make (s : os) (base_dir : string) : outcome DiskManager :=
  base ← DiskOpen.copy_base_dir base_dir;
  cache ← DiskOpen.invalidate_all (Z.to_nat FdCache.MAX_OPEN_FILES) 0 ∅;
  LoadExistingTables (mkDisk base cache (mkdir s base)).

Definition destroy (d : DiskManager) : outcome os :=
  DiskOpen.close_all (Z.to_nat FdCache.MAX_OPEN_FILES) 0 (cache_ d) (sys d).

(** The length is a u32 product. *)
Definition TruncateFile (d : DiskManager) (tbl_id pages_num : Z) : outcome (bool * DiskManager) :=
  hdr ← FdCache.Get (cache_ d) tbl_id;
  _ ← DB7_ASSERT (0 <=? FdCache.fd hdr) "File not found";
  let '(n, s) := ftruncate (sys d) (FdCache.fd hdr) (to_u32 (pages_num * DB7_PAGE_SIZE)) in
  _ ← DB7_ASSERT (n =? 0) "Truncate failed";
  cache ← FdCache.Set_ (cache_ d) tbl_id (FdCache.mkEntry (FdCache.fd hdr) pages_num);
  Ret (true, mkDisk (base_dir_ d) cache s).

Definition CreateTable (d : DiskManager) (tbl_id : Z) : outcome (bool * DiskManager) :=
  hdr ← FdCache.Get (cache_ d) tbl_id;
  if negb (FdCache.fd hdr =? -1) then AssertFail "File already exists"
  else
    path ← BuildPath d tbl_id MAX_PATH_LEN;
    let '(fd, s) := open_ (sys d) path true in
    if fd <? 0 then AssertFail "File not found"
    else
      cache ← FdCache.Set_ (cache_ d) tbl_id (FdCache.mkEntry fd INIT_FREE_PAGES);
      '(_, d) ← TruncateFile (mkDisk (base_dir_ d) cache s) tbl_id INIT_FREE_PAGES;
      Ret (true, d).

Definition DropTable (d : DiskManager) (tbl_id : Z) : outcome (bool * DiskManager) :=
  '(hdr, cache) ← FdCache.Invalidate (cache_ d) tbl_id;
  _ ← DB7_ASSERT (0 <=? FdCache.fd hdr) "Invalid file";
  path ← BuildPath d tbl_id MAX_PATH_LEN;
  Ret (true, mkDisk (base_dir_ d) cache (unlink (close (sys d) (FdCache.fd hdr)) path)).

Definition ExistsTable (d : DiskManager) (tbl_id : Z) : outcome bool :=
  path ← BuildPath d tbl_id MAX_PATH_LEN; Ret (access_ (sys d) path).

(** [dest]: the address; the result is what it holds afterwards. *)
Definition ReadPage (d : DiskManager) (tbl_id pid dest : Z) : outcome (list Z) :=
  _ ← DB7_ASSERT (Z.land dest (DIRECT_ALIGN - 1) =? 0) "Dest not aligned to 4096";
  hdr ← FdCache.Get (cache_ d) tbl_id;
  _ ← DB7_ASSERT (0 <=? FdCache.fd hdr) "File not found";
  _ ← DB7_ASSERT (pid <? FdCache.page_count hdr) "File outside of bounds";
  let data := pread (sys d) (FdCache.fd hdr) DB7_PAGE_SIZE (pid * DB7_PAGE_SIZE) in
  _ ← DB7_ASSERT (Z.of_nat (length data) =? DB7_PAGE_SIZE) "Short read";
  Ret data.

(** [src]: the address of the bytes [data]; the page count is not consulted. *)
Definition WritePage (d : DiskManager) (tbl_id pid src : Z) (data : list Z) : outcome (bool * DiskManager) :=
  _ ← DB7_ASSERT (Z.land src (DIRECT_ALIGN - 1) =? 0) "Dest not aligned to 4096";
  hdr ← FdCache.Get (cache_ d) tbl_id;
  _ ← DB7_ASSERT (0 <=? FdCache.fd hdr) "File not found";
  let '(n, s) := pwrite (sys d) (FdCache.fd hdr) data (pid * DB7_PAGE_SIZE) in
  _ ← DB7_ASSERT (n =? DB7_PAGE_SIZE) "Short read";
  Ret (true, mkDisk (base_dir_ d) (cache_ d) s).

Definition PageCount (d : DiskManager) (tbl_id : Z) : outcome Z :=
  hdr ← FdCache.Get (cache_ d) tbl_id; Ret (FdCache.page_count hdr).
End Ops.
End DiskManager.
