(* ===== verification/DiskOpenTheorems.v ===== *)
(** * Theorems about opening a directory and about the synchronous manager

    A manager that opens the directory of another finds its tables, with the
    page counts of their files; a page written reads back. *)

From stdpp Require Import strings pretty.
From Stdlib Require Import Ascii.
From S2P Require Import Prelude Bytes Shared Memory Disk DiskTheorems DiskOpen DiskSync.
Import DiskManagerAsync DiskOpen.

(** ** What the file system does *)

Fixpoint no_slash (s : string) : bool :=
  match s with
  | String c s => negb (bool_decide (c = "/"%char)) && no_slash s
  | EmptyString => true
  end.

(** [file_size]: the sizes of the regular files, by path.  Opening an existing
    file succeeds and changes no file; a directory lists its files. *)
Class DirectoryLaws (os : Type) `{FileSystem os} `{Directory os} := {
  file_size : os → string → option Z;
  open_existing s p n fd s' : file_size s p = Some n → open_ s p false = (fd, s') →
    0 ≤ fd ∧ st_size s' fd = n ∧ ∀ q, file_size s' q = file_size s q;
  mkdir_size s dir q : file_size (mkdir s dir) q = file_size s q;
  mkdir_readdir s dir : ∃ l, readdir (mkdir s dir) dir = Some l ∧
    ∀ name, mkDirent true name ∈ l ↔ no_slash name = true ∧ is_Some (file_size s (dir ++ "/" ++ name))
}.

(** [pwrite] changes the bytes it writes. *)
Class FileIOLaws (os : Type) `{FileIO os} := {
  pwrite_pread s fd data off s' :
    pwrite s fd data off = (Z.of_nat (length data), s') → pread s' fd (Z.of_nat (length data)) off = data;
  pwrite_other s fd data off n s' len off' :
    pwrite s fd data off = (n, s') → off' + len ≤ off ∨ off + Z.of_nat (length data) ≤ off' →
    Z.of_nat (length (pread s fd len off')) = len → pread s' fd len off' = pread s fd len off'
}.

(** ** The names of the tables *)

Definition table_name (n : Z) : string := ("table_" ++ pretty n ++ ".db")%string.

(** The name of a table scans as its id. *)
Lemma table_name_ok n : 0 ≤ n < FdCache.MAX_OPEN_FILES →
  Scan.table_u (table_name n) = Ret (Some n) ∧ no_slash (table_name n) = true ∧ (String.length (table_name n) ≤ 12)%nat.
Proof.
  intros Hn.
  assert (E : forallb (λ n, match Scan.table_u (table_name n) with Ret (Some m) => m =? n | _ => false end
    && no_slash (table_name n) && (String.length (table_name n) <=? 12)%nat) (seqZ 0 128) = true) by by vm_compute.
  rewrite forallb_forall in E. specialize (E n).
  assert (Hin : In n (seqZ 0 128)) by (apply list_elem_of_In, elem_of_seqZ; unfold FdCache.MAX_OPEN_FILES in Hn; lia).
  specialize (E Hin).
  apply andb_true_iff in E as [[E1 E2]%andb_true_iff E3%Nat.leb_le].
  destruct (Scan.table_u _) as [[m|]| | | |]; try discriminate E1. by apply Z.eqb_eq in E1 as ->.
Qed.

Lemma table_name_inj n m : 0 ≤ n < FdCache.MAX_OPEN_FILES → 0 ≤ m < FdCache.MAX_OPEN_FILES → table_name n = table_name m → n = m.
Proof.
  intros Hn Hm E. destruct (table_name_ok n Hn) as [E1 _], (table_name_ok m Hm) as [E2 _].
  rewrite E in E1. congruence.
Qed.

Lemma string_length_app (s1 s2 : string) : String.length (s1 ++ s2) = (String.length s1 + String.length s2)%nat.
Proof. induction s1 as [|c s1 IH]; [done|]. exact (f_equal S IH). Qed.

Section Open.
Context {os : Type} `{FileSystem os} `{Directory os} `{!DirectoryLaws os}.

Abbreviation manager := (DiskManagerAsync (os := os)).

Definition table_path (base : string) (n : Z) : string := (base ++ "/" ++ table_name n)%string.

Lemma BuildPath_ok (d : manager) n :
  Z.of_nat (String.length (base_dir_ d)) < 127 → 0 ≤ n < FdCache.MAX_OPEN_FILES →
  BuildPath d n MAX_PATH_LEN = Ret (table_path (base_dir_ d) n).
Proof.
  intros Hb Hn. destruct (table_name_ok n Hn) as (_ & _ & Hl). unfold BuildPath.
  change (base_dir_ d ++ "/table_" ++ pretty n ++ ".db")%string with (table_path (base_dir_ d) n).
  assert (E : String.length (table_path (base_dir_ d) n) = (String.length (base_dir_ d) + S (String.length (table_name n)))%nat).
  { unfold table_path. rewrite string_length_app. done. }
  unfold MAX_PATH_LEN. by rewrite (proj2 (Z.ltb_lt 0 _)), (proj2 (Z.ltb_lt _ 256)) by lia.
Qed.

(** A regular entry is no table or the file of one. *)
Definition known (s : os) (base : string) (e : dirent) : Prop :=
  d_reg e = true → Scan.table_u (d_name e) = Ret None ∨
    ∃ n, 0 ≤ n < FdCache.MAX_OPEN_FILES ∧ d_name e = table_name n ∧ is_Some (file_size s (table_path base n)).

(** The entry of an open file of that many bytes. *)
Definition opened (e : option FdCache.FdCacheEntry) (size : Z) : Prop :=
  ∃ fd, 0 ≤ fd ∧ e = Some (FdCache.mkEntry fd (to_u32 (size / DB7_PAGE_SIZE))).

Lemma load_entries_ok l (d : manager) :
  Z.of_nat (String.length (base_dir_ d)) < 127 → Forall (known (sys d) (base_dir_ d)) l →
  ∃ d', load_entries d l = Ret d' ∧ base_dir_ d' = base_dir_ d ∧
    ∀ n, 0 ≤ n < FdCache.MAX_OPEN_FILES →
      (mkDirent true (table_name n) ∈ l → ∀ size, file_size (sys d) (table_path (base_dir_ d) n) = Some size → opened (cache_ d' !! n) size) ∧
      (mkDirent true (table_name n) ∉ l → cache_ d' !! n = cache_ d !! n).
Proof.
  intros Hb. revert d Hb. induction l as [|[reg name] l IH]; intros d Hb HF.
  { exists d. split; [done|]. split; [done|]. intros n _. split; [by intros ?%not_elem_of_nil|done]. }
  apply Forall_cons in HF as [Hk HF]. cbn [load_entries d_reg d_name]. unfold known in Hk. cbn [d_reg d_name] in Hk.
  (* an entry that is skipped *)
  assert (Skip : (∀ n, 0 ≤ n < FdCache.MAX_OPEN_FILES → mkDirent true (table_name n) ≠ mkDirent reg name) →
    ∃ d', load_entries d l = Ret d' ∧ base_dir_ d' = base_dir_ d ∧ ∀ n, 0 ≤ n < FdCache.MAX_OPEN_FILES →
      (mkDirent true (table_name n) ∈ mkDirent reg name :: l → ∀ size, file_size (sys d) (table_path (base_dir_ d) n) = Some size →
        opened (cache_ d' !! n) size) ∧
      (mkDirent true (table_name n) ∉ mkDirent reg name :: l → cache_ d' !! n = cache_ d !! n)).
  { intros Hne. destruct (IH d Hb HF) as (d' & E & Eb & K). exists d'. split; [done|]. split; [done|]. intros n Hn.
    destruct (K n Hn) as [K1 K2]. split.
    - intros [Eq|Hin]%elem_of_cons; [by destruct (Hne n Hn)|by apply K1].
    - intros [_ Hni]%not_elem_of_cons. by apply K2. }
  destruct reg; cbn [negb]; [|by apply Skip].
  destruct (Hk eq_refl) as [En|(t & Ht & -> & [size Hs])].
  { rewrite En, bind_Ret. apply Skip. intros n Hn [= Eq]. destruct (table_name_ok n Hn) as [E1 _]. congruence. }
  clear Skip Hk. destruct (table_name_ok t Ht) as [E1 _]. rewrite E1, bind_Ret, BuildPath_ok, bind_Ret by done.
  destruct (open_ (sys d) (table_path (base_dir_ d) t) false) as [fd s] eqn:Eo.
  destruct (open_existing _ _ _ _ _ Hs Eo) as (Hfd & Hst & Hsame). rewrite (proj2 (Z.ltb_ge fd 0)) by lia. cbv iota zeta. rewrite Hst.
  set (e := FdCache.mkEntry fd (to_u32 (size / DB7_PAGE_SIZE))).
  assert (Es : FdCache.Set_ (cache_ d) t e = Ret (<[t := e]> (cache_ d))) by (unfold FdCache.Set_; by rewrite (proj2 (Z.ltb_lt t _)) by lia).
  rewrite Es, bind_Ret.
  destruct (IH (mkDisk (base_dir_ d) (<[t := e]> (cache_ d)) s)) as (d' & E & Eb & K); [done| |].
  { eapply Forall_impl; [exact HF|]. cbn. intros x Hx Hr. destruct (Hx Hr) as [?|(n & ? & ? & ?)]; [by left|].
    right. exists n. by rewrite Hsame. }
  exists d'. split; [exact E|]. split; [exact Eb|]. intros n Hn. destruct (K n Hn) as [K1 K2]. cbn [sys base_dir_ cache_] in K1, K2.
  split.
  - intros Hin size' Hs'. destruct (decide (mkDirent true (table_name n) ∈ l)) as [Hl|Hl]; [by apply K1; [|rewrite Hsame]|].
    apply elem_of_cons in Hin as [Eq%(f_equal d_name)|Hin]; [|done].
    apply table_name_inj in Eq; [|done..]. subst t.
    exists fd. split; [done|]. rewrite (K2 Hl), lookup_insert_eq. subst e. congruence.
  - intros [Hne Hl]%not_elem_of_cons. rewrite (K2 Hl), lookup_insert_ne; [done|]. intros ->. by apply Hne.
Qed.

Lemma invalidate_all_ok n i cache :
  i + Z.of_nat n ≤ FdCache.MAX_OPEN_FILES →
  ∃ cache', invalidate_all n i cache = Ret cache' ∧
    ∀ j, cache' !! j = if decide (i ≤ j < i + Z.of_nat n) then Some FdCache.empty_entry else cache !! j.
Proof.
  revert i cache; induction n as [|n IH]; intros i cache Hn; cbn [invalidate_all].
  { exists cache. split; [done|]. intros j. by rewrite decide_False by lia. }
  assert (E0 : FdCache.Invalidate cache i = Ret (default FdCache.empty_entry (cache !! i), <[i := FdCache.mkEntry (-1) 0]> cache))
    by (unfold FdCache.Invalidate; by rewrite (proj2 (Z.ltb_lt i _)) by lia).
  rewrite E0, bind_Ret.
  destruct (IH (i + 1) (<[i := FdCache.mkEntry (-1) 0]> cache)) as (cache' & E & K); [lia|].
  exists cache'. split; [exact E|]. intros j. rewrite K. repeat case_decide; try lia; [done| |].
  - replace j with i by lia. by rewrite lookup_insert_eq.
  - by rewrite lookup_insert_ne by lia.
Qed.

(** C28: a manager that opens a directory whose table files are named as
    [BuildPath] names them has each of them open with the page count of the
    file, so that [CreateTable] refuses it, and no other table open. *)
Theorem reopen_correct (s : os) base :
  Z.of_nat (String.length base) < 127 →
  (∀ name, no_slash name = true → is_Some (file_size s (base ++ "/" ++ name)) →
    Scan.table_u name = Ret None ∨ ∃ n, 0 ≤ n < FdCache.MAX_OPEN_FILES ∧ name = table_name n) →
  ∃ d : manager, open_dir s base = Ret d ∧
    ∀ n, 0 ≤ n < FdCache.MAX_OPEN_FILES →
      match file_size s (table_path base n) with
      | Some size => (∃ fd, 0 ≤ fd ∧ FdCache.Get (cache_ d) n = Ret (FdCache.mkEntry fd (to_u32 (size / DB7_PAGE_SIZE)))) ∧
          ∀ pages, CreateTable d n pages = Throw "File already exists"
      | None => FdCache.Get (cache_ d) n = Ret FdCache.empty_entry
      end.
Proof.
  intros Hb Hnames. unfold open_dir, copy_base_dir, MAX_PATH_LEN_2. rewrite (proj2 (Z.ltb_lt _ _)), bind_Ret by lia.
  destruct (invalidate_all_ok (Z.to_nat FdCache.MAX_OPEN_FILES) 0 ∅) as (cache & E & K); [by vm_compute|]. rewrite E, bind_Ret.
  unfold LoadExistingTables. cbn [sys base_dir_]. destruct (mkdir_readdir s base) as (l & -> & Hl).
  destruct (load_entries_ok l (mkDisk base cache (mkdir s base))) as (d & Ed & _ & Kd); [done| |].
  { apply Forall_forall. intros [reg name] Hin Hr. cbn [d_reg d_name] in *. subst reg. apply Hl in Hin as [Hs Hf].
    destruct (Hnames name Hs Hf) as [?|(n & Hn & ->)]; [by left|]. right. exists n. cbn [sys base_dir_]. by rewrite mkdir_size. }
  exists d. split; [exact Ed|]. intros n Hn. destruct (Kd n Hn) as [K1 K2]. cbn [sys base_dir_ cache_] in K1, K2.
  destruct (table_name_ok n Hn) as (_ & Hslash & _). specialize (Hl (table_name n)). unfold table_path in *.
  rewrite mkdir_size in K1. unfold CreateTable. rewrite FdCache_get by lia.
  destruct (file_size s (base ++ "/" ++ table_name n)) as [size|].
  - destruct (K1 (proj2 Hl (conj Hslash (ex_intro _ size eq_refl))) size eq_refl) as (fd & Hfd & ->).
    cbn [default from_option id]. split; [by exists fd|]. intros pages. rewrite bind_Ret. cbn [FdCache.fd].
    by rewrite (proj2 (Z.eqb_neq fd (-1))) by lia.
  - rewrite K2, K; [|by intros [_ [? ?]]%Hl]. rewrite decide_True; [done|]. unfold FdCache.MAX_OPEN_FILES in *. lia.
Qed.
End Open.

(** ** Pages of the synchronous manager *)
Section Pages.
Context {os : Type} `{FileIO os} `{!FileIOLaws os}.

Abbreviation manager := (DiskManagerAsync (os := os)).

(** What a page read returns. *)
Definition page_of (d : manager) (t q : Z) (data : list Z) : Prop :=
  ∃ hdr, FdCache.Get (cache_ d) t = Ret hdr ∧ 0 ≤ FdCache.fd hdr ∧ q < FdCache.page_count hdr ∧
    pread (sys d) (FdCache.fd hdr) DB7_PAGE_SIZE (q * DB7_PAGE_SIZE) = data ∧ Z.of_nat (length data) = DB7_PAGE_SIZE.

Lemma ReadPage_iff (d : manager) t q dest data :
  DiskManager.ReadPage d t q dest = Ret data ↔ Z.land dest (DiskManager.DIRECT_ALIGN - 1) = 0 ∧ page_of d t q data.
Proof.
  unfold DiskManager.ReadPage, page_of. split.
  - intros E. invert_bind E. apply DB7_ASSERT_inv in Hm. apply bind_inv in E as (hdr & Hg & E).
    apply bind_inv in E as (? & H1%DB7_ASSERT_inv & E). apply bind_inv in E as (? & H2%DB7_ASSERT_inv & E).
    cbv zeta in E. apply bind_inv in E as (? & H3%DB7_ASSERT_inv & [= <-]). split; [lia|]. exists hdr. split_and!; try done; lia.
  - intros (Hd & hdr & Hg & Hfd & Hq & <- & Hl).
    rewrite DB7_ASSERT_true, bind_Ret, Hg, bind_Ret, DB7_ASSERT_true, bind_Ret, DB7_ASSERT_true, bind_Ret by lia.
    cbv zeta. by rewrite DB7_ASSERT_true, bind_Ret by lia.
Qed.

(** A page that is written reads back from an open table, as long as its number
    is below the page count, and every other page reads as before; a page
    written past the count can never be read. *)
Theorem page_io_correct (d d' : manager) t p src data b :
  Z.of_nat (length data) = DB7_PAGE_SIZE → DiskManager.WritePage d t p src data = Ret (b, d') →
  (∀ dest count, Z.land dest (DiskManager.DIRECT_ALIGN - 1) = 0 → DiskManager.PageCount d t = Ret count →
    DiskManager.ReadPage d' t p dest = if p <? count then Ret data else AssertFail "File outside of bounds") ∧
  ∀ q dest data', q ≠ p → DiskManager.ReadPage d t q dest = Ret data' → DiskManager.ReadPage d' t q dest = Ret data'.
Proof.
  intros Hl E. unfold DiskManager.WritePage in E. invert_bind E. apply bind_inv in E as (hdr & Hg & E).
  apply bind_inv in E as (? & Hfd%DB7_ASSERT_inv & E). destruct (pwrite _ _ _ _) as [n s] eqn:Ew.
  apply bind_inv in E as (? & Hn%DB7_ASSERT_inv & [= <- <-]). apply Z.eqb_eq in Hn as ->. split.
  - intros dest count Hd Hc. unfold DiskManager.PageCount in Hc. rewrite Hg, bind_Ret in Hc. injection Hc as <-.
    destruct (Z.ltb_spec p (FdCache.page_count hdr)) as [Hp|Hp].
    + apply ReadPage_iff. split; [done|]. exists hdr. split_and!; try done; [lia|]. cbn [sys].
      rewrite <- Hl at 1. apply (pwrite_pread (sys d)). by rewrite Ew, Hl.
    + unfold DiskManager.ReadPage. cbn [cache_].
      rewrite DB7_ASSERT_true, bind_Ret, Hg, bind_Ret, (DB7_ASSERT_true _ _ Hfd), bind_Ret by (by apply Z.eqb_eq).
      by rewrite (proj2 (Z.ltb_ge p _)) by lia.
  - intros q dest data' Hq. rewrite !ReadPage_iff. intros (Hd & hdr' & Hg' & ? & ? & Hr & Hl'). split; [done|].
    exists hdr'. split_and!; try done. cbn [sys]. rewrite Hg in Hg'. injection Hg' as <-.
    rewrite <- Hr. apply (pwrite_other (sys d) _ _ _ _ _ _ _ Ew); [unfold DB7_PAGE_SIZE in *; nia|]. by rewrite Hr.
Qed.
End Pages.

(** ** Instances: a directory of sizes, a file of bytes *)

(** The sizes of the files by path, and of the opened files in the order of
    their descriptors. *)
Record files := mkFiles { by_path : gmap string Z; by_fd : list Z }.

#[local] Instance files_system : FileSystem files := {
  open_ s p create :=
    match by_path s !! p with
    | Some n => if (create : bool) then (-1, s) else (3 + Z.of_nat (length (by_fd s)), mkFiles (by_path s) (by_fd s ++ [n]))
    | None => if (create : bool) then (3 + Z.of_nat (length (by_fd s)), mkFiles (<[p := 0]> (by_path s)) (by_fd s ++ [0])) else (-1, s)
    end;
  st_size s fd := default 0 (by_fd s !! Z.to_nat (fd - 3));
  fallocate s fd off len := (0, s);
  access_ s p := bool_decide (is_Some (by_path s !! p));
  close s fd := s;
  unlink s p := mkFiles (delete p (by_path s)) (by_fd s)
}.

#[local] Instance files_directory : Directory files := {
  readdir s dir := Some (mkDirent true <$>
    filter (λ name, no_slash name = true) (omap (λ p, Scan.literal (dir ++ "/") p) ((map_to_list (by_path s)).*1)));
  mkdir s dir := s;
  rmdir s dir := (true, s)
}.

Lemma literal_app f p rest : Scan.literal f p = Some rest ↔ p = (f ++ rest)%string.
Proof.
  revert p; induction f as [|c f IH]; intros p.
  - change ("" +:+ rest) with rest. cbn. split; congruence.
  - change (String c f +:+ rest) with (String c (f +:+ rest)). destruct p as [|c' p]; cbn [Scan.literal]; [done|].
    case_decide as Hc; [subst c'; rewrite IH; split; congruence|]. split; congruence.
Qed.

#[local] Instance files_laws : DirectoryLaws files.
Proof.
  refine {| file_size := λ s p, by_path s !! p |}.
  - intros s p n fd s' Hp. cbn. rewrite Hp. intros [= <- <-]. split; [lia|]. split; [|done]. cbn [by_fd].
    replace (Z.to_nat _) with (length (by_fd s)) by lia. by rewrite list_lookup_middle.
  - done.
  - intros s dir. eexists. split; [done|]. intros name. rewrite list_elem_of_fmap. split.
    + intros (x & [= ->] & [Hx (p & Hp & El)%list_elem_of_omap]%list_elem_of_filter). split; [done|].
      apply literal_app in El as ->.
      rewrite string_app_assoc in Hp. apply list_elem_of_fmap in Hp as ([p n] & E & Hin%elem_of_map_to_list). cbn in E. subst p. by exists n.
    + intros [Hs [n Hn]]. exists name. split; [done|]. apply list_elem_of_filter. split; [done|].
      apply list_elem_of_omap. exists (dir ++ "/" ++ name)%string. split; [|apply literal_app; by rewrite string_app_assoc].
      apply list_elem_of_fmap. exists (dir ++ "/" ++ name, n)%string. split; [done|]. by apply elem_of_map_to_list.
Defined.

Definition demo_files : files := mkFiles {[ "db/table_4.db" := 24576; "db/notes" := 10 ]}%string [].

Lemma reopen_correct_witness : ∃ d, open_dir demo_files "db" = Ret d ∧ (∃ fd, FdCache.Get (cache_ d) 4 = Ret (FdCache.mkEntry fd 3)) ∧
  FdCache.Get (cache_ d) 5 = Ret FdCache.empty_entry.
Proof.
  assert (H4 : 0 ≤ 4 < FdCache.MAX_OPEN_FILES ∧ 0 ≤ 5 < FdCache.MAX_OPEN_FILES) by (unfold FdCache.MAX_OPEN_FILES; lia).
  assert (Ef : file_size demo_files (table_path "db" 4) = Some 24576 ∧ file_size demo_files (table_path "db" 5) = None) by by vm_compute.
  destruct (reopen_correct demo_files "db") as (d & E & K).
  - by vm_compute.
  - intros name _ [n Hn]. cbn in Hn. change ("db" +:+ "/" +:+ name) with (("db/" +:+ name)%string) in Hn.
    apply lookup_insert_Some in Hn as [[En _]|[_ [En _]%lookup_singleton_Some]].
    + right. exists 4. split; [by vm_compute|]. apply (literal_app "db/" _ name) in En. by injection En as <-.
    + left. apply (literal_app "db/" _ name) in En. injection En as <-. by vm_compute.
  - exists d. split; [exact E|]. split.
    + specialize (K 4 (proj1 H4)). rewrite (proj1 Ef) in K. destruct K as [(fd & _ & Hfd) _]. exists fd. exact Hfd.
    + specialize (K 5 (proj2 H4)). rewrite (proj2 Ef) in K. exact K.
Defined.

(** One file, whatever the descriptor. *)
#[local] Instance mem_io : FileIO mem := {
  pread m fd len off := read_bytes m off (Z.to_nat len);
  pwrite m fd data off := (Z.of_nat (length data), write_bytes m off data);
  ftruncate m fd n := (0, m)
}.

#[local] Instance mem_io_laws : FileIOLaws mem.
Proof.
  split.
  - intros m fd data off m' [= <-]. cbn. rewrite Nat2Z.id. apply read_write_same.
  - intros m fd data off n m' len off' [= _ <-] Hd Hl. cbn. apply read_write_disj. lia.
Qed.

Definition demo_page (b : Z) : list Z := replicate (Z.to_nat DB7_PAGE_SIZE) b.
Definition demo_manager (m : mem) : DiskManagerAsync := mkDisk "db" {[ 4 := FdCache.mkEntry 3 3 ]} m.

Lemma demo_page_length b : Z.of_nat (length (demo_page b)) = DB7_PAGE_SIZE.
Proof. unfold demo_page. rewrite length_replicate. reflexivity. Qed.

Lemma page_io_correct_witness : ∃ d', DiskManager.ReadPage d' 4 2 0 = Ret (demo_page 7).
Proof.
  assert (E : DiskManager.WritePage (demo_manager ∅) 4 2 0 (demo_page 7) = Ret (true, demo_manager (write_bytes ∅ 16384 (demo_page 7)))).
  { unfold DiskManager.WritePage. rewrite DB7_ASSERT_true, bind_Ret by reflexivity.
    change (FdCache.Get (cache_ (demo_manager ∅)) 4) with (Ret (FdCache.mkEntry 3 3)). rewrite bind_Ret, DB7_ASSERT_true, bind_Ret by reflexivity.
    cbn [pwrite mem_io]. rewrite demo_page_length, DB7_ASSERT_true, bind_Ret by reflexivity. reflexivity. }
  eexists. rewrite (proj1 (page_io_correct _ _ 4 2 0 (demo_page 7) true (demo_page_length 7) E) 0 3 eq_refl eq_refl). reflexivity.
Defined.
