(* ===== verification/Builder.v ===== *)
(** * The schemas of the catalog tables (catalog/builder.cpp)

    [Builder::Create*Schema], column by column, the table each schema belongs
    to, and the table each index of [AttrsFor] is built on. *)

From stdpp Require Import strings.
From S2P Require Import Prelude.
From S2P Require Import CatalogCommon.
From S2P Require Import AccessTypes.

Module Builder.

(** [columns.emplace_back(catalog::col_oid_t(c), t, name)]. *)
Definition column (c : CatalogColumnOid) (t : type_id) (name : string) : SchemaColumn :=
  SchemaColumn_make (CatalogColumnOid_val c) t name.

Definition CreateDatabaseSchema_columns : list SchemaColumn :=
  [column DATOID INTEGER "datoid";
   column DATNAME VARCHAR "datname"].
Definition CreateDatabaseSchema : Schema := Schema_make CreateDatabaseSchema_columns.

Definition CreateNamespaceSchema_columns : list SchemaColumn :=
  [column NSPOID INTEGER "nspoid";
   column NSPNAME VARCHAR "nspname"].
Definition CreateNamespaceSchema : Schema := Schema_make CreateNamespaceSchema_columns.

Definition CreateClassSchema_columns : list SchemaColumn :=
  [column RELOID INTEGER "reloid";
   column RELNAME VARCHAR "relname";
   column RELNAMESPACE INTEGER "relnamespace";
   column RELKIND TINYINT "relkind";
   column RELOPTIONS VARCHAR "reloptions"].
Definition CreateClassSchema : Schema := Schema_make CreateClassSchema_columns.

Definition CreateAttributeSchema_columns : list SchemaColumn :=
  [column ATTNUM INTEGER "attnum";
   column ATTRELID INTEGER "attrelid";
   column ATTNAME VARCHAR "attname";
   column ATTTYPID INTEGER "atttypid";
   column ATTLEN SMALLINT "attlen";
   column ATTNOTNULL BOOLEAN "attnotnull"].
Definition CreateAttributeSchema : Schema := Schema_make CreateAttributeSchema_columns.

Definition CreateIndexSchema_columns : list SchemaColumn :=
  [column INDOID INTEGER "indoid";
   column INDRELID INTEGER "indrelid";
   column INDISUNIQUE BOOLEAN "indisunique";
   column INDISPRIMARY BOOLEAN "indisprimary";
   column INDISEXCLUSION BOOLEAN "indisexclusion";
   column INDIMMEDIATE BOOLEAN "indimmediate";
   column INDISVALID BOOLEAN "indisvalid";
   column INDISREADY BOOLEAN "indisready";
   column INDISLIVE BOOLEAN "indislive";
   column IND_TYPE TINYINT "ind_type"].
Definition CreateIndexSchema : Schema := Schema_make CreateIndexSchema_columns.

Definition CreateTypeSchema_columns : list SchemaColumn :=
  [column TYPOID INTEGER "typoid";
   column TYPNAME VARCHAR "typname";
   column TYPNAMESPACE INTEGER "typnamespace";
   column TYPLEN SMALLINT "typlen";
   column TYPBYVAL BOOLEAN "typbyval";
   column TYPTYPE TINYINT "typtype"].
Definition CreateTypeSchema : Schema := Schema_make CreateTypeSchema_columns.

Definition CreateConstraintSchema_columns : list SchemaColumn :=
  [column CONOID INTEGER "conoid";
   column CONNAME VARCHAR "conname";
   column CONNAMESPACE INTEGER "connamespace";
   column CONTYPE TINYINT "contype";
   column CONDEFERRABLE BOOLEAN "condeferrabl";
   column CONDEFFERED BOOLEAN "condeffered";
   column CONVALIDATED BOOLEAN "convalidated";
   column CONRELID INTEGER "conrelid";
   column CONINDID INTEGER "conindid";
   column CONFRELID INTEGER "confrelid"].
Definition CreateConstraintSchema : Schema := Schema_make CreateConstraintSchema_columns.

Definition CreateLanguageSchema_columns : list SchemaColumn :=
  [column LANOID INTEGER "lanoid";
   column LANNAME VARCHAR "lanname";
   column LANISPL BOOLEAN "lanispl";
   column LANPLTRUSTED BOOLEAN "lanpltrusted";
   column LANPLCALLFOID INTEGER "lanplcallfoid";
   column LANINLINE INTEGER "laninline";
   column LANVALIDATOR INTEGER "lanvalidator"].
Definition CreateLanguageSchema : Schema := Schema_make CreateLanguageSchema_columns.

Definition CreateProcSchema_columns : list SchemaColumn :=
  [column PROOID INTEGER "prooid";
   column PRONAME VARCHAR "proname";
   column PRONAMESPACE INTEGER "pronamespace";
   column PROLANG INTEGER "prolang";
   column PROCOST DOUBLE "procost";
   column PROROWS DOUBLE "prorows";
   column PROVARIADIC INTEGER "provariadic";
   column PROISAGG BOOLEAN "proisagg";
   column PROISWINDOW BOOLEAN "proiswindow";
   column PROISSTRICT BOOLEAN "proisstrict";
   column PRORETSET BOOLEAN "proretset";
   column PROVOLATILE TINYINT "provolatile";
   column PRONARGS SMALLINT "pronargs";
   column PRONARGDEFAULTS SMALLINT "pronargdefaults";
   column PRORETTYPE INTEGER "prorettype";
   column PROARGTYPES VARBINARY "proargtypes";
   column PROALLARGTYPES VARBINARY "proallargtypes";
   column PROARGMODES VARBINARY "proargmodes";
   column PROARGDEFAULTS VARBINARY "proargdefaults";
   column PROARGNAMES VARBINARY "proargnames";
   column PROSRC VARCHAR "prosrc";
   column PROCONFIG VARBINARY "proconfig"].
Definition CreateProcSchema : Schema := Schema_make CreateProcSchema_columns.
(** The tables [CreateDatabaseCatalog] and [Catalog] make, with their schemas;
    the other oids are indexes and the varlen table. *)
Definition schema_columns (t : CatalogTableOid) : option (list SchemaColumn) :=
  match t with
  | PG_DATABASES => Some CreateDatabaseSchema_columns
  | PG_NAMESPACE => Some CreateNamespaceSchema_columns
  | PG_CLASS => Some CreateClassSchema_columns
  | PG_ATTRIBUTE => Some CreateAttributeSchema_columns
  | PG_INDEX => Some CreateIndexSchema_columns
  | PG_TYPE => Some CreateTypeSchema_columns
  | PG_CONSTRAINT => Some CreateConstraintSchema_columns
  | PG_LANGUAGE => Some CreateLanguageSchema_columns
  | PG_PROC => Some CreateProcSchema_columns
  | _ => None
  end.

(** The table oid each [BTreeIndex] is constructed with. *)
Definition index_table (ix : CatalogTableOid) : option CatalogTableOid :=
  match ix with
  | PG_INDEX_DATABASE_DATOID | PG_INDEX_DATABASE_DATNAME => Some PG_DATABASES
  | PG_INDEX_NAMESPACE_NSPOID | PG_INDEX_NAMESPACE_NSPNAME => Some PG_NAMESPACE
  | PG_INDEX_CLASS_RELOID | PG_INDEX_CLASS_RELNAME | PG_INDEX_CLASS_RELNAMESPACE => Some PG_CLASS
  | PG_INDEX_ATTRIBUTE_ATTNUM | PG_INDEX_ATTRIBUTE_ATTRELID_ATTNAME => Some PG_ATTRIBUTE
  | PG_INDEX_INDEX_INDOID | PG_INDEX_INDEX_INDRELID => Some PG_INDEX
  | PG_INDEX_TYPE_TYPOID | PG_INDEX_TYPE_TYPNAME | PG_INDEX_TYPE_TYPNAMESPACE => Some PG_TYPE
  | PG_INDEX_CONSTRAINT_CONOID | PG_INDEX_CONSTRAINT_CONNAME | PG_INDEX_CONSTRAINT_CONNAMESPACE
  | PG_INDEX_CONSTRAINT_CONRELID | PG_INDEX_CONSTRAINT_CONINDID | PG_INDEX_CONSTRAINT_CONFRELID => Some PG_CONSTRAINT
  | PG_INDEX_LANGUAGE_LANOID | PG_INDEX_LANGUAGE_LANNAME => Some PG_LANGUAGE
  | PG_INDEX_PROC_PROOID | PG_INDEX_PROC_PRONAME => Some PG_PROC
  | _ => None
  end.
End Builder.
