(* ===== verification/BuilderTheorems.v ===== *)
(** * The catalog schemas fit the tables and the indexes built on them

    Whatever the iteration order of a schema's hash map, the table layout has
    the columns at their positions; every index key is made of columns of its
    table. *)

From stdpp Require Import strings.
From S2P Require Import Prelude.
From S2P Require Import Bytes.
From S2P Require Import Shared.
From S2P Require Import CatalogCommon.
From S2P Require Import AccessTypes.
From S2P Require Import KeyEncoder.
From S2P Require Import Pax.
From S2P Require Import Table.
From S2P Require Import Builder.

Import Builder.

(** ** [CreateLayoutFromSchema] *)
Lemma layout_sizes_lookup vs sizes :
  NoDup (sc_position <$> vs) → Forall (λ c, 0 ≤ sc_position c < Z.of_nat (length sizes)) vs →
  ∃ sizes', Table.layout_sizes vs sizes = Ret sizes' ∧ length sizes' = length sizes ∧
    (∀ c, c ∈ vs → sizes' !! Z.to_nat (sc_position c) = Some (sc_type_size c)) ∧
    (∀ i, i ∉ (Z.to_nat ∘ sc_position <$> vs) → sizes' !! i = sizes !! i).
Proof.
  revert sizes. induction vs as [|c vs IH]; intros sizes Hnd HF; cbn [Table.layout_sizes].
  - exists sizes. split; [done|]. split; [done|]. split; [intros c Hc; by apply elem_of_nil in Hc|done].
  - apply NoDup_cons in Hnd as [Hc Hnd]. apply Forall_cons in HF as [Hp HF].
    rewrite (proj2 (Z.ltb_lt _ _)) by lia. cbn [DB7_ASSERT]. rewrite bind_Ret.
    destruct (IH (<[Z.to_nat (sc_position c) := sc_type_size c]> sizes) Hnd) as (s' & E & HL & HI & HO).
    { by rewrite length_insert. }
    exists s'. split; [done|]. rewrite length_insert in HL. split; [done|]. split.
    + intros d [->|Hd]%elem_of_cons; [|by apply HI]. rewrite HO; [apply list_lookup_insert_eq; lia|].
      intros (x & Ex & Hx)%list_elem_of_fmap. apply Hc. cbn in Ex. rewrite Forall_forall in HF. specialize (HF x Hx).
      apply list_elem_of_fmap. exists x. split; [lia|done].
    + intros i Hi. apply not_elem_of_cons in Hi as [Hi1 Hi2]. cbn in Hi1. rewrite HO by done. by apply list_lookup_insert_ne.
Qed.

Lemma layout_of_columns cols vs :
  Z.of_nat (length cols) < 2 ^ 32 → vs ≡ₚ place cols 0 →
  Table.layout_sizes vs (replicate (length cols) 0) = Ret (sc_type_size <$> cols).
Proof.
  intros Hlen HP. destruct (layout_sizes_lookup vs (replicate (length cols) 0)) as (s & E & HL & HI & _).
  - rewrite HP. unfold place. apply NoDup_alt. intros i j x Hi Hj.
    rewrite list_lookup_fmap, list_lookup_imap in Hi, Hj.
    destruct (cols !! i), (cols !! j); cbn in *; simplify_eq. lia.
  - rewrite HP. apply Forall_forall. intros x (i & y & -> & Hy)%elem_of_lookup_imap. apply lookup_lt_Some in Hy.
    rewrite length_replicate. cbn. lia.
  - rewrite E. f_equal. rewrite length_replicate in HL. apply list_eq. intros i. rewrite list_lookup_fmap.
    destruct (cols !! i) as [c|] eqn:Hc; cbn.
    + specialize (HI (SetPosition c (0 + Z.of_nat i))). cbn [SetPosition sc_position sc_type_size] in HI.
      replace (Z.to_nat (0 + Z.of_nat i)) with i in HI by lia. apply HI. rewrite HP.
      apply elem_of_lookup_imap. by exists i, c.
    + apply lookup_ge_None in Hc. apply lookup_ge_None. lia.
Qed.

Lemma Schema_make_map cols :
  Z.of_nat (length cols) < 2 ^ 32 → NoDup (sc_oid <$> cols) →
  Schema_make cols = list_to_map ((λ c, (sc_oid c, c)) <$> place cols 0).
Proof.
  intros Hl Hnd. unfold Schema_make. rewrite schema_loop_ok by (lia || done || by apply Forall_true; intros; apply lookup_empty).
  apply (right_id_L ∅ (∪)).
Qed.

Lemma place_oids cols : sc_oid <$> place cols 0 = sc_oid <$> cols.
Proof. unfold place. rewrite fmap_imap, <- (imap_const sc_oid). by apply imap_ext. Qed.

Lemma Schema_make_size cols :
  Z.of_nat (length cols) < 2 ^ 32 → NoDup (sc_oid <$> cols) → Schema_GetCount (Schema_make cols) = Z.of_nat (length cols).
Proof.
  intros Hl Hnd. unfold Schema_GetCount. rewrite Schema_make_map by done. f_equal.
  rewrite map_size_list_to_map; [unfold place; by rewrite length_fmap, length_imap|].
  rewrite <- list_fmap_compose. change (fst ∘ (λ c, (sc_oid c, c))) with sc_oid.
  by rewrite place_oids.
Qed.

(** ** The catalog *)

(** Any iteration order has the columns at their positions. *)
Lemma values_place cols vs :
  Z.of_nat (length cols) < 2 ^ 32 → NoDup (sc_oid <$> cols) →
  vs ≡ₚ (map_to_list (Schema_make cols)).*2 → vs ≡ₚ place cols 0.
Proof.
  intros Hlen Hnd ->. rewrite Schema_make_map by done.
  rewrite map_to_list_to_map by (rewrite <- list_fmap_compose; change (fst ∘ (λ c, (sc_oid c, c))) with sc_oid; by rewrite place_oids).
  by rewrite <- list_fmap_compose, (list_fmap_ext _ Datatypes.id), list_fmap_id by done.
Qed.

(** Columns of different oids whose rows fit a page. *)
Definition columns_ok (cols : list SchemaColumn) : bool :=
  bool_decide (NoDup (sc_oid <$> cols)) &&
  forallb (λ c, sc_type_size c =? SizeOf (sc_type c)) cols &&
  (1 <? PaxLayout.GetMaxRowCount (PaxLayout.make (sc_type_size <$> cols))).

Lemma catalog_columns_ok t cols : schema_columns t = Some cols → columns_ok cols = true ∧ Z.of_nat (length cols) < 2 ^ 32.
Proof. destruct t; intros [= <-]; (split; [vm_compute; reflexivity|cbn; lia]). Qed.

(** The table of a catalog schema, in any iteration order of the hash map. *)
Lemma catalog_table_made t cols values varlen :
  schema_columns t = Some cols → values (Schema_make cols) ≡ₚ (map_to_list (Schema_make cols)).*2 →
  Table.make values (Schema_make cols) (CatalogTableOid_val t) varlen =
    Ret (Table.mkTable (Schema_make cols) (CatalogTableOid_val t) varlen (PaxLayout.make (sc_type_size <$> cols))).
Proof.
  intros Ht HP. destruct (catalog_columns_ok t cols Ht) as [Hok Hlen].
  apply andb_true_iff in Hok as [[Hnd _]%andb_true_iff _]. apply bool_decide_eq_true in Hnd.
  unfold Table.make, Table.CreateLayoutFromSchema. rewrite Schema_make_size, Nat2Z.id by done.
  rewrite layout_of_columns; [done|done|]. by apply values_place.
Qed.

(** C29: every catalog table can be made: whatever order the hash map of its
    schema is iterated in, [CreateLayoutFromSchema] returns the layout of the
    columns in the order [Builder] lists them, each of the size of its type, at
    least two rows fit a page, and [GetColumn] finds each column at its index. *)
Theorem catalog_tables_ok t cols values varlen :
  schema_columns t = Some cols → values (Schema_make cols) ≡ₚ (map_to_list (Schema_make cols)).*2 →
  let T := Table.mkTable (Schema_make cols) (CatalogTableOid_val t) varlen (PaxLayout.make (SizeOf ∘ sc_type <$> cols)) in
  Table.make values (Schema_make cols) (CatalogTableOid_val t) varlen = Ret T ∧
  1 < Table.GetMaxRowCount T ∧
  (∀ i c, cols !! i = Some c → GetColumn (Schema_make cols) (sc_oid c) = Ret (SetPosition c (Z.of_nat i))).
Proof.
  intros Ht HP. destruct (catalog_columns_ok t cols Ht) as [Hok Hlen].
  apply andb_true_iff in Hok as [[Hnd Hsz]%andb_true_iff Hrows]. apply bool_decide_eq_true in Hnd.
  apply Z.ltb_lt in Hrows.
  assert (sc_type_size <$> cols = SizeOf ∘ sc_type <$> cols) as Es.
  { apply list_fmap_ext. intros i c Hc. apply list_elem_of_lookup_2, list_elem_of_In in Hc.
    rewrite forallb_forall in Hsz. by apply Z.eqb_eq, Hsz. }
  assert (Hfst : NoDup (((λ c, (sc_oid c, c)) <$> place cols 0).*1)).
  { rewrite <- list_fmap_compose. change (fst ∘ (λ c, (sc_oid c, c))) with sc_oid. by rewrite place_oids. }
  split; [|split].
  - rewrite <- Es. by apply catalog_table_made.
  - unfold Table.GetMaxRowCount. cbn [Table.layout_]. by rewrite <- Es.
  - intros i c Hc. unfold GetColumn. rewrite Schema_make_map by done.
    rewrite (elem_of_list_to_map_1 _ (sc_oid c) (SetPosition c (Z.of_nat i))); [done|done|].
    apply list_elem_of_fmap. exists (SetPosition c (Z.of_nat i)). split; [done|].
    apply elem_of_lookup_imap. exists i, c. split; [|done]. by rewrite Z.add_0_l.
Qed.

(** Is a key column a column of the table, with its type? *)
Definition attr_in (cols : list SchemaColumn) (a : TypeSize) : bool :=
  existsb (λ c, (sc_oid c =? ts_col_id a) && bool_decide (sc_type c = ts_type a)) cols.

(** Every catalog index is over columns of its own table, its keys have a
    bounded length of at most 128 bytes, and the types it reads the columns
    with are those of the schema, except for the index on [attnum], which reads
    two bytes of a four-byte column. *)
Theorem catalog_indexes_ok ix t cols :
  index_table ix = Some t → schema_columns t = Some cols →
  AttrsFor ix ≠ [] ∧ Forall (λ a, ts_col_id a ∈ sc_oid <$> cols) (AttrsFor ix) ∧
  KeyNormEncoder.MaxKeyLen (AttrsFor ix) ≤ 128 ∧
  (forallb (attr_in cols) (AttrsFor ix) = true ↔ ix ≠ PG_INDEX_ATTRIBUTE_ATTNUM).
Proof.
  intros Hix Ht. assert (bool_decide (AttrsFor ix ≠ []) && bool_decide (Forall (λ a, ts_col_id a ∈ sc_oid <$> cols) (AttrsFor ix))
    && (KeyNormEncoder.MaxKeyLen (AttrsFor ix) <=? 128)
    && eqb (forallb (attr_in cols) (AttrsFor ix)) (negb (CatalogTableOid_val ix =? CatalogTableOid_val PG_INDEX_ATTRIBUTE_ATTNUM)) = true) as H.
  { destruct ix; try discriminate Hix; injection Hix as <-; injection Ht as <-; vm_compute; reflexivity. }
  apply andb_true_iff in H as [[[H1%bool_decide_eq_true H2%bool_decide_eq_true]%andb_true_iff H3%Z.leb_le]%andb_true_iff H4%eqb_prop].
  split; [done|]. split; [done|]. split; [done|]. rewrite H4.
  clear -Hix. destruct ix; try discriminate Hix; cbn; split; intros; done.
Qed.

Lemma catalog_tables_ok_witness :
  let cols := CreateNamespaceSchema_columns in
  let values := λ s : Schema, (map_to_list s).*2 in
  ∃ T, Table.make values (Schema_make cols) 2 10 = Ret T ∧ 1 < Table.GetMaxRowCount T.
Proof.
  intros cols values. eexists.
  destruct (catalog_tables_ok PG_NAMESPACE cols values 10) as (H1 & H2 & _); [reflexivity|reflexivity|].
  split; [exact H1|exact H2].
Defined.

Lemma catalog_indexes_ok_witness :
  forallb (attr_in CreateNamespaceSchema_columns) (AttrsFor PG_INDEX_NAMESPACE_NSPNAME) = true ∧
  KeyNormEncoder.MaxKeyLen (AttrsFor PG_INDEX_NAMESPACE_NSPNAME) ≤ 128.
Proof.
  destruct (catalog_indexes_ok PG_INDEX_NAMESPACE_NSPNAME PG_NAMESPACE CreateNamespaceSchema_columns) as (_ & _ & H & H1);
    [reflexivity|reflexivity|]. split; [by apply H1|exact H].
Defined.
