(* ===== verification/CatalogChunks.v ===== *)
(** * The chunks the catalogs build

    A chunk of a catalog table has the columns of its schema in the order of
    the hash map; writing one column leaves the others; the key of an index
    reads the values written. *)

From stdpp Require Import strings.
From S2P Require Import Prelude Bytes Shared Memory CatalogCommon AccessTypes DataChunk Fsm.
From S2P Require Import KeyEncoder Index ChunkUtils Builder BuilderTheorems.

(** [id] is a column of size [s]. *)
Definition field (ids sizes : list Z) (id s : Z) : Prop := ∃ i : nat, ids !! i = Some id ∧ sizes !! i = Some s.

(** A chunk with these columns. *)
Definition wf_chunk (ids sizes : list Z) (c : DataChunk) : Prop :=
  mem_ok c ∧ ∃ offs total, chunk_ok c ids sizes offs total.

(** The chunk's column [id] starts with the bytes [v]. *)
Definition has_field (c : DataChunk) (id : Z) (v : list Z) : Prop :=
  ∃ o, Chunk.Get c id = Ret o ∧ read_bytes c o (length v) = v.

Lemma read_bytes_prefix m a (n k : nat) : (n ≤ k)%nat → read_bytes m a n = take n (read_bytes m a k).
Proof.
  revert a k; induction n as [|n IH]; intros a [|k] H; cbn; try done; [lia|]. f_equal. apply IH. lia.
Qed.

Section Write.
Context (ids sizes : list Z) (Hnd : NoDup ids) (Hlen : Z.of_nat (length ids) < 2 ^ 32).

Lemma wf_write c id v :
  wf_chunk ids sizes c → (∃ s, field ids sizes id s ∧ Z.of_nat (length v) ≤ s) → bytes_ok v →
  let c' := Chunk.Write c id v in
  wf_chunk ids sizes c' ∧ has_field c' id v ∧
  ∀ id' w s', id' ≠ id → field ids sizes id' s' → Z.of_nat (length w) ≤ s' → has_field c id' w → has_field c' id' w.
Proof.
  intros (Hm & offs & total & Hok) (s & (i & Hi & Hs) & Hlv) Hv c'.
  destruct (chunk_field c ids sizes offs total Hok i id Hi) as (o & s2 & Ho & Hs2). rewrite Hs in Hs2. injection Hs2 as <-.
  assert (E : c' = write_bytes c o v) by (apply (Write_ok c ids sizes offs total Hok Hnd i id o v Hi Ho)).
  destruct (write_field c ids sizes offs total Hok Hlen i o _ v Ho Hs Hlv) as (W1 & W2 & W3).
  rewrite <- E in W1, W2, W3. split; [|split].
  - split; [rewrite E; by apply write_bytes_ok|eauto].
  - exists o. split; [by apply (ChunkGet_ok c' ids sizes offs total W1 Hnd i)|done].
  - intros id' w s' Hne (j & Hj & Hsj) Hw (o' & Hg & Hr).
    assert (Hji : j ≠ i) by (intros ->; congruence).
    destruct (chunk_field c ids sizes offs total Hok j id' Hj) as (o2 & s2 & Ho2 & _).
    rewrite (ChunkGet_ok c ids sizes offs total Hok Hnd j id' o2 Hj Ho2) in Hg. injection Hg as <-.
    exists o2. split; [by apply (ChunkGet_ok c' ids sizes offs total W1 Hnd j)|].
    rewrite (read_bytes_prefix c' o2 (length w) (Z.to_nat s')) by lia. rewrite (W3 j o2 s' Hji Ho2 Hsj).
    rewrite <- read_bytes_prefix by lia. done.
Qed.

(** Writing several columns. *)
Definition write_all (c : DataChunk) (l : list (Z * list Z)) : DataChunk := foldl (λ c w, Chunk.Write c w.1 w.2) c l.

Definition writable (w : Z * list Z) : Prop := (∃ s, field ids sizes w.1 s ∧ Z.of_nat (length w.2) ≤ s) ∧ bytes_ok w.2.

Lemma write_all_keeps l c id v :
  wf_chunk ids sizes c → Forall writable l → id ∉ l.*1 → has_field c id v → (∃ s, field ids sizes id s ∧ Z.of_nat (length v) ≤ s) →
  has_field (write_all c l) id v.
Proof.
  revert c; induction l as [|[k w] l IH]; intros c Hwf HF Hn Hv Hs; [done|]. apply Forall_cons in HF as [[Hk Hw] HF].
  apply not_elem_of_cons in Hn as [Hne Hn]. destruct (wf_write c k w Hwf Hk Hw) as (W & _ & K). apply IH; try done.
  destruct Hs as (s & Hs & Hl). by apply (K id v s).
Qed.

Lemma write_all_ok l c :
  wf_chunk ids sizes c → NoDup l.*1 → Forall writable l →
  wf_chunk ids sizes (write_all c l) ∧ Forall (λ w, has_field (write_all c l) w.1 w.2) l.
Proof.
  revert c; induction l as [|[k w] l IH]; intros c Hwf Hl HF; [done|]. apply NoDup_cons in Hl as [Hk Hl].
  apply Forall_cons in HF as [[Hs Hw] HF]. destruct (wf_write c k w Hwf Hs Hw) as (W & F & _). cbn [write_all foldl fst snd] in *.
  destruct (IH _ W Hl HF) as [W2 F2]. split; [done|]. constructor; [|done]. by apply write_all_keeps.
Qed.

(** Pushing back the value of the column the iterator is at writes it. *)
Lemma push_back_write al c (i : nat) id s v :
  wf_chunk ids sizes c → ids !! i = Some id → sizes !! i = Some s → (al | Z.min s 8) → 0 < al →
  Chunk.PushBackT al c (Z.of_nat i) v = Ret (Chunk.Write c id v, Z.of_nat i + 1).
Proof.
  intros (_ & offs & total & Hok) Hi Hs Hal Hpos. destruct (chunk_field c ids sizes offs total Hok i id Hi) as (o & s2 & Ho & Hs2).
  rewrite Hs in Hs2. injection Hs2 as <-. rewrite (Write_ok c ids sizes offs total Hok Hnd i id o v Hi Ho).
  unfold Chunk.PushBackT, Chunk.PushBack. rewrite (co_access _ _ _ _ _ Hok i o Ho), (proj2 (Z.eqb_eq _ _)); [done|].
  destruct (placed_lookup _ _ _ _ i o s (co_placed _ _ _ _ _ Hok) Ho Hs) as (_ & Hps & _ & Hmod).
  apply Z.mod_divide; [lia|]. etrans; [exact Hal|]. destruct (Z.eq_dec (Z.min s 8) 0) as [E|E]; [|by apply Z.mod_divide].
  rewrite E, Zmod_0_r in Hmod. rewrite Hmod. apply Z.divide_0_r.
Qed.
End Write.

(** ** Reading the values back *)

(** A key column reads the value [v] in column [id]. *)
Definition reads (c : DataChunk) (id : Z) (ty : type_id) (v : KeyEncoder.value) : Prop :=
  ∃ ptr, Chunk.Get c id = Ret ptr ∧ v = KeyNormEncoder.read_value c ptr ty.

Lemma read_integer c id v :
  has_field c id (le_bytes 4 v) → - 2 ^ 31 ≤ v < 2 ^ 31 →
  reads c id INTEGER (VSigned 4 v).
Proof.
  intros (o & Hg & Hr) Hv. exists o. split; [done|]. symmetry. cbn [KeyNormEncoder.read_value]. do 2 f_equal.
  rewrite length_le_bytes in Hr. unfold load. rewrite Hr, le_val_le_bytes. change (256 ^ Z.of_nat 4) with (2 ^ 32).
  unfold to_signed. change (2 ^ (32 - 1)) with (2 ^ 31). destruct (Z.le_gt_cases 0 v).
  - rewrite Z.mod_small by lia. by rewrite (proj2 (Z.ltb_lt _ _)) by lia.
  - assert (E : v mod 2 ^ 32 = v + 2 ^ 32) by (symmetry; apply (Z.mod_unique _ _ (-1)); lia).
    rewrite E, (proj2 (Z.ltb_ge _ _)) by lia. lia.
Qed.

(** A SMALLINT key on a column of four bytes reads the low half. *)
Lemma read_smallint c id v : has_field c id (le_bytes 4 v) → reads c id SMALLINT (VSigned 2 (to_signed 16 (v mod 2 ^ 16))).
Proof.
  intros (o & Hg & Hr). exists o. split; [done|]. symmetry. cbn [KeyNormEncoder.read_value]. do 2 f_equal. unfold load.
  rewrite length_le_bytes in Hr. rewrite (read_bytes_prefix c o 2 4), Hr by lia.
  change (take 2 (le_bytes 4 v)) with (le_bytes 2 v). by rewrite le_val_le_bytes.
Qed.

(** A string of at most twelve bytes. *)
Lemma read_string c id uninit name :
  has_field c id (DataChunkBuilder.entry_of uninit name) → length (ve_inline uninit) = 12%nat → (length name ≤ 12)%nat →
  reads c id VARCHAR (VSpan name).
Proof.
  intros (o & Hg & Hr) Hu Hn. exists o. split; [done|]. symmetry. cbn [KeyNormEncoder.read_value]. f_equal.
  set (e := VarlenEntry_Set uninit name) in *.
  assert (Hi : length (ve_inline e) = 12%nat).
  { subst e. unfold VarlenEntry_Set, INLINE_SIZE_CAP. cbn [ve_inline]. rewrite length_app, length_take, length_drop, Hu. lia. }
  assert (Es : ve_size e = Z.of_nat (length name)) by (apply wrap_small; lia).
  unfold DataChunkBuilder.entry_of, VarlenEntry_bytes in Hr. fold e in Hr.
  rewrite length_app, length_le_bytes, Hi in Hr. change (4 + 12)%nat with 16%nat in Hr.
  assert (H4 : read_bytes c o 4 = le_bytes 4 (ve_size e)).
  { rewrite (read_bytes_prefix c o 4 16), Hr by lia. by rewrite take_app_length' by (by rewrite length_le_bytes). }
  assert (H12 : read_bytes c (o + 4) 12 = ve_inline e).
  { pose proof (read_bytes_app c o 4 12) as Ha. change (4 + 12)%nat with 16%nat in Ha. change (Z.of_nat 4) with 4 in Ha.
    rewrite Hr, H4 in Ha. by apply app_inv_head in Ha. }
  unfold load. rewrite H4, le_val_le_bytes, Es. change (256 ^ Z.of_nat 4) with (2 ^ 32).
  rewrite Z.mod_small, Nat2Z.id by lia. rewrite (read_bytes_prefix c (o + 4) (length name) 12), H12 by lia.
  rewrite <- (VarlenEntry_Set_inline uninit name Hu) at 2; [|lia|].
  - fold e. by rewrite Es, Nat2Z.id.
  - unfold IsInline, INLINE_SIZE_CAP. fold e. rewrite Es. apply Z.leb_le. lia.
Qed.

Lemma entry_of_ok uninit name :
  length (ve_inline uninit) = 12%nat → bytes_ok (ve_inline uninit) → bytes_ok name →
  length (DataChunkBuilder.entry_of uninit name) = 16%nat ∧ bytes_ok (DataChunkBuilder.entry_of uninit name).
Proof.
  intros Hu Hb Hn. unfold DataChunkBuilder.entry_of, VarlenEntry_bytes, VarlenEntry_Set, INLINE_SIZE_CAP. cbn [ve_size ve_inline].
  rewrite !length_app, length_le_bytes, length_take, length_drop, Hu. split; [lia|].
  apply Forall_app. split; [apply le_bytes_ok|]. apply Forall_app. split; [by apply Forall_take|by apply Forall_drop].
Qed.

(** The bytes of a [VarlenEntry] before it is set. *)
Definition uninit_entry (uninit : VarlenEntry) : Prop := length (ve_inline uninit) = 12%nat ∧ bytes_ok (ve_inline uninit).

(** An oid and a name written to their columns are what a key reads. *)
Lemma write_oid ids sizes c oc oid :
  NoDup ids → Z.of_nat (length ids) < 2 ^ 32 → wf_chunk ids sizes c → field ids sizes oc 4 → 0 ≤ oid < 2 ^ 31 →
  let c' := Chunk.Write c oc (le_bytes 4 oid) in wf_chunk ids sizes c' ∧ reads c' oc INTEGER (VSigned 4 oid).
Proof.
  intros Hnd Hlen Hwf Hoc Ho c'. destruct (wf_write ids sizes Hnd Hlen c oc (le_bytes 4 oid) Hwf) as (W & F & _).
  - exists 4. by rewrite length_le_bytes.
  - apply le_bytes_ok.
  - split; [exact W|]. apply (read_integer _ _ _ F). lia.
Qed.

Lemma write_oid_name ids sizes c uninit oc nc oid name :
  NoDup ids → Z.of_nat (length ids) < 2 ^ 32 → wf_chunk ids sizes c → field ids sizes oc 4 → field ids sizes nc 16 → oc ≠ nc →
  0 ≤ oid < 2 ^ 31 → uninit_entry uninit → (length name ≤ 12)%nat → bytes_ok name →
  let c' := Chunk.Write (Chunk.Write c oc (le_bytes 4 oid)) nc (DataChunkBuilder.entry_of uninit name) in
  wf_chunk ids sizes c' ∧ reads c' oc INTEGER (VSigned 4 oid) ∧ reads c' nc VARCHAR (VSpan name).
Proof.
  intros Hnd Hlen Hwf Hoc Hnc Hne Ho [Hu1 Hu2] Hn Hb c'. destruct (entry_of_ok uninit name Hu1 Hu2 Hb) as [L B].
  destruct (write_all_ok ids sizes Hnd Hlen [(oc, le_bytes 4 oid); (nc, DataChunkBuilder.entry_of uninit name)] c Hwf) as (W & F).
  - repeat constructor; set_solver.
  - constructor; [|constructor; [|constructor]].
    + split; [exists 4; cbn [fst snd]; by rewrite length_le_bytes|apply le_bytes_ok].
    + split; [exists 16; cbn [snd]; by rewrite L|exact B].
  - apply Forall_cons in F as [F1 F]. apply Forall_cons in F as [F2 _]. split; [exact W|]. split.
    + apply (read_integer _ _ _ F1). lia.
    + by apply (read_string _ _ uninit).
Qed.

(** ** The chunks of the catalog tables *)
Lemma layout_loop_mem sizes h o hs i total h' fe :
  layout_loop sizes h o hs i total = Ret (h', fe) → mem_ok h → mem_ok h'.
Proof.
  revert h i total; induction sizes as [|s sizes IH]; intros h i total; cbn [layout_loop]; [by intros [= <- _]|].
  intros E Hm. apply bind_inv in E as (? & _ & E). apply IH in E; [done|].
  apply write_bytes_ok; [done|apply le_bytes_ok].
Qed.

Lemma layout_mem ids sizes l dest :
  DataChunkLayout_make ids sizes = Ret l → mem_ok dest → mem_ok (CreateDataChunk l dest).
Proof.
  intros E Hd. unfold DataChunkLayout_make in E. apply bind_inv in E as ([h total] & E & [= <-]).
  unfold CreateDataChunk. cbn [dl_header_underlying dl_header_size].
  apply write_bytes_ok; [done|]. apply read_bytes_ok. apply write_bytes_ok; [|apply le_bytes_ok].
  eapply layout_loop_mem; [exact E|]. apply write_bytes_ok; [apply write_bytes_ok; [apply mem_ok_empty|apply le_bytes_ok]|].
  clear. induction ids as [|x ids IH]; [constructor|]. cbn [fmap list_fmap concat]. apply Forall_app. split; [apply le_bytes_ok|exact IH].
Qed.

Lemma catalog_chunk t cols values fresh :
  Builder.schema_columns t = Some cols → values (Schema_make cols) ≡ₚ (map_to_list (Schema_make cols)).*2 → mem_ok fresh →
  ∃ l ids sizes, DataChunkLayout_of_schema values (Schema_make cols) = Ret l ∧ NoDup ids ∧ Z.of_nat (length ids) < 2 ^ 32 ∧
    wf_chunk ids sizes (CreateDataChunk l fresh) ∧ (∀ c, c ∈ cols → field ids sizes (sc_oid c) (SizeOf (sc_type c))) ∧
    ∀ c, wf_chunk ids sizes c → ∃ offs total, chunk_at (Schema_make cols) c ids sizes offs total.
Proof.
  intros Ht HP Hm. destruct (catalog_columns_ok t cols Ht) as [Hok Hlen].
  assert (Hcnt : Z.of_nat (length cols) ≤ 2000) by (destruct t; try discriminate Ht; injection Ht as <-; vm_compute; congruence).
  assert (Hids : Forall (λ id, 0 ≤ id < 2 ^ 32) (sc_oid <$> cols)).
  { apply (bool_decide_unpack _). destruct t; try discriminate Ht; injection Ht as <-; vm_compute; reflexivity. }
  apply andb_true_iff in Hok as [[Hnd Hsz]%andb_true_iff _]. apply bool_decide_eq_true in Hnd.
  pose proof (values_place cols _ Hlen Hnd HP) as HP'. set (vs := values _) in *.
  set (ids := sc_oid <$> vs). set (sizes := (λ c, to_u16 (sc_type_size c)) <$> vs).
  assert (Eids : ids ≡ₚ sc_oid <$> cols) by (subst ids; by rewrite HP', place_oids).
  assert (Hszc : ∀ c, c ∈ vs → to_u16 (sc_type_size c) = SizeOf (sc_type c)).
  { intros c Hc. rewrite HP' in Hc. apply elem_of_lookup_imap in Hc as (i & c0 & -> & Hc0). cbn.
    apply list_elem_of_lookup_2, list_elem_of_In in Hc0. rewrite forallb_forall in Hsz. specialize (Hsz c0 Hc0).
    apply Z.eqb_eq in Hsz. rewrite Hsz. apply wrap_small. pose proof (SizeOf_range (sc_type c0)). lia. }
  destruct (layout_make_ok ids sizes) as (l & total & El & _ & _ & _ & _ & _ & Hk).
  { apply Forall_fmap, Forall_forall. intros c Hc. cbn. rewrite (Hszc c Hc). apply SizeOf_valid. }
  { subst ids sizes. by rewrite !length_fmap. }
  { by rewrite Eids. }
  { rewrite Eids, length_fmap. lia. }
  exists l, ids, sizes. split; [exact El|]. split; [by rewrite Eids|]. split; [rewrite Eids, length_fmap; lia|]. split; [|split].
  - split; [by eapply layout_mem|]. eauto.
  - intros c Hc. apply list_elem_of_lookup_1 in Hc as [i Hi].
    assert (Hv : SetPosition c (0 + Z.of_nat i) ∈ vs) by (rewrite HP'; apply elem_of_lookup_imap; by exists i, c).
    pose proof (Hszc _ Hv) as Es. apply list_elem_of_lookup_1 in Hv as [j Hj].
    exists j. subst ids sizes. rewrite !list_lookup_fmap, Hj. cbn. split; [done|]. f_equal. exact Es.
  - intros c (_ & offs & tot & Hc). exists offs, tot. split; [exact Hc|by rewrite Eids|rewrite Eids, length_fmap; lia|].
    intros i id Hi. subst ids sizes. rewrite list_lookup_fmap in Hi |- *. destruct (vs !! i) as [col|] eqn:Hv; [|done].
    injection Hi as <-. exists col. pose proof (list_elem_of_lookup_2 _ _ _ Hv) as Hin. split.
    + rewrite Schema_make_map by done. apply elem_of_list_to_map_1.
      * rewrite <- list_fmap_compose. change (fst ∘ (λ c, (sc_oid c, c))) with sc_oid. by rewrite place_oids.
      * apply list_elem_of_fmap. exists col. split; [done|]. by rewrite <- HP'.
    + cbn. f_equal. rewrite (Hszc col Hin). rewrite HP' in Hin. apply elem_of_lookup_imap in Hin as (k & c0 & -> & Hc0). cbn.
      apply list_elem_of_lookup_2, list_elem_of_In in Hc0. rewrite forallb_forall in Hsz. specialize (Hsz c0 Hc0). by apply Z.eqb_eq in Hsz.
Qed.
