(* ===== verification/CatalogStore.v ===== *)
(** * What the catalogs use of tables, indexes and transactions

    [CatalogStore]: the calls the catalogs make, each named by the oid of the
    table or index it goes to.  [engine_store] implements it with the tables of
    [Table.v], the B-link trees of [Index.v] and the version manager of
    [Txn.v], the schemas being those of [Builder.v], for the catalog of each
    database. *)

From stdpp Require Import strings.
From S2P Require Import Prelude Bytes Shared Memory CatalogCommon AccessTypes DataChunk Fsm.
From S2P Require Import BTree Index Pax Arena Txn Table Builder.
Import TransactionContext.

Class CatalogStore (st : Type) := {
  (** [layout->CreateDataChunk()] with the layout of the table's schema. *)
  create_chunk : CatalogTableOid → st → outcome DataChunk;
  (** [Table::Insert] and [Table::DeleteUndoRaw]. *)
  table_insert : CatalogTableOid → st → TransactionContext → DataChunk → outcome (TupleId * st * TransactionContext);
  table_delete_raw : CatalogTableOid → st → TransactionContext → TupleId → outcome (bool * st * TransactionContext);
  (** [BTreeIndex::InsertUnique] ([false]: failed), [Insert] and [Get]. *)
  index_insert_unique : CatalogTableOid → st → TransactionContext → DataChunk → Z → outcome (bool * st);
  index_insert : CatalogTableOid → st → DataChunk → Z → outcome st;
  index_get : CatalogTableOid → st → DataChunk → outcome (list Z);
  (** [GetTidForModify] ([None]: failed) and [GetTidExists] on the tuples of a
      table. *)
  tid_for_modify : st → TransactionContext → list TupleId → CatalogTableOid → outcome (option TupleId);
  tid_exists : st → TransactionContext → list TupleId → CatalogTableOid → outcome bool
}.

(** The tables and the indexes of a database. *)
Definition database_tables : list CatalogTableOid :=
  [PG_NAMESPACE; PG_CLASS; PG_ATTRIBUTE; PG_INDEX; PG_TYPE; PG_CONSTRAINT; PG_LANGUAGE; PG_PROC].

Definition database_indexes : list CatalogTableOid :=
  [PG_INDEX_NAMESPACE_NSPOID; PG_INDEX_NAMESPACE_NSPNAME; PG_INDEX_CLASS_RELOID; PG_INDEX_CLASS_RELNAME;
   PG_INDEX_CLASS_RELNAMESPACE; PG_INDEX_ATTRIBUTE_ATTNUM; PG_INDEX_ATTRIBUTE_ATTRELID_ATTNAME;
   PG_INDEX_INDEX_INDOID; PG_INDEX_INDEX_INDRELID; PG_INDEX_TYPE_TYPOID; PG_INDEX_TYPE_TYPNAME;
   PG_INDEX_TYPE_TYPNAMESPACE; PG_INDEX_CONSTRAINT_CONOID; PG_INDEX_CONSTRAINT_CONNAME;
   PG_INDEX_CONSTRAINT_CONNAMESPACE; PG_INDEX_CONSTRAINT_CONRELID; PG_INDEX_CONSTRAINT_CONINDID;
   PG_INDEX_CONSTRAINT_CONFRELID; PG_INDEX_LANGUAGE_LANOID; PG_INDEX_LANGUAGE_LANNAME; PG_INDEX_PROC_PROOID;
   PG_INDEX_PROC_PRONAME].

(** [Builder::CreateDatabaseCatalog], by the oid of the database. *)
Class CatalogBuilder (st : Type) := create_database_catalog : Z → st → outcome st.

(** ** The engine *)
Section Engine.
Context (try_dequeue : list Z → option (Z * list Z)) (others : nat → heap → heap).
Context (file : PageIdentifier → mem).
Context (utf8proc_decompose utf8proc_reencode : list Z → bool → Z + list Z).
(** The iteration order of the hash map of a schema, and the bytes of a fresh
    chunk. *)
Context (values : Schema → list SchemaColumn) (fresh : mem).

(** The pages of the tables and what transactions share; the page counters of
    the index files ([FreeSpaceManagerIndex] is process-wide, so the trees that
    two databases build over one file share its counter); the tree of each
    index of each database, with the pages it reserved.  The two indexes of the
    catalog of databases are under database 0. *)
Record engine := mkEngine {
  e_store : Table.store;
  e_page_ids : gmap Z Z;
  e_trees : gmap (Z * Z) BTree.btree
}.

Definition set_store (e : engine) (s : Table.store) : engine := mkEngine s (e_page_ids e) (e_trees e).

Definition catalog_schema (t : CatalogTableOid) : outcome Schema :=
  match Builder.schema_columns t with
  | Some cols => Ret (Schema_make cols)
  | None => Undefined "not a table"
  end.

Definition catalog_table (t : CatalogTableOid) : outcome Table.Table :=
  schema ← catalog_schema t;
  Table.make values schema (CatalogTableOid_val t) (CatalogTableOid_val PG_VARLEN).

Definition heap_table (ix : CatalogTableOid) : outcome CatalogTableOid :=
  match Builder.index_table ix with
  | Some t => Ret t
  | None => Undefined "not an index"
  end.

(** A tree with the page counters as they are. *)
Definition with_ids (ids : gmap Z Z) (t : BTree.btree) : BTree.btree :=
  BTree.mkBTree (BTree.pages t) (BTree.root_id_ t) ids (BTree.tl t).

Definition database_tree (db : Z) (e : engine) (ix : CatalogTableOid) : outcome BTree.btree :=
  match e_trees e !! (db, CatalogTableOid_val ix) with
  | Some t => Ret (with_ids (e_page_ids e) t)
  | None => Undefined "not an index"
  end.

(** The operations of an index reserve pages of its own file only. *)
Definition set_tree (db : Z) (e : engine) (ix : CatalogTableOid) (t : BTree.btree) : engine :=
  mkEngine (e_store e)
    (<[CatalogTableOid_val ix := default 1 (BTree.page_ids t !! CatalogTableOid_val ix)]> (e_page_ids e))
    (<[(db, CatalogTableOid_val ix) := t]> (e_trees e)).

(** The constructors of the tables and the trees in [CreateDatabaseCatalog];
    the tables of a second database are over the same pages. *)
Fixpoint make_tables (ts : list CatalogTableOid) : outcome unit :=
  match ts with
  | [] => Ret tt
  | t :: ts => _ ← catalog_table t; make_tables ts
  end.

Fixpoint make_trees (db : Z) (ixs : list CatalogTableOid) (e : engine) : outcome engine :=
  match ixs with
  | [] => Ret e
  | ix :: ixs => t ← BTree.BTreeIndex (CatalogTableOid_val ix) (e_page_ids e); make_trees db ixs (set_tree db e ix t)
  end.

Definition CreateDatabaseCatalog (db : Z) (e : engine) : outcome engine :=
  _ ← make_tables database_tables; make_trees db database_indexes e.

(** The tables and trees of the constructor of [Catalog]. *)
Definition CreateCatalog (e : engine) : outcome engine :=
  _ ← make_tables [PG_DATABASES]; make_trees 0 [PG_INDEX_DATABASE_DATOID; PG_INDEX_DATABASE_DATNAME] e.

#[export] Instance engine_store (db : Z) : CatalogStore engine := {
  create_chunk t e :=
    schema ← catalog_schema t;
    layout ← DataChunkLayout_of_schema values schema;
    Ret (CreateDataChunk layout fresh);
  table_insert t e txn chunk :=
    tbl ← catalog_table t;
    '(tup, st, txn) ← Table.Insert try_dequeue file tbl (e_store e) txn chunk;
    Ret (tup, set_store e st, txn);
  table_delete_raw t e txn tup_id :=
    tbl ← catalog_table t;
    '(ok, s, txn) ← Table.DeleteUndoRaw try_dequeue others tbl (Table.st_system (e_store e)) txn tup_id;
    Ret (ok, set_store e (Table.mkStore s (Table.st_pages (e_store e)) (Table.st_fsm (e_store e))), txn);
  index_insert_unique ix e txn chunk value :=
    t ← database_tree db e ix;
    heap ← heap_table ix;
    '(t, ok) ← IndexInsertUnique utf8proc_decompose utf8proc_reencode (CatalogTableOid_val ix) (AttrsFor ix)
                 (λ tid, HasUniqueConflict (Table.st_system (e_store e)) txn (mkTupleId tid) (CatalogTableOid_val heap))
                 t chunk value;
    Ret (ok, set_tree db e ix t);
  index_insert ix e chunk value :=
    t ← database_tree db e ix;
    t ← IndexInsert utf8proc_decompose utf8proc_reencode (CatalogTableOid_val ix) (AttrsFor ix) t chunk value;
    Ret (set_tree db e ix t);
  index_get ix e chunk :=
    t ← database_tree db e ix;
    IndexGet utf8proc_decompose utf8proc_reencode (AttrsFor ix) t chunk;
  tid_for_modify e txn tids t := GetTidForModify (Table.st_system (e_store e)) txn tids (CatalogTableOid_val t);
  tid_exists e txn tids t := GetTidExists (Table.st_system (e_store e)) tids (CatalogTableOid_val t)
}.

#[export] Instance engine_builder : CatalogBuilder engine := CreateDatabaseCatalog.
End Engine.
