(* ===== verification/CatalogRows.v ===== *)
(** * The rows of the catalog's tables

    The tables of the catalog meet the conditions of the theorems on tables:
    a row whose page is there is stored, and is found under its tuple id. *)

From stdpp Require Import strings.
From S2P Require Import Prelude Bytes Shared Memory CatalogCommon AccessTypes DataChunk Fsm.
From S2P Require Import ChunkUtils Pax Arena Undo Redo Txn Table HeapFacts UndoFacts Mvcc TableFacts TableTheorems.
From S2P Require Import Builder BuilderTheorems CatalogChunks CatalogStore.
Import TransactionContext.

(** ** Rows by tuple id *)

(** The newest version of a row, by its tuple id. *)
Lemma GetDelta_row t psizes sys page pid idx m arr hist :
  row_state t psizes sys page pid idx m arr hist → idx < 2 ^ 32 →
  PageVersionManager.GetDelta (s_heap sys) (s_versions sys) (TupleId_make idx pid) (Table.oid_ t) = Ret (head (s_heap sys) arr idx).
Proof.
  intros [_ _ Hidx Hpid Hok _ [Harr _ Hin] _] Hi. unfold PageVersionManager.GetDelta, head.
  destruct (TupleId_roundtrip idx pid) as [-> ->]; [lia|done|].
  change (PageVersionManager.GetUnsafe (s_versions sys) (mkPageIdentifier (Table.oid_ t) pid)) with
    (PageVersionManager.Get (s_versions sys) (mkPageIdentifier (Table.oid_ t) pid)). rewrite <- Harr.
  destruct (Z.eqb_spec arr 0) as [|Hne]; [done|]. destruct Hin as [|(n & Hin & Hn)]; [done|].
  by rewrite (elem_ok _ _ _ _ Hok arr n idx Hin), bind_Ret by lia.
Qed.

(** [GetTidExists] finds a row whose newest version is no deletion. *)
Lemma row_exists t psizes sys page pid idx m arr hist :
  row_state t psizes sys page pid idx m arr hist → idx < 2 ^ 32 → match hist with v :: _ => v_type v ≠ DELETE | [] => True end →
  GetTidExists sys [TupleId_make idx pid] (Table.oid_ t) = Ret true.
Proof.
  intros Hr Hi Hd. cbn [GetTidExists]. rewrite (GetDelta_row _ _ _ _ _ _ _ _ _ Hr Hi), bind_Ret.
  pose proof (rs_chain _ _ _ _ _ _ _ _ _ Hr) as Hc. destruct hist as [|v hist]; cbn [chain] in Hc.
  - by rewrite Hc.
  - destruct Hc as (_ & n & next & _ & _ & (Ht & _) & _). unfold UndoRecord.IsDeleted. rewrite Ht.
    rewrite bool_decide_eq_false_2 by congruence. by rewrite orb_true_r.
Qed.

(** Tuples that are all one row, before they are deleted or modified: none,
    refused for a conflict, passed over when deleted. *)
Lemma row_for_modify t psizes sys txn page pid idx m arr hist tids :
  row_state t psizes sys page pid idx m arr hist → idx < 2 ^ 32 → txn_ok txn (hm_arenas m) →
  Forall (λ tid, tid = TupleId_make idx pid) tids →
  GetTidForModify sys txn tids (Table.oid_ t) =
    Ret (if bool_decide (tids = []) then Some INVALID_TID
         else if write_conflict (start_time_ txn) (finish_time_ txn) hist then None
         else if head_deleted false hist then Some INVALID_TID else Some (TupleId_make idx pid)).
Proof.
  intros Hr Hi [T1 T2 _] HF. pose proof (rs_chain _ _ _ _ _ _ _ _ _ Hr) as Hc. pose proof (rs_heap _ _ _ _ _ _ _ _ _ Hr) as Hok.
  induction HF as [|tid tids -> _ IH]; [done|]. cbn [GetTidForModify]. rewrite (GetDelta_row _ _ _ _ _ _ _ _ _ Hr Hi), bind_Ret.
  rewrite bool_decide_eq_false_2 by done. destruct hist as [|v hist]; cbn [chain] in Hc; [by rewrite Hc|].
  destruct Hc as (-> & n & next & Hin & _ & (F1 & F2 & _) & _).
  destruct (rec_range _ _ _ _ Hok _ Hin) as (B1 & _). cbn [fst] in B1. rewrite (proj2 (Z.eqb_neq (v_addr v) 0)) by lia.
  unfold undo_conflict, UndoRecord.IsDeleted. rewrite F1, F2, HasConflict_spec; [|rewrite <- F2; apply (load_range 8), Hok|done|done].
  cbn [write_conflict head_deleted]. cbn [write_conflict head_deleted] in IH.
  destruct (negb (v_ts v =? finish_time_ txn) && (start_time_ txn <? v_ts v)); [done|].
  destruct (v_type v); try done. cbn [negb]. rewrite IH. by destruct tids.
Qed.

(** A row whose newest version is a deletion is not found. *)
Lemma row_found t psizes sys page pid idx m arr hist :
  row_state t psizes sys page pid idx m arr hist → idx < 2 ^ 32 →
  GetTidExists sys [TupleId_make idx pid] (Table.oid_ t) = Ret (negb (head_deleted false hist)).
Proof.
  intros Hr Hi. destruct (head_deleted false hist) eqn:Hd; cbn [negb].
  - destruct hist as [|v hist]; [done|]. cbn in Hd. apply bool_decide_eq_true in Hd.
    cbn [GetTidExists]. rewrite (GetDelta_row _ _ _ _ _ _ _ _ _ Hr Hi), bind_Ret.
    pose proof (rs_chain _ _ _ _ _ _ _ _ _ Hr) as Hc. pose proof (rs_heap _ _ _ _ _ _ _ _ _ Hr) as Hok. cbn [chain] in Hc.
    destruct Hc as (-> & n & next & Hin & _ & (F1 & _) & _). destruct (rec_range _ _ _ _ Hok _ Hin) as (B1 & _). cbn [fst] in B1.
    rewrite (proj2 (Z.eqb_neq (v_addr v) 0)) by lia. unfold UndoRecord.IsDeleted. by rewrite F1, Hd.
  - apply (row_exists _ _ _ _ _ _ _ _ _ Hr Hi). destruct hist as [|v hist]; [done|]. cbn in Hd. by apply bool_decide_eq_false in Hd.
Qed.

(** ** The layout of a catalog table *)
Section Catalog.
Context (values : Schema → list SchemaColumn).
Hypothesis values_ok : ∀ s : Schema, values s ≡ₚ (map_to_list s).*2.

Definition psizes_of (cols : list SchemaColumn) : list Z := sc_type_size <$> cols.

Lemma catalog_layout t cols :
  Builder.schema_columns t = Some cols →
  layout_ok (psizes_of cols) (PaxLayout.make (psizes_of cols)) ∧ schema_layout (Schema_make cols) (psizes_of cols) ∧
  max_rows (psizes_of cols) ≤ 65536.
Proof.
  intros Ht. destruct (catalog_columns_ok t cols Ht) as [Hok Hlen].
  apply andb_true_iff in Hok as [[Hnd _]%andb_true_iff _]. apply bool_decide_eq_true in Hnd.
  assert (Hc : bool_decide (Forall valid_size (psizes_of cols)) && (HEADER_SIZE + pads (psizes_of cols) <=? DB7_PAGE_SIZE)
    && (0 <? zsum (psizes_of cols)) && (zsum (psizes_of cols) <=? DB7_PAGE_SIZE) && (max_rows (psizes_of cols) <=? 65536)
    && (length cols <? 1000)%nat = true)
    by (destruct t; try discriminate Ht; injection Ht as <-; vm_compute; reflexivity).
  repeat (apply andb_true_iff in Hc as [Hc ?]). apply bool_decide_eq_true in Hc.
  split; [apply make_ok; [done|lia|lia]|]. split; [|lia].
  assert (HS : ∀ id col, Schema_make cols !! id = Some col → ∃ (i : nat) c, cols !! i = Some c ∧ col = SetPosition c (Z.of_nat i) ∧ id = sc_oid c).
  { intros id col. rewrite Schema_make_map by done. intros Hl%elem_of_list_to_map_2.
    apply list_elem_of_fmap in Hl as (x & [= -> ->] & (i & c & -> & Hi)%elem_of_lookup_imap). by exists i, c. }
  split.
  - intros id col (i & c & Hi & -> & ->)%HS. cbn [SetPosition sc_position sc_type_size]. pose proof (lookup_lt_Some _ _ _ Hi).
    assert ((length cols < 1000)%nat) by (by apply Nat.ltb_lt). split; [lia|]. rewrite Nat2Z.id. unfold psizes_of. by rewrite list_lookup_fmap, Hi.
  - intros id id' col col' (i & c & Hi & -> & ->)%HS (i' & c' & Hi' & -> & ->)%HS. cbn [SetPosition sc_position].
    intros ->%Nat2Z.inj. congruence.
Qed.

(** ** Storing a row *)
Context (try_dequeue : list Z → option (Z * list Z)) (steps : nat → heap → heap) (file : PageIdentifier → mem).
Context (dec reenc : list Z → bool → Z + list Z) (fresh : mem) (db : Z).

#[local] Hint Extern 0 (CatalogStore engine) =>
  exact (engine_store try_dequeue steps file dec reenc values fresh db) : typeclass_instances.

(** The page the next row goes to. *)
Definition next_row_page (e : engine) (c : DataChunk) : Z := (FreeSpaceManagerVarlen.Get (Table.st_fsm (e_store e)) (Chunk.GetSize c)).1.

(** That page is in memory with room for a row, its version array is in order,
    and so is the heap. *)
Record row_room (t : CatalogTableOid) (cols : list SchemaColumn) (e : engine) (txn : TransactionContext) (c : DataChunk)
    (page : Page) (m : heap_map) (arr : Z) : Prop := {
  rr_page : Table.st_pages (e_store e) !! mkPageIdentifier (CatalogTableOid_val t) (next_row_page e c) = Some page;
  rr_pid : 0 < next_row_page e c < UINT32_MAX;
  rr_count : PaxLayout.header_count (data_ page) + 1 < max_rows (psizes_of cols);
  rr_heap : heap_ok (s_heap (Table.st_system (e_store e))) (hm_arenas m) (hm_arrays m) (hm_recs m);
  rr_data : mem_ok (data_ page);
  rr_versions : versions_at (hm_arrays m) (Table.st_system (e_store e)) page
    (mkPageIdentifier (CatalogTableOid_val t) (next_row_page e c)) (max_rows (psizes_of cols)) arr;
  rr_txn : txn_ok txn (hm_arenas m);
  rr_brk : h_brk (s_heap (Table.st_system (e_store e))) < 2 ^ 62;
  rr_segment : segment_ready try_dequeue (s_heap (Table.st_system (e_store e))) (s_pool (Table.st_system (e_store e))) (hm_arenas m) 40
}.

(** The row is stored at the end of the page, and its tuple is found. *)
Lemma table_insert_stored t cols e txn c page m arr ids sizes offs total :
  Builder.schema_columns t = Some cols → chunk_at (Schema_make cols) c ids sizes offs total → mem_ok c →
  row_room t cols e txn c page m arr →
  let tup := TupleId_make (PaxLayout.header_count (data_ page)) (next_row_page e c) in
  ∃ e1 txn1, table_insert t e txn c = Ret (tup, e1, txn1) ∧ 0 ≤ GetValue tup < 2 ^ 64 ∧
    GetTidExists (Table.st_system (e_store e1)) [tup] (CatalogTableOid_val t) = Ret true ∧
    start_time_ txn1 = start_time_ txn ∧ finish_time_ txn1 = finish_time_ txn.
Proof.
  intros Ht Hc Hm [R1 R2 R3 R4 R5 R6 R7 R8 R9] tup. destruct (catalog_layout t cols Ht) as (L1 & L2 & L3).
  set (T := Table.mkTable (Schema_make cols) (CatalogTableOid_val t) (CatalogTableOid_val PG_VARLEN) (PaxLayout.make (psizes_of cols))).
  destruct (table_insert_ok try_dequeue file T (psizes_of cols) (e_store e) txn page m arr c ids sizes offs total R1 R2 L1 L2 R3 R4 R5 R6
    R7 R8 Hc Hm R9) as (r & st' & txn' & page' & m' & arr' & HI & _ & HS & HR & _).
  assert (Hi0 : 0 ≤ PaxLayout.header_count (data_ page)) by (apply (load_range 4), R5).
  exists (set_store e st'), txn'. split_and!.
  - unfold table_insert, engine_store, catalog_table, catalog_schema. rewrite Ht, bind_Ret, (catalog_table_made t cols values _ Ht (values_ok _)), bind_Ret.
    fold (psizes_of cols). fold T. unfold next_row_page in tup. by rewrite HI, bind_Ret.
  - subst tup. rewrite TupleId_make_value by lia. unfold UINT32_MAX in R2. lia.
  - subst tup. rewrite TupleId_make_value by lia. unfold UINT32_MAX in R2. lia.
  - apply (row_exists T _ _ _ _ _ _ _ _ HR); [lia|done].
  - by apply HS.
  - by apply HS.
Qed.
End Catalog.

(** ** Deleting a row *)

(** The table of a catalog. *)
Definition table_of (t : CatalogTableOid) (cols : list SchemaColumn) : Table.Table :=
  Table.mkTable (Schema_make cols) (CatalogTableOid_val t) (CatalogTableOid_val PG_VARLEN) (PaxLayout.make (psizes_of cols)).

(** A row of the table, with what deleting it needs of the heap. *)
Record row_ready (try_dequeue : list Z → option (Z * list Z)) (t : CatalogTableOid) (cols : list SchemaColumn) (e : engine)
    (txn : TransactionContext) (page : Page) (pid idx : Z) (m : heap_map) (arr : Z) (hist : list version) : Prop := {
  rd_cols : Builder.schema_columns t = Some cols;
  rd_row : row_state (table_of t cols) (psizes_of cols) (Table.st_system (e_store e)) page pid idx m arr hist;
  rd_pid : 0 < pid;
  rd_txn : txn_ok txn (hm_arenas m);
  rd_brk : h_brk (s_heap (Table.st_system (e_store e))) < 2 ^ 62;
  rd_segment : segment_ready try_dequeue (s_heap (Table.st_system (e_store e))) (s_pool (Table.st_system (e_store e))) (hm_arenas m) 40
}.

Lemma table_delete_raw_ok try_dequeue file dec reenc values fresh db t cols e txn page pid idx m arr hist :
  (∀ s : Schema, values s ≡ₚ (map_to_list s).*2) →
  row_ready try_dequeue t cols e txn page pid idx m arr hist →
  let refuse := raw_refused txn hist in
  ∃ r e' txn' m' arr',
    table_delete_raw (CatalogStore := engine_store try_dequeue no_others file dec reenc values fresh db) t e txn (TupleId_make idx pid)
      = Ret (negb refuse, e', txn') ∧
    e_trees e' = e_trees e ∧ e_page_ids e' = e_page_ids e ∧ Table.st_pages (e_store e') = Table.st_pages (e_store e) ∧
    step_ok (Table.st_system (e_store e)) (Table.st_system (e_store e')) txn txn' m m' arr' idx ∧
    row_state (table_of t cols) (psizes_of cols) (Table.st_system (e_store e')) page pid idx m' arr'
      (if refuse then hist else mkVersion r DELETE (finish_time_ txn) (row_of (table_of t cols) (psizes_of cols) (data_ page) idx) :: hist).
Proof.
  intros Hvals [Ht [L1 L2 L3 L4 L5 L6 L7 L8] _ Htxn Hb Hr] refuse. destruct m as [arenas arrays recs]. cbn [hm_arenas hm_arrays hm_recs] in *.
  destruct (DeleteUndoRaw_ok try_dequeue (table_of t cols) (psizes_of cols) L1 ltac:(lia) (Table.st_system (e_store e)) txn arenas arrays recs
    page pid idx arr hist) as (r & sys' & txn' & arenas' & arrays' & recs' & arr' & HD & Hpost & Hch); try done.
  exists r, (set_store e (Table.mkStore sys' (Table.st_pages (e_store e)) (Table.st_fsm (e_store e)))), txn', (mkHeapMap arenas' arrays' recs'), arr'.
  split_and!; [|done..|by eapply op_post_step|].
  - unfold table_delete_raw, engine_store, catalog_table, catalog_schema.
    rewrite Ht, bind_Ret, (catalog_table_made t cols values _ Ht (Hvals _)), bind_Ret. fold (psizes_of cols). fold (table_of t cols).
    by rewrite HD.
  - destruct Hpost. by split.
Qed.
