(* ===== verification/CatalogMonad.v ===== *)
(** * The monad of the catalogs

    An operation of a catalog runs over the catalog's own fields, the store of
    tables and indexes and the transaction; a step of the store that aborts or
    throws ends it.  [ResultObj] is the result object of the code, whose
    failures are values. *)

From stdpp Require Import strings.
From Stdlib Require Import Ascii.
From S2P Require Import Prelude Bytes Shared Memory CatalogCommon AccessTypes DataChunk.
From S2P Require Import Txn CatalogStore.
Import TransactionContext.

(** result_object.hpp. *)
Inductive ResultObj (A : Type) : Type := Ok (value : A) | Fail (message : string).
Arguments Ok {A} value.
Arguments Fail {A} message.

(** The bytes of a [std::string]. *)
Definition string_bytes (s : string) : list Z := (λ c, Z.of_N (N_of_ascii c)) <$> String.list_ascii_of_string s.

Section Monad.
(** [C]: the fields of the catalog. *)
Context {C st : Type} `{CatalogStore st}.

Record state := mkState { s_catalog : C; s_store : st; s_txn : TransactionContext }.

Definition M (A : Type) : Type := state → outcome (A * state).

Definition ret {A} (a : A) : M A := λ s, Ret (a, s).
Definition bind {A B} (m : M A) (f : A → M B) : M B := λ s, '(a, s) ← m s; f a s.

(** [if (!res.success) return Fail(message)]. *)
Definition require {A} (success : bool) (message : string) (k : M (ResultObj A)) : M (ResultObj A) :=
  if success then k else ret (Fail message).

Definition lift {A} (f : st → TransactionContext → outcome (A * st * TransactionContext)) : M A :=
  λ s, '(a, store, txn) ← f (s_store s) (s_txn s); Ret (a, mkState (s_catalog s) store txn).

(** A computation that uses neither the catalog nor the store. *)
Definition compute {A} (o : outcome A) : M A := λ s, a ← o; Ret (a, s).

Definition NewChunk (t : CatalogTableOid) : M DataChunk :=
  λ s, c ← create_chunk t (s_store s); Ret (c, s).
Definition TableInsert (t : CatalogTableOid) (chunk : DataChunk) : M TupleId :=
  lift (λ store txn, table_insert t store txn chunk).
Definition DeleteUndoRaw (t : CatalogTableOid) (tup_id : TupleId) : M bool :=
  lift (λ store txn, table_delete_raw t store txn tup_id).
Definition InsertUnique (ix : CatalogTableOid) (chunk : DataChunk) (value : Z) : M bool :=
  lift (λ store txn, '(ok, store) ← index_insert_unique ix store txn chunk value; Ret (ok, store, txn)).
(** [BTreeIndex::Insert] succeeds whenever it returns. *)
Definition IndexInsert (ix : CatalogTableOid) (chunk : DataChunk) (value : Z) : M bool :=
  lift (λ store txn, store ← index_insert ix store chunk value; Ret (true, store, txn)).
Definition IndexGet (ix : CatalogTableOid) (chunk : DataChunk) : M (list TupleId) :=
  λ s, l ← index_get ix (s_store s) chunk; Ret (map mkTupleId l, s).
Definition TidForModify (tids : list TupleId) (t : CatalogTableOid) : M (option TupleId) :=
  λ s, r ← tid_for_modify (s_store s) (s_txn s) tids t; Ret (r, s).
Definition TidExists (tids : list TupleId) (t : CatalogTableOid) : M bool :=
  λ s, r ← tid_exists (s_store s) (s_txn s) tids t; Ret (r, s).

(** [next_*_oid_++] on u32 counters. *)
Definition next_oid (get : C → Z) (set : C → Z → C) : M Z := λ s,
  let oid := get (s_catalog s) in
  Ret (oid, mkState (set (s_catalog s) (to_u32 (oid + 1))) (s_store s) (s_txn s)).

(** What a step returns is what the rest runs on. *)
Lemma bind_run {A B} (m : M A) (f : A → M B) s a s' : m s = Ret (a, s') → bind m f s = f a s'.
Proof. intros E. unfold bind. by rewrite E. Qed.

Lemma bind_abort {A B} (m : M A) (f : A → M B) s message : m s = AssertFail message → bind m f s = AssertFail message.
Proof. intros E. unfold bind. by rewrite E. Qed.

Lemma compute_run {A} (o : outcome A) s a : o = Ret a → compute o s = Ret (a, s).
Proof. intros ->. done. Qed.

Lemma TableInsert_run t chunk s tup store txn :
  table_insert t (s_store s) (s_txn s) chunk = Ret (tup, store, txn) →
  TableInsert t chunk s = Ret (tup, mkState (s_catalog s) store txn).
Proof. intros E. unfold TableInsert, lift. by rewrite E. Qed.

Lemma InsertUnique_run ix chunk value s ok store :
  index_insert_unique ix (s_store s) (s_txn s) chunk value = Ret (ok, store) →
  InsertUnique ix chunk value s = Ret (ok, mkState (s_catalog s) store (s_txn s)).
Proof. intros E. unfold InsertUnique, lift. by rewrite E. Qed.

Lemma IndexInsert_run ix chunk value s store :
  index_insert ix (s_store s) chunk value = Ret store →
  IndexInsert ix chunk value s = Ret (true, mkState (s_catalog s) store (s_txn s)).
Proof. intros E. unfold IndexInsert, lift. by rewrite E. Qed.

Lemma IndexGet_run ix chunk s l : index_get ix (s_store s) chunk = Ret l → IndexGet ix chunk s = Ret (map mkTupleId l, s).
Proof. intros E. unfold IndexGet. by rewrite E. Qed.

Lemma TidForModify_run tids t s r : tid_for_modify (s_store s) (s_txn s) tids t = Ret r → TidForModify tids t s = Ret (r, s).
Proof. intros E. unfold TidForModify. by rewrite E. Qed.

Lemma DeleteUndoRaw_run t tup s ok store txn :
  table_delete_raw t (s_store s) (s_txn s) tup = Ret (ok, store, txn) →
  DeleteUndoRaw t tup s = Ret (ok, mkState (s_catalog s) store txn).
Proof. intros E. unfold DeleteUndoRaw, lift. by rewrite E. Qed.

Lemma NewChunk_run t s c : create_chunk t (s_store s) = Ret c → NewChunk t s = Ret (c, s).
Proof. intros E. unfold NewChunk. by rewrite E. Qed.
End Monad.

Declare Scope catalog_scope.
Notation "x <- m ;; k" := (bind m (λ x, k)) (at level 90, m at level 80, k at level 90, right associativity) : catalog_scope.
Open Scope catalog_scope.

(** What the [Delete*Entry] share: find the tuple by its oid and delete it. *)
Definition delete_entry {C st : Type} `{CatalogStore st} (t ix : CatalogTableOid) (chunk : DataChunk) : M (C := C) (st := st) bool :=
  tids <- IndexGet ix chunk;;
  res <- TidForModify tids t;;
  match res with
  | None => ret false
  | Some tup_id => if decide (tup_id = INVALID_TID) then ret true else DeleteUndoRaw t tup_id
  end.
