(* ===== verification/DatabaseCatalog.v ===== *)
(** * The catalog of a database (catalog/database_catalog.cpp)

    [DatabaseCatalog]: namespaces, tables, indexes and constraints, kept in the
    catalog tables and found through their indexes.  An operation runs in the
    monad of [CatalogMonad]. *)

From stdpp Require Import strings.
From S2P Require Import Prelude Bytes Shared Memory CatalogCommon AccessTypes DataChunk.
From S2P Require Import Txn CatalogStore CatalogMonad.
Import TransactionContext.

Module DatabaseCatalog.

(** The counters and the lock; the tables and indexes are in the store. *)
Record DatabaseCatalog := mkDatabaseCatalog {
  db_id_ : Z;
  next_namespace_oid_ : Z;
  next_class_oid_ : Z;
  next_attribute_oid_ : Z;
  next_constraint_oid_ : Z;
  write_lock_ : Z
}.

#[global] Instance DatabaseCatalog_eq_dec : EqDecision DatabaseCatalog.
Proof. solve_decision. Defined.

(** The constructor; [write_lock_] is value-initialised. *)
Definition make (db_id : Z) : DatabaseCatalog := mkDatabaseCatalog db_id 1 1 1 1 0.

Definition GetDbOid (c : DatabaseCatalog) : Z := db_id_ c.

Definition set_namespace_oid (c : DatabaseCatalog) (v : Z) : DatabaseCatalog :=
  mkDatabaseCatalog (db_id_ c) v (next_class_oid_ c) (next_attribute_oid_ c) (next_constraint_oid_ c) (write_lock_ c).
Definition set_class_oid (c : DatabaseCatalog) (v : Z) : DatabaseCatalog :=
  mkDatabaseCatalog (db_id_ c) (next_namespace_oid_ c) v (next_attribute_oid_ c) (next_constraint_oid_ c) (write_lock_ c).
Definition set_attribute_oid (c : DatabaseCatalog) (v : Z) : DatabaseCatalog :=
  mkDatabaseCatalog (db_id_ c) (next_namespace_oid_ c) (next_class_oid_ c) v (next_constraint_oid_ c) (write_lock_ c).
Definition set_constraint_oid (c : DatabaseCatalog) (v : Z) : DatabaseCatalog :=
  mkDatabaseCatalog (db_id_ c) (next_namespace_oid_ c) (next_class_oid_ c) (next_attribute_oid_ c) v (write_lock_ c).
Definition set_write_lock (c : DatabaseCatalog) (v : Z) : DatabaseCatalog :=
  mkDatabaseCatalog (db_id_ c) (next_namespace_oid_ c) (next_class_oid_ c) (next_attribute_oid_ c) (next_constraint_oid_ c) v.

(** ** The write lock *)

(** [others]: what other transactions do to the lock between the load and the
    compare-and-swap. *)
Definition TryLock (others : Z → Z) (write_lock : Z) (txn : TransactionContext) : bool * Z * TransactionContext :=
  let current_val := write_lock in
  if current_val =? FinishTime txn then (true, write_lock, txn)
  else if TransactionUtil.HasConflict current_val (FinishTime txn) (StartTime txn) then (false, write_lock, Abort txn)
  else
    let write_lock := others write_lock in
    if write_lock =? current_val then (true, FinishTime txn, txn) else (false, write_lock, Abort txn).

(** ** Operations *)
Section Ops.
Context {st : Type} `{CatalogStore st}.
Context (others : Z → Z) (uninit : VarlenEntry) (values : Schema → list SchemaColumn).

#[local] Abbreviation M := (M (C := DatabaseCatalog) (st := st)).

Definition TryLockM : M bool := λ s,
  let '(ok, w, txn) := TryLock others (write_lock_ (s_catalog s)) (s_txn s) in
  Ret (ok, mkState (set_write_lock (s_catalog s) w) (s_store s) txn).

(** The counters. *)
Definition next_namespace_oid : M Z := next_oid next_namespace_oid_ set_namespace_oid.
Definition next_class_oid : M Z := next_oid next_class_oid_ set_class_oid.
Definition next_attribute_oid : M Z := next_oid next_attribute_oid_ set_attribute_oid.
Definition next_constraint_oid : M Z := next_oid next_constraint_oid_ set_constraint_oid.

(** ** Namespaces *)

Definition CreateNamespaceEntry (name : list Z) (oid : Z) : M (ResultObj Z) :=
  chunk <- NewChunk PG_NAMESPACE;;
  let chunk := DataChunkBuilder.BuildNamespaceChunk uninit chunk oid name in
  tup <- TableInsert PG_NAMESPACE chunk;;
  res_name <- InsertUnique PG_INDEX_NAMESPACE_NSPNAME chunk (GetValue tup);;
  require res_name "Failed to insert to nspname index"
  (res_oid <- InsertUnique PG_INDEX_NAMESPACE_NSPOID chunk (GetValue tup);;
   require res_oid "Failed to insert to nspoid index" (ret (Ok oid))).

Definition CreateNamespace (name : list Z) : M (ResultObj Z) :=
  locked <- TryLockM;;
  require locked "Couldnt aquire a lock"
  (oid <- next_namespace_oid;; CreateNamespaceEntry name oid).

Definition DeleteNamespaceEntry (oid : Z) : M bool :=
  chunk <- NewChunk PG_NAMESPACE;;
  delete_entry PG_NAMESPACE PG_INDEX_NAMESPACE_NSPOID (DataChunkBuilder.BuildNamespaceChunk uninit chunk oid []).

Definition DeleteNamespace (oid : Z) : M bool :=
  locked <- TryLockM;;
  if locked : bool then DeleteNamespaceEntry oid else ret false.

Definition ExistsNamespace (oid : Z) : M (ResultObj unit) :=
  chunk <- NewChunk PG_NAMESPACE;;
  results <- IndexGet PG_INDEX_NAMESPACE_NSPOID (DataChunkBuilder.BuildNamespaceChunk_oid chunk oid);;
  found <- TidExists results PG_NAMESPACE;;
  require found "Namespace does not exist" (ret (Ok tt)).

Definition UpdateNamespaceName (oid : Z) (name : list Z) : M bool :=
  deleted <- DeleteNamespaceEntry oid;;
  if deleted : bool then
    res <- CreateNamespaceEntry name oid;;
    ret (match res with Ok _ => true | Fail _ => false end)
  else ret false.

(** ** Tables *)

Definition CreateColumnEntry (rel_oid : Z) (column : SchemaColumn) : M (ResultObj Z) :=
  chunk <- NewChunk PG_ATTRIBUTE;;
  oid <- next_attribute_oid;;
  let chunk := DataChunkBuilder.BuildAttributeChunk uninit chunk oid rel_oid (string_bytes (sc_name column))
                 (sc_type column) (to_u16 (sc_type_size column)) (sc_nullable column) in
  tup <- TableInsert PG_ATTRIBUTE chunk;;
  res_name <- InsertUnique PG_INDEX_ATTRIBUTE_ATTRELID_ATTNAME chunk (GetValue tup);;
  require res_name "Failed to insert to attrelid_attname index"
  (res_oid <- InsertUnique PG_INDEX_ATTRIBUTE_ATTNUM chunk (GetValue tup);;
   require res_oid "Failed to insert to attnum index" (ret (Ok oid))).

(** The name is stored as the options too. *)
Definition CreateTableEntry (name : list Z) (oid namespace_oid : Z) (kind : RelKind) : M (ResultObj Z) :=
  chunk <- NewChunk PG_CLASS;;
  let chunk := DataChunkBuilder.BuildClassChunk uninit chunk oid name namespace_oid (RelKind_ToChar kind) name in
  tup <- TableInsert PG_CLASS chunk;;
  res_relname <- InsertUnique PG_INDEX_CLASS_RELNAME chunk (GetValue tup);;
  require res_relname "Failed to insert to relname index"
  (res_name <- IndexInsert PG_INDEX_CLASS_RELNAMESPACE chunk (GetValue tup);;
   require res_name "Failed to insert to relnamespace index"
   (res_oid <- InsertUnique PG_INDEX_CLASS_RELOID chunk (GetValue tup);;
    require res_oid "Failed to insert to reloid index" (ret (Ok oid)))).

(** The loop over the columns; [oid] is the table's. *)
Fixpoint create_columns (columns : list SchemaColumn) (rel_oid oid : Z) : M (ResultObj Z) :=
  match columns with
  | [] => ret (Ok oid)
  | col :: columns =>
      res_col <- CreateColumnEntry rel_oid col;;
      match res_col with
      | Fail message => ret (Fail message)
      | Ok _ => create_columns columns rel_oid oid
      end
  end.

(** [CreateTable] and [CreateIndexClass] differ in the kind.  A failed lock
    returns [INVALID_OID], which converts to a successful result. *)
Definition create_class (kind : RelKind) (name : list Z) (namespace_oid : Z) (schema : Schema) : M (ResultObj Z) :=
  locked <- TryLockM;;
  if negb locked then ret (Ok INVALID_OID)
  else
    ns_res <- ExistsNamespace namespace_oid;;
    match ns_res with
    | Fail message => ret (Fail message)
    | Ok _ =>
        oid <- next_class_oid;;
        res <- CreateTableEntry name oid namespace_oid kind;;
        match res with
        | Fail message => ret (Fail message)
        | Ok rel_oid => create_columns (values schema) rel_oid oid
        end
    end.

Definition CreateTable := create_class REGULAR_TABLE.
Definition CreateIndexClass := create_class INDEX.

Definition DeleteTableEntry (oid : Z) : M bool :=
  chunk <- NewChunk PG_CLASS;;
  delete_entry PG_CLASS PG_INDEX_CLASS_RELOID (DataChunkBuilder.BuildClassChunk_oid chunk oid).

Definition ExistsTable (oid : Z) : M (ResultObj unit) :=
  chunk <- NewChunk PG_CLASS;;
  results <- IndexGet PG_INDEX_CLASS_RELOID (DataChunkBuilder.BuildClassChunk_oid chunk oid);;
  found <- TidExists results PG_CLASS;;
  require found "Namespace does not exist" (ret (Ok tt)).

Definition UpdateTableName (oid : Z) (name : list Z) (namespace_oid : Z) : M bool :=
  deleted <- DeleteTableEntry oid;;
  if deleted : bool then
    res <- CreateTableEntry name oid namespace_oid REGULAR_TABLE;;
    ret (match res with Ok _ => true | Fail _ => false end)
  else ret false.

(** ** Indexes *)

Definition CreateIndexEntry (class_oid rel_oid : Z) (schema : IndexSchema) : M (ResultObj Z) :=
  chunk <- NewChunk PG_INDEX;;
  let chunk := DataChunkBuilder.BuildIndexChunk chunk class_oid rel_oid (IsUnique schema) (IsPrimary schema)
                 (IsExclusion schema) (IsImmediate schema) true true true (IndexKind_val BTREE) in
  tup <- TableInsert PG_INDEX chunk;;
  res_relname <- InsertUnique PG_INDEX_INDEX_INDOID chunk (GetValue tup);;
  require res_relname "Failed to insert to indoid index"
  (res_name <- IndexInsert PG_INDEX_INDEX_INDRELID chunk (GetValue tup);;
   require res_name "Failed to insert to indrelid index" (ret (Ok class_oid))).

Definition CreateIndex (name : list Z) (rel_oid namespace_oid : Z) (schema : IndexSchema) : M (ResultObj Z) :=
  locked <- TryLockM;;
  if negb locked then ret (Ok INVALID_OID)
  else
    cl_res <- ExistsTable rel_oid;;
    match cl_res with
    | Fail message => ret (Fail message)
    | Ok _ =>
        table_res <- CreateIndexClass name namespace_oid (is_schema schema);;
        match table_res with
        | Fail message => ret (Fail message)
        | Ok class_oid => CreateIndexEntry class_oid rel_oid schema
        end
    end.

(** ** Constraints *)

(** Check that a table or namespace exists, then enter the constraint in an
    index. *)
Definition check_then_insert (exists_ : M (ResultObj unit)) (ix : CatalogTableOid) (chunk : DataChunk) (tup : TupleId)
    (message : string) (k : M (ResultObj Z)) : M (ResultObj Z) :=
  found <- exists_;;
  match found with
  | Fail m => ret (Fail m)
  | Ok _ => res <- IndexInsert ix chunk (GetValue tup);; require res message k
  end.

Definition CreateConstraintEntry (oid : Z) (props : ConstraintProps) : M (ResultObj Z) :=
  chunk <- NewChunk PG_CONSTRAINT;;
  let chunk := DataChunkBuilder.BuildConstraintChunk uninit chunk oid props in
  tup <- TableInsert PG_CONSTRAINT chunk;;
  res_oid <- InsertUnique PG_INDEX_CONSTRAINT_CONOID chunk (GetValue tup);;
  require res_oid "Failed to insert to conoid index"
  (res_name <- InsertUnique PG_INDEX_CONSTRAINT_CONNAME chunk (GetValue tup);;
   require res_name "Failed to insert to conname index"
   (check_then_insert (ExistsNamespace (ns_oid props)) PG_INDEX_CONSTRAINT_CONNAMESPACE chunk tup
      "Failed to insert to connamespace index"
   (check_then_insert (ExistsTable (rel_oid props)) PG_INDEX_CONSTRAINT_CONRELID chunk tup
      "Failed to insert to conrelid index"
   (check_then_insert (ExistsTable (ind_oid props)) PG_INDEX_CONSTRAINT_CONINDID chunk tup
      "Failed to insert to conindid index"
   (check_then_insert (ExistsTable (for_oid props)) PG_INDEX_CONSTRAINT_CONFRELID chunk tup
      "Failed to insert to res_for index" (ret (Ok oid))))))).

Definition CreateConstraint (props : ConstraintProps) : M (ResultObj Z) :=
  locked <- TryLockM;;
  if negb locked then ret (Ok INVALID_OID)
  else oid <- next_constraint_oid;; CreateConstraintEntry oid props.
End Ops.
End DatabaseCatalog.
