(* ===== verification/Catalog.v ===== *)
(** * The catalog of databases (catalog/catalog.hpp, catalog.cpp)

    [Catalog]: the databases, kept in the table pg_database and found through
    its two indexes, and the map from their oids to their [DatabaseCatalog]s.
    The operations run in the monad of [CatalogMonad.v]; they take no lock. *)

From stdpp Require Import strings.
From S2P Require Import Prelude Bytes Shared Memory CatalogCommon AccessTypes DataChunk.
From S2P Require Import Txn CatalogStore CatalogMonad DatabaseCatalog.
Import TransactionContext.

Module Catalog.

(** [databases_map_] holds pointers: [None] is the null pointer that
    [operator[]] enters for a missing key. *)
Record Catalog := mkCatalog {
  databases_map_ : gmap Z (option DatabaseCatalog.DatabaseCatalog);
  next_db_oid_ : Z
}.

Definition set_databases_map (c : Catalog) (m : gmap Z (option DatabaseCatalog.DatabaseCatalog)) : Catalog :=
  mkCatalog m (next_db_oid_ c).
Definition set_next_db_oid (c : Catalog) (v : Z) : Catalog := mkCatalog (databases_map_ c) v.

(** The constructor; the tables and trees are in the store
    ([CreateCatalog]). *)
Definition make : Catalog := mkCatalog ∅ 1.

(** [data_chunk_layout_]: the two columns, in this order. *)
Definition data_chunk_layout_ : outcome DataChunkLayout :=
  DataChunkLayout_make [CatalogColumnOid_val DATOID; CatalogColumnOid_val DATNAME] [SizeOf INTEGER; SizeOf VARCHAR].

Section Ops.
Context {st : Type} `{CatalogStore st} `{CatalogBuilder st}.
(** The bytes of a fresh chunk and of a [VarlenEntry] on the stack. *)
Context (fresh : mem) (uninit : VarlenEntry).

#[local] Abbreviation M := (M (C := Catalog) (st := st)).

Definition CreateDataChunk : M DataChunk :=
  compute (layout ← data_chunk_layout_; Ret (DataChunk.CreateDataChunk layout fresh)).

(** [false]: no entry. *)
Definition RemoveMapping (oid : Z) : M bool := λ s,
  let c := s_catalog s in
  match databases_map_ c !! oid with
  | None => Ret (false, s)
  | Some _ => Ret (true, mkState (set_databases_map c (delete oid (databases_map_ c))) (s_store s) (s_txn s))
  end.

Definition CreateDatabaseEntry (name : list Z) (oid : Z) : M bool :=
  chunk <- CreateDataChunk;;
  chunk <- compute (DataChunkBuilder.BuildDatabaseChunk uninit chunk oid name);;
  tup <- TableInsert PG_DATABASES chunk;;
  res_name <- InsertUnique PG_INDEX_DATABASE_DATNAME chunk (GetValue tup);;
  if negb res_name then ret false
  else
    res_oid <- InsertUnique PG_INDEX_DATABASE_DATOID chunk (GetValue tup);;
    if negb res_oid then ret false else ret true.

(** [Builder::CreateDatabaseCatalog] and the entry in the map. *)
Definition CreateDatabaseCatalogM (oid : Z) : M DatabaseCatalog.DatabaseCatalog := λ s,
  store ← create_database_catalog oid (s_store s);
  let dbc := DatabaseCatalog.make oid in
  let c := s_catalog s in
  Ret (dbc, mkState (set_databases_map c (<[oid := Some dbc]> (databases_map_ c))) store (s_txn s)).

(** A [throw] without an exception in flight calls [std::terminate]. *)
Definition terminate {A} : M A := λ _, AssertFail "throw without an exception".

Definition CreateDatabase (name : list Z) (bootstrap : bool) : M (ResultObj Z) :=
  oid <- next_oid next_db_oid_ set_next_db_oid;;
  dbc <- CreateDatabaseCatalogM oid;;
  created <- CreateDatabaseEntry name (DatabaseCatalog.GetDbOid dbc);;
  if negb created then terminate else ret (Ok oid).

Definition DeleteDatabaseEntry (oid : Z) : M bool :=
  chunk <- CreateDataChunk;;
  chunk <- compute (DataChunkBuilder.BuildDatabaseChunk uninit chunk oid []);;
  delete_entry PG_DATABASES PG_INDEX_DATABASE_DATOID chunk.

Definition assertion_failed {A} (message : string) : M A := λ _, AssertFail message.

Definition DeleteDatabase (oid : Z) : M bool :=
  deleted <- DeleteDatabaseEntry oid;;
  if negb deleted then assertion_failed "Failed to delete entry"
  else
    removed <- RemoveMapping oid;;
    if negb removed then assertion_failed "Mapping not found" else ret true.

Definition UpdateDatabaseName (oid : Z) (name : list Z) : M bool :=
  deleted <- DeleteDatabaseEntry oid;;
  if negb deleted then ret false
  else
    created <- CreateDatabaseEntry name oid;;
    if negb created then ret false else ret true.

(** [databases_map_[oid]] enters a null pointer for a missing key. *)
Definition GetDatabaseCatalog (oid : Z) : M (option DatabaseCatalog.DatabaseCatalog) := λ s,
  let c := s_catalog s in
  match databases_map_ c !! oid with
  | Some dbc => Ret (dbc, s)
  | None => Ret (None, mkState (set_databases_map c (<[oid := None]> (databases_map_ c))) (s_store s) (s_txn s))
  end.
End Ops.
End Catalog.
