(* ===== verification/EngineFacts.v ===== *)
(** * Facts on the engine of the catalogs

    What an index of a database holds ([tree_rows]), what a unique insertion
    does to it and to the others, the indexes a new database starts with. *)

From stdpp Require Import strings.
From S2P Require Import Prelude Bytes Shared Memory CatalogCommon AccessTypes DataChunk Fsm.
From S2P Require Import LeafFacts KeyEncoder BTree BTreeInv BTreeInsert BTreeTree Index ChunkUtils Pax Arena.
From S2P Require Import Undo Redo Txn Table Builder BuilderTheorems CatalogStore.
Import TransactionContext.

(** Every catalog index has attributes whose keys fit. *)
Lemma catalog_attrs_ok ix t : Builder.index_table ix = Some t → attrs_ok (AttrsFor ix).
Proof.
  intros H. assert (E : bool_decide (AttrsFor ix ≠ []) && bool_decide (length (AttrsFor ix) ≤ 1000)%nat
    && (key_buffer_size_ (AttrsFor ix) <=? 128) = true) by (destruct ix; try discriminate H; vm_compute; reflexivity).
  apply andb_true_iff in E as [[H1%bool_decide_eq_true H2%bool_decide_eq_true]%andb_true_iff H3%Z.leb_le]. done.
Qed.

(** The tree of an index of database [db] and the page counter of its file are
    as before. *)
Definition same_tree_of (db : Z) (e e' : engine) (ix : CatalogTableOid) : Prop :=
  e_trees e' !! (db, CatalogTableOid_val ix) = e_trees e !! (db, CatalogTableOid_val ix) ∧
  e_page_ids e' !! CatalogTableOid_val ix = e_page_ids e !! CatalogTableOid_val ix.

(** The next page of the file of an index. *)
Definition next_page (e : engine) (ix : CatalogTableOid) : Z := default 1 (e_page_ids e !! CatalogTableOid_val ix).

(** Room for [n] more entries in an index of database [db]: an insertion takes a
    page per level, of which there are at most seventeen, and one for a new root;
    and while the nodes of level 1 have room for a separator more, no insertion
    splits one of them and loses the separator it raises (BTreeTree.v). *)
Record index_room (db : Z) (e : engine) (ix : CatalogTableOid) (n : nat) : Prop := {
  ir_count : (n ≤ 50)%nat;
  ir_pages : next_page e ix + 18 * Z.of_nat n ≤ BUFFER_POOL_PAGE_NUM;
  ir_level1 t : e_trees e !! (db, CatalogTableOid_val ix) = Some t → level1_room n t
}.

Lemma set_tree_counter db e ix t : next_page (set_tree db e ix t) ix = next_pid (CatalogTableOid_val ix) t.
Proof. unfold next_page, next_pid. cbn. by rewrite lookup_insert_eq. Qed.

Lemma same_tree_page db e e' ix : same_tree_of db e e' ix → next_page e' ix = next_page e ix.
Proof. intros [_ E]. unfold next_page. by rewrite E. Qed.

Lemma same_tree_room db e e' ix n : same_tree_of db e e' ix → index_room db e ix n → index_room db e' ix n.
Proof.
  intros S [H1 H2 H3]. split; [done|by rewrite (same_tree_page db e e' ix S)|]. destruct S as [S _]. by rewrite S.
Qed.

Lemma index_room_le db e ix n m : (m ≤ n)%nat → index_room db e ix n → index_room db e ix m.
Proof.
  intros Hm [H1 H2 H3]. split; [lia|lia|]. intros t Ht. by apply (level1_room_le n), H3.
Qed.

Section Engine.
Context (try_dequeue : list Z → option (Z * list Z)) (steps : nat → heap → heap) (file : PageIdentifier → mem).
Context (dec reenc : list Z → bool → Z + list Z) (values : Schema → list SchemaColumn) (fresh : mem).
Context (db : Z).

#[local] Hint Extern 0 (CatalogStore engine) =>
  exact (engine_store try_dequeue steps file dec reenc values fresh db) : typeclass_instances.

Abbreviation chunk_holds := (Index.chunk_holds dec reenc).
Abbreviation row_cmp := (KeyEncoder.row_cmp dec reenc).

(** A name that an index key holds: at most twelve bytes, which normalise to a
    key that fits. *)
Definition name_ok (name : list Z) : Prop := (length name ≤ 12)%nat ∧ bytes_ok name ∧ string_ok dec reenc name.

(** The tree of an index of the database holds these rows with their tuple
    ids. *)
Definition tree_rows (e : engine) (ix : CatalogTableOid) (rows : list (list value * Z)) : Prop :=
  ∃ t, database_tree db e ix = Ret t ∧ index_rows dec reenc (CatalogTableOid_val ix) (AttrsFor ix) True t rows.

Abbreviation same_tree := (same_tree_of db).

(** The counters of other files do not matter to a tree; its own may grow. *)
Lemma index_rows_grow tbl attrs T t t' rows :
  BTree.pages t' = BTree.pages t → BTree.root_id_ t' = BTree.root_id_ t →
  next_pid tbl t ≤ next_pid tbl t' ≤ BUFFER_POOL_PAGE_NUM →
  index_rows dec reenc tbl attrs T t rows → index_rows dec reenc tbl attrs T t' rows.
Proof.
  intros Hp Hr Hn (ks & (leaves & uppers & [B1 B2 B3 B4 B5 B6 B7 B8 B9] & Hks) & H). exists ks. split; [|done].
  exists leaves, uppers. split; [|done]. split; rewrite ?Hp, ?Hr; try done; [|lia].
  eapply Forall_impl; [exact B8|]. cbn. lia.
Qed.

Lemma index_rows_ids tbl attrs T t t' rows :
  BTree.pages t' = BTree.pages t → BTree.root_id_ t' = BTree.root_id_ t → next_pid tbl t' = next_pid tbl t →
  index_rows dec reenc tbl attrs T t rows → index_rows dec reenc tbl attrs T t' rows.
Proof.
  intros Hp Hr Hn H. assert (next_pid tbl t ≤ BUFFER_POOL_PAGE_NUM) by by destruct H as (? & (? & ? & [] & _) & _).
  apply (index_rows_grow _ _ _ t); [done|done|lia|done].
Qed.

Lemma database_tree_same e e' ix t : same_tree e e' ix → database_tree db e ix = Ret t →
  ∃ t', database_tree db e' ix = Ret t' ∧ BTree.pages t' = BTree.pages t ∧ BTree.root_id_ t' = BTree.root_id_ t ∧
    next_pid (CatalogTableOid_val ix) t' = next_pid (CatalogTableOid_val ix) t.
Proof.
  intros [E1 E2]. unfold database_tree. rewrite E1. destruct (e_trees e !! _) as [t0|]; [|done]. intros [= <-].
  eexists. split; [done|]. split_and!; [done|done|]. unfold next_pid. cbn. by rewrite E2.
Qed.

Lemma tree_rows_same e e' ix rows : same_tree e e' ix → tree_rows e ix rows → tree_rows e' ix rows.
Proof.
  intros Hs (t & Ht & H). destruct (database_tree_same e e' ix t Hs Ht) as (t' & Ht' & E1 & E2 & E3).
  exists t'. split; [done|]. by apply (index_rows_ids _ _ _ t).
Qed.

Lemma same_tree_sym e e' ix : same_tree e e' ix → same_tree e' e ix.
Proof. by intros [E1 E2]. Qed.

(** A tree over a file in which others reserved pages. *)
Lemma tree_rows_grow e e' ix rows :
  e_trees e' !! (db, CatalogTableOid_val ix) = e_trees e !! (db, CatalogTableOid_val ix) →
  next_page e ix ≤ next_page e' ix ≤ BUFFER_POOL_PAGE_NUM → tree_rows e ix rows → tree_rows e' ix rows.
Proof.
  intros Ht Hn (t & E & H). unfold tree_rows, database_tree in *. rewrite Ht. destruct (e_trees e !! _) as [t0|]; [|done].
  injection E as <-. eexists. split; [done|]. revert H. by apply index_rows_grow.
Qed.

(** What the tree of a database says of the file. *)
Lemma database_tree_page e ix t : database_tree db e ix = Ret t → next_pid (CatalogTableOid_val ix) t = next_page e ix.
Proof. unfold database_tree. destruct (e_trees e !! _); [|done]. by intros [= <-]. Qed.

Lemma room_for_one e ix rows t n :
  database_tree db e ix = Ret t → index_rows dec reenc (CatalogTableOid_val ix) (AttrsFor ix) True t rows →
  index_room db e ix (S n) →
  has_room (CatalogTableOid_val ix) t ∧ separator_safe t ∧
  ∀ t', grown (CatalogTableOid_val ix) t t' → index_room db (set_tree db e ix t') ix n.
Proof.
  unfold has_room, separator_safe. intros Ht (ks & Hks & _) [H1 H2 H3]. apply tree_height in Hks.
  assert (Hl : level1_room (S n) t).
  { unfold database_tree in Ht. destruct (e_trees e !! _) as [t0|] eqn:E; [|done]. injection Ht as <-. exact (H3 t0 eq_refl). }
  rewrite (database_tree_page e ix t Ht). split; [lia|]. split; [left; by apply (level1_room_le (S n)); [lia|]|].
  intros t' Hg. pose proof (gr_pages _ _ _ Hg) as Hp. rewrite (database_tree_page e ix t Ht) in Hp.
  split; [lia|rewrite set_tree_counter; lia|]. intros t1 Ht1. cbn in Ht1. rewrite lookup_insert_eq in Ht1. injection Ht1 as <-.
  apply (gr_room _ _ _ Hg); [lia|done].
Qed.

Lemma set_tree_rows e ix t rows :
  index_rows dec reenc (CatalogTableOid_val ix) (AttrsFor ix) True t rows → tree_rows (set_tree db e ix t) ix rows.
Proof.
  intros H. exists (with_ids (e_page_ids (set_tree db e ix t)) t). split.
  - unfold database_tree. cbn. by rewrite lookup_insert_eq.
  - apply (index_rows_ids _ _ _ t); [done|done| |done]. unfold next_pid. cbn. by rewrite lookup_insert_eq.
Qed.

Lemma set_tree_other db' e ix t ix' :
  CatalogTableOid_val ix' ≠ CatalogTableOid_val ix → same_tree_of db' e (set_tree db e ix t) ix'.
Proof. intros Hne. split; cbn; rewrite lookup_insert_ne; [done|by intros [=]|done|done]. Qed.

(** *** The trees of a new database *)

(** An index of a new database: its tree is empty, on one more page of the file. *)
Record new_index (e e' : engine) (ix : CatalogTableOid) : Prop := {
  ni_rows : tree_rows e' ix [];
  ni_page : next_page e' ix = next_page e ix + 1;
  ni_level1 n t : e_trees e' !! (db, CatalogTableOid_val ix) = Some t → level1_room n t
}.

Lemma new_index_room e e' ix n :
  new_index e e' ix → (n ≤ 50)%nat → next_page e ix + 1 + 18 * Z.of_nat n ≤ BUFFER_POOL_PAGE_NUM → index_room db e' ix n.
Proof. intros [H1 H2 H3] Hn Hp. split; [done|lia|]. intros t. by apply H3. Qed.

Lemma make_trees_ok ixs e :
  NoDup (CatalogTableOid_val <$> ixs) → Forall (λ ix, 0 < next_page e ix < BUFFER_POOL_PAGE_NUM) ixs →
  ∃ e', make_trees db ixs e = Ret e' ∧ e_store e' = e_store e ∧
    (∀ ix, ix ∈ ixs → new_index e e' ix) ∧
    (∀ ix, CatalogTableOid_val ix ∉ CatalogTableOid_val <$> ixs → same_tree e e' ix) ∧
    (∀ db' k, db' ≠ db → e_trees e' !! (db', k) = e_trees e !! (db', k)).
Proof.
  revert e; induction ixs as [|ix ixs IH]; intros e Hnd HF; cbn [make_trees].
  { exists e. split_and!; try done. by intros ix ?%not_elem_of_nil. }
  apply NoDup_cons in Hnd as [Hni Hnd]. apply Forall_cons in HF as [[Hp1 Hp2] HF].
  destruct (empty_tree (row_code (ts_type <$> AttrsFor ix)) (CatalogTableOid_val ix) (e_page_ids e)) as (t & E & Ht & Hl & Hn & Hroom).
  { fold (next_page e ix). lia. }
  rewrite E, bind_Ret. fold (next_page e ix) in Hn. set (e1 := set_tree db e ix t).
  destruct (IH e1 Hnd) as (e' & E' & Hs & Hin & Hout & Hdb).
  { rewrite Forall_forall in HF |- *. intros ix' Hix'. specialize (HF ix' Hix'). destruct (set_tree_other db e ix t ix') as [_ S].
    { intros Eq. apply Hni. rewrite <- Eq. by apply list_elem_of_fmap_2. }
    unfold next_page, e1 in *. by rewrite S. }
  exists e'. split; [done|]. split; [by rewrite Hs|]. split; [|split].
  - intros x [->|Hx]%elem_of_cons.
    + assert (S : same_tree e1 e' ix) by by apply Hout. split.
      * apply (tree_rows_same e1); [done|]. apply set_tree_rows. by exists [].
      * rewrite (same_tree_page db e1 e' ix S). unfold e1. by rewrite set_tree_counter.
      * intros n t1. rewrite (proj1 S). cbn. rewrite lookup_insert_eq. by intros [= <-].
    + destruct (Hin x Hx) as [H1 H2 H3]. split; [done| |done]. rewrite H2. f_equal.
      assert (Hne : CatalogTableOid_val x ≠ CatalogTableOid_val ix).
      { intros Eq. apply Hni. rewrite <- Eq. by apply list_elem_of_fmap_2. }
      by apply (same_tree_page db), set_tree_other.
  - intros x [Hx1 Hx2]%not_elem_of_cons. destruct (Hout x Hx2) as [S1 S2], (set_tree_other db e ix t x Hx1) as [S3 S4].
    split; [by rewrite S1|by rewrite S2].
  - intros db' k Hdb'. rewrite (Hdb db' k Hdb'). cbn. apply lookup_insert_ne. by intros [=].
Qed.

Lemma make_tables_ok ts :
  (∀ s : Schema, values s ≡ₚ (map_to_list s).*2) → Forall (λ t, is_Some (Builder.schema_columns t)) ts →
  make_tables values ts = Ret tt.
Proof.
  intros HP. induction 1 as [|t ts [cols Hc] _ IH]; [done|]. cbn [make_tables]. unfold catalog_table, catalog_schema.
  rewrite Hc, bind_Ret, (catalog_table_made t cols values _ Hc (HP _)), bind_Ret. exact IH.
Qed.

Lemma CreateDatabaseCatalog_ok e :
  (∀ s : Schema, values s ≡ₚ (map_to_list s).*2) →
  Forall (λ ix, 0 < next_page e ix < BUFFER_POOL_PAGE_NUM) database_indexes →
  ∃ e', CreateDatabaseCatalog values db e = Ret e' ∧ e_store e' = e_store e ∧
    (∀ ix, ix ∈ database_indexes → new_index e e' ix) ∧
    (∀ ix, ix ∉ database_indexes → same_tree e e' ix) ∧
    (∀ db' k, db' ≠ db → e_trees e' !! (db', k) = e_trees e !! (db', k)).
Proof.
  intros HP HF. unfold CreateDatabaseCatalog. rewrite make_tables_ok, bind_Ret; [|done|].
  - destruct (make_trees_ok database_indexes e) as (e' & E & H1 & H2 & H3 & H4); [|done|].
    { by apply (bool_decide_unpack _); vm_compute. }
    exists e'. split_and!; [done|done|done| |done]. intros ix Hix. apply H3. intros (x & Ex & Hx)%list_elem_of_fmap.
    apply (inj CatalogTableOid_val) in Ex. by subst x.
  - repeat constructor; by eexists.
Qed.

(** *** The steps of the operations *)

Definition row_eqb (r r' : list value) : bool := match row_cmp r r' with Eq => true | _ => false end.

Lemma row_eqb_true r r' : row_eqb r r' = true ↔ row_cmp r r' = Eq.
Proof. unfold row_eqb. by destruct (row_cmp r r'). Qed.

(** Some row equal to [r] whose tuple [p] accepts. *)
Definition some_row (p : Z → bool) (r : list value) (rows : list (list value * Z)) : bool :=
  existsb (λ x, row_eqb x.1 r && p x.2) rows.

Lemma some_row_true p r rows : some_row p r rows = true ↔ Exists (λ x, row_cmp x.1 r = Eq ∧ p x.2 = true) rows.
Proof.
  unfold some_row. rewrite existsb_exists, Exists_exists. setoid_rewrite andb_true_iff. setoid_rewrite row_eqb_true.
  setoid_rewrite list_elem_of_In. done.
Qed.

Lemma some_row_false p r rows : some_row p r rows = false → Forall (λ x, row_cmp x.1 r = Eq → p x.2 = false) rows.
Proof.
  intros H. apply Forall_forall. intros x Hx Hr. apply not_true_is_false. intros Hp.
  assert (some_row p r rows = true); [|congruence]. apply some_row_true, Exists_exists. by exists x.
Qed.

Lemma fresh_key r v rows : 0 ≤ v < 2 ^ 64 → v ∉ rows.*2 → Forall (λ x, 0 ≤ x.2 < 2 ^ 64) rows →
  row_key dec reenc r v ∉ entry_key dec reenc <$> rows.
Proof.
  intros Hv Hn Hr ([r' w] & E & Hin)%list_elem_of_fmap. apply Hn. apply list_elem_of_fmap. exists (r', w). split; [|done].
  unfold entry_key in E. apply (f_equal key_tid) in E. rewrite !row_key_tid in E; [done| |done].
  rewrite Forall_forall in Hr. by apply (Hr _ Hin).
Qed.

Lemma fresh_tid_key e ix r v rows :
  tree_rows e ix rows → 0 ≤ v < 2 ^ 64 → v ∉ rows.*2 → row_key dec reenc r v ∉ entry_key dec reenc <$> rows.
Proof.
  intros (tr & _ & (ks & _ & _ & Hok)) Hv Hn. apply fresh_key; [done|done|]. eapply Forall_impl; [exact Hok|]. by intros x (_ & _ & ?).
Qed.

(** [hb] answers [HasUniqueConflict] on the tuples of the rows equal to [r]. *)
Definition answers (e : engine) (txn : TransactionContext) (t : CatalogTableOid) (r : list value)
    (hb : Z → bool) (rows : list (list value * Z)) : Prop :=
  Forall (λ x, row_cmp x.1 r = Eq →
    HasUniqueConflict (Table.st_system (e_store e)) txn (mkTupleId x.2) (CatalogTableOid_val t) = Ret (hb x.2)) rows.

Lemma index_unique_step_key n e txn ix t c r v hb rows :
  Builder.index_table ix = Some t → tree_rows e ix rows → index_room db e ix (S n) →
  chunk_holds (AttrsFor ix) c r → 0 ≤ v < 2 ^ 64 → row_key dec reenc r v ∉ entry_key dec reenc <$> rows → answers e txn t r hb rows →
  ∃ e', index_insert_unique ix e txn c v = Ret (negb (some_row hb r rows), e') ∧ e_store e' = e_store e ∧
    tree_rows e' ix (if some_row hb r rows then rows else (r, v) :: rows) ∧ index_room db e' ix n ∧
    ∀ db' ix', CatalogTableOid_val ix' ≠ CatalogTableOid_val ix → same_tree_of db' e e' ix'.
Proof.
  intros Hix (tr & Htr & Hrows) Hroom Hc Hv Hn Hb. pose proof (catalog_attrs_ok ix t Hix) as Ha.
  destruct (room_for_one e ix rows tr n Htr Hrows Hroom) as (Hone & Hsafe & Hleft).
  set (h := λ tid, HasUniqueConflict (Table.st_system (e_store e)) txn (mkTupleId tid) (CatalogTableOid_val t)).
  destruct (index_insert_unique_ok dec reenc _ _ tr rows c r v h hb Hrows Ha Hc Hv Hb) as [Hbad Hgood].
  assert (Hstep : ∃ tr', IndexInsertUnique dec reenc (CatalogTableOid_val ix) (AttrsFor ix) h tr c v = Ret (tr', negb (some_row hb r rows)) ∧
    index_rows dec reenc (CatalogTableOid_val ix) (AttrsFor ix) True tr' (if some_row hb r rows then rows else (r, v) :: rows) ∧
    grown (CatalogTableOid_val ix) tr tr').
  { destruct (some_row hb r rows) eqn:E; [by apply Hbad, some_row_true|]. destruct Hgood as (lost & _ & Hlost & H); [by apply some_row_false|done|done|].
    by rewrite (Hlost Hsafe) in H. }
  destruct Hstep as (tr' & Hi & Hrows' & Hg). exists (set_tree db e ix tr'). split_and!.
  - unfold index_insert_unique, engine_store, heap_table. rewrite Htr, Hix, !bind_Ret. fold h. by rewrite Hi.
  - done.
  - by apply set_tree_rows.
  - by apply Hleft.
  - intros db' ix' Hne. by apply set_tree_other.
Qed.

Lemma index_unique_step n e txn ix t c r v hb rows :
  Builder.index_table ix = Some t → tree_rows e ix rows → index_room db e ix (S n) →
  chunk_holds (AttrsFor ix) c r → 0 ≤ v < 2 ^ 64 → v ∉ rows.*2 → answers e txn t r hb rows →
  ∃ e', index_insert_unique ix e txn c v = Ret (negb (some_row hb r rows), e') ∧ e_store e' = e_store e ∧
    tree_rows e' ix (if some_row hb r rows then rows else (r, v) :: rows) ∧ index_room db e' ix n ∧
    ∀ db' ix', CatalogTableOid_val ix' ≠ CatalogTableOid_val ix → same_tree_of db' e e' ix'.
Proof.
  intros Hix Hrows Hroom Hc Hv Hn Hb. apply (index_unique_step_key n e txn ix t c r v hb rows Hix Hrows Hroom Hc Hv); [|done].
  by apply (fresh_tid_key e ix).
Qed.

(** No row equal to [r]. *)
Definition fresh_row (r : list value) (rows : list (list value * Z)) : Prop := Forall (λ x, row_cmp x.1 r ≠ Eq) rows.

Lemma fresh_row_key e ix c r v rows :
  tree_rows e ix rows → chunk_holds (AttrsFor ix) c r → fresh_row r rows → row_key dec reenc r v ∉ entry_key dec reenc <$> rows.
Proof.
  intros (tr & _ & (ks & _ & _ & Hok)) Hc Hf (x & Ex & Hx)%list_elem_of_fmap. unfold fresh_row in Hf.
  rewrite Forall_forall in Hf, Hok. apply (Hf x Hx). specialize (Hok x Hx). destruct Hok as (H1 & H2 & H3).
  apply (f_equal key_prefix) in Ex. unfold entry_key in Ex. rewrite !row_key_prefix in Ex. symmetry in Ex.
  apply (same_row dec reenc (AttrsFor ix)) in Ex; try done; [by eapply chunk_holds_types|apply Hc].
Qed.

(** A fresh row conflicts with nothing. *)
Lemma fresh_answers e txn t r hb rows : fresh_row r rows → answers e txn t r hb rows.
Proof. intros H. eapply Forall_impl; [exact H|]. by intros x Hx ?. Qed.

Lemma fresh_some_row p r rows : fresh_row r rows → some_row p r rows = false.
Proof.
  intros H. apply not_true_is_false. rewrite some_row_true. intros (x & Hx & E & _)%Exists_exists. unfold fresh_row in H.
  rewrite Forall_forall in H. by apply (H x).
Qed.

(** The unique insertion of a new row, whatever the versions of the tuples. *)
Lemma index_fresh_step n e txn ix t c r v rows :
  Builder.index_table ix = Some t → tree_rows e ix rows → index_room db e ix (S n) →
  chunk_holds (AttrsFor ix) c r → 0 ≤ v < 2 ^ 64 → fresh_row r rows →
  ∃ e', index_insert_unique ix e txn c v = Ret (true, e') ∧ e_store e' = e_store e ∧
    tree_rows e' ix ((r, v) :: rows) ∧ index_room db e' ix n ∧
    ∀ db' ix', CatalogTableOid_val ix' ≠ CatalogTableOid_val ix → same_tree_of db' e e' ix'.
Proof.
  intros Hix Hrows Hroom Hc Hv Hf. pose proof (fresh_some_row (λ _, false) r rows Hf) as E.
  destruct (index_unique_step_key n e txn ix t c r v (λ _, false) rows Hix Hrows Hroom Hc Hv) as (e' & H1 & H2 & H3 & H4);
    [by eapply fresh_row_key|by apply fresh_answers|]. rewrite E in H1, H3. by exists e'.
Qed.

(** [Insert], for the indexes that are not unique. *)
Lemma index_insert_step n e ix t c r v rows :
  Builder.index_table ix = Some t → tree_rows e ix rows → index_room db e ix (S n) →
  chunk_holds (AttrsFor ix) c r → 0 ≤ v < 2 ^ 64 → v ∉ rows.*2 →
  ∃ e', index_insert ix e c v = Ret e' ∧ e_store e' = e_store e ∧ tree_rows e' ix ((r, v) :: rows) ∧ index_room db e' ix n ∧
    ∀ db' ix', CatalogTableOid_val ix' ≠ CatalogTableOid_val ix → same_tree_of db' e e' ix'.
Proof.
  intros Hix (tr & Htr & Hrows) Hroom Hc Hv Hn. pose proof (catalog_attrs_ok ix t Hix) as Ha.
  destruct (room_for_one e ix rows tr n Htr Hrows Hroom) as (Hone & Hsafe & Hleft). pose proof Hrows as (ks & _ & _ & Hok).
  destruct (index_insert_ok dec reenc _ _ tr rows c r v Hrows Ha Hc Hv) as (lost & _ & Hlost & H); [|done|].
  { apply fresh_key; [done|done|]. eapply Forall_impl; [exact Hok|]. by intros x (_ & _ & ?). }
  rewrite (Hlost Hsafe) in H. destruct H as (tr' & Hi & Hrows' & Hg).
  exists (set_tree db e ix tr'). split_and!; [|done|by apply set_tree_rows|by apply Hleft|intros; by apply set_tree_other].
  unfold index_insert, engine_store. by rewrite Htr, bind_Ret, Hi.
Qed.

(** Indexes with their rows, each with room for [n] more entries. *)
Definition indexes_hold (n : nat) (e : engine) (l : list (CatalogTableOid * list (list value * Z))) : Prop :=
  Forall (λ p, tree_rows e p.1 p.2 ∧ index_room db e p.1 n) l.

Lemma indexes_same n e e' l : Forall (λ p, same_tree e e' p.1) l → indexes_hold n e l → indexes_hold n e' l.
Proof.
  intros HS HF. unfold indexes_hold in *. rewrite Forall_forall in HS, HF. apply Forall_forall. intros p Hp.
  destruct (HF p Hp) as [H1 H2]. split; [apply (tree_rows_same e _ _ _ (HS p Hp) H1)|by apply (same_tree_room _ _ _ _ _ (HS p Hp))].
Qed.

Lemma indexes_room n m e l : (m ≤ n)%nat → indexes_hold n e l → indexes_hold m e l.
Proof.
  intros Hm HF. eapply Forall_impl; [exact HF|]. cbn. intros p [H1 H2]. split; [done|]. by apply (index_room_le _ _ _ n).
Qed.

(** Two indexes with their rows and room for [n] more entries. *)
Record two_trees (n : nat) (e : engine) (ix1 ix2 : CatalogTableOid) (rows1 rows2 : list (list value * Z)) : Prop := {
  tt_rows1 : tree_rows e ix1 rows1;
  tt_rows2 : tree_rows e ix2 rows2;
  tt_room1 : index_room db e ix1 n;
  tt_room2 : index_room db e ix2 n
}.

Lemma two_trees_same n e e' ix1 ix2 rows1 rows2 : same_tree e e' ix1 → same_tree e e' ix2 →
  two_trees n e ix1 ix2 rows1 rows2 → two_trees n e' ix1 ix2 rows1 rows2.
Proof. intros S1 S2 [H1 H2 H3 H4]. split; by (eapply tree_rows_same || eapply same_tree_room). Qed.

(** Both unique insertions of one tuple, the second only when the first was
    done. *)
Lemma two_unique_steps n e txn ix1 ix2 t c r1 r2 v hb rows1 rows2 :
  Builder.index_table ix1 = Some t → Builder.index_table ix2 = Some t → CatalogTableOid_val ix2 ≠ CatalogTableOid_val ix1 →
  two_trees (S n) e ix1 ix2 rows1 rows2 → 0 ≤ v < 2 ^ 64 → v ∉ rows1.*2 → v ∉ rows2.*2 →
  chunk_holds (AttrsFor ix1) c r1 → chunk_holds (AttrsFor ix2) c r2 → answers e txn t r1 hb rows1 → answers e txn t r2 hb rows2 →
  let dup1 := some_row hb r1 rows1 in
  let dup2 := some_row hb r2 rows2 in
  let rows1' := if dup1 then rows1 else (r1, v) :: rows1 in
  ∃ e1 e2, index_insert_unique ix1 e txn c v = Ret (negb dup1, e1) ∧
    index_insert_unique ix2 e1 txn c v = Ret (negb dup2, e2) ∧ e_store e1 = e_store e ∧ e_store e2 = e_store e ∧
    two_trees n e1 ix1 ix2 rows1' rows2 ∧ two_trees n e2 ix1 ix2 rows1' (if dup2 then rows2 else (r2, v) :: rows2) ∧
    ∀ db' ix, CatalogTableOid_val ix ≠ CatalogTableOid_val ix1 → CatalogTableOid_val ix ≠ CatalogTableOid_val ix2 →
      same_tree_of db' e e1 ix ∧ same_tree_of db' e e2 ix.
Proof.
  intros I1 I2 Hne [N1 N2 N3 N4] Hv Hn1 Hn2 C1 C2 A1 A2 dup1 dup2 rows1'.
  destruct (index_unique_step n e txn ix1 t c r1 v hb rows1 I1 N1 N3 C1 Hv Hn1 A1) as (e1 & U1 & S1 & R1 & M1 & K1).
  assert (S12 : same_tree e e1 ix2) by by apply K1.
  destruct (index_unique_step n e1 txn ix2 t c r2 v hb rows2) as (e2 & U2 & S2 & R2 & M2 & K2); try done.
  { by apply (tree_rows_same e). }
  { by eapply same_tree_room. }
  { unfold answers. by rewrite S1. }
  assert (S21 : same_tree e1 e2 ix1) by by apply K2.
  exists e1, e2. split_and!; [done|done|done|by rewrite S2| | |].
  - split; [done|by apply (tree_rows_same e)|done|]. apply (same_tree_room _ _ _ _ n S12). by apply (index_room_le _ _ _ (S n)); [lia|].
  - split; [by apply (tree_rows_same e1)|done|by eapply same_tree_room|done].
  - intros db' ix H1 H2. split; [by apply K1|]. destruct (K1 db' ix H1) as [E1 E2], (K2 db' ix H2) as [E3 E4]. split; congruence.
Qed.

(** The tables do not depend on the trees. *)
Lemma table_insert_frame t e e' txn c tup e1 txn1 :
  table_insert t e txn c = Ret (tup, e1, txn1) → e_store e' = e_store e →
  table_insert t e' txn c = Ret (tup, set_store e' (e_store e1), txn1).
Proof.
  intros E Hs. unfold table_insert, engine_store in *. apply bind_inv in E as (tbl & Et & E). rewrite Et, bind_Ret, Hs.
  apply bind_inv in E as ([[? ?] ?] & Ei & [= <- <- <-]). by rewrite Ei.
Qed.

Lemma table_insert_trees t e txn c tup e1 txn1 db' ix :
  table_insert t e txn c = Ret (tup, e1, txn1) → same_tree_of db' e e1 ix.
Proof.
  intros E. apply table_insert_frame with (e' := e) in E as E2; [|done]. rewrite E in E2. by injection E2 as ->.
Qed.

(** Storing several chunks, with their tuple ids. *)
Fixpoint store_chunks (l : list (CatalogTableOid * DataChunk)) (e : engine) (txn : TransactionContext) :
    outcome (list Z * engine * TransactionContext) :=
  match l with
  | [] => Ret ([], e, txn)
  | (t, c) :: l =>
      '(tup, e, txn) ← table_insert t e txn c;
      '(vs, e, txn) ← store_chunks l e txn;
      Ret (GetValue tup :: vs, e, txn)
  end.

Lemma store_chunks_frame l e e' txn vs e1 txn1 :
  store_chunks l e txn = Ret (vs, e1, txn1) → e_store e' = e_store e →
  store_chunks l e' txn = Ret (vs, set_store e' (e_store e1), txn1).
Proof.
  revert e e' txn vs. induction l as [|[t c] l IH]; intros e e' txn vs E Hs; cbn [store_chunks] in *.
  - injection E as <- <- <-. rewrite <- Hs. by destruct e'.
  - apply bind_inv in E as ([[tup e2] txn2] & E1 & E). apply bind_inv in E as ([[vs2 e3] txn3] & E2 & [= <- <- <-]).
    rewrite (table_insert_frame t e e' txn c tup e2 txn2 E1 Hs), bind_Ret.
    by rewrite (IH e2 (set_store e' (e_store e2)) txn2 vs2 E2 eq_refl), bind_Ret.
Qed.

Lemma GetTidExists_on sys alive l t :
  Forall (λ w, GetTidExists sys [mkTupleId w] t = Ret (alive w)) l →
  GetTidExists sys (map mkTupleId l) t = Ret (existsb alive l).
Proof.
  induction 1 as [|w l Hw _ IH]; [done|]. cbn [map GetTidExists existsb]. cbn [GetTidExists] in Hw.
  apply bind_inv in Hw as (undo & Hu & Hw). rewrite Hu, bind_Ret. destruct (_ || _).
  - injection Hw as <-. done.
  - injection Hw as <-. exact IH.
Qed.
End Engine.
