(* ===== verification/CatalogDemo.v ===== *)
(** * A small database

    An empty engine of the catalogs, with an ASCII normalisation of names, and
    the storing of one row in it: the concrete state at which the theorems on
    the catalogs are instantiated. *)

From stdpp Require Import strings.
From S2P Require Import Prelude Bytes Shared Memory CatalogCommon AccessTypes DataChunk Fsm.
From S2P Require Import KeyEncoder BTree Index IndexTheorems ChunkUtils Pax Arena.
From S2P Require Import Undo Redo Txn Table TableTheorems Builder BuilderTheorems CatalogChunks CatalogStore CatalogMonad EngineFacts.
Import TransactionContext.

Definition demo_values (s : Schema) : list SchemaColumn := (map_to_list s).*2.
Definition demo_uninit : VarlenEntry := mkVarlenEntry 0 (replicate 12 0).
Definition demo_file (_ : PageIdentifier) : mem := ∅.

Definition demo_store (db : Z) : CatalogStore engine :=
  engine_store demo_queue (λ _ h, h) demo_file ascii_decompose ascii_reencode demo_values ∅ db.

Abbreviation demo_tree_rows := (tree_rows ascii_decompose ascii_reencode).
Abbreviation demo_trees := (two_trees ascii_decompose ascii_reencode).

Lemma demo_values_ok (s : Schema) : demo_values s ≡ₚ (map_to_list s).*2.
Proof. done. Qed.

Lemma demo_uninit_ok : uninit_entry demo_uninit.
Proof. split; [done|]. by apply Forall_replicate. Qed.

Definition public : list Z := string_bytes "public".

(** A short name of bytes other than 0. *)
Definition ascii_name (name : list Z) : bool :=
  bool_decide (length name ≤ 12)%nat && forallb (λ b, (0 <? b) && (b <? 256)) name.

Lemma ascii_name_ok name : ascii_name name = true → name_ok ascii_decompose ascii_reencode name.
Proof.
  intros [Hl%bool_decide_eq_true Hb]%andb_true_iff. rewrite forallb_forall in Hb.
  assert (HB : Forall (λ b, 0 < b < 256) name).
  { apply Forall_forall. intros b Hin%list_elem_of_In. specialize (Hb b Hin). lia. }
  assert (HB' : bytes_ok name) by (eapply Forall_impl; [exact HB|]; unfold is_byte; cbn; intros; lia).
  split; [exact Hl|]. split; [exact HB'|]. exists name, name. split_and!; [done|done| | | |exact HB']; [lia..|].
  rewrite Forall_forall in HB. intros H. specialize (HB 0 H). lia.
Qed.

Lemma public_ok : name_ok ascii_decompose ascii_reencode public.
Proof. by apply ascii_name_ok. Qed.

(** A transaction, and the engine before any tree is made. *)
Definition demo_begin : outcome (TransactionContext * system) := TransactionContext.make demo_queue demo_system 0 (2 ^ 63).
Definition demo_engine (sys : system) : engine := mkEngine (Table.mkStore sys ∅ FreeSpaceManager.init) ∅ ∅.

(** The transaction stores the row of a chunk; the tuple it gets is not
    deleted. *)
Definition demo_stored (db : Z) (t : CatalogTableOid) (chunk : outcome DataChunk) :
    outcome (system * TransactionContext * DataChunk * TupleId * engine * TransactionContext * bool) :=
  '(txn, sys) ← demo_begin;
  c ← chunk;
  '(tup, e1, txn1) ← table_insert (CatalogStore := demo_store db) t (demo_engine sys) txn c;
  found ← GetTidExists (Table.st_system (e_store e1)) [tup] (CatalogTableOid_val t);
  Ret (sys, txn, c, tup, e1, txn1, found && (FinishTime txn =? 2 ^ 63) && bool_decide (0 ≤ GetValue tup < 2 ^ 64)).

Lemma is_ret {A} (p : A → bool) (m : outcome A) : match m with Ret a => p a | _ => false end = true → ∃ a, m = Ret a ∧ p a = true.
Proof. destruct m as [a| | | |]; try done. intros H. by exists a. Qed.

Definition demo_stores (db : Z) (t : CatalogTableOid) (chunk : outcome DataChunk) : bool :=
  match demo_stored db t chunk with Ret r => r.2 | _ => false end.

(** The row is stored in every engine over the same tables. *)
Lemma demo_stored_ok db t chunk :
  demo_stores db t chunk = true →
  ∃ sys txn c tup e1 txn1, chunk = Ret c ∧ FinishTime txn = 2 ^ 63 ∧ 0 ≤ GetValue tup < 2 ^ 64 ∧
    (∀ e, e_store e = e_store (demo_engine sys) →
      table_insert (CatalogStore := demo_store db) t e txn c = Ret (tup, set_store e (e_store e1), txn1)) ∧
    GetTidExists (Table.st_system (e_store e1)) [tup] (CatalogTableOid_val t) = Ret true.
Proof.
  intros H. apply is_ret in H as ([[[[[[sys txn] c] tup] e1] txn1] ok] & E & Hok).
  unfold demo_stored in E. apply bind_inv in E as ([txn0 sys0] & _ & E). apply bind_inv in E as (c0 & Hc & E).
  apply bind_inv in E as ([[tup0 e10] txn10] & HT & E). apply bind_inv in E as (found & HG & [= <- <- <- <- <- <- <-]).
  cbn in Hok. apply andb_true_iff in Hok as [[-> Hf%Z.eqb_eq]%andb_true_iff Hv%bool_decide_eq_true].
  exists sys0, txn0, c0, tup0, e10, txn10. split_and!; try done; try lia.
  intros e He. by eapply table_insert_frame; [exact HT|].
Qed.

(** The empty trees of a new database. *)
Lemma demo_database db sys : ∃ e, CreateDatabaseCatalog demo_values db (demo_engine sys) = Ret e ∧
  e_store e = e_store (demo_engine sys) ∧
  ∀ ix, ix ∈ database_indexes → demo_tree_rows db e ix [] ∧ index_room db e ix 50.
Proof.
  destruct (CreateDatabaseCatalog_ok ascii_decompose ascii_reencode demo_values db (demo_engine sys) demo_values_ok)
    as (e & E & Hs & Hin & _).
  { apply Forall_forall. intros ix _. change (next_page (demo_engine sys) ix) with 1. by vm_compute. }
  exists e. split; [exact E|]. split; [exact Hs|]. intros ix Hix. pose proof (Hin ix Hix) as H.
  split; [apply H|]. apply (new_index_room _ _ _ _ _ _ _ H); [lia|]. change (next_page (demo_engine sys) ix) with 1. by vm_compute.
Qed.

Definition demo_txn (start finish : Z) : TransactionContext :=
  match TransactionContext.make demo_queue demo_system start finish with
  | Ret (txn, _) => txn
  | _ => mkTransactionContext start finish false UndoBuffer.make (RedoBuffer.mkRedoBuffer 0 0 0 false) SYNC
  end.

