(* ===== verification/CatalogTheorems.v ===== *)
(** * Theorems about the catalog of a database

    The write lock admits one transaction for ever; an operation that does not
    get it changes nothing; namespaces are found by name and oid through the
    indexes of their table. *)

From stdpp Require Import strings.
From S2P Require Import Prelude Bytes Shared Memory CatalogCommon AccessTypes DataChunk Fsm.
From S2P Require Import LeafFacts KeyEncoder BTree BTreeInv BTreeInsert BTreeTree Index IndexTheorems ChunkUtils Pax Arena.
From S2P Require Import Undo Redo Txn Table TableTheorems Builder BuilderTheorems CatalogChunks CatalogStore CatalogMonad DatabaseCatalog EngineFacts CatalogDemo.
Import TransactionContext DatabaseCatalog.

(** ** The write lock *)

(** The finish time of a running transaction is an uncommitted timestamp. *)
Definition running (txn : TransactionContext) : Prop := 2 ^ 63 ≤ FinishTime txn < 2 ^ 64 ∧ 0 ≤ StartTime txn.

(** The answers of [TryLock] to the transactions that call it in turn. *)
Fixpoint lock_calls (write_lock : Z) (txns : list TransactionContext) : list bool :=
  match txns with
  | [] => []
  | txn :: txns => let '(ok, write_lock, _) := TryLock id write_lock txn in ok :: lock_calls write_lock txns
  end.

Lemma conflict_uncommitted w txn_id start : 2 ^ 63 ≤ w < 2 ^ 64 → w ≠ txn_id → TransactionUtil.HasConflict w txn_id start = true.
Proof.
  intros Hw Hne. unfold TransactionUtil.HasConflict, TransactionUtil.IsCommitted, Prelude.to_signed. cbv zeta.
  rewrite (wrap_small 64), (proj2 (Z.ltb_ge _ _)) by lia. rewrite (proj2 (Z.leb_gt _ _)) by lia.
  by rewrite (proj2 (Z.eqb_neq w txn_id) Hne).
Qed.

Lemma no_conflict_initial txn_id start : 0 ≤ start → TransactionUtil.HasConflict 0 txn_id start = false.
Proof.
  intros Hs. unfold TransactionUtil.HasConflict, TransactionUtil.IsNewerThan.
  change (TransactionUtil.IsCommitted 0) with true. cbn [negb andb orb]. apply Z.ltb_ge. lia.
Qed.

(** A lock that a running transaction holds answers its holder alone. *)
Lemma TryLock_held others w txn :
  2 ^ 63 ≤ w < 2 ^ 64 →
  TryLock others w txn = (FinishTime txn =? w, w, if FinishTime txn =? w then txn else Abort txn).
Proof.
  intros Hw. unfold TryLock. rewrite (Z.eqb_sym w). destruct (Z.eqb_spec (FinishTime txn) w) as [E|E]; [done|].
  by rewrite conflict_uncommitted by done.
Qed.

(** C33: the first transaction that takes the catalog's lock keeps it: whatever
    transactions call [TryLock] afterwards, whenever they started and also after
    the first one has committed, it answers true to the first transaction alone;
    nothing ever releases it. *)
Theorem catalog_lock_never_released txn txns :
  Forall running (txn :: txns) →
  lock_calls 0 (txn :: txns) = true :: ((λ t, FinishTime t =? FinishTime txn) <$> txns).
Proof.
  intros [[Ht Hs] HF]%Forall_cons. cbn [lock_calls]. unfold TryLock at 1.
  rewrite (proj2 (Z.eqb_neq 0 _)), no_conflict_initial by lia. cbn [id Z.eqb].
  change (id 0 =? 0) with true. cbv iota beta. f_equal.
  induction txns as [|t ts IH]; [done|]. apply Forall_cons in HF as [_ HF]. cbn [lock_calls fmap list_fmap].
  rewrite TryLock_held by done. f_equal. by apply IH.
Qed.

Section Locked.
Context {st : Type} `{CatalogStore st}.
Context (others : Z → Z) (uninit : VarlenEntry) (values : Schema → list SchemaColumn).

(** The state after a refused lock. *)
Definition refused (s : state (C := DatabaseCatalog) (st := st)) : state := mkState (s_catalog s) (s_store s) (Abort (s_txn s)).

Lemma TryLockM_refused s :
  2 ^ 63 ≤ write_lock_ (s_catalog s) < 2 ^ 64 → FinishTime (s_txn s) ≠ write_lock_ (s_catalog s) →
  TryLockM others s = Ret (false, refused s).
Proof.
  intros Hw Hne. unfold TryLockM. rewrite TryLock_held by done. rewrite (proj2 (Z.eqb_neq _ _) Hne).
  destruct s as [[] ? ?]. done.
Qed.

(** C32: while another transaction holds the lock, and is found to hold it when
    the word is loaded, every operation of the catalog returns with the store and the counters as they were and the transaction
    marked aborted; [CreateNamespace] and [DeleteNamespace] report the failure,
    [CreateTable], [CreateIndex] and [CreateConstraint] report success with
    [INVALID_OID].  The lock that is free when loaded and lost at the
    compare-and-swap is not the case of this theorem. *)
Theorem locked_operations_refused s :
  2 ^ 63 ≤ write_lock_ (s_catalog s) < 2 ^ 64 → FinishTime (s_txn s) ≠ write_lock_ (s_catalog s) →
  (∀ name, CreateNamespace others uninit name s = Ret (Fail "Couldnt aquire a lock", refused s)) ∧
  (∀ oid, DeleteNamespace others uninit oid s = Ret (false, refused s)) ∧
  (∀ name ns schema, CreateTable others uninit values name ns schema s = Ret (Ok INVALID_OID, refused s)) ∧
  (∀ name rel ns schema, CreateIndex others uninit values name rel ns schema s = Ret (Ok INVALID_OID, refused s)) ∧
  (∀ props, CreateConstraint others uninit props s = Ret (Ok INVALID_OID, refused s)).
Proof.
  intros Hw Hne. pose proof (TryLockM_refused s Hw Hne) as E.
  split_and!; intros; unfold CreateNamespace, DeleteNamespace, CreateTable, create_class, CreateIndex, CreateConstraint, bind;
    rewrite E; done.
Qed.
End Locked.

(** ** Namespaces in the engine *)

Lemma namespace_heap : Builder.index_table PG_INDEX_NAMESPACE_NSPNAME = Some PG_NAMESPACE ∧
  Builder.index_table PG_INDEX_NAMESPACE_NSPOID = Some PG_NAMESPACE.
Proof. by vm_compute. Qed.

Section Namespaces.
Context (try_dequeue : list Z → option (Z * list Z)) (steps : nat → heap → heap) (file : PageIdentifier → mem).
Context (dec reenc : list Z → bool → Z + list Z) (values : Schema → list SchemaColumn) (fresh : mem).
Context (db : Z) (others : Z → Z) (uninit : VarlenEntry).
(** The iteration order of the hash map, and uninitialised memory. *)
Hypothesis values_ok : ∀ s : Schema, values s ≡ₚ (map_to_list s).*2.
Hypothesis fresh_ok : mem_ok fresh.
Hypothesis uninit_ok : uninit_entry uninit.

#[local] Hint Extern 0 (CatalogStore engine) =>
  exact (engine_store try_dequeue steps file dec reenc values fresh db) : typeclass_instances.

Abbreviation chunk_holds := (Index.chunk_holds dec reenc).
Abbreviation name_ok := (name_ok dec reenc).
Abbreviation tree_rows := (tree_rows dec reenc db).
Abbreviation some_row := (some_row dec reenc).
Abbreviation answers := (answers dec reenc).
Abbreviation row_cmp := (KeyEncoder.row_cmp dec reenc).

Lemma namespace_chunk (e : engine) :
  ∃ c0, create_chunk PG_NAMESPACE e = Ret c0 ∧
    (∀ oid, 0 ≤ oid < 2 ^ 31 →
       chunk_holds (AttrsFor PG_INDEX_NAMESPACE_NSPOID) (DataChunkBuilder.BuildNamespaceChunk_oid c0 oid) [VSigned 4 oid] ∧
       chunk_holds (AttrsFor PG_INDEX_NAMESPACE_NSPOID) (DataChunkBuilder.BuildNamespaceChunk uninit c0 oid []) [VSigned 4 oid]) ∧
    ∀ oid name, 0 ≤ oid < 2 ^ 31 → name_ok name →
      let c := DataChunkBuilder.BuildNamespaceChunk uninit c0 oid name in
      chunk_holds (AttrsFor PG_INDEX_NAMESPACE_NSPNAME) c [VSpan name] ∧
      chunk_holds (AttrsFor PG_INDEX_NAMESPACE_NSPOID) c [VSigned 4 oid] ∧
      mem_ok c ∧ ∃ ids sizes offs total, chunk_at (Schema_make Builder.CreateNamespaceSchema_columns) c ids sizes offs total.
Proof.
  destruct (catalog_chunk PG_NAMESPACE Builder.CreateNamespaceSchema_columns values fresh eq_refl (values_ok _) fresh_ok)
    as (l & ids & sizes & El & Hnd & Hlen & Hwf & Hf & Hat).
  set (c0 := CreateDataChunk l fresh) in *.
  assert (Hoid : field ids sizes (CatalogColumnOid_val NSPOID) 4).
  { apply (Hf (Builder.column NSPOID INTEGER "nspoid")). by left. }
  assert (Hname : field ids sizes (CatalogColumnOid_val NSPNAME) 16).
  { apply (Hf (Builder.column NSPNAME VARCHAR "nspname")). right. by left. }
  exists c0. split; [|split].
  - change (create_chunk PG_NAMESPACE e) with
      (layout ← DataChunkLayout_of_schema values (Schema_make Builder.CreateNamespaceSchema_columns); Ret (CreateDataChunk layout fresh)).
    by rewrite El.
  - intros oid Ho. destruct (write_oid ids sizes c0 (CatalogColumnOid_val NSPOID) oid Hnd Hlen Hwf Hoid Ho) as [W R].
    destruct (write_oid_name ids sizes c0 uninit (CatalogColumnOid_val NSPOID) (CatalogColumnOid_val NSPNAME) oid [])
      as (W2 & R2 & _); try done; [cbn; lia|constructor|].
    split; (split; [by apply W || by apply W2|]); (split; [|by repeat constructor]); (apply Forall2_cons; split; [done|constructor]).
  - intros oid name Ho (Hn & Hb & Hs). cbv zeta.
    destruct (write_oid_name ids sizes c0 uninit (CatalogColumnOid_val NSPOID) (CatalogColumnOid_val NSPNAME) oid name)
      as (W & R1 & R2); try done. destruct (Hat _ W) as (offs & total & Hca).
    split; [|split; [|split; [apply W|by exists ids, sizes, offs, total]]];
      (split; [apply W|]); (split; [apply Forall2_cons; split; [done|constructor]|by apply Forall_singleton]).
Qed.

(** ** Namespaces by name and oid *)

(** The two indexes of pg_namespace hold these rows and have room for [n]
    more. *)
Abbreviation namespaces n e names oids :=
  (two_trees dec reenc db n e PG_INDEX_NAMESPACE_NSPNAME PG_INDEX_NAMESPACE_NSPOID names oids).

(** C31: [CreateNamespace], once it has the lock and the table has stored the
    row, enters it under its name and then under its oid: it fails on the name
    when the transaction conflicts with a tuple of that name, fails on the oid
    likewise (the name is entered by then), and otherwise returns the oid with
    both entries made; the counter advances in every case.  The two indexes have
    room for the entries ([two_trees]: pages in their files and in their nodes
    of level 1; without the latter an insertion reads a separator that was
    freed, see [btree_insert_correct]). *)
Theorem create_namespace_correct n name s w txn tup e1 txn1 hb names oids :
  let oid := next_namespace_oid_ (s_catalog s) in
  let v := GetValue tup in
  let dup_name := some_row hb [VSpan name] names in
  let dup_oid := some_row hb [VSigned 4 oid] oids in
  TryLock others (write_lock_ (s_catalog s)) (s_txn s) = (true, w, txn) →
  (∀ c0, create_chunk PG_NAMESPACE (s_store s) = Ret c0 →
    table_insert PG_NAMESPACE (s_store s) txn (DataChunkBuilder.BuildNamespaceChunk uninit c0 oid name) = Ret (tup, e1, txn1)) →
  namespaces (S n) (s_store s) names oids → 0 ≤ oid < 2 ^ 31 → name_ok name → 0 ≤ v < 2 ^ 64 → v ∉ names.*2 → v ∉ oids.*2 →
  answers e1 txn1 PG_NAMESPACE [VSpan name] hb names → answers e1 txn1 PG_NAMESPACE [VSigned 4 oid] hb oids →
  ∃ s', CreateNamespace others uninit name s =
      Ret (if dup_name then Fail "Failed to insert to nspname index"
           else if dup_oid then Fail "Failed to insert to nspoid index" else Ok oid, s') ∧
    namespaces n (s_store s') (if dup_name then names else ([VSpan name], v) :: names)
      (if dup_name || dup_oid then oids else ([VSigned 4 oid], v) :: oids) ∧
    s_catalog s' = set_namespace_oid (set_write_lock (s_catalog s) w) (to_u32 (oid + 1)) ∧
    e_store (s_store s') = e_store e1 ∧ s_txn s' = txn1.
Proof.
  intros oid v dup_name dup_oid HL HT HN Ho Hname Hv Hn1 Hn2 A1 A2.
  destruct (namespace_chunk (s_store s)) as (c0 & Hc0 & _ & Hc). specialize (HT c0 Hc0).
  destruct (Hc oid name Ho Hname) as (C1 & C2 & _). set (c := DataChunkBuilder.BuildNamespaceChunk uninit c0 oid name) in *.
  assert (HN1 : namespaces (S n) e1 names oids).
  { by eapply two_trees_same; [eapply table_insert_trees, HT..|]. }
  destruct (two_unique_steps try_dequeue steps file dec reenc values fresh db n e1 txn1 PG_INDEX_NAMESPACE_NSPNAME
    PG_INDEX_NAMESPACE_NSPOID PG_NAMESPACE c [VSpan name] [VSigned 4 oid] v hb names oids (proj1 namespace_heap)
    (proj2 namespace_heap) ltac:(by vm_compute) HN1 Hv Hn1 Hn2 C1 C2 A1 A2)
    as (ea & eb & U1 & U2 & S1 & S2 & R1 & R2 & _).
  fold dup_name dup_oid in U1, U2, R1, R2.
  exists (mkState (set_namespace_oid (set_write_lock (s_catalog s) w) (to_u32 (oid + 1))) (if dup_name then ea else eb) txn1).
  split; [|by destruct dup_name; split_and!].
  unfold CreateNamespace. rewrite (bind_run _ _ s true (mkState (set_write_lock (s_catalog s) w) (s_store s) txn));
    [|by unfold TryLockM; rewrite HL].
  cbn [require]. rewrite (bind_run _ _ _ oid (mkState (set_namespace_oid (set_write_lock (s_catalog s) w) (to_u32 (oid + 1))) (s_store s) txn)) by done.
  unfold CreateNamespaceEntry. erewrite bind_run by (apply NewChunk_run; exact Hc0). cbv zeta. fold c.
  erewrite bind_run by (apply TableInsert_run; exact HT). erewrite bind_run by (apply InsertUnique_run; exact U1).
  destruct dup_name; cbn [negb require orb]; [done|]. erewrite bind_run by (apply InsertUnique_run; exact U2).
  by destruct dup_oid.
Qed.

(** What the [Exists] operations answer: whether the index has an entry of the
    key whose tuple is not deleted. *)
Lemma entry_exists t ix c key message (s : state (C := DatabaseCatalog) (st := engine)) rows alive :
  Builder.index_table ix = Some t → tree_rows (s_store s) ix rows → chunk_holds (AttrsFor ix) c key →
  Forall (λ x, row_cmp x.1 key = Eq →
    GetTidExists (Table.st_system (e_store (s_store s))) [mkTupleId x.2] (CatalogTableOid_val t) = Ret (alive x.2)) rows →
  (results <- IndexGet ix c;; found <- TidExists results t;; require found message (ret (Ok tt))) s =
    Ret (if some_row alive key rows then Ok tt else Fail message, s).
Proof.
  intros Hix (tr & Ht & Hrows) Hc HA.
  destruct (index_get_ok dec reenc _ _ True tr rows _ _ Hrows (catalog_attrs_ok _ _ Hix) Hc) as (tids & HG & _ & Hp).
  unfold bind, IndexGet, TidExists, require. unfold index_get, engine_store. rewrite Ht, !bind_Ret, HG, !bind_Ret. cbv beta iota zeta.
  unfold tid_exists. rewrite (GetTidExists_on _ alive).
  - rewrite bind_Ret. cbv beta iota zeta. assert (E : existsb alive tids = some_row alive key rows); [|rewrite E; by destruct some_row].
    apply eq_true_iff_eq. rewrite existsb_exists, some_row_true, Exists_exists. setoid_rewrite <- list_elem_of_In. setoid_rewrite Hp.
    split.
    + intros (w & ([r x] & -> & [Hr Hin]%list_elem_of_filter)%list_elem_of_fmap & Hw). by exists (r, x).
    + intros (x & Hin & Hr & Hw). exists x.2. split; [|done]. by apply list_elem_of_fmap_2, list_elem_of_filter.
  - rewrite Hp. apply Forall_fmap, Forall_forall. intros x [Hr Hin]%list_elem_of_filter. cbn.
    rewrite Forall_forall in HA. by apply HA.
Qed.

Lemma ExistsNamespace_ok oid s oids alive :
  tree_rows (s_store s) PG_INDEX_NAMESPACE_NSPOID oids → 0 ≤ oid < 2 ^ 31 →
  Forall (λ x, row_cmp x.1 [VSigned 4 oid] = Eq →
    GetTidExists (Table.st_system (e_store (s_store s))) [mkTupleId x.2] (CatalogTableOid_val PG_NAMESPACE) = Ret (alive x.2)) oids →
  ExistsNamespace oid s =
    Ret (if some_row alive [VSigned 4 oid] oids then Ok tt else Fail "Namespace does not exist", s).
Proof.
  intros Hrows Ho HA. destruct (namespace_chunk (s_store s)) as (c0 & Hc0 & Hc & _). destruct (Hc oid Ho) as [Hc1 _].
  unfold ExistsNamespace. erewrite bind_run by (apply NewChunk_run; exact Hc0). exact (entry_exists _ _ _ _ _ s oids alive (proj2 namespace_heap) Hrows Hc1 HA).
Qed.

(** [ExistsNamespace] finds an oid when the index holds an entry of that
    oid whose tuple is not deleted, and fails otherwise, changing nothing. *)
Theorem exists_namespace_correct oid s oids alive :
  tree_rows (s_store s) PG_INDEX_NAMESPACE_NSPOID oids → 0 ≤ oid < 2 ^ 31 →
  Forall (λ x, row_cmp x.1 [VSigned 4 oid] = Eq →
    GetTidExists (Table.st_system (e_store (s_store s))) [mkTupleId x.2] (CatalogTableOid_val PG_NAMESPACE) = Ret (alive x.2)) oids →
  ExistsNamespace oid s =
    Ret (if some_row alive [VSigned 4 oid] oids then Ok tt else Fail "Namespace does not exist", s).
Proof. apply ExistsNamespace_ok. Qed.
End Namespaces.

(** ** A small database *)

#[local] Hint Extern 0 (CatalogStore engine) => exact (demo_store 1) : typeclass_instances.

Lemma catalog_lock_never_released_witness :
  lock_calls 0 [demo_txn 0 (2 ^ 63); demo_txn 5 (2 ^ 63 + 1); demo_txn 0 (2 ^ 63)] = [true; false; true].
Proof.
  apply (catalog_lock_never_released (demo_txn 0 (2 ^ 63)) [demo_txn 5 (2 ^ 63 + 1); demo_txn 0 (2 ^ 63)]).
  repeat constructor; by vm_compute.
Defined.

Lemma locked_operations_refused_witness :
  let s := mkState (set_write_lock (DatabaseCatalog.make 1) (2 ^ 63)) (demo_engine demo_system) (demo_txn 5 (2 ^ 63 + 1)) in
  CreateNamespace id demo_uninit public s = Ret (Fail "Couldnt aquire a lock", refused s).
Proof. intros s. apply (locked_operations_refused id demo_uninit demo_values s); by vm_compute. Defined.

(** The row of namespace 1, "public". *)
Definition demo_chunk : outcome DataChunk :=
  c0 ← create_chunk PG_NAMESPACE (demo_engine demo_system); Ret (DataChunkBuilder.BuildNamespaceChunk demo_uninit c0 1 public).

Lemma demo_namespace_stored : demo_stores 1 PG_NAMESPACE demo_chunk = true.
Proof. by vm_compute. Qed.

(** The empty indexes of pg_namespace. *)
Lemma demo_namespaces sys : ∃ e, e_store e = e_store (demo_engine sys) ∧
  demo_trees 1 50 e PG_INDEX_NAMESPACE_NSPNAME PG_INDEX_NAMESPACE_NSPOID [] [].
Proof.
  destruct (demo_database 1 sys) as (e & _ & Hs & Hin). exists e. split; [done|].
  split; apply Hin; apply (bool_decide_unpack _); by vm_compute.
Qed.

Lemma create_namespace_correct_witness : ∃ s s' v, CreateNamespace id demo_uninit public s = Ret (Ok 1, s') ∧
  demo_tree_rows 1 (s_store s') PG_INDEX_NAMESPACE_NSPNAME [([VSpan public], v)] ∧
  demo_tree_rows 1 (s_store s') PG_INDEX_NAMESPACE_NSPOID [([VSigned 4 1], v)].
Proof.
  destruct (demo_stored_ok 1 PG_NAMESPACE demo_chunk demo_namespace_stored) as (sys & txn & c & tup & e1 & txn1 & Hc & Hf & Hv & HT & _).
  destruct (demo_namespaces sys) as (e & He & HN). set (s := mkState (set_write_lock (DatabaseCatalog.make 1) (2 ^ 63)) e txn).
  destruct (create_namespace_correct demo_queue (λ _ h, h) demo_file ascii_decompose ascii_reencode demo_values ∅ 1 id demo_uninit
    demo_values_ok mem_ok_empty demo_uninit_ok 49 public s (2 ^ 63) txn tup (set_store e (e_store e1)) txn1 (λ _, false) [] [])
    as (s' & E & [H1 H2 _ _] & _).
  - subst s. unfold TryLock. cbn [s_catalog s_txn write_lock_ set_write_lock]. by rewrite Hf.
  - intros c0 Hc0. apply bind_inv in Hc as (c1 & Hc1 & [= <-]). pose proof (eq_trans (eq_sym Hc0) Hc1) as [= ->]. exact (HT e He).
  - exact HN.
  - change (0 ≤ 1 < 2 ^ 31). lia.
  - exact public_ok.
  - exact Hv.
  - apply not_elem_of_nil.
  - apply not_elem_of_nil.
  - constructor.
  - constructor.
  - exists s, s', (GetValue tup). split; [exact E|]. split; [exact H1|exact H2].
Defined.

(** The index on the oid after the row of namespace 1 was stored and entered. *)
Lemma demo_entered : ∃ e v, demo_tree_rows 1 e PG_INDEX_NAMESPACE_NSPOID [([VSigned 4 1], v)] ∧
  GetTidExists (Table.st_system (e_store e)) [mkTupleId v] (CatalogTableOid_val PG_NAMESPACE) = Ret true.
Proof.
  destruct (demo_stored_ok 1 PG_NAMESPACE demo_chunk demo_namespace_stored) as (sys & txn & c & tup & e1 & txn1 & _ & _ & Hv & _ & HG).
  destruct (demo_namespaces sys) as (e & _ & HN).
  destruct (two_trees_same _ _ 1 50 e (set_store e (e_store e1)) _ _ _ _ (conj eq_refl eq_refl) (conj eq_refl eq_refl) HN)
    as [N1 N2 N3 N4].
  destruct (namespace_chunk demo_queue (λ _ h, h) demo_file ascii_decompose ascii_reencode demo_values ∅ 1 demo_uninit
    demo_values_ok mem_ok_empty demo_uninit_ok e) as (c1 & _ & Hk & _).
  destruct (index_unique_step demo_queue (λ _ h, h) demo_file ascii_decompose ascii_reencode demo_values ∅ 1 49
    (set_store e (e_store e1)) txn1 _ _ _ [VSigned 4 1] (GetValue tup) (λ _, false) [] (proj2 namespace_heap)
    N2 N4 (proj1 (Hk 1 ltac:(lia))) Hv) as (e2 & _ & Hs & Hrows & _); [apply not_elem_of_nil|constructor|].
  exists e2, (GetValue tup). split; [exact Hrows|]. rewrite Hs. destruct tup. exact HG.
Qed.

Lemma exists_namespace_correct_witness : ∃ s : state (st := engine),
  ExistsNamespace 1 s = Ret (Ok tt, s) ∧ ExistsNamespace 2 s = Ret (Fail "Namespace does not exist", s).
Proof.
  destruct demo_entered as (e & v & He & HG).
  set (s := mkState (DatabaseCatalog.make 1) e (demo_txn 0 (2 ^ 63))). exists s.
  pose proof (exists_namespace_correct demo_queue (λ _ h, h) demo_file ascii_decompose ascii_reencode demo_values ∅ 1 demo_uninit
    demo_values_ok mem_ok_empty demo_uninit_ok) as H. split.
  - apply (H 1 s [([VSigned 4 1], v)] (λ _, true)); [exact He|lia|]. apply Forall_singleton. intros _. exact HG.
  - apply (H 2 s [([VSigned 4 1], v)] (λ _, true)); [exact He|lia|]. apply Forall_singleton. cbn [fst]. intros Hr.
    vm_compute in Hr. discriminate Hr.
Defined.
