(* ===== verification/DatabasesTheorems.v ===== *)
(** * Theorems about the catalog of databases

    A database is created with its row in pg_database, both entries of the row
    and the empty indexes of its own catalog, and the indexes of the databases
    made before keep their rows. *)

From stdpp Require Import strings.
From S2P Require Import Prelude Bytes Shared Memory CatalogCommon AccessTypes DataChunk Fsm.
From S2P Require Import KeyEncoder BTree Index IndexTheorems ChunkUtils Pax Arena.
From S2P Require Import Undo Redo Txn Table TableTheorems Builder CatalogChunks CatalogStore CatalogMonad.
From S2P Require Import DatabaseCatalog Catalog EngineFacts CatalogDemo.
Import TransactionContext Catalog.

Lemma database_heap : Builder.index_table PG_INDEX_DATABASE_DATNAME = Some PG_DATABASES ∧
  Builder.index_table PG_INDEX_DATABASE_DATOID = Some PG_DATABASES.
Proof. by vm_compute. Qed.

(** ** The chunk of a database *)

Definition database_chunk (fresh : mem) (uninit : VarlenEntry) (oid : Z) (name : list Z) : outcome DataChunk :=
  layout ← data_chunk_layout_; DataChunkBuilder.BuildDatabaseChunk uninit (DataChunk.CreateDataChunk layout fresh) oid name.

Lemma database_chunk_ok dec reenc fresh uninit oid name :
  mem_ok fresh → uninit_entry uninit → 0 ≤ oid < 2 ^ 31 → (length name ≤ 12)%nat → bytes_ok name →
  ∃ c, database_chunk fresh uninit oid name = Ret c ∧
    (string_ok dec reenc name → chunk_holds dec reenc (AttrsFor PG_INDEX_DATABASE_DATNAME) c [VSpan name]) ∧
    chunk_holds dec reenc (AttrsFor PG_INDEX_DATABASE_DATOID) c [VSigned 4 oid].
Proof.
  intros Hm Hu Ho Hn Hb. set (ids := [CatalogColumnOid_val DATOID; CatalogColumnOid_val DATNAME]). set (sizes := [4; 16]).
  destruct (layout_make_ok ids sizes) as (l & total & El & _ & _ & _ & _ & _ & Hk).
  { by apply (bool_decide_unpack _); vm_compute. }
  { done. }
  { repeat constructor; by vm_compute. }
  { by vm_compute. }
  assert (Hnd : NoDup ids) by (by apply (bool_decide_unpack _); vm_compute).
  assert (Hlen : Z.of_nat (length ids) < 2 ^ 32) by by vm_compute.
  set (c0 := DataChunk.CreateDataChunk l fresh).
  assert (Hwf : wf_chunk ids sizes c0) by (split; [by eapply layout_mem|eauto]).
  assert (F1 : field ids sizes (CatalogColumnOid_val DATOID) 4) by by exists 0%nat.
  assert (F2 : field ids sizes (CatalogColumnOid_val DATNAME) 16) by by exists 1%nat.
  destruct (write_oid ids sizes c0 _ oid Hnd Hlen Hwf F1 Ho) as [W1 _].
  destruct (write_oid_name ids sizes c0 uninit _ _ oid name Hnd Hlen Hwf F1 F2 ltac:(done) Ho Hu Hn Hb) as (W & R1 & R2).
  eexists. split; [|split; [intros Hs|]; (split; [apply W|]); (split; [apply Forall2_cons; split; [eassumption|constructor]|])].
  - unfold database_chunk, data_chunk_layout_. change (DataChunkLayout_make _ _) with (DataChunkLayout_make ids sizes).
    rewrite El, bind_Ret. fold c0. unfold DataChunkBuilder.BuildDatabaseChunk. change Chunk.InitIterator with (Z.of_nat 0).
    rewrite (push_back_write ids sizes Hnd 4 c0 0 _ 4 _ Hwf eq_refl eq_refl) by (try done; by exists 1). rewrite bind_Ret.
    change (Z.of_nat 0 + 1) with (Z.of_nat 1).
    rewrite (push_back_write ids sizes Hnd 4 _ 1 _ 16 _ W1 eq_refl eq_refl) by (try done; by exists 2). reflexivity.
  - by apply Forall_singleton.
  - by repeat constructor.
Qed.

Section Databases.
Context (try_dequeue : list Z → option (Z * list Z)) (steps : nat → heap → heap) (file : PageIdentifier → mem).
Context (dec reenc : list Z → bool → Z + list Z) (values : Schema → list SchemaColumn) (fresh : mem).
Context (uninit : VarlenEntry).
(** The iteration order of the hash map, and uninitialised memory. *)
Hypothesis values_ok : ∀ s : Schema, values s ≡ₚ (map_to_list s).*2.
Hypothesis fresh_ok : mem_ok fresh.
Hypothesis uninit_ok : uninit_entry uninit.

#[local] Hint Extern 0 (CatalogStore engine) =>
  exact (engine_store try_dequeue steps file dec reenc values fresh 0) : typeclass_instances.
#[local] Hint Extern 0 (CatalogBuilder engine) => exact (engine_builder values) : typeclass_instances.

Abbreviation name_ok := (name_ok dec reenc).
Abbreviation tree_rows := (tree_rows dec reenc).
Abbreviation some_row := (some_row dec reenc).
Abbreviation answers := (answers dec reenc).

(** The two indexes of pg_database hold these rows and have room for [n]
    more. *)
Abbreviation databases n e names oids :=
  (two_trees dec reenc 0 n e PG_INDEX_DATABASE_DATNAME PG_INDEX_DATABASE_DATOID names oids).

(** Room in the index files for the roots of another database, and [n] entries
    in each of its indexes. *)
Definition pages_left (e : engine) (n : nat) : Prop :=
  Forall (λ ix, 0 < next_page e ix ∧ next_page e ix + 1 + 18 * Z.of_nat n ≤ BUFFER_POOL_PAGE_NUM) database_indexes.

(** The indexes of pg_database are in files of their own. *)
Lemma database_index_files ix : ix ∈ database_indexes →
  CatalogTableOid_val ix ≠ CatalogTableOid_val PG_INDEX_DATABASE_DATNAME ∧
  CatalogTableOid_val ix ≠ CatalogTableOid_val PG_INDEX_DATABASE_DATOID.
Proof.
  intros H. assert (HF : Forall (λ ix, CatalogTableOid_val ix ≠ CatalogTableOid_val PG_INDEX_DATABASE_DATNAME ∧
    CatalogTableOid_val ix ≠ CatalogTableOid_val PG_INDEX_DATABASE_DATOID) database_indexes)
    by (apply (bool_decide_unpack _); by vm_compute).
  rewrite Forall_forall in HF. by apply HF.
Qed.

(** [CreateDatabaseEntry]: the row, then the name, then the oid. *)
Lemma CreateDatabaseEntry_ok n name oid s tup e1 txn1 hb names oids :
  let v := GetValue tup in
  let dup_name := some_row hb [VSpan name] names in
  let dup_oid := some_row hb [VSigned 4 oid] oids in
  (∀ c, database_chunk fresh uninit oid name = Ret c → table_insert PG_DATABASES (s_store s) (s_txn s) c = Ret (tup, e1, txn1)) →
  databases (S n) (s_store s) names oids → 0 ≤ oid < 2 ^ 31 → name_ok name → 0 ≤ v < 2 ^ 64 → v ∉ names.*2 → v ∉ oids.*2 →
  answers e1 txn1 PG_DATABASES [VSpan name] hb names → answers e1 txn1 PG_DATABASES [VSigned 4 oid] hb oids →
  ∃ e', CreateDatabaseEntry fresh uninit name oid s = Ret (negb (dup_name || dup_oid), mkState (s_catalog s) e' txn1) ∧
    databases n e' (if dup_name then names else ([VSpan name], v) :: names)
      (if dup_name || dup_oid then oids else ([VSigned 4 oid], v) :: oids) ∧
    e_store e' = e_store e1 ∧ ∀ db ix, ix ∈ database_indexes → same_tree_of db (s_store s) e' ix.
Proof.
  intros v dup_name dup_oid HT HN Ho (Hlen & Hb & Hs) Hv Hn1 Hn2 A1 A2.
  destruct (database_chunk_ok dec reenc fresh uninit oid name fresh_ok uninit_ok Ho Hlen Hb) as (c & Ec & C1 & C2).
  specialize (HT c Ec). specialize (C1 Hs). unfold database_chunk in Ec. apply bind_inv in Ec as (layout & El & Ec).
  assert (HS : ∀ db ix, same_tree_of db (s_store s) e1 ix) by (intros; eapply table_insert_trees, HT).
  assert (HN1 : databases (S n) e1 names oids) by by eapply two_trees_same; [apply HS..|].
  destruct (two_unique_steps try_dequeue steps file dec reenc values fresh 0 n e1 txn1 PG_INDEX_DATABASE_DATNAME
    PG_INDEX_DATABASE_DATOID PG_DATABASES c [VSpan name] [VSigned 4 oid] v hb names oids (proj1 database_heap)
    (proj2 database_heap) ltac:(by vm_compute) HN1 Hv Hn1 Hn2 C1 C2 A1 A2)
    as (ea & eb & U1 & U2 & S1 & S2 & R1 & R2 & K).
  fold dup_name dup_oid in U1, U2, R1, R2.
  assert (K' : ∀ db ix, ix ∈ database_indexes → same_tree_of db (s_store s) ea ix ∧ same_tree_of db (s_store s) eb ix).
  { intros db ix Hix. destruct (database_index_files ix Hix) as [N1 N2], (HS db ix) as [E1 E2], (K db ix N1 N2) as [[K1 K2] [K3 K4]].
    unfold same_tree_of. by rewrite K1, K2, K3, K4. }
  exists (if dup_name then ea else eb). split.
  - unfold CreateDatabaseEntry. erewrite bind_run by (apply compute_run; by rewrite El, bind_Ret).
    erewrite bind_run by (apply compute_run; exact Ec). erewrite bind_run by (apply TableInsert_run; exact HT).
    erewrite bind_run by (apply InsertUnique_run; exact U1). destruct dup_name; cbn [negb orb]; [done|].
    erewrite bind_run by (apply InsertUnique_run; exact U2). by destruct dup_oid.
  - by destruct dup_name; split_and!; try done; intros; apply K'.
Qed.

(** C36: [CreateDatabase] enters the row of the new database under its name and
    its oid and gives the database empty indexes with room; the new catalog is
    in the map, the counter advances, and the indexes of every other database
    keep their rows.  A name or an oid that conflicts ends the program: the
    [throw] has no exception to rethrow.  The indexes of databases have room for
    the entries ([two_trees]: pages in their files and in their nodes of level
    1); the room of the new indexes is that of [m] insertions of at most 50
    ([new_index]). *)
Theorem create_database_correct n m name bootstrap s tup e1 txn1 hb names oids :
  let oid := next_db_oid_ (s_catalog s) in
  let v := GetValue tup in
  (∀ c, database_chunk fresh uninit oid name = Ret c → table_insert PG_DATABASES (s_store s) (s_txn s) c = Ret (tup, e1, txn1)) →
  databases (S n) (s_store s) names oids → pages_left (s_store s) m → (m ≤ 50)%nat → 0 < oid < 2 ^ 31 → name_ok name → 0 ≤ v < 2 ^ 64 →
  v ∉ names.*2 → v ∉ oids.*2 →
  answers e1 txn1 PG_DATABASES [VSpan name] hb names → answers e1 txn1 PG_DATABASES [VSigned 4 oid] hb oids →
  if some_row hb [VSpan name] names || some_row hb [VSigned 4 oid] oids
  then CreateDatabase fresh uninit name bootstrap s = AssertFail "throw without an exception"
  else ∃ e', CreateDatabase fresh uninit name bootstrap s =
      Ret (Ok oid, mkState (mkCatalog (<[oid := Some (DatabaseCatalog.make oid)]> (databases_map_ (s_catalog s))) (to_u32 (oid + 1))) e' txn1) ∧
    databases n e' (([VSpan name], v) :: names) (([VSigned 4 oid], v) :: oids) ∧ e_store e' = e_store e1 ∧
    (∀ ix, ix ∈ database_indexes → tree_rows oid e' ix [] ∧ index_room oid e' ix m) ∧
    ∀ db ix rows, db ≠ oid → ix ∈ database_indexes → tree_rows db (s_store s) ix rows → tree_rows db e' ix rows.
Proof.
  intros oid v HT HN HP Hm Ho Hname Hv Hn1 Hn2 A1 A2.
  destruct (CreateDatabaseCatalog_ok dec reenc values oid (s_store s) values_ok) as (e0 & E0 & Hs0 & Hin & Hout & Hdb).
  { eapply Forall_impl; [exact HP|]. cbn. lia. }
  set (map' := <[oid := Some (DatabaseCatalog.make oid)]> (databases_map_ (s_catalog s))).
  set (s0 := mkState (mkCatalog map' (to_u32 (oid + 1))) e0 (s_txn s)).
  assert (HS : ∀ ix, ix ∉ database_indexes → same_tree_of 0 (s_store s) e0 ix).
  { intros ix Hix. destruct (Hout ix Hix) as [_ S]. split; [apply Hdb; lia|done]. }
  destruct (CreateDatabaseEntry_ok n name oid s0 tup (set_store e0 (e_store e1)) txn1 hb names oids) as (e' & E & R & Hs & K);
    try eassumption.
  - intros c Hc. eapply table_insert_frame; [by apply HT|exact Hs0].
  - eapply two_trees_same; [apply HS; by apply (bool_decide_unpack _); vm_compute..|exact HN].
  - lia.
  - assert (ER : CreateDatabase fresh uninit name bootstrap s = (created <- CreateDatabaseEntry fresh uninit name oid;;
        if negb created then terminate else ret (Ok oid)) s0).
    { unfold CreateDatabase.
      rewrite (bind_run _ _ s oid (mkState (set_next_db_oid (s_catalog s) (to_u32 (oid + 1))) (s_store s) (s_txn s)) eq_refl).
      rewrite (bind_run _ _ _ (DatabaseCatalog.make oid) s0); [done|].
      unfold CreateDatabaseCatalogM, create_database_catalog, engine_builder. cbn [s_store]. by rewrite E0, bind_Ret. }
    rewrite ER, (bind_run _ _ _ _ _ E). clear ER E.
    destruct (some_row hb _ names), (some_row hb _ oids); cbn [negb orb] in *; try done.
    exists e'. split_and!; try done.
    + intros ix Hix. pose proof (Hin ix Hix) as T. specialize (K oid ix Hix). split; [by eapply tree_rows_same, T|].
      apply (same_tree_room oid e0); [exact K|]. apply (new_index_room _ _ _ _ _ _ _ T); [done|].
      unfold pages_left in HP. rewrite Forall_forall in HP. destruct (HP ix Hix). lia.
    + intros db ix rows Hne Hix HR. destruct (Hin ix Hix) as [_ T2 _]. apply (tree_rows_same _ _ _ e0); [by apply K|].
      apply (tree_rows_grow _ _ _ (s_store s)); [by apply Hdb| |done].
      unfold pages_left in HP. rewrite Forall_forall in HP. destruct (HP ix Hix). lia.
Qed.
End Databases.

(** ** The first database *)

#[local] Hint Extern 0 (CatalogStore engine) => exact (demo_store 0) : typeclass_instances.
#[local] Hint Extern 0 (CatalogBuilder engine) => exact (engine_builder demo_values) : typeclass_instances.

(** The engine after the constructor of [Catalog]. *)
Lemma demo_catalog sys : ∃ e, CreateCatalog demo_values (demo_engine sys) = Ret e ∧ e_store e = e_store (demo_engine sys) ∧
  demo_trees 0 50 e PG_INDEX_DATABASE_DATNAME PG_INDEX_DATABASE_DATOID [] [] ∧ pages_left e 50.
Proof.
  destruct (make_trees_ok ascii_decompose ascii_reencode 0 [PG_INDEX_DATABASE_DATOID; PG_INDEX_DATABASE_DATNAME] (demo_engine sys))
    as (e & E & Hs & Hin & Hout & _).
  { by apply (bool_decide_unpack _); vm_compute. }
  { apply Forall_forall. intros ix _. change (next_page (demo_engine sys) ix) with 1. by vm_compute. }
  exists e. split; [|split; [exact Hs|split]].
  - unfold CreateCatalog. rewrite make_tables_ok; [exact E|exact demo_values_ok|]. apply Forall_singleton. by eexists.
  - pose proof (Hin PG_INDEX_DATABASE_DATNAME ltac:(set_solver)) as N.
    pose proof (Hin PG_INDEX_DATABASE_DATOID ltac:(set_solver)) as O.
    split; [apply N|apply O|apply (new_index_room _ _ _ _ _ _ _ N)|apply (new_index_room _ _ _ _ _ _ _ O)]; try lia;
      change (next_page (demo_engine sys) _) with 1; by vm_compute.
  - apply Forall_forall. intros ix Hix. destruct (database_index_files ix Hix) as [H1 H2].
    destruct (Hout ix) as [_ S]; [set_solver|]. unfold next_page. rewrite S.
    change (default 1 (e_page_ids (demo_engine sys) !! CatalogTableOid_val ix)) with 1. by vm_compute.
Qed.

Lemma demo_database_stored : demo_stores 0 PG_DATABASES (database_chunk ∅ demo_uninit 1 public) = true.
Proof. by vm_compute. Qed.

Lemma create_database_correct_witness : ∃ s e' txn1 v,
  CreateDatabase ∅ demo_uninit public true s = Ret (Ok 1, mkState (mkCatalog {[1 := Some (DatabaseCatalog.make 1)]} 2) e' txn1) ∧
  demo_tree_rows 0 e' PG_INDEX_DATABASE_DATNAME [([VSpan public], v)] ∧
  demo_tree_rows 1 e' PG_INDEX_NAMESPACE_NSPNAME [].
Proof.
  destruct (demo_stored_ok 0 PG_DATABASES _ demo_database_stored) as (sys & txn & c & tup & e1 & txn1 & Hc & Hf & Hv & HT & _).
  destruct (demo_catalog sys) as (e & _ & He & HN & HP). set (s := mkState Catalog.make e txn).
  destruct (create_database_correct demo_queue (λ _ h, h) demo_file ascii_decompose ascii_reencode demo_values ∅ demo_uninit
    demo_values_ok mem_ok_empty demo_uninit_ok 49 50 public true s tup (set_store e (e_store e1)) txn1 (λ _, false) [] [])
    as (e' & E & [R1 _ _ _] & _ & R2 & _).
  - intros c0 Hc0. pose proof (eq_trans (eq_sym Hc0) Hc) as [= ->]. exact (HT e He).
  - exact HN.
  - exact HP.
  - lia.
  - change (0 < 1 < 2 ^ 31). lia.
  - exact public_ok.
  - exact Hv.
  - apply not_elem_of_nil.
  - apply not_elem_of_nil.
  - constructor.
  - constructor.
  - exists s, e', txn1, (GetValue tup). split; [exact E|]. split; [exact R1|]. apply R2. apply (bool_decide_unpack _). by vm_compute.
Defined.
