(* ===== verification/TablesTheorems.v ===== *)
(** * Theorems about the tables of a catalog

    [CreateTable] enters a table with its columns: the row of the table in
    pg_class and its three indexes, a row for each column in pg_attribute and
    its two indexes. *)

From stdpp Require Import strings.
From S2P Require Import Prelude Bytes Shared Memory CatalogCommon AccessTypes DataChunk Fsm.
From S2P Require Import KeyEncoder BTree Index IndexTheorems ChunkUtils Pax Arena.
From S2P Require Import Undo Redo Txn Table TableTheorems Builder CatalogChunks CatalogStore CatalogMonad.
From S2P Require Import DatabaseCatalog EngineFacts CatalogDemo CatalogTheorems.
Import TransactionContext DatabaseCatalog.

(** ** The chunks of a table and of a column *)
Section Chunks.
Context (dec reenc : list Z → bool → Z + list Z) (uninit : VarlenEntry).
Hypothesis uninit_ok : uninit_entry uninit.

Abbreviation chunk_holds := (chunk_holds dec reenc).
Abbreviation name_ok := (name_ok dec reenc).

(** The writes of [BuildClassChunk] and [BuildAttributeChunk]. *)
Definition class_writes (oid : Z) (name : list Z) (ns kind : Z) : list (Z * list Z) :=
  [(CatalogColumnOid_val RELOID, le_bytes 4 oid);
   (CatalogColumnOid_val RELNAME, DataChunkBuilder.entry_of uninit name);
   (CatalogColumnOid_val RELNAMESPACE, le_bytes 4 ns);
   (CatalogColumnOid_val RELKIND, le_bytes 1 kind);
   (CatalogColumnOid_val RELOPTIONS, DataChunkBuilder.entry_of uninit name)].

Definition attribute_writes (oid rel_oid : Z) (col : SchemaColumn) : list (Z * list Z) :=
  [(CatalogColumnOid_val ATTNUM, le_bytes 4 oid);
   (CatalogColumnOid_val ATTRELID, le_bytes 4 rel_oid);
   (CatalogColumnOid_val ATTNAME, DataChunkBuilder.entry_of uninit (string_bytes (sc_name col)));
   (CatalogColumnOid_val ATTTYPID, le_bytes 1 (type_id_val (sc_type col)));
   (CatalogColumnOid_val ATTLEN, le_bytes 2 (to_u16 (sc_type_size col)));
   (CatalogColumnOid_val ATTNOTNULL, le_bytes 1 (Z.b2z (sc_nullable col)))].

Definition attribute_chunk (c0 : DataChunk) (rel_oid oid : Z) (col : SchemaColumn) : DataChunk :=
  DataChunkBuilder.BuildAttributeChunk uninit c0 oid rel_oid (string_bytes (sc_name col)) (sc_type col)
    (to_u16 (sc_type_size col)) (sc_nullable col).

Lemma class_chunk_eq c oid name ns kind :
  DataChunkBuilder.BuildClassChunk uninit c oid name ns kind name = write_all c (class_writes oid name ns kind).
Proof. unfold DataChunkBuilder.BuildClassChunk, DataChunkBuilder.WriteCol, write_all, class_writes. cbn [foldl fst snd]. reflexivity. Qed.

Lemma attribute_chunk_eq c rel_oid oid col : attribute_chunk c rel_oid oid col = write_all c (attribute_writes oid rel_oid col).
Proof.
  unfold attribute_chunk, DataChunkBuilder.BuildAttributeChunk, DataChunkBuilder.WriteCol, write_all, attribute_writes.
  cbn [foldl fst snd]. reflexivity.
Qed.

(** What the key of each index reads in a chunk whose columns have these sizes. *)
Lemma class_chunk_holds ids sizes c oid name ns kind :
  NoDup ids → Z.of_nat (length ids) < 2 ^ 32 → wf_chunk ids sizes c →
  (∀ col, col ∈ Builder.CreateClassSchema_columns → field ids sizes (sc_oid col) (SizeOf (sc_type col))) →
  0 ≤ oid < 2 ^ 31 → 0 ≤ ns < 2 ^ 31 → name_ok name →
  let c' := DataChunkBuilder.BuildClassChunk uninit c oid name ns kind name in
  chunk_holds (AttrsFor PG_INDEX_CLASS_RELNAME) c' [VSpan name] ∧
  chunk_holds (AttrsFor PG_INDEX_CLASS_RELNAMESPACE) c' [VSigned 4 ns] ∧
  chunk_holds (AttrsFor PG_INDEX_CLASS_RELOID) c' [VSigned 4 oid].
Proof.
  intros Hnd Hlen Hwf Hf Ho Hns (Hn & Hb & Hs) c'. destruct (entry_of_ok uninit name (proj1 uninit_ok) (proj2 uninit_ok) Hb) as [L B].
  assert (Hcols : Forall (λ col, field ids sizes (sc_oid col) (SizeOf (sc_type col))) Builder.CreateClassSchema_columns)
    by (by apply Forall_forall).
  repeat (apply Forall_cons in Hcols as [? Hcols]).
  destruct (write_all_ok ids sizes Hnd Hlen (class_writes oid name ns kind) c Hwf) as [[W _] F].
  { by apply (bool_decide_unpack _); vm_compute. }
  { repeat (apply Forall_cons; split); [| | | | |constructor]; (split; [|apply le_bytes_ok || exact B]); eexists;
      (split; [eassumption|]); cbn [snd]; rewrite ?L, ?length_le_bytes; by vm_compute. }
  rewrite <- class_chunk_eq in W, F. fold c' in W, F.
  do 3 (apply Forall_cons in F as [? F]). cbn [fst snd] in *.
  assert (value_oks : ∀ w x, KeyEncoder.value_ok dec reenc (VSigned w x)) by done.
  split_and!; (split; [exact W|]); (split; [apply Forall2_cons; split; [|constructor]|]); [|by apply Forall_singleton| |by apply Forall_singleton| |by apply Forall_singleton].
  - by apply (read_string _ _ uninit); [|apply uninit_ok|].
  - apply (read_integer c' (CatalogColumnOid_val RELNAMESPACE)); [done|lia].
  - apply (read_integer c' (CatalogColumnOid_val RELOID)); [done|lia].
Qed.

(** The key of a column's number: the oid as a SMALLINT. *)
Definition num_row (oid : Z) : list value := [VSigned 2 (to_signed 16 (oid mod 2 ^ 16))].
Definition name_row (rel_oid : Z) (col : SchemaColumn) : list value := [VSigned 4 rel_oid; VSpan (string_bytes (sc_name col))].

Lemma attribute_chunk_holds ids sizes c rel_oid oid col :
  NoDup ids → Z.of_nat (length ids) < 2 ^ 32 → wf_chunk ids sizes c →
  (∀ col, col ∈ Builder.CreateAttributeSchema_columns → field ids sizes (sc_oid col) (SizeOf (sc_type col))) →
  0 ≤ rel_oid < 2 ^ 31 → name_ok (string_bytes (sc_name col)) →
  let c' := attribute_chunk c rel_oid oid col in
  chunk_holds (AttrsFor PG_INDEX_ATTRIBUTE_ATTRELID_ATTNAME) c' (name_row rel_oid col) ∧
  chunk_holds (AttrsFor PG_INDEX_ATTRIBUTE_ATTNUM) c' (num_row oid).
Proof.
  intros Hnd Hlen Hwf Hf Ho (Hn & Hb & Hs) c'.
  destruct (entry_of_ok uninit (string_bytes (sc_name col)) (proj1 uninit_ok) (proj2 uninit_ok) Hb) as [L B].
  assert (Hcols : Forall (λ col, field ids sizes (sc_oid col) (SizeOf (sc_type col))) Builder.CreateAttributeSchema_columns)
    by (by apply Forall_forall).
  repeat (apply Forall_cons in Hcols as [? Hcols]).
  destruct (write_all_ok ids sizes Hnd Hlen (attribute_writes oid rel_oid col) c Hwf) as [[W _] F].
  { by apply (bool_decide_unpack _); vm_compute. }
  { repeat (apply Forall_cons; split); [| | | | | |constructor]; (split; [|apply le_bytes_ok || exact B]); eexists;
      (split; [eassumption|]); cbn [snd]; rewrite ?L, ?length_le_bytes; by vm_compute. }
  rewrite <- attribute_chunk_eq in W, F. fold c' in W, F.
  do 3 (apply Forall_cons in F as [? F]). cbn [fst snd] in *.
  split; (split; [exact W|]); split.
  - apply Forall2_cons; split; [apply (read_integer c' (CatalogColumnOid_val ATTRELID)); [done|lia]|].
    apply Forall2_cons; split; [|constructor]. by apply (read_string _ _ uninit); [|apply uninit_ok|].
  - by repeat constructor.
  - apply Forall2_cons; split; [|constructor]. by apply (read_smallint c' (CatalogColumnOid_val ATTNUM)).
  - by repeat constructor.
Qed.
End Chunks.

Section Tables.
Context (try_dequeue : list Z → option (Z * list Z)) (steps : nat → heap → heap) (file : PageIdentifier → mem).
Context (dec reenc : list Z → bool → Z + list Z) (values : Schema → list SchemaColumn) (fresh : mem).
Context (db : Z) (others : Z → Z) (uninit : VarlenEntry).
(** The iteration order of the hash map, and uninitialised memory. *)
Hypothesis values_ok : ∀ s : Schema, values s ≡ₚ (map_to_list s).*2.
Hypothesis fresh_ok : mem_ok fresh.
Hypothesis uninit_ok : uninit_entry uninit.

#[local] Hint Extern 0 (CatalogStore engine) =>
  exact (engine_store try_dequeue steps file dec reenc values fresh db) : typeclass_instances.

Abbreviation chunk_holds := (Index.chunk_holds dec reenc).
Abbreviation name_ok := (name_ok dec reenc).
Abbreviation indexes_hold := (indexes_hold dec reenc db).
Abbreviation fresh_row := (fresh_row dec reenc).

(** The indexes of pg_class and of pg_attribute with their rows and room for
    [n] more. *)
Definition classes (n : nat) (e : engine) (names nss oids : list (list value * Z)) : Prop :=
  indexes_hold n e [(PG_INDEX_CLASS_RELNAME, names); (PG_INDEX_CLASS_RELNAMESPACE, nss); (PG_INDEX_CLASS_RELOID, oids)].
Definition attributes (n : nat) (e : engine) (names nums : list (list value * Z)) : Prop :=
  indexes_hold n e [(PG_INDEX_ATTRIBUTE_ATTRELID_ATTNAME, names); (PG_INDEX_ATTRIBUTE_ATTNUM, nums)].

(** The trees of the indexes of other tables are as before. *)
Definition others_same (t : CatalogTableOid) (e e' : engine) : Prop :=
  ∀ db' ix, Builder.index_table ix ≠ Some t → same_tree_of db' e e' ix.

Lemma others_same_refl t e : others_same t e e.
Proof. by intros db' ix _. Qed.

Lemma others_same_trans t e1 e2 e3 : others_same t e1 e2 → others_same t e2 e3 → others_same t e1 e3.
Proof. intros H1 H2 db' ix Hix. destruct (H1 db' ix Hix) as [E1 E2], (H2 db' ix Hix) as [E3 E4]. split; congruence. Qed.

(** A change to one index of a table. *)
Lemma others_same_index t ix e e' :
  Builder.index_table ix = Some t →
  (∀ db' ix', CatalogTableOid_val ix' ≠ CatalogTableOid_val ix → same_tree_of db' e e' ix') → others_same t e e'.
Proof. intros Hix H db' ix' Hne. apply H. intros E. apply (inj CatalogTableOid_val) in E. by subst ix'. Qed.

Lemma insert_others_same t t' e txn c tup e1 txn1 : table_insert t' e txn c = Ret (tup, e1, txn1) → others_same t e e1.
Proof. intros E db' ix _. eapply table_insert_trees, E. Qed.

Lemma class_chunk : ∃ c0, (∀ e : engine, create_chunk PG_CLASS e = Ret c0) ∧
  ∀ oid name ns kind, 0 ≤ oid < 2 ^ 31 → 0 ≤ ns < 2 ^ 31 → name_ok name →
    let c := DataChunkBuilder.BuildClassChunk uninit c0 oid name ns kind name in
    chunk_holds (AttrsFor PG_INDEX_CLASS_RELNAME) c [VSpan name] ∧
    chunk_holds (AttrsFor PG_INDEX_CLASS_RELNAMESPACE) c [VSigned 4 ns] ∧
    chunk_holds (AttrsFor PG_INDEX_CLASS_RELOID) c [VSigned 4 oid].
Proof.
  destruct (catalog_chunk PG_CLASS Builder.CreateClassSchema_columns values fresh eq_refl (values_ok _) fresh_ok)
    as (l & ids & sizes & El & Hnd & Hlen & Hwf & Hf & _).
  exists (CreateDataChunk l fresh). split.
  - intros e. change (create_chunk PG_CLASS e) with
      (layout ← DataChunkLayout_of_schema values (Schema_make Builder.CreateClassSchema_columns); Ret (CreateDataChunk layout fresh)).
    by rewrite El.
  - intros oid name ns kind Ho Hns Hname. by apply (class_chunk_holds dec reenc uninit uninit_ok ids sizes).
Qed.

Lemma attribute_chunk_made : ∃ c0, (∀ e : engine, create_chunk PG_ATTRIBUTE e = Ret c0) ∧
  ∀ rel_oid oid col, 0 ≤ rel_oid < 2 ^ 31 → name_ok (string_bytes (sc_name col)) →
    let c := attribute_chunk uninit c0 rel_oid oid col in
    chunk_holds (AttrsFor PG_INDEX_ATTRIBUTE_ATTRELID_ATTNAME) c (name_row rel_oid col) ∧
    chunk_holds (AttrsFor PG_INDEX_ATTRIBUTE_ATTNUM) c (num_row oid).
Proof.
  destruct (catalog_chunk PG_ATTRIBUTE Builder.CreateAttributeSchema_columns values fresh eq_refl (values_ok _) fresh_ok)
    as (l & ids & sizes & El & Hnd & Hlen & Hwf & Hf & _).
  exists (CreateDataChunk l fresh). split.
  - intros e. change (create_chunk PG_ATTRIBUTE e) with
      (layout ← DataChunkLayout_of_schema values (Schema_make Builder.CreateAttributeSchema_columns); Ret (CreateDataChunk layout fresh)).
    by rewrite El.
  - intros rel_oid oid col Ho Hname. by apply (attribute_chunk_holds dec reenc uninit uninit_ok ids sizes).
Qed.

Lemma carry e e' ix n rows :
  same_tree_of db e e' ix → tree_rows dec reenc db e ix rows ∧ index_room db e ix n → tree_rows dec reenc db e' ix rows ∧ index_room db e' ix n.
Proof. intros HS [H1 H2]. split; [by apply (tree_rows_same _ _ _ e)|by apply (same_tree_room db e)]. Qed.

(** *** The row of a table *)

(** The unique indexes of pg_class answer [hb] on the rows equal to the new one:
    the entry stops at the first of them that has one in conflict, with the row
    stored and in the indexes before it. *)
Lemma CreateTableEntry_any n name oid ns kind s tup e1 txn1 hb names nss oids :
  let v := GetValue tup in
  let named := some_row dec reenc hb [VSpan name] names in
  let numbered := some_row dec reenc hb [VSigned 4 oid] oids in
  (∀ c0, create_chunk PG_CLASS (s_store s) = Ret c0 →
    table_insert PG_CLASS (s_store s) (s_txn s) (DataChunkBuilder.BuildClassChunk uninit c0 oid name ns (RelKind_ToChar kind) name) = Ret (tup, e1, txn1)) →
  classes (S n) (s_store s) names nss oids → 0 ≤ oid < 2 ^ 31 → 0 ≤ ns < 2 ^ 31 → name_ok name → 0 ≤ v < 2 ^ 64 →
  row_key dec reenc [VSpan name] v ∉ entry_key dec reenc <$> names →
  row_key dec reenc [VSigned 4 oid] v ∉ entry_key dec reenc <$> oids → v ∉ nss.*2 →
  answers dec reenc e1 txn1 PG_CLASS [VSpan name] hb names → answers dec reenc e1 txn1 PG_CLASS [VSigned 4 oid] hb oids →
  ∃ e', CreateTableEntry uninit name oid ns kind s = Ret (
      if named then Fail "Failed to insert to relname index"
      else if numbered then Fail "Failed to insert to reloid index" else Ok oid, mkState (s_catalog s) e' txn1) ∧
    classes n e' (if named then names else ([VSpan name], v) :: names) (if named then nss else ([VSigned 4 ns], v) :: nss)
      (if named || numbered then oids else ([VSigned 4 oid], v) :: oids) ∧
    e_store e' = e_store e1 ∧ others_same PG_CLASS (s_store s) e'.
Proof.
  intros v named numbered HT HC Ho Hns Hname Hv F1 F2 F3 A1 A2. destruct class_chunk as (c0 & Hc0 & Hc). specialize (Hc0 (s_store s)).
  destruct (Hc oid name ns (RelKind_ToChar kind) Ho Hns Hname) as (C1 & C2 & C3). specialize (HT c0 Hc0).
  set (c := DataChunkBuilder.BuildClassChunk uninit c0 oid name ns (RelKind_ToChar kind) name) in *.
  pose proof (insert_others_same PG_CLASS _ _ _ _ _ _ _ HT) as O1.
  assert (HC1 : classes (S n) e1 names nss oids).
  { eapply indexes_same; [|exact HC]. apply Forall_forall. intros p _. eapply table_insert_trees, HT. }
  apply Forall_cons in HC1 as [[N1 M1] HC1]. apply Forall_cons in HC1 as [I2 HC1]. apply Forall_cons in HC1 as [I3 _].
  destruct (index_unique_step_key try_dequeue steps file dec reenc values fresh db n e1 txn1 PG_INDEX_CLASS_RELNAME PG_CLASS c
    [VSpan name] v hb names eq_refl N1 M1 C1 Hv F1 A1) as (e2 & U2 & S2 & R2 & K2 & O2). fold named in U2, R2.
  apply (carry e1 e2) in I2; [|by apply O2]. apply (carry e1 e2) in I3; [|by apply O2].
  assert (HR : CreateTableEntry uninit name oid ns kind s = (if named then ret (Fail "Failed to insert to relname index") else
      res_name <- IndexInsert PG_INDEX_CLASS_RELNAMESPACE c v;;
      require res_name "Failed to insert to relnamespace index"
      (res_oid <- InsertUnique PG_INDEX_CLASS_RELOID c v;;
       require res_oid "Failed to insert to reloid index" (ret (Ok oid)))) (mkState (s_catalog s) e2 txn1)).
  { unfold CreateTableEntry. erewrite bind_run by (apply NewChunk_run; exact Hc0). cbv zeta. fold c.
    erewrite bind_run by (apply TableInsert_run; exact HT). erewrite bind_run by (apply InsertUnique_run; exact U2). by destruct named. }
  rewrite HR. assert (O12 : others_same PG_CLASS (s_store s) e2).
  { apply (others_same_trans _ _ e1); [done|by apply (others_same_index _ PG_INDEX_CLASS_RELNAME)]. }
  destruct named; cbn [orb].
  { exists e2. split; [done|]. split; [|done].
    repeat (apply Forall_cons; split); [done|..|constructor]; (split; [apply I2 || apply I3|]); by eapply index_room_le; [|apply I2 || apply I3]; lia. }
  destruct (index_insert_step try_dequeue steps file dec reenc values fresh db n e2 PG_INDEX_CLASS_RELNAMESPACE PG_CLASS c
    [VSigned 4 ns] v nss eq_refl (proj1 I2) (proj2 I2) C2 Hv F3) as (e3 & U3 & S3 & R3 & K3 & O3).
  apply (carry e2 e3) in I3; [|by apply O3].
  destruct (index_unique_step_key try_dequeue steps file dec reenc values fresh db n e3 txn1 PG_INDEX_CLASS_RELOID PG_CLASS c
    [VSigned 4 oid] v hb oids eq_refl (proj1 I3) (proj2 I3) C3 Hv F2) as (e4 & U4 & S4 & R4 & K4 & O4).
  { unfold answers. by rewrite S3, S2. }
  fold numbered in U4, R4. exists e4. split_and!.
  - erewrite bind_run by (apply IndexInsert_run; exact U3). cbn [require]. erewrite bind_run by (apply InsertUnique_run; exact U4).
    by destruct numbered.
  - repeat (apply Forall_cons; split); [..|constructor].
    + apply (carry e3 e4); [by apply O4|]. by apply (carry e2 e3); [by apply O3|].
    + by apply (carry e3 e4); [by apply O4|].
    + done.
  - by rewrite S4, S3, S2.
  - apply (others_same_trans _ _ e2); [done|].
    apply (others_same_trans _ _ e3); [by apply (others_same_index _ PG_INDEX_CLASS_RELNAMESPACE)|by apply (others_same_index _ PG_INDEX_CLASS_RELOID)].
Qed.

(** *** The rows of its columns *)

Lemma next_attribute_run (s : state (C := DatabaseCatalog) (st := engine)) :
  next_attribute_oid s = Ret (next_attribute_oid_ (s_catalog s),
    mkState (set_attribute_oid (s_catalog s) (to_u32 (next_attribute_oid_ (s_catalog s) + 1))) (s_store s) (s_txn s)).
Proof. reflexivity. Qed.

(** The entry of a column, from the chunk on. *)
Definition column_entry (chunk : DataChunk) (oid : Z) : M (C := DatabaseCatalog) (st := engine) (ResultObj Z) :=
  tup <- TableInsert PG_ATTRIBUTE chunk;;
  res_name <- InsertUnique PG_INDEX_ATTRIBUTE_ATTRELID_ATTNAME chunk (GetValue tup);;
  require res_name "Failed to insert to attrelid_attname index"
  (res_oid <- InsertUnique PG_INDEX_ATTRIBUTE_ATTNUM chunk (GetValue tup);;
   require res_oid "Failed to insert to attnum index" (ret (Ok oid))).

Lemma CreateColumnEntry_eq rel_oid col :
  CreateColumnEntry uninit rel_oid col =
    (chunk <- NewChunk PG_ATTRIBUTE;; oid <- next_attribute_oid;; column_entry (attribute_chunk uninit chunk rel_oid oid col) oid).
Proof. unfold CreateColumnEntry, column_entry, attribute_chunk. cbv zeta. reflexivity. Qed.

Lemma CreateColumnEntry_ok n rel_oid col s tup e1 txn1 names nums :
  let v := GetValue tup in
  let a := next_attribute_oid_ (s_catalog s) in
  (∀ c0, create_chunk PG_ATTRIBUTE (s_store s) = Ret c0 →
    table_insert PG_ATTRIBUTE (s_store s) (s_txn s) (attribute_chunk uninit c0 rel_oid a col) = Ret (tup, e1, txn1)) →
  attributes (S n) (s_store s) names nums → 0 ≤ rel_oid < 2 ^ 31 → name_ok (string_bytes (sc_name col)) → 0 ≤ v < 2 ^ 64 →
  fresh_row (name_row rel_oid col) names → fresh_row (num_row a) nums →
  ∃ e', CreateColumnEntry uninit rel_oid col s = Ret (Ok a, mkState (set_attribute_oid (s_catalog s) (to_u32 (a + 1))) e' txn1) ∧
    attributes n e' ((name_row rel_oid col, v) :: names) ((num_row a, v) :: nums) ∧
    e_store e' = e_store e1 ∧ others_same PG_ATTRIBUTE (s_store s) e'.
Proof.
  intros v a HT HC Ho Hname Hv F1 F2. destruct attribute_chunk_made as (c0 & Hc0 & Hc). specialize (Hc0 (s_store s)).
  destruct (Hc rel_oid a col Ho Hname) as (C1 & C2). specialize (HT c0 Hc0). set (c := attribute_chunk uninit c0 rel_oid a col) in *.
  pose proof (insert_others_same PG_ATTRIBUTE _ _ _ _ _ _ _ HT) as O1.
  assert (HC1 : attributes (S n) e1 names nums).
  { eapply indexes_same; [|exact HC]. apply Forall_forall. intros p _. eapply table_insert_trees, HT. }
  apply Forall_cons in HC1 as [[N1 M1] HC1]. apply Forall_cons in HC1 as [I2 _].
  destruct (index_fresh_step try_dequeue steps file dec reenc values fresh db n e1 txn1 PG_INDEX_ATTRIBUTE_ATTRELID_ATTNAME
    PG_ATTRIBUTE c (name_row rel_oid col) v names eq_refl N1 M1 C1 Hv F1) as (e2 & U2 & S2 & R2 & K2 & O2).
  apply (carry e1 e2) in I2; [|by apply O2].
  destruct (index_fresh_step try_dequeue steps file dec reenc values fresh db n e2 txn1 PG_INDEX_ATTRIBUTE_ATTNUM PG_ATTRIBUTE c
    (num_row a) v nums eq_refl (proj1 I2) (proj2 I2) C2 Hv F2) as (e3 & U3 & S3 & R3 & K3 & O3).
  exists e3. split_and!.
  - rewrite CreateColumnEntry_eq. erewrite bind_run by (apply NewChunk_run; exact Hc0).
    erewrite bind_run by (apply next_attribute_run). fold a. change (attribute_chunk uninit c0 rel_oid a col) with c. unfold column_entry.
    erewrite bind_run by (apply TableInsert_run; exact HT). erewrite bind_run by (apply InsertUnique_run; exact U2). cbn [require].
    erewrite bind_run by (apply InsertUnique_run; exact U3). reflexivity.
  - repeat (apply Forall_cons; split); [|done|constructor]. by apply (carry e2 e3); [by apply O3|].
  - by rewrite S3, S2.
  - apply (others_same_trans _ _ e1); [done|].
    apply (others_same_trans _ _ e2); [by apply (others_same_index _ PG_INDEX_ATTRIBUTE_ATTRELID_ATTNAME)|].
    by apply (others_same_index _ PG_INDEX_ATTRIBUTE_ATTNUM).
Qed.


(** The chunks of the columns of a table from attribute oid [a] on, and the
    rows of their numbers. *)
Fixpoint attribute_chunks (c0 : DataChunk) (rel_oid a : Z) (cols : list SchemaColumn) : list (CatalogTableOid * DataChunk) :=
  match cols with
  | [] => []
  | col :: cols => (PG_ATTRIBUTE, attribute_chunk uninit c0 rel_oid a col) :: attribute_chunks c0 rel_oid (a + 1) cols
  end.

Fixpoint num_rows (a : Z) (cols : list SchemaColumn) : list (list value) :=
  match cols with
  | [] => []
  | _ :: cols => num_row a :: num_rows (a + 1) cols
  end.

(** [rs] are new rows, one after the other. *)
Fixpoint fresh_rows (rs : list (list value)) (old : list (list value * Z)) : Prop :=
  match rs with
  | [] => True
  | r :: rs => fresh_row r old ∧ ∀ v, fresh_rows rs ((r, v) :: old)
  end.

(** The rows [rs] entered one after the other with the tuple ids [vs]. *)
Definition entered (rs : list (list value)) (vs : list Z) (rows : list (list value * Z)) : list (list value * Z) :=
  rev (zip rs vs) ++ rows.

Lemma entered_cons r rs v vs rows : entered rs vs ((r, v) :: rows) = entered (r :: rs) (v :: vs) rows.
Proof. unfold entered. cbn [zip zip_with rev]. by rewrite <- app_assoc. Qed.

Lemma create_columns_ok cols n rel_oid oid s vs e1 txn1 names nums c0 :
  let a := next_attribute_oid_ (s_catalog s) in
  (∀ e : engine, create_chunk PG_ATTRIBUTE e = Ret c0) →
  store_chunks try_dequeue steps file dec reenc values fresh db (attribute_chunks c0 rel_oid a cols) (s_store s) (s_txn s) = Ret (vs, e1, txn1) →
  attributes (length cols + n) (s_store s) names nums → 0 ≤ rel_oid < 2 ^ 31 → 0 ≤ a → a + Z.of_nat (length cols) < 2 ^ 32 →
  Forall (λ col, name_ok (string_bytes (sc_name col))) cols → Forall (λ v, 0 ≤ v < 2 ^ 64) vs →
  fresh_rows (name_row rel_oid <$> cols) names → fresh_rows (num_rows a cols) nums →
  ∃ e', create_columns uninit cols rel_oid oid s =
      Ret (Ok oid, mkState (set_attribute_oid (s_catalog s) (a + Z.of_nat (length cols))) e' txn1) ∧
    attributes n e' (entered (name_row rel_oid <$> cols) vs names) (entered (num_rows a cols) vs nums) ∧
    e_store e' = e_store e1 ∧ others_same PG_ATTRIBUTE (s_store s) e'.
Proof.
  intros a Hc0. subst a. revert s vs e1 names nums. induction cols as [|col cols IH]; intros s vs e1 names nums HS HA Hrel Ha Hlen HN HV F1 F2.
  { injection HS as <- <- <-. exists (s_store s). split_and!; [|exact HA|done|apply others_same_refl].
    cbn [length]. rewrite Z.add_0_r. by destruct s as [[] ? ?]. }
  cbn [attribute_chunks store_chunks] in HS. apply bind_inv in HS as ([[tup e2] txn2] & H1 & HS).
  apply bind_inv in HS as ([[vs2 e3] txn3] & H2 & [= <- <- <-]).
  apply Forall_cons in HN as [HN1 HN]. apply Forall_cons in HV as [HV1 HV]. destruct F1 as [F1 G1], F2 as [F2 G2]. cbn [length] in Hlen.
  destruct (CreateColumnEntry_ok (length cols + n) rel_oid col s tup e2 txn2 names nums) as (e' & E & HA' & S & O); try done.
  { intros c1 Hc1. rewrite Hc0 in Hc1. by injection Hc1 as <-. }
  set (a := next_attribute_oid_ (s_catalog s)) in *.
  assert (Ea : to_u32 (a + 1) = a + 1) by (apply wrap_small; lia). rewrite Ea in E.
  destruct (IH (mkState (set_attribute_oid (s_catalog s) (a + 1)) e' txn2) vs2 (set_store e' (e_store e3))
    ((name_row rel_oid col, GetValue tup) :: names) ((num_row a, GetValue tup) :: nums)) as (e'' & E' & HA'' & S' & O');
    cbn [s_catalog s_store s_txn set_attribute_oid next_attribute_oid_]; try done; try lia.
  { by eapply store_chunks_frame. }
  exists e''. cbn [create_columns]. split_and!.
  - rewrite (bind_run _ _ _ _ _ E), E'. cbn [s_catalog set_attribute_oid next_attribute_oid_ length].
    replace (a + Z.of_nat (Datatypes.S (length cols))) with (a + 1 + Z.of_nat (length cols)) by lia. reflexivity.
  - rewrite fmap_cons. cbn [num_rows]. rewrite <- !entered_cons. exact HA''.
  - exact S'.
  - exact (others_same_trans _ _ _ _ O O').
Qed.

(** *** A table and its columns *)

(** The rows of a table and of its columns, in the order they are stored. *)
Definition table_chunks (cc ca : DataChunk) (oid a : Z) (name : list Z) (ns : Z) (kind : RelKind) (cols : list SchemaColumn) :
    list (CatalogTableOid * DataChunk) :=
  (PG_CLASS, DataChunkBuilder.BuildClassChunk uninit cc oid name ns (RelKind_ToChar kind) name) :: attribute_chunks ca oid a cols.

Lemma table_chunks_split e txn cc ca oid a name ns kind cols v vs e' txn' :
  store_chunks try_dequeue steps file dec reenc values fresh db (table_chunks cc ca oid a name ns kind cols) e txn = Ret (v :: vs, e', txn') →
  ∃ tup e1 txn1, table_insert PG_CLASS e txn (DataChunkBuilder.BuildClassChunk uninit cc oid name ns (RelKind_ToChar kind) name) = Ret (tup, e1, txn1) ∧
    store_chunks try_dequeue steps file dec reenc values fresh db (attribute_chunks ca oid a cols) e1 txn1 = Ret (vs, e', txn') ∧ v = GetValue tup.
Proof.
  intros H. cbn [table_chunks store_chunks] in H. apply bind_inv in H as ([[tup e2] txn2] & H1 & H).
  apply bind_inv in H as ([[vs2 e3] txn3] & H2 & [= <- <- <- <-]). by exists tup, e2, txn2.
Qed.

Lemma create_class_any n kind name ns schema s w txn spaces alive tup e1 txn1 vs e2 txn2 hb names nss oids anames anums :
  let oid := next_class_oid_ (s_catalog s) in
  let a := next_attribute_oid_ (s_catalog s) in
  let cols := values schema in
  let v := GetValue tup in
  let named := some_row dec reenc hb [VSpan name] names in
  let numbered := some_row dec reenc hb [VSigned 4 oid] oids in
  TryLock others (write_lock_ (s_catalog s)) (s_txn s) = (true, w, txn) →
  tree_rows dec reenc db (s_store s) PG_INDEX_NAMESPACE_NSPOID spaces → 0 ≤ ns < 2 ^ 31 →
  Forall (λ x, KeyEncoder.row_cmp dec reenc x.1 [VSigned 4 ns] = Eq →
    GetTidExists (Table.st_system (e_store (s_store s))) [mkTupleId x.2] (CatalogTableOid_val PG_NAMESPACE) = Ret (alive x.2)) spaces →
  (∀ cc, create_chunk PG_CLASS (s_store s) = Ret cc →
    table_insert PG_CLASS (s_store s) txn (DataChunkBuilder.BuildClassChunk uninit cc oid name ns (RelKind_ToChar kind) name) = Ret (tup, e1, txn1)) →
  (∀ ca, create_chunk PG_ATTRIBUTE (s_store s) = Ret ca →
    store_chunks try_dequeue steps file dec reenc values fresh db (attribute_chunks ca oid a cols) e1 txn1 = Ret (vs, e2, txn2)) →
  classes (S n) (s_store s) names nss oids → attributes (length cols + n) (s_store s) anames anums →
  0 ≤ oid < 2 ^ 31 → 0 ≤ a → a + Z.of_nat (length cols) < 2 ^ 32 →
  name_ok name → Forall (λ col, name_ok (string_bytes (sc_name col))) cols → Forall (λ x, 0 ≤ x < 2 ^ 64) (v :: vs) →
  row_key dec reenc [VSpan name] v ∉ entry_key dec reenc <$> names →
  row_key dec reenc [VSigned 4 oid] v ∉ entry_key dec reenc <$> oids → v ∉ nss.*2 →
  answers dec reenc e1 txn1 PG_CLASS [VSpan name] hb names → answers dec reenc e1 txn1 PG_CLASS [VSigned 4 oid] hb oids →
  fresh_rows (name_row oid <$> cols) anames → fresh_rows (num_rows a cols) anums →
  let catalog := set_class_oid (set_write_lock (s_catalog s) w) (to_u32 (oid + 1)) in
  if some_row dec reenc alive [VSigned 4 ns] spaces
  then
    if named || numbered
    then ∃ e', create_class others uninit values kind name ns schema s =
        Ret (Fail (if named then "Failed to insert to relname index" else "Failed to insert to reloid index"), mkState catalog e' txn1) ∧
      classes n e' (if named then names else ([VSpan name], v) :: names) (if named then nss else ([VSigned 4 ns], v) :: nss) oids ∧
      e_store e' = e_store e1 ∧ others_same PG_CLASS (s_store s) e'
    else ∃ e', create_class others uninit values kind name ns schema s =
        Ret (Ok oid, mkState (set_attribute_oid catalog (a + Z.of_nat (length cols))) e' txn2) ∧
      classes n e' (([VSpan name], v) :: names) (([VSigned 4 ns], v) :: nss) (([VSigned 4 oid], v) :: oids) ∧
      attributes n e' (entered (name_row oid <$> cols) vs anames) (entered (num_rows a cols) vs anums) ∧
      e_store e' = e_store e2 ∧
      ∀ db' ix, Builder.index_table ix ≠ Some PG_CLASS → Builder.index_table ix ≠ Some PG_ATTRIBUTE → same_tree_of db' (s_store s) e' ix
  else create_class others uninit values kind name ns schema s =
    Ret (Fail "Namespace does not exist", mkState (set_write_lock (s_catalog s) w) (s_store s) txn).
Proof.
  intros oid a cols v named numbered HL HN Hns HA HT HT2 HC HAt Ho Ha Hlen Hname Hcols HV F1 F2 F3 A1 A2 F4 F5 catalog.
  set (s1 := mkState (set_write_lock (s_catalog s) w) (s_store s) txn).
  assert (E1 : TryLockM others s = Ret (true, s1)) by by unfold TryLockM; rewrite HL.
  pose proof (ExistsNamespace_ok try_dequeue steps file dec reenc values fresh db uninit values_ok fresh_ok uninit_ok ns s1 spaces alive
    HN Hns HA) as E2.
  unfold create_class. rewrite (bind_run _ _ _ _ _ E1). cbn [negb]. rewrite (bind_run _ _ _ _ _ E2).
  destruct (some_row dec reenc alive [VSigned 4 ns] spaces); [|done]. clear E1 E2.
  set (s2 := mkState catalog (s_store s) txn). rewrite (bind_run _ _ s1 oid s2 eq_refl).
  destruct attribute_chunk_made as (ca & Hca & _). specialize (HT2 ca (Hca _)). apply Forall_cons in HV as [HV1 HV].
  destruct (CreateTableEntry_any n name oid ns kind s2 tup e1 txn1 hb names nss oids) as (e' & E & HC' & S & O); try done.
  rewrite (bind_run _ _ _ _ _ E). clear E. fold v named numbered in HC' |- *.
  destruct named; cbn [orb] in *; [by exists e'|]. destruct numbered; [by exists e'|].
  set (s3 := mkState (s_catalog s2) e' txn1).
  destruct (create_columns_ok cols n oid oid s3 vs (set_store e' (e_store e2)) txn2 anames anums ca) as (e'' & E & HA'' & S' & O'); try done.
  { by eapply store_chunks_frame. }
  { eapply indexes_same; [|exact HAt]. repeat constructor; apply O; by vm_compute. }
  exists e''. split_and!; [exact E| |exact HA''|exact S'|].
  - eapply indexes_same; [|exact HC']. repeat constructor; apply O'; by vm_compute.
  - intros db' ix Hx1 Hx2. destruct (O db' ix Hx1) as [K1 K2], (O' db' ix Hx2) as [K3 K4]. split; [by rewrite K3|by rewrite K4].
Qed.

(** With a fresh name and a fresh oid. *)
Lemma create_class_ok n kind name ns schema s w txn spaces alive v vs e1 txn1 names nss oids anames anums :
  let oid := next_class_oid_ (s_catalog s) in
  let a := next_attribute_oid_ (s_catalog s) in
  let cols := values schema in
  TryLock others (write_lock_ (s_catalog s)) (s_txn s) = (true, w, txn) →
  tree_rows dec reenc db (s_store s) PG_INDEX_NAMESPACE_NSPOID spaces → 0 ≤ ns < 2 ^ 31 →
  Forall (λ x, KeyEncoder.row_cmp dec reenc x.1 [VSigned 4 ns] = Eq →
    GetTidExists (Table.st_system (e_store (s_store s))) [mkTupleId x.2] (CatalogTableOid_val PG_NAMESPACE) = Ret (alive x.2)) spaces →
  (∀ cc ca, create_chunk PG_CLASS (s_store s) = Ret cc → create_chunk PG_ATTRIBUTE (s_store s) = Ret ca →
    store_chunks try_dequeue steps file dec reenc values fresh db (table_chunks cc ca oid a name ns kind cols) (s_store s) txn =
      Ret (v :: vs, e1, txn1)) →
  classes (S n) (s_store s) names nss oids → attributes (length cols + n) (s_store s) anames anums →
  0 ≤ oid < 2 ^ 31 → 0 ≤ a → a + Z.of_nat (length cols) < 2 ^ 32 →
  name_ok name → Forall (λ col, name_ok (string_bytes (sc_name col))) cols → Forall (λ x, 0 ≤ x < 2 ^ 64) (v :: vs) →
  fresh_row [VSpan name] names → fresh_row [VSigned 4 oid] oids → v ∉ nss.*2 →
  fresh_rows (name_row oid <$> cols) anames → fresh_rows (num_rows a cols) anums →
  if some_row dec reenc alive [VSigned 4 ns] spaces
  then ∃ e', create_class others uninit values kind name ns schema s =
      Ret (Ok oid, mkState (set_attribute_oid (set_class_oid (set_write_lock (s_catalog s) w) (to_u32 (oid + 1)))
        (a + Z.of_nat (length cols))) e' txn1) ∧
    classes n e' (([VSpan name], v) :: names) (([VSigned 4 ns], v) :: nss) (([VSigned 4 oid], v) :: oids) ∧
    attributes n e' (entered (name_row oid <$> cols) vs anames) (entered (num_rows a cols) vs anums) ∧
    e_store e' = e_store e1 ∧
    ∀ db' ix, Builder.index_table ix ≠ Some PG_CLASS → Builder.index_table ix ≠ Some PG_ATTRIBUTE → same_tree_of db' (s_store s) e' ix
  else create_class others uninit values kind name ns schema s =
    Ret (Fail "Namespace does not exist", mkState (set_write_lock (s_catalog s) w) (s_store s) txn).
Proof.
  intros oid a cols HL HN Hns HA HT HC HAt Ho Ha Hlen Hname Hcols HV F1 F2 F3 F4 F5.
  destruct class_chunk as (cc & Hcc & Hch), attribute_chunk_made as (ca & Hca & _). specialize (HT cc ca (Hcc _) (Hca _)).
  apply table_chunks_split in HT as (tup & e0 & txn0 & H1 & H2 & ->). destruct (Hch oid name ns (RelKind_ToChar kind) Ho Hns Hname) as (C1 & _ & C3).
  pose proof HC as HC1. apply Forall_cons in HC1 as [[N1 _] HC1]. apply Forall_cons in HC1 as [_ HC1]. apply Forall_cons in HC1 as [[N3 _] _].
  pose proof (create_class_any n kind name ns schema s w txn spaces alive tup e0 txn0 vs e1 txn1 (λ _, false) names nss oids anames anums
    HL HN Hns HA) as H. cbv zeta in H. fold oid a cols in H. rewrite (fresh_some_row _ _ _ _ _ F1), (fresh_some_row _ _ _ _ _ F2) in H. cbn [orb] in H.
  apply H; try done.
  - intros cc' E. rewrite Hcc in E. by injection E as <-.
  - intros ca' E. rewrite Hca in E. by injection E as <-.
  - by eapply fresh_row_key.
  - by eapply fresh_row_key.
  - by apply fresh_answers.
  - by apply fresh_answers.
Qed.

(** C34: [CreateTable], once it has the lock and the rows it stores are stored,
    for columns whose names and numbers are new in pg_attribute.  Without the
    namespace it fails and nothing but the lock changes.  When pg_class has a row
    of the same name, or of the same oid, in conflict with the transaction, it
    fails with the row of the table stored and the counter of oids advanced: in no
    index when the name conflicts, in those of the name and the namespace when the
    oid does; no column is stored.  Otherwise it returns the oid of the new table:
    its row is in the three indexes of pg_class and the row of each column,
    numbered on from the counter, in the two of pg_attribute, the counters advance
    and the indexes of other tables are as before.  The indexes have room for the
    new entries, also in their nodes of level 1 ([index_room]). *)
Theorem create_table_correct n name ns schema s w txn spaces alive tup e1 txn1 vs e2 txn2 hb names nss oids anames anums :
  let oid := next_class_oid_ (s_catalog s) in
  let a := next_attribute_oid_ (s_catalog s) in
  let cols := values schema in
  let v := GetValue tup in
  let named := some_row dec reenc hb [VSpan name] names in
  let numbered := some_row dec reenc hb [VSigned 4 oid] oids in
  TryLock others (write_lock_ (s_catalog s)) (s_txn s) = (true, w, txn) →
  tree_rows dec reenc db (s_store s) PG_INDEX_NAMESPACE_NSPOID spaces → 0 ≤ ns < 2 ^ 31 →
  Forall (λ x, KeyEncoder.row_cmp dec reenc x.1 [VSigned 4 ns] = Eq →
    GetTidExists (Table.st_system (e_store (s_store s))) [mkTupleId x.2] (CatalogTableOid_val PG_NAMESPACE) = Ret (alive x.2)) spaces →
  (∀ cc, create_chunk PG_CLASS (s_store s) = Ret cc →
    table_insert PG_CLASS (s_store s) txn
      (DataChunkBuilder.BuildClassChunk uninit cc oid name ns (RelKind_ToChar REGULAR_TABLE) name) = Ret (tup, e1, txn1)) →
  (∀ ca, create_chunk PG_ATTRIBUTE (s_store s) = Ret ca →
    store_chunks try_dequeue steps file dec reenc values fresh db (attribute_chunks ca oid a cols) e1 txn1 = Ret (vs, e2, txn2)) →
  classes (S n) (s_store s) names nss oids → attributes (length cols + n) (s_store s) anames anums →
  0 ≤ oid < 2 ^ 31 → 0 ≤ a → a + Z.of_nat (length cols) < 2 ^ 32 →
  name_ok name → Forall (λ col, name_ok (string_bytes (sc_name col))) cols → Forall (λ x, 0 ≤ x < 2 ^ 64) (v :: vs) →
  v ∉ names.*2 → v ∉ nss.*2 → v ∉ oids.*2 →
  answers dec reenc e1 txn1 PG_CLASS [VSpan name] hb names → answers dec reenc e1 txn1 PG_CLASS [VSigned 4 oid] hb oids →
  fresh_rows (name_row oid <$> cols) anames → fresh_rows (num_rows a cols) anums →
  let catalog := set_class_oid (set_write_lock (s_catalog s) w) (to_u32 (oid + 1)) in
  if some_row dec reenc alive [VSigned 4 ns] spaces
  then
    if named || numbered
    then ∃ e', CreateTable others uninit values name ns schema s =
        Ret (Fail (if named then "Failed to insert to relname index" else "Failed to insert to reloid index"), mkState catalog e' txn1) ∧
      classes n e' (if named then names else ([VSpan name], v) :: names) (if named then nss else ([VSigned 4 ns], v) :: nss) oids ∧
      e_store e' = e_store e1 ∧ others_same PG_CLASS (s_store s) e'
    else ∃ e', CreateTable others uninit values name ns schema s =
        Ret (Ok oid, mkState (set_attribute_oid catalog (a + Z.of_nat (length cols))) e' txn2) ∧
      classes n e' (([VSpan name], v) :: names) (([VSigned 4 ns], v) :: nss) (([VSigned 4 oid], v) :: oids) ∧
      attributes n e' (entered (name_row oid <$> cols) vs anames) (entered (num_rows a cols) vs anums) ∧
      e_store e' = e_store e2 ∧
      ∀ db' ix, Builder.index_table ix ≠ Some PG_CLASS → Builder.index_table ix ≠ Some PG_ATTRIBUTE → same_tree_of db' (s_store s) e' ix
  else CreateTable others uninit values name ns schema s =
    Ret (Fail "Namespace does not exist", mkState (set_write_lock (s_catalog s) w) (s_store s) txn).
Proof.
  intros oid a cols v named numbered HL HN Hns HA HT HT2 HC HAt Ho Ha Hlen Hname Hcols HV F1 F2 F3 A1 A2 F4 F5 catalog.
  pose proof HC as HC1. apply Forall_cons in HC1 as [[N1 _] HC1]. apply Forall_cons in HC1 as [_ HC1]. apply Forall_cons in HC1 as [[N3 _] _].
  pose proof HV as HV1. apply Forall_cons in HV1 as [HV1 _].
  apply (create_class_any n REGULAR_TABLE name ns schema s w txn spaces alive tup e1 txn1 vs e2 txn2 hb names nss oids anames anums); try done;
    by eapply fresh_tid_key.
Qed.
End Tables.

(** ** A table of two columns *)

#[local] Hint Extern 0 (CatalogStore engine) => exact (demo_store 1) : typeclass_instances.

Definition demo_columns : list SchemaColumn := [SchemaColumn_make 1 INTEGER "id"; SchemaColumn_make 2 VARCHAR "name"].
Definition demo_schema : Schema := Schema_make demo_columns.
Definition users : list Z := string_bytes "users".

(** Namespace 1 and table 1 with its columns, stored by one transaction; the
    tuple of the namespace is not deleted.  [more] is asked about what the
    transaction can do next, given the tuple ids of the two. *)
Definition demo_table (more : engine → TransactionContext → list Z → list Z → outcome bool) (e : engine) (txn : TransactionContext) :
    outcome (list Z * engine * TransactionContext * (list Z * engine * TransactionContext) * bool) :=
  cn ← create_chunk PG_NAMESPACE e;
  cc ← create_chunk PG_CLASS e;
  ca ← create_chunk PG_ATTRIBUTE e;
  '(vn, e, txn) ← store_chunks demo_queue (λ _ h, h) demo_file ascii_decompose ascii_reencode demo_values ∅ 1
    [(PG_NAMESPACE, DataChunkBuilder.BuildNamespaceChunk demo_uninit cn 1 public)] e txn;
  '(vs, e', txn') ← store_chunks demo_queue (λ _ h, h) demo_file ascii_decompose ascii_reencode demo_values ∅ 1
    (table_chunks demo_uninit cc ca 1 1 users 1 REGULAR_TABLE (demo_values demo_schema)) e txn;
  found ← GetTidExists (Table.st_system (e_store e)) (map mkTupleId vn) (CatalogTableOid_val PG_NAMESPACE);
  ok ← more e' txn' vn vs;
  Ret (vn, e, txn, (vs, e', txn'), found && (FinishTime txn =? 2 ^ 63) && bool_decide (length vn = 1 ∧ length vs = 3)%nat &&
    forallb (λ v, bool_decide (0 ≤ v < 2 ^ 64)) (vn ++ vs) && ok).

Definition demo_table_stored (more : engine → TransactionContext → list Z → list Z → outcome bool) : outcome bool :=
  '(txn, sys) ← demo_begin;
  '(_, _, _, _, ok) ← demo_table more (demo_engine sys) txn;
  Ret ok.

Lemma demo_table_ok : demo_table_stored (λ _ _ _ _, Ret true) = Ret true.
Proof. by vm_compute. Qed.

Lemma users_ok : name_ok ascii_decompose ascii_reencode users.
Proof. by apply ascii_name_ok. Qed.

(** The engine with namespace 1, before the table. *)
Lemma demo_space more : demo_table_stored more = Ret true → ∃ e txn vn v vs e1 txn1, FinishTime txn = 2 ^ 63 ∧
  demo_tree_rows 1 e PG_INDEX_NAMESPACE_NSPOID [([VSigned 4 1], vn)] ∧
  GetTidExists (Table.st_system (e_store e)) [mkTupleId vn] (CatalogTableOid_val PG_NAMESPACE) = Ret true ∧
  (∀ cc ca, create_chunk PG_CLASS e = Ret cc → create_chunk PG_ATTRIBUTE e = Ret ca →
    store_chunks demo_queue (λ _ h, h) demo_file ascii_decompose ascii_reencode demo_values ∅ 1
      (table_chunks demo_uninit cc ca 1 1 users 1 REGULAR_TABLE (demo_values demo_schema)) e txn = Ret (v :: vs, e1, txn1)) ∧
  Forall (λ x, 0 ≤ x < 2 ^ 64) (v :: vs) ∧
  (∀ ix, ix ∈ database_indexes → Builder.index_table ix ≠ Some PG_NAMESPACE → demo_tree_rows 1 e ix [] ∧ index_room 1 e ix 50) ∧
  ∃ e', e_store e' = e_store e1 ∧ more e' txn1 [vn] (v :: vs) = Ret true.
Proof.
  intros H. unfold demo_table_stored in H. apply bind_inv in H as ([txn0 sys] & _ & H).
  apply bind_inv in H as ([[[[vn en] txn] [[vs0 e1] txn1]] ok] & H & [= ->]). unfold demo_table in H.
  apply bind_inv in H as (cn & Hcn & H). apply bind_inv in H as (cc & Hcc & H). apply bind_inv in H as (ca & Hca & H).
  apply bind_inv in H as ([[vn' en'] txn'] & Hn & H). apply bind_inv in H as ([[vs' e1'] txn1'] & Ht & H).
  apply bind_inv in H as (found & HG & H). apply bind_inv in H as (ok & HM & [= -> -> -> -> -> -> Hok]).
  apply andb_true_iff in Hok as [[[[-> Hf%Z.eqb_eq]%andb_true_iff Hl%bool_decide_eq_true]%andb_true_iff HV]%andb_true_iff ->].
  destruct Hl as [Hl1 Hl2]. destruct vn as [|vn [|]]; try discriminate Hl1. destruct vs0 as [|v vs]; [discriminate Hl2|].
  assert (HV' : Forall (λ x, 0 ≤ x < 2 ^ 64) ([vn] ++ v :: vs)).
  { apply Forall_forall. intros x Hx%list_elem_of_In. rewrite forallb_forall in HV. apply (bool_decide_eq_true_1 _), HV, Hx. }
  apply Forall_app in HV' as [Hvn HV']. apply Forall_cons in Hvn as [Hvn _].
  destruct (demo_database 1 sys) as (e0 & _ & Hs0 & Hin).
  pose proof (store_chunks_frame demo_queue (λ _ h, h) demo_file ascii_decompose ascii_reencode demo_values ∅ 1 _ _ e0 _ _ _ _ Hn Hs0) as Hn0.
  set (e := set_store e0 (e_store en)) in *.
  destruct (namespace_chunk demo_queue (λ _ h, h) demo_file ascii_decompose ascii_reencode demo_values ∅ 1 demo_uninit
    demo_values_ok mem_ok_empty demo_uninit_ok e) as (c1 & _ & Hk & _).
  destruct (Hin PG_INDEX_NAMESPACE_NSPOID) as [N1 N2]; [by apply (bool_decide_unpack _); vm_compute|].
  destruct (index_fresh_step demo_queue (λ _ h, h) demo_file ascii_decompose ascii_reencode demo_values ∅ 1 49
    e txn _ _ _ [VSigned 4 1] vn [] (proj2 namespace_heap) N1 (same_tree_room 1 e0 e _ _ (conj eq_refl eq_refl) N2) (proj1 (Hk 1 ltac:(lia))) Hvn) as (e2 & _ & Hs & Hrows & _ & O); [constructor|].
  pose proof (store_chunks_frame demo_queue (λ _ h, h) demo_file ascii_decompose ascii_reencode demo_values ∅ 1 _ _ e2 _ _ _ _ Ht Hs) as Ht2.
  exists e2, txn, vn, v, vs, (set_store e2 (e_store e1)), txn1. split; [exact Hf|]. split; [exact Hrows|].
  split; [rewrite Hs; exact HG|]. split; [|split; [exact HV'|split; [|by exists e1]]].
  - intros cc' ca' E1 E2. pose proof (eq_trans (eq_sym E1) Hcc) as [= ->]. pose proof (eq_trans (eq_sym E2) Hca) as [= ->]. exact Ht2.
  - intros ix Hix Hne. destruct (Hin ix Hix) as [R1 R2]. assert (S : same_tree_of 1 e e2 ix).
    { apply O. intros E. apply (inj CatalogTableOid_val) in E. subst ix. by apply Hne. }
    split; [by apply (tree_rows_same _ _ _ e)|apply (same_tree_room 1 e); [done|by apply (same_tree_room 1 e0)]].
Qed.

Lemma demo_columns_ok : Forall (λ col, name_ok ascii_decompose ascii_reencode (string_bytes (sc_name col))) (demo_values demo_schema).
Proof.
  assert (H : forallb (λ col, ascii_name (string_bytes (sc_name col))) (demo_values demo_schema) = true) by by vm_compute.
  rewrite forallb_forall in H. apply Forall_forall. intros col Hc%list_elem_of_In. by apply ascii_name_ok, H.
Qed.

(** The names of the columns differ, and so do their numbers. *)
Lemma demo_fresh : fresh_rows ascii_decompose ascii_reencode (name_row 1 <$> demo_values demo_schema) [] ∧
  fresh_rows ascii_decompose ascii_reencode (num_rows 1 (demo_values demo_schema)) [].
Proof.
  assert (E : (λ col, string_bytes (sc_name col)) <$> demo_values demo_schema = [string_bytes "name"; string_bytes "id"]) by by vm_compute.
  destruct (demo_values demo_schema) as [|c1 [|c2 [|]]]; try discriminate E. injection E as E1 E2.
  unfold name_row. cbn [fmap list_fmap fresh_rows num_rows]. rewrite E1, E2.
  split; (split; [constructor|]); intros v; (split; [apply Forall_singleton; cbn [fst]; by vm_compute|done]).
Qed.

Lemma demo_room e n l :
  (∀ ix, ix ∈ database_indexes → Builder.index_table ix ≠ Some PG_NAMESPACE → demo_tree_rows 1 e ix [] ∧ index_room 1 e ix n) →
  forallb (λ ix, bool_decide (ix ∈ database_indexes) && bool_decide (Builder.index_table ix ≠ Some PG_NAMESPACE)) l = true →
  indexes_hold ascii_decompose ascii_reencode 1 n e ((λ ix, (ix, [])) <$> l).
Proof.
  intros Hin Hl. rewrite forallb_forall in Hl. apply Forall_fmap, Forall_forall. intros ix Hix%list_elem_of_In.
  specialize (Hl ix Hix). apply andb_true_iff in Hl as [H1%bool_decide_eq_true_1 H2%bool_decide_eq_true_1]. by apply Hin.
Qed.

Lemma create_table_correct_witness : ∃ s s' v vs, CreateTable id demo_uninit demo_values users 1 demo_schema s = Ret (Ok 1, s') ∧
  demo_tree_rows 1 (s_store s') PG_INDEX_CLASS_RELNAME [([VSpan users], v)] ∧
  demo_tree_rows 1 (s_store s') PG_INDEX_ATTRIBUTE_ATTNUM (entered [num_row 1; num_row 2] vs []).
Proof.
  destruct (demo_space _ demo_table_ok) as (e & txn & vn & v & vs & e1 & txn1 & Hf & HN & HG & HT & HV & Hin & _).
  set (s := mkState (set_write_lock (DatabaseCatalog.make 1) (2 ^ 63)) e txn).
  assert (Hlen : length (demo_values demo_schema) = 2%nat) by by vm_compute.
  destruct (class_chunk demo_queue (λ _ h, h) demo_file ascii_decompose ascii_reencode demo_values ∅ 1 demo_uninit
    demo_values_ok mem_ok_empty demo_uninit_ok) as (cc & Hcc & _).
  destruct (attribute_chunk_made demo_queue (λ _ h, h) demo_file ascii_decompose ascii_reencode demo_values ∅ 1 demo_uninit
    demo_values_ok mem_ok_empty demo_uninit_ok) as (ca & Hca & _).
  pose proof (HT cc ca (Hcc _) (Hca _)) as HT'. apply table_chunks_split in HT' as (tup & e0 & txn0 & HT1 & HT2 & Ev).
  destruct (create_table_correct demo_queue (λ _ h, h) demo_file ascii_decompose ascii_reencode demo_values ∅ 1 id demo_uninit
    demo_values_ok mem_ok_empty demo_uninit_ok 48 users 1 demo_schema s (2 ^ 63) txn [([VSigned 4 1], vn)] (λ _, true) tup e0 txn0 vs e1 txn1
    (λ _, false) [] [] [] [] []) as (e' & E & HC & HA & _).
  - subst s. unfold TryLock. cbn [s_catalog s_txn write_lock_ set_write_lock]. by rewrite Hf.
  - exact HN.
  - lia.
  - apply Forall_singleton. intros _. exact HG.
  - intros cc' E. rewrite Hcc in E. injection E as <-. exact HT1.
  - intros ca' E. rewrite Hca in E. injection E as <-. exact HT2.
  - apply (demo_room _ _ [PG_INDEX_CLASS_RELNAME; PG_INDEX_CLASS_RELNAMESPACE; PG_INDEX_CLASS_RELOID]); [|by vm_compute].
    intros ix H1 H2. destruct (Hin ix H1 H2) as [R1 R2]. split; [exact R1|]. revert R2. by apply index_room_le, (bool_decide_unpack _); vm_compute.
  - rewrite Hlen. apply (demo_room _ _ [PG_INDEX_ATTRIBUTE_ATTRELID_ATTNAME; PG_INDEX_ATTRIBUTE_ATTNUM]); [exact Hin|by vm_compute].
  - change (0 ≤ 1 < 2 ^ 31). lia.
  - change (0 ≤ 1). lia.
  - rewrite Hlen. change (1 + 2 < 2 ^ 32). lia.
  - exact users_ok.
  - exact demo_columns_ok.
  - rewrite <- Ev. exact HV.
  - apply not_elem_of_nil.
  - apply not_elem_of_nil.
  - apply not_elem_of_nil.
  - constructor.
  - constructor.
  - exact (proj1 demo_fresh).
  - exact (proj2 demo_fresh).
  - exists s, (mkState (set_attribute_oid (set_class_oid (set_write_lock (s_catalog s) (2 ^ 63)) 2) 3) e' txn1), v, vs. rewrite <- Ev in HC.
    split; [exact E|]. split.
    + apply Forall_cons in HC as [[HC _] _]. exact HC.
    + apply Forall_cons in HA as [_ HA]. apply Forall_cons in HA as [[HA _] _]. exact HA.
Defined.
