(* ===== verification/CatalogIndexTheorems.v ===== *)
(** * Theorems about the indexes of a catalog

    [CreateIndex] looks for the table, enters the index in pg_class with its
    columns as [CreateTable] does, and then its row in pg_index and the two
    indexes of pg_index. *)

From stdpp Require Import strings.
From S2P Require Import Prelude Bytes Shared Memory CatalogCommon AccessTypes DataChunk Fsm.
From S2P Require Import KeyEncoder BTree Index IndexTheorems ChunkUtils Pax Arena.
From S2P Require Import Undo Redo Txn Table TableTheorems Builder CatalogChunks CatalogStore CatalogMonad.
From S2P Require Import DatabaseCatalog EngineFacts CatalogDemo CatalogTheorems TablesTheorems.
Import TransactionContext DatabaseCatalog.

(** The lock is the transaction's once it has been taken. *)
Lemma TryLock_taken others w txn w' txn' :
  TryLock others w txn = (true, w', txn') → w' = FinishTime txn ∧ txn' = txn ∧ TryLock others w' txn' = (true, w', txn').
Proof.
  unfold TryLock. intros H. assert (E : w' = FinishTime txn ∧ txn' = txn).
  { destruct (Z.eqb_spec w (FinishTime txn)) as [->|]; [by injection H as <- <-|].
    destruct (TransactionUtil.HasConflict _ _ _); [done|]. destruct (_ =? w); [by injection H as <- <-|done]. }
  destruct E as [-> ->]. by rewrite Z.eqb_refl.
Qed.

Section Indexes.
Context (try_dequeue : list Z → option (Z * list Z)) (steps : nat → heap → heap) (file : PageIdentifier → mem).
Context (dec reenc : list Z → bool → Z + list Z) (values : Schema → list SchemaColumn) (fresh : mem).
Context (db : Z) (others : Z → Z) (uninit : VarlenEntry).
(** The iteration order of the hash map, and uninitialised memory. *)
Hypothesis values_ok : ∀ s : Schema, values s ≡ₚ (map_to_list s).*2.
Hypothesis fresh_ok : mem_ok fresh.
Hypothesis uninit_ok : uninit_entry uninit.

#[local] Hint Extern 0 (CatalogStore engine) =>
  exact (engine_store try_dequeue steps file dec reenc values fresh db) : typeclass_instances.

Abbreviation chunk_holds := (Index.chunk_holds dec reenc).
Abbreviation name_ok := (name_ok dec reenc).
Abbreviation indexes_hold := (indexes_hold dec reenc db).
Abbreviation fresh_row := (fresh_row dec reenc).
Abbreviation tree_rows := (tree_rows dec reenc db).
Abbreviation some_row := (some_row dec reenc).
Abbreviation classes := (classes dec reenc db).
Abbreviation attributes := (attributes dec reenc db).
Abbreviation store_chunks := (store_chunks try_dequeue steps file dec reenc values fresh db).

(** The indexes of pg_index with their rows and room for [n] more. *)
Definition index_entries (n : nat) (e : engine) (oids rels : list (list value * Z)) : Prop :=
  indexes_hold n e [(PG_INDEX_INDEX_INDOID, oids); (PG_INDEX_INDEX_INDRELID, rels)].

(** ** The row of an index *)

(** The chunk of the row of an index. *)
Definition index_chunk (c : DataChunk) (oid rel_oid : Z) (schema : IndexSchema) : DataChunk :=
  DataChunkBuilder.BuildIndexChunk c oid rel_oid (IsUnique schema) (IsPrimary schema) (IsExclusion schema) (IsImmediate schema)
    true true true (IndexKind_val BTREE).

(** The writes of [BuildIndexChunk]. *)
Definition index_writes (oid rel_oid : Z) (schema : IndexSchema) : list (Z * list Z) :=
  [(CatalogColumnOid_val INDOID, le_bytes 4 oid);
   (CatalogColumnOid_val INDRELID, le_bytes 4 rel_oid);
   (CatalogColumnOid_val INDISUNIQUE, le_bytes 1 (Z.b2z (IsUnique schema)));
   (CatalogColumnOid_val INDISPRIMARY, le_bytes 1 (Z.b2z (IsPrimary schema)));
   (CatalogColumnOid_val INDISEXCLUSION, le_bytes 1 (Z.b2z (IsExclusion schema)));
   (CatalogColumnOid_val INDIMMEDIATE, le_bytes 1 (Z.b2z (IsImmediate schema)));
   (CatalogColumnOid_val INDISVALID, le_bytes 1 1);
   (CatalogColumnOid_val INDISREADY, le_bytes 1 1);
   (CatalogColumnOid_val INDISLIVE, le_bytes 1 1);
   (CatalogColumnOid_val IND_TYPE, le_bytes 1 (IndexKind_val BTREE))].

Lemma index_chunk_eq c oid rel_oid schema : index_chunk c oid rel_oid schema = write_all c (index_writes oid rel_oid schema).
Proof.
  unfold index_chunk, DataChunkBuilder.BuildIndexChunk, DataChunkBuilder.WriteCol, write_all, index_writes.
  cbn [foldl fst snd Z.b2z]. reflexivity.
Qed.

Lemma index_chunk_made : ∃ c0, (∀ e : engine, create_chunk PG_INDEX e = Ret c0) ∧
  ∀ oid rel_oid schema, 0 ≤ oid < 2 ^ 31 → 0 ≤ rel_oid < 2 ^ 31 →
    chunk_holds (AttrsFor PG_INDEX_INDEX_INDOID) (index_chunk c0 oid rel_oid schema) [VSigned 4 oid] ∧
    chunk_holds (AttrsFor PG_INDEX_INDEX_INDRELID) (index_chunk c0 oid rel_oid schema) [VSigned 4 rel_oid].
Proof.
  destruct (catalog_chunk PG_INDEX Builder.CreateIndexSchema_columns values fresh eq_refl (values_ok _) fresh_ok)
    as (l & ids & sizes & El & Hnd & Hlen & Hwf & Hf & _).
  exists (CreateDataChunk l fresh). split.
  - intros e. change (create_chunk PG_INDEX e) with
      (layout ← DataChunkLayout_of_schema values (Schema_make Builder.CreateIndexSchema_columns); Ret (CreateDataChunk layout fresh)).
    by rewrite El.
  - intros oid rel_oid schema Ho Hrel. rewrite index_chunk_eq.
    assert (Hcols : Forall (λ col, field ids sizes (sc_oid col) (SizeOf (sc_type col))) Builder.CreateIndexSchema_columns)
      by (by apply Forall_forall).
    repeat (apply Forall_cons in Hcols as [? Hcols]).
    destruct (write_all_ok ids sizes Hnd Hlen (index_writes oid rel_oid schema) _ Hwf) as [[W _] F].
    { by apply (bool_decide_unpack _); vm_compute. }
    { repeat (apply Forall_cons; split); [..|constructor]; (split; [|apply le_bytes_ok]); eexists;
        (split; [eassumption|]); cbn [snd]; rewrite ?length_le_bytes; by vm_compute. }
    do 2 (apply Forall_cons in F as [? F]). cbn [fst snd] in *.
    split; (split; [exact W|]); (split; [apply Forall2_cons; split; [|constructor]|by repeat constructor]).
    + apply (read_integer _ (CatalogColumnOid_val INDOID)); [done|lia].
    + apply (read_integer _ (CatalogColumnOid_val INDRELID)); [done|lia].
Qed.

(** The entry of an index, from the chunk on. *)
Definition index_entry (chunk : DataChunk) (oid : Z) : M (C := DatabaseCatalog) (st := engine) (ResultObj Z) :=
  tup <- TableInsert PG_INDEX chunk;;
  res_relname <- InsertUnique PG_INDEX_INDEX_INDOID chunk (GetValue tup);;
  require res_relname "Failed to insert to indoid index"
  (res_name <- IndexInsert PG_INDEX_INDEX_INDRELID chunk (GetValue tup);;
   require res_name "Failed to insert to indrelid index" (ret (Ok oid))).

Lemma CreateIndexEntry_eq oid rel_oid schema :
  CreateIndexEntry oid rel_oid schema = (chunk <- NewChunk PG_INDEX;; index_entry (index_chunk chunk oid rel_oid schema) oid).
Proof. unfold CreateIndexEntry, index_entry, index_chunk. cbv zeta. reflexivity. Qed.

Lemma CreateIndexEntry_ok n oid rel_oid schema s tup e1 txn1 oids rels :
  let v := GetValue tup in
  (∀ c0, create_chunk PG_INDEX (s_store s) = Ret c0 →
    table_insert PG_INDEX (s_store s) (s_txn s) (index_chunk c0 oid rel_oid schema) = Ret (tup, e1, txn1)) →
  index_entries (S n) (s_store s) oids rels → 0 ≤ oid < 2 ^ 31 → 0 ≤ rel_oid < 2 ^ 31 → 0 ≤ v < 2 ^ 64 →
  fresh_row [VSigned 4 oid] oids → v ∉ rels.*2 →
  ∃ e', CreateIndexEntry oid rel_oid schema s = Ret (Ok oid, mkState (s_catalog s) e' txn1) ∧
    index_entries n e' (([VSigned 4 oid], v) :: oids) (([VSigned 4 rel_oid], v) :: rels) ∧
    e_store e' = e_store e1 ∧ others_same PG_INDEX (s_store s) e'.
Proof.
  intros v HT HC Ho Hrel Hv F1 F2. destruct index_chunk_made as (c0 & Hc0 & Hc). specialize (Hc0 (s_store s)).
  destruct (Hc oid rel_oid schema Ho Hrel) as (C1 & C2). specialize (HT c0 Hc0). set (c := index_chunk c0 oid rel_oid schema) in *.
  pose proof (insert_others_same try_dequeue steps file dec reenc values fresh db PG_INDEX _ _ _ _ _ _ _ HT) as O1.
  assert (HC1 : index_entries (S n) e1 oids rels).
  { eapply indexes_same; [|exact HC]. apply Forall_forall. intros p _. eapply table_insert_trees, HT. }
  apply Forall_cons in HC1 as [[N1 M1] HC1]. apply Forall_cons in HC1 as [I2 _].
  destruct (index_fresh_step try_dequeue steps file dec reenc values fresh db n e1 txn1 PG_INDEX_INDEX_INDOID
    PG_INDEX c [VSigned 4 oid] v oids eq_refl N1 M1 C1 Hv F1) as (e2 & U2 & S2 & R2 & K2 & O2).
  apply (carry _ _ _ e1 e2) in I2; [|by apply O2].
  destruct (index_insert_step try_dequeue steps file dec reenc values fresh db n e2 PG_INDEX_INDEX_INDRELID PG_INDEX c
    [VSigned 4 rel_oid] v rels eq_refl (proj1 I2) (proj2 I2) C2 Hv F2) as (e3 & U3 & S3 & R3 & K3 & O3).
  exists e3. split_and!.
  - rewrite CreateIndexEntry_eq. erewrite bind_run by (apply NewChunk_run; exact Hc0).
    change (index_chunk c0 oid rel_oid schema) with c. unfold index_entry.
    erewrite bind_run by (apply TableInsert_run; exact HT). erewrite bind_run by (apply InsertUnique_run; exact U2). cbn [require].
    erewrite bind_run by (apply IndexInsert_run; exact U3). reflexivity.
  - repeat (apply Forall_cons; split); [|done|constructor]. by apply (carry _ _ _ e2 e3); [by apply O3|].
  - by rewrite S3, S2.
  - apply (others_same_trans _ _ e1); [done|].
    apply (others_same_trans _ _ e2); [by apply (others_same_index _ PG_INDEX_INDEX_INDOID)|].
    by apply (others_same_index _ PG_INDEX_INDEX_INDRELID).
Qed.

(** ** The table of an index *)

(** The chunk that asks for a table by its oid. *)
Lemma class_oid_chunk (e : engine) : ∃ c0, create_chunk PG_CLASS e = Ret c0 ∧
  ∀ oid, 0 ≤ oid < 2 ^ 31 → chunk_holds (AttrsFor PG_INDEX_CLASS_RELOID) (DataChunkBuilder.BuildClassChunk_oid c0 oid) [VSigned 4 oid].
Proof.
  destruct (catalog_chunk PG_CLASS Builder.CreateClassSchema_columns values fresh eq_refl (values_ok _) fresh_ok)
    as (l & ids & sizes & El & Hnd & Hlen & Hwf & Hf & _).
  exists (CreateDataChunk l fresh). split.
  - change (create_chunk PG_CLASS e) with
      (layout ← DataChunkLayout_of_schema values (Schema_make Builder.CreateClassSchema_columns); Ret (CreateDataChunk layout fresh)).
    by rewrite El.
  - intros oid Ho. assert (Hfd : field ids sizes (CatalogColumnOid_val RELOID) 4)
      by (apply (Hf (Builder.column RELOID INTEGER "reloid")); by left).
    destruct (write_oid ids sizes _ (CatalogColumnOid_val RELOID) oid Hnd Hlen Hwf Hfd Ho) as [W R].
    split; [apply W|]. split; [apply Forall2_cons; split; [done|constructor]|by repeat constructor].
Qed.

(** What [ExistsTable] answers; its message is the namespace's. *)
Lemma ExistsTable_ok oid s oids alive :
  tree_rows (s_store s) PG_INDEX_CLASS_RELOID oids → 0 ≤ oid < 2 ^ 31 →
  Forall (λ x, KeyEncoder.row_cmp dec reenc x.1 [VSigned 4 oid] = Eq →
    GetTidExists (Table.st_system (e_store (s_store s))) [mkTupleId x.2] (CatalogTableOid_val PG_CLASS) = Ret (alive x.2)) oids →
  ExistsTable oid s = Ret (if some_row alive [VSigned 4 oid] oids then Ok tt else Fail "Namespace does not exist", s).
Proof.
  intros Hrows Ho HA. destruct (class_oid_chunk (s_store s)) as (c0 & Hc0 & Hc). unfold ExistsTable.
  erewrite bind_run by (apply NewChunk_run; exact Hc0).
  exact (entry_exists try_dequeue steps file dec reenc values fresh db PG_CLASS PG_INDEX_CLASS_RELOID _ _ _ s oids alive eq_refl Hrows (Hc oid Ho) HA).
Qed.

(** ** Creating an index *)

Lemma store_chunks_snoc l t c e txn ws e1 txn1 :
  store_chunks (l ++ [(t, c)]) e txn = Ret (ws, e1, txn1) →
  ∃ vs e2 txn2 tup, store_chunks l e txn = Ret (vs, e2, txn2) ∧ table_insert t e2 txn2 c = Ret (tup, e1, txn1) ∧
    ws = vs ++ [GetValue tup].
Proof.
  revert e txn ws. induction l as [|[t' c'] l IH]; intros e txn ws H; cbn [store_chunks app] in *.
  - apply bind_inv in H as ([[tup e2] txn2] & H & [= <- <- <-]). by exists [], e, txn, tup.
  - apply bind_inv in H as ([[tup' e2] txn2] & H1 & H). apply bind_inv in H as ([[vs e3] txn3] & H & [= <- <- <-]).
    destruct (IH _ _ _ H) as (vs' & e4 & txn4 & tup & H2 & H3 & ->). exists (GetValue tup' :: vs'), e4, txn4, tup.
    by rewrite H1, bind_Ret, H2.
Qed.

(** The rows of an index, in the order they are stored. *)
Definition index_chunks (cc ca ci : DataChunk) (oid a : Z) (name : list Z) (rel ns : Z) (schema : IndexSchema) :
    list (CatalogTableOid * DataChunk) :=
  table_chunks uninit cc ca oid a name ns INDEX (values (is_schema schema)) ++ [(PG_INDEX, index_chunk ci oid rel schema)].

Lemma index_chunks_split e txn cc ca ci oid a name rel ns schema v vs vi e' txn' :
  store_chunks (index_chunks cc ca ci oid a name rel ns schema) e txn = Ret ((v :: vs) ++ [vi], e', txn') →
  ∃ tup e1 txn1 e2 txn2 tupi,
    table_insert PG_CLASS e txn (DataChunkBuilder.BuildClassChunk uninit cc oid name ns (RelKind_ToChar INDEX) name) = Ret (tup, e1, txn1) ∧
    store_chunks (attribute_chunks uninit ca oid a (values (is_schema schema))) e1 txn1 = Ret (vs, e2, txn2) ∧
    table_insert PG_INDEX e2 txn2 (index_chunk ci oid rel schema) = Ret (tupi, e', txn') ∧ v = GetValue tup ∧ vi = GetValue tupi.
Proof.
  intros H. apply store_chunks_snoc in H as (vs' & e2 & txn2 & tupi & H1 & H2 & [<- [= ->]]%app_inj_tail).
  apply table_chunks_split in H1 as (tup & e1 & txn1 & H1 & H3 & ->). by exists tup, e1, txn1, e2, txn2, tupi.
Qed.

(** C35: [CreateIndex], once it has the lock and the rows it stores are stored,
    for columns whose names and numbers are new in pg_attribute and an oid that is
    new in pg_index.  Without the table or the namespace it fails and nothing but
    the lock changes.  When pg_class has a row of the name or of the oid in
    conflict with the transaction, it fails as [CreateTable] does, with the row of
    pg_class stored and the counter of oids advanced, and neither a column nor the
    row of pg_index is stored.  Otherwise it returns the oid of the new index: the
    index is in pg_class under its own oid with the kind of an index, its columns
    are in pg_attribute as those of a table are, and its row in pg_index is entered
    under its oid and under the oid of the table; the counters advance and the
    indexes of other tables are as before.  The indexes have room for the new
    entries, also in their nodes of level 1 ([index_room]). *)
Theorem create_index_correct n name rel ns schema s w txn spaces alive relations tup e1 txn1 vs e2 txn2 tupi e3 txn3 hb names nss oids
    anames anums ioids irels :
  let oid := next_class_oid_ (s_catalog s) in
  let a := next_attribute_oid_ (s_catalog s) in
  let cols := values (is_schema schema) in
  let v := GetValue tup in
  let vi := GetValue tupi in
  let named := some_row hb [VSpan name] names in
  let numbered := some_row hb [VSigned 4 oid] oids in
  TryLock others (write_lock_ (s_catalog s)) (s_txn s) = (true, w, txn) →
  tree_rows (s_store s) PG_INDEX_NAMESPACE_NSPOID spaces → 0 ≤ ns < 2 ^ 31 →
  Forall (λ x, KeyEncoder.row_cmp dec reenc x.1 [VSigned 4 ns] = Eq →
    GetTidExists (Table.st_system (e_store (s_store s))) [mkTupleId x.2] (CatalogTableOid_val PG_NAMESPACE) = Ret (alive x.2)) spaces →
  0 ≤ rel < 2 ^ 31 →
  Forall (λ x, KeyEncoder.row_cmp dec reenc x.1 [VSigned 4 rel] = Eq →
    GetTidExists (Table.st_system (e_store (s_store s))) [mkTupleId x.2] (CatalogTableOid_val PG_CLASS) = Ret (relations x.2)) oids →
  (∀ cc, create_chunk PG_CLASS (s_store s) = Ret cc →
    table_insert PG_CLASS (s_store s) txn (DataChunkBuilder.BuildClassChunk uninit cc oid name ns (RelKind_ToChar INDEX) name) = Ret (tup, e1, txn1)) →
  (∀ ca, create_chunk PG_ATTRIBUTE (s_store s) = Ret ca →
    store_chunks (attribute_chunks uninit ca oid a cols) e1 txn1 = Ret (vs, e2, txn2)) →
  (∀ ci, create_chunk PG_INDEX (s_store s) = Ret ci →
    table_insert PG_INDEX e2 txn2 (index_chunk ci oid rel schema) = Ret (tupi, e3, txn3)) →
  classes (S n) (s_store s) names nss oids → attributes (length cols + n) (s_store s) anames anums →
  index_entries (S n) (s_store s) ioids irels →
  0 ≤ oid < 2 ^ 31 → 0 ≤ a → a + Z.of_nat (length cols) < 2 ^ 32 →
  name_ok name → Forall (λ col, name_ok (string_bytes (sc_name col))) cols → Forall (λ x, 0 ≤ x < 2 ^ 64) (v :: vs) → 0 ≤ vi < 2 ^ 64 →
  v ∉ names.*2 → v ∉ nss.*2 → v ∉ oids.*2 →
  answers dec reenc e1 txn1 PG_CLASS [VSpan name] hb names → answers dec reenc e1 txn1 PG_CLASS [VSigned 4 oid] hb oids →
  fresh_rows dec reenc (name_row oid <$> cols) anames → fresh_rows dec reenc (num_rows a cols) anums →
  fresh_row [VSigned 4 oid] ioids → vi ∉ irels.*2 →
  let catalog := set_class_oid (set_write_lock (s_catalog s) w) (to_u32 (oid + 1)) in
  if some_row relations [VSigned 4 rel] oids && some_row alive [VSigned 4 ns] spaces
  then
    if named || numbered
    then ∃ e', CreateIndex others uninit values name rel ns schema s =
        Ret (Fail (if named then "Failed to insert to relname index" else "Failed to insert to reloid index"), mkState catalog e' txn1) ∧
      classes n e' (if named then names else ([VSpan name], v) :: names) (if named then nss else ([VSigned 4 ns], v) :: nss) oids ∧
      e_store e' = e_store e1 ∧ others_same PG_CLASS (s_store s) e'
    else ∃ e', CreateIndex others uninit values name rel ns schema s =
        Ret (Ok oid, mkState (set_attribute_oid catalog (a + Z.of_nat (length cols))) e' txn3) ∧
      classes n e' (([VSpan name], v) :: names) (([VSigned 4 ns], v) :: nss) (([VSigned 4 oid], v) :: oids) ∧
      attributes n e' (entered (name_row oid <$> cols) vs anames) (entered (num_rows a cols) vs anums) ∧
      index_entries n e' (([VSigned 4 oid], vi) :: ioids) (([VSigned 4 rel], vi) :: irels) ∧
      e_store e' = e_store e3 ∧
      ∀ db' ix, Builder.index_table ix ≠ Some PG_CLASS → Builder.index_table ix ≠ Some PG_ATTRIBUTE →
        Builder.index_table ix ≠ Some PG_INDEX → same_tree_of db' (s_store s) e' ix
  else CreateIndex others uninit values name rel ns schema s =
    Ret (Fail "Namespace does not exist", mkState (set_write_lock (s_catalog s) w) (s_store s) txn).
Proof.
  intros oid a cols v vi named numbered HL HN Hns HA Hrel HR HT HT2 HT3 HC HAt HI Ho Ha Hlen Hname Hcols HV HVi F1 F2 F3 A1 A2 F4 F5 F6 F7 catalog.
  set (s1 := mkState (set_write_lock (s_catalog s) w) (s_store s) txn).
  assert (E1 : TryLockM others s = Ret (true, s1)) by by unfold TryLockM; rewrite HL.
  destruct (TryLock_taken _ _ _ _ _ HL) as (_ & _ & HL2). destruct index_chunk_made as (ci & Hci & _).
  pose proof HC as HC1. apply Forall_cons in HC1 as [[N1 _] HC1]. apply Forall_cons in HC1 as [_ HC1]. apply Forall_cons in HC1 as [[N3 _] _].
  pose proof HV as HV1. apply Forall_cons in HV1 as [HV1 _].
  assert (HX := create_class_any try_dequeue steps file dec reenc values fresh db others uninit values_ok fresh_ok uninit_ok
    n INDEX name ns (is_schema schema) s1 w txn spaces alive tup e1 txn1 vs e2 txn2 hb names nss oids anames anums HL2 HN Hns HA HT HT2 HC HAt
    Ho Ha Hlen Hname Hcols HV (fresh_tid_key dec reenc db _ _ _ _ _ N1 HV1 F1) (fresh_tid_key dec reenc db _ _ _ _ _ N3 HV1 F3) F2 A1 A2 F4 F5).
  cbv zeta in HX. cbn [s_catalog s_store s1] in HX.
  unfold CreateIndex. rewrite (bind_run _ _ _ _ _ E1). cbn [negb].
  rewrite (bind_run _ _ _ _ _ (ExistsTable_ok rel s1 oids relations N3 Hrel HR)).
  destruct (some_row relations _ _); [|done]. cbn [andb]. unfold CreateIndexClass.
  destruct (some_row alive _ _); [|by rewrite (bind_run _ _ s1 (Fail "Namespace does not exist") s1 HX)].
  change (some_row hb [VSpan name] names) with named in HX. change (some_row hb [VSigned 4 _] oids) with numbered in HX.
  destruct (named || numbered).
  - destruct HX as (e' & E & H1 & H2 & H3). exists e'. by rewrite (bind_run _ _ _ _ _ E).
  - destruct HX as (e' & E & C1 & C2 & C3 & C4). rewrite (bind_run _ _ _ _ _ E). clear E.
    destruct (CreateIndexEntry_ok n oid rel schema (mkState (set_attribute_oid catalog (a + Z.of_nat (length cols))) e' txn2)
      tupi (set_store e' (e_store e3)) txn3 ioids irels) as (e'' & E & D1 & D2 & D3); try done.
    { intros c0 Hc0. rewrite Hci in Hc0. injection Hc0 as <-. by eapply table_insert_frame; [apply HT3, Hci|]. }
    { eapply indexes_same; [|exact HI]. repeat constructor; apply C4; by vm_compute. }
    exists e''. split_and!; [exact E| | |exact D1|exact D2|].
    + eapply indexes_same; [|exact C1]. repeat constructor; apply D3; by vm_compute.
    + eapply indexes_same; [|exact C2]. repeat constructor; apply D3; by vm_compute.
    + intros db' ix Hx1 Hx2 Hx3. destruct (C4 db' ix Hx1 Hx2) as [K1 K2], (D3 db' ix Hx3) as [K3 K4]. split; [by rewrite K3|by rewrite K4].
Qed.
End Indexes.

(** ** An index on a table of two columns *)

#[local] Hint Extern 0 (CatalogStore engine) => exact (demo_store 1) : typeclass_instances.

Definition users_id : list Z := string_bytes "users_id".
Definition demo_index : IndexSchema := IndexSchema_make [SchemaColumn_make 1 INTEGER "id"] true false false true.

(** After table 1 of namespace 1, the transaction can store the rows of index 2
    on it; the tuples of the table and the namespace are not deleted. *)
Definition demo_more (e : engine) (txn : TransactionContext) (vn vs : list Z) : outcome bool :=
  cc ← create_chunk PG_CLASS e;
  ca ← create_chunk PG_ATTRIBUTE e;
  ci ← create_chunk PG_INDEX e;
  '(ws, _, _) ← store_chunks demo_queue (λ _ h, h) demo_file ascii_decompose ascii_reencode demo_values ∅ 1
    (index_chunks demo_values demo_uninit cc ca ci 2 3 users_id 1 1 demo_index) e txn;
  space ← GetTidExists (Table.st_system (e_store e)) (map mkTupleId vn) (CatalogTableOid_val PG_NAMESPACE);
  table ← GetTidExists (Table.st_system (e_store e)) (map mkTupleId (take 1 vs)) (CatalogTableOid_val PG_CLASS);
  Ret (space && table && (FinishTime txn =? 2 ^ 63) && bool_decide (length ws = 3%nat) && bool_decide (take 1 ws ≠ take 1 vs) &&
    forallb (λ v, bool_decide (0 ≤ v < 2 ^ 64)) ws).

Lemma demo_more_ok : demo_table_stored demo_more = Ret true.
Proof. by vm_compute. Qed.

(** What [demo_more] finds. *)
Lemma demo_more_inv e e' txn vn v vs : e_store e' = e_store e → demo_more e txn [vn] (v :: vs) = Ret true →
  FinishTime txn = 2 ^ 63 ∧
  GetTidExists (Table.st_system (e_store e')) [mkTupleId vn] (CatalogTableOid_val PG_NAMESPACE) = Ret true ∧
  GetTidExists (Table.st_system (e_store e')) [mkTupleId v] (CatalogTableOid_val PG_CLASS) = Ret true ∧
  ∃ w ws wi e1 txn1, Forall (λ x, 0 ≤ x < 2 ^ 64) ((w :: ws) ++ [wi]) ∧ w ≠ v ∧
    ∀ cc ca ci, create_chunk PG_CLASS e' = Ret cc → create_chunk PG_ATTRIBUTE e' = Ret ca → create_chunk PG_INDEX e' = Ret ci →
      store_chunks demo_queue (λ _ h, h) demo_file ascii_decompose ascii_reencode demo_values ∅ 1
        (index_chunks demo_values demo_uninit cc ca ci 2 3 users_id 1 1 demo_index) e' txn = Ret ((w :: ws) ++ [wi], e1, txn1).
Proof.
  intros Hs H. unfold demo_more in H. apply bind_inv in H as (cc & Hcc & H). apply bind_inv in H as (ca & Hca & H).
  apply bind_inv in H as (ci & Hci & H). apply bind_inv in H as ([[l e1] txn1] & Hl & H).
  apply bind_inv in H as (space & HN & H). apply bind_inv in H as (table & HT & [= Hok]). cbn [map take] in HN, HT.
  rewrite !andb_true_iff, !bool_decide_eq_true, Z.eqb_eq in Hok. destruct Hok as (((((-> & ->) & Hf) & Hlen) & Hne) & HV).
  destruct l as [|w [|w2 [|wi [|]]]]; try discriminate Hlen. rewrite Hs. split_and!; [done..|].
  exists w, [w2], wi, (set_store e' (e_store e1)), txn1. split_and!.
  - apply Forall_forall. intros x Hx%list_elem_of_In. rewrite forallb_forall in HV. apply (bool_decide_eq_true_1 _), HV, Hx.
  - intros ->. by apply Hne.
  - intros cc' ca' ci' E1 E2 E3. pose proof (eq_trans (eq_sym E1) Hcc) as [= ->]. pose proof (eq_trans (eq_sym E2) Hca) as [= ->].
    pose proof (eq_trans (eq_sym E3) Hci) as [= ->]. exact (store_chunks_frame _ _ _ _ _ _ _ _ _ _ _ _ _ _ _ Hl Hs).
Qed.

Abbreviation demo_classes := (classes ascii_decompose ascii_reencode 1).
Abbreviation demo_attributes := (attributes ascii_decompose ascii_reencode 1).
Abbreviation demo_entries := (index_entries ascii_decompose ascii_reencode 1).

(** The engine with namespace 1 and table 1 entered. *)
Lemma demo_entered_table : ∃ e txn vn v vs, demo_tree_rows 1 e PG_INDEX_NAMESPACE_NSPOID [([VSigned 4 1], vn)] ∧
  demo_classes 48 e [([VSpan users], v)] [([VSigned 4 1], v)] [([VSigned 4 1], v)] ∧
  demo_attributes 48 e (entered (name_row 1 <$> demo_values demo_schema) vs []) (entered (num_rows 1 (demo_values demo_schema)) vs []) ∧
  demo_entries 50 e [] [] ∧ ∃ e', e_store e = e_store e' ∧ demo_more e' txn [vn] (v :: vs) = Ret true.
Proof.
  destruct (demo_space _ demo_more_ok) as (e & txn & vn & v & vs & e1 & txn1 & Hf & HN & HG & HT & HV & Hin & e2 & Hs2 & HM).
  set (s := mkState (set_write_lock (DatabaseCatalog.make 1) (2 ^ 63)) e txn).
  assert (Hlen : length (demo_values demo_schema) = 2%nat) by by vm_compute.
  assert (Hroom : ∀ l, forallb (λ ix, bool_decide (ix ∈ database_indexes) && bool_decide (Builder.index_table ix ≠ Some PG_NAMESPACE)) l = true →
    indexes_hold ascii_decompose ascii_reencode 1 50 e ((λ ix, (ix, [])) <$> l)) by (intros l; by apply demo_room).
  destruct (create_class_ok demo_queue (λ _ h, h) demo_file ascii_decompose ascii_reencode demo_values ∅ 1 id demo_uninit
    demo_values_ok mem_ok_empty demo_uninit_ok 48 REGULAR_TABLE users 1 demo_schema s (2 ^ 63) txn [([VSigned 4 1], vn)] (λ _, true) v vs e1 txn1
    [] [] [] [] []) as (e' & _ & HC & HA & HS & HO).
  - subst s. unfold TryLock. cbn [s_catalog s_txn write_lock_ set_write_lock]. by rewrite Hf.
  - exact HN.
  - lia.
  - apply Forall_singleton. intros _. exact HG.
  - exact HT.
  - apply (indexes_room _ _ _ 50 49); [lia|]. apply (Hroom [PG_INDEX_CLASS_RELNAME; PG_INDEX_CLASS_RELNAMESPACE; PG_INDEX_CLASS_RELOID]). by vm_compute.
  - rewrite Hlen. apply (Hroom [PG_INDEX_ATTRIBUTE_ATTRELID_ATTNAME; PG_INDEX_ATTRIBUTE_ATTNUM]). by vm_compute.
  - change (0 ≤ 1 < 2 ^ 31). lia.
  - change (0 ≤ 1). lia.
  - rewrite Hlen. change (1 + 2 < 2 ^ 32). lia.
  - exact users_ok.
  - exact demo_columns_ok.
  - exact HV.
  - constructor.
  - constructor.
  - apply not_elem_of_nil.
  - exact (proj1 demo_fresh).
  - exact (proj2 demo_fresh).
  - exists e', txn1, vn, v, vs. split; [|split; [exact HC|split; [exact HA|split; [|exists e2; split; [by rewrite HS|exact HM]]]]].
    + apply (tree_rows_same _ _ _ e); [apply HO; by vm_compute|exact HN].
    + eapply indexes_same; [|apply (Hroom [PG_INDEX_INDEX_INDOID; PG_INDEX_INDEX_INDRELID]); by vm_compute].
      repeat constructor; apply HO; by vm_compute.
Qed.

(** New rows after those entered. *)
Lemma fresh_entered dec reenc r rs vs :
  Forall (λ r', KeyEncoder.row_cmp dec reenc r' r ≠ Eq) rs → fresh_row dec reenc r (entered rs vs []).
Proof.
  intros HF. apply Forall_forall. intros x Hx. unfold entered in Hx. rewrite app_nil_r in Hx.
  apply list_elem_of_In, in_rev, list_elem_of_In in Hx. destruct x as [r' v]. apply elem_of_zip_l in Hx.
  rewrite Forall_forall in HF. by apply HF.
Qed.

Lemma demo_index_fresh vs : let cols := demo_values (is_schema demo_index) in
  fresh_rows ascii_decompose ascii_reencode (name_row 2 <$> cols) (entered (name_row 1 <$> demo_values demo_schema) vs []) ∧
  fresh_rows ascii_decompose ascii_reencode (num_rows 3 cols) (entered (num_rows 1 (demo_values demo_schema)) vs []).
Proof.
  intros cols. subst cols.
  assert (E : (λ col, string_bytes (sc_name col)) <$> demo_values (is_schema demo_index) = [string_bytes "id"]) by by vm_compute.
  destruct (demo_values (is_schema demo_index)) as [|c [|]]; try discriminate E. injection E as E.
  assert (E2 : (λ col, string_bytes (sc_name col)) <$> demo_values demo_schema = [string_bytes "name"; string_bytes "id"]) by by vm_compute.
  destruct (demo_values demo_schema) as [|c1 [|c2 [|]]]; try discriminate E2. injection E2 as E2 E3.
  unfold name_row. cbn [fmap list_fmap fresh_rows num_rows]. rewrite E, E2, E3.
  split; (split; [|done]); apply fresh_entered; repeat constructor; by vm_compute.
Qed.

Lemma users_id_ok : name_ok ascii_decompose ascii_reencode users_id.
Proof. by apply ascii_name_ok. Qed.

(** The index "users_id" on table 1 gets the next oid, 2. *)
Lemma create_index_correct_witness : ∃ s s' wi,
  CreateIndex id demo_uninit demo_values users_id 1 1 demo_index s = Ret (Ok 2, s') ∧
  demo_tree_rows 1 (s_store s') PG_INDEX_INDEX_INDOID [([VSigned 4 2], wi)] ∧
  demo_tree_rows 1 (s_store s') PG_INDEX_INDEX_INDRELID [([VSigned 4 1], wi)].
Proof.
  destruct demo_entered_table as (e & txn & vn & v & vs & HN & HC & HA & HI & e2 & Hs2 & HM).
  destruct (demo_more_inv e2 e txn vn v vs Hs2 HM) as (Hf & HGn & HGt & w & ws & wi & e1 & txn1 & HV & Hne & HT).
  set (s := mkState (set_attribute_oid (set_class_oid (set_write_lock (DatabaseCatalog.make 1) (2 ^ 63)) 2) 3) e txn).
  assert (Hlen : length (demo_values (is_schema demo_index)) = 1%nat) by by vm_compute.
  assert (Hcols : Forall (λ col, name_ok ascii_decompose ascii_reencode (string_bytes (sc_name col))) (demo_values (is_schema demo_index))).
  { assert (H : forallb (λ col, ascii_name (string_bytes (sc_name col))) (demo_values (is_schema demo_index)) = true) by by vm_compute.
    rewrite forallb_forall in H. apply Forall_forall. intros col Hc%list_elem_of_In. by apply ascii_name_ok, H. }
  destruct (demo_index_fresh vs) as [F4 F5].
  destruct (class_chunk demo_queue (λ _ h, h) demo_file ascii_decompose ascii_reencode demo_values ∅ 1 demo_uninit
    demo_values_ok mem_ok_empty demo_uninit_ok) as (cc & Hcc & _).
  destruct (attribute_chunk_made demo_queue (λ _ h, h) demo_file ascii_decompose ascii_reencode demo_values ∅ 1 demo_uninit
    demo_values_ok mem_ok_empty demo_uninit_ok) as (ca & Hca & _).
  destruct (index_chunk_made demo_queue (λ _ h, h) demo_file ascii_decompose ascii_reencode demo_values ∅ 1
    demo_values_ok mem_ok_empty) as (ci & Hci & _).
  pose proof (HT cc ca ci (Hcc _) (Hca _) (Hci _)) as HT'.
  apply index_chunks_split in HT' as (tup & ea & txna & eb & txnb & tupi & HT1 & HT2 & HT3 & -> & ->).
  apply Forall_app in HV as [HV HVi]. apply Forall_cons in HVi as [HVi _].
  destruct (create_index_correct demo_queue (λ _ h, h) demo_file ascii_decompose ascii_reencode demo_values ∅ 1 id demo_uninit
    demo_values_ok mem_ok_empty demo_uninit_ok 47 users_id 1 1 demo_index s (2 ^ 63) txn [([VSigned 4 1], vn)] (λ _, true) (λ _, true)
    tup ea txna ws eb txnb tupi e1 txn1 (λ _, false) [([VSpan users], v)] [([VSigned 4 1], v)] [([VSigned 4 1], v)]
    (entered (name_row 1 <$> demo_values demo_schema) vs []) (entered (num_rows 1 (demo_values demo_schema)) vs []) [] [])
    as (e' & E & _ & _ & HE & _); [..|exists s, (mkState (set_attribute_oid (set_class_oid (set_write_lock (s_catalog s) (2 ^ 63)) 3) 4) e' txn1), (GetValue tupi)].
  - subst s. unfold TryLock. cbn [s_catalog s_txn write_lock_ set_write_lock set_class_oid set_attribute_oid]. by rewrite Hf.
  - exact HN.
  - lia.
  - apply Forall_singleton. intros _. exact HGn.
  - lia.
  - apply Forall_singleton. intros _. exact HGt.
  - intros cc' Ec. rewrite Hcc in Ec. injection Ec as <-. exact HT1.
  - intros ca' Ec. rewrite Hca in Ec. injection Ec as <-. exact HT2.
  - intros ci' Ec. rewrite Hci in Ec. injection Ec as <-. exact HT3.
  - exact HC.
  - eapply indexes_room; [|exact HA]. rewrite Hlen. lia.
  - eapply indexes_room; [|exact HI]. lia.
  - change (0 ≤ 2 < 2 ^ 31). lia.
  - change (0 ≤ 3). lia.
  - rewrite Hlen. change (3 + 1 < 2 ^ 32). lia.
  - exact users_id_ok.
  - exact Hcols.
  - exact HV.
  - exact HVi.
  - intros Hin%list_elem_of_singleton. by apply Hne.
  - intros Hin%list_elem_of_singleton. by apply Hne.
  - intros Hin%list_elem_of_singleton. by apply Hne.
  - apply fresh_answers, Forall_singleton. by vm_compute.
  - apply fresh_answers, Forall_singleton. by vm_compute.
  - exact F4.
  - exact F5.
  - constructor.
  - apply not_elem_of_nil.
  - split; [exact E|]. apply Forall_cons in HE as [[H1 _] HE]. apply Forall_cons in HE as [[H2 _] _]. split; [exact H1|exact H2].
Defined.
