(* ===== verification/DeleteTheorems.v ===== *)
(** * Deleting from the catalog

    [DeleteNamespace] and [DeleteDatabase] against the versions of the row: the
    row gets a deletion on top of its history, unless another transaction wrote
    it. *)

From stdpp Require Import strings.
From S2P Require Import Prelude Bytes Shared Memory CatalogCommon AccessTypes DataChunk Fsm.
From S2P Require Import KeyEncoder BTree Index IndexTheorems ChunkUtils Pax Arena HeapFacts UndoFacts Mvcc TableFacts TableTheorems.
From S2P Require Import Undo Redo Txn Table Builder BuilderTheorems CatalogChunks CatalogStore CatalogRows CatalogMonad DatabaseCatalog.
From S2P Require Import Catalog EngineFacts CatalogDemo CatalogTheorems DatabasesTheorems.
Import TransactionContext DatabaseCatalog.

Section Delete.
Context (try_dequeue : list Z → option (Z * list Z)) (file : PageIdentifier → mem).
Context (dec reenc : list Z → bool → Z + list Z) (values : Schema → list SchemaColumn) (fresh : mem).
Context (others : Z → Z) (uninit : VarlenEntry).
Hypothesis values_ok : ∀ s : Schema, values s ≡ₚ (map_to_list s).*2.
Hypothesis fresh_ok : mem_ok fresh.
Hypothesis uninit_ok : uninit_entry uninit.

Abbreviation some_row := (some_row dec reenc).
Abbreviation row_cmp := (KeyEncoder.row_cmp dec reenc).
Abbreviation store_of db := (engine_store try_dequeue no_others file dec reenc values fresh db).

(** ** The entry of a row *)
Section Entry.
Context (db : Z) (t ix : CatalogTableOid) (cols : list SchemaColumn).
Hypothesis ix_heap : Builder.index_table ix = Some t.

#[local] Hint Extern 0 (CatalogStore engine) => exact (store_of db) : typeclass_instances.

Abbreviation tree_rows := (tree_rows dec reenc db).
Abbreviation row_at e := (row_state (table_of t cols) (psizes_of cols) (Table.st_system (e_store e))).

(** The tuples [Get] finds, when every entry of the key is of one tuple. *)
Lemma index_get_tuple e key c rows tid :
  tree_rows e ix rows → chunk_holds dec reenc (AttrsFor ix) c key →
  Forall (λ x, row_cmp x.1 key = Eq → x.2 = GetValue tid) rows →
  ∃ tids, index_get ix e c = Ret tids ∧ Forall (λ x, x = tid) (map mkTupleId tids) ∧
    bool_decide (map mkTupleId tids = []) = negb (some_row (λ _, true) key rows).
Proof.
  intros (tr & Ht & Hrows) Hc HF.
  destruct (index_get_ok dec reenc _ _ True tr rows _ _ Hrows (catalog_attrs_ok _ _ ix_heap) Hc) as (tids & HG & _ & Hp).
  exists tids. split; [|split].
  - unfold index_get, engine_store. by rewrite Ht, bind_Ret.
  - apply Forall_forall. intros x Hx. apply list_elem_of_In, in_map_iff in Hx as (w & <- & Hw). apply list_elem_of_In in Hw. rewrite Hp in Hw.
    apply list_elem_of_fmap in Hw as ([r v] & -> & [Hr Hin]%list_elem_of_filter). rewrite Forall_forall in HF.
    rewrite (HF _ Hin Hr). by destruct tid.
  - apply eq_true_iff_eq. rewrite bool_decide_eq_true, negb_true_iff. split.
    + intros E. apply not_true_is_false. rewrite some_row_true, Exists_exists. intros (x & Hin & Hr & _).
      assert (Hx : x.2 ∈ tids) by (rewrite Hp; apply list_elem_of_fmap_2, list_elem_of_filter; done).
      destruct tids; [by apply not_elem_of_nil in Hx|done].
    + intros Hf. destruct tids as [|w tids]; [done|]. assert (Hw : w ∈ w :: tids) by left. rewrite Hp in Hw.
      apply list_elem_of_fmap in Hw as (x & _ & [Hr Hin]%list_elem_of_filter).
      apply some_row_false in Hf. rewrite Forall_forall in Hf. by specialize (Hf x Hin Hr).
Qed.

Lemma ready_idx e txn page pid idx m arr hist :
  row_ready try_dequeue t cols e txn page pid idx m arr hist → 0 ≤ idx < 2 ^ 32.
Proof.
  intros [Hcols Hrow _ _ _ _]. destruct (catalog_layout t cols Hcols) as (_ & _ & Hm).
  pose proof (rs_idx _ _ _ _ _ _ _ _ _ Hrow). lia.
Qed.

(** What deleting the row of a key does: the answer, the row's history, and the
    index as it was. *)
Definition deletes (txn : TransactionContext) (present : bool) (hist : list version) : bool :=
  present && negb (write_conflict (start_time_ txn) (finish_time_ txn) hist) && negb (head_deleted false hist).

Definition deletion (txn : TransactionContext) (page : Page) (idx r : Z) : version :=
  mkVersion r DELETE (finish_time_ txn) (row_of (table_of t cols) (psizes_of cols) (data_ page) idx).

Lemma delete_entry_ok {C} key c (s : state (C := C) (st := engine)) rows page pid idx m arr hist :
  let present := some_row (λ _, true) key rows in
  tree_rows (s_store s) ix rows → chunk_holds dec reenc (AttrsFor ix) c key →
  Forall (λ x, row_cmp x.1 key = Eq → x.2 = GetValue (TupleId_make idx pid)) rows →
  row_ready try_dequeue t cols (s_store s) (s_txn s) page pid idx m arr hist →
  ∃ r s' m' arr',
    delete_entry t ix c s = Ret (negb (present && write_conflict (start_time_ (s_txn s)) (finish_time_ (s_txn s)) hist), s') ∧
    row_at (s_store s') page pid idx m' arr' (if deletes (s_txn s) present hist then deletion (s_txn s) page idx r :: hist else hist) ∧
    tree_rows (s_store s') ix rows ∧ s_catalog s' = s_catalog s ∧ (deletes (s_txn s) present hist = false → s' = s).
Proof.
  intros present Hrows Hc HF Hready. set (tid := TupleId_make idx pid) in *. set (txn := s_txn s) in *.
  destruct (index_get_tuple (s_store s) key c rows tid Hrows Hc HF) as (tids & HG & Hall & Hnil). fold present in Hnil.
  pose proof (ready_idx _ _ _ _ _ _ _ _ Hready) as Hi. pose proof Hready as [_ Hrow Hpid Htxn _ _].
  pose proof (row_for_modify _ _ _ txn _ _ _ _ _ _ (map mkTupleId tids) Hrow ltac:(lia) Htxn Hall) as HM.
  rewrite Hnil in HM. unfold deletes. fold tid in HM.
  set (conflict := write_conflict (start_time_ txn) (finish_time_ txn) hist) in *. set (gone := head_deleted false hist) in *.
  unfold delete_entry. erewrite bind_run by (apply IndexGet_run; exact HG).
  erewrite bind_run by (apply TidForModify_run; exact HM).
  destruct (present && negb conflict && negb gone) eqn:Hdel.
  - pose proof Hdel as [[Hp Hcf%negb_true_iff]%andb_true_iff Hgn%negb_true_iff]%andb_true_iff.
    rewrite Hp, Hcf, Hgn. cbn [negb andb]. rewrite decide_False.
    2:{ intros E%(f_equal GetValue). subst tid. rewrite TupleId_make_value in E by lia.
        change (GetValue INVALID_TID) with 0 in E. lia. }
    destruct (table_delete_raw_ok try_dequeue file dec reenc values fresh db _ _ (s_store s) txn page pid idx m arr hist values_ok Hready)
      as (r & e' & txn' & m' & arr' & HD & Htr & Hid & _ & _ & Hrow').
    assert (Href : raw_refused txn hist = false).
    { unfold raw_refused. destruct hist as [|v hist]; [done|]. fold conflict. by rewrite Hcf. }
    rewrite Href in HD, Hrow'. exists r, (mkState (s_catalog s) e' txn'), m', arr'.
    split; [erewrite DeleteUndoRaw_run by exact HD; reflexivity|]. split; [exact Hrow'|]. split; [|split; [reflexivity|discriminate]].
    apply (tree_rows_same dec reenc db (s_store s)); [|exact Hrows]. unfold same_tree_of; cbn [s_store]; by rewrite Htr, Hid.
  - exists 0, s, m, arr. split; [|split; [exact Hrow|split; [exact Hrows|done]]].
    destruct present; [|cbn [negb]; rewrite decide_True by done; reflexivity].
    destruct conflict; [reflexivity|]. destruct gone; [|discriminate Hdel]. cbn [negb]. rewrite decide_True by done. reflexivity.
Qed.
End Entry.

(** ** Namespaces *)
Section Namespace.
Context (db : Z).

#[local] Hint Extern 0 (CatalogStore engine) => exact (store_of db) : typeclass_instances.

Abbreviation tree_rows := (EngineFacts.tree_rows dec reenc db).
Abbreviation namespace_columns := Builder.CreateNamespaceSchema_columns.
Abbreviation namespace_row e := (row_state (table_of PG_NAMESPACE namespace_columns) (psizes_of namespace_columns) (Table.st_system (e_store e))).

(** What [ExistsNamespace] says of the row of an oid. *)
Lemma exists_by_history oid (s : state (st := engine)) oids page pid idx m arr hist :
  tree_rows (s_store s) PG_INDEX_NAMESPACE_NSPOID oids → 0 ≤ oid < 2 ^ 31 → idx < 2 ^ 32 →
  Forall (λ x, row_cmp x.1 [VSigned 4 oid] = Eq → x.2 = GetValue (TupleId_make idx pid)) oids →
  namespace_row (s_store s) page pid idx m arr hist →
  ExistsNamespace oid s =
    Ret (if some_row (λ _, true) [VSigned 4 oid] oids && negb (head_deleted false hist) then Ok tt else Fail "Namespace does not exist", s).
Proof.
  intros Hrows Ho Hi HF Hrow.
  rewrite (ExistsNamespace_ok try_dequeue no_others file dec reenc values fresh db uninit values_ok fresh_ok uninit_ok oid s oids
    (λ _, negb (head_deleted false hist)) Hrows Ho).
  - assert (E : some_row (λ _, negb (head_deleted false hist)) [VSigned 4 oid] oids =
      some_row (λ _, true) [VSigned 4 oid] oids && negb (head_deleted false hist)); [|by rewrite E].
    unfold EngineFacts.some_row. clear. induction oids as [|x l IH]; [done|]. cbn [existsb]. rewrite IH.
    rewrite andb_true_r. by rewrite andb_orb_distrib_l.
  - eapply Forall_impl; [exact HF|]. intros x Hx Hr. rewrite (Hx Hr). exact (row_found _ _ _ _ _ _ _ _ _ Hrow Hi).
Qed.

(** C37: [DeleteNamespace], once it has the lock, deletes the row of the oid: it
    puts a deletion on top of the row's history, after which
    [ExistsNamespace] does not find the oid.  It fails and changes nothing when
    another transaction wrote the row and is running or committed after this one
    started; it succeeds and changes nothing when there is no entry of the oid or
    the row is deleted already.  The index keeps its entries. *)
Theorem delete_namespace_correct oid s w txn oids page pid idx m arr hist :
  let present := some_row (λ _, true) [VSigned 4 oid] oids in
  let del := deletes txn present hist in
  TryLock others (write_lock_ (s_catalog s)) (s_txn s) = (true, w, txn) →
  tree_rows (s_store s) PG_INDEX_NAMESPACE_NSPOID oids → 0 ≤ oid < 2 ^ 31 →
  Forall (λ x, row_cmp x.1 [VSigned 4 oid] = Eq → x.2 = GetValue (TupleId_make idx pid)) oids →
  row_ready try_dequeue PG_NAMESPACE namespace_columns (s_store s) txn page pid idx m arr hist →
  ∃ r s' m' arr',
    DeleteNamespace others uninit oid s = Ret (negb (present && write_conflict (start_time_ txn) (finish_time_ txn) hist), s') ∧
    namespace_row (s_store s') page pid idx m' arr'
      (if del then deletion PG_NAMESPACE namespace_columns txn page idx r :: hist else hist) ∧
    ExistsNamespace oid s' =
      Ret (if present && negb (del || head_deleted false hist) then Ok tt else Fail "Namespace does not exist", s') ∧
    tree_rows (s_store s') PG_INDEX_NAMESPACE_NSPOID oids ∧ s_catalog s' = set_write_lock (s_catalog s) w ∧
    (del = false → s_store s' = s_store s ∧ s_txn s' = txn).
Proof.
  intros present del HL Hrows Ho HF Hready. set (s1 := mkState (set_write_lock (s_catalog s) w) (s_store s) txn).
  destruct (namespace_chunk try_dequeue no_others file dec reenc values fresh db uninit values_ok fresh_ok uninit_ok (s_store s))
    as (c0 & Hc0 & Hc & _). destruct (Hc oid Ho) as [_ Hc1].
  destruct (delete_entry_ok db _ _ _ (proj2 namespace_heap) _ _ s1 oids page pid idx m arr hist Hrows Hc1 HF Hready)
    as (r & s' & m' & arr' & HD & Hrow' & Hrows' & Hcat & Hsame). change (s_txn s1) with txn in *. fold present del in HD, Hrow', Hsame.
  exists r, s', m', arr'. split; [|split; [exact Hrow'|split; [|split; [exact Hrows'|split; [exact Hcat|]]]]].
  - unfold DeleteNamespace. rewrite (bind_run _ _ s true s1) by (unfold TryLockM; by rewrite HL). cbv iota.
    unfold DeleteNamespaceEntry. erewrite bind_run by (apply NewChunk_run; exact Hc0). exact HD.
  - pose proof (ready_idx _ _ _ _ _ _ _ _ _ _ Hready) as Hi.
    rewrite (exists_by_history oid s' oids page pid idx m' arr' _ Hrows' Ho ltac:(lia) HF Hrow'). fold present. by destruct del.
  - intros Hd. by rewrite (Hsame Hd).
Qed.
End Namespace.

(** ** Databases *)

#[local] Hint Extern 0 (CatalogStore engine) => exact (store_of 0) : typeclass_instances.

(** C38: [DeleteDatabase] deletes the row of the oid as [DeleteNamespace] does
    and takes the database out of the map; a row written by another transaction,
    or an oid that is not in the map, ends the program at an assertion. *)
Theorem delete_database_correct oid s oids page pid idx m arr hist :
  let txn := s_txn s in
  let present := some_row (λ _, true) [VSigned 4 oid] oids in
  let del := deletes txn present hist in
  tree_rows dec reenc 0 (s_store s) PG_INDEX_DATABASE_DATOID oids → 0 ≤ oid < 2 ^ 31 →
  Forall (λ x, row_cmp x.1 [VSigned 4 oid] = Eq → x.2 = GetValue (TupleId_make idx pid)) oids →
  row_ready try_dequeue PG_DATABASES Builder.CreateDatabaseSchema_columns (s_store s) txn page pid idx m arr hist →
  if present && write_conflict (start_time_ txn) (finish_time_ txn) hist
  then Catalog.DeleteDatabase fresh uninit oid s = AssertFail "Failed to delete entry"
  else match Catalog.databases_map_ (s_catalog s) !! oid with
    | None => Catalog.DeleteDatabase fresh uninit oid s = AssertFail "Mapping not found"
    | Some _ => ∃ r s' m' arr', Catalog.DeleteDatabase fresh uninit oid s = Ret (true, s') ∧
        Catalog.databases_map_ (s_catalog s') = delete oid (Catalog.databases_map_ (s_catalog s)) ∧
        Catalog.next_db_oid_ (s_catalog s') = Catalog.next_db_oid_ (s_catalog s) ∧
        row_state (table_of PG_DATABASES Builder.CreateDatabaseSchema_columns) (psizes_of Builder.CreateDatabaseSchema_columns)
          (Table.st_system (e_store (s_store s'))) page pid idx m' arr'
          (if del then deletion PG_DATABASES Builder.CreateDatabaseSchema_columns txn page idx r :: hist else hist) ∧
        tree_rows dec reenc 0 (s_store s') PG_INDEX_DATABASE_DATOID oids
    end.
Proof.
  intros txn present del Hrows Ho HF Hready.
  destruct (database_chunk_ok dec reenc fresh uninit oid [] fresh_ok uninit_ok Ho) as (c & Ec & _ & C2); [cbn; lia|constructor|].
  destruct (delete_entry_ok 0 _ _ _ (proj2 database_heap) _ c s oids page pid idx m arr hist Hrows C2 HF Hready)
    as (r & s' & m' & arr' & HD & Hrow' & Hrows' & Hcat & Hsame). fold txn present in HD, Hrow', Hsame. fold del in Hrow', Hsame.
  assert (HE : Catalog.DeleteDatabaseEntry fresh uninit oid s = Ret (negb (present && write_conflict (start_time_ txn) (finish_time_ txn) hist), s')).
  { unfold database_chunk in Ec. apply bind_inv in Ec as (layout & El & Ec). unfold Catalog.DeleteDatabaseEntry.
    erewrite bind_run by (apply compute_run; by rewrite El, bind_Ret). erewrite bind_run by (apply compute_run; exact Ec). exact HD. }
  unfold Catalog.DeleteDatabase. rewrite (bind_run _ _ _ _ _ HE). destruct (present && _); cbn [negb]; [reflexivity|].
  rewrite <- Hcat. unfold bind, Catalog.RemoveMapping. destruct (Catalog.databases_map_ (s_catalog s') !! oid) as [d|]; [|reflexivity].
  rewrite bind_Ret. eexists r, _, m', arr'. split; [reflexivity|]. split; [reflexivity|]. split; [reflexivity|]. split; [exact Hrow'|exact Hrows'].
Qed.
End Delete.

(** ** A small database *)

(** The first row of a page that has no versions. *)
Lemma demo_row_ready t cols e sys txn m :
  Builder.schema_columns t = Some cols → Table.st_system (e_store e) = sys → s_versions sys = ∅ →
  heap_ok (s_heap sys) (hm_arenas m) (hm_arrays m) (hm_recs m) → txn_ok txn (hm_arenas m) → h_brk (s_heap sys) < 2 ^ 62 →
  segment_ready demo_queue (s_heap sys) (s_pool sys) (hm_arenas m) 40 → 0 < max_rows (psizes_of cols) →
  row_ready demo_queue t cols e txn demo_page 1 0 m 0 [].
Proof.
  intros Ht ES Hvs Hok Htxn Hb Hseg Hm. destruct (catalog_layout t cols Ht) as (L1 & L2 & _).
  split; [exact Ht| |lia|exact Htxn|by rewrite ES|by rewrite ES].
  split; [exact L1|exact L2|lia|lia|by rewrite ES|apply mem_ok_empty| |reflexivity].
  rewrite ES. split; [by rewrite Hvs|by left|by left].
Qed.

Lemma delete_namespace_correct_witness :
  ∃ s s' : state (st := engine), DeleteNamespace (H := demo_store 1) id demo_uninit 1 s = Ret (true, s') ∧
  ExistsNamespace (H := demo_store 1) 1 s' = Ret (Fail "Namespace does not exist", s').
Proof.
  destruct demo_start as (sys & txn & m & Hok & Hvs & Htxn & Hb & _ & Hf & Hseg). destruct (demo_namespaces sys) as (e0 & He & [_ N2 _ N4]).
  destruct (namespace_chunk demo_queue (λ _ h, h) demo_file ascii_decompose ascii_reencode demo_values ∅ 1 demo_uninit
    demo_values_ok mem_ok_empty demo_uninit_ok e0) as (c1 & _ & Hk & _).
  destruct (index_fresh_step demo_queue (λ _ h, h) demo_file ascii_decompose ascii_reencode demo_values ∅ 1 49
    e0 txn _ _ _ [VSigned 4 1] (GetValue (TupleId_make 0 1)) [] (proj2 namespace_heap) N2 N4 (proj1 (Hk 1 ltac:(lia)))
    ltac:(by vm_compute)) as (e & _ & Hs & Hrows & _); [constructor|].
  assert (ES : Table.st_system (e_store e) = sys) by (rewrite Hs, He; reflexivity).
  pose proof (demo_row_ready PG_NAMESPACE _ e sys txn m eq_refl ES Hvs Hok Htxn Hb (Hseg _) ltac:(by vm_compute)) as Hready.
  set (s := mkState (set_write_lock (DatabaseCatalog.make 1) (2 ^ 63)) e txn).
  destruct (delete_namespace_correct demo_queue demo_file ascii_decompose ascii_reencode demo_values ∅ id demo_uninit
    demo_values_ok mem_ok_empty demo_uninit_ok 1 1 s (2 ^ 63) txn [([VSigned 4 1], GetValue (TupleId_make 0 1))] demo_page 1 0 m 0 [])
    as (r & s' & m' & arr' & HD & _ & HE & _).
  - subst s. unfold TryLock, FinishTime. cbn [s_catalog s_txn write_lock_ set_write_lock]. by rewrite Hf.
  - exact Hrows.
  - lia.
  - apply Forall_singleton. reflexivity.
  - exact Hready.
  - exists s, s'. split; [exact HD|exact HE].
Defined.

(** Database 1 is dropped, and no database is left. *)
Lemma delete_database_correct_witness : ∃ s s' : state (st := engine),
  Catalog.DeleteDatabase (H := demo_store 0) ∅ demo_uninit 1 s = Ret (true, s') ∧
  Catalog.databases_map_ (s_catalog s) = {[1 := Some (DatabaseCatalog.make 1)]} ∧ Catalog.databases_map_ (s_catalog s') = ∅.
Proof.
  destruct demo_start as (sys & txn & m & Hok & Hvs & Htxn & Hb & _ & Hf & Hseg). destruct (demo_catalog sys) as (e0 & _ & He & [_ N2 _ N4] & _).
  destruct (database_chunk_ok ascii_decompose ascii_reencode ∅ demo_uninit 1 [] mem_ok_empty demo_uninit_ok) as (c1 & _ & _ & Hk);
    [lia|cbn; lia|constructor|].
  destruct (index_fresh_step demo_queue (λ _ h, h) demo_file ascii_decompose ascii_reencode demo_values ∅ 0 49
    e0 txn _ _ _ [VSigned 4 1] (GetValue (TupleId_make 0 1)) [] (proj2 database_heap) N2 N4 Hk
    ltac:(by vm_compute)) as (e & _ & Hs & Hrows & _); [constructor|].
  assert (ES : Table.st_system (e_store e) = sys) by (rewrite Hs, He; reflexivity).
  pose proof (demo_row_ready PG_DATABASES _ e sys txn m eq_refl ES Hvs Hok Htxn Hb (Hseg _) ltac:(by vm_compute)) as Hready.
  set (s := mkState (Catalog.mkCatalog {[1 := Some (DatabaseCatalog.make 1)]} 2) e txn).
  pose proof (delete_database_correct demo_queue demo_file ascii_decompose ascii_reencode demo_values ∅ demo_uninit
    demo_values_ok mem_ok_empty demo_uninit_ok 1 s [([VSigned 4 1], GetValue (TupleId_make 0 1))] demo_page 1 0 m 0 [] Hrows ltac:(lia)
    ltac:(apply Forall_singleton; reflexivity) Hready) as H.
  rewrite andb_false_r in H. change (Catalog.databases_map_ (s_catalog s) !! 1) with (Some (Some (DatabaseCatalog.make 1))) in H.
  destruct H as (r & s' & m' & arr' & HD & HM & _). exists s, s'. split; [exact HD|]. split; [reflexivity|exact HM].
Defined.
