(* ===== verification/SessionTheorems.v ===== *)
(** * A session of the catalog, from the rows to the answers

    A namespace that a transaction creates is found by it: the row is stored in
    the table of namespaces, its tuple is entered in both indexes, and the
    lookup through the index reaches the row's newest version. *)

From stdpp Require Import strings.
From S2P Require Import Prelude Bytes Shared Memory CatalogCommon AccessTypes DataChunk Fsm.
From S2P Require Import KeyEncoder BTree Index IndexTheorems ChunkUtils Pax Arena HeapFacts UndoFacts TableFacts.
From S2P Require Import Undo Redo Txn Table TableTheorems Builder CatalogChunks CatalogStore CatalogRows CatalogMonad.
From S2P Require Import DatabaseCatalog EngineFacts CatalogDemo CatalogTheorems.
Import TransactionContext DatabaseCatalog.

Section Session.
Context (try_dequeue : list Z → option (Z * list Z)) (steps : nat → heap → heap) (file : PageIdentifier → mem).
Context (dec reenc : list Z → bool → Z + list Z) (values : Schema → list SchemaColumn) (fresh : mem).
Context (db : Z) (others : Z → Z) (uninit : VarlenEntry).
(** The iteration order of the hash map, and uninitialised memory. *)
Hypothesis values_ok : ∀ s : Schema, values s ≡ₚ (map_to_list s).*2.
Hypothesis fresh_ok : mem_ok fresh.
Hypothesis uninit_ok : uninit_entry uninit.

#[local] Hint Extern 0 (CatalogStore engine) =>
  exact (engine_store try_dequeue steps file dec reenc values fresh db) : typeclass_instances.

Abbreviation name_ok := (name_ok dec reenc).
Abbreviation fresh_row := (fresh_row dec reenc).
Abbreviation namespaces n e names oids :=
  (two_trees dec reenc db n e PG_INDEX_NAMESPACE_NSPNAME PG_INDEX_NAMESPACE_NSPOID names oids).

(** C30: in an engine whose table of namespaces has room for a row and whose
    indexes of namespaces have room for an entry (pages in their files and in
    their nodes of level 1, so that no freed separator is read), [CreateNamespace] of a new name returns the oid, and [ExistsNamespace]
    then finds it; both indexes hold the tuple of the row. *)
Theorem namespace_session n name s w txn page m arr names oids :
  let oid := next_namespace_oid_ (s_catalog s) in
  TryLock others (write_lock_ (s_catalog s)) (s_txn s) = (true, w, txn) →
  (∀ c0, create_chunk PG_NAMESPACE (s_store s) = Ret c0 →
    row_room try_dequeue PG_NAMESPACE Builder.CreateNamespaceSchema_columns (s_store s) txn
      (DataChunkBuilder.BuildNamespaceChunk uninit c0 oid name) page m arr) →
  namespaces (S n) (s_store s) names oids → 0 ≤ oid < 2 ^ 31 → name_ok name →
  fresh_row [VSpan name] names → fresh_row [VSigned 4 oid] oids →
  ∃ s1 v, CreateNamespace others uninit name s = Ret (Ok oid, s1) ∧
    ExistsNamespace oid s1 = Ret (Ok tt, s1) ∧
    namespaces n (s_store s1) (([VSpan name], v) :: names) (([VSigned 4 oid], v) :: oids) ∧
    finish_time_ (s_txn s1) = finish_time_ txn.
Proof.
  intros oid HL HR [N1 N2 M1 M2] Ho Hname F1 F2.
  destruct (namespace_chunk try_dequeue steps file dec reenc values fresh db uninit values_ok fresh_ok uninit_ok (s_store s))
    as (c0 & Hc0 & _ & Hc). specialize (HR c0 Hc0).
  destruct (Hc oid name Ho Hname) as (C1 & C2 & Hm & ids & sizes & offs & total & Hat).
  set (c := DataChunkBuilder.BuildNamespaceChunk uninit c0 oid name) in *.
  destruct (table_insert_stored values values_ok try_dequeue steps file dec reenc fresh db PG_NAMESPACE
    Builder.CreateNamespaceSchema_columns (s_store s) txn c page m arr ids sizes offs total eq_refl Hat Hm HR)
    as (e1 & txn1 & HT & Hv & HG & _ & Hf).
  set (tup := TupleId_make _ _) in *. set (v := GetValue tup) in *.
  assert (HS : ∀ ix, same_tree_of db (s_store s) e1 ix) by (intros; eapply table_insert_trees, HT).
  destruct (index_fresh_step try_dequeue steps file dec reenc values fresh db n e1 txn1 PG_INDEX_NAMESPACE_NSPNAME PG_NAMESPACE c
    [VSpan name] v names (proj1 namespace_heap)) as (e2 & U2 & S2 & R2 & K2 & O2); try done.
  { by apply (tree_rows_same _ _ _ (s_store s)). }
  { by apply (same_tree_room db (s_store s)). }
  assert (HS2 : same_tree_of db e1 e2 PG_INDEX_NAMESPACE_NSPOID) by (apply O2; by vm_compute).
  destruct (index_fresh_step try_dequeue steps file dec reenc values fresh db n e2 txn1 PG_INDEX_NAMESPACE_NSPOID PG_NAMESPACE c
    [VSigned 4 oid] v oids (proj2 namespace_heap)) as (e3 & U3 & S3 & R3 & K3 & O3); try done.
  { apply (tree_rows_same _ _ _ e1); [done|]. by apply (tree_rows_same _ _ _ (s_store s)). }
  { apply (same_tree_room db e1); [done|]. by apply (same_tree_room db (s_store s)). }
  assert (HS3 : same_tree_of db e2 e3 PG_INDEX_NAMESPACE_NSPNAME) by (apply O3; by vm_compute).
  set (cat := set_namespace_oid (set_write_lock (s_catalog s) w) (to_u32 (oid + 1))).
  exists (mkState cat e3 txn1), v. split_and!; [| | |exact Hf].
  - unfold CreateNamespace. rewrite (bind_run _ _ s true (mkState (set_write_lock (s_catalog s) w) (s_store s) txn));
      [|by unfold TryLockM; rewrite HL].
    cbn [require]. rewrite (bind_run _ _ _ oid (mkState cat (s_store s) txn)) by done.
    unfold CreateNamespaceEntry. erewrite bind_run by (apply NewChunk_run; exact Hc0). cbv zeta. fold c.
    erewrite bind_run by (apply TableInsert_run; exact HT). erewrite bind_run by (apply InsertUnique_run; exact U2). cbn [require].
    erewrite bind_run by (apply InsertUnique_run; exact U3). reflexivity.
  - rewrite (ExistsNamespace_ok try_dequeue steps file dec reenc values fresh db uninit values_ok fresh_ok uninit_ok oid (mkState cat e3 txn1)
      (([VSigned 4 oid], v) :: oids) (λ _, true) R3 Ho).
    + assert (E : some_row dec reenc (λ _, true) [VSigned 4 oid] (([VSigned 4 oid], v) :: oids) = true); [|by rewrite E].
      apply some_row_true, Exists_cons. left. split; [|done]. cbn. by rewrite Z.compare_refl.
    + apply Forall_cons. split.
      * intros _. cbn [s_store]. rewrite S3, S2. cbn [snd]. subst v. destruct tup as [x]. exact HG.
      * eapply Forall_impl; [exact F2|]. by intros x Hx ?.
  - split; [|exact R3| |exact K3]; [by apply (tree_rows_same _ _ _ e2)|by apply (same_tree_room db e2)].
Qed.
End Session.

(** ** A session on a small database *)

#[local] Hint Extern 0 (CatalogStore engine) => exact (demo_store 1) : typeclass_instances.

Lemma demo_row_size : match create_chunk PG_NAMESPACE (demo_engine demo_system) with
  | Ret c0 => Chunk.GetSize (DataChunkBuilder.BuildNamespaceChunk demo_uninit c0 1 public) <=? 8188
  | _ => false end = true.
Proof. by vm_compute. Qed.

Lemma namespace_session_witness : ∃ s s1 : state (st := engine), CreateNamespace id demo_uninit public s = Ret (Ok 1, s1) ∧
  ExistsNamespace 1 s1 = Ret (Ok tt, s1).
Proof.
  destruct demo_start as (sys & txn & m & Hok & Hvs & Htxn & Hb & _ & Hf & Hseg).
  destruct (demo_namespaces sys) as (e0 & He & HN).
  set (e := set_store e0 (Table.mkStore sys {[mkPageIdentifier (CatalogTableOid_val PG_NAMESPACE) 1 := demo_page]} FreeSpaceManager.init)).
  set (s := mkState (set_write_lock (DatabaseCatalog.make 1) (2 ^ 63)) e txn).
  assert (HN' : demo_trees 1 50 e PG_INDEX_NAMESPACE_NSPNAME PG_INDEX_NAMESPACE_NSPOID [] []).
  { apply (two_trees_same _ _ 1 50 e0 e); [by split|by split|exact HN]. }
  assert (HR : ∀ c0, create_chunk PG_NAMESPACE e = Ret c0 →
    row_room demo_queue PG_NAMESPACE Builder.CreateNamespaceSchema_columns e txn
      (DataChunkBuilder.BuildNamespaceChunk demo_uninit c0 1 public) demo_page m 0).
  { intros c0 Hc0. pose proof demo_row_size as H.
    change (create_chunk PG_NAMESPACE (demo_engine demo_system)) with (create_chunk PG_NAMESPACE e) in H. rewrite Hc0 in H.
    set (c := DataChunkBuilder.BuildNamespaceChunk _ _ _ _) in *.
    assert (Hp : next_row_page e c = 1).
    { unfold next_row_page, FreeSpaceManagerVarlen.Get, FreeSpaceManager.Get. cbn [e Table.st_fsm e_store set_store FreeSpaceManager.init].
      change (FreeSpaceManager.free_space FreeSpaceManager.init) with 8188. apply Z.leb_le in H. by rewrite (proj2 (Z.ltb_ge 8188 _)) by lia. }
    split; rewrite ?Hp; [apply lookup_singleton_eq|by vm_compute|by vm_compute|exact Hok|apply mem_ok_empty| |exact Htxn|exact Hb|apply Hseg].
    split; [change (0 = PageVersionManager.Get (s_versions sys) (mkPageIdentifier (CatalogTableOid_val PG_NAMESPACE) 1)); by rewrite Hvs|by left|by left]. }
  destruct (namespace_session demo_queue (λ _ h, h) demo_file ascii_decompose ascii_reencode demo_values ∅ 1 id demo_uninit
    demo_values_ok mem_ok_empty demo_uninit_ok 49 public s (2 ^ 63) txn demo_page m 0 [] []) as (s1 & v & H1 & H2 & _).
  - subst s. unfold TryLock. cbn [s_catalog s_txn write_lock_ set_write_lock]. unfold FinishTime. by rewrite Hf.
  - exact HR.
  - exact HN'.
  - change (0 ≤ 1 < 2 ^ 31). lia.
  - exact public_ok.
  - constructor.
  - constructor.
  - exists s, s1. split; [exact H1|exact H2].
Defined.
