(* ===== verification/Print.v ===== *)
(** * What the program prints (DataChunk::Print, Table::Select and PrintPage,
    PaxLayout::PrintDebug, debug/printer.cpp)

    The output of a function is the string it writes.  Integers and doubles are
    written as the streams of the standard library write them by default;
    [print_double] rounds the exact value of the bits to six digits. *)

From stdpp Require Import strings.
From Stdlib Require Import Ascii DecimalString.
From S2P Require Import Prelude Bytes Shared Memory AccessTypes DataChunk Fsm Pax ChunkUtils.
From S2P Require Import Arena Undo Redo Txn Table BufferPool.
Import TransactionContext.

(** ** Streams *)

Definition endl : string := String "010" EmptyString.
Definition quote : string := String "034" EmptyString.

(** [write(data, n)] of bytes. *)
Definition write_chars (l : list Z) : string := String.string_of_list_ascii ((λ b, ascii_of_N (Z.to_N b)) <$> l).

(** [<<] on an integer. *)
Definition print_int (z : Z) : string := NilZero.string_of_int (Z.to_int z).

Definition spaces (n : nat) : string := String.string_of_list_ascii (replicate n " "%char).

(** [setw(n)] (right) and [setw(n) << left]; [%-nu] is the latter. *)
Definition pad_left (n : nat) (s : string) : string := spaces (n - String.length s) +:+ s.
Definition pad_right (n : nat) (s : string) : string := s +:+ spaces (n - String.length s).

(** [<<] on a double, by its bits: the default format, [%g] with six digits. *)
Definition round_half_even (n d : Z) : Z :=
  let q := n / d in
  match 2 * (n mod d) ?= d with
  | Lt => q
  | Gt => q + 1
  | Eq => if Z.even q then q else q + 1
  end.

Definition scale10 (n d k : Z) : Z * Z := if 0 <=? k then (n * 10 ^ k, d) else (n, d * 10 ^ (- k)).

(** The largest [x] with [10 ^ x <= n / d], from below. *)
Fixpoint decimal_exponent (fuel : nat) (n d x : Z) : Z :=
  match fuel with
  | O => x
  | S fuel =>
      let '(a, b) := scale10 n d (- (x + 1)) in
      if b <=? a then decimal_exponent fuel n d (x + 1) else x
  end.

Fixpoint strip_zeros (l : list ascii) : list ascii :=
  match l with
  | "0"%char :: l => strip_zeros l
  | _ => l
  end.

(** Digits after the point, without trailing zeros, and the point. *)
Definition fraction (digits : list ascii) : string :=
  match reverse (strip_zeros (reverse digits)) with
  | [] => EmptyString
  | l => String "." (String.string_of_list_ascii l)
  end.

Definition print_ratio (n d : Z) : string :=
  let x := decimal_exponent 4 n d ((Z.log2 n - Z.log2 d - 1) * 30103 / 100000 - 1) in
  let '(a, b) := scale10 n d (5 - x) in
  let q := round_half_even a b in
  let '(q, x) := if q =? 10 ^ 6 then (10 ^ 5, x + 1) else (q, x) in
  let digits := String.list_ascii_of_string (print_int q) in
  if (x <? -4) || (6 <=? x) then
    String.string_of_list_ascii (take 1 digits) +:+ fraction (drop 1 digits) +:+
    (if x <? 0 then "e-" else "e+") +:+
    (if Z.abs x <? 10 then "0" else "") +:+ print_int (Z.abs x)
  else if x <? 0 then "0" +:+ fraction (replicate (Z.to_nat (- x - 1)) "0"%char ++ digits)
  else
    let n := Z.to_nat (x + 1) in
    String.string_of_list_ascii (take n digits) +:+ fraction (drop n digits).

Definition print_double (bits : Z) : string :=
  let sign := if Z.testbit bits 63 then "-" else "" in
  let exponent := Z.shiftr bits 52 mod 2 ^ 11 in
  let mantissa := bits mod 2 ^ 52 in
  sign +:+
  (if exponent =? 2047 then if mantissa =? 0 then "inf" else "nan"
   else
     let m := if exponent =? 0 then mantissa else mantissa + 2 ^ 52 in
     let e := Z.max exponent 1 - 1075 in
     if m =? 0 then "0"
     else if 0 <=? e then print_ratio (m * 2 ^ e) 1 else print_ratio m (2 ^ (- e))).

(** ** DataChunk::Print *)

(** A conditional between [i64] and [u64] is a [u64]. *)
Definition i64_or_u64 (c : bool) (i u : Z) : Z := if c then to_u64 i else u.

Definition VarlenEntry_at (m : mem) (ptr : Z) : VarlenEntry := mkVarlenEntry (load 4 m ptr) (read_bytes m (ptr + 4) 12).

(** [GetInline] with [GetSize]. *)
Definition inline_chars (e : VarlenEntry) : list Z := take (Z.to_nat (ve_size e)) (ve_inline e).

Definition print_value (t : type_id) (c : DataChunk) (ptr : Z) : string :=
  if bool_decide (t = VARCHAR) || bool_decide (t = VARBINARY) then
    let e := VarlenEntry_at c ptr in
    if IsInline e then write_chars (inline_chars e)
    else "vlen(pid=" +:+ print_int (GetRef e).1 +:+ ",off=" +:+ print_int (GetRef e).2 +:+ ")"
  else
    match SizeOf t with
    | 1 => print_int (i64_or_u64 (bool_decide (t = TINYINT)) (to_signed 8 (load 1 c ptr)) (load 1 c ptr))
    | 2 => print_int (i64_or_u64 (bool_decide (t = SMALLINT)) (to_signed 16 (load 2 c ptr)) (load 2 c ptr))
    | 4 => print_int (i64_or_u64 (bool_decide (t = INTEGER)) (to_signed 32 (load 4 c ptr)) (load 4 c ptr))
    | 8 =>
        if bool_decide (t = DOUBLE) then print_double (load 8 c ptr)
        else if bool_decide (t = BIGINT) then print_int (to_signed 64 (load 8 c ptr))
        else print_int (load 8 c ptr)
    | _ => EmptyString
    end.

Fixpoint print_columns (schema : Schema) (c : DataChunk) (ids : list Z) (idx : Z) : outcome string :=
  match ids with
  | [] => Ret EmptyString
  | id :: ids =>
      col ← GetColumn schema id;
      rest ← print_columns schema c ids (to_u32 (idx + 1));
      Ret (sc_name col +:+ " | " +:+ print_value (sc_type col) c (Chunk.Access c idx) +:+ " | " +:+ rest)
  end.

Definition Chunk_Print (schema : Schema) (c : DataChunk) : outcome string :=
  print_columns schema c (Chunk.GetColumnIds c) 0.

(** ** PaxLayout::PrintDebug *)
Module PaxPrint.
Import PaxLayout.

Definition isprint (b : Z) : bool := (32 <=? b) && (b <? 127).

Definition hex_digit (d : Z) : ascii := ascii_of_N (Z.to_N (if d <? 10 then 48 + d else 87 + d)).
(** [hex << setw(2) << setfill('0')]. *)
Definition hex_byte (b : Z) : string := String (hex_digit (b / 16)) (String (hex_digit (b mod 16)) EmptyString).

Definition print_cell (data : mem) (ptr sz : Z) : string :=
  match sz with
  | 1 => print_int (to_signed 8 (load 1 data ptr))
  | 2 => print_int (to_signed 16 (load 2 data ptr))
  | 4 => print_int (load 4 data ptr)
  | 8 => print_int (load 8 data ptr)
  | 16 =>
      let e := VarlenEntry_at data ptr in
      "vlen(sz=" +:+ print_int (ve_size e) +:+
      (if IsInline e then
         "," +:+ quote +:+ write_chars ((λ b, if isprint b then b else 46) <$> inline_chars e) +:+ quote
       else ",pid=" +:+ print_int (GetRef e).1 +:+ ",off=" +:+ print_int (GetRef e).2) +:+ ")"
  | _ => String.concat "" (hex_byte <$> read_bytes data ptr (Z.to_nat sz))
  end.

Fixpoint print_cells (l : PaxLayout) (data : mem) (sizes : list Z) (col i : Z) : outcome string :=
  match sizes with
  | [] => Ret EmptyString
  | sz :: sizes =>
      ptr ← Get l (to_u16 col) i;
      _ ← in_bounds ptr sz DB7_PAGE_SIZE "read past the page";
      rest ← print_cells l data sizes (col + 1) i;
      Ret (print_cell data ptr sz +:+ " | " +:+ rest)
  end.

Fixpoint print_rows (l : PaxLayout) (data : mem) (rows : list Z) : outcome string :=
  match rows with
  | [] => Ret EmptyString
  | i :: rows =>
      cells ← print_cells l data (sizes_ l) 0 i;
      rest ← print_rows l data rows;
      Ret ("row " +:+ pad_left 2 (print_int i) +:+ (if IsDeleted data i then " [DEL]" else "      ") +:+
           (if header_count data <=? i then " [past count]" else "") +:+ " | " +:+ cells +:+ endl +:+ rest)
  end.

(** [sizes_[0] << sizes_[1]] is undefined on a layout of fewer columns. *)
Definition PrintDebug (l : PaxLayout) (data : mem) : outcome string :=
  match sizes_ l with
  | s0 :: s1 :: _ =>
      let rows := Z.min (to_u32 (header_count data + 2)) (max_row_count_ l) in
      out ← print_rows l data (seqZ 0 rows);
      Ret (print_int s0 +:+ print_int s1 +:+ endl +:+
           "=== PaxLayout dump (count=" +:+ print_int (header_count data) +:+ ", max=" +:+ print_int (max_row_count_ l) +:+
           ") ===" +:+ endl +:+ out +:+ "===" +:+ endl)
  | _ => Undefined "sizes_ out of range"
  end.
End PaxPrint.

(** ** Table::Select and Table::PrintPage *)
Module TablePrint.
Import Table.

Definition row_tag (res : RowStatus) : string :=
  match res with
  | Visible => EmptyString
  | Deleted => " [DELETED]"
  | NotVisible => " [NOT VISIBLE]"
  end.

Section Pages.
Context (file : PageIdentifier → mem) (t : Table).

(** [Select] with the row it prints; it returns [true] on every status. *)
Definition Select (st : Table.store) (txn : TransactionContext) (idx pid : Z) (chunk : DataChunk)
  : outcome (bool * string * DataChunk * Table.store) :=
  '(res, chunk, st) ← Table.Select file t st txn idx pid chunk;
  row ← Chunk_Print (schema_ t) chunk;
  Ret (true, row +:+ row_tag res +:+ endl, chunk, st).

(** The column loop of [PrintPage]: by the size of the type only. *)
Definition print_cell (st : Table.store) (data : mem) (val_ptr type_size : Z) : outcome string :=
  match type_size with
  | 1 => Ret (print_int (to_signed 8 (load 1 data val_ptr)))
  | 2 => Ret (print_int (to_signed 16 (load 2 data val_ptr)))
  | 4 => Ret (print_int (to_signed 32 (load 4 data val_ptr)))
  | 8 => Ret (print_int (to_signed 64 (load 8 data val_ptr)))
  | _ =>
      let entry := VarlenEntry_at data val_ptr in
      if IsInline entry then Ret (write_chars (inline_chars entry))
      else
        insert_page ← Pin file st (mkPageIdentifier (varlen_oid_ t) (GetRef entry).1);
        _ ← in_bounds (GetRef entry).2 (ve_size entry) DB7_PAGE_SIZE "read past the page";
        Ret (write_chars (read_bytes (data_ insert_page) (GetRef entry).2 (Z.to_nat (ve_size entry))))
  end.

Fixpoint print_cells (st : Table.store) (data : mem) (cols : list SchemaColumn) (col_idx i : Z) : outcome string :=
  match cols with
  | [] => Ret EmptyString
  | column :: cols =>
      val_ptr ← PaxLayout.Get (layout_ t) (to_u16 col_idx) i;
      _ ← in_bounds val_ptr (sc_type_size column) DB7_PAGE_SIZE "read past the page";
      value ← print_cell st data val_ptr (sc_type_size column);
      rest ← print_cells st data cols (to_u32 (col_idx + 1)) i;
      Ret (sc_name column +:+ "=" +:+ value +:+ pad_right 12 "" +:+ "| " +:+ rest)
  end.

Fixpoint print_rows (values : Schema → list SchemaColumn) (st : Table.store) (data : mem) (rows : list Z) : outcome string :=
  match rows with
  | [] => Ret EmptyString
  | i :: rows =>
      let deleted := Z.testbit (rd data (HEADER_SIZE + i / 8)) (i mod 8) in
      cells ← print_cells st data (values (schema_ t)) 0 i;
      rest ← print_rows values st data rows;
      Ret ("  Row " +:+ pad_left 3 (print_int i) +:+ (if deleted then "  [DELETED]  " else "             ") +:+ "| " +:+
           cells +:+ endl +:+ rest)
  end.

(** [values]: the columns in the order of the [unordered_map]; [id]: the page's
    identifier. *)
Definition PrintPage (values : Schema → list SchemaColumn) (st : Table.store) (id : PageIdentifier) (data : mem) : outcome string :=
  rows ← print_rows values st data (seqZ 0 (PaxLayout.header_count data));
  Ret ("=== Page Contents ===" +:+ endl +:+
       "  Row count : " +:+ print_int (PaxLayout.header_count data) +:+ endl +:+
       "  Table id  : " +:+ print_int (tbl_id id) +:+ endl +:+
       "  Page id   : " +:+ print_int (pid id) +:+ endl +:+ endl +:+
       rows +:+ "=====================" +:+ endl).
End Pages.
End TablePrint.

(** ** debug/printer.cpp

    The printers of B-tree pages have empty bodies. *)
Module Printer.

Definition Print_PageIdentifier (id : PageIdentifier) : string :=
  "PageId{tbl=" +:+ print_int (tbl_id id) +:+ ", page=" +:+ print_int (pid id) +:+ "}" +:+ endl.

Definition Print_Page (page : Frame.Page) : string :=
  "Page{table_id=" +:+ pad_right 4 (print_int (tbl_id (Frame.id_ page))) +:+
  "  page_id=" +:+ pad_right 6 (print_int (pid (Frame.id_ page))) +:+
  "  ref=" +:+ pad_right 3 (print_int (Frame.PinCount page)) +:+
  "  io_in_progress=" +:+ (if Frame.IsIOInProgress page then "true" else "false") +:+ "}" +:+ endl.

Definition Print_BufferPool (pool : BufferPool.BufferPool) : string :=
  "===========================================================" +:+ endl +:+
  pad_right 10 "table_id" +:+ " " +:+ pad_right 8 "page_id" +:+ " " +:+ pad_right 5 "ref" +:+ " " +:+ "io_in_progress" +:+ endl +:+
  "-----------------------------------------------------------" +:+ endl +:+
  String.concat "" ((λ i, Print_Page (BufferPool.page_at pool i)) <$> seqZ 0 BUFFER_POOL_PAGE_NUM) +:+
  "===========================================================" +:+ endl.
End Printer.
