(* ===== verification/PrintTheorems.v ===== *)
(** * Theorems on what is printed

    The text of a value and of a row, [Table::Select] against the row the
    reader sees, and what the streams make of integers. *)

From stdpp Require Import strings.
From Stdlib Require Import Ascii DecimalString DecimalZ.
From S2P Require Import Prelude Bytes Shared Memory AccessTypes DataChunk Fsm Pax ChunkUtils.
From S2P Require Import Arena Undo Redo Txn Table HeapFacts UndoFacts Mvcc TableFacts TableTheorems Print.
Import TransactionContext.

(** ** Integers *)

(** Signed and unsigned integer types. *)
Definition signed_type (t : type_id) : bool := match t with TINYINT | SMALLINT | INTEGER | BIGINT => true | _ => false end.
Definition integer_type (t : type_id) : bool := match t with DOUBLE | VARCHAR | VARBINARY => false | _ => true end.

Definition in_type (t : type_id) (v : Z) : Prop :=
  if signed_type t then - 2 ^ (8 * SizeOf t - 1) ≤ v < 2 ^ (8 * SizeOf t - 1) else 0 ≤ v < 2 ^ (8 * SizeOf t).

(** ** The text of a row *)

Definition entry_text (e : VarlenEntry) : string :=
  if IsInline e then write_chars (inline_chars e)
  else "vlen(pid=" +:+ print_int (GetRef e).1 +:+ ",off=" +:+ print_int (GetRef e).2 +:+ ")".

(** A value by its bytes. *)
Definition value_text (t : type_id) (bytes : list Z) : string :=
  match t with
  | VARCHAR | VARBINARY => entry_text (mkVarlenEntry (le_val (take 4 bytes)) (drop 4 bytes))
  | DOUBLE => print_double (le_val bytes)
  | BIGINT => print_int (to_signed 64 (le_val bytes))
  | TINYINT => print_int (to_u64 (to_signed 8 (le_val bytes)))
  | SMALLINT => print_int (to_u64 (to_signed 16 (le_val bytes)))
  | INTEGER => print_int (to_u64 (to_signed 32 (le_val bytes)))
  | _ => print_int (le_val bytes)
  end.

Definition column_text (s : Schema) (row : rowval) (id : Z) : string :=
  match s !! id with
  | Some col => sc_name col +:+ " | " +:+ value_text (sc_type col) (row id) +:+ " | "
  | None => EmptyString
  end.

Definition row_text (s : Schema) (ids : list Z) (row : rowval) : string :=
  foldr (λ id text, column_text s row id +:+ text) EmptyString ids.

(** The columns have the sizes of their types. *)
Definition typed (s : Schema) : Prop := ∀ id col, s !! id = Some col → sc_type_size col = SizeOf (sc_type col).

Lemma print_value_text t c ptr : print_value t c ptr = value_text t (read_bytes c ptr (Z.to_nat (SizeOf t))).
Proof.
  destruct t; try done; cbn [print_value bool_decide_eq_true orb]; unfold print_value, value_text, entry_text;
    cbn [SizeOf]; change (read_bytes c ptr (Z.to_nat 16)) with (read_bytes c ptr (4 + 12)); rewrite read_bytes_app;
    rewrite take_app_length', drop_app_length' by (by rewrite length_read_bytes); done.
Qed.

Lemma print_columns_text s c ids sizes offs total row :
  chunk_at s c ids sizes offs total → typed s → vals c offs sizes = row <$> ids →
  ∀ l (k : nat), drop k ids = l → print_columns s c l (Z.of_nat k) = Ret (row_text s l row).
Proof.
  intros Hc Ht Hv l. induction l as [|id l IH]; intros k Hk; cbn [print_columns row_text foldr]; [done|].
  assert (Hi : ids !! k = Some id) by (rewrite <- (take_drop k ids), Hk, lookup_app_r; rewrite length_take; [|lia];
    replace (k - Nat.min k (length ids))%nat with 0%nat; [done|apply (f_equal length) in Hk; rewrite length_drop in Hk; cbn in Hk; lia]).
  pose proof (ca_len _ _ _ _ _ _ Hc) as Hlen. pose proof (lookup_lt_Some _ _ _ Hi) as Hlt.
  destruct (chunk_at_field _ _ _ _ _ _ k id Hc Hi) as (col & o & Hcol & Hsz & Ho & Ha).
  unfold GetColumn. rewrite Hcol, bind_Ret, Ha.
  rewrite (wrap_small 32) by lia. replace (Z.of_nat k + 1) with (Z.of_nat (S k)) by lia.
  rewrite IH, bind_Ret by (rewrite <- Nat.add_1_r, <- drop_drop, Hk; done).
  f_equal. unfold column_text. rewrite Hcol. rewrite !string_app_assoc, print_value_text.
  assert (E : read_bytes c o (Z.to_nat (SizeOf (sc_type col))) = row id).
  { rewrite <- (Ht id col Hcol). apply (f_equal (λ l, l !! k)) in Hv. rewrite (vals_lookup _ _ _ _ _ _ Ho Hsz) in Hv.
    rewrite list_lookup_fmap, Hi in Hv. by injection Hv. }
  by rewrite E.
Qed.

(** The printed chunk is the text of its row. *)
Lemma Chunk_Print_ok s c ids sizes offs total row :
  chunk_at s c ids sizes offs total → typed s → vals c offs sizes = row <$> ids →
  Chunk_Print s c = Ret (row_text s ids row).
Proof.
  intros Hc Ht Hv. unfold Chunk_Print. rewrite (co_ids _ _ _ _ _ (ca_ok _ _ _ _ _ _ Hc)).
  exact (print_columns_text s c ids sizes offs total row Hc Ht Hv ids 0%nat eq_refl).
Qed.

(** A chunk always prints: as the values it holds. *)
Lemma Chunk_Print_any s c ids sizes offs total :
  chunk_at s c ids sizes offs total → typed s → ∃ out, Chunk_Print s c = Ret out.
Proof.
  intros Hc Ht.
  set (row := λ id, default [] (p ← list_find (λ x, x = id) ids; vals c offs sizes !! p.1)).
  exists (row_text s ids row). eapply Chunk_Print_ok; [exact Hc|exact Ht|].
  apply list_eq. intros i. rewrite list_lookup_fmap.
  pose proof (co_placed _ _ _ _ _ (ca_ok _ _ _ _ _ _ Hc)) as Hp. pose proof (placed_length _ _ _ _ Hp) as Hl.
  pose proof (co_length _ _ _ _ _ (ca_ok _ _ _ _ _ _ Hc)) as Hl2.
  assert (Hvl : length (vals c offs sizes) = length ids) by (rewrite vals_length; lia).
  destruct (ids !! i) as [id|] eqn:Hi.
  - unfold row. cbn [fmap option_fmap option_map]. assert (list_find (λ x, x = id) ids = Some (i, id)) as ->.
    { apply list_find_Some. split_and!; [done|done|]. intros j y Hj Hlt ->.
      pose proof (NoDup_lookup _ _ _ _ (ca_nodup _ _ _ _ _ _ Hc) Hj Hi). lia. }
    cbn. destruct (vals c offs sizes !! i) as [v|] eqn:Hv; [done|].
    apply lookup_ge_None in Hv. apply lookup_lt_Some in Hi. lia.
  - apply lookup_ge_None in Hi. cbn. apply lookup_ge_None. lia.
Qed.

(** What [>>] reads back. *)
Definition read_int (s : string) : option Z := Z.of_int <$> NilZero.int_of_string s.

Lemma read_print_int z : read_int (print_int z) = Some z.
Proof.
  unfold read_int, print_int. destruct (Z.eq_dec z 0) as [->|Hz]; [done|].
  assert (H0 : ∀ d, Z.of_int d = 0 → Z.to_int z ≠ d) by (intros d Hd E; apply Hz; rewrite <- (of_to z), E; exact Hd).
  rewrite NilZero.isi by (apply H0; done). cbn. by rewrite of_to.
Qed.

Lemma to_signed_small w v : 0 < w → - 2 ^ (w - 1) ≤ v < 2 ^ (w - 1) → to_signed w (v mod 2 ^ w) = v.
Proof.
  intros Hw Hv. assert (E : 2 ^ w = 2 * 2 ^ (w - 1)) by (rewrite <- Z.pow_succ_r by lia; f_equal; lia).
  unfold to_signed. rewrite E. set (p := 2 ^ (w - 1)) in *.
  destruct (Z.lt_ge_cases v 0).
  - rewrite <- (Z.mod_unique v (2 * p) (-1) (v + 2 * p)) by lia. rewrite (wrap_small w) by (rewrite E; fold p; lia).
    fold p. destruct (Z.ltb_spec (v + 2 * p) p); lia.
  - rewrite (Z.mod_small v) by lia. rewrite (wrap_small w) by (rewrite E; fold p; lia). fold p.
    destruct (Z.ltb_spec v p); lia.
Qed.

(** The text of an integer reads back as the value, but a negative TINYINT,
    SMALLINT or INTEGER reads back as the value and 2^64: the conditional of
    [Print] makes an [i64] of it and then a [u64].  A BIGINT is not converted. *)
Theorem print_value_integer t c ptr v :
  integer_type t = true → in_type t v →
  read_int (print_value t (store (Z.to_nat (SizeOf t)) c ptr v) ptr)
    = Some (if bool_decide (t = BIGINT) then v else v mod 2 ^ 64).
Proof.
  intros Hi Hv. rewrite print_value_text. unfold store.
  rewrite <- (length_le_bytes (Z.to_nat (SizeOf t)) v) at 2. rewrite read_write_same. unfold in_type in Hv.
  destruct t; try discriminate Hi; cbn [signed_type SizeOf] in Hv;
    cbn [value_text SizeOf]; rewrite read_print_int, le_val_le_bytes; f_equal;
    unfold to_u64, wrap; change (256 ^ Z.of_nat (Z.to_nat ?n)) with (2 ^ (8 * n)).
  1, 6-8: rewrite !Z.mod_small; [reflexivity|cbn in *; lia..].
  4: by apply (to_signed_small 64).
  1: exact (f_equal (λ x, x mod 2 ^ 64) (to_signed_small 8 v eq_refl Hv)).
  1: exact (f_equal (λ x, x mod 2 ^ 64) (to_signed_small 16 v eq_refl Hv)).
  1: exact (f_equal (λ x, x mod 2 ^ 64) (to_signed_small 32 v eq_refl Hv)).
Qed.

Lemma print_value_integer_witness :
  integer_type INTEGER = true ∧ in_type INTEGER (-1) ∧
  read_int (print_value INTEGER (store 4 ∅ 0 (-1)) 0) = Some (2 ^ 64 - 1).
Proof. split_and!; [done|cbn; lia|]. apply (print_value_integer INTEGER ∅ 0 (-1)); cbn; [done|lia]. Defined.

(** ** Table::Select *)

(** C39: [Table::Select] prints the row its transaction reads - its own last
    write, or the row of its snapshot - with the tag of a row marked deleted,
    and returns true; a row inserted after the snapshot is printed too, as not
    visible. *)
Theorem select_prints file t psizes st txn page pid idx m arr hist c ids sizes offs total :
  let id := mkPageIdentifier (Table.oid_ t) pid in
  Table.st_pages st !! id = Some page → pid ≠ 0 → pid ≠ UINT32_MAX →
  row_state t psizes (Table.st_system st) page pid idx m arr hist →
  chunk_at (Table.schema_ t) c ids sizes offs total → typed (Table.schema_ t) →
  let del := head_deleted (PaxLayout.IsDeleted (data_ page) idx) hist in
  ∃ res text c' st', TablePrint.Select file t st txn idx pid c = Ret (true, text +:+ TablePrint.row_tag res +:+ endl, c', st') ∧
    chunk_at (Table.schema_ t) c' ids sizes offs total ∧
    match read_row txn (row_of t psizes (data_ page) idx) hist with
    | Some row => res = (if del then Deleted else Visible) ∧ text = row_text (Table.schema_ t) ids row
    | None => res = NotVisible
    end.
Proof.
  intros id Hpage Hp0 HpM [L1 L2 L3 L4 L5 L6 L7 L8] Hc Ht del.
  destruct (SelectIntoChunk_ok t psizes L1 ltac:(lia) L2 (Table.st_system st) txn _ _ _ page pid idx arr c ids sizes offs total hist
    L5 L7 L3 Hc L8) as (res & c' & sys' & page' & HS & _ & Hc' & Hres).
  assert (HT : Table.Select file t st txn idx pid c = Ret (res, c', Table.set_state st sys' id page')).
  { unfold Table.Select, Table.Pin. fold id. change (Shared.pid id) with pid.
    rewrite (proj2 (Z.eqb_neq pid 0)), (proj2 (Z.eqb_neq pid UINT32_MAX)) by done. cbn [negb DB7_ASSERT].
    rewrite !bind_Ret, Hpage. change (default _ (Some page)) with page. by rewrite HS. }
  unfold TablePrint.Select. rewrite HT, bind_Ret. destruct (Chunk_Print_any _ _ _ _ _ _ Hc' Ht) as (out & HP).
  rewrite HP, bind_Ret. exists res, out, c', (Table.set_state st sys' id page'). split_and!; [done|done|].
  destruct (read_row _ _ _) as [row|]; [|exact Hres]. destruct Hres as [-> Hv]. split; [done|].
  rewrite (Chunk_Print_ok _ _ _ _ _ _ row Hc' Ht Hv) in HP. congruence.
Qed.

Lemma typed_check s : bool_decide (map_Forall (λ _ col, sc_type_size col = SizeOf (sc_type col)) s) = true → typed s.
Proof. intros H%bool_decide_eq_true id col Hl. exact (H id col Hl). Qed.

(** A reader that began after the writer still prints the row before it. *)
Lemma select_prints_witness : ∃ sys page c' st',
  TablePrint.Select (λ _, ∅) demo_table (Table.mkStore sys {[mkPageIdentifier 7 1 := page]} FreeSpaceManager.init)
    (demo_txn 1 (1 + 2 ^ 63)) 0 1 (demo_chunk 9) = Ret (true, "id | 0 | name |  | " +:+ endl, c', st').
Proof.
  destruct demo_updated as (sys & page & m & arr & r & Hrow & _). destruct (demo_chunk_at 9) as (offs & total & Hc & _).
  set (st := Table.mkStore sys {[mkPageIdentifier 7 1 := page]} FreeSpaceManager.init).
  destruct (select_prints (λ _, ∅) demo_table demo_sizes st (demo_txn 1 (1 + 2 ^ 63)) page 1 0 m arr _ (demo_chunk 9) [1; 2] demo_sizes
    offs total (lookup_singleton_eq _ _) ltac:(done) ltac:(done) Hrow Hc ltac:(apply typed_check; by vm_compute))
    as (res & text & c' & st' & HS & _ & Hres).
  exists sys, page, c', st'. unfold st in HS. rewrite HS. cbn [read_row v_ts v_type read_at] in Hres.
  destruct Hres as [-> ->]. reflexivity.
Defined.

(** ** Table::PrintPage *)

(** A page of one row, whose id is 5. *)
Definition printed_page : mem :=
  match ChunkUtils.InsertBulk demo_schema (PaxLayout.make demo_sizes) (demo_chunk 5) ∅ 1 with
  | Ret (data, _) => data
  | _ => ∅
  end.

Definition printed_rows (values : Schema → list SchemaColumn) : outcome string :=
  TablePrint.print_rows (λ _, ∅) demo_table values (Table.mkStore demo_system ∅ FreeSpaceManager.init) printed_page [0].

(** The columns come in the order of the hash map and the cells by position:
    in another order of the columns the id prints as 0. *)
Theorem print_page_order :
  printed_rows (λ s, reverse (map_to_list s).*2) = Ret ("  Row   0             | id=5            | name=            | " +:+ endl) ∧
  ∃ name, printed_rows (λ s, (map_to_list s).*2) = Ret ("  Row   0             | name=" +:+ name +:+ "            | id=0            | " +:+ endl) ∧
    String.length name = 5%nat.
Proof.
  split; [by vm_compute|]. exists (write_chars (replicate 5 0)). split; by vm_compute.
Qed.

(** A double prints with six digits, the last one rounded. *)
Example print_double_examples :
  print_double 0x400921FB54442D18 = "3.14159" ∧ print_double 0x4202A05F20000000 = "1e+10" ∧
  print_double 0x3F1A36E2EB1C432D = "0.0001" ∧ print_double 0x412E847FFFFFFFFF = "1e+06" ∧
  print_double 1 = "4.94066e-324" ∧ print_double (2 ^ 63) = "-0".
Proof. by vm_compute. Qed.
