(* ===== verification/Display.v ===== *)
(** * What the catalogs print (Display and DatabaseCatalog::Select in
    database_catalog.cpp, Catalog::Select in catalog.cpp)

    The catalogs print the first rows of page 1 of their tables, whatever the
    row count of the page is. *)

From stdpp Require Import strings.
From S2P Require Import Prelude Bytes Shared Memory CatalogCommon AccessTypes DataChunk Txn Table CatalogStore Catalog Print.
Import TransactionContext.

Section Display.
Context (file : PageIdentifier → mem) (values : Schema → list SchemaColumn) (fresh : mem).

(** One chunk for the [n] rows of the loop. *)
Fixpoint display_rows (tbl : Table.Table) (txn : TransactionContext) (pid : Z) (rows : list Z) (chunk : DataChunk)
    (st : Table.store) : outcome (string * Table.store) :=
  match rows with
  | [] => Ret (EmptyString, st)
  | i :: rows =>
      '(_, row, chunk, st) ← TablePrint.Select file tbl st txn i pid chunk;
      '(rest, st) ← display_rows tbl txn pid rows chunk st;
      Ret (row +:+ rest, st)
  end.

Definition Display (t : CatalogTableOid) (n : Z) (txn : TransactionContext) (e : engine) : outcome (string * engine) :=
  let pid := 1 in
  schema ← catalog_schema t;
  layout ← DataChunkLayout_of_schema values schema;
  tbl ← catalog_table values t;
  '(out, st) ← display_rows tbl txn pid (seqZ 0 n) (CreateDataChunk layout fresh) (e_store e);
  Ret (out +:+ endl, set_store e st).

Definition DatabaseCatalog_Select (type : Z) (txn : TransactionContext) (e : engine) : outcome (string * engine) :=
  let show title t n := '(out, e) ← Display t n txn e; Ret (title +:+ endl +:+ out, e) in
  match type with
  | 0 => show "Namespace: " PG_NAMESPACE 4
  | 1 => show "Classes: " PG_CLASS 4
  | 2 => show "Attributes: " PG_ATTRIBUTE 20
  | 3 => show "Indexes: " PG_INDEX 4
  | 4 => show "Constraint: " PG_CONSTRAINT 4
  | _ => Ret (EmptyString, e)
  end%string.

Definition Catalog_Select (txn : TransactionContext) (e : engine) : outcome (string * engine) :=
  layout ← Catalog.data_chunk_layout_;
  tbl ← catalog_table values PG_DATABASES;
  '(out, st) ← display_rows tbl txn 1 [0; 1; 2; 3] (CreateDataChunk layout fresh) (e_store e);
  Ret ("Select: " +:+ endl +:+ out +:+ endl, set_store e st).
End Display.
