(* ===== verification/Main.v ===== *)
(** * The program (main.cpp)

    [main] on an empty data directory: two transactions, a database, and in it
    a namespace, a table, an index and a constraint, the five system tables
    printed, and the two commits, with the assertion after each step.  The
    buffer pool and the disk below are the pages of [Table.v]: every page of a
    new file reads as zeros. *)

From stdpp Require Import strings.
From Stdlib Require Import Ascii.
From S2P Require Import Prelude Bytes Shared Memory CatalogCommon AccessTypes DataChunk Fsm.
From S2P Require Import KeyEncoder BTree Index ChunkUtils Pax Arena.
From S2P Require Import Undo Redo Txn Table Builder CatalogChunks CatalogStore CatalogMonad.
From S2P Require Import DatabaseCatalog Catalog Print Display.
Import TransactionContext.

(** [prep_keys]: the name in key [i], the text of a UTF-8 "k" and U+239E and
    the number in five digits. *)
Definition zero_pad (n : nat) (s : string) : string :=
  String.string_of_list_ascii (replicate (n - String.length s) "0"%char) +:+ s.

Definition key_bytes (i : Z) : list Z := [107; 226; 142; 158] ++ string_bytes (zero_pad 5 (print_int i)).

(** The chunk of key [i]: the layout of one VARCHAR column, the entry at its
    place; [fresh] and [uninit] as in [Catalog]. *)
Definition prep_key (fresh : mem) (uninit : VarlenEntry) (i : Z) : outcome DataChunk :=
  layout ← DataChunkLayout_make [1] [SizeOf VARCHAR];
  let chunk := CreateDataChunk layout fresh in
  Ret (write_bytes chunk (Chunk.Access chunk 0) (VarlenEntry_bytes (VarlenEntry_Set uninit (key_bytes i)))).

Definition prep_keys (fresh : mem) (uninit : VarlenEntry) (n : Z) : outcome (list DataChunk) :=
  mapM (prep_key fresh uninit) (seqZ 0 n).

Definition default_threads (hardware_concurrency : Z) : Z :=
  if hardware_concurrency =? 0 then 4 else hardware_concurrency.

Section Main.
Context (try_dequeue : list Z → option (Z * list Z)) (others : nat → heap → heap) (lock_others : Z → Z).
Context (file : PageIdentifier → mem) (utf8proc_decompose utf8proc_reencode : list Z → bool → Z + list Z).
Context (values : Schema → list SchemaColumn) (fresh : mem) (uninit : VarlenEntry).

#[local] Instance store_of (db : Z) : CatalogStore engine :=
  engine_store try_dequeue others file utf8proc_decompose utf8proc_reencode values fresh db.

(** An operation on the catalog of a database, whose object stays in the map. *)
Definition on_database {A} (oid : Z) (f : M (C := DatabaseCatalog.DatabaseCatalog) (st := engine) A)
    : M (C := Catalog.Catalog) (st := engine) A := λ s,
  '(d, s) ← Catalog.GetDatabaseCatalog oid s;
  match d with
  | None => Undefined "null database catalog"
  | Some d =>
      '(a, s') ← f (mkState d (s_store s) (s_txn s));
      let c := Catalog.set_databases_map (s_catalog s) (<[oid := Some (s_catalog s')]> (Catalog.databases_map_ (s_catalog s))) in
      Ret (a, mkState c (s_store s') (s_txn s'))
  end.

(** [res.value] after [DB7_ASSERT(res.success, message)]. *)
Definition asserted {C A} (m : M (C := C) (st := engine) (ResultObj A)) (message : string) : M (C := C) (st := engine) A := λ s,
  '(r, s) ← m s;
  match r with
  | Ok a => Ret (a, s)
  | Fail _ => AssertFail message
  end.

(** Printing reads the pages only. *)
Definition print_table (type : Z) : M (C := Catalog.Catalog) (st := engine) string := λ s,
  '(out, e) ← DatabaseCatalog_Select file values fresh type (s_txn s) (s_store s);
  Ret (out, mkState (s_catalog s) e (s_txn s)).

(** The body of [main] between the begins and the commits. *)
Definition session : M (C := Catalog.Catalog) (st := engine) string :=
  db_oid <- asserted (Catalog.CreateDatabase (H := store_of 0) (H0 := CreateDatabaseCatalog values) fresh uninit
    (string_bytes "ssss") true) "Failed database";;
  let db {A} (f : M A) := on_database db_oid f in
  ns <- db (asserted (DatabaseCatalog.CreateNamespace (H := store_of db_oid) lock_others uninit
    (string_bytes "Jovo")) "Failed namespace");;
  table_oid <- db (asserted (DatabaseCatalog.CreateTable (H := store_of db_oid) lock_others uninit values
    (string_bytes "Jovo2") ns Builder.CreateTypeSchema) "Failed table");;
  let idx_schema := IndexSchema_make [SchemaColumn_make 7000 INTEGER "typlen"] false false false false in
  index_oid <- db (asserted (DatabaseCatalog.CreateIndex (H := store_of db_oid) lock_others uninit values
    (string_bytes "ssss33") table_oid ns idx_schema) "Failed index");;
  let props := mkConstraintProps (string_bytes "ssss44") ns PRIMARY_KEY false false false table_oid index_oid table_oid in
  _ <- db (asserted (DatabaseCatalog.CreateConstraint (H := store_of db_oid) lock_others uninit props) "Failed namespace");;
  out0 <- print_table 0;;
  out1 <- print_table 1;;
  out2 <- print_table 2;;
  out3 <- print_table 3;;
  out4 <- print_table 4;;
  ret (out0 +:+ out1 +:+ out2 +:+ out3 +:+ out4).

(** [ObjectPool(10'000, 2000)]; nothing is allocated, and the memory the blocks
    will come from holds whatever it holds. *)
Definition start (memory : mem) : engine :=
  mkEngine (Table.mkStore (mkSystem (mkHeap memory 16 ∅) (ObjectPool.make 10000 2000) ∅) ∅ FreeSpaceManager.init) ∅ ∅.

Definition engine_system (e : engine) : system := Table.st_system (e_store e).
Definition set_system (e : engine) (s : system) : engine :=
  set_store e (Table.mkStore s (Table.st_pages (e_store e)) (Table.st_fsm (e_store e))).

(** What it prints, the two commit times, and the state it leaves; [memory] is
    what the heap holds when the program starts. *)
Definition main (memory : mem) : outcome (string * Z * Z * state (C := Catalog.Catalog) (st := engine)) :=
  e ← CreateCatalog values (start memory);
  let m := TransactionManager.mkTransactionManager TimestampManager.INITIAL_TXN_TIMESTAMP 0 in
  '(context, m, s) ← TransactionManager.BeginTransaction try_dequeue m (engine_system e);
  '(context1, m, s) ← TransactionManager.BeginTransaction try_dequeue m s;
  '(out, st) ← session (mkState Catalog.make (set_system e s) context);
  '(time, m, s) ← TransactionManager.Commit m (engine_system (s_store st)) (s_txn st);
  '(time1, m, s) ← TransactionManager.Commit m s context1;
  Ret ("Hello, world!" +:+ endl +:+ out, time, time1, mkState (s_catalog st) (set_system (s_store st) s) (s_txn st)).
End Main.
