(* ===== verification/MainTheorems.v ===== *)
(** * Theorems on the program

    The whole run of [main] over the table engine, what it prints and what it
    leaves to later transactions. *)

From stdpp Require Import strings.
From S2P Require Import Prelude Bytes Shared Memory CatalogCommon AccessTypes DataChunk Fsm.
From S2P Require Import KeyEncoder IndexTheorems Arena Undo Redo Txn Table TableFacts TableTheorems CatalogStore CatalogMonad.
From S2P Require Import DatabaseCatalog Catalog CatalogDemo Print Display Main.
Import TransactionContext.

Fixpoint repeat_text (n : nat) (s : string) : string :=
  match n with O => EmptyString | S n => s +:+ repeat_text n s end.

Definition line (s : string) : string := s +:+ endl.

(** A table of the catalog as it is printed: the rows of the page, then the
    slots of the page no row was ever stored in. *)
Definition table_text (title : string) (rows : list string) (free : nat) (empty_row : string) : string :=
  line title +:+ String.concat "" (line <$> rows) +:+ repeat_text free (line empty_row) +:+ endl.

Definition namespace_text (tag : string) : string :=
  table_text "Namespace: " ["nspoid | 1 | nspname | Jovo | " +:+ tag] 3 "nspoid | 0 | nspname |  | ".

Definition class_text : string :=
  table_text "Classes: "
    ["relnamespace | 1 | reloptions | Jovo2 | reloid | 1 | relname | Jovo2 | relkind | 114 | ";
     "relnamespace | 1 | reloptions | ssss33 | reloid | 2 | relname | ssss33 | relkind | 105 | "] 2
    "relnamespace | 0 | reloptions |  | reloid | 0 | relname |  | relkind | 0 | ".

Definition attribute_text : string :=
  table_text "Attributes: "
    ["attnotnull | 0 | attrelid | 1 | atttypid | 1 | attlen | 1 | attnum | 1 | attname | typtype | ";
     "attnotnull | 0 | attrelid | 1 | atttypid | 10 | attlen | 16 | attnum | 2 | attname | typname | ";
     "attnotnull | 0 | attrelid | 1 | atttypid | 2 | attlen | 2 | attnum | 3 | attname | typlen | ";
     "attnotnull | 0 | attrelid | 1 | atttypid | 0 | attlen | 1 | attnum | 4 | attname | typbyval | ";
     "attnotnull | 0 | attrelid | 1 | atttypid | 3 | attlen | 4 | attnum | 5 | attname | typoid | ";
     "attnotnull | 0 | attrelid | 1 | atttypid | 3 | attlen | 4 | attnum | 6 | attname | typnamespace | ";
     "attnotnull | 0 | attrelid | 2 | atttypid | 3 | attlen | 4 | attnum | 7 | attname | typlen | "] 13
    "attnotnull | 0 | attrelid | 0 | atttypid | 0 | attlen | 0 | attnum | 0 | attname |  | ".

Definition index_text : string :=
  table_text "Indexes: "
    ["indisready | 1 | indisprimary | 0 | indimmediate | 0 | ind_type | 0 | indrelid | 1 | indisvalid | 1 | indisunique | 0 | indisexclusion | 0 | indislive | 1 | indoid | 2 | "] 3
    "indisready | 0 | indisprimary | 0 | indimmediate | 0 | ind_type | 0 | indrelid | 0 | indisvalid | 0 | indisunique | 0 | indisexclusion | 0 | indislive | 0 | indoid | 0 | ".

Definition constraint_text : string :=
  table_text "Constraint: "
    ["conrelid | 1 | contype | 112 | condeffered | 0 | confrelid | 1 | conname | ssss44 | convalidated | 0 | connamespace | 1 | condeferrabl | 0 | conindid | 2 | conoid | 1 | "] 3
    "conrelid | 0 | contype | 0 | condeffered | 0 | confrelid | 0 | conname |  | convalidated | 0 | connamespace | 0 | condeferrabl | 0 | conindid | 0 | conoid | 0 | ".

Definition main_text : string :=
  line "Hello, world!" +:+ namespace_text "" +:+ class_text +:+ attribute_text +:+ index_text +:+ constraint_text.

(** With an ASCII normalisation, one order of the columns and no other thread,
    over a memory. *)
Definition main_run (memory : mem) : outcome (string * Z * Z * state (C := Catalog.Catalog) (st := engine)) :=
  main demo_queue no_others id demo_file ascii_decompose ascii_reencode demo_values ∅ demo_uninit memory.

(** What a transaction that began at a time prints of the namespaces. *)
Definition namespaces_at (start : Z) (e : engine) : outcome string :=
  '(out, _) ← DatabaseCatalog_Select demo_file demo_values ∅ 0 (TableTheorems.demo_txn start (start + 2 ^ 63)) e; Ret out.

Definition final_map : gmap Z (option DatabaseCatalog.DatabaseCatalog) :=
  {[1 := Some (DatabaseCatalog.mkDatabaseCatalog 1 2 3 8 2 (2 ^ 63))]}.

Definition main_checked (run : outcome (string * Z * Z * state (C := Catalog.Catalog) (st := engine))) : bool :=
  match run with
  | Ret (text, time, time1, st) =>
      bool_decide (text = main_text) && (time =? 2) && (time1 =? 3) &&
      bool_decide (Catalog.databases_map_ (s_catalog st) = final_map) && (Catalog.next_db_oid_ (s_catalog st) =? 2) &&
      match namespaces_at 1 (s_store st), namespaces_at 4 (s_store st) with
      | Ret a, Ret b => bool_decide (a = namespace_text " [NOT VISIBLE]") && bool_decide (b = namespace_text "")
      | _, _ => false
      end
  | _ => false
  end.

Lemma main_checked_ok run : main_checked run = true → ∃ st,
  run = Ret (main_text, 2, 3, st) ∧
  Catalog.databases_map_ (s_catalog st) = final_map ∧ Catalog.next_db_oid_ (s_catalog st) = 2 ∧
  namespaces_at 1 (s_store st) = Ret (namespace_text " [NOT VISIBLE]") ∧
  namespaces_at 4 (s_store st) = Ret (namespace_text "").
Proof.
  unfold main_checked. generalize main_text, (namespaces_at 1), (namespaces_at 4), (namespace_text " [NOT VISIBLE]"), (namespace_text "").
  intros text0 n1 n4 old new. destruct run as [[[[text time] time1] st]| | | |]; try discriminate.
  destruct (n1 (s_store st)) as [a| | | |] eqn:E1; try (rewrite andb_false_r; discriminate).
  destruct (n4 (s_store st)) as [b| | | |] eqn:E4; try (rewrite andb_false_r; discriminate).
  rewrite !andb_true_iff, !bool_decide_eq_true, !Z.eqb_eq. intros (((((-> & ->) & ->) & Hm) & Hn) & -> & ->).
  exists st. split_and!; [reflexivity|exact Hm|exact Hn|exact E1|exact E4].
Qed.

Lemma main_checked_true : main_checked (main_run ∅) = true.
Proof. vm_cast_no_check (eq_refl true). Qed.

(** One run of [main]: on an empty data directory, with the column order of
    [demo_values], an ASCII normalisation, no other thread at work on the versions
    or the lock, and a heap whose memory is cleared, it runs to its end with every
    assertion true.  It prints the namespace, the table and the index, their
    columns, the index and the constraint it made, commits at 2 and 3, and leaves
    the counters of the database one past the oids given out.  Afterwards a
    transaction begun before the commits does not see the namespace, and one
    begun after them does. *)
Theorem main_completes : ∃ st,
  main_run ∅ = Ret (main_text, 2, 3, st) ∧
  Catalog.databases_map_ (s_catalog st) = final_map ∧
  Catalog.next_db_oid_ (s_catalog st) = 2 ∧
  namespaces_at 1 (s_store st) = Ret (namespace_text " [NOT VISIBLE]") ∧
  namespaces_at 4 (s_store st) = Ret (namespace_text "").
Proof.
  apply main_checked_ok, main_checked_true.
Qed.

(** Memory that is not cleared: the same byte everywhere in the first blocks. *)
Definition filled_memory (b : Z) : mem := write_bytes ∅ 0 (replicate (Z.to_nat 65536) b).

(** The memory has to be cleared: over memory filled with another byte the first
    commit goes by the bytes after an INSERT record, which nothing wrote
    ([TableTheorems.commit_insert_record]), and leaves the arena. *)
Theorem main_needs_cleared_memory : main_run (filled_memory 85) = Undefined "write past the arena".
Proof. by vm_compute. Qed.

(** ** The keys of prep_keys *)

(** Five digits keep the keys in the order of their numbers; the first number
    of six digits sorts before 99999. *)
Theorem prep_keys_unsorted :
  lex_lt (key_bytes 99) (key_bytes 100) ∧ lex_lt (key_bytes 99998) (key_bytes 99999) ∧ lex_lt (key_bytes 100000) (key_bytes 99999).
Proof. by vm_compute. Qed.
