(* ===== verification/Errors.v ===== *)
(** * Error codes, error data and exceptions (shared/error/)

    [ErrorCode] and its five-character SQLSTATEs, [ErrorData] with the fields
    sent to a client, and the exception classes. *)

From stdpp Require Import strings.
From S2P Require Import Prelude Print.

Module ErrorCode.

Inductive ErrorCode : Set :=
  | ERRCODE_SUCCESSFUL_COMPLETION
  | ERRCODE_WARNING
  | ERRCODE_WARNING_DYNAMIC_RESULT_SETS_RETURNED
  | ERRCODE_WARNING_IMPLICIT_ZERO_BIT_PADDING
  | ERRCODE_WARNING_NULL_VALUE_ELIMINATED_IN_SET_FUNCTION
  | ERRCODE_WARNING_PRIVILEGE_NOT_GRANTED
  | ERRCODE_WARNING_PRIVILEGE_NOT_REVOKED
  | ERRCODE_WARNING_STRING_DATA_RIGHT_TRUNCATION
  | ERRCODE_WARNING_DEPRECATED_FEATURE
  | ERRCODE_NO_DATA
  | ERRCODE_NO_ADDITIONAL_DYNAMIC_RESULT_SETS_RETURNED
  | ERRCODE_SQL_STATEMENT_NOT_YET_COMPLETE
  | ERRCODE_CONNECTION_EXCEPTION
  | ERRCODE_CONNECTION_DOES_NOT_EXIST
  | ERRCODE_CONNECTION_FAILURE
  | ERRCODE_SQLCLIENT_UNABLE_TO_ESTABLISH_SQLCONNECTION
  | ERRCODE_SQLSERVER_REJECTED_ESTABLISHMENT_OF_SQLCONNECTION
  | ERRCODE_TRANSACTION_RESOLUTION_UNKNOWN
  | ERRCODE_PROTOCOL_VIOLATION
  | ERRCODE_TRIGGERED_ACTION_EXCEPTION
  | ERRCODE_FEATURE_NOT_SUPPORTED
  | ERRCODE_INVALID_TRANSACTION_INITIATION
  | ERRCODE_LOCATOR_EXCEPTION
  | ERRCODE_L_E_INVALID_SPECIFICATION
  | ERRCODE_INVALID_GRANTOR
  | ERRCODE_INVALID_GRANT_OPERATION
  | ERRCODE_INVALID_ROLE_SPECIFICATION
  | ERRCODE_DIAGNOSTICS_EXCEPTION
  | ERRCODE_STACKED_DIAGNOSTICS_ACCESSED_WITHOUT_ACTIVE_HANDLER
  | ERRCODE_CASE_NOT_FOUND
  | ERRCODE_CARDINALITY_VIOLATION
  | ERRCODE_DATA_EXCEPTION
  | ERRCODE_ARRAY_ELEMENT_ERROR
  | ERRCODE_ARRAY_SUBSCRIPT_ERROR
  | ERRCODE_CHARACTER_NOT_IN_REPERTOIRE
  | ERRCODE_DATETIME_FIELD_OVERFLOW
  | ERRCODE_DATETIME_VALUE_OUT_OF_RANGE
  | ERRCODE_DIVISION_BY_ZERO
  | ERRCODE_ERROR_IN_ASSIGNMENT
  | ERRCODE_ESCAPE_CHARACTER_CONFLICT
  | ERRCODE_INDICATOR_OVERFLOW
  | ERRCODE_INTERVAL_FIELD_OVERFLOW
  | ERRCODE_INVALID_ARGUMENT_FOR_LOG
  | ERRCODE_INVALID_ARGUMENT_FOR_NTILE
  | ERRCODE_INVALID_ARGUMENT_FOR_NTH_VALUE
  | ERRCODE_INVALID_ARGUMENT_FOR_POWER_FUNCTION
  | ERRCODE_INVALID_ARGUMENT_FOR_WIDTH_BUCKET_FUNCTION
  | ERRCODE_INVALID_CHARACTER_VALUE_FOR_CAST
  | ERRCODE_INVALID_DATETIME_FORMAT
  | ERRCODE_INVALID_ESCAPE_CHARACTER
  | ERRCODE_INVALID_ESCAPE_OCTET
  | ERRCODE_INVALID_ESCAPE_SEQUENCE
  | ERRCODE_NONSTANDARD_USE_OF_ESCAPE_CHARACTER
  | ERRCODE_INVALID_INDICATOR_PARAMETER_VALUE
  | ERRCODE_INVALID_PARAMETER_VALUE
  | ERRCODE_INVALID_PRECEDING_OR_FOLLOWING_SIZE
  | ERRCODE_INVALID_REGULAR_EXPRESSION
  | ERRCODE_INVALID_ROW_COUNT_IN_LIMIT_CLAUSE
  | ERRCODE_INVALID_ROW_COUNT_IN_RESULT_OFFSET_CLAUSE
  | ERRCODE_INVALID_TABLESAMPLE_ARGUMENT
  | ERRCODE_INVALID_TABLESAMPLE_REPEAT
  | ERRCODE_INVALID_TIME_ZONE_DISPLACEMENT_VALUE
  | ERRCODE_INVALID_USE_OF_ESCAPE_CHARACTER
  | ERRCODE_MOST_SPECIFIC_TYPE_MISMATCH
  | ERRCODE_NULL_VALUE_NOT_ALLOWED
  | ERRCODE_NULL_VALUE_NO_INDICATOR_PARAMETER
  | ERRCODE_NUMERIC_VALUE_OUT_OF_RANGE
  | ERRCODE_SEQUENCE_GENERATOR_LIMIT_EXCEEDED
  | ERRCODE_STRING_DATA_LENGTH_MISMATCH
  | ERRCODE_STRING_DATA_RIGHT_TRUNCATION
  | ERRCODE_SUBSTRING_ERROR
  | ERRCODE_TRIM_ERROR
  | ERRCODE_UNTERMINATED_C_STRING
  | ERRCODE_ZERO_LENGTH_CHARACTER_STRING
  | ERRCODE_FLOATING_POINT_EXCEPTION
  | ERRCODE_INVALID_TEXT_REPRESENTATION
  | ERRCODE_INVALID_BINARY_REPRESENTATION
  | ERRCODE_BAD_COPY_FILE_FORMAT
  | ERRCODE_UNTRANSLATABLE_CHARACTER
  | ERRCODE_NOT_AN_XML_DOCUMENT
  | ERRCODE_INVALID_XML_DOCUMENT
  | ERRCODE_INVALID_XML_CONTENT
  | ERRCODE_INVALID_XML_COMMENT
  | ERRCODE_INVALID_XML_PROCESSING_INSTRUCTION
  | ERRCODE_DUPLICATE_JSON_OBJECT_KEY_VALUE
  | ERRCODE_INVALID_ARGUMENT_FOR_SQL_JSON_DATETIME_FUNCTION
  | ERRCODE_INVALID_JSON_TEXT
  | ERRCODE_INVALID_SQL_JSON_SUBSCRIPT
  | ERRCODE_MORE_THAN_ONE_SQL_JSON_ITEM
  | ERRCODE_NO_SQL_JSON_ITEM
  | ERRCODE_NON_NUMERIC_SQL_JSON_ITEM
  | ERRCODE_NON_UNIQUE_KEYS_IN_A_JSON_OBJECT
  | ERRCODE_SINGLETON_SQL_JSON_ITEM_REQUIRED
  | ERRCODE_SQL_JSON_ARRAY_NOT_FOUND
  | ERRCODE_SQL_JSON_MEMBER_NOT_FOUND
  | ERRCODE_SQL_JSON_NUMBER_NOT_FOUND
  | ERRCODE_SQL_JSON_OBJECT_NOT_FOUND
  | ERRCODE_TOO_MANY_JSON_ARRAY_ELEMENTS
  | ERRCODE_TOO_MANY_JSON_OBJECT_MEMBERS
  | ERRCODE_SQL_JSON_SCALAR_REQUIRED
  | ERRCODE_INTEGRITY_CONSTRAINT_VIOLATION
  | ERRCODE_RESTRICT_VIOLATION
  | ERRCODE_NOT_NULL_VIOLATION
  | ERRCODE_FOREIGN_KEY_VIOLATION
  | ERRCODE_UNIQUE_VIOLATION
  | ERRCODE_CHECK_VIOLATION
  | ERRCODE_EXCLUSION_VIOLATION
  | ERRCODE_INVALID_CURSOR_STATE
  | ERRCODE_INVALID_TRANSACTION_STATE
  | ERRCODE_ACTIVE_SQL_TRANSACTION
  | ERRCODE_BRANCH_TRANSACTION_ALREADY_ACTIVE
  | ERRCODE_HELD_CURSOR_REQUIRES_SAME_ISOLATION_LEVEL
  | ERRCODE_INAPPROPRIATE_ACCESS_MODE_FOR_BRANCH_TRANSACTION
  | ERRCODE_INAPPROPRIATE_ISOLATION_LEVEL_FOR_BRANCH_TRANSACTION
  | ERRCODE_NO_ACTIVE_SQL_TRANSACTION_FOR_BRANCH_TRANSACTION
  | ERRCODE_READ_ONLY_SQL_TRANSACTION
  | ERRCODE_SCHEMA_AND_DATA_STATEMENT_MIXING_NOT_SUPPORTED
  | ERRCODE_NO_ACTIVE_SQL_TRANSACTION
  | ERRCODE_IN_FAILED_SQL_TRANSACTION
  | ERRCODE_IDLE_IN_TRANSACTION_SESSION_TIMEOUT
  | ERRCODE_INVALID_SQL_STATEMENT_NAME
  | ERRCODE_TRIGGERED_DATA_CHANGE_VIOLATION
  | ERRCODE_INVALID_AUTHORIZATION_SPECIFICATION
  | ERRCODE_INVALID_PASSWORD
  | ERRCODE_DEPENDENT_PRIVILEGE_DESCRIPTORS_STILL_EXIST
  | ERRCODE_DEPENDENT_OBJECTS_STILL_EXIST
  | ERRCODE_INVALID_TRANSACTION_TERMINATION
  | ERRCODE_SQL_ROUTINE_EXCEPTION
  | ERRCODE_S_R_E_FUNCTION_EXECUTED_NO_RETURN_STATEMENT
  | ERRCODE_S_R_E_MODIFYING_SQL_DATA_NOT_PERMITTED
  | ERRCODE_S_R_E_PROHIBITED_SQL_STATEMENT_ATTEMPTED
  | ERRCODE_S_R_E_READING_SQL_DATA_NOT_PERMITTED
  | ERRCODE_INVALID_CURSOR_NAME
  | ERRCODE_EXTERNAL_ROUTINE_EXCEPTION
  | ERRCODE_E_R_E_CONTAINING_SQL_NOT_PERMITTED
  | ERRCODE_E_R_E_MODIFYING_SQL_DATA_NOT_PERMITTED
  | ERRCODE_E_R_E_PROHIBITED_SQL_STATEMENT_ATTEMPTED
  | ERRCODE_E_R_E_READING_SQL_DATA_NOT_PERMITTED
  | ERRCODE_EXTERNAL_ROUTINE_INVOCATION_EXCEPTION
  | ERRCODE_E_R_I_E_INVALID_SQLSTATE_RETURNED
  | ERRCODE_E_R_I_E_NULL_VALUE_NOT_ALLOWED
  | ERRCODE_E_R_I_E_TRIGGER_PROTOCOL_VIOLATED
  | ERRCODE_E_R_I_E_SRF_PROTOCOL_VIOLATED
  | ERRCODE_E_R_I_E_EVENT_TRIGGER_PROTOCOL_VIOLATED
  | ERRCODE_SAVEPOINT_EXCEPTION
  | ERRCODE_S_E_INVALID_SPECIFICATION
  | ERRCODE_INVALID_CATALOG_NAME
  | ERRCODE_INVALID_SCHEMA_NAME
  | ERRCODE_TRANSACTION_ROLLBACK
  | ERRCODE_T_R_INTEGRITY_CONSTRAINT_VIOLATION
  | ERRCODE_T_R_SERIALIZATION_FAILURE
  | ERRCODE_T_R_STATEMENT_COMPLETION_UNKNOWN
  | ERRCODE_T_R_DEADLOCK_DETECTED
  | ERRCODE_SYNTAX_ERROR_OR_ACCESS_RULE_VIOLATION
  | ERRCODE_SYNTAX_ERROR
  | ERRCODE_INSUFFICIENT_PRIVILEGE
  | ERRCODE_CANNOT_COERCE
  | ERRCODE_GROUPING_ERROR
  | ERRCODE_WINDOWING_ERROR
  | ERRCODE_INVALID_RECURSION
  | ERRCODE_INVALID_FOREIGN_KEY
  | ERRCODE_INVALID_NAME
  | ERRCODE_NAME_TOO_LONG
  | ERRCODE_RESERVED_NAME
  | ERRCODE_DATATYPE_MISMATCH
  | ERRCODE_INDETERMINATE_DATATYPE
  | ERRCODE_COLLATION_MISMATCH
  | ERRCODE_INDETERMINATE_COLLATION
  | ERRCODE_WRONG_OBJECT_TYPE
  | ERRCODE_GENERATED_ALWAYS
  | ERRCODE_UNDEFINED_COLUMN
  | ERRCODE_UNDEFINED_CURSOR
  | ERRCODE_UNDEFINED_DATABASE
  | ERRCODE_UNDEFINED_FUNCTION
  | ERRCODE_UNDEFINED_PSTATEMENT
  | ERRCODE_UNDEFINED_SCHEMA
  | ERRCODE_UNDEFINED_TABLE
  | ERRCODE_UNDEFINED_PARAMETER
  | ERRCODE_UNDEFINED_OBJECT
  | ERRCODE_DUPLICATE_COLUMN
  | ERRCODE_DUPLICATE_CURSOR
  | ERRCODE_DUPLICATE_DATABASE
  | ERRCODE_DUPLICATE_FUNCTION
  | ERRCODE_DUPLICATE_PSTATEMENT
  | ERRCODE_DUPLICATE_SCHEMA
  | ERRCODE_DUPLICATE_TABLE
  | ERRCODE_DUPLICATE_ALIAS
  | ERRCODE_DUPLICATE_OBJECT
  | ERRCODE_AMBIGUOUS_COLUMN
  | ERRCODE_AMBIGUOUS_FUNCTION
  | ERRCODE_AMBIGUOUS_PARAMETER
  | ERRCODE_AMBIGUOUS_ALIAS
  | ERRCODE_INVALID_COLUMN_REFERENCE
  | ERRCODE_INVALID_COLUMN_DEFINITION
  | ERRCODE_INVALID_CURSOR_DEFINITION
  | ERRCODE_INVALID_DATABASE_DEFINITION
  | ERRCODE_INVALID_FUNCTION_DEFINITION
  | ERRCODE_INVALID_PSTATEMENT_DEFINITION
  | ERRCODE_INVALID_SCHEMA_DEFINITION
  | ERRCODE_INVALID_TABLE_DEFINITION
  | ERRCODE_INVALID_OBJECT_DEFINITION
  | ERRCODE_WITH_CHECK_OPTION_VIOLATION
  | ERRCODE_INSUFFICIENT_RESOURCES
  | ERRCODE_DISK_FULL
  | ERRCODE_OUT_OF_MEMORY
  | ERRCODE_TOO_MANY_CONNECTIONS
  | ERRCODE_CONFIGURATION_LIMIT_EXCEEDED
  | ERRCODE_PROGRAM_LIMIT_EXCEEDED
  | ERRCODE_STATEMENT_TOO_COMPLEX
  | ERRCODE_TOO_MANY_COLUMNS
  | ERRCODE_TOO_MANY_ARGUMENTS
  | ERRCODE_OBJECT_NOT_IN_PREREQUISITE_STATE
  | ERRCODE_OBJECT_IN_USE
  | ERRCODE_CANT_CHANGE_RUNTIME_PARAM
  | ERRCODE_LOCK_NOT_AVAILABLE
  | ERRCODE_UNSAFE_NEW_ENUM_VALUE_USAGE
  | ERRCODE_OPERATOR_INTERVENTION
  | ERRCODE_QUERY_CANCELED
  | ERRCODE_ADMIN_SHUTDOWN
  | ERRCODE_CRASH_SHUTDOWN
  | ERRCODE_CANNOT_CONNECT_NOW
  | ERRCODE_DATABASE_DROPPED
  | ERRCODE_SYSTEM_ERROR
  | ERRCODE_IO_ERROR
  | ERRCODE_UNDEFINED_FILE
  | ERRCODE_DUPLICATE_FILE
  | ERRCODE_SNAPSHOT_TOO_OLD
  | ERRCODE_CONFIG_FILE_ERROR
  | ERRCODE_LOCK_FILE_EXISTS
  | ERRCODE_FDW_ERROR
  | ERRCODE_FDW_COLUMN_NAME_NOT_FOUND
  | ERRCODE_FDW_DYNAMIC_PARAMETER_VALUE_NEEDED
  | ERRCODE_FDW_FUNCTION_SEQUENCE_ERROR
  | ERRCODE_FDW_INCONSISTENT_DESCRIPTOR_INFORMATION
  | ERRCODE_FDW_INVALID_ATTRIBUTE_VALUE
  | ERRCODE_FDW_INVALID_COLUMN_NAME
  | ERRCODE_FDW_INVALID_COLUMN_NUMBER
  | ERRCODE_FDW_INVALID_DATA_TYPE
  | ERRCODE_FDW_INVALID_DATA_TYPE_DESCRIPTORS
  | ERRCODE_FDW_INVALID_DESCRIPTOR_FIELD_IDENTIFIER
  | ERRCODE_FDW_INVALID_HANDLE
  | ERRCODE_FDW_INVALID_OPTION_INDEX
  | ERRCODE_FDW_INVALID_OPTION_NAME
  | ERRCODE_FDW_INVALID_STRING_LENGTH_OR_BUFFER_LENGTH
  | ERRCODE_FDW_INVALID_STRING_FORMAT
  | ERRCODE_FDW_INVALID_USE_OF_NULL_POINTER
  | ERRCODE_FDW_TOO_MANY_HANDLES
  | ERRCODE_FDW_OUT_OF_MEMORY
  | ERRCODE_FDW_NO_SCHEMAS
  | ERRCODE_FDW_OPTION_NAME_NOT_FOUND
  | ERRCODE_FDW_REPLY_HANDLE
  | ERRCODE_FDW_SCHEMA_NOT_FOUND
  | ERRCODE_FDW_TABLE_NOT_FOUND
  | ERRCODE_FDW_UNABLE_TO_CREATE_EXECUTION
  | ERRCODE_FDW_UNABLE_TO_CREATE_REPLY
  | ERRCODE_FDW_UNABLE_TO_ESTABLISH_CONNECTION
  | ERRCODE_PLPGSQL_ERROR
  | ERRCODE_RAISE_EXCEPTION
  | ERRCODE_NO_DATA_FOUND
  | ERRCODE_TOO_MANY_ROWS
  | ERRCODE_ASSERT_FAILURE
  | ERRCODE_INTERNAL_ERROR
  | ERRCODE_DATA_CORRUPTED
  | ERRCODE_INDEX_CORRUPTED.

Definition ErrorCodeToString (code : ErrorCode) : string :=
  match code with
  | ERRCODE_SUCCESSFUL_COMPLETION => "00000"
  | ERRCODE_WARNING => "01000"
  | ERRCODE_WARNING_DYNAMIC_RESULT_SETS_RETURNED => "0100C"
  | ERRCODE_WARNING_IMPLICIT_ZERO_BIT_PADDING => "01008"
  | ERRCODE_WARNING_NULL_VALUE_ELIMINATED_IN_SET_FUNCTION => "01003"
  | ERRCODE_WARNING_PRIVILEGE_NOT_GRANTED => "01007"
  | ERRCODE_WARNING_PRIVILEGE_NOT_REVOKED => "01006"
  | ERRCODE_WARNING_STRING_DATA_RIGHT_TRUNCATION => "01004"
  | ERRCODE_WARNING_DEPRECATED_FEATURE => "01P01"
  | ERRCODE_NO_DATA => "02000"
  | ERRCODE_NO_ADDITIONAL_DYNAMIC_RESULT_SETS_RETURNED => "02001"
  | ERRCODE_SQL_STATEMENT_NOT_YET_COMPLETE => "03000"
  | ERRCODE_CONNECTION_EXCEPTION => "08000"
  | ERRCODE_CONNECTION_DOES_NOT_EXIST => "08003"
  | ERRCODE_CONNECTION_FAILURE => "08006"
  | ERRCODE_SQLCLIENT_UNABLE_TO_ESTABLISH_SQLCONNECTION => "08001"
  | ERRCODE_SQLSERVER_REJECTED_ESTABLISHMENT_OF_SQLCONNECTION => "08004"
  | ERRCODE_TRANSACTION_RESOLUTION_UNKNOWN => "08007"
  | ERRCODE_PROTOCOL_VIOLATION => "08P01"
  | ERRCODE_TRIGGERED_ACTION_EXCEPTION => "09000"
  | ERRCODE_FEATURE_NOT_SUPPORTED => "0A000"
  | ERRCODE_INVALID_TRANSACTION_INITIATION => "0B000"
  | ERRCODE_LOCATOR_EXCEPTION => "0F000"
  | ERRCODE_L_E_INVALID_SPECIFICATION => "0F001"
  | ERRCODE_INVALID_GRANTOR => "0L000"
  | ERRCODE_INVALID_GRANT_OPERATION => "0LP01"
  | ERRCODE_INVALID_ROLE_SPECIFICATION => "0P000"
  | ERRCODE_DIAGNOSTICS_EXCEPTION => "0Z000"
  | ERRCODE_STACKED_DIAGNOSTICS_ACCESSED_WITHOUT_ACTIVE_HANDLER => "0Z002"
  | ERRCODE_CASE_NOT_FOUND => "20000"
  | ERRCODE_CARDINALITY_VIOLATION => "21000"
  | ERRCODE_DATA_EXCEPTION => "22000"
  | ERRCODE_ARRAY_ELEMENT_ERROR => "2202E"
  | ERRCODE_ARRAY_SUBSCRIPT_ERROR => "2202E"
  | ERRCODE_CHARACTER_NOT_IN_REPERTOIRE => "22021"
  | ERRCODE_DATETIME_FIELD_OVERFLOW => "22008"
  | ERRCODE_DATETIME_VALUE_OUT_OF_RANGE => "22008"
  | ERRCODE_DIVISION_BY_ZERO => "22012"
  | ERRCODE_ERROR_IN_ASSIGNMENT => "22005"
  | ERRCODE_ESCAPE_CHARACTER_CONFLICT => "2200B"
  | ERRCODE_INDICATOR_OVERFLOW => "22022"
  | ERRCODE_INTERVAL_FIELD_OVERFLOW => "22015"
  | ERRCODE_INVALID_ARGUMENT_FOR_LOG => "2201E"
  | ERRCODE_INVALID_ARGUMENT_FOR_NTILE => "22014"
  | ERRCODE_INVALID_ARGUMENT_FOR_NTH_VALUE => "22016"
  | ERRCODE_INVALID_ARGUMENT_FOR_POWER_FUNCTION => "2201F"
  | ERRCODE_INVALID_ARGUMENT_FOR_WIDTH_BUCKET_FUNCTION => "2201G"
  | ERRCODE_INVALID_CHARACTER_VALUE_FOR_CAST => "22018"
  | ERRCODE_INVALID_DATETIME_FORMAT => "22007"
  | ERRCODE_INVALID_ESCAPE_CHARACTER => "22019"
  | ERRCODE_INVALID_ESCAPE_OCTET => "2200D"
  | ERRCODE_INVALID_ESCAPE_SEQUENCE => "22025"
  | ERRCODE_NONSTANDARD_USE_OF_ESCAPE_CHARACTER => "22P06"
  | ERRCODE_INVALID_INDICATOR_PARAMETER_VALUE => "22010"
  | ERRCODE_INVALID_PARAMETER_VALUE => "22023"
  | ERRCODE_INVALID_PRECEDING_OR_FOLLOWING_SIZE => "22013"
  | ERRCODE_INVALID_REGULAR_EXPRESSION => "2201B"
  | ERRCODE_INVALID_ROW_COUNT_IN_LIMIT_CLAUSE => "2201W"
  | ERRCODE_INVALID_ROW_COUNT_IN_RESULT_OFFSET_CLAUSE => "2201X"
  | ERRCODE_INVALID_TABLESAMPLE_ARGUMENT => "2202H"
  | ERRCODE_INVALID_TABLESAMPLE_REPEAT => "2202G"
  | ERRCODE_INVALID_TIME_ZONE_DISPLACEMENT_VALUE => "22009"
  | ERRCODE_INVALID_USE_OF_ESCAPE_CHARACTER => "2200C"
  | ERRCODE_MOST_SPECIFIC_TYPE_MISMATCH => "2200G"
  | ERRCODE_NULL_VALUE_NOT_ALLOWED => "22004"
  | ERRCODE_NULL_VALUE_NO_INDICATOR_PARAMETER => "22002"
  | ERRCODE_NUMERIC_VALUE_OUT_OF_RANGE => "22003"
  | ERRCODE_SEQUENCE_GENERATOR_LIMIT_EXCEEDED => "2200H"
  | ERRCODE_STRING_DATA_LENGTH_MISMATCH => "22026"
  | ERRCODE_STRING_DATA_RIGHT_TRUNCATION => "22001"
  | ERRCODE_SUBSTRING_ERROR => "22011"
  | ERRCODE_TRIM_ERROR => "22027"
  | ERRCODE_UNTERMINATED_C_STRING => "22024"
  | ERRCODE_ZERO_LENGTH_CHARACTER_STRING => "2200F"
  | ERRCODE_FLOATING_POINT_EXCEPTION => "22P01"
  | ERRCODE_INVALID_TEXT_REPRESENTATION => "22P02"
  | ERRCODE_INVALID_BINARY_REPRESENTATION => "22P03"
  | ERRCODE_BAD_COPY_FILE_FORMAT => "22P04"
  | ERRCODE_UNTRANSLATABLE_CHARACTER => "22P05"
  | ERRCODE_NOT_AN_XML_DOCUMENT => "2200L"
  | ERRCODE_INVALID_XML_DOCUMENT => "2200M"
  | ERRCODE_INVALID_XML_CONTENT => "2200N"
  | ERRCODE_INVALID_XML_COMMENT => "2200S"
  | ERRCODE_INVALID_XML_PROCESSING_INSTRUCTION => "2200T"
  | ERRCODE_DUPLICATE_JSON_OBJECT_KEY_VALUE => "22030"
  | ERRCODE_INVALID_ARGUMENT_FOR_SQL_JSON_DATETIME_FUNCTION => "22031"
  | ERRCODE_INVALID_JSON_TEXT => "22032"
  | ERRCODE_INVALID_SQL_JSON_SUBSCRIPT => "22033"
  | ERRCODE_MORE_THAN_ONE_SQL_JSON_ITEM => "22034"
  | ERRCODE_NO_SQL_JSON_ITEM => "22035"
  | ERRCODE_NON_NUMERIC_SQL_JSON_ITEM => "22036"
  | ERRCODE_NON_UNIQUE_KEYS_IN_A_JSON_OBJECT => "22037"
  | ERRCODE_SINGLETON_SQL_JSON_ITEM_REQUIRED => "22038"
  | ERRCODE_SQL_JSON_ARRAY_NOT_FOUND => "22039"
  | ERRCODE_SQL_JSON_MEMBER_NOT_FOUND => "2203A"
  | ERRCODE_SQL_JSON_NUMBER_NOT_FOUND => "2203B"
  | ERRCODE_SQL_JSON_OBJECT_NOT_FOUND => "2203C"
  | ERRCODE_TOO_MANY_JSON_ARRAY_ELEMENTS => "2203D"
  | ERRCODE_TOO_MANY_JSON_OBJECT_MEMBERS => "2203E"
  | ERRCODE_SQL_JSON_SCALAR_REQUIRED => "2203F"
  | ERRCODE_INTEGRITY_CONSTRAINT_VIOLATION => "23000"
  | ERRCODE_RESTRICT_VIOLATION => "23001"
  | ERRCODE_NOT_NULL_VIOLATION => "23502"
  | ERRCODE_FOREIGN_KEY_VIOLATION => "23503"
  | ERRCODE_UNIQUE_VIOLATION => "23505"
  | ERRCODE_CHECK_VIOLATION => "23514"
  | ERRCODE_EXCLUSION_VIOLATION => "23P01"
  | ERRCODE_INVALID_CURSOR_STATE => "24000"
  | ERRCODE_INVALID_TRANSACTION_STATE => "25000"
  | ERRCODE_ACTIVE_SQL_TRANSACTION => "25001"
  | ERRCODE_BRANCH_TRANSACTION_ALREADY_ACTIVE => "25002"
  | ERRCODE_HELD_CURSOR_REQUIRES_SAME_ISOLATION_LEVEL => "25008"
  | ERRCODE_INAPPROPRIATE_ACCESS_MODE_FOR_BRANCH_TRANSACTION => "25003"
  | ERRCODE_INAPPROPRIATE_ISOLATION_LEVEL_FOR_BRANCH_TRANSACTION => "25004"
  | ERRCODE_NO_ACTIVE_SQL_TRANSACTION_FOR_BRANCH_TRANSACTION => "25005"
  | ERRCODE_READ_ONLY_SQL_TRANSACTION => "25006"
  | ERRCODE_SCHEMA_AND_DATA_STATEMENT_MIXING_NOT_SUPPORTED => "25007"
  | ERRCODE_NO_ACTIVE_SQL_TRANSACTION => "25P01"
  | ERRCODE_IN_FAILED_SQL_TRANSACTION => "25P02"
  | ERRCODE_IDLE_IN_TRANSACTION_SESSION_TIMEOUT => "25P03"
  | ERRCODE_INVALID_SQL_STATEMENT_NAME => "26000"
  | ERRCODE_TRIGGERED_DATA_CHANGE_VIOLATION => "27000"
  | ERRCODE_INVALID_AUTHORIZATION_SPECIFICATION => "28000"
  | ERRCODE_INVALID_PASSWORD => "28P01"
  | ERRCODE_DEPENDENT_PRIVILEGE_DESCRIPTORS_STILL_EXIST => "2B000"
  | ERRCODE_DEPENDENT_OBJECTS_STILL_EXIST => "2BP01"
  | ERRCODE_INVALID_TRANSACTION_TERMINATION => "2D000"
  | ERRCODE_SQL_ROUTINE_EXCEPTION => "2F000"
  | ERRCODE_S_R_E_FUNCTION_EXECUTED_NO_RETURN_STATEMENT => "2F005"
  | ERRCODE_S_R_E_MODIFYING_SQL_DATA_NOT_PERMITTED => "2F002"
  | ERRCODE_S_R_E_PROHIBITED_SQL_STATEMENT_ATTEMPTED => "2F003"
  | ERRCODE_S_R_E_READING_SQL_DATA_NOT_PERMITTED => "2F004"
  | ERRCODE_INVALID_CURSOR_NAME => "34000"
  | ERRCODE_EXTERNAL_ROUTINE_EXCEPTION => "38000"
  | ERRCODE_E_R_E_CONTAINING_SQL_NOT_PERMITTED => "38001"
  | ERRCODE_E_R_E_MODIFYING_SQL_DATA_NOT_PERMITTED => "38002"
  | ERRCODE_E_R_E_PROHIBITED_SQL_STATEMENT_ATTEMPTED => "38003"
  | ERRCODE_E_R_E_READING_SQL_DATA_NOT_PERMITTED => "38004"
  | ERRCODE_EXTERNAL_ROUTINE_INVOCATION_EXCEPTION => "39000"
  | ERRCODE_E_R_I_E_INVALID_SQLSTATE_RETURNED => "39001"
  | ERRCODE_E_R_I_E_NULL_VALUE_NOT_ALLOWED => "39004"
  | ERRCODE_E_R_I_E_TRIGGER_PROTOCOL_VIOLATED => "39P01"
  | ERRCODE_E_R_I_E_SRF_PROTOCOL_VIOLATED => "39P02"
  | ERRCODE_E_R_I_E_EVENT_TRIGGER_PROTOCOL_VIOLATED => "39P03"
  | ERRCODE_SAVEPOINT_EXCEPTION => "3B000"
  | ERRCODE_S_E_INVALID_SPECIFICATION => "3B001"
  | ERRCODE_INVALID_CATALOG_NAME => "3D000"
  | ERRCODE_INVALID_SCHEMA_NAME => "3F000"
  | ERRCODE_TRANSACTION_ROLLBACK => "40000"
  | ERRCODE_T_R_INTEGRITY_CONSTRAINT_VIOLATION => "40002"
  | ERRCODE_T_R_SERIALIZATION_FAILURE => "40001"
  | ERRCODE_T_R_STATEMENT_COMPLETION_UNKNOWN => "40003"
  | ERRCODE_T_R_DEADLOCK_DETECTED => "40P01"
  | ERRCODE_SYNTAX_ERROR_OR_ACCESS_RULE_VIOLATION => "42000"
  | ERRCODE_SYNTAX_ERROR => "42601"
  | ERRCODE_INSUFFICIENT_PRIVILEGE => "42501"
  | ERRCODE_CANNOT_COERCE => "42846"
  | ERRCODE_GROUPING_ERROR => "42803"
  | ERRCODE_WINDOWING_ERROR => "42P20"
  | ERRCODE_INVALID_RECURSION => "42P19"
  | ERRCODE_INVALID_FOREIGN_KEY => "42830"
  | ERRCODE_INVALID_NAME => "42602"
  | ERRCODE_NAME_TOO_LONG => "42622"
  | ERRCODE_RESERVED_NAME => "42939"
  | ERRCODE_DATATYPE_MISMATCH => "42804"
  | ERRCODE_INDETERMINATE_DATATYPE => "42P18"
  | ERRCODE_COLLATION_MISMATCH => "42P21"
  | ERRCODE_INDETERMINATE_COLLATION => "42P22"
  | ERRCODE_WRONG_OBJECT_TYPE => "42809"
  | ERRCODE_GENERATED_ALWAYS => "428C9"
  | ERRCODE_UNDEFINED_COLUMN => "42703"
  | ERRCODE_UNDEFINED_CURSOR => "34000"
  | ERRCODE_UNDEFINED_DATABASE => "3D000"
  | ERRCODE_UNDEFINED_FUNCTION => "42883"
  | ERRCODE_UNDEFINED_PSTATEMENT => "26000"
  | ERRCODE_UNDEFINED_SCHEMA => "3F000"
  | ERRCODE_UNDEFINED_TABLE => "42P01"
  | ERRCODE_UNDEFINED_PARAMETER => "42P02"
  | ERRCODE_UNDEFINED_OBJECT => "42704"
  | ERRCODE_DUPLICATE_COLUMN => "42701"
  | ERRCODE_DUPLICATE_CURSOR => "42P03"
  | ERRCODE_DUPLICATE_DATABASE => "42P04"
  | ERRCODE_DUPLICATE_FUNCTION => "42723"
  | ERRCODE_DUPLICATE_PSTATEMENT => "42P05"
  | ERRCODE_DUPLICATE_SCHEMA => "42P06"
  | ERRCODE_DUPLICATE_TABLE => "42P07"
  | ERRCODE_DUPLICATE_ALIAS => "42712"
  | ERRCODE_DUPLICATE_OBJECT => "42710"
  | ERRCODE_AMBIGUOUS_COLUMN => "42702"
  | ERRCODE_AMBIGUOUS_FUNCTION => "42725"
  | ERRCODE_AMBIGUOUS_PARAMETER => "42P08"
  | ERRCODE_AMBIGUOUS_ALIAS => "42P09"
  | ERRCODE_INVALID_COLUMN_REFERENCE => "42P10"
  | ERRCODE_INVALID_COLUMN_DEFINITION => "42611"
  | ERRCODE_INVALID_CURSOR_DEFINITION => "42P11"
  | ERRCODE_INVALID_DATABASE_DEFINITION => "42P12"
  | ERRCODE_INVALID_FUNCTION_DEFINITION => "42P13"
  | ERRCODE_INVALID_PSTATEMENT_DEFINITION => "42P14"
  | ERRCODE_INVALID_SCHEMA_DEFINITION => "42P15"
  | ERRCODE_INVALID_TABLE_DEFINITION => "42P16"
  | ERRCODE_INVALID_OBJECT_DEFINITION => "42P17"
  | ERRCODE_WITH_CHECK_OPTION_VIOLATION => "44000"
  | ERRCODE_INSUFFICIENT_RESOURCES => "53000"
  | ERRCODE_DISK_FULL => "53100"
  | ERRCODE_OUT_OF_MEMORY => "53200"
  | ERRCODE_TOO_MANY_CONNECTIONS => "53300"
  | ERRCODE_CONFIGURATION_LIMIT_EXCEEDED => "53400"
  | ERRCODE_PROGRAM_LIMIT_EXCEEDED => "54000"
  | ERRCODE_STATEMENT_TOO_COMPLEX => "54001"
  | ERRCODE_TOO_MANY_COLUMNS => "54011"
  | ERRCODE_TOO_MANY_ARGUMENTS => "54023"
  | ERRCODE_OBJECT_NOT_IN_PREREQUISITE_STATE => "55000"
  | ERRCODE_OBJECT_IN_USE => "55006"
  | ERRCODE_CANT_CHANGE_RUNTIME_PARAM => "55P02"
  | ERRCODE_LOCK_NOT_AVAILABLE => "55P03"
  | ERRCODE_UNSAFE_NEW_ENUM_VALUE_USAGE => "55P04"
  | ERRCODE_OPERATOR_INTERVENTION => "57000"
  | ERRCODE_QUERY_CANCELED => "57014"
  | ERRCODE_ADMIN_SHUTDOWN => "57P01"
  | ERRCODE_CRASH_SHUTDOWN => "57P02"
  | ERRCODE_CANNOT_CONNECT_NOW => "57P03"
  | ERRCODE_DATABASE_DROPPED => "57P04"
  | ERRCODE_SYSTEM_ERROR => "58000"
  | ERRCODE_IO_ERROR => "58030"
  | ERRCODE_UNDEFINED_FILE => "58P01"
  | ERRCODE_DUPLICATE_FILE => "58P02"
  | ERRCODE_SNAPSHOT_TOO_OLD => "72000"
  | ERRCODE_CONFIG_FILE_ERROR => "F0000"
  | ERRCODE_LOCK_FILE_EXISTS => "F0001"
  | ERRCODE_FDW_ERROR => "HV000"
  | ERRCODE_FDW_COLUMN_NAME_NOT_FOUND => "HV005"
  | ERRCODE_FDW_DYNAMIC_PARAMETER_VALUE_NEEDED => "HV002"
  | ERRCODE_FDW_FUNCTION_SEQUENCE_ERROR => "HV010"
  | ERRCODE_FDW_INCONSISTENT_DESCRIPTOR_INFORMATION => "HV021"
  | ERRCODE_FDW_INVALID_ATTRIBUTE_VALUE => "HV024"
  | ERRCODE_FDW_INVALID_COLUMN_NAME => "HV007"
  | ERRCODE_FDW_INVALID_COLUMN_NUMBER => "HV008"
  | ERRCODE_FDW_INVALID_DATA_TYPE => "HV004"
  | ERRCODE_FDW_INVALID_DATA_TYPE_DESCRIPTORS => "HV006"
  | ERRCODE_FDW_INVALID_DESCRIPTOR_FIELD_IDENTIFIER => "HV091"
  | ERRCODE_FDW_INVALID_HANDLE => "HV00B"
  | ERRCODE_FDW_INVALID_OPTION_INDEX => "HV00C"
  | ERRCODE_FDW_INVALID_OPTION_NAME => "HV00D"
  | ERRCODE_FDW_INVALID_STRING_LENGTH_OR_BUFFER_LENGTH => "HV090"
  | ERRCODE_FDW_INVALID_STRING_FORMAT => "HV00A"
  | ERRCODE_FDW_INVALID_USE_OF_NULL_POINTER => "HV009"
  | ERRCODE_FDW_TOO_MANY_HANDLES => "HV014"
  | ERRCODE_FDW_OUT_OF_MEMORY => "HV001"
  | ERRCODE_FDW_NO_SCHEMAS => "HV00P"
  | ERRCODE_FDW_OPTION_NAME_NOT_FOUND => "HV00J"
  | ERRCODE_FDW_REPLY_HANDLE => "HV00K"
  | ERRCODE_FDW_SCHEMA_NOT_FOUND => "HV00Q"
  | ERRCODE_FDW_TABLE_NOT_FOUND => "HV00R"
  | ERRCODE_FDW_UNABLE_TO_CREATE_EXECUTION => "HV00L"
  | ERRCODE_FDW_UNABLE_TO_CREATE_REPLY => "HV00M"
  | ERRCODE_FDW_UNABLE_TO_ESTABLISH_CONNECTION => "HV00N"
  | ERRCODE_PLPGSQL_ERROR => "P0000"
  | ERRCODE_RAISE_EXCEPTION => "P0001"
  | ERRCODE_NO_DATA_FOUND => "P0002"
  | ERRCODE_TOO_MANY_ROWS => "P0003"
  | ERRCODE_ASSERT_FAILURE => "P0004"
  | ERRCODE_INTERNAL_ERROR => "XX000"
  | ERRCODE_DATA_CORRUPTED => "XX001"
  | ERRCODE_INDEX_CORRUPTED => "XX002"
  end.

(** The enumeration is of type [u16], numbered from 0 in this order. *)
Definition ErrorCode_all : list ErrorCode :=
  [ ERRCODE_SUCCESSFUL_COMPLETION;
    ERRCODE_WARNING;
    ERRCODE_WARNING_DYNAMIC_RESULT_SETS_RETURNED;
    ERRCODE_WARNING_IMPLICIT_ZERO_BIT_PADDING;
    ERRCODE_WARNING_NULL_VALUE_ELIMINATED_IN_SET_FUNCTION;
    ERRCODE_WARNING_PRIVILEGE_NOT_GRANTED;
    ERRCODE_WARNING_PRIVILEGE_NOT_REVOKED;
    ERRCODE_WARNING_STRING_DATA_RIGHT_TRUNCATION;
    ERRCODE_WARNING_DEPRECATED_FEATURE;
    ERRCODE_NO_DATA;
    ERRCODE_NO_ADDITIONAL_DYNAMIC_RESULT_SETS_RETURNED;
    ERRCODE_SQL_STATEMENT_NOT_YET_COMPLETE;
    ERRCODE_CONNECTION_EXCEPTION;
    ERRCODE_CONNECTION_DOES_NOT_EXIST;
    ERRCODE_CONNECTION_FAILURE;
    ERRCODE_SQLCLIENT_UNABLE_TO_ESTABLISH_SQLCONNECTION;
    ERRCODE_SQLSERVER_REJECTED_ESTABLISHMENT_OF_SQLCONNECTION;
    ERRCODE_TRANSACTION_RESOLUTION_UNKNOWN;
    ERRCODE_PROTOCOL_VIOLATION;
    ERRCODE_TRIGGERED_ACTION_EXCEPTION;
    ERRCODE_FEATURE_NOT_SUPPORTED;
    ERRCODE_INVALID_TRANSACTION_INITIATION;
    ERRCODE_LOCATOR_EXCEPTION;
    ERRCODE_L_E_INVALID_SPECIFICATION;
    ERRCODE_INVALID_GRANTOR;
    ERRCODE_INVALID_GRANT_OPERATION;
    ERRCODE_INVALID_ROLE_SPECIFICATION;
    ERRCODE_DIAGNOSTICS_EXCEPTION;
    ERRCODE_STACKED_DIAGNOSTICS_ACCESSED_WITHOUT_ACTIVE_HANDLER;
    ERRCODE_CASE_NOT_FOUND;
    ERRCODE_CARDINALITY_VIOLATION;
    ERRCODE_DATA_EXCEPTION;
    ERRCODE_ARRAY_ELEMENT_ERROR;
    ERRCODE_ARRAY_SUBSCRIPT_ERROR;
    ERRCODE_CHARACTER_NOT_IN_REPERTOIRE;
    ERRCODE_DATETIME_FIELD_OVERFLOW;
    ERRCODE_DATETIME_VALUE_OUT_OF_RANGE;
    ERRCODE_DIVISION_BY_ZERO;
    ERRCODE_ERROR_IN_ASSIGNMENT;
    ERRCODE_ESCAPE_CHARACTER_CONFLICT;
    ERRCODE_INDICATOR_OVERFLOW;
    ERRCODE_INTERVAL_FIELD_OVERFLOW;
    ERRCODE_INVALID_ARGUMENT_FOR_LOG;
    ERRCODE_INVALID_ARGUMENT_FOR_NTILE;
    ERRCODE_INVALID_ARGUMENT_FOR_NTH_VALUE;
    ERRCODE_INVALID_ARGUMENT_FOR_POWER_FUNCTION;
    ERRCODE_INVALID_ARGUMENT_FOR_WIDTH_BUCKET_FUNCTION;
    ERRCODE_INVALID_CHARACTER_VALUE_FOR_CAST;
    ERRCODE_INVALID_DATETIME_FORMAT;
    ERRCODE_INVALID_ESCAPE_CHARACTER;
    ERRCODE_INVALID_ESCAPE_OCTET;
    ERRCODE_INVALID_ESCAPE_SEQUENCE;
    ERRCODE_NONSTANDARD_USE_OF_ESCAPE_CHARACTER;
    ERRCODE_INVALID_INDICATOR_PARAMETER_VALUE;
    ERRCODE_INVALID_PARAMETER_VALUE;
    ERRCODE_INVALID_PRECEDING_OR_FOLLOWING_SIZE;
    ERRCODE_INVALID_REGULAR_EXPRESSION;
    ERRCODE_INVALID_ROW_COUNT_IN_LIMIT_CLAUSE;
    ERRCODE_INVALID_ROW_COUNT_IN_RESULT_OFFSET_CLAUSE;
    ERRCODE_INVALID_TABLESAMPLE_ARGUMENT;
    ERRCODE_INVALID_TABLESAMPLE_REPEAT;
    ERRCODE_INVALID_TIME_ZONE_DISPLACEMENT_VALUE;
    ERRCODE_INVALID_USE_OF_ESCAPE_CHARACTER;
    ERRCODE_MOST_SPECIFIC_TYPE_MISMATCH;
    ERRCODE_NULL_VALUE_NOT_ALLOWED;
    ERRCODE_NULL_VALUE_NO_INDICATOR_PARAMETER;
    ERRCODE_NUMERIC_VALUE_OUT_OF_RANGE;
    ERRCODE_SEQUENCE_GENERATOR_LIMIT_EXCEEDED;
    ERRCODE_STRING_DATA_LENGTH_MISMATCH;
    ERRCODE_STRING_DATA_RIGHT_TRUNCATION;
    ERRCODE_SUBSTRING_ERROR;
    ERRCODE_TRIM_ERROR;
    ERRCODE_UNTERMINATED_C_STRING;
    ERRCODE_ZERO_LENGTH_CHARACTER_STRING;
    ERRCODE_FLOATING_POINT_EXCEPTION;
    ERRCODE_INVALID_TEXT_REPRESENTATION;
    ERRCODE_INVALID_BINARY_REPRESENTATION;
    ERRCODE_BAD_COPY_FILE_FORMAT;
    ERRCODE_UNTRANSLATABLE_CHARACTER;
    ERRCODE_NOT_AN_XML_DOCUMENT;
    ERRCODE_INVALID_XML_DOCUMENT;
    ERRCODE_INVALID_XML_CONTENT;
    ERRCODE_INVALID_XML_COMMENT;
    ERRCODE_INVALID_XML_PROCESSING_INSTRUCTION;
    ERRCODE_DUPLICATE_JSON_OBJECT_KEY_VALUE;
    ERRCODE_INVALID_ARGUMENT_FOR_SQL_JSON_DATETIME_FUNCTION;
    ERRCODE_INVALID_JSON_TEXT;
    ERRCODE_INVALID_SQL_JSON_SUBSCRIPT;
    ERRCODE_MORE_THAN_ONE_SQL_JSON_ITEM;
    ERRCODE_NO_SQL_JSON_ITEM;
    ERRCODE_NON_NUMERIC_SQL_JSON_ITEM;
    ERRCODE_NON_UNIQUE_KEYS_IN_A_JSON_OBJECT;
    ERRCODE_SINGLETON_SQL_JSON_ITEM_REQUIRED;
    ERRCODE_SQL_JSON_ARRAY_NOT_FOUND;
    ERRCODE_SQL_JSON_MEMBER_NOT_FOUND;
    ERRCODE_SQL_JSON_NUMBER_NOT_FOUND;
    ERRCODE_SQL_JSON_OBJECT_NOT_FOUND;
    ERRCODE_TOO_MANY_JSON_ARRAY_ELEMENTS;
    ERRCODE_TOO_MANY_JSON_OBJECT_MEMBERS;
    ERRCODE_SQL_JSON_SCALAR_REQUIRED;
    ERRCODE_INTEGRITY_CONSTRAINT_VIOLATION;
    ERRCODE_RESTRICT_VIOLATION;
    ERRCODE_NOT_NULL_VIOLATION;
    ERRCODE_FOREIGN_KEY_VIOLATION;
    ERRCODE_UNIQUE_VIOLATION;
    ERRCODE_CHECK_VIOLATION;
    ERRCODE_EXCLUSION_VIOLATION;
    ERRCODE_INVALID_CURSOR_STATE;
    ERRCODE_INVALID_TRANSACTION_STATE;
    ERRCODE_ACTIVE_SQL_TRANSACTION;
    ERRCODE_BRANCH_TRANSACTION_ALREADY_ACTIVE;
    ERRCODE_HELD_CURSOR_REQUIRES_SAME_ISOLATION_LEVEL;
    ERRCODE_INAPPROPRIATE_ACCESS_MODE_FOR_BRANCH_TRANSACTION;
    ERRCODE_INAPPROPRIATE_ISOLATION_LEVEL_FOR_BRANCH_TRANSACTION;
    ERRCODE_NO_ACTIVE_SQL_TRANSACTION_FOR_BRANCH_TRANSACTION;
    ERRCODE_READ_ONLY_SQL_TRANSACTION;
    ERRCODE_SCHEMA_AND_DATA_STATEMENT_MIXING_NOT_SUPPORTED;
    ERRCODE_NO_ACTIVE_SQL_TRANSACTION;
    ERRCODE_IN_FAILED_SQL_TRANSACTION;
    ERRCODE_IDLE_IN_TRANSACTION_SESSION_TIMEOUT;
    ERRCODE_INVALID_SQL_STATEMENT_NAME;
    ERRCODE_TRIGGERED_DATA_CHANGE_VIOLATION;
    ERRCODE_INVALID_AUTHORIZATION_SPECIFICATION;
    ERRCODE_INVALID_PASSWORD;
    ERRCODE_DEPENDENT_PRIVILEGE_DESCRIPTORS_STILL_EXIST;
    ERRCODE_DEPENDENT_OBJECTS_STILL_EXIST;
    ERRCODE_INVALID_TRANSACTION_TERMINATION;
    ERRCODE_SQL_ROUTINE_EXCEPTION;
    ERRCODE_S_R_E_FUNCTION_EXECUTED_NO_RETURN_STATEMENT;
    ERRCODE_S_R_E_MODIFYING_SQL_DATA_NOT_PERMITTED;
    ERRCODE_S_R_E_PROHIBITED_SQL_STATEMENT_ATTEMPTED;
    ERRCODE_S_R_E_READING_SQL_DATA_NOT_PERMITTED;
    ERRCODE_INVALID_CURSOR_NAME;
    ERRCODE_EXTERNAL_ROUTINE_EXCEPTION;
    ERRCODE_E_R_E_CONTAINING_SQL_NOT_PERMITTED;
    ERRCODE_E_R_E_MODIFYING_SQL_DATA_NOT_PERMITTED;
    ERRCODE_E_R_E_PROHIBITED_SQL_STATEMENT_ATTEMPTED;
    ERRCODE_E_R_E_READING_SQL_DATA_NOT_PERMITTED;
    ERRCODE_EXTERNAL_ROUTINE_INVOCATION_EXCEPTION;
    ERRCODE_E_R_I_E_INVALID_SQLSTATE_RETURNED;
    ERRCODE_E_R_I_E_NULL_VALUE_NOT_ALLOWED;
    ERRCODE_E_R_I_E_TRIGGER_PROTOCOL_VIOLATED;
    ERRCODE_E_R_I_E_SRF_PROTOCOL_VIOLATED;
    ERRCODE_E_R_I_E_EVENT_TRIGGER_PROTOCOL_VIOLATED;
    ERRCODE_SAVEPOINT_EXCEPTION;
    ERRCODE_S_E_INVALID_SPECIFICATION;
    ERRCODE_INVALID_CATALOG_NAME;
    ERRCODE_INVALID_SCHEMA_NAME;
    ERRCODE_TRANSACTION_ROLLBACK;
    ERRCODE_T_R_INTEGRITY_CONSTRAINT_VIOLATION;
    ERRCODE_T_R_SERIALIZATION_FAILURE;
    ERRCODE_T_R_STATEMENT_COMPLETION_UNKNOWN;
    ERRCODE_T_R_DEADLOCK_DETECTED;
    ERRCODE_SYNTAX_ERROR_OR_ACCESS_RULE_VIOLATION;
    ERRCODE_SYNTAX_ERROR;
    ERRCODE_INSUFFICIENT_PRIVILEGE;
    ERRCODE_CANNOT_COERCE;
    ERRCODE_GROUPING_ERROR;
    ERRCODE_WINDOWING_ERROR;
    ERRCODE_INVALID_RECURSION;
    ERRCODE_INVALID_FOREIGN_KEY;
    ERRCODE_INVALID_NAME;
    ERRCODE_NAME_TOO_LONG;
    ERRCODE_RESERVED_NAME;
    ERRCODE_DATATYPE_MISMATCH;
    ERRCODE_INDETERMINATE_DATATYPE;
    ERRCODE_COLLATION_MISMATCH;
    ERRCODE_INDETERMINATE_COLLATION;
    ERRCODE_WRONG_OBJECT_TYPE;
    ERRCODE_GENERATED_ALWAYS;
    ERRCODE_UNDEFINED_COLUMN;
    ERRCODE_UNDEFINED_CURSOR;
    ERRCODE_UNDEFINED_DATABASE;
    ERRCODE_UNDEFINED_FUNCTION;
    ERRCODE_UNDEFINED_PSTATEMENT;
    ERRCODE_UNDEFINED_SCHEMA;
    ERRCODE_UNDEFINED_TABLE;
    ERRCODE_UNDEFINED_PARAMETER;
    ERRCODE_UNDEFINED_OBJECT;
    ERRCODE_DUPLICATE_COLUMN;
    ERRCODE_DUPLICATE_CURSOR;
    ERRCODE_DUPLICATE_DATABASE;
    ERRCODE_DUPLICATE_FUNCTION;
    ERRCODE_DUPLICATE_PSTATEMENT;
    ERRCODE_DUPLICATE_SCHEMA;
    ERRCODE_DUPLICATE_TABLE;
    ERRCODE_DUPLICATE_ALIAS;
    ERRCODE_DUPLICATE_OBJECT;
    ERRCODE_AMBIGUOUS_COLUMN;
    ERRCODE_AMBIGUOUS_FUNCTION;
    ERRCODE_AMBIGUOUS_PARAMETER;
    ERRCODE_AMBIGUOUS_ALIAS;
    ERRCODE_INVALID_COLUMN_REFERENCE;
    ERRCODE_INVALID_COLUMN_DEFINITION;
    ERRCODE_INVALID_CURSOR_DEFINITION;
    ERRCODE_INVALID_DATABASE_DEFINITION;
    ERRCODE_INVALID_FUNCTION_DEFINITION;
    ERRCODE_INVALID_PSTATEMENT_DEFINITION;
    ERRCODE_INVALID_SCHEMA_DEFINITION;
    ERRCODE_INVALID_TABLE_DEFINITION;
    ERRCODE_INVALID_OBJECT_DEFINITION;
    ERRCODE_WITH_CHECK_OPTION_VIOLATION;
    ERRCODE_INSUFFICIENT_RESOURCES;
    ERRCODE_DISK_FULL;
    ERRCODE_OUT_OF_MEMORY;
    ERRCODE_TOO_MANY_CONNECTIONS;
    ERRCODE_CONFIGURATION_LIMIT_EXCEEDED;
    ERRCODE_PROGRAM_LIMIT_EXCEEDED;
    ERRCODE_STATEMENT_TOO_COMPLEX;
    ERRCODE_TOO_MANY_COLUMNS;
    ERRCODE_TOO_MANY_ARGUMENTS;
    ERRCODE_OBJECT_NOT_IN_PREREQUISITE_STATE;
    ERRCODE_OBJECT_IN_USE;
    ERRCODE_CANT_CHANGE_RUNTIME_PARAM;
    ERRCODE_LOCK_NOT_AVAILABLE;
    ERRCODE_UNSAFE_NEW_ENUM_VALUE_USAGE;
    ERRCODE_OPERATOR_INTERVENTION;
    ERRCODE_QUERY_CANCELED;
    ERRCODE_ADMIN_SHUTDOWN;
    ERRCODE_CRASH_SHUTDOWN;
    ERRCODE_CANNOT_CONNECT_NOW;
    ERRCODE_DATABASE_DROPPED;
    ERRCODE_SYSTEM_ERROR;
    ERRCODE_IO_ERROR;
    ERRCODE_UNDEFINED_FILE;
    ERRCODE_DUPLICATE_FILE;
    ERRCODE_SNAPSHOT_TOO_OLD;
    ERRCODE_CONFIG_FILE_ERROR;
    ERRCODE_LOCK_FILE_EXISTS;
    ERRCODE_FDW_ERROR;
    ERRCODE_FDW_COLUMN_NAME_NOT_FOUND;
    ERRCODE_FDW_DYNAMIC_PARAMETER_VALUE_NEEDED;
    ERRCODE_FDW_FUNCTION_SEQUENCE_ERROR;
    ERRCODE_FDW_INCONSISTENT_DESCRIPTOR_INFORMATION;
    ERRCODE_FDW_INVALID_ATTRIBUTE_VALUE;
    ERRCODE_FDW_INVALID_COLUMN_NAME;
    ERRCODE_FDW_INVALID_COLUMN_NUMBER;
    ERRCODE_FDW_INVALID_DATA_TYPE;
    ERRCODE_FDW_INVALID_DATA_TYPE_DESCRIPTORS;
    ERRCODE_FDW_INVALID_DESCRIPTOR_FIELD_IDENTIFIER;
    ERRCODE_FDW_INVALID_HANDLE;
    ERRCODE_FDW_INVALID_OPTION_INDEX;
    ERRCODE_FDW_INVALID_OPTION_NAME;
    ERRCODE_FDW_INVALID_STRING_LENGTH_OR_BUFFER_LENGTH;
    ERRCODE_FDW_INVALID_STRING_FORMAT;
    ERRCODE_FDW_INVALID_USE_OF_NULL_POINTER;
    ERRCODE_FDW_TOO_MANY_HANDLES;
    ERRCODE_FDW_OUT_OF_MEMORY;
    ERRCODE_FDW_NO_SCHEMAS;
    ERRCODE_FDW_OPTION_NAME_NOT_FOUND;
    ERRCODE_FDW_REPLY_HANDLE;
    ERRCODE_FDW_SCHEMA_NOT_FOUND;
    ERRCODE_FDW_TABLE_NOT_FOUND;
    ERRCODE_FDW_UNABLE_TO_CREATE_EXECUTION;
    ERRCODE_FDW_UNABLE_TO_CREATE_REPLY;
    ERRCODE_FDW_UNABLE_TO_ESTABLISH_CONNECTION;
    ERRCODE_PLPGSQL_ERROR;
    ERRCODE_RAISE_EXCEPTION;
    ERRCODE_NO_DATA_FOUND;
    ERRCODE_TOO_MANY_ROWS;
    ERRCODE_ASSERT_FAILURE;
    ERRCODE_INTERNAL_ERROR;
    ERRCODE_DATA_CORRUPTED;
    ERRCODE_INDEX_CORRUPTED ].

Definition ErrorCode_val (code : ErrorCode) : Z :=
  match code with
  | ERRCODE_SUCCESSFUL_COMPLETION => 0
  | ERRCODE_WARNING => 1
  | ERRCODE_WARNING_DYNAMIC_RESULT_SETS_RETURNED => 2
  | ERRCODE_WARNING_IMPLICIT_ZERO_BIT_PADDING => 3
  | ERRCODE_WARNING_NULL_VALUE_ELIMINATED_IN_SET_FUNCTION => 4
  | ERRCODE_WARNING_PRIVILEGE_NOT_GRANTED => 5
  | ERRCODE_WARNING_PRIVILEGE_NOT_REVOKED => 6
  | ERRCODE_WARNING_STRING_DATA_RIGHT_TRUNCATION => 7
  | ERRCODE_WARNING_DEPRECATED_FEATURE => 8
  | ERRCODE_NO_DATA => 9
  | ERRCODE_NO_ADDITIONAL_DYNAMIC_RESULT_SETS_RETURNED => 10
  | ERRCODE_SQL_STATEMENT_NOT_YET_COMPLETE => 11
  | ERRCODE_CONNECTION_EXCEPTION => 12
  | ERRCODE_CONNECTION_DOES_NOT_EXIST => 13
  | ERRCODE_CONNECTION_FAILURE => 14
  | ERRCODE_SQLCLIENT_UNABLE_TO_ESTABLISH_SQLCONNECTION => 15
  | ERRCODE_SQLSERVER_REJECTED_ESTABLISHMENT_OF_SQLCONNECTION => 16
  | ERRCODE_TRANSACTION_RESOLUTION_UNKNOWN => 17
  | ERRCODE_PROTOCOL_VIOLATION => 18
  | ERRCODE_TRIGGERED_ACTION_EXCEPTION => 19
  | ERRCODE_FEATURE_NOT_SUPPORTED => 20
  | ERRCODE_INVALID_TRANSACTION_INITIATION => 21
  | ERRCODE_LOCATOR_EXCEPTION => 22
  | ERRCODE_L_E_INVALID_SPECIFICATION => 23
  | ERRCODE_INVALID_GRANTOR => 24
  | ERRCODE_INVALID_GRANT_OPERATION => 25
  | ERRCODE_INVALID_ROLE_SPECIFICATION => 26
  | ERRCODE_DIAGNOSTICS_EXCEPTION => 27
  | ERRCODE_STACKED_DIAGNOSTICS_ACCESSED_WITHOUT_ACTIVE_HANDLER => 28
  | ERRCODE_CASE_NOT_FOUND => 29
  | ERRCODE_CARDINALITY_VIOLATION => 30
  | ERRCODE_DATA_EXCEPTION => 31
  | ERRCODE_ARRAY_ELEMENT_ERROR => 32
  | ERRCODE_ARRAY_SUBSCRIPT_ERROR => 33
  | ERRCODE_CHARACTER_NOT_IN_REPERTOIRE => 34
  | ERRCODE_DATETIME_FIELD_OVERFLOW => 35
  | ERRCODE_DATETIME_VALUE_OUT_OF_RANGE => 36
  | ERRCODE_DIVISION_BY_ZERO => 37
  | ERRCODE_ERROR_IN_ASSIGNMENT => 38
  | ERRCODE_ESCAPE_CHARACTER_CONFLICT => 39
  | ERRCODE_INDICATOR_OVERFLOW => 40
  | ERRCODE_INTERVAL_FIELD_OVERFLOW => 41
  | ERRCODE_INVALID_ARGUMENT_FOR_LOG => 42
  | ERRCODE_INVALID_ARGUMENT_FOR_NTILE => 43
  | ERRCODE_INVALID_ARGUMENT_FOR_NTH_VALUE => 44
  | ERRCODE_INVALID_ARGUMENT_FOR_POWER_FUNCTION => 45
  | ERRCODE_INVALID_ARGUMENT_FOR_WIDTH_BUCKET_FUNCTION => 46
  | ERRCODE_INVALID_CHARACTER_VALUE_FOR_CAST => 47
  | ERRCODE_INVALID_DATETIME_FORMAT => 48
  | ERRCODE_INVALID_ESCAPE_CHARACTER => 49
  | ERRCODE_INVALID_ESCAPE_OCTET => 50
  | ERRCODE_INVALID_ESCAPE_SEQUENCE => 51
  | ERRCODE_NONSTANDARD_USE_OF_ESCAPE_CHARACTER => 52
  | ERRCODE_INVALID_INDICATOR_PARAMETER_VALUE => 53
  | ERRCODE_INVALID_PARAMETER_VALUE => 54
  | ERRCODE_INVALID_PRECEDING_OR_FOLLOWING_SIZE => 55
  | ERRCODE_INVALID_REGULAR_EXPRESSION => 56
  | ERRCODE_INVALID_ROW_COUNT_IN_LIMIT_CLAUSE => 57
  | ERRCODE_INVALID_ROW_COUNT_IN_RESULT_OFFSET_CLAUSE => 58
  | ERRCODE_INVALID_TABLESAMPLE_ARGUMENT => 59
  | ERRCODE_INVALID_TABLESAMPLE_REPEAT => 60
  | ERRCODE_INVALID_TIME_ZONE_DISPLACEMENT_VALUE => 61
  | ERRCODE_INVALID_USE_OF_ESCAPE_CHARACTER => 62
  | ERRCODE_MOST_SPECIFIC_TYPE_MISMATCH => 63
  | ERRCODE_NULL_VALUE_NOT_ALLOWED => 64
  | ERRCODE_NULL_VALUE_NO_INDICATOR_PARAMETER => 65
  | ERRCODE_NUMERIC_VALUE_OUT_OF_RANGE => 66
  | ERRCODE_SEQUENCE_GENERATOR_LIMIT_EXCEEDED => 67
  | ERRCODE_STRING_DATA_LENGTH_MISMATCH => 68
  | ERRCODE_STRING_DATA_RIGHT_TRUNCATION => 69
  | ERRCODE_SUBSTRING_ERROR => 70
  | ERRCODE_TRIM_ERROR => 71
  | ERRCODE_UNTERMINATED_C_STRING => 72
  | ERRCODE_ZERO_LENGTH_CHARACTER_STRING => 73
  | ERRCODE_FLOATING_POINT_EXCEPTION => 74
  | ERRCODE_INVALID_TEXT_REPRESENTATION => 75
  | ERRCODE_INVALID_BINARY_REPRESENTATION => 76
  | ERRCODE_BAD_COPY_FILE_FORMAT => 77
  | ERRCODE_UNTRANSLATABLE_CHARACTER => 78
  | ERRCODE_NOT_AN_XML_DOCUMENT => 79
  | ERRCODE_INVALID_XML_DOCUMENT => 80
  | ERRCODE_INVALID_XML_CONTENT => 81
  | ERRCODE_INVALID_XML_COMMENT => 82
  | ERRCODE_INVALID_XML_PROCESSING_INSTRUCTION => 83
  | ERRCODE_DUPLICATE_JSON_OBJECT_KEY_VALUE => 84
  | ERRCODE_INVALID_ARGUMENT_FOR_SQL_JSON_DATETIME_FUNCTION => 85
  | ERRCODE_INVALID_JSON_TEXT => 86
  | ERRCODE_INVALID_SQL_JSON_SUBSCRIPT => 87
  | ERRCODE_MORE_THAN_ONE_SQL_JSON_ITEM => 88
  | ERRCODE_NO_SQL_JSON_ITEM => 89
  | ERRCODE_NON_NUMERIC_SQL_JSON_ITEM => 90
  | ERRCODE_NON_UNIQUE_KEYS_IN_A_JSON_OBJECT => 91
  | ERRCODE_SINGLETON_SQL_JSON_ITEM_REQUIRED => 92
  | ERRCODE_SQL_JSON_ARRAY_NOT_FOUND => 93
  | ERRCODE_SQL_JSON_MEMBER_NOT_FOUND => 94
  | ERRCODE_SQL_JSON_NUMBER_NOT_FOUND => 95
  | ERRCODE_SQL_JSON_OBJECT_NOT_FOUND => 96
  | ERRCODE_TOO_MANY_JSON_ARRAY_ELEMENTS => 97
  | ERRCODE_TOO_MANY_JSON_OBJECT_MEMBERS => 98
  | ERRCODE_SQL_JSON_SCALAR_REQUIRED => 99
  | ERRCODE_INTEGRITY_CONSTRAINT_VIOLATION => 100
  | ERRCODE_RESTRICT_VIOLATION => 101
  | ERRCODE_NOT_NULL_VIOLATION => 102
  | ERRCODE_FOREIGN_KEY_VIOLATION => 103
  | ERRCODE_UNIQUE_VIOLATION => 104
  | ERRCODE_CHECK_VIOLATION => 105
  | ERRCODE_EXCLUSION_VIOLATION => 106
  | ERRCODE_INVALID_CURSOR_STATE => 107
  | ERRCODE_INVALID_TRANSACTION_STATE => 108
  | ERRCODE_ACTIVE_SQL_TRANSACTION => 109
  | ERRCODE_BRANCH_TRANSACTION_ALREADY_ACTIVE => 110
  | ERRCODE_HELD_CURSOR_REQUIRES_SAME_ISOLATION_LEVEL => 111
  | ERRCODE_INAPPROPRIATE_ACCESS_MODE_FOR_BRANCH_TRANSACTION => 112
  | ERRCODE_INAPPROPRIATE_ISOLATION_LEVEL_FOR_BRANCH_TRANSACTION => 113
  | ERRCODE_NO_ACTIVE_SQL_TRANSACTION_FOR_BRANCH_TRANSACTION => 114
  | ERRCODE_READ_ONLY_SQL_TRANSACTION => 115
  | ERRCODE_SCHEMA_AND_DATA_STATEMENT_MIXING_NOT_SUPPORTED => 116
  | ERRCODE_NO_ACTIVE_SQL_TRANSACTION => 117
  | ERRCODE_IN_FAILED_SQL_TRANSACTION => 118
  | ERRCODE_IDLE_IN_TRANSACTION_SESSION_TIMEOUT => 119
  | ERRCODE_INVALID_SQL_STATEMENT_NAME => 120
  | ERRCODE_TRIGGERED_DATA_CHANGE_VIOLATION => 121
  | ERRCODE_INVALID_AUTHORIZATION_SPECIFICATION => 122
  | ERRCODE_INVALID_PASSWORD => 123
  | ERRCODE_DEPENDENT_PRIVILEGE_DESCRIPTORS_STILL_EXIST => 124
  | ERRCODE_DEPENDENT_OBJECTS_STILL_EXIST => 125
  | ERRCODE_INVALID_TRANSACTION_TERMINATION => 126
  | ERRCODE_SQL_ROUTINE_EXCEPTION => 127
  | ERRCODE_S_R_E_FUNCTION_EXECUTED_NO_RETURN_STATEMENT => 128
  | ERRCODE_S_R_E_MODIFYING_SQL_DATA_NOT_PERMITTED => 129
  | ERRCODE_S_R_E_PROHIBITED_SQL_STATEMENT_ATTEMPTED => 130
  | ERRCODE_S_R_E_READING_SQL_DATA_NOT_PERMITTED => 131
  | ERRCODE_INVALID_CURSOR_NAME => 132
  | ERRCODE_EXTERNAL_ROUTINE_EXCEPTION => 133
  | ERRCODE_E_R_E_CONTAINING_SQL_NOT_PERMITTED => 134
  | ERRCODE_E_R_E_MODIFYING_SQL_DATA_NOT_PERMITTED => 135
  | ERRCODE_E_R_E_PROHIBITED_SQL_STATEMENT_ATTEMPTED => 136
  | ERRCODE_E_R_E_READING_SQL_DATA_NOT_PERMITTED => 137
  | ERRCODE_EXTERNAL_ROUTINE_INVOCATION_EXCEPTION => 138
  | ERRCODE_E_R_I_E_INVALID_SQLSTATE_RETURNED => 139
  | ERRCODE_E_R_I_E_NULL_VALUE_NOT_ALLOWED => 140
  | ERRCODE_E_R_I_E_TRIGGER_PROTOCOL_VIOLATED => 141
  | ERRCODE_E_R_I_E_SRF_PROTOCOL_VIOLATED => 142
  | ERRCODE_E_R_I_E_EVENT_TRIGGER_PROTOCOL_VIOLATED => 143
  | ERRCODE_SAVEPOINT_EXCEPTION => 144
  | ERRCODE_S_E_INVALID_SPECIFICATION => 145
  | ERRCODE_INVALID_CATALOG_NAME => 146
  | ERRCODE_INVALID_SCHEMA_NAME => 147
  | ERRCODE_TRANSACTION_ROLLBACK => 148
  | ERRCODE_T_R_INTEGRITY_CONSTRAINT_VIOLATION => 149
  | ERRCODE_T_R_SERIALIZATION_FAILURE => 150
  | ERRCODE_T_R_STATEMENT_COMPLETION_UNKNOWN => 151
  | ERRCODE_T_R_DEADLOCK_DETECTED => 152
  | ERRCODE_SYNTAX_ERROR_OR_ACCESS_RULE_VIOLATION => 153
  | ERRCODE_SYNTAX_ERROR => 154
  | ERRCODE_INSUFFICIENT_PRIVILEGE => 155
  | ERRCODE_CANNOT_COERCE => 156
  | ERRCODE_GROUPING_ERROR => 157
  | ERRCODE_WINDOWING_ERROR => 158
  | ERRCODE_INVALID_RECURSION => 159
  | ERRCODE_INVALID_FOREIGN_KEY => 160
  | ERRCODE_INVALID_NAME => 161
  | ERRCODE_NAME_TOO_LONG => 162
  | ERRCODE_RESERVED_NAME => 163
  | ERRCODE_DATATYPE_MISMATCH => 164
  | ERRCODE_INDETERMINATE_DATATYPE => 165
  | ERRCODE_COLLATION_MISMATCH => 166
  | ERRCODE_INDETERMINATE_COLLATION => 167
  | ERRCODE_WRONG_OBJECT_TYPE => 168
  | ERRCODE_GENERATED_ALWAYS => 169
  | ERRCODE_UNDEFINED_COLUMN => 170
  | ERRCODE_UNDEFINED_CURSOR => 171
  | ERRCODE_UNDEFINED_DATABASE => 172
  | ERRCODE_UNDEFINED_FUNCTION => 173
  | ERRCODE_UNDEFINED_PSTATEMENT => 174
  | ERRCODE_UNDEFINED_SCHEMA => 175
  | ERRCODE_UNDEFINED_TABLE => 176
  | ERRCODE_UNDEFINED_PARAMETER => 177
  | ERRCODE_UNDEFINED_OBJECT => 178
  | ERRCODE_DUPLICATE_COLUMN => 179
  | ERRCODE_DUPLICATE_CURSOR => 180
  | ERRCODE_DUPLICATE_DATABASE => 181
  | ERRCODE_DUPLICATE_FUNCTION => 182
  | ERRCODE_DUPLICATE_PSTATEMENT => 183
  | ERRCODE_DUPLICATE_SCHEMA => 184
  | ERRCODE_DUPLICATE_TABLE => 185
  | ERRCODE_DUPLICATE_ALIAS => 186
  | ERRCODE_DUPLICATE_OBJECT => 187
  | ERRCODE_AMBIGUOUS_COLUMN => 188
  | ERRCODE_AMBIGUOUS_FUNCTION => 189
  | ERRCODE_AMBIGUOUS_PARAMETER => 190
  | ERRCODE_AMBIGUOUS_ALIAS => 191
  | ERRCODE_INVALID_COLUMN_REFERENCE => 192
  | ERRCODE_INVALID_COLUMN_DEFINITION => 193
  | ERRCODE_INVALID_CURSOR_DEFINITION => 194
  | ERRCODE_INVALID_DATABASE_DEFINITION => 195
  | ERRCODE_INVALID_FUNCTION_DEFINITION => 196
  | ERRCODE_INVALID_PSTATEMENT_DEFINITION => 197
  | ERRCODE_INVALID_SCHEMA_DEFINITION => 198
  | ERRCODE_INVALID_TABLE_DEFINITION => 199
  | ERRCODE_INVALID_OBJECT_DEFINITION => 200
  | ERRCODE_WITH_CHECK_OPTION_VIOLATION => 201
  | ERRCODE_INSUFFICIENT_RESOURCES => 202
  | ERRCODE_DISK_FULL => 203
  | ERRCODE_OUT_OF_MEMORY => 204
  | ERRCODE_TOO_MANY_CONNECTIONS => 205
  | ERRCODE_CONFIGURATION_LIMIT_EXCEEDED => 206
  | ERRCODE_PROGRAM_LIMIT_EXCEEDED => 207
  | ERRCODE_STATEMENT_TOO_COMPLEX => 208
  | ERRCODE_TOO_MANY_COLUMNS => 209
  | ERRCODE_TOO_MANY_ARGUMENTS => 210
  | ERRCODE_OBJECT_NOT_IN_PREREQUISITE_STATE => 211
  | ERRCODE_OBJECT_IN_USE => 212
  | ERRCODE_CANT_CHANGE_RUNTIME_PARAM => 213
  | ERRCODE_LOCK_NOT_AVAILABLE => 214
  | ERRCODE_UNSAFE_NEW_ENUM_VALUE_USAGE => 215
  | ERRCODE_OPERATOR_INTERVENTION => 216
  | ERRCODE_QUERY_CANCELED => 217
  | ERRCODE_ADMIN_SHUTDOWN => 218
  | ERRCODE_CRASH_SHUTDOWN => 219
  | ERRCODE_CANNOT_CONNECT_NOW => 220
  | ERRCODE_DATABASE_DROPPED => 221
  | ERRCODE_SYSTEM_ERROR => 222
  | ERRCODE_IO_ERROR => 223
  | ERRCODE_UNDEFINED_FILE => 224
  | ERRCODE_DUPLICATE_FILE => 225
  | ERRCODE_SNAPSHOT_TOO_OLD => 226
  | ERRCODE_CONFIG_FILE_ERROR => 227
  | ERRCODE_LOCK_FILE_EXISTS => 228
  | ERRCODE_FDW_ERROR => 229
  | ERRCODE_FDW_COLUMN_NAME_NOT_FOUND => 230
  | ERRCODE_FDW_DYNAMIC_PARAMETER_VALUE_NEEDED => 231
  | ERRCODE_FDW_FUNCTION_SEQUENCE_ERROR => 232
  | ERRCODE_FDW_INCONSISTENT_DESCRIPTOR_INFORMATION => 233
  | ERRCODE_FDW_INVALID_ATTRIBUTE_VALUE => 234
  | ERRCODE_FDW_INVALID_COLUMN_NAME => 235
  | ERRCODE_FDW_INVALID_COLUMN_NUMBER => 236
  | ERRCODE_FDW_INVALID_DATA_TYPE => 237
  | ERRCODE_FDW_INVALID_DATA_TYPE_DESCRIPTORS => 238
  | ERRCODE_FDW_INVALID_DESCRIPTOR_FIELD_IDENTIFIER => 239
  | ERRCODE_FDW_INVALID_HANDLE => 240
  | ERRCODE_FDW_INVALID_OPTION_INDEX => 241
  | ERRCODE_FDW_INVALID_OPTION_NAME => 242
  | ERRCODE_FDW_INVALID_STRING_LENGTH_OR_BUFFER_LENGTH => 243
  | ERRCODE_FDW_INVALID_STRING_FORMAT => 244
  | ERRCODE_FDW_INVALID_USE_OF_NULL_POINTER => 245
  | ERRCODE_FDW_TOO_MANY_HANDLES => 246
  | ERRCODE_FDW_OUT_OF_MEMORY => 247
  | ERRCODE_FDW_NO_SCHEMAS => 248
  | ERRCODE_FDW_OPTION_NAME_NOT_FOUND => 249
  | ERRCODE_FDW_REPLY_HANDLE => 250
  | ERRCODE_FDW_SCHEMA_NOT_FOUND => 251
  | ERRCODE_FDW_TABLE_NOT_FOUND => 252
  | ERRCODE_FDW_UNABLE_TO_CREATE_EXECUTION => 253
  | ERRCODE_FDW_UNABLE_TO_CREATE_REPLY => 254
  | ERRCODE_FDW_UNABLE_TO_ESTABLISH_CONNECTION => 255
  | ERRCODE_PLPGSQL_ERROR => 256
  | ERRCODE_RAISE_EXCEPTION => 257
  | ERRCODE_NO_DATA_FOUND => 258
  | ERRCODE_TOO_MANY_ROWS => 259
  | ERRCODE_ASSERT_FAILURE => 260
  | ERRCODE_INTERNAL_ERROR => 261
  | ERRCODE_DATA_CORRUPTED => 262
  | ERRCODE_INDEX_CORRUPTED => 263
  end.

Lemma ErrorCode_all_lookup c : ErrorCode_all !! Z.to_nat (ErrorCode_val c) = Some c.
Proof. by destruct c. Qed.
End ErrorCode.

Module ErrorData.
Import ErrorCode.

Inductive ErrorSeverity : Set := ERROR | FATAL | PANIC | WARNING | NOTICE | DEBUG | INFO | LOG.

Definition ErrorSeverityToString (severity : ErrorSeverity) : string :=
  match severity with
  | ERROR => "ERROR"
  | FATAL => "FATAL"
  | PANIC => "PANIC"
  | WARNING => "WARNING"
  | NOTICE => "NOTICE"
  | DEBUG => "DEBUG"
  | INFO => "INFO"
  | LOG => "LOG"
  end.

Inductive ErrorField : Set :=
  | SEVERITY | SEVERITY_LOCALIZED | CODE | HUMAN_READABLE_ERROR | DETAIL | HINT | POSITION | INTERNAL_POSITION
  | INTERNAL_QUERY | WHERE | SCHEMA_NAME | TABLE_NAME | COLUMN_NAME | DATA_TYPE_NAME | CONSTRAINT_NAME | FILE | LINE
  | ROUTINE.

#[export] Instance ErrorField_eq_dec : EqDecision ErrorField.
Proof. solve_decision. Defined.

(** The characters of the fields. *)
Definition ErrorField_val (f : ErrorField) : string :=
  match f with
  | SEVERITY => "S"
  | SEVERITY_LOCALIZED => "V"
  | CODE => "C"
  | HUMAN_READABLE_ERROR => "M"
  | DETAIL => "D"
  | HINT => "H"
  | POSITION => "P"
  | INTERNAL_POSITION => "p"
  | INTERNAL_QUERY => "q"
  | WHERE => "W"
  | SCHEMA_NAME => "s"
  | TABLE_NAME => "t"
  | COLUMN_NAME => "c"
  | DATA_TYPE_NAME => "d"
  | CONSTRAINT_NAME => "n"
  | FILE => "F"
  | LINE => "L"
  | ROUTINE => "R"
  end.

Record ErrorData := mkErrorData {
  severity_ : ErrorSeverity;
  message_ : string;
  code_ : ErrorCode;
  fields_ : list (ErrorField * string)
}.

(** The constructor. *)
Definition make (severity : ErrorSeverity) (message : string) (code : ErrorCode) : ErrorData :=
  mkErrorData severity message code
    [(SEVERITY, ErrorSeverityToString severity); (SEVERITY_LOCALIZED, ErrorSeverityToString severity)].

Definition AddField (e : ErrorData) (field : ErrorField) (message : string) : outcome ErrorData :=
  _ ← DB7_ASSERT (negb (bool_decide (field = HUMAN_READABLE_ERROR))) "ErrorData already contains a required message.";
  _ ← DB7_ASSERT (negb (bool_decide (field = CODE))) "ErrorData already contains a required code.";
  Ret (mkErrorData (severity_ e) (message_ e) (code_ e) (fields_ e ++ [(field, message)])).

Definition GetSeverity (e : ErrorData) : ErrorSeverity := severity_ e.
Definition GetMessage (e : ErrorData) : string := message_ e.
Definition GetCode (e : ErrorData) : ErrorCode := code_ e.
Definition Fields (e : ErrorData) : list (ErrorField * string) := fields_ e.

(** Several fields in turn. *)
Fixpoint add_fields (e : ErrorData) (l : list (ErrorField * string)) : outcome ErrorData :=
  match l with
  | [] => Ret e
  | (f, m) :: l => e ← AddField e f m; add_fields e l
  end.
End ErrorData.

Module Exceptions.
Import ErrorCode.

Inductive ExceptionType : Set :=
  | RESERVED | NOT_IMPLEMENTED | BINDER | CATALOG | CONVERSION | MESSENGER | PILOT | NETWORK | PARSER | REPLICATION
  | SETTINGS | OPTIMIZER | SYNTAX | EXECUTION | IO | MEMORY.

#[export] Instance ExceptionType_eq_dec : EqDecision ExceptionType.
Proof. solve_decision. Defined.

Record Exception := mkException { type_ : ExceptionType; what : string; file_ : string; line_ : Z }.

Definition GetType (e : Exception) : string :=
  match type_ e with
  | NOT_IMPLEMENTED => "Not Implemented"
  | CATALOG => "Catalog"
  | PARSER => "Parser"
  | MESSENGER => "Messenger"
  | NETWORK => "Network"
  | REPLICATION => "Replication"
  | SETTINGS => "Settings"
  | BINDER => "Binder"
  | OPTIMIZER => "Optimizer"
  | EXECUTION => "Execution"
  | PILOT => "Pilot"
  | _ => "Unknown exception type"
  end.

Definition GetFile (e : Exception) : string := file_ e.
Definition GetLine (e : Exception) : Z := line_ e.

(** [operator<<]. *)
Definition print_exception (e : Exception) : string :=
  GetType e +:+ " exception:" +:+ GetFile e +:+ ":" +:+ print_int (GetLine e) +:+ ":" +:+ what e.

(** The derived classes; those with an SQL error code carry it beside. *)
Definition NotImplementedException := mkException NOT_IMPLEMENTED.
Definition CatalogException := mkException CATALOG.
Definition MessengerException := mkException MESSENGER.
Definition ReplicationException := mkException REPLICATION.
Definition NetworkProcessException := mkException NETWORK.
Definition OptimizerException := mkException OPTIMIZER.
Definition ConversionException := mkException CONVERSION.
Definition SyntaxException := mkException SYNTAX.
Definition AbortException := mkException EXECUTION.
Definition IOException := mkException IO.
Definition MemoryException := mkException MEMORY.

Record CodedException := mkCodedException { coded_base : Exception; coded_code_ : ErrorCode }.

Definition with_code (type : ExceptionType) (msg file : string) (line : Z) (code : ErrorCode) : CodedException :=
  mkCodedException (mkException type msg file line) code.
Definition ExecutionException := with_code EXECUTION.
Definition BinderException := with_code BINDER.
Definition SettingsException := with_code SETTINGS.
Definition PilotException := with_code PILOT.

Record ParserException := mkParserException { parser_base : Exception; cursorpos_ : Z }.

Definition ParserException_make (msg file : string) (line : Z) : ParserException :=
  mkParserException (mkException PARSER msg file line) 0.
Definition ParserException_at (msg file : string) (line cursorpos : Z) : ParserException :=
  mkParserException (mkException PARSER msg file line) cursorpos.
Definition GetCursorPos (e : ParserException) : Z := cursorpos_ e.
End Exceptions.

(** ** Properties *)
Import ErrorCode ErrorData Exceptions.

(** The codes that share their SQLSTATE. *)
Definition same_state : list (ErrorCode * ErrorCode) :=
  [ (ERRCODE_ARRAY_ELEMENT_ERROR, ERRCODE_ARRAY_SUBSCRIPT_ERROR);
    (ERRCODE_DATETIME_FIELD_OVERFLOW, ERRCODE_DATETIME_VALUE_OUT_OF_RANGE);
    (ERRCODE_INVALID_SQL_STATEMENT_NAME, ERRCODE_UNDEFINED_PSTATEMENT);
    (ERRCODE_INVALID_CURSOR_NAME, ERRCODE_UNDEFINED_CURSOR);
    (ERRCODE_INVALID_CATALOG_NAME, ERRCODE_UNDEFINED_DATABASE);
    (ERRCODE_INVALID_SCHEMA_NAME, ERRCODE_UNDEFINED_SCHEMA) ].

(** No other code in the list has the SQLSTATE of the first one. *)
Fixpoint distinct_states (codes : list ErrorCode) : list (ErrorCode * ErrorCode) :=
  match codes with
  | [] => []
  | c :: codes => map (pair c) (List.filter (λ d, String.eqb (ErrorCodeToString c) (ErrorCodeToString d)) codes) ++ distinct_states codes
  end.

(** The SQLSTATEs name the codes, up to the six pairs of aliases; each has five
    characters. *)
Theorem error_codes_distinct :
  distinct_states ErrorCode_all = same_state ∧ (∀ c, c ∈ ErrorCode_all) ∧ ∀ c, String.length (ErrorCodeToString c) = 5%nat.
Proof.
  split; [by vm_compute|]. split; [|by intros []]. intros c. apply (list_elem_of_lookup_2 _ _ _ (ErrorCode_all_lookup c)).
Qed.

(** The fields that every error data has of its own. *)
Definition required_field (fm : ErrorField * string) : Prop := fm.1 = HUMAN_READABLE_ERROR ∨ fm.1 = CODE.

(** The fields of error data: the two severities, then those added in order;
    a message or a code is refused. *)
Theorem error_fields_correct e l :
  (Forall (λ fm, ¬ required_field fm) l → add_fields e l = Ret (mkErrorData (severity_ e) (message_ e) (code_ e) (fields_ e ++ l))) ∧
  (Exists required_field l → ∃ msg, add_fields e l = AssertFail msg).
Proof.
  split.
  - intros HF. revert e. induction HF as [|[f m] l Hf _ IH]; intros e; cbn [add_fields]; [rewrite app_nil_r; by destruct e|].
    unfold AddField. rewrite !bool_decide_eq_false_2 by (intros ->; apply Hf; unfold required_field; cbn; tauto).
    cbn [negb DB7_ASSERT]. rewrite !bind_Ret, IH. cbn. by rewrite <- app_assoc.
  - intros HE. revert e. induction HE as [[f m] l [Hf|Hf]|[f m] l _ IH]; intros e; cbn [add_fields].
    + cbn in Hf. subst f. by eexists.
    + cbn in Hf. subst f. by eexists.
    + unfold AddField. destruct (decide (f = HUMAN_READABLE_ERROR)) as [->|H1]; [by eexists|].
      destruct (decide (f = CODE)) as [->|H2]; [by eexists|].
      rewrite !bool_decide_eq_false_2 by done. cbn [negb DB7_ASSERT]. rewrite !bind_Ret. apply IH.
Qed.

(** [GetType] has no name for five of the types. *)
Theorem exception_names e :
  GetType e = "Unknown exception type" ↔ type_ e ∈ [RESERVED; CONVERSION; SYNTAX; IO; MEMORY].
Proof.
  destruct e as [[] ? ? ?]; (split; [intros H; try discriminate H|intros H]); cbn in *;
    try (by apply (bool_decide_unpack _); vm_compute); try done; by apply (bool_decide_pack _) in H; vm_compute in H.
Qed.
